(* ===== verification/_CoqProject ===== *)
-Q . S2P
Prelude.v
Bytes.v
BitVector.v
Window.v
Rdb.v
Rdbx.v
KeyLimit.v
LinkedQueue.v
Hl.v
CApi.v
Binding.v
BindingEvents.v
BindingProps.v
BindingConc.v
Addr.v
ConstTime.v
Crc32.v
Base64.v
Stdio.v
Ice.v
IceProps.v
IceSdp.v
IceRoundtrip.v
Words.v
MerkleDamgard.v
Sha256.v
Sha1.v
Md5.v
Md5Props.v
Picohash.v
PicohashProps.v
Stun.v
StunWrite.v
StunWriteProps.v
StunEncode.v
StunRead.v
StunSafe.v
StunRoundtrip.v
StunMessages.v
StunIntegrity.v
Hashes.v
StunProps.v
Tcp.v
TcpProps.v
Turn.v
TurnOrder.v
TurnTable.v
TurnSteps.v
TurnProps.v
Agent.v
AgentTimers.v
AgentSafe.v
AgentOps.v
AgentBook.v
AgentProps.v
SrtpSha1.v
SrtpAuth.v
AesSpec.v
Aes.v
AesRounds.v
AesInverse.v
AesKeys.v
SrtpCipher.v
AesIcm.v
SrtpHeader.v
SrtpSession.v
SrtpParts.v
SrtpProtect.v
SrtpRtcp.v
SrtpPolicy.v
SrtpKeys.v
SrtpManage.v
SrtpSteps.v
SrtpKdfProps.v
SrtpProps.v
SrtpRtcpProps.v
SrtpCreateProps.v
SrtpSessionProps.v
SrtpExample.v
