(* ===== verification/Prelude.v ===== *)
(** * hxDatachannel: verification library

    hxDatachannel binds libdatachannel (WebRTC data channels) to the HashLink virtual machine.
    The repository holds the binding, [src/cpp/src/datachannel.c], and the C and C++ code it is
    built from under [src/cpp/libdatachannel].  This library models the C code that decides
    what a program gets from it: the binding itself; of libjuice the ICE descriptions and
    candidates, STUN, TURN and ICE-TCP data paths with the hash functions below them; of libsrtp
    the whole protection of RTP and RTCP, from the policies and key derivation down to AES and
    SHA-1.

    ** How the parts interact

    HashLink code calls the primitives of the binding ([Binding]), which call the C interface of
    libdatachannel ([CApi], [libdatachannel/src/capi.cpp]) through integer identifiers.
    libdatachannel calls back on its own threads; the callbacks queue events ([LinkedQueue])
    that the main thread delivers to closures in [process_events].  A connection exchanges
    descriptions ([Ice]) with its peer, checks candidate pairs with STUN messages ([StunWrite],
    [StunRead], signed with [Picohash], marked with [Crc32]), through TURN relays if need be
    ([Turn]) and over TCP framing if asked ([Tcp]).  Media packets go through SRTP sessions
    ([SrtpManage], [SrtpProtect], [SrtpRtcp]), which find the stream of a packet, estimate its
    index against a replay database ([Rdbx], [Rdb], both clients of the contract of [Window]),
    and encrypt and authenticate with objects of type classes ([CipherType], [AuthType]) that
    AES-ICM ([AesIcm], [Aes]) and HMAC-SHA1 ([SrtpAuth], [SrtpSha1]) implement.

    ** Conventions of the model

    - An integer of [w] bits is a [Z]; [u8], [u16], [u32], [u64] and [i32] are written where C
      converts.  Bytes are [Z]s in [0, 256), a buffer is the list of its bytes, a pointer into it
      an offset; [rd], [wr], [rd_bytes] and [wr_bytes] are [None] outside of the buffer.
    - [None] of a model is undefined behaviour of the C code (an access outside of an object, a
      null or dangling pointer, an indeterminate value used).  Theorems that say a function is
      safe show that the result is not [None]; errors the code reports are ordinary values.
    - Stateful code passes its state explicitly (the [world] of [Binding], the buffer and position of
      [StunWrite]) or is in the state and error monad of [SrtpSession], where [raise] leaves
      with a status.
    - Loops [for (i = a; i < b; i++)] are [for_up] (below), whose number of turns is fixed by the bounds; a loop with
      another exit has fuel that a theorem shows to be enough: the length of the list it consumes
      (STUN attributes, TURN probes, at most one per entry of the table), the
      distance bisection halves, the characters of a string.  Theorems on such loops state the
      result, so running out of fuel would contradict them.
    - The model is a little-endian 64-bit machine with the default build options of each
      library (named in the file headers).  Allocation can fail where the code checks for it.

    ** Files and what their theorems show

    Shared: [Prelude] (integers, arrays, loops, record updates), [Bytes] (memory, strings, byte
    order), [Words] (32-bit words), [Stdio] (the parts of the C library that format and scan).

    Binding.  [Hl] and [CApi] are the interfaces to the runtime and to libdatachannel, [LinkedQueue] the two
    event queues, [Binding] every primitive, finalizer and callback of [datachannel.c].
    [BindingEvents] abstracts the queue to the calls it stands for; [BindingProps] proves that
    events reach the right closures with the right values exactly once, in
    order, what of the reliability asked for a created channel has and reads back, and what happens with
    unknown connections and with events pending at finalization; [BindingConc] proves delivery for every
    interleaving of producers and the event loop.

    ICE (libjuice [ice.c], [addr.c]).  [Addr] has addresses as keys and the mapping of IPv4 into IPv6.
    [Ice] has the data and functions; [IceProps] the priorities against the tables of RFC 8445 and
    RFC 6544 and the stable sort; [IceSdp] that whatever text arrives is read into a well-formed description;
    [IceRoundtrip] that what is written is read back by the peer, that the
    descriptions an agent builds can be written, and examples of the findings.

    STUN (libjuice [stun.c], [const_time.c], [crc32.c], [base64.c], [hash.c], [hmac.c], [picohash.h]).  [Stun], [StunWrite], [StunRead] are
    the code.  [StunWriteProps] and [StunEncode]: writing refines a functional encoder.  [StunSafe]: reading
    any datagram is safe.  [StunRoundtrip], [StunMessages]: messages survive, every
    field of the message that is read being determined by the one written.  [StunIntegrity]: what is
    accepted was signed.  [StunProps] collects the properties.  [MerkleDamgard] with [Sha256], [Sha1],
    [Md5] ([Md5Props]) and [Picohash] ([PicohashProps], [Hashes]) prove the hash functions and HMAC against
    FIPS 180-4, RFC 1321 and RFC 2104; [Crc32], [Base64] and [ConstTime] against reference
    definitions.

    TURN and TCP.  [Turn] ([turn.c]) with [TurnOrder], [TurnTable], [TurnSteps],
    [TurnProps]: the map's hash table and ordered arrays stay consistent over every run of operations, channels
    and hosts are bound one to one.  [Tcp], [TcpProps] ([tcp.c]): datagrams
    are framed and recovered however the kernel splits the stream, except for a lone header byte.

    The ICE agent (libjuice [agent.c]).  [Agent] is the code as programs over a world: the state of the agent, a clock, random numbers and
    the events for the application and the network.  [AgentTimers]: time slots are found and pairs are sorted.  [AgentSafe], [AgentOps], [AgentBook]:
    the invariant of the agent and that each operation keeps it.  [AgentProps]: sessions are safe, transmissions are paced and the best pair is
    selected; an example session.

    SRTP (libsrtp).  [BitVector], [Window], [Rdb], [Rdbx], [KeyLimit]: replay windows refine
    the set of received indices, and index estimation picks the closest index.  [SrtpSha1], [SrtpAuth]:
    HMAC-SHA1.  [AesSpec] is FIPS 197; [Aes], [AesRounds], [AesInverse], [AesKeys] the table-driven code
    against it; [SrtpCipher], [AesIcm] the ciphers and counter mode as a stream cipher over any sequence of calls.  [SrtpHeader] are headers, [SrtpSession]
    the session, its store of shared objects and its monad, [SrtpParts], [SrtpProtect], [SrtpRtcp] protection and
    unprotection, [SrtpPolicy], [SrtpKeys], [SrtpManage] policies, key derivation
    and management.  [SrtpSteps], [SrtpProps], [SrtpRtcpProps]: packets go through, only genuine ones do, and
    none twice, proved against the interfaces [CipherOk] and [AuthOk], which [SrtpAuth] and [AesIcm] discharge.  [SrtpKdfProps] and [SrtpCreateProps]: a
    policy gives a stream the session keys of RFC 3711.  [SrtpSessionProps]: sessions made from the same policy at both ends of a lossy
    network deliver every packet that gets through.  [SrtpExample]: both interfaces at their implementations, and runs.

    ** Not modelled, and why

    - The system: sockets, threads, mutexes, polling, clocks, name resolution and random bytes
      ([conn.c], [conn_poll.c], [conn_mux.c], [conn_thread.c], [udp.c], [thread.h], [timestamp.c], [log.c], most of [random.c]).  They
      are parameters where modelled code uses their results.
    - Of the agent of libjuice: the requests and responses of the TURN client, gathering and the resolution of servers, the dispatch of
      datagrams.  Its server ([server.c]), which is a loop around sockets.
    - The C++ classes of libdatachannel behind the C interface, and the functions of [capi.cpp] the binding does
      not call.
    - libsrtp: self tests, debug modules, loading and replacing types at run time, and the alternative
      engines ([*_mbedtls.c], [*_ossl.c], [*_nss.c]), which call other libraries.  AEAD ciphers come only with those, so AEAD packets are modelled over the
      cipher interface but have no instance.  The theorems on packets are for one master key, without MKI, header encryption and
      Cryptex, which are modelled.
    - Third-party libraries that the sources only call: mbedtls, usrsctp, nlohmann json, plog. *)

From stdpp Require Export prelude gmap list strings.
From Stdlib Require Export ZArith Lia.

Open Scope Z_scope.

(** ** Machine integers

    An unsigned C integer of width [w] is a [Z]; [wrap w] is the conversion to
    that type.  [sint w] is the conversion to the signed type of width [w] (two's
    complement, what every compiler the project supports does). *)

Definition wrap (w x : Z) : Z := x mod 2 ^ w.
Definition sint (w x : Z) : Z := (x + 2 ^ (w - 1)) mod 2 ^ w - 2 ^ (w - 1).

Definition u8 := wrap 8.
Definition u16 := wrap 16.
Definition u32 := wrap 32.
Definition u64 := wrap 64.
Definition i32 := sint 32.

Definition in_range (w x : Z) : Prop := 0 <= x < 2 ^ w.
Definition byte (x : Z) : Prop := 0 <= x < 256.

#[export] Instance in_range_dec w x : Decision (in_range w x).
Proof. unfold in_range. apply _. Defined.
#[export] Instance byte_dec x : Decision (byte x).
Proof. unfold byte. apply _. Defined.

Create HintDb words.
Create Rewrite HintDb words.

Lemma wrap_small w x : in_range w x -> wrap w x = x.
Proof. unfold wrap, in_range. apply Z.mod_small. Qed.

Lemma wrap_range w x : 0 <= w -> in_range w (wrap w x).
Proof. intros. unfold wrap, in_range. apply Z.mod_pos_bound. lia. Qed.

Lemma u8_small x : 0 <= x < 256 -> u8 x = x.
Proof. intros. unfold u8. apply wrap_small. unfold in_range. lia. Qed.
Lemma u16_small x : 0 <= x < 65536 -> u16 x = x.
Proof. intros. unfold u16. apply wrap_small. unfold in_range. lia. Qed.
Lemma u32_small x : 0 <= x < 4294967296 -> u32 x = x.
Proof. intros. unfold u32. apply wrap_small. unfold in_range. lia. Qed.
Lemma u64_small x : 0 <= x < 18446744073709551616 -> u64 x = x.
Proof. intros. unfold u64. apply wrap_small. unfold in_range. lia. Qed.
Lemma u8_range x : 0 <= u8 x < 256.
Proof. apply (wrap_range 8). lia. Qed.
Lemma u16_range x : 0 <= u16 x < 65536.
Proof. apply (wrap_range 16). lia. Qed.
Lemma u32_range x : 0 <= u32 x < 4294967296.
Proof. apply (wrap_range 32). lia. Qed.
Lemma u64_range x : 0 <= u64 x < 18446744073709551616.
Proof. apply (wrap_range 64). lia. Qed.
Lemma i32_small x : - 2147483648 <= x < 2147483648 -> i32 x = x.
Proof. intros. unfold i32, sint. rewrite Z.mod_small by lia. lia. Qed.

#[export] Hint Rewrite u8_small u16_small u32_small u64_small i32_small using lia : words.
(** Drop the conversions that lose nothing. *)
Ltac norm_words :=
  repeat match goal with
  | |- context [u8 ?x] => rewrite (u8_small x) by lia
  | |- context [u16 ?x] => rewrite (u16_small x) by lia
  | |- context [u32 ?x] => rewrite (u32_small x) by lia
  | |- context [u64 ?x] => rewrite (u64_small x) by lia
  | |- context [i32 ?x] => rewrite (i32_small x) by lia
  end.

#[export] Hint Resolve u8_range u16_range u32_range u64_range : words.

(** Bits of words *)

Lemma testbit_out w x k : in_range w x -> w <= k -> Z.testbit x k = false.
Proof.
  intros Hx Hk. destruct (Z.eq_dec x 0) as [->|Hne]; [apply Z.testbit_0_l|].
  unfold in_range in Hx.
  destruct (Z.lt_ge_cases w 0).
  - rewrite Z.pow_neg_r in Hx by lia. lia.
  - apply Z.bits_above_log2; [lia|]. enough (Z.log2 x < w) by lia.
    apply Z.log2_lt_pow2; lia.
Qed.

Lemma in_range_bits w x :
  0 <= w -> 0 <= x -> (forall k, w <= k -> Z.testbit x k = false) -> in_range w x.
Proof.
  intros Hw Hx Hb. unfold in_range. split; [done|].
  destruct (Z.eq_dec x 0) as [->|Hne]; [lia|].
  apply Z.log2_lt_pow2; [lia|].
  destruct (Z.lt_ge_cases (Z.log2 x) w) as [|Hge]; [done|exfalso].
  specialize (Hb _ Hge). rewrite Z.bit_log2 in Hb by lia. done.
Qed.

Lemma wrap_testbit w x k :
  0 <= w -> 0 <= k -> Z.testbit (wrap w x) k = (k <? w) && Z.testbit x k.
Proof.
  intros Hw Hk. unfold wrap. destruct (Z.ltb_spec k w); simpl.
  - by apply Z.mod_pow2_bits_low.
  - by apply Z.mod_pow2_bits_high.
Qed.

Lemma in_range_lor w x y : 0 <= w -> in_range w x -> in_range w y -> in_range w (Z.lor x y).
Proof.
  intros Hw Hx Hy. pose proof Hx as [? _]; pose proof Hy as [? _].
  apply in_range_bits; [done|by apply Z.lor_nonneg|].
  intros k Hk. rewrite Z.lor_spec, (testbit_out w x k), (testbit_out w y k); done.
Qed.

Lemma in_range_lxor w x y : 0 <= w -> in_range w x -> in_range w y -> in_range w (Z.lxor x y).
Proof.
  intros Hw Hx Hy. pose proof Hx as [? _]; pose proof Hy as [? _].
  apply in_range_bits; [done|by apply Z.lxor_nonneg|].
  intros k Hk. rewrite Z.lxor_spec, (testbit_out w x k), (testbit_out w y k); done.
Qed.

Lemma in_range_shiftr w x n : 0 <= n -> in_range w x -> in_range w (Z.shiftr x n).
Proof.
  intros Hn [H1 H2]. unfold in_range. rewrite Z.shiftr_div_pow2 by done.
  assert (0 < 2 ^ n) by lia. split; [apply Z.div_pos; lia|].
  apply Z.div_lt_upper_bound; nia.
Qed.

(** A concatenation of bit fields is a sum. *)
Lemma lor_shiftl_add n hi lo :
  0 <= n -> 0 <= lo < 2 ^ n -> Z.lor (Z.shiftl hi n) lo = hi * 2 ^ n + lo.
Proof.
  intros Hn Hlo. pose proof (Z.add_lor_land (Z.shiftl hi n) lo) as H.
  assert (Z.land (Z.shiftl hi n) lo = 0) as Hl.
  { apply Z.bits_inj'. intros k Hk. rewrite Z.land_spec, Z.testbit_0_l.
    destruct (Z.lt_ge_cases k n).
    - by rewrite Z.shiftl_spec_low.
    - rewrite (testbit_out n lo k) by done. apply andb_false_r. }
  rewrite Z.shiftl_mul_pow2 in * by lia. lia.
Qed.

Lemma byte_in_range x : byte x <-> in_range 8 x.
Proof. done. Qed.

(** ** C arrays

    An array is a list; a read or write outside its bounds is undefined
    behaviour, which the models return as [None]. *)

Section arrays.
Context {A : Type}.
Implicit Types (l : list A) (i : Z).

Definition rd l i : option A := if i <? 0 then None else l !! Z.to_nat i.

Definition wr l i (v : A) : option (list A) :=
  if (0 <=? i) && (i <? Z.of_nat (length l)) then Some (<[Z.to_nat i := v]> l) else None.

Definition zlen l : Z := Z.of_nat (length l).

Lemma rd_nonneg l i : 0 <= i -> rd l i = l !! Z.to_nat i.
Proof. intros. unfold rd. destruct (Z.ltb_spec i 0); [lia|done]. Qed.

Lemma rd_Some_lt l i x : rd l i = Some x -> 0 <= i < zlen l.
Proof.
  unfold rd, zlen. destruct (Z.ltb_spec i 0); [done|]. intros ?%lookup_lt_Some. lia.
Qed.

Lemma rd_is_Some l i : 0 <= i < zlen l -> is_Some (rd l i).
Proof.
  unfold zlen. intros. rewrite rd_nonneg by lia. apply lookup_lt_is_Some. lia.
Qed.

Lemma rd_None l i : rd l i = None -> i < 0 \/ zlen l <= i.
Proof.
  unfold rd, zlen. destruct (Z.ltb_spec i 0); [lia|]. intros ?%lookup_ge_None. lia.
Qed.

Lemma wr_Some l i v : 0 <= i < zlen l -> wr l i v = Some (<[Z.to_nat i := v]> l).
Proof.
  unfold wr, zlen. intros.
  destruct (Z.leb_spec 0 i), (Z.ltb_spec i (Z.of_nat (length l))); simpl; [done|lia..].
Qed.

Lemma wr_None l i v : i < 0 \/ zlen l <= i -> wr l i v = None.
Proof.
  unfold wr, zlen. intros.
  destruct (Z.leb_spec 0 i), (Z.ltb_spec i (Z.of_nat (length l))); simpl; [lia|done..].
Qed.

Lemma wr_length l l' i v : wr l i v = Some l' -> length l' = length l.
Proof. unfold wr. case_match; [|done]. intros [= <-]. apply length_insert. Qed.

Lemma zlen_app l1 l2 : zlen (l1 ++ l2) = zlen l1 + zlen l2.
Proof. unfold zlen. rewrite length_app. lia. Qed.
Lemma zlen_cons x l : zlen (x :: l) = 1 + zlen l.
Proof. unfold zlen. simpl. lia. Qed.
Lemma zlen_nil : zlen [] = 0.
Proof. done. Qed.
Lemma zlen_nonneg l : 0 <= zlen l.
Proof. unfold zlen. lia. Qed.
End arrays.

#[export] Hint Rewrite @zlen_app @zlen_cons @zlen_nil : words.

(** ** Loops

    [for_up a b body s] is [for (i = a; i < b; i++) s = body(i, s)]. *)

Section loops.
Context {S : Type}.

Fixpoint for_up_fuel (n : nat) (i : Z) (body : Z -> S -> option S) (s : S) : option S :=
  match n with
  | O => Some s
  | Datatypes.S n' => s' ← body i s; for_up_fuel n' (i + 1) body s'
  end.

Definition for_up (a b : Z) (body : Z -> S -> option S) (s : S) : option S :=
  for_up_fuel (Z.to_nat (b - a)) a body s.

Lemma for_up_empty a b body s : b <= a -> for_up a b body s = Some s.
Proof. intros. unfold for_up. by replace (Z.to_nat (b - a)) with O by lia. Qed.

Lemma for_up_step a b body s :
  a < b -> for_up a b body s = (s' ← body a s; for_up (a + 1) b body s').
Proof.
  intros. unfold for_up.
  replace (Z.to_nat (b - a)) with (Datatypes.S (Z.to_nat (b - (a + 1)))) by lia. done.
Qed.

(** The body matters only within the bounds. *)
Lemma for_up_ext a b f g s : (forall i x, a <= i < b -> f i x = g i x) -> for_up a b f s = for_up a b g s.
Proof.
  unfold for_up. remember (Z.to_nat (b - a)) as n eqn:Hn. revert a s Hn. induction n as [|n IH]; intros a s Hn H; [done|].
  cbn [for_up_fuel]. rewrite H by lia. destruct (g a s) as [x|]; [|done]. apply IH; [lia|]. intros. apply H. lia.
Qed.

(** Loop rule: an invariant on the state before iteration [i]. *)
Lemma for_up_rule (I : Z -> S -> Prop) a b body s :
  a <= b -> I a s ->
  (forall i x, a <= i < b -> I i x -> exists x', body i x = Some x' /\ I (i + 1) x') ->
  exists s', for_up a b body s = Some s' /\ I b s'.
Proof.
  intros Hab. remember (Z.to_nat (b - a)) as n eqn:Hn.
  revert a s Hab Hn. induction n as [|n IH]; intros a s Hab Hn HI Hstep.
  - assert (a = b) as -> by lia. exists s. by rewrite for_up_empty by lia.
  - destruct (Hstep a s) as (x' & Hb & HI'); [lia|done|].
    rewrite for_up_step, Hb by lia. simpl.
    apply IH; [lia|lia|done|]. intros. apply Hstep; [lia|done].
Qed.
End loops.

(** A loop that stores [g i] at index [i], where each iteration may read the
    positions at or after [i] of the array as it was before the loop. *)
Lemma for_up_fill (g : Z -> Z) body (l : list Z) a b :
  0 <= a <= b -> b <= zlen l ->
  (forall i x, a <= i < b -> length x = length l ->
     (forall j, i <= j -> rd x j = rd l j) -> body i x = wr x i (g i)) ->
  exists l', for_up a b body l = Some l' /\ length l' = length l /\
    forall j, rd l' j = if (a <=? j) && (j <? b) then Some (g j) else rd l j.
Proof.
  intros Ha Hb Hbody.
  destruct (for_up_rule (fun i x => length x = length l /\
      forall j, rd x j = if (a <=? j) && (j <? i) then Some (g j) else rd l j) a b body l)
    as (l' & ? & ? & ?).
  - lia.
  - split; [done|]. intros j.
    destruct (Z.leb_spec a j), (Z.ltb_spec j a); simpl; try done; lia.
  - intros i x Hi [Hlen Hx].
    rewrite (Hbody i x Hi Hlen).
    2: { intros j Hj. rewrite Hx. destruct (Z.ltb_spec j i); [lia|]. by rewrite andb_false_r. }
    rewrite wr_Some by (unfold zlen in *; lia).
    eexists; split; [done|]. rewrite length_insert. split; [done|]. intros j.
    destruct (Z.eq_dec j i) as [->|Hne].
    + rewrite rd_nonneg by lia. rewrite list_lookup_insert_eq by (unfold zlen in *; lia).
      destruct (Z.leb_spec a i), (Z.ltb_spec i (i + 1)); simpl; [done|lia..].
    + transitivity (rd x j).
      { unfold rd. destruct (Z.ltb_spec j 0); [done|]. apply list_lookup_insert_ne. lia. }
      rewrite Hx.
      destruct (Z.leb_spec a j), (Z.ltb_spec j i), (Z.ltb_spec j (i + 1)); simpl; try done; lia.
  - eauto.
Qed.

(** ** Record updates

    [m <| f := v |>] is the record [m] with [v] in field [f].  A record type that uses it
    declares an instance of [RecordEta]. *)

Class RecordEta (R : Type) := record_eta : R -> R.
Class Setter {R T : Type} (p : R -> T) := setter : (T -> T) -> R -> R.

Ltac derive_setter :=
  lazymatch goal with |- @Setter ?R ?T ?p =>
    let e := eval hnf in (@record_eta R _) in
    lazymatch (eval pattern p in e) with ?f _ => exact (fun g : T -> T => f (fun r => g (p r))) end
  end.
#[export] Hint Extern 0 (Setter _) => derive_setter : typeclass_instances.

Declare Scope record_scope.
Notation "m <| p := v |>" := (@setter _ _ p _ (fun _ => v) m) (at level 1, p at level 9, left associativity) : record_scope.
Open Scope record_scope.
