(* ===== verification/Bytes.v ===== *)
(** * Bytes in memory

    Reads and writes of several bytes in a buffer (a list of bytes), C strings, and integers
    in network and in host (little-endian) byte order. *)

From Stdlib Require Ascii String.
From S2P Require Import Prelude.

(** [memcpy] out of and into a buffer at offset [pos]; [None] when it leaves the buffer. *)
Definition rd_bytes (l : list Z) (pos n : Z) : option (list Z) :=
  if (0 <=? pos) && (0 <=? n) && (pos + n <=? zlen l)
  then Some (take (Z.to_nat n) (drop (Z.to_nat pos) l)) else None.

Definition wr_bytes (l : list Z) (pos : Z) (bs : list Z) : option (list Z) :=
  if (0 <=? pos) && (pos + zlen bs <=? zlen l)
  then Some (take (Z.to_nat pos) l ++ bs ++ drop (Z.to_nat (pos + zlen bs)) l) else None.

(** [strlen]: [None] when no NUL is found in the object (reading beyond its end). *)
Fixpoint strlen (s : list Z) : option Z :=
  match s with
  | [] => None
  | c :: s' => if c =? 0 then Some 0 else n ← strlen s'; Some (1 + n)
  end.

Definition c_str (s : list Z) : list Z := s ++ [0].

(** The contents of a C string. *)
Fixpoint cstr (s : list Z) : list Z :=
  match s with [] => [] | c :: s' => if c =? 0 then [] else c :: cstr s' end.

(** The string behind a [char *]: [None] without NUL. *)
Definition string_at (s : list Z) : option (list Z) := _ ← strlen s; Some (cstr s).

(** [isspace] of [ctype.h], in the C locale. *)
Definition isspace (c : Z) : bool := (c =? 32) || ((9 <=? c) && (c <=? 13)).

(** The characters of a literal, without the NUL. *)
Definition bytes_of_string (s : string) : list Z :=
  map (fun a => Z.of_nat (Ascii.nat_of_ascii a)) (String.list_ascii_of_string s).

(** The bytes of [htons(x)], [htonl(x)] and [htonll(x)] in memory. *)
Definition be16 (x : Z) : list Z := [u8 (Z.shiftr x 8); u8 x].
Definition be32 (x : Z) : list Z := be16 (Z.shiftr x 16) ++ be16 x.
Definition be64 (x : Z) : list Z := be32 (Z.shiftr x 32) ++ be32 x.

(** The value [ntohs], [ntohl] or [ntohll] reads from such bytes. *)
Definition get_be (bs : list Z) : Z := fold_left (fun x b => Z.lor (Z.shiftl x 8) b) bs 0.

(** A 16-bit integer in the byte order of the machine. *)
Definition le16 (x : Z) : list Z := [u8 x; u8 (Z.shiftr x 8)].
Definition get_le (bs : list Z) : Z := foldr (fun b x => Z.lor (Z.shiftl x 8) b) 0 bs.

(** ** Lemmas *)

Lemma strlen_c_str s : Forall (fun c => c ≠ 0) s -> strlen (c_str s) = Some (zlen s).
Proof.
  induction 1 as [|c s Hc _ IH]; simpl; [done|].
  destruct (Z.eqb_spec c 0); [done|]. unfold c_str in IH. rewrite IH. simpl. by rewrite zlen_cons.
Qed.

Lemma strlen_bound s n : strlen s = Some n -> 0 <= n < zlen s.
Proof.
  revert n. induction s as [|c s IH]; intros n; simpl; [done|].
  rewrite zlen_cons. pose proof (zlen_nonneg s). destruct (c =? 0); [intros [= <-]; lia|].
  destruct (strlen s) as [m|]; simpl; [|done]. intros [= <-]. specialize (IH m eq_refl). lia.
Qed.

Lemma cstr_strlen s n : strlen s = Some n -> cstr s = take (Z.to_nat n) s /\ zlen (cstr s) = n.
Proof.
  revert n. induction s as [|c s IH]; intros n; simpl; [done|]. destruct (c =? 0); [by intros [= <-]|].
  destruct (strlen s) as [m|] eqn:Hm; simpl; [|done]. intros [= <-]. destruct (IH m eq_refl) as [-> Hl].
  apply strlen_bound in Hm. replace (Z.to_nat (1 + m)) with (S (Z.to_nat m)) by lia. split; [done|].
  rewrite zlen_cons. unfold zlen in *. rewrite length_take. lia.
Qed.

Lemma cstr_c_str s junk : Forall (fun c => c ≠ 0) s -> cstr (s ++ 0 :: junk) = s /\ strlen (s ++ 0 :: junk) = Some (zlen s).
Proof.
  induction 1 as [|c s Hc _ [IH1 IH2]]; simpl; [done|]. destruct (Z.eqb_spec c 0); [done|].
  rewrite IH1, IH2. simpl. by rewrite zlen_cons.
Qed.

Lemma cstr_nonzero s : Forall (fun c => c ≠ 0) (cstr s).
Proof. induction s as [|c s IH]; simpl; [done|]. destruct (Z.eqb_spec c 0); [done|]. by constructor. Qed.

Lemma rd_bytes_Some l pos n : 0 <= pos -> 0 <= n -> pos + n <= zlen l ->
  rd_bytes l pos n = Some (take (Z.to_nat n) (drop (Z.to_nat pos) l)).
Proof. intros. unfold rd_bytes. rewrite !(proj2 (Z.leb_le _ _)) by lia. done. Qed.

Lemma rd_bytes_inv l pos n bs : rd_bytes l pos n = Some bs -> 0 <= pos /\ pos + n <= zlen l /\ zlen bs = n /\
  bs = take (Z.to_nat n) (drop (Z.to_nat pos) l).
Proof.
  unfold rd_bytes, zlen. destruct (Z.leb_spec 0 pos), (Z.leb_spec 0 n), (Z.leb_spec (pos + n) (Z.of_nat (length l))); simpl; try done.
  intros [= <-]. rewrite length_take, length_drop. split_and!; (done || lia).
Qed.

Lemma rd_bytes_app a b c n : n = zlen b -> rd_bytes (a ++ b ++ c) (zlen a) n = Some b.
Proof.
  intros ->. rewrite rd_bytes_Some.
  - unfold zlen. rewrite !Nat2Z.id, drop_app_length, take_app_length. done.
  - apply zlen_nonneg.
  - apply zlen_nonneg.
  - rewrite !zlen_app. pose proof (zlen_nonneg c). lia.
Qed.

Lemma wr_bytes_Some l pos bs : 0 <= pos -> pos + zlen bs <= zlen l ->
  wr_bytes l pos bs = Some (take (Z.to_nat pos) l ++ bs ++ drop (Z.to_nat (pos + zlen bs)) l).
Proof. intros. unfold wr_bytes. rewrite !(proj2 (Z.leb_le _ _)) by lia. done. Qed.

Lemma wr_bytes_length l pos bs l' : wr_bytes l pos bs = Some l' -> zlen l' = zlen l.
Proof.
  unfold wr_bytes, zlen. destruct (Z.leb_spec 0 pos), (Z.leb_spec (pos + Z.of_nat (length bs)) (Z.of_nat (length l))); simpl; try done.
  intros [= <-]. rewrite !length_app, length_take, length_drop. lia.
Qed.

Lemma wr_bytes_app a b c b' : zlen b = zlen b' -> wr_bytes (a ++ b ++ c) (zlen a) b' = Some (a ++ b' ++ c).
Proof.
  intros Hb. rewrite wr_bytes_Some.
  - rewrite <- Hb. replace (Z.to_nat (zlen a + zlen b)) with (length (a ++ b)) by (unfold zlen; rewrite length_app; lia).
    rewrite (app_assoc a b c) at 2. rewrite drop_app_length. unfold zlen. by rewrite Nat2Z.id, take_app_length.
  - apply zlen_nonneg.
  - rewrite !zlen_app. pose proof (zlen_nonneg c). lia.
Qed.

(** Integers *)

Lemma be16_length x : zlen (be16 x) = 2. Proof. done. Qed.
Lemma be32_length x : zlen (be32 x) = 4. Proof. done. Qed.
Lemma be64_length x : zlen (be64 x) = 8. Proof. done. Qed.

Lemma be16_bytes x : Forall byte (be16 x).
Proof. repeat constructor; apply u8_range. Qed.
Lemma be32_bytes x : Forall byte (be32 x).
Proof. apply Forall_app. split; apply be16_bytes. Qed.
Lemma be64_bytes x : Forall byte (be64 x).
Proof. apply Forall_app. split; apply be32_bytes. Qed.

Lemma get_be_app_byte a b : byte b -> get_be (a ++ [b]) = get_be a * 256 + b.
Proof.
  intros Hb. unfold get_be. rewrite fold_left_app. simpl. rewrite lor_shiftl_add by (done || (unfold byte in Hb; change (2 ^ 8) with 256; lia)).
  done.
Qed.

Lemma get_be_be16 x : 0 <= x < 65536 -> get_be (be16 x) = x.
Proof.
  intros Hx. unfold be16. rewrite Z.shiftr_div_pow2 by lia.
  change [u8 (x / 2 ^ 8); u8 x] with (([] ++ [u8 (x / 2 ^ 8)]) ++ [u8 x]).
  rewrite !get_be_app_byte by apply u8_range. unfold u8, wrap. change (2 ^ 8) with 256. change (get_be []) with 0.
  Z.to_euclidean_division_equations; lia.
Qed.

Lemma get_be_app a b : Forall byte b -> get_be (a ++ b) = get_be a * 2 ^ (8 * zlen b) + get_be b.
Proof.
  intros Hb. induction b as [|c b IH] using rev_ind; [rewrite app_nil_r; change (get_be []) with 0; rewrite Z.mul_1_r; lia|].
  apply Forall_app in Hb as [Hb Hc]. apply Forall_cons in Hc as [Hc _].
  rewrite app_assoc, !get_be_app_byte, IH by done. rewrite zlen_app, zlen_cons, (zlen_nil (A := Z)).
  replace (8 * (zlen b + (1 + 0))) with (8 * zlen b + 8) by lia.
  rewrite Z.pow_add_r by (pose proof (zlen_nonneg b); lia). change (2 ^ 8) with 256. lia.
Qed.

Lemma get_be_be32 x : 0 <= x < 4294967296 -> get_be (be32 x) = x.
Proof.
  intros Hx. unfold be32. rewrite get_be_app by apply be16_bytes. change (2 ^ (8 * zlen (be16 x))) with 65536.
  assert (forall y, be16 y = be16 (y mod 65536)) as Hm.
  { intros y. unfold be16. rewrite !Z.shiftr_div_pow2 by lia. change (2 ^ 8) with 256. unfold u8, wrap. change (2 ^ 8) with 256.
    repeat apply (f_equal2 cons); try done; Z.to_euclidean_division_equations; lia. }
  rewrite Z.shiftr_div_pow2 by lia. change (2 ^ 16) with 65536. rewrite (Hm x).
  rewrite !get_be_be16 by (Z.to_euclidean_division_equations; lia). Z.to_euclidean_division_equations; lia.
Qed.

Lemma get_be_be64 x : 0 <= x < 18446744073709551616 -> get_be (be64 x) = x.
Proof.
  intros Hx. unfold be64. rewrite get_be_app by apply be32_bytes. change (2 ^ (8 * zlen (be32 x))) with 4294967296.
  assert (forall y, be32 y = be32 (y mod 4294967296)) as Hm.
  { intros y. unfold be32, be16. rewrite !Z.shiftr_div_pow2 by lia. unfold u8, wrap.
    change (2 ^ 8) with 256. change (2 ^ 16) with 65536.
    repeat apply (f_equal2 cons); try done; Z.to_euclidean_division_equations; lia. }
  rewrite Z.shiftr_div_pow2 by lia. change (2 ^ 32) with 4294967296. rewrite (Hm x).
  rewrite !get_be_be32 by (Z.to_euclidean_division_equations; lia). Z.to_euclidean_division_equations; lia.
Qed.

Lemma get_be_range bs : Forall byte bs -> 0 <= get_be bs < 2 ^ (8 * zlen bs).
Proof.
  intros Hb. induction bs as [|c b IH] using rev_ind; [done|].
  apply Forall_app in Hb as [Hb Hc]. apply Forall_cons in Hc as [Hc _].
  rewrite get_be_app_byte, zlen_app, zlen_cons, (zlen_nil (A := Z)) by done. specialize (IH Hb).
  replace (8 * (zlen b + (1 + 0))) with (8 * zlen b + 8) by lia.
  rewrite Z.pow_add_r by (pose proof (zlen_nonneg b); lia). unfold byte in Hc. change (2 ^ 8) with 256. lia.
Qed.

(** Access behind a prefix. *)

Lemma wr_bytes_at pre rest bs : zlen bs <= zlen rest ->
  wr_bytes (pre ++ rest) (zlen pre) bs = Some ((pre ++ bs) ++ drop (length bs) rest).
Proof.
  intros H. rewrite <- (take_drop (length bs) rest) at 1. rewrite wr_bytes_app; [by rewrite app_assoc|].
  unfold zlen in *. rewrite length_take. lia.
Qed.

Lemma wr_at pre rest (x : Z) : 0 < zlen rest -> wr (pre ++ rest) (zlen pre) x = Some ((pre ++ [x]) ++ drop 1 rest).
Proof.
  intros H. destruct rest as [|y rest]; [done|].
  pose proof (zlen_nonneg pre). pose proof (zlen_nonneg rest).
  rewrite wr_Some by (rewrite zlen_app, zlen_cons; lia). unfold zlen. rewrite Nat2Z.id.
  rewrite insert_app_r_alt by lia. rewrite Nat.sub_diag. simpl. by rewrite <- app_assoc.
Qed.

Lemma rd_bytes_at pre rest n : 0 <= n <= zlen rest -> rd_bytes (pre ++ rest) (zlen pre) n = Some (take (Z.to_nat n) rest).
Proof.
  intros H. rewrite rd_bytes_Some; [|apply zlen_nonneg|lia|rewrite zlen_app; lia].
  unfold zlen. by rewrite Nat2Z.id, drop_app_length.
Qed.

Lemma rd_bytes_0 l n : 0 <= n <= zlen l -> rd_bytes l 0 n = Some (take (Z.to_nat n) l).
Proof. apply (rd_bytes_at []). Qed.

Lemma rd_at pre rest (x : Z) l : rest = x :: l -> rd (pre ++ rest) (zlen pre) = Some x.
Proof.
  intros ->. rewrite rd_nonneg by apply zlen_nonneg. unfold zlen. rewrite Nat2Z.id.
  by rewrite lookup_app_r, Nat.sub_diag by done.
Qed.

Lemma zlen_take (n : Z) (l : list Z) : 0 <= n <= zlen l -> zlen (take (Z.to_nat n) l) = n.
Proof. unfold zlen. intros. rewrite length_take. lia. Qed.
Lemma zlen_drop (n : nat) (l : list Z) : zlen (drop n l) = Z.max 0 (zlen l - Z.of_nat n).
Proof. unfold zlen. rewrite length_drop. lia. Qed.
Lemma zlen_replicate n (x : Z) : zlen (replicate n x) = Z.of_nat n.
Proof. unfold zlen. by rewrite length_replicate. Qed.

Lemma land3 x : Z.land x 3 = x mod 4.
Proof. change 3 with (Z.ones 2). by rewrite Z.land_ones. Qed.

Lemma get_be_two c d : byte c -> byte d -> get_be [c; d] = c * 256 + d.
Proof.
  intros Hc Hd. change [c; d] with (([] ++ [c]) ++ [d]). rewrite !get_be_app_byte by done.
  change (get_be []) with 0. lia.
Qed.

Lemma be16_get_be c d : byte c -> byte d -> be16 (u16 (get_be [c; d])) = [c; d].
Proof.
  intros Hc Hd. rewrite get_be_two by done. unfold byte in *. norm_words.
  unfold be16. rewrite Z.shiftr_div_pow2 by lia. unfold u8, wrap. change (2 ^ 8) with 256.
  repeat apply (f_equal2 cons); try done; Z.to_euclidean_division_equations; lia.
Qed.

Lemma rd_insert {A} (l : list A) i j x : 0 <= i < zlen l -> rd (<[Z.to_nat i := x]> l) j = if decide (j = i) then Some x else rd l j.
Proof.
  intros Hi. destruct (decide (j = i)) as [->|Hne].
  - rewrite rd_nonneg by lia. apply list_lookup_insert_eq. unfold zlen in Hi. lia.
  - unfold rd. destruct (Z.ltb_spec j 0); [done|]. apply list_lookup_insert_ne. lia.
Qed.
