(* ===== verification/BitVector.v ===== *)
(** * Bit vectors (libsrtp [crypto/math/datatypes.c], [crypto/include/datatypes.h])

    The 128-bit vector [v128_t] of the SRTCP replay window and the variable-size
    [bitvector_t] of the SRTP one, as arrays of 32-bit words, with the portable
    word-by-word left shift.  The theorem of the file is that the shift moves
    every bit [k + shift] to [k] and clears the vacated ones. *)

From S2P Require Import Prelude.

Definition bits_per_word : Z := 32.
Definition bytes_per_word : Z := 4.

(** ** Bit access macros *)

(** [v128_get_bit(x, bit)]; the macro body is the one of [bitvector_get_bit]. *)
Definition v128_get_bit (x : list Z) (bit : Z) : option Z :=
  w ← rd x (Z.shiftr bit 5); Some (Z.land (Z.shiftr w (Z.land bit 31)) 1).

Definition v128_set_bit (x : list Z) (bit : Z) : option (list Z) :=
  w ← rd x (Z.shiftr bit 5);
  wr x (Z.shiftr bit 5) (Z.lor w (u32 (Z.shiftl 1 (Z.land bit 31)))).

Definition v128_set_to_zero : list Z := [0; 0; 0; 0].

Record bitvector_t := Bitvector {
  length_ : Z;                  (* uint32_t length, in bits *)
  word : option (list Z)        (* uint32_t *word, NULL when not allocated *)
}.

Definition bitvector_get_length (v : bitvector_t) : Z := length_ v.

Definition bitvector_get_bit (v : bitvector_t) (bit_index : Z) : option Z :=
  ws ← word v; v128_get_bit ws bit_index.

Definition bitvector_set_bit (v : bitvector_t) (bit_index : Z) : option bitvector_t :=
  ws ← word v; ws' ← v128_set_bit ws bit_index; Some (Bitvector (length_ v) (Some ws')).

(** ** Allocation *)

(** [memset(x->word, 0, x->length >> 3)] on an array of 32-bit words; the byte
    count is a multiple of four because [length] is a multiple of 32. *)
Definition bitvector_set_to_zero (x : bitvector_t) : option bitvector_t :=
  ws ← word x;
  ws' ← for_up 0 (Z.shiftr (length_ x) 5) (fun i w => wr w i 0) ws;
  Some (Bitvector (length_ x) (Some ws')).

(** [alloc_ok l]: whether [srtp_crypto_alloc(l)], a [calloc] of [l] bytes, returns
    zeroed memory ([true]) or NULL. *)
Definition bitvector_alloc (alloc_ok : Z -> bool) (length : Z) : option (Z * bitvector_t) :=
  let length := Z.land (u64 (length + bits_per_word - 1)) (u64 (Z.lnot (bits_per_word - 1))) in
  let l := length / bits_per_word * bytes_per_word in
  let l := Z.land (u64 (l + 15)) (u64 (Z.lnot 15)) in
  if l =? 0 then Some (-1, Bitvector 0 None)
  else if alloc_ok l then
    v ← bitvector_set_to_zero (Bitvector (u32 length) (Some (replicate (Z.to_nat (l / 4)) 0)));
    Some (0, v)
  else Some (-1, Bitvector 0 None).

Definition bitvector_dealloc (v : bitvector_t) : bitvector_t := Bitvector 0 None.

(** ** Left shift *)

(** The loops shared, word for word, by the portable [v128_left_shift]
    ([word_length = 4]) and [bitvector_left_shift]. *)
Definition shift_words (word_length shift : Z) (x : list Z) : option (list Z) :=
  let base_index := Z.shiftr shift 5 in
  let bit_index := Z.land shift 31 in
  x ← (if bit_index =? 0 then
         for_up 0 (word_length - base_index)
           (fun i x => v ← rd x (i + base_index); wr x i v) x
       else
         x ← for_up 0 (word_length - base_index - 1)
           (fun i x =>
              lo ← rd x (i + base_index);
              hi ← rd x (i + base_index + 1);
              wr x i (Z.lxor (Z.shiftr lo bit_index) (u32 (Z.shiftl hi (32 - bit_index))))) x;
         last ← rd x (word_length - 1);
         wr x (word_length - base_index - 1) (Z.shiftr last bit_index));
  (* now wrap up the final portion *)
  for_up (word_length - base_index) word_length (fun i x => wr x i 0) x.

Definition v128_left_shift (x : list Z) (shift : Z) : option (list Z) :=
  if shift >? 127 then Some v128_set_to_zero else shift_words 4 shift x.

Definition bitvector_left_shift (x : bitvector_t) (shift : Z) : option bitvector_t :=
  let word_length := Z.shiftr (length_ x) 5 in
  if shift >=? i32 (length_ x) then bitvector_set_to_zero x
  else ws ← word x; ws' ← shift_words word_length shift ws;
       Some (Bitvector (length_ x) (Some ws')).

(** ** Reference view: an array of words as a function from bit positions *)

Definition bit (ws : list Z) (k : Z) : bool :=
  match rd ws (Z.shiftr k 5) with
  | Some w => Z.testbit w (Z.land k 31)
  | None => false
  end.

Definition words (ws : list Z) : Prop := Forall (in_range 32) ws.

(** *** Splitting a bit position into word and offset *)

Lemma land31 k : Z.land k 31 = k mod 32.
Proof. change 31 with (Z.ones 5). by rewrite Z.land_ones. Qed.

Lemma shiftr5 k : Z.shiftr k 5 = k / 32.
Proof. by rewrite Z.shiftr_div_pow2. Qed.

Lemma bit_split ws i j : 0 <= j < 32 ->
  bit ws (32 * i + j) = match rd ws i with Some w => Z.testbit w j | None => false end.
Proof.
  intros Hj. unfold bit. rewrite land31, shiftr5.
  replace ((32 * i + j) / 32) with i by (Z.div_mod_to_equations; lia).
  by replace ((32 * i + j) mod 32) with j by (Z.div_mod_to_equations; lia).
Qed.

Lemma words_rd ws i w : words ws -> rd ws i = Some w -> in_range 32 w.
Proof.
  intros Hw H. unfold rd in H. case_match; [done|]. by eapply Forall_lookup_1.
Qed.

Lemma words_insert ws i w : words ws -> in_range 32 w -> words (<[i := w]> ws).
Proof. apply Forall_insert. Qed.

Lemma bit_lt ws k : bit ws k = true -> 0 <= k < 32 * zlen ws.
Proof.
  unfold bit. destruct (rd ws _) as [w|] eqn:H; [|done]. apply rd_Some_lt in H.
  rewrite shiftr5 in H. intros _. Z.div_mod_to_equations. lia.
Qed.

(** Arrays with the same words everywhere have the same bits. *)
Lemma bit_ext_rd ws k w :
  rd ws (k / 32) = Some w -> bit ws k = Z.testbit w (k mod 32).
Proof. intros H. unfold bit. by rewrite land31, shiftr5, H. Qed.

(** ** The shift, word by word *)

Definition word_at (ws : list Z) (i : Z) : Z := default 0 (rd ws i).

Lemma rd_word_at ws i : 0 <= i < zlen ws -> rd ws i = Some (word_at ws i).
Proof. intros H. unfold word_at. by destruct (rd_is_Some ws i H) as [w ->]. Qed.

Lemma words_word_at ws i : words ws -> in_range 32 (word_at ws i).
Proof.
  intros Hw. unfold word_at. destruct (rd ws i) eqn:E; simpl.
  - by eapply words_rd.
  - unfold in_range. lia.
Qed.

Lemma bit_word_at ws k : bit ws k = Z.testbit (word_at ws (k / 32)) (k mod 32).
Proof.
  unfold bit, word_at. rewrite land31, shiftr5.
  destruct (rd ws (k / 32)); simpl; [done|]. by rewrite Z.testbit_0_l.
Qed.

(** The word the shift stores at [i], for an array of [wl] words. *)
Definition shifted_word (wl shift : Z) (ws : list Z) (i : Z) : Z :=
  let base := shift / 32 in
  let off := shift mod 32 in
  if wl - base <=? i then 0
  else if off =? 0 then word_at ws (i + base)
  else if i =? wl - base - 1 then Z.shiftr (word_at ws (wl - 1)) off
  else Z.lxor (Z.shiftr (word_at ws (i + base)) off)
              (u32 (Z.shiftl (word_at ws (i + base + 1)) (32 - off))).

Ltac bool_cases :=
  repeat match goal with
  | |- context [?a <? ?b] => destruct (Z.ltb_spec a b); simpl
  | |- context [?a <=? ?b] => destruct (Z.leb_spec a b); simpl
  | |- context [?a =? ?b] => destruct (Z.eqb_spec a b); simpl
  end; try lia; try done.

Lemma shift_words_run wl shift ws :
  0 <= shift < 32 * wl -> wl <= zlen ws ->
  exists ws', shift_words wl shift ws = Some ws' /\ length ws' = length ws /\
    forall j, rd ws' j = if (0 <=? j) && (j <? wl) then Some (shifted_word wl shift ws j)
                         else rd ws j.
Proof.
  intros Hs Hwl. unfold shift_words, shifted_word. rewrite land31, shiftr5.
  assert (0 <= shift / 32 < wl) as Hb by (Z.div_mod_to_equations; lia).
  set (base := shift / 32) in *. set (off := shift mod 32).
  (* the copying part *)
  match goal with |- exists _, mbind _ ?m = _ /\ _ => set (copy := m) end.
  assert (exists x, copy = Some x /\ length x = length ws /\
    forall j, rd x j = if (0 <=? j) && (j <? wl - base)
      then Some (if off =? 0 then word_at ws (j + base)
                 else if j =? wl - base - 1 then Z.shiftr (word_at ws (wl - 1)) off
                 else Z.lxor (Z.shiftr (word_at ws (j + base)) off)
                        (u32 (Z.shiftl (word_at ws (j + base + 1)) (32 - off))))
      else rd ws j) as (x & -> & Hxl & Hx).
  { unfold copy. destruct (Z.eqb_spec off 0).
    - destruct (for_up_fill (fun i => word_at ws (i + base))
        (fun i x => v ← rd x (i + base); wr x i v) ws 0 (wl - base)) as (x & ? & ? & ?);
        [lia|lia| |eauto].
      intros i x Hi Hlen Hx. by rewrite Hx, rd_word_at by lia.
    - destruct (for_up_fill (fun i => Z.lxor (Z.shiftr (word_at ws (i + base)) off)
          (u32 (Z.shiftl (word_at ws (i + base + 1)) (32 - off))))
        (fun i x => lo ← rd x (i + base); hi ← rd x (i + base + 1);
           wr x i (Z.lxor (Z.shiftr lo off) (u32 (Z.shiftl hi (32 - off)))))
        ws 0 (wl - base - 1)) as (x & -> & Hl & Hx); [lia|lia| |].
      { intros i x Hi Hlen Hx. rewrite !Hx, !rd_word_at by lia. done. }
      simpl. rewrite Hx.
      destruct (Z.ltb_spec (wl - 1) (wl - base - 1)); [lia|]. rewrite andb_false_r.
      rewrite rd_word_at by lia. simpl.
      rewrite wr_Some by (unfold zlen in *; lia).
      eexists; split; [done|]. rewrite length_insert. split; [done|]. intros j.
      destruct (Z.eq_dec j (wl - base - 1)) as [->|Hne].
      + rewrite rd_nonneg by lia. rewrite list_lookup_insert_eq by (unfold zlen in *; lia).
        bool_cases.
      + transitivity (rd x j).
        { unfold rd. destruct (Z.ltb_spec j 0); [done|]. apply list_lookup_insert_ne. lia. }
        rewrite Hx. bool_cases. }
  simpl.
  destruct (for_up_fill (fun _ => 0) (fun i x => wr x i 0) x (wl - base) wl)
    as (ws' & -> & Hl & Hws'); [lia|unfold zlen in *; lia|done|].
  exists ws'. split; [done|]. split; [congruence|].
  intros j. rewrite Hws', Hx. bool_cases.
Qed.

(** *** ... and bit by bit *)

Lemma testbit_word_at ws i j : words ws -> 32 <= j -> Z.testbit (word_at ws i) j = false.
Proof. intros Hw Hj. eapply testbit_out; [by apply words_word_at|done]. Qed.

Lemma bit_at ws i j : 0 <= j < 32 -> bit ws (32 * i + j) = Z.testbit (word_at ws i) j.
Proof.
  intros Hj. rewrite bit_word_at.
  replace ((32 * i + j) / 32) with i by (Z.div_mod_to_equations; lia).
  by replace ((32 * i + j) mod 32) with j by (Z.div_mod_to_equations; lia).
Qed.

Lemma shifted_word_bit wl shift ws i j :
  words ws -> 0 <= shift -> 0 <= j < 32 -> i < wl ->
  Z.testbit (shifted_word wl shift ws i) j =
    if 32 * i + j + shift <? 32 * wl then bit ws (32 * i + j + shift) else false.
Proof.
  intros Hw Hs Hj Hi. unfold shifted_word.
  pose proof (Z.div_mod shift 32 ltac:(lia)) as Hsplit.
  pose proof (Z.mod_pos_bound shift 32 ltac:(lia)) as Hoff.
  set (base := shift / 32) in *. set (off := shift mod 32) in *. rewrite Hsplit.
  destruct (Z.leb_spec (wl - base) i).
  { rewrite Z.testbit_0_l. destruct (Z.ltb_spec (32 * i + j + (32 * base + off)) (32 * wl)); [lia|done]. }
  assert (forall x, Z.testbit (Z.shiftr x off) j = Z.testbit x (j + off)) as Hr
    by (intros; apply Z.shiftr_spec; lia).
  destruct (Z.lt_ge_cases (j + off) 32) as [Hlt|Hge].
  - (* the bit comes from word [i + base] *)
    destruct (Z.ltb_spec (32 * i + j + (32 * base + off)) (32 * wl)); [|lia].
    replace (32 * i + j + (32 * base + off)) with (32 * (i + base) + (j + off)) by lia.
    rewrite bit_at by lia.
    destruct (Z.eqb_spec off 0); [by replace (j + off) with j by lia|].
    destruct (Z.eqb_spec i (wl - base - 1)).
    { rewrite Hr. by replace (wl - 1) with (i + base) by lia. }
    rewrite Z.lxor_spec, Hr. unfold u32. rewrite wrap_testbit, Z.shiftl_spec_low by lia.
    by rewrite andb_false_r, xorb_false_r.
  - (* the bit comes from the next word *)
    destruct (Z.eqb_spec off 0); [lia|].
    destruct (Z.eqb_spec i (wl - base - 1)).
    { rewrite Hr, testbit_word_at by (done || lia).
      destruct (Z.ltb_spec (32 * i + j + (32 * base + off)) (32 * wl)); [lia|done]. }
    destruct (Z.ltb_spec (32 * i + j + (32 * base + off)) (32 * wl)); [|lia].
    replace (32 * i + j + (32 * base + off)) with (32 * (i + base + 1) + (j + off - 32)) by lia.
    rewrite bit_at by lia. rewrite Z.lxor_spec, Hr, testbit_word_at by (done || lia).
    unfold u32. rewrite wrap_testbit, Z.shiftl_spec by lia.
    destruct (Z.ltb_spec j 32); [|lia]. rewrite andb_true_l, xorb_false_l. f_equal; lia.
Qed.

Lemma shifted_word_range wl shift ws i : words ws -> 0 <= shift -> in_range 32 (shifted_word wl shift ws i).
Proof.
  intros Hw Hs. unfold shifted_word.
  assert (forall k, in_range 32 (word_at ws k)) by (intros; by apply words_word_at).
  assert (0 <= shift mod 32) by (apply Z.mod_pos_bound; lia).
  repeat case_match; try done; try (by apply in_range_shiftr).
  apply in_range_lxor; [lia|by apply in_range_shiftr|apply wrap_range; lia].
Qed.

Lemma words_of_rd ws : (forall i w, 0 <= i -> rd ws i = Some w -> in_range 32 w) -> words ws.
Proof.
  intros H. apply Forall_lookup. intros i w Hi. apply (H (Z.of_nat i)); [lia|].
  rewrite rd_nonneg by lia. by rewrite Nat2Z.id.
Qed.

(** The contract of the shift loops: defined, same length, and bit [k] of the
    result is bit [k + shift] of the argument. *)
Lemma shift_words_spec wl shift ws :
  words ws -> 0 <= shift < 32 * wl -> wl <= zlen ws ->
  exists ws', shift_words wl shift ws = Some ws' /\ length ws' = length ws /\ words ws' /\
    forall k, 0 <= k < 32 * wl ->
      bit ws' k = if k + shift <? 32 * wl then bit ws (k + shift) else false.
Proof.
  intros Hw Hs Hwl.
  destruct (shift_words_run wl shift ws Hs Hwl) as (ws' & Hrun & Hlen & Hrd).
  exists ws'. split; [done|]. split; [done|]. split.
  - apply words_of_rd. intros i w Hi. rewrite Hrd. case_match.
    + intros [= <-]. apply shifted_word_range; [done|lia].
    + by apply words_rd.
  - intros k Hk. rewrite bit_word_at. unfold word_at. rewrite Hrd.
    destruct (Z.leb_spec 0 (k / 32)); [|Z.div_mod_to_equations; lia].
    destruct (Z.ltb_spec (k / 32) wl); [|Z.div_mod_to_equations; lia]. simpl.
    rewrite shifted_word_bit; [|done|lia|apply Z.mod_pos_bound; lia|done].
    by rewrite <- (Z.div_mod k 32) by lia.
Qed.

(** *** Setting a bit *)

Lemma bit_mask_spec j k : 0 <= j < 32 -> 0 <= k -> Z.testbit (u32 (Z.shiftl 1 j)) k = (k =? j).
Proof.
  intros Hj Hk. unfold u32. rewrite wrap_testbit by lia.
  rewrite Z.shiftl_1_l, Z.pow2_bits_eqb by lia.
  destruct (Z.ltb_spec k 32), (Z.eqb_spec j k), (Z.eqb_spec k j); simpl; try done; lia.
Qed.

Lemma v128_get_bit_spec ws k :
  0 <= k < 32 * zlen ws -> v128_get_bit ws k = Some (Z.b2z (bit ws k)).
Proof.
  intros Hk. unfold v128_get_bit, bit.
  destruct (rd_is_Some ws (Z.shiftr k 5)) as [w ->];
    [rewrite shiftr5; Z.div_mod_to_equations; lia|]. simpl.
  f_equal. rewrite (Z.land_ones _ 1) by lia. rewrite land31.
  assert (0 <= k mod 32) by (apply Z.mod_pos_bound; lia).
  by rewrite Z.testbit_spec', Z.shiftr_div_pow2 by done.
Qed.

Lemma v128_set_bit_spec ws b :
  words ws -> 0 <= b < 32 * zlen ws ->
  exists ws', v128_set_bit ws b = Some ws' /\ length ws' = length ws /\ words ws' /\
    forall k, bit ws' k = (k =? b) || bit ws k.
Proof.
  intros Hw Hb. unfold v128_set_bit. rewrite shiftr5, land31.
  assert (0 <= b / 32 < zlen ws) as Hi by (Z.div_mod_to_equations; lia).
  assert (0 <= b mod 32 < 32) as Hj by (apply Z.mod_pos_bound; lia).
  rewrite rd_word_at by done. simpl. rewrite wr_Some by done.
  eexists; split; [done|]. rewrite length_insert. split; [done|]. split.
  { apply words_insert; [done|].
    apply in_range_lor; [lia|by apply words_word_at|apply wrap_range; lia]. }
  intros k. rewrite !bit_word_at.
  assert (0 <= k mod 32 < 32) as Hkj by (apply Z.mod_pos_bound; lia).
  destruct (Z.eq_dec (k / 32) (b / 32)) as [Hkb|Hne].
  - unfold word_at at 1. rewrite rd_nonneg by lia. rewrite Hkb.
    rewrite list_lookup_insert_eq by (unfold zlen in *; lia). simpl.
    rewrite Z.lor_spec, bit_mask_spec by lia.
    rewrite orb_comm. f_equal.
    destruct (Z.eqb_spec (k mod 32) (b mod 32)), (Z.eqb_spec k b); try done.
    + exfalso. Z.div_mod_to_equations. lia.
    + exfalso. subst. done.
  - destruct (Z.eqb_spec k b); [subst; done|]. simpl. f_equal. unfold word_at. f_equal.
    unfold rd. destruct (Z.ltb_spec (k / 32) 0); [done|].
    apply list_lookup_insert_ne. lia.
Qed.

(** ** Well-formed bit vectors *)

(** A vector as [bitvector_alloc] makes it: at least [length / 32] words, a length
    that is a multiple of 32 and fits an [int]. *)
Record bv_wf (v : bitvector_t) (ws : list Z) : Prop := {
  bv_word : word v = Some ws;
  bv_words : words ws;
  bv_len : 0 < length_ v < 2147483648;
  bv_len32 : length_ v = 32 * (length_ v / 32);
  bv_fit : length_ v / 32 <= zlen ws
}.

(** Bits below the length; the padding words of the allocation are not part of it. *)
Definition bvbit (v : bitvector_t) (k : Z) : bool :=
  match word v with Some ws => (0 <=? k) && (k <? length_ v) && bit ws k | None => false end.

Lemma bvbit_in v ws k : bv_wf v ws -> 0 <= k < length_ v -> bvbit v k = bit ws k.
Proof. intros H Hk. unfold bvbit. rewrite (bv_word _ _ H). bool_cases. Qed.

Lemma bvbit_out v k : ~ (0 <= k < length_ v) -> bvbit v k = false.
Proof. intros Hk. unfold bvbit. destruct (word v); [|done]. bool_cases. Qed.

Lemma set_to_zero_spec v ws :
  word v = Some ws -> words ws -> 0 < length_ v < 2147483648 -> length_ v = 32 * (length_ v / 32) ->
  length_ v / 32 <= zlen ws ->
  exists v', bitvector_set_to_zero v = Some v' /\ length_ v' = length_ v /\
    (exists ws', bv_wf v' ws') /\ forall k, bvbit v' k = false.
Proof.
  intros Hv Hw Hl H32 Hfit. unfold bitvector_set_to_zero. rewrite Hv, shiftr5. simpl.
  destruct (for_up_fill (fun _ => 0) (fun i w => wr w i 0) ws 0 (length_ v / 32))
    as (ws' & -> & Hlen & Hrd); [lia|done|done|].
  simpl. eexists; split; [done|]. simpl. split; [done|]. split.
  - exists ws'. split; simpl; try done.
    + apply words_of_rd. intros i w Hi. rewrite Hrd. case_match.
      * intros [= <-]. unfold in_range. lia.
      * by apply words_rd.
    + unfold zlen in *. by rewrite Hlen.
  - intros k. unfold bvbit. simpl.
    destruct (Z.leb_spec 0 k), (Z.ltb_spec k (length_ v)); simpl; try done.
    rewrite bit_word_at. unfold word_at. rewrite Hrd.
    destruct (Z.leb_spec 0 (k / 32)), (Z.ltb_spec (k / 32) (length_ v / 32)); simpl;
      try (by rewrite Z.testbit_0_l); exfalso; Z.div_mod_to_equations; lia.
Qed.

Lemma bitvector_set_to_zero_spec v ws :
  bv_wf v ws ->
  exists v', bitvector_set_to_zero v = Some v' /\ length_ v' = length_ v /\
    (exists ws', bv_wf v' ws') /\ forall k, bvbit v' k = false.
Proof. intros []. by eapply set_to_zero_spec. Qed.

Lemma bitvector_left_shift_spec v ws shift :
  bv_wf v ws -> 0 <= shift ->
  exists v', bitvector_left_shift v shift = Some v' /\ length_ v' = length_ v /\
    (exists ws', bv_wf v' ws') /\ forall k, 0 <= k -> bvbit v' k = bvbit v (k + shift).
Proof.
  intros Hwf Hs. pose proof Hwf as [Hv Hw Hl H32 Hfit].
  unfold bitvector_left_shift. norm_words.
  destruct (Z.geb_spec shift (length_ v)).
  - destruct (bitvector_set_to_zero_spec v ws Hwf) as (v' & ? & Hl' & ? & Hz).
    exists v'. split; [done|]. split; [done|]. split; [done|]. intros k Hk.
    rewrite Hz. symmetry. apply bvbit_out. lia.
  - rewrite Hv, shiftr5. simpl.
    destruct (shift_words_spec (length_ v / 32) shift ws) as (ws' & -> & Hlen & Hw' & Hbit);
      [done|lia|done|].
    simpl. eexists; split; [done|]. simpl. split; [done|].
    assert (bv_wf (Bitvector (length_ v) (Some ws')) ws') as Hwf'.
    { split; simpl; try done. unfold zlen in *. by rewrite Hlen. }
    split; [by eexists|]. intros k Hk.
    destruct (Z.lt_ge_cases k (length_ v)).
    2: { rewrite !bvbit_out; [done|lia|simpl; lia]. }
    erewrite bvbit_in by (done || simpl; lia). rewrite Hbit by lia.
    destruct (Z.ltb_spec (k + shift) (32 * (length_ v / 32))).
    + erewrite bvbit_in; [done|done|lia].
    + rewrite bvbit_out; [done|lia].
Qed.

Lemma bitvector_set_bit_spec v ws b :
  bv_wf v ws -> 0 <= b < length_ v ->
  exists v', bitvector_set_bit v b = Some v' /\ length_ v' = length_ v /\
    (exists ws', bv_wf v' ws') /\ forall k, bvbit v' k = (k =? b) || bvbit v k.
Proof.
  intros Hwf Hb. pose proof Hwf as [Hv Hw Hl H32 Hfit].
  unfold bitvector_set_bit. rewrite Hv. simpl.
  destruct (v128_set_bit_spec ws b) as (ws' & -> & Hlen & Hw' & Hbit); [done|lia|].
  simpl. eexists; split; [done|]. simpl. split; [done|].
  assert (bv_wf (Bitvector (length_ v) (Some ws')) ws') as Hwf'.
  { split; simpl; try done. unfold zlen in *. by rewrite Hlen. }
  split; [by eexists|]. intros k. unfold bvbit. simpl. rewrite Hv, Hbit. bool_cases.
Qed.

Lemma bitvector_get_bit_spec v ws b :
  bv_wf v ws -> 0 <= b < length_ v -> bitvector_get_bit v b = Some (Z.b2z (bvbit v b)).
Proof.
  intros Hwf Hb. unfold bitvector_get_bit. rewrite (bv_word _ _ Hwf). simpl.
  rewrite v128_get_bit_spec, (bvbit_in _ _ _ Hwf) by (destruct Hwf; lia). done.
Qed.

(** *** Allocation *)

Lemma land_lnot_ones x n : 0 <= n < 64 -> 0 <= x < 2 ^ 64 ->
  Z.land x (u64 (Z.lnot (Z.ones n))) = x - x mod 2 ^ n.
Proof.
  intros Hn Hx.
  assert (Z.land x (u64 (Z.lnot (Z.ones n))) = Z.ldiff x (Z.ones n)) as ->.
  { apply Z.bits_inj'. intros k Hk.
    unfold u64. rewrite Z.land_spec, wrap_testbit, Z.lnot_spec, Z.ldiff_spec by lia.
    destruct (Z.ltb_spec k 64); [done|].
    rewrite (testbit_out 64 x k) by done. by rewrite andb_false_l. }
  rewrite Z.ldiff_ones_r, Z.shiftl_mul_pow2, Z.shiftr_div_pow2 by lia.
  pose proof (Z.div_mod x (2 ^ n)). lia.
Qed.

(** The number of bits [bitvector_alloc] gives for a request of [n]. *)
Definition round32 (n : Z) : Z := (n + 31) / 32 * 32.

Lemma bitvector_alloc_spec alloc_ok n :
  0 < n <= 2147483616 -> (forall l, alloc_ok l = true) ->
  exists v ws, bitvector_alloc alloc_ok n = Some (0, v) /\ bv_wf v ws /\
    length_ v = round32 n /\ forall k, bvbit v k = false.
Proof.
  intros Hn Hok. unfold bitvector_alloc, bits_per_word, bytes_per_word.
  rewrite (u64_small (n + 32 - 1)) by lia.
  change (32 - 1) with (Z.ones 5). rewrite land_lnot_ones by lia.
  set (len := n + 32 - 1 - _).
  assert (len = round32 n) as Hlen.
  { unfold len, round32. pose proof (Z.div_mod (n + 31) 32). change (2 ^ 5) with 32.
    replace (n + 32 - 1) with (n + 31) by lia. lia. }
  rewrite Hlen. unfold round32 in *. clear Hlen len. set (m := (n + 31) / 32).
  assert (0 < m <= 67108863) as Hm by (unfold m; Z.div_mod_to_equations; lia).
  rewrite Z.div_mul by lia. rewrite (u64_small (m * 4 + 15)) by lia.
  change (u64 (Z.lnot 15)) with (u64 (Z.lnot (Z.ones 4))). rewrite land_lnot_ones by lia.
  change (2 ^ 4) with 16. set (l := m * 4 + 15 - _).
  assert (m * 4 <= l) as Hl by (unfold l; Z.div_mod_to_equations; lia).
  destruct (Z.eqb_spec l 0) as [E|_]; [lia|].
  rewrite Hok, (u32_small (m * 32)) by lia.
  destruct (set_to_zero_spec (Bitvector (m * 32) (Some (replicate (Z.to_nat (l / 4)) 0)))
      (replicate (Z.to_nat (l / 4)) 0))
    as (v & -> & Hlen & (ws & Hwf) & Hz); simpl; try done; rewrite ?Z.div_mul by lia; try lia.
  - apply Forall_replicate. unfold in_range. lia.
  - unfold zlen. rewrite length_replicate. Z.div_mod_to_equations. lia.
  - exists v, ws. done.
Qed.
