(* ===== verification/Window.v ===== *)
(** * Replay windows: the contract of a replay database

    SRTP keeps, per stream, a database of the packet indices it has accepted and
    consults it before it accepts another.  This file states what such a database
    promises, as an abstract machine on a finite set of indices, as an interface
    ([ReplayDB]) that relates a concrete database to it, and proves the security
    property against the interface: no index is accepted twice. *)

From S2P Require Import Prelude.

(** [srtp_err_status_t] ([include/srtp.h]). *)
Inductive srtp_err_status_t :=
| srtp_err_status_ok | srtp_err_status_fail | srtp_err_status_bad_param
| srtp_err_status_alloc_fail | srtp_err_status_dealloc_fail | srtp_err_status_init_fail
| srtp_err_status_terminus | srtp_err_status_auth_fail | srtp_err_status_cipher_fail
| srtp_err_status_replay_fail | srtp_err_status_replay_old | srtp_err_status_algo_fail
| srtp_err_status_no_such_op | srtp_err_status_no_ctx | srtp_err_status_cant_check
| srtp_err_status_key_expired | srtp_err_status_socket_err | srtp_err_status_signal_err
| srtp_err_status_nonce_bad | srtp_err_status_read_fail | srtp_err_status_write_fail
| srtp_err_status_parse_err | srtp_err_status_encode_err | srtp_err_status_semaphore_err
| srtp_err_status_pfkey_err | srtp_err_status_bad_mki | srtp_err_status_pkt_idx_old
| srtp_err_status_pkt_idx_adv | srtp_err_status_cryptex_err.

#[export] Instance srtp_err_status_eq_dec : EqDecision srtp_err_status_t.
Proof. solve_decision. Defined.

(** ** The abstract machine *)

(** The highest index received, [0] when there is none. *)
Definition top (S : gset Z) : Z := foldr Z.max 0 (elements S).

(** The verdict on index [i] when [S] was received and the window ends at [low]. *)
Definition spec_check (low : Z) (S : gset Z) (i : Z) : srtp_err_status_t :=
  if i <? low then srtp_err_status_replay_old
  else if decide (i ∈ S) then srtp_err_status_replay_fail
  else srtp_err_status_ok.

Definition spec_receive (low : gset Z -> Z) (S : gset Z) (i : Z) : srtp_err_status_t * gset Z :=
  let st := spec_check (low S) S i in
  (st, if decide (st = srtp_err_status_ok) then {[i]} ∪ S else S).

Fixpoint spec_run (low : gset Z -> Z) (S : gset Z) (l : list Z) : list srtp_err_status_t * gset Z :=
  match l with
  | [] => ([], S)
  | i :: l' => let '(st, S') := spec_receive low S i in
               let '(sts, S'') := spec_run low S' l' in (st :: sts, S'')
  end.

Lemma foldr_max_spec l :
  0 <= foldr Z.max 0 l /\ (foldr Z.max 0 l = 0 \/ foldr Z.max 0 l ∈ l) /\
  forall i, i ∈ l -> i <= foldr Z.max 0 l.
Proof.
  induction l as [|x l (H0 & H1 & H2)]; simpl.
  - split_and!; [lia|by left|]. intros i Hi. by apply elem_of_nil in Hi.
  - split_and!; [lia| |].
    + destruct (Z.max_spec x (foldr Z.max 0 l)) as [[_ ->]|[_ ->]]; set_solver.
    + intros i [->|Hi]%elem_of_cons; [lia|]. specialize (H2 i Hi). lia.
Qed.

Lemma top_spec S : 0 <= top S /\ (top S = 0 \/ top S ∈ S) /\ forall i, i ∈ S -> i <= top S.
Proof.
  unfold top. destruct (foldr_max_spec (elements S)) as (H0 & H1 & H2).
  split_and!; [done|set_solver|]. intros i Hi. apply H2. set_solver.
Qed.

Lemma top_unique S t :
  0 <= t -> (t = 0 \/ t ∈ S) -> (forall i, i ∈ S -> i <= t) -> top S = t.
Proof.
  intros H0 H1 H2. destruct (top_spec S) as (T0 & T1 & T2).
  destruct T1 as [T1|T1], H1 as [->|H1]; try lia.
  - specialize (T2 t H1). lia.
  - specialize (H2 _ T1). lia.
  - specialize (H2 _ T1). specialize (T2 _ H1). lia.
Qed.

Lemma top_empty : top ∅ = 0.
Proof. apply top_unique; [lia|by left|set_solver]. Qed.

Lemma top_nonneg S : 0 <= top S.
Proof. by destruct (top_spec S) as (? & _ & _). Qed.

Lemma top_max S i : i ∈ S -> i <= top S.
Proof. destruct (top_spec S) as (_ & _ & ?). auto. Qed.

Lemma top_insert S i : top ({[i]} ∪ S) = Z.max i (top S).
Proof.
  destruct (top_spec S) as (T0 & T1 & T2). apply top_unique.
  - lia.
  - destruct (Z.max_spec i (top S)) as [[_ ->]|[_ ->]]; set_solver.
  - intros j [Hj%elem_of_singleton|Hj]%elem_of_union; [lia|]. specialize (T2 j Hj). lia.
Qed.

(** Membership in an extended set, as the databases record it. *)
Lemma member_here (S : gset Z) i : bool_decide (i ∈ ({[i]} ∪ S : gset Z)) = true.
Proof. apply bool_decide_eq_true. set_solver. Qed.

Lemma member_other (S : gset Z) i j :
  j ≠ i -> bool_decide (j ∈ ({[i]} ∪ S : gset Z)) = bool_decide (j ∈ S).
Proof. intros Hne. apply bool_decide_ext. set_solver. Qed.

Lemma all_insert (P : Z -> Prop) (S : gset Z) i :
  P i -> (forall j, j ∈ S -> P j) -> forall j, j ∈ ({[i]} ∪ S : gset Z) -> P j.
Proof. intros Hi HS j [->%elem_of_singleton|?]%elem_of_union; auto. Qed.

(** ** Properties of the abstract machine *)

(** The indices a run accepts, from its statuses. *)
Fixpoint accepted (l : list Z) (sts : list srtp_err_status_t) : list Z :=
  match l, sts with
  | i :: l', st :: sts' =>
      if decide (st = srtp_err_status_ok) then i :: accepted l' sts' else accepted l' sts'
  | _, _ => []
  end.

Lemma spec_check_ok low S i :
  spec_check low S i = srtp_err_status_ok <-> low <= i /\ i ∉ S.
Proof. unfold spec_check. destruct (Z.ltb_spec i low); [|case_decide]; naive_solver lia. Qed.

Lemma spec_run_accepted low l S sts S' :
  spec_run low S l = (sts, S') ->
  NoDup (accepted l sts) /\ (forall i, i ∈ accepted l sts -> i ∉ S) /\
  (forall i, i ∈ S' <-> i ∈ S \/ i ∈ accepted l sts).
Proof.
  revert S sts S'. induction l as [|i l IH]; intros S sts S'; simpl.
  - intros [= <- <-]. split_and!; [constructor|set_solver|set_solver].
  - destruct (spec_run low _ l) as [sts1 S1] eqn:Hrun. intros [= <- <-]. simpl.
    destruct (IH _ _ _ Hrun) as (Hnd & Hnew & Hset).
    destruct (decide (spec_check (low S) S i = srtp_err_status_ok)) as [Hok|Hno].
    + apply spec_check_ok in Hok as [_ Hi]. split_and!.
      * constructor; [|done]. intros Hin. specialize (Hnew i Hin). set_solver.
      * intros j [->|Hj]%elem_of_cons; [done|]. specialize (Hnew j Hj). set_solver.
      * intros j. rewrite Hset. set_solver.
    + by split_and!.
Qed.

(** ** The interface *)

(** What a replay database promises: in a state that represents the set [S] of
    received indices, [db_check] answers exactly what the abstract machine answers
    and does not change the state, and after an accepted index [db_add] leads to a
    state that represents [S] with the index added.  [db_valid] restricts the indices the
    database may be asked about in a state. *)
Class ReplayDB (T : Type) := {
  db_low : T -> gset Z -> Z;
  db_rel : T -> gset Z -> Prop;
  db_valid : T -> Z -> Prop;
  db_check : T -> Z -> option srtp_err_status_t;
  db_add : T -> Z -> option (srtp_err_status_t * T);
  db_check_spec t S i : db_rel t S -> db_valid t i ->
    db_check t i = Some (spec_check (db_low t S) S i);
  db_add_spec t S i : db_rel t S -> db_valid t i -> db_low t S <= i ->
    exists t', db_add t i = Some (srtp_err_status_ok, t') /\ db_rel t' ({[i]} ∪ S) /\
      forall S', db_low t' S' = db_low t S'
}.

(** ** Receivers built on the interface *)

Section receiver.
Context {T : Type} `{ReplayDB T}.

(** Check, then add when the check passes: the way the library's callers use a database. *)
Definition receive (t : T) (i : Z) : option (srtp_err_status_t * T) :=
  st ← db_check t i;
  if decide (st = srtp_err_status_ok) then '(_, t') ← db_add t i; Some (st, t')
  else Some (st, t).

Fixpoint receive_all (t : T) (l : list Z) : option (list srtp_err_status_t * T) :=
  match l with
  | [] => Some ([], t)
  | i :: l' => '(st, t1) ← receive t i; '(sts, t2) ← receive_all t1 l'; Some (st :: sts, t2)
  end.

Lemma receive_refines t S i :
  db_rel t S -> db_valid t i ->
  exists t', receive t i = Some (spec_check (db_low t S) S i, t') /\
    db_rel t' (snd (spec_receive (db_low t) S i)) /\ forall S', db_low t' S' = db_low t S'.
Proof.
  intros Hrel Hval. unfold receive. rewrite (db_check_spec t S i) by done. simpl.
  destruct (decide (spec_check (db_low t S) S i = srtp_err_status_ok)) as [Hok|Hno].
  - destruct (db_add_spec t S i) as (t' & -> & Hrel' & Hlow); [done|done| |].
    { by apply spec_check_ok in Hok as [? _]. }
    exists t'. by rewrite Hok.
  - by exists t.
Qed.

(** Any run over indices that stay valid is defined and gives the statuses of
    the abstract machine. *)
Lemma receive_all_refines t S l :
  db_rel t S ->
  (forall l1 i l2 t' sts, l = l1 ++ i :: l2 -> receive_all t l1 = Some (sts, t') -> db_valid t' i) ->
  exists t', receive_all t l = Some (fst (spec_run (db_low t) S l), t') /\
    db_rel t' (snd (spec_run (db_low t) S l)).
Proof.
  revert t S. induction l as [|i l IH]; intros t S Hrel Hval; simpl.
  { by exists t. }
  assert (db_valid t i) as Hv by (by apply (Hval [] i l t [])).
  destruct (receive_refines t S i Hrel Hv) as (t1 & Hr & Hrel1 & Hlow1). rewrite Hr. simpl.
  assert (forall S l, spec_run (db_low t) S l = spec_run (db_low t1) S l) as Heq.
  { intros S' l'. revert S'. induction l' as [|j l' IHl]; intros S'; simpl; [done|].
    by rewrite Hlow1, IHl. }
  rewrite Heq. destruct (IH t1 (snd (spec_receive (db_low t) S i))) as (t2 & -> & Hrel2);
    [done| |].
  { intros l1 j l2 t' sts -> Hrun. apply (Hval (i :: l1) j l2 t' (spec_check (db_low t S) S i :: sts)); [done|].
    simpl. rewrite Hr. simpl. by rewrite Hrun. }
  unfold spec_receive in *. simpl in *.
  destruct (spec_run (db_low t1) _ l) as [sts S2]. simpl in *. by exists t2.
Qed.
End receiver.
