(* ===== verification/Rdb.v ===== *)
(** * The SRTCP replay database (libsrtp [crypto/replay/rdb.c])

    A 128-bit sliding window over 31-bit SRTCP packet indices. *)

From S2P Require Import Prelude BitVector Window.

(** [rdb_bits_in_bitmask], [8 * sizeof(v128_t)]: a [size_t]. *)
Definition rdb_bits_in_bitmask : Z := 128.

Record srtp_rdb_t := Rdb {
  window_start : Z;             (* uint32_t: index of the first packet in the window *)
  bitmask : list Z              (* v128_t *)
}.

Definition srtp_rdb_init : srtp_err_status_t * srtp_rdb_t :=
  (srtp_err_status_ok, Rdb 0 v128_set_to_zero).

Definition srtp_rdb_check (rdb : srtp_rdb_t) (p_index : Z) : option srtp_err_status_t :=
  (* if the index appears after (or at very end of) the window, its good *)
  if p_index >=? u64 (window_start rdb + rdb_bits_in_bitmask) then Some srtp_err_status_ok
  (* if the index appears before the window, its bad *)
  else if p_index <? window_start rdb then Some srtp_err_status_replay_old
  (* otherwise, the index appears within the window, so check the bitmask *)
  else
    b ← v128_get_bit (bitmask rdb) (u32 (p_index - window_start rdb));
    if b =? 1 then Some srtp_err_status_replay_fail else Some srtp_err_status_ok.

Definition srtp_rdb_add_index (rdb : srtp_rdb_t) (p_index : Z) :
    option (srtp_err_status_t * srtp_rdb_t) :=
  if p_index <? window_start rdb then Some (srtp_err_status_replay_fail, rdb)
  else
    let delta := u32 (p_index - window_start rdb) in
    if delta <? rdb_bits_in_bitmask then
      (* if the p_index is within the window, set the appropriate bit *)
      m ← v128_set_bit (bitmask rdb) delta;
      Some (srtp_err_status_ok, Rdb (window_start rdb) m)
    else
      let delta := u32 (delta - (rdb_bits_in_bitmask - 1)) in
      (* shift the window forward by delta bits *)
      m ← v128_left_shift (bitmask rdb) (i32 delta);
      m ← v128_set_bit m (rdb_bits_in_bitmask - 1);
      Some (srtp_err_status_ok, Rdb (u32 (window_start rdb + delta)) m).

Definition srtp_rdb_increment (rdb : srtp_rdb_t) : srtp_err_status_t * srtp_rdb_t :=
  if window_start rdb >=? 2147483647 then (srtp_err_status_key_expired, rdb)
  else (srtp_err_status_ok, Rdb (u32 (window_start rdb + 1)) (bitmask rdb)).

Definition srtp_rdb_get_value (rdb : srtp_rdb_t) : Z := window_start rdb.

(** ** The database represents a set of indices *)

Record rdb_rel (r : srtp_rdb_t) (S : gset Z) : Prop := {
  rdb_words : words (bitmask r);
  rdb_length : length (bitmask r) = 4%nat;
  rdb_low : window_start r = Z.max 0 (top S - 127);
  rdb_top : top S < 2147483648;
  rdb_nonneg : forall i, i ∈ S -> 0 <= i;
  rdb_bits : forall i, window_start r <= i < window_start r + 128 ->
    bit (bitmask r) (i - window_start r) = bool_decide (i ∈ S)
}.

Lemma v128_left_shift_spec m s :
  words m -> length m = 4%nat -> 0 <= s ->
  exists m', v128_left_shift m s = Some m' /\ words m' /\ length m' = 4%nat /\
    forall k, 0 <= k < 128 -> bit m' k = if k + s <? 128 then bit m (k + s) else false.
Proof.
  intros Hw Hl Hs. unfold v128_left_shift. destruct (Z.gtb_spec s 127).
  - exists v128_set_to_zero. split; [done|]. split.
    { repeat constructor; unfold in_range; lia. } split; [done|].
    intros k Hk. bool_cases.
    rewrite bit_word_at. unfold word_at, v128_set_to_zero, rd.
    destruct (Z.ltb_spec (k / 32) 0); simpl; [apply Z.testbit_0_l|].
    destruct (Z.to_nat (k / 32)) as [|[|[|[|]]]]; apply Z.testbit_0_l.
  - destruct (shift_words_spec 4 s m) as (m' & -> & Hl' & Hw' & Hb);
      [done|lia|unfold zlen; lia|].
    exists m'. split_and!; [done..|congruence|]. intros k Hk. apply Hb. lia.
Qed.

Lemma rdb_window_range r S : rdb_rel r S -> 0 <= window_start r < 2147483648 - 127.
Proof. intros [? ? -> ? ? ?]. pose proof (top_nonneg S). lia. Qed.

(** Membership for indices at or past the window start. *)
Lemma rdb_member r S i : rdb_rel r S -> window_start r <= i ->
  bool_decide (i ∈ S) = if i <? window_start r + 128 then bit (bitmask r) (i - window_start r) else false.
Proof.
  intros Hrel Hi. destruct (Z.ltb_spec i (window_start r + 128)).
  - symmetry. by apply Hrel.
  - apply bool_decide_eq_false. intros Hin%top_max. destruct Hrel. lia.
Qed.

Definition rdb_valid (r : srtp_rdb_t) (i : Z) : Prop := 0 <= i < 2147483648.

Lemma rdb_check_spec r S i :
  rdb_rel r S -> rdb_valid r i ->
  srtp_rdb_check r i = Some (spec_check (window_start r) S i).
Proof.
  intros Hrel Hi. pose proof (rdb_window_range _ _ Hrel). unfold rdb_valid in Hi.
  unfold srtp_rdb_check, spec_check, rdb_bits_in_bitmask. norm_words.
  destruct (Z.geb_spec i (window_start r + 128)).
  - destruct (Z.ltb_spec i (window_start r)); [lia|].
    rewrite decide_False; [done|].
    intros Hin%top_max. destruct Hrel. lia.
  - destruct (Z.ltb_spec i (window_start r)); [done|].
    norm_words.
    rewrite v128_get_bit_spec by (unfold zlen; rewrite (rdb_length _ _ Hrel); lia).
    simpl. rewrite (rdb_bits _ _ Hrel) by lia.
    destruct (decide (i ∈ S));
      [rewrite bool_decide_eq_true_2 by done|rewrite bool_decide_eq_false_2 by done]; done.
Qed.

Lemma rdb_add_spec r S i :
  rdb_rel r S -> rdb_valid r i -> window_start r <= i ->
  exists r', srtp_rdb_add_index r i = Some (srtp_err_status_ok, r') /\ rdb_rel r' ({[i]} ∪ S).
Proof.
  intros Hrel Hi Hlow. pose proof (rdb_window_range _ _ Hrel). unfold rdb_valid in Hi.
  pose proof Hrel as [Hw Hlen Hws Htop Hnn Hbits].
  unfold srtp_rdb_add_index, rdb_bits_in_bitmask. cbv zeta.
  destruct (Z.ltb_spec i (window_start r)); [lia|]. norm_words.
  pose proof (top_nonneg S).
  destruct (Z.ltb_spec (i - window_start r) 128).
  - destruct (v128_set_bit_spec (bitmask r) (i - window_start r)) as (m & -> & Hlm & Hwm & Hbm);
      [done|unfold zlen; rewrite Hlen; lia|].
    eexists; split; [done|]. split; simpl; try done; rewrite ?top_insert; try lia.
    { apply all_insert; [lia|done]. }
    intros j Hj. rewrite Hbm, Hbits by done.
    destruct (Z.eqb_spec (j - window_start r) (i - window_start r)).
    + replace j with i by lia. by rewrite member_here.
    + rewrite member_other by lia. done.
  - replace (i - window_start r - (128 - 1)) with (i - 127 - window_start r) by lia.
    norm_words.
    destruct (v128_left_shift_spec (bitmask r) (i - 127 - window_start r))
      as (m1 & -> & Hw1 & Hl1 & Hb1); [done|done|lia|]. simpl.
    destruct (v128_set_bit_spec m1 (128 - 1)) as (m2 & -> & Hl2 & Hw2 & Hb2);
      [done|unfold zlen; rewrite Hl1; lia|]. simpl.
    replace (window_start r + (i - 127 - window_start r)) with (i - 127) by lia.
    norm_words.
    eexists; split; [done|]. split; simpl; try done; rewrite ?top_insert; try lia.
    { apply all_insert; [lia|done]. }
    intros j Hj. rewrite Hb2, Hb1 by lia.
    destruct (Z.eqb_spec (j - (i - 127)) (128 - 1)).
    + replace j with i by lia. by rewrite member_here.
    + assert (j ≠ i) by lia. rewrite member_other, (rdb_member r S j Hrel) by lia. simpl.
      replace (j - (i - 127) + (i - 127 - window_start r)) with (j - window_start r) by lia.
      destruct (Z.ltb_spec (j - window_start r) 128), (Z.ltb_spec j (window_start r + 128));
        done || lia.
Qed.

#[export] Instance rdb_replay_db : ReplayDB srtp_rdb_t.
Proof.
  refine {| db_low _ S := Z.max 0 (top S - 127);
            db_rel := rdb_rel; db_valid := rdb_valid;
            db_check := srtp_rdb_check; db_add := srtp_rdb_add_index |}.
  - intros t S i Hrel Hv. rewrite (rdb_check_spec t S i Hrel Hv). by rewrite (rdb_low _ _ Hrel).
  - intros t S i Hrel Hv Hlow. rewrite <- (rdb_low _ _ Hrel) in Hlow.
    destruct (rdb_add_spec t S i Hrel Hv Hlow) as (t' & -> & Hrel'). by exists t'.
Defined.

Lemma rdb_init_rel : rdb_rel (snd srtp_rdb_init) ∅.
Proof.
  split; simpl; try done; rewrite ?top_empty; try done; try set_solver.
  - repeat constructor; unfold in_range; lia.
  - intros i Hi. replace (i - 0) with i by lia.
    transitivity false; [|symmetry; apply bool_decide_eq_false; set_solver].
    rewrite bit_word_at. unfold word_at, v128_set_to_zero, rd.
    destruct (Z.ltb_spec (i / 32) 0); simpl; [apply Z.testbit_0_l|].
    destruct (Z.to_nat (i / 32)) as [|[|[|[|]]]]; apply Z.testbit_0_l.
Qed.

(** ** Properties *)

(** C24. SRTCP replay protection.  Over any sequence of 31-bit SRTCP indices, a
    receiver that checks each index and adds it when the check passes never reads
    or writes outside the 128-bit window, answers each index exactly as the
    abstract machine on the set of received indices does (old below the window,
    replayed when received before, accepted otherwise), and accepts no index
    twice. *)
Theorem rdb_receive_all_no_replay (l : list Z) :
  Forall (fun i => 0 <= i < 2147483648) l ->
  exists sts r,
    receive_all (snd srtp_rdb_init) l = Some (sts, r) /\
    sts = fst (spec_run (fun S => Z.max 0 (top S - 127)) ∅ l) /\
    NoDup (accepted l sts).
Proof.
  intros Hl. destruct (receive_all_refines (snd srtp_rdb_init) ∅ l) as (r & Hrun & _).
  - apply rdb_init_rel.
  - intros l1 i l2 t' sts -> _. simpl. rewrite Forall_app, Forall_cons in Hl. apply Hl.
  - eexists _, r. split; [exact Hrun|]. split; [done|]. simpl.
    destruct (spec_run _ ∅ l) as [sts S'] eqn:E. by apply spec_run_accepted in E as (? & _).
Qed.

Lemma rdb_receive_all_no_replay_witness :
  Forall (fun i => 0 <= i < 2147483648) [5; 200; 5; 200; 130] /\
  fst <$> receive_all (snd srtp_rdb_init) [5; 200; 5; 200; 130] =
    Some [srtp_err_status_ok; srtp_err_status_ok; srtp_err_status_replay_old;
          srtp_err_status_replay_fail; srtp_err_status_ok] /\
  exists sts r,
    receive_all (snd srtp_rdb_init) [5; 200; 5; 200; 130] = Some (sts, r) /\
    sts = fst (spec_run (fun S => Z.max 0 (top S - 127)) ∅ [5; 200; 5; 200; 130]) /\
    NoDup (accepted [5; 200; 5; 200; 130] sts).
Proof.
  assert (Forall (fun i => 0 <= i < 2147483648) [5; 200; 5; 200; 130]) as Hl
    by (repeat constructor; lia).
  split; [exact Hl|]. split; [vm_compute; reflexivity|].
  exact (rdb_receive_all_no_replay _ Hl).
Defined.
