(* ===== verification/Rdbx.v ===== *)
(** * The SRTP replay database (libsrtp [crypto/replay/rdbx.c])

    An extended sequence number (rollover counter and 16-bit sequence number) with
    a bit vector of the most recent indices; the 64-bit branch of the source
    ([NO_64BIT_MATH] undefined) with the full-size datatypes ([ROC_TEST] undefined). *)

From S2P Require Import Prelude BitVector Window.

Definition seq_num_median : Z := 32768.   (* 1 << (8 * sizeof(srtp_sequence_number_t) - 1) *)
Definition seq_num_max : Z := 65536.      (* 1 << (8 * sizeof(srtp_sequence_number_t)) *)

Record srtp_rdbx_t := Rdbx {
  index : Z;                    (* srtp_xtd_seq_num_t, uint64_t *)
  bitmask : bitvector_t
}.

(** ** Packet indices *)

Definition srtp_index_init : Z := 0.

Definition srtp_index_advance (pi s : Z) : Z := u64 (pi + s).

(** Returns [(guess, difference)]. *)
Definition srtp_index_guess (local s : Z) : Z * Z :=
  let local_roc := u32 (Z.shiftr local 16) in
  let local_seq := u16 local in
  let '(guess_roc, difference) :=
    if local_seq <? seq_num_median then
      if s - local_seq >? seq_num_median
      then (u32 (local_roc - 1), s - local_seq - seq_num_max)
      else (local_roc, s - local_seq)
    else
      if local_seq - seq_num_median >? s
      then (u32 (local_roc + 1), s - local_seq + seq_num_max)
      else (local_roc, s - local_seq) in
  (* guess_roc is 32 bits, so this generates a 48-bit result *)
  (Z.lor (u64 (Z.shiftl guess_roc 16)) s, difference).

(** ** The database *)

Definition srtp_rdbx_init (alloc_ok : Z -> bool) (ws : Z) :
    option (srtp_err_status_t * option srtp_rdbx_t) :=
  if ws =? 0 then Some (srtp_err_status_bad_param, None)
  else
    '(ret, v) ← bitvector_alloc alloc_ok ws;
    if negb (ret =? 0) then Some (srtp_err_status_alloc_fail, None)
    else Some (srtp_err_status_ok, Some (Rdbx srtp_index_init v)).

Definition srtp_rdbx_dealloc (rdbx : srtp_rdbx_t) : srtp_err_status_t * srtp_rdbx_t :=
  (srtp_err_status_ok, Rdbx (index rdbx) (bitvector_dealloc (bitmask rdbx))).

Definition srtp_rdbx_set_roc (rdbx : srtp_rdbx_t) (roc : Z) :
    option (srtp_err_status_t * srtp_rdbx_t) :=
  m ← bitvector_set_to_zero (bitmask rdbx);
  (* make sure that we're not moving backwards *)
  if roc <? Z.shiftr (index rdbx) 16 then Some (srtp_err_status_replay_old, Rdbx (index rdbx) m)
  else
    let idx := Z.land (index rdbx) 65535 in             (* retain lowest 16 bits *)
    let idx := Z.lor idx (u64 (Z.shiftl roc 16)) in     (* set ROC *)
    Some (srtp_err_status_ok, Rdbx idx m).

Definition srtp_rdbx_get_packet_index (rdbx : srtp_rdbx_t) : Z := index rdbx.

Definition srtp_rdbx_get_window_size (rdbx : srtp_rdbx_t) : Z :=
  bitvector_get_length (bitmask rdbx).

Definition srtp_rdbx_check (rdbx : srtp_rdbx_t) (delta : Z) : option srtp_err_status_t :=
  (* if delta is positive, it's good *)
  if delta >? 0 then Some srtp_err_status_ok
  (* if delta is lower than the bitmask, it's bad *)
  else if i32 (u32 (bitvector_get_length (bitmask rdbx) - 1)) + delta <? 0
  then Some srtp_err_status_replay_old
  else
    (* delta is within the window, so check the bitmask *)
    b ← bitvector_get_bit (bitmask rdbx)
          (i32 (u32 (bitvector_get_length (bitmask rdbx) - 1)) + delta);
    if b =? 1 then Some srtp_err_status_replay_fail else Some srtp_err_status_ok.

Definition srtp_rdbx_add_index (rdbx : srtp_rdbx_t) (delta : Z) :
    option (srtp_err_status_t * srtp_rdbx_t) :=
  if delta >? 0 then
    (* shift forward by delta *)
    let idx := srtp_index_advance (index rdbx) (u16 delta) in
    m ← bitvector_left_shift (bitmask rdbx) delta;
    m ← bitvector_set_bit m (u32 (bitvector_get_length m - 1));
    Some (srtp_err_status_ok, Rdbx idx m)
  else
    (* delta is in window *)
    m ← bitvector_set_bit (bitmask rdbx)
          (u32 (u32 (bitvector_get_length (bitmask rdbx) - 1) + delta));
    Some (srtp_err_status_ok, Rdbx (index rdbx) m).

(** Returns [(guess, difference)]. *)
Definition srtp_rdbx_estimate_index (rdbx : srtp_rdbx_t) (s : Z) : Z * Z :=
  if index rdbx >? seq_num_median then srtp_index_guess (index rdbx) s
  else (s, s - u16 (index rdbx)).

Definition srtp_rdbx_get_roc (rdbx : srtp_rdbx_t) : Z := u32 (Z.shiftr (index rdbx) 16).

Definition srtp_rdbx_set_roc_seq (rdbx : srtp_rdbx_t) (roc seq : Z) :
    option (srtp_err_status_t * srtp_rdbx_t) :=
  (* make sure that we're not moving backwards *)
  if roc <? Z.shiftr (index rdbx) 16 then Some (srtp_err_status_replay_old, rdbx)
  else
    let idx := Z.lor seq (u64 (Z.shiftl roc 16)) in     (* set ROC *)
    m ← bitvector_set_to_zero (bitmask rdbx);
    Some (srtp_err_status_ok, Rdbx idx m).

(** ** Index estimation *)

Lemma index_split x : x = 65536 * (x / 65536) + x mod 65536 /\ 0 <= x mod 65536 < 65536.
Proof. split; [apply Z.div_mod; lia|apply Z.mod_pos_bound; lia]. Qed.

Lemma guess_value roc s :
  0 <= roc < 4294967296 -> 0 <= s < 65536 ->
  Z.lor (u64 (Z.shiftl roc 16)) s = 65536 * roc + s.
Proof.
  intros Hr Hs. rewrite u64_small; [rewrite lor_shiftl_add by lia; lia|].
  rewrite Z.shiftl_mul_pow2 by lia. lia.
Qed.

Lemma srtp_index_guess_spec local s :
  seq_num_median < local < 281474976645120 -> 0 <= s < 65536 ->
  exists d, srtp_index_guess local s = (local + d, d) /\ - 32768 <= d <= 32768 /\
    (local + d) mod 65536 = s /\ 0 <= local + d < 281474976710656.
Proof.
  intros Hl Hs. unfold srtp_index_guess, seq_num_median, seq_num_max in *.
  rewrite Z.shiftr_div_pow2 by lia. change (2 ^ 16) with 65536.
  destruct (index_split local) as [Hsplit Hseq].
  assert (u16 local = local mod 65536) as -> by done.
  assert (0 <= local / 65536 < 4294967295) as Hroc by (Z.div_mod_to_equations; lia).
  norm_words.
  set (roc := local / 65536) in *. set (seq := local mod 65536) in *. clearbody roc seq.
  assert (forall r d, 0 <= r < 4294967296 -> 65536 * r + s = local + d -> -32768 <= d <= 32768 ->
    exists d', (Z.lor (u64 (Z.shiftl r 16)) s, d) = (local + d', d') /\ -32768 <= d' <= 32768 /\
      (local + d') mod 65536 = s /\ 0 <= local + d' < 281474976710656) as Hgoal.
  { intros r d Hr Hd Hb. exists d. rewrite guess_value, <- Hd by lia. split_and!; try done; try lia.
    rewrite Z.mul_comm, Z.add_comm, Z.mod_add by lia. by apply Z.mod_small. }
  destruct (Z.ltb_spec seq 32768).
  - destruct (Z.gtb_spec (s - seq) 32768); norm_words; apply Hgoal; lia.
  - destruct (Z.gtb_spec (seq - 32768) s); norm_words; apply Hgoal; lia.
Qed.

(** C26. For every local index past the first half of the first rollover period and
    below the last 2^16 values of the 48-bit index space, and every 16-bit
    sequence number [s], [srtp_index_guess] returns an index congruent to [s]
    whose distance to the local index is the returned difference, and that
    distance is minimal among the indices the rollover counters [ROC-1], [ROC] and
    [ROC+1] give (RFC 3711, section 3.3.1). *)
Theorem srtp_index_guess_closest (local s : Z) :
  seq_num_median < local < 281474976645120 -> 0 <= s < 65536 ->
  let '(guess, difference) := srtp_index_guess local s in
  guess = local + difference /\ guess mod 65536 = s /\ 0 <= guess < 281474976710656 /\
  - 32768 <= difference <= 32768 /\
  forall v, v ∈ [local / 65536 - 1; local / 65536; local / 65536 + 1] ->
    Z.abs difference <= Z.abs (65536 * v + s - local).
Proof.
  intros Hl Hs. destruct (srtp_index_guess_spec local s Hl Hs) as (d & -> & Hd & Hm & Hg).
  split_and!; try done; try lia. intros v _.
  pose proof (index_split (local + d)) as [Hsplit _]. rewrite Hm in Hsplit. lia.
Qed.

Lemma srtp_index_guess_closest_witness :
  (seq_num_median < 65536 * 7 + 65530 < 281474976645120 /\ 0 <= 3 < 65536) /\
  srtp_index_guess (65536 * 7 + 65530) 3 = (65536 * 8 + 3, 9) /\
  let '(guess, difference) := srtp_index_guess (65536 * 7 + 65530) 3 in
  guess = 65536 * 7 + 65530 + difference /\ guess mod 65536 = 3 /\
  0 <= guess < 281474976710656 /\ - 32768 <= difference <= 32768 /\
  forall v, v ∈ [(65536 * 7 + 65530) / 65536 - 1; (65536 * 7 + 65530) / 65536;
                 (65536 * 7 + 65530) / 65536 + 1] ->
    Z.abs difference <= Z.abs (65536 * v + 3 - (65536 * 7 + 65530)).
Proof.
  assert (seq_num_median < 65536 * 7 + 65530 < 281474976645120) as H1 by (unfold seq_num_median; lia).
  assert (0 <= 3 < 65536) as H2 by lia.
  split; [done|]. split; [vm_compute; reflexivity|].
  exact (srtp_index_guess_closest _ _ H1 H2).
Defined.

(** ** The database represents a set of packet indices *)

Definition window_size (r : srtp_rdbx_t) : Z := length_ (bitmask r).

Record rdbx_rel (r : srtp_rdbx_t) (S : gset Z) : Prop := {
  rdbx_wf : exists ws, bv_wf (bitmask r) ws;
  rdbx_index : index r = top S;
  rdbx_nonneg : forall i, i ∈ S -> 0 <= i;
  rdbx_bits : forall i, index r - window_size r < i <= index r ->
    bvbit (bitmask r) (window_size r - 1 + (i - index r)) = bool_decide (i ∈ S)
}.

(** The indices a database may be asked about: at most one rollover period ahead of
    the highest one, not further back than an [int], and far from 2^64. *)
Definition rdbx_valid (r : srtp_rdbx_t) (i : Z) : Prop :=
  0 <= i < 9223372036854775808 /\ -2147483648 < i - index r < 65536.

Lemma rdbx_len r S : rdbx_rel r S -> 0 < window_size r < 2147483648.
Proof. intros Hrel. destruct (rdbx_wf _ _ Hrel) as [ws Hwf]. apply (bv_len _ _ Hwf). Qed.

Lemma rdbx_check_spec r S i :
  rdbx_rel r S -> rdbx_valid r i ->
  srtp_rdbx_check r (i - index r) = Some (spec_check (index r - window_size r + 1) S i).
Proof.
  intros Hrel [Hi Hd]. pose proof (rdbx_len _ _ Hrel) as Hlen. unfold window_size in *.
  destruct (rdbx_wf _ _ Hrel) as [ws Hwf].
  unfold srtp_rdbx_check, spec_check, bitvector_get_length. norm_words.
  destruct (Z.gtb_spec (i - index r) 0).
  - destruct (Z.ltb_spec i (index r - length_ (bitmask r) + 1)); [lia|].
    rewrite decide_False; [done|]. intros ?%top_max. destruct Hrel. lia.
  - destruct (Z.ltb_spec (length_ (bitmask r) - 1 + (i - index r)) 0),
      (Z.ltb_spec i (index r - length_ (bitmask r) + 1)); try lia; [done|].
    rewrite (bitvector_get_bit_spec _ ws) by (done || lia). simpl.
    rewrite (rdbx_bits _ _ Hrel) by (unfold window_size; lia).
    destruct (decide (i ∈ S));
      [rewrite bool_decide_eq_true_2 by done|rewrite bool_decide_eq_false_2 by done]; done.
Qed.

Lemma rdbx_add_spec r S i :
  rdbx_rel r S -> rdbx_valid r i -> index r - window_size r + 1 <= i ->
  exists r', srtp_rdbx_add_index r (i - index r) = Some (srtp_err_status_ok, r') /\
    rdbx_rel r' ({[i]} ∪ S) /\ window_size r' = window_size r.
Proof.
  intros Hrel [Hi Hd] Hlow. pose proof (rdbx_len _ _ Hrel) as Hlen. unfold window_size in *.
  pose proof Hrel as [[ws Hwf] Hidx Hnn Hbits]. unfold window_size in Hbits.
  pose proof (top_nonneg S) as Htop.
  unfold srtp_rdbx_add_index, srtp_index_advance, bitvector_get_length. cbv zeta.
  destruct (Z.gtb_spec (i - index r) 0).
  - norm_words.
    destruct (bitvector_left_shift_spec (bitmask r) ws (i - index r)) as (m1 & -> & Hl1 & [ws1 Hwf1] & Hb1);
      [done|lia|]. simpl. rewrite Hl1. norm_words.
    destruct (bitvector_set_bit_spec m1 ws1 (length_ (bitmask r) - 1)) as (m2 & -> & Hl2 & Hwf2 & Hb2);
      [done|lia|]. simpl.
    eexists; split; [done|]. split; [|simpl; congruence].
    split; simpl; unfold window_size; simpl; [done| |apply all_insert; [lia|done]|].
    { rewrite top_insert. lia. }
    intros j Hj. rewrite Hl2, Hl1 in *. rewrite Hb2.
    destruct (Z.eqb_spec (length_ (bitmask r) - 1 + (j - (index r + (i - index r))))
                (length_ (bitmask r) - 1)).
    + replace j with i by lia. by rewrite member_here.
    + assert (j ≠ i) by lia. rewrite member_other, Hb1 by lia. simpl.
      destruct (Z.le_gt_cases j (index r)).
      * rewrite <- Hbits by lia. f_equal. lia.
      * rewrite bvbit_out by lia. symmetry. apply bool_decide_eq_false. intros ?%top_max. lia.
  - norm_words.
    destruct (bitvector_set_bit_spec (bitmask r) ws (length_ (bitmask r) - 1 + (i - index r)))
      as (m & -> & Hl & Hwf' & Hb); [done|lia|]. simpl.
    eexists; split; [done|]. split; [|done].
    split; simpl; unfold window_size; simpl; [done| |apply all_insert; [lia|done]|].
    { rewrite top_insert. lia. }
    intros j Hj. rewrite Hl in *. rewrite Hb.
    destruct (Z.eqb_spec (length_ (bitmask r) - 1 + (j - index r))
                (length_ (bitmask r) - 1 + (i - index r))).
    + replace j with i by lia. by rewrite member_here.
    + assert (j ≠ i) by lia. rewrite member_other by done. by apply Hbits.
Qed.

#[export] Instance rdbx_replay_db : ReplayDB srtp_rdbx_t.
Proof.
  refine {| db_low r S := top S - window_size r + 1;
            db_rel := rdbx_rel; db_valid := rdbx_valid;
            db_check r i := srtp_rdbx_check r (i - index r);
            db_add r i := srtp_rdbx_add_index r (i - index r) |}.
  - intros r S i Hrel Hv. rewrite <- (rdbx_index _ _ Hrel). by apply rdbx_check_spec.
  - intros r S i Hrel Hv Hlow. rewrite <- (rdbx_index _ _ Hrel) in Hlow.
    destruct (rdbx_add_spec r S i Hrel Hv Hlow) as (r' & -> & Hrel' & Hw).
    exists r'. split; [done|]. split; [done|]. intros. by rewrite Hw.
Defined.

Lemma rdbx_init_rel alloc_ok n :
  0 < n <= 2147483616 -> (forall l, alloc_ok l = true) ->
  exists r, srtp_rdbx_init alloc_ok n = Some (srtp_err_status_ok, Some r) /\
    rdbx_rel r ∅ /\ window_size r = round32 n.
Proof.
  intros Hn Hok. destruct (bitvector_alloc_spec alloc_ok n Hn Hok) as (v & ws & Ha & Hwf & Hl & Hb).
  unfold srtp_rdbx_init. destruct (Z.eqb_spec n 0); [lia|]. rewrite Ha. simpl.
  eexists; split; [done|]. split; [|done]. split; simpl.
  - by exists ws.
  - by rewrite top_empty.
  - set_solver.
  - intros i Hi. rewrite Hb. symmetry. apply bool_decide_eq_false. set_solver.
Qed.

(** ** Receiving packets *)

(** [srtp_rdbx_estimate_index] gives an index and its distance to the stored one. *)
Lemma estimate_spec r s :
  0 <= index r < 281474976645120 -> 0 <= s < 65536 ->
  exists d, srtp_rdbx_estimate_index r s = (index r + d, d) /\
    0 <= index r + d /\ -65536 < d < 65536 /\ (index r + d) mod 65536 = s.
Proof.
  intros Hi Hs. unfold srtp_rdbx_estimate_index.
  destruct (Z.gtb_spec (index r) seq_num_median).
  - destruct (srtp_index_guess_spec (index r) s) as (d & -> & Hd & Hm & Hg); [lia|lia|].
    exists d. split_and!; done || lia.
  - unfold seq_num_median in *. norm_words. exists (s - index r).
    replace (index r + (s - index r)) with s by lia.
    split_and!; try lia; [done|by apply Z.mod_small].
Qed.

(** One packet, as the unprotect functions process its sequence number: estimate,
    check, and add when the check passes.  The estimated index is returned too. *)
Definition receive_seq (r : srtp_rdbx_t) (s : Z) : option (Z * srtp_err_status_t * srtp_rdbx_t) :=
  let '(guess, delta) := srtp_rdbx_estimate_index r s in
  st ← srtp_rdbx_check r delta;
  if decide (st = srtp_err_status_ok) then
    '(_, r') ← srtp_rdbx_add_index r delta; Some (guess, st, r')
  else Some (guess, st, r).

Fixpoint receive_seqs (r : srtp_rdbx_t) (l : list Z) :
    option (list Z * list srtp_err_status_t * srtp_rdbx_t) :=
  match l with
  | [] => Some ([], [], r)
  | s :: l' =>
      '(g, st, r1) ← receive_seq r s;
      '(gs, sts, r2) ← receive_seqs r1 l'; Some (g :: gs, st :: sts, r2)
  end.

Lemma receive_seq_spec r S s :
  rdbx_rel r S -> index r < 281474976645120 -> 0 <= s < 65536 ->
  exists g r', receive_seq r s = Some (g, spec_check (top S - window_size r + 1) S g, r') /\
    rdbx_rel r' (snd (spec_receive (fun S => top S - window_size r + 1) S g)) /\
    window_size r' = window_size r /\ g mod 65536 = s /\ index r' <= index r + 65535.
Proof.
  intros Hrel Hi Hs.
  assert (0 <= index r) by (rewrite (rdbx_index _ _ Hrel); apply top_nonneg).
  destruct (estimate_spec r s) as (d & He & Hg & Hd & Hm); [lia|done|].
  unfold receive_seq. rewrite He.
  assert (rdbx_valid r (index r + d)) as Hv by (split; lia).
  pose proof (rdbx_check_spec r S _ Hrel Hv) as Hc.
  replace (index r + d - index r) with d in Hc by lia.
  unfold spec_receive. rewrite <- (rdbx_index _ _ Hrel). rewrite Hc. simpl.
  destruct (decide (spec_check (index r - window_size r + 1) S (index r + d) = srtp_err_status_ok))
    as [Hok|Hno].
  - pose proof Hok as [Hlow _]%spec_check_ok.
    destruct (rdbx_add_spec r S _ Hrel Hv Hlow) as (r' & Ha & Hrel' & Hw).
    replace (index r + d - index r) with d in Ha by lia. rewrite Ha. simpl.
    exists (index r + d), r'. rewrite Hok, decide_True by done. split_and!; try done.
    rewrite (rdbx_index _ _ Hrel'), top_insert, <- (rdbx_index _ _ Hrel). lia.
  - exists (index r + d), r. rewrite decide_False by done. split_and!; done || lia.
Qed.

Lemma receive_seqs_spec l : forall r S,
  rdbx_rel r S -> index r + 65536 * zlen l < 281474976645120 ->
  Forall (fun s => 0 <= s < 65536) l ->
  exists gs sts r', receive_seqs r l = Some (gs, sts, r') /\
    Forall2 (fun g s => g mod 65536 = s) gs l /\
    sts = fst (spec_run (fun S => top S - window_size r + 1) S gs).
Proof.
  induction l as [|s l IH]; intros r S Hrel Hlen Hl; simpl.
  { exists [], [], r. split_and!; [done|constructor|done]. }
  rewrite zlen_cons in Hlen. pose proof (zlen_nonneg l). apply Forall_cons in Hl as [Hs Hl].
  destruct (receive_seq_spec r S s Hrel) as (g & r1 & -> & Hrel1 & Hw & Hm & Hi1); [lia|done|].
  simpl. destruct (IH r1 _ Hrel1) as (gs & sts & r2 & -> & Hgs & Hsts); [lia|done|].
  simpl. eexists (g :: gs), _, r2. split; [done|]. split; [by constructor|].
  rewrite Hsts, Hw. simpl. unfold spec_receive. simpl.
  match goal with |- context [spec_run ?low ?S gs] => by destruct (spec_run low S gs) end.
Qed.

(** C9. SRTP replay protection.  Starting from [srtp_rdbx_init] with any window size
    up to 2^31 - 32, over any sequence of at most 2^31 16-bit sequence numbers, the
    receiver that estimates the packet index, checks the difference and adds it
    when the check passes never reads or writes outside the allocated bit vector;
    every estimated index is congruent to the sequence number it was estimated
    from; the answers are those of the abstract machine for a window of
    [round32 n] indices; and no packet index is accepted twice. *)
Theorem srtp_rdbx_no_replay (alloc_ok : Z -> bool) (n : Z) (l : list Z) :
  0 < n <= 2147483616 -> (forall b, alloc_ok b = true) ->
  Forall (fun s => 0 <= s < 65536) l -> zlen l <= 2147483648 ->
  exists r gs sts r',
    srtp_rdbx_init alloc_ok n = Some (srtp_err_status_ok, Some r) /\
    receive_seqs r l = Some (gs, sts, r') /\
    Forall2 (fun g s => g mod 65536 = s) gs l /\
    sts = fst (spec_run (fun S => top S - round32 n + 1) ∅ gs) /\
    NoDup (accepted gs sts).
Proof.
  intros Hn Hok Hl Hlen. destruct (rdbx_init_rel alloc_ok n Hn Hok) as (r & Hinit & Hrel & Hw).
  destruct (receive_seqs_spec l r ∅ Hrel) as (gs & sts & r' & Hrun & Hgs & Hsts); [|done|].
  { rewrite (rdbx_index _ _ Hrel), top_empty. lia. }
  rewrite Hw in Hsts. exists r, gs, sts, r'. split_and!; try done.
  destruct (spec_run _ ∅ gs) as [sts' S'] eqn:E. simpl in Hsts. subst.
  by apply spec_run_accepted in E as (? & _).
Qed.

Lemma srtp_rdbx_no_replay_witness :
  (exists r gs sts r',
    srtp_rdbx_init (fun _ => true) 64 = Some (srtp_err_status_ok, Some r) /\
    receive_seqs r [40000; 65535; 3; 65535; 2; 3] = Some (gs, sts, r') /\
    sts = [srtp_err_status_ok; srtp_err_status_ok; srtp_err_status_ok;
           srtp_err_status_replay_fail; srtp_err_status_ok; srtp_err_status_replay_fail] /\
    gs = [40000; 65535; 65539; 65535; 65538; 65539]) /\
  exists r gs sts r',
    srtp_rdbx_init (fun _ => true) 64 = Some (srtp_err_status_ok, Some r) /\
    receive_seqs r [40000; 65535; 3; 65535; 2; 3] = Some (gs, sts, r') /\
    Forall2 (fun g s => g mod 65536 = s) gs [40000; 65535; 3; 65535; 2; 3] /\
    sts = fst (spec_run (fun S => top S - round32 64 + 1) ∅ gs) /\
    NoDup (accepted gs sts).
Proof.
  split.
  - do 4 eexists. split; [vm_compute; reflexivity|]. split; [vm_compute; reflexivity|]. done.
  - apply (srtp_rdbx_no_replay (fun _ => true) 64 [40000; 65535; 3; 65535; 2; 3]);
      [lia|done|repeat constructor; lia|vm_compute; discriminate].
Defined.

(** ** Rejected rollover counters *)

(** The two setters of the rollover counter refuse a counter below the current one,
    with [srtp_err_status_replay_old]; but [srtp_rdbx_set_roc] has cleared the bit
    vector by then, so that after the refused call every index of the window is
    accepted again, whereas a refused [srtp_rdbx_set_roc_seq] leaves the database
    as it was. *)
Theorem srtp_rdbx_set_roc_refused (r : srtp_rdbx_t) (S : gset Z) (roc seq d : Z) :
  rdbx_rel r S -> roc < index r / 65536 -> - window_size r < d <= 0 ->
  srtp_rdbx_set_roc_seq r roc seq = Some (srtp_err_status_replay_old, r) /\
  exists r', srtp_rdbx_set_roc r roc = Some (srtp_err_status_replay_old, r') /\
    index r' = index r /\ srtp_rdbx_check r' d = Some srtp_err_status_ok.
Proof.
  intros Hrel Hroc Hd. pose proof (rdbx_len _ _ Hrel) as Hlen. unfold window_size in *.
  destruct (rdbx_wf _ _ Hrel) as [ws Hwf].
  unfold srtp_rdbx_set_roc_seq, srtp_rdbx_set_roc.
  rewrite Z.shiftr_div_pow2 by lia. change (2 ^ 16) with 65536.
  destruct (bitvector_set_to_zero_spec (bitmask r) ws Hwf) as (m & -> & Hl & [ws' Hwf'] & Hz).
  simpl. destruct (Z.ltb_spec roc (index r / 65536)); [|lia]. split; [done|].
  eexists; split; [done|]. split; [done|].
  unfold srtp_rdbx_check, bitvector_get_length. simpl. rewrite Hl. norm_words.
  destruct (Z.gtb_spec d 0); [lia|]. destruct (Z.ltb_spec (length_ (bitmask r) - 1 + d) 0); [lia|].
  rewrite (bitvector_get_bit_spec m ws') by (done || lia). by rewrite Hz.
Qed.

Lemma srtp_rdbx_set_roc_refused_witness :
  exists r S, rdbx_rel r S /\ 0 < index r / 65536 /\ - window_size r < 0 <= 0 /\
    srtp_rdbx_check r 0 = Some srtp_err_status_replay_fail /\
    srtp_rdbx_set_roc_seq r 0 0 = Some (srtp_err_status_replay_old, r) /\
    exists r', srtp_rdbx_set_roc r 0 = Some (srtp_err_status_replay_old, r') /\
      index r' = index r /\ srtp_rdbx_check r' 0 = Some srtp_err_status_ok.
Proof.
  destruct (rdbx_init_rel (fun _ => true) 32) as (r0 & _ & Hrel0 & Hw0); [lia|done|].
  assert (rdbx_valid r0 65535 /\ index r0 - window_size r0 + 1 <= 65535) as [Hv0 Hl0].
  { pose proof (rdbx_index _ _ Hrel0) as Hi. rewrite top_empty in Hi. rewrite Hw0.
    unfold rdbx_valid. rewrite Hi. vm_compute. intuition discriminate. }
  destruct (rdbx_add_spec r0 ∅ 65535 Hrel0 Hv0 Hl0) as (r1 & _ & Hrel1 & Hw1).
  assert (rdbx_valid r1 65536 /\ index r1 - window_size r1 + 1 <= 65536) as [Hv1 Hl1].
  { pose proof (rdbx_index _ _ Hrel1) as Hi. rewrite top_insert, top_empty in Hi. rewrite Hw1, Hw0.
    unfold rdbx_valid. rewrite Hi. vm_compute. intuition discriminate. }
  destruct (rdbx_add_spec r1 _ 65536 Hrel1 Hv1 Hl1) as (r & _ & Hrel & Hw).
  assert (index r = 65536) as Hi.
  { rewrite (rdbx_index _ _ Hrel), !top_insert, top_empty. done. }
  assert (window_size r = 32) as Hws by (by rewrite Hw, Hw1, Hw0).
  exists r, ({[65536]} ∪ ({[65535]} ∪ ∅)).
  assert (0 < index r / 65536) as H1 by (rewrite Hi; done).
  assert (- window_size r < 0 <= 0) as H2 by lia.
  split; [done|]. split; [done|]. split; [done|]. split.
  { pose proof (rdbx_check_spec r _ 65536 Hrel) as Hc. rewrite Hi, Hws in Hc.
    apply Hc. unfold rdbx_valid. rewrite Hi. lia. }
  exact (srtp_rdbx_set_roc_refused r _ 0 0 0 Hrel H1 H2).
Defined.
