(* ===== verification/KeyLimit.v ===== *)
(** * Key usage limits (libsrtp [crypto/kernel/key.c])

    The countdown of packets a session key may still protect. *)

From S2P Require Import Prelude Window.

Definition soft_limit : Z := 65536.

Inductive srtp_key_event_t := srtp_key_event_normal | srtp_key_event_soft_limit | srtp_key_event_hard_limit.

Inductive srtp_key_state_t :=
| srtp_key_state_normal | srtp_key_state_past_soft_limit | srtp_key_state_expired.

#[export] Instance srtp_key_state_eq_dec : EqDecision srtp_key_state_t.
Proof. solve_decision. Defined.

Record srtp_key_limit_ctx_t := Key_limit {
  num_left : Z;                 (* srtp_xtd_seq_num_t, uint64_t *)
  state : srtp_key_state_t
}.

Definition srtp_key_limit_set (key : srtp_key_limit_ctx_t) (s : Z) :
    srtp_err_status_t * srtp_key_limit_ctx_t :=
  if s <? soft_limit then (srtp_err_status_bad_param, key)
  else (srtp_err_status_ok, Key_limit s srtp_key_state_normal).

(** [None] is the NULL pointer; on success [*new_key] is the same pointer as [original]. *)
Definition srtp_key_limit_clone {A} (original new_key : option A) : srtp_err_status_t * option A :=
  match original with
  | None => (srtp_err_status_bad_param, new_key)
  | Some _ => (srtp_err_status_ok, original)
  end.

Definition srtp_key_limit_update (key : srtp_key_limit_ctx_t) :
    srtp_key_event_t * srtp_key_limit_ctx_t :=
  let left := u64 (num_left key - 1) in
  if left >=? soft_limit then
    (* we're above the soft limit *)
    (srtp_key_event_normal, Key_limit left (state key))
  else
    (* we just passed the soft limit, so change the state *)
    let st := if decide (state key = srtp_key_state_normal) then srtp_key_state_past_soft_limit
              else state key in
    if left <? 1 then
      (* we just hit the hard limit *)
      (srtp_key_event_hard_limit, Key_limit left srtp_key_state_expired)
    else (srtp_key_event_soft_limit, Key_limit left st).

(** [n] packets: the events of the successive updates and the final limit. *)
Fixpoint updates (n : nat) (key : srtp_key_limit_ctx_t) : list srtp_key_event_t * srtp_key_limit_ctx_t :=
  match n with
  | O => ([], key)
  | S n' => let '(e, key1) := srtp_key_limit_update key in
            let '(es, key2) := updates n' key1 in (e :: es, key2)
  end.

(** The event the policy asks for when [left] packets remain after this one. *)
Definition event_for (left : Z) : srtp_key_event_t :=
  if left >=? soft_limit then srtp_key_event_normal
  else if left <? 1 then srtp_key_event_hard_limit
  else srtp_key_event_soft_limit.

Lemma update_spec key :
  0 < num_left key < 18446744073709551616 ->
  exists st, srtp_key_limit_update key = (event_for (num_left key - 1), Key_limit (num_left key - 1) st).
Proof.
  intros H. unfold srtp_key_limit_update, event_for, soft_limit. norm_words.
  repeat case_match; by eexists.
Qed.

Lemma updates_spec n : forall key,
  Z.of_nat n <= num_left key < 18446744073709551616 ->
  num_left (snd (updates n key)) = num_left key - Z.of_nat n /\
  forall k, (k < n)%nat ->
    fst (updates n key) !! k = Some (event_for (num_left key - Z.of_nat k - 1)).
Proof.
  induction n as [|n IH]; intros key Hk; simpl; [split; [lia|intros k Hk'; lia]|].
  destruct (update_spec key) as [st ->]; [lia|]. simpl.
  specialize (IH (Key_limit (num_left key - 1) st)). simpl in IH.
  destruct (updates n _) as [es key2]. simpl in *. destruct IH as [IHl IHe]; [lia|].
  split; [lia|]. intros [|k] Hlt; simpl; [do 2 f_equal; lia|].
  rewrite IHe by lia. do 2 f_equal. lia.
Qed.

(** A limit of [s] packets set with [srtp_key_limit_set] gives, for the packet
    number [k] (from 0), the event the policy asks for: normal while at least 2^16
    packets remain, the soft limit after that, and the hard limit for the packet
    that uses up the limit. *)
Theorem srtp_key_limit_countdown (key key' : srtp_key_limit_ctx_t) (s : Z) (n k : nat) :
  srtp_key_limit_set key s = (srtp_err_status_ok, key') ->
  0 <= s < 18446744073709551616 -> Z.of_nat n <= s -> (k < n)%nat ->
  fst (updates n key') !! k = Some (event_for (s - Z.of_nat k - 1)) /\
  num_left (snd (updates n key')) = s - Z.of_nat n.
Proof.
  unfold srtp_key_limit_set. case_match; [done|]. intros [= <-] Hs Hn Hk.
  destruct (updates_spec n (Key_limit s srtp_key_state_normal)) as [Hl He]; [simpl; lia|].
  split; [by rewrite He|done].
Qed.

Lemma srtp_key_limit_countdown_witness :
  event_for (65536 - Z.of_nat 0 - 1) = srtp_key_event_soft_limit /\
  exists key', srtp_key_limit_set (Key_limit 0 srtp_key_state_expired) 65536 = (srtp_err_status_ok, key') /\
    fst (updates 2 key') !! 0%nat = Some (event_for (65536 - Z.of_nat 0 - 1)) /\
    num_left (snd (updates 2 key')) = 65536 - Z.of_nat 2.
Proof.
  split; [reflexivity|]. eexists. split; [reflexivity|].
  apply (srtp_key_limit_countdown (Key_limit 0 srtp_key_state_expired) _ 65536 2 0);
    [reflexivity|lia|vm_compute; discriminate|lia].
Defined.

(** The hard limit is reported for one packet only: the update after it wraps
    the 64-bit counter to 2^64 - 1 and answers "normal" although the recorded
    state stays expired, so the key is usable again. *)
Theorem srtp_key_limit_expires_once (key : srtp_key_limit_ctx_t) :
  num_left key = 1 ->
  exists key1 key2,
    srtp_key_limit_update key = (srtp_key_event_hard_limit, key1) /\
    state key1 = srtp_key_state_expired /\ num_left key1 = 0 /\
    srtp_key_limit_update key1 = (srtp_key_event_normal, key2) /\
    state key2 = srtp_key_state_expired /\ num_left key2 = 18446744073709551615.
Proof.
  destruct key as [left st]. simpl. intros ->. unfold srtp_key_limit_update. simpl.
  by do 2 eexists.
Qed.

Lemma srtp_key_limit_expires_once_witness :
  num_left (Key_limit 1 srtp_key_state_past_soft_limit) = 1 /\
  exists key1 key2,
    srtp_key_limit_update (Key_limit 1 srtp_key_state_past_soft_limit) =
      (srtp_key_event_hard_limit, key1) /\
    state key1 = srtp_key_state_expired /\ num_left key1 = 0 /\
    srtp_key_limit_update key1 = (srtp_key_event_normal, key2) /\
    state key2 = srtp_key_state_expired /\ num_left key2 = 18446744073709551615.
Proof.
  split; [reflexivity|].
  exact (srtp_key_limit_expires_once (Key_limit 1 srtp_key_state_past_soft_limit) eq_refl).
Defined.
