(* ===== verification/LinkedQueue.v ===== *)
(** * The event queues of the binding ([src/datachannel.c])

    [callback_results] and [datachannel_callbacks] are singly linked lists with a
    head and an end pointer, built by [callback_result_alloc] and
    [datachannel_callback_alloc] and consumed by [process_events]; the two have the
    same code, modelled once over the type [P] of the other fields of a node.
    Nodes live in a store of [malloc]ed blocks; using a freed node is undefined
    behaviour ([None]).  The file shows that the pointers implement a list with
    insertion at one end and removal at the other. *)

From S2P Require Import Prelude.

Section queue.
Context {P : Type}.

(** A node: its fields ([None] while they are indeterminate after [malloc]) and [next]. *)
Record node := Node { fields : option P; next : option positive }.

Record queue := Queue {
  nodes : gmap positive node;   (* the malloced nodes *)
  first : option positive;      (* callback_results *)
  end_ : option positive        (* callback_results_end *)
}.

Definition empty_queue : queue := Queue ∅ None None.

(** [malloc]: a block not in use. *)
Definition malloc_node (h : gmap positive node) : positive := fresh (dom h : gset positive).

Definition queue_alloc (q : queue) : option (positive * queue) :=
  let l := malloc_node (nodes q) in
  match end_ q with
  | None => Some (l, Queue (<[l := Node None None]> (nodes q)) (Some l) (Some l))
  | Some e =>
      nd ← nodes q !! e;
      Some (l, Queue (<[l := Node None None]> (<[e := Node (fields nd) (Some l)]> (nodes q)))
                 (first q) (Some l))
  end.

(** [res->field = ...] for all fields the caller sets. *)
Definition queue_set (q : queue) (l : positive) (x : P) : option queue :=
  nd ← nodes q !! l;
  Some (Queue (<[l := Node (Some x) (next nd)]> (nodes q)) (first q) (end_ q)).

(** The locked block of the consumer: unlink the first node. *)
Definition queue_pop (q : queue) : option (option positive * queue) :=
  match first q with
  | None => Some (None, q)
  | Some l =>
      nd ← nodes q !! l;
      Some (Some l, Queue (nodes q) (next nd)
                      (match next nd with None => None | Some _ => end_ q end))
  end.

Definition queue_read (q : queue) (l : positive) : option P :=
  nd ← nodes q !! l; fields nd.

(** [free(res)] *)
Definition queue_free (q : queue) (l : positive) : option queue :=
  _ ← nodes q !! l; Some (Queue (delete l (nodes q)) (first q) (end_ q)).

(** The producer's locked block: allocate at the end and fill the fields. *)
Definition enqueue (q : queue) (x : P) : option queue :=
  '(l, q') ← queue_alloc q; queue_set q' l x.

(** ** Representation *)

(** [lseg h p ls xs]: following [next] from [p] visits the nodes [ls] with fields [xs]. *)
Fixpoint lseg (h : gmap positive node) (p : option positive) (ls : list positive) (xs : list P) : Prop :=
  match ls, xs with
  | [], [] => p = None
  | l :: ls', x :: xs' =>
      p = Some l /\ exists nx, h !! l = Some (Node (Some x) nx) /\ lseg h nx ls' xs'
  | _, _ => False
  end.

(** The queue holds [xs], in order, in the nodes [ls], and besides them the store has
    exactly the unlinked nodes [own] that the consumer has not freed yet. *)
Record queue_at (q : queue) (ls : list positive) (xs : list P) (own : gmap positive P) : Prop := {
  q_seg : lseg (nodes q) (first q) ls xs;
  q_end : end_ q = last ls;
  q_nodup : NoDup ls;
  q_own : forall l x, own !! l = Some x -> (l ∉ ls) /\ (exists nx, nodes q !! l = Some (Node (Some x) nx));
  q_dom : forall l, is_Some (nodes q !! l) -> (l ∈ ls) \/ is_Some (own !! l)
}.

Definition is_queue (q : queue) (xs : list P) (own : gmap positive P) : Prop :=
  exists ls, queue_at q ls xs own.

Lemma lseg_length h p ls xs : lseg h p ls xs -> length ls = length xs.
Proof.
  revert p xs. induction ls as [|l ls IH]; intros p [|x xs]; simpl; try done.
  intros (_ & nx & _ & H). f_equal. eauto.
Qed.

(** Changing the store outside the segment does not change the segment. *)
Lemma lseg_frame h h' p ls xs :
  (forall l, l ∈ ls -> h' !! l = h !! l) -> lseg h p ls xs -> lseg h' p ls xs.
Proof.
  revert p xs. induction ls as [|l ls IH]; intros p [|x xs] Hh; simpl; try done.
  intros (-> & nx & Hl & Hseg). split; [done|]. exists nx. split.
  - rewrite Hh by set_solver. done.
  - apply IH; [|done]. intros. apply Hh. set_solver.
Qed.

Lemma lseg_in h p ls xs l : lseg h p ls xs -> l ∈ ls -> exists x nx, h !! l = Some (Node (Some x) nx).
Proof.
  revert p xs. induction ls as [|l' ls IH]; intros p [|x xs]; simpl; try done;
    [set_solver|].
  intros (_ & nx & Hl & Hseg) [->|Hin]%elem_of_cons; eauto.
Qed.

(** Appending a node at the end of a segment. *)
Lemma lseg_snoc h p ls xs l x :
  lseg h p ls xs -> NoDup ls -> l ∉ ls ->
  let h' := match last ls with
            | None => h
            | Some e => match h !! e with
                        | Some nd => <[e := Node (fields nd) (Some l)]> h
                        | None => h
                        end
            end in
  lseg (<[l := Node (Some x) None]> h') (match ls with [] => Some l | _ => p end) (ls ++ [l]) (xs ++ [x]).
Proof.
  revert p xs. induction ls as [|l1 ls IH]; intros p [|x1 xs] Hseg Hnd Hl; simpl in Hseg; try done.
  - simpl. split; [done|]. exists None. by rewrite lookup_insert_eq.
  - destruct Hseg as (-> & nx & Hl1 & Hseg). apply NoDup_cons in Hnd as [Hl1ls Hnd].
    assert (l ≠ l1 /\ (l ∉ ls)) as [Hne Hls] by set_solver.
    specialize (IH _ _ Hseg Hnd Hls).
    destruct ls as [|l2 ls'].
    + destruct xs; [|done]. simpl. split; [done|]. rewrite Hl1. simpl.
      rewrite lookup_insert_ne, lookup_insert_eq by done.
      exists (Some l). split; [done|]. split; [done|]. exists None. by rewrite lookup_insert_eq.
    + cbn [last app] in *. split; [done|]. exists nx. split; [|exact IH].
      rewrite lookup_insert_ne by done.
      destruct (last (l2 :: ls')) as [e|] eqn:He; [|done].
      destruct (h !! e); [|done]. rewrite lookup_insert_ne; [done|].
      intros ->. apply last_Some_elem_of in He. done.
Qed.
(** ** Operations *)

Lemma empty_is_queue : is_queue empty_queue [] ∅.
Proof.
  exists []. split; simpl; [done|done|constructor| |].
  - intros l x H. by rewrite lookup_empty in H.
  - intros l [? H]. by rewrite lookup_empty in H.
Qed.

Lemma malloc_node_fresh h : h !! malloc_node h = None.
Proof. apply (not_elem_of_dom (D := gset positive)). unfold malloc_node. apply is_fresh. Qed.

Lemma queue_at_fresh q ls xs own l :
  queue_at q ls xs own -> nodes q !! l = None -> (l ∉ ls) /\ own !! l = None.
Proof.
  intros Hq Hl. split.
  - intros Hin. destruct (lseg_in _ _ _ _ _ (q_seg _ _ _ _ Hq) Hin) as (x & nx & H). congruence.
  - destruct (own !! l) as [x|] eqn:Ho; [|done].
    destruct (q_own _ _ _ _ Hq l x Ho) as [_ [nx H]]. congruence.
Qed.

Lemma end_in_segment q ls xs own e :
  queue_at q ls xs own -> end_ q = Some e -> e ∈ ls /\ exists x nx, nodes q !! e = Some (Node (Some x) nx).
Proof.
  intros Hq He. rewrite (q_end _ _ _ _ Hq) in He. apply last_Some_elem_of in He.
  split; [done|]. eapply lseg_in; [apply (q_seg _ _ _ _ Hq)|done].
Qed.

Lemma lseg_first (h : gmap positive node) p ls xs :
  lseg h p ls xs -> p = head ls.
Proof. destruct ls, xs; simpl; naive_solver. Qed.

(** The store of [enqueue]: the new node, linked from the former end. *)
Definition enqueue_nodes (q : queue) (ls : list positive) (l : positive) (x : P) : gmap positive node :=
  <[l := Node (Some x) None]>
    (match last ls with
     | None => nodes q
     | Some e => match nodes q !! e with
                 | Some nd => <[e := Node (fields nd) (Some l)]> (nodes q)
                 | None => nodes q
                 end
     end).

Lemma enqueue_run q ls xs own x :
  queue_at q ls xs own ->
  let l := malloc_node (nodes q) in
  enqueue q x = Some (Queue (enqueue_nodes q ls l x)
                        (match ls with [] => Some l | _ => first q end) (Some l)).
Proof.
  intros Hq l. unfold enqueue, queue_alloc, enqueue_nodes. fold l.
  rewrite <- (q_end _ _ _ _ Hq).
  destruct (end_ q) as [e|] eqn:He.
  - destruct (end_in_segment _ _ _ _ _ Hq He) as (Hin & y & nx & Hy). rewrite Hy. simpl.
    unfold queue_set. simpl. rewrite lookup_insert_eq. simpl. rewrite insert_insert_eq.
    destruct ls; [set_solver|done].
  - simpl. unfold queue_set. simpl. rewrite lookup_insert_eq. simpl. rewrite insert_insert_eq.
    rewrite (q_end _ _ _ _ Hq) in He. by apply last_None in He as ->.
Qed.

Lemma enqueue_nodes_other q ls l l' x :
  l' ≠ l -> (l' ∉ ls) -> enqueue_nodes q ls l x !! l' = nodes q !! l'.
Proof.
  intros Hne Hin. unfold enqueue_nodes. rewrite lookup_insert_ne by done.
  destruct (last ls) as [e|] eqn:He; [|done]. destruct (nodes q !! e); [|done].
  apply last_Some_elem_of in He. rewrite lookup_insert_ne; [done|]. by intros ->.
Qed.

Lemma enqueue_nodes_dom q ls l l' x :
  is_Some (enqueue_nodes q ls l x !! l') -> l' = l \/ is_Some (nodes q !! l').
Proof.
  unfold enqueue_nodes. destruct (decide (l' = l)) as [->|Hne]; [by left|].
  rewrite lookup_insert_ne by done. right.
  destruct (last ls) as [e|]; [|done]. destruct (nodes q !! e) eqn:He; [|done].
  destruct (decide (l' = e)) as [->|Hne']; [by rewrite He|].
  by rewrite lookup_insert_ne in H by done.
Qed.

(** Insertion: the new item goes at the end; nothing else moves. *)
Lemma enqueue_spec q xs own x :
  is_queue q xs own -> exists q', enqueue q x = Some q' /\ is_queue q' (xs ++ [x]) own.
Proof.
  intros [ls Hq]. pose proof (enqueue_run q ls xs own x Hq) as Hrun. cbv zeta in Hrun.
  pose proof (malloc_node_fresh (nodes q)) as Hfresh.
  set (l := malloc_node (nodes q)) in *.
  destruct (queue_at_fresh _ _ _ _ _ Hq Hfresh) as [Hls Hlo].
  eexists. split; [exact Hrun|]. exists (ls ++ [l]). pose proof Hq as [Hseg Hend Hnd Hown Hdom].
  split; simpl.
  - by apply lseg_snoc.
  - by rewrite last_snoc.
  - apply NoDup_app. split_and!; [done|set_solver|repeat constructor; set_solver].
  - intros l' y Hy. assert (l' ≠ l) by congruence.
    destruct (Hown l' y Hy) as [Hnin Hnode]. rewrite enqueue_nodes_other by done.
    split; [set_solver|done].
  - intros l' Hl'. apply enqueue_nodes_dom in Hl' as [->|Hl']; [set_solver|].
    destruct (Hdom l' Hl'); [left; set_solver|by right].
Qed.

(** Removal from an empty queue returns NULL. *)
Lemma queue_pop_nil q own : is_queue q [] own -> queue_pop q = Some (None, q).
Proof.
  intros [[|l ls] Hq]; pose proof (q_seg _ _ _ _ Hq) as Hseg; simpl in Hseg; [|done].
  unfold queue_pop. by rewrite Hseg.
Qed.

(** Removal unlinks the oldest item, which the consumer then owns. *)
Lemma queue_pop_cons q x xs own :
  is_queue q (x :: xs) own ->
  exists l q', queue_pop q = Some (Some l, q') /\ own !! l = None /\ is_queue q' xs (<[l := x]> own).
Proof.
  intros [[|l ls] Hq]; pose proof Hq as [Hseg Hend Hnd Hown Hdom]; simpl in Hseg; [done|].
  destruct Hseg as (Hf & nx & Hl & Hseg). apply NoDup_cons in Hnd as [Hlls Hnd].
  exists l. unfold queue_pop. rewrite Hf. simpl. rewrite Hl. simpl.
  eexists; split; [done|].
  assert (own !! l = None) as Hol.
  { destruct (own !! l) as [y|] eqn:Hy; [|done]. destruct (Hown l y Hy) as [Hn _]. set_solver. }
  split; [done|]. exists ls. split; simpl.
  - done.
  - rewrite (lseg_first _ _ _ _ Hseg), Hend. destruct ls as [|l2 ls']; done.
  - done.
  - intros l' y Hy. destruct (decide (l' = l)) as [->|Hne].
    + rewrite lookup_insert_eq in Hy. injection Hy as <-. eauto.
    + rewrite lookup_insert_ne in Hy by done. destruct (Hown l' y Hy) as [Hn ?]. set_solver.
  - intros l' Hl'. destruct (decide (l' = l)) as [->|Hne].
    + right. rewrite lookup_insert_eq. by eexists.
    + rewrite lookup_insert_ne by done. destruct (Hdom l' Hl'); [set_solver|by right].
Qed.

Lemma queue_read_own q xs own l x :
  is_queue q xs own -> own !! l = Some x -> queue_read q l = Some x.
Proof.
  intros [ls Hq] Hl. destruct (q_own _ _ _ _ Hq l x Hl) as [_ [nx Hn]].
  unfold queue_read. by rewrite Hn.
Qed.

Lemma queue_free_spec q xs own l x :
  is_queue q xs own -> own !! l = Some x ->
  exists q', queue_free q l = Some q' /\ is_queue q' xs (delete l own).
Proof.
  intros [ls Hq] Hl. pose proof Hq as [Hseg Hend Hnd Hown Hdom].
  destruct (Hown l x Hl) as [Hlls [nx Hn]].
  unfold queue_free. rewrite Hn. simpl. eexists; split; [done|]. exists ls. split; simpl; try done.
  - eapply lseg_frame; [|done]. intros l' Hl'. apply lookup_delete_ne. by intros ->.
  - intros l' y [Hne Hy]%lookup_delete_Some. rewrite lookup_delete_ne by done. auto.
  - intros l' [nd [Hne Hnd']%lookup_delete_Some]. rewrite lookup_delete_ne by done.
    apply Hdom. by eexists.
Qed.

(** When everything was popped and freed no node is left in the store. *)
Lemma is_queue_no_leak q : is_queue q [] ∅ -> nodes q = ∅.
Proof.
  intros [ls Hq]. apply map_eq. intros l. rewrite lookup_empty.
  destruct (nodes q !! l) as [nd|] eqn:Hl; [|done].
  destruct ls; [|by pose proof (q_seg _ _ _ _ Hq)].
  destruct (q_dom _ _ _ _ Hq l) as [?|[? H]]; [by eexists|set_solver|].
  by rewrite lookup_empty in H.
Qed.
End queue.

Arguments queue : clear implicits.
Arguments node : clear implicits.
