(* ===== verification/Hl.v ===== *)
(** * What the binding needs of the HashLink runtime

    [src/datachannel.c] is linked against the HashLink runtime ([hl.h]), which is not
    part of the repository.  Each class states the documented behaviour of one of its
    services; the binding is modelled, and its theorems are proved, against the
    classes.  The instances at the end of the file are the plainest objects that
    satisfy the laws; the concrete examples of the development run with them. *)

From S2P Require Import Prelude.

(** A GC root or closure slot: a field of a collected object, or a C global. *)
Inductive field :=
| F_descCb | F_candidateCb | F_stateCb | F_gatheringStateCb | F_datachannelCb
| F_openCb | F_closedCb | F_errCb | F_msgCb | F_bufferLowCb.

Inductive addr :=
| FieldOf (obj : positive) (f : field)
| G_callback_result_mutex | G_callback_result_semaphore | G_datachannel_callbacks_semaphore.

#[export] Instance field_eq_dec : EqDecision field.
Proof. solve_decision. Defined.
#[export] Instance addr_eq_dec : EqDecision addr.
Proof. solve_decision. Defined.

(** A mutex seen by one thread: [None] is an operation that never returns. *)
Class HlMutex (M : Type) := {
  hl_mutex_alloc : bool -> M;
  hl_mutex_acquire : M -> option M;
  hl_mutex_release : M -> option M;
  mutex_free : M -> Prop;
  hl_mutex_alloc_free b : mutex_free (hl_mutex_alloc b);
  hl_mutex_cycle m : mutex_free m ->
    exists m1 m2, hl_mutex_acquire m = Some m1 /\ hl_mutex_release m1 = Some m2 /\ mutex_free m2
}.

(** A counting semaphore. *)
Class HlSemaphore (S : Type) := {
  hl_semaphore_alloc : Z -> S;
  hl_semaphore_try_acquire : S -> bool * S;
  hl_semaphore_release : S -> S;
  sem_value : S -> Z;
  hl_semaphore_alloc_value n : sem_value (hl_semaphore_alloc n) = n;
  hl_semaphore_release_value s : sem_value (hl_semaphore_release s) = sem_value s + 1;
  hl_semaphore_try_acquire_pos s : 0 < sem_value s ->
    exists s', hl_semaphore_try_acquire s = (true, s') /\ sem_value s' = sem_value s - 1;
  hl_semaphore_try_acquire_zero s : sem_value s = 0 ->
    exists s', hl_semaphore_try_acquire s = (false, s') /\ sem_value s' = 0
}.

(** The root set of the collector: adding registers an address once more, removing
    unregisters it once. *)
Class HlRoots (R : Type) := {
  hl_add_root : addr -> R -> R;
  hl_remove_root : addr -> R -> R;
  root_count : R -> addr -> nat;
  hl_add_root_count a r b :
    root_count (hl_add_root a r) b = ((if decide (a = b) then 1 else 0) + root_count r b)%nat;
  hl_remove_root_count a r b :
    root_count (hl_remove_root a r) b = (root_count r b - (if decide (a = b) then 1 else 0))%nat
}.

(** ** The plainest runtime *)

#[export] Program Instance plain_mutex : HlMutex bool := {|
  hl_mutex_alloc _ := false;
  hl_mutex_acquire m := if m then None else Some true;
  hl_mutex_release m := if m then Some false else None;
  mutex_free m := m = false
|}.
Next Obligation. done. Qed.
Next Obligation. intros m ->. by exists true, false. Qed.

#[export] Program Instance plain_semaphore : HlSemaphore Z := {|
  hl_semaphore_alloc n := n;
  hl_semaphore_try_acquire s := if 0 <? s then (true, s - 1) else (false, s);
  hl_semaphore_release s := s + 1;
  sem_value s := s
|}.
Next Obligation. done. Qed.
Next Obligation. done. Qed.
Next Obligation. intros s H. exists (s - 1). destruct (Z.ltb_spec 0 s); [done|lia]. Qed.
Next Obligation. intros s ->. by exists 0. Qed.

Fixpoint remove_first (a : addr) (l : list addr) : list addr :=
  match l with [] => [] | b :: l' => if decide (a = b) then l' else b :: remove_first a l' end.
Fixpoint count (l : list addr) (a : addr) : nat :=
  match l with [] => O | b :: l' => ((if decide (b = a) then 1 else 0) + count l' a)%nat end.

#[export] Program Instance plain_roots : HlRoots (list addr) := {|
  hl_add_root a r := a :: r;
  hl_remove_root a r := remove_first a r;
  root_count := count
|}.
Next Obligation. done. Qed.
Next Obligation.
  intros a r b. induction r as [|c r IH]; simpl; [by destruct (decide (a = b))|].
  destruct (decide (a = c)) as [->|Hne]; simpl.
  - destruct (decide (c = b)); lia.
  - rewrite IH. destruct (decide (c = b)) as [->|]; [|lia]. rewrite decide_False by done. lia.
Qed.
