(* ===== verification/CApi.v ===== *)
(** * The C interface of libdatachannel used by the binding ([libdatachannel/src/capi.cpp])

    The identifiers, the object maps and the user pointers behind the [rtc*] functions,
    with the conversion of configurations and reliability settings and the mapping of
    exceptions to error codes.  The C++ classes behind the maps
    ([rtc::PeerConnection], [rtc::DataChannel]) are the interface [RtcImpl]. *)

From S2P Require Import Prelude Bytes Hl.

(** Memory contents: [None] is an indeterminate byte. *)
Definition mem_byte := option Z.

Definition RTC_ERR_SUCCESS : Z := 0.
Definition RTC_ERR_INVALID : Z := -1.
Definition RTC_ERR_FAILURE : Z := -2.
Definition RTC_ERR_NOT_AVAIL : Z := -3.
Definition RTC_ERR_TOO_SMALL : Z := -4.

Inductive exn := invalid_argument | other_exception.

(** ** Configurations *)

(** The C structures; [rtcConfiguration] has only the fields the binding fills, the
    others being zero. *)
Record rtcConfiguration := {
  iceServers : list (list Z); bindAddress : option (list Z);
  portRangeBegin : Z; portRangeEnd : Z;   (* uint16_t *)
  mtu : Z; maxMessageSize : Z             (* int *)
}.

Record rtcReliability := {
  c_unordered : bool; c_unreliable : bool;
  c_maxPacketLifeTime : Z; c_maxRetransmits : Z   (* unsigned int *)
}.

(** The C++ structures. *)
Record Configuration := {
  cfg_iceServers : list (list Z); cfg_bindAddress : option (list Z);
  cfg_portRangeBegin : Z; cfg_portRangeEnd : Z;
  cfg_mtu : option Z; cfg_maxMessageSize : option Z
}.

Record Reliability := {
  unordered : bool; maxPacketLifeTime : option Z; maxRetransmits : option Z
}.

Record DataChannelInit := {
  dci_reliability : Reliability; negotiated : bool; dci_id : option Z; protocol : list Z
}.

Inductive message := Binary (b : list Z) | Text (s : list Z).

(** The callbacks a user can register. *)
Inductive callback_kind :=
| OnLocalDescription | OnLocalCandidate | OnStateChange | OnGatheringStateChange | OnDataChannel
| OnOpen | OnClosed | OnError | OnMessage | OnBufferedAmountLow.

#[export] Instance callback_kind_eq_dec : EqDecision callback_kind.
Proof. solve_decision. Defined.

(** What the C++ classes do; a method that can throw returns [inl]. *)
Class RtcImpl (P D : Type) := {
  make_PeerConnection : Configuration -> exn + P;
  pc_close : P -> P;
  pc_setRemoteDescription : P -> list Z -> list Z -> exn + P;
  pc_addRemoteCandidate : P -> list Z -> list Z -> exn + P;
  pc_createDataChannel : P -> list Z -> DataChannelInit -> exn + (P * D);
  pc_localAddress : P -> option (list Z);
  pc_remoteAddress : P -> option (list Z);
  dc_label : D -> list Z;
  dc_reliability : D -> Reliability;
  dc_send : D -> message -> exn + D;
  dc_close : D -> D;
  dc_bufferedAmount : D -> Z;
  dc_setBufferedAmountLowThreshold : D -> Z -> D;
  (* a new channel has the label and the reliability it was created with *)
  pc_createDataChannel_label p l i p' d :
    pc_createDataChannel p l i = inr (p', d) -> dc_label d = l /\ dc_reliability d = dci_reliability i
}.

Section capi.
Context {P D : Type} `{RtcImpl P D}.

Record rtc_state := Rtc {
  lastId : Z;
  peerConnectionMap : gmap Z P;
  dataChannelMap : gmap Z D;
  userPointerMap : gmap Z (option positive);
  callbacks : list (Z * callback_kind)   (* which objects hold the lambda of an rtcSet*Callback *)
}.

Definition rtc_init : rtc_state := Rtc 0 ∅ ∅ ∅ [].

(** The body of an API function: a state that survives exceptions. *)
Definition capi (A : Type) : Type := rtc_state -> (exn + A) * rtc_state.
Definition cret {A} (a : A) : capi A := fun s => (inr a, s).
Definition cbind {A B} (m : capi A) (f : A -> capi B) : capi B :=
  fun s => match m s with
           | (inr a, s') => f a s'
           | (inl e, s') => (inl e, s')
           end.
Definition throw {A} (e : exn) : capi A := fun s => (inl e, s).
Definition lift {A} (r : exn + A) : capi A := fun s => (r, s).
Definition get : capi rtc_state := fun s => (inr s, s).
Definition put (s : rtc_state) : capi () := fun _ => (inr (), s).

#[local] Notation "'let*' x ':=' m 'in' f" := (cbind m (fun x => f))
  (at level 10, x name, m at level 100, f at level 200).
#[local] Notation "m ';;' f" := (cbind m (fun _ => f)) (at level 100, f at level 200).

Definition wrap_api (func : capi Z) (s : rtc_state) : Z * rtc_state :=
  match func s with
  | (inr v, s') => (i32 v, s')
  | (inl invalid_argument, s') => (RTC_ERR_INVALID, s')
  | (inl other_exception, s') => (RTC_ERR_FAILURE, s')
  end.

(** ** Identifiers and maps *)

Definition getUserPointer (id : Z) (s : rtc_state) : option (option positive) := userPointerMap s !! id.

Definition rtcSetUserPointer (i : Z) (ptr : option positive) (s : rtc_state) : rtc_state :=
  Rtc (lastId s) (peerConnectionMap s) (dataChannelMap s) (<[i := ptr]> (userPointerMap s)) (callbacks s).

Definition rtcGetUserPointer (i : Z) (s : rtc_state) : option positive := default None (getUserPointer i s).

Definition getPeerConnection (id : Z) : capi P :=
  let* s := get in
  match peerConnectionMap s !! id with Some p => cret p | None => throw invalid_argument end.

Definition getDataChannel (id : Z) : capi D :=
  let* s := get in
  match dataChannelMap s !! id with Some d => cret d | None => throw invalid_argument end.

(** Tracks and WebSockets are not used by the binding: only data channels are looked up. *)
Definition getChannel (id : Z) : capi D := getDataChannel id.

(** The methods of the C++ objects change them in place. *)
Definition set_peer (id : Z) (p : P) : capi () :=
  let* s := get in
  put (Rtc (lastId s) (<[id := p]> (peerConnectionMap s)) (dataChannelMap s) (userPointerMap s) (callbacks s)).
Definition set_chan (id : Z) (d : D) : capi () :=
  let* s := get in
  put (Rtc (lastId s) (peerConnectionMap s) (<[id := d]> (dataChannelMap s)) (userPointerMap s) (callbacks s)).

(** [std::map::emplace] keeps an entry that exists. *)
Definition emplace {A} (i : Z) (x : A) (m : gmap Z A) : gmap Z A :=
  match m !! i with Some _ => m | None => <[i := x]> m end.

Definition emplacePeerConnection (p : P) : capi Z :=
  let* s := get in
  let pc := i32 (lastId s + 1) in
  put (Rtc pc (emplace pc p (peerConnectionMap s)) (dataChannelMap s)
         (emplace pc None (userPointerMap s)) (callbacks s));; cret pc.

Definition emplaceDataChannel (d : D) : capi Z :=
  let* s := get in
  let dc := i32 (lastId s + 1) in
  put (Rtc dc (peerConnectionMap s) (emplace dc d (dataChannelMap s))
         (emplace dc None (userPointerMap s)) (callbacks s));; cret dc.

Definition erasePeerConnection (pc : Z) : capi () :=
  let* s := get in
  match peerConnectionMap s !! pc with
  | None => throw invalid_argument
  | Some _ => put (Rtc (lastId s) (delete pc (peerConnectionMap s)) (dataChannelMap s)
                     (delete pc (userPointerMap s)) (callbacks s))
  end.

Definition eraseDataChannel (dc : Z) : capi () :=
  let* s := get in
  match dataChannelMap s !! dc with
  | None => throw invalid_argument
  | Some _ => put (Rtc (lastId s) (peerConnectionMap s) (delete dc (dataChannelMap s))
                     (delete dc (userPointerMap s)) (callbacks s))
  end.

(** [copyAndReturn(string s, char *buffer, int size)] with a buffer: [None] when it
    would write outside it. *)
Definition copyAndReturn (s : list Z) (buffer : list mem_byte) (size : Z) : option (Z * list mem_byte) :=
  let n := i32 (zlen s + 1) in
  if size <? n then Some (RTC_ERR_TOO_SMALL, buffer)
  else if zlen s + 1 <=? zlen buffer
       then Some (n, map Some (c_str s) ++ drop (S (length s)) buffer)
       else None.

(** ** Peer connections *)

Definition make_Configuration (config : rtcConfiguration) : Configuration := {|
  cfg_iceServers := iceServers config;
  cfg_bindAddress := bindAddress config;
  cfg_portRangeBegin :=
    if (portRangeBegin config >? 0) || (portRangeEnd config >? 0) then portRangeBegin config else 1024;
  cfg_portRangeEnd :=
    if (portRangeBegin config >? 0) || (portRangeEnd config >? 0) then portRangeEnd config else 65535;
  cfg_mtu := if mtu config >? 0 then Some (mtu config) else None;
  cfg_maxMessageSize :=
    if maxMessageSize config =? 0 then None else Some (u64 (maxMessageSize config))
|}.

Definition rtcCreatePeerConnection (config : rtcConfiguration) : rtc_state -> Z * rtc_state :=
  wrap_api (let* p := lift (make_PeerConnection (make_Configuration config)) in emplacePeerConnection p).

Definition rtcClosePeerConnection (pc : Z) : rtc_state -> Z * rtc_state :=
  wrap_api (let* p := getPeerConnection pc in set_peer pc (pc_close p);; cret RTC_ERR_SUCCESS).

Definition rtcDeletePeerConnection (pc : Z) : rtc_state -> Z * rtc_state :=
  wrap_api (let* p := getPeerConnection pc in
            set_peer pc (pc_close p);; erasePeerConnection pc;; cret RTC_ERR_SUCCESS).

Definition install (id : Z) (k : callback_kind) (cb : bool) : capi () :=
  let* s := get in
  let rest := filter (fun e => e ≠ (id, k)) (callbacks s) in
  put (Rtc (lastId s) (peerConnectionMap s) (dataChannelMap s) (userPointerMap s)
         (if cb then (id, k) :: rest else rest)).

(** The five [rtcSet*Callback] functions on peer connections have this body; [cb] tells
    whether the function pointer is non-NULL. *)
Definition rtcSetPcCallback (k : callback_kind) (pc : Z) (cb : bool) : rtc_state -> Z * rtc_state :=
  wrap_api (let* p := getPeerConnection pc in install pc k cb;; cret RTC_ERR_SUCCESS).

Definition rtcSetRemoteDescription (pc : Z) (sdp : option (list Z)) (type : list Z) : rtc_state -> Z * rtc_state :=
  wrap_api (let* p := getPeerConnection pc in
            match sdp with
            | None => throw invalid_argument
            | Some sdp => let* p' := lift (pc_setRemoteDescription p sdp type) in
                          set_peer pc p';; cret RTC_ERR_SUCCESS
            end).

Definition rtcAddRemoteCandidate (pc : Z) (cand mid : option (list Z)) : rtc_state -> Z * rtc_state :=
  wrap_api (let* p := getPeerConnection pc in
            match cand with
            | None => throw invalid_argument
            | Some cand => let* p' := lift (pc_addRemoteCandidate p cand (default [] mid)) in
                           set_peer pc p';; cret RTC_ERR_SUCCESS
            end).

(** A function that fills a buffer: its return value, the state and the buffer. *)
Definition fill (m : capi (option (list Z))) (buffer : list mem_byte) (size : Z) (s : rtc_state) :
    option (Z * list mem_byte * rtc_state) :=
  match m s with
  | (inr (Some str), s') => '(n, b) ← copyAndReturn str buffer size; Some (n, b, s')
  | (inr None, s') => Some (RTC_ERR_NOT_AVAIL, buffer, s')
  | (inl invalid_argument, s') => Some (RTC_ERR_INVALID, buffer, s')
  | (inl other_exception, s') => Some (RTC_ERR_FAILURE, buffer, s')
  end.

Definition rtcGetLocalAddress (pc : Z) := fill (let* p := getPeerConnection pc in cret (pc_localAddress p)).
Definition rtcGetRemoteAddress (pc : Z) := fill (let* p := getPeerConnection pc in cret (pc_remoteAddress p)).

(** ** Data channels *)

Definition reliability_of (r : rtcReliability) : Reliability := {|
  unordered := c_unordered r;
  maxPacketLifeTime :=
    if c_unreliable r && (c_maxPacketLifeTime r >? 0) then Some (c_maxPacketLifeTime r) else None;
  maxRetransmits :=
    if c_unreliable r && negb (c_maxPacketLifeTime r >? 0) then Some (c_maxRetransmits r) else None
|}.

Definition default_reliability : Reliability :=
  {| unordered := false; maxPacketLifeTime := None; maxRetransmits := None |}.

(** The binding leaves [protocol], [negotiated], [manualStream] and [stream] zero. *)
Definition make_DataChannelInit (init : option rtcReliability) : DataChannelInit := {|
  dci_reliability := match init with Some r => reliability_of r | None => default_reliability end;
  negotiated := false; dci_id := None; protocol := []
|}.

Definition rtcCreateDataChannelEx (pc : Z) (label : list Z) (init : option rtcReliability) :
    rtc_state -> Z * rtc_state :=
  wrap_api (let* p := getPeerConnection pc in
            let* pd := lift (pc_createDataChannel p label (make_DataChannelInit init)) in
            set_peer pc (fst pd);;
            let* dc := emplaceDataChannel (snd pd) in
            let* s := get in
            match getUserPointer pc s with
            | Some ptr => put (rtcSetUserPointer dc ptr s)
            | None => cret ()
            end;; cret dc).

Definition rtcCreateDataChannel (pc : Z) (label : list Z) := rtcCreateDataChannelEx pc label None.

Definition rtcDeleteDataChannel (dc : Z) : rtc_state -> Z * rtc_state :=
  wrap_api (let* d := getDataChannel dc in
            set_chan dc (dc_close d);; eraseDataChannel dc;; cret RTC_ERR_SUCCESS).

(** The five [rtcSet*Callback] functions on channels. *)
Definition rtcSetChannelCallback (k : callback_kind) (id : Z) (cb : bool) : rtc_state -> Z * rtc_state :=
  wrap_api (let* d := getChannel id in install id k cb;; cret RTC_ERR_SUCCESS).

(** [data] is [None] for NULL; the bytes read are within the object. *)
Definition rtcSendMessage (id : Z) (data : option (list Z)) (size : Z) (s : rtc_state) : option (Z * rtc_state) :=
  match getChannel id s with
  | (inl _, s) => Some (wrap_api (throw invalid_argument) s)
  | (inr d, s) =>
      match data with
      | None =>
          Some (wrap_api (if size =? 0
                          then let* d' := lift (dc_send d (Binary [])) in set_chan id d';; cret RTC_ERR_SUCCESS
                          else throw invalid_argument) s)
      | Some b =>
          msg ← (if size >=? 0
                 then if size <=? zlen b then Some (Binary (take (Z.to_nat size) b)) else None
                 else n ← strlen b; Some (Text (take (Z.to_nat n) b)));
          Some (wrap_api (let* d' := lift (dc_send d msg) in set_chan id d';; cret RTC_ERR_SUCCESS) s)
      end
  end.

Definition rtcGetDataChannelLabel (dc : Z) := fill (let* d := getDataChannel dc in cret (Some (dc_label d))).

(** On success the structure is overwritten, otherwise it is left as it was. *)
Definition rtcGetDataChannelReliability (dc : Z) (r : option rtcReliability) (s : rtc_state) :
    Z * option rtcReliability * rtc_state :=
  match getDataChannel dc s with
  | (inr d, s') =>
      let dcr := dc_reliability d in
      let res := match maxPacketLifeTime dcr, maxRetransmits dcr with
        | Some t, _ => {| c_unordered := unordered dcr; c_unreliable := true;
                          c_maxPacketLifeTime := u32 t; c_maxRetransmits := 0 |}
        | None, Some n => {| c_unordered := unordered dcr; c_unreliable := true;
                             c_maxPacketLifeTime := 0; c_maxRetransmits := n |}
        | None, None => {| c_unordered := unordered dcr; c_unreliable := false;
                           c_maxPacketLifeTime := 0; c_maxRetransmits := 0 |}
        end in
      (RTC_ERR_SUCCESS, Some res, s')
  | (inl invalid_argument, s') => (RTC_ERR_INVALID, r, s')
  | (inl other_exception, s') => (RTC_ERR_FAILURE, r, s')
  end.

Definition rtcGetBufferedAmount (id : Z) : rtc_state -> Z * rtc_state :=
  wrap_api (let* d := getChannel id in cret (i32 (dc_bufferedAmount d))).

Definition rtcSetBufferedAmountLowThreshold (id amount : Z) : rtc_state -> Z * rtc_state :=
  wrap_api (let* d := getChannel id in
            set_chan id (dc_setBufferedAmountLowThreshold d (u64 amount));; cret RTC_ERR_SUCCESS).

(** The lambda [rtcSetDataChannelCallback] registers, up to the call of the user's
    function: the identifier of the new channel and the user pointer to call it with. *)
Definition on_data_channel (pc : Z) (d : D) (s : rtc_state) : Z * option (option positive) * rtc_state :=
  match emplaceDataChannel d s with
  | (inr dc, s') =>
      match getUserPointer pc s' with
      | Some ptr => (dc, Some ptr, rtcSetUserPointer dc ptr s')
      | None => (dc, None, s')
      end
  | (inl _, s') => (0, None, s')
  end.

(** ** Facts about the maps *)

Lemma getDataChannel_eq id s :
  getDataChannel id s = (match dataChannelMap s !! id with Some d => inr d | None => inl invalid_argument end, s).
Proof. unfold getDataChannel, cbind, get. by destruct (dataChannelMap s !! id). Qed.

Lemma getPeerConnection_eq id s :
  getPeerConnection id s = (match peerConnectionMap s !! id with Some p => inr p | None => inl invalid_argument end, s).
Proof. unfold getPeerConnection, cbind, get. by destruct (peerConnectionMap s !! id). Qed.

Definition with_callback (id : Z) (k : callback_kind) (cb : bool) (s : rtc_state) : rtc_state :=
  let rest := filter (fun e => e ≠ (id, k)) (callbacks s) in
  Rtc (lastId s) (peerConnectionMap s) (dataChannelMap s) (userPointerMap s)
    (if cb then (id, k) :: rest else rest).

Lemma rtcSetChannelCallback_eq k id cb s :
  rtcSetChannelCallback k id cb s =
    match dataChannelMap s !! id with
    | Some _ => (RTC_ERR_SUCCESS, with_callback id k cb s)
    | None => (RTC_ERR_INVALID, s)
    end.
Proof.
  unfold rtcSetChannelCallback, wrap_api, getChannel, cbind. rewrite getDataChannel_eq.
  by destruct (dataChannelMap s !! id).
Qed.

Lemma rtcSetPcCallback_eq k id cb s :
  rtcSetPcCallback k id cb s =
    match peerConnectionMap s !! id with
    | Some _ => (RTC_ERR_SUCCESS, with_callback id k cb s)
    | None => (RTC_ERR_INVALID, s)
    end.
Proof.
  unfold rtcSetPcCallback, wrap_api, cbind. rewrite getPeerConnection_eq.
  by destruct (peerConnectionMap s !! id).
Qed.

Lemma elem_of_with_callback id k cb s e :
  e ∈ callbacks (with_callback id k cb s) <->
    (if cb then e = (id, k) \/ e ∈ callbacks s else e ≠ (id, k) /\ e ∈ callbacks s).
Proof.
  unfold with_callback. destruct cb; simpl.
  - rewrite elem_of_cons, list_elem_of_filter. destruct (decide (e = (id, k))); naive_solver.
  - by rewrite list_elem_of_filter.
Qed.

(** Setting callbacks changes no map. *)
Record same_maps (s s' : rtc_state) : Prop := {
  sm_lastId : lastId s' = lastId s;
  sm_peers : peerConnectionMap s' = peerConnectionMap s;
  sm_chans : dataChannelMap s' = dataChannelMap s;
  sm_users : userPointerMap s' = userPointerMap s
}.

Lemma same_maps_refl s : same_maps s s.
Proof. by split. Qed.
Lemma same_maps_trans s1 s2 s3 : same_maps s1 s2 -> same_maps s2 s3 -> same_maps s1 s3.
Proof. intros [] []. split; congruence. Qed.

Lemma same_maps_channel k id cb s : same_maps s (snd (rtcSetChannelCallback k id cb s)).
Proof. rewrite rtcSetChannelCallback_eq. by destruct (dataChannelMap s !! id). Qed.
Lemma same_maps_pc k id cb s : same_maps s (snd (rtcSetPcCallback k id cb s)).
Proof. rewrite rtcSetPcCallback_eq. by destruct (peerConnectionMap s !! id). Qed.

(** A successful creation: the next identifier, the channel in the map, and the user
    pointer of the connection for it. *)
Lemma rtcCreateDataChannelEx_ok pc label init s p p' d :
  peerConnectionMap s !! pc = Some p ->
  pc_createDataChannel p label (make_DataChannelInit init) = inr (p', d) ->
  0 <= lastId s < 2147483647 ->
  dataChannelMap s !! (lastId s + 1) = None -> userPointerMap s !! (lastId s + 1) = None -> pc ≠ lastId s + 1 ->
  rtcCreateDataChannelEx pc label init s =
    (lastId s + 1,
     Rtc (lastId s + 1) (<[pc := p']> (peerConnectionMap s)) (<[lastId s + 1 := d]> (dataChannelMap s))
       (<[lastId s + 1 := rtcGetUserPointer pc s]> (userPointerMap s)) (callbacks s)).
Proof.
  intros Hp Hnew Hid Hd Hu Hne. unfold rtcCreateDataChannelEx, wrap_api, cbind, lift, set_peer, cret.
  rewrite getPeerConnection_eq, Hp, Hnew. simpl. unfold emplaceDataChannel, cbind, get, put, cret. simpl.
  unfold emplace. norm_words. rewrite Hd, Hu. unfold getUserPointer. simpl. rewrite lookup_insert_ne by done.
  unfold rtcGetUserPointer, getUserPointer. destruct (userPointerMap s !! pc) as [ptr|]; simpl; norm_words; [|done].
  unfold rtcSetUserPointer. simpl. by rewrite insert_insert_eq.
Qed.

Lemma rtcCreateDataChannelEx_unknown pc label init s :
  peerConnectionMap s !! pc = None -> rtcCreateDataChannelEx pc label init s = (RTC_ERR_INVALID, s).
Proof.
  intros Hp. unfold rtcCreateDataChannelEx, wrap_api, cbind. by rewrite getPeerConnection_eq, Hp.
Qed.

Lemma rtcGetDataChannelReliability_eq id r s :
  rtcGetDataChannelReliability id r s =
    match dataChannelMap s !! id with
    | Some d => (RTC_ERR_SUCCESS, Some
        (let dcr := dc_reliability d in
         {| c_unordered := unordered dcr;
            c_unreliable := match maxPacketLifeTime dcr, maxRetransmits dcr with None, None => false | _, _ => true end;
            c_maxPacketLifeTime := match maxPacketLifeTime dcr with Some t => u32 t | None => 0 end;
            c_maxRetransmits := match maxPacketLifeTime dcr, maxRetransmits dcr with None, Some n => n | _, _ => 0 end |}), s)
    | None => (RTC_ERR_INVALID, r, s)
    end.
Proof.
  unfold rtcGetDataChannelReliability. rewrite getDataChannel_eq.
  destruct (dataChannelMap s !! id) as [d|]; [|done].
  by destruct (maxPacketLifeTime (dc_reliability d)), (maxRetransmits (dc_reliability d)).
Qed.

Lemma copyAndReturn_spec str buffer size :
  zlen str < 2147483647 -> zlen buffer = size ->
  copyAndReturn str buffer size =
    Some (if zlen str <? size then (zlen str + 1, map Some (c_str str) ++ drop (S (length str)) buffer)
          else (RTC_ERR_TOO_SMALL, buffer)).
Proof.
  intros Hs Hb. unfold copyAndReturn. pose proof (zlen_nonneg str). norm_words.
  destruct (Z.ltb_spec size (zlen str + 1)), (Z.ltb_spec (zlen str) size); try lia; [done|].
  destruct (Z.leb_spec (zlen str + 1) (zlen buffer)); [done|lia].
Qed.
End capi.

Arguments rtc_state : clear implicits.
