(* ===== verification/Binding.v ===== *)
(** * The HashLink binding ([src/datachannel.c])

    Every primitive, finalizer and callback of the file, over one [world]: the C
    globals, the [malloc] heap, the collected objects, the root set, and the state of
    the [rtc*] functions.  [None] is undefined behaviour: a NULL or dangling pointer,
    an indeterminate value used, an access outside an object, or a mutex that is never
    released.  [malloc] is taken to succeed.  The HashLink runtime is a parameter:
    the classes of [Hl], [hl_to_utf8], and [handler], the effect of a HashLink
    closure called by [hl_dyn_call]. *)

From S2P Require Import Prelude Bytes LinkedQueue Hl CApi.

(** [char buffer[256];] *)
Definition buffer256 : list mem_byte := replicate 256 None.
Arguments buffer256 : simpl never.

(** [struct _hl_rtc_peerconnection]; a closure is NULL or a collected object. *)
Record hl_rtc_peerconnection := Pc {
  pc : Z;
  descCb : option positive; candidateCb : option positive; stateCb : option positive;
  gatheringStateCb : option positive;
  datachannelCb : option positive
}.

(** [struct _hl_rtc_datachannel] *)
Record hl_rtc_datachannel := Dc {
  dc : Z;
  openCb : option positive; closedCb : option positive; errCb : option positive;
  msgCb : option positive; bufferLowCb : option positive
}.

Inductive hl_object := PcObj (o : hl_rtc_peerconnection) | DcObj (o : hl_rtc_datachannel).

Definition field_of (o : hl_object) (f : field) : option (option positive) :=
  match o, f with
  | PcObj o, F_descCb => Some (descCb o)
  | PcObj o, F_candidateCb => Some (candidateCb o)
  | PcObj o, F_stateCb => Some (stateCb o)
  | PcObj o, F_gatheringStateCb => Some (gatheringStateCb o)
  | PcObj o, F_datachannelCb => Some (datachannelCb o)
  | DcObj o, F_openCb => Some (openCb o)
  | DcObj o, F_closedCb => Some (closedCb o)
  | DcObj o, F_errCb => Some (errCb o)
  | DcObj o, F_msgCb => Some (msgCb o)
  | DcObj o, F_bufferLowCb => Some (bufferLowCb o)
  | _, _ => None
  end.

(** A queued argument: a [malloc]ed byte block or an integer, by the type tag. *)
Inductive vdynamic := V_bytes (b : positive) | V_i32 (i : Z).

(** [struct _callback_result]; a field the code did not set is [None].  [closure] is the
    address of the field that holds the closure. *)
Record callback_result := Result {
  closure : positive * field;
  arg1 : option vdynamic; arg2 : option vdynamic;
  args : Z;
  arg1Size : option Z; arg2Size : option Z;
  callback_name : string
}.

(** [struct _datachannel_callback] *)
Record datachannel_callback := Channel { cb_dc : Z; cb_pc : positive }.

(** A value passed to a HashLink closure; the bytes are a fresh collected copy. *)
Inductive value := VBytes (b : list mem_byte) | VInt (i : Z) | VObj (o : positive).

Section binding.
Context {M : Type} {HM : HlMutex M} {S : Type} {HS : HlSemaphore S} {R : Type} {HR : HlRoots R}.
Context {P D : Type} {I : RtcImpl P D}.
Context (hl_to_utf8 : list Z -> list Z).

Record world := World {
  callback_result_mutex : option M;
  callback_result_semaphore : option S;
  datachannel_callbacks_semaphore : option S;
  callback_results : queue callback_result;
  datachannel_callbacks : queue datachannel_callback;
  mem : gmap positive (list mem_byte);     (* blocks of malloc, except the queue nodes *)
  objs : gmap positive hl_object;          (* collected objects *)
  roots : R;
  rtc : rtc_state P D;
  calls : list (positive * list value)     (* the closures called so far *)
}.

(** [hl_dyn_call]: what running a closure does to the world. *)
Context (handler : positive -> list value -> world -> option world).

Definition set_mutex m w := World m (callback_result_semaphore w) (datachannel_callbacks_semaphore w)
  (callback_results w) (datachannel_callbacks w) (mem w) (objs w) (roots w) (rtc w) (calls w).
Definition set_semaphore s w := World (callback_result_mutex w) s (datachannel_callbacks_semaphore w)
  (callback_results w) (datachannel_callbacks w) (mem w) (objs w) (roots w) (rtc w) (calls w).
Definition set_dc_semaphore s w := World (callback_result_mutex w) (callback_result_semaphore w) s
  (callback_results w) (datachannel_callbacks w) (mem w) (objs w) (roots w) (rtc w) (calls w).
Definition set_results q w := World (callback_result_mutex w) (callback_result_semaphore w)
  (datachannel_callbacks_semaphore w) q (datachannel_callbacks w) (mem w) (objs w) (roots w) (rtc w) (calls w).
Definition set_channels q w := World (callback_result_mutex w) (callback_result_semaphore w)
  (datachannel_callbacks_semaphore w) (callback_results w) q (mem w) (objs w) (roots w) (rtc w) (calls w).
Definition set_mem m w := World (callback_result_mutex w) (callback_result_semaphore w)
  (datachannel_callbacks_semaphore w) (callback_results w) (datachannel_callbacks w) m (objs w) (roots w) (rtc w) (calls w).
Definition set_objs o w := World (callback_result_mutex w) (callback_result_semaphore w)
  (datachannel_callbacks_semaphore w) (callback_results w) (datachannel_callbacks w) (mem w) o (roots w) (rtc w) (calls w).
Definition set_roots r w := World (callback_result_mutex w) (callback_result_semaphore w)
  (datachannel_callbacks_semaphore w) (callback_results w) (datachannel_callbacks w) (mem w) (objs w) r (rtc w) (calls w).
Definition set_rtc s w := World (callback_result_mutex w) (callback_result_semaphore w)
  (datachannel_callbacks_semaphore w) (callback_results w) (datachannel_callbacks w) (mem w) (objs w) (roots w) s (calls w).
Definition set_calls l w := World (callback_result_mutex w) (callback_result_semaphore w)
  (datachannel_callbacks_semaphore w) (callback_results w) (datachannel_callbacks w) (mem w) (objs w) (roots w) (rtc w) l.

(** ** The runtime and the heaps *)

Definition lock (w : world) : option world :=
  m ← callback_result_mutex w; m' ← hl_mutex_acquire m; Some (set_mutex (Some m') w).
Definition unlock (w : world) : option world :=
  m ← callback_result_mutex w; m' ← hl_mutex_release m; Some (set_mutex (Some m') w).

Definition add_root (a : addr) (w : world) : world := set_roots (hl_add_root a (roots w)) w.
Definition remove_root (a : addr) (w : world) : world := set_roots (hl_remove_root a (roots w)) w.

(** [malloc(n)] filled by the caller with the [n] bytes [b]; a negative [int] size converts
    to a [size_t] that cannot be allocated. *)
Definition malloc_bytes (n : Z) (b : list mem_byte) (w : world) : option (positive * world) :=
  if (0 <=? n) && (n =? zlen b) then
    let l := fresh (dom (mem w) : gset positive) in Some (l, set_mem (<[l := b]> (mem w)) w)
  else None.

Definition free_bytes (l : positive) (w : world) : option world :=
  _ ← mem w !! l; Some (set_mem (delete l (mem w)) w).

(** [memcpy] of [n] bytes out of an object with contents [b]. *)
Definition memcpy_from (b : list mem_byte) (n : Z) : option (list mem_byte) :=
  if (0 <=? n) && (n <=? zlen b) then Some (take (Z.to_nat n) b) else None.

Definition get_pc (l : positive) (w : world) : option hl_rtc_peerconnection :=
  match objs w !! l with Some (PcObj o) => Some o | _ => None end.
Definition get_dc (l : positive) (w : world) : option hl_rtc_datachannel :=
  match objs w !! l with Some (DcObj o) => Some o | _ => None end.

(** The closure stored in a field: dangling objects and NULL closures cannot be called. *)
Definition closure_at (a : positive * field) (w : world) : option positive :=
  o ← objs w !! fst a; c ← field_of o (snd a); c.

Definition hl_dyn_call (c : positive) (vs : list value) (w : world) : option world :=
  handler c vs (set_calls (calls w ++ [(c, vs)]) w).

(** An [rtc*] function whose result the binding ignores. *)
Definition rtc_do (f : rtc_state P D -> Z * rtc_state P D) (w : world) : world := set_rtc (snd (f (rtc w))) w.

(** ** Finalizers, run by the collector before it frees the object *)

Definition pc_fields := [F_candidateCb; F_datachannelCb; F_descCb; F_gatheringStateCb; F_stateCb].
Definition dc_fields := [F_bufferLowCb; F_closedCb; F_errCb; F_msgCb; F_openCb].

Definition remove_roots (l : positive) (fs : list field) (w : world) : world :=
  fold_left (fun w f => remove_root (FieldOf l f) w) fs w.
Definition add_roots (l : positive) (fs : list field) (w : world) : world :=
  fold_left (fun w f => add_root (FieldOf l f) w) fs w.

Definition hl_rtc_peerconnection_finalize (l : positive) (w : world) : option world :=
  o ← get_pc l w;
  let w := rtc_do (rtcSetPcCallback OnLocalCandidate (pc o) false) w in
  let w := rtc_do (rtcSetPcCallback OnLocalDescription (pc o) false) w in
  let w := rtc_do (rtcSetPcCallback OnStateChange (pc o) false) w in
  let w := rtc_do (rtcSetPcCallback OnGatheringStateChange (pc o) false) w in
  let w := rtc_do (rtcSetPcCallback OnDataChannel (pc o) false) w in
  let w := rtc_do (rtcDeletePeerConnection (pc o)) w in
  Some (remove_roots l pc_fields w).

Definition hl_rtc_datachannel_finalize (l : positive) (w : world) : option world :=
  o ← get_dc l w;
  let w := rtc_do (rtcSetChannelCallback OnOpen (dc o) false) w in
  let w := rtc_do (rtcSetChannelCallback OnClosed (dc o) false) w in
  let w := rtc_do (rtcSetChannelCallback OnError (dc o) false) w in
  let w := rtc_do (rtcSetChannelCallback OnMessage (dc o) false) w in
  let w := rtc_do (rtcSetChannelCallback OnBufferedAmountLow (dc o) false) w in
  let w := rtc_do (rtcDeleteDataChannel (dc o)) w in
  Some (remove_roots l dc_fields w).

Definition gc_collect (l : positive) (w : world) : option world :=
  o ← objs w !! l;
  w ← match o with
      | PcObj _ => hl_rtc_peerconnection_finalize l w
      | DcObj _ => hl_rtc_datachannel_finalize l w
      end;
  Some (set_objs (delete l (objs w)) w).

(** ** Construction *)

(** [hl_gc_alloc_finalizer] followed by the initialisation of every field. *)
Definition gc_alloc (o : hl_object) (w : world) : positive * world :=
  let l := fresh (dom (objs w) : gset positive) in (l, set_objs (<[l := o]> (objs w)) w).

Definition hl_rtc_make_datachannel (id : Z) (w : world) : positive * world :=
  let '(l, w) := gc_alloc (DcObj (Dc id None None None None None)) w in
  let w := add_roots l dc_fields w in
  let w := set_rtc (rtcSetUserPointer id (Some l) (rtc w)) w in
  let w := rtc_do (rtcSetChannelCallback OnOpen id true) w in
  let w := rtc_do (rtcSetChannelCallback OnClosed id true) w in
  let w := rtc_do (rtcSetChannelCallback OnError id true) w in
  let w := rtc_do (rtcSetChannelCallback OnMessage id true) w in
  (l, rtc_do (rtcSetChannelCallback OnBufferedAmountLow id true) w).

Definition initialize (w : world) : world :=
  let w := match callback_result_mutex w with
           | Some _ => w
           | None => add_root G_callback_result_mutex (set_mutex (Some (hl_mutex_alloc false)) w)
           end in
  let w := match callback_result_semaphore w with
           | Some _ => w
           | None => add_root G_callback_result_semaphore (set_semaphore (Some (hl_semaphore_alloc 0)) w)
           end in
  match datachannel_callbacks_semaphore w with
  | Some _ => w
  | None => add_root G_datachannel_callbacks_semaphore (set_dc_semaphore (Some (hl_semaphore_alloc 0)) w)
  end.

Definition finalize (w : world) : world :=
  let w := match callback_result_mutex w with
           | None => w
           | Some _ => set_mutex None (remove_root G_callback_result_mutex w)
           end in
  let w := match callback_result_semaphore w with
           | None => w
           | Some _ => set_semaphore None (remove_root G_callback_result_semaphore w)
           end in
  match datachannel_callbacks_semaphore w with
  | None => w
  | Some _ => set_dc_semaphore None (remove_root G_datachannel_callbacks_semaphore w)
  end.

(** [iceServers_]: the C strings in the array; [bindAddress_]: UTF-16 code units. *)
Definition create_peer_connection (iceServers_ : list (list Z)) (bindAddress_ : list Z)
    (portBegin portEnd mtu_ maxMessageSize_ : Z) (w : world) : positive * world :=
  let conf := {| iceServers := iceServers_; bindAddress := Some (hl_to_utf8 bindAddress_);
                 portRangeBegin := u16 portBegin; portRangeEnd := u16 portEnd;
                 mtu := mtu_; maxMessageSize := maxMessageSize_ |} in
  let '(id, s) := rtcCreatePeerConnection conf (rtc w) in
  let '(l, w) := gc_alloc (PcObj (Pc id None None None None None)) (set_rtc s w) in
  let w := add_roots l pc_fields w in
  let w := set_rtc (rtcSetUserPointer id (Some l) (rtc w)) w in
  let w := rtc_do (rtcSetPcCallback OnLocalDescription id true) w in
  let w := rtc_do (rtcSetPcCallback OnLocalCandidate id true) w in
  let w := rtc_do (rtcSetPcCallback OnStateChange id true) w in
  (l, rtc_do (rtcSetPcCallback OnGatheringStateChange id true) w).

(** ** Primitives on peer connections *)

Definition close_peer_connection (l : positive) (w : world) : option world :=
  o ← get_pc l w; Some (rtc_do (rtcClosePeerConnection (pc o)) w).

Definition set_peer_connection_callbacks (l : positive)
    (descCb_ candidateCb_ stateCb_ gatheringStateCb_ : option positive) (w : world) : option world :=
  o ← get_pc l w;
  Some (set_objs (<[l := PcObj (Pc (pc o) descCb_ candidateCb_ stateCb_ gatheringStateCb_ (datachannelCb o))]>
                    (objs w)) w).

(** A NUL-terminated argument, NULL or the contents of its object. *)
Definition read_string (b : option (list Z)) : option (option (list Z)) :=
  match b with
  | None => Some None
  | Some b => n ← strlen b; Some (Some (take (Z.to_nat n) b))
  end.

Definition set_remote_description (l : positive) (desc : option (list Z)) (type : list Z) (w : world) :
    option world :=
  let typestr := hl_to_utf8 type in
  w ← (if decide (typestr = bytes_of_string "offer") then
         o ← get_pc l w; desc' ← read_string desc;
         Some (rtc_do (rtcSetRemoteDescription (pc o) desc' (bytes_of_string "offer")) w)
       else Some w);
  if decide (typestr = bytes_of_string "answer") then
    o ← get_pc l w; desc' ← read_string desc;
    Some (rtc_do (rtcSetRemoteDescription (pc o) desc' (bytes_of_string "answer")) w)
  else Some w.

Definition add_remote_candidate (l : positive) (candidate : option (list Z)) (w : world) : option world :=
  o ← get_pc l w; cand ← read_string candidate;
  Some (rtc_do (rtcAddRemoteCandidate (pc o) cand None) w).

Definition create_datachannel (l : positive) (name : list Z) (w : world) : option (positive * world) :=
  o ← get_pc l w;
  let '(id, s) := rtcCreateDataChannel (pc o) (hl_to_utf8 name) (rtc w) in
  Some (hl_rtc_make_datachannel id (set_rtc s w)).

Definition create_datachannel_ex (l : positive) (name : list Z) (unordered_ : bool)
    (maxRetransmits_ maxLifetime : Z) (w : world) : option (positive * world) :=
  o ← get_pc l w;
  let reliability := {| c_unreliable := negb (maxLifetime =? 0) || negb (maxRetransmits_ =? 0);
                        c_unordered := unordered_;
                        c_maxPacketLifeTime := u32 maxLifetime;
                        c_maxRetransmits := u32 maxRetransmits_ |} in
  let '(id, s) := rtcCreateDataChannelEx (pc o) (hl_to_utf8 name) (Some reliability) (rtc w) in
  Some (hl_rtc_make_datachannel id (set_rtc s w)).

Definition set_peerconnection_datachannel_cb (l : positive) (openCb_ : option positive) (w : world) : option world :=
  o ← get_pc l w;
  let w := rtc_do (rtcSetPcCallback OnDataChannel (pc o) true) w in
  Some (set_objs (<[l := PcObj (Pc (pc o) (descCb o) (candidateCb o) (stateCb o) (gatheringStateCb o) openCb_)]>
                    (objs w)) w).

(** [get_local_address] and [get_remote_address]: NULL or a copy of the bytes written. *)
Definition get_address
    (f : Z -> list mem_byte -> Z -> rtc_state P D -> option (Z * list mem_byte * rtc_state P D))
    (l : positive) (w : world) : option (option value * world) :=
  o ← get_pc l w;
  '(buflen, buf, s) ← f (pc o) buffer256 256 (rtc w);
  if buflen >? 0 then b ← memcpy_from buf buflen; Some (Some (VBytes b), set_rtc s w)
  else Some (None, set_rtc s w).

Definition get_local_address := get_address rtcGetLocalAddress.
Definition get_remote_address := get_address rtcGetRemoteAddress.

(** ** Primitives on data channels *)

Definition set_datachannel_callbacks (l : positive)
    (openCb_ closeCb_ errorCb_ msgCb_ bufferLowCb_ : option positive) (w : world) : option world :=
  o ← get_dc l w;
  Some (set_objs (<[l := DcObj (Dc (dc o) openCb_ closeCb_ errorCb_ msgCb_ bufferLowCb_)]> (objs w)) w).

Definition datachannel_send_message (l : positive) (bytes : option (list Z)) (len : Z) (w : world) : option world :=
  o ← get_dc l w; '(_, s) ← rtcSendMessage (dc o) bytes len (rtc w); Some (set_rtc s w).

(** The fields of the dynamic object: [hl_dyn_seti] takes an [int]; the structure is
    indeterminate when the call did not fill it. *)
Definition get_datachannel_reliability (l : positive) (w : world) :
    option (list (string * Z) * world) :=
  o ← get_dc l w;
  let '(_, r, s) := rtcGetDataChannelReliability (dc o) None (rtc w) in
  r ← r;
  Some ([("unordered"%string, if c_unordered r then 1 else 0);
         ("maxRetransmits"%string, i32 (c_maxRetransmits r));
         ("maxLifetime"%string, i32 (c_maxPacketLifeTime r))], set_rtc s w).

Definition get_buffered_amount (l : positive) (w : world) : option (Z * world) :=
  o ← get_dc l w;
  let '(n, s) := rtcGetBufferedAmount (dc o) (rtc w) in Some (n, set_rtc s w).

Definition set_buffered_amount_low_threshold (l : positive) (amt : Z) (w : world) : option world :=
  o ← get_dc l w; Some (rtc_do (rtcSetBufferedAmountLowThreshold (dc o) amt) w).

(** ** Callbacks, called on the threads of libdatachannel *)

(** The critical section all the [callback_result] producers have: fill a new item at the
    end of the queue, then release one token. *)
Definition post (fill : world -> option (callback_result * world)) (w : world) : option world :=
  w ← lock w;
  '(l, q) ← queue_alloc (callback_results w);
  '(it, w) ← fill (set_results q w);
  q ← queue_set (callback_results w) l it;
  w ← unlock (set_results q w);
  s ← callback_result_semaphore w;
  Some (set_semaphore (Some (hl_semaphore_release s)) w).

(** [strlen] assigned to an [int]. *)
Definition int_strlen (s : list Z) : option Z := n ← strlen s; Some (i32 n).

(** [malloc(len + 1)], [memcpy(_, s, len)] and the terminating NUL; [len + 1] must not overflow. *)
Definition copy_string (s : list Z) (len : Z) (w : world) : option (positive * world) :=
  if len =? 2147483647 then None else
  b ← memcpy_from (map Some s) len; malloc_bytes (len + 1) (b ++ [Some 0]) w.

Definition descriptionCallback (sdp type : list Z) (ptr : positive) (w : world) : option world :=
  sdpLen ← int_strlen sdp;
  '(b1, w) ← copy_string sdp sdpLen w;
  typeLen ← int_strlen type;
  '(b2, w) ← copy_string type typeLen w;
  post (fun w => Some (Result (ptr, F_descCb) (Some (V_bytes b1)) (Some (V_bytes b2)) 2
                         (Some (sdpLen + 1)) (Some (typeLen + 1)) "onDescription", w)) w.

Definition candidateCallback (cand : list Z) (ptr : positive) (w : world) : option world :=
  sdpLen ← int_strlen cand;
  '(b1, w) ← copy_string cand sdpLen w;
  post (fun w => Some (Result (ptr, F_candidateCb) (Some (V_bytes b1)) None 1
                         (Some (sdpLen + 1)) None "onCandidate", w)) w.

Definition stateChangeCallback (state : Z) (ptr : positive) (w : world) : option world :=
  post (fun w => Some (Result (ptr, F_stateCb) (Some (V_i32 state)) None 1 None None "onStateChange", w)) w.

Definition gatheringStateCallback (state : Z) (ptr : positive) (w : world) : option world :=
  post (fun w => Some (Result (ptr, F_gatheringStateCb) (Some (V_i32 state)) None 1 None None
                         "onGatheringStateChange", w)) w.

Definition unnamed : list mem_byte := map Some (c_str (bytes_of_string "unnamed")).

Definition openCallback (ptr : positive) (w : world) : option world :=
  hldc ← get_dc ptr w;
  match openCb hldc with
  | None => Some w
  | Some _ =>
      '(ret, buffer, s) ← rtcGetDataChannelLabel (dc hldc) buffer256 256 (rtc w);
      let w := set_rtc s w in
      if ret >=? 0 then
        post (fun w => '(b, w) ← malloc_bytes 256 buffer w;
                       Some (Result (ptr, F_openCb) (Some (V_bytes b)) None 1 (Some 256) None "onOpen", w)) w
      else
        post (fun w => '(b, w) ← malloc_bytes 8 unnamed w;
                       Some (Result (ptr, F_openCb) (Some (V_bytes b)) None 1 (Some 8) None "onOpen", w)) w
  end.

Definition closedCallback (ptr : positive) (w : world) : option world :=
  post (fun w => Some (Result (ptr, F_closedCb) None None 0 None None "onClose", w)) w.

Definition errorCallback (error : list Z) (ptr : positive) (w : world) : option world :=
  errorlen ← int_strlen error;
  post (fun w => '(b, w) ← copy_string error errorlen w;
                 Some (Result (ptr, F_errCb) (Some (V_bytes b)) None 1 (Some (errorlen + 1)) None "onError", w)) w.

Definition messageCallback (message : list Z) (size : Z) (ptr : positive) (w : world) : option world :=
  if size <? 0 then (* negative size indicates a null-terminated string *)
    len ← int_strlen message;
    post (fun w => '(b, w) ← copy_string message len w;
                   Some (Result (ptr, F_msgCb) (Some (V_bytes b)) (Some (V_i32 (len + 1))) 2
                           (Some (len + 1)) None "onMessage", w)) w
  else
    post (fun w => c ← memcpy_from (map Some message) size;
                   '(b, w) ← malloc_bytes size c w;
                   Some (Result (ptr, F_msgCb) (Some (V_bytes b)) (Some (V_i32 size)) 2
                           (Some size) None "onMessage", w)) w.

Definition bufferedAmountLowCallback (ptr : positive) (w : world) : option world :=
  post (fun w => Some (Result (ptr, F_bufferLowCb) None None 0 None None "onBufferLow", w)) w.

Definition dataChannelCallback (id : Z) (ptr : positive) (w : world) : option world :=
  w ← lock w;
  q ← enqueue (datachannel_callbacks w) (Channel id ptr);
  unlock (set_channels q w).

(** ** The event loop *)

(** One iteration over the incoming data channels; [false] is the [break]. *)
Definition channel_step (w : world) : option (bool * world) :=
  w ← lock w;
  '(res, q) ← queue_pop (datachannel_callbacks w);
  w ← unlock (set_channels q w);
  match res with
  | None => Some (false, w)
  | Some l =>
      it ← queue_read (datachannel_callbacks w) l;
      let '(hldc, w) := hl_rtc_make_datachannel (cb_dc it) w in
      c ← closure_at (cb_pc it, F_datachannelCb) w;
      o ← get_dc hldc w;
      '(ret, buffer, s) ← rtcGetDataChannelLabel (dc o) buffer256 256 (rtc w);
      let w := set_rtc s w in
      w ← hl_dyn_call c [VObj hldc; VBytes (if ret >=? 0 then buffer else unnamed)] w;
      q ← queue_free (datachannel_callbacks w) l;
      Some (true, set_channels q w)
  end.

(** The collected copy of a queued argument; a byte block is freed. *)
Definition fetch (present : bool) (arg : option vdynamic) (size : option Z) (w : world) :
    option (option value * world) :=
  if negb present then Some (None, w) else
  arg ← arg;
  match arg with
  | V_i32 i => Some (Some (VInt i), w)
  | V_bytes b =>
      blk ← mem w !! b; size ← size;
      c ← memcpy_from blk size;
      w ← free_bytes b w; Some (Some (VBytes c), w)
  end.

(** The part of an iteration that reads the item and calls the closure.
    [res->closure] is the address of a field, so it is never NULL. *)
Definition dispatch (it : callback_result) (w : world) : option world :=
  '(v1, w) ← fetch (args it >=? 1) (arg1 it) (arg1Size it) w;
  '(v2, w) ← fetch (args it >=? 2) (arg2 it) (arg2Size it) w;
  if args it =? 0 then c ← closure_at (closure it) w; hl_dyn_call c [] w
  else if args it =? 1 then c ← closure_at (closure it) w; v1 ← v1; hl_dyn_call c [v1] w
  else if args it =? 2 then c ← closure_at (closure it) w; v1 ← v1; v2 ← v2; hl_dyn_call c [v1; v2] w
  else Some w.

(** One iteration over the regular callbacks. *)
Definition result_step (w : world) : option (bool * world) :=
  s ← callback_result_semaphore w;
  let '(ok, s) := hl_semaphore_try_acquire s in
  let w := set_semaphore (Some s) w in
  if negb ok then Some (false, w) else
  w ← lock w;
  '(res, q) ← queue_pop (callback_results w);
  w ← unlock (set_results q w);
  match res with
  | None => Some (false, w)
  | Some l =>
      it ← queue_read (callback_results w) l;
      w ← dispatch it w;
      q ← queue_free (callback_results w) l;
      Some (true, set_results q w)
  end.

Fixpoint while (fuel : nat) (step : world -> option (bool * world)) (w : world) : option world :=
  match fuel with
  | O => None
  | Datatypes.S n => '(go, w) ← step w; if (go : bool) then while n step w else Some w
  end.

Definition process_events (fuel : nat) (w : world) : option world :=
  w ← while fuel channel_step w; while fuel result_step w.

(** ** Facts shared by the theorems *)

(** A sequence of calls that set callbacks of channel [id]. *)
Fixpoint set_channel_callbacks (id : Z) (cb : bool) (ks : list callback_kind) (w : world) : world :=
  match ks with
  | [] => w
  | k :: ks' => set_channel_callbacks id cb ks' (rtc_do (rtcSetChannelCallback k id cb) w)
  end.
Fixpoint set_pc_callbacks (id : Z) (cb : bool) (ks : list callback_kind) (w : world) : world :=
  match ks with
  | [] => w
  | k :: ks' => set_pc_callbacks id cb ks' (rtc_do (rtcSetPcCallback k id cb) w)
  end.

Lemma set_channel_callbacks_eq id cb ks w :
  exists s, set_channel_callbacks id cb ks w = set_rtc s w /\ same_maps (rtc w) s /\
    forall e, e ∈ callbacks s <->
      if decide (is_Some (dataChannelMap (rtc w) !! id) /\ e.1 = id /\ e.2 ∈ ks) then cb = true
      else e ∈ callbacks (rtc w).
Proof.
  revert w. induction ks as [|k ks IH]; intros w; simpl.
  - exists (rtc w). split; [by destruct w|]. split; [apply same_maps_refl|]. intros e.
    rewrite decide_False; [done|]. set_solver.
  - destruct (IH (rtc_do (rtcSetChannelCallback k id cb) w)) as (s & -> & Hs & He).
    exists s. split; [done|].
    pose proof (same_maps_channel k id cb (rtc w)) as Hk. split; [by eapply same_maps_trans|].
    intros e. rewrite He. unfold rtc_do in *. simpl. rewrite (sm_chans _ _ Hk). simpl in *. clear He IH Hs Hk.
    rewrite rtcSetChannelCallback_eq.
    destruct (dataChannelMap (rtc w) !! id) as [d|] eqn:Hd; cbn [snd].
    + pose proof (elem_of_with_callback id k cb (rtc w) e) as Hw. destruct e as [i k'].
      case_decide as H1; case_decide as H2; simpl in *; try done; try set_solver.
      * assert (i = id /\ k' = k) as [-> ->] by set_solver. destruct cb; naive_solver.
      * assert ((i, k') ≠ (id, k)) by (intros [= -> ->]; apply H2; set_solver). destruct cb; naive_solver.
    + rewrite !decide_False; [done| |]; intros [[? ?] ?]; done.
Qed.

Definition occurrences (l : positive) (fs : list field) (a : addr) : nat :=
  length (filter (fun f => FieldOf l f = a) fs).

Lemma occurrences_own l fs f : occurrences l fs (FieldOf l f) = length (filter (fun g => g = f) fs).
Proof. unfold occurrences. f_equal. apply list_filter_iff. intros g. split; [by intros [= ->]|by intros ->]. Qed.

Lemma occurrences_other l l' fs f : l ≠ l' -> occurrences l fs (FieldOf l' f) = 0%nat.
Proof.
  intros Hne. unfold occurrences. induction fs as [|g fs IH]; [done|].
  rewrite filter_cons_False; [done|]. by intros [= -> _].
Qed.

Lemma add_roots_eq l fs w :
  exists r, add_roots l fs w = set_roots r w /\
    forall a, root_count r a = (occurrences l fs a + root_count (roots w) a)%nat.
Proof.
  revert w. induction fs as [|f fs IH]; intros w; simpl.
  - exists (roots w). split; [by destruct w|done].
  - destruct (IH (add_root (FieldOf l f) w)) as (r & Hr & Hc). exists r. split; [exact Hr|]. intros a.
    rewrite Hc. unfold add_root. simpl. rewrite hl_add_root_count. unfold occurrences. rewrite filter_cons.
    case_decide; simpl; lia.
Qed.

Lemma remove_roots_eq l fs w :
  exists r, remove_roots l fs w = set_roots r w /\
    forall a, root_count r a = (root_count (roots w) a - occurrences l fs a)%nat.
Proof.
  revert w. induction fs as [|f fs IH]; intros w; simpl.
  - exists (roots w). split; [by destruct w|]. intros a. unfold occurrences. simpl. lia.
  - destruct (IH (remove_root (FieldOf l f) w)) as (r & Hr & Hc). exists r. split; [exact Hr|]. intros a.
    rewrite Hc. unfold remove_root. simpl. rewrite hl_remove_root_count. unfold occurrences. rewrite filter_cons.
    case_decide; simpl; lia.
Qed.

(** The new data channel object: fresh, registered as the user pointer of [id], rooted,
    and, when [id] names a channel, with the five callbacks installed. *)
Lemma hl_rtc_make_datachannel_spec id w :
  exists l r s, hl_rtc_make_datachannel id w =
      (l, set_rtc s (set_roots r (set_objs (<[l := DcObj (Dc id None None None None None)]> (objs w)) w))) /\
    objs w !! l = None /\
    (forall a, root_count r a = (occurrences l dc_fields a + root_count (roots w) a)%nat) /\
    same_maps (rtcSetUserPointer id (Some l) (rtc w)) s /\
    (is_Some (dataChannelMap (rtc w) !! id) ->
     forall k, k ∈ [OnOpen; OnClosed; OnError; OnMessage; OnBufferedAmountLow] -> (id, k) ∈ callbacks s).
Proof.
  unfold hl_rtc_make_datachannel, gc_alloc. set (l := fresh _).
  set (w0 := set_objs _ w). destruct (add_roots_eq l dc_fields w0) as (r & -> & Hr).
  set (w1 := set_rtc (rtcSetUserPointer id (Some l) (rtc (set_roots r w0))) (set_roots r w0)).
  destruct (set_channel_callbacks_eq id true [OnOpen; OnClosed; OnError; OnMessage; OnBufferedAmountLow] w1)
    as (s & Hs & Hm & Hcb).
  exists l, r, s. split; [f_equal; exact Hs|]. split.
  { apply (not_elem_of_dom (D := gset positive)). apply is_fresh. }
  split; [done|]. split; [exact Hm|]. intros Hd k Hk. apply Hcb. by rewrite decide_True.
Qed.
End binding.

Arguments world : clear implicits.
