(* ===== verification/BindingEvents.v ===== *)
(** * Event delivery of the binding

    What the callbacks of [Binding] queue and what [process_events] delivers.  The
    pending events are abstracted to the calls they stand for: the address of a closure
    field and the argument values.  The representation predicate says which blocks of
    the [malloc] heap the queued items own, so that the theorems exclude leaks, double
    frees and uses after free. *)

From S2P Require Import Prelude Bytes LinkedQueue Hl CApi Binding.

#[local] Arguments rtcGetDataChannelLabel : simpl never.
#[local] Arguments hl_rtc_make_datachannel : simpl never.
#[local] Arguments hl_dyn_call : simpl never.
#[local] Arguments unnamed : simpl never.

Section events.
Context {M : Type} {HM : HlMutex M} {S : Type} {HS : HlSemaphore S} {R : Type} {HR : HlRoots R}.
Context {P D : Type} {I : RtcImpl P D}.
#[local] Abbreviation world := (Binding.world M S R P D).
Implicit Types (w : world) (own mp : gmap positive (list mem_byte)).

(** ** Representation of the pending calls *)

Definition call : Type := (positive * field) * list value.

Definition arg_rep own (arg : option vdynamic) (size : option Z) (v : value) : Prop :=
  match v with
  | VInt i => arg = Some (V_i32 i) /\ own = ∅
  | VBytes b => exists l, arg = Some (V_bytes l) /\ size = Some (zlen b) /\ own = {[l := b]}
  | VObj _ => False
  end.

Definition item_rep own (x : callback_result) (c : call) : Prop :=
  closure x = fst c /\
  match snd c with
  | [] => args x = 0 /\ own = ∅
  | [v] => args x = 1 /\ arg_rep own (arg1 x) (arg1Size x) v
  | [v1; v2] => args x = 2 /\ exists o1 o2, own = o1 ∪ o2 /\ o1 ##ₘ o2 /\
                 arg_rep o1 (arg1 x) (arg1Size x) v1 /\ arg_rep o2 (arg2 x) (arg2Size x) v2
  | _ => False
  end.

(** The items own disjoint parts of the heap, and together all of [mp]. *)
Fixpoint rep mp (xs : list callback_result) (cs : list call) : Prop :=
  match xs, cs with
  | [], [] => mp = ∅
  | x :: xs', c :: cs' => exists m1 m2, mp = m1 ∪ m2 /\ m1 ##ₘ m2 /\ item_rep m1 x c /\ rep m2 xs' cs'
  | _, _ => False
  end.

(** The invariant between primitives: the mutex is free, there is one token per pending
    call, the queues hold the pending calls and channels, and the heap is what the pending
    calls own, and [own]. *)
Record inv w own mp (lag : nat) (pend : list call) (chans : list datachannel_callback) : Prop := {
  inv_mutex : exists m, callback_result_mutex w = Some m /\ mutex_free m;
  inv_sem : exists s, callback_result_semaphore w = Some s /\ sem_value s + Z.of_nat lag = zlen pend;
  inv_results : exists xs, is_queue (callback_results w) xs ∅ /\ rep mp xs pend;
  inv_channels : is_queue (datachannel_callbacks w) chans ∅;
  inv_mem : mem w = own ∪ mp;
  inv_disj : own ##ₘ mp
}.

Lemma rep_length mp xs cs : rep mp xs cs -> length xs = length cs.
Proof.
  revert mp cs. induction xs as [|x xs IH]; intros mp [|c cs]; simpl; try done.
  intros (m1 & m2 & _ & _ & _ & H). f_equal. eauto.
Qed.

Lemma rep_snoc own mp xs cs x c :
  rep mp xs cs -> own ##ₘ mp -> item_rep own x c -> rep (own ∪ mp) (xs ++ [x]) (cs ++ [c]).
Proof.
  revert mp cs. induction xs as [|y xs IH]; intros mp [|c' cs]; simpl; try done.
  - intros -> Hd Hi. exists own, ∅. rewrite map_union_empty. split_and!; try done.
  - intros (m1 & m2 & -> & H12 & Hy & Hrep) Hd Hi.
    apply map_disjoint_union_r in Hd as [Hd1 Hd2].
    exists m1, (own ∪ m2). split_and!.
    + rewrite !(map_union_assoc (M := gmap positive)). f_equal. by apply map_union_comm.
    + by apply map_disjoint_union_r.
    + done.
    + by apply IH.
Qed.

(** Worlds that differ in the queue, the semaphore, the mutex and the heap only. *)
Record post_frame w w' : Prop := {
  pf_objs : objs w' = objs w;
  pf_roots : roots w' = roots w;
  pf_rtc : rtc w' = rtc w;
  pf_calls : calls w' = calls w
}.

Lemma post_frame_refl w : post_frame w w.
Proof. by split. Qed.
Lemma post_frame_trans w1 w2 w3 : post_frame w1 w2 -> post_frame w2 w3 -> post_frame w1 w3.
Proof. intros [] []. split; congruence. Qed.

(** ** The heap *)

Lemma malloc_bytes_spec w own mp b n :
  mem w = own ∪ mp -> own ##ₘ mp -> n = zlen b ->
  exists l, malloc_bytes n b w = Some (l, set_mem (<[l := b]> own ∪ mp) w) /\
    own !! l = None /\ <[l := b]> own ##ₘ mp.
Proof.
  intros Hm Hd ->. unfold malloc_bytes. pose proof (zlen_nonneg b).
  destruct (Z.leb_spec 0 (zlen b)); [|lia]. rewrite Z.eqb_refl. simpl.
  set (l := fresh _). assert (mem w !! l = None) as Hl.
  { apply (not_elem_of_dom (D := gset positive)). apply is_fresh. }
  exists l. rewrite Hm in Hl. apply lookup_union_None in Hl as [Hl1 Hl2].
  split; [by rewrite Hm, insert_union_l|]. split; [done|]. by apply map_disjoint_insert_l.
Qed.

(** The contents of a C string that starts with [s]. *)
Fixpoint cut (s : list Z) : list Z :=
  match s with [] => [] | c :: s' => if c =? 0 then [] else c :: cut s' end.

Lemma strlen_cut s : strlen (c_str s) = Some (zlen (cut s)) /\ take (length (cut s)) (c_str s) = cut s.
Proof.
  induction s as [|c s [IH1 IH2]]; [done|]. unfold c_str in *. simpl.
  destruct (Z.eqb_spec c 0); [done|]. rewrite IH1. simpl. rewrite zlen_cons, IH2. done.
Qed.

Lemma cut_length s : zlen (cut s) <= zlen s.
Proof. unfold zlen. induction s as [|c s IH]; simpl; [lia|]. destruct (c =? 0); simpl; lia. Qed.

Lemma memcpy_from_take b n : 0 <= n <= zlen b -> memcpy_from b n = Some (take (Z.to_nat n) b).
Proof.
  intros H. unfold memcpy_from.
  destruct (Z.leb_spec 0 n), (Z.leb_spec n (zlen b)); simpl; done || lia.
Qed.

Lemma memcpy_from_all b : memcpy_from b (zlen b) = Some b.
Proof.
  rewrite memcpy_from_take by (pose proof (zlen_nonneg b); lia).
  unfold zlen. by rewrite Nat2Z.id, firstn_all.
Qed.

Lemma zlen_map {A B} (f : A -> B) l : zlen (map f l) = zlen l.
Proof. unfold zlen. by rewrite length_map. Qed.

(** The two calls every string callback makes. *)
Lemma copy_string_spec w own mp s :
  mem w = own ∪ mp -> own ##ₘ mp -> zlen s < 2147483647 ->
  int_strlen (c_str s) = Some (zlen (cut s)) /\
  exists l, copy_string (c_str s) (zlen (cut s)) w =
      Some (l, set_mem (<[l := map Some (c_str (cut s))]> own ∪ mp) w) /\
    own !! l = None /\ <[l := map Some (c_str (cut s))]> own ##ₘ mp.
Proof.
  intros Hm Hd Hs. destruct (strlen_cut s) as [H1 H2]. pose proof (cut_length s). pose proof (zlen_nonneg (cut s)).
  unfold int_strlen, copy_string. rewrite H1. simpl. norm_words. split; [done|].
  destruct (Z.eqb_spec (zlen (cut s)) 2147483647); [lia|].
  rewrite memcpy_from_take.
  2: { pose proof (strlen_bound _ _ H1). rewrite zlen_map. lia. }
  simpl. rewrite firstn_map. replace (Z.to_nat (zlen (cut s))) with (length (cut s)) by (unfold zlen; lia). rewrite H2.
  replace (map Some (cut s) ++ [Some 0]) with (map Some (c_str (cut s)))
    by (unfold c_str; by rewrite map_app).
  apply malloc_bytes_spec; [done|done|]. unfold c_str. rewrite zlen_map, zlen_app. done.
Qed.

(** ** Posting *)

Lemma lock_unlock w : (exists m, callback_result_mutex w = Some m /\ mutex_free m) ->
  exists m1 m2, lock w = Some (set_mutex (Some m1) w) /\ hl_mutex_release m1 = Some m2 /\ mutex_free m2.
Proof.
  intros (m & Hm & Hf). destruct (hl_mutex_cycle m Hf) as (m1 & m2 & Ha & Hr & Hf2).
  exists m1, m2. unfold lock. rewrite Hm. simpl. by rewrite Ha.
Qed.

Lemma post_spec w own mp lag pend chans fill c :
  inv w own mp lag pend chans ->
  (forall w1, mem w1 = mem w -> exists it own',
     fill w1 = Some (it, set_mem (own' ∪ mp) w1) /\ own' ##ₘ mp /\ item_rep own' it c) ->
  exists w' mp', post fill w = Some w' /\ inv w' ∅ mp' lag (pend ++ [c]) chans /\ post_frame w w'.
Proof.
  intros [Hmutex (s & Hs & Hsv) (xs & Hq & Hrep) Hch Hmem Hd] Hfill.
  destruct (lock_unlock w Hmutex) as (m1 & m2 & Hlock & Hrel & Hfree).
  unfold post. rewrite Hlock. simpl.
  destruct (queue_alloc (callback_results w)) as [[l q]|] eqn:Halloc; simpl.
  2: { destruct (enqueue_spec _ _ _ (Result (fst c) None None 0 None None "") Hq) as (? & He & _).
       unfold enqueue in He. rewrite Halloc in He. done. }
  match goal with |- context [fill ?w1] => destruct (Hfill w1 eq_refl) as (it & own' & -> & Hd' & Hit) end.
  simpl. destruct (enqueue_spec _ _ _ it Hq) as (q' & He & Hq').
  unfold enqueue in He. rewrite Halloc in He. simpl in He. rewrite He. simpl.
  unfold unlock. simpl. rewrite Hrel. simpl. rewrite Hs. simpl.
  eexists _, (own' ∪ mp). split; [reflexivity|]. split; [|by split].
  split; simpl.
  - eauto.
  - eexists; split; [done|]. rewrite hl_semaphore_release_value, zlen_app, zlen_cons, zlen_nil. lia.
  - exists (xs ++ [it]). split; [done|]. by apply rep_snoc.
  - done.
  - by rewrite map_empty_union.
  - apply map_disjoint_empty_l.
Qed.
(** ** The label a closure receives *)

Definition labels_ok (s : rtc_state P D) : Prop :=
  forall id d, dataChannelMap s !! id = Some d -> zlen (dc_label d) < 2147483647.

(** The label in a 256-byte block whose tail is indeterminate, or [unnamed]. *)
Definition label_arg (s : rtc_state P D) (id : Z) : list mem_byte :=
  match dataChannelMap s !! id with
  | Some d => if zlen (dc_label d) <? 256
              then map Some (c_str (dc_label d)) ++ replicate (255 - length (dc_label d)) None
              else unnamed
  | None => unnamed
  end.

Lemma label_spec s id : labels_ok s ->
  exists ret buf, rtcGetDataChannelLabel id buffer256 256 s = Some (ret, buf, s) /\
    (if ret >=? 0 then buf else unnamed) = label_arg s id /\ (0 <= ret -> zlen buf = 256).
Proof.
  intros Hok. unfold buffer256, rtcGetDataChannelLabel, CApi.fill, cbind, cret, label_arg.
  rewrite getDataChannel_eq. destruct (dataChannelMap s !! id) as [d|] eqn:Hd.
  2: { eexists _, _. split; [done|]. split; [done|]. unfold RTC_ERR_INVALID. lia. }
  rewrite copyAndReturn_spec by (eauto || done). pose proof (zlen_nonneg (dc_label d)).
  destruct (Z.ltb_spec (zlen (dc_label d)) 256) as [Hl|Hl]; cbn [mbind option_bind].
  2: { eexists _, _. split; [done|]. split; [done|]. unfold RTC_ERR_TOO_SMALL. lia. }
  eexists _, _. split; [done|].
  destruct (Z.geb_spec (zlen (dc_label d) + 1) 0); [|lia].
  rewrite drop_replicate. split; [f_equal; f_equal; lia|]. intros _. unfold zlen, c_str in *.
  rewrite length_app, length_map, length_app, length_replicate. cbn [length]. lia.
Qed.

(** ** Events *)

(** What libdatachannel reports, with the user pointer the binding registered; the
    strings are [std::string]s, passed with [c_str()]. *)
Inductive event :=
| EvDescription (ptr : positive) (sdp type : list Z)
| EvCandidate (ptr : positive) (cand : list Z)
| EvState (ptr : positive) (state : Z)
| EvGathering (ptr : positive) (state : Z)
| EvOpen (ptr : positive)
| EvClosed (ptr : positive)
| EvError (ptr : positive) (e : list Z)
| EvBinary (ptr : positive) (b : list Z)
| EvText (ptr : positive) (s : list Z)
| EvBufferedAmountLow (ptr : positive)
| EvDataChannel (ptr : positive) (id : Z).

(** The callback an event runs; binary messages come with their size, texts with a
    negative one ([rtcSetMessageCallback]). *)
Definition raise (e : event) (w : world) : option world :=
  match e with
  | EvDescription p sdp type => descriptionCallback (c_str sdp) (c_str type) p w
  | EvCandidate p cand => candidateCallback (c_str cand) p w
  | EvState p st => stateChangeCallback st p w
  | EvGathering p st => gatheringStateCallback st p w
  | EvOpen p => openCallback p w
  | EvClosed p => closedCallback p w
  | EvError p e => errorCallback (c_str e) p w
  | EvBinary p b => messageCallback b (zlen b) p w
  | EvText p s => messageCallback (c_str s) (- (zlen s + 1)) p w
  | EvBufferedAmountLow p => bufferedAmountLowCallback p w
  | EvDataChannel p id => dataChannelCallback id p w
  end.

Definition event_ok w (e : event) : Prop :=
  match e with
  | EvDescription _ sdp type => zlen sdp < 2147483647 /\ zlen type < 2147483647
  | EvCandidate _ s | EvError _ s | EvText _ s => zlen s < 2147483647
  | EvBinary _ b => zlen b < 2147483648
  | EvOpen p => is_Some (get_dc p w)
  | _ => True
  end.

(** A C string as the closure receives it: up to its first NUL. *)
Definition str_arg (s : list Z) : value := VBytes (map Some (c_str (cut s))).

Definition event_calls w (e : event) : list call :=
  match e with
  | EvDescription p sdp type => [((p, F_descCb), [str_arg sdp; str_arg type])]
  | EvCandidate p cand => [((p, F_candidateCb), [str_arg cand])]
  | EvState p st => [((p, F_stateCb), [VInt st])]
  | EvGathering p st => [((p, F_gatheringStateCb), [VInt st])]
  | EvOpen p => match closure_at (p, F_openCb) w with
                | None => []   (* dropped when no closure is set yet *)
                | Some _ => match get_dc p w with
                            | Some o => [((p, F_openCb), [VBytes (label_arg (rtc w) (dc o))])]
                            | None => []
                            end
                end
  | EvClosed p => [((p, F_closedCb), [])]
  | EvError p e => [((p, F_errCb), [str_arg e])]
  | EvBinary p b => [((p, F_msgCb), [VBytes (map Some b); VInt (zlen b)])]
  | EvText p s => [((p, F_msgCb), [str_arg s; VInt (zlen (cut s) + 1)])]
  | EvBufferedAmountLow p => [((p, F_bufferLowCb), [])]
  | EvDataChannel _ _ => []
  end.

Definition event_channels (e : event) : list datachannel_callback :=
  match e with EvDataChannel p id => [Channel id p] | _ => [] end.

(** Posting a call whose items own the blocks in [own]. *)
Lemma post_owned w own mp lag pend chans it c :
  inv w own mp lag pend chans -> item_rep own it c ->
  exists w' mp', post (fun w => Some (it, w)) w = Some w' /\ inv w' ∅ mp' lag (pend ++ [c]) chans /\ post_frame w w'.
Proof.
  intros Hinv Hit. eapply post_spec; [done|]. intros w1 Hw1. exists it, own.
  split; [|split; [apply (inv_disj _ _ _ _ _ _ Hinv)|done]].
  do 2 f_equal. rewrite <- (inv_mem _ _ _ _ _ _ Hinv), <- Hw1. by destruct w1.
Qed.

Lemma inv_set_mem w own own' mp lag pend chans :
  inv w own mp lag pend chans -> own' ##ₘ mp -> inv (set_mem (own' ∪ mp) w) own' mp lag pend chans.
Proof. intros [] ?. by split. Qed.

Lemma post_frame_set_mem w w' m : post_frame (set_mem m w) w' -> post_frame w w'.
Proof. intros []. by split. Qed.

(** A string callback: the copy is made inside the critical section. *)
Lemma post_string w mp lag pend chans s g c :
  inv w ∅ mp lag pend chans -> zlen s < 2147483647 ->
  (forall l, item_rep {[l := map Some (c_str (cut s))]} (g l) c) ->
  exists w' mp', post (fun w => '(b, w) ← copy_string (c_str s) (zlen (cut s)) w; Some (g b, w)) w = Some w' /\
    inv w' ∅ mp' lag (pend ++ [c]) chans /\ post_frame w w'.
Proof.
  intros Hinv Hs Hg. eapply post_spec; [done|]. intros w1 Hw1.
  destruct (copy_string_spec w1 ∅ mp s) as (_ & l & Hc & _ & Hd); [|apply map_disjoint_empty_l|done|].
  { rewrite Hw1. apply (inv_mem _ _ _ _ _ _ Hinv). }
  rewrite Hc. simpl. exists (g l), {[l := map Some (c_str (cut s))]}.
  rewrite insert_empty in *. eauto.
Qed.

(** A block of known contents, allocated inside the critical section. *)
Lemma post_block w mp lag pend chans b n g c :
  inv w ∅ mp lag pend chans -> n = zlen b -> (forall l, item_rep {[l := b]} (g l) c) ->
  exists w' mp', post (fun w => '(b, w) ← malloc_bytes n b w; Some (g b, w)) w = Some w' /\
    inv w' ∅ mp' lag (pend ++ [c]) chans /\ post_frame w w'.
Proof.
  intros Hinv -> Hg. eapply post_spec; [done|]. intros w1 Hw1.
  destruct (malloc_bytes_spec w1 ∅ mp b (zlen b)) as (l & Hc & _ & Hd);
    [|apply map_disjoint_empty_l|done|].
  { rewrite Hw1. apply (inv_mem _ _ _ _ _ _ Hinv). }
  rewrite Hc. simpl. exists (g l), {[l := b]}. rewrite insert_empty in *. eauto.
Qed.
Lemma int_strlen_cut s : zlen s < 2147483647 -> int_strlen (c_str s) = Some (zlen (cut s)).
Proof.
  intros Hs. destruct (strlen_cut s) as [H1 _]. pose proof (cut_length s). pose proof (zlen_nonneg (cut s)).
  unfold int_strlen. rewrite H1. simpl. by norm_words.
Qed.

Lemma string_block_size s : zlen (cut s) + 1 = zlen (map Some (c_str (cut s))).
Proof. unfold c_str. rewrite zlen_map, zlen_app. done. Qed.

Ltac item_rep := intros; unfold item_rep, arg_rep, str_arg; simpl; rewrite ?string_block_size; split_and!; eauto.

Lemma raise_description w mp lag pend chans p sdp type :
  inv w ∅ mp lag pend chans -> zlen sdp < 2147483647 -> zlen type < 2147483647 ->
  exists w' mp', descriptionCallback (c_str sdp) (c_str type) p w = Some w' /\
    inv w' ∅ mp' lag (pend ++ [((p, F_descCb), [str_arg sdp; str_arg type])]) chans /\ post_frame w w'.
Proof.
  intros Hinv H1 H2. unfold descriptionCallback. rewrite !int_strlen_cut by done. simpl.
  destruct (copy_string_spec w ∅ mp sdp) as (_ & l1 & -> & _ & Hd1);
    [apply (inv_mem _ _ _ _ _ _ Hinv)|apply map_disjoint_empty_l|done|].
  simpl. destruct (copy_string_spec (set_mem (<[l1:=map Some (c_str (cut sdp))]> ∅ ∪ mp) w)
    (<[l1:=map Some (c_str (cut sdp))]> ∅) mp type) as (_ & l2 & -> & Hl2 & Hd2); [done|done|done|].
  simpl. pose proof (inv_set_mem _ _ _ _ _ _ _ Hinv Hd2) as Hinv2.
  eapply (post_owned _ _ _ _ _ _ (Result (p, F_descCb) _ _ 2 _ _ "onDescription")) in Hinv2 as (w' & mp' & Hp & Hi & Hf).
  - exists w', mp'. split; [exact Hp|]. split; [exact Hi|]. by eapply post_frame_set_mem.
  - split; [done|]. simpl. split; [done|].
    exists {[l1 := map Some (c_str (cut sdp))]}, {[l2 := map Some (c_str (cut type))]}.
    rewrite insert_empty in Hl2. assert (l1 ≠ l2) by (intros ->; by rewrite lookup_singleton_eq in Hl2).
    split_and!.
    + rewrite insert_empty, insert_union_singleton_l. apply map_union_comm.
      by apply map_disjoint_singleton_l, lookup_singleton_ne.
    + by apply map_disjoint_singleton_l, lookup_singleton_ne.
    + exists l1. by rewrite string_block_size.
    + exists l2. by rewrite string_block_size.
Qed.

Lemma raise_open w mp lag pend chans p o :
  inv w ∅ mp lag pend chans -> get_dc p w = Some o -> labels_ok (rtc w) ->
  exists w' mp', openCallback p w = Some w' /\
    inv w' ∅ mp' lag (pend ++ event_calls w (EvOpen p)) chans /\ post_frame w w'.
Proof.
  intros Hinv Ho Hlab. unfold openCallback, event_calls, closure_at. rewrite Ho. cbn [mbind option_bind fst snd].
  unfold get_dc in Ho. destruct (objs w !! p) as [[?|?]|]; simplify_eq. cbn [field_of mbind option_bind].
  destruct (openCb o) as [k|].
  2: { exists w, mp. rewrite app_nil_r. split; [done|]. split; [done|]. apply post_frame_refl. }
  destruct (label_spec (rtc w) (dc o) Hlab) as (ret & buf & -> & Hlabel & Hbuf). cbn [mbind option_bind].
  replace (set_rtc (rtc w) w) with w by (by destruct w).
  rewrite <- Hlabel. destruct (Z.geb_spec ret 0).
  - eapply (post_block _ _ _ _ _ buf 256 (fun b => Result (p, F_openCb) (Some (V_bytes b)) None 1 (Some 256) None "onOpen"));
      [done|by rewrite Hbuf|]. item_rep. eexists. rewrite Hbuf by lia. done.
  - eapply (post_block _ _ _ _ _ unnamed 8 (fun b => Result (p, F_openCb) (Some (V_bytes b)) None 1 (Some 8) None "onOpen"));
      [done|done|]. item_rep.
Qed.

Lemma raise_binary w mp lag pend chans p b :
  inv w ∅ mp lag pend chans -> zlen b < 2147483648 ->
  exists w' mp', messageCallback b (zlen b) p w = Some w' /\
    inv w' ∅ mp' lag (pend ++ [((p, F_msgCb), [VBytes (map Some b); VInt (zlen b)])]) chans /\ post_frame w w'.
Proof.
  intros Hinv Hb. unfold messageCallback. pose proof (zlen_nonneg b).
  destruct (Z.ltb_spec (zlen b) 0); [lia|]. rewrite <- (zlen_map Some b), memcpy_from_all. simpl.
  eapply (post_block _ _ _ _ _ (map Some b) _ (fun l => Result (p, F_msgCb) (Some (V_bytes l)) (Some (V_i32 (zlen (map Some b)))) 2
     (Some (zlen (map Some b))) None "onMessage")); [done|done|].
  intros l. split; [done|]. simpl. split; [done|]. exists {[l := map Some b]}, ∅.
  rewrite map_union_empty. split_and!; eauto. apply map_disjoint_empty_r.
Qed.

Lemma raise_text w mp lag pend chans p s :
  inv w ∅ mp lag pend chans -> zlen s < 2147483647 ->
  exists w' mp', messageCallback (c_str s) (- (zlen s + 1)) p w = Some w' /\
    inv w' ∅ mp' lag (pend ++ [((p, F_msgCb), [str_arg s; VInt (zlen (cut s) + 1)])]) chans /\ post_frame w w'.
Proof.
  intros Hinv Hs. unfold messageCallback. pose proof (zlen_nonneg s).
  destruct (Z.ltb_spec (- (zlen s + 1)) 0); [|lia]. rewrite int_strlen_cut by done. simpl.
  eapply (post_string _ _ _ _ _ s (fun l => Result (p, F_msgCb) (Some (V_bytes l)) (Some (V_i32 (zlen (cut s) + 1))) 2
     (Some (zlen (cut s) + 1)) None "onMessage")); [done|done|].
  intros l. split; [done|]. simpl. split; [done|]. exists {[l := map Some (c_str (cut s))]}, ∅.
  rewrite map_union_empty. split_and!; eauto; [apply map_disjoint_empty_r|].
  exists l. by rewrite string_block_size.
Qed.

Lemma raise_channel w mp lag pend chans p id :
  inv w ∅ mp lag pend chans ->
  exists w', dataChannelCallback id p w = Some w' /\
    inv w' ∅ mp lag pend (chans ++ [Channel id p]) /\ post_frame w w'.
Proof.
  intros [Hmutex Hsem Hres Hch Hmem Hd].
  destruct (lock_unlock w Hmutex) as (m1 & m2 & Hlock & Hrel & Hfree).
  destruct (enqueue_spec _ _ _ (Channel id p) Hch) as (q' & He & Hq').
  unfold dataChannelCallback. rewrite Hlock. simpl. rewrite He. simpl. unfold unlock. simpl. rewrite Hrel. simpl.
  eexists. split; [done|]. split; [|by split]. split; simpl; eauto.
Qed.

(** Every event appends the call it stands for, and nothing else. *)
Lemma raise_spec w mp lag pend chans e :
  inv w ∅ mp lag pend chans -> event_ok w e -> labels_ok (rtc w) ->
  exists w' mp', raise e w = Some w' /\
    inv w' ∅ mp' lag (pend ++ event_calls w e) (chans ++ event_channels e) /\ post_frame w w'.
Proof.
  intros Hinv Hok Hlab.
  destruct e as [p sdp type|p s|p st|p st|p|p|p s|p b|p s|p|p id]; simpl in *; rewrite ?app_nil_r.
  - destruct Hok. by eapply raise_description.
  - unfold candidateCallback. rewrite int_strlen_cut by done. simpl.
    destruct (copy_string_spec w ∅ mp s) as (_ & l1 & -> & _ & Hd1);
      [apply (inv_mem _ _ _ _ _ _ Hinv)|apply map_disjoint_empty_l|done|].
    simpl. pose proof (inv_set_mem _ _ _ _ _ _ _ Hinv Hd1) as Hinv2.
    eapply (post_owned _ _ _ _ _ _ (Result (p, F_candidateCb) _ _ 1 _ _ "onCandidate")) in Hinv2 as (w' & mp' & Hp & Hi & Hf).
    + exists w', mp'. split; [exact Hp|]. split; [exact Hi|]. by eapply post_frame_set_mem.
    + item_rep.
  - eapply post_owned; [done|]. item_rep.
  - eapply post_owned; [done|]. item_rep.
  - destruct Hok as [o Ho]. by apply (raise_open w mp lag pend chans p o).
  - eapply post_owned; [done|]. item_rep.
  - unfold errorCallback. rewrite int_strlen_cut by done. simpl.
    eapply (post_string _ _ _ _ _ s (fun b => Result (p, F_errCb) (Some (V_bytes b)) None 1 (Some (zlen (cut s) + 1)) None "onError"));
      [done|done|item_rep].
  - by eapply raise_binary.
  - by eapply raise_text.
  - eapply post_owned; [done|]. item_rep.
  - destruct (raise_channel w mp lag pend chans p id Hinv) as (w' & ? & ? & ?). by exists w', mp.
Qed.
(** ** Handlers *)

(** What a closure called by [process_events] must preserve: a closure that is set stays
    set to the same value (fields that are NULL may be set), the labels of the channels
    and the identifiers of the channel objects.  Everything else of the objects and the
    library's state may change. *)
Record keeps w w' : Prop := {
  k_closures : forall a c, closure_at a w = Some c -> closure_at a w' = Some c;
  k_labels : forall id d, dataChannelMap (rtc w) !! id = Some d ->
               exists d', dataChannelMap (rtc w') !! id = Some d' /\ dc_label d' = dc_label d;
  k_labels_ok : labels_ok (rtc w) -> labels_ok (rtc w');
  k_channels : forall l o, get_dc l w = Some o -> exists o', get_dc l w' = Some o' /\ dc o' = dc o
}.

Lemma keeps_refl w : keeps w w.
Proof. split; eauto. Qed.

Lemma keeps_trans w1 w2 w3 : keeps w1 w2 -> keeps w2 w3 -> keeps w1 w3.
Proof.
  intros [C1 L1 K1 D1] [C2 L2 K2 D2]. split; [eauto| |eauto|].
  - intros id d (d2 & H2 & E2)%L1. destruct (L2 _ _ H2) as (d3 & H3 & E3). exists d3. by rewrite E3.
  - intros l o (o2 & H2 & E2)%D1. destruct (D2 _ _ H2) as (o3 & H3 & E3). exists o3. by rewrite E3.
Qed.

Lemma keeps_same w w' : objs w' = objs w -> rtc w' = rtc w -> keeps w w'.
Proof.
  intros Ho Hr. split; unfold closure_at, get_dc; rewrite ?Ho, ?Hr; eauto.
Qed.

(** A handler returns, leaves the globals and the heap of the binding as they are, and
    keeps what is above. *)
Definition handler_ok (handler : positive -> list value -> world -> option world) : Prop :=
  forall c vs w, exists w', handler c vs w = Some w' /\
    callback_result_mutex w' = callback_result_mutex w /\
    callback_result_semaphore w' = callback_result_semaphore w /\
    callback_results w' = callback_results w /\
    datachannel_callbacks w' = datachannel_callbacks w /\
    mem w' = mem w /\ calls w' = calls w /\ keeps w w'.

Context (handler : positive -> list value -> world -> option world) (Hhandler : handler_ok handler).

(** ** One regular callback *)

Lemma set_mem_id w m : mem w = m -> set_mem m w = w.
Proof. intros <-. by destruct w. Qed.

Lemma fetch_spec w m1 m2 arg size v :
  mem w = m1 ∪ m2 -> m1 ##ₘ m2 -> arg_rep m1 arg size v ->
  fetch true arg size w = Some (Some v, set_mem m2 w).
Proof.
  intros Hm Hd. unfold fetch, arg_rep. destruct v as [b|i|o]; [|intros [-> ->]|done].
  - intros (l & -> & -> & ->).
    assert (mem w !! l = Some b) as Hl by (rewrite Hm; apply lookup_union_Some_l, lookup_singleton_eq).
    cbn [negb mbind option_bind]. rewrite Hl. cbn [mbind option_bind]. rewrite memcpy_from_all. simpl.
    unfold free_bytes. rewrite Hl, Hm. simpl.
    do 4 f_equal. rewrite <- insert_union_singleton_l. apply delete_insert_id.
    by apply map_disjoint_singleton_l in Hd.
  - simpl. do 3 f_equal. symmetry. apply set_mem_id. by rewrite Hm, map_empty_union.
Qed.

Definition delivered w (c : call) (out : positive * list value) : Prop :=
  closure_at (fst c) w = Some (fst out) /\ snd out = snd c.

(** Reading an item frees exactly its blocks and calls its closure with its values. *)
Lemma dispatch_item w m1 m2 x c k :
  mem w = m1 ∪ m2 -> m1 ##ₘ m2 -> item_rep m1 x c -> closure_at (fst c) w = Some k ->
  exists w', dispatch handler x w = Some w' /\
    hl_dyn_call handler k (snd c) (set_mem m2 w) = Some w'.
Proof.
  intros Hm Hd [Hcl Hargs] Hk. unfold dispatch. rewrite Hcl.
  assert (forall m, closure_at (fst c) (set_mem m w) = Some k) as Hk' by done.
  destruct (Hhandler k (snd c) (set_calls (calls (set_mem m2 w) ++ [(k, snd c)]) (set_mem m2 w))) as (w' & Hw' & _).
  exists w'. unfold hl_dyn_call in *. split; [|exact Hw'].
  destruct (snd c) as [|v1 [|v2 [|]]]; [| | |done].
  - destruct Hargs as [-> ->]. rewrite map_empty_union in Hm. simpl.
    rewrite Hk. simpl. rewrite set_mem_id in Hw' by done. exact Hw'.
  - destruct Hargs as [-> Ha]. simpl. rewrite (fetch_spec w m1 m2) with (v := v1) by done. simpl.
    rewrite Hk'. simpl. exact Hw'.
  - destruct Hargs as [-> (o1 & o2 & -> & Ho & H1 & H2)]. simpl.
    apply map_disjoint_union_l in Hd as [Hd1 Hd2].
    rewrite (fetch_spec w o1 (o2 ∪ m2)) with (v := v1); [|by rewrite map_union_assoc|by apply map_disjoint_union_r|done].
    simpl. rewrite (fetch_spec _ o2 m2) with (v := v2) by done. simpl.
    change (set_mem m2 (set_mem (o2 ∪ m2) w)) with (set_mem m2 w). rewrite Hk'. simpl. exact Hw'.
Qed.

(** The locked removal of the oldest item of a queue. *)
Lemma result_step_cons w mp lag c pend chans k :
  inv w ∅ mp lag (c :: pend) chans -> (lag <= length pend)%nat -> closure_at (fst c) w = Some k ->
  exists w' mp', result_step handler w = Some (true, w') /\ inv w' ∅ mp' lag pend chans /\
    calls w' = calls w ++ [(k, snd c)] /\ keeps w w'.
Proof.
  intros [Hmutex (s & Hs & Hsv) (xs & Hq & Hrep) Hch Hmem Hd] Hlag Hk.
  destruct xs as [|x xs]; [done|]. destruct Hrep as (m1 & m2 & -> & H12 & Hx & Hrep).
  rewrite map_empty_union in Hmem.
  destruct (hl_semaphore_try_acquire_pos s) as (s' & Hacq & Hs').
  { rewrite zlen_cons in Hsv. unfold zlen in Hsv. lia. }
  unfold result_step. rewrite Hs. simpl. rewrite Hacq. simpl.
  destruct (lock_unlock (set_semaphore (Some s') w) Hmutex) as (mu1 & mu2 & -> & Hrel & Hfree). simpl.
  destruct (queue_pop_cons _ _ _ _ Hq) as (l & q & -> & _ & Hq1). simpl.
  unfold unlock. simpl. rewrite Hrel. simpl.
  rewrite (queue_read_own _ _ _ _ _ Hq1 (lookup_insert_eq _ _ _)). simpl.
  match goal with |- context [dispatch handler x ?u] => set (w1 := u) end.
  destruct (dispatch_item w1 m1 m2 x c k) as (w2 & -> & Hcall); [done|done|done|done|]. simpl.
  unfold hl_dyn_call in Hcall.
  destruct (Hhandler k (snd c) (set_calls (calls (set_mem m2 w1) ++ [(k, snd c)]) (set_mem m2 w1)))
    as (w3 & Hw3 & Hmu & Hse & Hre & Hda & Hme & Hca & Hkeep).
  rewrite Hcall in Hw3. simplify_eq. rewrite Hre. simpl.
  destruct (queue_free_spec _ _ _ _ _ Hq1 (lookup_insert_eq _ _ _)) as (q2 & -> & Hq2). simpl.
  rewrite delete_insert_id in Hq2 by done.
  eexists _, m2. split; [reflexivity|]. split; [|split; [exact Hca|]].
  - split; simpl.
    + exists mu2. by rewrite Hmu.
    + exists s'. rewrite Hse. split; [done|]. rewrite Hs'. rewrite zlen_cons in Hsv. lia.
    + eauto.
    + by rewrite Hda.
    + by rewrite Hme, map_empty_union.
    + apply map_disjoint_empty_l.
  - eapply keeps_trans; [|by apply (keeps_same w3)].
    eapply keeps_trans; [|exact Hkeep]. by apply keeps_same.
Qed.

Lemma result_step_end w mp lag pend chans :
  inv w ∅ mp lag pend chans -> length pend = lag ->
  exists w', result_step handler w = Some (false, w') /\ inv w' ∅ mp lag pend chans /\
    calls w' = calls w /\ keeps w w'.
Proof.
  intros [Hmutex (s & Hs & Hsv) Hq Hch Hmem Hd] Hlag.
  destruct (hl_semaphore_try_acquire_zero s) as (s' & Hacq & Hs'); [unfold zlen in Hsv; lia|].
  unfold result_step. rewrite Hs. simpl. rewrite Hacq. simpl.
  eexists. split; [done|]. split; [|split; [done|by apply keeps_same]].
  split; simpl; eauto. eexists; split; [done|]. unfold zlen in *. lia.
Qed.

Lemma delivered_keeps w w1 cs outs :
  keeps w w1 -> Forall (fun c => is_Some (closure_at (fst c) w)) cs ->
  Forall2 (delivered w1) cs outs -> Forall2 (delivered w) cs outs.
Proof.
  intros Hk Hcl H. induction H as [|c o cs os [H1 H2] H IH]; [constructor|].
  apply Forall_cons in Hcl as [[k Hk'] Hcl]. constructor; [|by apply IH]. split; [|done].
  pose proof (k_closures _ _ Hk _ _ Hk') as H3. rewrite H1 in H3. injection H3 as <-. done.
Qed.

(** The second loop delivers, in order, as many pending calls as there are tokens. *)
Lemma drain_results fuel w mp lag now later chans :
  inv w ∅ mp lag (now ++ later) chans -> length later = lag -> (length now < fuel)%nat ->
  Forall (fun c => is_Some (closure_at (fst c) w)) now ->
  exists w' mp' outs, while fuel (result_step handler) w = Some w' /\ inv w' ∅ mp' lag later chans /\
    calls w' = calls w ++ outs /\ Forall2 (delivered w) now outs /\ keeps w w'.
Proof.
  revert w mp now. induction fuel as [|fuel IH]; intros w mp now Hinv Hlag Hf Hcl; [lia|].
  destruct now as [|c now]; simpl in *.
  - destruct (result_step_end w mp lag later chans Hinv Hlag) as (w' & -> & Hinv' & Hc & Hk). simpl.
    exists w', mp, []. rewrite app_nil_r. by split_and!.
  - pose proof Hcl as Hcl0. apply Forall_cons in Hcl as [[k Hk] Hcl].
    destruct (result_step_cons w mp lag c (now ++ later) chans k Hinv) as (w1 & mp1 & -> & Hinv1 & Hc1 & Hk1);
      [rewrite length_app; lia|done|]. simpl.
    destruct (IH w1 mp1 now Hinv1 Hlag) as (w2 & mp2 & outs & -> & Hinv2 & Hc2 & Hd2 & Hk2); [lia| |].
    { eapply Forall_impl; [exact Hcl|]. intros c' [k' Hk']. exists k'. by apply Hk1. }
    exists w2, mp2, ((k, snd c) :: outs). split_and!; try done.
    + by rewrite Hc2, Hc1, <- app_assoc.
    + constructor; [done|]. by eapply delivered_keeps.
    + by eapply keeps_trans.
Qed.

(** ** Incoming data channels *)

(** What the handler of an incoming channel receives: the channel's closure, a new object
    for it, and its label. *)
Definition announced w w' (ch : datachannel_callback) (out : positive * list value) : Prop :=
  closure_at (cb_pc ch, F_datachannelCb) w = Some (fst out) /\
  exists l o, snd out = [VObj l; VBytes (label_arg (rtc w) (cb_dc ch))] /\
    get_dc l w' = Some o /\ dc o = cb_dc ch.

Lemma keeps_label w w' id : keeps w w' -> is_Some (dataChannelMap (rtc w) !! id) ->
  label_arg (rtc w') id = label_arg (rtc w) id.
Proof.
  intros Hk [d Hd]. destruct (k_labels _ _ Hk _ _ Hd) as (d' & Hd' & He).
  unfold label_arg. by rewrite Hd, Hd', He.
Qed.

Lemma announced_keeps w w1 w' chans outs :
  keeps w w1 -> Forall (fun ch => is_Some (closure_at (cb_pc ch, F_datachannelCb) w)) chans ->
  Forall (fun ch => is_Some (dataChannelMap (rtc w) !! cb_dc ch)) chans ->
  Forall2 (announced w1 w') chans outs -> Forall2 (announced w w') chans outs.
Proof.
  intros Hk Hcl Hd. revert outs. induction chans as [|ch chans IH]; intros outs H; inversion H as [|? out ? outs' Ha Hrest]; subst;
    [constructor|].
  apply Forall_cons in Hcl as [[k Hk'] Hcl]. apply Forall_cons in Hd as [Hd1 Hd].
  constructor; [|by apply IH]. destruct Ha as [H1 (l & o & H2 & H3)].
  pose proof (k_closures _ _ Hk _ _ Hk') as H4. rewrite H1 in H4.
  injection H4 as Hout. split; [by rewrite Hk', Hout|]. exists l, o. rewrite H2, (keeps_label w w1) by done. done.
Qed.

Lemma announced_later w w1 w2 ch out : keeps w1 w2 -> announced w w1 ch out -> announced w w2 ch out.
Proof.
  intros Hk [H1 (l & o & H2 & H3 & H4)]. split; [done|].
  destruct (k_channels _ _ Hk _ _ H3) as (o' & Ho' & Hid). exists l, o'. split_and!; congruence.
Qed.

(** Making an object keeps what was there. *)
Lemma keeps_make w l r s o :
  objs w !! l = None -> dataChannelMap s = dataChannelMap (rtc w) ->
  keeps w (set_rtc s (set_roots r (set_objs (<[l := o]> (objs w)) w))).
Proof.
  intros Hl Hs. split; simpl; rewrite ?Hs.
  - intros [p f] c. unfold closure_at. simpl. destruct (decide (p = l)) as [->|]; [by rewrite Hl|].
    by rewrite lookup_insert_ne.
  - eauto.
  - unfold labels_ok. simpl. by rewrite Hs.
  - intros p o'. unfold get_dc. simpl. destruct (decide (p = l)) as [->|]; [by rewrite Hl|].
    rewrite lookup_insert_ne by done. eauto.
Qed.

Lemma channel_step_cons w mp lag pend ch chans k :
  inv w ∅ mp lag pend (ch :: chans) -> labels_ok (rtc w) ->
  closure_at (cb_pc ch, F_datachannelCb) w = Some k ->
  exists w' out, channel_step handler w = Some (true, w') /\ inv w' ∅ mp lag pend chans /\
    calls w' = calls w ++ [out] /\ announced w w' ch out /\ keeps w w'.
Proof.
  intros [Hmutex Hsem Hres Hq Hmem Hd] Hlab Hk. unfold channel_step.
  destruct (lock_unlock w Hmutex) as (mu1 & mu2 & -> & Hrel & Hfree). cbn [mbind option_bind].
  destruct (queue_pop_cons _ _ _ _ Hq) as (n & q & Hpop & _ & Hq1).
  change (datachannel_callbacks (set_mutex (Some mu1) w)) with (datachannel_callbacks w).
  rewrite Hpop. cbn [mbind option_bind].
  unfold unlock. cbn [mbind option_bind set_channels set_mutex callback_result_mutex]. rewrite Hrel.
  cbn [mbind option_bind].
  change (datachannel_callbacks (set_mutex (Some mu2) (set_channels q (set_mutex (Some mu1) w)))) with q.
  rewrite (queue_read_own _ _ _ _ _ Hq1 (lookup_insert_eq _ _ _)). cbn [mbind option_bind].
  set (w0 := set_mutex (Some mu2) (set_channels q (set_mutex (Some mu1) w))).
  destruct (hl_rtc_make_datachannel_spec (cb_dc ch) w0) as (l & r & s & -> & Hl & _ & Hs & _).
  pose proof (keeps_make w0 l r s (DcObj (Dc (cb_dc ch) None None None None None)) Hl (sm_chans _ _ Hs)) as Hk0.
  set (w1 := set_rtc s _) in *. assert (closure_at (cb_pc ch, F_datachannelCb) w1 = Some k) as ->.
  { by apply Hk0. }
  cbn [mbind option_bind]. assert (get_dc l w1 = Some (Dc (cb_dc ch) None None None None None)) as Hdc1.
  { unfold get_dc, w1. simpl. by rewrite lookup_insert_eq. }
  rewrite Hdc1. cbn [mbind option_bind dc].
  destruct (label_spec (rtc w1) (cb_dc ch)) as (ret & buf & -> & Hlabel & _); [by apply (k_labels_ok _ _ Hk0)|].
  cbn [mbind option_bind]. rewrite Hlabel.
  assert (label_arg (rtc w1) (cb_dc ch) = label_arg (rtc w) (cb_dc ch)) as ->.
  { unfold label_arg. change (rtc w1) with s. by rewrite (sm_chans _ _ Hs). }
  unfold hl_dyn_call. set (out := (k, [VObj l; VBytes (label_arg (rtc w) (cb_dc ch))])).
  destruct (Hhandler k (snd out) (set_calls (calls (set_rtc (rtc w1) w1) ++ [out]) (set_rtc (rtc w1) w1)))
    as (w3 & Hw3 & Hmu & Hse & Hre & Hda & Hme & Hca & Hkeep).
  assert (keeps w w3) as Hk3.
  { eapply keeps_trans; [|exact Hkeep]. eapply keeps_trans; [|by apply (keeps_same w1)].
    eapply keeps_trans; [|exact Hk0]. by apply keeps_same. }
  unfold out in Hw3 at 1. simpl in Hw3. simpl. rewrite Hw3. simpl. rewrite Hda. simpl.
  destruct (queue_free_spec _ _ _ _ _ Hq1 (lookup_insert_eq _ _ _)) as (q2 & -> & Hq2). simpl.
  rewrite delete_insert_id in Hq2 by done.
  eexists _, out. split; [reflexivity|]. split; [|split; [exact Hca|split]].
  - split; simpl.
    + exists mu2. by rewrite Hmu.
    + destruct Hsem as (sm & ? & ?). exists sm. by rewrite Hse.
    + by rewrite Hre.
    + done.
    + by rewrite Hme.
    + done.
  - split; [done|]. destruct (k_channels _ _ Hkeep l (Dc (cb_dc ch) None None None None None)) as (o' & Ho' & Hid); [exact Hdc1|].
    exists l, o'. done.
  - eapply keeps_trans; [exact Hk3|]. by apply keeps_same.
Qed.

Lemma channel_step_nil w mp lag pend :
  inv w ∅ mp lag pend [] ->
  exists w', channel_step handler w = Some (false, w') /\ inv w' ∅ mp lag pend [] /\ calls w' = calls w /\ keeps w w'.
Proof.
  intros [Hmutex Hsem Hres Hq Hmem Hd]. unfold channel_step.
  destruct (lock_unlock w Hmutex) as (mu1 & mu2 & -> & Hrel & Hfree). cbn [mbind option_bind].
  change (datachannel_callbacks (set_mutex (Some mu1) w)) with (datachannel_callbacks w).
  rewrite (queue_pop_nil _ _ Hq). cbn [mbind option_bind].
  unfold unlock. cbn [mbind option_bind set_channels set_mutex callback_result_mutex]. rewrite Hrel.
  cbn [mbind option_bind].
  eexists. split; [done|]. split; [by split; simpl; eauto|]. split; [done|by apply keeps_same].
Qed.

(** The first loop announces all queued channels in order. *)
Lemma drain_channels fuel w mp lag pend chans :
  inv w ∅ mp lag pend chans -> labels_ok (rtc w) -> (length chans < fuel)%nat ->
  Forall (fun ch => is_Some (closure_at (cb_pc ch, F_datachannelCb) w)) chans ->
  Forall (fun ch => is_Some (dataChannelMap (rtc w) !! cb_dc ch)) chans ->
  exists w' outs, while fuel (channel_step handler) w = Some w' /\ inv w' ∅ mp lag pend [] /\
    calls w' = calls w ++ outs /\ Forall2 (announced w w') chans outs /\ keeps w w'.
Proof.
  revert w chans. induction fuel as [|fuel IH]; intros w chans Hinv Hlab Hf Hcl Hd; [lia|].
  destruct chans as [|ch chans]; simpl.
  - destruct (channel_step_nil w mp lag pend Hinv) as (w' & -> & Hinv' & Hc & Hk). simpl.
    exists w', []. rewrite app_nil_r. by split_and!.
  - pose proof Hcl as Hcl0. pose proof Hd as Hd0.
    apply Forall_cons in Hcl as [[k Hk] Hcl]. apply Forall_cons in Hd as [Hd1 Hd].
    destruct (channel_step_cons w mp lag pend ch chans k Hinv Hlab Hk) as (w1 & out & -> & Hinv1 & Hc1 & Ha1 & Hk1). simpl.
    destruct (IH w1 chans Hinv1) as (w2 & outs & -> & Hinv2 & Hc2 & Ha2 & Hk2).
    { by apply (k_labels_ok _ _ Hk1). }
    { simpl in Hf. lia. }
    { eapply Forall_impl; [exact Hcl|]. intros c' [k' Hk']. exists k'. by apply Hk1. }
    { eapply Forall_impl; [exact Hd|]. intros c' [d Hd']. destruct (k_labels _ _ Hk1 _ _ Hd') as (d' & ? & _). by exists d'. }
    exists w2, (out :: outs). split_and!; try done.
    + by rewrite Hc2, Hc1, <- app_assoc.
    + constructor; [by eapply announced_later|]. by eapply announced_keeps.
    + by eapply keeps_trans.
Qed.

(** A sequence of events. *)
Fixpoint raise_all (evs : list event) w : option world :=
  match evs with
  | [] => Some w
  | e :: evs' => w ← raise e w; raise_all evs' w
  end.

Definition all_calls w (evs : list event) : list call := concat (event_calls w <$> evs).
Definition all_channels (evs : list event) : list datachannel_callback := concat (event_channels <$> evs).

Lemma event_calls_frame w w' e : post_frame w w' -> event_calls w' e = event_calls w e.
Proof. intros []. destruct e; simpl; try done. unfold closure_at, get_dc. rewrite pf_objs0, pf_rtc0. done. Qed.

Lemma event_ok_frame w w' e : post_frame w w' -> event_ok w e -> event_ok w' e.
Proof. intros []. destruct e; simpl; try done. unfold get_dc. by rewrite pf_objs0. Qed.

Lemma raise_all_spec w mp lag pend chans evs :
  inv w ∅ mp lag pend chans -> Forall (event_ok w) evs -> labels_ok (rtc w) ->
  exists w' mp', raise_all evs w = Some w' /\
    inv w' ∅ mp' lag (pend ++ all_calls w evs) (chans ++ all_channels evs) /\ post_frame w w'.
Proof.
  revert w mp pend chans. induction evs as [|e evs IH]; intros w mp pend chans Hinv Hok Hlab; simpl.
  - exists w, mp. unfold all_calls, all_channels. simpl. rewrite !app_nil_r. split_and!; try done.
  - apply Forall_cons in Hok as [He Hok].
    destruct (raise_spec w mp lag pend chans e Hinv He Hlab) as (w1 & mp1 & -> & Hinv1 & Hf1). simpl.
    destruct (IH w1 mp1 _ _ Hinv1) as (w2 & mp2 & -> & Hinv2 & Hf2).
    { eapply Forall_impl; [exact Hok|]. intros e' He'. by eapply event_ok_frame. }
    { by rewrite (pf_rtc _ _ Hf1). }
    exists w2, mp2. split; [done|]. split; [|by eapply post_frame_trans].
    unfold all_calls, all_channels in *. simpl. rewrite !app_assoc.
    assert (event_calls w1 <$> evs = event_calls w <$> evs) as Heq.
    { apply list_fmap_ext. intros ? e' _. by apply event_calls_frame. }
    by rewrite Heq in Hinv2.
Qed.

Lemma is_queue_nodes {A} (q : queue A) : is_queue q [] ∅ -> nodes q = ∅ /\ first q = None /\ end_ q = None.
Proof.
  intros Hq. split; [by apply is_queue_no_leak|]. destruct Hq as [ls Hq].
  destruct ls; [|by pose proof (q_seg _ _ _ _ Hq)].
  pose proof (q_seg _ _ _ _ Hq). pose proof (q_end _ _ _ _ Hq). done.
Qed.

Lemma process_events_spec fuel w mp lag now later chans :
  inv w ∅ mp lag (now ++ later) chans -> length later = lag -> labels_ok (rtc w) ->
  (length now < fuel)%nat -> (length chans < fuel)%nat ->
  Forall (fun ch => is_Some (closure_at (cb_pc ch, F_datachannelCb) w)) chans ->
  Forall (fun ch => is_Some (dataChannelMap (rtc w) !! cb_dc ch)) chans ->
  Forall (fun c => is_Some (closure_at (fst c) w)) now ->
  exists w' mp' outs1 outs2, process_events handler fuel w = Some w' /\ inv w' ∅ mp' lag later [] /\
    calls w' = calls w ++ outs1 ++ outs2 /\
    Forall2 (announced w w') chans outs1 /\ Forall2 (delivered w) now outs2 /\ keeps w w'.
Proof.
  intros Hinv Hlag Hlab Hf1 Hf2 Hc1 Hc2 Hc3.
  destruct (drain_channels fuel w mp lag (now ++ later) chans Hinv Hlab Hf2 Hc1 Hc2)
    as (w1 & outs1 & Hrun1 & Hinv1 & Hcalls1 & Ha1 & Hk1).
  destruct (drain_results fuel w1 mp lag now later [] Hinv1 Hlag Hf1)
    as (w2 & mp2 & outs2 & Hrun2 & Hinv2 & Hcalls2 & Ha2 & Hk2).
  { eapply Forall_impl; [exact Hc3|]. intros c [k Hk]. exists k. by apply Hk1. }
  exists w2, mp2, outs1, outs2. unfold process_events. rewrite Hrun1. simpl. split; [done|]. split; [done|].
  split; [by rewrite Hcalls2, Hcalls1, <- app_assoc|]. split; [|split; [|by eapply keeps_trans]].
  - eapply Forall2_impl; [exact Ha1|]. intros. by eapply announced_later.
  - by eapply delivered_keeps.
Qed.
End events.
