(* ===== verification/BindingProps.v ===== *)
(** * Properties of the binding

    The theorems about [src/datachannel.c] that a user of the binding relies on, over the
    lemmas of [BindingEvents]. *)

From S2P Require Import Prelude Bytes LinkedQueue Hl CApi Binding BindingEvents.

Section props.
Context {M : Type} {HM : HlMutex M} {S : Type} {HS : HlSemaphore S} {R : Type} {HR : HlRoots R}.
Context {P D : Type} {I : RtcImpl P D}.
#[local] Abbreviation world := (Binding.world M S R P D).

(** C1. Event delivery.  Between primitives, with pending calls [pend] and channels [chans],
    any sequence of events of libdatachannel (strings shorter than 2^31 - 1, closures set,
    channels known to the library) followed by [process_events] is defined and returns for
    any fuel above the number of events: the queued channels are announced first, each
    with a new object and its label, and then every pending call and every event is
    delivered exactly once, in the order of occurrence, to the closure stored in the
    field of its object, with the bytes of its strings and messages.  Nothing stays
    queued and no block of the heap is leaked, for any handler that returns and leaves
    the binding's globals alone. *)
Theorem process_events_delivers (handler : positive -> list value -> world -> option world)
    (w : world) (mp : gmap positive (list mem_byte)) (pend : list call)
    (chans : list datachannel_callback) (evs : list event) (fuel : nat) :
  handler_ok handler -> inv w ∅ mp 0 pend chans -> labels_ok (rtc w) -> Forall (event_ok w) evs ->
  Forall (fun c => is_Some (closure_at (fst c) w)) (pend ++ all_calls w evs) ->
  Forall (fun ch => is_Some (closure_at (cb_pc ch, F_datachannelCb) w) /\
                    is_Some (dataChannelMap (rtc w) !! cb_dc ch)) (chans ++ all_channels evs) ->
  (length (pend ++ all_calls w evs) < fuel)%nat -> (length (chans ++ all_channels evs) < fuel)%nat ->
  exists w1 w2 outs1 outs2,
    raise_all evs w = Some w1 /\ process_events handler fuel w1 = Some w2 /\
    calls w2 = calls w ++ outs1 ++ outs2 /\
    Forall2 (announced w w2) (chans ++ all_channels evs) outs1 /\
    Forall2 (delivered w) (pend ++ all_calls w evs) outs2 /\
    callback_results w2 = empty_queue /\ datachannel_callbacks w2 = empty_queue /\ mem w2 = ∅.
Proof.
  intros Hh Hinv Hlab Hok Hc Hch Hf1 Hf2. apply Forall_and in Hch as [Hch1 Hch2].
  destruct (raise_all_spec w mp 0 pend chans evs Hinv Hok Hlab) as (w1 & mp1 & Hr & Hinv1 & Hf).
  assert (keeps w w1) as Hk1 by (destruct Hf; by apply keeps_same).
  rewrite <- (app_nil_r (pend ++ _)) in Hinv1.
  destruct (process_events_spec handler Hh fuel w1 mp1 0 (pend ++ all_calls w evs) [] (chans ++ all_channels evs) Hinv1)
    as (w2 & mp2 & outs1 & outs2 & Hp & Hinv2 & Hcalls & Ha & Hd & Hk2); try done.
  { by apply (k_labels_ok _ _ Hk1). }
  { eapply Forall_impl; [exact Hch1|]. intros ch [k Hk]. exists k. by apply Hk1. }
  { eapply Forall_impl; [exact Hch2|]. intros ch [d Hd]. by destruct (k_labels _ _ Hk1 _ _ Hd) as (d' & -> & _). }
  { eapply Forall_impl; [exact Hc|]. intros c [k Hk]. exists k. by apply Hk1. }
  exists w1, w2, outs1, outs2. split; [done|]. split; [done|].
  split; [by rewrite Hcalls, (pf_calls _ _ Hf)|].
  split; [by eapply announced_keeps|]. split; [by eapply delivered_keeps|].
  destruct (inv_results _ _ _ _ _ _ Hinv2) as ([|] & Hq & Hrep); [|done]. simpl in Hrep. subst mp2.
  destruct (is_queue_nodes _ Hq) as (Hn1 & Hn2 & Hn3).
  destruct (is_queue_nodes _ (inv_channels _ _ _ _ _ _ Hinv2)) as (Hn4 & Hn5 & Hn6).
  destruct (callback_results w2), (datachannel_callbacks w2). simpl in *. subst.
  split; [done|]. split; [done|]. by rewrite (inv_mem _ _ _ _ _ _ Hinv2), map_empty_union.
Qed.

(** [initialize] on NULL globals: whatever was queued has no token. *)
Lemma initialize_inv (w : world) (xs : list callback_result) (pend : list call) (chans : list datachannel_callback) :
  callback_result_mutex w = None -> callback_result_semaphore w = None ->
  is_queue (callback_results w) xs ∅ -> rep (mem w) xs pend -> is_queue (datachannel_callbacks w) chans ∅ ->
  inv (initialize w) ∅ (mem w) (length pend) pend chans /\
  keeps w (initialize w) /\ calls (initialize w) = calls w.
Proof.
  intros Hm Hs Hq Hrep Hch. unfold initialize. rewrite Hm. simpl. rewrite Hs. simpl.
  assert (forall w' : world, callback_result_mutex w' = Some (hl_mutex_alloc false) ->
    callback_result_semaphore w' = Some (hl_semaphore_alloc 0) -> callback_results w' = callback_results w ->
    datachannel_callbacks w' = datachannel_callbacks w -> mem w' = mem w ->
    inv w' ∅ (mem w) (length pend) pend chans) as Hinv.
  { intros w' H1 H2 H3 H4 H5. split; rewrite ?H3, ?H4, ?H5; eauto using hl_mutex_alloc_free.
    - exists (hl_semaphore_alloc 0). split; [done|]. rewrite hl_semaphore_alloc_value. done.
    - by rewrite map_empty_union.
    - apply map_disjoint_empty_l. }
  destruct (datachannel_callbacks_semaphore w); split_and!; try (by apply Hinv); try done; by apply keeps_same.
Qed.

Lemma finalize_frame (w : world) :
  callback_result_mutex (finalize w) = None /\ callback_result_semaphore (finalize w) = None /\
  callback_results (finalize w) = callback_results w /\ datachannel_callbacks (finalize w) = datachannel_callbacks w /\
  mem (finalize w) = mem w /\ calls (finalize w) = calls w /\ keeps w (finalize w).
Proof.
  unfold finalize. destruct (callback_result_mutex w) eqn:H1; simpl;
    destruct (callback_result_semaphore w) eqn:H2; simpl; rewrite ?H1, ?H2;
    destruct (datachannel_callbacks_semaphore w) eqn:H3; simpl; split_and!; try done; by apply keeps_same.
Qed.

(** C27. Events pending when the binding is finalized are never caught up.  [finalize] frees
    the semaphore but keeps the queue; after the next [initialize] there are fewer tokens
    than items, so a [process_events] with no new event delivers none of the pending
    calls, and after new events it delivers the same number of calls, but the oldest ones:
    the last [length pend] calls stay queued, whatever happens. *)
Theorem finalize_leaves_backlog (handler : positive -> list value -> world -> option world)
    (w : world) (mp : gmap positive (list mem_byte)) (pend : list call) (evs : list event) (fuel : nat) :
  handler_ok handler -> inv w ∅ mp 0 pend [] -> labels_ok (rtc w) -> Forall (event_ok w) evs ->
  all_channels evs = [] ->
  Forall (fun c => is_Some (closure_at (fst c) w)) (pend ++ all_calls w evs) ->
  (length (all_calls w evs) < fuel)%nat ->
  exists w1 w2 mp2 outs,
    raise_all evs (initialize (finalize w)) = Some w1 /\ process_events handler fuel w1 = Some w2 /\
    calls w2 = calls w ++ outs /\
    Forall2 (delivered w) (take (length (all_calls w evs)) (pend ++ all_calls w evs)) outs /\
    inv w2 ∅ mp2 (length pend) (drop (length (all_calls w evs)) (pend ++ all_calls w evs)) [].
Proof.
  intros Hh [_ _ (xs & Hq & Hrep) Hch Hmem _] Hlab Hok Hnc Hc Hf. rewrite map_empty_union in Hmem. subst mp.
  destruct (finalize_frame w) as (F1 & F2 & F3 & F4 & F5 & F6 & F7).
  destruct (initialize_inv (finalize w) xs pend []) as (Hinv & I1 & I2); rewrite ?F3, ?F4, ?F5; try done.
  rewrite F5 in Hinv. set (w0 := initialize (finalize w)) in *.
  assert (keeps w w0) as Hk0 by (by eapply keeps_trans).
  assert (objs w0 = objs w /\ rtc w0 = rtc w) as [Ho Hr].
  { clear. unfold w0, initialize, finalize. destruct w as [[] [] [] ? ? ? ? ? ? ?]; by split. }
  assert (post_frame (set_roots (roots w0) w) w0) as Hpf.
  { split; simpl; try done. by rewrite I2, F6. }
  assert (all_calls w0 evs = all_calls w evs) as Hall.
  { unfold all_calls. f_equal. apply list_fmap_ext. intros ? e _.
    rewrite (event_calls_frame (set_roots (roots w0) w) w0 e Hpf). by destruct e. }
  destruct (raise_all_spec w0 (mem w) (length pend) pend [] evs Hinv) as (w1 & mp1 & Hrun & Hinv1 & Hf1).
  { eapply Forall_impl; [exact Hok|]. intros e He. eapply event_ok_frame; [exact Hpf|]. by destruct e. }
  { by rewrite Hr. }
  rewrite Hall, Hnc in Hinv1.
  assert (keeps w0 w1) as Hk1 by (destruct Hf1; by apply keeps_same).
  set (n := length (all_calls w evs)) in *.
  rewrite <- (take_drop n (pend ++ all_calls w evs)) in Hinv1.
  assert (Forall (fun c => is_Some (closure_at (fst c) w)) (take n (pend ++ all_calls w evs))) as Hc'
    by (by apply Forall_take).
  destruct (process_events_spec handler Hh fuel w1 mp1 (length pend) _ _ [] Hinv1)
    as (w2 & mp2 & outs1 & outs2 & Hp & Hinv2 & Hcalls & Ha & Hd & Hk2); try done.
  { rewrite length_drop, length_app. unfold n. lia. }
  { rewrite (pf_rtc _ _ Hf1). by rewrite Hr. }
  { rewrite length_take. lia. }
  { simpl. lia. }
  { eapply Forall_impl; [exact Hc'|]. intros c [k Hk]. exists k. by apply Hk1, Hk0. }
  inversion Ha; subst. exists w1, w2, mp2, outs2. split; [done|]. split; [done|].
  split; [by rewrite Hcalls, (pf_calls _ _ Hf1), I2, F6|]. split; [|done].
  eapply delivered_keeps; [|exact Hc'|exact Hd]. by eapply keeps_trans.
Qed.

Lemma i32_u32 x : - 2147483648 <= x < 2147483648 -> i32 (u32 x) = x.
Proof.
  intros Hx. unfold i32, sint, u32, wrap. change (2 ^ (32 - 1)) with 2147483648. change (2 ^ 32) with 4294967296.
  rewrite Zplus_mod_idemp_l. rewrite Z.mod_small by lia. lia.
Qed.

Lemma u32_zero x : - 2147483648 <= x < 2147483648 -> (u32 x >? 0) = negb (x =? 0).
Proof.
  intros Hx. unfold u32, wrap. change (2 ^ 32) with 4294967296.
  destruct (Z.eqb_spec x 0) as [->|Hne]; [done|]. simpl.
  destruct (Z.gtb_spec (x mod 4294967296) 0) as [|H0]; [done|].
  pose proof (Z.mod_pos_bound x 4294967296). exfalso. Z.to_euclidean_division_equations. lia.
Qed.

Context (hl_to_utf8 : list Z -> list Z).

(** The reliability [create_datachannel_ex] asks for. *)
Definition asked (u : bool) (r t : Z) : rtcReliability :=
  {| c_unordered := u; c_unreliable := negb (t =? 0) || negb (r =? 0);
     c_maxPacketLifeTime := u32 t; c_maxRetransmits := u32 r |}.

(** What a new channel answers to [get_datachannel_reliability]. *)
Lemma asked_reliability u r t : - 2147483648 <= r < 2147483648 -> - 2147483648 <= t < 2147483648 ->
  reliability_of (asked u r t) =
    {| unordered := u; maxPacketLifeTime := if t =? 0 then None else Some (u32 t);
       maxRetransmits := if (t =? 0) && negb (r =? 0) then Some (u32 r) else None |}.
Proof.
  intros Hr Ht. unfold reliability_of, asked. cbn. rewrite (u32_zero t Ht).
  destruct (Z.eqb_spec t 0), (Z.eqb_spec r 0); done.
Qed.

Lemma new_channel_reliability (w : world) k id o u r t d :
  - 2147483648 <= r < 2147483648 -> - 2147483648 <= t < 2147483648 ->
  get_dc k w = Some o -> dc o = id -> dataChannelMap (rtc w) !! id = Some d ->
  dc_reliability d = reliability_of (asked u r t) ->
  get_datachannel_reliability k w =
    Some ([("unordered"%string, if u then 1 else 0); ("maxRetransmits"%string, if t =? 0 then r else 0);
           ("maxLifetime"%string, t)], w).
Proof.
  intros Hr Ht Ho <- Hd Hrel. unfold get_datachannel_reliability. rewrite Ho. simpl.
  rewrite rtcGetDataChannelReliability_eq, Hd, Hrel. simpl.
  rewrite (u32_zero t Ht). unfold set_rtc.
  replace (World _ _ _ _ _ _ _ _ _ _) with w by (by destruct w).
  destruct (Z.eqb_spec t 0) as [->|Hne]; simpl.
  - destruct (Z.eqb_spec r 0) as [->|Hne']; simpl; [done|]. by rewrite (i32_u32 r Hr).
  - rewrite (u32_small (u32 t)) by apply u32_range. by rewrite (i32_u32 t Ht).
Qed.

(** C16. Creating a data channel.  On a connection the library knows and for which it can
    create a channel, [create_datachannel_ex] returns a new object with the next
    identifier, which the library's user pointer and callbacks for that identifier refer
    to, and whose five closure fields are registered as roots.  The lifetime and the
    ordering asked for are those of the channel of the library and read back unchanged.  The
    retransmission limit does so only when no lifetime was given: of a request for both, the
    library creates a channel without limit, and the limit reads back as 0. *)
Theorem create_datachannel_ex_roundtrip (w : world) (l : positive) (o : hl_rtc_peerconnection)
    (p p' : P) (d : D) (name : list Z) (u : bool) (r t : Z) :
  get_pc l w = Some o -> peerConnectionMap (rtc w) !! pc o = Some p ->
  pc_createDataChannel p (hl_to_utf8 name) (make_DataChannelInit (Some (asked u r t))) = inr (p', d) ->
  0 <= lastId (rtc w) < 2147483647 -> pc o <= lastId (rtc w) ->
  dataChannelMap (rtc w) !! (lastId (rtc w) + 1) = None -> userPointerMap (rtc w) !! (lastId (rtc w) + 1) = None ->
  - 2147483648 <= r < 2147483648 -> - 2147483648 <= t < 2147483648 ->
  exists k w1,
    create_datachannel_ex hl_to_utf8 l name u r t w = Some (k, w1) /\ objs w !! k = None /\
    get_dc k w1 = Some (Dc (lastId (rtc w) + 1) None None None None None) /\
    rtcGetUserPointer (lastId (rtc w) + 1) (rtc w1) = Some k /\
    (forall c, c ∈ [OnOpen; OnClosed; OnError; OnMessage; OnBufferedAmountLow] ->
       (lastId (rtc w) + 1, c) ∈ callbacks (rtc w1)) /\
    (forall f, f ∈ dc_fields -> root_count (roots w1) (FieldOf k f) = Datatypes.S (root_count (roots w) (FieldOf k f))) /\
    dataChannelMap (rtc w1) !! (lastId (rtc w) + 1) = Some d /\
    dc_reliability d =
      {| unordered := u; maxPacketLifeTime := if t =? 0 then None else Some (u32 t);
         maxRetransmits := if (t =? 0) && negb (r =? 0) then Some (u32 r) else None |} /\
    exists limit, get_datachannel_reliability k w1 =
      Some ([("unordered"%string, if u then 1 else 0); ("maxRetransmits"%string, limit); ("maxLifetime"%string, t)], w1) /\
      (t = 0 \/ r = 0 -> limit = r) /\ (t <> 0 -> r <> 0 -> limit = 0).
Proof.
  intros Ho Hp Hnew Hid Hle Hd Hu Hr Ht. unfold create_datachannel_ex. rewrite Ho. simpl. fold (asked u r t).
  rewrite (rtcCreateDataChannelEx_ok _ _ _ _ p p' d) by (done || lia).
  set (s := Rtc _ _ _ _ _).
  destruct (hl_rtc_make_datachannel_spec (lastId (rtc w) + 1) (set_rtc s w)) as (k & ro & s' & Hmk & Hk & Hro & Hs & Hcb).
  rewrite Hmk. simpl in Hk. simpl.
  exists k. eexists. split; [reflexivity|]. split; [done|]. simpl.
  assert (dataChannelMap s' !! (lastId (rtc w) + 1) = Some d) as Hd'.
  { rewrite (sm_chans _ _ Hs). simpl. by rewrite lookup_insert_eq. }
  split; [unfold get_dc; simpl; by rewrite lookup_insert_eq|]. split.
  { unfold rtcGetUserPointer, getUserPointer. rewrite (sm_users _ _ Hs). simpl. by rewrite lookup_insert_eq. }
  split. { apply Hcb. simpl. rewrite lookup_insert_eq. by eexists. }
  split.
  { intros f Hf. rewrite Hro, occurrences_own. destruct f; try done; set_solver. }
  destruct (pc_createDataChannel_label _ _ _ _ _ Hnew) as [_ Hrel]. split; [exact Hd'|].
  split; [rewrite Hrel; by apply asked_reliability|]. exists (if t =? 0 then r else 0). split.
  { eapply new_channel_reliability; [done|done|unfold get_dc; simpl; by rewrite lookup_insert_eq|done|exact Hd'|exact Hrel]. }
  destruct (Z.eqb_spec t 0); naive_solver.
Qed.

(** C28. A channel on a connection that does not exist.  The error of [rtcCreateDataChannel]
    is not looked at: the result is an object with identifier -1, whose address is stored
    as the user pointer of -1; reading its reliability uses an uninitialised structure; and
    after the object is collected the library still holds its dangling address, though no
    callback can be called with it. *)
Theorem create_datachannel_unknown (w : world) (l : positive) (o : hl_rtc_peerconnection) (name : list Z) :
  get_pc l w = Some o -> peerConnectionMap (rtc w) !! pc o = None ->
  dataChannelMap (rtc w) !! RTC_ERR_INVALID = None -> (forall c, (RTC_ERR_INVALID, c) ∉ callbacks (rtc w)) ->
  exists k w1 w2,
    create_datachannel hl_to_utf8 l name w = Some (k, w1) /\
    get_dc k w1 = Some (Dc RTC_ERR_INVALID None None None None None) /\
    get_datachannel_reliability k w1 = None /\
    gc_collect k w1 = Some w2 /\ objs w2 !! k = None /\
    rtcGetUserPointer RTC_ERR_INVALID (rtc w2) = Some k /\
    (forall c, (RTC_ERR_INVALID, c) ∉ callbacks (rtc w2)).
Proof.
  intros Ho Hp Hd Hcb. unfold create_datachannel. rewrite Ho. simpl. unfold rtcCreateDataChannel.
  rewrite rtcCreateDataChannelEx_unknown by done. replace (set_rtc (rtc w) w) with w by (by destruct w).
  unfold hl_rtc_make_datachannel, gc_alloc. set (k := fresh _). set (w0 := set_objs _ w).
  destruct (add_roots_eq k dc_fields w0) as (r & -> & _).
  assert (forall f (v : world), dataChannelMap (rtc v) !! RTC_ERR_INVALID = None ->
    rtc_do (rtcSetChannelCallback f RTC_ERR_INVALID true) v = v /\
    rtc_do (rtcSetChannelCallback f RTC_ERR_INVALID false) v = v) as Hset.
  { intros f v Hv. unfold rtc_do. rewrite !rtcSetChannelCallback_eq, Hv. by destruct v. }
  set (w1 := set_rtc _ (set_roots r w0)).
  assert (dataChannelMap (rtc w1) !! RTC_ERR_INVALID = None) as Hd1 by done.
  rewrite !(proj1 (Hset _ _ Hd1)).
  assert (get_dc k w1 = Some (Dc RTC_ERR_INVALID None None None None None)) as Hk.
  { unfold get_dc. simpl. by rewrite lookup_insert_eq. }
  destruct (remove_roots_eq k dc_fields w1) as (r' & Hr' & _).
  exists k, w1, (set_objs (delete k (objs w1)) (set_roots r' w1)).
  split; [done|]. split; [exact Hk|]. split.
  { unfold get_datachannel_reliability. rewrite Hk. cbn [mbind option_bind dc].
    by rewrite rtcGetDataChannelReliability_eq, Hd1. }
  split.
  { unfold gc_collect, hl_rtc_datachannel_finalize.
    assert (objs w1 !! k = Some (DcObj (Dc RTC_ERR_INVALID None None None None None))) as -> by apply lookup_insert_eq.
    cbn [mbind option_bind]. rewrite Hk. cbn [mbind option_bind dc]. rewrite !(proj2 (Hset _ _ Hd1)).
    replace (rtc_do (rtcDeleteDataChannel RTC_ERR_INVALID) w1) with w1; [by rewrite Hr'|].
    unfold rtc_do, rtcDeleteDataChannel, wrap_api, cbind. rewrite getDataChannel_eq, Hd1. by destruct w. }
  simpl. split; [by rewrite lookup_delete_eq|]. split; [|done].
  unfold rtcGetUserPointer, getUserPointer. simpl. by rewrite lookup_insert_eq.
Qed.

(** [set_remote_description] hands a description to the library exactly when its type
    is "offer" or "answer", once, as the bytes before the first NUL and with that type;
    any other type is ignored without an error. *)
Theorem set_remote_description_types (w : world) (l : positive) (o : hl_rtc_peerconnection)
    (sdp type : list Z) :
  get_pc l w = Some o ->
  set_remote_description hl_to_utf8 l (Some (c_str sdp)) type w =
    Some (if bool_decide (hl_to_utf8 type = bytes_of_string "offer" \/ hl_to_utf8 type = bytes_of_string "answer")
          then rtc_do (rtcSetRemoteDescription (pc o) (Some (cut sdp)) (hl_to_utf8 type)) w
          else w).
Proof.
  intros Ho. unfold set_remote_description, read_string. destruct (strlen_cut sdp) as [Hs Ht]. rewrite Hs.
  simpl. replace (Z.to_nat (zlen (cut sdp))) with (length (cut sdp)) by (unfold zlen; lia). rewrite Ht.
  destruct (decide (hl_to_utf8 type = bytes_of_string "offer")) as [->|H1].
  - rewrite Ho. cbn [mbind option_bind]. rewrite decide_False by (vm_compute; done).
    rewrite bool_decide_true by (by left). done.
  - cbn [mbind option_bind]. destruct (decide (hl_to_utf8 type = bytes_of_string "answer")) as [->|H2].
    + rewrite Ho. cbn [mbind option_bind]. rewrite bool_decide_true by (by right). done.
    + rewrite bool_decide_false by (by intros [?|?]). done.
Qed.
End props.

(** ** A concrete binding *)

(** A library that creates every connection and channel it is asked for. *)
#[export] Program Instance plain_impl : RtcImpl unit (list Z * Reliability) := {|
  make_PeerConnection _ := inr tt;
  pc_close p := p;
  pc_setRemoteDescription p _ _ := inr p;
  pc_addRemoteCandidate p _ _ := inr p;
  pc_createDataChannel p l i := inr (p, (l, dci_reliability i));
  pc_localAddress _ := None;
  pc_remoteAddress _ := None;
  dc_label d := fst d;
  dc_reliability d := snd d;
  dc_send d _ := inr d;
  dc_close d := d;
  dc_bufferedAmount _ := 0;
  dc_setBufferedAmountLowThreshold d _ := d
|}.
Next Obligation. intros p l i p' d [= <- <-]. done. Qed.

Definition plain_world : Type := Binding.world bool Z (list addr) unit (list Z * Reliability).
Definition idle (c : positive) (vs : list value) (w : plain_world) : option plain_world := Some w.

Lemma idle_ok : handler_ok idle.
Proof. intros c vs w. exists w. split_and!; try done. apply keeps_refl. Qed.

(** A connection (object 1, id 1), one of its channels (object 2, id 2) and a channel of
    the peer that the library knows as 3. *)
Definition demo : plain_world :=
  World (Some false) (Some 0) (Some 0) empty_queue empty_queue ∅
    {[1%positive := PcObj (Pc 1 (Some 11%positive) (Some 12%positive) (Some 13%positive) (Some 14%positive) (Some 15%positive));
      2%positive := DcObj (Dc 2 (Some 21%positive) (Some 22%positive) (Some 23%positive) (Some 24%positive) (Some 25%positive))]}
    [] (Rtc 3 {[1 := tt]} {[2 := ([97], default_reliability); 3 := ([98; 99], default_reliability)]}
          {[1 := Some 1%positive; 2 := Some 2%positive; 3 := Some 1%positive]} []) [].

Lemma demo_inv : inv demo ∅ ∅ 0 [] [].
Proof.
  split; simpl; try done; eauto using empty_is_queue.
  exists []. split; [apply empty_is_queue|done].
Qed.

Lemma demo_labels : labels_ok (rtc demo).
Proof.
  intros id d. simpl. rewrite lookup_insert_Some, lookup_singleton_Some. intros [[<- <-]|[_ [<- <-]]]; done.
Qed.

Definition demo_events : list event :=
  [EvText 2 [104; 105]; EvDataChannel 1 3; EvClosed 2; EvBinary 2 [0; 255]; EvDescription 1 [118] [111]].

Lemma process_events_delivers_witness :
  (calls <$> (w ← raise_all demo_events demo; process_events idle 10 w)) =
    Some [(15%positive, [VObj 3; VBytes (map Some (c_str [98; 99]) ++ replicate 253 None)]);
          (24%positive, [VBytes [Some 104; Some 105; Some 0]; VInt 3]);
          (22%positive, []);
          (24%positive, [VBytes [Some 0; Some 255]; VInt 2]);
          (11%positive, [VBytes [Some 118; Some 0]; VBytes [Some 111; Some 0]])] /\
  exists w1 w2 outs1 outs2,
    raise_all demo_events demo = Some w1 /\ process_events idle 10 w1 = Some w2 /\
    calls w2 = calls demo ++ outs1 ++ outs2 /\
    Forall2 (announced demo w2) ([] ++ all_channels demo_events) outs1 /\
    Forall2 (delivered demo) ([] ++ all_calls demo demo_events) outs2 /\
    callback_results w2 = empty_queue /\ datachannel_callbacks w2 = empty_queue /\ mem w2 = ∅.
Proof.
  split; [vm_compute; reflexivity|].
  apply (process_events_delivers idle demo ∅ [] [] demo_events 10 idle_ok demo_inv demo_labels).
  - repeat constructor; vm_compute; done.
  - repeat constructor; vm_compute; eauto.
  - repeat constructor; vm_compute; eauto.
  - vm_compute. lia.
  - vm_compute. lia.
Defined.

Lemma finalize_leaves_backlog_witness :
  (* one message before [finalize], one after [initialize]: the first is delivered *)
  (calls <$> (w ← raise_all [EvText 2 [104]] demo; w ← raise_all [EvText 2 [105]] (initialize (finalize w));
              process_events idle 10 w)) =
    Some [(24%positive, [VBytes [Some 104; Some 0]; VInt 2])] /\
  exists w mp, inv w ∅ mp 0 (all_calls demo [EvText 2 [104]]) [] /\
  exists w1 w2 mp2 outs,
    raise_all [EvText 2 [105]] (initialize (finalize w)) = Some w1 /\ process_events idle 10 w1 = Some w2 /\
    calls w2 = calls w ++ outs /\
    Forall2 (delivered w) (take (length (all_calls w [EvText 2 [105]]))
      (all_calls demo [EvText 2 [104]] ++ all_calls w [EvText 2 [105]])) outs /\
    inv w2 ∅ mp2 (length (all_calls demo [EvText 2 [104]]))
      (drop (length (all_calls w [EvText 2 [105]])) (all_calls demo [EvText 2 [104]] ++ all_calls w [EvText 2 [105]])) [].
Proof.
  split; [vm_compute; reflexivity|].
  destruct (raise_all_spec demo ∅ 0 [] [] [EvText 2 [104]] demo_inv) as (w & mp & _ & Hinv & Hf);
    [repeat constructor; vm_compute; done|apply demo_labels|].
  exists w, mp. simpl in Hinv. split; [exact Hinv|].
  apply (finalize_leaves_backlog idle w mp _ [EvText 2 [105]] 10 idle_ok Hinv).
  - rewrite (pf_rtc _ _ Hf). apply demo_labels.
  - repeat constructor; vm_compute; done.
  - done.
  - unfold all_calls. simpl. repeat constructor; unfold closure_at; rewrite (pf_objs _ _ Hf); by eexists.
  - simpl. lia.
Defined.

(** A channel with a retransmission limit, and one with a lifetime. *)
Lemma create_datachannel_ex_roundtrip_witness :
  (exists k w1, create_datachannel_ex id 1 [120] true 5 0 demo = Some (k, w1) /\
    get_datachannel_reliability k w1 =
      Some ([("unordered"%string, 1); ("maxRetransmits"%string, 5); ("maxLifetime"%string, 0)], w1)) /\
  exists k w1, create_datachannel_ex id 1 [120] false 0 (-1) demo = Some (k, w1) /\
    get_datachannel_reliability k w1 =
      Some ([("unordered"%string, 0); ("maxRetransmits"%string, 0); ("maxLifetime"%string, -1)], w1).
Proof.
  split.
  - destruct (create_datachannel_ex_roundtrip id demo 1
      (Pc 1 (Some 11%positive) (Some 12%positive) (Some 13%positive) (Some 14%positive) (Some 15%positive))
      tt tt ([120], reliability_of (asked true 5 0)) [120] true 5 0) as (k & w1 & Hk & _ & _ & _ & _ & _ & _ & _ & limit & Hl & Heq & _);
      try done; try (simpl; lia).
    exists k, w1. split; [exact Hk|]. rewrite Hl, Heq by (left; reflexivity). reflexivity.
  - destruct (create_datachannel_ex_roundtrip id demo 1
      (Pc 1 (Some 11%positive) (Some 12%positive) (Some 13%positive) (Some 14%positive) (Some 15%positive))
      tt tt ([120], reliability_of (asked false 0 (-1))) [120] false 0 (-1)) as (k & w1 & Hk & _ & _ & _ & _ & _ & _ & _ & limit & Hl & Heq & _);
      try done; try (simpl; lia).
    exists k, w1. split; [exact Hk|]. rewrite Hl, Heq by (right; reflexivity). reflexivity.
Defined.

(** [Unreliable(5, 1000)]: the channel has the lifetime only. *)
Example create_datachannel_ex_limit_lost :
  ('(k, w1) ← create_datachannel_ex id 1 [120] true 5 1000 demo; fst <$> get_datachannel_reliability k w1) =
    Some [("unordered"%string, 1); ("maxRetransmits"%string, 0); ("maxLifetime"%string, 1000)].
Proof. vm_compute. reflexivity. Qed.

Lemma create_datachannel_unknown_witness :
  exists k w1 w2,
    create_datachannel id 1 [120] (set_rtc (P := unit) rtc_init demo) = Some (k, w1) /\
    get_dc k w1 = Some (Dc RTC_ERR_INVALID None None None None None) /\
    get_datachannel_reliability k w1 = None /\
    gc_collect k w1 = Some w2 /\ objs w2 !! k = None /\
    rtcGetUserPointer RTC_ERR_INVALID (rtc w2) = Some k /\
    (forall c, (RTC_ERR_INVALID, c) ∉ callbacks (rtc w2)).
Proof.
  apply (create_datachannel_unknown id (set_rtc rtc_init demo) 1
    (Pc 1 (Some 11%positive) (Some 12%positive) (Some 13%positive) (Some 14%positive) (Some 15%positive)) [120]);
    try done. intros c. apply not_elem_of_nil.
Defined.

Lemma set_remote_description_types_witness :
  get_pc 1 demo = Some (Pc 1 (Some 11%positive) (Some 12%positive) (Some 13%positive) (Some 14%positive) (Some 15%positive)) /\
  set_remote_description id 1 (Some (c_str [118])) (bytes_of_string "offers") demo =
    Some (if bool_decide (id (bytes_of_string "offers") = bytes_of_string "offer" \/
                          id (bytes_of_string "offers") = bytes_of_string "answer")
          then rtc_do (rtcSetRemoteDescription 1 (Some (cut [118])) (id (bytes_of_string "offers"))) demo
          else demo).
Proof. split; [done|]. by apply (set_remote_description_types id demo 1 (Pc 1 (Some 11%positive) (Some 12%positive) (Some 13%positive) (Some 14%positive) (Some 15%positive)) [118]). Defined.
