(* ===== verification/BindingConc.v ===== *)
(** * Producers and consumer of the event queue, interleaved

    The callbacks of [src/datachannel.c] run on the threads of libdatachannel while
    [process_events] runs on the main thread.  A state records who is inside the critical
    section, how many producers have left it without having released the semaphore yet,
    and where the consumer is; each step is one access to the mutex, the semaphore or
    the queue.  The queue is the linked list of [LinkedQueue]; the mutex excludes, and
    the semaphore counts. *)

From S2P Require Import Prelude LinkedQueue.
From stdpp Require Import relations.
#[local] Open Scope Z_scope.

Section conc.
Context {X : Type}.

Inductive holder :=
| Nobody
| ProducerLocked (x : X)            (* between hl_mutex_acquire and callback_result_alloc *)
| ProducerFilled                    (* item filled, mutex held *)
| ConsumerLocked                    (* before the head is read *)
| ConsumerPopped (res : option positive).

Inductive consumer_pc :=
| Outside                           (* not in process_events *)
| Loop                              (* before hl_semaphore_try_acquire *)
| Token                             (* token taken, before hl_mutex_acquire *)
| Critical                          (* holding the mutex *)
| Run (l : positive)                (* res = l, before the closure is called *)
| Free (l : positive).              (* before free(res) *)

Record cstate := CState {
  holding : holder;
  releasing : nat;                  (* producers between hl_mutex_release and hl_semaphore_release *)
  tokens : Z;
  items : queue X;
  consumer : consumer_pc;
  posted : list X;                  (* ghost: the items in the order of insertion *)
  handled : list X                  (* ghost: the items whose closure was called *)
}.

Definition start : cstate := CState Nobody 0%nat 0 empty_queue Outside [] [].

Inductive step : cstate -> cstate -> Prop :=
(* a producer: descriptionCallback, candidateCallback, ... *)
| produce_lock x n t q c p h :
    step (CState Nobody n t q c p h) (CState (ProducerLocked x) n t q c p h)
| produce_fill x n t q q' c p h :
    enqueue q x = Some q' ->
    step (CState (ProducerLocked x) n t q c p h) (CState ProducerFilled n t q' c (p ++ [x]) h)
| produce_unlock n t q c p h :
    step (CState ProducerFilled n t q c p h) (CState Nobody (S n) t q c p h)
| produce_release o n t q c p h :
    step (CState o (S n) t q c p h) (CState o n (t + 1) q c p h)
(* process_events *)
| consume_enter o n t q p h :
    step (CState o n t q Outside p h) (CState o n t q Loop p h)
| consume_empty o n q p h :
    step (CState o n 0 q Loop p h) (CState o n 0 q Outside p h)
| consume_token o n t q p h :
    0 < t -> step (CState o n t q Loop p h) (CState o n (t - 1) q Token p h)
| consume_lock n t q p h :
    step (CState Nobody n t q Token p h) (CState ConsumerLocked n t q Critical p h)
| consume_pop n t q q' res p h :
    queue_pop q = Some (res, q') ->
    step (CState ConsumerLocked n t q Critical p h) (CState (ConsumerPopped res) n t q' Critical p h)
| consume_unlock n t q l p h :
    step (CState (ConsumerPopped (Some l)) n t q Critical p h) (CState Nobody n t q (Run l) p h)
| consume_break n t q p h :
    step (CState (ConsumerPopped None) n t q Critical p h) (CState Nobody n t q Outside p h)
| consume_run o n t q l x p h :
    queue_read q l = Some x ->
    step (CState o n t q (Run l) p h) (CState o n t q (Free l) p (h ++ [x]))
| consume_free o n t q q' l p h :
    queue_free q l = Some q' ->
    step (CState o n t q (Free l) p h) (CState o n t q' Loop p h).

(** ** The invariant *)

(** The node the consumer has unlinked and not freed. *)
Definition held_node (s : cstate) : option positive :=
  match consumer s, holding s with
  | Run l, _ => Some l
  | Free l, _ => Some l
  | Critical, ConsumerPopped r => r
  | _, _ => None
  end.

Definition called (s : cstate) : bool := match consumer s with Free _ => true | _ => false end.

Definition owned (h : option (positive * X)) : gmap positive X :=
  match h with Some (l, x) => {[l := x]} | None => ∅ end.

(** Tokens already taken for an item that is still in the queue. *)
Definition taken (s : cstate) : Z :=
  match consumer s, holding s with
  | Token, _ => 1
  | Critical, ConsumerLocked => 1
  | _, _ => 0
  end.

(** Items inserted whose token was not released yet. *)
Definition unreleased (s : cstate) : Z :=
  Z.of_nat (releasing s) + match holding s with ProducerFilled => 1 | _ => 0 end.

Definition not_handled (h : option (positive * X)) (called : bool) : list X :=
  match h, called with Some (_, x), false => [x] | _, _ => [] end.

Record conc_inv (s : cstate) (xs : list X) (h : option (positive * X)) : Prop := {
  ci_queue : is_queue (items s) xs (owned h);
  ci_held : fst <$> h = held_node s;
  ci_count : zlen xs = tokens s + unreleased s + taken s;
  ci_tokens : 0 <= tokens s;
  ci_posted : posted s = handled s ++ not_handled h (called s) ++ xs;
  ci_critical : consumer s = Critical <-> (holding s = ConsumerLocked \/ exists r, holding s = ConsumerPopped r);
  ci_popped : holding s ≠ ConsumerPopped None
}.

Definition conc_ok (s : cstate) : Prop := exists xs h, conc_inv s xs h.

Lemma start_ok : conc_ok start.
Proof.
  exists [], None. split; simpl; try done.
  - apply empty_is_queue.
  - split; [done|]. intros [|[r ?]]; done.
Qed.

Lemma held_cases (h : option (positive * X)) o : fst <$> h = o ->
  match o with None => h = None | Some l => exists x, h = Some (l, x) end.
Proof. intros <-. destruct h as [[l x]|]; simpl; eauto. Qed.

Lemma taken_item (xs : list X) n : zlen xs = n -> 0 < n -> exists x xs', xs = x :: xs' /\ zlen xs' = n - 1.
Proof. destruct xs as [|x xs]; [rewrite zlen_nil; lia|]. rewrite zlen_cons. intros. exists x, xs. split; [done|lia]. Qed.

(** What is left of a case once the queue is settled. *)
Ltac conc_case c :=
  split; unfold unreleased, taken, called, held_node in *; simpl in *;
  repeat (done || lia || match goal with
  | |- context [match c with _ => _ end] => destruct c
  | |- _ <-> _ => split
  | H : _ <-> _ |- _ => destruct H
  end || naive_solver lia).

Lemma step_ok s s' : conc_ok s -> step s s' -> conc_ok s'.
Proof.
  intros (xs & h & [Hq Hh Hc Ht Hp Hcr Hpop]) Hstep.
  destruct Hstep; unfold unreleased, taken, called, held_node in *; simpl in *.
  - exists xs, h. conc_case c.
  - destruct (enqueue_spec _ _ _ x Hq) as (q1 & Hq1 & Hq'). simplify_eq.
    exists (xs ++ [x]), h. assert (zlen (xs ++ [x]) = zlen xs + 1) by (by rewrite zlen_app).
    assert (forall b, h0 ++ not_handled h b ++ xs ++ [x] = (h0 ++ not_handled h b ++ xs) ++ [x]) as Hassoc
      by (intros; by rewrite !app_assoc).
    conc_case c; rewrite ?Hassoc; congruence.
  - exists xs, h. conc_case c.
  - exists xs, h. conc_case c.
  - exists xs, h. conc_case c.
  - exists xs, h. conc_case o.
  - exists xs, h. conc_case o.
  - exists xs, h. conc_case o.
  - destruct (taken_item xs _ Hc) as (x & xs' & -> & Hxs); [lia|].
    apply held_cases in Hh as ->. destruct (queue_pop_cons _ _ _ _ Hq) as (l & q1 & Hpop1 & _ & Hq1). simplify_eq.
    exists xs', (Some (l, x)). conc_case c.
  - apply held_cases in Hh as [x ->]. exists xs, (Some (l, x)). conc_case c.
  - done.
  - apply held_cases in Hh as [y ->]. pose proof (queue_read_own _ _ _ _ _ Hq (lookup_singleton_eq _ _)).
    assert (y = x) as -> by congruence. exists xs, (Some (l, x)).
    conc_case o; by rewrite Hp, <- app_assoc.
  - apply held_cases in Hh as [x ->]. destruct (queue_free_spec _ _ _ _ _ Hq (lookup_singleton_eq _ _)) as (q1 & Hf & Hq1).
    simplify_eq. simpl in Hq1. rewrite delete_singleton_eq in Hq1. exists xs, None. conc_case o.
Qed.

Lemma reachable_ok s : rtc step start s -> conc_ok s.
Proof.
  intros Hr. pattern s. eapply (rtc_ind_r _ start); [apply start_ok| |exact Hr].
  intros s1 s2 _ Hs Hok. by eapply step_ok.
Qed.

(** C2. Interleaved producers and consumer.  In every state reachable by any number of
    producers and one [process_events] loop, whatever the interleaving of their accesses
    to the mutex, the semaphore and the queue: the items handled so far, the item the
    consumer is working on and the queued items are, in this order, exactly the items
    posted (each delivered once, first in first out); the consumer holding a token never
    finds the queue empty; every access of the producers and of the consumer to the
    linked queue is to a live node; and when no producer is between inserting and
    releasing and the consumer has found no token, everything posted has been handled
    and no node is left allocated. *)
Theorem conc_delivery (s : cstate) :
  rtc step start s ->
  (exists current queued, posted s = handled s ++ current ++ queued /\ (length current <= 1)%nat) /\
  holding s ≠ ConsumerPopped None /\
  (forall x, is_Some (enqueue (items s) x)) /\
  (holding s = ConsumerLocked -> exists l q', queue_pop (items s) = Some (Some l, q')) /\
  (forall l, consumer s = Run l -> is_Some (queue_read (items s) l)) /\
  (forall l, consumer s = Free l -> is_Some (queue_free (items s) l)) /\
  (unreleased s = 0 -> tokens s = 0 -> consumer s = Outside -> posted s = handled s /\ nodes (items s) = ∅).
Proof.
  intros (xs & h & [Hq Hh Hc Ht Hp Hcr Hpop])%reachable_ok.
  split_and!.
  - exists (not_handled h (called s)), xs. split; [done|]. destruct h as [[l x]|], (called s); simpl; lia.
  - done.
  - intros x. destruct (enqueue_spec _ _ _ x Hq) as (q & -> & _). by eexists.
  - intros Hl. assert (taken s = 1) as Htk.
    { unfold taken. rewrite Hl. by rewrite (proj2 Hcr (or_introl Hl)). }
    unfold unreleased in Hc. rewrite Hl in Hc.
    destruct (taken_item xs _ Hc) as (x & xs' & -> & _); [lia|].
    destruct (queue_pop_cons _ _ _ _ Hq) as (l & q' & Hpop' & _). eauto.
  - intros l Hl. unfold held_node in Hh. rewrite Hl in Hh. apply held_cases in Hh as [x ->].
    rewrite (queue_read_own _ _ _ _ _ Hq (lookup_singleton_eq _ _)). by eexists.
  - intros l Hl. unfold held_node in Hh. rewrite Hl in Hh. apply held_cases in Hh as [x ->].
    destruct (queue_free_spec _ _ _ _ _ Hq (lookup_singleton_eq _ _)) as (q & -> & _). by eexists.
  - intros Hu Ht0 Ho. unfold held_node, taken in *. rewrite Ho in *. apply held_cases in Hh as ->.
    assert (xs = []) as -> by (destruct xs; [done|]; rewrite zlen_cons in Hc; pose proof (zlen_nonneg xs); lia).
    rewrite !app_nil_r in Hp. split; [done|]. by apply is_queue_no_leak.
Qed.
End conc.

Arguments cstate : clear implicits.

(** A producer posts while the consumer, woken by an earlier item, is in its loop. *)
Lemma conc_delivery_witness :
  exists s : cstate nat, rtc step start s /\ posted s = [7%nat; 8%nat] /\ handled s = [7%nat] /\
  ((exists current queued, posted s = handled s ++ current ++ queued /\ (length current <= 1)%nat) /\
   holding s ≠ ConsumerPopped None /\
   (forall x, is_Some (enqueue (items s) x)) /\
   (holding s = ConsumerLocked -> exists l q', queue_pop (items s) = Some (Some l, q')) /\
   (forall l, consumer s = Run l -> is_Some (queue_read (items s) l)) /\
   (forall l, consumer s = Free l -> is_Some (queue_free (items s) l)) /\
   (unreleased s = 0 -> tokens s = 0 -> consumer s = Outside -> posted s = handled s /\ nodes (items s) = ∅)).
Proof.
  assert (exists s : cstate nat, rtc step start s /\ posted s = [7%nat; 8%nat] /\ handled s = [7%nat]) as (s & Hr & Hp & Hh).
  { eexists. split; [|shelve].
  eapply rtc_l; [apply (produce_lock 7%nat)|]. eapply rtc_l; [by apply produce_fill|].
  eapply rtc_l; [apply produce_unlock|]. eapply rtc_l; [apply consume_enter|].
  eapply rtc_l; [apply produce_release|]. eapply rtc_l; [apply consume_token; done|].
  eapply rtc_l; [apply consume_lock|]. eapply rtc_l; [by apply consume_pop|].
  eapply rtc_l; [apply consume_unlock|]. eapply rtc_l; [apply (produce_lock 8%nat)|].
  eapply rtc_l; [by apply consume_run|]. eapply rtc_l; [by apply produce_fill|].
  apply rtc_refl. Unshelve. done. }
  exists s. split; [exact Hr|]. split; [exact Hp|]. split; [exact Hh|]. exact (conc_delivery s Hr).
Defined.
