(* ===== verification/Addr.v ===== *)
(** * Socket addresses (libjuice [src/addr.c])

    A [struct sockaddr_storage] is a tagged union by its family.  The address bytes are in
    memory order; [sin_port] is the 16-bit integer as the program reads it, that is
    byte-swapped on the little-endian machines modelled here.  Name resolution and
    printing, which only call the system, are not modelled. *)

From S2P Require Import Prelude.

Inductive sockaddr :=
| Sin (sin_port : Z) (sin_addr : list Z)
| Sin6 (sin6_port : Z) (sin6_flowinfo : Z) (sin6_addr : list Z) (sin6_scope_id : Z)
| SaOther (sa_family : Z).

Definition AF_INET : Z := 2.
Definition AF_INET6 : Z := 10.
Definition sizeof_sockaddr_in : Z := 16.
Definition sizeof_sockaddr_in6 : Z := 28.
Definition SOCK_STREAM : Z := 1.
Definition SOCK_DGRAM : Z := 2.

Definition sa_family (sa : sockaddr) : Z :=
  match sa with Sin _ _ => AF_INET | Sin6 _ _ _ _ => AF_INET6 | SaOther f => f end.

(** Byte swaps of 16-bit integers. *)
Definition ntohs (x : Z) : Z := u16 (Z.lor (Z.shiftl x 8) (Z.shiftr x 8)).
Definition htons := ntohs.

Record addr_record_t := Addr_record { addr : sockaddr; len : Z; socktype : Z }.

(** After [memset(_, 0, _)]. *)
Definition zero_record : addr_record_t := Addr_record (SaOther 0) 0 0.

(** A well-formed address: a family this file knows has its bytes; any other tag is not one
    of the two. *)
Definition sockaddr_ok (sa : sockaddr) : Prop :=
  match sa with
  | Sin p a => in_range 16 p /\ length a = 4%nat /\ Forall byte a
  | Sin6 p _ a _ => in_range 16 p /\ length a = 16%nat /\ Forall byte a
  | SaOther f => f ≠ AF_INET /\ f ≠ AF_INET6
  end.

Definition addr_get_len (sa : sockaddr) : Z :=
  match sa with Sin _ _ => sizeof_sockaddr_in | Sin6 _ _ _ _ => sizeof_sockaddr_in6 | SaOther _ => 0 end.

Definition addr_get_port (sa : sockaddr) : Z :=
  match sa with Sin p _ => ntohs p | Sin6 p _ _ _ => ntohs p | SaOther _ => 0 end.

Definition addr_set_port (sa : sockaddr) (port : Z) : Z * sockaddr :=
  match sa with
  | Sin _ a => (0, Sin (htons port) a)
  | Sin6 _ f a s => (0, Sin6 (htons port) f a s)
  | SaOther f => (-1, sa)
  end.

(** [for (int i = 0; i < n; ++i) if (b[i] != 0) return false;] *)
Definition all_zero (n : nat) (b : list Z) : bool := forallb (fun c => c =? 0) (take n b).

(** The macros of [netinet/in.h]. *)
Definition IN6_IS_ADDR_V4MAPPED (a : list Z) : bool :=
  all_zero 10 a && bool_decide (take 2 (drop 10 a) = [255; 255]).
Definition IN6_IS_ADDR_LOOPBACK (a : list Z) : bool := bool_decide (a = replicate 15 0 ++ [1]).
Definition IN6_IS_ADDR_LINKLOCAL (a : list Z) : bool :=
  match a with b0 :: b1 :: _ => (b0 =? 254) && (Z.land b1 192 =? 128) | _ => false end.

Definition addr_is_any (sa : sockaddr) : bool :=
  match sa with
  | Sin _ a => all_zero 4 a
  | Sin6 _ _ a _ => if IN6_IS_ADDR_V4MAPPED a then all_zero 4 (drop 12 a) else all_zero 16 a
  | SaOther _ => false
  end.

Definition v4_is_local (b : list Z) : bool :=
  match b with
  | b0 :: b1 :: _ => if b0 =? 127 then true (* loopback *)
                     else if (b0 =? 169) && (b1 =? 254) then true (* link-local *) else false
  | _ => false
  end.

Definition addr_is_local (sa : sockaddr) : bool :=
  match sa with
  | Sin _ a => v4_is_local a
  | Sin6 _ _ a _ =>
      if IN6_IS_ADDR_LOOPBACK a then true
      else if IN6_IS_ADDR_LINKLOCAL a then true
      else if IN6_IS_ADDR_V4MAPPED a then v4_is_local (drop 12 a) else false
  | SaOther _ => false
  end.

(** Both update the address and its length in place. *)
Definition addr_unmap_inet6_v4mapped (sa : sockaddr) (len : Z) : bool * sockaddr * Z :=
  match sa with
  | Sin6 p _ a _ => if IN6_IS_ADDR_V4MAPPED a
                    then (true, Sin p (take 4 (drop 12 a)), sizeof_sockaddr_in)
                    else (false, sa, len)
  | _ => (false, sa, len)
  end.

Definition addr_map_inet6_v4mapped (ss : sockaddr) (len : Z) : bool * sockaddr * Z :=
  match ss with
  | Sin p a => (true, Sin6 p 0 (replicate 10 0 ++ [255; 255] ++ take 4 a) 0, sizeof_sockaddr_in6)
  | _ => (false, ss, len)
  end.

Definition addr_is_equal (a b : sockaddr) (compare_ports : bool) : bool :=
  match a, b with
  | Sin p1 a1, Sin p2 a2 =>
      if negb (bool_decide (take 4 a1 = take 4 a2)) then false
      else negb (compare_ports && negb (p1 =? p2))
  | Sin6 p1 _ a1 _, Sin6 p2 _ a2 _ =>
      if negb (bool_decide (take 16 a1 = take 16 a2)) then false
      else negb (compare_ports && negb (p1 =? p2))
  | _, _ => false
  end.

Definition djb2 (hash i : Z) : Z := u64 (u64 (u64 (Z.shiftl hash 5) + hash) + i).

Definition addr_hash (sa : sockaddr) (with_port : bool) : Z :=
  let hash := djb2 5381 (sa_family sa) in
  match sa with
  | Sin p a =>
      let hash := fold_left djb2 (take 4 a) hash in
      if with_port then djb2 (djb2 hash (Z.shiftr p 8)) (Z.land p 255) else hash
  | Sin6 p _ a _ =>
      let hash := fold_left djb2 (take 16 a) hash in
      if with_port then djb2 (djb2 hash (Z.shiftr p 8)) (Z.land p 255) else hash
  | SaOther _ => hash
  end.

Definition addr_record_is_equal (a b : addr_record_t) (compare_ports : bool) : bool :=
  addr_is_equal (addr a) (addr b) compare_ports && (socktype a =? socktype b).

Definition addr_record_hash (record : addr_record_t) (with_port : bool) : Z :=
  u64 (addr_hash (addr record) with_port + (if socktype record =? SOCK_DGRAM then 0 else 1)).

(** ** Properties *)

Lemma ntohs_bytes x : 0 <= x < 65536 -> ntohs x = 256 * (x mod 256) + x / 256.
Proof.
  intros Hx. unfold ntohs. rewrite Z.shiftr_div_pow2 by lia. change (2 ^ 8) with 256.
  rewrite lor_shiftl_add by (change (2 ^ 8) with 256; Z.to_euclidean_division_equations; lia).
  unfold u16, wrap. change (2 ^ 8) with 256. change (2 ^ 16) with 65536.
  Z.to_euclidean_division_equations; lia.
Qed.

Lemma ntohs_range x : 0 <= ntohs x < 65536.
Proof. apply u16_range. Qed.

Lemma ntohs_htons x : 0 <= x < 65536 -> ntohs (htons x) = x.
Proof.
  intros Hx. unfold htons. rewrite (ntohs_bytes (ntohs x)) by apply ntohs_range.
  rewrite ntohs_bytes by done. Z.to_euclidean_division_equations; lia.
Qed.

(** The bytes of a mapped address. *)
Definition v4mapped (a : list Z) : list Z := replicate 10 0 ++ [255; 255] ++ a.

Lemma v4mapped_is_mapped a : IN6_IS_ADDR_V4MAPPED (v4mapped a) = true.
Proof. done. Qed.

Lemma is_mapped_v4mapped a : length a = 16%nat -> IN6_IS_ADDR_V4MAPPED a = true ->
  a = v4mapped (take 4 (drop 12 a)).
Proof.
  intros Hl H. do 16 (destruct a as [|? a]; [done|]). destruct a; [|done]. clear Hl.
  unfold IN6_IS_ADDR_V4MAPPED, all_zero in H. simpl in H.
  repeat (apply andb_prop in H as [H ?]).
  repeat match goal with Hz : _ && _ = true |- _ => apply andb_prop in Hz as [? Hz] end.
  repeat match goal with Hz : (_ =? 0) = true |- _ => apply Z.eqb_eq in Hz; subst end.
  match goal with Hb : bool_decide _ = true |- _ => apply bool_decide_eq_true in Hb; simplify_eq end.
  done.
Qed.

(** What two addresses must have in common. *)
Definition same_address (ports : bool) (a b : sockaddr) : Prop :=
  match a, b with
  | Sin p1 a1, Sin p2 a2 => take 4 a1 = take 4 a2 /\ (ports = true -> p1 = p2)
  | Sin6 p1 _ a1 _, Sin6 p2 _ a2 _ => take 16 a1 = take 16 a2 /\ (ports = true -> p1 = p2)
  | _, _ => False
  end.

Lemma addr_is_equal_iff a b ports : addr_is_equal a b ports = true <-> same_address ports a b.
Proof.
  assert (forall (l1 l2 : list Z) p1 p2,
    (if negb (bool_decide (l1 = l2)) then false else negb (ports && negb (p1 =? p2))) = true <->
    l1 = l2 /\ (ports = true -> p1 = p2)) as H.
  { intros l1 l2 p1 p2. destruct (bool_decide_reflect (l1 = l2)); simpl; [|naive_solver].
    destruct ports; simpl; [|naive_solver]. rewrite negb_involutive, Z.eqb_eq. naive_solver. }
  destruct a, b; simpl; try apply H; naive_solver.
Qed.

Lemma addr_record_is_equal_iff a b ports :
  addr_record_is_equal a b ports = true <-> same_address ports (addr a) (addr b) /\ socktype a = socktype b.
Proof. unfold addr_record_is_equal. by rewrite andb_true_iff, addr_is_equal_iff, Z.eqb_eq. Qed.

Lemma same_address_sym ports a b : same_address ports a b -> same_address ports b a.
Proof. destruct a, b; simpl; naive_solver. Qed.

Lemma same_address_trans ports a b c : same_address ports a b -> same_address ports b c -> same_address ports a c.
Proof. destruct a, b, c; simpl; try done; intros [H1 H2] [H3 H4];
    (split; [congruence|intros Hp; by rewrite H2, H4]). Qed.

Lemma same_address_hash ports a b : same_address ports a b -> addr_hash a ports = addr_hash b ports.
Proof.
  destruct a, b; simpl; try done; intros [Heq Hp]; unfold addr_hash; simpl; rewrite Heq;
    destruct ports; try done; by rewrite Hp.
Qed.

(** Addresses as keys.  [addr_record_is_equal] decides equality of the family, the
    address bytes, the socket type and, on request, the port; it is symmetric and
    transitive, reflexive on IPv4 and IPv6 records; and records it finds equal have the
    same [addr_record_hash], with or without the port accordingly, which lies in the
    64-bit range. *)
Theorem addr_record_key (a b c : addr_record_t) (ports : bool) :
  sockaddr_ok (addr a) -> sockaddr_ok (addr b) ->
  (addr_record_is_equal a b ports = true <->
     addr_get_len (addr a) ≠ 0 /\ sa_family (addr a) = sa_family (addr b) /\ socktype a = socktype b /\
     match addr a, addr b with
     | Sin p1 a1, Sin p2 a2 => a1 = a2 /\ (ports = true -> p1 = p2)
     | Sin6 p1 _ a1 _, Sin6 p2 _ a2 _ => a1 = a2 /\ (ports = true -> p1 = p2)
     | _, _ => True
     end) /\
  (addr_record_is_equal a b ports = true -> addr_record_hash a ports = addr_record_hash b ports) /\
  addr_record_is_equal b a ports = addr_record_is_equal a b ports /\
  (addr_record_is_equal a b ports = true -> addr_record_is_equal b c ports = true ->
     addr_record_is_equal a c ports = true) /\
  0 <= addr_record_hash a ports < 18446744073709551616.
Proof.
  intros Ha Hb. split_and!.
  - rewrite addr_record_is_equal_iff. destruct (addr a) as [p1 a1|p1 f1 a1 s1|f1], (addr b) as [p2 a2|p2 f2 a2 s2|f2];
      simpl in *; unfold sizeof_sockaddr_in, sizeof_sockaddr_in6, AF_INET, AF_INET6; try naive_solver;
      destruct Ha as (_ & Ha & _), Hb as (_ & Hb & _); rewrite !take_ge by lia; naive_solver.
  - intros [H1 H2]%addr_record_is_equal_iff. unfold addr_record_hash. by rewrite (same_address_hash _ _ _ H1), H2.
  - apply eq_true_iff_eq. rewrite !addr_record_is_equal_iff. split; intros []; split; eauto using same_address_sym.
  - rewrite !addr_record_is_equal_iff. intros [] []. split; [by eapply same_address_trans|congruence].
  - apply u64_range.
  - apply u64_range.
Qed.

Lemma addr_record_key_witness :
  let a := Addr_record (Sin 20480 [10; 0; 0; 1]) 16 SOCK_DGRAM in
  let b := Addr_record (Sin 8080 [10; 0; 0; 1]) 16 SOCK_DGRAM in
  let c := zero_record in
  addr_record_is_equal a b false = true /\ addr_record_is_equal a b true = false /\
  ((addr_record_is_equal a b false = true <->
     addr_get_len (addr a) ≠ 0 /\ sa_family (addr a) = sa_family (addr b) /\ socktype a = socktype b /\
     [10; 0; 0; 1] = [10; 0; 0; 1] /\ (false = true -> 20480 = 8080)) /\
  (addr_record_is_equal a b false = true -> addr_record_hash a false = addr_record_hash b false) /\
  addr_record_is_equal b a false = addr_record_is_equal a b false /\
  (addr_record_is_equal a b false = true -> addr_record_is_equal b c false = true ->
     addr_record_is_equal a c false = true) /\
  0 <= addr_record_hash a false < 18446744073709551616).
Proof.
  intros a b c. split; [reflexivity|]. split; [reflexivity|].
  apply (addr_record_key a b c false); repeat constructor; vm_compute; congruence.
Defined.

(** IPv4-mapped addresses.  [addr_map_inet6_v4mapped] and [addr_unmap_inet6_v4mapped]
    are inverse to each other on IPv4 addresses and on IPv4-mapped IPv6 addresses without
    flow label and scope, set the length of the new family, refuse every other address
    without changing it, and mapping changes neither the port nor the answers of
    [addr_is_any] and [addr_is_local]. *)
Theorem addr_v4mapped_roundtrip (p : Z) (a : list Z) (sa : sockaddr) (len : Z) :
  length a = 4%nat -> sockaddr_ok sa ->
  addr_map_inet6_v4mapped (Sin p a) len = (true, Sin6 p 0 (v4mapped a) 0, sizeof_sockaddr_in6) /\
  addr_unmap_inet6_v4mapped (Sin6 p 0 (v4mapped a) 0) len = (true, Sin p a, sizeof_sockaddr_in) /\
  addr_get_port (Sin6 p 0 (v4mapped a) 0) = addr_get_port (Sin p a) /\
  addr_is_any (Sin6 p 0 (v4mapped a) 0) = addr_is_any (Sin p a) /\
  addr_is_local (Sin6 p 0 (v4mapped a) 0) = addr_is_local (Sin p a) /\
  match addr_unmap_inet6_v4mapped sa len with
  | (true, sa', len') =>
      len' = addr_get_len sa' /\ exists q f s b, sa = Sin6 q f (v4mapped b) s /\ sa' = Sin q b /\
        addr_map_inet6_v4mapped sa' len' = (true, Sin6 q 0 (v4mapped b) 0, addr_get_len sa)
  | (false, sa', len') => sa' = sa /\ len' = len
  end.
Proof.
  intros Ha Hsa. do 4 (destruct a as [|? a]; [done|]). destruct a; [|done].
  split_and!; try done.
  destruct sa as [q b|q f b s|f]; simpl; try done. destruct Hsa as (_ & Hl & _).
  destruct (IN6_IS_ADDR_V4MAPPED b) eqn:Hm; [|done]. apply is_mapped_v4mapped in Hm; [|done].
  split; [done|]. exists q, f, s, (take 4 (drop 12 b)). split; [by rewrite <- Hm|]. split; [done|].
  unfold addr_map_inet6_v4mapped, v4mapped. by rewrite take_take.
Qed.

Lemma addr_v4mapped_roundtrip_witness :
  let sa := Sin6 443 7 (v4mapped [127; 0; 0; 1]) 3 in
  addr_is_local sa = true /\
  addr_map_inet6_v4mapped (Sin 443 [127; 0; 0; 1]) 16 =
    (true, Sin6 443 0 (v4mapped [127; 0; 0; 1]) 0, sizeof_sockaddr_in6) /\
  addr_unmap_inet6_v4mapped (Sin6 443 0 (v4mapped [127; 0; 0; 1]) 0) 16 = (true, Sin 443 [127; 0; 0; 1], sizeof_sockaddr_in) /\
  addr_get_port (Sin6 443 0 (v4mapped [127; 0; 0; 1]) 0) = addr_get_port (Sin 443 [127; 0; 0; 1]) /\
  addr_is_any (Sin6 443 0 (v4mapped [127; 0; 0; 1]) 0) = addr_is_any (Sin 443 [127; 0; 0; 1]) /\
  addr_is_local (Sin6 443 0 (v4mapped [127; 0; 0; 1]) 0) = addr_is_local (Sin 443 [127; 0; 0; 1]) /\
  match addr_unmap_inet6_v4mapped sa 16 with
  | (true, sa', len') =>
      len' = addr_get_len sa' /\ exists q f s b, sa = Sin6 q f (v4mapped b) s /\ sa' = Sin q b /\
        addr_map_inet6_v4mapped sa' len' = (true, Sin6 q 0 (v4mapped b) 0, addr_get_len sa)
  | (false, sa', len') => sa' = sa /\ len' = 16
  end.
Proof.
  intros sa. split; [reflexivity|].
  apply (addr_v4mapped_roundtrip 443 [127; 0; 0; 1] sa 16); [done|]. simpl. unfold byte, in_range.
  split; [lia|]. split; [done|]. repeat constructor; lia.
Defined.

