(* ===== verification/ConstTime.v ===== *)
(** * Constant-time comparisons (libjuice [src/const_time.c])

    Comparisons that look at every byte and accumulate the differences.  Objects are
    lists of bytes; a read beyond the end of an object is [None]. *)

From S2P Require Import Prelude.

Definition const_time_memcmp (a b : list Z) (len : Z) : option Z :=
  for_up 0 len (fun i x => ca ← rd a i; cb ← rd b i; Some (Z.lor x (Z.lxor ca cb))) 0.

(** [for (;;)]: the loop ends at the first NUL of either string; the fuel is the length
    of the first object, which the loop cannot leave. *)
Fixpoint const_time_strcmp_loop (fuel : nat) (a b : list Z) (i x : Z) : option Z :=
  match fuel with
  | O => None
  | S n =>
      ca ← rd a i; cb ← rd b i;
      let x := Z.lor x (Z.lxor ca cb) in
      if (ca =? 0) || (cb =? 0) then Some x else const_time_strcmp_loop n a b (i + 1) x
  end.

Definition const_time_strcmp (a b : list Z) : option Z :=
  const_time_strcmp_loop (length a) a b 0 0.

Lemma lor_lxor_zero x a b : 0 <= x -> 0 <= a -> 0 <= b ->
  Z.lor x (Z.lxor a b) = 0 <-> x = 0 /\ a = b.
Proof.
  intros Hx Ha Hb. rewrite Z.lor_eq_0_iff, Z.lxor_eq_0_iff. done.
Qed.

Lemma rd_nonneg_value (l : list Z) i v : Forall (fun c => 0 <= c) l -> rd l i = Some v -> 0 <= v.
Proof.
  intros Hl Hr. unfold rd in Hr. destruct (i <? 0); [done|].
  rewrite Forall_lookup in Hl. by eapply Hl.
Qed.

Lemma take_S_rd (l : list Z) i v : rd l (Z.of_nat i) = Some v -> take (S i) l = take i l ++ [v].
Proof. intros Hr. rewrite rd_nonneg, Nat2Z.id in Hr by lia. by apply take_S_r. Qed.

Lemma memcmp_spec a b n :
  Forall byte a -> Forall byte b -> (n <= length a)%nat -> (n <= length b)%nat ->
  exists x, const_time_memcmp a b (Z.of_nat n) = Some x /\ (x = 0 <-> take n a = take n b).
Proof.
  intros Ha Hb Hna Hnb. unfold const_time_memcmp.
  destruct (for_up_rule (fun i x => 0 <= x /\ (x = 0 <-> take (Z.to_nat i) a = take (Z.to_nat i) b))
    0 (Z.of_nat n) (fun i x => ca ← rd a i; cb ← rd b i; Some (Z.lor x (Z.lxor ca cb))) 0) as (x & -> & Hx0 & Hx).
  - lia.
  - by rewrite !take_0.
  - intros i x Hi [Hx0 Hx].
    destruct (rd_is_Some a i) as [ca Hca]; [unfold zlen; lia|].
    destruct (rd_is_Some b i) as [cb Hcb]; [unfold zlen; lia|].
    assert (0 <= ca) by (eapply rd_nonneg_value; [|exact Hca]; eapply Forall_impl; [exact Ha|]; unfold byte; lia).
    assert (0 <= cb) by (eapply rd_nonneg_value; [|exact Hcb]; eapply Forall_impl; [exact Hb|]; unfold byte; lia).
    rewrite Hca, Hcb. simpl. eexists; split; [done|].
    replace (Z.to_nat (i + 1)) with (S (Z.to_nat i)) by lia.
    rewrite <- (Z2Nat.id i) in Hca, Hcb by lia. rewrite (take_S_rd a _ _ Hca), (take_S_rd b _ _ Hcb).
    split; [apply Z.lor_nonneg; split; [done|by apply Z.lxor_nonneg]|].
    rewrite lor_lxor_zero, Hx by done. split; [by intros [-> ->]|]. intros H1.
    apply app_inj_tail in H1 as [-> ->]. done.
  - exists x. split; [done|]. by rewrite Nat2Z.id in Hx.
Qed.

Lemma strcmp_loop_spec s t : forall pre1 pre2 fuel x,
  length pre1 = length pre2 -> 0 <= x -> (length s < fuel)%nat ->
  Forall (fun c => 0 < c < 256) s -> Forall (fun c => 0 < c < 256) t ->
  exists y, const_time_strcmp_loop fuel (pre1 ++ s ++ [0]) (pre2 ++ t ++ [0]) (Z.of_nat (length pre1)) x = Some y /\
    (y = 0 <-> x = 0 /\ s = t).
Proof.
  assert (forall (pre : list Z) c l, rd (pre ++ c :: l) (Z.of_nat (length pre)) = Some c) as Hrd.
  { intros pre c l. rewrite rd_nonneg, Nat2Z.id by lia. by rewrite list_lookup_middle. }
  revert t. induction s as [|c s IH]; intros t pre1 pre2 fuel x Hlen Hx Hf Hs Ht; destruct fuel as [|fuel]; try lia;
    cbn [const_time_strcmp_loop app].
  - rewrite Hrd. destruct t as [|d t]; cbn [app].
    + rewrite Hlen, Hrd. simpl. eexists; split; [done|]. rewrite Z.lor_0_r. naive_solver.
    + rewrite Hlen, Hrd. simpl. eexists; split; [done|]. apply Forall_cons in Ht as [Hd _].
      rewrite Z.lxor_0_l, Z.lor_eq_0_iff. split; [lia|naive_solver].
  - rewrite Hrd. apply Forall_cons in Hs as [Hc Hs]. destruct t as [|d t]; cbn [app].
    + rewrite Hlen, Hrd. cbn [mbind option_bind]. rewrite orb_true_r. eexists; split; [done|].
      rewrite lor_lxor_zero by lia. naive_solver lia.
    + apply Forall_cons in Ht as [Hd Ht]. rewrite Hlen, Hrd. cbn [mbind option_bind].
      destruct (Z.eqb_spec c 0); [lia|]. destruct (Z.eqb_spec d 0); [lia|]. cbn [orb].
      destruct (IH t (pre1 ++ [c]) (pre2 ++ [d]) fuel (Z.lor x (Z.lxor c d))) as (y & Hy & Hiff); try done.
      * rewrite !length_app. simpl. lia.
      * apply Z.lor_nonneg. split; [done|]. apply Z.lxor_nonneg. lia.
      * simpl in Hf. lia.
      * rewrite <- !app_assoc in Hy. simpl in Hy. rewrite !length_app in Hy. simpl in Hy.
        exists y. split. { rewrite <- Hy. f_equal. lia. }
        rewrite Hiff, lor_lxor_zero by lia. naive_solver.
Qed.

(** [const_time_memcmp] reads exactly the first [len] bytes of both objects and returns
    0 exactly when they agree, and [const_time_strcmp] stays inside two NUL-terminated
    strings and returns 0 exactly when they are the same string. *)
Theorem const_time_correct (a b s t : list Z) (len : Z) :
  Forall byte a -> Forall byte b -> 0 <= len <= zlen a -> len <= zlen b ->
  Forall (fun c => 0 < c < 256) s -> Forall (fun c => 0 < c < 256) t ->
  (exists x, const_time_memcmp a b len = Some x /\
     (x = 0 <-> take (Z.to_nat len) a = take (Z.to_nat len) b)) /\
  exists y, const_time_strcmp (s ++ [0]) (t ++ [0]) = Some y /\ (y = 0 <-> s = t).
Proof.
  intros Ha Hb Hl1 Hl2 Hs Ht. split.
  - destruct (memcmp_spec a b (Z.to_nat len)) as (x & Hx & Hiff); [done|done|unfold zlen in *; lia..|].
    rewrite Z2Nat.id in Hx by lia. eauto.
  - destruct (strcmp_loop_spec s t [] [] (length (s ++ [0])) 0) as (y & Hy & Hiff); try done.
    { rewrite length_app. simpl. lia. }
    exists y. split; [exact Hy|]. rewrite Hiff. naive_solver.
Qed.

Lemma const_time_correct_witness :
  const_time_memcmp [1; 2; 9] [1; 2; 8; 7] 3 = Some 1 /\
  const_time_strcmp ([104; 105] ++ [0]) ([104] ++ [0]) = Some 105 /\
  (exists x, const_time_memcmp [1; 2; 9] [1; 2; 8; 7] 3 = Some x /\
     (x = 0 <-> take (Z.to_nat 3) [1; 2; 9] = take (Z.to_nat 3) [1; 2; 8; 7])) /\
  exists y, const_time_strcmp ([104; 105] ++ [0]) ([104] ++ [0]) = Some y /\ (y = 0 <-> [104; 105] = [104]).
Proof.
  split; [reflexivity|]. split; [reflexivity|].
  apply (const_time_correct [1; 2; 9] [1; 2; 8; 7] [104; 105] [104] 3); unfold byte, zlen; simpl;
    repeat constructor; lia.
Defined.
