(* ===== verification/Crc32.v ===== *)
(** * CRC-32 (libjuice [src/crc32.c])

    The table-driven checksum of the STUN FINGERPRINT attribute, against the bit-serial
    definition; the table is a static array filled by the first call. *)

From S2P Require Import Prelude.

Definition CRC32_REVERSED_POLY : Z := 3988292384. (* 0xEDB88320 *)
Definition CRC32_INIT : Z := 4294967295.
Definition CRC32_XOR : Z := 4294967295.

(** One iteration of the loop of [crc32_byte]. *)
Definition crc32_bit (crc : Z) : Z :=
  if Z.land crc 1 =? 0 then Z.shiftr crc 1 else Z.lxor (Z.shiftr crc 1) CRC32_REVERSED_POLY.

Definition crc32_byte (crc : Z) : Z := Nat.iter 8 crc32_bit crc.

Fixpoint crc32_loop (p table : list Z) (crc : Z) : option Z :=
  match p with
  | [] => Some crc
  | b :: p' => t ← rd table (Z.lxor (Z.land crc 255) b); crc32_loop p' table (Z.lxor t (Z.shiftr crc 8))
  end.

Definition crc32_table (p table : list Z) : option Z :=
  crc ← crc32_loop p table CRC32_INIT; Some (Z.lxor crc CRC32_XOR).

(** The static table before the first call. *)
Definition table0 : list Z := replicate 256 0.

Definition fill_table (table : list Z) : option (list Z) :=
  for_up 0 256 (fun i table => wr table i (crc32_byte i)) table.

Definition juice_crc32 (data table : list Z) : option (Z * list Z) :=
  last ← rd table 255;
  table ← (if last =? 0 then fill_table table else Some table);
  crc ← crc32_table data table; Some (crc, table).

(** ** The bit-serial definition *)

Definition crc32_spec (data : list Z) : Z :=
  Z.lxor (fold_left (fun crc b => crc32_byte (Z.lxor crc b)) data CRC32_INIT) CRC32_XOR.

Definition full_table : list Z := map (fun i => crc32_byte (Z.of_nat i)) (seq 0 256).

Lemma land1_odd x : Z.land x 1 = Z.b2z (Z.odd x).
Proof. change 1 with (Z.ones 1) at 1. rewrite Z.land_ones by lia. change (2 ^ 1) with 2. rewrite Zmod_odd. by destruct (Z.odd x). Qed.

Lemma crc32_bit_odd x :
  crc32_bit x = Z.lxor (Z.shiftr x 1) (if Z.odd x then CRC32_REVERSED_POLY else 0).
Proof. unfold crc32_bit. rewrite land1_odd. destruct (Z.odd x); simpl; [done|]. by rewrite Z.lxor_0_r. Qed.

Lemma odd_lxor x y : Z.odd (Z.lxor x y) = xorb (Z.odd x) (Z.odd y).
Proof. rewrite <- !Z.bit0_odd. apply Z.lxor_spec. Qed.

Lemma crc32_bit_lxor x y : crc32_bit (Z.lxor x y) = Z.lxor (crc32_bit x) (crc32_bit y).
Proof.
  rewrite !crc32_bit_odd, Z.shiftr_lxor, odd_lxor.
  apply Z.bits_inj'. intros k _. rewrite !Z.lxor_spec.
  destruct (Z.odd x), (Z.odd y); simpl; rewrite ?Z.testbit_0_l;
    destruct (Z.testbit (Z.shiftr x 1) k), (Z.testbit (Z.shiftr y 1) k), (Z.testbit CRC32_REVERSED_POLY k); done.
Qed.

Lemma crc32_byte_lxor x y : crc32_byte (Z.lxor x y) = Z.lxor (crc32_byte x) (crc32_byte y).
Proof. unfold crc32_byte. simpl. by rewrite !crc32_bit_lxor. Qed.

Lemma crc32_bit_double x : crc32_bit (2 * x) = x.
Proof.
  rewrite crc32_bit_odd, Z.odd_mul. simpl. rewrite Z.lxor_0_r, Z.shiftr_div_pow2 by lia.
  change (2 ^ 1) with 2. by rewrite Z.mul_comm, Z.div_mul.
Qed.

Lemma crc32_byte_high h : crc32_byte (Z.shiftl h 8) = h.
Proof.
  rewrite Z.shiftl_mul_pow2 by lia. unfold crc32_byte. simpl.
  replace (h * 2 ^ 8) with (2 * (2 * (2 * (2 * (2 * (2 * (2 * (2 * h)))))))) by lia.
  by rewrite !crc32_bit_double.
Qed.

(** The step of the table-driven loop is eight steps of the bit-serial one. *)
Lemma crc32_byte_table crc b :
  0 <= crc -> byte b ->
  crc32_byte (Z.lxor crc b) = Z.lxor (crc32_byte (Z.lxor (Z.land crc 255) b)) (Z.shiftr crc 8).
Proof.
  intros Hcrc Hb. rewrite <- (crc32_byte_high (Z.shiftr crc 8)). rewrite <- crc32_byte_lxor. f_equal.
  apply Z.bits_inj'. intros k Hk. rewrite !Z.lxor_spec, Z.land_spec.
  change 255 with (Z.ones 8). destruct (Z.lt_ge_cases k 8).
  - rewrite Z.ones_spec_low, Z.shiftl_spec_low by lia. by rewrite andb_true_r, xorb_false_r.
  - rewrite Z.ones_spec_high, Z.shiftl_spec, Z.shiftr_spec by lia.
    rewrite (testbit_out 8 b k) by done. rewrite andb_false_r. simpl. rewrite xorb_false_r.
    f_equal. lia.
Qed.

Lemma crc32_bit_range x : in_range 32 x -> in_range 32 (crc32_bit x).
Proof.
  intros Hx. rewrite crc32_bit_odd. apply in_range_lxor; [lia|by apply in_range_shiftr|].
  by destruct (Z.odd x).
Qed.

Lemma crc32_byte_range x : in_range 32 x -> in_range 32 (crc32_byte x).
Proof. intros. unfold crc32_byte. simpl. by repeat apply crc32_bit_range. Qed.

(** The top bit of the polynomial remembers the bit shifted out. *)
Lemma crc32_bit_top x : in_range 32 x -> Z.testbit (crc32_bit x) 31 = Z.odd x.
Proof.
  intros Hx. rewrite crc32_bit_odd, Z.lxor_spec, Z.shiftr_spec by lia.
  rewrite (testbit_out 32 x) by (done || lia). by destruct (Z.odd x).
Qed.

Lemma crc32_bit_inj x y : in_range 32 x -> in_range 32 y -> crc32_bit x = crc32_bit y -> x = y.
Proof.
  intros Hx Hy Heq. pose proof (crc32_bit_top x Hx) as H1. rewrite Heq, crc32_bit_top in H1 by done.
  rewrite !crc32_bit_odd, H1 in Heq.
  assert (Z.shiftr x 1 = Z.shiftr y 1) as Hs.
  { apply Z.bits_inj'. intros k Hk. apply (f_equal (fun z => Z.testbit z k)) in Heq.
    rewrite !Z.lxor_spec in Heq.
    destruct (Z.testbit (Z.shiftr x 1) k), (Z.testbit (Z.shiftr y 1) k), (Z.testbit (if Z.odd x then _ else _) k); done. }
  rewrite !Z.shiftr_div_pow2 in Hs by lia. change (2 ^ 1) with 2 in Hs.
  rewrite (Z.div_mod x 2), (Z.div_mod y 2), Hs, !Zmod_odd, H1 by lia. done.
Qed.

Lemma crc32_byte_inj x y : in_range 32 x -> in_range 32 y -> crc32_byte x = crc32_byte y -> x = y.
Proof.
  unfold crc32_byte. simpl. intros Hx Hy H.
  repeat (apply crc32_bit_inj in H; [|by repeat apply crc32_bit_range..]). done.
Qed.

Lemma fill_table_spec table : length table = 256%nat -> fill_table table = Some full_table.
Proof.
  intros Hl. unfold fill_table.
  destruct (for_up_fill crc32_byte (fun i table => wr table i (crc32_byte i)) table 0 256) as (t & -> & Ht & Hrd);
    [lia|unfold zlen; lia|done|]. f_equal. apply list_eq. intros i.
  unfold full_table. rewrite list_lookup_fmap. destruct (decide (i < 256)%nat).
  - rewrite lookup_seq_lt by done. simpl. specialize (Hrd (Z.of_nat i)). rewrite rd_nonneg, Nat2Z.id in Hrd by lia.
    rewrite Hrd. destruct (Z.leb_spec 0 (Z.of_nat i)), (Z.ltb_spec (Z.of_nat i) 256); simpl; done || lia.
  - rewrite !lookup_ge_None_2; [done| |lia]. rewrite length_seq. lia.
Qed.

Lemma full_table_rd i : byte i -> rd full_table i = Some (crc32_byte i).
Proof.
  intros Hi. unfold byte in Hi. rewrite rd_nonneg by lia. unfold full_table.
  rewrite list_lookup_fmap, lookup_seq_lt by lia. simpl. by rewrite Z2Nat.id by lia.
Qed.

Lemma crc32_loop_spec data : Forall byte data -> forall crc, in_range 32 crc ->
  crc32_loop data full_table crc = Some (fold_left (fun crc b => crc32_byte (Z.lxor crc b)) data crc).
Proof.
  induction 1 as [|b data Hb _ IH]; intros crc Hcrc; simpl; [done|].
  assert (byte (Z.lxor (Z.land crc 255) b)) as Hi.
  { apply (in_range_lxor 8); [lia| |done]. change 255 with (Z.ones 8). rewrite Z.land_ones by lia.
    apply wrap_range. lia. }
  rewrite full_table_rd by done. simpl.
  rewrite <- crc32_byte_table by (unfold in_range in *; lia || done).
  apply IH. apply crc32_byte_range. apply in_range_lxor; [lia|done|].
  unfold byte, in_range in *. lia.
Qed.

Lemma crc32_any_table (data table : list Z) :
  Forall byte data -> table = table0 \/ table = full_table ->
  juice_crc32 data table = Some (crc32_spec data, full_table) /\ length table = 256%nat.
Proof.
  intros Hd Ht. unfold juice_crc32.
  assert ((last ← rd table 255; if last =? 0 then fill_table table else Some table) = Some full_table) as Hfill.
  { destruct Ht as [->| ->].
    - change (rd table0 255) with (Some 0). simpl. by apply fill_table_spec.
    - rewrite full_table_rd by (unfold byte; lia). reflexivity. }
  destruct (rd table 255) as [last|]; simpl in *; [|done]. rewrite Hfill. simpl.
  unfold crc32_table. rewrite crc32_loop_spec by done. by destruct Ht as [->| ->].
Qed.

Lemma crc32_fold_range data : Forall byte data -> forall x, in_range 32 x ->
  in_range 32 (fold_left (fun crc b => crc32_byte (Z.lxor crc b)) data x).
Proof.
  induction 1 as [|b data Hb _ IH]; intros x Hx; simpl; [done|]. apply IH, crc32_byte_range, in_range_lxor; [lia|done|].
  unfold byte, in_range in *; lia.
Qed.

Lemma crc32_spec_range data : Forall byte data -> in_range 32 (crc32_spec data).
Proof. intros Hd. apply in_range_lxor; [lia| |by vm_compute]. apply crc32_fold_range; [done|by vm_compute]. Qed.

(** C31. CRC-32.  Whether the static table is still zero or was filled by an earlier call,
    [juice_crc32] stays inside it, leaves it filled, and returns the checksum the
    bit-serial division by the reversed polynomial gives. *)
Theorem juice_crc32_correct (data table : list Z) :
  Forall byte data -> table = table0 \/ table = full_table ->
  juice_crc32 data table = Some (crc32_spec data, full_table).
Proof.
  intros Hd Ht. by apply crc32_any_table.
Qed.

Lemma juice_crc32_correct_witness :
  (* the check value of the polynomial: CRC-32 of "123456789" *)
  crc32_spec [49; 50; 51; 52; 53; 54; 55; 56; 57] = 3421780262 /\
  juice_crc32 [49; 50; 51; 52; 53; 54; 55; 56; 57] table0 =
    Some (crc32_spec [49; 50; 51; 52; 53; 54; 55; 56; 57], full_table).
Proof.
  split; [vm_compute; reflexivity|].
  apply (juice_crc32_correct [49; 50; 51; 52; 53; 54; 55; 56; 57] table0).
  - unfold byte. repeat constructor; lia.
  - by left.
Defined.

Lemma crc32_fold_inj data : Forall byte data -> forall x y, in_range 32 x -> in_range 32 y ->
  fold_left (fun crc b => crc32_byte (Z.lxor crc b)) data x =
  fold_left (fun crc b => crc32_byte (Z.lxor crc b)) data y -> x = y.
Proof.
  induction 1 as [|b data Hb _ IH]; intros x y Hx Hy; simpl; [done|].
  assert (in_range 32 b) as Hbr by (unfold byte, in_range in *; lia).
  intros H. apply IH in H; [|by apply crc32_byte_range, in_range_lxor..].
  apply crc32_byte_inj in H; [|by apply in_range_lxor..].
  apply (f_equal (fun z => Z.lxor z b)) in H. by rewrite !Z.lxor_assoc, Z.lxor_nilpotent, !Z.lxor_0_r in H.
Qed.

(** The checksum detects every corruption of a single byte: messages that differ in
    exactly one byte have different checksums. *)
Theorem juice_crc32_detects_byte (p q table : list Z) (b b' : Z) :
  Forall byte p -> Forall byte q -> byte b -> byte b' -> b ≠ b' -> table = table0 \/ table = full_table ->
  exists c c', juice_crc32 (p ++ b :: q) table = Some (c, full_table) /\
    juice_crc32 (p ++ b' :: q) full_table = Some (c', full_table) /\ c ≠ c'.
Proof.
  intros Hp Hq Hb Hb' Hne Ht.
  assert (forall x, byte x -> Forall byte (p ++ x :: q)) as Hall by (intros; by apply Forall_app, conj, Forall_cons).
  exists (crc32_spec (p ++ b :: q)), (crc32_spec (p ++ b' :: q)).
  destruct (crc32_any_table (p ++ b :: q) table) as [-> _]; [by apply Hall|done|].
  destruct (crc32_any_table (p ++ b' :: q) full_table) as [-> _]; [by apply Hall|by right|].
  split; [done|]. split; [done|]. unfold crc32_spec. rewrite !fold_left_app. simpl. intros H.
  set (x := fold_left _ p CRC32_INIT) in *.
  assert (in_range 32 x) as Hx by (by apply crc32_fold_range).
  assert (in_range 32 b /\ in_range 32 b') as [Hbr Hbr'] by (unfold byte, in_range in *; lia).
  apply (f_equal (fun z => Z.lxor z CRC32_XOR)) in H. rewrite !Z.lxor_assoc, Z.lxor_nilpotent, !Z.lxor_0_r in H.
  apply crc32_fold_inj in H; [|done|by apply crc32_byte_range, in_range_lxor..].
  apply crc32_byte_inj in H; [|by apply in_range_lxor..].
  apply (f_equal (Z.lxor x)) in H. by rewrite <- !Z.lxor_assoc, Z.lxor_nilpotent, !Z.lxor_0_l in H.
Qed.

Lemma juice_crc32_detects_byte_witness :
  exists c c', juice_crc32 ([1] ++ 2 :: [3; 4]) table0 = Some (c, full_table) /\
    juice_crc32 ([1] ++ 0 :: [3; 4]) full_table = Some (c', full_table) /\ c ≠ c'.
Proof.
  apply (juice_crc32_detects_byte [1] [3; 4] table0 2 0); unfold byte; try lia; [repeat constructor; lia..|by left].
Defined.
