(* ===== verification/Base64.v ===== *)
(** * Base64 (libjuice [src/base64.c])

    Encoding and decoding into a buffer of a given capacity; a write beyond it is [None].
    Decoding stores one byte more than it accounts for when the last group is short. *)

From S2P Require Import Prelude Bytes.

Definition tab : list Z :=
  [65; 66; 67; 68; 69; 70; 71; 72; 73; 74; 75; 76; 77; 78; 79; 80; 81; 82; 83; 84; 85; 86; 87; 88; 89; 90;
   97; 98; 99; 100; 101; 102; 103; 104; 105; 106; 107; 108; 109; 110; 111; 112; 113; 114; 115; 116; 117; 118;
   119; 120; 121; 122; 48; 49; 50; 51; 52; 53; 54; 55; 56; 57; 43; 47].

(** [*w++ = x] with [w] pointing behind the bytes [w] already written. *)
Definition put (cap : Z) (w : list Z) (x : Z) : option (list Z) :=
  if zlen w <? cap then Some (w ++ [x]) else None.

(** ** Encoding *)

Definition puts (cap : Z) (w : list Z) (xs : list (option Z)) : option (list Z) :=
  fold_left (fun w x => w ← w; x ← x; put cap w x) xs (Some w).

(** [while (size >= 3)] *)
Fixpoint encode_loop (cap : Z) (data w : list Z) : option (list Z * list Z) :=
  match data with
  | b0 :: b1 :: b2 :: rest =>
      w ← puts cap w [rd tab (Z.shiftr b0 2);
                      rd tab (Z.lor (Z.shiftl (Z.land b0 3) 4) (Z.shiftr b1 4));
                      rd tab (Z.lor (Z.shiftl (Z.land b1 15) 2) (Z.shiftr b2 6));
                      rd tab (Z.land b2 63)];
      encode_loop cap rest w
  | _ => Some (data, w)
  end.

(** The return value and the bytes of [out], terminating NUL included; the capacity of the
    buffer is [out_size]. *)
Definition juice_base64_encode (data : list Z) (out_size : Z) : option (Z * list Z) :=
  if out_size <? 4 * ((zlen data + 2) / 3) + 1 then Some (-1, []) else
  '(data, w) ← encode_loop out_size data [];
  w ← (match data with
       | [b0] => puts out_size w [rd tab (Z.shiftr b0 2); rd tab (Z.shiftl (Z.land b0 3) 4); Some 61; Some 61]
       | [b0; b1] => puts out_size w [rd tab (Z.shiftr b0 2);
                                      rd tab (Z.lor (Z.shiftl (Z.land b0 3) 4) (Z.shiftr b1 4));
                                      rd tab (Z.shiftl (Z.land b1 15) 2); Some 61]
       | _ => Some w
       end);
  out ← put out_size w 0; Some (i32 (zlen w), out).

(** ** Decoding *)

(** The value of a character; [None] for an invalid one. *)
Definition digit (c : Z) : option Z :=
  if (65 <=? c) && (c <=? 90) then Some (c - 65)
  else if (97 <=? c) && (c <=? 122) then Some (c + 26 - 97)
  else if (48 <=? c) && (c <=? 57) then Some (c + 52 - 48)
  else if (c =? 43) || (c =? 45) then Some 62
  else if (c =? 47) || (c =? 95) then Some 63
  else None.

(** The inner loop: the rest of the input and the digits of the group, [Some None] for an
    invalid character, [None] when the input has no NUL. *)
Fixpoint decode_group (str : list Z) (digits : list Z) : option (option (list Z * list Z)) :=
  match str with
  | [] => None
  | c :: str' =>
      if (c =? 0) || negb (zlen digits <? 4) then Some (Some (str, digits))
      else if isspace c then decode_group str' digits
      else if c =? 61 then Some (Some (str', digits))
      else match digit c with
           | Some v => decode_group str' (digits ++ [v])
           | None => Some None
           end
  end.

(** The bytes stored for the digits of a group. *)
Definition group_bytes (digits : list Z) : list Z :=
  match digits with
  | [t0] => [u8 (Z.lor (Z.shiftl t0 2) 0)]
  | [t0; t1] => [u8 (Z.lor (Z.shiftl t0 2) (Z.shiftr t1 4)); u8 (Z.lor (Z.shiftl t1 4) 0)]
  | [t0; t1; t2] => [u8 (Z.lor (Z.shiftl t0 2) (Z.shiftr t1 4)); u8 (Z.lor (Z.shiftl t1 4) (Z.shiftr t2 2));
                     u8 (Z.lor (Z.shiftl t2 6) 0)]
  | t0 :: t1 :: t2 :: t3 :: _ =>
      [u8 (Z.lor (Z.shiftl t0 2) (Z.shiftr t1 4)); u8 (Z.lor (Z.shiftl t1 4) (Z.shiftr t2 2));
       u8 (Z.lor (Z.shiftl t2 6) t3)]
  | [] => []
  end.

(** [cap] is the capacity of the buffer, [out_size] what is left of the size the caller gave. *)
Fixpoint decode_loop (fuel : nat) (cap : Z) (str : list Z) (out_size : Z) (w : list Z) : option (Z * list Z) :=
  match fuel with
  | O => None
  | S n =>
      match str with
      | [] => None
      | c :: _ =>
          if (c =? 0) || (c =? 61) then Some (i32 (zlen w), w) else
          g ← decode_group str [];
          match g with
          | None => Some (-1, w)
          | Some (str', []) => decode_loop n cap str' out_size w
          | Some (str', digits) =>
              if out_size <? zlen digits - 1 then Some (-1, w) else
              w ← puts cap w (map Some (group_bytes digits));
              decode_loop n cap str' (out_size - (zlen digits - 1)) w
          end
      end
  end.

Definition juice_base64_decode (str : list Z) (out_size cap : Z) : option (Z * list Z) :=
  decode_loop (S (length str)) cap str out_size [].

(** ** The encoding of RFC 4648 *)

Definition chr (v : Z) : Z := nth (Z.to_nat v) tab 0.

(** A group of three bytes as a 24-bit number, cut into four 6-bit digits. *)
Definition sextets (b0 b1 b2 : Z) : list Z :=
  let n := b0 * 65536 + b1 * 256 + b2 in [n / 262144; n / 4096 mod 64; n / 64 mod 64; n mod 64].

Fixpoint base64 (data : list Z) : list Z :=
  match data with
  | b0 :: b1 :: b2 :: rest => map chr (sextets b0 b1 b2) ++ base64 rest
  | [b0; b1] => map chr (take 3 (sextets b0 b1 0)) ++ [61]
  | [b0] => map chr (take 2 (sextets b0 0 0)) ++ [61; 61]
  | [] => []
  end.

(** The byte the decoder adds. *)
Definition extra (data : list Z) : list Z := if zlen data mod 3 =? 0 then [] else [0].

(** Induction by groups of three. *)
Lemma triple_ind {A} (Q : list A -> Prop) :
  Q [] -> (forall a, Q [a]) -> (forall a b, Q [a; b]) -> (forall a b c l, Q l -> Q (a :: b :: c :: l)) ->
  forall l, Q l.
Proof.
  intros H0 H1 H2 H3 l. enough (Q l /\ (forall a, Q (a :: l)) /\ (forall a b, Q (a :: b :: l))) by tauto.
  induction l as [|x l (IH0 & IH1 & IH2)]; [done|]. split; [apply IH1|]. split; [intros; apply IH2|].
  intros. by apply H3.
Qed.

Lemma chr_facts v : 0 <= v < 64 ->
  rd tab v = Some (chr v) /\ digit (chr v) = Some v /\ chr v ≠ 0 /\ chr v ≠ 61 /\ isspace (chr v) = false.
Proof.
  intros Hv. rewrite rd_nonneg by lia. unfold chr.
  assert (forall n, (n < 64)%nat -> tab !! n = Some (nth n tab 0) /\ digit (nth n tab 0) = Some (Z.of_nat n) /\
    nth n tab 0 ≠ 0 /\ nth n tab 0 ≠ 61 /\ isspace (nth n tab 0) = false) as H.
  { intros n Hn. do 64 (destruct n as [|n]; [by vm_compute|]). lia. }
  specialize (H (Z.to_nat v)). rewrite Z2Nat.id in H by lia. apply H. lia.
Qed.

Lemma digit_bits b0 b1 b2 : byte b0 -> byte b1 -> byte b2 ->
  [Z.shiftr b0 2; Z.lor (Z.shiftl (Z.land b0 3) 4) (Z.shiftr b1 4);
   Z.lor (Z.shiftl (Z.land b1 15) 2) (Z.shiftr b2 6); Z.land b2 63] = sextets b0 b1 b2.
Proof.
  unfold byte, sextets. intros H0 H1 H2.
  change 3 with (Z.ones 2). change 15 with (Z.ones 4). change 63 with (Z.ones 6). rewrite !Z.land_ones by lia.
  rewrite !Z.shiftr_div_pow2 by lia.
  change (2 ^ 2) with 4. change (2 ^ 4) with 16. change (2 ^ 6) with 64.
  rewrite (lor_shiftl_add 4) by (change (2 ^ 4) with 16; Z.to_euclidean_division_equations; lia).
  rewrite (lor_shiftl_add 2) by (change (2 ^ 2) with 4; Z.to_euclidean_division_equations; lia).
  change (2 ^ 2) with 4. change (2 ^ 4) with 16.
  repeat apply (f_equal2 cons); try done; Z.to_euclidean_division_equations; lia.
Qed.

Lemma sextets_range b0 b1 b2 : byte b0 -> byte b1 -> byte b2 -> Forall (fun v => 0 <= v < 64) (sextets b0 b1 b2).
Proof.
  unfold byte, sextets. intros. repeat constructor; Z.to_euclidean_division_equations; lia.
Qed.

Lemma rd_tab_sextets l : Forall (fun v => 0 <= v < 64) l -> map (rd tab) l = map Some (map chr l).
Proof. induction 1 as [|v l Hv _ IH]; simpl; [done|]. by rewrite (proj1 (chr_facts v Hv)), IH. Qed.

Lemma puts_spec cap w xs : zlen w + zlen xs <= cap -> puts cap w (map Some xs) = Some (w ++ xs).
Proof.
  unfold puts. revert w. induction xs as [|x xs IH]; intros w H; simpl; [by rewrite app_nil_r|].
  rewrite zlen_cons in H. pose proof (zlen_nonneg xs). unfold put.
  destruct (Z.ltb_spec (zlen w) cap); [|lia]. rewrite IH, <- app_assoc; [done|]. rewrite zlen_app, zlen_cons, zlen_nil. lia.
Qed.

Lemma puts_overflow cap w xs : zlen w <= cap -> cap < zlen w + zlen xs -> puts cap w (map Some xs) = None.
Proof.
  unfold puts. revert w. induction xs as [|x xs IH]; intros w Hw H; [rewrite zlen_nil in H; lia|]. simpl.
  unfold put at 2. destruct (Z.ltb_spec (zlen w) cap).
  - apply IH; rewrite zlen_app, zlen_cons, zlen_nil; [lia|]. rewrite zlen_cons in H. lia.
  - clear. induction xs; done.
Qed.

Lemma base64_length data : zlen (base64 data) = 4 * ((zlen data + 2) / 3).
Proof.
  induction data as [|a|a b|a b c l IH] using triple_ind; try done. cbn [base64].
  rewrite zlen_app, !zlen_cons, IH. change (zlen (map chr (sextets a b c))) with 4.
  Z.to_euclidean_division_equations; lia.
Qed.

Lemma rd_digits a b c : byte a -> byte b -> byte c ->
  [rd tab (Z.shiftr a 2); rd tab (Z.lor (Z.shiftl (Z.land a 3) 4) (Z.shiftr b 4));
   rd tab (Z.lor (Z.shiftl (Z.land b 15) 2) (Z.shiftr c 6)); rd tab (Z.land c 63)] =
  map Some (map chr (sextets a b c)).
Proof.
  intros Ha Hb Hc. rewrite <- rd_tab_sextets by (by apply sextets_range). by rewrite <- digit_bits.
Qed.

Lemma encode_loop_spec data : Forall byte data -> forall cap w, zlen w + zlen (base64 data) <= cap ->
  exists whole tail, data = whole ++ tail /\ (length tail < 3)%nat /\
    encode_loop cap data w = Some (tail, w ++ base64 whole) /\ base64 data = base64 whole ++ base64 tail.
Proof.
  induction data as [|a|a b|a b c l IH] using triple_ind; intros Hd cap w Hw.
  - exists [], []. split_and!; simpl; rewrite ?app_nil_r; done || lia.
  - exists [], [a]. split_and!; simpl; rewrite ?app_nil_r; done || lia.
  - exists [], [a; b]. split_and!; simpl; rewrite ?app_nil_r; done || lia.
  - apply Forall_cons in Hd as [Ha Hd]. apply Forall_cons in Hd as [Hb Hd]. apply Forall_cons in Hd as [Hc Hd].
    cbn [encode_loop base64] in *.
    rewrite (rd_digits a b c Ha Hb Hc). rewrite zlen_app in Hw.
    pose proof (zlen_nonneg (base64 l)). change (zlen (map chr (sextets a b c))) with 4 in Hw.
    rewrite puts_spec by (change (zlen (map chr (sextets a b c))) with 4; lia). cbn [mbind option_bind].
    destruct (IH Hd cap (w ++ map chr (sextets a b c))) as (whole & tail & -> & Htail & -> & Heq).
    { rewrite zlen_app. change (zlen (map chr (sextets a b c))) with 4. lia. }
    exists (a :: b :: c :: whole), tail. split; [done|]. split; [done|]. cbn [base64].
    rewrite Heq. split; [by rewrite <- !app_assoc|by rewrite <- app_assoc].
Qed.

Lemma encode_tail_spec cap tail w : Forall byte tail -> (length tail < 3)%nat -> zlen w + zlen (base64 tail) <= cap ->
  (match tail with
   | [b0] => puts cap w [rd tab (Z.shiftr b0 2); rd tab (Z.shiftl (Z.land b0 3) 4); Some 61; Some 61]
   | [b0; b1] => puts cap w [rd tab (Z.shiftr b0 2);
                             rd tab (Z.lor (Z.shiftl (Z.land b0 3) 4) (Z.shiftr b1 4));
                             rd tab (Z.shiftl (Z.land b1 15) 2); Some 61]
   | _ => Some w
   end) = Some (w ++ base64 tail).
Proof.
  intros Ht Hl Hw. destruct tail as [|a [|b [|]]]; simpl in Hl; try lia; cbn [base64] in *.
  - by rewrite app_nil_r.
  - apply Forall_cons in Ht as [Ha _]. assert (byte 0) as H0 by (unfold byte; lia).
    pose proof (rd_digits a 0 0 Ha H0 H0) as Hrd. change (Z.shiftr 0 4) with 0 in Hrd. rewrite Z.lor_0_r in Hrd.
    cbn [map sextets] in Hrd. injection Hrd as -> -> _ _.
    by apply (puts_spec cap w [_; _; _; _]).
  - apply Forall_cons in Ht as [Ha Ht]. apply Forall_cons in Ht as [Hb _]. assert (byte 0) as H0 by (unfold byte; lia).
    pose proof (rd_digits a b 0 Ha Hb H0) as Hrd. change (Z.shiftr 0 6) with 0 in Hrd. rewrite Z.lor_0_r in Hrd.
    cbn [map sextets] in Hrd. injection Hrd as -> -> -> _.
    by apply (puts_spec cap w [_; _; _; _]).
Qed.

Lemma encode_spec data out_size : Forall byte data -> zlen data < 536870912 ->
  juice_base64_encode data out_size =
    Some (if out_size <? zlen (base64 data) + 1 then (-1, []) else (zlen (base64 data), base64 data ++ [0])).
Proof.
  intros Hd Hl. unfold juice_base64_encode. rewrite <- base64_length.
  destruct (Z.ltb_spec out_size (zlen (base64 data) + 1)); [done|].
  destruct (encode_loop_spec data Hd out_size []) as (whole & tail & Heq & Ht & -> & Hb); [rewrite zlen_nil; lia|].
  cbn [mbind option_bind app]. assert (Forall byte tail) by (subst; by apply Forall_app in Hd as [_ ?]).
  rewrite Hb, zlen_app in *. rewrite encode_tail_spec by (done || lia). cbn [mbind option_bind].
  rewrite <- Hb. unfold put. rewrite <- zlen_app, <- Hb in *.
  destruct (Z.ltb_spec (zlen (base64 data)) out_size); [|lia]. simpl.
  rewrite i32_small; [done|]. pose proof (zlen_nonneg (base64 data)). rewrite base64_length in *.
  Z.to_euclidean_division_equations; lia.
Qed.

(** ** Decoding what was encoded *)

Lemma decode_group_chars ds : Forall (fun v => 0 <= v < 64) ds -> forall rest digits,
  zlen digits + zlen ds <= 4 -> decode_group (map chr ds ++ rest) digits = decode_group rest (digits ++ ds).
Proof.
  induction 1 as [|v ds Hv _ IH]; intros rest digits Hl; simpl; [by rewrite app_nil_r|].
  rewrite zlen_cons in Hl. pose proof (zlen_nonneg ds).
  destruct (chr_facts v Hv) as (_ & -> & H0 & H1 & ->).
  destruct (Z.eqb_spec (chr v) 0); [done|]. destruct (Z.eqb_spec (chr v) 61); [done|].
  destruct (Z.ltb_spec (zlen digits) 4); [|lia]. simpl.
  rewrite IH, <- app_assoc; [done|]. rewrite zlen_app, zlen_cons, zlen_nil. lia.
Qed.

Lemma decode_group_full ds c rest : zlen ds = 4 -> decode_group (c :: rest) ds = Some (Some (c :: rest, ds)).
Proof. intros H. simpl. rewrite H, orb_true_r. done. Qed.

Lemma decode_group_pad ds rest : zlen ds < 4 -> decode_group (61 :: rest) ds = Some (Some (rest, ds)).
Proof. intros H. simpl. destruct (Z.ltb_spec (zlen ds) 4); [done|lia]. Qed.

(** A byte from a shifted digit and the digit behind it. *)
Lemma join_byte k x y : 0 <= k -> 0 <= y < 2 ^ k -> u8 (Z.lor (Z.shiftl x k) y) = (x * 2 ^ k + y) mod 256.
Proof. intros Hk Hy. rewrite lor_shiftl_add by done. done. Qed.

Lemma group_bytes_sextets a b c : byte a -> byte b -> byte c -> group_bytes (sextets a b c) = [a; b; c].
Proof.
  unfold byte. intros Ha Hb Hc. unfold sextets. cbn [group_bytes].
  rewrite !Z.shiftr_div_pow2 by lia. change (2 ^ 4) with 16. change (2 ^ 2) with 4.
  rewrite (join_byte 2), (join_byte 4), (join_byte 6)
    by (lia || (change (2 ^ 4) with 16; change (2 ^ 2) with 4; change (2 ^ 6) with 64; Z.to_euclidean_division_equations; lia)).
  change (2 ^ 4) with 16. change (2 ^ 2) with 4. change (2 ^ 6) with 64.
  repeat apply (f_equal2 cons); try done; Z.to_euclidean_division_equations; lia.
Qed.

Lemma group_bytes_short ds : 0 < zlen ds < 4 ->
  group_bytes ds = take (length ds) (group_bytes (ds ++ replicate (4 - length ds) 0)).
Proof. unfold zlen. destruct ds as [|a [|b [|c [|]]]]; simpl; intros; try lia; done. Qed.

(** One turn of the outer loop on a group of digits. *)
Lemma decode_loop_group n cap ds sep rest out_size w : Forall (fun v => 0 <= v < 64) ds -> ds ≠ [] ->
  decode_group (map chr ds ++ sep) [] = Some (Some (rest, ds)) ->
  decode_loop (S n) cap (map chr ds ++ sep) out_size w =
    if out_size <? zlen ds - 1 then Some (-1, w) else
    w ← puts cap w (map Some (group_bytes ds)); decode_loop n cap rest (out_size - (zlen ds - 1)) w.
Proof.
  intros Hds Hne Hg. destruct ds as [|v ds]; [done|]. apply Forall_cons in Hds as [Hv _].
  destruct (chr_facts v Hv) as (_ & _ & H0 & H1 & _). cbn [map app] in *. cbn [decode_loop].
  destruct (Z.eqb_spec (chr v) 0); [done|]. destruct (Z.eqb_spec (chr v) 61); [done|]. simpl orb. cbv iota.
  rewrite Hg. done.
Qed.

(** A last group of one or two bytes [tail]: [k] digits, then padding. *)
Lemma decode_loop_short n cap ds pad out_size w : Forall (fun v => 0 <= v < 64) ds -> 1 < zlen ds < 4 ->
  zlen ds - 1 <= out_size -> zlen w <= cap ->
  decode_loop (S (S n)) cap (map chr ds ++ 61 :: pad ++ [0]) out_size w =
    if cap <? zlen w + zlen (group_bytes ds) then None
    else decode_loop (S n) cap (pad ++ [0]) (out_size - (zlen ds - 1)) (w ++ group_bytes ds).
Proof.
  intros Hds Hl Ho Hw. rewrite (decode_loop_group _ _ ds _ (pad ++ [0])).
  - destruct (Z.ltb_spec out_size (zlen ds - 1)); [lia|].
    destruct (Z.ltb_spec cap (zlen w + zlen (group_bytes ds))); [by rewrite puts_overflow|].
    by rewrite puts_spec.
  - done.
  - intros ->. rewrite zlen_nil in Hl. lia.
  - rewrite decode_group_chars by (done || rewrite zlen_nil; lia). apply decode_group_pad. simpl. lia.
Qed.

Lemma extra_cons3 a b c l : extra (a :: b :: c :: l) = extra l.
Proof.
  unfold extra. rewrite !zlen_cons. replace (1 + (1 + (1 + zlen l))) with (zlen l + 1 * 3) by lia. by rewrite Z.mod_add.
Qed.

Lemma short_tail tail : Forall byte tail -> 0 < zlen tail < 3 ->
  exists ds pad, base64 tail = map chr ds ++ 61 :: pad /\ (pad = [] \/ pad = [61]) /\
    Forall (fun v => 0 <= v < 64) ds /\ zlen ds = zlen tail + 1 /\ group_bytes ds = tail ++ [0].
Proof.
  assert (byte 0) as H0 by (unfold byte; lia).
  intros Ht Hl. destruct tail as [|a [|b [|c l]]]; unfold zlen in Hl; simpl length in Hl; [lia| | |lia].
  - apply Forall_cons in Ht as [Ha _]. exists (take 2 (sextets a 0 0)), [61].
    split; [done|]. split; [by right|]. split; [by apply Forall_take, sextets_range|]. split; [done|].
    rewrite (group_bytes_short (take 2 _)) by done.
    pose proof (group_bytes_sextets a 0 0 Ha H0 H0) as Hg. unfold sextets in *. cbn -[group_bytes Z.div Z.modulo Z.mul].
    assert ((a * 65536 + 0 * 256 + 0) / 64 mod 64 = 0) as E2 by (unfold byte in Ha; Z.to_euclidean_division_equations; lia).
    assert ((a * 65536 + 0 * 256 + 0) mod 64 = 0) as E3 by (unfold byte in Ha; Z.to_euclidean_division_equations; lia).
    rewrite E2, E3 in Hg. by rewrite Hg.
  - apply Forall_cons in Ht as [Ha Ht]. apply Forall_cons in Ht as [Hb _]. exists (take 3 (sextets a b 0)), [].
    split; [done|]. split; [by left|]. split; [by apply Forall_take, sextets_range|]. split; [done|].
    rewrite (group_bytes_short (take 3 _)) by done.
    pose proof (group_bytes_sextets a b 0 Ha Hb H0) as Hg. unfold sextets in *. cbn -[group_bytes Z.div Z.modulo Z.mul].
    assert ((a * 65536 + b * 256 + 0) mod 64 = 0) as E3 by (unfold byte in Ha, Hb; Z.to_euclidean_division_equations; lia).
    rewrite E3 in Hg. by rewrite Hg.
Qed.

Lemma decode_loop_end n cap pad out_size w : (pad = [] \/ pad = [61]) ->
  decode_loop (S n) cap (pad ++ [0]) out_size w = Some (i32 (zlen w), w).
Proof. intros [-> | ->]; done. Qed.

(** Decoding [base64 data] delivers [data] and one zero byte more after a short group. *)
Lemma decode_loop_spec data : Forall byte data -> forall n cap out_size w,
  zlen data < Z.of_nat n -> zlen data <= out_size -> zlen w + zlen data <= cap ->
  decode_loop n cap (base64 data ++ [0]) out_size w =
    let w' := w ++ data ++ extra data in if cap <? zlen w' then None else Some (i32 (zlen w'), w').
Proof.
  assert (forall tail, Forall byte tail -> 0 < zlen tail < 3 -> forall n cap out_size w,
    zlen tail < Z.of_nat n -> zlen tail <= out_size -> zlen w + zlen tail <= cap ->
    decode_loop n cap (base64 tail ++ [0]) out_size w =
    let w' := w ++ tail ++ [0] in if cap <? zlen w' then None else Some (i32 (zlen w'), w')) as Hshort.
  { intros tail Ht Hl n cap out_size w Hn Ho Hc. destruct n as [|[|n]]; [lia..|].
    destruct (short_tail tail Ht Hl) as (ds & pad & -> & Hpad & Hds & Hlen & Hg). rewrite <- app_assoc. cbn [app].
    rewrite decode_loop_short by (done || lia). rewrite Hg, decode_loop_end by done. cbv zeta.
    by rewrite (zlen_app w (tail ++ [0])). }
  induction data as [|a|a b|a b c l IH] using triple_ind; intros Hd n cap out_size w Hn Ho Hc.
  - destruct n as [|n]; [done|]. cbn. rewrite app_nil_r. change (zlen []) with 0 in Hc.
    destruct (Z.ltb_spec cap (zlen w)); [lia|done].
  - by apply Hshort.
  - by apply Hshort.
  - apply Forall_cons in Hd as [Ha Hd]. apply Forall_cons in Hd as [Hb Hd]. apply Forall_cons in Hd as [Hc' Hd].
    rewrite !zlen_cons in *. pose proof (zlen_nonneg l). destruct n as [|n]; [lia|]. cbn [base64].
    pose proof (sextets_range a b c Ha Hb Hc') as Hr.
    assert (exists x y, base64 l ++ [0] = x :: y) as (x & y & Hxy) by (destruct (base64 l); eauto).
    rewrite <- app_assoc, (decode_loop_group _ _ _ _ (base64 l ++ [0])); [|done|done|].
    2: { rewrite decode_group_chars by done. rewrite Hxy. by apply decode_group_full. }
    change (zlen (sextets a b c)) with 4. destruct (Z.ltb_spec out_size (4 - 1)); [lia|].
    rewrite group_bytes_sextets by done. rewrite puts_spec by (rewrite !zlen_cons, zlen_nil; lia). cbn [mbind option_bind].
    rewrite IH by (done || rewrite ?zlen_app, ?zlen_cons, ?zlen_nil; lia). rewrite extra_cons3, <- app_assoc. done.
Qed.

(** ** Decoding any string *)

Lemma decode_group_shrinks str : forall digits, zlen digits <= 4 -> Forall (fun c => 0 < c) str ->
  match decode_group (str ++ [0]) digits with
  | None => False
  | Some None => True
  | Some (Some (str', ds)) => exists s, str' = s ++ [0] /\ Forall (fun c => 0 < c) s /\ zlen ds <= 4 /\
      zlen digits <= zlen ds /\ zlen s + zlen ds <= zlen str + zlen digits /\
      (zlen digits < 4 -> str ≠ [] -> zlen s < zlen str) /\ zlen s <= zlen str /\
      (zlen ds < 4 -> s = [] \/ zlen s + zlen ds < zlen str + zlen digits)
  end.
Proof.
  induction str as [|c str IH]; intros digits Hl Hs; cbn [app decode_group].
  - exists []. split_and!; (done || lia || (by left)).
  - apply Forall_cons in Hs as [Hc Hs]. pose proof (zlen_nonneg str). rewrite zlen_cons.
    destruct (Z.eqb_spec c 0); [lia|]. simpl orb. destruct (Z.ltb_spec (zlen digits) 4); cbn [negb].
    2: { exists (c :: str). rewrite zlen_cons. split_and!; (done || lia || constructor; done). }
    assert (forall d, zlen digits <= zlen d <= zlen digits + 1 ->
      match decode_group (str ++ [0]) d with
      | None => False | Some None => True
      | Some (Some (str', ds)) => exists s, str' = s ++ [0] /\ Forall (fun c => 0 < c) s /\ zlen ds <= 4 /\
          zlen digits <= zlen ds /\ zlen s + zlen ds <= 1 + zlen str + zlen digits /\
          (zlen digits < 4 -> c :: str ≠ [] -> zlen s < 1 + zlen str) /\ zlen s <= 1 + zlen str /\
          (zlen ds < 4 -> s = [] \/ zlen s + zlen ds < 1 + zlen str + zlen digits) end) as Hrec.
    { intros d Hd. specialize (IH d ltac:(lia) Hs). destruct (decode_group (str ++ [0]) d) as [[[str' ds]|]|]; [|done..].
      destruct IH as (s & -> & ? & ? & ? & ? & ? & ? & Hlast). exists s. split_and!; (done || lia || (intros Hds4; destruct (Hlast Hds4); [by left|right; lia])). }
    destruct (isspace c); [apply Hrec; lia|]. destruct (c =? 61).
    { exists str. split_and!; (done || lia || (intros; right; lia)). }
    destruct (digit c); [|done]. apply Hrec. rewrite zlen_app, zlen_cons, zlen_nil. lia.
Qed.

Lemma group_bytes_length ds : zlen ds <= 4 -> zlen (group_bytes ds) <= zlen ds.
Proof. unfold zlen. destruct ds as [|? [|? [|? [|? ?]]]]; simpl; lia. Qed.

Lemma decode_loop_total n : forall cap s out_size w, Forall (fun c => 0 < c) s ->
  zlen s < Z.of_nat n -> zlen w + zlen s <= cap -> is_Some (decode_loop n cap (s ++ [0]) out_size w).
Proof.
  induction n as [|n IH]; intros cap s out_size w Hs Hn Hc; [pose proof (zlen_nonneg s); lia|].
  destruct s as [|c s]; [by eexists|]. cbn [app decode_loop].
  destruct ((c =? 0) || (c =? 61)); [by eexists|].
  pose proof (decode_group_shrinks (c :: s) [] ltac:(by vm_compute) Hs) as H. cbn [app] in H.
  destruct (decode_group (c :: s ++ [0]) []) as [[[str' ds]|]|]; [|by eexists|done].
  destruct H as (s' & -> & Hs' & Hds & _ & Hsum & Hlt & _ & _). rewrite zlen_nil in *. cbn [mbind option_bind].
  specialize (Hlt ltac:(lia) ltac:(done)). pose proof (zlen_nonneg ds). destruct ds as [|d ds]; [apply IH; (done || lia)|].
  destruct (_ <? _); [by eexists|]. pose proof (group_bytes_length (d :: ds) Hds). pose proof (zlen_nonneg s').
  rewrite puts_spec by lia. apply IH; [done|lia|]. rewrite zlen_app. lia.
Qed.

(** Four characters give three bytes at most. *)
Lemma decode_four s : Forall (fun c => 0 < c) s -> zlen s = 4 -> is_Some (juice_base64_decode (s ++ [0]) 3 3).
Proof.
  intros Hs Hl. unfold juice_base64_decode. assert (length (s ++ [0]) = 5%nat) as -> by (rewrite length_app; unfold zlen in *; simpl; lia).
  remember 5%nat as n eqn:Hn.
  pose proof (decode_group_shrinks s [] ltac:(by vm_compute) Hs) as H.
  assert (exists c l, s = c :: l) as (c & l & ->) by (destruct s; [done|eauto]).
  cbn [app decode_loop] in *. destruct ((c =? 0) || (c =? 61)); [by eexists|].
  destruct (decode_group (c :: l ++ [0]) []) as [[[str' ds]|]|]; [|by eexists|done].
  destruct H as (s' & -> & Hs' & Hds & _ & Hsum & Hlt & Hle & Hlast). change (zlen (@nil Z)) with 0 in *. cbn [mbind option_bind].
  specialize (Hlt ltac:(lia) ltac:(done)). pose proof (zlen_nonneg s'). pose proof (zlen_nonneg ds).
  destruct ds as [|d ds]; [apply decode_loop_total; (done || change (zlen (@nil Z)) with 0; lia)|].
  destruct (_ <? _); [by eexists|]. pose proof (group_bytes_length (d :: ds) Hds).
  assert (zlen (group_bytes (d :: ds)) <= 3) as H3.
  { clear. destruct ds as [|? [|? [|? ?]]]; by vm_compute. }
  rewrite puts_spec by (change (zlen (@nil Z)) with 0; lia). cbn [mbind option_bind app].
  apply decode_loop_total; [done|lia|].
  destruct (Z.eq_dec (zlen (d :: ds)) 4); [|destruct Hlast as [-> | Hlast]; change (zlen (@nil Z)) with 0 in *; lia].
  assert (s' = []) as -> by (destruct s'; [done|unfold zlen in *; simpl length in *; lia]).
  change (zlen (@nil Z)) with 0. lia.
Qed.

(** ** Properties *)

(** [juice_base64_encode] writes the Base64 encoding of RFC 4648, padding and NUL
    included, and returns its length; it writes nothing and returns -1 when the buffer does
    not have [4 * ceil(size / 3) + 1] bytes. *)
Theorem juice_base64_encode_correct data out_size (Hd : Forall byte data) (Hl : zlen data < 536870912) :
  juice_base64_encode data out_size =
    Some (if out_size <? 4 * ((zlen data + 2) / 3) + 1 then (-1, []) else (zlen (base64 data), base64 data ++ [0])) /\
  zlen (base64 data) = 4 * ((zlen data + 2) / 3).
Proof. rewrite <- base64_length. split; [by apply encode_spec|done]. Qed.

Lemma juice_base64_encode_correct_witness :
  juice_base64_encode [77; 97; 110; 33] 9 = Some (8, [84; 87; 70; 117; 73; 81; 61; 61; 0]).
Proof.
  destruct (juice_base64_encode_correct [77; 97; 110; 33] 9) as [-> _]; [repeat constructor; unfold byte; lia|done|].
  vm_compute. reflexivity.
Defined.

(** C29. [juice_base64_decode] of an encoding delivers the encoded bytes, followed by one
    zero byte that it also counts when the length is not a multiple of three.  That byte is
    not part of the size it checks: with a buffer of exactly [out_size = size] bytes it is
    written behind the buffer. *)
Theorem juice_base64_decode_encode data cap (Hd : Forall byte data) (Hc : zlen data <= cap < 2147483647) :
  juice_base64_decode (base64 data ++ [0]) cap cap =
    if cap <? zlen data + zlen (extra data) then None
    else Some (zlen data + zlen (extra data), data ++ extra data).
Proof.
  unfold juice_base64_decode. rewrite decode_loop_spec; [|done|..|rewrite zlen_nil; lia].
  - cbn [app]. rewrite zlen_app. destruct (Z.ltb_spec cap (zlen data + zlen (extra data))); [done|].
    pose proof (zlen_nonneg data). pose proof (zlen_nonneg (extra data)). rewrite i32_small by lia. done.
  - pose proof (base64_length data). unfold zlen in *. rewrite length_app. cbn [length].
    Z.to_euclidean_division_equations; lia.
  - lia.
Qed.

Lemma juice_base64_decode_encode_witness :
  juice_base64_decode [84; 87; 70; 117; 0] 3 3 = Some (3, [77; 97; 110]) /\
  juice_base64_decode [73; 81; 61; 61; 0] 1 1 = None /\
  juice_base64_decode [73; 81; 61; 61; 0] 2 2 = Some (2, [33; 0]).
Proof.
  split_and!.
  - apply (juice_base64_decode_encode [77; 97; 110] 3); [by apply (bool_decide_unpack _)|by vm_compute].
  - apply (juice_base64_decode_encode [33] 1); [by apply (bool_decide_unpack _)|by vm_compute].
  - apply (juice_base64_decode_encode [33] 2); [by apply (bool_decide_unpack _)|by vm_compute].
Defined.

(** C30. [juice_base64_decode] terminates on every NUL-terminated string, whatever its
    characters, and never writes more bytes than the string has characters. *)
Theorem juice_base64_decode_total s out_size cap (Hs : Forall (fun c => 0 < c) s) (Hc : zlen s <= cap) :
  is_Some (juice_base64_decode (s ++ [0]) out_size cap).
Proof.
  apply decode_loop_total; [done| |rewrite zlen_nil; lia]. unfold zlen. rewrite length_app. simpl. lia.
Qed.

Lemma juice_base64_decode_total_witness : is_Some (juice_base64_decode ([32; 65; 61; 66; 33] ++ [0]) 100 5).
Proof. apply juice_base64_decode_total; [by apply (bool_decide_unpack _)|by vm_compute]. Defined.
