(* ===== verification/Stdio.v ===== *)
(** * The C library: characters, decimal numbers, formatted input and output

    What the sources use of [ctype.h], [string.h] and [stdio.h], in the C locale ([isspace] and
    [string_at] are in [Bytes]).  A string is
    the list of its characters without the terminating NUL, a character array the memory it
    occupies.  What the C standard leaves undefined is [None]. *)

From S2P Require Import Prelude Bytes.
Open Scope Z_scope.

(** ** Characters *)

Definition isdigit (c : Z) : bool := (48 <=? c) && (c <=? 57).
Definition isupper (c : Z) : bool := (65 <=? c) && (c <=? 90).
Definition islower (c : Z) : bool := (97 <=? c) && (c <=? 122).
Definition isalpha (c : Z) : bool := isupper c || islower c.
Definition toupper (c : Z) : Z := if islower c then c - 32 else c.
Definition tolower (c : Z) : Z := if isupper c then c + 32 else c.

(** The argument a plain [char] is converted to, where [char] is signed: only the values of
    [unsigned char] and [EOF], which is -1, are allowed. *)
Definition ctype_arg (c : Z) : option Z := let i := sint 8 c in if -1 <=? i then Some i else None.

(** ** Strings *)

(** Storing a string with its NUL at the start of an array. *)
Definition store (arr s : list Z) : option (list Z) := wr_bytes arr 0 (s ++ [0]).

(** [strncmp(str, prefix, strlen(prefix)) == 0]: what follows the prefix. *)
Fixpoint after_prefix (str prefix : list Z) {struct prefix} : option (list Z) :=
  match prefix with
  | [] => Some str
  | c :: prefix' => match str with
                    | c' :: str' => if c =? c' then after_prefix str' prefix' else None
                    | [] => None
                    end
  end.

Definition streq (a b : list Z) : bool := bool_decide (a = b).

(** ** Decimal numbers *)

Fixpoint dec_fuel (k : nat) (n : Z) : list Z :=
  match k with
  | O => []
  | S k => if n <? 10 then [48 + n] else dec_fuel k (n / 10) ++ [48 + n mod 10]
  end.

(** [%u] of an [unsigned int]: ten digits are enough. *)
Definition print_u (n : Z) : list Z := dec_fuel 10 (u32 n).

Definition dec_value (ds : list Z) : Z := fold_left (fun v c => 10 * v + (c - 48)) ds 0.

(** ** [snprintf]

    Writing the formatted text at [pos] of a buffer with [size] characters of room; the length
    of the whole text is returned. *)
Definition snprintf_to (buffer : list Z) (pos size : Z) (text : list Z) : option (Z * list Z) :=
  if size =? 0 then Some (zlen text, buffer)
  else buffer ← wr_bytes buffer pos (take (Z.to_nat (size - 1)) text ++ [0]); Some (zlen text, buffer).

(** ** [sscanf] *)

Inductive directive := Space | Literal (c : Z) | Conv_s (width : Z) | Conv_d | Conv_u.

(** The directives of a format; [w]: behind a [%] and the digits of a width. *)
Fixpoint directives (w : option Z) (fmt : list Z) : option (list directive) :=
  match fmt with
  | [] => match w with None => Some [] | Some _ => None end
  | c :: fmt =>
      match w with
      | None => if c =? 37 then directives (Some 0) fmt
                else ds ← directives None fmt; Some ((if isspace c then Space else Literal c) :: ds)
      | Some n =>
          if isdigit c then directives (Some (10 * n + (c - 48))) fmt
          else d ← (if c =? 115 then Some (Conv_s n) else if c =? 100 then Some Conv_d
                    else if c =? 117 then Some Conv_u else None);
               ds ← directives None fmt; Some (d :: ds)
      end
  end.

Fixpoint skip_space (s : list Z) : list Z :=
  match s with c :: s' => if isspace c then skip_space s' else s | [] => [] end.

(** At most [n] characters with [p], and the rest. *)
Fixpoint span (p : Z -> bool) (n : nat) (s : list Z) : list Z * list Z :=
  match n, s with
  | S n, c :: s' => if p c then let '(a, b) := span p n s' in (c :: a, b) else ([], s)
  | _, _ => ([], s)
  end.

Inductive item := Str (s : list Z) | Int (n : Z).

(** A sign and digits: whether the sign was minus, the digits, and the rest. *)
Definition number (s : list Z) : bool * list Z * list Z :=
  let '(minus, s) := match s with c :: s' => if c =? 45 then (true, s') else if c =? 43 then (false, s') else (false, s) | [] => (false, s) end in
  let '(ds, rest) := span isdigit (length s) s in (minus, ds, rest).

(** The value stored for [%d] and [%u]; undefined when the type cannot represent it. *)
Definition int_value (minus : bool) (ds : list Z) : option Z :=
  let v := if minus then - dec_value ds else dec_value ds in
  if (-2147483648 <=? v) && (v <? 2147483648) then Some v else None.
Definition unsigned_value (minus : bool) (ds : list Z) : option Z :=
  if dec_value ds <? 4294967296 then Some (if minus then u32 (- dec_value ds) else dec_value ds) else None.

(** The items assigned, in order.  Their number is the value returned, or [EOF] when the input
    ends before the first one, which the sources do not tell from another failure. *)
Fixpoint scan (ds : list directive) (s : list Z) : option (list item) :=
  match ds with
  | [] => Some []
  | Space :: ds => scan ds (skip_space s)
  | Literal c :: ds => match s with c' :: s' => if c =? c' then scan ds s' else Some [] | [] => Some [] end
  | Conv_s w :: ds =>
      let '(tok, rest) := span (fun c => negb (isspace c)) (Z.to_nat w) (skip_space s) in
      match tok with [] => Some [] | _ => l ← scan ds rest; Some (Str tok :: l) end
  | Conv_d :: ds =>
      let '(minus, digits, rest) := number (skip_space s) in
      match digits with [] => Some [] | _ => n ← int_value minus digits; l ← scan ds rest; Some (Int n :: l) end
  | Conv_u :: ds =>
      let '(minus, digits, rest) := number (skip_space s) in
      match digits with [] => Some [] | _ => n ← unsigned_value minus digits; l ← scan ds rest; Some (Int n :: l) end
  end.

Definition sscanf (fmt s : list Z) : option (list item) := ds ← directives None fmt; scan ds s.

(** ** Lemmas *)

Lemma sscanf_scan fmt ds s : directives None fmt = Some ds -> sscanf fmt s = scan ds s.
Proof. intros E. unfold sscanf. by rewrite E. Qed.

Definition no_space (s : list Z) : Prop := Forall (fun c => isspace c = false) s.

Lemma skip_space_token s : no_space s -> skip_space s = s.
Proof. destruct 1 as [|c s Hc _]; simpl; [done|]. by rewrite Hc. Qed.

Lemma skip_space_app s t : no_space s -> s <> [] -> skip_space (s ++ t) = s ++ t.
Proof. destruct 1 as [|c s Hc _]; simpl; [done|]. by rewrite Hc. Qed.

(** A maximal run. *)
Lemma span_app p n s t : Forall (fun c => p c = true) s -> (length s <= n)%nat -> match t with [] => True | c :: _ => p c = false \/ length s = n end ->
  span p n (s ++ t) = (s, t).
Proof.
  intros Hs. revert n. induction Hs as [|c s Hc _ IH]; intros n Hn Ht; simpl.
  - destruct n as [|n]; [done|]. destruct t as [|c t]; [done|]. simpl. destruct Ht as [->|?]; done.
  - destruct n as [|n]; simpl in *; [lia|]. rewrite Hc, IH; [done|lia|]. destruct t; [done|]. destruct Ht as [|Ht]; [by left|right; congruence].
Qed.

Lemma span_spec p n s : let '(a, b) := span p n s in
  s = a ++ b /\ Forall (fun c => p c = true) a /\ (length a <= n)%nat.
Proof.
  revert s. induction n as [|n IH]; intros s; simpl; [split_and!; by try constructor|]. destruct s as [|c s]; simpl; [split_and!; [done|constructor|lia]|].
  destruct (p c) eqn:Hc; simpl; [|split_and!; [done|constructor|lia]]. specialize (IH s). destruct (span p n s) as [a b].
  destruct IH as (-> & ? & ?). simpl. split_and!; [done|by constructor|lia].
Qed.

Lemma store_length arr s arr' : store arr s = Some arr' -> length arr' = length arr.
Proof. intros H. apply wr_bytes_length in H. unfold zlen in H. lia. Qed.

Lemma store_Some arr s : zlen s < zlen arr -> store arr s = Some (s ++ 0 :: drop (S (length s)) arr).
Proof.
  intros H. unfold store. rewrite wr_bytes_Some by (unfold zlen in *; rewrite ?length_app; simpl; lia).
  simpl. rewrite <- app_assoc. simpl. unfold zlen. rewrite length_app. simpl.
  by replace (Z.to_nat (0 + Z.of_nat (length s + 1))) with (S (length s)) by lia.
Qed.

Lemma string_at_app s junk : Forall (fun c => c <> 0) s -> string_at (s ++ 0 :: junk) = Some s.
Proof. intros H. unfold string_at. destruct (cstr_c_str s junk H) as [-> ->]. done. Qed.

Lemma string_at_spec arr s : string_at arr = Some s -> s = cstr arr /\ Forall (fun c => c <> 0) s /\ zlen s < zlen arr.
Proof.
  unfold string_at. destruct (strlen arr) as [n|] eqn:Hn; [|done]. intros [= <-]. split; [done|]. split; [apply cstr_nonzero|].
  destruct (cstr_strlen _ _ Hn) as [_ ->]. apply strlen_bound in Hn. lia.
Qed.

Lemma after_prefix_app s p : after_prefix (p ++ s) p = Some s.
Proof. induction p as [|c p IH]; simpl; [done|]. by rewrite Z.eqb_refl. Qed.

Lemma after_prefix_spec s p t : after_prefix s p = Some t -> s = p ++ t.
Proof.
  revert s. induction p as [|c p IH]; intros s; simpl; [by intros [= ->]|]. destruct s as [|c' s]; [done|].
  destruct (Z.eqb_spec c c') as [->|]; [|done]. by intros ->%IH.
Qed.

Lemma streq_eq a b : streq a b = true <-> a = b.
Proof. unfold streq. by rewrite bool_decide_eq_true. Qed.
Lemma streq_refl a : streq a a = true.
Proof. by apply streq_eq. Qed.

Lemma dec_value_app a c : dec_value (a ++ [c]) = 10 * dec_value a + (c - 48).
Proof. unfold dec_value. by rewrite fold_left_app. Qed.

Lemma isdigit_spec n : 0 <= n < 10 -> isdigit (48 + n) = true.
Proof. intros. unfold isdigit. lia. Qed.

Lemma dec_fuel_spec k : forall n, 0 <= n < 10 ^ Z.of_nat k ->
  dec_value (dec_fuel k n) = n /\ Forall (fun c => isdigit c = true) (dec_fuel k n) /\ (length (dec_fuel k n) <= k)%nat /\ ((0 < k)%nat -> dec_fuel k n <> []).
Proof.
  induction k as [|k IH]; intros n Hn; [change (10 ^ Z.of_nat 0) with 1 in Hn; split_and!; [cbn; lia|by constructor|done|lia]|].
  cbn [dec_fuel]. destruct (Z.ltb_spec n 10).
  - split_and!; [cbn; lia|constructor; [apply isdigit_spec; lia|done]|simpl; lia|done].
  - rewrite Nat2Z.inj_succ, Z.pow_succ_r in Hn by lia. pose proof (Z.mod_pos_bound n 10 ltac:(lia)).
    destruct (IH (n / 10)) as (H1 & H2 & H3 & _); [split; [apply Z.div_pos; lia|apply Z.div_lt_upper_bound; lia]|].
    split_and!.
    + rewrite dec_value_app, H1. pose proof (Z.div_mod n 10). lia.
    + apply Forall_app. split; [done|]. constructor; [apply isdigit_spec; lia|done].
    + rewrite length_app. simpl. lia.
    + intros _ E. by apply app_eq_nil in E as [].
Qed.

Lemma print_u_spec n : 0 <= n < 4294967296 ->
  dec_value (print_u n) = n /\ Forall (fun c => isdigit c = true) (print_u n) /\ zlen (print_u n) <= 10 /\ print_u n <> [].
Proof.
  intros Hn. unfold print_u. rewrite u32_small by done. destruct (dec_fuel_spec 10 n) as (H1 & H2 & H3 & H4); [change (10 ^ Z.of_nat 10) with 10000000000; lia|].
  split_and!; [done|done|unfold zlen; lia|apply H4; lia].
Qed.

Lemma digits_no_space s : Forall (fun c => isdigit c = true) s -> no_space s.
Proof. intros H. eapply Forall_impl; [exact H|]. unfold isdigit, isspace. cbn. lia. Qed.
Lemma digits_nonzero s : Forall (fun c => isdigit c = true) s -> Forall (fun c => c <> 0) s.
Proof. intros H. eapply Forall_impl; [exact H|]. unfold isdigit. cbn. lia. Qed.

(** Scanning what was printed. *)
Lemma scan_s w ds s c t : no_space s -> s <> [] -> zlen s <= w -> isspace c = true ->
  scan (Conv_s w :: ds) (s ++ c :: t) = l ← scan ds (c :: t); Some (Str s :: l).
Proof.
  intros Hs Hne Hw Hc. cbn [scan]. rewrite skip_space_app by done.
  rewrite span_app; [|eapply Forall_impl; [done|]; by intros ? ->|unfold zlen in Hw; lia|left; by rewrite Hc].
  by destruct s.
Qed.

Lemma scan_s_end w ds s : no_space s -> s <> [] -> zlen s <= w ->
  scan (Conv_s w :: ds) s = l ← scan ds []; Some (Str s :: l).
Proof.
  intros Hs Hne Hw. cbn [scan]. rewrite skip_space_token by done. rewrite <- (app_nil_r s) at 1.
  rewrite span_app; [|eapply Forall_impl; [done|]; by intros ? ->|unfold zlen in Hw; lia|done]. by destruct s.
Qed.

Lemma scan_space ds c s : isspace c = true -> scan (Space :: ds) (c :: s) = scan (Space :: ds) s.
Proof. intros Hc. cbn [scan skip_space]. by rewrite Hc. Qed.

Lemma scan_space_skip ds s : no_space s -> scan (Space :: ds) s = scan ds s.
Proof. intros Hs. cbn [scan]. by rewrite skip_space_token. Qed.

Lemma scan_space_token ds s t : no_space s -> s <> [] -> scan (Space :: ds) (s ++ t) = scan ds (s ++ t).
Proof. intros Hs Hne. cbn [scan]. by rewrite skip_space_app. Qed.

Lemma number_digits s c t : Forall (fun c => isdigit c = true) s -> s <> [] -> isdigit c = false ->
  number (s ++ c :: t) = (false, s, c :: t).
Proof.
  intros Hs Hne Hc. destruct s as [|d s]; [done|]. pose proof (Forall_inv Hs) as Hd. unfold number. cbn [app].
  destruct (Z.eqb_spec d 45) as [->|]; [done|]. destruct (Z.eqb_spec d 43) as [->|]; [done|].
  change (d :: s ++ c :: t) with ((d :: s) ++ c :: t).
  rewrite span_app; [done|done|rewrite length_app; lia|by left].
Qed.

Lemma space_not_digit c : isspace c = true -> isdigit c = false.
Proof. unfold isspace, isdigit. lia. Qed.

Lemma scan_d ds n c t : 0 <= n < 2147483648 -> isspace c = true ->
  scan (Conv_d :: ds) (print_u n ++ c :: t) = l ← scan ds (c :: t); Some (Int n :: l).
Proof.
  intros Hn Hc. destruct (print_u_spec n) as (Hv & Hd & _ & Hne); [lia|]. cbn [scan].
  rewrite skip_space_app, number_digits by auto using digits_no_space, space_not_digit.
  destruct (print_u n) eqn:E; [done|]. unfold int_value. rewrite Hv.
  destruct (Z.leb_spec (-2147483648) n), (Z.ltb_spec n 2147483648); try lia. done.
Qed.

Lemma scan_u ds n c t : 0 <= n < 4294967296 -> isspace c = true ->
  scan (Conv_u :: ds) (print_u n ++ c :: t) = l ← scan ds (c :: t); Some (Int n :: l).
Proof.
  intros Hn Hc. destruct (print_u_spec n) as (Hv & Hd & _ & Hne); [lia|]. cbn [scan].
  rewrite skip_space_app, number_digits by auto using digits_no_space, space_not_digit.
  destruct (print_u n) eqn:E; [done|]. unfold unsigned_value. rewrite Hv.
  destruct (Z.ltb_spec n 4294967296); try lia. done.
Qed.

(** ** What [sscanf] can give *)

(** The items are of the kinds the directives ask for, and fit their arrays. *)
Inductive fits : directive -> item -> Prop :=
| fits_s w s : s <> [] -> no_space s -> zlen s <= w -> fits (Conv_s w) (Str s)
| fits_d n : -2147483648 <= n < 2147483648 -> fits Conv_d (Int n)
| fits_u n : 0 <= n < 4294967296 -> fits Conv_u (Int n).

Definition is_conv (d : directive) : bool := match d with Space | Literal _ => false | _ => true end.

(** They are a prefix of what was asked for. *)
Lemma scan_fits ds : Forall (fun d => match d with Conv_s w => 0 <= w | _ => True end) ds -> forall s l, Forall byte s -> Forall (fun c => c <> 0) s -> scan ds s = Some l ->
  (length l <= length (List.filter is_conv ds))%nat /\ Forall2 fits (take (length l) (List.filter is_conv ds)) l /\
  Forall (fun x => match x with Str t => Forall byte t /\ Forall (fun c => c <> 0) t | _ => True end) l.
Proof.
  assert (Hskip : forall (P : Z -> Prop) s, Forall P s -> Forall P (skip_space s)).
  { intros P s. induction 1 as [|c s Hc Hs IH]; simpl; [done|]. destruct (isspace c); [done|by constructor]. }
  assert (Hnum : forall (P : Z -> Prop) s, Forall P s -> let '(_, _, rest) := number s in Forall P rest).
  { intros P s Hs. unfold number. destruct (match s with c :: s' => _ | [] => _ end) as [minus s'] eqn:E.
    assert (Forall P s') as Hs'. { destruct s as [|c s]; [by simplify_eq|]. apply Forall_cons in Hs as [? ?]. repeat case_match; by simplify_eq; auto. }
    pose proof (span_spec isdigit (length s') s') as H. destruct (span isdigit (length s') s') as [a b]. destruct H as (-> & _ & _). by apply Forall_app in Hs' as []. }
  assert (Hdv : forall s, Forall (fun c => isdigit c = true) (snd (fst (number s))) ).
  { intros s. unfold number. destruct (match s with c :: s' => _ | [] => _ end) as [minus s'].
    pose proof (span_spec isdigit (length s') s') as H. destruct (span isdigit (length s') s') as [a b]. by destruct H as (_ & ? & _). }
  assert (Hval : forall t, Forall (fun c => isdigit c = true) t -> 0 <= dec_value t).
  { intros t. induction t as [|c t IHt] using rev_ind; [done|]. rewrite dec_value_app. intros [? [Hc _]%Forall_cons]%Forall_app.
    specialize (IHt H). unfold isdigit in Hc. lia. }
  induction 1 as [|d ds Hd Hds IH]; intros s l Hb Hz; cbn [scan]; [intros [= <-]; repeat constructor|].
  assert (Hnil : forall l', Some [] = Some l' -> (length l' <= length (List.filter is_conv (d :: ds)))%nat /\
    Forall2 fits (take (length l') (List.filter is_conv (d :: ds))) l' /\
    Forall (fun x => match x with Str t => Forall byte t /\ Forall (fun c => c <> 0) t | _ => True end) l').
  { intros ? [= <-]. simpl. split; [lia|]. split; [by rewrite take_0; constructor|constructor]. }
  assert (Hcons : forall x rest, is_conv d = true -> Forall byte rest -> Forall (fun c => c <> 0) rest -> fits d x ->
    match x with Str t => Forall byte t /\ Forall (fun c => c <> 0) t | _ => True end ->
    (l ← scan ds rest; Some (x :: l)) = Some l -> (length l <= length (List.filter is_conv (d :: ds)))%nat /\
    Forall2 fits (take (length l) (List.filter is_conv (d :: ds))) l /\
    Forall (fun x => match x with Str t => Forall byte t /\ Forall (fun c => c <> 0) t | _ => True end) l).
  { intros x rest Hc H1 H2 Hf Hx H. destruct (scan ds rest) as [l'|] eqn:E; [|done]. simplify_eq/=.
    destruct (IH _ _ H1 H2 E) as (? & ? & ?). rewrite Hc. simpl. split; [lia|]. split; by constructor. }
  destruct d as [|c|w| |]; cbn [is_conv List.filter] in *.
  - apply IH; auto.
  - destruct s as [|c' s]; [apply Hnil|]. apply Forall_cons in Hb as [_ Hb], Hz as [_ Hz]. destruct (c =? c'); [by apply IH|apply Hnil].
  - pose proof (span_spec (fun c => negb (isspace c)) (Z.to_nat w) (skip_space s)) as H.
    destruct (span _ _ _) as [tok rest]. destruct H as (E & Ht & Hl). pose proof (Hskip byte s Hb) as Hb'. pose proof (Hskip _ s Hz) as Hz'.
    rewrite E in Hb', Hz'. apply Forall_app in Hb' as [??], Hz' as [??]. destruct tok as [|t tok]; [apply Hnil|].
    apply Hcons; try done. constructor; [done| |unfold zlen; lia]. eapply Forall_impl; [exact Ht|]. intros ? ?%negb_true_iff. done.
  - pose proof (Hnum _ _ (Hskip byte s Hb)) as Hb'. pose proof (Hnum _ _ (Hskip _ s Hz)) as Hz'.
    destruct (number _) as [[minus digits] rest]. destruct digits as [|t tok]; [apply Hnil|].
    unfold int_value. set (v := if minus then _ else _) in *. destruct (Z.leb_spec (-2147483648) v), (Z.ltb_spec v 2147483648); try done.
    apply Hcons; try done. constructor. lia.
  - pose proof (Hnum _ _ (Hskip byte s Hb)) as Hb'. pose proof (Hnum _ _ (Hskip _ s Hz)) as Hz'. pose proof (Hdv (skip_space s)) as Hd'.
    destruct (number _) as [[minus digits] rest]. destruct digits as [|t tok]; [apply Hnil|]. pose proof (Hval _ Hd') as Hv. simpl in Hv.
    unfold unsigned_value. destruct (Z.ltb_spec (dec_value (t :: tok)) 4294967296); [|done].
    apply Hcons; try done. constructor. destruct minus; [apply u32_range|lia].
Qed.
