(* ===== verification/Ice.v ===== *)
(** * ICE descriptions and candidates (libjuice [src/ice.c], [src/ice.h])

    Candidates and descriptions, their text in SDP, priorities of candidates and pairs, and
    the order of the candidates.  A character array of a structure is the memory it occupies; of
    the array [candidates] the first [candidates_count] elements are kept.  The resolver
    ([getaddrinfo], [getnameinfo]) and the random source are parameters.  [None] is undefined
    behaviour: an access outside of an array, or a number that [sscanf] cannot store. *)

From S2P Require Import Prelude Bytes Stdio Addr.
Open Scope Z_scope.

(** ** Data *)

Definition BUFFER_SIZE : Z := 1024.
Definition ICE_MAX_CANDIDATES_COUNT : Z := 30.
Definition ICE_CANDIDATE_PENALTY_TCP : Z := 50.

Inductive ice_candidate_type_t :=
| ICE_CANDIDATE_TYPE_UNKNOWN
| ICE_CANDIDATE_TYPE_HOST
| ICE_CANDIDATE_TYPE_SERVER_REFLEXIVE
| ICE_CANDIDATE_TYPE_PEER_REFLEXIVE
| ICE_CANDIDATE_TYPE_RELAYED.

Inductive ice_candidate_transport_t :=
| ICE_CANDIDATE_TRANSPORT_UDP
| ICE_CANDIDATE_TRANSPORT_TCP_TYPE_ACTIVE
| ICE_CANDIDATE_TRANSPORT_TCP_TYPE_PASSIVE
| ICE_CANDIDATE_TRANSPORT_TCP_TYPE_SO.

#[export] Instance ice_candidate_type_eq_dec : EqDecision ice_candidate_type_t.
Proof. solve_decision. Defined.
#[export] Instance ice_candidate_transport_eq_dec : EqDecision ice_candidate_transport_t.
Proof. solve_decision. Defined.

Definition ICE_CANDIDATE_PREF_HOST : Z := 126.
Definition ICE_CANDIDATE_PREF_PEER_REFLEXIVE : Z := 110.
Definition ICE_CANDIDATE_PREF_SERVER_REFLEXIVE : Z := 100.
Definition ICE_CANDIDATE_PREF_RELAYED : Z := 0.

Record ice_candidate_t := Candidate {
  type : ice_candidate_type_t; priority : Z; component : Z; foundation : list Z (* 33 *);
  transport : ice_candidate_transport_t; hostname : list Z (* 257 *); service : list Z (* 33 *); resolved : addr_record_t }.

#[export] Instance candidate_eta : RecordEta ice_candidate_t := fun c =>
  Candidate (type c) (priority c) (component c) (foundation c) (transport c) (hostname c) (service c) (resolved c).

Record ice_description_t := Description {
  ice_ufrag : list Z (* 257 *); ice_pwd : list Z (* 257 *); ice_lite : bool;
  candidates : list ice_candidate_t; finished : bool }.

#[export] Instance description_eta : RecordEta ice_description_t := fun d =>
  Description (ice_ufrag d) (ice_pwd d) (ice_lite d) (candidates d) (finished d).

Definition candidates_count (d : ice_description_t) : Z := zlen (candidates d).

(** After [memset(_, 0, _)]. *)
Definition zero_candidate : ice_candidate_t :=
  Candidate ICE_CANDIDATE_TYPE_UNKNOWN 0 0 (replicate 33 0) ICE_CANDIDATE_TRANSPORT_UDP (replicate 257 0) (replicate 33 0) zero_record.
Definition zero_description : ice_description_t := Description (replicate 257 0) (replicate 257 0) false [] false.

Definition ICE_PARSE_ERROR : Z := -1.
Definition ICE_PARSE_IGNORED : Z := -2.
Definition ICE_PARSE_MISSING_UFRAG : Z := -3.
Definition ICE_PARSE_MISSING_PWD : Z := -4.

Inductive ice_resolve_mode_t := ICE_RESOLVE_MODE_SIMPLE | ICE_RESOLVE_MODE_LOOKUP.

Abbreviation text s := (bytes_of_string s).

(** ** Priorities *)

Definition CLAMP (x low high : Z) : Z := if high <? x then high else if x <? low then low else x.

Definition type_preference (type : ice_candidate_type_t) : Z :=
  match type with
  | ICE_CANDIDATE_TYPE_HOST => ICE_CANDIDATE_PREF_HOST
  | ICE_CANDIDATE_TYPE_PEER_REFLEXIVE => ICE_CANDIDATE_PREF_PEER_REFLEXIVE
  | ICE_CANDIDATE_TYPE_SERVER_REFLEXIVE => ICE_CANDIDATE_PREF_SERVER_REFLEXIVE
  | ICE_CANDIDATE_TYPE_RELAYED => ICE_CANDIDATE_PREF_RELAYED
  | ICE_CANDIDATE_TYPE_UNKNOWN => 0
  end.

Definition direction_preference (transport : ice_candidate_transport_t) : Z :=
  match transport with
  | ICE_CANDIDATE_TRANSPORT_TCP_TYPE_ACTIVE => 6
  | ICE_CANDIDATE_TRANSPORT_TCP_TYPE_PASSIVE => 4
  | ICE_CANDIDATE_TRANSPORT_TCP_TYPE_SO => 2
  | ICE_CANDIDATE_TRANSPORT_UDP => 0
  end.

Definition ice_compute_priority (type : ice_candidate_type_t) (family component index : Z) (transport : ice_candidate_transport_t) : Z :=
  let p := type_preference type in
  (* Prefer UDP over TCP *)
  let p := if negb (bool_decide (transport = ICE_CANDIDATE_TRANSPORT_UDP))
           then if ICE_CANDIDATE_PENALTY_TCP <=? p then p - ICE_CANDIDATE_PENALTY_TCP else 0
           else p in
  let p := u32 (Z.shiftl p 16) in
  (* Local preference *)
  let l := u32 (Z.shiftl (direction_preference transport) 13) in
  (* Prefer IPv6 over IPv4 *)
  let l := if family =? AF_INET6 then u32 (l + 8191) else if family =? AF_INET then u32 (l + 4095) else l in
  let l := u32 (l - CLAMP index 0 4095) in
  let p := u32 (p + l) in
  let p := u32 (Z.shiftl p 8) in
  (* 256 - component ID *)
  u32 (p + (256 - CLAMP component 1 256)).

(** ** The order of the candidates *)

(** [while (--prev >= begin && prev->priority < priority) *(prev + 1) = *prev;] *)
Fixpoint sort_shift (fuel : nat) (cs : list ice_candidate_t) (prev pr : Z) : option (list ice_candidate_t * Z) :=
  match fuel with
  | O => None
  | S fuel =>
      let prev := prev - 1 in
      if prev <? 0 then Some (cs, prev) else
      c ← rd cs prev;
      if priority c <? pr then cs ← wr cs (prev + 1) c; sort_shift fuel cs prev pr else Some (cs, prev)
  end.

Definition sort_step (cur : Z) (cs : list ice_candidate_t) : option (list ice_candidate_t) :=
  tmp ← rd cs cur;
  '(cs, prev) ← sort_shift (S (Z.to_nat cur)) cs cur (priority tmp);
  if negb (prev + 1 =? cur) then wr cs (prev + 1) tmp else Some cs.

Definition ice_sort_candidates (d : ice_description_t) : option ice_description_t :=
  cs ← for_up 1 (candidates_count d) sort_step (candidates d);
  Some (d <| candidates := cs |>).

(** The pointer that is found, as an index. *)
Definition ice_find_candidate_from_addr (d : ice_description_t) (record : addr_record_t) (ty : ice_candidate_type_t) : option Z :=
  let matches c := (bool_decide (ty = ICE_CANDIDATE_TYPE_UNKNOWN) || bool_decide (type c = ty)) && addr_is_equal (addr record) (addr (resolved c)) true in
  (fun '(i, _) => Z.of_nat i) <$> list_find (fun c => matches c = true) (candidates d).

Definition ice_candidates_count (d : ice_description_t) (ty : ice_candidate_type_t) : Z :=
  zlen (List.filter (fun c => bool_decide (type c = ty)) (candidates d)).

(** ** Adding a candidate *)

(** The candidate of the caller may get its foundation here. *)
Definition ice_add_candidate (candidate : ice_candidate_t) (d : ice_description_t) : option (Z * ice_candidate_t * ice_description_t) :=
  if bool_decide (type candidate = ICE_CANDIDATE_TYPE_UNKNOWN) then Some (-1, candidate, d) else
  if ICE_MAX_CANDIDATES_COUNT <=? candidates_count d then Some (-1, candidate, d) else
  f ← string_at (foundation candidate);
  candidate ← (if streq f (text "-")
               then '(_, f) ← snprintf_to (foundation candidate) 0 32 (print_u (candidates_count d + 1)); Some (candidate <| foundation := f |>)
               else Some candidate);
  Some (0, candidate, d <| candidates := candidates d ++ [candidate] |>).

(** ** Writing SDP *)

Definition generate_type (ty : ice_candidate_type_t) : option (list Z * option (list Z)) :=
  match ty with
  | ICE_CANDIDATE_TYPE_HOST => Some (text "host", None)
  | ICE_CANDIDATE_TYPE_PEER_REFLEXIVE => Some (text "prflx", None)
  | ICE_CANDIDATE_TYPE_SERVER_REFLEXIVE => Some (text "srflx", Some (text "raddr 0.0.0.0 rport 0"))
  | ICE_CANDIDATE_TYPE_RELAYED => Some (text "relay", Some (text "raddr 0.0.0.0 rport 0"))
  | ICE_CANDIDATE_TYPE_UNKNOWN => None
  end.

Definition generate_transport (tr : ice_candidate_transport_t) (suffix : option (list Z)) : option (list Z * option (list Z)) :=
  match tr with
  | ICE_CANDIDATE_TRANSPORT_UDP => Some (text "UDP", suffix)
  | ICE_CANDIDATE_TRANSPORT_TCP_TYPE_ACTIVE => Some (text "TCP", Some (text "tcptype active"))
  | _ => None
  end.

(** The arguments of the format, put together. *)
Definition candidate_line (f : list Z) (comp : Z) (tr : list Z) (pr : Z) (host serv ty : list Z) (suffix : option (list Z)) : list Z :=
  text "a=candidate:" ++ f ++ text " " ++ print_u comp ++ text " " ++ tr ++ text " " ++ print_u pr ++ text " " ++ host ++
  text " " ++ serv ++ text " typ " ++ ty ++ match suffix with Some s => text " " ++ s | None => [] end.

Definition ice_generate_candidate_sdp (c : ice_candidate_t) (buffer : list Z) (size : Z) : option (Z * list Z) :=
  match generate_type (type c) with
  | None => Some (-1, buffer)
  | Some (ty, suffix) =>
      match generate_transport (transport c) suffix with
      | None => Some (-1, buffer)
      | Some (tr, suffix) =>
          f ← string_at (foundation c); host ← string_at (hostname c); serv ← string_at (service c);
          snprintf_to buffer 0 size (candidate_line f (component c) tr (priority c) host serv ty suffix)
      end
  end.

(** One round: [inl] leaves with a code, otherwise the buffer, [begin] and [len]. *)
Definition round_result (size : Z) (len : Z) (begin : Z) (r : Z * list Z) : Z + list Z * Z * Z :=
  let '(ret, buffer) := r in
  if ret <? 0 then inl (-1) else
  let len := i32 (len + ret) in
  let begin := if begin <? size then begin + (if size - begin <=? ret then size - begin - 1 else ret) else begin in
  inr (buffer, begin, len).

Definition sdp_round (d : ice_description_t) (tmp : list Z) (size : Z) (i : Z) (st : Z + list Z * Z * Z) : option (Z + list Z * Z * Z) :=
  match st with
  | inl ret => Some (inl ret)
  | inr (buffer, begin, len) =>
      let print s := snprintf_to buffer begin (size - begin) s in
      let out r := Some (round_result size len begin r) in
      if i =? 0 then
        ufrag ← string_at (ice_ufrag d); pwd ← string_at (ice_pwd d);
        '(ret, buffer) ← print (text "a=ice-ufrag:" ++ ufrag ++ [13; 10] ++ text "a=ice-pwd:" ++ pwd ++ [13; 10]);
        if ice_lite d then r ← snprintf_to buffer begin (size - begin) (text "a=ice-lite" ++ [13; 10]); out r
        else out (ret, buffer)
      else if i <? candidates_count d + 1 then
        c ← rd (candidates d) (i - 1);
        if bool_decide (type c = ICE_CANDIDATE_TYPE_UNKNOWN) || bool_decide (type c = ICE_CANDIDATE_TYPE_PEER_REFLEXIVE) then Some st else
        '(ret, tmp) ← ice_generate_candidate_sdp c tmp BUFFER_SIZE;
        if ret <? 0 then Some st else
        s ← string_at tmp; r ← print (s ++ [13; 10]); out r
      else if finished d then r ← print (text "a=end-of-candidates" ++ [13; 10] ++ text "a=ice-options:ice2" ++ [13; 10]); out r
      else r ← print (text "a=ice-options:ice2,trickle" ++ [13; 10]); out r
  end.

(** The value returned and the buffer; [tmp]: what the local array holds before it is written. *)
Definition ice_generate_sdp (d : ice_description_t) (tmp buffer : list Z) (size : Z) : option (Z * list Z) :=
  ufrag ← string_at (ice_ufrag d); pwd ← string_at (ice_pwd d);
  if bool_decide (ufrag = []) || bool_decide (pwd = []) then Some (-1, buffer) else
  st ← for_up 0 (candidates_count d + 2) (sdp_round d tmp size) (inr (buffer, 0, 0));
  match st with
  | inl ret => Some (ret, buffer)
  | inr (buffer, _, len) => Some (len, buffer)
  end.

(** ** Reading SDP *)

Definition skip_prefix (str prefix : list Z) : list Z := default str (after_prefix str prefix).

(** Whether it matches, and [*end]. *)
Definition match_prefix (str prefix : list Z) : bool * list Z :=
  let e := skip_prefix str prefix in (negb (zlen e =? zlen str) || bool_decide (prefix = []), e).

Record hints_t := Hints { ai_socktype : Z; ai_protocol : Z; ai_flags : Z }.
Record addrinfo_t := Addrinfo { ai_family : Z; ai_addr : sockaddr; ai_addrlen : Z; ai_type : Z }.

Definition IPPROTO_TCP : Z := 6.
Definition IPPROTO_UDP : Z := 17.
Definition AI_ADDRCONFIG : Z := 32.
Definition AI_NUMERICHOST : Z := 4.
Definition AI_NUMERICSERV : Z := 1024.

Section resolver.
(** [getaddrinfo] of the operating system: the list of results for a host, a service and hints. *)
Context (getaddrinfo : list Z -> list Z -> hints_t -> option (list addrinfo_t)).

Definition ice_resolve_candidate (c : ice_candidate_t) (mode : ice_resolve_mode_t) : option (Z * ice_candidate_t) :=
  let flags := match mode with ICE_RESOLVE_MODE_LOOKUP => AI_ADDRCONFIG | _ => Z.lor AI_ADDRCONFIG (Z.lor AI_NUMERICHOST AI_NUMERICSERV) end in
  let hints := if negb (bool_decide (transport c = ICE_CANDIDATE_TRANSPORT_UDP)) then Hints SOCK_STREAM IPPROTO_TCP flags else Hints SOCK_DGRAM IPPROTO_UDP flags in
  host ← string_at (hostname c); serv ← string_at (service c);
  match getaddrinfo host serv hints with
  | None => Some (-1, c <| resolved := Addr_record (addr (resolved c)) 0 (Addr.socktype (resolved c)) |>)
  | Some ai_list =>
      match list_find (fun ai => ai_family ai = AF_INET \/ ai_family ai = AF_INET6) ai_list with
      | Some (_, ai) => Some (0, c <| resolved := Addr_record (ai_addr ai) (ai_addrlen ai) (ai_type ai) |>)
      | None => Some (0, c)
      end
  end.

(** The variables the format of a candidate is read into: the candidate and four local arrays,
    as strings. *)
Record scanned := Scanned { into : ice_candidate_t; s_transport : list Z; s_type : list Z; s_tcp_type_ext : list Z; s_tcp_type : list Z }.
#[local] Instance scanned_eta : RecordEta scanned := fun v => Scanned (into v) (s_transport v) (s_type v) (s_tcp_type_ext v) (s_tcp_type v).

Definition candidate_format : list Z := text "%32s %d %32s %u %256s %32s typ %32s %7s %7s".

Definition assign (k : nat) (x : item) (v : scanned) : option scanned :=
  let c := into v in
  match k, x with
  | 0, Str s => f ← store (foundation c) s; Some (v <| into := c <| foundation := f |> |>)
  | 1, Int n => Some (v <| into := c <| component := n |> |>)
  | 2, Str s => Some (v <| s_transport := s |>)
  | 3, Int n => Some (v <| into := c <| priority := n |> |>)
  | 4, Str s => h ← store (hostname c) s; Some (v <| into := c <| hostname := h |> |>)
  | 5, Str s => sv ← store (service c) s; Some (v <| into := c <| service := sv |> |>)
  | 6, Str s => Some (v <| s_type := s |>)
  | 7, Str s => Some (v <| s_tcp_type_ext := s |>)
  | 8, Str s => Some (v <| s_tcp_type := s |>)
  | _, _ => None
  end%nat.

Fixpoint assign_all (k : nat) (items : list item) (v : scanned) : option scanned :=
  match items with [] => Some v | x :: items => v ← assign k x v; assign_all (S k) items v end.

Definition candidate_type (ty : list Z) : option ice_candidate_type_t :=
  if streq ty (text "host") then Some ICE_CANDIDATE_TYPE_HOST
  else if streq ty (text "srflx") then Some ICE_CANDIDATE_TYPE_SERVER_REFLEXIVE
  else if streq ty (text "relay") then Some ICE_CANDIDATE_TYPE_RELAYED else None.

Definition candidate_transport (tr tcp_type : list Z) : option ice_candidate_transport_t :=
  if streq tr (text "TCP") then
    if streq tcp_type (text "active") then Some ICE_CANDIDATE_TRANSPORT_TCP_TYPE_ACTIVE
    else if streq tcp_type (text "passive") then Some ICE_CANDIDATE_TRANSPORT_TCP_TYPE_PASSIVE
    else if streq tcp_type (text "so") then Some ICE_CANDIDATE_TRANSPORT_TCP_TYPE_SO else None
  else if streq tr (text "UDP") then Some ICE_CANDIDATE_TRANSPORT_UDP else None.

Definition parse_sdp_candidate (line : list Z) : option (Z * ice_candidate_t) :=
  let line := skip_prefix line (text "a=") in
  let line := skip_prefix line (text "candidate:") in
  items ← sscanf candidate_format line;
  v ← assign_all 0 items (Scanned zero_candidate [] [] [] []);
  let res := zlen items in
  if negb (res =? 7) && negb (res =? 9) then Some (ICE_PARSE_ERROR, into v) else
  let tr := map toupper (s_transport v) in
  let ty := map tolower (s_type v) in
  match candidate_type ty with
  | None => Some (ICE_PARSE_IGNORED, into v)
  | Some ty =>
      let c := (into v) <| type := ty |> in
      match candidate_transport tr (s_tcp_type v) with
      | None => Some (ICE_PARSE_IGNORED, c)
      | Some tr => Some (0, c <| transport := tr |>)
      end
  end.

Definition ice_parse_candidate_sdp (line : list Z) (candidate : ice_candidate_t) : option (Z * ice_candidate_t) :=
  let '(matched, _) := match_prefix line (text "a=candidate:") in
  if matched then
    '(ret, candidate) ← parse_sdp_candidate line;
    if ret <? 0 then Some (ret, candidate)
    else '(_, candidate) ← ice_resolve_candidate candidate ICE_RESOLVE_MODE_SIMPLE; Some (0, candidate)
  else Some (ICE_PARSE_ERROR, candidate).

(** [sscanf(arg, "%256s", arr)] *)
Definition scan_attribute (arg arr : list Z) : option (list Z) :=
  items ← sscanf (text "%256s") arg;
  match items with Str s :: _ => store arr s | _ => Some arr end.

(** The local [candidate] is not read before it is written. *)
Definition parse_sdp_line (line : list Z) (d : ice_description_t) : option (Z * ice_description_t) :=
  let '(m, arg) := match_prefix line (text "a=ice-ufrag:") in
  if m then a ← scan_attribute arg (ice_ufrag d); Some (0, d <| ice_ufrag := a |>) else
  let '(m, arg) := match_prefix line (text "a=ice-pwd:") in
  if m then a ← scan_attribute arg (ice_pwd d); Some (0, d <| ice_pwd := a |>) else
  let '(m, _) := match_prefix line (text "a=ice-lite") in
  if m then Some (0, d <| ice_lite := true |>) else
  let '(m, _) := match_prefix line (text "a=end-of-candidates") in
  if m then Some (0, d <| finished := true |>) else
  '(ret, candidate) ← ice_parse_candidate_sdp line zero_candidate;
  if ret =? 0 then '(_, _, d) ← ice_add_candidate candidate d; Some (0, d)
  else Some (ICE_PARSE_IGNORED, d).

(** The loop over the characters of [sdp]; [inl] leaves with an error. *)
Fixpoint parse_loop (sdp buffer : list Z) (size : Z) (d : ice_description_t) : option (Z * ice_description_t + ice_description_t) :=
  match sdp with
  | [] => Some (inr d)
  | c :: sdp =>
      if c =? 10 then
        if negb (size =? 0) then
          buffer ← wr buffer size 0;
          line ← string_at buffer;
          '(ret, d) ← parse_sdp_line line d;
          if ret =? ICE_PARSE_ERROR then Some (inl (ICE_PARSE_ERROR, d)) else parse_loop sdp buffer 0 d
        else parse_loop sdp buffer size d
      else if negb (c =? 13) && (size + 1 <? BUFFER_SIZE) then buffer ← wr buffer size c; parse_loop sdp buffer (size + 1) d
      else parse_loop sdp buffer size d
  end.

(** [sdp]: the string without its NUL; [buffer]: what the local array holds at first. *)
Definition ice_parse_sdp (sdp buffer : list Z) : option (Z * ice_description_t) :=
  r ← parse_loop sdp buffer 0 zero_description;
  match r with
  | inl (ret, d) => Some (ret, d)
  | inr d =>
      d ← ice_sort_candidates d;
      ufrag ← string_at (ice_ufrag d); pwd ← string_at (ice_pwd d);
      Some (if bool_decide (ufrag = []) then ICE_PARSE_MISSING_UFRAG else if bool_decide (pwd = []) then ICE_PARSE_MISSING_PWD else 0, d)
  end.
End resolver.

(** ** Local descriptions and candidates *)

(** [random k]: the k-th byte of the random source from here on ([src/random.c]). *)
Section random.
Context (random : Z -> Z).

Definition chars64 : list Z := text "ABCDEFGHIJKLMNOPQRSTUVWXYZabcdefghijklmnopqrstuvwxyz0123456789+/".

(** [size > 0]; the bytes used are those from [start]. *)
Definition juice_random_str64 (start : Z) (buf : list Z) (size : Z) : option (list Z) :=
  buf ← for_up 0 (size - 1) (fun i buf => c ← rd chars64 (Z.land (random (start + i)) 63); wr buf i c) buf;
  wr buf (Z.max 0 (size - 1)) 0.

Definition ice_create_local_description : option (Z * ice_description_t) :=
  let d := zero_description in
  ufrag ← juice_random_str64 0 (ice_ufrag d) (4 + 1);
  pwd ← juice_random_str64 4 (ice_pwd d) (22 + 1);
  Some (0, Description ufrag pwd false [] false).
End random.

(** [isalpha] and [isdigit] of a plain [char]. *)
Fixpoint valid_chars (s : list Z) : option bool :=
  match s with
  | [] => Some true
  | c :: s => i ← ctype_arg c;
              if negb (isalpha i) && negb (isdigit i) && negb (c =? 43) && negb (c =? 47) then Some false else valid_chars s
  end.

(** [str]: [None] for a null pointer. *)
Definition ice_is_valid_string (str : option (list Z)) : option bool :=
  match str with None => Some false | Some s => valid_chars s end.

Section names.
(** [getnameinfo] of the operating system: the numeric host and service of an address, within
    their arrays. *)
Context (getnameinfo : addr_record_t -> option (list Z * list Z)).

Definition ice_create_local_candidate (ty : ice_candidate_type_t) (comp index : Z) (record : addr_record_t) (tr : ice_candidate_transport_t)
    : option (Z * ice_candidate_t) :=
  let st := if bool_decide (tr = ICE_CANDIDATE_TRANSPORT_UDP) then SOCK_DGRAM else SOCK_STREAM in
  f ← store (foundation zero_candidate) (text "-");
  let c := zero_candidate <| type := ty |> <| component := comp |> <| transport := tr |> <| foundation := f |>
             <| resolved := Addr_record (addr record) (len record) st |>
             <| priority := ice_compute_priority ty (sa_family (addr record)) comp index tr |> in
  match getnameinfo record with
  | None => Some (-1, c)
  | Some (host, serv) =>
      h ← store (hostname c) host; sv ← store (service c) serv;
      Some (0, c <| hostname := h |> <| service := sv |>)
  end.
End names.

(** ** Candidate pairs *)

Inductive ice_candidate_pair_state_t :=
| ICE_CANDIDATE_PAIR_STATE_PENDING
| ICE_CANDIDATE_PAIR_STATE_SUCCEEDED
| ICE_CANDIDATE_PAIR_STATE_FAILED
| ICE_CANDIDATE_PAIR_STATE_FROZEN.

#[export] Instance ice_candidate_pair_state_eq_dec : EqDecision ice_candidate_pair_state_t.
Proof. solve_decision. Defined.

(** [P]: pointers to candidates. *)
Record ice_candidate_pair_t (P : Type) := Pair {
  local : option P; remote : option P; pair_priority : Z; state : ice_candidate_pair_state_t;
  nominated : bool; nomination_requested : bool; consent_expiry : Z }.
Arguments Pair {P}. Arguments local {P}. Arguments remote {P}. Arguments pair_priority {P}. Arguments state {P}.
Arguments nominated {P}. Arguments nomination_requested {P}. Arguments consent_expiry {P}.

#[export] Instance pair_eta {P} : RecordEta (ice_candidate_pair_t P) := fun p =>
  Pair (local p) (remote p) (pair_priority p) (state p) (nominated p) (nomination_requested p) (consent_expiry p).

Section pairs.
Context {P : Type} (deref : P -> option ice_candidate_t).

(** The priority of a candidate, or of a host candidate that matches the other one. *)
Definition side_priority (this other : option P) : option Z :=
  match this, other with
  | Some p, _ => priority <$> deref p
  | None, Some q => c ← deref q; Some (ice_compute_priority ICE_CANDIDATE_TYPE_HOST (sa_family (addr (resolved c))) (component c) 0 (transport c))
  | None, None => None
  end.

Definition ice_update_candidate_pair (pair : ice_candidate_pair_t P) (is_controlling : bool) : option (Z * ice_candidate_pair_t P) :=
  match local pair, remote pair with
  | None, None => Some (0, pair)
  | l, r =>
      local_priority ← side_priority l r;
      remote_priority ← side_priority r l;
      let g := if is_controlling then local_priority else remote_priority in
      let d := if is_controlling then remote_priority else local_priority in
      let mn := if g <? d then g else d in
      let mx := if d <? g then g else d in
      Some (0, pair <| pair_priority := u64 (u64 (u64 (Z.shiftl mn 32) + u64 (Z.shiftl mx 1)) + (if d <? g then 1 else 0)) |>)
  end.

(** [pair]: what the caller's structure holds; it is left alone on a mismatch. *)
Definition ice_create_candidate_pair (l r : option P) (is_controlling : bool) (pair : ice_candidate_pair_t P) : option (Z * ice_candidate_pair_t P) :=
  mismatch ← (match l, r with
              | Some l, Some r => cl ← deref l; cr ← deref r; Some (negb (sa_family (addr (resolved cl)) =? sa_family (addr (resolved cr))))
              | _, _ => Some false
              end);
  if (mismatch : bool) then Some (-1, pair) else
  ice_update_candidate_pair (Pair l r 0 ICE_CANDIDATE_PAIR_STATE_FROZEN false false 0) is_controlling.
End pairs.
