(* ===== verification/IceProps.v ===== *)
(** * Priorities and order of ICE candidates (libjuice [src/ice.c])

    The priorities of candidates follow the formulas of RFC 8445 and RFC 6544 (with the direction
    preferences of host candidates for all types), both agents give a pair the same priority, and sorting is a stable sort by priority. *)

From S2P Require Import Prelude Bytes Stdio Addr Ice.
From Stdlib Require Import Sorting.Sorted.
Open Scope Z_scope.

(** ** What the RFCs say

    RFC 8445, section 5.1.2.1: the formula, and the recommended type preferences. *)

Definition rfc8445_priority (type_pref local_pref component : Z) : Z := 2 ^ 24 * type_pref + 2 ^ 8 * local_pref + (256 - component).

Definition rfc8445_type_pref (ty : ice_candidate_type_t) : Z :=
  match ty with
  | ICE_CANDIDATE_TYPE_HOST => 126
  | ICE_CANDIDATE_TYPE_PEER_REFLEXIVE => 110
  | ICE_CANDIDATE_TYPE_SERVER_REFLEXIVE => 100
  | ICE_CANDIDATE_TYPE_RELAYED | ICE_CANDIDATE_TYPE_UNKNOWN => 0
  end.

(** RFC 6544, section 4.2: the local preference of a TCP candidate, and the recommended
    direction preferences: "for the host, UDP-tunneled, and relayed candidates" and "for the
    NAT-assisted and server reflexive candidates" ([None]: not a TCP candidate, or a type without
    recommendation). *)
Definition rfc6544_local_pref (direction_pref other_pref : Z) : Z := 2 ^ 13 * direction_pref + other_pref.

Definition rfc6544_direction_pref (ty : ice_candidate_type_t) (tr : ice_candidate_transport_t) : option Z :=
  match ty, tr with
  | (ICE_CANDIDATE_TYPE_HOST | ICE_CANDIDATE_TYPE_RELAYED), ICE_CANDIDATE_TRANSPORT_TCP_TYPE_ACTIVE => Some 6
  | (ICE_CANDIDATE_TYPE_HOST | ICE_CANDIDATE_TYPE_RELAYED), ICE_CANDIDATE_TRANSPORT_TCP_TYPE_PASSIVE => Some 4
  | (ICE_CANDIDATE_TYPE_HOST | ICE_CANDIDATE_TYPE_RELAYED), ICE_CANDIDATE_TRANSPORT_TCP_TYPE_SO => Some 2
  | ICE_CANDIDATE_TYPE_SERVER_REFLEXIVE, ICE_CANDIDATE_TRANSPORT_TCP_TYPE_SO => Some 6
  | ICE_CANDIDATE_TYPE_SERVER_REFLEXIVE, ICE_CANDIDATE_TRANSPORT_TCP_TYPE_ACTIVE => Some 4
  | ICE_CANDIDATE_TYPE_SERVER_REFLEXIVE, ICE_CANDIDATE_TRANSPORT_TCP_TYPE_PASSIVE => Some 2
  | _, _ => None
  end.

(** ** What the program chooses

    50 less for TCP, but not below 0; the direction preferences of the first group for all
    types; IPv6 before IPv4, and the interfaces found first before the others. *)

Definition type_pref (ty : ice_candidate_type_t) (tr : ice_candidate_transport_t) : Z :=
  if decide (tr = ICE_CANDIDATE_TRANSPORT_UDP) then rfc8445_type_pref ty else Z.max 0 (rfc8445_type_pref ty - 50).
Definition direction_pref (tr : ice_candidate_transport_t) : Z :=
  match tr with
  | ICE_CANDIDATE_TRANSPORT_UDP => 0
  | ICE_CANDIDATE_TRANSPORT_TCP_TYPE_ACTIVE => 6
  | ICE_CANDIDATE_TRANSPORT_TCP_TYPE_PASSIVE => 4
  | ICE_CANDIDATE_TRANSPORT_TCP_TYPE_SO => 2
  end.
Definition other_pref (family index : Z) : Z := (if decide (family = AF_INET6) then 8191 else 4095) - Z.max 0 (Z.min index 4095).
Definition local_pref (family index : Z) (tr : ice_candidate_transport_t) : Z := rfc6544_local_pref (direction_pref tr) (other_pref family index).
(** The component that is encoded. *)
Definition valid_component (comp : Z) : Z := Z.max 1 (Z.min comp 256).

Lemma CLAMP_spec x low high : low <= high -> CLAMP x low high = Z.max low (Z.min x high).
Proof. intros. unfold CLAMP. destruct (Z.ltb_spec high x), (Z.ltb_spec x low); lia. Qed.

Lemma type_pref_range ty tr : 0 <= type_pref ty tr <= 126.
Proof. destruct ty, tr; split; vm_compute; congruence. Qed.

Lemma direction_range tr : 0 <= direction_pref tr <= 6.
Proof. destruct tr; cbn; lia. Qed.

Lemma other_pref_range family index : 0 <= other_pref family index <= 8191.
Proof. unfold other_pref. destruct (decide _); lia. Qed.

Lemma local_pref_range family index tr : 0 <= local_pref family index tr < 65536.
Proof.
  unfold local_pref, rfc6544_local_pref. pose proof (other_pref_range family index). pose proof (direction_range tr). change (2 ^ 13) with 8192. lia.
Qed.

Lemma valid_component_range comp : 1 <= valid_component comp <= 256.
Proof. unfold valid_component. lia. Qed.

(** The tables of the program are those above. *)
Lemma type_preference_eq ty : type_preference ty = rfc8445_type_pref ty.
Proof. by destruct ty. Qed.

Lemma direction_preference_eq tr : direction_preference tr = direction_pref tr.
Proof. by destruct tr. Qed.

(** The innermost conversion that does nothing. *)
Ltac small32 := repeat match goal with |- context [u32 ?x] => lazymatch x with context [u32 _] => fail | _ => rewrite (u32_small x) by lia end end.

Lemma compute_priority_eq ty family comp index tr : family = AF_INET \/ family = AF_INET6 ->
  ice_compute_priority ty family comp index tr = rfc8445_priority (type_pref ty tr) (local_pref family index tr) (valid_component comp).
Proof.
  intros Hf. unfold ice_compute_priority, rfc8445_priority. rewrite type_preference_eq, direction_preference_eq, !CLAMP_spec by lia. fold (valid_component comp).
  assert (Ht : (if negb (bool_decide (tr = ICE_CANDIDATE_TRANSPORT_UDP)) then if ICE_CANDIDATE_PENALTY_TCP <=? rfc8445_type_pref ty then rfc8445_type_pref ty - ICE_CANDIDATE_PENALTY_TCP else 0
    else rfc8445_type_pref ty) = type_pref ty tr) by (by destruct ty, tr).
  rewrite Ht. clear Ht. pose proof (type_pref_range ty tr) as HT. pose proof (local_pref_range family index tr) as HL.
  unfold local_pref, rfc6544_local_pref, other_pref in *. set (i := Z.max 0 (Z.min index 4095)) in *.
  assert (Hi : 0 <= i <= 4095) by lia. pose proof (valid_component_range comp) as Hc. pose proof (direction_range tr) as Hd.
  rewrite !Z.shiftl_mul_pow2 by lia. change (2 ^ 8) with 256 in *. change (2 ^ 13) with 8192 in *. change (2 ^ 16) with 65536. change (2 ^ 24) with 16777216.
  rewrite (u32_small (type_pref ty tr * 65536)), (u32_small (direction_pref tr * 8192)) by lia.
  revert HL. destruct Hf as [-> | ->]; cbn [Z.eqb AF_INET AF_INET6 Pos.eqb]; [destruct (decide _) as [E|_]; [done|]|destruct (decide _) as [_|E]; [|done]]; intros HL; small32; lia.
Qed.

Lemma ice_priority_range ty family comp index tr : family = AF_INET \/ family = AF_INET6 -> 0 <= ice_compute_priority ty family comp index tr < 2147483648.
Proof.
  intros Hf. rewrite compute_priority_eq by done. pose proof (type_pref_range ty tr). pose proof (local_pref_range family index tr).
  pose proof (valid_component_range comp). unfold rfc8445_priority. change (2 ^ 8) with 256. change (2 ^ 24) with 16777216. lia.
Qed.

(** The formula orders candidates by type, then by local preference, then by component. *)
Lemma rfc8445_lexicographic t l c t' l' c' : 0 <= l < 65536 -> 0 <= l' < 65536 -> 1 <= c <= 256 -> 1 <= c' <= 256 ->
  (rfc8445_priority t l c < rfc8445_priority t' l' c' <-> t < t' \/ t = t' /\ (l < l' \/ l = l' /\ c' < c)).
Proof. unfold rfc8445_priority. change (2 ^ 8) with 256. change (2 ^ 24) with 16777216. lia. Qed.

(** C22. Priorities of candidates.  For an IPv4 or IPv6 address, whatever the index and the component
    (both clamped), ice_compute_priority is, without overflow on the way, the 31-bit number of the
    formula of RFC 8445: in the high bits the recommended type preference (126 host, 110
    peer-reflexive, 100 server-reflexive, 0 relayed; for TCP lowered by 50, but not below 0), then
    a local preference of the form of RFC 6544 (direction preference 6 active, 4 passive, 2
    simultaneous-open, 0 for UDP; then IPv6 before IPv4 and low indices first), then the component.
    The direction preferences are those that RFC 6544 recommends for host and relayed candidates;
    for server-reflexive TCP candidates it recommends others, and none of the three agrees.  Of two
    candidates the one with the better type is preferred; among UDP candidates host candidates
    come before peer-reflexive, server-reflexive and relayed ones, whatever their address and
    index. *)
Theorem ice_candidate_priority_rfc8445 (ty : ice_candidate_type_t) (family comp index : Z) (tr : ice_candidate_transport_t) :
  family = AF_INET \/ family = AF_INET6 ->
  let p := ice_compute_priority ty family comp index tr in
  p = rfc8445_priority (type_pref ty tr) (rfc6544_local_pref (direction_pref tr) (other_pref family index)) (valid_component comp) /\
  0 <= type_pref ty tr <= 126 /\ 0 <= direction_pref tr <= 7 /\ 0 <= other_pref family index <= 8191 /\ 0 <= p < 2 ^ 31 /\
  (forall d, rfc6544_direction_pref ty tr = Some d -> (direction_pref tr = d <-> ty <> ICE_CANDIDATE_TYPE_SERVER_REFLEXIVE)) /\
  forall ty' family' comp' index' tr', family' = AF_INET \/ family' = AF_INET6 ->
    let p' := ice_compute_priority ty' family' comp' index' tr' in
    (p < p' <-> type_pref ty tr < type_pref ty' tr' \/ type_pref ty tr = type_pref ty' tr' /\
       (local_pref family index tr < local_pref family' index' tr' \/
        local_pref family index tr = local_pref family' index' tr' /\ valid_component comp' < valid_component comp)) /\
    (tr = ICE_CANDIDATE_TRANSPORT_UDP -> tr' = ICE_CANDIDATE_TRANSPORT_UDP -> rfc8445_type_pref ty < rfc8445_type_pref ty' -> p < p').
Proof.
  intros Hf p. pose proof (direction_range tr) as HD. unfold p. rewrite compute_priority_eq by done.
  split; [done|]. split; [apply type_pref_range|]. split; [lia|]. split; [apply other_pref_range|]. split.
  { rewrite <- compute_priority_eq by done. by apply ice_priority_range. }
  split; [by destruct ty, tr; intros d; cbn; try done; intros [= <-]|].
  intros ty' family' comp' index' tr' Hf'. rewrite compute_priority_eq by done.
  rewrite rfc8445_lexicographic by (apply local_pref_range || apply valid_component_range).
  split; [done|]. intros -> -> Hlt. by left.
Qed.

(** A host candidate before a server-reflexive one, and the value of a passive TCP candidate. *)
Lemma ice_candidate_priority_witness :
  let p := ice_compute_priority ICE_CANDIDATE_TYPE_HOST AF_INET 1 0 ICE_CANDIDATE_TRANSPORT_UDP in
  p = 2114977791 /\ ice_compute_priority ICE_CANDIDATE_TYPE_SERVER_REFLEXIVE AF_INET6 1 3 ICE_CANDIDATE_TRANSPORT_UDP < p /\
  ice_compute_priority ICE_CANDIDATE_TYPE_HOST AF_INET6 2 1 ICE_CANDIDATE_TRANSPORT_TCP_TYPE_PASSIVE = 2 ^ 24 * 76 + 2 ^ 8 * (2 ^ 13 * 4 + 8190) + 254.
Proof.
  intros p. split; [reflexivity|]. split.
  - destruct (ice_candidate_priority_rfc8445 ICE_CANDIDATE_TYPE_SERVER_REFLEXIVE AF_INET6 1 3 ICE_CANDIDATE_TRANSPORT_UDP (or_intror eq_refl)) as (_ & _ & _ & _ & _ & _ & H).
    apply (proj2 (H ICE_CANDIDATE_TYPE_HOST AF_INET 1 0 ICE_CANDIDATE_TRANSPORT_UDP (or_introl eq_refl)) eq_refl eq_refl). reflexivity.
  - exact (proj1 (ice_candidate_priority_rfc8445 ICE_CANDIDATE_TYPE_HOST AF_INET6 2 1 ICE_CANDIDATE_TRANSPORT_TCP_TYPE_PASSIVE (or_intror eq_refl))).
Defined.

(** Server-reflexive TCP candidates of one address: RFC 6544 recommends simultaneous-open before
    active before passive; the program orders them active, passive, simultaneous-open. *)
Lemma ice_reflexive_tcp_order family comp index : family = AF_INET \/ family = AF_INET6 ->
  let p := ice_compute_priority ICE_CANDIDATE_TYPE_SERVER_REFLEXIVE family comp index in
  p ICE_CANDIDATE_TRANSPORT_TCP_TYPE_SO < p ICE_CANDIDATE_TRANSPORT_TCP_TYPE_PASSIVE < p ICE_CANDIDATE_TRANSPORT_TCP_TYPE_ACTIVE /\
  let r tr := default 0 (rfc6544_direction_pref ICE_CANDIDATE_TYPE_SERVER_REFLEXIVE tr) in
  r ICE_CANDIDATE_TRANSPORT_TCP_TYPE_PASSIVE < r ICE_CANDIDATE_TRANSPORT_TCP_TYPE_ACTIVE < r ICE_CANDIDATE_TRANSPORT_TCP_TYPE_SO.
Proof.
  intros Hf p. unfold p. rewrite !compute_priority_eq by done. split; [|done]. rewrite !rfc8445_lexicographic by (apply local_pref_range || apply valid_component_range).
  unfold local_pref, rfc6544_local_pref. cbn [direction_pref]. split; right; (split; [done|left; lia]).
Qed.

(** ** Priorities of pairs *)

Definition rfc8445_pair_priority (g d : Z) : Z := 2 ^ 32 * Z.min g d + 2 * Z.max g d + (if decide (d < g) then 1 else 0).

Ltac small64 := repeat match goal with |- context [u64 ?x] => lazymatch x with context [u64 _] => fail | _ => rewrite (u64_small x) by lia end end.

Lemma pair_priority_eq g d : 0 <= g < 4294967296 -> 0 <= d < 4294967296 -> Z.min g d < 4294967294 ->
  u64 (u64 (u64 (Z.shiftl (if g <? d then g else d) 32) + u64 (Z.shiftl (if d <? g then g else d) 1)) + (if d <? g then 1 else 0)) = rfc8445_pair_priority g d.
Proof.
  intros Hg Hd Hm. unfold rfc8445_pair_priority. rewrite !Z.shiftl_mul_pow2 by lia. change (2 ^ 32) with 4294967296. change (2 ^ 1) with 2.
  destruct (Z.ltb_spec g d), (Z.ltb_spec d g), (decide (d < g)); try lia; small64; lia.
Qed.

Lemma pair_priority_range g d : 0 <= g < 4294967296 -> 0 <= d < 4294967296 -> Z.min g d < 4294967294 -> 0 <= rfc8445_pair_priority g d < 2 ^ 64.
Proof. unfold rfc8445_pair_priority. change (2 ^ 32) with 4294967296. change (2 ^ 64) with 18446744073709551616. destruct (decide _); lia. Qed.

Lemma pair_priority_inj g d g' d' : 0 <= g < 2147483648 -> 0 <= d < 2147483648 -> 0 <= g' < 2147483648 -> 0 <= d' < 2147483648 ->
  rfc8445_pair_priority g d = rfc8445_pair_priority g' d' -> g = g' /\ d = d'.
Proof. unfold rfc8445_pair_priority. change (2 ^ 32) with 4294967296. repeat destruct (decide _); lia. Qed.

(** The two candidates of a pair on one agent and on the other. *)
Lemma update_pair_eq {P} (deref : P -> option ice_candidate_t) pair l r cl cr b : local pair = Some l -> remote pair = Some r -> deref l = Some cl -> deref r = Some cr ->
  let g := if (b : bool) then priority cl else priority cr in let d := if b then priority cr else priority cl in
  0 <= g < 4294967296 -> 0 <= d < 4294967296 -> Z.min g d < 4294967294 ->
  ice_update_candidate_pair deref pair b = Some (0, pair <| pair_priority := rfc8445_pair_priority g d |>).
Proof.
  intros Hl Hr Hcl Hcr g d Hg Hd Hm. unfold ice_update_candidate_pair. rewrite Hl, Hr. cbn [side_priority]. rewrite Hcl, Hcr. cbn.
  fold g d. rewrite pair_priority_eq by done. done.
Qed.

Section pairs.
Context {P Q : Type} (deref : P -> option ice_candidate_t) (deref' : Q -> option ice_candidate_t).

(** C21. Both agents order the pairs alike.  When the controlling agent pairs its candidate with
    one of its peer, and the peer pairs the same two candidates the other way round, both get the
    priority of RFC 8445, which fits 64 bits as long as one of the priorities is below 2^31 (the
    one that was computed here always is); and for 31-bit priorities two pairs have equal priorities
    only if both their candidates have. *)
Theorem ice_pair_priority_agreed (pair : ice_candidate_pair_t P) (pair' : ice_candidate_pair_t Q) l r l' r' cl cr cl' cr' :
  local pair = Some l -> remote pair = Some r -> deref l = Some cl -> deref r = Some cr ->
  local pair' = Some l' -> remote pair' = Some r' -> deref' l' = Some cl' -> deref' r' = Some cr' ->
  priority cl' = priority cr -> priority cr' = priority cl ->
  0 <= priority cl < 2 ^ 32 -> 0 <= priority cr < 2 ^ 32 -> priority cl < 2 ^ 31 \/ priority cr < 2 ^ 31 ->
  let v := rfc8445_pair_priority (priority cl) (priority cr) in
  ice_update_candidate_pair deref pair true = Some (0, pair <| pair_priority := v |>) /\
  ice_update_candidate_pair deref' pair' false = Some (0, pair' <| pair_priority := v |>) /\
  0 <= v < 2 ^ 64 /\
  forall g d, 0 <= g < 2 ^ 31 -> 0 <= d < 2 ^ 31 -> priority cl < 2 ^ 31 -> priority cr < 2 ^ 31 ->
    (v = rfc8445_pair_priority g d <-> g = priority cl /\ d = priority cr).
Proof using Type.
  intros Hl Hr Hcl Hcr Hl' Hr' Hcl' Hcr' E1 E2. change (2 ^ 32) with 4294967296. change (2 ^ 31) with 2147483648. intros H1 H2 H3 v.
  split; [by apply (update_pair_eq deref pair l r cl cr true); try done; lia|].
  split. { unfold v. rewrite <- E1, <- E2. apply (update_pair_eq deref' pair' l' r' cl' cr' false); try done; lia. }
  split; [apply pair_priority_range; lia|]. intros g d Hg Hd H4 H5. split; [|by intros [-> ->]].
  intros E. apply pair_priority_inj in E as [-> ->]; [done|lia..].
Qed.
End pairs.

Definition ex_host : ice_candidate_t := zero_candidate <| type := ICE_CANDIDATE_TYPE_HOST |> <| priority := 2114977791 |>.
Definition ex_relayed : ice_candidate_t := zero_candidate <| type := ICE_CANDIDATE_TYPE_RELAYED |> <| priority := 16777215 |>.
Definition ex_pair (l r : Z) : ice_candidate_pair_t Z := Pair (Some l) (Some r) 0 ICE_CANDIDATE_PAIR_STATE_FROZEN false false 0.

Lemma ice_pair_priority_agreed_witness :
  let v := 72057593972916223 in
  ice_update_candidate_pair (rd [ex_host; ex_relayed]) (ex_pair 0 1) true = Some (0, (ex_pair 0 1) <| pair_priority := v |>) /\
  ice_update_candidate_pair (rd [ex_host; ex_relayed]) (ex_pair 1 0) false = Some (0, (ex_pair 1 0) <| pair_priority := v |>) /\
  0 <= v < 2 ^ 64 /\
  forall g d, 0 <= g < 2 ^ 31 -> 0 <= d < 2 ^ 31 -> priority ex_host < 2 ^ 31 -> priority ex_relayed < 2 ^ 31 ->
    (v = rfc8445_pair_priority g d <-> g = priority ex_host /\ d = priority ex_relayed).
Proof.
  apply (ice_pair_priority_agreed (rd [ex_host; ex_relayed]) (rd [ex_host; ex_relayed]) (ex_pair 0 1) (ex_pair 1 0) 0 1 1 0 ex_host ex_relayed ex_relayed ex_host);
    try reflexivity; try (split; [discriminate|reflexivity]); left; reflexivity.
Defined.

(** ** Sorting *)

Abbreviation ge_priority := (fun c c' : ice_candidate_t => priority c' <= priority c).
Abbreviation with_priority p := (List.filter (fun c : ice_candidate_t => priority c =? p)).

Lemma wr_app {A} (a : list A) x y b : wr (a ++ x :: b) (zlen a) y = Some (a ++ y :: b).
Proof.
  rewrite wr_Some by (rewrite zlen_app, zlen_cons; pose proof (zlen_nonneg a); pose proof (zlen_nonneg b); lia).
  unfold zlen. rewrite Nat2Z.id. f_equal. by rewrite insert_app_r_alt, Nat.sub_diag by lia.
Qed.

Lemma rd_app {A} (a : list A) x b : rd (a ++ x :: b) (zlen a) = Some x.
Proof. rewrite rd_nonneg by apply zlen_nonneg. unfold zlen. by rewrite Nat2Z.id, lookup_app_r, Nat.sub_diag by lia. Qed.

(** The entries of lower priority move up by one; the hole [z] they leave is behind [a1]. *)
Lemma sort_shift_spec pr : forall fuel a z post, (length a < fuel)%nat ->
  exists a1 b z', sort_shift fuel (a ++ z :: post) (zlen a) pr = Some (a1 ++ z' :: b ++ post, zlen a1 - 1) /\
    a = a1 ++ b /\ Forall (fun c => priority c < pr) b /\ (a1 = [] \/ exists a2 c, a1 = a2 ++ [c] /\ pr <= priority c) /\
    (b = [] -> z' = z).
Proof.
  induction fuel as [|fuel IH]; intros a z post Hf; [lia|]. cbn [sort_shift].
  destruct a as [|c a] using rev_ind; [exists [], [], z; rewrite zlen_nil; cbn; split_and!; auto|]. clear IHa.
  rewrite zlen_app, zlen_cons, zlen_nil. replace (zlen a + (1 + 0) - 1) with (zlen a) by lia. pose proof (zlen_nonneg a).
  destruct (Z.ltb_spec (zlen a) 0); [lia|]. rewrite <- app_assoc. cbn [app]. rewrite rd_app. cbn.
  destruct (Z.ltb_spec (priority c) pr) as [Hlt|Hge].
  - replace (zlen a + 1) with (zlen (a ++ [c])) by (rewrite zlen_app, zlen_cons, zlen_nil; lia).
    change (a ++ c :: z :: post) with (a ++ [c] ++ z :: post). rewrite app_assoc, wr_app, <- app_assoc. cbn.
    rewrite length_app in Hf. cbn in Hf. destruct (IH a c (c :: post)) as (a1 & b & z' & Es & -> & Hb & Ha1 & _); [lia|]. rewrite Es. clear Es.
    exists a1, (b ++ [c]), z'. rewrite <- !app_assoc. split_and!; try done.
    + apply Forall_app. by repeat constructor.
    + by intros [_ ?]%app_eq_nil.
  - exists (a ++ [c]), [], z. rewrite app_nil_r, <- app_assoc, zlen_app, zlen_cons, zlen_nil. cbn.
    split_and!; [by replace (zlen a + (1 + 0) - 1) with (zlen a) by lia|done|done|eauto|done].
Qed.

Lemma StronglySorted_app_inv {A} (R : A -> A -> Prop) a b : StronglySorted R (a ++ b) <->
  StronglySorted R a /\ StronglySorted R b /\ Forall (fun x => Forall (R x) b) a.
Proof.
  induction a as [|x a IH]; simpl; [split; [intros; repeat constructor; auto|naive_solver]|]. split.
  - intros [H1 H2]%StronglySorted_inv. apply Forall_app in H2 as [H2 H3]. apply IH in H1 as (H4 & H5 & H6). repeat constructor; auto.
  - intros (H1 & H2 & H3). apply StronglySorted_inv in H1 as [H1 H4]. apply Forall_cons in H3 as [H3 H5]. constructor; [by apply IH|]. by apply Forall_app.
Qed.

(** One insertion: the sorted entries before [x] with [x] among them, behind its equals. *)
Lemma sort_step_spec pre x post : StronglySorted ge_priority pre ->
  exists a b, pre = a ++ b /\ sort_step (zlen pre) (pre ++ x :: post) = Some ((a ++ x :: b) ++ post) /\
    StronglySorted ge_priority (a ++ x :: b) /\ Forall (fun c => priority c < priority x) b.
Proof.
  intros Hs. unfold sort_step. rewrite rd_app. cbn [mbind option_bind].
  destruct (sort_shift_spec (priority x) (S (Z.to_nat (zlen pre))) pre x post) as (a & b & z' & Es & -> & Hb & Ha & Hz); [unfold zlen; lia|].
  rewrite Es. clear Es. exists a, b. split; [done|]. cbn. replace (zlen a - 1 + 1) with (zlen a) by lia. split.
  - rewrite zlen_app. pose proof (zlen_nonneg b). destruct (Z.eqb_spec (zlen a) (zlen a + zlen b)) as [E|_]; cbn.
    + destruct b as [|c b]; [|rewrite zlen_cons in E; pose proof (zlen_nonneg b); lia]. rewrite Hz by done. by rewrite <- app_assoc.
    + rewrite wr_app. by rewrite <- app_assoc.
  - split; [|done]. apply StronglySorted_app_inv in Hs as (H1 & H2 & H3). apply StronglySorted_app_inv. split; [done|]. split.
    + constructor; [done|]. eapply Forall_impl; [exact Hb|]. cbn. lia.
    + destruct Ha as [->|(a2 & c & -> & Hc)]; [done|]. apply Forall_forall. intros y Hy. constructor; [|by eapply Forall_forall in H3].
      apply StronglySorted_app_inv in H1 as (_ & _ & H1). apply elem_of_app in Hy as [Hy|Hy%list_elem_of_singleton]; [|by subst].
      eapply Forall_forall in H1; [|done]. apply Forall_cons in H1 as [H1 _]. cbn in H1. lia.
Qed.

Lemma with_priority_low p b : Forall (fun c => priority c < p) b -> with_priority p b = [].
Proof. induction 1 as [|c b Hc _ IH]; cbn; [done|]. destruct (Z.eqb_spec (priority c) p); [lia|done]. Qed.

(** ice_sort_candidates terminates inside the array and is a stable sort: the candidates of
    the description come in descending order of priority, the same ones as before, and those of
    equal priority keep their order; nothing else of the description changes. *)
Lemma ice_sort_candidates_spec (d : ice_description_t) :
  exists cs, ice_sort_candidates d = Some (d <| candidates := cs |>) /\
    StronglySorted ge_priority cs /\ cs ≡ₚ candidates d /\
    forall p, with_priority p cs = with_priority p (candidates d).
Proof.
  unfold ice_sort_candidates, candidates_count. set (l := candidates d). destruct (decide (l = [])) as [E|Hne].
  { exists []. rewrite E. cbn. split; [done|]. split; [constructor|]. split; [done|done]. }
  destruct (for_up_rule (fun i cs => exists pre post, cs = pre ++ post /\ i = zlen pre /\ l = take (length pre) l ++ post /\
     StronglySorted ge_priority pre /\ pre ≡ₚ take (length pre) l /\ forall p, with_priority p pre = with_priority p (take (length pre) l))
    1 (zlen l) sort_step l) as (cs & -> & pre & post & -> & Hi & Hl & Hs & Hp & Hst).
  - destruct l; [done|]. rewrite zlen_cons. pose proof (zlen_nonneg l). lia.
  - destruct l as [|c l']; [done|]. exists [c], l'. cbn. split_and!; try done. repeat constructor.
  - intros i x [Hi1 Hi2] (pre & post & -> & -> & Hl & Hs & Hp & Hst).
    assert (Hlen : (length pre < length l)%nat) by (unfold zlen in Hi2; lia).
    destruct post as [|y post]. { rewrite app_nil_r in Hl. apply (f_equal length) in Hl. rewrite length_take in Hl. lia. }
    destruct (sort_step_spec pre y post Hs) as (a & b & Epre & -> & Hs' & Hb). eexists. split; [done|].
    exists (a ++ y :: b), post. assert (Et : take (length (a ++ y :: b)) l = take (length pre) l ++ [y]).
    { rewrite Hl at 1. replace (length (a ++ y :: b)) with (length (take (length pre) l) + 1)%nat by (rewrite Epre, length_take, !length_app; rewrite Epre, length_app in Hlen; simpl; lia).
      by rewrite take_app_add. }
    split; [done|]. split. { rewrite Epre, !zlen_app, zlen_cons. lia. } rewrite Et. split_and!.
    + rewrite <- app_assoc. cbn. by rewrite Hl at 1.
    + done.
    + rewrite <- Hp, Epre. rewrite <- Permutation_middle. by rewrite <- Permutation_cons_append.
    + intros p. rewrite !List.filter_app, <- (Hst p), Epre, !List.filter_app, <- app_assoc. f_equal. cbn.
      destruct (Z.eqb_spec (priority y) p) as [<-|_]; [|by rewrite app_nil_r]. by rewrite with_priority_low.
  - assert (take (length pre) l = l) as E. { apply take_ge. unfold zlen in Hi. lia. }
    rewrite E in *. assert (post = []) as -> by (apply (app_inv_head l); by rewrite <- Hl, app_nil_r).
    rewrite app_nil_r. exists pre. cbn. done.
Qed.
