(* ===== verification/IceSdp.v ===== *)
(** * ICE descriptions in SDP (libjuice [src/ice.c])

    What [ice_generate_sdp] writes and [ice_parse_sdp] reads: whatever the text, the description
    read is well formed; and a description that is written is read back, its candidates sorted. *)

From S2P Require Import Prelude Bytes Stdio Addr Ice IceProps.
From Stdlib Require Import Sorting.Sorted.
Open Scope Z_scope.

(** ** Texts in arrays *)

(** An array of [n] characters that holds the token [s]: characters but no white space. *)
Definition token_in (n : nat) (arr s : list Z) : Prop :=
  length arr = n /\ string_at arr = Some s /\ no_space s /\ Forall byte s.

Definition padded (n : nat) (s : list Z) : list Z := s ++ replicate (n - length s)%nat 0.

Lemma token_in_facts n arr s : token_in n arr s -> s = cstr arr /\ Forall (fun c => c <> 0) s /\ zlen s < Z.of_nat n.
Proof. intros (Hl & Hs & _ & _). apply string_at_spec in Hs as (-> & ? & ?). unfold zlen in *. split_and!; [done|done|lia]. Qed.

Lemma token_in_zero n : (0 < n)%nat -> token_in n (replicate n 0) [].
Proof. intros. destruct n; [lia|]. split_and!; [by rewrite length_replicate|done|constructor|constructor]. Qed.

Lemma store_token n arr s : length arr = n -> zlen s < Z.of_nat n -> no_space s -> Forall byte s -> Forall (fun c => c <> 0) s ->
  exists arr', store arr s = Some arr' /\ token_in n arr' s.
Proof.
  intros Hl Hs H1 H2 H3. assert (Es : store arr s = Some (s ++ 0 :: drop (S (length s)) arr)) by (apply store_Some; unfold zlen in *; lia).
  eexists. split; [exact Es|]. split_and!; [rewrite <- Hl; by eapply store_length|by apply string_at_app|done|done].
Qed.

Lemma drop_replicate_S n (s : list Z) : zlen s < Z.of_nat n -> 0 :: drop (S (length s)) (replicate n 0) = replicate (n - length s) 0.
Proof.
  intros. rewrite drop_replicate. unfold zlen in *. by replace (n - length s)%nat with (S (n - S (length s))) by lia.
Qed.

Lemma store_padded n s : zlen s < Z.of_nat n -> store (replicate n 0) s = Some (padded n s).
Proof. intros. rewrite store_Some by (unfold zlen in *; rewrite length_replicate; lia). by rewrite drop_replicate_S. Qed.

Lemma print_u_text n : Forall byte (print_u n) /\ Forall (fun c => c <> 0) (print_u n) /\ no_space (print_u n) /\ zlen (print_u n) <= 10 /\ print_u n <> [].
Proof.
  assert (Hu : print_u n = print_u (u32 n)). { unfold print_u. by rewrite (u32_small (u32 n)) by apply u32_range. }
  rewrite Hu. destruct (print_u_spec (u32 n) (u32_range n)) as (_ & Hd & Hl & Hne). split_and!; auto using digits_nonzero, digits_no_space.
  eapply Forall_impl; [exact Hd|]. unfold isdigit, byte. cbn. lia.
Qed.

(** ** Well-formed descriptions *)

Record candidate_wf (c : ice_candidate_t) : Prop := {
  wf_type : type c = ICE_CANDIDATE_TYPE_HOST \/ type c = ICE_CANDIDATE_TYPE_SERVER_REFLEXIVE \/ type c = ICE_CANDIDATE_TYPE_RELAYED;
  wf_priority : 0 <= priority c < 2 ^ 32;
  wf_component : - 2 ^ 31 <= component c < 2 ^ 31;
  wf_foundation : exists s, token_in 33 (foundation c) s /\ s <> [];
  wf_hostname : exists s, token_in 257 (hostname c) s /\ s <> [];
  wf_service : exists s, token_in 33 (service c) s /\ s <> [] }.

Record description_wf (d : ice_description_t) : Prop := {
  wf_ufrag : exists s, token_in 257 (ice_ufrag d) s;
  wf_pwd : exists s, token_in 257 (ice_pwd d) s;
  wf_count : candidates_count d <= ICE_MAX_CANDIDATES_COUNT;
  wf_candidates : Forall candidate_wf (candidates d) }.

Lemma zero_description_wf : description_wf zero_description.
Proof. split; [exists []; apply token_in_zero; lia|exists []; apply token_in_zero; lia|by vm_compute|constructor]. Qed.

(** ** The lines of a text *)

(** Carriage returns are dropped, so are empty lines, the characters of a line from the 1024th on, and what follows the
    last newline. [cur]: the line so far. *)
Fixpoint sdp_lines (cur sdp : list Z) : list (list Z) :=
  match sdp with
  | [] => []
  | c :: sdp =>
      if c =? 10 then match cur with [] => sdp_lines [] sdp | _ => cur :: sdp_lines [] sdp end
      else if negb (c =? 13) && (zlen cur + 1 <? BUFFER_SIZE) then sdp_lines (cur ++ [c]) sdp
      else sdp_lines cur sdp
  end.

Section parsing.
Context (getaddrinfo : list Z -> list Z -> hints_t -> option (list addrinfo_t)).

Definition lines_step (d : ice_description_t) (line : list Z) : option ice_description_t := snd <$> parse_sdp_line getaddrinfo line d.

Fixpoint read_lines (lines : list (list Z)) (d : ice_description_t) : option ice_description_t :=
  match lines with [] => Some d | line :: lines => d ← lines_step d line; read_lines lines d end.

(** The numbers of a candidate line, if it is one, fit their types. *)
Definition numbers_ok (line : list Z) : Prop :=
  forall rest, after_prefix line (text "a=candidate:") = Some rest -> is_Some (sscanf candidate_format rest).

Definition readable (line : list Z) : Prop := Forall byte line /\ Forall (fun c => c <> 0) line /\ numbers_ok line.

Lemma candidate_directives : directives None candidate_format =
  Some [Conv_s 32; Space; Conv_d; Space; Conv_s 32; Space; Conv_u; Space; Conv_s 256; Space; Conv_s 32; Space;
        Literal 116; Literal 121; Literal 112; Space; Conv_s 32; Space; Conv_s 7; Space; Conv_s 7].
Proof using Type. by vm_compute. Qed.

(** A candidate on its way: the strings that were read are tokens. *)
Record reading_wf (k : nat) (v : scanned) : Prop := {
  rd_lengths : length (foundation (into v)) = 33%nat /\ length (hostname (into v)) = 257%nat /\ length (service (into v)) = 33%nat;
  rd_foundation : (0 < k)%nat -> exists s, token_in 33 (foundation (into v)) s /\ s <> [];
  rd_component : - 2 ^ 31 <= component (into v) < 2 ^ 31;
  rd_priority : 0 <= priority (into v) < 2 ^ 32;
  rd_hostname : (4 < k)%nat -> exists s, token_in 257 (hostname (into v)) s /\ s <> [];
  rd_service : (5 < k)%nat -> exists s, token_in 33 (service (into v)) s /\ s <> [] }.

Definition conversions : list directive := [Conv_s 32; Conv_d; Conv_s 32; Conv_u; Conv_s 256; Conv_s 32; Conv_s 32; Conv_s 7; Conv_s 7].
Definition text_item (x : item) : Prop := match x with Str t => Forall byte t /\ Forall (fun c => c <> 0) t | _ => True end.

Lemma assign_wf k d x v : conversions !! k = Some d -> fits d x -> text_item x -> reading_wf k v ->
  exists v', assign k x v = Some v' /\ reading_wf (S k) v'.
Proof using Type.
  intros Hd Hf Hx [(L1 & L2 & L3) W1 W2 W3 W4 W5].
  assert (Hput : forall n arr s, length arr = n -> s <> [] -> no_space s -> zlen s < Z.of_nat n -> text_item (Str s) ->
    exists arr', store arr s = Some arr' /\ length arr' = n /\ exists s, token_in n arr' s /\ s <> []).
  { intros n arr s Hl Hne Hn Hz [Hb H0]. destruct (store_token n arr s Hl Hz Hn Hb H0) as (arr' & E & Ht). exists arr'. split; [done|].
    pose proof Ht as (? & _). eauto. }
  destruct k as [|[|[|[|[|[|[|[|[|k]]]]]]]]]; [..|done]; injection Hd as <-; inversion Hf; subst; cbn [assign];
    try (eexists; split; [reflexivity|]; split; cbn; auto with lia; fail).
  - destruct (Hput 33%nat (foundation (into v)) s) as (arr & -> & ? & ?); [done|done|done|lia|done|]. eexists. split; [reflexivity|]. split; cbn; auto with lia.
  - destruct (Hput 257%nat (hostname (into v)) s) as (arr & -> & ? & ?); [done|done|done|lia|done|]. eexists. split; [reflexivity|]. split; cbn; auto with lia.
  - destruct (Hput 33%nat (service (into v)) s) as (arr & -> & ? & ?); [done|done|done|lia|done|]. eexists. split; [reflexivity|]. split; cbn; auto with lia.
Qed.

Lemma assign_all_wf items : forall k v, Forall2 fits (take (length items) (drop k conversions)) items -> Forall text_item items -> reading_wf k v ->
  exists v', assign_all k items v = Some v' /\ reading_wf (k + length items) v'.
Proof using Type.
  induction items as [|x items IH]; intros k v Hf Hx Hv; [exists v; by rewrite Nat.add_0_r|].
  destruct (drop k conversions) as [|d ds] eqn:E; [inversion Hf|]. cbn in Hf. inversion Hf; subst. apply Forall_cons in Hx as [Hx Hxs].
  assert (Hk : conversions !! k = Some d). { rewrite <- (Nat.add_0_r k), <- lookup_drop, E. done. }
  destruct (assign_wf k d x v Hk) as (v' & Ev & Hv'); [done|done|done|]. cbn [assign_all]. rewrite Ev. cbn.
  destruct (IH (S k) v') as (v'' & E2 & Hv2); [|done|done|]. { replace (drop (S k) conversions) with ds; [done|]. rewrite <- Nat.add_1_r, <- drop_drop, E. done. }
  exists v''. split; [done|]. by replace (k + S (length items))%nat with (S k + length items)%nat by lia.
Qed.

Lemma reading_start : reading_wf 0 (Scanned zero_candidate [] [] [] []).
Proof using Type. split; cbn; [done|lia..]. Qed.

Lemma candidate_prefix : text "a=candidate:" = text "a=" ++ text "candidate:".
Proof using Type. by vm_compute. Qed.

Lemma skip_candidate_prefix rest : skip_prefix (skip_prefix (text "a=candidate:" ++ rest) (text "a=")) (text "candidate:") = rest.
Proof using Type.
  rewrite candidate_prefix, <- app_assoc. unfold skip_prefix. rewrite after_prefix_app. cbn [from_option id]. by rewrite after_prefix_app.
Qed.

Lemma candidate_items rest items : Forall byte rest -> Forall (fun c => c <> 0) rest -> sscanf candidate_format rest = Some items ->
  exists v, assign_all 0 items (Scanned zero_candidate [] [] [] []) = Some v /\ reading_wf (length items) v.
Proof using Type.
  intros Hb Hz Hi. rewrite (sscanf_scan _ _ _ candidate_directives) in Hi.
  apply scan_fits in Hi as (_ & Hf & Hx); [|repeat constructor; lia|done|done].
  exact (assign_all_wf items 0 _ Hf Hx reading_start).
Qed.

(** A candidate line: whatever it says, and if it is accepted the candidate is well formed. *)
Lemma parse_sdp_candidate_wf rest : Forall byte rest -> Forall (fun c => c <> 0) rest -> is_Some (sscanf candidate_format rest) ->
  exists ret c, parse_sdp_candidate (text "a=candidate:" ++ rest) = Some (ret, c) /\ (ret = 0 \/ ret = -1 \/ ret = -2) /\ (ret = 0 -> candidate_wf c).
Proof using Type.
  intros Hb Hz [items Hi]. unfold parse_sdp_candidate. rewrite skip_candidate_prefix, Hi. cbn [mbind option_bind].
  destruct (candidate_items rest items Hb Hz Hi) as (v & Ev & Hv). rewrite Ev. cbn [mbind option_bind].
  destruct (negb (zlen items =? 7) && negb (zlen items =? 9)) eqn:Hres; [do 2 eexists; split; [done|]; split; [by right; left|done]|].
  destruct (candidate_type _) as [ty|] eqn:Hty; [|do 2 eexists; split; [done|]; split; [by right; right|done]].
  destruct (candidate_transport _ _) as [tr|]; [|do 2 eexists; split; [done|]; split; [by right; right|done]].
  do 2 eexists. split; [done|]. split; [by left|]. intros _. destruct Hv as [? W1 W2 W3 W4 W5]. assert (6 < length items)%nat as Hlen by (unfold zlen in Hres; lia).
  split; cbn; try done; [|apply W1; lia|apply W4; lia|apply W5; lia]. clear -Hty. unfold candidate_type in Hty. repeat case_match; simplify_eq; auto.
Qed.

Lemma ice_resolve_wf c mode : candidate_wf c -> exists ret c', ice_resolve_candidate getaddrinfo c mode = Some (ret, c') /\ candidate_wf c'.
Proof using Type.
  intros Hc. pose proof Hc as [H1 H2 H3 H4 H5 H6]. destruct H5 as (h & (_ & Eh & _) & _), H6 as (s & (_ & Es & _) & _).
  unfold ice_resolve_candidate. rewrite Eh, Es. cbn.
  destruct (getaddrinfo _ _ _) as [l|]; [destruct (list_find _ l) as [[i ai]|]|]; do 2 eexists; (split; [reflexivity|]); try done; by destruct Hc; split.
Qed.

Lemma ice_add_candidate_wf c d : candidate_wf c -> description_wf d ->
  exists ret c' d', ice_add_candidate c d = Some (ret, c', d') /\ description_wf d'.
Proof using Type.
  intros Hc Hd. pose proof Hc as [H1 H2 H3 (f & Hf & Hne) H5 H6]. unfold ice_add_candidate. destruct (bool_decide _); [by do 3 eexists|].
  destruct (Z.leb_spec ICE_MAX_CANDIDATES_COUNT (candidates_count d)) as [|Hcount]; [by do 3 eexists|]. pose proof Hf as (Lf & Ef & _). rewrite Ef. cbn [mbind option_bind].
  assert (Hadd : forall c', candidate_wf c' -> description_wf (d <| candidates := candidates d ++ [c'] |>)).
  { intros c' Hc'. destruct Hd as [D1 D2 D3 D4]. split; cbn; try done; [|apply Forall_app; split; [done|by apply Forall_singleton]].
    unfold candidates_count in *. cbn. rewrite zlen_app. change (zlen [c']) with 1. lia. }
  destruct (streq f (text "-")); cbn [mbind option_bind]; [|do 3 eexists; split; [done|]; by apply Hadd].
  destruct (print_u_text (candidates_count d + 1)) as (P1 & P2 & P3 & P4 & P5).
  unfold snprintf_to. cbn [Z.eqb]. rewrite take_ge by (unfold zlen in P4; lia).
  destruct (store_token 33 (foundation c) (print_u (candidates_count d + 1))) as (arr & E & Ht); [done|lia|done|done|done|].
  unfold store in E. rewrite E. cbn. do 3 eexists. split; [done|]. apply Hadd. split; cbn; eauto.
Qed.

Lemma scan_attribute_wf arg arr : Forall byte arg -> Forall (fun c => c <> 0) arg -> (exists s, token_in 257 arr s) ->
  exists arr', scan_attribute arg arr = Some arr' /\ exists s, token_in 257 arr' s.
Proof using Type.
  intros Hb Hz (s & Hs). unfold scan_attribute. rewrite (sscanf_scan _ [Conv_s 256]) by (by vm_compute).
  destruct (scan [Conv_s 256] arg) as [l|] eqn:E.
  2: { cbn [scan] in E. by repeat case_match. }
  apply scan_fits in E as (_ & Hf & Hx); [|repeat constructor; lia|done|done]. cbn [mbind option_bind].
  destruct l as [|[t|n] l]; [eauto| |eauto]. cbn in Hf. inversion Hf as [|? ? ? ? Hf1 _]; subst. inversion Hf1; subst. apply Forall_cons in Hx as [[? ?] _].
  destruct (store_token 257 arr t) as (arr' & ? & ?); [by destruct Hs|lia|done|done|done|]. eauto.
Qed.

Lemma match_prefix_spec s p : let '(m, e) := match_prefix s p in p <> [] -> if m then after_prefix s p = Some e else after_prefix s p = None.
Proof using Type.
  unfold match_prefix, skip_prefix. destruct (after_prefix s p) as [t|] eqn:E; cbn.
  - apply after_prefix_spec in E. intros Hp. destruct (Z.eqb_spec (zlen t) (zlen s)) as [El|]; cbn; [|done].
    subst s. rewrite zlen_app in El. destruct p as [|c p]; [done|]. rewrite zlen_cons in El. pose proof (zlen_nonneg p). lia.
  - intros Hp. rewrite Z.eqb_refl. cbn. by rewrite bool_decide_eq_false_2.
Qed.

(** One line keeps the description well formed, and is never an error. *)
Lemma parse_sdp_line_wf line d : readable line -> description_wf d ->
  exists ret d', parse_sdp_line getaddrinfo line d = Some (ret, d') /\ (ret = 0 \/ ret = ICE_PARSE_IGNORED) /\ description_wf d'.
Proof using Type.
  intros (Hb & Hz & Hn) Hd. assert (Hpart : forall p t, after_prefix line p = Some t -> Forall byte t /\ Forall (fun c => c <> 0) t).
  { intros p t ->%after_prefix_spec. by apply Forall_app in Hb as [_ ?], Hz as [_ ?]. }
  unfold parse_sdp_line, ice_parse_candidate_sdp.
  pose proof (match_prefix_spec line (text "a=ice-ufrag:")) as M1. destruct (match_prefix line (text "a=ice-ufrag:")) as [[] a1].
  { destruct (Hpart _ _ (M1 ltac:(done))). destruct (scan_attribute_wf a1 (ice_ufrag d)) as (arr & -> & ?); [done|done|by destruct Hd|]. cbn.
    do 2 eexists. split; [done|]. split; [by left|]. destruct Hd. split; cbn; eauto. }
  pose proof (match_prefix_spec line (text "a=ice-pwd:")) as M2. destruct (match_prefix line (text "a=ice-pwd:")) as [[] a2].
  { destruct (Hpart _ _ (M2 ltac:(done))). destruct (scan_attribute_wf a2 (ice_pwd d)) as (arr & -> & ?); [done|done|by destruct Hd|]. cbn.
    do 2 eexists. split; [done|]. split; [by left|]. destruct Hd. split; cbn; eauto. }
  destruct (match_prefix line (text "a=ice-lite")) as [[] ?]; [do 2 eexists; split; [done|]; split; [by left|]; by destruct Hd; split|].
  destruct (match_prefix line (text "a=end-of-candidates")) as [[] ?]; [do 2 eexists; split; [done|]; split; [by left|]; by destruct Hd; split|].
  pose proof (match_prefix_spec line (text "a=candidate:")) as M3. destruct (match_prefix line (text "a=candidate:")) as [[] rest]; cbn [mbind option_bind].
  2: { do 2 eexists. split; [done|]. split; [by right|done]. }
  specialize (M3 ltac:(done)). destruct (Hpart _ _ M3) as [Hb' Hz']. pose proof (Hn _ M3) as Hs. apply after_prefix_spec in M3 as ->.
  destruct (parse_sdp_candidate_wf rest Hb' Hz' Hs) as (ret & c & -> & Hret & Hc). cbn [mbind option_bind]. destruct Hret as [->|Hret].
  - cbn [Z.ltb Z.compare]. destruct (ice_resolve_wf c ICE_RESOLVE_MODE_SIMPLE (Hc eq_refl)) as (r & c' & -> & Hc'). cbn [mbind option_bind Z.eqb].
    destruct (ice_add_candidate_wf c' d Hc' Hd) as (r2 & c2 & d2 & -> & Hd2). cbn. do 2 eexists. split; [done|]. split; [by left|done].
  - destruct Hret as [-> | ->]; cbn; do 2 eexists; (split; [done|]); (split; [by right|done]).
Qed.

(** ** The whole text *)

(** A line never ends the loop. *)
Lemma parse_sdp_line_code line d ret d' : parse_sdp_line getaddrinfo line d = Some (ret, d') -> ret <> ICE_PARSE_ERROR.
Proof using Type.
  unfold parse_sdp_line. repeat destruct (match_prefix _ _) as [[] ?];
    try (intros H; first [apply bind_Some in H as (? & _ & H)|idtac]; by simplify_eq).
  all: intros ([r c] & _ & H)%bind_Some; destruct (r =? 0); [apply bind_Some in H as ([[? ?] ?] & _ & H)|]; by simplify_eq.
Qed.

Lemma sdp_lines_readable sdp : forall cur, Forall byte (cur ++ sdp) -> Forall (fun c => c <> 0) (cur ++ sdp) ->
  Forall (fun line => Forall byte line /\ Forall (fun c => c <> 0) line) (sdp_lines cur sdp).
Proof using Type.
  induction sdp as [|c sdp IH]; intros cur Hb Hz; cbn [sdp_lines]; [constructor|].
  apply Forall_app in Hb as [Hb1 [Hb2 Hb3]%Forall_cons], Hz as [Hz1 [Hz2 Hz3]%Forall_cons].
  assert (H0 : Forall (fun line => Forall byte line /\ Forall (fun c => c <> 0) line) (sdp_lines [] sdp)) by (by apply IH).
  assert (H1 : Forall (fun line => Forall byte line /\ Forall (fun c => c <> 0) line) (sdp_lines cur sdp)) by (apply IH; by apply Forall_app).
  destruct (c =? 10); [destruct cur; [done|by constructor]|]. destruct (negb _ && _); [|done].
  apply IH; rewrite <- app_assoc; apply Forall_app; split; try done; by constructor.
Qed.

(** The loop over the characters reads the lines of the text, whatever is in its buffer. *)
Lemma parse_loop_lines sdp : forall cur junk d, length (cur ++ junk) = 1024%nat -> zlen cur < BUFFER_SIZE ->
  Forall (fun c => c <> 0) (cur ++ sdp) ->
  parse_loop getaddrinfo sdp (cur ++ junk) (zlen cur) d = inr <$> read_lines (sdp_lines cur sdp) d.
Proof using Type.
  induction sdp as [|c sdp IH]; intros cur junk d Hlen Hcur Hz; cbn [parse_loop sdp_lines]; [done|].
  pose proof Hz as [Hz1 [Hc Hz2]%Forall_cons]%Forall_app. unfold BUFFER_SIZE in *.
  destruct junk as [|x junk]; [unfold zlen in Hcur; rewrite app_nil_r in Hlen; lia|].
  destruct (Z.eqb_spec c 10) as [->|Hn].
  - destruct cur as [|a cur]; [change (zlen (A:=Z) [] =? 0) with true; cbn [negb]; apply IH; [done|by vm_compute|done]|].
    assert (Hne : (zlen (a :: cur) =? 0) = false) by (apply Z.eqb_neq; rewrite zlen_cons; pose proof (zlen_nonneg cur); lia).
    rewrite Hne. cbn [negb]. rewrite wr_app. cbn [mbind option_bind].
    rewrite string_at_app by done. cbn [mbind option_bind read_lines]. unfold lines_step.
    destruct (parse_sdp_line getaddrinfo (a :: cur) d) as [[ret d']|] eqn:E; [|done]. cbn.
    apply parse_sdp_line_code, Z.eqb_neq in E. rewrite E.
    apply (IH [] (a :: cur ++ 0 :: junk)); [rewrite <- Hlen; cbn; rewrite !length_app; done|rewrite zlen_nil; lia|done].
  - destruct (negb (c =? 13) && (zlen cur + 1 <? 1024)) eqn:Hput.
    + rewrite wr_app. cbn [mbind option_bind]. replace (zlen cur + 1) with (zlen (cur ++ [c])) by (rewrite zlen_app; done).
      change (c :: junk) with ([c] ++ junk). rewrite app_assoc. apply IH.
      * rewrite <- Hlen, <- app_assoc, !length_app. done.
      * rewrite zlen_app. change (zlen [c]) with 1. lia.
      * rewrite <- app_assoc. done.
    + apply IH; [done|done|by apply Forall_app].
Qed.

Lemma read_lines_wf lines : forall d, Forall readable lines -> description_wf d ->
  exists d', read_lines lines d = Some d' /\ description_wf d'.
Proof using Type.
  induction lines as [|line lines IH]; intros d Hl Hd; [by exists d|]. apply Forall_cons in Hl as [Hl Hls]. cbn [read_lines]. unfold lines_step.
  destruct (parse_sdp_line_wf line d Hl Hd) as (ret & d' & -> & _ & Hd'). cbn. by apply IH.
Qed.

Lemma sort_wf d cs : description_wf d -> cs ≡ₚ candidates d -> description_wf (d <| candidates := cs |>).
Proof using Type.
  intros [D1 D2 D3 D4] Hp. split; cbn; try done; [|by rewrite Hp]. unfold candidates_count, zlen in *. cbn. by rewrite Hp.
Qed.

(** C14. Whatever text a peer sends, ice_parse_sdp stays inside its buffer and its arrays and gives a well-formed
    description, provided the numbers in the candidate lines fit their types (otherwise sscanf is undefined).  The
    description is what the lines of the text say, one after the other, with the candidates sorted: the fragment and
    the password are tokens within their arrays, at most thirty candidates are kept, each one a host, server-reflexive
    or relayed candidate with 32-bit numbers and with tokens for its names.  The code says whether the
    fragment or the password is missing; a malformed line is never an error. *)
Theorem ice_parse_sdp_well_formed (sdp buffer : list Z) :
  Forall byte sdp -> Forall (fun c => c <> 0) sdp -> length buffer = 1024%nat -> Forall numbers_ok (sdp_lines [] sdp) ->
  exists ret d d0 ufrag pwd, ice_parse_sdp getaddrinfo sdp buffer = Some (ret, d) /\ description_wf d /\
    read_lines (sdp_lines [] sdp) zero_description = Some d0 /\ d = d0 <| candidates := candidates d |> /\
    candidates d ≡ₚ candidates d0 /\ StronglySorted ge_priority (candidates d) /\
    string_at (ice_ufrag d) = Some ufrag /\ string_at (ice_pwd d) = Some pwd /\
    ret = if decide (ufrag = []) then ICE_PARSE_MISSING_UFRAG else if decide (pwd = []) then ICE_PARSE_MISSING_PWD else 0.
Proof using Type.
  intros Hb Hz Hl Hn. unfold ice_parse_sdp. change 0 with (zlen (A:=Z) []) at 1. change buffer with ([] ++ buffer) at 1.
  rewrite parse_loop_lines by done. pose proof (sdp_lines_readable sdp [] Hb Hz) as Hr.
  destruct (read_lines_wf (sdp_lines [] sdp) zero_description) as (d0 & E & Hd0); [|apply zero_description_wf|].
  { apply Forall_forall. intros line Hline. eapply Forall_forall in Hr as [? ?]; [|done]. split_and!; [done|done|]. by eapply Forall_forall in Hn. }
  rewrite E. cbn [fmap option_fmap option_map mbind option_bind].
  destruct (ice_sort_candidates_spec d0) as (cs & -> & Hs & Hp & _). cbn [mbind option_bind].
  assert (Hd : description_wf (d0 <| candidates := cs |>)) by (by apply sort_wf).
  pose proof (wf_ufrag _ Hd) as (u & _ & Eu & _). pose proof (wf_pwd _ Hd) as (p & _ & Ep & _). rewrite Eu, Ep. cbn [mbind option_bind].
  eexists _, _, d0, u, p. split; [done|]. split_and!; try done. by repeat destruct (decide _), (bool_decide_reflect (u = [])), (bool_decide_reflect (p = [])).
Qed.
End parsing.
