(* ===== verification/IceRoundtrip.v ===== *)
(** * A description that is written is read back (libjuice [src/ice.c])

    The text that [ice_generate_sdp] writes, and what [ice_parse_sdp] reads from it. *)

From S2P Require Import Prelude Bytes Stdio Addr Ice IceProps IceSdp.
From Stdlib Require Import Sorting.Sorted.
Open Scope Z_scope.

Definition crlf : list Z := [13; 10].

(** ** The text of a description *)

(** The candidates that are written. *)
Definition printable (c : ice_candidate_t) : bool :=
  match type c with ICE_CANDIDATE_TYPE_UNKNOWN | ICE_CANDIDATE_TYPE_PEER_REFLEXIVE => false | _ => true end &&
  match transport c with ICE_CANDIDATE_TRANSPORT_UDP | ICE_CANDIDATE_TRANSPORT_TCP_TYPE_ACTIVE => true | _ => false end.

Definition type_text (ty : ice_candidate_type_t) : list Z := match generate_type ty with Some (t, _) => t | None => [] end.
Definition type_suffix (ty : ice_candidate_type_t) : option (list Z) := match generate_type ty with Some (_, s) => s | None => None end.
Definition transport_text (tr : ice_candidate_transport_t) : list Z := match generate_transport tr None with Some (t, _) => t | None => [] end.
Definition line_suffix (c : ice_candidate_t) : option (list Z) :=
  match transport c with ICE_CANDIDATE_TRANSPORT_TCP_TYPE_ACTIVE => Some (text "tcptype active") | _ => type_suffix (type c) end.

Definition line_of (c : ice_candidate_t) : list Z :=
  candidate_line (cstr (foundation c)) (component c) (transport_text (transport c)) (priority c) (cstr (hostname c)) (cstr (service c))
    (type_text (type c)) (line_suffix c).

Definition header_text (d : ice_description_t) : list Z :=
  (text "a=ice-ufrag:" ++ cstr (ice_ufrag d)) ++ crlf ++ (text "a=ice-pwd:" ++ cstr (ice_pwd d)) ++ crlf.
Definition options_text (d : ice_description_t) : list Z :=
  if finished d then text "a=end-of-candidates" ++ crlf ++ text "a=ice-options:ice2" ++ crlf else text "a=ice-options:ice2,trickle" ++ crlf.
Definition candidate_text (c : ice_candidate_t) : list Z := if printable c then line_of c ++ crlf else [].

Definition sdp_text (d : ice_description_t) : list Z := header_text d ++ concat (map candidate_text (candidates d)) ++ options_text d.

(** ** Descriptions that can be sent *)

Record candidate_sendable (c : ice_candidate_t) : Prop := {
  se_priority : 0 <= priority c < 2 ^ 32;
  se_component : 0 <= component c < 2 ^ 31;
  se_foundation : exists s, token_in 33 (foundation c) s /\ s <> [];
  se_hostname : exists s, token_in 257 (hostname c) s /\ s <> [];
  se_service : exists s, token_in 33 (service c) s /\ s <> [];
  se_numbered : cstr (foundation c) <> text "-" }.

Record description_sendable (d : ice_description_t) : Prop := {
  se_ufrag : exists s, token_in 257 (ice_ufrag d) s /\ s <> [];
  se_pwd : exists s, token_in 257 (ice_pwd d) s /\ s <> [];
  se_count : candidates_count d <= ICE_MAX_CANDIDATES_COUNT;
  se_candidates : Forall (fun c => printable c = true -> candidate_sendable c) (candidates d) }.

(** ** Writing *)

Lemma snprintf_fits buffer s size : 0 < size -> zlen s < size -> size <= zlen buffer ->
  exists junk, snprintf_to buffer 0 size s = Some (zlen s, s ++ 0 :: junk) /\ length (s ++ 0 :: junk) = length buffer.
Proof.
  intros H0 Hs Hb. unfold snprintf_to. destruct (Z.eqb_spec size 0); [lia|]. rewrite take_ge by (unfold zlen in Hs; lia).
  fold (store buffer s). rewrite store_Some by lia. eexists. split; [done|]. unfold zlen in *. rewrite length_app. cbn. rewrite length_drop. lia.
Qed.

(** Appending to a text of which the buffer holds what fits. *)
Definition written (size : Z) (T buffer : list Z) (begin len : Z) : Prop :=
  exists tail, buffer = take (Z.to_nat (size - 1)) T ++ tail /\ begin = Z.min (zlen T) (size - 1) /\ len = zlen T /\
    size <= zlen buffer /\ (T <> [] -> exists junk, tail = 0 :: junk).

Lemma written_start size buffer : 0 < size <= zlen buffer -> written size [] buffer 0 0.
Proof. intros H. unfold written. exists buffer. change (zlen (A:=Z) []) with 0. split_and!; [by destruct (Z.to_nat _)|lia|done|lia|done]. Qed.

Lemma written_append size T buffer begin len s : 0 < size -> s <> [] -> zlen (T ++ s) < 2147483648 -> written size T buffer begin len ->
  exists r, snprintf_to buffer begin (size - begin) s = Some r /\
    exists buffer' begin' len', round_result size len begin r = inr (buffer', begin', len') /\ written size (T ++ s) buffer' begin' len' /\ length buffer' = length buffer.
Proof.
  intros H0 Hne Hi (tail & -> & -> & -> & Hb & Ht). set (pre := take (Z.to_nat (size - 1)) T) in *. pose proof (zlen_nonneg T). pose proof (zlen_nonneg s).
  assert (Hpre : zlen pre = Z.min (zlen T) (size - 1)) by (unfold pre, zlen in *; rewrite length_take; lia).
  unfold snprintf_to. destruct (Z.eqb_spec (size - Z.min (zlen T) (size - 1)) 0); [lia|]. set (out := take _ s).
  assert (Hout : zlen out <= size - zlen pre - 1) by (unfold out, zlen in *; rewrite length_take; lia).
  rewrite <- Hpre. rewrite zlen_app in Hb.
  assert (Hroom : zlen out + 1 <= zlen tail) by lia.
  assert (E : wr_bytes (pre ++ tail) (zlen pre) (out ++ [0]) = Some (pre ++ (out ++ [0]) ++ drop (S (length out)) tail)).
  { rewrite wr_bytes_at by (rewrite zlen_app; change (zlen [0]) with 1; lia). rewrite <- app_assoc. do 3 f_equal. unfold zlen. rewrite length_app. cbn. f_equal. lia. }
  rewrite E. cbn [mbind option_bind]. eexists. split; [done|].
  assert (Hlen : length (pre ++ (out ++ [0]) ++ drop (S (length out)) tail) = length (pre ++ tail)).
  { rewrite !length_app, length_drop. cbn. unfold zlen in Hroom. lia. }
  assert (Ecat : pre ++ out = take (Z.to_nat (size - 1)) (T ++ s)).
  { unfold pre, out. rewrite take_app. f_equal. f_equal. unfold zlen in *. lia. }
  do 3 eexists. split; [|split; [|exact Hlen]].
  - unfold round_result. destruct (Z.ltb_spec (zlen s) 0); [lia|]. destruct (Z.ltb_spec (zlen pre) size); [done|lia].
  - exists (0 :: drop (S (length out)) tail). split_and!.
    + rewrite <- Ecat, <- !app_assoc. done.
    + rewrite zlen_app. destruct (Z.leb_spec (size - zlen pre) (zlen s)); lia.
    + rewrite <- zlen_app. rewrite zlen_app in *. rewrite i32_small by lia. done.
    + unfold zlen in *. rewrite Hlen, length_app. lia.
    + eauto.
Qed.

(** *** Lengths *)

Ltac open_token H := let s := fresh "s" in let Ht := fresh in let Hne := fresh in
  destruct H as (s & Ht & Hne); destruct (token_in_facts _ _ _ Ht) as (-> & ? & ?); destruct Ht as (? & ? & ? & ?).

Lemma token_cstr n arr s : token_in n arr s -> string_at arr = Some (cstr arr).
Proof. intros Ht. destruct (token_in_facts _ _ _ Ht) as (-> & _). by destruct Ht as (_ & ? & _). Qed.

Lemma suffix_length c s : line_suffix c = Some s -> zlen s <= 22.
Proof. unfold line_suffix. destruct (transport c), (type c); cbn; by intros [= <-]. Qed.

Lemma line_of_length c : candidate_sendable c -> zlen (line_of c) < 500.
Proof.
  intros [_ _ H3 H4 H5 _]. open_token H3. open_token H4. open_token H5. unfold line_of, candidate_line.
  destruct (print_u_text (component c)) as (_ & _ & _ & ? & _). destruct (print_u_text (priority c)) as (_ & _ & _ & ? & _).
  assert (zlen (type_text (type c)) <= 5) by (by destruct (type c)). assert (zlen (transport_text (transport c)) <= 3) by (by destruct (transport c)).
  assert (zlen (match line_suffix c with Some s => text " " ++ s | None => [] end) <= 23).
  { destruct (line_suffix c) as [s|] eqn:E; [|done]. apply suffix_length in E. rewrite zlen_app. change (zlen (text " ")) with 1. lia. }
  rewrite !zlen_app. change (zlen (text "a=candidate:")) with 12. change (zlen (text " ")) with 1. change (zlen (text " typ ")) with 5. lia.
Qed.

Lemma candidates_length l : Forall (fun c => printable c = true -> candidate_sendable c) l -> zlen (concat (map candidate_text l)) <= 502 * zlen l.
Proof.
  induction 1 as [|c l Hc _ IH]; [done|]. cbn [map concat]. rewrite zlen_app, zlen_cons. unfold candidate_text at 1.
  destruct (printable c); [|change (zlen (A:=Z) []) with 0; lia]. rewrite zlen_app. change (zlen crlf) with 2. pose proof (line_of_length c (Hc eq_refl)). lia.
Qed.

Lemma sdp_header_length d : description_sendable d -> zlen (header_text d) <= 538.
Proof.
  intros [H1 H2 _ _]. open_token H1. open_token H2. unfold header_text. rewrite !zlen_app.
  change (zlen (text "a=ice-ufrag:")) with 12. change (zlen (text "a=ice-pwd:")) with 10. change (zlen crlf) with 2. lia.
Qed.

Lemma options_length d : zlen (options_text d) <= 41 /\ options_text d <> [].
Proof. unfold options_text. by destruct (finished d). Qed.

Lemma line_of_nonzero c : candidate_sendable c -> Forall (fun c => c <> 0) (line_of c).
Proof.
  intros [_ _ H3 H4 H5 _]. open_token H3. open_token H4. open_token H5. unfold line_of, candidate_line.
  destruct (print_u_text (component c)) as (_ & ? & _). destruct (print_u_text (priority c)) as (_ & ? & _).
  assert (Forall (fun c => c <> 0) (type_text (type c))) by (destruct (type c); repeat constructor; done).
  assert (Forall (fun c => c <> 0) (transport_text (transport c))) by (destruct (transport c); repeat constructor; done).
  assert (Forall (fun c => c <> 0) (match line_suffix c with Some s => text " " ++ s | None => [] end)).
  { unfold line_suffix. destruct (transport c), (type c); repeat constructor; done. }
  repeat (apply Forall_app; split); try done; repeat constructor; done.
Qed.

(** *** The loop *)

Lemma generate_candidate_line c tmp : candidate_sendable c -> printable c = true -> length tmp = 1024%nat ->
  exists junk, ice_generate_candidate_sdp c tmp BUFFER_SIZE = Some (zlen (line_of c), line_of c ++ 0 :: junk) /\ length (line_of c ++ 0 :: junk) = 1024%nat.
Proof.
  intros Hc Hp Hl. pose proof (line_of_length c Hc) as Hlen. destruct (snprintf_fits tmp (line_of c) BUFFER_SIZE) as (junk & E & El); [done|unfold BUFFER_SIZE; lia|unfold zlen; rewrite Hl; done|].
  exists junk. split; [|by rewrite El]. rewrite <- E. destruct Hc as [_ _ (f & Hf & _) (h & Hh & _) (s & Hs & _) _]. unfold ice_generate_candidate_sdp.
  rewrite (token_cstr _ _ _ Hf), (token_cstr _ _ _ Hh), (token_cstr _ _ _ Hs). unfold line_of, line_suffix, printable in *.
  destruct (type c); try done; destruct (transport c); done.
Qed.

(** What the rounds up to [i] have written. *)
Definition text_upto (d : ice_description_t) (i : Z) : list Z :=
  if i =? 0 then [] else header_text d ++ concat (map candidate_text (take (Z.to_nat (i - 1)) (candidates d))) ++ (if i =? candidates_count d + 2 then options_text d else []).

Definition part (d : ice_description_t) (i : Z) : list Z :=
  if i =? 0 then header_text d else match rd (candidates d) (i - 1) with Some c => candidate_text c | None => options_text d end.

Lemma text_upto_step d i : 0 <= i < candidates_count d + 2 -> text_upto d (i + 1) = text_upto d i ++ part d i.
Proof.
  intros Hi. unfold text_upto, part, candidates_count in *. pose proof (zlen_nonneg (candidates d)). destruct (Z.eqb_spec (i + 1) 0); [lia|].
  destruct (Z.eqb_spec i 0) as [->|]. { destruct (Z.eqb_spec (0 + 1) (zlen (candidates d) + 2)); [lia|]. cbn. by rewrite app_nil_r. }
  destruct (Z.eqb_spec i (zlen (candidates d) + 2)); [lia|]. rewrite app_nil_r. replace (Z.to_nat (i + 1 - 1)) with (S (Z.to_nat (i - 1))) by lia.
  rewrite rd_nonneg by lia. destruct (candidates d !! Z.to_nat (i - 1)) as [c|] eqn:E.
  - pose proof (lookup_lt_Some _ _ _ E). destruct (Z.eqb_spec (i + 1) (zlen (candidates d) + 2)); [unfold zlen in *; lia|].
    rewrite (take_S_r _ _ _ E), map_app, concat_app. cbn. by rewrite ?app_nil_r, ?app_assoc.
  - apply lookup_ge_None in E. destruct (Z.eqb_spec (i + 1) (zlen (candidates d) + 2)); [|unfold zlen in *; lia]. rewrite !take_ge by (unfold zlen in *; lia). by rewrite app_assoc.
Qed.

Lemma text_upto_end d : text_upto d (candidates_count d + 2) = sdp_text d.
Proof.
  unfold text_upto, sdp_text, candidates_count. pose proof (zlen_nonneg (candidates d)). destruct (Z.eqb_spec (zlen (candidates d) + 2) 0); [lia|].
  rewrite Z.eqb_refl, take_ge by (unfold zlen; lia). done.
Qed.

Lemma text_upto_length d i : description_sendable d -> 0 <= i -> zlen (text_upto d i) < 20000.
Proof.
  intros Hd Hi. unfold text_upto. destruct (i =? 0); [done|]. rewrite !zlen_app. pose proof (sdp_header_length d Hd). pose proof (options_length d) as [? _].
  destruct Hd as [_ _ Hc Hs]. pose proof (candidates_length (take (Z.to_nat (i - 1)) (candidates d)) ltac:(by apply Forall_take)) as Hl.
  assert (zlen (take (Z.to_nat (i - 1)) (candidates d)) <= 30) by (unfold candidates_count, ICE_MAX_CANDIDATES_COUNT, zlen in *; rewrite length_take; lia).
  destruct (i =? _); [lia|]. change (zlen (A:=Z) []) with 0. lia.
Qed.

Definition round_inv (d : ice_description_t) (size : Z) (n : nat) (i : Z) (st : Z + list Z * Z * Z) : Prop :=
  exists buffer begin len, st = inr (buffer, begin, len) /\ written size (text_upto d i) buffer begin len /\ length buffer = n.

Lemma sdp_round_step d tmp size n i st : description_sendable d -> ice_lite d = false -> length tmp = 1024%nat -> 0 < size ->
  0 <= i < candidates_count d + 2 -> round_inv d size n i st ->
  exists st', sdp_round d tmp size i st = Some st' /\ round_inv d size n (i + 1) st'.
Proof.
  intros Hd Hlite Htmp Hsize Hi (buffer & begin & len & -> & Hw & Hn).
  pose proof (text_upto_length d (i + 1) Hd ltac:(lia)) as Hlen. rewrite text_upto_step in Hlen by done.
  (* a round that prints [s] *)
  assert (Hprint : forall s, s <> [] -> part d i = s -> exists r, snprintf_to buffer begin (size - begin) s = Some r /\
    exists st', round_result size len begin r = st' /\ round_inv d size n (i + 1) st').
  { intros s Hne Es. rewrite Es in Hlen. destruct (written_append size (text_upto d i) buffer begin len s Hsize Hne ltac:(lia) Hw) as (r & Er & b' & g' & l' & Err & Hw' & Hl').
    exists r. split; [done|]. eexists. split; [exact Err|]. exists b', g', l'. rewrite text_upto_step, Es by done. by rewrite Hl'. }
  unfold sdp_round. destruct (Z.eqb_spec i 0) as [->|Hi0].
  { pose proof (se_ufrag d Hd) as (u & Hu & _). pose proof (se_pwd d Hd) as (p & Hp & _). rewrite (token_cstr _ _ _ Hu), (token_cstr _ _ _ Hp). cbn [mbind option_bind].
    assert (Eh : text "a=ice-ufrag:" ++ cstr (ice_ufrag d) ++ [13; 10] ++ text "a=ice-pwd:" ++ cstr (ice_pwd d) ++ [13; 10] = header_text d)
      by (unfold header_text; by rewrite <- !app_assoc).
    rewrite Eh. destruct (Hprint (header_text d)) as ([ret b] & -> & st' & Est & Hst); [done|done|]. cbn [mbind option_bind]. rewrite Hlite. eexists. split; [by rewrite Est|done]. }
  destruct (Z.ltb_spec i (candidates_count d + 1)) as [Hlt|Hge].
  - destruct (rd_is_Some (candidates d) (i - 1)) as [c Ec]; [unfold candidates_count in *; lia|]. rewrite Ec. cbn [mbind option_bind].
    assert (Epart : part d i = candidate_text c) by (unfold part; destruct (Z.eqb_spec i 0); [done|]; by rewrite Ec).
    assert (Hskip : printable c = false -> round_inv d size n (i + 1) (inr (buffer, begin, len))).
    { intros Hp. exists buffer, begin, len. rewrite text_upto_step, Epart by done. unfold candidate_text. rewrite Hp, app_nil_r. done. }
    destruct (printable c) eqn:Hp.
    + assert (candidate_sendable c) as Hc. { pose proof (se_candidates d Hd) as Hf. rewrite rd_nonneg in Ec by lia. by eapply Forall_lookup_1 in Hf; [apply Hf|]. }
      destruct (generate_candidate_line c tmp Hc Hp Htmp) as (junk & Eg & _). rewrite Eg. cbn [mbind option_bind].
      assert (Etype : bool_decide (type c = ICE_CANDIDATE_TYPE_UNKNOWN) || bool_decide (type c = ICE_CANDIDATE_TYPE_PEER_REFLEXIVE) = false)
        by (unfold printable in Hp; by destruct (type c)).
      rewrite Etype. destruct (Z.ltb_spec (zlen (line_of c)) 0) as [Hneg|_]; [pose proof (zlen_nonneg (line_of c)); lia|].
      rewrite string_at_app by (by apply line_of_nonzero). cbn [mbind option_bind].
      destruct (Hprint (line_of c ++ [13; 10])) as (r & -> & st' & Est & Hst); [by destruct (line_of c)|rewrite Epart; unfold candidate_text; by rewrite Hp|].
      cbn [mbind option_bind]. rewrite Est. by eexists.
    + destruct (_ || _) eqn:Etype; [eexists; by split; [|apply Hskip]|].
      assert (Eg : ice_generate_candidate_sdp c tmp BUFFER_SIZE = Some (-1, tmp)).
      { unfold ice_generate_candidate_sdp, printable in *. destruct (type c); try done; destruct (transport c); done. }
      rewrite Eg. cbn. eexists. split; [done|]. by apply Hskip.
  - assert (Epart : part d i = options_text d).
    { unfold part. destruct (Z.eqb_spec i 0); [done|]. destruct (rd (candidates d) (i - 1)) as [c|] eqn:E; [|done]. apply rd_Some_lt in E. unfold candidates_count in *. lia. }
    destruct (options_length d) as [_ Hne]. destruct (Hprint (options_text d) Hne Epart) as (r & Er & st' & Est & Hst).
    unfold options_text, crlf in Er. destruct (finished d); rewrite Er; cbn [mbind option_bind]; rewrite Est; by eexists.
Qed.

(** The buffer holds what fits of the text, and the length of the whole text is returned, as [snprintf] does. *)
Lemma ice_generate_sdp_spec d tmp buffer size : description_sendable d -> ice_lite d = false -> length tmp = 1024%nat -> 0 < size <= zlen buffer ->
  exists junk, ice_generate_sdp d tmp buffer size = Some (zlen (sdp_text d), take (Z.to_nat (size - 1)) (sdp_text d) ++ 0 :: junk) /\
    length (take (Z.to_nat (size - 1)) (sdp_text d) ++ 0 :: junk) = length buffer.
Proof.
  intros Hd Hlite Htmp Hsize. unfold ice_generate_sdp. pose proof (se_ufrag d Hd) as (u & Hu & Hu0). pose proof (se_pwd d Hd) as (p & Hp & Hp0).
  rewrite (token_cstr _ _ _ Hu), (token_cstr _ _ _ Hp). cbn [mbind option_bind].
  destruct (token_in_facts _ _ _ Hu) as (<- & _). destruct (token_in_facts _ _ _ Hp) as (<- & _). rewrite !bool_decide_eq_false_2 by done. cbn [orb].
  pose proof (zlen_nonneg (candidates d)) as Hn.
  destruct (for_up_rule (round_inv d size (length buffer)) 0 (candidates_count d + 2) (sdp_round d tmp size) (inr (buffer, 0, 0))) as (st & -> & b & g & l & -> & Hw & Hlb).
  - unfold candidates_count. lia.
  - exists buffer, 0, 0. split; [done|]. split; [by apply written_start|done].
  - intros i st Hi Hst. apply sdp_round_step; try done; lia.
  - cbn [mbind option_bind]. destruct Hw as (tail & -> & _ & -> & _ & Ht). rewrite text_upto_end in *.
    destruct Ht as [junk ->]; [intros E; by apply app_eq_nil in E as [E _]|]. by exists junk.
Qed.

Lemma sdp_text_nonzero d : description_sendable d -> Forall (fun c => c <> 0) (sdp_text d).
Proof.
  intros [H1 H2 _ Hc]. open_token H1. open_token H2. unfold sdp_text, header_text. repeat (apply Forall_app; split); try done; try (repeat constructor; done).
  - induction Hc as [|c l Hc _ IH]; cbn [map concat]; [constructor|]. apply Forall_app. split; [|done]. unfold candidate_text. destruct (printable c); [|constructor].
    apply Forall_app. split; [apply line_of_nonzero; auto|repeat constructor; done].
  - unfold options_text. destruct (finished d); repeat constructor; done.
Qed.

(** ** Reading *)

(** *** The lines of the text *)

Definition line_chars (l : list Z) : Prop := Forall (fun c => c <> 10 /\ c <> 13) l.

Lemma sdp_lines_chars l r : forall cur, line_chars l -> zlen (cur ++ l) < BUFFER_SIZE -> sdp_lines cur (l ++ r) = sdp_lines (cur ++ l) r.
Proof.
  induction l as [|c l IH]; intros cur Hl Hlen; [by rewrite app_nil_r|]. apply Forall_cons in Hl as [[H1 H2] Hl]. cbn [app sdp_lines].
  destruct (Z.eqb_spec c 10); [done|]. destruct (Z.eqb_spec c 13); [done|]. rewrite zlen_app, zlen_cons in Hlen. pose proof (zlen_nonneg l).
  destruct (Z.ltb_spec (zlen cur + 1) BUFFER_SIZE); [|lia]. cbn [negb andb]. rewrite IH; [by rewrite <- app_assoc|done|].
  rewrite <- app_assoc. cbn. rewrite zlen_app, zlen_cons. lia.
Qed.

Lemma sdp_lines_line l r : line_chars l -> l <> [] -> zlen l < BUFFER_SIZE -> sdp_lines [] (l ++ crlf ++ r) = l :: sdp_lines [] r.
Proof. intros H1 H2 H3. rewrite sdp_lines_chars by done. cbn. by destruct l. Qed.

Lemma token_line s : no_space s -> line_chars s.
Proof. intros H. eapply Forall_impl; [exact H|]. unfold isspace. cbn. lia. Qed.

Lemma line_of_chars c : candidate_sendable c -> line_chars (line_of c).
Proof.
  intros [_ _ H3 H4 H5 _]. open_token H3. open_token H4. open_token H5. unfold line_of, candidate_line.
  destruct (print_u_text (component c)) as (_ & _ & ? & _). destruct (print_u_text (priority c)) as (_ & _ & ? & _).
  assert (line_chars (type_text (type c))) by (destruct (type c); repeat constructor; done).
  assert (line_chars (transport_text (transport c))) by (destruct (transport c); repeat constructor; done).
  assert (line_chars (match line_suffix c with Some s => text " " ++ s | None => [] end)).
  { unfold line_suffix. destruct (transport c), (type c); repeat constructor; done. }
  repeat (apply Forall_app; split); try done; try (by apply token_line); repeat constructor; done.
Qed.

Definition options_lines (d : ice_description_t) : list (list Z) :=
  if finished d then [text "a=end-of-candidates"; text "a=ice-options:ice2"] else [text "a=ice-options:ice2,trickle"].

Definition lines_of (d : ice_description_t) : list (list Z) :=
  (text "a=ice-ufrag:" ++ cstr (ice_ufrag d)) :: (text "a=ice-pwd:" ++ cstr (ice_pwd d)) ::
  map line_of (List.filter printable (candidates d)) ++ options_lines d.

Lemma sdp_lines_text d : description_sendable d -> sdp_lines [] (sdp_text d) = lines_of d.
Proof.
  intros [H1 H2 _ Hc]. open_token H1. open_token H2. unfold sdp_text, header_text, lines_of. rewrite <- !app_assoc.
  assert (Hhead : forall (p s : list Z) r, line_chars p -> no_space s -> p <> [] -> zlen p < 13 -> zlen s < 257 -> sdp_lines [] (p ++ s ++ crlf ++ r) = (p ++ s) :: sdp_lines [] r).
  { intros p s' r Hp Hs Hne Hlp Hls. rewrite (app_assoc p). apply sdp_lines_line; [apply Forall_app; split; [done|by apply token_line]|by destruct p|rewrite zlen_app; unfold BUFFER_SIZE; lia]. }
  rewrite !Hhead; try done; try lia; try (repeat constructor; done). do 2 f_equal.
  induction Hc as [|c l Hc _ IH]; cbn [map concat List.filter].
  - unfold options_text, options_lines. by destruct (finished d).
  - unfold candidate_text at 1. destruct (printable c); [|done]. cbn [map app]. rewrite <- !app_assoc. rewrite sdp_lines_line.
    + by rewrite IH.
    + apply line_of_chars; auto.
    + by unfold line_of, candidate_line.
    + pose proof (line_of_length c (Hc eq_refl)). unfold BUFFER_SIZE. lia.
Qed.

(** *** One line *)

Section reading.
Context (getaddrinfo : list Z -> list Z -> hints_t -> option (list addrinfo_t)).

(** The candidate at the other end: its names in clean arrays, and resolved there. *)
Definition as_read (c : ice_candidate_t) : ice_candidate_t :=
  let c := Candidate (type c) (priority c) (component c) (padded 33 (cstr (foundation c))) (transport c)
             (padded 257 (cstr (hostname c))) (padded 33 (cstr (service c))) zero_record in
  match ice_resolve_candidate getaddrinfo c ICE_RESOLVE_MODE_SIMPLE with Some (_, c') => c' | None => c end.

Lemma match_prefix_app p s : p <> [] -> match_prefix (p ++ s) p = (true, s).
Proof using Type.
  intros Hp. pose proof (match_prefix_spec (p ++ s) p) as H. unfold match_prefix, skip_prefix in *. rewrite after_prefix_app in *. cbn [from_option id] in *.
  destruct (negb _ || _); [done|]. by specialize (H Hp).
Qed.

Lemma match_prefix_none p s : p <> [] -> after_prefix s p = None -> match_prefix s p = (false, s).
Proof using Type.
  intros Hp E. pose proof (match_prefix_spec s p) as H. unfold match_prefix, skip_prefix in *. rewrite E in *. cbn [from_option id] in *.
  destruct (negb _ || _); [|done]. by specialize (H Hp).
Qed.

Lemma scan_attribute_token s n : no_space s -> s <> [] -> zlen s < 257 -> n = 257%nat -> scan_attribute s (replicate n 0) = Some (padded 257 s).
Proof using Type.
  intros H1 H2 H3 ->. unfold scan_attribute. rewrite (sscanf_scan _ [Conv_s 256]) by (by vm_compute). rewrite scan_s_end by (done || lia). cbn [scan mbind option_bind].
  by apply store_padded.
Qed.

Lemma read_ufrag s d : no_space s -> s <> [] -> zlen s < 257 -> ice_ufrag d = replicate 257 0 ->
  lines_step getaddrinfo d (text "a=ice-ufrag:" ++ s) = Some (d <| ice_ufrag := padded 257 s |>).
Proof using Type.
  intros H1 H2 H3 E. unfold lines_step, parse_sdp_line. rewrite match_prefix_app by done. rewrite E, scan_attribute_token by done. done.
Qed.

Lemma read_pwd s d : no_space s -> s <> [] -> zlen s < 257 -> ice_pwd d = replicate 257 0 ->
  lines_step getaddrinfo d (text "a=ice-pwd:" ++ s) = Some (d <| ice_pwd := padded 257 s |>).
Proof using Type.
  intros H1 H2 H3 E. unfold lines_step, parse_sdp_line. rewrite match_prefix_none by done. rewrite match_prefix_app by done. rewrite E, scan_attribute_token by done. done.
Qed.

Lemma read_options d0 d : read_lines getaddrinfo (options_lines d0) d = Some (if finished d0 then d <| finished := true |> else d).
Proof using Type. unfold options_lines. by destruct (finished d0). Qed.

(** *** A candidate *)

Lemma scan_next ds s t : no_space s -> s <> [] -> scan (Space :: ds) (32 :: s ++ t) = scan ds (s ++ t).
Proof using Type. intros. rewrite scan_space by done. by apply scan_space_token. Qed.

Lemma scan_typ ds t : scan (Space :: Literal 116 :: Literal 121 :: Literal 112 :: ds) (32 :: 116 :: 121 :: 112 :: t) = scan ds t.
Proof using Type. done. Qed.

Definition extension (c : ice_candidate_t) : list item :=
  match transport c with
  | ICE_CANDIDATE_TRANSPORT_TCP_TYPE_ACTIVE => [Str (text "tcptype"); Str (text "active")]
  | _ => match type c with ICE_CANDIDATE_TYPE_HOST => [] | _ => [Str (text "raddr"); Str (text "0.0.0.0")] end
  end.

Lemma scan_tail c : printable c = true ->
  scan [Space; Conv_s 32; Space; Conv_s 7; Space; Conv_s 7] (32 :: type_text (type c) ++ match line_suffix c with Some s => text " " ++ s | None => [] end) =
  Some (Str (type_text (type c)) :: extension c).
Proof using Type. unfold line_suffix, printable, extension. destruct (type c); try done; destruct (transport c); done. Qed.

Definition line_rest (c : ice_candidate_t) : list Z :=
  cstr (foundation c) ++ 32 :: print_u (component c) ++ 32 :: transport_text (transport c) ++ 32 :: print_u (priority c) ++ 32 :: cstr (hostname c) ++
  32 :: cstr (service c) ++ 32 :: 116 :: 121 :: 112 :: 32 :: type_text (type c) ++ match line_suffix c with Some s => text " " ++ s | None => [] end.

Lemma line_of_rest c : line_of c = text "a=candidate:" ++ line_rest c.
Proof using Type. done. Qed.

Lemma scan_line c : candidate_sendable c -> printable c = true -> sscanf candidate_format (line_rest c) =
  Some (Str (cstr (foundation c)) :: Int (component c) :: Str (transport_text (transport c)) :: Int (priority c) :: Str (cstr (hostname c)) ::
        Str (cstr (service c)) :: Str (type_text (type c)) :: extension c).
Proof using Type.
  intros [H1 H2 H3 H4 H5 _] Hp. open_token H3. open_token H4. open_token H5. rewrite (sscanf_scan _ _ _ candidate_directives). unfold line_rest.
  destruct (print_u_text (component c)) as (_ & _ & ? & _ & ?). destruct (print_u_text (priority c)) as (_ & _ & ? & _ & ?).
  assert (no_space (transport_text (transport c)) /\ transport_text (transport c) <> [] /\ zlen (transport_text (transport c)) <= 32) as (? & ? & ?).
  { unfold printable in Hp. destruct (transport c), (type c); try done; split_and!; try done; repeat constructor. }
  rewrite scan_s by (done || lia). rewrite scan_next by done. rewrite scan_d by (done || lia). rewrite scan_next by done.
  rewrite scan_s by (done || lia). rewrite scan_next by done. rewrite scan_u by (done || lia). rewrite scan_next by done.
  rewrite scan_s by (done || lia). rewrite scan_next by done. rewrite scan_s by (done || lia). rewrite scan_typ.
  rewrite scan_tail by done. done.
Qed.

Lemma assign_items f n tr p h s ty ext a b : zlen f < 33 -> zlen h < 257 -> zlen s < 33 -> (ext = [] /\ a = [] /\ b = [] \/ ext = [Str a; Str b]) ->
  assign_all 0 (Str f :: Int n :: Str tr :: Int p :: Str h :: Str s :: Str ty :: ext) (Scanned zero_candidate [] [] [] []) =
  Some (Scanned (Candidate ICE_CANDIDATE_TYPE_UNKNOWN p n (padded 33 f) ICE_CANDIDATE_TRANSPORT_UDP (padded 257 h) (padded 33 s) zero_record) tr ty a b).
Proof using Type.
  intros Hf Hh Hs He. cbn [assign_all assign into foundation zero_candidate]. rewrite (store_padded 33) by done. cbn [mbind option_bind].
  cbn -[store padded replicate assign_all]. rewrite (store_padded 257) by done. cbn -[store padded replicate assign_all]. rewrite (store_padded 33) by done.
  cbn -[store padded replicate assign_all]. by destruct He as [(-> & -> & ->)| ->].
Qed.

Lemma padded_cstr n s : Forall (fun c => c <> 0) s -> zlen s < Z.of_nat n -> string_at (padded n s) = Some s.
Proof using Type.
  intros H1 H2. unfold padded. rewrite <- drop_replicate_S by done. by apply string_at_app.
Qed.

Lemma parse_line_candidate c : candidate_sendable c -> printable c = true ->
  parse_sdp_candidate (line_of c) = Some (0, Candidate (type c) (priority c) (component c) (padded 33 (cstr (foundation c))) (transport c)
    (padded 257 (cstr (hostname c))) (padded 33 (cstr (service c))) zero_record).
Proof using Type.
  intros Hc Hp. rewrite line_of_rest. unfold parse_sdp_candidate. rewrite skip_candidate_prefix, scan_line by done. cbn [mbind option_bind].
  destruct Hc as [_ _ H3 H4 H5 _]. open_token H3. open_token H4. open_token H5.
  set (a := match transport c with ICE_CANDIDATE_TRANSPORT_TCP_TYPE_ACTIVE => text "tcptype" | _ => match type c with ICE_CANDIDATE_TYPE_HOST => [] | _ => text "raddr" end end).
  set (b := match transport c with ICE_CANDIDATE_TRANSPORT_TCP_TYPE_ACTIVE => text "active" | _ => match type c with ICE_CANDIDATE_TYPE_HOST => [] | _ => text "0.0.0.0" end end).
  rewrite (assign_items _ _ _ _ _ _ _ _ a b) by (first [done|unfold extension, a, b, printable in *; destruct (type c); try done; destruct (transport c); auto]).
  cbn [mbind option_bind]. unfold printable, extension, b in *. destruct (type c); try done; by destruct (transport c).
Qed.

Lemma read_candidate c d : candidate_sendable c -> printable c = true -> candidates_count d < ICE_MAX_CANDIDATES_COUNT ->
  lines_step getaddrinfo d (line_of c) = Some (d <| candidates := candidates d ++ [as_read c] |>).
Proof using Type.
  intros Hc Hp Hn. unfold lines_step, parse_sdp_line, ice_parse_candidate_sdp. rewrite line_of_rest. rewrite !match_prefix_none by done. rewrite match_prefix_app by done.
  rewrite <- line_of_rest, parse_line_candidate by done. cbn [mbind option_bind Z.ltb Z.compare].
  destruct Hc as [_ _ H3 H4 H5 H6]. open_token H3. open_token H4. open_token H5. unfold as_read.
  set (c0 := Candidate _ _ _ _ _ _ _ _).
  assert (Hres : exists r c', ice_resolve_candidate getaddrinfo c0 ICE_RESOLVE_MODE_SIMPLE = Some (r, c') /\ foundation c' = padded 33 (cstr (foundation c)) /\ type c' = type c).
  { unfold ice_resolve_candidate. change (hostname c0) with (padded 257 (cstr (hostname c))). change (service c0) with (padded 33 (cstr (service c))).
    rewrite !padded_cstr by (done || lia). cbn [mbind option_bind].
    destruct (getaddrinfo _ _ _) as [l|]; [destruct (list_find _ l) as [[i ai]|]|]; by do 2 eexists. }
  destruct Hres as (r & c' & -> & Ef & Et). cbn [mbind option_bind Z.eqb]. unfold ice_add_candidate. rewrite Et, Ef, padded_cstr by (done || lia).
  assert (Hty : bool_decide (type c = ICE_CANDIDATE_TYPE_UNKNOWN) = false) by (unfold printable in Hp; by destruct (type c)). rewrite Hty.
  destruct (Z.leb_spec ICE_MAX_CANDIDATES_COUNT (candidates_count d)); [lia|]. cbn [mbind option_bind].
  unfold streq. rewrite bool_decide_eq_false_2 by done. done.
Qed.

Lemma read_candidates l : forall d, Forall (fun c => printable c = true -> candidate_sendable c) l -> candidates_count d + zlen l <= ICE_MAX_CANDIDATES_COUNT ->
  forall rest, read_lines getaddrinfo (map line_of (List.filter printable l) ++ rest) d =
    read_lines getaddrinfo rest (d <| candidates := candidates d ++ map as_read (List.filter printable l) |>).
Proof using Type.
  induction l as [|c l IH]; intros d Hl Hn rest; cbn [List.filter map app].
  - destruct d. cbn. by rewrite app_nil_r.
  - apply Forall_cons in Hl as [Hc Hl]. rewrite zlen_cons in Hn. pose proof (zlen_nonneg l). destruct (printable c) eqn:Hp; [|apply IH; [done|lia]].
    cbn [map app read_lines]. rewrite read_candidate by (auto; lia). cbn [mbind option_bind].
    rewrite IH; [|done|unfold candidates_count in *; cbn; rewrite zlen_app; change (zlen [as_read c]) with 1; lia].
    f_equal. destruct d. cbn. by rewrite <- app_assoc.
Qed.

(** The description at the other end, before its candidates are sorted. *)
Definition described (d : ice_description_t) : ice_description_t :=
  Description (padded 257 (cstr (ice_ufrag d))) (padded 257 (cstr (ice_pwd d))) false (map as_read (List.filter printable (candidates d))) (finished d).

Lemma read_lines_of d : description_sendable d -> read_lines getaddrinfo (lines_of d) zero_description = Some (described d).
Proof using Type.
  intros [H1 H2 H3 H4]. open_token H1. open_token H2. unfold lines_of. cbn [read_lines]. rewrite read_ufrag by (done || lia). cbn [mbind option_bind].
  rewrite read_pwd by (done || lia). cbn [mbind option_bind]. rewrite read_candidates by done. rewrite read_options. unfold described. by destruct (finished d).
Qed.

Lemma as_read_priority c : priority (as_read c) = priority c.
Proof using Type.
  unfold as_read, ice_resolve_candidate. set (c0 := Candidate _ _ _ _ _ _ _ _). destruct (string_at (hostname c0)); [|done]. cbn [mbind option_bind].
  destruct (string_at (service c0)); [|done]. cbn [mbind option_bind]. destruct (getaddrinfo _ _ _) as [l'|]; [by destruct (list_find _ l') as [[? ?]|]|done].
Qed.

Lemma filter_as_read p l : with_priority p (map as_read l) = map as_read (with_priority p l).
Proof using Type.
  induction l as [|c l IH]; [done|]. cbn [map List.filter]. rewrite as_read_priority, IH. by destruct (priority c =? p).
Qed.

(** C13. A description that is written is read back.  For an agent's description (tokens for the fragment and the
    password, at most thirty candidates with tokens for their names, 32-bit priorities and natural
    components) and a buffer with room for the text, ice_generate_sdp writes a string, and ice_parse_sdp of that string
    succeeds at the peer: same fragment and password, same end-of-candidates mark, and exactly the candidates that can be written
    (host, server-reflexive and relayed ones over UDP or active TCP), each with its type, transport, priority, component and
    names and with the address the peer's resolver gives for them, in a stable order of descending priority.  In a smaller buffer the text is cut
    and the length it needs is returned. *)
Theorem ice_sdp_roundtrip (d : ice_description_t) (tmp buffer junk : list Z) (size : Z) :
  description_sendable d -> ice_lite d = false -> length tmp = 1024%nat -> length junk = 1024%nat -> 0 < size <= zlen buffer ->
  exists buffer', ice_generate_sdp d tmp buffer size = Some (zlen (sdp_text d), buffer') /\ length buffer' = length buffer /\
    string_at buffer' = Some (take (Z.to_nat (size - 1)) (sdp_text d)) /\
    (zlen (sdp_text d) < size -> exists d', ice_parse_sdp getaddrinfo (cstr buffer') junk = Some (0, d') /\
       d' = (described d) <| candidates := candidates d' |> /\
       StronglySorted ge_priority (candidates d') /\
       forall p, with_priority p (candidates d') = map as_read (with_priority p (List.filter printable (candidates d)))).
Proof using Type.
  intros Hd Hlite Htmp Hjunk Hsize. destruct (ice_generate_sdp_spec d tmp buffer size Hd Hlite Htmp Hsize) as (j & E & El).
  eexists. split; [exact E|]. split; [exact El|]. pose proof (sdp_text_nonzero d Hd) as Hz.
  assert (Hz' : Forall (fun c => c <> 0) (take (Z.to_nat (size - 1)) (sdp_text d))) by (by apply Forall_take).
  split; [by apply string_at_app|]. intros Hfit. destruct (cstr_c_str _ j Hz') as [-> _]. rewrite take_ge by (unfold zlen in Hfit; lia).
  unfold ice_parse_sdp. change 0 with (zlen (A:=Z) []) at 1. change junk with ([] ++ junk) at 1. rewrite parse_loop_lines by done.
  rewrite sdp_lines_text, read_lines_of by done. cbn [fmap option_fmap option_map mbind option_bind].
  destruct (ice_sort_candidates_spec (described d)) as (cs & -> & Hs & _ & Hst). cbn [mbind option_bind].
  destruct Hd as [H1 H2 _ _]. open_token H1. open_token H2. cbn [ice_ufrag ice_pwd]. cbn -[padded string_at]. rewrite !padded_cstr by (done || lia). cbn [mbind option_bind].
  rewrite !bool_decide_eq_false_2 by done. eexists. split; [done|]. split; [done|]. split; [done|].
  intros p. cbn. rewrite Hst. unfold described. cbn. rewrite filter_as_read. done.
Qed.
End reading.

(** ** Descriptions an agent makes can be sent *)

Lemma chars64_char k : 0 <= k < 64 -> exists c, rd chars64 k = Some c /\ valid_chars [c] = Some true /\ byte c /\ isspace c = false /\ c <> 0.
Proof.
  intros Hk. assert (forallb (fun i => match rd chars64 (Z.of_nat i) with
    | Some c => bool_decide (valid_chars [c] = Some true /\ byte c /\ isspace c = false /\ c <> 0) | None => false end) (seq 0 64) = true) as H by (by vm_compute).
  rewrite forallb_forall in H. specialize (H (Z.to_nat k)). rewrite Z2Nat.id in H by lia. destruct (rd chars64 k) as [c|]; [|discriminate H; apply in_seq; lia].
  exists c. split; [done|]. apply bool_decide_eq_true in H; [done|]. apply in_seq. lia.
Qed.

Lemma valid_chars_app a b : valid_chars a = Some true -> valid_chars b = Some true -> valid_chars (a ++ b) = Some true.
Proof. induction a as [|c a IH]; [done|]. cbn. destruct (ctype_arg c); [|done]. cbn. destruct (_ && _); auto. Qed.

Lemma juice_random_str64_spec random start buf size : 0 < size <= zlen buf ->
  exists s junk, juice_random_str64 random start buf size = Some (s ++ 0 :: junk) /\ length (s ++ 0 :: junk) = length buf /\ zlen s = size - 1 /\
    valid_chars s = Some true /\ Forall byte s /\ no_space s /\ Forall (fun c => c <> 0) s.
Proof.
  intros Hs. unfold juice_random_str64.
  destruct (for_up_rule (fun i b => exists s rest, b = s ++ rest /\ zlen s = i /\ length b = length buf /\ valid_chars s = Some true /\ Forall byte s /\ no_space s /\ Forall (fun c => c <> 0) s)
    0 (size - 1) (fun i buf => c ← rd chars64 (Z.land (random (start + i)) 63); wr buf i c) buf) as (b & Eb & s & rest & -> & Hi & Hl & Hok).
  - lia.
  - exists [], buf. split_and!; try done; constructor.
  - intros i b Hi (s & rest & -> & <- & Hl & Hv & Hb & Hn & Hz). destruct rest as [|x rest].
    { unfold zlen in *. rewrite app_nil_r in Hl. lia. }
    assert (Hr : 0 <= Z.land (random (start + zlen s)) 63 < 64).
    { change 63 with (Z.ones 6). rewrite Z.land_ones by lia. apply Z.mod_pos_bound. lia. }
    destruct (chars64_char _ Hr) as (c & -> & Hc1 & Hc2 & Hc3 & Hc4). cbn [mbind option_bind]. rewrite wr_app. eexists. split; [done|].
    exists (s ++ [c]), rest. rewrite <- app_assoc, zlen_app. split_and!; try done.
    + rewrite <- Hl, !length_app. done.
    + by apply valid_chars_app.
    + apply Forall_app. split; [done|by apply Forall_singleton].
    + apply Forall_app. split; [done|by apply Forall_singleton].
    + apply Forall_app. split; [done|by apply Forall_singleton].
  - rewrite Eb. cbn [mbind option_bind]. rewrite Z.max_r, <- Hi by lia. destruct rest as [|x rest]; [unfold zlen in *; rewrite app_nil_r in Hl; lia|].
    rewrite wr_app. exists s, rest. split; [done|]. split; [rewrite <- Hl, !length_app; done|]. done.
Qed.

(** A new local description has 4 and 22 characters that [ice_is_valid_string] accepts, and can be sent. *)
Lemma local_description_sendable random : exists d ufrag pwd, ice_create_local_description random = Some (0, d) /\ description_sendable d /\
  ice_lite d = false /\ candidates d = [] /\ finished d = false /\
  string_at (ice_ufrag d) = Some ufrag /\ zlen ufrag = 4 /\ ice_is_valid_string (Some ufrag) = Some true /\
  string_at (ice_pwd d) = Some pwd /\ zlen pwd = 22 /\ ice_is_valid_string (Some pwd) = Some true.
Proof.
  unfold ice_create_local_description.
  destruct (juice_random_str64_spec random 0 (ice_ufrag zero_description) (4 + 1)) as (u & ju & -> & Lu & Zu & Vu & Bu & Nu & Xu); [by vm_compute|].
  destruct (juice_random_str64_spec random 4 (ice_pwd zero_description) (22 + 1)) as (p & jp & Ep & Lp & Zp & Vp & Bp & Np & Xp); [by vm_compute|].
  cbn [mbind option_bind]. rewrite Ep. cbn [mbind option_bind]. eexists _, u, p. split; [done|]. split; [|split_and!; try done; cbn [ice_ufrag ice_pwd]; by apply string_at_app].
  assert (forall n s j, length (s ++ 0 :: j) = n -> no_space s -> Forall byte s -> Forall (fun c => c <> 0) s -> token_in n (s ++ 0 :: j) s)
    as Ht by (intros; split_and!; try done; by apply string_at_app).
  split; cbn; try constructor; try done.
  - exists u. split; [by apply Ht|by destruct u].
  - exists p. split; [by apply Ht|by destruct p].
Qed.

(** A candidate gathered from an address and added to the description keeps it so. *)
Lemma local_candidate_sendable getnameinfo ty index record tr d :
  (forall r h s, getnameinfo r = Some (h, s) -> (no_space h /\ Forall byte h /\ Forall (fun c => c <> 0) h /\ h <> [] /\ zlen h < 257) /\
                                            (no_space s /\ Forall byte s /\ Forall (fun c => c <> 0) s /\ s <> [] /\ zlen s < 33)) ->
  ty <> ICE_CANDIDATE_TYPE_UNKNOWN -> sa_family (addr record) = AF_INET \/ sa_family (addr record) = AF_INET6 -> description_sendable d ->
  exists ret c, ice_create_local_candidate getnameinfo ty 1 index record tr = Some (ret, c) /\
    (ret = 0 -> exists ret' c' d', ice_add_candidate c d = Some (ret', c', d') /\ description_sendable d' /\
       ice_ufrag d' = ice_ufrag d /\ ice_pwd d' = ice_pwd d /\
       (candidates_count d < ICE_MAX_CANDIDATES_COUNT -> ret' = 0 /\ candidates d' = candidates d ++ [c'])).
Proof.
  intros Hname Hty Hf Hd. unfold ice_create_local_candidate.
  change (store (foundation zero_candidate) (text "-")) with (Some (padded 33 (text "-"))). cbn [mbind option_bind].
  destruct (getnameinfo record) as [[h s]|] eqn:En; [|do 2 eexists; split; [done|]; by intros E]. destruct (Hname _ _ _ En) as ((H1 & H2 & H3 & H4 & H5) & (S1 & S2 & S3 & S4 & S5)).
  cbn -[padded ice_compute_priority store replicate bytes_of_string].
  destruct (store_token 257 (replicate 257 0) h) as (ah & -> & Hah); try done. destruct (store_token 33 (replicate 33 0) s) as (asv & -> & Has); try done.
  cbn [mbind option_bind]. do 2 eexists. split; [done|]. intros _. unfold ice_add_candidate. cbn -[padded ice_compute_priority store string_at snprintf_to bytes_of_string Z.leb].
  rewrite (bool_decide_eq_false_2 (ty = _)) by done. destruct (Z.leb_spec ICE_MAX_CANDIDATES_COUNT (candidates_count d)) as [Hge|Hlt]; [do 3 eexists; split; [done|]; split; [done|]; split; [done|]; split; [done|lia]|].
  rewrite (padded_cstr 33 (text "-")) by (repeat constructor; done). cbn [mbind option_bind]. rewrite streq_refl. unfold snprintf_to. cbn [Z.eqb].
  destruct (print_u_text (candidates_count d + 1)) as (P1 & P2 & P3 & P4 & P5). rewrite (take_ge (print_u (candidates_count d + 1))) by (unfold zlen in P4; lia).
  destruct (store_token 33 (padded 33 (text "-")) (print_u (candidates_count d + 1))) as (arr & E & Ht); [done|lia|done|done|done|]. unfold store in E. rewrite E.
  cbn [mbind option_bind]. do 3 eexists. split; [done|]. split; [|done]. destruct Hd as [D1 D2 D3 D4]. split; cbn; try done.
  { unfold candidates_count in *. cbn. rewrite zlen_app. match goal with |- _ + zlen [?x] <= _ => change (zlen [x]) with 1 end. lia. }
  apply Forall_app. split; [done|]. apply Forall_singleton. intros _. pose proof (ice_priority_range ty (sa_family (addr record)) 1 index tr Hf).
  split; cbn; try done; try lia; eauto. destruct (token_in_facts _ _ _ Ht) as (<- & _). intros Eq.
  destruct (print_u_spec (u32 (candidates_count d + 1)) (u32_range _)) as (_ & Hdig & _). unfold print_u in Hdig. rewrite (u32_small (u32 _)) in Hdig by apply u32_range.
  fold (print_u (candidates_count d + 1)) in Hdig. rewrite Eq in Hdig. by apply Forall_inv in Hdig.
Qed.

(** ** Examples *)

(** The resolver of the examples knows one address. *)
Definition ex_getaddrinfo (host service : list Z) (h : hints_t) : option (list addrinfo_t) :=
  if streq host (text "10.0.0.1") then Some [Addrinfo AF_INET (Sin 34835 [10; 0; 0; 1]) 16 (ai_socktype h)] else None.

Definition ex_candidate (ty : ice_candidate_type_t) (pr : Z) (f host : list Z) : ice_candidate_t :=
  Candidate ty pr 1 (padded 33 f) ICE_CANDIDATE_TRANSPORT_UDP (padded 257 host) (padded 33 (text "5000")) zero_record.

Definition ex_description (lite : bool) : ice_description_t :=
  Description (padded 257 (text "abcd")) (padded 257 (text "0123456789012345678901")) lite
    [ex_candidate ICE_CANDIDATE_TYPE_RELAYED 16777215 (text "1") (text "80.0.0.1");
     ex_candidate ICE_CANDIDATE_TYPE_PEER_REFLEXIVE 1862270975 (text "2") (text "90.0.0.1");
     ex_candidate ICE_CANDIDATE_TYPE_HOST 2113937151 (text "3") (text "10.0.0.1")] true.

Lemma token_padded n s : Forall (fun c => c <> 0) s -> zlen s < Z.of_nat n -> no_space s -> Forall byte s -> token_in n (padded n s) s.
Proof.
  intros H1 H2 H3 H4. split_and!; [|by apply padded_cstr|done|done]. unfold padded. rewrite length_app, length_replicate. unfold zlen in H2. lia.
Qed.

Lemma ex_token n s : bool_decide (Forall (fun c => c <> 0) s /\ zlen s < Z.of_nat n /\ Forall (fun c => isspace c = false) s /\ Forall byte s /\ s <> []) = true ->
  exists t, token_in n (padded n s) t /\ t <> [].
Proof. intros (H1 & H2 & H3 & H4 & H5)%bool_decide_eq_true. exists s. split; [by apply token_padded|done]. Qed.

Lemma ex_sendable lite : description_sendable (ex_description lite).
Proof.
  split; try (apply ex_token; by vm_compute); [by vm_compute|].
  unfold ex_description. cbn [candidates]. do 3 (apply Forall_cons; split; [intros _; split; [split; by vm_compute|split; by vm_compute|apply ex_token; by vm_compute..|by vm_compute]|]).
  constructor.
Qed.

Definition ex_junk : list Z := replicate 1024 7.

Lemma ice_sdp_roundtrip_witness : zlen (sdp_text (ex_description false)) = 224 /\
  exists buffer', ice_generate_sdp (ex_description false) ex_junk (replicate 300 9) 300 = Some (224, buffer') /\ length buffer' = 300%nat /\
    string_at buffer' = Some (take (Z.to_nat (300 - 1)) (sdp_text (ex_description false))) /\
    (224 < 300 -> exists d', ice_parse_sdp ex_getaddrinfo (cstr buffer') ex_junk = Some (0, d') /\
       d' = (described ex_getaddrinfo (ex_description false)) <| candidates := candidates d' |> /\
       StronglySorted ge_priority (candidates d') /\
       forall p, with_priority p (candidates d') = map (as_read ex_getaddrinfo) (with_priority p (List.filter printable (candidates (ex_description false))))).
Proof.
  split; [by vm_compute|]. change 224 with (zlen (sdp_text (ex_description false))).
  apply (ice_sdp_roundtrip ex_getaddrinfo (ex_description false) ex_junk (replicate 300 9) ex_junk 300); [apply ex_sendable|reflexivity|reflexivity|reflexivity|by vm_compute].
Defined.

(** The text of a peer with a malformed line and a candidate that is not kept. *)
Definition ex_sdp : list Z :=
  text "a=ice-ufrag:abcd" ++ crlf ++ text "a=candidate:1 1" ++ crlf ++ text "a=ice-pwd:0123456789" ++ [10] ++
  text "a=candidate:2 1 udp 1694498815 80.0.0.1 5000 TYP srflx" ++ crlf ++ text "a=candidate:2 1 udp 1694498815 80.0.0.1 5000 typ srflx raddr 0.0.0.0 rport 0" ++ crlf ++
  text "a=candidate:- 1 tcp 2113929471 10.0.0.1 9 typ HOST tcptype passive" ++ crlf ++ text "a=end-of".

Lemma numbers_okb lines : forallb (fun line => match after_prefix line (text "a=candidate:") with
    | Some rest => match sscanf candidate_format rest with Some _ => true | None => false end | None => true end) lines = true -> Forall numbers_ok lines.
Proof.
  induction lines as [|line lines IH]; cbn [forallb]; [constructor|]. intros [H1 H2]%andb_prop. constructor; [|by apply IH].
  intros rest E. rewrite E in H1. destruct (sscanf _ _); [by eexists|done].
Qed.

Lemma ice_parse_sdp_well_formed_witness : zlen (sdp_lines [] ex_sdp) = 6 /\
  exists ret d d0 ufrag pwd, ice_parse_sdp ex_getaddrinfo ex_sdp ex_junk = Some (ret, d) /\ description_wf d /\
    read_lines ex_getaddrinfo (sdp_lines [] ex_sdp) zero_description = Some d0 /\ d = d0 <| candidates := candidates d |> /\
    candidates d ≡ₚ candidates d0 /\ StronglySorted ge_priority (candidates d) /\
    string_at (ice_ufrag d) = Some ufrag /\ string_at (ice_pwd d) = Some pwd /\
    ret = if decide (ufrag = []) then ICE_PARSE_MISSING_UFRAG else if decide (pwd = []) then ICE_PARSE_MISSING_PWD else 0.
Proof.
  split; [by vm_compute|].
  apply (ice_parse_sdp_well_formed ex_getaddrinfo ex_sdp ex_junk); [|apply (bool_decide_unpack _); by vm_compute|reflexivity|apply numbers_okb; by vm_compute].
  apply (bool_decide_unpack _). by vm_compute.
Defined.

(** What the text of the peer says. *)
Example ex_sdp_read : match ice_parse_sdp ex_getaddrinfo ex_sdp ex_junk with
  | Some (ret, d) => ret = 0 /\ map (fun c => (type c, transport c, priority c, cstr (foundation c), len (resolved c))) (candidates d) =
      [(ICE_CANDIDATE_TYPE_HOST, ICE_CANDIDATE_TRANSPORT_TCP_TYPE_PASSIVE, 2113929471, text "2", 16);
       (ICE_CANDIDATE_TYPE_SERVER_REFLEXIVE, ICE_CANDIDATE_TRANSPORT_UDP, 1694498815, text "2", 0)] /\ finished d = false
  | None => False end.
Proof. by vm_compute. Qed.

(** A number of a candidate line that does not fit its type makes [sscanf] undefined. *)
Lemma ice_parse_sdp_undefined :
  ice_parse_sdp ex_getaddrinfo (text "a=candidate:1 1 UDP 4294967296 10.0.0.1 9 typ host" ++ crlf) ex_junk = None /\
  ice_parse_sdp ex_getaddrinfo (text "a=candidate:1 2147483648 UDP 1 10.0.0.1 9 typ host" ++ crlf) ex_junk = None.
Proof. split; by vm_compute. Qed.

(** The lite mark is written over the fragment and the password, and the peer refuses the text. *)
Lemma ice_lite_overwrites : match ice_generate_sdp (ex_description true) ex_junk (replicate 300 9) 300 with
  | Some (_, buffer) => take 12 buffer = text "a=ice-lite" ++ crlf /\
      fst <$> ice_parse_sdp ex_getaddrinfo (cstr buffer) ex_junk = Some ICE_PARSE_MISSING_UFRAG
  | None => False end.
Proof. by vm_compute. Qed.

(** A last line without a newline is not read. *)
Lemma ice_parse_sdp_last_line :
  fst <$> ice_parse_sdp ex_getaddrinfo (text "a=ice-ufrag:abcd" ++ crlf ++ text "a=ice-pwd:0123456789") ex_junk = Some ICE_PARSE_MISSING_PWD.
Proof. by vm_compute. Qed.

(** Among relayed candidates TCP comes before UDP. *)
Lemma relayed_tcp_preferred :
  ice_compute_priority ICE_CANDIDATE_TYPE_RELAYED AF_INET 1 0 ICE_CANDIDATE_TRANSPORT_UDP <
  ice_compute_priority ICE_CANDIDATE_TYPE_RELAYED AF_INET 1 0 ICE_CANDIDATE_TRANSPORT_TCP_TYPE_ACTIVE.
Proof. by vm_compute. Qed.

(** A character outside of ASCII is not allowed as an argument of [isalpha]. *)
Lemma ice_is_valid_string_undefined : ice_is_valid_string (Some [200]) = None.
Proof. done. Qed.
