(* ===== verification/Words.v ===== *)
(** * 32-bit words

    Lemmas on words and arrays of words that the hash functions share. *)

From S2P Require Import Prelude Bytes.
Open Scope Z_scope.

(** Equality of bitwise expressions. *)
Ltac bitwise := apply Z.bits_inj'; intros ? ?;
  repeat (rewrite Z.lxor_spec || rewrite Z.land_spec || rewrite Z.lor_spec || rewrite Z.lnot_spec by done);
  repeat match goal with |- context [Z.testbit ?x ?k] => destruct (Z.testbit x k) end; done.

Lemma land_mask x : Z.land x 4294967295 = u32 x.
Proof. change 4294967295 with (Z.ones 32). by apply Z.land_ones. Qed.

Lemma u32_idem x : u32 (u32 x) = u32 x.
Proof. apply u32_small, u32_range. Qed.

Lemma u32_shiftl x k : 0 <= k -> u32 (Z.shiftl (u32 x) k) = u32 (Z.shiftl x k).
Proof.
  intros Hk. rewrite !Z.shiftl_mul_pow2 by done. unfold u32, wrap. by rewrite Z.mul_mod_idemp_l by lia.
Qed.

Lemma u32_add_l x y : u32 (u32 x + y) = u32 (x + y).
Proof. unfold u32, wrap. by rewrite Z.add_mod_idemp_l by lia. Qed.
Lemma u32_add_r x y : u32 (x + u32 y) = u32 (x + y).
Proof. unfold u32, wrap. by rewrite Z.add_mod_idemp_r by lia. Qed.

Lemma be_word b0 b1 b2 b3 : byte b0 -> byte b1 -> byte b2 -> byte b3 ->
  Z.lor (Z.lor (Z.lor (u32 (Z.shiftl b0 24)) (u32 (Z.shiftl b1 16))) (u32 (Z.shiftl b2 8))) b3 = get_be [b0; b1; b2; b3].
Proof.
  unfold byte. intros. unfold get_be. cbn [fold_left]. rewrite !u32_small by (rewrite Z.shiftl_mul_pow2; lia).
  rewrite !Z.shiftl_lor, !Z.shiftl_shiftl by lia. rewrite Z.shiftl_0_l. done.
Qed.

Lemma four_bytes (l : list Z) i : (i + 4 <= length l)%nat -> exists b0 b1 b2 b3,
  take 4 (drop i l) = [b0; b1; b2; b3] /\ rd l (Z.of_nat i) = Some b0 /\ rd l (Z.of_nat i + 1) = Some b1 /\
  rd l (Z.of_nat i + 2) = Some b2 /\ rd l (Z.of_nat i + 3) = Some b3.
Proof.
  intros Hl. destruct (drop i l) as [|b0 [|b1 [|b2 [|b3 rest]]]] eqn:Hd;
    try (apply (f_equal length) in Hd; rewrite length_drop in Hd; simpl in Hd; lia).
  exists b0, b1, b2, b3. split; [done|].
  assert (forall k, (k < 4)%nat -> rd l (Z.of_nat i + Z.of_nat k) = drop i l !! k) as Hr.
  { intros k Hk. rewrite rd_nonneg by lia. rewrite lookup_drop. f_equal. lia. }
  rewrite Hd in Hr. pose proof (Hr 0%nat) as H0. pose proof (Hr 1%nat) as H1. pose proof (Hr 2%nat) as H2. pose proof (Hr 3%nat) as H3.
  simpl in *. rewrite Z.add_0_r in H0. auto with lia.
Qed.

Lemma take_map_seq {A} (f : nat -> A) n k : (k < n)%nat -> take (S k) (map f (seq 0 n)) = take k (map f (seq 0 n)) ++ [f k].
Proof.
  intros Hk. apply take_S_r. rewrite list_lookup_fmap, lookup_seq_lt by done. done.
Qed.

(** [for (i = 0; i < n; i++) st[i] += S[i];] *)
Lemma add_words_spec (st S : list Z) n : length st = n -> length S = n ->
  for_up 0 (Z.of_nat n) (fun i x => a ← rd x i; b ← rd S i; wr x i (u32 (a + b))) st = Some (zip_with (fun x y => u32 (x + y)) st S).
Proof.
  intros Hst HS. destruct (for_up_fill (fun i => u32 (nth (Z.to_nat i) st 0 + nth (Z.to_nat i) S 0))
    (fun i x => a ← rd x i; b ← rd S i; wr x i (u32 (a + b))) st 0 (Z.of_nat n)) as (l & -> & Hl & Hr).
  - lia.
  - unfold zlen. lia.
  - intros i x Hi Hx Hsame. rewrite Hsame by lia. rewrite !rd_nonneg by lia.
    destruct (nth_lookup_or_length st (Z.to_nat i) 0) as [->|]; [|lia]. destruct (nth_lookup_or_length S (Z.to_nat i) 0) as [->|]; [done|lia].
  - f_equal. apply list_eq_same_length with n; [rewrite length_zip_with; lia|lia|]. intros i x y Hi Hx Hy.
    specialize (Hr (Z.of_nat i)). rewrite rd_nonneg, Nat2Z.id, Hx in Hr by lia. rewrite (proj2 (Z.leb_le 0 _)), (proj2 (Z.ltb_lt _ _)) in Hr by lia.
    simpl in Hr. injection Hr as ->. apply lookup_zip_with_Some in Hy as (a & b & -> & Ha & Hb).
    rewrite ?Nat2Z.id in *. by rewrite (nth_lookup_Some _ _ _ _ Ha), (nth_lookup_Some _ _ _ _ Hb).
Qed.

Lemma u8_shiftr_wrap w x k : 0 <= k -> k + 8 <= w -> u8 (Z.shiftr (wrap w x) k) = u8 (Z.shiftr x k).
Proof.
  intros Hk Hw. apply Z.bits_inj'. intros n Hn. unfold u8. rewrite !wrap_testbit, !Z.shiftr_spec, wrap_testbit by lia.
  destruct (Z.ltb_spec n 8); [|done]. by rewrite (proj2 (Z.ltb_lt _ _)) by lia.
Qed.

(** The bytes of a 64-bit integer from the most significant one. *)
Lemma be64_shifts x : be64 x = map (fun i => u8 (Z.shiftr x (56 - 8 * Z.of_nat i))) (seq 0 8).
Proof. unfold be64, be32, be16. cbn [app map seq]. rewrite !Z.shiftr_shiftr by lia. by rewrite Z.shiftr_0_r. Qed.

Lemma be64_u64 x : be64 (u64 x) = be64 x.
Proof.
  rewrite !be64_shifts. apply map_ext_in. intros i Hi%in_seq. apply (u8_shiftr_wrap 64); lia.
Qed.

Lemma be32_shifts x : be32 x = [u8 (Z.shiftr x 24); u8 (Z.shiftr x 16); u8 (Z.shiftr x 8); u8 x].
Proof. unfold be32, be16. cbn [app]. by rewrite Z.shiftr_shiftr by lia. Qed.

Lemma u64_add_l x y : u64 (u64 x + y) = u64 (x + y).
Proof. unfold u64, wrap. by rewrite Z.add_mod_idemp_l by lia. Qed.

(** [for (i = a; i < b; i++) l[i] = g(i);] behind [pre]. *)
Lemma for_up_write (g : Z -> Z) pre n : forall (mid rest : list Z), length mid = n -> forall body,
  (forall i x, body i x = wr x (zlen pre + i) (g i)) ->
  for_up 0 (Z.of_nat n) body (pre ++ mid ++ rest) = Some (pre ++ map (fun i => g (Z.of_nat i)) (seq 0 n) ++ rest).
Proof.
  intros mid rest Hmid body Hbody.
  destruct (for_up_rule (fun i x => x = pre ++ map (fun i => g (Z.of_nat i)) (seq 0 (Z.to_nat i)) ++ drop (Z.to_nat i) mid ++ rest)
    0 (Z.of_nat n) body (pre ++ mid ++ rest)) as (x & -> & ->); [lia|done| |].
  - intros i x Hi ->. rewrite Hbody. eexists. split.
    + rewrite !(app_assoc pre). replace (zlen pre + i) with (zlen (pre ++ map (fun i => g (Z.of_nat i)) (seq 0 (Z.to_nat i)))).
      * apply wr_at. rewrite zlen_app, zlen_drop. pose proof (zlen_nonneg rest). unfold zlen. lia.
      * rewrite zlen_app. unfold zlen at 2. rewrite length_map, length_seq. lia.
    + replace (Z.to_nat (i + 1)) with (S (Z.to_nat i)) by lia. rewrite seq_S, map_app. cbn [map Nat.add]. rewrite Z2Nat.id by lia.
      rewrite <- !app_assoc. do 3 f_equal. rewrite skipn_app by lia. rewrite drop_drop, length_drop.
      replace (1 - (length mid - Z.to_nat i))%nat with 0%nat by lia. by rewrite Nat.add_1_r.
  - rewrite Nat2Z.id. by rewrite drop_ge by lia.
Qed.

(** The 16 words of a block of 64 bytes. *)
Definition be_words (block : list Z) : list Z := map (fun i => get_be (take 4 (drop (4 * i) block))) (seq 0 16).

Lemma be_words_length b : length (be_words b) = 16%nat.
Proof. unfold be_words. by rewrite length_map, length_seq. Qed.

Lemma nth_rd (l : list Z) (i : Z) : 0 <= i < zlen l -> rd l i = Some (nth (Z.to_nat i) l 0).
Proof.
  intros Hi. unfold zlen in Hi. rewrite rd_nonneg by lia.
  destruct (nth_lookup_or_length l (Z.to_nat i) 0) as [->|]; [done|lia].
Qed.

(** ** Words up to their high bits *)

Definition eq32 (x y : Z) : Prop := u32 x = u32 y.

#[export] Instance eq32_equiv : Equivalence eq32.
Proof. unfold eq32. split; [done|intros x y H; congruence|intros x y z H1 H2; congruence]. Qed.

#[export] Instance eq32_add : Proper (eq32 ==> eq32 ==> eq32) Z.add.
Proof. intros x x' Hx y y' Hy. unfold eq32 in *. rewrite <- (u32_add_l x), <- (u32_add_r _ y), Hx, Hy. by rewrite u32_add_l, u32_add_r. Qed.

#[export] Instance u32_proper : Proper (eq32 ==> eq) u32.
Proof. intros x x' Hx. exact Hx. Qed.

Lemma eq32_u32 x : eq32 (u32 x) x.
Proof. apply u32_idem. Qed.

Lemma eq32_wrap w x : 32 <= w -> eq32 (wrap w x) x.
Proof.
  intros Hw. apply Z.bits_inj'. intros n Hn. unfold u32. rewrite !wrap_testbit by lia. destruct (Z.ltb_spec n 32); [|done].
  by rewrite (proj2 (Z.ltb_lt n w)) by lia.
Qed.
