(* ===== verification/MerkleDamgard.v ===== *)
(** * Hashes over blocks of 64 bytes

    What MD5, SHA-1 and SHA-256 promise (RFC 1321, FIPS 180-4): the message is padded to whole
    blocks and a compression function absorbs one block after the other.  [absorb] and
    [pending] say where a hash is that has been fed a message piece by piece. *)

From S2P Require Import Prelude Bytes.
Open Scope Z_scope.

Section merkle_damgard.
Context (compress : list Z -> list Z -> list Z) (h0 : list Z).

Fixpoint absorb_blocks (n : nat) (h m : list Z) : list Z :=
  match n with
  | O => h
  | S n => absorb_blocks n (compress h (take 64 m)) (drop 64 m)
  end.

(** The chaining value after the whole blocks of [m], and what is left of it. *)
Definition absorb (m : list Z) : list Z := absorb_blocks (length m / 64) h0 m.
Definition pending (m : list Z) : list Z := drop (64 * (length m / 64)) m.

(** [enc] encodes the number of bits in 8 bytes. *)
Definition pad (enc : Z -> list Z) (m : list Z) : list Z :=
  m ++ 128 :: replicate (Z.to_nat ((55 - zlen m) mod 64)) 0 ++ enc (8 * zlen m).

Definition md_digest (enc : Z -> list Z) (output : list Z -> list Z) (m : list Z) : list Z :=
  output (absorb (pad enc m)).

Lemma absorb_blocks_app n k : forall h a b, length a = (64 * n)%nat ->
  absorb_blocks (n + k) h (a ++ b) = absorb_blocks k (absorb_blocks n h a) b.
Proof.
  induction n as [|n IH]; intros h a b Ha; cbn [absorb_blocks Nat.add].
  - by destruct a; [|simpl in Ha; lia].
  - rewrite take_app_le, drop_app_le by lia. apply IH. rewrite length_drop. lia.
Qed.

Lemma absorb_blocks_one h b : length b = 64%nat -> absorb_blocks 1 h b = compress h b.
Proof. intros Hb. cbn [absorb_blocks]. by rewrite take_ge by lia. Qed.

Lemma pending_length m : length (pending m) = (length m mod 64)%nat.
Proof. unfold pending. rewrite length_drop. pose proof (Nat.div_mod_eq (length m) 64). lia. Qed.

Lemma pending_bound m : (length (pending m) < 64)%nat.
Proof. rewrite pending_length. by apply Nat.mod_upper_bound. Qed.

Lemma absorb_split m : exists a, m = a ++ pending m /\ length a = (64 * (length m / 64))%nat /\
  absorb m = absorb_blocks (length m / 64) h0 a.
Proof.
  exists (take (64 * (length m / 64)) m). pose proof (Nat.div_mod_eq (length m) 64).
  split; [by unfold pending; rewrite take_drop|]. split; [rewrite length_take; lia|].
  unfold absorb. rewrite <- (take_drop (64 * (length m / 64)) m) at 2.
  rewrite <- (Nat.add_0_r (length m / 64)) at 1. rewrite absorb_blocks_app; [done|rewrite length_take; lia].
Qed.

(** Bytes that do not fill the block are kept. *)
Lemma absorb_part m t : (length (pending m) + length t < 64)%nat ->
  absorb (m ++ t) = absorb m /\ pending (m ++ t) = pending m ++ t.
Proof.
  intros Ht. destruct (absorb_split m) as (a & Hm & Ha & ->). set (n := (length m / 64)%nat) in *.
  assert (length (m ++ t) / 64 = n)%nat as Hn.
  { rewrite Hm, !length_app, Ha. symmetry. apply (Nat.div_unique _ 64 n (length (pending m) + length t)); lia. }
  unfold absorb, pending at 1. rewrite Hn. split.
  - rewrite Hm, <- app_assoc. rewrite <- (Nat.add_0_r n) at 1. by rewrite absorb_blocks_app.
  - rewrite Hm at 1. by rewrite <- app_assoc, <- Ha, drop_app_length.
Qed.

(** Bytes that fill the block make it absorbed. *)
Lemma absorb_fill m t : (length (pending m) + length t = 64)%nat ->
  absorb (m ++ t) = compress (absorb m) (pending m ++ t) /\ pending (m ++ t) = [].
Proof.
  intros Ht. destruct (absorb_split m) as (a & Hm & Ha & ->). set (n := (length m / 64)%nat) in *.
  assert (length (m ++ t) = 64 * (n + 1))%nat as Hl by (rewrite Hm, !length_app, Ha; lia).
  assert (length (m ++ t) / 64 = n + 1)%nat as Hn by (rewrite Hl, Nat.mul_comm; by apply Nat.div_mul).
  unfold absorb, pending at 2. rewrite Hn, drop_ge by lia. split; [|done].
  rewrite Hm at 1. rewrite <- app_assoc, absorb_blocks_app by done. cbn [absorb_blocks].
  by rewrite take_ge by (rewrite length_app; lia).
Qed.

(** Whole blocks behind whole blocks. *)
Lemma absorb_many m t n : pending m = [] -> length t = (64 * n)%nat ->
  absorb (m ++ t) = absorb_blocks n (absorb m) t /\ pending (m ++ t) = [].
Proof.
  revert m t. induction n as [|n IH]; intros m t Hm Ht.
  - destruct t; [|simpl in Ht; lia]. by rewrite app_nil_r.
  - destruct (absorb_fill m (take 64 t)) as [Ha Hp]; [rewrite Hm, length_take; cbn [length]; lia|]. rewrite Hm in Ha.
    destruct (IH (m ++ take 64 t) (drop 64 t) Hp) as [Ha' Hp']; [rewrite length_drop; lia|].
    rewrite <- app_assoc, take_drop in Ha', Hp'. split; [|done]. rewrite Ha', Ha. done.
Qed.

Lemma absorb_nil : absorb [] = h0 /\ pending [] = [].
Proof. done. Qed.

(** Properties that [compress] keeps hold of every chaining value. *)
Lemma absorb_ind (P : list Z -> Prop) : P h0 -> (forall h b, P h -> P (compress h b)) -> forall m, P (absorb m).
Proof.
  intros H0 Hc m. unfold absorb. generalize (length m / 64)%nat as n. intros n. revert H0. generalize h0 as h. revert m.
  induction n as [|n IH]; intros m h Hh; [done|]. cbn [absorb_blocks]. apply IH, Hc, Hh.
Qed.

(** ** The end of the message *)

Lemma pad_zeros_room (m : list Z) : (55 - zlen m) mod 64 = (55 - Z.of_nat (length (pending m))) mod 64.
Proof.
  rewrite pending_length, Nat2Z.inj_mod. change (Z.of_nat 64) with 64. unfold zlen.
  Z.to_euclidean_division_equations. lia.
Qed.

(** The last block has room for the length... *)
Lemma absorb_pad_one enc m : (length (pending m) < 56)%nat -> (forall x, length (enc x) = 8%nat) ->
  absorb (pad enc m) =
    compress (absorb m) (pending m ++ 128 :: replicate (55 - length (pending m)) 0 ++ enc (8 * zlen m)).
Proof.
  intros Hp He. unfold pad. rewrite pad_zeros_room, Z.mod_small by lia.
  replace (Z.to_nat (55 - Z.of_nat (length (pending m)))) with (55 - length (pending m))%nat by lia.
  apply absorb_fill. cbn [length]. rewrite length_app, length_replicate, He. lia.
Qed.

(** ... or another block is needed. *)
Lemma absorb_pad_two enc m : (56 <= length (pending m))%nat -> (forall x, length (enc x) = 8%nat) ->
  absorb (pad enc m) =
    compress (compress (absorb m) (pending m ++ 128 :: replicate (63 - length (pending m)) 0))
             (replicate 56 0 ++ enc (8 * zlen m)).
Proof.
  intros Hp He. pose proof (pending_bound m) as Hb. unfold pad. rewrite pad_zeros_room.
  replace ((55 - Z.of_nat (length (pending m))) mod 64) with (119 - Z.of_nat (length (pending m)))
    by (apply (Z.mod_unique _ _ (-1)); lia).
  replace (Z.to_nat (119 - Z.of_nat (length (pending m)))) with ((63 - length (pending m)) + 56)%nat by lia.
  rewrite replicate_add, <- app_assoc.
  replace (m ++ 128 :: replicate (63 - length (pending m)) 0 ++ replicate 56 0 ++ enc (8 * zlen m))
    with ((m ++ 128 :: replicate (63 - length (pending m)) 0) ++ replicate 56 0 ++ enc (8 * zlen m))
    by (by rewrite <- app_assoc).
  destruct (absorb_fill m (128 :: replicate (63 - length (pending m)) 0)) as [Ha Hn]; [cbn [length]; rewrite length_replicate; lia|].
  destruct (absorb_fill (m ++ 128 :: replicate (63 - length (pending m)) 0) (replicate 56 0 ++ enc (8 * zlen m))) as [Hb' _];
    [rewrite Hn, length_app, length_replicate, He; simpl; lia|].
  by rewrite Hb', Ha, Hn.
Qed.
End merkle_damgard.

(** The shape of a finished digest. *)
Lemma digest_result {C : Type} (P : C -> Prop) (o o' : list Z) (c : C) : o = o' -> P c ->
  exists c', Some (o, c) = Some (o', c') /\ P c'.
Proof. intros -> Hc. eauto. Qed.
