(* ===== verification/Sha256.v ===== *)
(** * SHA-256 (libjuice [src/picohash.h])

    The functions [_picohash_sha256_*] and [_picohash_sha224_*], and the standard they
    implement (FIPS 180-4).  An array is a list whose accesses are checked; the local [W] is
    the list of its entries written so far. *)

From S2P Require Import Prelude Bytes Words MerkleDamgard.
Open Scope Z_scope.

(** ** The code *)

Module Sha256.

Record ctx := Ctx {
  length : Z; (* uint64_t *)
  state : list Z; (* uint32_t [8] *)
  curlen : Z; (* uint32_t *)
  buf : list Z (* unsigned char [64] *) }.

#[global] Instance ctx_eta : RecordEta ctx := fun c => Ctx (length c) (state c) (curlen c) (buf c).

Definition ch (x y z : Z) : Z := Z.lxor z (Z.land x (Z.lxor y z)).
Definition maj (x y z : Z) : Z := Z.lor (Z.land (Z.lor x y) z) (Z.land x y).
Definition s (x y : Z) : Z :=
  Z.land (Z.lor (Z.shiftr (Z.land (u32 x) 4294967295) (Z.land y 31)) (u32 (Z.shiftl (u32 x) (32 - Z.land y 31)))) 4294967295.
Definition r (x n : Z) : Z := Z.shiftr (Z.land x 4294967295) n.
Definition sigma0 (x : Z) : Z := Z.lxor (Z.lxor (s x 2) (s x 13)) (s x 22).
Definition sigma1 (x : Z) : Z := Z.lxor (Z.lxor (s x 6) (s x 11)) (s x 25).
Definition gamma0 (x : Z) : Z := Z.lxor (Z.lxor (s x 7) (s x 18)) (r x 3).
Definition gamma1 (x : Z) : Z := Z.lxor (Z.lxor (s x 17) (s x 19)) (r x 10).

Definition K : list Z := [
  0x428A2F98; 0x71374491; 0xB5C0FBCF; 0xE9B5DBA5; 0x3956C25B; 0x59F111F1; 0x923F82A4; 0xAB1C5ED5;
  0xD807AA98; 0x12835B01; 0x243185BE; 0x550C7DC3; 0x72BE5D74; 0x80DEB1FE; 0x9BDC06A7; 0xC19BF174;
  0xE49B69C1; 0xEFBE4786; 0x0FC19DC6; 0x240CA1CC; 0x2DE92C6F; 0x4A7484AA; 0x5CB0A9DC; 0x76F988DA;
  0x983E5152; 0xA831C66D; 0xB00327C8; 0xBF597FC7; 0xC6E00BF3; 0xD5A79147; 0x06CA6351; 0x14292967;
  0x27B70A85; 0x2E1B2138; 0x4D2C6DFC; 0x53380D13; 0x650A7354; 0x766A0ABB; 0x81C2C92E; 0x92722C85;
  0xA2BFE8A1; 0xA81A664B; 0xC24B8B70; 0xC76C51A3; 0xD192E819; 0xD6990624; 0xF40E3585; 0x106AA070;
  0x19A4C116; 0x1E376C08; 0x2748774C; 0x34B0BCB5; 0x391C0CB3; 0x4ED8AA4A; 0x5B9CCA4F; 0x682E6FF3;
  0x748F82EE; 0x78A5636F; 0x84C87814; 0x8CC70208; 0x90BEFFFA; 0xA4506CEB; 0xBEF9A3F7; 0xC67178F2].

(** [rnd] on [S[0] .. S[7]] and the rotation of the array. *)
Definition rnd (W : list Z) (i : Z) (S : list Z) : option (list Z) :=
  match S with
  | [a; b; c; d; e; f; g; h] =>
      k ← rd K i; w ← rd W i;
      let t0 := u32 (h + sigma1 e + ch e f g + k + w) in
      let t1 := u32 (sigma0 a + maj a b c) in
      let d := u32 (d + t0) in
      let h := u32 (t0 + t1) in
      Some [h; a; b; c; d; e; f; g]
  | _ => None
  end.

Definition fill_W (buf : list Z) : option (list Z) :=
  W ← for_up 0 16 (fun i W =>
        b0 ← rd buf (4 * i); b1 ← rd buf (4 * i + 1); b2 ← rd buf (4 * i + 2); b3 ← rd buf (4 * i + 3);
        Some (W ++ [Z.lor (Z.lor (Z.lor (u32 (Z.shiftl b0 24)) (u32 (Z.shiftl b1 16))) (u32 (Z.shiftl b2 8))) b3])) [];
  for_up 16 64 (fun i W =>
    w2 ← rd W (i - 2); w7 ← rd W (i - 7); w15 ← rd W (i - 15); w16 ← rd W (i - 16);
    Some (W ++ [u32 (gamma1 w2 + w7 + gamma0 w15 + w16)])) W.

Definition compress (c : ctx) (buf : list Z) : option ctx :=
  W ← fill_W buf;
  S ← for_up 0 64 (rnd W) (take 8 (state c));
  state' ← for_up 0 8 (fun i st => x ← rd st i; y ← rd S i; wr st i (u32 (x + y))) (state c);
  Some (c <| state := state' |>).

(** [while (curlen < bound) buf[curlen++] = 0;] *)
Fixpoint zero_while (fuel : nat) (bound : Z) (buf : list Z) (curlen : Z) : option (list Z * Z) :=
  match fuel with
  | O => None
  | S n => if curlen <? bound then buf ← wr buf curlen 0; zero_while n bound buf (u32 (curlen + 1)) else Some (buf, curlen)
  end.

(** A block that has no room for the length. *)
Definition flush (c : ctx) : option ctx :=
  if 56 <? curlen c then
    '(b, n) ← zero_while 65 64 (buf c) (curlen c);
    let c := c <| buf := b |> <| curlen := n |> in
    c ← compress c (buf c);
    Some (c <| curlen := 0 |>)
  else Some c.

(** The last block. *)
Definition append_length (c : ctx) : option ctx :=
  '(b, n) ← zero_while 65 56 (buf c) (curlen c);
  b ← for_up 0 8 (fun i b => wr b (56 + i) (u8 (Z.shiftr (length c) (56 - 8 * i)))) b;
  let c := c <| buf := b |> <| curlen := n |> in
  compress c (buf c).

Definition output (state : list Z) (len : Z) : option (list Z) :=
  for_up 0 (len / 4) (fun i out =>
    x ← rd state i; Some (out ++ [u8 (Z.shiftr x 24); u8 (Z.shiftr x 16); u8 (Z.shiftr x 8); u8 x])) [].

Definition do_final (c : ctx) (len : Z) : option (list Z * ctx) :=
  let c := c <| length := u64 (length c + u32 (curlen c * 8)) |> in
  b ← wr (buf c) (curlen c) 128;
  let c := c <| buf := b |> <| curlen := u32 (curlen c + 1) |> in
  c ← flush c;
  c ← append_length c;
  out ← output (state c) len;
  Some (out, c).

Definition iv256 : list Z :=
  [0x6A09E667; 0xBB67AE85; 0x3C6EF372; 0xA54FF53A; 0x510E527F; 0x9B05688C; 0x1F83D9AB; 0x5BE0CD19].
Definition iv224 : list Z :=
  [0xc1059ed8; 0x367cd507; 0x3070dd17; 0xf70e5939; 0xffc00b31; 0x68581511; 0x64f98fa7; 0xbefa4fa4].

Definition init (c : ctx) : ctx := c <| curlen := 0 |> <| length := 0 |> <| state := iv256 |>.
Definition init224 (c : ctx) : ctx := c <| curlen := 0 |> <| length := 0 |> <| state := iv224 |>.

(** [in] is what is left of the data, [len] its length; every turn consumes some. *)
Fixpoint update_loop (fuel : nat) (c : ctx) (inp : list Z) (len : Z) : option ctx :=
  match fuel with
  | O => None
  | S fuel =>
      if len <=? 0 then Some c else
      if (curlen c =? 0) && (64 <=? len) then
        c ← compress c inp;
        update_loop fuel (c <| length := u64 (length c + 64 * 8) |>) (drop 64 inp) (len - 64)
      else
        let n := 64 - curlen c in
        let n := if len <? n then len else n in
        chunk ← rd_bytes inp 0 n;
        b ← wr_bytes (buf c) (curlen c) chunk;
        let c := c <| buf := b |> <| curlen := u32 (curlen c + u32 n) |> in
        c ← (if curlen c =? 64 then
               c ← compress c (buf c);
               Some (c <| length := u64 (length c + 8 * 64) |> <| curlen := 0 |>)
             else Some c);
        update_loop fuel c (drop (Z.to_nat n) inp) (len - n)
  end.

Definition update (c : ctx) (data : list Z) : option ctx := update_loop (S (List.length data)) c data (zlen data).

Definition final (c : ctx) : option (list Z * ctx) := do_final c 32.
Definition final224 (c : ctx) : option (list Z * ctx) := do_final c 28.

End Sha256.

(** ** The standard *)

Module Fips256.

Definition Ch (x y z : Z) : Z := Z.lxor (Z.land x y) (Z.land (Z.lnot x) z).
Definition Maj (x y z : Z) : Z := Z.lxor (Z.lxor (Z.land x y) (Z.land x z)) (Z.land y z).
Definition ROTR (n x : Z) : Z := Z.lor (Z.shiftr (u32 x) n) (u32 (Z.shiftl x (32 - n))).
Definition SHR (n x : Z) : Z := Z.shiftr (u32 x) n.
Definition Sigma0 (x : Z) : Z := Z.lxor (Z.lxor (ROTR 2 x) (ROTR 13 x)) (ROTR 22 x).
Definition Sigma1 (x : Z) : Z := Z.lxor (Z.lxor (ROTR 6 x) (ROTR 11 x)) (ROTR 25 x).
Definition sigma0 (x : Z) : Z := Z.lxor (Z.lxor (ROTR 7 x) (ROTR 18 x)) (SHR 3 x).
Definition sigma1 (x : Z) : Z := Z.lxor (Z.lxor (ROTR 17 x) (ROTR 19 x)) (SHR 10 x).

(** The message schedule of a block, continued to [16 + n] words. *)
Fixpoint schedule (W : list Z) (n : nat) : list Z :=
  match n with
  | O => W
  | S n => let W := schedule W n in let w (k : nat) := nth (length W - k) W 0 in
           W ++ [u32 (sigma1 (w 2%nat) + w 7%nat + sigma0 (w 15%nat) + w 16%nat)]
  end.

Definition step (st : list Z) (kw : Z * Z) : list Z :=
  match st with
  | [a; b; c; d; e; f; g; h] =>
      let T1 := h + Sigma1 e + Ch e f g + fst kw + snd kw in
      let T2 := Sigma0 a + Maj a b c in
      [u32 (T1 + T2); a; b; c; u32 (d + T1); e; f; g]
  | _ => st
  end.

Definition compress (h block : list Z) : list Z :=
  zip_with (fun x y => u32 (x + y)) h (fold_left step (zip Sha256.K (schedule (be_words block) 48)) h).

Definition sha256 (m : list Z) : list Z := md_digest compress Sha256.iv256 be64 (fun h => concat (map be32 h)) m.
Definition sha224 (m : list Z) : list Z := md_digest compress Sha256.iv224 be64 (fun h => concat (map be32 (take 7 h))) m.

End Fips256.

(** ** SHA-256 of the code is SHA-256 of FIPS 180-4 *)

(** ** The functions *)

Lemma ch_spec x y z : Sha256.ch x y z = Fips256.Ch x y z.
Proof. unfold Sha256.ch, Fips256.Ch. bitwise. Qed.

Lemma maj_spec x y z : Sha256.maj x y z = Fips256.Maj x y z.
Proof. unfold Sha256.maj, Fips256.Maj. bitwise. Qed.

Lemma s_spec x n : 0 <= n < 32 -> Sha256.s x n = Fips256.ROTR n x.
Proof.
  intros Hn. unfold Sha256.s, Fips256.ROTR. replace (Z.land n 31) with n by (change 31 with (Z.ones 5); rewrite Z.land_ones, Z.mod_small; lia).
  rewrite !land_mask, u32_idem, u32_shiftl by lia. apply u32_small, (in_range_lor 32); [lia| |apply u32_range].
  apply in_range_shiftr; [lia|apply u32_range].
Qed.

Lemma r_spec x n : Sha256.r x n = Fips256.SHR n x.
Proof. unfold Sha256.r, Fips256.SHR. by rewrite land_mask. Qed.

Lemma sigmas_spec x : Sha256.sigma0 x = Fips256.Sigma0 x /\ Sha256.sigma1 x = Fips256.Sigma1 x /\
  Sha256.gamma0 x = Fips256.sigma0 x /\ Sha256.gamma1 x = Fips256.sigma1 x.
Proof.
  unfold Sha256.sigma0, Sha256.sigma1, Sha256.gamma0, Sha256.gamma1, Fips256.Sigma0, Fips256.Sigma1, Fips256.sigma0, Fips256.sigma1.
  by rewrite !s_spec, !r_spec by lia.
Qed.

(** ** The message schedule *)

Lemma fill_words_spec b rest : length b = 64%nat -> Forall byte b ->
  for_up 0 16 (fun i W =>
    b0 ← rd (b ++ rest) (4 * i); b1 ← rd (b ++ rest) (4 * i + 1); b2 ← rd (b ++ rest) (4 * i + 2); b3 ← rd (b ++ rest) (4 * i + 3);
    Some (W ++ [Z.lor (Z.lor (Z.lor (u32 (Z.shiftl b0 24)) (u32 (Z.shiftl b1 16))) (u32 (Z.shiftl b2 8))) b3])) [] =
  Some (be_words b).
Proof.
  intros Hl Hb. set (body := fun _ => _).
  destruct (for_up_rule (fun i W => W = take (Z.to_nat i) (be_words b)) 0 16 body []) as (W & -> & ->); [lia|done| |].
  - intros i W Hi ->. unfold body. destruct (four_bytes (b ++ rest) (4 * Z.to_nat i)) as (b0 & b1 & b2 & b3 & Ht & H0 & H1 & H2 & H3).
    { rewrite length_app. lia. }
    replace (Z.of_nat (4 * Z.to_nat i)) with (4 * i) in * by lia. rewrite H0, H1, H2, H3. cbn [mbind option_bind].
    rewrite drop_app_le, take_app_le in Ht by (rewrite ?length_drop; lia).
    assert (Forall byte [b0; b1; b2; b3]) as Hby by (rewrite <- Ht; by apply Forall_take, Forall_drop).
    rewrite !Forall_cons in Hby. destruct Hby as (? & ? & ? & ? & _).
    eexists. split; [done|]. rewrite be_word by done. replace (Z.to_nat (i + 1)) with (S (Z.to_nat i)) by lia.
    unfold be_words. rewrite take_map_seq by lia. by rewrite Ht.
  - rewrite take_ge; [done|]. rewrite be_words_length. lia.
Qed.

Lemma schedule_length W n : length (Fips256.schedule W n) = (length W + n)%nat.
Proof. induction n as [|n IH]; cbn [Fips256.schedule]; [lia|]. rewrite length_app, IH. simpl. lia. Qed.

Lemma fill_W_spec b rest : length b = 64%nat -> Forall byte b ->
  Sha256.fill_W (b ++ rest) = Some (Fips256.schedule (be_words b) 48).
Proof.
  intros Hl Hb. unfold Sha256.fill_W. rewrite fill_words_spec by done. cbn [mbind option_bind]. set (body := fun _ => _).
  destruct (for_up_rule (fun i W => W = Fips256.schedule (be_words b) (Z.to_nat (i - 16))) 16 64 body (be_words b))
    as (W & -> & ->); [lia|done| |done].
  intros i W Hi HW. unfold body.
  assert (length W = Z.to_nat i) as HWl by (rewrite HW, schedule_length, be_words_length; lia).
  assert (forall k, 0 < k <= 16 -> rd W (i - k) = Some (nth (length W - Z.to_nat k) W 0)) as Hr.
  { intros k Hk. rewrite rd_nonneg by lia.
    replace (Z.to_nat (i - k)) with (length W - Z.to_nat k)%nat by lia.
    destruct (nth_lookup_or_length W (length W - Z.to_nat k) 0) as [->|]; [done|lia]. }
  rewrite !Hr by lia. cbn [mbind option_bind]. eexists. split; [done|].
  replace (Z.to_nat (i + 1 - 16)) with (S (Z.to_nat (i - 16))) by lia. cbn [Fips256.schedule]. rewrite <- HW.
  destruct (sigmas_spec (nth (length W - Z.to_nat 2) W 0)) as (_ & _ & _ & ->).
  by destruct (sigmas_spec (nth (length W - Z.to_nat 15) W 0)) as (_ & _ & -> & _).
Qed.

(** ** The compression function *)

Lemma step_length st kw : length (Fips256.step st kw) = length st.
Proof. unfold Fips256.step. by repeat (destruct st as [|? st]; try done). Qed.

Lemma steps_length l st : length (fold_left Fips256.step l st) = length st.
Proof. revert st. induction l as [|kw l IH]; intros st; [done|]. simpl. by rewrite IH, step_length. Qed.

Lemma rnd_spec W i st k w : length st = 8%nat -> rd Sha256.K i = Some k -> rd W i = Some w ->
  Sha256.rnd W i st = Some (Fips256.step st (k, w)).
Proof.
  intros Hl Hk Hw. destruct st as [|a [|b [|c [|d [|e [|f [|g [|h [|]]]]]]]]]; try done.
  unfold Sha256.rnd, Fips256.step. rewrite Hk, Hw. cbn [mbind option_bind fst snd].
  destruct (sigmas_spec e) as (_ & -> & _). destruct (sigmas_spec a) as (-> & _). rewrite ch_spec, maj_spec.
  by rewrite u32_add_l, !u32_add_r.
Qed.

Lemma fips_compress_length h b : length h = 8%nat -> length (Fips256.compress h b) = 8%nat.
Proof. intros Hl. unfold Fips256.compress. rewrite length_zip_with, steps_length. lia. Qed.

Lemma compress_spec l st n bf b rest : length b = 64%nat -> Forall byte b -> length st = 8%nat ->
  Sha256.compress (Sha256.Ctx l st n bf) (b ++ rest) = Some (Sha256.Ctx l (Fips256.compress st b) n bf).
Proof.
  intros Hl Hb Hs. unfold Sha256.compress. rewrite fill_W_spec by done. cbn [mbind option_bind].
  unfold Fips256.compress. set (W := Fips256.schedule _ _). set (kw := zip Sha256.K W). cbn [Sha256.state].
  assert (length W = 64%nat) as HW by (unfold W; by rewrite schedule_length, be_words_length).
  rewrite take_ge by lia.
  destruct (for_up_rule (fun i S => S = fold_left Fips256.step (take (Z.to_nat i) kw) st) 0 64 (Sha256.rnd W) st) as (S & -> & ->); [lia|done| |].
  { intros i S Hi ->. destruct (rd_is_Some Sha256.K i) as [k Hk]; [done|]. destruct (rd_is_Some W i) as [w Hw]; [unfold zlen; lia|].
    rewrite (rnd_spec W i _ k w) by (done || by rewrite steps_length). eexists. split; [done|].
    replace (Z.to_nat (i + 1)) with (Datatypes.S (Z.to_nat i)) by lia. erewrite take_S_r; [by rewrite fold_left_app|].
    unfold kw. rewrite lookup_zip_with. rewrite rd_nonneg in Hk, Hw by lia. by rewrite Hk, Hw. }
  assert (length kw = 64%nat) as Hkw by (unfold kw; rewrite length_zip_with, HW; done).
  rewrite take_ge by (rewrite Hkw; lia). cbn [mbind option_bind]. set (S := fold_left _ _ _).
  assert (length S = 8%nat) as HS by (unfold S; by rewrite steps_length).
  change 8 with (Z.of_nat 8). by rewrite add_words_spec.
Qed.

(** ** Contexts *)

(** The context after the bytes [m]. *)
Definition sha_represents (iv : list Z) (c : Sha256.ctx) (m : list Z) : Prop :=
  Forall byte m /\ exists tail, length (pending m ++ tail) = 64%nat /\
  c = Sha256.Ctx (u64 (8 * (zlen m - zlen (pending m)))) (absorb Fips256.compress iv m) (zlen (pending m)) (pending m ++ tail).

Section sha.
Context (iv : list Z) (Hiv : length iv = 8%nat).

Abbreviation Absorb := (absorb Fips256.compress iv).

Lemma absorb_state_length m : length (Absorb m) = 8%nat.
Proof. apply (absorb_ind _ _ (fun l => length l = 8%nat)); [done|]. intros. by apply fips_compress_length. Qed.

Lemma pending_byte m : Forall byte m -> Forall byte (pending m).
Proof. apply Forall_drop. Qed.

Lemma pending_nil_len m : zlen (pending m) = 0 -> pending m = [].
Proof. unfold zlen. intros. apply nil_length_inv. lia. Qed.

(** Fields of a known context. *)
Ltac ctx_simpl := unfold setter; cbn [mbind option_bind Sha256.curlen Sha256.length Sha256.state Sha256.buf].

Lemma update_loop_spec fuel : forall c m data, (length data < fuel)%nat -> Forall byte data -> sha_represents iv c m ->
  exists c', Sha256.update_loop fuel c data (zlen data) = Some c' /\ sha_represents iv c' (m ++ data).
Proof.
  induction fuel as [|fuel IH]; intros c m data Hf Hd Hc; [lia|]. cbn [Sha256.update_loop].
  destruct (Z.leb_spec (zlen data) 0) as [H0|H0].
  { assert (data = []) as -> by (apply nil_length_inv; unfold zlen in H0; lia). rewrite app_nil_r. eauto. }
  pose proof (pending_bound m) as Hpb. destruct Hc as (Hm & tail & Ht & ->). cbn [Sha256.curlen Sha256.length Sha256.state Sha256.buf].
  set (p := pending m) in *. assert (zlen (pending m) = zlen p) as Hzp by done. assert (0 <= zlen p < 64) as Hp by (unfold zlen; lia).
  pose proof (pending_byte m Hm) as Hpby. fold p in Hpby.
  destruct ((zlen p =? 0) && (64 <=? zlen data)) eqn:Hcase.
  - apply andb_true_iff in Hcase as [Hp0%Z.eqb_eq%pending_nil_len H64%Z.leb_le]. fold p in Hp0.
    assert (length (take 64 data) = 64%nat) as Htl by (rewrite length_take; unfold zlen in *; lia).
    pose proof (fun l st n bf => compress_spec l st n bf (take 64 data) (drop 64 data) Htl ltac:(by apply Forall_take)) as Hc. rewrite take_drop in Hc.
    rewrite Hc by apply absorb_state_length. cbn [mbind option_bind]. destruct (absorb_fill Fips256.compress iv m (take 64 data)) as [Ha Hn]; [fold p; rewrite Hp0; done|].
    fold p in Ha. rewrite Hp0 in Ha. simpl in Ha.
    destruct (IH (Sha256.Ctx (u64 (u64 (8 * (zlen m - zlen p)) + 64 * 8)) (Fips256.compress (Absorb m) (take 64 data)) (zlen p) (p ++ tail))
      (m ++ take 64 data) (drop 64 data)) as (c' & Hu & Hc').
    { rewrite length_drop. unfold zlen in *. lia. }
    { by apply Forall_drop. }
    { split; [apply Forall_app; split; [done|by apply Forall_take]|]. rewrite Hn. exists tail. rewrite Hp0 in *. simpl in Ht |- *. split; [done|].
      rewrite u64_add_l, Ha. f_equal. rewrite zlen_app. f_equal. unfold zlen. rewrite Htl. simpl. lia. }
    rewrite <- app_assoc, take_drop in Hc'. exists c'. split; [|done]. rewrite <- Hu.
    assert (zlen data - 64 = zlen (drop 64 data)) as -> by (rewrite zlen_drop; lia). done.
  - set (n := if zlen data <? 64 - zlen p then zlen data else 64 - zlen p).
    assert (0 < n <= zlen data /\ n <= 64 - zlen p) as Hn by (unfold n; destruct (Z.ltb_spec (zlen data) (64 - zlen p)); lia).
    rewrite rd_bytes_0 by lia. cbn [mbind option_bind]. set (t := take (Z.to_nat n) data).
    assert (zlen t = n) as Htn by (apply zlen_take; lia). assert (Forall byte t) as Htb by (by apply Forall_take).
    rewrite wr_bytes_at by (rewrite Htn; rewrite length_app in Ht; unfold zlen in *; lia). cbn [mbind option_bind].
    assert (u32 (zlen p + u32 n) = zlen p + n) as Hu by (norm_words; lia). rewrite Hu.
    assert (length ((p ++ t) ++ drop (length t) tail) = 64%nat) as Hlen
      by (rewrite !length_app, length_drop in *; unfold zlen in *; lia).
    assert (zlen data - n = zlen (drop (Z.to_nat n) data)) as Hdl by (rewrite zlen_drop; lia). rewrite Hdl.
    assert (forall c1, sha_represents iv c1 (m ++ t) ->
      exists c', Sha256.update_loop fuel c1 (drop (Z.to_nat n) data) (zlen (drop (Z.to_nat n) data)) = Some c' /\ sha_represents iv c' (m ++ data)) as Hrec.
    { intros c1 Hc1. replace (m ++ data) with ((m ++ t) ++ drop (Z.to_nat n) data) by (unfold t; by rewrite <- app_assoc, take_drop).
      apply IH; [rewrite length_drop; unfold zlen in *; lia|by apply Forall_drop|done]. }
    assert (Forall byte (m ++ t)) as Hmt by (by apply Forall_app).
    ctx_simpl. destruct (Z.eqb_spec (zlen p + n) 64) as [H64|H64].
    + destruct (absorb_fill Fips256.compress iv m t) as [Ha Hnil]; [fold p; unfold zlen in *; lia|]. fold p in Ha.
      assert (drop (length t) tail = []) as Hdt by (apply nil_length_inv; rewrite !length_app in Hlen; unfold zlen in *; lia).
      rewrite Hdt. assert (length (p ++ t) = 64%nat) as Hpt by (rewrite length_app; unfold zlen in *; lia).
      rewrite compress_spec; [|done|by apply Forall_app|apply absorb_state_length]. ctx_simpl. apply Hrec.
      split; [done|]. rewrite Hnil. exists (p ++ t). split; [done|]. rewrite app_nil_r, Ha. f_equal. rewrite u64_add_l, zlen_app. f_equal. change (zlen (@nil Z)) with 0. lia.
    + destruct (absorb_part Fips256.compress iv m t) as [Ha Hpt]; [fold p; unfold zlen in *; lia|]. fold p in Hpt. cbn [mbind option_bind]. apply Hrec.
      split; [done|]. rewrite Ha, Hpt. exists (drop (length t) tail). split; [done|]. rewrite !zlen_app, Htn. do 3 f_equal. lia.
Qed.

(** ** The end of the message *)

Lemma zero_while_spec bound fuel : forall (p rest : list Z), bound - zlen p < Z.of_nat fuel -> 0 < Z.of_nat fuel -> bound <= zlen p + zlen rest -> bound <= 64 ->
  Sha256.zero_while fuel bound (p ++ rest) (zlen p) =
    Some ((p ++ replicate (Z.to_nat (bound - zlen p)) 0) ++ drop (Z.to_nat (bound - zlen p)) rest, Z.max bound (zlen p)).
Proof.
  induction fuel as [|fuel IH]; intros p rest Hf H0 Hl Hb; [lia|]. cbn [Sha256.zero_while]. pose proof (zlen_nonneg p).
  destruct (Z.ltb_spec (zlen p) bound) as [Hlt|Hge].
  - rewrite wr_at by lia. cbn [mbind option_bind]. replace (u32 (zlen p + 1)) with (zlen (p ++ [0])) by (rewrite zlen_app; change (zlen [0]) with 1; norm_words; lia).
    rewrite IH; [|rewrite zlen_app; change (zlen [0]) with 1; lia|lia|rewrite zlen_app, zlen_drop; change (zlen [0]) with 1; lia|done].
    rewrite zlen_app. change (zlen [0]) with 1. replace (Z.to_nat (bound - zlen p)) with (S (Z.to_nat (bound - (zlen p + 1)))) by lia.
    cbn [replicate]. rewrite drop_drop, <- !app_assoc. cbn [app]. do 2 f_equal. lia.
  - replace (Z.to_nat (bound - zlen p)) with 0%nat by lia. cbn [replicate]. rewrite app_nil_r, drop_0. do 2 f_equal. lia.
Qed.

Lemma write_length (p : list Z) (rest : list Z) x : length p = 56%nat -> length rest = 8%nat ->
  for_up 0 8 (fun i b => wr b (56 + i) (u8 (Z.shiftr (u64 x) (56 - 8 * i)))) (p ++ rest) = Some (p ++ be64 x).
Proof.
  intros Hp Hr. rewrite <- (app_nil_r rest). change 8 with (Z.of_nat 8).
  rewrite (for_up_write (fun i => u8 (Z.shiftr (u64 x) (56 - 8 * i)))); [|done|].
  - rewrite <- (be64_u64 x), (be64_shifts (u64 x)), app_nil_r. done.
  - intros i y. unfold zlen. by rewrite Hp.
Qed.

Lemma output_spec st k : (k <= length st)%nat -> Sha256.output st (4 * Z.of_nat k) = Some (concat (map be32 (take k st))).
Proof.
  intros Hk. unfold Sha256.output. replace (4 * Z.of_nat k / 4) with (Z.of_nat k) by (rewrite Z.mul_comm, Z.div_mul; lia). set (body := fun _ => _).
  destruct (for_up_rule (fun i out => out = concat (map be32 (take (Z.to_nat i) st))) 0 (Z.of_nat k) body []) as (o & -> & ->); [lia|done| |by rewrite Nat2Z.id].
  intros i out Hi ->. unfold body. destruct (rd_is_Some st i) as [x Hx]; [unfold zlen; lia|]. rewrite Hx. cbn [mbind option_bind].
  eexists. split; [done|]. rewrite rd_nonneg in Hx by lia. replace (Z.to_nat (i + 1)) with (S (Z.to_nat i)) by lia.
  erewrite take_S_r by done. rewrite map_app, concat_app. cbn [map concat]. by rewrite app_nil_r, be32_shifts.
Qed.

Lemma zeros_byte n : Forall byte (replicate n 0).
Proof. by apply Forall_replicate. Qed.

(** A full block of [q] and zeros. *)
Lemma flush_spec L st q tail : length st = 8%nat -> Forall byte q -> length (q ++ tail) = 64%nat ->
  Sha256.flush (Sha256.Ctx L st (zlen q) (q ++ tail)) =
    Some (if 56 <? zlen q then let b := q ++ replicate (64 - length q) 0 in Sha256.Ctx L (Fips256.compress st b) 0 b
          else Sha256.Ctx L st (zlen q) (q ++ tail)).
Proof.
  intros Hst Hq Ht. rewrite length_app in Ht. unfold Sha256.flush. ctx_simpl. destruct (56 <? zlen q); [|done].
  rewrite zero_while_spec by (unfold zlen in *; lia). rewrite drop_ge, app_nil_r by (unfold zlen in *; lia). ctx_simpl.
  replace (Z.to_nat (64 - zlen q)) with (64 - length q)%nat by (unfold zlen; lia). set (b := q ++ replicate (64 - length q) 0).
  pose proof (fun l st n bf => compress_spec l st n bf b []) as Hc. rewrite app_nil_r in Hc.
  rewrite Hc; [done|unfold b; rewrite length_app, length_replicate; lia|apply Forall_app; split; [done|apply zeros_byte]|done].
Qed.

Lemma append_length_spec x st q tail : length st = 8%nat -> Forall byte q -> length (q ++ tail) = 64%nat -> zlen q <= 56 ->
  let b := q ++ replicate (56 - length q) 0 ++ be64 x in
  Sha256.append_length (Sha256.Ctx (u64 x) st (zlen q) (q ++ tail)) = Some (Sha256.Ctx (u64 x) (Fips256.compress st b) 56 b) /\
  length b = 64%nat.
Proof.
  intros Hst Hq Ht H56 b. rewrite length_app in Ht.
  assert (length b = 64%nat) as Hb by (unfold b; rewrite !length_app, length_replicate; change (length (be64 x)) with 8%nat; unfold zlen in *; lia).
  split; [|done]. unfold Sha256.append_length. ctx_simpl.
  rewrite zero_while_spec by (unfold zlen in *; lia). ctx_simpl. rewrite Z.max_l by done.
  replace (Z.to_nat (56 - zlen q)) with (56 - length q)%nat by (unfold zlen; lia).
  rewrite write_length by (rewrite ?length_app, ?length_replicate, ?length_drop; unfold zlen in *; lia). ctx_simpl.
  rewrite <- app_assoc. fold b. pose proof (fun l st n bf => compress_spec l st n bf b []) as Hc. rewrite app_nil_r in Hc.
  apply Hc; [done| |done]. apply Forall_app; split; [done|]. apply Forall_app; split; [apply zeros_byte|apply be64_bytes].
Qed.

Lemma do_final_spec c m k : sha_represents iv c m -> (k <= 8)%nat ->
  exists c', Sha256.do_final c (4 * Z.of_nat k) = Some (concat (map be32 (take k (Absorb (pad be64 m)))), c') /\ length (Sha256.buf c') = 64%nat.
Proof.
  intros (Hm & tail & Ht & ->) Hk. pose proof (pending_bound m) as Hpb. pose proof (pending_byte m Hm) as Hpby.
  pose proof (absorb_state_length m) as Hst.
  pose proof (absorb_pad_one Fips256.compress iv be64 m) as Hone. pose proof (absorb_pad_two Fips256.compress iv be64 m) as Htwo.
  assert (length (Absorb (pad be64 m)) = 8%nat) as Hout by apply absorb_state_length. revert Hout Hone Htwo.
  generalize (Absorb (pad be64 m)) as h'. generalize dependent (Absorb m). intros h Hst h' Hout Hone Htwo. set (p := pending m) in *.
  assert (0 <= zlen p < 64) as Hp by (unfold zlen; lia). rewrite length_app in Ht.
  unfold Sha256.do_final. ctx_simpl.
  replace (u64 (u64 (8 * (zlen m - zlen p)) + u32 (zlen p * 8))) with (u64 (8 * zlen m)) by (rewrite u64_add_l; f_equal; norm_words; lia).
  rewrite wr_at by (unfold zlen; lia). ctx_simpl. set (q := p ++ [128]).
  assert (zlen q = zlen p + 1) as Hq by (unfold q; by rewrite zlen_app). assert (length q = length p + 1)%nat as Hql by (unfold zlen in *; lia).
  assert (Forall byte q) as Hqb by (apply Forall_app; split; [done|by repeat constructor]).
  replace (u32 (zlen p + 1)) with (zlen q) by (norm_words; lia).
  rewrite flush_spec by (done || (rewrite length_app, length_drop; lia)). ctx_simpl.
  assert (forall a, p ++ 128 :: a = q ++ a) as Hqa by (intros; unfold q; by rewrite <- app_assoc). rewrite Hqa in Hone, Htwo.
  destruct (Z.ltb_spec 56 (zlen q)) as [H56|H56]; cbv zeta.
  - rewrite Htwo in * by (done || unfold zlen in *; lia). replace (63 - length p)%nat with (64 - length q)%nat in * by lia.
    set (b := q ++ replicate (64 - length q) 0) in *. set (h1 := Fips256.compress h b) in *.
    assert (length h1 = 8%nat) as Hh1 by (by apply fips_compress_length).
    destruct (append_length_spec (8 * zlen m) h1 [] b) as [Ha Hbl]; [done|done|unfold b; simpl; rewrite length_app, length_replicate; lia|done|].
    change (zlen (@nil Z)) with 0 in Ha. cbn [app length Nat.sub] in Ha, Hbl. rewrite Ha. ctx_simpl. rewrite output_spec by lia. ctx_simpl. eauto.
  - rewrite Hone in * by (done || unfold zlen in *; lia). replace (55 - length p)%nat with (56 - length q)%nat in * by lia.
    destruct (append_length_spec (8 * zlen m) h q (drop 1 tail)) as [Ha Hbl]; [done|done|rewrite length_app, length_drop; lia|done|].
    rewrite Ha. ctx_simpl. rewrite output_spec by lia. ctx_simpl. eauto.
Qed.
End sha.
