(* ===== verification/Sha1.v ===== *)
(** * SHA-1 (libjuice [src/picohash.h])

    The functions [_picohash_sha1_*], and the standard they implement (FIPS 180-4).  The code
    keeps the message schedule in the 16 words of the buffer, which it also writes byte by
    byte: the model is a little-endian machine, as the build without
    [_PICOHASH_BIG_ENDIAN] assumes. *)

From S2P Require Import Prelude Bytes Words MerkleDamgard.
Open Scope Z_scope.

(** ** The code *)

Module Sha1.

(** A word in memory, and the memory seen as words. *)
Definition le32 (x : Z) : list Z := [u8 x; u8 (Z.shiftr x 8); u8 (Z.shiftr x 16); u8 (Z.shiftr x 24)].
Definition words_of (b : list Z) : list Z := map (fun i => get_le (take 4 (drop (4 * i) b))) (seq 0 16).
Definition bytes_of (ws : list Z) : list Z := concat (map le32 ws).

Record ctx := Ctx {
  buffer : list Z; (* uint32_t [16], as bytes *)
  state : list Z; (* uint32_t [5] *)
  byteCount : Z; (* uint64_t *)
  bufferOffset : Z (* uint8_t *) }.

#[global] Instance ctx_eta : RecordEta ctx := fun c => Ctx (buffer c) (state c) (byteCount c) (bufferOffset c).

Definition K0 : Z := 0x5a827999.
Definition K20 : Z := 0x6ed9eba1.
Definition K40 : Z := 0x8f1bbcdc.
Definition K60 : Z := 0xca62c1d6.

Definition rol32 (number bits : Z) : Z := Z.lor (u32 (Z.shiftl number bits)) (Z.shiftr number (32 - bits)).

(** The word of the schedule that turn [i] needs. *)
Definition expand (i : Z) (buffer : list Z) : option (list Z) :=
  if 16 <=? i then
    x13 ← rd buffer (Z.land (i + 13) 15); x8 ← rd buffer (Z.land (i + 8) 15);
    x2 ← rd buffer (Z.land (i + 2) 15); x0 ← rd buffer (Z.land i 15);
    let t := Z.lxor (Z.lxor (Z.lxor x13 x8) x2) x0 in
    wr buffer (Z.land i 15) (rol32 t 1)
  else Some buffer.

(** Turn [i] of the loop on the buffer and the registers [a] to [e]. *)
Definition round (i : Z) (s : list Z * list Z) : option (list Z * list Z) :=
  match s with
  | (buffer, [a; b; c; d; e]) =>
      buffer ← expand i buffer;
      let t := if i <? 20 then u32 (Z.lxor d (Z.land b (Z.lxor c d)) + K0)
               else if i <? 40 then u32 (Z.lxor (Z.lxor b c) d + K20)
               else if i <? 60 then u32 (Z.lor (Z.land b c) (Z.land d (Z.lor b c)) + K40)
               else u32 (Z.lxor (Z.lxor b c) d + K60) in
      x ← rd buffer (Z.land i 15);
      let t := u32 (t + u32 (u32 (rol32 a 5 + e) + x)) in
      Some (buffer, [t; a; rol32 b 30; c; d])
  | _ => None
  end.

Definition hash_block (c : ctx) : option ctx :=
  '(ws, regs) ← for_up 0 80 round (words_of (buffer c), state c);
  st ← for_up 0 5 (fun i st => x ← rd st i; y ← rd regs i; wr st i (u32 (x + y))) (state c);
  Some (c <| buffer := bytes_of ws |> <| state := st |>).

Definition add_uncounted (c : ctx) (data : Z) : option ctx :=
  b ← wr (buffer c) (Z.lxor (bufferOffset c) 3) data;
  let c := c <| buffer := b |> <| bufferOffset := u8 (bufferOffset c + 1) |> in
  if bufferOffset c =? 64 then c ← hash_block c; Some (c <| bufferOffset := 0 |>) else Some c.

Definition init (c : ctx) : ctx :=
  c <| state := [0x67452301; 0xefcdab89; 0x98badcfe; 0x10325476; 0xc3d2e1f0] |> <| byteCount := 0 |> <| bufferOffset := 0 |>.

(** [for (; len != 0; --len)] *)
Fixpoint update (c : ctx) (data : list Z) : option ctx :=
  match data with
  | [] => Some c
  | x :: data => c ← add_uncounted (c <| byteCount := u64 (byteCount c + 1) |>) x; update c data
  end.

(** [while (bufferOffset != 56) add_uncounted(0);], which needs 63 turns at most. *)
Fixpoint zero_until (fuel : nat) (c : ctx) : option ctx :=
  match fuel with
  | O => None
  | S n => if bufferOffset c =? 56 then Some c else c ← add_uncounted c 0; zero_until n c
  end.

Definition swap (x : Z) : Z :=
  Z.lor (Z.lor (Z.lor (Z.land (u32 (Z.shiftl x 24)) 0xff000000) (Z.land (u32 (Z.shiftl x 8)) 0x00ff0000))
               (Z.land (Z.shiftr x 8) 0x0000ff00)) (Z.land (Z.shiftr x 24) 0x000000ff).

Definition final (c : ctx) : option (list Z * ctx) :=
  c ← add_uncounted c 128;
  c ← zero_until 64 c;
  let n := byteCount c in
  c ← add_uncounted c (u8 (Z.shiftr n 53)); c ← add_uncounted c (u8 (Z.shiftr n 45));
  c ← add_uncounted c (u8 (Z.shiftr n 37)); c ← add_uncounted c (u8 (Z.shiftr n 29));
  c ← add_uncounted c (u8 (Z.shiftr n 21)); c ← add_uncounted c (u8 (Z.shiftr n 13));
  c ← add_uncounted c (u8 (Z.shiftr n 5)); c ← add_uncounted c (u8 (u64 (Z.shiftl n 3)));
  st ← for_up 0 5 (fun i st => x ← rd st i; wr st i (swap x)) (state c);
  let c := c <| state := st |> in
  Some (concat (map le32 (take 5 (state c))), c).

End Sha1.

(** ** The standard *)

Module Fips1.

Definition Ch (x y z : Z) : Z := Z.lxor (Z.land x y) (Z.land (Z.lnot x) z).
Definition Parity (x y z : Z) : Z := Z.lxor (Z.lxor x y) z.
Definition Maj (x y z : Z) : Z := Z.lxor (Z.lxor (Z.land x y) (Z.land x z)) (Z.land y z).

Definition f (t : nat) : Z -> Z -> Z -> Z :=
  if (t <? 20)%nat then Ch else if (t <? 40)%nat then Parity else if (t <? 60)%nat then Maj else Parity.
Definition K (t : nat) : Z :=
  if (t <? 20)%nat then 0x5a827999 else if (t <? 40)%nat then 0x6ed9eba1
  else if (t <? 60)%nat then 0x8f1bbcdc else 0xca62c1d6.
Definition ROTL (n x : Z) : Z := Z.lor (u32 (Z.shiftl x n)) (Z.shiftr x (32 - n)).

(** The schedule [W], continued to [16 + n] words. *)
Fixpoint schedule (W : list Z) (n : nat) : list Z :=
  match n with
  | O => W
  | S n => let W := schedule W n in let w (k : nat) := nth (length W - k) W 0 in
           W ++ [ROTL 1 (Z.lxor (Z.lxor (Z.lxor (w 3%nat) (w 8%nat)) (w 14%nat)) (w 16%nat))]
  end.

Definition step (st : list Z) (tw : nat * Z) : list Z :=
  match st with
  | [a; b; c; d; e] => [u32 (ROTL 5 a + f (fst tw) b c d + e + K (fst tw) + snd tw); a; ROTL 30 b; c; d]
  | _ => st
  end.

Definition compress (h block : list Z) : list Z :=
  zip_with (fun x y => u32 (x + y)) h (fold_left step (zip (seq 0 80) (schedule (be_words block) 64)) h).

Definition sha1 (m : list Z) : list Z :=
  md_digest compress [0x67452301; 0xefcdab89; 0x98badcfe; 0x10325476; 0xc3d2e1f0] be64 (fun h => concat (map be32 h)) m.

End Fips1.

(** ** SHA-1 of the code is SHA-1 of FIPS 180-4 *)

(** ** The schedule *)

Lemma schedule1_length W n : length (Fips1.schedule W n) = (length W + n)%nat.
Proof. induction n as [|n IH]; cbn [Fips1.schedule]; [lia|]. rewrite length_app, IH. simpl. lia. Qed.

Lemma schedule1_nth W n t : length W = 16%nat -> (16 <= t < 16 + n)%nat -> let S := Fips1.schedule W n in
  nth t S 0 = Fips1.ROTL 1 (Z.lxor (Z.lxor (Z.lxor (nth (t - 3) S 0) (nth (t - 8) S 0)) (nth (t - 14) S 0)) (nth (t - 16) S 0)).
Proof.
  intros HW. induction n as [|n IH]; intros Ht; [lia|]. cbv zeta in *. cbn [Fips1.schedule].
  pose proof (schedule1_length W n) as Hl. rewrite HW in Hl.
  destruct (decide (t = 16 + n)%nat) as [->|Hne].
  - rewrite app_nth2 by lia. rewrite !(app_nth1 _ [_]) by lia. rewrite Hl, Nat.sub_diag. done.
  - rewrite !(app_nth1 _ [_]) by lia. apply IH. lia.
Qed.

Lemma schedule1_nth_word W n t : (t < length W)%nat -> nth t (Fips1.schedule W n) 0 = nth t W 0.
Proof.
  intros Ht. induction n as [|n IH]; [done|]. cbn [Fips1.schedule]. rewrite app_nth1; [done|]. rewrite schedule1_length. lia.
Qed.

(** ** The rounds *)

Lemma land15 x : Z.land x 15 = x mod 16.
Proof. change 15 with (Z.ones 4). by apply Z.land_ones. Qed.

(** The 16 words of the schedule from [max 0 (i - 16)] are in the buffer. *)
Definition window (S buffer : list Z) (i : Z) : Prop :=
  length buffer = 16%nat /\ forall k, Z.max 0 (i - 16) <= k < Z.max 0 (i - 16) + 16 ->
    rd buffer (k mod 16) = Some (nth (Z.to_nat k) S 0).

Definition regs_step (i : Z) (st : list Z) (S : list Z) : list Z :=
  Fips1.step st (Z.to_nat i, nth (Z.to_nat i) S 0).

Section rounds.
Context (W S : list Z) (HW : length W = 16%nat) (HS : S = Fips1.schedule W 64).

Lemma window_update i buffer : 0 <= i < 80 -> window S buffer i ->
  exists buffer', Sha1.expand i buffer = Some buffer' /\ window S buffer' (i + 1) /\ rd buffer' (Z.land i 15) = Some (nth (Z.to_nat i) S 0).
Proof.
  intros Hi [Hl Hw]. unfold Sha1.expand. rewrite !land15. destruct (Z.leb_spec 16 i) as [H16|H16].
  - replace ((i + 13) mod 16) with ((i - 3) mod 16) by (Z.to_euclidean_division_equations; lia).
    replace ((i + 8) mod 16) with ((i - 8) mod 16) by (Z.to_euclidean_division_equations; lia).
    replace ((i + 2) mod 16) with ((i - 14) mod 16) by (Z.to_euclidean_division_equations; lia).
    replace (rd buffer (i mod 16)) with (rd buffer ((i - 16) mod 16)) by (f_equal; Z.to_euclidean_division_equations; lia).
    rewrite !Hw by lia. cbn [mbind option_bind].
    assert (0 <= i mod 16 < 16) as Hm by (apply Z.mod_pos_bound; lia).
    rewrite wr_Some by (unfold zlen; lia). eexists. split; [done|].
    assert (Sha1.rol32 (Z.lxor (Z.lxor (Z.lxor (nth (Z.to_nat (i - 3)) S 0) (nth (Z.to_nat (i - 8)) S 0)) (nth (Z.to_nat (i - 14)) S 0)) (nth (Z.to_nat (i - 16)) S 0)) 1
      = nth (Z.to_nat i) S 0) as ->.
    { rewrite HS, (schedule1_nth W 64 (Z.to_nat i)) by (done || lia). unfold Sha1.rol32, Fips1.ROTL.
      by replace (Z.to_nat i - 3)%nat with (Z.to_nat (i - 3)) by lia; replace (Z.to_nat i - 8)%nat with (Z.to_nat (i - 8)) by lia;
        replace (Z.to_nat i - 14)%nat with (Z.to_nat (i - 14)) by lia; replace (Z.to_nat i - 16)%nat with (Z.to_nat (i - 16)) by lia. }
    split; [split; [by rewrite length_insert|]|rewrite rd_nonneg, list_lookup_insert_eq by lia; done].
    intros k Hk. destruct (decide (k = i)) as [->|Hne]; [rewrite rd_nonneg, list_lookup_insert_eq by lia; done|].
    assert (0 <= k mod 16 < 16) by (apply Z.mod_pos_bound; lia).
    assert (k mod 16 <> i mod 16) as Hkm by (Z.to_euclidean_division_equations; lia).
    rewrite rd_nonneg, list_lookup_insert_ne by lia. rewrite <- rd_nonneg by lia. apply Hw. lia.
  - exists buffer. split; [done|]. split; [split; [done|]|].
    + intros k Hk. apply Hw. lia.
    + apply Hw. lia.
Qed.

Lemma round_spec i buffer st : 0 <= i < 80 -> length st = 5%nat -> window S buffer i ->
  exists buffer', Sha1.round i (buffer, st) = Some (buffer', regs_step i st S) /\ window S buffer' (i + 1).
Proof.
  intros Hi Hst Hw. destruct st as [|a [|b [|c [|d [|e [|]]]]]]; try done. unfold Sha1.round.
  destruct (window_update i buffer Hi Hw) as (buffer' & -> & Hw' & Hr). cbn [mbind option_bind]. rewrite Hr. cbn [mbind option_bind].
  exists buffer'. split; [|done]. unfold regs_step, Fips1.step, Fips1.f, Fips1.K. cbn [fst snd]. do 3 f_equal.
  set (x := nth (Z.to_nat i) S 0).
  assert (Z.lxor d (Z.land b (Z.lxor c d)) = Fips1.Ch b c d) as -> by (unfold Fips1.Ch; bitwise).
  assert (Z.lor (Z.land b c) (Z.land d (Z.lor b c)) = Fips1.Maj b c d) as -> by (unfold Fips1.Maj; bitwise).
  change (Z.lxor (Z.lxor b c) d) with (Fips1.Parity b c d). change (Sha1.rol32 a 5) with (Fips1.ROTL 5 a).
  destruct (Z.ltb_spec i 20), (Nat.ltb_spec (Z.to_nat i) 20); try lia; [|destruct (Z.ltb_spec i 40), (Nat.ltb_spec (Z.to_nat i) 40); try lia;
    [|destruct (Z.ltb_spec i 60), (Nat.ltb_spec (Z.to_nat i) 60); try lia]];
    (rewrite !u32_add_l, u32_add_r; f_equal; unfold Sha1.K0, Sha1.K20, Sha1.K40, Sha1.K60; lia).
Qed.
End rounds.

Lemma step1_length st tw : length (Fips1.step st tw) = length st.
Proof. unfold Fips1.step. by repeat (destruct st as [|? st]; try done). Qed.

Lemma steps1_length l st : length (fold_left Fips1.step l st) = length st.
Proof. revert st. induction l as [|tw l IH]; intros st; [done|]. simpl. by rewrite IH, step1_length. Qed.

Lemma fips1_compress_length h b : length h = 5%nat -> length (Fips1.compress h b) = 5%nat.
Proof. intros Hl. unfold Fips1.compress. rewrite length_zip_with, steps1_length. lia. Qed.

Lemma rounds_spec W S tw st : length W = 16%nat -> length st = 5%nat -> S = Fips1.schedule W 64 -> tw = zip (seq 0 80) S ->
  exists ws, for_up 0 80 Sha1.round (W, st) = Some (ws, fold_left Fips1.step tw st) /\ length ws = 16%nat.
Proof.
  intros HW Hst HSW Htw. assert (length S = 80%nat) as HS by (rewrite HSW, schedule1_length, HW; done).
  assert (length tw = 80%nat) as Htl by (rewrite Htw, length_zip_with, length_seq, HS; done).
  assert (forall i, (i < 80)%nat -> tw !! i = Some (i, nth i S 0)) as Hlook.
  { intros i Hi. rewrite Htw, lookup_zip_with, lookup_seq_lt by lia. cbn [mbind option_bind].
    destruct (nth_lookup_or_length S i 0) as [->|]; [done|lia]. }
  destruct (for_up_rule (fun i s => window S (fst s) i /\ snd s = fold_left Fips1.step (take (Z.to_nat i) tw) st) 0 80 Sha1.round (W, st))
    as ([ws regs] & Hf & [[Hl _] Hr]); [lia| | |].
  - split; [|done]. split; [done|]. intros k Hk. rewrite Z.mod_small by lia. rewrite nth_rd by (unfold zlen; cbn [fst]; lia).
    cbn [fst]. rewrite HSW, schedule1_nth_word by lia. done.
  - intros i [ws regs] Hi [Hw Hr]. cbn [fst snd] in *. subst regs.
    destruct (round_spec W S HW HSW i ws (fold_left Fips1.step (take (Z.to_nat i) tw) st) Hi) as (ws' & -> & Hw'); [by rewrite steps1_length|done|].
    eexists. split; [done|]. split; [done|]. cbn [snd]. replace (Z.to_nat (i + 1)) with (Datatypes.S (Z.to_nat i)) by lia.
    rewrite (take_S_r _ _ _ (Hlook (Z.to_nat i) ltac:(lia))). by rewrite fold_left_app.
  - exists ws. cbn [fst snd] in *. rewrite Hr, take_ge in Hf by (rewrite Htl; done). done.
Qed.

(** ** The buffer *)

Lemma get_le_rev l : get_le (rev l) = get_be l.
Proof. unfold get_le, get_be. by rewrite <- fold_left_rev_right. Qed.

Lemma lxor3 i j : 0 <= j < 4 -> Z.lxor (4 * i + j) 3 = 4 * i + (3 - j).
Proof.
  intros Hj. assert (forall j, 0 <= j < 4 -> 4 * i + j = Z.lxor (Z.shiftl i 2) j) as Hx.
  { intros j' Hj'. pose proof (lor_shiftl_add 2 i j' ltac:(lia) ltac:(lia)) as Hl. rewrite Z.mul_comm in Hl. change (2 ^ 2) with 4 in Hl.
    rewrite <- Hl. apply Z.bits_inj'. intros n Hn. rewrite Z.lor_spec, Z.lxor_spec.
    destruct (Z.lt_ge_cases n 2); [by rewrite Z.shiftl_spec_low|]. rewrite (testbit_out 2 j' n) by done. by rewrite orb_false_r, xorb_false_r. }
  rewrite !Hx by lia. rewrite Z.lxor_assoc. f_equal.
  assert (j = 0 \/ j = 1 \/ j = 2 \/ j = 3) as [-> | [-> | [-> | ->]]] by lia; done.
Qed.

Lemma lxor3_split k : Z.lxor k 3 = 4 * (k / 4) + (3 - k mod 4).
Proof.
  rewrite (Z.div_mod k 4) at 1 by lia. apply lxor3. apply Z.mod_pos_bound. lia.
Qed.

(** The bytes [q] have been added to the buffer. *)
Definition in_buffer (b q : list Z) : Prop :=
  length b = 64%nat /\ forall k, 0 <= k < zlen q -> rd b (Z.lxor k 3) = rd q k.

Lemma in_buffer_words b q : in_buffer b q -> length q = 64%nat -> Sha1.words_of b = be_words q.
Proof.
  intros [Hl Hb] Hq. unfold Sha1.words_of, be_words. apply map_ext_in. intros i Hi%in_seq.
  destruct (four_bytes b (4 * i)) as (b0 & b1 & b2 & b3 & -> & H0 & H1 & H2 & H3); [lia|].
  destruct (four_bytes q (4 * i)) as (q0 & q1 & q2 & q3 & -> & G0 & G1 & G2 & G3); [lia|].
  replace (Z.of_nat (4 * i)) with (4 * Z.of_nat i) in * by lia.
  assert (forall j, 0 <= j < 4 -> rd b (4 * Z.of_nat i + (3 - j)) = rd q (4 * Z.of_nat i + j)) as Hj
    by (intros j Hj; rewrite <- lxor3 by done; apply Hb; unfold zlen; lia).
  pose proof (Hj 0 ltac:(lia)) as E0. pose proof (Hj 1 ltac:(lia)) as E1. pose proof (Hj 2 ltac:(lia)) as E2. pose proof (Hj 3 ltac:(lia)) as E3.
  rewrite Z.sub_0_r, Z.add_0_r in E0. change (3 - 1) with 2 in E1. change (3 - 2) with 1 in E2. change (3 - 3) with 0 in E3. rewrite Z.add_0_r in E3.
  rewrite <- get_le_rev. cbn [rev app]. congruence.
Qed.

Lemma in_buffer_add b q x : in_buffer b q -> zlen q < 64 ->
  exists b', wr b (Z.lxor (zlen q) 3) x = Some b' /\ in_buffer b' (q ++ [x]).
Proof.
  intros [Hl Hb] Hq. pose proof (zlen_nonneg q).
  assert (forall k, 0 <= k < 64 -> 0 <= Z.lxor k 3 < 64) as Hr by (intros; rewrite lxor3_split; Z.to_euclidean_division_equations; lia).
  pose proof (Hr (zlen q) ltac:(lia)). rewrite wr_Some by (unfold zlen in *; lia).
  eexists. split; [done|]. split; [by rewrite length_insert|]. intros k Hk. rewrite zlen_app in Hk. change (zlen [x]) with 1 in Hk.
  pose proof (Hr k ltac:(lia)). rewrite (rd_nonneg _ (Z.lxor k 3)) by lia. destruct (decide (k = zlen q)) as [->|Hne].
  - rewrite list_lookup_insert_eq by lia. by rewrite (rd_at q [x] x []).
  - assert (Z.lxor k 3 <> Z.lxor (zlen q) 3) by (rewrite !lxor3_split; Z.to_euclidean_division_equations; lia).
    rewrite list_lookup_insert_ne by lia. rewrite <- rd_nonneg by lia. rewrite Hb by lia.
    rewrite !rd_nonneg by lia. by rewrite lookup_app_l by (unfold zlen in *; lia).
Qed.

Lemma bytes_of_length ws : length ws = 16%nat -> length (Sha1.bytes_of ws) = 64%nat.
Proof. intros Hl. unfold Sha1.bytes_of. by do 16 (destruct ws as [|? ws]; [done|]); destruct ws. Qed.

Lemma hash_block_spec b st n o q : in_buffer b q -> length q = 64%nat -> length st = 5%nat ->
  exists b', Sha1.hash_block (Sha1.Ctx b st n o) = Some (Sha1.Ctx b' (Fips1.compress st q) n o) /\ length b' = 64%nat.
Proof.
  intros Hb Hq Hst. unfold Sha1.hash_block. cbn [Sha1.buffer Sha1.state]. rewrite (in_buffer_words b q Hb Hq).
  destruct (rounds_spec (be_words q) _ _ st (be_words_length q) Hst eq_refl eq_refl) as (ws & -> & Hws). cbn [mbind option_bind].
  change 5 with (Z.of_nat 5). rewrite add_words_spec by (done || by rewrite steps1_length). cbn [mbind option_bind].
  eexists. split; [done|]. by apply bytes_of_length.
Qed.

(** ** Feeding bytes *)

Definition iv1 : list Z := [0x67452301; 0xefcdab89; 0x98badcfe; 0x10325476; 0xc3d2e1f0].
Abbreviation Absorb1 := (absorb Fips1.compress iv1).

Lemma absorb1_length m : length (Absorb1 m) = 5%nat.
Proof. apply (absorb_ind _ _ (fun l => length l = 5%nat)); [done|]. intros. by apply fips1_compress_length. Qed.

(** The context after the bytes [m], the count apart. *)
Definition sha1_holds (c : Sha1.ctx) (m : list Z) : Prop :=
  in_buffer (Sha1.buffer c) (pending m) /\ Sha1.state c = Absorb1 m /\ Sha1.bufferOffset c = zlen (pending m).

Lemma add_uncounted_spec c m x : sha1_holds c m ->
  exists c', Sha1.add_uncounted c x = Some c' /\ sha1_holds c' (m ++ [x]) /\ Sha1.byteCount c' = Sha1.byteCount c.
Proof.
  intros (Hb & Hs & Ho). destruct c as [b st n o]. cbn [Sha1.buffer Sha1.state Sha1.bufferOffset Sha1.byteCount] in *. subst st o.
  pose proof (pending_bound m) as Hpb. unfold Sha1.add_uncounted. cbn [Sha1.buffer Sha1.bufferOffset].
  assert (0 <= zlen (pending m) < 64) as Hz by (unfold zlen; lia).
  destruct (in_buffer_add b (pending m) x Hb) as (b' & -> & Hb'); [lia|]. unfold setter. cbn [mbind option_bind Sha1.buffer Sha1.state Sha1.bufferOffset Sha1.byteCount].
  norm_words. destruct (Z.eqb_spec (zlen (pending m) + 1) 64) as [He|He].
  - destruct (absorb_fill Fips1.compress iv1 m [x]) as [Ha Hn]; [unfold zlen in *; simpl; lia|].
    destruct (hash_block_spec b' (Absorb1 m) n (zlen (pending m) + 1) _ Hb') as (b2 & -> & Hb2);
      [rewrite length_app; unfold zlen in *; simpl; lia|apply absorb1_length|].
    cbn [mbind option_bind]. eexists. split; [done|]. cbn [Sha1.buffer Sha1.state Sha1.bufferOffset Sha1.byteCount]. split; [|done].
    unfold sha1_holds. cbn [Sha1.buffer Sha1.state Sha1.bufferOffset]. rewrite Hn, Ha. split; [split; [done|]|done].
    intros k Hk. change (zlen (@nil Z)) with 0 in Hk. lia.
  - destruct (absorb_part Fips1.compress iv1 m [x]) as [Ha Hn]; [unfold zlen in *; simpl; lia|].
    eexists. split; [done|]. split; [|done]. unfold sha1_holds. cbn [Sha1.buffer Sha1.state Sha1.bufferOffset]. rewrite Hn, Ha.
    split; [done|]. split; [done|]. by rewrite zlen_app.
Qed.

(** ** Messages *)

Definition sha1_represents (c : Sha1.ctx) (m : list Z) : Prop := sha1_holds c m /\ Sha1.byteCount c = u64 (zlen m).

Lemma sha1_update_spec data : forall c m, sha1_represents c m ->
  exists c', Sha1.update c data = Some c' /\ sha1_represents c' (m ++ data).
Proof.
  induction data as [|x data IH]; intros c m [Hc Hn]; cbn [Sha1.update].
  - exists c. by rewrite app_nil_r.
  - set (c1 := c <| Sha1.byteCount := _ |>). assert (sha1_holds c1 m) as Hc1 by (destruct c; exact Hc).
    destruct (add_uncounted_spec c1 m x Hc1) as (c2 & -> & Hc2 & Hn2). cbn [mbind option_bind].
    destruct (IH c2 (m ++ [x])) as (c' & Hu & Hc').
    { split; [done|]. rewrite Hn2. unfold c1, setter. cbn [Sha1.byteCount]. rewrite Hn, u64_add_l. f_equal. by rewrite zlen_app. }
    rewrite <- app_assoc in Hc'. eauto.
Qed.

Lemma zero_until_spec fuel : forall c m, sha1_holds c m -> (56 - zlen (pending m)) mod 64 < Z.of_nat fuel ->
  exists c', Sha1.zero_until fuel c = Some c' /\ sha1_holds c' (m ++ replicate (Z.to_nat ((56 - zlen (pending m)) mod 64)) 0) /\
    Sha1.byteCount c' = Sha1.byteCount c.
Proof.
  induction fuel as [|fuel IH]; intros c m Hc Hf; [pose proof (Z.mod_pos_bound (56 - zlen (pending m)) 64); lia|].
  cbn [Sha1.zero_until]. pose proof Hc as (_ & _ & ->). pose proof (pending_bound m) as Hpb.
  assert (0 <= zlen (pending m) < 64) as Hz by (unfold zlen; lia).
  destruct (Z.eqb_spec (zlen (pending m)) 56) as [He|He].
  - exists c. rewrite He. change ((56 - 56) mod 64) with 0. by rewrite app_nil_r.
  - destruct (add_uncounted_spec c m 0 Hc) as (c1 & -> & Hc1 & Hn1). cbn [mbind option_bind].
    assert (zlen (pending (m ++ [0])) = if decide (zlen (pending m) = 63) then 0 else zlen (pending m) + 1) as Hp.
    { destruct (decide _).
      - destruct (absorb_fill Fips1.compress iv1 m [0]) as [_ ->]; [unfold zlen in *; simpl; lia|done].
      - destruct (absorb_part Fips1.compress iv1 m [0]) as [_ ->]; [unfold zlen in *; simpl; lia|]. by rewrite zlen_app. }
    assert ((56 - zlen (pending (m ++ [0]))) mod 64 = (56 - zlen (pending m)) mod 64 - 1) as Hk.
    { rewrite Hp. destruct (decide _) as [->|]; [done|]. Z.to_euclidean_division_equations; lia. }
    destruct (IH c1 (m ++ [0]) Hc1) as (c' & Hu & Hc' & Hn'); [rewrite Hk; lia|]. exists c'. split; [done|]. split; [|congruence].
    rewrite Hk, <- app_assoc in Hc'.
    replace (Z.to_nat ((56 - zlen (pending m)) mod 64)) with (S (Z.to_nat ((56 - zlen (pending m)) mod 64 - 1)))
      by (Z.to_euclidean_division_equations; lia). exact Hc'.
Qed.

(** ** The end of the message *)

Lemma swap_byte x k : 0 <= k < 4 -> u8 (Z.shiftr (Sha1.swap x) (8 * k)) = u8 (Z.shiftr x (8 * (3 - k))).
Proof.
  intros Hk. apply Z.bits_inj'. intros n Hn. unfold u8. rewrite !wrap_testbit by lia. destruct (Z.ltb_spec n 8); [|done]. cbn [andb].
  rewrite !Z.shiftr_spec by lia. unfold Sha1.swap. rewrite !Z.lor_spec, !Z.land_spec. unfold u32. rewrite !wrap_testbit, !Z.shiftr_spec by lia.
  assert (k = 0 \/ k = 1 \/ k = 2 \/ k = 3) as Hk' by lia.
  assert (n = 0 \/ n = 1 \/ n = 2 \/ n = 3 \/ n = 4 \/ n = 5 \/ n = 6 \/ n = 7) as Hn' by lia.
  destruct Hk' as [-> | [-> | [-> | ->]]]; rewrite !Z.shiftl_spec by lia;
    destruct Hn' as [-> | [-> | [-> | [-> | [-> | [-> | [-> | ->]]]]]]]; cbn -[Z.testbit];
    rewrite ?andb_false_r, ?andb_true_r, ?orb_false_r; try done.
Qed.

Lemma le32_swap x : Sha1.le32 (Sha1.swap x) = be32 x.
Proof.
  rewrite be32_shifts. unfold Sha1.le32. pose proof (swap_byte x 0 ltac:(lia)) as H0. pose proof (swap_byte x 1 ltac:(lia)) as H1.
  pose proof (swap_byte x 2 ltac:(lia)) as H2. pose proof (swap_byte x 3 ltac:(lia)) as H3.
  change (8 * 0) with 0 in H0. change (8 * (3 - 3)) with 0 in H3. rewrite Z.shiftr_0_r in H0, H3.
  change (8 * 1) with 8 in H1. change (8 * 2) with 16 in H2. change (8 * 3) with 24 in H3. by rewrite H0, H1, H2, H3.
Qed.

Lemma swap_state st : length st = 5%nat ->
  for_up 0 5 (fun i st => x ← rd st i; wr st i (Sha1.swap x)) st = Some (map Sha1.swap st).
Proof. intros Hl. by do 5 (destruct st as [|? st]; [done|]); destruct st. Qed.

(** The bytes of the length. *)
Lemma count_bytes n : let c := u64 n in
  be64 (8 * n) = [u8 (Z.shiftr c 53); u8 (Z.shiftr c 45); u8 (Z.shiftr c 37); u8 (Z.shiftr c 29);
                  u8 (Z.shiftr c 21); u8 (Z.shiftr c 13); u8 (Z.shiftr c 5); u8 (u64 (Z.shiftl c 3))].
Proof.
  cbv zeta. rewrite be64_shifts. cbn [map seq]. unfold u64.
  assert (forall k, 3 <= k <= 56 -> u8 (Z.shiftr (8 * n) k) = u8 (Z.shiftr (wrap 64 n) (k - 3))) as Hk.
  { intros k Hk. rewrite u8_shiftr_wrap by lia. f_equal. replace (8 * n) with (Z.shiftl n 3) by (rewrite Z.shiftl_mul_pow2; lia).
    rewrite Z.shiftr_shiftl_r by lia. done. }
  rewrite !Hk by lia. do 8 f_equal. rewrite Z.shiftr_0_r. replace (8 * n) with (Z.shiftl n 3) by (rewrite Z.shiftl_mul_pow2; lia).
  apply Z.bits_inj'. intros k Hk0. unfold u8. rewrite !wrap_testbit by lia. destruct (Z.ltb_spec k 8); [|done].
  rewrite (proj2 (Z.ltb_lt k 64)), !Z.shiftl_spec by lia. cbn [andb]. destruct (Z.lt_ge_cases k 3); [by rewrite !Z.testbit_neg_r by lia|].
  rewrite wrap_testbit by lia. by rewrite (proj2 (Z.ltb_lt (k - 3) 64)) by lia.
Qed.

Lemma sha1_final_spec c m : sha1_represents c m ->
  exists c', Sha1.final c = Some (Fips1.sha1 m, c') /\ length (Sha1.buffer c') = 64%nat.
Proof.
  intros [Hc Hn]. unfold Sha1.final. destruct (add_uncounted_spec c m 128 Hc) as (c1 & -> & Hc1 & Hn1). cbn [mbind option_bind].
  destruct (zero_until_spec 64 c1 (m ++ [128]) Hc1) as (c2 & -> & Hc2 & Hn2); [apply Z.mod_pos_bound; lia|]. cbn [mbind option_bind].
  rewrite Hn2, Hn1, Hn. pose proof (count_bytes (zlen m)) as Hcb. cbv zeta in Hcb.
  repeat match goal with
  | H : sha1_holds ?c ?m |- context [Sha1.add_uncounted ?c ?x] =>
      let c' := fresh "c" in destruct (add_uncounted_spec c m x H) as (c' & -> & ? & ?); clear H; cbn [mbind option_bind]
  end.
  match goal with H : sha1_holds ?c ?m' |- context [Sha1.state ?c] => rename H into Hf; replace m' with (pad be64 m) in Hf end.
  - destruct Hf as ([Hbl _] & -> & _). pose proof (absorb1_length (pad be64 m)) as Hl. rewrite swap_state by done. cbn [mbind option_bind].
    apply (digest_result (fun c => length (Sha1.buffer c) = 64%nat)); [|exact Hbl]. unfold setter. cbn [Sha1.state]. rewrite take_ge by (rewrite length_map; lia). rewrite map_map.
    unfold Fips1.sha1, md_digest. fold iv1. f_equal. apply map_ext, le32_swap.
  - unfold pad. rewrite Hcb, <- !app_assoc. cbn [app]. do 4 f_equal.
    assert (zlen (pending (m ++ [128])) = (zlen m + 1) mod 64) as ->.
    { unfold zlen. rewrite pending_length, Nat2Z.inj_mod, length_app. simpl. f_equal. lia. }
    f_equal. Z.to_euclidean_division_equations; lia.
Qed.
