(* ===== verification/Md5.v ===== *)
(** * MD5 (libjuice [src/picohash.h])

    The functions [_picohash_md5_*], and the standard they implement (RFC 1321).  The code
    works on [uint_fast32_t], whose width [w] is a parameter: 64 bits with glibc on 64-bit
    machines, 32 bits elsewhere. *)

From S2P Require Import Prelude Bytes Words MerkleDamgard.
Open Scope Z_scope.

(** ** The code *)

Module Md5.

Record ctx := Ctx {
  lo : Z; hi : Z; (* uint_fast32_t *)
  a : Z; b : Z; c : Z; d : Z; (* uint_fast32_t *)
  buffer : list Z; (* unsigned char [64] *)
  block : list Z (* uint_fast32_t [16] *) }.

#[global] Instance ctx_eta : RecordEta ctx := fun x => Ctx (lo x) (hi x) (a x) (b x) (c x) (d x) (buffer x) (block x).

(** The lines of the transformation: the function, the local variables it is applied to, the
    word of the block ([SET] also stores it), the constant and the rotation. *)
Inductive func := F | G | H | I.
Inductive reg := A | B | C | D.
Inductive word := SET (n : Z) | GET (n : Z).
Record step := STEP { s_func : func; s_a : reg; s_b : reg; s_c : reg; s_d : reg; s_x : word; s_t : Z; s_s : Z }.

Definition steps : list step := [
  STEP F A B C D (SET 0) 0xd76aa478 7; STEP F D A B C (SET 1) 0xe8c7b756 12;
  STEP F C D A B (SET 2) 0x242070db 17; STEP F B C D A (SET 3) 0xc1bdceee 22;
  STEP F A B C D (SET 4) 0xf57c0faf 7; STEP F D A B C (SET 5) 0x4787c62a 12;
  STEP F C D A B (SET 6) 0xa8304613 17; STEP F B C D A (SET 7) 0xfd469501 22;
  STEP F A B C D (SET 8) 0x698098d8 7; STEP F D A B C (SET 9) 0x8b44f7af 12;
  STEP F C D A B (SET 10) 0xffff5bb1 17; STEP F B C D A (SET 11) 0x895cd7be 22;
  STEP F A B C D (SET 12) 0x6b901122 7; STEP F D A B C (SET 13) 0xfd987193 12;
  STEP F C D A B (SET 14) 0xa679438e 17; STEP F B C D A (SET 15) 0x49b40821 22;
  STEP G A B C D (GET 1) 0xf61e2562 5; STEP G D A B C (GET 6) 0xc040b340 9;
  STEP G C D A B (GET 11) 0x265e5a51 14; STEP G B C D A (GET 0) 0xe9b6c7aa 20;
  STEP G A B C D (GET 5) 0xd62f105d 5; STEP G D A B C (GET 10) 0x02441453 9;
  STEP G C D A B (GET 15) 0xd8a1e681 14; STEP G B C D A (GET 4) 0xe7d3fbc8 20;
  STEP G A B C D (GET 9) 0x21e1cde6 5; STEP G D A B C (GET 14) 0xc33707d6 9;
  STEP G C D A B (GET 3) 0xf4d50d87 14; STEP G B C D A (GET 8) 0x455a14ed 20;
  STEP G A B C D (GET 13) 0xa9e3e905 5; STEP G D A B C (GET 2) 0xfcefa3f8 9;
  STEP G C D A B (GET 7) 0x676f02d9 14; STEP G B C D A (GET 12) 0x8d2a4c8a 20;
  STEP H A B C D (GET 5) 0xfffa3942 4; STEP H D A B C (GET 8) 0x8771f681 11;
  STEP H C D A B (GET 11) 0x6d9d6122 16; STEP H B C D A (GET 14) 0xfde5380c 23;
  STEP H A B C D (GET 1) 0xa4beea44 4; STEP H D A B C (GET 4) 0x4bdecfa9 11;
  STEP H C D A B (GET 7) 0xf6bb4b60 16; STEP H B C D A (GET 10) 0xbebfbc70 23;
  STEP H A B C D (GET 13) 0x289b7ec6 4; STEP H D A B C (GET 0) 0xeaa127fa 11;
  STEP H C D A B (GET 3) 0xd4ef3085 16; STEP H B C D A (GET 6) 0x04881d05 23;
  STEP H A B C D (GET 9) 0xd9d4d039 4; STEP H D A B C (GET 12) 0xe6db99e5 11;
  STEP H C D A B (GET 15) 0x1fa27cf8 16; STEP H B C D A (GET 2) 0xc4ac5665 23;
  STEP I A B C D (GET 0) 0xf4292244 6; STEP I D A B C (GET 7) 0x432aff97 10;
  STEP I C D A B (GET 14) 0xab9423a7 15; STEP I B C D A (GET 5) 0xfc93a039 21;
  STEP I A B C D (GET 12) 0x655b59c3 6; STEP I D A B C (GET 3) 0x8f0ccc92 10;
  STEP I C D A B (GET 10) 0xffeff47d 15; STEP I B C D A (GET 1) 0x85845dd1 21;
  STEP I A B C D (GET 8) 0x6fa87e4f 6; STEP I D A B C (GET 15) 0xfe2ce6e0 10;
  STEP I C D A B (GET 6) 0xa3014314 15; STEP I B C D A (GET 13) 0x4e0811a1 21;
  STEP I A B C D (GET 4) 0xf7537e82 6; STEP I D A B C (GET 11) 0xbd3af235 10;
  STEP I C D A B (GET 2) 0x2ad7d2bb 15; STEP I B C D A (GET 9) 0xeb86d391 21].

Section width.
Context (w : Z).

Definition apply_func (f : func) (x y z : Z) : Z :=
  match f with
  | F => Z.lxor z (Z.land x (Z.lxor y z))
  | G => Z.lxor y (Z.land z (Z.lxor x y))
  | H => Z.lxor (Z.lxor x y) z
  | I => Z.lxor y (Z.lor x (wrap w (Z.lnot z)))
  end.

(** The local variables [a], [b], [c], [d]. *)
Record regs := Regs { r_a : Z; r_b : Z; r_c : Z; r_d : Z }.
Definition get (r : reg) (s : regs) : Z := match r with A => r_a s | B => r_b s | C => r_c s | D => r_d s end.
Definition set (r : reg) (v : Z) (s : regs) : regs :=
  match r with
  | A => Regs v (r_b s) (r_c s) (r_d s)
  | B => Regs (r_a s) v (r_c s) (r_d s)
  | C => Regs (r_a s) (r_b s) v (r_d s)
  | D => Regs (r_a s) (r_b s) (r_c s) v
  end.

Definition word_of (ptr : list Z) (x : word) (block : list Z) : option (Z * list Z) :=
  match x with
  | SET n =>
      p0 ← rd ptr (n * 4); p1 ← rd ptr (n * 4 + 1); p2 ← rd ptr (n * 4 + 2); p3 ← rd ptr (n * 4 + 3);
      let v := Z.lor (Z.lor (Z.lor p0 (wrap w (Z.shiftl p1 8))) (wrap w (Z.shiftl p2 16))) (wrap w (Z.shiftl p3 24)) in
      block ← wr block n v; Some (v, block)
  | GET n => v ← rd block n; Some (v, block)
  end.

Definition run_step (ptr : list Z) (st : step) (s : regs * list Z) : option (regs * list Z) :=
  let '(s, block) := s in
  '(x, block) ← word_of ptr (s_x st) block;
  let a := get (s_a st) s in
  let a := wrap w (a + wrap w (apply_func (s_func st) (get (s_b st) s) (get (s_c st) s) (get (s_d st) s) + x + s_t st)) in
  let a := Z.lor (wrap w (Z.shiftl a (s_s st))) (Z.shiftr (Z.land a 0xffffffff) (32 - s_s st)) in
  let a := wrap w (a + get (s_b st) s) in
  Some (set (s_a st) a s, block).

Fixpoint run_steps (ptr : list Z) (l : list step) (s : regs * list Z) : option (regs * list Z) :=
  match l with [] => Some s | st :: l => s ← run_step ptr st s; run_steps ptr l s end.

(** The [do] loop of [_picohash_md5_body]; also what is left of the data. *)
Fixpoint body_loop (fuel : nat) (ptr : list Z) (size : Z) (s : regs) (block : list Z) : option (regs * list Z * list Z) :=
  match fuel with
  | O => None
  | S fuel =>
      '(r, block) ← run_steps ptr steps (s, block);
      let s := Regs (wrap w (r_a r + r_a s)) (wrap w (r_b r + r_b s)) (wrap w (r_c r + r_c s)) (wrap w (r_d r + r_d s)) in
      let ptr := drop 64 ptr in
      let size := u64 (size - 64) in
      if negb (size =? 0) then body_loop fuel ptr size s block else Some (s, block, ptr)
  end.

Definition body (x : ctx) (data : list Z) (size : Z) : option (list Z * ctx) :=
  '(s, blk, ptr) ← body_loop (Z.to_nat size) data size (Regs (a x) (b x) (c x) (d x)) (block x);
  Some (ptr, x <| a := r_a s |> <| b := r_b s |> <| c := r_c s |> <| d := r_d s |> <| block := blk |>).

Definition init (x : ctx) : ctx :=
  x <| a := 0x67452301 |> <| b := 0xefcdab89 |> <| c := 0x98badcfe |> <| d := 0x10325476 |> <| lo := 0 |> <| hi := 0 |>.

(** The counters. *)
Definition count (x : ctx) (size : Z) : ctx :=
  let saved_lo := lo x in
  let x := x <| lo := Z.land (u64 (saved_lo + size)) 0x1fffffff |> in
  let x := if lo x <? saved_lo then x <| hi := wrap w (hi x + 1) |> else x in
  x <| hi := wrap w (hi x + wrap w (Z.shiftr size 29)) |>.

(** The full blocks of the data; also what is left of it. *)
Definition whole_blocks (x : ctx) (data : list Z) (size : Z) : option (list Z * Z * ctx) :=
  if 64 <=? size then
    '(data, x) ← body x data (Z.land size (u64 (Z.lnot 0x3f)));
    Some (data, Z.land size 0x3f, x)
  else Some (data, size, x).

Definition update_blocks (x : ctx) (data : list Z) (size : Z) : option ctx :=
  '(data, size, x) ← whole_blocks x data size;
  chunk ← rd_bytes data 0 size;
  buf ← wr_bytes (buffer x) 0 chunk;
  Some (x <| buffer := buf |>).

Definition update (x : ctx) (data : list Z) : option ctx :=
  let size := zlen data in
  let used := Z.land (lo x) 0x3f in
  let x := count x size in
  if negb (used =? 0) then
    let free := 64 - used in
    if size <? free then buf ← wr_bytes (buffer x) used data; Some (x <| buffer := buf |>) else
    chunk ← rd_bytes data 0 free;
    buf ← wr_bytes (buffer x) used chunk;
    '(_, x) ← body (x <| buffer := buf |>) buf 64;
    update_blocks x (drop (Z.to_nat free) data) (size - free)
  else update_blocks x data size.

Definition le_bytes (v : Z) : list Z := [u8 v; u8 (Z.shiftr v 8); u8 (Z.shiftr v 16); u8 (Z.shiftr v 24)].

(** [memset(ctx, 0, sizeof( *ctx ))] *)
Definition zero_ctx : ctx := Ctx 0 0 0 0 0 0 (replicate 64 0) (replicate 16 0).

(** A block that has no room for the length; [used] bytes are used. *)
Definition final_flush (x : ctx) (used : Z) : option (ctx * Z) :=
  let free := 64 - used in
  if free <? 8 then
    buf ← wr_bytes (buffer x) used (replicate (Z.to_nat free) 0);
    '(_, x) ← body (x <| buffer := buf |>) buf 64;
    Some (x, 0)
  else Some (x, used).

Definition final (x : ctx) : option (list Z * ctx) :=
  let used := Z.land (lo x) 0x3f in
  buf ← wr (buffer x) used 0x80;
  '(x, used) ← final_flush (x <| buffer := buf |>) (used + 1);
  let free := 64 - used in
  buf ← wr_bytes (buffer x) used (replicate (Z.to_nat (free - 8)) 0);
  let x := x <| lo := wrap w (Z.shiftl (lo x) 3) |> in
  buf ← wr_bytes buf 56 (le_bytes (lo x) ++ le_bytes (hi x));
  '(_, x) ← body (x <| buffer := buf |>) buf 64;
  Some (le_bytes (a x) ++ le_bytes (b x) ++ le_bytes (c x) ++ le_bytes (d x), zero_ctx).

End width.
End Md5.

(** ** The standard *)

Module Rfc1321.

Definition Not (x : Z) : Z := u32 (Z.lnot x).
Definition F (x y z : Z) : Z := Z.lor (Z.land x y) (Z.land (Not x) z).
Definition G (x y z : Z) : Z := Z.lor (Z.land x z) (Z.land y (Not z)).
Definition H (x y z : Z) : Z := Z.lxor (Z.lxor x y) z.
Definition I (x y z : Z) : Z := Z.lxor y (Z.lor x (Not z)).

Definition T : list Z := [
  0xd76aa478; 0xe8c7b756; 0x242070db; 0xc1bdceee; 0xf57c0faf; 0x4787c62a; 0xa8304613; 0xfd469501;
  0x698098d8; 0x8b44f7af; 0xffff5bb1; 0x895cd7be; 0x6b901122; 0xfd987193; 0xa679438e; 0x49b40821;
  0xf61e2562; 0xc040b340; 0x265e5a51; 0xe9b6c7aa; 0xd62f105d; 0x02441453; 0xd8a1e681; 0xe7d3fbc8;
  0x21e1cde6; 0xc33707d6; 0xf4d50d87; 0x455a14ed; 0xa9e3e905; 0xfcefa3f8; 0x676f02d9; 0x8d2a4c8a;
  0xfffa3942; 0x8771f681; 0x6d9d6122; 0xfde5380c; 0xa4beea44; 0x4bdecfa9; 0xf6bb4b60; 0xbebfbc70;
  0x289b7ec6; 0xeaa127fa; 0xd4ef3085; 0x04881d05; 0xd9d4d039; 0xe6db99e5; 0x1fa27cf8; 0xc4ac5665;
  0xf4292244; 0x432aff97; 0xab9423a7; 0xfc93a039; 0x655b59c3; 0x8f0ccc92; 0xffeff47d; 0x85845dd1;
  0x6fa87e4f; 0xfe2ce6e0; 0xa3014314; 0x4e0811a1; 0xf7537e82; 0xbd3af235; 0x2ad7d2bb; 0xeb86d391].

(** Step [i] of the four rounds: the function, the word and the rotation. *)
Definition f (i : nat) : Z -> Z -> Z -> Z := nth (i / 16) [F; G; H; I] F.
Definition k (i : nat) : nat := (nth (i / 16) [i; 5 * i + 1; 3 * i + 5; 7 * i] 0 mod 16)%nat.
Definition shift (i : nat) : Z :=
  nth (i mod 4) (nth (i / 16) [[7; 12; 17; 22]; [5; 9; 14; 20]; [4; 11; 16; 23]; [6; 10; 15; 21]] []) 0.
Definition ROTL (n x : Z) : Z := Z.lor (u32 (Z.shiftl x n)) (Z.shiftr x (32 - n)).

Definition le_words (block : list Z) : list Z := map (fun i => get_le (take 4 (drop (4 * i) block))) (seq 0 16).

Definition step (X : list Z) (st : list Z) (i : nat) : list Z :=
  match st with
  | [a; b; c; d] =>
      [d; u32 (b + ROTL (shift i) (u32 (a + f i b c d + nth (k i) X 0 + nth i T 0))); b; c]
  | _ => st
  end.

Definition compress (h block : list Z) : list Z :=
  zip_with (fun x y => u32 (x + y)) h (fold_left (step (le_words block)) (seq 0 64) h).

Definition le32 (x : Z) : list Z := rev (be32 x).
Definition le64 (x : Z) : list Z := rev (be64 x).

Definition md5 (m : list Z) : list Z :=
  md_digest compress [0x67452301; 0xefcdab89; 0x98badcfe; 0x10325476] le64 (fun h => concat (map le32 h)) m.

End Rfc1321.
