(* ===== verification/Md5Props.v ===== *)
(** * The MD5 code computes MD5

    Whatever the width [w >= 32] of [uint_fast32_t] is, the low 32 bits of the chaining
    variables are those of the standard: bits above them never come back. *)

From S2P Require Import Prelude Bytes Words MerkleDamgard Md5.
Open Scope Z_scope.

(** A step of the monad by rewriting: conversion would run the transformation instead. *)
Lemma bind_Some {A B : Type} (f : A -> option B) x : (Some x ≫= f) = f x.
Proof. done. Qed.

Section md5.
Context (w : Z) (Hw : 32 <= w).

(** ** Low bits *)

Lemma u32_wrap x : u32 (wrap w x) = u32 x.
Proof. by apply eq32_wrap. Qed.

Lemma u32_testbit x n : 0 <= n -> Z.testbit (u32 x) n = (n <? 32) && Z.testbit x n.
Proof. intros. by apply wrap_testbit. Qed.

Lemma u32_lxor x y : u32 (Z.lxor x y) = Z.lxor (u32 x) (u32 y).
Proof. apply Z.bits_inj'. intros n Hn. rewrite Z.lxor_spec, !u32_testbit, Z.lxor_spec by done. by destruct (n <? 32). Qed.
Lemma u32_land x y : u32 (Z.land x y) = Z.land (u32 x) (u32 y).
Proof. apply Z.bits_inj'. intros n Hn. rewrite Z.land_spec, !u32_testbit, Z.land_spec by done. by destruct (n <? 32). Qed.
Lemma u32_lor x y : u32 (Z.lor x y) = Z.lor (u32 x) (u32 y).
Proof. apply Z.bits_inj'. intros n Hn. rewrite Z.lor_spec, !u32_testbit, Z.lor_spec by done. by destruct (n <? 32). Qed.

Definition spec_func (f : Md5.func) : Z -> Z -> Z -> Z :=
  match f with Md5.F => Rfc1321.F | Md5.G => Rfc1321.G | Md5.H => Rfc1321.H | Md5.I => Rfc1321.I end.

Lemma not_u32 x : u32 (Z.lnot x) = Rfc1321.Not (u32 x).
Proof.
  unfold Rfc1321.Not. apply Z.bits_inj'. intros n Hn. rewrite !u32_testbit, !Z.lnot_spec, u32_testbit by done. by destruct (n <? 32).
Qed.

(** Selecting bits. *)
Lemma choose_bits x y z : Z.lxor (u32 z) (Z.land (u32 x) (Z.lxor (u32 y) (u32 z))) =
  Z.lor (Z.land (u32 x) (u32 y)) (Z.land (Rfc1321.Not (u32 x)) (u32 z)).
Proof.
  apply Z.bits_inj'. intros n Hn. unfold Rfc1321.Not.
  rewrite Z.lxor_spec, Z.lor_spec, !Z.land_spec, Z.lxor_spec, !u32_testbit, Z.lnot_spec, u32_testbit by done.
  destruct (n <? 32), (Z.testbit x n), (Z.testbit y n), (Z.testbit z n); done.
Qed.

Lemma apply_func_spec f x y z : u32 (Md5.apply_func w f x y z) = spec_func f (u32 x) (u32 y) (u32 z).
Proof.
  destruct f; cbn [Md5.apply_func spec_func]; unfold Rfc1321.F, Rfc1321.G, Rfc1321.H, Rfc1321.I;
    rewrite ?u32_lxor, ?u32_land, ?u32_lor, ?u32_wrap, ?u32_lxor, ?not_u32; try done.
  - apply choose_bits.
  - rewrite (Z.lor_comm (Z.land (u32 x) (u32 z))), (Z.land_comm (u32 y)), (Z.land_comm (u32 x)), Z.lor_comm. apply choose_bits.
Qed.

Lemma rotate_spec x s : 0 <= s <= 32 ->
  u32 (Z.lor (wrap w (Z.shiftl x s)) (Z.shiftr (Z.land x 0xffffffff) (32 - s))) = Rfc1321.ROTL s (u32 x).
Proof.
  intros Hs. unfold Rfc1321.ROTL. rewrite u32_lor, u32_wrap, land_mask, u32_shiftl by lia. f_equal.
  apply u32_small, (in_range_shiftr 32); [lia|apply u32_range].
Qed.

Lemma rotl_u32 x s : 0 <= s <= 32 -> u32 (Rfc1321.ROTL s (u32 x)) = Rfc1321.ROTL s (u32 x).
Proof. intros Hs. by rewrite <- (rotate_spec x s), u32_idem by done. Qed.

(** ** One line *)

Definition roles (i : nat) : Md5.reg * Md5.reg * Md5.reg * Md5.reg :=
  nth (i mod 4) [(Md5.A, Md5.B, Md5.C, Md5.D); (Md5.D, Md5.A, Md5.B, Md5.C); (Md5.C, Md5.D, Md5.A, Md5.B); (Md5.B, Md5.C, Md5.D, Md5.A)]
    (Md5.A, Md5.B, Md5.C, Md5.D).

Lemma roles_cases i :
  (roles i = (Md5.A, Md5.B, Md5.C, Md5.D) /\ roles (S i) = (Md5.D, Md5.A, Md5.B, Md5.C)) \/
  (roles i = (Md5.D, Md5.A, Md5.B, Md5.C) /\ roles (S i) = (Md5.C, Md5.D, Md5.A, Md5.B)) \/
  (roles i = (Md5.C, Md5.D, Md5.A, Md5.B) /\ roles (S i) = (Md5.B, Md5.C, Md5.D, Md5.A)) \/
  (roles i = (Md5.B, Md5.C, Md5.D, Md5.A) /\ roles (S i) = (Md5.A, Md5.B, Md5.C, Md5.D)).
Proof.
  unfold roles. pose proof (Nat.mod_upper_bound i 4 ltac:(lia)) as Hi. pose proof (Nat.div_mod_eq i 4) as He.
  assert (S i mod 4 = if decide (i mod 4 = 3) then 0 else S (i mod 4))%nat as ->.
  { destruct (decide _); symmetry; [apply (Nat.mod_unique _ _ (S (i / 4)))|apply (Nat.mod_unique _ _ (i / 4))]; lia. }
  destruct (i mod 4)%nat as [|[|[|[|]]]]; cbn; [tauto..|lia].
Qed.

(** The state of the standard at step [i], in the registers of the code. *)
Definition view (i : nat) (s : Md5.regs) : list Z :=
  let '(a, b, c, d) := roles i in map (fun r => u32 (Md5.get r s)) [a; b; c; d].

(** Line [i] of the code. *)
Definition line (i : nat) : Md5.step :=
  let '(a, b, c, d) := roles i in
  Md5.STEP (nth (i / 16) [Md5.F; Md5.G; Md5.H; Md5.I] Md5.F) a b c d
    (if (i <? 16)%nat then Md5.SET (Z.of_nat (Rfc1321.k i)) else Md5.GET (Z.of_nat (Rfc1321.k i))) (nth i Rfc1321.T 0) (Rfc1321.shift i).

Lemma steps_lines : Md5.steps = map line (seq 0 64).
Proof. vm_compute. reflexivity. Qed.

Lemma lines_facts : forallb (fun i => (0 <=? Rfc1321.shift i) && (Rfc1321.shift i <=? 32) && (Rfc1321.k i <? 16)%nat
  && ((16 <=? i)%nat || (Rfc1321.k i =? i)%nat)) (seq 0 64) = true.
Proof. vm_compute. reflexivity. Qed.

Lemma line_facts i : (i < 64)%nat -> 0 <= Rfc1321.shift i <= 32 /\ (Rfc1321.k i < 16)%nat /\ ((i < 16)%nat -> Rfc1321.k i = i).
Proof.
  intros Hi. pose proof (proj1 (forallb_forall _ _) lines_facts i ltac:(apply in_seq; lia)) as H.
  rewrite !andb_true_iff, orb_true_iff, !Z.leb_le, Nat.ltb_lt, Nat.leb_le, Nat.eqb_eq in H. intuition lia.
Qed.

Lemma run_step_view ptr i s block x block' : (i < 64)%nat ->
  Md5.word_of w ptr (Md5.s_x (line i)) block = Some (x, block') -> forall X, u32 (nth (Rfc1321.k i) X 0) = u32 x ->
  exists s', Md5.run_step w ptr (line i) (s, block) = Some (s', block') /\ view (S i) s' = Rfc1321.step X (view i s) i.
Proof.
  intros Hi Hx X HX. destruct (line_facts i Hi) as (Hs & _ & _). unfold Md5.run_step. rewrite Hx. cbn [mbind option_bind].
  eexists. split; [done|].
  assert (forall a b f t sh c d, Rfc1321.f i = spec_func f -> nth i Rfc1321.T 0 = t -> Rfc1321.shift i = sh ->
    u32 (wrap w (Z.lor (wrap w (Z.shiftl (wrap w (a + wrap w (Md5.apply_func w f b c d + x + t))) sh))
      (Z.shiftr (Z.land (wrap w (a + wrap w (Md5.apply_func w f b c d + x + t))) 0xffffffff) (32 - sh)) + b)) =
    u32 (u32 b + Rfc1321.ROTL (Rfc1321.shift i) (u32 (u32 a + Rfc1321.f i (u32 b) (u32 c) (u32 d) + nth (Rfc1321.k i) X 0 + nth i Rfc1321.T 0)))) as Hv.
  { intros a b f t sh c d -> <- <-. rewrite u32_wrap. rewrite Z.add_comm. apply eq32_add; [symmetry; apply eq32_u32|].
    unfold eq32. rewrite rotate_spec, rotl_u32 by lia.
    f_equal. rewrite u32_wrap, <- !Z.add_assoc. apply eq32_add; [symmetry; apply eq32_u32|]. unfold eq32.
    rewrite u32_wrap. apply eq32_add; [unfold eq32; by rewrite <- apply_func_spec, u32_idem|].
    apply eq32_add; [|done]. symmetry. apply HX. }
  assert (Rfc1321.f i = spec_func (nth (i / 16) [Md5.F; Md5.G; Md5.H; Md5.I] Md5.F)) as Hf by (unfold Rfc1321.f; by rewrite <- (map_nth spec_func)).
  unfold view, line. destruct (roles_cases i) as [[-> ->]|[[-> ->]|[[-> ->]|[-> ->]]]];
    cbn [Md5.s_func Md5.s_a Md5.s_b Md5.s_c Md5.s_d Md5.s_t Md5.s_s Md5.get Md5.set map Md5.r_a Md5.r_b Md5.r_c Md5.r_d Rfc1321.step];
    rewrite (Hv _ _ _ _ _ _ _ Hf eq_refl eq_refl); reflexivity.
Qed.

(** ** The block *)

(** The words of the standard in the block array, once they are set. *)
Definition block_ok (bs : list Z) (i : nat) (block : list Z) : Prop :=
  length block = 16%nat /\ forall k, (k < Nat.min i 16)%nat -> nth k block 0 = nth k (Rfc1321.le_words bs) 0.

Lemma le_words_nth bs k : (k < 16)%nat -> nth k (Rfc1321.le_words bs) 0 = get_le (take 4 (drop (4 * k) bs)).
Proof.
  intros Hk. apply nth_lookup_Some. unfold Rfc1321.le_words. rewrite list_lookup_fmap, lookup_seq_lt by done. done.
Qed.

Lemma le_word b0 b1 b2 b3 : byte b0 -> byte b1 -> byte b2 -> byte b3 ->
  Z.lor (Z.lor (Z.lor b0 (wrap w (Z.shiftl b1 8))) (wrap w (Z.shiftl b2 16))) (wrap w (Z.shiftl b3 24)) = get_le [b0; b1; b2; b3].
Proof.
  unfold byte. intros. assert (2 ^ 32 <= 2 ^ w) by (apply Z.pow_le_mono_r; lia). unfold get_le. cbn [foldr].
  rewrite !wrap_small by (unfold in_range; rewrite Z.shiftl_mul_pow2; lia).
  rewrite !Z.shiftl_lor, !Z.shiftl_shiftl by lia. rewrite Z.shiftl_0_l. change (8 + 8) with 16. change (8 + 8 + 8) with 24. change (8 + 16) with 24.
  change (16 + 8) with 24. rewrite Z.lor_0_l. bitwise.
Qed.

Lemma word_of_spec bs rest i block : (i < 64)%nat -> length bs = 64%nat -> Forall byte bs -> block_ok bs i block ->
  exists block', Md5.word_of w (bs ++ rest) (Md5.s_x (line i)) block = Some (nth (Rfc1321.k i) (Rfc1321.le_words bs) 0, block') /\ block_ok bs (S i) block'.
Proof.
  intros Hi Hl Hb [Hbl Hbw]. destruct (line_facts i Hi) as (_ & Hk & Hki).
  assert (Md5.s_x (line i) = if (i <? 16)%nat then Md5.SET (Z.of_nat (Rfc1321.k i)) else Md5.GET (Z.of_nat (Rfc1321.k i))) as ->
    by (unfold line; by destruct (roles i) as [[[? ?] ?] ?]).
  destruct (Nat.ltb_spec i 16) as [H16|H16]; cbn [Md5.word_of].
  - rewrite Hki in * by done. destruct (four_bytes (bs ++ rest) (4 * i)) as (b0 & b1 & b2 & b3 & Ht & H0 & H1 & H2 & H3); [rewrite length_app; lia|].
    replace (Z.of_nat (4 * i)) with (Z.of_nat i * 4) in * by lia. rewrite H0, H1, H2, H3. cbn [mbind option_bind].
    rewrite drop_app_le, take_app_le in Ht by (rewrite ?length_drop; lia).
    assert (Forall byte [b0; b1; b2; b3]) as Hby by (rewrite <- Ht; by apply Forall_take, Forall_drop).
    rewrite !Forall_cons in Hby. destruct Hby as (? & ? & ? & ? & _). rewrite le_word by done.
    rewrite le_words_nth, Ht by done. rewrite wr_Some by (unfold zlen; lia). cbn [mbind option_bind]. eexists. split; [done|].
    rewrite Nat2Z.id. split; [by rewrite length_insert|]. intros k Hk'. destruct (decide (k = i)) as [->|Hne].
    + rewrite le_words_nth, Ht by done. apply nth_lookup_Some. apply list_lookup_insert_eq. lia.
    + rewrite nth_lookup, list_lookup_insert_ne by done. rewrite <- nth_lookup. apply Hbw. lia.
  - rewrite nth_rd by (unfold zlen; lia). rewrite Nat2Z.id. cbn [mbind option_bind]. exists block. rewrite Hbw by lia. split; [done|].
    split; [done|]. intros k Hk'. apply Hbw. lia.
Qed.

Lemma run_lines_spec bs rest n : length bs = 64%nat -> Forall byte bs -> forall i s block, (i + n <= 64)%nat -> block_ok bs i block ->
  exists s' block', Md5.run_steps w (bs ++ rest) (map line (seq i n)) (s, block) = Some (s', block') /\ length block' = 16%nat /\
    view (i + n) s' = fold_left (Rfc1321.step (Rfc1321.le_words bs)) (seq i n) (view i s).
Proof.
  intros Hl Hb. induction n as [|n IH]; intros i s block Hi Hbl; cbn [seq map Md5.run_steps fold_left].
  - exists s, block. rewrite Nat.add_0_r. split; [done|]. by split; [apply Hbl|].
  - destruct (word_of_spec bs rest i block) as (block1 & Hx & Hbl1); [lia|done..|].
    destruct (run_step_view (bs ++ rest) i s block _ block1 ltac:(lia) Hx (Rfc1321.le_words bs) eq_refl) as (s1 & -> & Hv). cbn [mbind option_bind].
    destruct (IH (S i) s1 block1) as (s' & block' & Hr & Hl' & Hv'); [lia|done|]. exists s', block'. rewrite Hr. split; [done|]. split; [done|].
    replace (i + S n)%nat with (S i + n)%nat by lia. by rewrite Hv', Hv.
Qed.

(** ** Blocks *)

Lemma view_add s r : zip_with (fun x y => u32 (x + y)) (view 0 s) (view 0 r) =
  view 0 (Md5.Regs (wrap w (Md5.r_a r + Md5.r_a s)) (wrap w (Md5.r_b r + Md5.r_b s)) (wrap w (Md5.r_c r + Md5.r_c s)) (wrap w (Md5.r_d r + Md5.r_d s))).
Proof.
  assert (forall x y, u32 (u32 x + u32 y) = u32 (wrap w (y + x))) as He by (intros; by rewrite u32_wrap, u32_add_l, u32_add_r, Z.add_comm).
  unfold view. cbn [roles Nat.modulo nth map zip_with Md5.get Md5.r_a Md5.r_b Md5.r_c Md5.r_d]. cbn. by rewrite !He.
Qed.

Lemma block_spec bs rest s block : length bs = 64%nat -> Forall byte bs -> length block = 16%nat ->
  exists r block', Md5.run_steps w (bs ++ rest) Md5.steps (s, block) = Some (r, block') /\ length block' = 16%nat /\
    zip_with (fun x y => u32 (x + y)) (view 0 s) (view 0 r) = Rfc1321.compress (view 0 s) bs.
Proof.
  intros Hl Hb Hbl. destruct (run_lines_spec bs rest 64 Hl Hb 0 s block) as (r & block' & Hr & Hbl' & Hv); [lia|split; [done|lia]|].
  rewrite <- steps_lines in Hr. exists r, block'. split; [done|]. split; [done|]. unfold Rfc1321.compress. rewrite <- Hv. done.
Qed.

Lemma body_loop_spec n : forall fuel bs rest s block, (n < fuel)%nat -> length bs = (64 * S n)%nat -> Forall byte bs -> length block = 16%nat ->
  zlen bs < 18446744073709551616 ->
  exists s' block', Md5.body_loop w fuel (bs ++ rest) (zlen bs) s block = Some (s', block', rest) /\ length block' = 16%nat /\
    view 0 s' = absorb_blocks Rfc1321.compress (S n) (view 0 s) bs.
Proof.
  induction n as [|n IH]; intros fuel bs rest s block Hf Hl Hb Hbl H64; (destruct fuel as [|fuel]; [lia|]); cbn [Md5.body_loop].
  - destruct (block_spec bs rest s block) as (r & block' & -> & Hbl' & Hv); [lia|done..|]. cbn [mbind option_bind].
    replace (u64 (zlen bs - 64)) with 0 by (unfold zlen; rewrite Hl; done). cbn [Z.eqb negb].
    assert (drop 64 (bs ++ rest) = rest) as -> by (replace 64%nat with (length bs) by lia; apply drop_app_length).
    eexists _, block'. split; [done|]. split; [done|]. by rewrite <- view_add, Hv, absorb_blocks_one.
  - destruct (block_spec (take 64 bs) (drop 64 bs ++ rest) s block) as (r & block' & Hr & Hbl' & Hv);
      [rewrite length_take; lia|by apply Forall_take|done|].
    rewrite app_assoc, take_drop in Hr. rewrite Hr. cbn [mbind option_bind].
    assert (zlen (drop 64 bs) = zlen bs - 64) as Hz by (rewrite zlen_drop; unfold zlen; lia).
    rewrite u64_small by (unfold zlen in *; lia). rewrite (proj2 (Z.eqb_neq _ 0)) by (unfold zlen in *; lia). cbn [negb].
    rewrite drop_app_le by lia. set (s1 := Md5.Regs _ _ _ _).
    destruct (IH fuel (drop 64 bs) rest s1 block') as (s' & b2 & Hbody & Hb2 & Hv'); [lia|rewrite length_drop; lia|by apply Forall_drop|done|lia|].
    rewrite Hz in Hbody. exists s', b2. rewrite Hbody. split; [done|]. split; [done|]. rewrite Hv'. unfold s1. rewrite <- view_add, Hv. done.
Qed.

(** ** Contexts *)

Definition chain (x : Md5.ctx) : list Z := view 0 (Md5.Regs (Md5.a x) (Md5.b x) (Md5.c x) (Md5.d x)).

Lemma body_spec x bs rest n : length bs = (64 * S n)%nat -> Forall byte bs -> length (Md5.block x) = 16%nat -> zlen bs < 18446744073709551616 ->
  exists x', Md5.body w x (bs ++ rest) (zlen bs) = Some (rest, x') /\ length (Md5.block x') = 16%nat /\
    chain x' = absorb_blocks Rfc1321.compress (S n) (chain x) bs /\
    Md5.lo x' = Md5.lo x /\ Md5.hi x' = Md5.hi x /\ Md5.buffer x' = Md5.buffer x.
Proof.
  intros Hl Hb Hbl H64. unfold Md5.body.
  destruct (body_loop_spec n (Z.to_nat (zlen bs)) bs rest (Md5.Regs (Md5.a x) (Md5.b x) (Md5.c x) (Md5.d x)) (Md5.block x)) as (s' & b' & -> & Hb' & Hv);
    [unfold zlen; lia|done..|].
  cbn [mbind option_bind]. eexists. split; [done|]. split_and!; try done.
Qed.

Definition iv5 : list Z := [0x67452301; 0xefcdab89; 0x98badcfe; 0x10325476].
Abbreviation Absorb5 := (absorb Rfc1321.compress iv5).

(** The count of bytes, 29 bits in [lo]. *)
Definition counts (x : Md5.ctx) (n : Z) : Prop := Md5.lo x = n mod 536870912 /\ eq32 (Md5.hi x) (n / 536870912).

(** The context after the bytes [m]. *)
Definition md5_holds (x : Md5.ctx) (m : list Z) : Prop :=
  Forall byte m /\ length (Md5.buffer x) = 64%nat /\ length (Md5.block x) = 16%nat /\ chain x = Absorb5 m /\
  take (length (pending m)) (Md5.buffer x) = pending m.
Definition md5_represents (x : Md5.ctx) (m : list Z) : Prop := md5_holds x m /\ counts x (zlen m).

Lemma count_spec x n size : counts x n -> 0 <= n -> 0 <= size -> counts (Md5.count w x size) (n + size).
Proof.
  intros [Hlo Hhi] Hn Hs. unfold Md5.count.
  assert (Z.land (u64 (Md5.lo x + size)) 536870911 = (n + size) mod 536870912) as Hl.
  { change 536870911 with (Z.ones 29). rewrite Z.land_ones by lia. change (2 ^ 29) with 536870912. rewrite Hlo. unfold u64, wrap.
    change (2 ^ 64) with (536870912 * 34359738368). rewrite Z.mod_mod_divide by (by exists 34359738368). by rewrite Z.add_mod_idemp_l by lia. }
  assert (size / 2 ^ 29 = size / 536870912) as Hs29 by done.
  unfold setter. cbn [Md5.lo Md5.hi]. rewrite Hl. split.
  - by destruct (_ <? _).
  - rewrite Z.shiftr_div_pow2, Hs29 by lia. pose proof (Z.mod_pos_bound n 536870912 ltac:(lia)).
    assert ((n + size) / 536870912 = n / 536870912 + size / 536870912 + (if (n + size) mod 536870912 <? Md5.lo x then 1 else 0)) as ->.
    { rewrite Hlo. destruct (Z.ltb_spec ((n + size) mod 536870912) (n mod 536870912)); Z.to_euclidean_division_equations; lia. }
    assert (forall h e, eq32 h (n / 536870912 + e) -> eq32 (wrap w (h + wrap w (size / 536870912))) (n / 536870912 + size / 536870912 + e)) as Hh.
    { intros h e He. etrans; [apply eq32_wrap; done|]. rewrite <- Z.add_assoc, (Z.add_comm (size / _)), Z.add_assoc. apply eq32_add; [done|by apply eq32_wrap]. }
    destruct (_ <? Md5.lo x); cbn [Md5.hi]; apply Hh; [|by rewrite Z.add_0_r]. etrans; [apply eq32_wrap; done|]. by apply eq32_add.
Qed.

Lemma count_other x size : chain (Md5.count w x size) = chain x /\ Md5.buffer (Md5.count w x size) = Md5.buffer x /\ Md5.block (Md5.count w x size) = Md5.block x.
Proof. unfold Md5.count. cbv zeta. by destruct (_ <? _). Qed.

Lemma lo_used x n : counts x n -> Z.land (Md5.lo x) 63 = n mod 64.
Proof.
  intros [-> _]. change 63 with (Z.ones 6). rewrite Z.land_ones by lia. change (2 ^ 6) with 64. change 536870912 with (64 * 8388608).
  apply Z.mod_mod_divide. by exists 8388608.
Qed.

Lemma pending_zlen m : zlen (pending m) = zlen m mod 64.
Proof. unfold zlen. by rewrite pending_length, Nat2Z.inj_mod. Qed.

Lemma land_not63 x : 0 <= x < 18446744073709551616 -> Z.land x (u64 (Z.lnot 63)) = x / 64 * 64.
Proof.
  intros Hx. transitivity (Z.ldiff x (Z.ones 6)); [|rewrite Z.ldiff_ones_r, Z.shiftl_mul_pow2, Z.shiftr_div_pow2 by lia; done].
  rewrite Z.ldiff_land. apply Z.bits_inj'. intros k Hk. rewrite !Z.land_spec. unfold u64. rewrite wrap_testbit by lia.
  destruct (Z.ltb_spec k 64); [done|]. by rewrite (testbit_out 64 x k) by done.
Qed.

Lemma chain_buffer x b : chain (x <| Md5.buffer := b |>) = chain x.
Proof. done. Qed.

(** Data behind whole blocks. *)
Lemma update_blocks_spec x m data : md5_holds x m -> pending m = [] -> Forall byte data -> zlen data < 18446744073709551616 ->
  exists x', Md5.update_blocks w x data (zlen data) = Some x' /\ md5_holds x' (m ++ data) /\ Md5.lo x' = Md5.lo x /\ Md5.hi x' = Md5.hi x.
Proof.
  intros (Hm & Hbuf & Hblk & Hch & _) Hp Hd H64. unfold Md5.update_blocks.
  set (n := (length data / 64)%nat). set (bs := take (64 * n) data). set (rest := drop (64 * n) data).
  pose proof (Nat.div_mod_eq (length data) 64) as Hdm. pose proof (Nat.mod_upper_bound (length data) 64 ltac:(lia)) as Hmod. fold n in Hdm.
  assert (length bs = 64 * n)%nat as Hbs by (unfold bs; rewrite length_take; lia).
  assert (length rest = length data mod 64)%nat as Hrest by (unfold rest; rewrite length_drop; lia).
  assert (data = bs ++ rest) as Hsplit by (unfold bs, rest; by rewrite take_drop).
  assert (Z.land (zlen data) 63 = zlen rest) as H63.
  { change 63 with (Z.ones 6). rewrite Z.land_ones by lia. unfold zlen. rewrite Hrest, Nat2Z.inj_mod. done. }
  assert (Z.land (zlen data) (u64 (Z.lnot 63)) = zlen bs) as Hnot.
  { rewrite land_not63 by (pose proof (zlen_nonneg data); lia). unfold zlen. rewrite Hbs. change 64 with (Z.of_nat 64). rewrite <- Nat2Z.inj_div. fold n. lia. }
  destruct (absorb_many Rfc1321.compress iv5 m bs n Hp Hbs) as [Ha Hpn].
  destruct (absorb_part Rfc1321.compress iv5 (m ++ bs) rest) as [Ha' Hp']; [rewrite Hpn, Hrest; simpl; lia|].
  rewrite <- app_assoc, <- Hsplit in Ha', Hp'. rewrite Hpn in Hp'. cbn [app] in Hp'.
  assert (exists x1, Md5.whole_blocks w x data (zlen data) = Some (rest, zlen rest, x1) /\ length (Md5.block x1) = 16%nat /\
      chain x1 = Absorb5 (m ++ data) /\ Md5.lo x1 = Md5.lo x /\ Md5.hi x1 = Md5.hi x /\ Md5.buffer x1 = Md5.buffer x) as (x1 & -> & Hb1 & Hc1 & Hlo1 & Hhi1 & Hbuf1).
  { unfold Md5.whole_blocks. destruct (Z.leb_spec 64 (zlen data)) as [Hge|Hlt].
    - destruct n as [|n']; [unfold zlen in *; lia|]. rewrite Hnot, H63.
      destruct (body_spec x bs rest n' Hbs) as (x1 & Hbody & Hb1 & Hc1 & Hlo & Hhi & Hbf);
        [by apply Forall_take|done|unfold zlen in *; rewrite Hsplit, length_app in H64; lia|].
      rewrite <- Hsplit in Hbody. rewrite Hbody. cbn [mbind option_bind]. exists x1. split; [done|]. split_and!; try done. by rewrite Hc1, Hch, Ha', Ha.
    - assert (n = 0)%nat as Hn0 by (unfold zlen in *; lia). assert (data = rest) as <- by (unfold rest; by rewrite Hn0).
      exists x. split; [done|]. split_and!; try done. rewrite Ha', Ha, Hn0. done. }
  cbn [mbind option_bind]. pose proof (rd_bytes_0 rest (zlen rest) ltac:(pose proof (zlen_nonneg rest); lia)) as ->. cbn [mbind option_bind].
  rewrite take_ge by (unfold zlen; lia). rewrite Hbuf1.
  pose proof (wr_bytes_at [] (Md5.buffer x) rest ltac:(unfold zlen; lia)) as Hwr. cbn [app] in Hwr. change (zlen (@nil Z)) with 0 in Hwr. rewrite Hwr. cbn [mbind option_bind].
  eexists. split; [done|]. split; [|done]. unfold md5_holds, setter. cbn [Md5.buffer Md5.block]. split; [by apply Forall_app|].
  split; [rewrite length_app, length_drop; lia|]. split; [done|]. split; [exact Hc1|]. rewrite Hp'. apply take_app_length.
Qed.

Lemma md5_update_spec x m data : md5_represents x m -> Forall byte data -> zlen data < 18446744073709551616 ->
  exists x', Md5.update w x data = Some x' /\ md5_represents x' (m ++ data).
Proof.
  intros [Hx Hc] Hd H64. unfold Md5.update. rewrite (lo_used _ _ Hc), <- pending_zlen. pose proof (zlen_nonneg data) as H0.
  pose proof (count_spec x (zlen m) (zlen data) Hc (zlen_nonneg m) H0) as Hc1. rewrite <- zlen_app in Hc1.
  destruct (count_other x (zlen data)) as (Hch1 & Hbuf1 & Hblk1). set (x1 := Md5.count w x (zlen data)) in *.
  assert (md5_holds x1 m) as Hx1 by (unfold md5_holds in *; by rewrite Hch1, Hbuf1, Hblk1).
  clear Hch1 Hbuf1 Hblk1. clearbody x1.
  destruct (Z.eqb_spec (zlen (pending m)) 0) as [He|Hne]; cbn [negb].
  - destruct (update_blocks_spec x1 m data Hx1) as (x' & -> & Hx' & Hlo & Hhi); [apply nil_length_inv; unfold zlen in He; lia|done..|].
    exists x'. split; [done|]. split; [done|]. unfold counts in *. by rewrite Hlo, Hhi.
  - pose proof (pending_bound m) as Hpb. set (p := pending m) in *. destruct Hx1 as (Hm & Hbuf & Hblk & Hch & Htake). fold p in Htake.
    assert (Md5.buffer x1 = p ++ drop (length p) (Md5.buffer x1)) as Hsplit by (rewrite <- Htake at 1; by rewrite take_drop).
    assert (Forall byte p) as Hpby by (by apply Forall_drop).
    set (tail := drop (length p) (Md5.buffer x1)) in *. assert (length tail = 64 - length p)%nat as Htl by (unfold tail; rewrite length_drop; lia).
    destruct (Z.ltb_spec (zlen data) (64 - zlen p)) as [Hlt|Hge].
    + rewrite Hsplit, wr_bytes_at by (unfold zlen in *; lia). cbn [mbind option_bind]. eexists. split; [done|]. split; [|done].
      destruct (absorb_part Rfc1321.compress iv5 m data) as [Ha Hp]; [fold p; unfold zlen in *; lia|]. fold p in Hp.
      unfold md5_holds, setter. cbn [Md5.buffer Md5.block]. rewrite Ha, Hp. split; [by apply Forall_app|].
      split; [rewrite !length_app, length_drop; unfold zlen in *; lia|]. split; [done|]. split; [exact Hch|]. apply take_app_length.
    + assert (0 <= 64 - zlen p <= zlen data) as Hr by (unfold zlen in *; lia).
      rewrite rd_bytes_0 by done. cbn [mbind option_bind]. set (chunk := take (Z.to_nat (64 - zlen p)) data).
      assert (zlen chunk = 64 - zlen p) as Hcl by (by apply zlen_take).
      rewrite Hsplit, wr_bytes_at by (unfold zlen in *; lia). rewrite (drop_ge tail), app_nil_r by (unfold zlen in *; lia). rewrite bind_Some.
      assert (length (p ++ chunk) = 64%nat) as H64l by (rewrite length_app; unfold zlen in *; lia).
      destruct (body_spec (x1 <| Md5.buffer := p ++ chunk |>) (p ++ chunk) [] 0) as (x2 & Hbody & Hblk2 & Hch2 & Hlo2 & Hhi2 & Hbuf2);
        [done|apply Forall_app; split; [done|by apply Forall_take]|done|unfold zlen; rewrite H64l; done|].
      rewrite app_nil_r in Hbody. unfold zlen in Hbody at 1. rewrite H64l in Hbody. change (Z.of_nat 64) with 64 in Hbody. rewrite Hbody. cbn [mbind option_bind].
      destruct (absorb_fill Rfc1321.compress iv5 m chunk) as [Ha Hp]; [fold p; unfold zlen in *; lia|]. fold p in Ha.
      assert (zlen data - (64 - zlen p) = zlen (drop (Z.to_nat (64 - zlen p)) data)) as -> by (rewrite zlen_drop; lia).
      destruct (update_blocks_spec x2 (m ++ chunk) (drop (Z.to_nat (64 - zlen p)) data)) as (x' & -> & Hx' & Hlo & Hhi);
        [|done|by apply Forall_drop|rewrite zlen_drop; lia|].
      { split; [apply Forall_app; split; [done|by apply Forall_take]|]. rewrite Hbuf2, Hp. split; [exact H64l|]. split; [exact Hblk2|].
        split; [|done]. rewrite Hch2, chain_buffer, Hch, Ha. by rewrite absorb_blocks_one. }
      rewrite <- app_assoc in Hx'. unfold chunk in Hx'. rewrite take_drop in Hx'. exists x'. split; [done|]. split; [done|].
      unfold counts in *. rewrite Hlo, Hhi, Hlo2, Hhi2. done.
Qed.

(** ** The end of the message *)

Lemma le_bytes_u32 x : Md5.le_bytes (u32 x) = Md5.le_bytes x.
Proof.
  unfold Md5.le_bytes, u32. pose proof (u8_shiftr_wrap 32 x 0) as H0. rewrite !Z.shiftr_0_r in H0. rewrite H0 by lia. by rewrite !u8_shiftr_wrap by lia.
Qed.

Lemma le_bytes_rev x : Md5.le_bytes x = Rfc1321.le32 x.
Proof. unfold Rfc1321.le32. by rewrite be32_shifts. Qed.

Lemma le64_bytes x : Rfc1321.le64 x = Md5.le_bytes x ++ Md5.le_bytes (Z.shiftr x 32).
Proof. unfold Rfc1321.le64, be64. by rewrite rev_app_distr, !le_bytes_rev. Qed.

Lemma length_bytes x n : counts x n ->
  Md5.le_bytes (wrap w (Z.shiftl (Md5.lo x) 3)) ++ Md5.le_bytes (Md5.hi x) = Rfc1321.le64 (8 * n).
Proof.
  intros [Hlo Hhi]. rewrite le64_bytes. f_equal.
  - rewrite <- (le_bytes_u32 (wrap _ _)), <- (le_bytes_u32 (8 * n)), u32_wrap. f_equal.
    rewrite Hlo, Z.shiftl_mul_pow2 by lia. unfold u32, wrap. Z.to_euclidean_division_equations; lia.
  - rewrite <- le_bytes_u32, Hhi, le_bytes_u32. f_equal. rewrite Z.shiftr_div_pow2 by lia. change (2 ^ 32) with 4294967296. Z.to_euclidean_division_equations; lia.
Qed.

Lemma le32_u32 x : Rfc1321.le32 (u32 x) = Rfc1321.le32 x.
Proof. rewrite <- le_bytes_rev, le_bytes_u32. apply le_bytes_rev. Qed.

Lemma chain_digest x : Md5.le_bytes (Md5.a x) ++ Md5.le_bytes (Md5.b x) ++ Md5.le_bytes (Md5.c x) ++ Md5.le_bytes (Md5.d x) =
  concat (map Rfc1321.le32 (chain x)).
Proof.
  unfold chain, view. cbn [roles Nat.modulo nth map concat Md5.get Md5.r_a Md5.r_b Md5.r_c Md5.r_d]. cbn [Nat.modulo Nat.divmod fst snd Nat.sub nth map concat Md5.get Md5.r_a Md5.r_b Md5.r_c Md5.r_d].
  by rewrite app_nil_r, !le32_u32, !le_bytes_rev.
Qed.

(** A context that may be initialised. *)
Definition md5_valid (x : Md5.ctx) : Prop := length (Md5.buffer x) = 64%nat /\ length (Md5.block x) = 16%nat.

(** One block held in the buffer. *)
Lemma body_buffer x b : length b = 64%nat -> Forall byte b -> length (Md5.block x) = 16%nat ->
  exists x', Md5.body w (x <| Md5.buffer := b |>) b 64 = Some ([], x') /\ length (Md5.block x') = 16%nat /\
    chain x' = Rfc1321.compress (chain x) b /\ Md5.lo x' = Md5.lo x /\ Md5.hi x' = Md5.hi x /\ Md5.buffer x' = b.
Proof.
  intros Hl Hb Hbl. destruct (body_spec (x <| Md5.buffer := b |>) b [] 0) as (x' & Hx & Hblk & Hch & Hlo & Hhi & Hbuf);
    [done|done|done|unfold zlen; rewrite Hl; done|].
  rewrite app_nil_r in Hx. unfold zlen in Hx. rewrite Hl in Hx. exists x'. split; [exact Hx|]. split; [done|].
  rewrite chain_buffer in Hch. rewrite absorb_blocks_one in Hch by done.
  split; [exact Hch|]. split; [exact Hlo|]. split; [exact Hhi|exact Hbuf].
Qed.

Lemma replicate_byte n : Forall byte (replicate n 0).
Proof. by apply Forall_replicate. Qed.

Lemma final_flush_spec x q : length (Md5.buffer x) = 64%nat -> length (Md5.block x) = 16%nat -> Forall byte q -> zlen q <= 64 ->
  take (length q) (Md5.buffer x) = q ->
  exists x' q', Md5.final_flush w x (zlen q) = Some (x', zlen q') /\ length (Md5.buffer x') = 64%nat /\ length (Md5.block x') = 16%nat /\
    take (length q') (Md5.buffer x') = q' /\ Md5.lo x' = Md5.lo x /\ Md5.hi x' = Md5.hi x /\ zlen q' <= 56 /\ Forall byte q' /\
    if 56 <? zlen q then q' = [] /\ chain x' = Rfc1321.compress (chain x) (q ++ replicate (64 - length q) 0) else q' = q /\ chain x' = chain x.
Proof.
  intros Hbuf Hblk Hq Hql Ht. unfold Md5.final_flush.
  assert (exists tail, Md5.buffer x = q ++ tail /\ length tail = (64 - length q)%nat) as (tail & Hsplit & Htl).
  { exists (drop (length q) (Md5.buffer x)). split; [|rewrite length_drop; lia].
    transitivity (take (length q) (Md5.buffer x) ++ drop (length q) (Md5.buffer x)); [by rewrite take_drop|by rewrite Ht]. }
  destruct (Z.ltb_spec 56 (zlen q)) as [H56|H56].
  - rewrite (proj2 (Z.ltb_lt (64 - zlen q) 8)) by lia.
    rewrite Hsplit, wr_bytes_at by (rewrite zlen_replicate; unfold zlen in *; lia). rewrite (drop_ge tail), app_nil_r by (rewrite length_replicate; unfold zlen in *; lia).
    rewrite bind_Some. replace (Z.to_nat (64 - zlen q)) with (64 - length q)%nat by (unfold zlen; lia).
    destruct (body_buffer x (q ++ replicate (64 - length q) 0)) as (x' & -> & Hb' & Hc' & Hlo & Hhi & Hbf);
      [rewrite length_app, length_replicate; unfold zlen in *; lia|apply Forall_app; split; [done|apply replicate_byte]|done|].
    rewrite bind_Some. exists x', []. split; [done|]. rewrite Hbf, Hlo, Hhi. split; [rewrite length_app, length_replicate; unfold zlen in *; lia|].
    split; [done|]. repeat split; try done.
  - rewrite (proj2 (Z.ltb_ge (64 - zlen q) 8)) by lia. exists x, q. repeat split; try done; lia.
Qed.

Lemma md5_final_spec x m : md5_represents x m ->
  exists x', Md5.final w x = Some (Rfc1321.md5 m, x') /\ md5_valid x'.
Proof.
  intros [(Hm & Hbuf & Hblk & Hch & Ht) Hc]. unfold Md5.final, Rfc1321.md5, md_digest. fold iv5. rewrite (lo_used _ _ Hc), <- pending_zlen.
  assert (forall n, length (Rfc1321.le64 n) = 8%nat) as He by done.
  pose proof (absorb_pad_one Rfc1321.compress iv5 Rfc1321.le64 m) as Hone. pose proof (absorb_pad_two Rfc1321.compress iv5 Rfc1321.le64 m) as Htwo.
  pose proof (pending_bound m) as Hpb. set (p := pending m) in *. assert (Forall byte p) as Hpby by (by apply Forall_drop).
  assert (exists tail, Md5.buffer x = p ++ tail /\ length tail = (64 - length p)%nat) as (tail & Hsplit & Htl).
  { exists (drop (length p) (Md5.buffer x)). split; [|rewrite length_drop; lia].
    transitivity (take (length p) (Md5.buffer x) ++ drop (length p) (Md5.buffer x)); [by rewrite take_drop|by rewrite Ht]. }
  rewrite Hsplit, wr_at by (unfold zlen; lia). rewrite bind_Some. set (q := p ++ [128]) in *.
  assert (forall a, p ++ 128 :: a = q ++ a) as Hqa by (intros; unfold q; by rewrite <- app_assoc). rewrite Hqa in Hone, Htwo.
  assert (length q = length p + 1)%nat as Hql by (unfold q; rewrite length_app; done). replace (zlen p + 1) with (zlen q) by (unfold zlen; lia).
  assert (Forall byte q) as Hqb by (apply Forall_app; split; [done|by repeat constructor]).
  destruct (final_flush_spec (x <| Md5.buffer := q ++ drop 1 tail |>) q) as (x1 & q1 & -> & Hb1 & Hk1 & Ht1 & Hlo1 & Hhi1 & Hz1 & Hq1 & Hcase);
    [unfold setter; cbn [Md5.buffer]; rewrite length_app, length_drop; lia|done|done|unfold zlen; lia|apply take_app_length|].
  rewrite bind_Some. rewrite chain_buffer in Hcase.
  assert (exists tail1, Md5.buffer x1 = q1 ++ tail1 /\ length tail1 = (64 - length q1)%nat) as (tail1 & Hs1 & Htl1).
  { exists (drop (length q1) (Md5.buffer x1)). split; [|rewrite length_drop; lia].
    transitivity (take (length q1) (Md5.buffer x1) ++ drop (length q1) (Md5.buffer x1)); [by rewrite take_drop|by rewrite Ht1]. }
  rewrite Hs1. assert (64 - zlen q1 - 8 = 56 - zlen q1) as -> by lia. set (z := replicate (Z.to_nat (56 - zlen q1)) 0).
  assert (length z = 56 - length q1)%nat as Hzl by (unfold z; rewrite length_replicate; unfold zlen in *; lia).
  rewrite wr_bytes_at by (unfold zlen in *; lia). rewrite bind_Some.
  assert (Md5.lo (x1 <| Md5.lo := wrap w (Z.shiftl (Md5.lo x1) 3) |>) = wrap w (Z.shiftl (Md5.lo x1) 3)) as -> by done.
  assert (Md5.hi (x1 <| Md5.lo := wrap w (Z.shiftl (Md5.lo x1) 3) |>) = Md5.hi x1) as -> by done.
  rewrite (length_bytes x1 (zlen m)) by (unfold counts in *; by rewrite Hlo1, Hhi1).
  assert (56 = zlen (q1 ++ z)) as -> by (rewrite zlen_app; unfold zlen in *; lia).
  rewrite wr_bytes_at by (rewrite zlen_drop; unfold zlen in *; rewrite He; lia). rewrite bind_Some.
  rewrite drop_drop, (drop_ge tail1), app_nil_r by (rewrite He; unfold zlen in *; lia).
  destruct (body_buffer (x1 <| Md5.lo := wrap w (Z.shiftl (Md5.lo x1) 3) |>) ((q1 ++ z) ++ Rfc1321.le64 (8 * zlen m))) as (x2 & -> & Hb2 & Hch2 & _ & _ & Hbf2);
    [rewrite !length_app, He; unfold zlen in *; lia|apply Forall_app; split; [apply Forall_app; split; [done|apply replicate_byte]|apply Forall_rev, be64_bytes]|done|].
  rewrite bind_Some, chain_digest. apply (digest_result md5_valid); [|by split].
  apply (f_equal (fun h => concat (map Rfc1321.le32 h))). rewrite Hch2.
  assert (chain (x1 <| Md5.lo := wrap w (Z.shiftl (Md5.lo x1) 3) |>) = chain x1) as -> by done. rewrite <- app_assoc.
  destruct (Z.ltb_spec 56 (zlen q)) as [H56|H56]; destruct Hcase as [Hqq ->]; rewrite Hch.
  - rewrite Htwo; [|unfold zlen in H56; lia|exact He]. subst q1. unfold z. replace (63 - length p)%nat with (64 - length q)%nat by lia. reflexivity.
  - rewrite Hone; [|unfold zlen in H56; lia|exact He]. subst q1. unfold z. do 4 f_equal. unfold zlen in *. lia.
Qed.

Lemma md5_init_spec x : md5_valid x -> md5_represents (Md5.init x) [].
Proof. intros [Hb Hk]. split; [|done]. split; [done|]. by split_and!. Qed.
End md5.
