(* ===== verification/Picohash.v ===== *)
(** * Hash contexts and HMAC (libjuice [src/picohash.h], [src/hash.c], [src/hmac.c])

    [picohash_ctx_t] holds the context of one hash function in a union and pointers to its
    operations.  [BlockHash] is that set of operations; MD5, SHA-1, SHA-224 and SHA-256 are
    its instances.  HMAC replaces two of the pointers of a context. *)

From S2P Require Import Prelude Bytes Words MerkleDamgard Sha256 Sha1 Md5.
Open Scope Z_scope.

Class BlockHash (C : Type) := {
  bh_reset : C -> C;
  bh_update : C -> list Z -> option C;
  bh_final : C -> option (list Z * C); (* the bytes written to the digest *)
  bh_block_length : Z;
  bh_digest_length : Z }.

Section context.
Context {C : Type} `{BlockHash C}.

(** What [_reset] and [_final] point to: the hash's own function or the one for HMAC. *)
Inductive pointer := Own | Hmac.

Record picohash_ctx := Picohash_ctx {
  hash : C; (* the union *)
  block_length : Z;
  digest_length : Z;
  _reset : pointer;
  _final : pointer;
  hmac_key : list Z; (* unsigned char [64] *)
  hmac_hash_reset : pointer;
  hmac_hash_final : pointer }.

#[global] Instance picohash_ctx_eta : RecordEta picohash_ctx := fun c =>
  Picohash_ctx (hash c) (block_length c) (digest_length c) (_reset c) (_final c) (hmac_key c) (hmac_hash_reset c) (hmac_hash_final c).

(** [picohash_init_md5] and the other three, which differ in the operations. *)
Definition picohash_init (c : picohash_ctx) : picohash_ctx :=
  let c := c <| block_length := bh_block_length |> <| digest_length := bh_digest_length |> <| _reset := Own |> <| _final := Own |> in
  c <| hash := bh_reset (hash c) |>.

Definition picohash_update (c : picohash_ctx) (input : list Z) : option picohash_ctx :=
  h ← bh_update (hash c) input; Some (c <| hash := h |>).

(** [for (i = 0; i != block_length; ++i) key[i] ^= delta;] *)
Definition xor_key (c : picohash_ctx) (delta : Z) : option picohash_ctx :=
  key ← for_up 0 (block_length c) (fun i key => k ← rd key i; wr key i (Z.lxor k delta)) (hmac_key c);
  Some (c <| hmac_key := key |>).

Definition hmac_apply_key (c : picohash_ctx) (delta : Z) : option picohash_ctx :=
  c ← xor_key c delta;
  key ← rd_bytes (hmac_key c) 0 (block_length c);
  c ← picohash_update c key;
  xor_key c delta.

(** Calls through the pointers; [fuel] bounds the nesting, which is one call deep. *)
Fixpoint call_reset (fuel : nat) (p : pointer) (c : picohash_ctx) : option picohash_ctx :=
  match fuel, p with
  | O, _ => None
  | S _, Own => Some (c <| hash := bh_reset (hash c) |>)
  | S n, Hmac => (* _picohash_hmac_reset *)
      c ← call_reset n (hmac_hash_reset c) c; hmac_apply_key c 0x36
  end.

Fixpoint call_final (fuel : nat) (p : pointer) (c : picohash_ctx) : option (list Z * picohash_ctx) :=
  match fuel, p with
  | O, _ => None
  | S _, Own => '(digest, h) ← bh_final (hash c); Some (digest, c <| hash := h |>)
  | S n, Hmac => (* _picohash_hmac_final *)
      '(inner_digest, c) ← call_final n (hmac_hash_final c) c;
      c ← call_reset n (hmac_hash_reset c) c;
      c ← hmac_apply_key c 0x5c;
      inner ← rd_bytes inner_digest 0 (digest_length c);
      c ← picohash_update c inner;
      call_final n (hmac_hash_final c) c
  end.

Definition picohash_final (c : picohash_ctx) : option (list Z * picohash_ctx) := call_final 2 (_final c) c.
Definition picohash_reset (c : picohash_ctx) : option picohash_ctx := call_reset 2 (_reset c) c.

(** The key, hashed if it is too long. *)
Definition load_key (c : picohash_ctx) (key : list Z) : option picohash_ctx :=
  if block_length c <? zlen key then
    c ← picohash_update c key;
    '(digest, c) ← picohash_final c;
    k ← wr_bytes (hmac_key c) 0 digest;
    picohash_reset (c <| hmac_key := k |>)
  else k ← wr_bytes (hmac_key c) 0 key; Some (c <| hmac_key := k |>).

Definition picohash_init_hmac (c : picohash_ctx) (key : list Z) : option picohash_ctx :=
  let c := picohash_init c in
  k ← wr_bytes (hmac_key c) 0 (replicate (Z.to_nat (block_length c)) 0);
  c ← load_key (c <| hmac_key := k |>) key;
  let c := c <| hmac_hash_reset := _reset c |> <| hmac_hash_final := _final c |> <| _reset := Hmac |> <| _final := Hmac |> in
  hmac_apply_key c 0x36.

(** The bodies of [juice_hash_*] and [hmac_*]; [local] is the uninitialised context. *)
Definition juice_hash (local : picohash_ctx) (message : list Z) : option (list Z) :=
  c ← picohash_update (picohash_init local) message; '(digest, _) ← picohash_final c; Some digest.

Definition juice_hmac (local : picohash_ctx) (message key : list Z) : option (list Z) :=
  c ← picohash_init_hmac local key; c ← picohash_update c message; '(digest, _) ← picohash_final c; Some digest.

End context.
Arguments picohash_ctx : clear implicits.

(** ** The hash functions *)

(** SHA-224 and SHA-256 share their context type. *)
Record sha224_ctx := Sha224_ctx { sha224 : Sha256.ctx }.

#[export] Instance Md5_hash (w : Z) : BlockHash Md5.ctx | 1 := {|
  bh_reset := Md5.init; bh_update := Md5.update w; bh_final := Md5.final w; bh_block_length := 64; bh_digest_length := 16 |}.
#[export] Instance Sha1_hash : BlockHash Sha1.ctx := {|
  bh_reset := Sha1.init; bh_update := Sha1.update; bh_final := Sha1.final; bh_block_length := 64; bh_digest_length := 20 |}.
#[export] Instance Sha256_hash : BlockHash Sha256.ctx := {|
  bh_reset := Sha256.init; bh_update := Sha256.update; bh_final := Sha256.final; bh_block_length := 64; bh_digest_length := 32 |}.
#[export] Instance Sha224_hash : BlockHash sha224_ctx := {|
  bh_reset c := Sha224_ctx (Sha256.init224 (sha224 c));
  bh_update c data := c ← Sha256.update (sha224 c) data; Some (Sha224_ctx c);
  bh_final c := '(digest, c) ← Sha256.final224 (sha224 c); Some (digest, Sha224_ctx c);
  bh_block_length := 64; bh_digest_length := 28 |}.

Definition picohash_init_md5 (w : Z) : picohash_ctx Md5.ctx -> picohash_ctx Md5.ctx := @picohash_init _ (Md5_hash w).
Definition picohash_init_sha1 : picohash_ctx Sha1.ctx -> picohash_ctx Sha1.ctx := picohash_init.
Definition picohash_init_sha224 : picohash_ctx sha224_ctx -> picohash_ctx sha224_ctx := picohash_init.
Definition picohash_init_sha256 : picohash_ctx Sha256.ctx -> picohash_ctx Sha256.ctx := picohash_init.

(** ** [hash.c] and [hmac.c], without Nettle *)

Definition juice_hash_md5 (w : Z) (local : picohash_ctx Md5.ctx) (message : list Z) : option (list Z) :=
  @juice_hash _ (Md5_hash w) local message.
Definition juice_hash_sha1 (local : picohash_ctx Sha1.ctx) (message : list Z) : option (list Z) := juice_hash local message.
Definition juice_hash_sha256 (local : picohash_ctx Sha256.ctx) (message : list Z) : option (list Z) := juice_hash local message.
Definition hmac_sha1 (local : picohash_ctx Sha1.ctx) (message key : list Z) : option (list Z) := juice_hmac local message key.
Definition hmac_sha256 (local : picohash_ctx Sha256.ctx) (message key : list Z) : option (list Z) := juice_hmac local message key.
