(* ===== verification/PicohashProps.v ===== *)
(** * HMAC and the hash functions meet their standards

    [Digest] states what a hash with a [BlockHash] of operations promises; HMAC is proved
    against it (RFC 2104), and MD5, SHA-1, SHA-224 and SHA-256 are shown to keep it. *)

From S2P Require Import Prelude Bytes Words MerkleDamgard Sha256 Sha1 Md5 Md5Props Picohash.
Open Scope Z_scope.

Class Digest (C : Type) (B : BlockHash C) := {
  digest : list Z -> list Z; (* the standard *)
  valid : C -> Prop; (* memory that may be initialised *)
  holds : C -> list Z -> Prop; (* initialised and fed a message *)
  digest_size m : zlen (digest m) = bh_digest_length /\ Forall byte (digest m);
  lengths : bh_block_length = 64 /\ 0 <= bh_digest_length <= 64;
  reset_ok c : valid c -> holds (bh_reset c) [];
  update_ok c m data : holds c m -> Forall byte data -> zlen data < 18446744073709551616 ->
    exists c', bh_update c data = Some c' /\ holds c' (m ++ data);
  final_ok c m : holds c m -> exists c', bh_final c = Some (digest m, c') /\ valid c' }.

Section hmac.
Context {C : Type} {B : BlockHash C} {D : Digest C B}.

(** RFC 2104. *)
Definition hmac_block (key : list Z) : list Z :=
  let k := if 64 <? zlen key then digest key else key in k ++ replicate (64 - length k) 0.
Definition hmac (key m : list Z) : list Z :=
  digest (map (fun k => Z.lxor k 0x5c) (hmac_block key) ++ digest (map (fun k => Z.lxor k 0x36) (hmac_block key) ++ m)).

Definition local_ok (c : picohash_ctx C) : Prop := valid (hash c) /\ length (hmac_key c) = 64%nat.

Lemma init_ok c : local_ok c -> let c' := picohash_init c in
  holds (hash c') [] /\ hmac_key c' = hmac_key c /\ block_length c' = 64 /\ digest_length c' = bh_digest_length /\ _reset c' = Own /\ _final c' = Own.
Proof. intros [Hv _]. cbv zeta. split; [by apply reset_ok|]. split_and!; try done. apply lengths. Qed.

Lemma picohash_update_ok c m data : holds (hash c) m -> Forall byte data -> zlen data < 18446744073709551616 ->
  exists h, picohash_update c data = Some (c <| (@hash C) := h |>) /\ holds h (m ++ data).
Proof. intros Hc Hd Hl. unfold picohash_update. destruct (update_ok _ _ _ Hc Hd Hl) as (h & -> & Hh). eauto. Qed.

(** A hash of one message. *)
Lemma juice_hash_ok local message : local_ok local -> Forall byte message -> zlen message < 18446744073709551616 ->
  juice_hash local message = Some (digest message).
Proof.
  intros Hl Hm H64. unfold juice_hash. destruct (init_ok local Hl) as (Hh & _ & _ & _ & _ & Hf).
  destruct (picohash_update_ok (picohash_init local) [] message Hh Hm H64) as (h & -> & Hh'). cbn [mbind option_bind].
  unfold picohash_final. replace (_final (picohash_init local <| (@hash C) := h |>)) with Own by done. cbn [call_final hash setter].
  destruct (final_ok h _ Hh') as (c' & -> & _). done.
Qed.

Lemma xor_key_spec c delta : length (hmac_key c) = 64%nat -> block_length c = 64 ->
  xor_key c delta = Some (c <| (@hmac_key C) := map (fun k => Z.lxor k delta) (hmac_key c) |>).
Proof.
  intros Hl Hb. unfold xor_key. rewrite Hb.
  pose proof (for_up_fill (fun i => Z.lxor (nth (Z.to_nat i) (hmac_key c) 0) delta) (fun i key => k ← rd key i; wr key i (Z.lxor k delta)) (hmac_key c) 0 64) as Hf.
  destruct Hf as (l & -> & Hll & Hr); [lia|unfold zlen; lia| |].
  - intros i x Hi Hx Hs. rewrite Hs by lia. rewrite nth_rd by (unfold zlen; lia). done.
  - cbn [mbind option_bind].
    assert (l = map (fun k => Z.lxor k delta) (hmac_key c)) as ->; [|done]. apply list_eq_same_length with 64%nat; [by rewrite length_map|lia|]. intros i x y Hi Hx Hy.
    specialize (Hr (Z.of_nat i)). rewrite rd_nonneg, Nat2Z.id, Hx, (proj2 (Z.leb_le 0 _)), (proj2 (Z.ltb_lt _ 64)) in Hr by lia.
    cbn [andb] in Hr. injection Hr as ->. rewrite list_lookup_fmap in Hy. destruct (hmac_key c !! i) as [k|] eqn:Hk; [|done].
    injection Hy as <-. by rewrite (nth_lookup_Some _ _ _ _ Hk).
Qed.

Lemma xor_twice l delta : map (fun k => Z.lxor k delta) (map (fun k => Z.lxor k delta) l) = l.
Proof. rewrite map_map. induction l as [|x l IH]; [done|]. cbn [map]. by rewrite Z.lxor_assoc, Z.lxor_nilpotent, Z.lxor_0_r, IH. Qed.

Lemma xor_bytes l delta : Forall byte l -> byte delta -> Forall byte (map (fun k => Z.lxor k delta) l).
Proof. intros Hl Hd. induction Hl as [|x l Hx _ IH]; [done|]. cbn [map]. constructor; [by apply (in_range_lxor 8)|done]. Qed.

Lemma apply_key_spec c m delta : holds (hash c) m -> length (hmac_key c) = 64%nat -> Forall byte (hmac_key c) -> byte delta -> block_length c = 64 ->
  exists h, hmac_apply_key c delta = Some (c <| (@hash C) := h |>) /\ holds h (m ++ map (fun k => Z.lxor k delta) (hmac_key c)).
Proof.
  intros Hc Hl Hb Hd H64. unfold hmac_apply_key. rewrite xor_key_spec by done. cbn [mbind option_bind].
  set (k' := map _ (hmac_key c)). assert (length k' = 64%nat) as Hk' by (unfold k'; by rewrite length_map).
  unfold setter. cbn [hmac_key block_length]. rewrite H64, rd_bytes_0 by (unfold zlen; lia).
  rewrite take_ge by (rewrite Hk'; done). cbn [mbind option_bind].
  set (c1 := Picohash_ctx _ _ _ _ _ k' _ _).
  destruct (picohash_update_ok c1 m k' Hc) as (h & -> & Hh); [by apply xor_bytes|unfold zlen; lia|]. cbn [mbind option_bind].
  exists h. split; [|done]. rewrite xor_key_spec by done. unfold c1, k', setter. cbn. rewrite xor_twice. done.
Qed.

Lemma digest_bound key : (length (digest key) <= 64)%nat.
Proof. destruct (digest_size key) as [Hl _]. destruct lengths as [_ ?]. unfold zlen in Hl. lia. Qed.

Lemma hmac_block_facts key : Forall byte key -> length (hmac_block key) = 64%nat /\ Forall byte (hmac_block key).
Proof.
  intros Hk. unfold hmac_block. pose proof (digest_bound key). pose proof (digest_size key) as [_ Hd].
  destruct (Z.ltb_spec 64 (zlen key)); (split; [rewrite length_app, length_replicate; unfold zlen in *; lia|]);
    (apply Forall_app; split; [done|by apply Forall_replicate]).
Qed.

Lemma write_key (v : list Z) : (length v <= 64)%nat -> wr_bytes (replicate 64 0) 0 v = Some (v ++ replicate (64 - length v) 0).
Proof.
  intros Hv. pose proof (wr_bytes_at [] (replicate 64 0) v) as Hw. cbn [app] in Hw. change (zlen (@nil Z)) with 0 in Hw.
  rewrite Hw by (rewrite zlen_replicate; unfold zlen; lia). by rewrite drop_replicate.
Qed.

(** Fields of a known context. *)
Ltac pico := unfold setter; cbn [mbind option_bind hash hmac_key block_length digest_length _reset _final hmac_hash_reset hmac_hash_final].

Lemma load_key_ok h hr hf key : holds h [] -> Forall byte key -> zlen key < 18446744073709551616 ->
  exists h', load_key (Picohash_ctx h 64 bh_digest_length Own Own (replicate 64 0) hr hf) key =
    Some (Picohash_ctx h' 64 bh_digest_length Own Own (hmac_block key) hr hf) /\ holds h' [].
Proof.
  intros Hh Hk H64. unfold load_key, hmac_block. cbn [block_length]. destruct (Z.ltb_spec 64 (zlen key)) as [Hlong|Hshort].
  - destruct (picohash_update_ok (Picohash_ctx h 64 bh_digest_length Own Own (replicate 64 0) hr hf) [] key Hh Hk H64) as (h1 & -> & Hh1).
    pico. unfold picohash_final. cbn [call_final _final hash]. destruct (final_ok h1 _ Hh1) as (h2 & -> & Hv2). pico.
    rewrite write_key by apply digest_bound. pico. unfold picohash_reset. cbn [_reset call_reset]. pico.
    eexists. split; [done|]. by apply reset_ok.
  - pico. rewrite write_key by (unfold zlen in *; lia). pico. by exists h.
Qed.

Lemma init_hmac_ok local key : local_ok local -> Forall byte key -> zlen key < 18446744073709551616 ->
  exists h, picohash_init_hmac local key = Some (Picohash_ctx h 64 bh_digest_length Hmac Hmac (hmac_block key) Own Own) /\
    holds h (map (fun k => Z.lxor k 0x36) (hmac_block key)).
Proof.
  intros Hl Hk H64. unfold picohash_init_hmac. destruct (init_ok local Hl) as (Hh & Hkey & Hbl & Hdl & Hr & Hf). destruct Hl as [_ Hkl].
  destruct (picohash_init local) as [h0 bl dl rs fn ky hr hf]. cbn [hash hmac_key block_length digest_length _reset _final] in *. subst ky bl dl rs fn.
  assert (wr_bytes (hmac_key local) 0 (replicate (Z.to_nat 64) 0) = Some (replicate 64 0)) as ->.
  { pose proof (wr_bytes_at [] (hmac_key local) (replicate 64 0)) as Hw. cbn [app] in Hw. change (zlen (@nil Z)) with 0 in Hw.
    change (Z.to_nat 64) with 64%nat. rewrite Hw by (rewrite zlen_replicate; unfold zlen; lia).
    rewrite drop_ge, app_nil_r by (rewrite length_replicate; lia). done. }
  pico. destruct (load_key_ok h0 hr hf key Hh Hk H64) as (h1 & -> & Hh1). pico.
  destruct (hmac_block_facts key Hk) as [Hbkl Hbb].
  destruct (apply_key_spec (Picohash_ctx h1 64 bh_digest_length Hmac Hmac (hmac_block key) Own Own) [] 0x36 Hh1 Hbkl Hbb) as (h & -> & Hh'); [done|done|].
  by exists h.
Qed.

Lemma juice_hmac_ok local message key : local_ok local -> Forall byte message -> zlen message < 18446744073709551616 ->
  Forall byte key -> zlen key < 18446744073709551616 -> juice_hmac local message key = Some (hmac key message).
Proof.
  intros Hl Hm Hm64 Hk Hk64. unfold juice_hmac. destruct (init_hmac_ok local key Hl Hk Hk64) as (h & -> & Hh). cbn [mbind option_bind].
  destruct (hmac_block_facts key Hk) as [Hbkl Hbb].
  destruct (picohash_update_ok (Picohash_ctx h 64 bh_digest_length Hmac Hmac (hmac_block key) Own Own) _ message Hh Hm Hm64) as (h2 & -> & Hh2).
  pico.
  unfold picohash_final. cbn [_final call_final call_reset hmac_hash_final hmac_hash_reset hash].
  destruct (final_ok h2 _ Hh2) as (h3 & -> & Hv3). pico.
  destruct (apply_key_spec (Picohash_ctx (bh_reset h3) 64 bh_digest_length Hmac Hmac (hmac_block key) Own Own) [] 0x5c) as (h4 & -> & Hh4);
    [by apply reset_ok|done|done|done|done|]. pico.
  set (inner := digest (_ ++ message)). destruct (digest_size (map (fun k => Z.lxor k 0x36) (hmac_block key) ++ message)) as [Hil Hib]. fold inner in Hil, Hib.
  destruct lengths as [_ Hdl]. rewrite rd_bytes_0 by lia. rewrite take_ge by (unfold zlen in Hil; lia). cbn [mbind option_bind].
  destruct (picohash_update_ok (Picohash_ctx h4 64 bh_digest_length Hmac Hmac (hmac_block key) Own Own) _ inner Hh4 Hib) as (h5 & -> & Hh5); [lia|].
  pico.
  destruct (final_ok h5 _ Hh5) as (h6 & -> & _). done.
Qed.

Lemma hmac_size key m : zlen (hmac key m) = bh_digest_length /\ Forall byte (hmac key m).
Proof. apply digest_size. Qed.
End hmac.

(** ** The hash functions *)

Lemma concat_words (f : Z -> list Z) l : (forall x, length (f x) = 4%nat /\ Forall byte (f x)) ->
  zlen (concat (map f l)) = 4 * Z.of_nat (length l) /\ Forall byte (concat (map f l)).
Proof.
  intros Hf. induction l as [|x l [IH1 IH2]]; [done|]. cbn [map concat]. destruct (Hf x) as [Hl Hb]. rewrite zlen_app, IH1. split.
  - unfold zlen. rewrite Hl. cbn [length]. lia.
  - by apply Forall_app.
Qed.

Lemma be32_word x : length (be32 x) = 4%nat /\ Forall byte (be32 x).
Proof. split; [done|apply be32_bytes]. Qed.
Lemma le32_word x : length (Rfc1321.le32 x) = 4%nat /\ Forall byte (Rfc1321.le32 x).
Proof. split; [done|apply Forall_rev, be32_bytes]. Qed.

Lemma md5_step_length X st i : length (Rfc1321.step X st i) = length st.
Proof. unfold Rfc1321.step. by repeat (destruct st as [|? st]; try done). Qed.

Lemma md5_steps_length X l st : length (fold_left (Rfc1321.step X) l st) = length st.
Proof. revert st. induction l as [|i l IH]; intros st; [done|]. cbn [fold_left]. by rewrite IH, md5_step_length. Qed.

Lemma md5_compress_length h b : length h = 4%nat -> length (Rfc1321.compress h b) = 4%nat.
Proof. intros Hl. unfold Rfc1321.compress. rewrite length_zip_with, md5_steps_length. lia. Qed.

Lemma md5_size m : zlen (Rfc1321.md5 m) = 16 /\ Forall byte (Rfc1321.md5 m).
Proof.
  unfold Rfc1321.md5, md_digest. set (h := absorb _ _ _).
  assert (length h = 4%nat) as Hh by (apply (absorb_ind _ _ (fun l => length l = 4%nat)); [done|intros; by apply md5_compress_length]).
  destruct (concat_words Rfc1321.le32 h le32_word) as [Hl Hb]. by rewrite Hh in Hl.
Qed.

Lemma sha1_size m : zlen (Fips1.sha1 m) = 20 /\ Forall byte (Fips1.sha1 m).
Proof.
  unfold Fips1.sha1, md_digest. fold iv1. destruct (concat_words be32 (absorb Fips1.compress iv1 (pad be64 m)) be32_word) as [Hl Hb].
  by rewrite absorb1_length in Hl.
Qed.

Lemma sha2_size iv k m : length iv = 8%nat -> (k <= 8)%nat ->
  let d := concat (map be32 (take k (absorb Fips256.compress iv (pad be64 m)))) in zlen d = 4 * Z.of_nat k /\ Forall byte d.
Proof.
  intros Hiv Hk. destruct (concat_words be32 (take k (absorb Fips256.compress iv (pad be64 m))) be32_word) as [Hl Hb].
  rewrite length_take, absorb_state_length in Hl by done. replace (k `min` 8)%nat with k in Hl by lia. done.
Qed.

Lemma sha256_digest m : Fips256.sha256 m = concat (map be32 (take 8 (absorb Fips256.compress Sha256.iv256 (pad be64 m)))).
Proof. unfold Fips256.sha256, md_digest. rewrite take_ge; [done|]. by rewrite absorb_state_length. Qed.

(** A fresh context has been fed nothing. *)
Lemma sha_represents_nil iv n st k b : length b = 64%nat -> n = 0 -> k = 0 -> st = iv -> sha_represents iv (Sha256.Ctx n st k b) [].
Proof. intros Hb -> -> ->. split; [done|]. by exists b. Qed.

#[export, refine] Instance Md5_digest (w : Z) (Hw : 32 <= w) : Digest Md5.ctx (Md5_hash w) := {|
  digest := Rfc1321.md5; valid := md5_valid; holds := md5_represents |}.
Proof.
  - apply md5_size.
  - done.
  - apply md5_init_spec.
  - intros c m data. by apply md5_update_spec.
  - intros c m. by apply md5_final_spec.
Defined.

#[export, refine] Instance Sha1_digest : Digest Sha1.ctx Sha1_hash := {|
  digest := Fips1.sha1; valid c := length (Sha1.buffer c) = 64%nat; holds := sha1_represents |}.
Proof.
  - apply sha1_size.
  - done.
  - intros [b st n o] Hb. split; [|done]. split; [split; [done|]|done]. intros k Hk. change (zlen (pending [])) with 0 in Hk. lia.
  - intros c m data Hc _ _. by apply sha1_update_spec.
  - apply sha1_final_spec.
Defined.

#[export, refine] Instance Sha256_digest : Digest Sha256.ctx Sha256_hash := {|
  digest := Fips256.sha256; valid c := length (Sha256.buf c) = 64%nat; holds := sha_represents Sha256.iv256 |}.
Proof.
  - intros m. rewrite sha256_digest. by apply sha2_size.
  - done.
  - intros [n st k b] Hb. by apply sha_represents_nil.
  - intros c m data Hc Hd _. apply update_loop_spec; [done|lia|done|done].
  - intros c m Hc. rewrite sha256_digest. exact (do_final_spec Sha256.iv256 eq_refl c m 8 Hc (le_n 8)).
Defined.

#[export, refine] Instance Sha224_digest : Digest sha224_ctx Sha224_hash := {|
  digest := Fips256.sha224; valid c := length (Sha256.buf (sha224 c)) = 64%nat; holds c := sha_represents Sha256.iv224 (sha224 c) |}.
Proof.
  - intros m. exact (sha2_size Sha256.iv224 7 m eq_refl ltac:(lia)).
  - done.
  - intros [[n st k b]] Hb. by apply sha_represents_nil.
  - intros [c] m data Hc Hd _. destruct (update_loop_spec Sha256.iv224 eq_refl (S (length data)) c m data) as (c' & Hu & Hc'); [lia|done|done|].
    exists (Sha224_ctx c'). split; [|done]. cbn [bh_update Sha224_hash sha224]. unfold Sha256.update. by rewrite Hu.
  - intros [c] m Hc. destruct (do_final_spec Sha256.iv224 eq_refl c m 7 Hc) as (c' & Hf & Hc'); [lia|].
    exists (Sha224_ctx c'). split; [|done]. cbn [bh_final Sha224_hash sha224]. unfold Sha256.final224. change (4 * Z.of_nat 7) with 28 in Hf. by rewrite Hf.
Defined.
