(* ===== verification/Stun.v ===== *)
(** * STUN messages: data and shared helpers (libjuice [src/stun.h], [src/stun.c])

    The message structure, the constants of the protocol, and what writing and reading have
    in common.  Buffers are lists of bytes; a pointer into one is an offset.  The hash
    functions ([hash.c], [hmac.c]) are the interface [Hash]. *)

From S2P Require Import Prelude Bytes Addr Crc32.

(** ** Constants *)

Definition STUN_MAGIC : Z := 554869826. (* 0x2112A442 *)
Definition STUN_FINGERPRINT_XOR : Z := 1398035790. (* 0x5354554E *)
Definition STUN_ATTR_SIZE : Z := 4.
Definition sizeof_stun_header : Z := 20.
Definition STUN_TRANSACTION_ID_SIZE : Z := 12.

Definition STUN_CLASS_MASK : Z := 272.
Definition STUN_CLASS_REQUEST : Z := 0.
Definition STUN_CLASS_INDICATION : Z := 16.
Definition STUN_CLASS_RESP_SUCCESS : Z := 256.
Definition STUN_CLASS_RESP_ERROR : Z := 272.
Definition STUN_IS_RESPONSE (msg_class : Z) : bool := negb (Z.land msg_class 256 =? 0).

Definition STUN_METHOD_BINDING : Z := 1.
Definition STUN_METHOD_ALLOCATE : Z := 3.
Definition STUN_METHOD_REFRESH : Z := 4.
Definition STUN_METHOD_SEND : Z := 6.
Definition STUN_METHOD_DATA : Z := 7.
Definition STUN_METHOD_CREATE_PERMISSION : Z := 8.
Definition STUN_METHOD_CHANNEL_BIND : Z := 9.

Definition STUN_ATTR_MAPPED_ADDRESS : Z := 1.
Definition STUN_ATTR_USERNAME : Z := 6.
Definition STUN_ATTR_MESSAGE_INTEGRITY : Z := 8.
Definition STUN_ATTR_ERROR_CODE : Z := 9.
Definition STUN_ATTR_UNKNOWN_ATTRIBUTES : Z := 10.
Definition STUN_ATTR_CHANNEL_NUMBER : Z := 12.
Definition STUN_ATTR_LIFETIME : Z := 13.
Definition STUN_ATTR_XOR_PEER_ADDRESS : Z := 18.
Definition STUN_ATTR_DATA : Z := 19.
Definition STUN_ATTR_REALM : Z := 20.
Definition STUN_ATTR_NONCE : Z := 21.
Definition STUN_ATTR_XOR_RELAYED_ADDRESS : Z := 22.
Definition STUN_ATTR_EVEN_PORT : Z := 24.
Definition STUN_ATTR_REQUESTED_TRANSPORT : Z := 25.
Definition STUN_ATTR_DONT_FRAGMENT : Z := 26.
Definition STUN_ATTR_MESSAGE_INTEGRITY_SHA256 : Z := 28.
Definition STUN_ATTR_PASSWORD_ALGORITHM : Z := 29.
Definition STUN_ATTR_USERHASH : Z := 30.
Definition STUN_ATTR_XOR_MAPPED_ADDRESS : Z := 32.
Definition STUN_ATTR_RESERVATION_TOKEN : Z := 34.
Definition STUN_ATTR_PRIORITY : Z := 36.
Definition STUN_ATTR_USE_CANDIDATE : Z := 37.
Definition STUN_ATTR_PASSWORD_ALGORITHMS : Z := 32770.
Definition STUN_ATTR_SOFTWARE : Z := 32802.
Definition STUN_ATTR_ALTERNATE_SERVER : Z := 32803.
Definition STUN_ATTR_FINGERPRINT : Z := 32808.
Definition STUN_ATTR_ICE_CONTROLLED : Z := 32809.
Definition STUN_ATTR_ICE_CONTROLLING : Z := 32810.

Definition STUN_ADDRESS_FAMILY_IPV4 : Z := 1.
Definition STUN_ADDRESS_FAMILY_IPV6 : Z := 2.
Definition STUN_ERROR_INTERNAL_VALIDATION_FAILED : Z := 599.

Definition STUN_PASSWORD_ALGORITHM_UNSET : Z := 0.
Definition STUN_PASSWORD_ALGORITHM_MD5 : Z := 1.
Definition STUN_PASSWORD_ALGORITHM_SHA256 : Z := 2.

Definition STUN_MAX_USERNAME_LEN : Z := 513 + 1.
Definition STUN_MAX_REALM_LEN : Z := 763 + 1.
Definition STUN_MAX_NONCE_LEN : Z := 763 + 1.
Definition STUN_MAX_SOFTWARE_LEN : Z := 763 + 1.
Definition STUN_MAX_ERROR_REASON_LEN : Z := 763 + 1.
Definition STUN_MAX_PASSWORD_LEN : Z := STUN_MAX_USERNAME_LEN.
Definition STUN_NONCE_COOKIE : list Z := bytes_of_string "obMatJos2".
Definition STUN_NONCE_COOKIE_LEN : Z := 9.
Definition HASH_MD5_SIZE : Z := 16.
Definition HASH_SHA256_SIZE : Z := 32.
Definition HMAC_SHA1_SIZE : Z := 20.
Definition HMAC_SHA256_SIZE : Z := 32.
Definition USERHASH_SIZE : Z := HASH_SHA256_SIZE.
Definition STUN_SECURITY_PASSWORD_ALGORITHMS_BIT : Z := 1.
Definition STUN_SECURITY_USERNAME_ANONYMITY_BIT : Z := 2.
Definition STUN_MAX_PASSWORD_ALGORITHMS_VALUE_SIZE : Z := 256.
Definition STUN_MAX_PEER_ADDRESSES : Z := 8.
Definition MAX_HMAC_KEY_LEN : Z := STUN_MAX_PASSWORD_LEN.
Definition MAX_HMAC_INPUT_LEN : Z := STUN_MAX_USERNAME_LEN + STUN_MAX_REALM_LEN + STUN_MAX_PASSWORD_LEN + 2.
Definition MAX_USERHASH_INPUT_LEN : Z := STUN_MAX_USERNAME_LEN + STUN_MAX_REALM_LEN + 1.

(** ** The message structure

    Character arrays have their full size; [data] is the memory behind the pointer, [None]
    for a null pointer. *)

Record stun_credentials_t := Credentials {
  username : list Z; realm : list Z; nonce : list Z; userhash : list Z; enable_userhash : bool;
  password_algorithm : Z; password_algorithms_value : list Z; password_algorithms_value_size : Z }.

#[export] Instance credentials_eta : RecordEta stun_credentials_t := fun c =>
  Credentials (username c) (realm c) (nonce c) (userhash c) (enable_userhash c) (password_algorithm c)
    (password_algorithms_value c) (password_algorithms_value_size c).

Record stun_message_t := Message {
  msg_class : Z; msg_method : Z; transaction_id : list Z; error_code : Z; priority : Z; ice_controlling : Z;
  ice_controlled : Z; use_candidate : bool; mapped : addr_record_t; credentials : stun_credentials_t;
  has_integrity : bool; has_fingerprint : bool;
  peers : list addr_record_t; peers_size : Z; relayed : addr_record_t; alternate_server : addr_record_t;
  data : option (list Z); data_size : Z; lifetime : Z; channel_number : Z; lifetime_set : bool; even_port : bool;
  next_port : bool; dont_fragment : bool; requested_transport : bool; reservation_token : Z }.

#[export] Instance message_eta : RecordEta stun_message_t := fun m =>
  Message (msg_class m) (msg_method m) (transaction_id m) (error_code m) (priority m) (ice_controlling m)
    (ice_controlled m) (use_candidate m) (mapped m) (credentials m) (has_integrity m) (has_fingerprint m)
    (peers m) (peers_size m) (relayed m) (alternate_server m) (data m) (data_size m) (lifetime m) (channel_number m)
    (lifetime_set m) (even_port m) (next_port m) (dont_fragment m) (requested_transport m) (reservation_token m).

(** [memset(msg, 0, sizeof( *msg))] *)
Definition zero_credentials : stun_credentials_t :=
  Credentials (replicate 514 0) (replicate 764 0) (replicate 764 0) (replicate 32 0) false 0 (replicate 256 0) 0.

Definition zero_message : stun_message_t :=
  Message 0 0 (replicate 12 0) 0 0 0 0 false zero_record zero_credentials false false (replicate 8 zero_record) 0
    zero_record zero_record None 0 0 0 false false false false false 0.

(** ** Hashing *)

Class Hash := {
  juice_hash_md5 : list Z -> list Z;
  juice_hash_sha256 : list Z -> list Z;
  hmac_sha1 : list Z -> list Z -> list Z; (* message, key *)
  hmac_sha256 : list Z -> list Z -> list Z }.

(** Digests have their size and consist of bytes. *)
Class HashOk (H : Hash) := {
  md5_size m : zlen (juice_hash_md5 m) = HASH_MD5_SIZE /\ Forall byte (juice_hash_md5 m);
  sha256_size m : zlen (juice_hash_sha256 m) = HASH_SHA256_SIZE /\ Forall byte (juice_hash_sha256 m);
  hmac_sha1_size m k : zlen (hmac_sha1 m k) = HMAC_SHA1_SIZE /\ Forall byte (hmac_sha1 m k);
  hmac_sha256_size m k : zlen (hmac_sha256 m k) = HMAC_SHA256_SIZE /\ Forall byte (hmac_sha256 m k) }.

(** [CRC32] is [juice_crc32]; the state of its static table does not show in its result. *)
Definition CRC32 (data : list Z) : option Z := '(crc, _) ← juice_crc32 data table0; Some crc.

(** ** Helpers *)

(** [while (len & 0x03) ++len;], which needs three turns at most. *)
Fixpoint align32_loop (fuel : nat) (len : Z) : Z :=
  match fuel with
  | O => len
  | S n => if Z.land len 3 =? 0 then len else align32_loop n (len + 1)
  end.
Definition align32 (len : Z) : Z := align32_loop 3 len.

Definition generate_mask (transaction_id : list Z) : option (list Z) :=
  id ← rd_bytes transaction_id 0 12; Some (be32 STUN_MAGIC ++ id).

(** [snprintf] of the text [s] into a buffer of [n > 0] characters: what it holds before the
    NUL.  Every use keeps the shorter of the returned length and [n - 1]. *)
Definition snprintf (n : Z) (s : list Z) : list Z := take (Z.to_nat (n - 1)) s.

Definition colon : list Z := [58].

Section hash.
Context `{Hash}.

(** The key; its length is the returned one. *)
Definition generate_hmac_key (c : stun_credentials_t) (password : option (list Z)) : option (list Z) :=
  pw ← (match password with Some p => string_at p | None => Some [] end);
  c0 ← rd (realm c) 0;
  if negb (c0 =? 0) then (* long-term credentials *)
    user ← string_at (username c); rlm ← string_at (realm c);
    let input := snprintf MAX_HMAC_INPUT_LEN (user ++ colon ++ rlm ++ colon ++ pw) in
    Some (if password_algorithm c =? STUN_PASSWORD_ALGORITHM_SHA256 then juice_hash_sha256 input
          else juice_hash_md5 input)
  else (* short-term credentials *) Some (snprintf MAX_HMAC_KEY_LEN pw).

Definition stun_compute_userhash (username realm : list Z) : option (list Z) :=
  user ← string_at username; rlm ← string_at realm;
  Some (juice_hash_sha256 (snprintf MAX_USERHASH_INPUT_LEN (user ++ colon ++ rlm))).

(** [strcpy] into an array. *)
Definition strcpy (dst src : list Z) : option (list Z) := s ← string_at src; wr_bytes dst 0 (s ++ [0]).

(** [local] is the uninitialised array [username]. *)
Definition stun_process_credentials (local : list Z) (c dst : stun_credentials_t) : option stun_credentials_t :=
  local ← strcpy local (username dst);
  user ← strcpy (username c) local;
  let dst := c <| username := user |> in
  if enable_userhash c then h ← stun_compute_userhash local (realm c); Some (dst <| userhash := h |>)
  else Some dst.
End hash.

(** The two entries of the list, SHA-256 and MD5, without parameters. *)
Definition generate_password_algorithms_attr : list Z :=
  be16 STUN_PASSWORD_ALGORITHM_SHA256 ++ be16 0 ++ be16 STUN_PASSWORD_ALGORITHM_MD5 ++ be16 0.

Definition stun_get_error_reason (code : Z) : list Z := bytes_of_string (
  if code =? 0 then "" else if code =? 300 then "Try Alternate" else if code =? 400 then "Bad Request"
  else if code =? 401 then "Unauthenticated" else if code =? 403 then "Forbidden"
  else if code =? 420 then "Unknown Attribute" else if code =? 437 then "Allocation Mismatch"
  else if code =? 438 then "Stale Nonce" else if code =? 440 then "Address Family not Supported"
  else if code =? 441 then "Wrong credentials" else if code =? 442 then "Unsupported Transport Protocol"
  else if code =? 443 then "Peer Address Family Mismatch" else if code =? 486 then "Allocation Quota Reached"
  else if code =? 500 then "Server Error" else if code =? 508 then "Insufficient Capacity" else "Error").

(** [stun_update_header_length]: the previous length and the buffer. *)
Definition stun_update_header_length (buf : list Z) (length : Z) : option (Z * list Z) :=
  previous ← rd_bytes buf 2 2; buf ← wr_bytes buf 2 (be16 (u16 length)); Some (get_be previous, buf).
