(* ===== verification/StunWrite.v ===== *)
(** * Writing STUN messages (libjuice [src/stun.c])

    [stun_write] and the functions it calls, over a buffer and an offset [pos] into it.  The
    lengths they return go through [size_t], where -1 is the largest value, as in the
    source. *)

From S2P Require Import Prelude Bytes Addr Stun.

(** [stun_write_header] at the beginning of the buffer. *)
Definition stun_write_header (buf : list Z) (size class method : Z) (transaction_id : list Z) : option (Z * list Z) :=
  if size <? sizeof_stun_header then Some (-1, buf) else
  let type := Z.lor (u16 class) (u16 method) in
  id ← rd_bytes transaction_id 0 STUN_TRANSACTION_ID_SIZE;
  buf ← wr_bytes buf 0 (be16 type ++ be16 0 ++ be32 STUN_MAGIC);
  buf ← wr_bytes buf 8 id;
  Some (sizeof_stun_header, buf).

(** [while (length & 0x03) attr->value[length++] = 0;], at most three turns. *)
Fixpoint pad_loop (fuel : nat) (buf : list Z) (value length : Z) : option (list Z * Z) :=
  match fuel with
  | O => None
  | S n => if Z.land length 3 =? 0 then Some (buf, length)
           else buf ← wr buf (value + length) 0; pad_loop n buf value (length + 1)
  end.

(** An attribute at offset [off]. *)
Definition stun_write_attr (buf : list Z) (off size type : Z) (value : list Z) (length : Z) : option (Z * list Z) :=
  if size <? u64 (STUN_ATTR_SIZE + length) then Some (-1, buf) else
  buf ← wr_bytes buf off (be16 type ++ be16 (u16 length));
  '(buf, length) ← (if 0 <? length then
                      v ← rd_bytes value 0 length;
                      buf ← wr_bytes buf (off + STUN_ATTR_SIZE) v;
                      pad_loop 4 buf (off + STUN_ATTR_SIZE) length
                    else Some (buf, length));
  Some (i32 (STUN_ATTR_SIZE + length), buf).

(** [for (int i = 0; i < n; ++i) value->address[i] = bytes[i] ^ mask[i];] *)
Definition write_address (n : Z) (bytes mask buf : list Z) : option (list Z) :=
  for_up 0 n (fun i buf => b ← rd bytes i; m ← rd mask i; wr buf (4 + i) (Z.lxor b m)) buf.

(** [value->port = sin_port ^ *((uint16_t * )mask)] *)
Definition write_port (port : Z) (mask buf : list Z) : option (list Z) :=
  m ← rd_bytes mask 0 2; wr_bytes buf 2 (le16 (Z.lxor port (get_le m))).

Definition stun_write_value_mapped_address (buf : list Z) (size : Z) (addr : sockaddr) (addrlen : Z) (mask : list Z)
    : option (Z * list Z) :=
  if size <? 4 then Some (-1, buf) else
  buf ← wr buf 0 0;
  match addr with
  | Sin sin_port bytes =>
      buf ← wr buf 1 STUN_ADDRESS_FAMILY_IPV4;
      if size <? 4 + 4 then Some (-1, buf) else
      if addrlen <? sizeof_sockaddr_in then Some (-1, buf) else
      buf ← write_port sin_port mask buf; buf ← write_address 4 bytes mask buf; Some (4 + 4, buf)
  | Sin6 sin6_port _ bytes _ =>
      buf ← wr buf 1 STUN_ADDRESS_FAMILY_IPV6;
      if size <? 4 + 16 then Some (-1, buf) else
      if addrlen <? sizeof_sockaddr_in6 then Some (-1, buf) else
      buf ← write_port sin6_port mask buf; buf ← write_address 16 bytes mask buf; Some (4 + 16, buf)
  | SaOther _ => Some (-1, buf)
  end.

(** ** The message

    A statement of [stun_write] takes the buffer and [pos] and goes on with new ones, or
    jumps to [overflow]. *)

Inductive wres := Wok (buf : list Z) (pos : Z) | Woverflow (buf : list Z).
Definition stmt := list Z -> Z -> option wres.

Definition skip : stmt := fun buf pos => Some (Wok buf pos).
Definition sequence (f g : stmt) : stmt := fun buf pos =>
  r ← f buf pos; match r with Wok buf pos => g buf pos | Woverflow buf => Some (Woverflow buf) end.
Definition when (b : bool) (f : stmt) : stmt := if b then f else skip.
Definition sequence_all (l : list stmt) : stmt := foldr sequence skip l.

(** [len = ...; if (len <= 0) goto overflow; pos += len;] with [size_t len]. *)
Definition advance (ret : Z) (buf : list Z) (pos : Z) : wres :=
  let len := u64 ret in if len <=? 0 then Woverflow buf else Wok buf (sint 64 (pos + len)).

(** [end] is [begin + size]. *)
Definition put_attr (size type : Z) (value : list Z) (length : Z) : stmt := fun buf pos =>
  '(ret, buf) ← stun_write_attr buf pos (u64 (size - pos)) type value length; Some (advance ret buf pos).

(** The block that writes an address attribute; the local [value[32]] is set by the call. *)
Definition put_address (size type : Z) (transaction_id : list Z) (a : addr_record_t) : stmt := fun buf pos =>
  mask ← generate_mask transaction_id;
  '(value_len, value) ← stun_write_value_mapped_address (replicate 32 0) 32 (addr a) (len a) mask;
  if 0 <? value_len then put_attr size type value value_len buf pos else Some (Wok buf pos).

(** The local structures. *)
Definition error_code_value (error_code : Z) : list Z :=
  [0; 0; u8 (Z.land (error_code / 100) 7); u8 (error_code mod 100)] ++ stun_get_error_reason error_code.
Definition channel_number_value (channel_number : Z) : list Z := be16 channel_number ++ [0; 0].
Definition even_port_value (next_port : bool) : list Z := [if next_port then Z.lor 0 128 else 0].
Definition requested_transport_value : list Z := [17; 0; 0; 0].
Definition software : list Z := bytes_of_string "libjuice".

(** A string attribute: [strlen] bytes of a character array. *)
Definition put_string (size type : Z) (s : list Z) : stmt := fun buf pos =>
  length ← strlen s; put_attr size type s length buf pos.

(** [if ( *s != '\0')] *)
Definition unless_empty (s : list Z) (f : stmt) : stmt := fun buf pos => c ← rd s 0; when (negb (c =? 0)) f buf pos.

(** Turn [i] of the loop over the peers. *)
Definition put_peer (size : Z) (msg : stun_message_t) (i : nat) : stmt := fun buf pos =>
  peer ← rd (peers msg) (Z.of_nat i);
  when (negb (len peer =? 0)) (put_address size STUN_ATTR_XOR_PEER_ADDRESS (transaction_id msg) peer) buf pos.

(** The attributes between the header and MESSAGE-INTEGRITY, lines 119 to 262. *)
Definition put_body (size : Z) (msg : stun_message_t) : stmt :=
  let id := transaction_id msg in
  sequence_all [
    when (negb (error_code msg =? 0))
      (put_attr size STUN_ATTR_ERROR_CODE (error_code_value (error_code msg)) (zlen (error_code_value (error_code msg))));
    when (negb (len (mapped msg) =? 0)) (put_address size STUN_ATTR_XOR_MAPPED_ADDRESS id (mapped msg));
    when (negb (priority msg =? 0)) (put_attr size STUN_ATTR_PRIORITY (be32 (priority msg)) 4);
    when (use_candidate msg) (put_attr size STUN_ATTR_USE_CANDIDATE [] 0);
    when (negb (ice_controlling msg =? 0)) (put_attr size STUN_ATTR_ICE_CONTROLLING (be64 (ice_controlling msg)) 8);
    when (negb (ice_controlled msg =? 0)) (put_attr size STUN_ATTR_ICE_CONTROLLED (be64 (ice_controlled msg)) 8);
    when (negb (channel_number msg =? 0))
      (put_attr size STUN_ATTR_CHANNEL_NUMBER (channel_number_value (channel_number msg)) 4);
    when (lifetime_set msg || negb (lifetime msg =? 0)) (put_attr size STUN_ATTR_LIFETIME (be32 (lifetime msg)) 4);
    sequence_all (map (put_peer size msg) (seq 0 (Z.to_nat (peers_size msg))));
    when (negb (len (relayed msg) =? 0)) (put_address size STUN_ATTR_XOR_RELAYED_ADDRESS id (relayed msg));
    match data msg with Some d => put_attr size STUN_ATTR_DATA d (data_size msg) | None => skip end;
    when (even_port msg) (put_attr size STUN_ATTR_CHANNEL_NUMBER (even_port_value (next_port msg)) 1);
    when (requested_transport msg) (put_attr size STUN_ATTR_REQUESTED_TRANSPORT requested_transport_value 4);
    when (dont_fragment msg) (put_attr size STUN_ATTR_DONT_FRAGMENT [] 0);
    when (negb (reservation_token msg =? 0)) (put_attr size STUN_ATTR_RESERVATION_TOKEN (be64 (reservation_token msg)) 8)
  ].

(** SOFTWARE and the credentials, lines 264 to 333.  [uninit] is what the unset field
    [pwa.parameters_length] holds. *)
Definition put_credentials (size uninit : Z) (msg : stun_message_t) : stmt :=
  let c := credentials msg in
  let request := msg_class msg =? STUN_CLASS_REQUEST in
  sequence_all [
    put_attr size STUN_ATTR_SOFTWARE software (zlen software);
    when request
      (if enable_userhash c then put_attr size STUN_ATTR_USERHASH (userhash c) USERHASH_SIZE
       else unless_empty (username c) (put_string size STUN_ATTR_USERNAME (username c)));
    when (request || (msg_class msg =? STUN_CLASS_RESP_ERROR) && ((error_code msg =? 401) || (error_code msg =? 438)))
      (sequence_all [
        unless_empty (realm c) (put_string size STUN_ATTR_REALM (realm c));
        unless_empty (nonce c) (sequence_all [
          put_string size STUN_ATTR_NONCE (nonce c);
          (if 0 <? password_algorithm c then
             put_attr size STUN_ATTR_PASSWORD_ALGORITHMS (password_algorithms_value c) (password_algorithms_value_size c)
           else when (negb request)
             (put_attr size STUN_ATTR_PASSWORD_ALGORITHMS generate_password_algorithms_attr
                       (zlen generate_password_algorithms_attr)));
          when (request && negb (password_algorithm c =? STUN_PASSWORD_ALGORITHM_UNSET))
            (put_attr size STUN_ATTR_PASSWORD_ALGORITHM (be16 (password_algorithm c) ++ le16 uninit) 4)])])
  ].

Section write.
Context `{Hash}.

(** [tmp_length], the header's length field, the HMAC over [begin .. pos] and its
    attribute; [attr_begin] is 20 unless the header did not fit. *)
Definition put_hmac (size attr_begin type hmac_size : Z) (hmac : list Z -> list Z -> list Z) (key : list Z) : stmt := fun buf pos =>
  let tmp_length := u64 (pos - attr_begin + STUN_ATTR_SIZE + hmac_size) in
  '(_, buf) ← stun_update_header_length buf tmp_length;
  m ← rd_bytes buf 0 pos;
  put_attr size type (hmac m key) hmac_size buf pos.

(** Lines 334 to 367. *)
Definition put_integrity (size attr_begin : Z) (msg : stun_message_t) (password : option (list Z)) : stmt := fun buf pos =>
  if negb (msg_class msg =? STUN_CLASS_INDICATION) && bool_decide (is_Some password) then
    key ← generate_hmac_key (credentials msg) password;
    sequence (put_hmac size attr_begin STUN_ATTR_MESSAGE_INTEGRITY HMAC_SHA1_SIZE hmac_sha1 key)
      (when (negb (password_algorithm (credentials msg) =? STUN_PASSWORD_ALGORITHM_UNSET))
        (put_hmac size attr_begin STUN_ATTR_MESSAGE_INTEGRITY_SHA256 HMAC_SHA256_SIZE hmac_sha256 key)) buf pos
  else skip buf pos.

(** Lines 369 to 382: the final length, the fingerprint and the return value. *)
Definition finish (size attr_begin : Z) (buf : list Z) (pos : Z) : option (Z * list Z) :=
  let length := u64 (pos - attr_begin + STUN_ATTR_SIZE + 4) in
  if negb (Z.land length 3 =? 0) then Some (-1, buf) else
  '(_, buf) ← stun_update_header_length buf length;
  m ← rd_bytes buf 0 pos;
  crc ← CRC32 m;
  r ← put_attr size STUN_ATTR_FINGERPRINT (be32 (Z.lxor crc STUN_FINGERPRINT_XOR)) 4 buf pos;
  match r with
  | Wok buf pos => Some (i32 pos, buf)
  | Woverflow buf => Some (-1, buf)
  end.

Definition stun_write (buf : list Z) (size uninit : Z) (msg : stun_message_t) (password : option (list Z))
    : option (Z * list Z) :=
  '(ret, buf) ← stun_write_header buf size (msg_class msg) (msg_method msg) (transaction_id msg);
  match advance ret buf 0 with
  | Woverflow buf => Some (-1, buf)
  | Wok buf attr_begin =>
      r ← sequence_all [put_body size msg; put_credentials size uninit msg; put_integrity size attr_begin msg password]
            buf attr_begin;
      match r with
      | Wok buf pos => finish size attr_begin buf pos
      | Woverflow buf => Some (-1, buf)
      end
  end.
End write.
