(* ===== verification/StunWriteProps.v ===== *)
(** * What [stun_write] writes

    [appends]: a statement of [stun_write] that puts given bytes behind [pos].  With a
    buffer that is large enough the whole function writes the message [encode]. *)

From S2P Require Import Prelude Bytes Addr Crc32 Stun StunWrite.

(** ** The format *)

(** The number of zero bytes behind a value. *)
Definition padding (n : Z) : Z := (- n) mod 4.

Definition encode_attr (a : Z * list Z) : list Z :=
  be16 (fst a) ++ be16 (zlen (snd a)) ++ snd a ++ replicate (Z.to_nat (padding (zlen (snd a)))) 0.
Definition encode_attrs (l : list (Z * list Z)) : list Z := concat (map encode_attr l).

Lemma padding_range n : 0 <= padding n < 4.
Proof. apply Z.mod_pos_bound. lia. Qed.

Lemma encode_attr_length a : zlen (encode_attr a) = 4 + zlen (snd a) + padding (zlen (snd a)).
Proof.
  unfold encode_attr. pose proof (padding_range (zlen (snd a))).
  rewrite !zlen_app, !be16_length, zlen_replicate. lia.
Qed.

Lemma encode_attrs_app l k : encode_attrs (l ++ k) = encode_attrs l ++ encode_attrs k.
Proof. unfold encode_attrs. by rewrite map_app, concat_app. Qed.

Lemma encode_attr_aligned a : zlen (encode_attr a) mod 4 = 0.
Proof. rewrite encode_attr_length. unfold padding. Z.to_euclidean_division_equations; lia. Qed.

Lemma encode_attrs_aligned l : zlen (encode_attrs l) mod 4 = 0.
Proof.
  induction l as [|a l IH]; [done|]. change (encode_attrs (a :: l)) with (encode_attr a ++ encode_attrs l).
  rewrite zlen_app. pose proof (encode_attr_aligned a). Z.to_euclidean_division_equations; lia.
Qed.

Lemma align32_padding n : 0 <= n -> align32 n = n + padding n.
Proof.
  intros Hn. unfold align32. cbn [align32_loop]. rewrite !land3. unfold padding.
  destruct (Z.eqb_spec (n mod 4) 0); [|destruct (Z.eqb_spec ((n + 1) mod 4) 0); [|destruct (Z.eqb_spec ((n + 1 + 1) mod 4) 0)]];
    Z.to_euclidean_division_equations; lia.
Qed.

Lemma pad_loop_spec k : forall fuel pre rest value len, (k < fuel)%nat -> padding len = Z.of_nat k ->
  value + len = zlen pre -> Z.of_nat k <= zlen rest ->
  pad_loop fuel (pre ++ rest) value len = Some ((pre ++ replicate k 0) ++ drop k rest, len + Z.of_nat k).
Proof.
  induction k as [|k IH]; intros fuel pre rest value len Hf Hk Hv Hr; (destruct fuel as [|fuel]; [lia|]); cbn [pad_loop].
  - rewrite land3. unfold padding in Hk. destruct (Z.eqb_spec (len mod 4) 0); [|Z.to_euclidean_division_equations; lia].
    rewrite drop_0. simpl. rewrite app_nil_r. repeat f_equal. lia.
  - rewrite land3. unfold padding in *.
    destruct (Z.eqb_spec (len mod 4) 0); [Z.to_euclidean_division_equations; lia|].
    rewrite Hv, wr_at by lia. cbn [mbind option_bind]. rewrite IH.
    + rewrite drop_drop, <- (app_assoc pre [0]). simpl. do 2 f_equal. lia.
    + lia.
    + Z.to_euclidean_division_equations; lia.
    + rewrite zlen_app. change (zlen [0]) with 1. lia.
    + rewrite zlen_drop. lia.
Qed.

Lemma stun_write_attr_spec pre rest size type v junk :
  zlen v < 65536 -> zlen (encode_attr (type, v)) <= zlen rest -> zlen (encode_attr (type, v)) <= size ->
  stun_write_attr (pre ++ rest) (zlen pre) size type (v ++ junk) (zlen v) =
    Some (zlen (encode_attr (type, v)),
          (pre ++ encode_attr (type, v)) ++ drop (length (encode_attr (type, v))) rest).
Proof.
  intros Hv Hr Hs. pose proof (zlen_nonneg v). pose proof (padding_range (zlen v)) as Hp.
  rewrite encode_attr_length in *. cbn [snd] in *. unfold stun_write_attr, STUN_ATTR_SIZE. norm_words.
  destruct (Z.ltb_spec size (4 + zlen v)); [lia|].
  unfold encode_attr. cbn [fst snd]. remember (be16 type ++ be16 (zlen v)) as hdr eqn:Hhdr.
  assert (zlen hdr = 4) as Hh by (subst hdr; done). assert (length hdr = 4%nat) as Hh' by (subst hdr; done).
  replace (be16 type ++ be16 (zlen v) ++ v ++ replicate (Z.to_nat (padding (zlen v))) 0)
    with ((hdr ++ v) ++ replicate (Z.to_nat (padding (zlen v))) 0) by (by rewrite Hhdr, <- !app_assoc).
  rewrite wr_bytes_at by lia. cbn [mbind option_bind].
  destruct (Z.ltb_spec 0 (zlen v)) as [Hpos|Hzero].
  - rewrite rd_bytes_0 by (rewrite zlen_app; pose proof (zlen_nonneg junk); lia).
    replace (take (Z.to_nat (zlen v)) (v ++ junk)) with v by (unfold zlen; by rewrite Nat2Z.id, take_app_length).
    cbn [mbind option_bind]. replace (zlen pre + 4) with (zlen (pre ++ hdr)) by (rewrite zlen_app; lia).
    rewrite wr_bytes_at by (rewrite zlen_drop; lia). cbn [mbind option_bind].
    rewrite (pad_loop_spec (Z.to_nat (padding (zlen v)))).
    + cbn [mbind option_bind]. rewrite i32_small by lia. rewrite !drop_drop, <- !app_assoc, !length_app, length_replicate.
      do 2 f_equal; [|lia..]. lia.
    + lia.
    + lia.
    + rewrite !zlen_app. lia.
    + rewrite !zlen_drop. unfold zlen in *. lia.
  - assert (v = []) as -> by (destruct v; [done|rewrite zlen_cons in *; pose proof (zlen_nonneg v); lia]).
    cbn [mbind option_bind]. rewrite !app_nil_r. done.
Qed.

(** ** Statements that append bytes *)

Section appends.
Context (size : Z).

Definition appends (f : stmt) (e : list Z) : Prop := forall pre rest,
  zlen pre + zlen e <= size -> size <= zlen pre + zlen rest ->
  f (pre ++ rest) (zlen pre) = Some (Wok ((pre ++ e) ++ drop (length e) rest) (zlen (pre ++ e))).

Lemma appends_skip : appends skip [].
Proof. intros pre rest _ _. by rewrite !app_nil_r. Qed.

Lemma appends_sequence f g e1 e2 : appends f e1 -> appends g e2 -> appends (sequence f g) (e1 ++ e2).
Proof.
  intros Hf Hg pre rest H1 H2. unfold sequence. rewrite zlen_app in H1.
  pose proof (zlen_nonneg e2). rewrite Hf by lia. cbn [mbind option_bind].
  rewrite Hg by (rewrite ?zlen_app, ?zlen_drop; unfold zlen in *; lia).
  by rewrite drop_drop, <- !app_assoc, length_app.
Qed.

Lemma appends_sequence_all fs es : Forall2 appends fs es -> appends (sequence_all fs) (concat es).
Proof. induction 1 as [|f e fs es Hf _ IH]; [apply appends_skip|]. by apply appends_sequence. Qed.

Lemma appends_when b f e : appends f e -> appends (when b f) (if b then e else []).
Proof. intros H. destruct b; [done|apply appends_skip]. Qed.

Context (Hsize : size < 2147483648).

Lemma appends_put_attr type v junk : zlen v < 65536 ->
  appends (put_attr size type (v ++ junk) (zlen v)) (encode_attr (type, v)).
Proof.
  intros Hv pre rest H1 H2. unfold put_attr. pose proof (zlen_nonneg pre). pose proof (zlen_nonneg v).
  pose proof (encode_attr_length (type, v)) as He. cbn [snd] in He. pose proof (padding_range (zlen v)).
  norm_words. rewrite stun_write_attr_spec by lia. cbn [mbind option_bind]. unfold advance. norm_words.
  rewrite (proj2 (Z.leb_gt _ _)) by lia. rewrite <- zlen_app. unfold sint.
  rewrite (Z.mod_small (zlen _ + _)); [do 2 f_equal; lia|]. rewrite zlen_app. change (2 ^ (64 - 1)) with 9223372036854775808. lia.
Qed.

Lemma appends_put_attr' type v n : zlen v < 65536 -> n = zlen v -> appends (put_attr size type v n) (encode_attr (type, v)).
Proof. intros Hv ->. rewrite <- (app_nil_r v) at 1. by apply appends_put_attr. Qed.
End appends.

(** ** Addresses *)

Definition xor_mask (id : list Z) : list Z := be32 STUN_MAGIC ++ id.

(** The value of a (XOR-)MAPPED-ADDRESS attribute under a mask. *)
Definition address_value (family port : Z) (bytes mask : list Z) : list Z :=
  [0; family] ++ le16 (Z.lxor port (get_le (take 2 mask))) ++ zip_with Z.lxor bytes mask.

(** The value written for a record, and the attributes [put_address] writes. *)
Definition record_value (id : list Z) (r : addr_record_t) : option (list Z) :=
  match addr r with
  | Sin p a => if len r <? sizeof_sockaddr_in then None
               else Some (address_value STUN_ADDRESS_FAMILY_IPV4 p a (xor_mask id))
  | Sin6 p _ a _ => if len r <? sizeof_sockaddr_in6 then None
                    else Some (address_value STUN_ADDRESS_FAMILY_IPV6 p a (xor_mask id))
  | SaOther _ => None
  end.
Definition address_attrs (type : Z) (id : list Z) (r : addr_record_t) : list (Z * list Z) :=
  match record_value id r with Some v => [(type, v)] | None => [] end.

Lemma generate_mask_spec id : length id = 12%nat -> generate_mask id = Some (xor_mask id).
Proof.
  intros Hid. unfold generate_mask. rewrite rd_bytes_0 by (unfold zlen; rewrite Hid; lia).
  cbn [mbind option_bind]. by rewrite take_ge by (rewrite Hid; done).
Qed.

Lemma write_address_spec n a mask family port : length mask = 16%nat -> length a = n -> (n = 4 \/ n = 16)%nat ->
  exists junk, (buf ← wr (replicate 32 0) 0 0; buf ← wr buf 1 family;
    buf ← write_port port mask buf; write_address (Z.of_nat n) a mask buf)
    = Some (address_value family port a mask ++ junk).
Proof.
  intros Hm Ha Hn. do 16 (destruct mask as [|? mask]; [done|]). destruct mask; [|done].
  destruct Hn as [-> | ->].
  - do 4 (destruct a as [|? a]; [done|]). destruct a; [|done]. eexists. vm_compute. reflexivity.
  - do 16 (destruct a as [|? a]; [done|]). destruct a; [|done]. eexists. vm_compute. reflexivity.
Qed.

Lemma write_mapped_spec id r : sockaddr_ok (addr r) -> length id = 12%nat ->
  exists ret value, stun_write_value_mapped_address (replicate 32 0) 32 (addr r) (len r) (xor_mask id) = Some (ret, value) /\
    match record_value id r with
    | None => ret = -1
    | Some v => (exists junk, value = v ++ junk) /\ ret = zlen v /\ 0 < zlen v < 65536
    end.
Proof.
  intros Hok Hid. assert (length (xor_mask id) = 16%nat) as Hm by (unfold xor_mask; rewrite length_app, Hid; done).
  unfold record_value. destruct r as [sa l st]; cbn [addr len]. unfold stun_write_value_mapped_address.
  rewrite (proj2 (Z.ltb_ge 32 4)) by lia.
  destruct sa as [p a|p f a sc|f].
  - destruct Hok as (_ & Ha & _). rewrite (proj2 (Z.ltb_ge 32 (4 + 4))) by lia.
    destruct (l <? sizeof_sockaddr_in); [by eexists _, _|].
    destruct (write_address_spec 4 a (xor_mask id) STUN_ADDRESS_FAMILY_IPV4 p Hm Ha (or_introl eq_refl)) as [junk Hw].
    change (Z.of_nat 4) with 4 in Hw. cbn [mbind option_bind wr replicate] in Hw |- *.
    destruct (wr _ 0 0) as [b0|]; [|done]. cbn [mbind option_bind] in *. destruct (wr b0 1 _) as [b1|]; [|done].
    cbn [mbind option_bind] in *. destruct (write_port p (xor_mask id) b1) as [b2|]; [|done]. cbn [mbind option_bind] in *.
    rewrite Hw. cbn [mbind option_bind]. eexists _, _. split; [done|].
    assert (zlen (address_value STUN_ADDRESS_FAMILY_IPV4 p a (xor_mask id)) = 8) as Hl.
    { unfold address_value, zlen. rewrite !length_app, length_zip_with, Ha, Hm. done. }
    rewrite Hl. split; [by eexists|done].
  - destruct Hok as (_ & Ha & _). rewrite (proj2 (Z.ltb_ge 32 (4 + 16))) by lia.
    destruct (l <? sizeof_sockaddr_in6); [by eexists _, _|].
    destruct (write_address_spec 16 a (xor_mask id) STUN_ADDRESS_FAMILY_IPV6 p Hm Ha (or_intror eq_refl)) as [junk Hw].
    change (Z.of_nat 16) with 16 in Hw. cbn [mbind option_bind wr replicate] in Hw |- *.
    destruct (wr _ 0 0) as [b0|]; [|done]. cbn [mbind option_bind] in *. destruct (wr b0 1 _) as [b1|]; [|done].
    cbn [mbind option_bind] in *. destruct (write_port p (xor_mask id) b1) as [b2|]; [|done]. cbn [mbind option_bind] in *.
    rewrite Hw. cbn [mbind option_bind]. eexists _, _. split; [done|].
    assert (zlen (address_value STUN_ADDRESS_FAMILY_IPV6 p a (xor_mask id)) = 20) as Hl.
    { unfold address_value, zlen. rewrite !length_app, length_zip_with, Ha, Hm. done. }
    rewrite Hl. split; [by eexists|done].
  - by eexists _, _.
Qed.

Lemma appends_put_address size type id r : size < 2147483648 -> sockaddr_ok (addr r) -> length id = 12%nat ->
  appends size (put_address size type id r) (encode_attrs (address_attrs type id r)).
Proof.
  intros Hsize Hok Hid pre rest H1 H2. unfold put_address. rewrite generate_mask_spec by done. cbn [mbind option_bind].
  destruct (write_mapped_spec id r Hok Hid) as (ret & value & -> & Hv). cbn [mbind option_bind].
  unfold address_attrs in *. destruct (record_value id r) as [v|].
  - destruct Hv as ([junk ->] & -> & Hl). rewrite (proj2 (Z.ltb_lt _ _)) by lia.
    unfold encode_attrs in *. cbn [map concat] in *. rewrite app_nil_r in *. apply appends_put_attr; (done || lia).
  - subst ret. change (0 <? -1) with false. by apply (appends_skip size).
Qed.

(** ** The attributes of a message *)

Definition opt (b : bool) (a : Z * list Z) : list (Z * list Z) := if b then [a] else [].

Definition body_attrs (m : stun_message_t) : list (list (Z * list Z)) :=
  let id := transaction_id m in [
    opt (negb (error_code m =? 0)) (STUN_ATTR_ERROR_CODE, error_code_value (error_code m));
    if negb (len (mapped m) =? 0) then address_attrs STUN_ATTR_XOR_MAPPED_ADDRESS id (mapped m) else [];
    opt (negb (priority m =? 0)) (STUN_ATTR_PRIORITY, be32 (priority m));
    opt (use_candidate m) (STUN_ATTR_USE_CANDIDATE, []);
    opt (negb (ice_controlling m =? 0)) (STUN_ATTR_ICE_CONTROLLING, be64 (ice_controlling m));
    opt (negb (ice_controlled m =? 0)) (STUN_ATTR_ICE_CONTROLLED, be64 (ice_controlled m));
    opt (negb (channel_number m =? 0)) (STUN_ATTR_CHANNEL_NUMBER, channel_number_value (channel_number m));
    opt (lifetime_set m || negb (lifetime m =? 0)) (STUN_ATTR_LIFETIME, be32 (lifetime m));
    concat (map (fun r => if negb (len r =? 0) then address_attrs STUN_ATTR_XOR_PEER_ADDRESS id r else [])
                (take (Z.to_nat (peers_size m)) (peers m)));
    if negb (len (relayed m) =? 0) then address_attrs STUN_ATTR_XOR_RELAYED_ADDRESS id (relayed m) else [];
    match data m with Some d => [(STUN_ATTR_DATA, take (Z.to_nat (data_size m)) d)] | None => [] end;
    opt (even_port m) (STUN_ATTR_CHANNEL_NUMBER, even_port_value (next_port m));
    opt (requested_transport m) (STUN_ATTR_REQUESTED_TRANSPORT, requested_transport_value);
    opt (dont_fragment m) (STUN_ATTR_DONT_FRAGMENT, []);
    opt (negb (reservation_token m =? 0)) (STUN_ATTR_RESERVATION_TOKEN, be64 (reservation_token m))].

Definition is_empty (s : list Z) : bool := match s with [] => true | _ => false end.
Definition string_attr (type : Z) (s : list Z) : list (Z * list Z) := opt (negb (is_empty (cstr s))) (type, cstr s).

Definition nonce_attrs (uninit : Z) (m : stun_message_t) : list (list (Z * list Z)) :=
  let c := credentials m in
  let request := msg_class m =? STUN_CLASS_REQUEST in [
    [(STUN_ATTR_NONCE, cstr (nonce c))];
    (if 0 <? password_algorithm c
     then [(STUN_ATTR_PASSWORD_ALGORITHMS, take (Z.to_nat (password_algorithms_value_size c)) (password_algorithms_value c))]
     else opt (negb request) (STUN_ATTR_PASSWORD_ALGORITHMS, generate_password_algorithms_attr));
    opt (request && negb (password_algorithm c =? STUN_PASSWORD_ALGORITHM_UNSET))
        (STUN_ATTR_PASSWORD_ALGORITHM, be16 (password_algorithm c) ++ le16 uninit)].

Definition credential_attrs (uninit : Z) (m : stun_message_t) : list (list (Z * list Z)) :=
  let c := credentials m in
  let request := msg_class m =? STUN_CLASS_REQUEST in
  let challenge := (msg_class m =? STUN_CLASS_RESP_ERROR) && ((error_code m =? 401) || (error_code m =? 438)) in [
    [(STUN_ATTR_SOFTWARE, software)];
    (if request then if enable_userhash c then [(STUN_ATTR_USERHASH, userhash c)]
                     else string_attr STUN_ATTR_USERNAME (username c) else []);
    (if request || challenge then
       concat [string_attr STUN_ATTR_REALM (realm c);
               if is_empty (cstr (nonce c)) then [] else concat (nonce_attrs uninit m)]
     else [])].

(** Messages the writer can be given: arrays of their size, strings with their NUL, known
    addresses, integers in range, data of the given size. *)
Record credentials_ok (c : stun_credentials_t) : Prop := {
  cok_username : length (username c) = 514%nat /\ is_Some (strlen (username c)) /\ Forall byte (username c);
  cok_realm : length (realm c) = 764%nat /\ is_Some (strlen (realm c)) /\ Forall byte (realm c);
  cok_nonce : length (nonce c) = 764%nat /\ is_Some (strlen (nonce c)) /\ Forall byte (nonce c);
  cok_userhash : length (userhash c) = 32%nat /\ Forall byte (userhash c);
  cok_value : length (password_algorithms_value c) = 256%nat /\ Forall byte (password_algorithms_value c);
  cok_value_size : 0 <= password_algorithms_value_size c <= 256;
  cok_algorithm : 0 <= password_algorithm c <= 2 }.

Record message_ok (m : stun_message_t) : Prop := {
  mok_class : msg_class m ∈ [STUN_CLASS_REQUEST; STUN_CLASS_INDICATION; STUN_CLASS_RESP_SUCCESS; STUN_CLASS_RESP_ERROR];
  mok_method : 0 <= msg_method m < 65536;
  mok_id : length (transaction_id m) = 12%nat /\ Forall byte (transaction_id m);
  mok_error : 0 <= error_code m < 800;
  mok_priority : 0 <= priority m < 4294967296;
  mok_controlling : 0 <= ice_controlling m < 18446744073709551616;
  mok_controlled : 0 <= ice_controlled m < 18446744073709551616;
  mok_mapped : sockaddr_ok (addr (mapped m));
  mok_credentials : credentials_ok (credentials m);
  mok_peers : length (peers m) = 8%nat /\ Forall (fun r => sockaddr_ok (addr r)) (peers m);
  mok_peers_size : 0 <= peers_size m <= STUN_MAX_PEER_ADDRESSES;
  mok_relayed : sockaddr_ok (addr (relayed m));
  mok_data : match data m with Some d => 0 <= data_size m <= zlen d /\ data_size m < 65536 /\ Forall byte d | None => True end;
  mok_lifetime : 0 <= lifetime m < 4294967296;
  mok_channel : 0 <= channel_number m < 65536;
  mok_token : 0 <= reservation_token m < 18446744073709551616 }.

Lemma encode_opt b a : encode_attrs (opt b a) = if b then encode_attr a else [].
Proof. destruct b; [apply app_nil_r|done]. Qed.

Lemma encode_attrs_concat l : encode_attrs (concat l) = concat (map encode_attrs l).
Proof. induction l as [|a l IH]; [done|]. simpl. by rewrite encode_attrs_app, IH. Qed.

Lemma appends_opt size b a f : (b = true -> appends size f (encode_attr a)) -> appends size (when b f) (encode_attrs (opt b a)).
Proof. intros H. rewrite encode_opt. destruct b; [by apply H|apply appends_skip]. Qed.

Lemma appends_cast size f e e' : appends size f e -> e = e' -> appends size f e'.
Proof. by intros ? ->. Qed.

Lemma reason_length code : zlen (stun_get_error_reason code) <= 30.
Proof. unfold stun_get_error_reason. repeat case_match; by vm_compute. Qed.

Lemma appends_peers size m l : size < 2147483648 -> length (transaction_id m) = 12%nat ->
  forall n, (forall i, (i < length l)%nat -> peers m !! (n + i)%nat = l !! i) -> Forall (fun r => sockaddr_ok (addr r)) l ->
  appends size (sequence_all (map (put_peer size m) (seq n (length l))))
    (encode_attrs (concat (map (fun r => if negb (len r =? 0)
       then address_attrs STUN_ATTR_XOR_PEER_ADDRESS (transaction_id m) r else []) l))).
Proof.
  intros Hsize Hid. induction l as [|r l IH]; intros n Hl Hok; [apply appends_skip|].
  apply Forall_cons in Hok as [Hr Hok]. cbn [length seq map concat sequence_all foldr]. rewrite encode_attrs_app.
  apply appends_sequence.
  - intros pre rest H1 H2. unfold put_peer. rewrite rd_nonneg, Nat2Z.id by lia. specialize (Hl 0%nat ltac:(simpl; lia)) as H0.
    rewrite Nat.add_0_r in H0. rewrite H0. cbn [lookup list_lookup mbind option_bind].
    destruct (len r =? 0); cbn [negb when] in *; [by apply (appends_skip size)|by apply (appends_put_address size)].
  - apply (IH (S n)); [|done]. intros i Hi. specialize (Hl (S i) ltac:(simpl; lia)). by rewrite <- Nat.add_succ_comm in Hl.
Qed.

(** An optional attribute of a fixed size. *)
Ltac put_fixed := apply appends_opt; intros _; apply appends_put_attr'; [done|reflexivity|reflexivity].

Lemma appends_body size m : size < 2147483648 -> message_ok m ->
  appends size (put_body size m) (encode_attrs (concat (body_attrs m))).
Proof.
  intros Hsize Hm. destruct (mok_id m Hm) as [Hid _]. rewrite encode_attrs_concat. unfold put_body, body_attrs.
  apply appends_sequence_all. cbn [map].
  repeat apply Forall2_cons_2.
  - apply appends_opt. intros _. apply appends_put_attr'; [done| |done].
    pose proof (reason_length (error_code m)). unfold error_code_value. rewrite zlen_app, !zlen_cons. change (zlen (@nil Z)) with 0. lia.
  - destruct (len (mapped m) =? 0); [apply appends_skip|]. apply appends_put_address; [done|apply Hm|done].
  - put_fixed.
  - put_fixed.
  - put_fixed.
  - put_fixed.
  - put_fixed.
  - put_fixed.
  - destruct (mok_peers m Hm) as [Hl Hok]. pose proof (mok_peers_size m Hm) as Hs. unfold STUN_MAX_PEER_ADDRESSES in Hs.
    pose proof (appends_peers size m (take (Z.to_nat (peers_size m)) (peers m)) Hsize Hid 0) as H.
    rewrite length_take in H. replace (Z.to_nat (peers_size m) `min` length (peers m))%nat with (Z.to_nat (peers_size m)) in H by lia.
    apply H; [|by apply Forall_take]. intros i Hi. by rewrite lookup_take_lt.
  - destruct (len (relayed m) =? 0); [apply appends_skip|]. apply appends_put_address; [done|apply Hm|done].
  - pose proof (mok_data m Hm) as Hd. destruct (data m) as [d|]; [|apply appends_skip]. destruct Hd as (Hd & Hs & _).
    rewrite <- (zlen_take (data_size m) d) at 1 by done. rewrite <- (take_drop (Z.to_nat (data_size m)) d) at 1.
    unfold encode_attrs. cbn [map concat]. rewrite app_nil_r. apply appends_put_attr; [done|]. by rewrite zlen_take.
  - put_fixed.
  - put_fixed.
  - put_fixed.
  - put_fixed.
  - apply Forall2_nil_2.
Qed.

Lemma string_split s : is_Some (strlen s) -> strlen s = Some (zlen (cstr s)) /\ s = cstr s ++ drop (length (cstr s)) s.
Proof.
  intros [n Hn]. destruct (cstr_strlen s n Hn) as [Hc Hl]. split; [by rewrite Hl|].
  rewrite Hc at 1. rewrite <- (take_drop (Z.to_nat n) s) at 1. do 2 f_equal. unfold zlen in Hl. lia.
Qed.

Lemma cstr_length s : zlen (cstr s) <= zlen s.
Proof. induction s as [|c s IH]; [done|]. simpl. destruct (c =? 0); rewrite ?zlen_cons; [change (zlen (@nil Z)) with 0; pose proof (zlen_nonneg s)|]; lia. Qed.

Lemma appends_put_string size type s : size < 2147483648 -> is_Some (strlen s) -> zlen s < 65536 ->
  appends size (put_string size type s) (encode_attr (type, cstr s)).
Proof.
  intros Hsize Hs Hl pre rest H1 H2. destruct (string_split s Hs) as [Hn Hsp]. unfold put_string. rewrite Hn.
  cbn [mbind option_bind]. rewrite Hsp at 1. pose proof (cstr_length s). apply appends_put_attr; (done || lia).
Qed.

Lemma appends_unless_empty size s f e : is_Some (strlen s) -> appends size f e ->
  appends size (unless_empty s f) (if is_empty (cstr s) then [] else e).
Proof.
  intros Hs Hf pre rest H1 H2. unfold unless_empty. destruct s as [|c s]; [by destruct Hs|].
  simpl cstr in *. change (rd (c :: s) 0) with (Some c). cbn [mbind option_bind]. destruct (Z.eqb_spec c 0); cbn [is_empty negb when] in *.
  - by apply (appends_skip size).
  - by apply Hf.
Qed.

Lemma encode_one a : encode_attrs [a] = encode_attr a.
Proof. apply app_nil_r. Qed.

Lemma appends_string_attr size type s : size < 2147483648 -> is_Some (strlen s) -> zlen s < 65536 ->
  appends size (unless_empty s (put_string size type s)) (encode_attrs (string_attr type s)).
Proof.
  intros. eapply appends_cast; [apply appends_unless_empty; [done|by apply appends_put_string]|].
  unfold string_attr. rewrite encode_opt. by destruct (is_empty (cstr s)).
Qed.

Lemma appends_nonce size uninit m : size < 2147483648 -> credentials_ok (credentials m) ->
  let c := credentials m in let request := msg_class m =? STUN_CLASS_REQUEST in
  appends size (sequence_all [
      put_string size STUN_ATTR_NONCE (nonce c);
      (if 0 <? password_algorithm c then
         put_attr size STUN_ATTR_PASSWORD_ALGORITHMS (password_algorithms_value c) (password_algorithms_value_size c)
       else when (negb request)
         (put_attr size STUN_ATTR_PASSWORD_ALGORITHMS generate_password_algorithms_attr
                   (zlen generate_password_algorithms_attr)));
      when (request && negb (password_algorithm c =? STUN_PASSWORD_ALGORITHM_UNSET))
        (put_attr size STUN_ATTR_PASSWORD_ALGORITHM (be16 (password_algorithm c) ++ le16 uninit) 4)])
    (encode_attrs (concat (nonce_attrs uninit m))).
Proof.
  intros Hsize Hc c request. rewrite encode_attrs_concat. apply appends_sequence_all. unfold nonce_attrs. cbn [map].
  fold c request. repeat apply Forall2_cons_2; [| |put_fixed|apply Forall2_nil_2].
  - rewrite encode_one. destruct (cok_nonce c Hc) as (Hl & ? & _). apply appends_put_string; [done..|]. unfold zlen. rewrite Hl. done.
  - destruct (0 <? password_algorithm c); [|put_fixed]. rewrite encode_one.
    destruct (cok_value c Hc) as [Hl _]. pose proof (cok_value_size c Hc) as Hs.
    assert (0 <= password_algorithms_value_size c <= zlen (password_algorithms_value c)) as Hle by (unfold zlen; lia).
    rewrite <- (zlen_take _ _ Hle) at 1. rewrite <- (take_drop (Z.to_nat (password_algorithms_value_size c)) (password_algorithms_value c)) at 1.
    apply appends_put_attr; [done|]. rewrite zlen_take by done. lia.
Qed.

Lemma appends_credentials size uninit m : size < 2147483648 -> credentials_ok (credentials m) ->
  appends size (put_credentials size uninit m) (encode_attrs (concat (credential_attrs uninit m))).
Proof.
  intros Hsize Hc. pose proof (appends_nonce size uninit m Hsize Hc) as Hn. cbv zeta in Hn.
  unfold put_credentials, credential_attrs. cbv zeta. set (c := credentials m) in *.
  set (request := msg_class m =? STUN_CLASS_REQUEST) in *.
  set (challenge := (msg_class m =? STUN_CLASS_RESP_ERROR) && _).
  destruct (cok_username c Hc) as (Hlu & Hu & _). destruct (cok_realm c Hc) as (Hlr & Hr & _).
  destruct (cok_nonce c Hc) as (Hln & Hno & _). destruct (cok_userhash c Hc) as (Hlh & _).
  assert (zlen (username c) = 514 /\ zlen (realm c) = 764 /\ zlen (nonce c) = 764 /\ zlen (userhash c) = 32) as (Zu & Zr & Zn & Zh)
    by (unfold zlen; rewrite Hlu, Hlr, Hln, Hlh; done).
  rewrite encode_attrs_concat. apply appends_sequence_all. cbn [map].
  repeat apply Forall2_cons_2; [| | |apply Forall2_nil_2].
  - rewrite encode_one. by apply appends_put_attr'.
  - destruct request; cbn [when]; [|apply appends_skip]. destruct (enable_userhash c).
    + rewrite encode_one. apply appends_put_attr'; [done|rewrite Zh|rewrite Zh]; done.
    + apply appends_string_attr; [done..|]. by rewrite Zu.
  - destruct (request || challenge); cbn [when]; [|apply appends_skip].
    rewrite encode_attrs_concat. apply appends_sequence_all. cbn [map]. repeat apply Forall2_cons_2; [| |apply Forall2_nil_2].
    + apply appends_string_attr; [done..|by rewrite Zr].
    + eapply appends_cast; [apply appends_unless_empty; [done|exact Hn]|]. by destruct (is_empty (cstr (nonce c))).
Qed.
