(* ===== verification/StunEncode.v ===== *)
(** * [stun_write] refines a functional encoder

    [encode] lists the attributes of a message and concatenates their encodings behind the
    header, with the integrity and fingerprint attributes computed over what precedes them.
    [stun_write] writes exactly that, in place. *)

From S2P Require Import Prelude Bytes Addr Crc32 Stun StunWrite StunWriteProps.

Definition header (m : stun_message_t) (length : Z) : list Z :=
  be16 (Z.lor (msg_class m) (msg_method m)) ++ be16 length ++ be32 STUN_MAGIC ++ transaction_id m.

Definition add_fingerprint (m : stun_message_t) (b : list Z) : list Z :=
  b ++ encode_attr (STUN_ATTR_FINGERPRINT,
    be32 (Z.lxor (crc32_spec (header m (zlen b + 8) ++ b)) STUN_FINGERPRINT_XOR)).

Section encode.
Context {H : Hash}.

(** A digest over the message so far, whose header already counts the attribute. *)
Definition add_hmac (m : stun_message_t) (type size : Z) (hmac : list Z -> list Z -> list Z) (key b : list Z) : list Z :=
  b ++ encode_attr (type, hmac (header m (zlen b + (4 + size)) ++ b) key).

Definition signed (m : stun_message_t) (password : option (list Z)) : bool :=
  negb (msg_class m =? STUN_CLASS_INDICATION) && bool_decide (is_Some password).

Definition add_integrity (m : stun_message_t) (password : option (list Z)) (b : list Z) : list Z :=
  if signed m password then
    match generate_hmac_key (credentials m) password with
    | None => b
    | Some key =>
        let b := add_hmac m STUN_ATTR_MESSAGE_INTEGRITY HMAC_SHA1_SIZE hmac_sha1 key b in
        if password_algorithm (credentials m) =? STUN_PASSWORD_ALGORITHM_UNSET then b
        else add_hmac m STUN_ATTR_MESSAGE_INTEGRITY_SHA256 HMAC_SHA256_SIZE hmac_sha256 key b
    end
  else b.

Definition plain_attrs (uninit : Z) (m : stun_message_t) : list (Z * list Z) :=
  concat (body_attrs m) ++ concat (credential_attrs uninit m).

Definition encode_body (uninit : Z) (m : stun_message_t) (password : option (list Z)) : list Z :=
  add_fingerprint m (add_integrity m password (encode_attrs (plain_attrs uninit m))).

Definition encode (uninit : Z) (m : stun_message_t) (password : option (list Z)) : list Z :=
  let b := encode_body uninit m password in header m (zlen b) ++ b.

Context {HO : HashOk H}.

Lemma header_length m n : length (transaction_id m) = 12%nat -> zlen (header m n) = 20.
Proof. intros Hid. unfold header, zlen. rewrite !length_app, Hid. done. Qed.

Lemma header_bytes m n : Forall byte (transaction_id m) -> Forall byte (header m n).
Proof.
  intros Hid. unfold header. rewrite !Forall_app. split_and!; [apply be16_bytes|apply be16_bytes|apply be32_bytes|done].
Qed.

Lemma update_header_length m n k tail : 0 <= n < 65536 -> 0 <= k < 65536 ->
  stun_update_header_length (header m n ++ tail) k = Some (n, header m k ++ tail).
Proof.
  intros Hn Hk. unfold stun_update_header_length, header. norm_words. rewrite <- !app_assoc.
  change 2 with (zlen (be16 (Z.lor (msg_class m) (msg_method m)))) at 1 3.
  rewrite rd_bytes_at, wr_bytes_at by (rewrite ?zlen_app, ?be16_length; pose proof (zlen_nonneg tail);
    pose proof (zlen_nonneg (transaction_id m)); change (zlen (be32 STUN_MAGIC)) with 4; lia).
  cbn [mbind option_bind]. rewrite <- app_assoc. do 2 f_equal. by apply get_be_be16.
Qed.

(** The state of [stun_write] between two statements. *)
Definition at_body (m : stun_message_t) (n : Z) (b rest : list Z) : list Z := (header m n ++ b) ++ rest.

Lemma put_hmac_spec size m n type hsize hmac key b rest :
  size < 2147483648 -> length (transaction_id m) = 12%nat -> 0 <= n < 65536 ->
  (forall msg, zlen (hmac msg key) = hsize) -> hsize = 20 \/ hsize = 32 ->
  let b' := add_hmac m type hsize hmac key b in
  20 + zlen b' <= size -> zlen b' < 65536 -> size <= 20 + zlen b + zlen rest ->
  exists n', 0 <= n' < 65536 /\
    put_hmac size 20 type hsize hmac key (at_body m n b rest) (20 + zlen b) =
      Some (Wok (at_body m n' b' (drop (length b' - length b) rest)) (20 + zlen b')).
Proof.
  intros Hsize Hid Hn Hh Hhs b' Hb' Hb'' Hrest. pose proof (zlen_nonneg b).
  assert (zlen b' = zlen b + (4 + hsize)) as Hlen.
  { unfold b', add_hmac. rewrite zlen_app, encode_attr_length. cbn [snd]. rewrite Hh. destruct Hhs as [-> | ->]; done. }
  exists (zlen b + (4 + hsize)). split; [lia|]. unfold put_hmac, STUN_ATTR_SIZE, at_body.
  replace (u64 (20 + zlen b - 20 + 4 + hsize)) with (zlen b + (4 + hsize)) by (norm_words; lia).
  rewrite <- (app_assoc (header m n)), update_header_length by (done || lia). cbn [mbind option_bind].
  pose proof (header_length m (zlen b + (4 + hsize)) Hid) as Hhl.
  rewrite app_assoc, rd_bytes_0 by (rewrite !zlen_app; pose proof (zlen_nonneg rest); lia).
  replace (Z.to_nat (20 + zlen b)) with (length (header m (zlen b + (4 + hsize)) ++ b))
    by (rewrite length_app; unfold zlen in *; lia).
  rewrite take_app_length. cbn [mbind option_bind].
  replace (20 + zlen b) with (zlen (header m (zlen b + (4 + hsize)) ++ b)) by (rewrite zlen_app; lia).
  rewrite (appends_put_attr' size Hsize).
  - rewrite !zlen_app, Hhl. unfold b', add_hmac. rewrite length_app, Nat.add_sub_swap, Nat.sub_diag by done.
    rewrite Nat.add_0_l. do 2 f_equal; [by rewrite <- (app_assoc (header m _))|]. rewrite zlen_app. lia.
  - rewrite Hh. lia.
  - by rewrite Hh.
  - rewrite encode_attr_length. cbn [snd]. rewrite Hh, zlen_app.
    assert (padding hsize = 0) as -> by (by destruct Hhs as [-> | ->]). lia.
  - rewrite zlen_app. lia.
Qed.

Lemma add_hmac_length m type hsize (hmac : list Z -> list Z -> list Z) key b : (forall msg, zlen (hmac msg key) = hsize) ->
  hsize mod 4 = 0 -> zlen (add_hmac m type hsize hmac key b) = zlen b + (4 + hsize).
Proof.
  intros Hh Hm. unfold add_hmac. rewrite zlen_app, encode_attr_length. cbn [snd]. rewrite Hh. unfold padding.
  Z.to_euclidean_division_equations; lia.
Qed.

Lemma add_fingerprint_length m b : zlen (add_fingerprint m b) = zlen b + 8.
Proof. unfold add_fingerprint. rewrite zlen_app, encode_attr_length. done. Qed.

Lemma drop_sub (l b b' : list Z) n : (n <= length b)%nat -> (length b <= length b')%nat ->
  drop (length b' - length b) (drop (length b - n) l) = drop (length b' - n) l.
Proof. intros. rewrite drop_drop. f_equal. lia. Qed.

(** The key exists when the strings it is made of end. *)
Lemma generate_hmac_key_some c password : is_Some (strlen (username c)) -> is_Some (strlen (realm c)) -> 0 < zlen (realm c) ->
  match password with Some p => is_Some (strlen p) | None => True end ->
  is_Some (generate_hmac_key c password).
Proof.
  intros [nu Hu] [nr Hr] Hl Hp. unfold generate_hmac_key, string_at.
  assert (exists pw, (match password with Some p => string_at p | None => Some [] end) = Some pw) as [pw Hpw].
  { destruct password as [p|]; [|by eexists]. destruct Hp as [n Hn]. unfold string_at. rewrite Hn. by eexists. }
  unfold string_at in Hpw. rewrite Hpw. cbn [mbind option_bind].
  destruct (rd_is_Some (realm c) 0) as [c0 ->]; [lia|]. cbn [mbind option_bind].
  destruct (negb (c0 =? 0)); [|by eexists]. rewrite Hu, Hr. by eexists.
Qed.

Lemma credentials_key c password : credentials_ok c ->
  match password with Some p => is_Some (strlen p) | None => True end -> is_Some (generate_hmac_key c password).
Proof.
  intros Hc. destruct (cok_realm c Hc) as (Hl & ? & _). apply generate_hmac_key_some; [apply (cok_username c Hc)|done|].
  unfold zlen. rewrite Hl. lia.
Qed.

Lemma put_integrity_spec size m n password b rest :
  size < 2147483648 -> message_ok m -> 0 <= n < 65536 ->
  match password with Some p => is_Some (strlen p) | None => True end ->
  let b' := add_integrity m password b in
  20 + zlen b' <= size -> zlen b' < 65536 -> size <= 20 + zlen b + zlen rest ->
  exists n', 0 <= n' < 65536 /\
    put_integrity size 20 m password (at_body m n b rest) (20 + zlen b) =
      Some (Wok (at_body m n' b' (drop (length b' - length b) rest)) (20 + zlen b')).
Proof.
  intros Hsize Hm Hn Hp. unfold add_integrity, put_integrity. fold (signed m password).
  assert (Wok (at_body m n b rest) (20 + zlen b) = Wok (at_body m n b (drop (length b - length b) rest)) (20 + zlen b)) as Hid
    by (by rewrite Nat.sub_diag, drop_0).
  destruct (signed m password); [|intros; exists n; by rewrite <- Hid].
  destruct (credentials_key (credentials m) password (mok_credentials m Hm) Hp) as [key ->]. cbn [mbind option_bind].
  pose proof (mok_id m Hm) as [Hidl _].
  assert (forall msg, zlen (hmac_sha1 msg key) = HMAC_SHA1_SIZE) as H1 by (intros; eapply hmac_sha1_size).
  assert (forall msg, zlen (hmac_sha256 msg key) = HMAC_SHA256_SIZE) as H2 by (intros; eapply hmac_sha256_size).
  set (b1 := add_hmac m STUN_ATTR_MESSAGE_INTEGRITY HMAC_SHA1_SIZE hmac_sha1 key b).
  assert (zlen b1 = zlen b + 24) as Hb1 by (by apply add_hmac_length).
  destruct (password_algorithm (credentials m) =? STUN_PASSWORD_ALGORITHM_UNSET); cbn [negb when]; intros Hb Hb2 Hr; fold b1 in Hb, Hb2 |- *.
  - destruct (put_hmac_spec size m n STUN_ATTR_MESSAGE_INTEGRITY HMAC_SHA1_SIZE hmac_sha1 key b rest) as (n' & Hn' & Hw);
      [done..|by left|done|done|done|]. exists n'. split; [done|]. unfold sequence. rewrite Hw. done.
  - set (b2 := add_hmac _ _ _ _ _ b1) in *.
    assert (zlen b2 = zlen b1 + 36) as Hb3 by (by apply add_hmac_length).
    destruct (put_hmac_spec size m n STUN_ATTR_MESSAGE_INTEGRITY HMAC_SHA1_SIZE hmac_sha1 key b rest) as (n' & Hn' & Hw);
      [done..|by left|fold b1; lia|fold b1; lia|done|]. fold b1 in Hw.
    destruct (put_hmac_spec size m n' STUN_ATTR_MESSAGE_INTEGRITY_SHA256 HMAC_SHA256_SIZE hmac_sha256 key b1
      (drop (length b1 - length b) rest)) as (n2 & Hn2 & Hw2);
      [done..|by right|done|done|rewrite zlen_drop; unfold zlen in *; lia|].
    exists n2. split; [done|]. unfold sequence. rewrite Hw. cbn [mbind option_bind]. rewrite Hw2. fold b2.
    rewrite drop_sub by (unfold zlen in *; lia). done.
Qed.

(** Everything written is a byte. *)

Definition value_bytes (a : Z * list Z) : Prop := Forall byte (snd a).

Lemma encode_attr_bytes a : value_bytes a -> Forall byte (encode_attr a).
Proof.
  intros Ha. unfold encode_attr. rewrite !Forall_app. split_and!; [apply be16_bytes|apply be16_bytes|done|].
  apply Forall_replicate. unfold byte. lia.
Qed.

Lemma encode_attrs_bytes l : Forall value_bytes l -> Forall byte (encode_attrs l).
Proof. induction 1 as [|a l Ha _ IH]; [done|]. apply Forall_app. split; [by apply encode_attr_bytes|done]. Qed.

Lemma opt_bytes b a : value_bytes a -> Forall value_bytes (opt b a).
Proof. intros. destruct b; by repeat constructor. Qed.

Lemma lxor_bytes a b : Forall byte a -> Forall byte b -> Forall byte (zip_with Z.lxor a b).
Proof.
  intros Ha. revert b. induction Ha as [|x a Hx _ IH]; intros b Hb; [done|]. destruct Hb as [|y b Hy Hb]; [done|].
  simpl. constructor; [|by apply IH]. by apply (in_range_lxor 8).
Qed.

Lemma xor_mask_bytes id : Forall byte id -> Forall byte (xor_mask id).
Proof. intros. apply Forall_app. split; [apply be32_bytes|done]. Qed.

Lemma address_attrs_bytes type id r : sockaddr_ok (addr r) -> Forall byte id -> Forall value_bytes (address_attrs type id r).
Proof.
  intros Hok Hid. apply xor_mask_bytes in Hid. unfold address_attrs, record_value.
  assert (forall f p a, byte f -> Forall byte a -> Forall byte (address_value f p a (xor_mask id))) as Hv.
  { intros f p a Hf Ha. unfold address_value. rewrite !Forall_app. split_and!.
    - constructor; [done|]. by constructor.
    - repeat constructor; apply u8_range.
    - by apply lxor_bytes. }
  destruct (addr r) as [p a|p f a sc|f]; [| |done].
  - destruct (_ <? _); [done|]. constructor; [|done]. apply Hv; [done|apply Hok].
  - destruct (_ <? _); [done|]. constructor; [|done]. apply Hv; [done|apply Hok].
Qed.

Lemma string_bytes s : Forall byte (bytes_of_string s).
Proof.
  unfold bytes_of_string. apply Forall_forall. intros x Hx. apply list_elem_of_In, in_map_iff in Hx as (c & <- & _).
  pose proof (Ascii.nat_ascii_bounded c). unfold byte. lia.
Qed.

Lemma cstr_bytes s : Forall byte s -> Forall byte (cstr s).
Proof. induction 1 as [|c s Hc _ IH]; simpl; [done|]. destruct (c =? 0); [done|]. by constructor. Qed.

Lemma error_code_bytes code : Forall byte (error_code_value code).
Proof.
  unfold error_code_value. apply Forall_app. split; [|apply string_bytes].
  repeat constructor; try done; apply u8_range.
Qed.

Lemma body_attrs_bytes m : message_ok m -> Forall value_bytes (concat (body_attrs m)).
Proof.
  intros Hm. destruct (mok_id m Hm) as [_ Hid]. apply Forall_concat. unfold body_attrs.
  rewrite !Forall_cons. split_and!.
  - apply opt_bytes, error_code_bytes.
  - destruct (negb _); [|done]. apply address_attrs_bytes; [apply Hm|done].
  - apply opt_bytes, be32_bytes.
  - apply opt_bytes, Forall_nil_2.
  - apply opt_bytes, be64_bytes.
  - apply opt_bytes, be64_bytes.
  - apply opt_bytes. apply Forall_app. split; [apply be16_bytes|by repeat constructor].
  - apply opt_bytes, be32_bytes.
  - apply Forall_concat, Forall_map. apply Forall_take. eapply Forall_impl; [apply (mok_peers m Hm)|].
    intros r Hr. simpl. destruct (negb _); [|done]. by apply address_attrs_bytes.
  - destruct (negb _); [|done]. apply address_attrs_bytes; [apply Hm|done].
  - pose proof (mok_data m Hm) as Hd. destruct (data m) as [d|]; [|done]. constructor; [|done]. apply Forall_take, Hd.
  - apply opt_bytes. destruct (next_port m); by apply (bool_decide_unpack (Forall byte _)).
  - apply opt_bytes. by apply (bool_decide_unpack (Forall byte _)).
  - apply opt_bytes, Forall_nil_2.
  - apply opt_bytes, be64_bytes.
  - done.
Qed.

Lemma credential_attrs_bytes uninit m : credentials_ok (credentials m) ->
  Forall value_bytes (concat (credential_attrs uninit m)).
Proof.
  intros Hc. apply Forall_concat. unfold credential_attrs, string_attr.
  rewrite !Forall_cons. split_and!; try apply Forall_nil_2.
  - apply string_bytes.
  - destruct (_ =? _); [|done]. destruct (enable_userhash _); [constructor; [apply (cok_userhash _ Hc)|done]|].
    apply opt_bytes, cstr_bytes, (cok_username _ Hc).
  - destruct (_ || _); [|done]. apply Forall_concat. rewrite !Forall_cons. split_and!; try apply Forall_nil_2.
    { apply opt_bytes, cstr_bytes, (cok_realm _ Hc). }
    destruct (is_empty _); [done|]. apply Forall_concat. unfold nonce_attrs.
    rewrite !Forall_cons. split_and!; try apply Forall_nil_2.
    + apply cstr_bytes, (cok_nonce _ Hc).
    + destruct (0 <? _); [constructor; [apply Forall_take, (cok_value _ Hc)|done]|].
      apply opt_bytes. apply (bool_decide_unpack (Forall byte generate_password_algorithms_attr)). vm_compute. exact I.
    + apply opt_bytes. apply Forall_app. split; [apply be16_bytes|]. repeat constructor; apply u8_range.
Qed.

Lemma add_hmac_bytes m type size hmac key b : Forall byte b -> (forall msg, Forall byte (hmac msg key)) ->
  Forall byte (add_hmac m type size hmac key b).
Proof. intros Hb Hh. apply Forall_app. split; [done|]. apply encode_attr_bytes, Hh. Qed.

Lemma add_integrity_bytes m password b : Forall byte b -> Forall byte (add_integrity m password b).
Proof.
  intros Hb. unfold add_integrity. destruct (signed m password); [|done].
  destruct (generate_hmac_key _ _) as [key|]; [|done].
  assert (Forall byte (add_hmac m STUN_ATTR_MESSAGE_INTEGRITY HMAC_SHA1_SIZE hmac_sha1 key b)).
  { apply add_hmac_bytes; [done|]. intros. eapply hmac_sha1_size. }
  destruct (_ =? _); [done|]. apply add_hmac_bytes; [done|]. intros. eapply hmac_sha256_size.
Qed.

Lemma finish_spec size m n b rest :
  size < 2147483648 -> length (transaction_id m) = 12%nat -> Forall byte (transaction_id m) -> Forall byte b ->
  zlen b mod 4 = 0 -> 0 <= n < 65536 ->
  let b' := add_fingerprint m b in
  20 + zlen b' <= size -> zlen b' < 65536 -> size <= 20 + zlen b + zlen rest ->
  finish size 20 (at_body m n b rest) (20 + zlen b) =
    Some (20 + zlen b', at_body m (zlen b') b' (drop (length b' - length b) rest)).
Proof.
  intros Hsize Hid Hidb Hb Hal Hn b' Hb' Hb'' Hrest. pose proof (zlen_nonneg b).
  assert (zlen b' = zlen b + 8) as Hlen by apply add_fingerprint_length. rewrite Hlen in *.
  unfold finish, STUN_ATTR_SIZE, at_body.
  replace (u64 (20 + zlen b - 20 + 4 + 4)) with (zlen b + 8) by (norm_words; lia).
  rewrite land3. replace ((zlen b + 8) mod 4) with 0 by (Z.to_euclidean_division_equations; lia). cbn [Z.eqb negb].
  rewrite <- (app_assoc (header m n)), update_header_length by (done || lia). cbn [mbind option_bind].
  pose proof (header_length m (zlen b + 8) Hid) as Hhl.
  rewrite app_assoc, rd_bytes_0 by (rewrite !zlen_app; pose proof (zlen_nonneg rest); lia).
  replace (Z.to_nat (20 + zlen b)) with (length (header m (zlen b + 8) ++ b))
    by (rewrite length_app; unfold zlen in *; lia).
  rewrite take_app_length. cbn [mbind option_bind]. unfold CRC32.
  destruct (crc32_any_table (header m (zlen b + 8) ++ b) table0) as [-> _]; [apply Forall_app; split; [by apply header_bytes|done]|by left|].
  cbn [mbind option_bind].
  replace (20 + zlen b) with (zlen (header m (zlen b + 8) ++ b)) by (rewrite zlen_app; lia).
  rewrite (appends_put_attr' size Hsize); [|done|done|rewrite encode_attr_length, zlen_app; cbn [snd]; change (zlen (be32 _)) with 4; change (padding 4) with 0; lia|rewrite zlen_app; lia].
  cbn [mbind option_bind]. unfold b', add_fingerprint. rewrite length_app, Nat.add_sub_swap, Nat.sub_diag by done.
  rewrite Nat.add_0_l, !zlen_app, Hhl, encode_attr_length. cbn [snd]. change (zlen (be32 _)) with 4. change (padding 4) with 0.
  rewrite i32_small by lia. do 2 f_equal; [lia|]. by rewrite <- (app_assoc (header m _)).
Qed.

Lemma add_hmac_aligned m type size hmac key b : zlen b mod 4 = 0 -> zlen (add_hmac m type size hmac key b) mod 4 = 0.
Proof.
  intros Hb. unfold add_hmac. rewrite zlen_app. pose proof (encode_attr_aligned (type, hmac (header m (zlen b + (4 + size)) ++ b) key)).
  Z.to_euclidean_division_equations; lia.
Qed.

Lemma add_integrity_aligned m password b : zlen b mod 4 = 0 -> zlen (add_integrity m password b) mod 4 = 0.
Proof.
  intros Hb. unfold add_integrity. destruct (signed m password); [|done].
  destruct (generate_hmac_key _ _) as [key|]; [|done].
  destruct (_ =? _); repeat apply add_hmac_aligned; done.
Qed.

Lemma add_integrity_length m password b : zlen b <= zlen (add_integrity m password b).
Proof.
  unfold add_integrity. destruct (signed m password); [|done]. destruct (generate_hmac_key _ _) as [key|]; [|done].
  destruct (_ =? _); unfold add_hmac; rewrite !zlen_app; repeat match goal with |- context [zlen (encode_attr ?a)] =>
    pose proof (zlen_nonneg (encode_attr a)); generalize dependent (zlen (encode_attr a)); intros end; lia.
Qed.

Lemma class_cases m : message_ok m -> msg_class m = 0 \/ msg_class m = 16 \/ msg_class m = 256 \/ msg_class m = 272.
Proof. intros Hm. pose proof (mok_class m Hm) as Hc. set_solver. Qed.

Lemma stun_write_header_spec buf size m : message_ok m -> 20 <= size <= zlen buf ->
  stun_write_header buf size (msg_class m) (msg_method m) (transaction_id m) = Some (20, at_body m 0 [] (drop 20 buf)).
Proof.
  intros Hm Hs. destruct (mok_id m Hm) as [Hid _]. pose proof (mok_method m Hm).
  unfold stun_write_header, sizeof_stun_header, STUN_TRANSACTION_ID_SIZE.
  rewrite (proj2 (Z.ltb_ge size 20)) by lia.
  rewrite rd_bytes_0 by (unfold zlen; rewrite Hid; lia). rewrite take_ge by (rewrite Hid; done). cbn [mbind option_bind].
  assert (u16 (msg_class m) = msg_class m) as -> by (destruct (class_cases m Hm) as [-> | [-> | [-> | ->]]]; done).
  norm_words. set (b8 := be16 _ ++ be16 0 ++ be32 STUN_MAGIC). assert (zlen b8 = 8) as H8 by done.
  pose proof (wr_bytes_at [] buf b8) as Hw. cbn [app] in Hw. change (zlen (@nil Z)) with 0 in Hw. rewrite Hw by lia.
  cbn [mbind option_bind]. rewrite <- H8 at 1. rewrite wr_bytes_at by (rewrite zlen_drop; unfold zlen in *; rewrite Hid; lia).
  cbn [mbind option_bind]. unfold at_body, header. rewrite Hid, drop_drop, app_nil_r. unfold b8. by rewrite <- !app_assoc.
Qed.

Lemma body_statements size uninit m rest : size < 2147483648 -> message_ok m ->
  let b := encode_attrs (plain_attrs uninit m) in
  20 + zlen b <= size -> size <= 20 + zlen rest ->
  sequence (put_body size m) (put_credentials size uninit m) (at_body m 0 [] rest) 20 =
    Some (Wok (at_body m 0 b (drop (length b) rest)) (20 + zlen b)).
Proof.
  intros Hsize Hm b Hb Hr. destruct (mok_id m Hm) as [Hid _]. pose proof (header_length m 0 Hid) as Hh.
  assert (appends size (sequence (put_body size m) (put_credentials size uninit m)) b) as Ha.
  { unfold b, plain_attrs. rewrite encode_attrs_app. apply appends_sequence; [by apply appends_body|].
    apply appends_credentials; [done|apply Hm]. }
  unfold at_body. rewrite app_nil_r. rewrite <- Hh at 1. rewrite Ha by lia. by rewrite zlen_app, Hh.
Qed.

(** All statements before the fingerprint. *)
Lemma stun_write_statements buf size uninit m password : let b := add_integrity m password (encode_attrs (plain_attrs uninit m)) in
  message_ok m -> match password with Some p => is_Some (strlen p) | None => True end ->
  20 + zlen b <= size -> size <= zlen buf -> size < 65536 ->
  exists n, 0 <= n < 65536 /\
    stun_write buf size uninit m password = finish size 20 (at_body m n b (drop (length b + 20) buf)) (20 + zlen b) /\
    Forall byte b /\ zlen b mod 4 = 0.
Proof.
  cbv zeta. intros Hm Hp Hs Hbuf H64. destruct (mok_id m Hm) as [Hid Hidb].
  set (b0 := encode_attrs (plain_attrs uninit m)) in *. set (b1 := add_integrity m password b0) in *.
  pose proof (zlen_nonneg b0). assert (zlen b0 <= zlen b1) as H01 by apply add_integrity_length.
  unfold stun_write. rewrite stun_write_header_spec by (done || lia). cbn [mbind option_bind]. unfold advance at 1.
  change (u64 20) with 20. change (20 <=? 0) with false. change (sint 64 (0 + 20)) with 20. cbv iota.
  unfold sequence_all. cbn [foldr]. unfold sequence at 1.
  assert (0 <= 0 < 65536) as Hz by lia.
  pose proof (body_statements size uninit m (drop 20 buf) ltac:(lia) Hm) as Hbody. cbv zeta in Hbody. fold b0 in Hbody.
  specialize (Hbody ltac:(lia) ltac:(rewrite zlen_drop; lia)). unfold sequence in Hbody |- *.
  destruct (put_body size m _ 20) as [[buf1 pos1|]|]; [|done..]. cbn [mbind option_bind] in *. rewrite Hbody. cbn [mbind option_bind].
  destruct (put_integrity_spec size m 0 password b0 (drop (length b0) (drop 20 buf)) ltac:(lia) Hm Hz Hp) as (n' & Hn' & Hi);
    [fold b1; lia|fold b1; lia|rewrite !zlen_drop; unfold zlen in *; lia|]. fold b1 in Hi. rewrite Hi.
  exists n'. split; [done|]. cbn [mbind option_bind skip]. split; [|split].
  - do 2 f_equal. rewrite !drop_drop. f_equal. unfold zlen in *. lia.
  - apply add_integrity_bytes, encode_attrs_bytes, Forall_app. split; [by apply body_attrs_bytes|].
    apply credential_attrs_bytes, Hm.
  - apply add_integrity_aligned, encode_attrs_aligned.
Qed.

(** [stun_write] writes the encoding and nothing else. *)
Lemma stun_write_encode buf size uninit m password :
  message_ok m -> match password with Some p => is_Some (strlen p) | None => True end ->
  zlen (encode uninit m password) <= size -> size <= zlen buf -> size < 65536 ->
  stun_write buf size uninit m password =
    Some (zlen (encode uninit m password), encode uninit m password ++ drop (length (encode uninit m password)) buf).
Proof.
  intros Hm Hp Hs Hbuf H64. unfold encode in *. cbv zeta in *. destruct (mok_id m Hm) as [Hid Hidb].
  rewrite zlen_app, header_length in Hs |- * by done. rewrite length_app.
  assert (length (header m (zlen (encode_body uninit m password))) = 20%nat) as ->
    by (pose proof (header_length m (zlen (encode_body uninit m password)) Hid); unfold zlen in *; lia).
  unfold encode_body in *. set (b1 := add_integrity m password (encode_attrs (plain_attrs uninit m))) in *.
  pose proof (zlen_nonneg b1). pose proof (add_fingerprint_length m b1) as Hb2.
  destruct (stun_write_statements buf size uninit m password Hm Hp) as (n & Hn & -> & Hby & Hal); [fold b1; lia|done|done|].
  fold b1 in Hby, Hal |- *. rewrite finish_spec; try (done || lia).
  - unfold at_body. do 2 f_equal. f_equal. rewrite !drop_drop. f_equal. unfold zlen in *. lia.
  - rewrite zlen_drop. unfold zlen in *. lia.
Qed.

(** Without room for the fingerprint the last statement fails, but [len] is unsigned: the
    [-1] of [stun_write_attr] moves the position back by one. *)
Lemma stun_write_no_room buf size uninit m password : let b := add_integrity m password (encode_attrs (plain_attrs uninit m)) in
  message_ok m -> match password with Some p => is_Some (strlen p) | None => True end ->
  20 + zlen b <= size < 20 + zlen b + 8 -> size <= zlen buf -> size < 65528 ->
  exists buf', stun_write buf size uninit m password = Some (20 + zlen b - 1, buf') /\
    take (length b + 20) buf' = header m (zlen b + 8) ++ b.
Proof.
  cbv zeta. intros Hm Hp Hs Hbuf H64. destruct (mok_id m Hm) as [Hid Hidb].
  destruct (stun_write_statements buf size uninit m password Hm Hp) as (n & Hn & -> & Hby & Hal); [lia|done|lia|].
  set (b := add_integrity m password (encode_attrs (plain_attrs uninit m))) in *. pose proof (zlen_nonneg b).
  unfold finish, STUN_ATTR_SIZE, at_body. replace (u64 (20 + zlen b - 20 + 4 + 4)) with (zlen b + 8) by (norm_words; lia).
  rewrite land3. replace ((zlen b + 8) mod 4) with 0 by (Z.to_euclidean_division_equations; lia). cbn [Z.eqb negb].
  rewrite <- (app_assoc (header m n)), update_header_length by (done || lia). cbn [mbind option_bind].
  pose proof (header_length m (zlen b + 8) Hid) as Hhl. set (rest := drop (length b + 20) buf).
  rewrite app_assoc, rd_bytes_0 by (rewrite !zlen_app; pose proof (zlen_nonneg rest); lia).
  replace (Z.to_nat (20 + zlen b)) with (length (header m (zlen b + 8) ++ b)) by (rewrite length_app; unfold zlen in *; lia).
  rewrite take_app_length. cbn [mbind option_bind]. unfold CRC32.
  destruct (crc32_any_table (header m (zlen b + 8) ++ b) table0) as [-> _]; [apply Forall_app; split; [by apply header_bytes|done]|by left|].
  cbn [mbind option_bind]. unfold put_attr, stun_write_attr, STUN_ATTR_SIZE.
  replace (u64 (size - (20 + zlen b))) with (size - (20 + zlen b)) by (norm_words; lia). rewrite (proj2 (Z.ltb_lt _ (u64 (4 + 4)))) by (change (u64 (4 + 4)) with 8; lia).
  cbn [mbind option_bind]. unfold advance. change (u64 (-1)) with 18446744073709551615. cbn [Z.leb Z.compare].
  eexists. split.
  - do 2 f_equal. unfold sint. change (2 ^ 64) with 18446744073709551616. change (2 ^ (64 - 1)) with 9223372036854775808.
    rewrite <- (Z.mod_unique (20 + zlen b + 18446744073709551615 + 9223372036854775808) 18446744073709551616 1 (20 + zlen b - 1 + 9223372036854775808)) by lia.
    rewrite i32_small by lia. lia.
  - replace (length b + 20)%nat with (length (header m (zlen b + 8) ++ b)) by (rewrite length_app; unfold zlen in *; lia). apply take_app_length.
Qed.
End encode.
