(* ===== verification/StunRead.v ===== *)
(** * Reading STUN messages (libjuice [src/stun.c])

    [is_stun_datagram], [stun_read], [stun_check_integrity] and the functions they call.  A
    pointer into the message is an offset; every read is checked against the buffer.  Code
    that only logs is left out. *)

From S2P Require Import Prelude Bytes Addr Base64 ConstTime Stun.

Definition is_stun_datagram (data : list Z) (size : Z) : option bool :=
  if size =? 0 then Some false else
  b0 ← rd data 0;
  if negb (Z.land b0 192 =? 0) then Some false else
  if size <? sizeof_stun_header then Some false else
  magic ← rd_bytes data 4 4;
  if negb (get_be magic =? STUN_MAGIC) then Some false else
  l ← rd_bytes data 2 2; let length := get_be l in
  if negb (Z.land length 3 =? 0) then Some false else
  Some (size =? sizeof_stun_header + length).

(** ** Addresses *)

(** [for (int i = 0; i < n; ++i) bytes[i] = value->address[i] ^ mask[i];] *)
Definition read_address (n : Z) (buf : list Z) (off : Z) (mask : list Z) : option (list Z) :=
  for_up 0 n (fun i bytes => b ← rd buf (off + 4 + i); m ← rd mask i; wr bytes i (Z.lxor b m))
    (replicate (Z.to_nat n) 0).

(** [value->port ^ *((uint16_t * )mask)] *)
Definition read_port (buf : list Z) (off : Z) (mask : list Z) : option Z :=
  p ← rd_bytes buf (off + 2) 2; m ← rd_bytes mask 0 2; Some (Z.lxor (get_le p) (get_le m)).

(** What the fields [sin6_flowinfo] and [sin6_scope_id], which are not written, hold in the
    [sockaddr_storage]; the first overlaps [sin_addr]. *)
Definition kept_flowinfo (sa : sockaddr) : Z :=
  match sa with Sin6 _ f _ _ => f | Sin _ a => get_le a | SaOther _ => 0 end.
Definition kept_scope_id (sa : sockaddr) : Z := match sa with Sin6 _ _ _ s => s | _ => 0 end.

Definition stun_read_value_mapped_address (buf : list Z) (off size : Z) (mapped : addr_record_t) (mask : list Z)
    : option (Z * addr_record_t) :=
  if size <? 4 then Some (-1, mapped) else
  family ← rd buf (off + 1);
  if family =? STUN_ADDRESS_FAMILY_IPV4 then
    if size <? 4 + 4 then Some (-1, mapped) else
    port ← read_port buf off mask; bytes ← read_address 4 buf off mask;
    Some (4 + 4, Addr_record (Sin port bytes) sizeof_sockaddr_in SOCK_DGRAM)
  else if family =? STUN_ADDRESS_FAMILY_IPV6 then
    if size <? 4 + 16 then Some (-1, mapped) else
    port ← read_port buf off mask; bytes ← read_address 16 buf off mask;
    Some (4 + 16, Addr_record (Sin6 port (kept_flowinfo (addr mapped)) bytes (kept_scope_id (addr mapped)))
                              sizeof_sockaddr_in6 SOCK_DGRAM)
  else Some (i32 size, mapped).

Definition zero_mask : list Z := replicate 16 0.

(** ** One attribute

    The state of the reader: the buffer, the message and [*security_bits].  A case of the
    [switch] ends with [Break], or with [Fail], which is [return -1]. *)

Record rstate := Rstate { r_buf : list Z; r_msg : stun_message_t; r_bits : Z }.
Inductive flow := Break (s : rstate) | Fail (s : rstate).

#[export] Instance rstate_eta : RecordEta rstate := fun s => Rstate (r_buf s) (r_msg s) (r_bits s).

Definition set_msg (f : stun_message_t -> stun_message_t) (s : rstate) : rstate := s <| r_msg := f (r_msg s) |>.
Definition set_credentials (f : stun_credentials_t -> stun_credentials_t) : rstate -> rstate :=
  set_msg (fun m => m <| credentials := f (credentials m) |>).

(** The attributes with an address: [get] and [put] access the record read into. *)
Definition read_mapped (value length : Z) (mask : list Z) (get : stun_message_t -> addr_record_t)
    (put : addr_record_t -> stun_message_t -> stun_message_t) (s : rstate) : option flow :=
  '(ret, r) ← stun_read_value_mapped_address (r_buf s) value length (get (r_msg s)) mask;
  let s := set_msg (put r) s in Some (if ret <? 0 then Fail s else Break s).

(** [memcpy(dst, attr->value, length); dst[length] = '\0';] behind the check of the length. *)
Definition read_string (max value length : Z) (dst : list Z) (s : rstate) (put : list Z -> rstate -> option flow) : option flow :=
  if max <? length + 1 then Some (Fail s) else
  v ← rd_bytes (r_buf s) value length; dst ← wr_bytes dst 0 v; dst ← wr dst length 0; put dst s.

(** The nonce cookie, lines 776 to 800. *)
Definition read_security_bits (s : rstate) : option flow :=
  let nonce := nonce (credentials (r_msg s)) in
  n ← strlen nonce;
  if STUN_IS_RESPONSE (msg_class (r_msg s)) && (STUN_NONCE_COOKIE_LEN + 4 <? n)
     && bool_decide (take 9 nonce = STUN_NONCE_COOKIE) then
    encoded ← rd_bytes nonce STUN_NONCE_COOKIE_LEN 4;
    '(len, bytes) ← juice_base64_decode (encoded ++ [0]) 3 3;
    Some (Break (if len =? 3 then s <| r_bits := get_be (0 :: bytes) |> else s))
  else Some (Break s).

(** The loop over a list of password algorithms from [pos] to [end_], lines 840 to 870. *)
Fixpoint read_algorithms (fuel : nat) (pos end_ : Z) (s : rstate) : option flow :=
  match fuel with
  | O => None
  | S n =>
      if end_ <=? pos then Some (Break s) else
      if end_ - pos <? 4 then Some (Fail s) else
      a ← rd_bytes (r_buf s) pos 2; l ← rd_bytes (r_buf s) (pos + 2) 2;
      let algorithm := get_be a in let padded_length := align32 (get_be l) in
      let pos := pos + 4 in
      if end_ - pos <? padded_length then Some (Fail s) else
      let pos := pos + padded_length in
      if (algorithm =? STUN_PASSWORD_ALGORITHM_MD5) || (algorithm =? STUN_PASSWORD_ALGORITHM_SHA256)
      then Some (Break (set_credentials (fun c => c <| password_algorithm := algorithm |>) s))
      else read_algorithms n pos end_ s
  end.

(** The fingerprint of the message up to [off], lines 740 to 752; the header's length is
    changed for the computation and restored. *)
Definition read_fingerprint (off attr_begin : Z) (s : rstate) : option flow :=
  let tmp_length := u64 (off - attr_begin + STUN_ATTR_SIZE + 4) in
  '(prev_length, buf) ← stun_update_header_length (r_buf s) tmp_length;
  m ← rd_bytes buf 0 off;
  crc ← CRC32 m; let expected := Z.lxor crc STUN_FINGERPRINT_XOR in
  '(_, buf) ← stun_update_header_length buf prev_length;
  let s := s <| r_buf := buf |> in
  fingerprint ← rd_bytes buf (off + 4) 4;
  Some (if negb (get_be fingerprint =? expected) then Fail s
        else Break (set_msg (fun m => m <| has_fingerprint := true |>) s)).

(** A case that needs [length] to be [n] and reads an integer of that size. *)
Definition read_int (n value length : Z) (s : rstate) (put : Z -> stun_message_t -> stun_message_t) : option flow :=
  if negb (length =? n) then Some (Fail s) else
  v ← rd_bytes (r_buf s) value n; Some (Break (set_msg (put (get_be v)) s)).

Definition flag (f : stun_message_t -> stun_message_t) (s : rstate) : option flow := Some (Break (set_msg f s)).

(** The [switch], for the attribute at [off], in three parts.  Lines 931 to 1029: *)
Definition read_turn_value (type off length : Z) (s : rstate) : option flow :=
  let value := off + STUN_ATTR_SIZE in
  if type =? STUN_ATTR_CHANNEL_NUMBER then
    if length <? 4 then Some (Fail s) else
    v ← rd_bytes (r_buf s) value 2; flag (fun m => m <| channel_number := get_be v |>) s
  else if type =? STUN_ATTR_LIFETIME then
    read_int 4 value length s (fun v m => m <| lifetime := v |> <| lifetime_set := true |>)
  else if type =? STUN_ATTR_XOR_PEER_ADDRESS then
    let n := peers_size (r_msg s) in
    if n <? STUN_MAX_PEER_ADDRESSES then
      mask ← generate_mask (transaction_id (r_msg s));
      peer ← rd (peers (r_msg s)) n;
      '(ret, peer) ← stun_read_value_mapped_address (r_buf s) value length peer mask;
      peers' ← wr (peers (r_msg s)) n peer;
      let s := set_msg (fun m => m <| peers := peers' |>) s in
      Some (if ret <? 0 then Fail s
            else if negb (len peer =? 0) then Break (set_msg (fun m => m <| peers_size := n + 1 |>) s) else Break s)
    else Some (Break s)
  else if type =? STUN_ATTR_XOR_RELAYED_ADDRESS then
    mask ← generate_mask (transaction_id (r_msg s)); read_mapped value length mask relayed (fun r m => m <| relayed := r |>) s
  else if type =? STUN_ATTR_DATA then
    flag (fun m => m <| data := Some (drop (Z.to_nat value) (r_buf s)) |> <| data_size := length |>) s
  else if type =? STUN_ATTR_EVEN_PORT then
    if length <? 1 then Some (Fail s) else
    r ← rd (r_buf s) value; flag (fun m => m <| even_port := true |> <| next_port := negb (Z.land r 128 =? 0) |>) s
  else if type =? STUN_ATTR_REQUESTED_TRANSPORT then
    if length <? 4 then Some (Fail s) else
    protocol ← rd (r_buf s) value;
    if negb (protocol =? 17) then Some (Fail s) else flag (fun m => m <| requested_transport := true |>) s
  else if type =? STUN_ATTR_DONT_FRAGMENT then flag (fun m => m <| dont_fragment := true |>) s
  else if type =? STUN_ATTR_RESERVATION_TOKEN then read_int 8 value length s (fun v m => m <| reservation_token := v |>)
  else (* UNKNOWN-ATTRIBUTES, which is only logged, and types the reader does not know *) Some (Break s).

(** Lines 803 to 930. *)
Definition read_credentials_value (type off length : Z) (s : rstate) : option flow :=
  let value := off + STUN_ATTR_SIZE in
  if type =? STUN_ATTR_PASSWORD_ALGORITHM then
    if length <? 4 then Some (Fail s) else
    if STUN_IS_RESPONSE (msg_class (r_msg s)) then Some (Break s) else
    a ← rd_bytes (r_buf s) value 2; let algorithm := get_be a in
    Some (Break (if (algorithm =? STUN_PASSWORD_ALGORITHM_MD5) || (algorithm =? STUN_PASSWORD_ALGORITHM_SHA256)
                 then set_credentials (fun c => c <| password_algorithm := algorithm |>) s else s))
  else if type =? STUN_ATTR_PASSWORD_ALGORITHMS then
    if length <? 4 then Some (Fail s) else
    if STUN_MAX_PASSWORD_ALGORITHMS_VALUE_SIZE <? length then Some (Fail s) else
    v ← rd_bytes (r_buf s) value length;
    pwa ← wr_bytes (password_algorithms_value (credentials (r_msg s))) 0 v;
    let s := set_credentials (fun c => c <| password_algorithms_value := pwa |> <| password_algorithms_value_size := length |>) s in
    if STUN_IS_RESPONSE (msg_class (r_msg s)) then Some (Break s)
    else read_algorithms (S (Z.to_nat length)) value (value + length) s
  else if type =? STUN_ATTR_USERHASH then
    if negb (length =? USERHASH_SIZE) then Some (Fail s) else
    v ← rd_bytes (r_buf s) value USERHASH_SIZE; h ← wr_bytes (userhash (credentials (r_msg s))) 0 v;
    Some (Break (set_credentials (fun c => c <| userhash := h |> <| enable_userhash := true |>) s))
  else if type =? STUN_ATTR_SOFTWARE then
    if STUN_MAX_SOFTWARE_LEN <? length + 1 then Some (Fail s) else Some (Break s)
  else if type =? STUN_ATTR_PRIORITY then read_int 4 value length s (fun v m => m <| priority := v |>)
  else if type =? STUN_ATTR_USE_CANDIDATE then flag (fun m => m <| use_candidate := true |>) s
  else if type =? STUN_ATTR_ICE_CONTROLLING then read_int 8 value length s (fun v m => m <| ice_controlling := v |>)
  else if type =? STUN_ATTR_ICE_CONTROLLED then read_int 8 value length s (fun v m => m <| ice_controlled := v |>)
  else read_turn_value type off length s.

(** Lines 646 to 802. *)
Definition read_value (type off length attr_begin : Z) (s : rstate) : option flow :=
  let value := off + STUN_ATTR_SIZE in
  if type =? STUN_ATTR_MAPPED_ADDRESS then
    read_mapped value length zero_mask mapped (fun r m => m <| mapped := r |>) s
  else if type =? STUN_ATTR_XOR_MAPPED_ADDRESS then
    mask ← generate_mask (transaction_id (r_msg s)); read_mapped value length mask mapped (fun r m => m <| mapped := r |>) s
  else if type =? STUN_ATTR_ALTERNATE_SERVER then
    read_mapped value length zero_mask alternate_server (fun r m => m <| alternate_server := r |>) s
  else if type =? STUN_ATTR_ERROR_CODE then
    if length <? 4 then Some (Fail s) else
    class ← rd (r_buf s) (value + 2); number ← rd (r_buf s) (value + 3);
    flag (fun m => m <| error_code := Z.land class 7 * 100 + number |>) s
  else if type =? STUN_ATTR_USERNAME then
    read_string STUN_MAX_USERNAME_LEN value length (username (credentials (r_msg s))) s
      (fun str s => Some (Break (set_credentials (fun c => c <| username := str |>) s)))
  else if type =? STUN_ATTR_MESSAGE_INTEGRITY then
    if negb (length =? HMAC_SHA1_SIZE) then Some (Fail s) else flag (fun m => m <| has_integrity := true |>) s
  else if type =? STUN_ATTR_MESSAGE_INTEGRITY_SHA256 then
    if negb (length =? HMAC_SHA256_SIZE) then Some (Fail s) else flag (fun m => m <| has_integrity := true |>) s
  else if type =? STUN_ATTR_FINGERPRINT then
    if negb (length =? 4) then Some (Fail s) else read_fingerprint off attr_begin s
  else if type =? STUN_ATTR_REALM then
    read_string STUN_MAX_REALM_LEN value length (realm (credentials (r_msg s))) s
      (fun str s => Some (Break (set_credentials (fun c => c <| realm := str |>) s)))
  else if type =? STUN_ATTR_NONCE then
    read_string STUN_MAX_NONCE_LEN value length (nonce (credentials (r_msg s))) s
      (fun str s => read_security_bits (set_credentials (fun c => c <| nonce := str |>) s))
  else read_credentials_value type off length s.

(** The attribute at [off] of a message with [size] bytes left: the returned length or -1. *)
Definition stun_read_attr (off size attr_begin : Z) (s : rstate) : option (Z * rstate) :=
  if has_fingerprint (r_msg s) then Some (-1, s) else
  if size <? STUN_ATTR_SIZE then Some (-1, s) else
  l ← rd_bytes (r_buf s) (off + 2) 2; t ← rd_bytes (r_buf s) off 2;
  let length := get_be l in let type := get_be t in
  if size <? STUN_ATTR_SIZE + length then Some (-1, s) else
  if has_integrity (r_msg s) && negb (type =? STUN_ATTR_MESSAGE_INTEGRITY)
     && negb (type =? STUN_ATTR_MESSAGE_INTEGRITY_SHA256) && negb (type =? STUN_ATTR_FINGERPRINT)
  then Some (i32 (STUN_ATTR_SIZE + align32 length), s) else
  r ← read_value type off length attr_begin s;
  Some (match r with Fail s => (-1, s) | Break s => (i32 (STUN_ATTR_SIZE + align32 length), s) end).

(** [while (pos < end)]; [true] when every attribute was read. *)
Fixpoint read_attrs (fuel : nat) (pos end_ attr_begin : Z) (s : rstate) : option (bool * rstate) :=
  match fuel with
  | O => None
  | S n =>
      if end_ <=? pos then Some (true, s) else
      '(ret, s) ← stun_read_attr pos (end_ - pos) attr_begin s;
      if ret <=? 0 then Some (false, s) else read_attrs n (pos + ret) end_ attr_begin s
  end.

(** Lines 554 to 607: what the attributes say about password algorithms. *)
Definition check_algorithms (bits : Z) (m : stun_message_t) : stun_message_t :=
  let m := if (msg_class m =? STUN_CLASS_RESP_ERROR) && ((error_code m =? 401) || (error_code m =? 438))
              && negb (Z.land bits STUN_SECURITY_PASSWORD_ALGORITHMS_BIT =? 0)
              && (password_algorithms_value_size (credentials m) =? 0)
           then m <| error_code := STUN_ERROR_INTERNAL_VALIDATION_FAILED |> else m in
  let c := credentials m in
  let m := if STUN_IS_RESPONSE (msg_class m) then m
           else if (password_algorithms_value_size c =? 0) && (password_algorithm c =? STUN_PASSWORD_ALGORITHM_UNSET)
           then m <| credentials := c <| password_algorithm := STUN_PASSWORD_ALGORITHM_MD5 |> |>
           else if password_algorithm c =? STUN_PASSWORD_ALGORITHM_UNSET
           then m <| error_code := STUN_ERROR_INTERNAL_VALIDATION_FAILED |>
           else if password_algorithms_value_size c =? 0
           then m <| error_code := STUN_ERROR_INTERNAL_VALIDATION_FAILED |>
           else if bool_decide (take (Z.to_nat (password_algorithms_value_size c)) (password_algorithms_value c)
                                = generate_password_algorithms_attr) then m
           else m <| error_code := STUN_ERROR_INTERNAL_VALIDATION_FAILED |> in
  if negb (Z.land bits STUN_SECURITY_USERNAME_ANONYMITY_BIT =? 0)
  then m <| credentials := (credentials m) <| enable_userhash := true |> |> else m.

(** The return value, the buffer and the message. *)
Definition stun_read (buf : list Z) (size : Z) : option (Z * list Z * stun_message_t) :=
  let msg := zero_message in
  if size <? sizeof_stun_header then Some (-1, buf, msg) else
  l ← rd_bytes buf 2 2; let length := get_be l in
  if size <? sizeof_stun_header + length then Some (-1, buf, msg) else
  t ← rd_bytes buf 0 2; let type := get_be t in
  id ← rd_bytes buf 8 STUN_TRANSACTION_ID_SIZE;
  let msg := msg <| msg_class := Z.land type STUN_CLASS_MASK |> <| msg_method := Z.land type (Z.lnot STUN_CLASS_MASK) |>
                 <| transaction_id := id |> in
  let attr_begin := sizeof_stun_header in
  let end_ := attr_begin + length in
  '(ok, s) ← read_attrs (S (Z.to_nat length)) attr_begin end_ attr_begin (Rstate buf msg 0);
  if negb ok then Some (-1, r_buf s, r_msg s) else
  Some (i32 (sizeof_stun_header + length), r_buf s, check_algorithms (r_bits s) (r_msg s)).

(** ** Integrity *)

Section integrity.
Context `{Hash}.

(** Lines 1113 to 1129 and 1132 to 1148: [None] inside is [return false]. *)
Definition check_hmac (buf : list Z) (pos attr_begin attr_length hmac_size : Z) (hmac : list Z -> list Z -> list Z) (key : list Z)
    : option (option (list Z)) :=
  if negb (attr_length =? hmac_size) then Some None else
  let tmp_length := u64 (pos - attr_begin + STUN_ATTR_SIZE + hmac_size) in
  '(prev_length, buf) ← stun_update_header_length buf tmp_length;
  m ← rd_bytes buf 0 pos;
  '(_, buf) ← stun_update_header_length buf prev_length;
  expected ← rd_bytes buf (pos + 4) hmac_size;
  r ← const_time_memcmp (hmac m key) expected hmac_size;
  Some (if negb (r =? 0) then None else Some buf).

Fixpoint check_attrs (fuel : nat) (buf : list Z) (size pos end_ attr_begin : Z) (key : list Z) (success : bool) : option bool :=
  match fuel with
  | O => None
  | S n =>
      if end_ <=? pos then Some success else
      l ← rd_bytes buf (pos + 2) 2; let attr_length := get_be l in
      if size <? STUN_ATTR_SIZE + attr_length then Some false else
      t ← rd_bytes buf pos 2; let type := get_be t in
      let next := pos + (STUN_ATTR_SIZE + align32 attr_length) in
      if type =? STUN_ATTR_MESSAGE_INTEGRITY then
        r ← check_hmac buf pos attr_begin attr_length HMAC_SHA1_SIZE hmac_sha1 key;
        match r with None => Some false | Some buf => check_attrs n buf size next end_ attr_begin key true end
      else if type =? STUN_ATTR_MESSAGE_INTEGRITY_SHA256 then
        r ← check_hmac buf pos attr_begin attr_length HMAC_SHA256_SIZE hmac_sha256 key;
        match r with None => Some false | Some buf => check_attrs n buf size next end_ attr_begin key true end
      else check_attrs n buf size next end_ attr_begin key success
  end.

Definition stun_check_integrity (buf : list Z) (size : Z) (msg : stun_message_t) (password : option (list Z)) : option bool :=
  if negb (has_integrity msg) then Some false else
  l ← rd_bytes buf 2 2; let length := get_be l in
  if size <? sizeof_stun_header + length then Some false else
  key ← generate_hmac_key (credentials msg) password;
  let attr_begin := sizeof_stun_header in
  check_attrs (S (Z.to_nat length)) buf size attr_begin (attr_begin + length) attr_begin key false.
End integrity.

(** ** The nonce cookie *)

(** [local] is the uninitialised array [copy]; [%.*s] takes at most the given number of
    characters. *)
Definition stun_prepend_nonce_cookie (local nonce : list Z) : option (list Z) :=
  copy ← strcpy local nonce;
  let security_bits := be32 (Z.lor STUN_SECURITY_PASSWORD_ALGORITHMS_BIT STUN_SECURITY_USERNAME_ANONYMITY_BIT) in
  bits ← rd_bytes security_bits 1 3;
  '(_, encoded) ← juice_base64_encode bits 5;
  enc ← string_at encoded; rest ← string_at copy;
  wr_bytes nonce 0 (snprintf STUN_MAX_NONCE_LEN
    (STUN_NONCE_COOKIE ++ enc ++ take (Z.to_nat (STUN_MAX_NONCE_LEN - (STUN_NONCE_COOKIE_LEN + 5))) rest) ++ [0]).
