(* ===== verification/StunSafe.v ===== *)
(** * [stun_read] is total and stays inside the message

    For any bytes whatsoever the reader terminates, reads and writes inside the buffer and
    the arrays of the message, leaves the buffer as it was, and ends with a well-formed
    message; and a message it accepted is one [stun_check_integrity] walks safely. *)

From S2P Require Import Prelude Bytes Addr Crc32 Base64 ConstTime Stun StunWrite StunWriteProps StunEncode StunRead.

(** A character array of a given size that holds a string. *)
Definition char_array (n : nat) (s : list Z) : Prop := length s = n /\ Forall byte s /\ is_Some (strlen s).

Record message_wf (m : stun_message_t) : Prop := {
  wf_username : char_array 514 (username (credentials m));
  wf_realm : char_array 764 (realm (credentials m));
  wf_nonce : char_array 764 (nonce (credentials m));
  wf_userhash : length (userhash (credentials m)) = 32%nat;
  wf_value : length (password_algorithms_value (credentials m)) = 256%nat;
  wf_value_size : 0 <= password_algorithms_value_size (credentials m) <= 256;
  wf_id : length (transaction_id m) = 12%nat;
  wf_peers : length (peers m) = 8%nat;
  wf_peers_size : 0 <= peers_size m <= 8;
  wf_data : match data m with Some d => 0 <= data_size m <= zlen d | None => True end }.

(** A state of the reader, and the outcomes of one case of its [switch]. *)
Definition rok (buf : list Z) (s : rstate) : Prop := r_buf s = buf /\ message_wf (r_msg s).
Definition fine (buf : list Z) (o : option flow) : Prop :=
  exists s, (o = Some (Break s) \/ o = Some (Fail s)) /\ rok buf s.

Lemma fine_break buf s : rok buf s -> fine buf (Some (Break s)).
Proof. intros. exists s. auto. Qed.
Lemma fine_fail buf s : rok buf s -> fine buf (Some (Fail s)).
Proof. intros. exists s. auto. Qed.

(** Changing fields that carry no invariant. *)
Ltac wf_update H := destruct H as [? []]; split; [done|]; constructor; cbn; done.

Section safe.
Context (buf : list Z) (Hbytes : Forall byte buf).

Lemma zero_wf : message_wf zero_message.
Proof. constructor; try done; try (split; [done|split; [by apply Forall_replicate|by eexists]]). Qed.

Lemma rd_bytes_ok pos n : 0 <= pos -> 0 <= n -> pos + n <= zlen buf ->
  exists bs, rd_bytes buf pos n = Some bs /\ zlen bs = n /\ Forall byte bs.
Proof.
  intros. eexists. split; [by apply rd_bytes_Some|]. split; [|by apply Forall_take, Forall_drop].
  apply zlen_take. rewrite zlen_drop. lia.
Qed.

Lemma wr_bytes_ok (l bs : list Z) : zlen bs <= zlen l ->
  wr_bytes l 0 bs = Some (bs ++ drop (length bs) l).
Proof. apply (wr_bytes_at []). Qed.

Lemma rd_ok pos : 0 <= pos < zlen buf -> exists b, rd buf pos = Some b.
Proof. intros H. exact (rd_is_Some buf pos H). Qed.

(** Addresses *)

Lemma read_address_ok n off mask : length mask = 16%nat -> 0 <= off -> 0 <= n <= 16 -> off + 4 + n <= zlen buf ->
  exists bytes, read_address n buf off mask = Some bytes.
Proof.
  intros Hm Ho Hn Hl. unfold read_address.
  destruct (for_up_rule (fun _ x => zlen x = n) 0 n (fun i bytes => b ← rd buf (off + 4 + i); m ← rd mask i; wr bytes i (Z.lxor b m))
    (replicate (Z.to_nat n) 0)) as (s & Hs & _); [lia|rewrite zlen_replicate; lia| |by eexists].
  intros i x Hi Hx. destruct (rd_ok (off + 4 + i)) as [b ->]; [lia|].
  destruct (rd_is_Some mask i) as [m ->]; [unfold zlen; rewrite Hm; lia|]. cbn [mbind option_bind].
  rewrite wr_Some by lia. eexists. split; [done|]. unfold zlen. by rewrite length_insert.
Qed.

Lemma read_mapped_value_ok value length mapped mask : List.length mask = 16%nat -> 0 <= value -> value + length <= zlen buf ->
  exists ret r, stun_read_value_mapped_address buf value length mapped mask = Some (ret, r).
Proof.
  intros Hm Hv Hl. unfold stun_read_value_mapped_address. destruct (Z.ltb_spec length 4); [by eexists _, _|].
  destruct (rd_ok (value + 1)) as [f ->]; [lia|]. cbn [mbind option_bind].
  assert (forall n, 0 <= n <= 16 -> 4 + n <= length -> exists p a, read_port buf value mask = Some p /\ read_address n buf value mask = Some a) as Hr.
  { intros n Hn Hln. destruct (read_address_ok n value mask) as [a Ha]; [done|lia..|].
    unfold read_port. destruct (rd_bytes_ok (value + 2) 2) as (p & -> & _); [lia..|].
    rewrite rd_bytes_0 by (unfold zlen; rewrite Hm; lia). cbn [mbind option_bind]. by eexists _, _. }
  destruct (_ =? _).
  - destruct (Z.ltb_spec length (4 + 4)); [by eexists _, _|]. destruct (Hr 4) as (p & a & -> & ->); [lia..|]. by eexists _, _.
  - destruct (_ =? _); [|by eexists _, _].
    destruct (Z.ltb_spec length (4 + 16)); [by eexists _, _|]. destruct (Hr 16) as (p & a & -> & ->); [lia..|]. by eexists _, _.
Qed.

Lemma generate_mask_ok s : rok buf s -> exists mask, generate_mask (transaction_id (r_msg s)) = Some mask /\ length mask = 16%nat.
Proof.
  intros [_ Hm]. rewrite generate_mask_spec by apply Hm. eexists. split; [done|]. unfold xor_mask.
  rewrite length_app, (wf_id _ Hm). done.
Qed.

Lemma read_mapped_ok value length mask get put s : List.length mask = 16%nat -> 0 <= value -> value + length <= zlen buf ->
  rok buf s -> (forall r, message_wf (put r (r_msg s))) -> fine buf (read_mapped value length mask get put s).
Proof.
  intros Hm Hv Hl [Hb Hs] Hput. unfold read_mapped. rewrite Hb.
  destruct (read_mapped_value_ok value length (get (r_msg s)) mask) as (ret & r & ->); [done..|]. cbn [mbind option_bind].
  destruct (ret <? 0); [apply fine_fail|apply fine_break]; (split; [done|apply Hput]).
Qed.

(** Strings *)

Lemma char_array_put n s v : char_array n s -> Forall byte v -> (length v < n)%nat ->
  exists s', (s1 ← wr_bytes s 0 v; wr s1 (zlen v) 0) = Some s' /\ char_array n s' /\ cstr s' = cstr v.
Proof.
  intros (Hl & Hb & _) Hv Hn. rewrite wr_bytes_ok by (unfold zlen; lia). cbn [mbind option_bind].
  rewrite wr_at by (rewrite zlen_drop; unfold zlen; lia). eexists. split; [done|].
  assert (forall t, is_Some (strlen (v ++ 0 :: t)) /\ cstr (v ++ 0 :: t) = cstr v) as Hc.
  { intros t. clear. induction v as [|c v [[k Hk] IH]]; [by split; [eexists|]|]. simpl. destruct (c =? 0); [by split; [eexists|]|].
    rewrite Hk. split; [by eexists|by rewrite IH]. }
  rewrite <- app_assoc. simpl. split; [|apply Hc]. split; [|split; [|apply Hc]].
  - rewrite length_app. simpl. rewrite !length_drop. lia.
  - apply Forall_app. split; [done|]. constructor; [unfold byte; lia|]. by apply Forall_drop, Forall_drop.
Qed.

Lemma read_string_ok n max value length dst s put : max = Z.of_nat n -> 0 <= value -> 0 <= length -> value + length <= zlen buf ->
  r_buf s = buf -> rok buf s -> char_array n dst ->
  (forall str, char_array n str -> fine buf (put str s)) -> fine buf (read_string max value length dst s put).
Proof.
  intros -> Hv Hl0 Hl Hb Hs Hd Hput. unfold read_string. destruct (Z.ltb_spec (Z.of_nat n) (length + 1)); [by apply fine_fail|].
  rewrite Hb. destruct (rd_bytes_ok value length) as (v & -> & Hvl & Hvb); [done..|]. cbn [mbind option_bind].
  destruct (char_array_put n dst v Hd Hvb) as (str & Hstr & Hc & _); [unfold zlen in *; lia|]. rewrite Hvl in Hstr.
  destruct (wr_bytes dst 0 v) as [s1|]; [|done]. cbn [mbind option_bind] in *. rewrite Hstr. cbn [mbind option_bind]. by apply Hput.
Qed.

Lemma read_int_ok n value length s put : 0 <= value -> 0 <= length -> value + length <= zlen buf -> rok buf s ->
  (forall v, message_wf (put v (r_msg s))) -> fine buf (read_int n value length s put).
Proof.
  intros Hv Hl0 Hl [Hb Hs] Hput. unfold read_int. destruct (Z.eqb_spec length n) as [<-|]; cbn [negb]; [|by apply fine_fail].
  rewrite Hb. destruct (rd_bytes_ok value length) as (v & -> & _); [done..|]. cbn [mbind option_bind].
  apply fine_break. split; [done|apply Hput].
Qed.

(** The cases that do more than copy *)

Lemma align32_le n : 0 <= n -> n <= align32 n.
Proof. intros. rewrite align32_padding by done. pose proof (padding_range n). lia. Qed.

Lemma get_be_nonneg bs : Forall byte bs -> 0 <= get_be bs.
Proof. intros H. apply get_be_range in H. lia. Qed.

Lemma set_algorithm_ok s a : rok buf s -> rok buf (set_credentials (fun c => c <| password_algorithm := a |>) s).
Proof. intros H. wf_update H. Qed.

Lemma read_algorithms_ok fuel : forall pos end_ s, end_ - pos < Z.of_nat fuel -> 0 <= pos <= end_ -> end_ <= zlen buf -> rok buf s ->
  fine buf (read_algorithms fuel pos end_ s).
Proof.
  induction fuel as [|fuel IH]; intros pos end_ s Hf Hp He Hs; [lia|]. cbn [read_algorithms].
  destruct (Z.leb_spec end_ pos); [by apply fine_break|].
  destruct (Z.ltb_spec (end_ - pos) 4); [by apply fine_fail|]. pose proof Hs as [-> _].
  destruct (rd_bytes_ok pos 2) as (a & -> & _); [lia..|]. destruct (rd_bytes_ok (pos + 2) 2) as (l & -> & _ & Hl); [lia..|].
  cbn [mbind option_bind]. apply get_be_nonneg in Hl. pose proof (align32_le _ Hl).
  destruct (Z.ltb_spec (end_ - (pos + 4)) (align32 (get_be l))); [by apply fine_fail|].
  destruct (_ || _); [by apply fine_break, set_algorithm_ok|]. apply IH; (done || lia).
Qed.

Lemma read_security_bits_ok s : rok buf s -> fine buf (read_security_bits s).
Proof.
  intros Hs. unfold read_security_bits. pose proof Hs as [Hb Hm]. destruct (wf_nonce _ Hm) as (Hl & Hby & n & Hn).
  rewrite Hn. cbn [mbind option_bind]. destruct (STUN_IS_RESPONSE _); [|by apply fine_break]. cbn [andb].
  unfold STUN_NONCE_COOKIE_LEN. destruct (Z.ltb_spec (9 + 4) n); [|by apply fine_break]. cbn [andb].
  case_bool_decide; [|by apply fine_break].
  destruct (cstr_strlen _ n Hn) as [Hc Hcl]. pose proof (cstr_nonzero (nonce (credentials (r_msg s)))) as Hnz.
  rewrite rd_bytes_Some by (rewrite <- ?Hcl; pose proof (cstr_length (nonce (credentials (r_msg s)))); lia). cbn [mbind option_bind].
  set (e := take (Z.to_nat 4) (drop (Z.to_nat 9) (nonce (credentials (r_msg s))))).
  destruct (decode_four e) as [[len bytes] ->].
  - subst e. rewrite Hc in Hnz. apply Forall_take with (n := Z.to_nat (9 + 4)) in Hnz. rewrite take_take in Hnz.
    replace (Z.to_nat (9 + 4) `min` Z.to_nat n)%nat with (9 + 4)%nat in Hnz by lia.
    change (Z.to_nat 4) with 4%nat. change (Z.to_nat 9) with 9%nat. rewrite take_drop_commute.
    apply Forall_drop. eapply Forall_impl; [apply Forall_and; split; [exact Hnz|apply Forall_take, Hby]|].
    intros x [H1 H2]. unfold byte in H2. simpl in H1. lia.
  - subst e. apply zlen_take. rewrite zlen_drop. pose proof (cstr_length (nonce (credentials (r_msg s)))). lia.
  - cbn [mbind option_bind]. apply fine_break. destruct (len =? 3); [|done]. by wf_update Hs.
Qed.

(** The header's length is changed and restored. *)
Lemma update_header_ok k : 20 <= zlen buf -> exists prev buf',
  stun_update_header_length buf k = Some (prev, buf') /\ Forall byte buf' /\ zlen buf' = zlen buf /\
  exists x, stun_update_header_length buf' prev = Some (x, buf).
Proof.
  intros Hl. destruct buf as [|a [|b [|c [|d rest]]]]; try (unfold zlen in Hl; simpl length in Hl; lia).
  apply Forall_cons in Hbytes as [Ha H]. apply Forall_cons in H as [Hb H]. apply Forall_cons in H as [Hc H].
  apply Forall_cons in H as [Hd H]. unfold stun_update_header_length. change (a :: b :: c :: d :: rest) with ([a; b] ++ [c; d] ++ rest).
  pose proof (rd_bytes_at [a; b] ([c; d] ++ rest) 2) as Hr. change (zlen [a; b]) with 2 in Hr. rewrite Hr, (wr_bytes_app [a; b]) by (done || (rewrite zlen_app; pose proof (zlen_nonneg rest); change (zlen [c; d]) with 2; lia)).
  cbn [mbind option_bind]. eexists _, _. split; [done|]. split; [|split].
  - repeat (apply Forall_cons_2; [done|]). apply Forall_app. split; [apply be16_bytes|done].
  - done.
  - change (take (Z.to_nat 2) ([c; d] ++ rest)) with [c; d]. rewrite be16_get_be by done.
    pose proof (rd_bytes_at [a; b] (be16 (u16 k) ++ rest) 2) as Hr'. change (zlen [a; b]) with 2 in Hr'.
    rewrite Hr', (wr_bytes_app [a; b]) by (done || (rewrite zlen_app, be16_length; pose proof (zlen_nonneg rest); lia)).
    by eexists.
Qed.

Lemma read_fingerprint_ok off attr_begin s : 20 <= off -> off + 8 <= zlen buf -> rok buf s ->
  fine buf (read_fingerprint off attr_begin s).
Proof.
  intros Ho Hl Hs. pose proof Hs as [Hb Hm]. unfold read_fingerprint. rewrite Hb.
  destruct (update_header_ok (u64 (off - attr_begin + STUN_ATTR_SIZE + 4))) as (prev & buf' & -> & Hby & Hlen & x & Hx); [lia|].
  cbn [mbind option_bind]. rewrite rd_bytes_0 by lia. cbn [mbind option_bind]. unfold CRC32.
  destruct (crc32_any_table (take (Z.to_nat off) buf') table0) as [-> _]; [by apply Forall_take|by left|]. cbn [mbind option_bind].
  rewrite Hx. cbn [mbind option_bind]. destruct (rd_bytes_ok (off + 4) 4) as (f & -> & _); [lia..|]. cbn [mbind option_bind].
  destruct (negb _); [apply fine_fail|apply fine_break].
  - destruct Hm. by split; [|constructor].
  - destruct Hm. by split; [|constructor].
Qed.

Lemma set_msg_ok f s : rok buf s -> message_wf (f (r_msg s)) -> rok buf (set_msg f s).
Proof. intros [Hb _] Hf. by split. Qed.

Lemma flag_ok f s : rok buf s -> message_wf (f (r_msg s)) -> fine buf (flag f s).
Proof. intros. by apply fine_break, set_msg_ok. Qed.

(** A record of the message in which a field without invariant changed. *)
Ltac wf_same := match goal with Hm : message_wf _ |- message_wf _ => destruct Hm; constructor; done end.

Lemma read_peer_ok value length s : 0 <= value -> 0 <= length -> value + length <= zlen buf -> rok buf s ->
  fine buf (let n := peers_size (r_msg s) in
    if n <? STUN_MAX_PEER_ADDRESSES then
      mask ← generate_mask (transaction_id (r_msg s));
      peer ← rd (peers (r_msg s)) n;
      '(ret, peer) ← stun_read_value_mapped_address (r_buf s) value length peer mask;
      peers' ← wr (peers (r_msg s)) n peer;
      let s := set_msg (fun m => m <| peers := peers' |>) s in
      Some (if ret <? 0 then Fail s
            else if negb (len peer =? 0) then Break (set_msg (fun m => m <| peers_size := n + 1 |>) s) else Break s)
    else Some (Break s)).
Proof.
  intros Hv Hl0 Hl Hs. pose proof Hs as [Hb Hm]. destruct (generate_mask_ok s Hs) as (mask & Hmask & Hlen). cbv zeta.
  unfold STUN_MAX_PEER_ADDRESSES. destruct (Z.ltb_spec (peers_size (r_msg s)) 8); [|by apply fine_break].
  rewrite Hmask. cbn [mbind option_bind]. pose proof (wf_peers_size _ Hm). pose proof (wf_peers _ Hm).
  destruct (rd_is_Some (peers (r_msg s)) (peers_size (r_msg s))) as [peer ->]; [unfold zlen; lia|]. cbn [mbind option_bind]. rewrite Hb.
  destruct (read_mapped_value_ok value length peer mask) as (ret & r & ->); [done|lia|lia|]. cbn [mbind option_bind].
  rewrite wr_Some by (unfold zlen; lia). cbn [mbind option_bind].
  set (ps := <[_ := _]> _). assert (List.length ps = 8%nat) as Hps by (unfold ps; by rewrite length_insert).
  destruct (ret <? 0); [apply fine_fail|destruct (negb _); apply fine_break].
  - split; [done|]. wf_same.
  - split; [done|]. destruct Hm; constructor; cbn; (done || lia).
  - split; [done|]. wf_same.
Qed.

Lemma read_pwa_ok value length s : 0 <= value -> 4 <= length <= 256 -> value + length <= zlen buf -> rok buf s ->
  fine buf (v ← rd_bytes (r_buf s) value length;
    pwa ← wr_bytes (password_algorithms_value (credentials (r_msg s))) 0 v;
    let s := set_credentials (fun c => c <| password_algorithms_value := pwa |> <| password_algorithms_value_size := length |>) s in
    if STUN_IS_RESPONSE (msg_class (r_msg s)) then Some (Break s)
    else read_algorithms (S (Z.to_nat length)) value (value + length) s).
Proof.
  intros Hv Hl Hlen Hs. pose proof Hs as [Hb Hm]. rewrite Hb.
  destruct (rd_bytes_ok value length) as (v & -> & Hvl & _); [lia..|]. cbn [mbind option_bind]. pose proof (wf_value _ Hm) as Hva.
  rewrite wr_bytes_ok by (unfold zlen in *; lia). cbn [mbind option_bind]. set (pwa := v ++ _).
  assert (List.length pwa = 256%nat) as Hpwa by (unfold pwa, zlen in *; rewrite length_app, length_drop; lia).
  assert (rok buf (set_credentials (fun c => c <| password_algorithms_value := pwa |> <| password_algorithms_value_size := length |>) s)) as Hs'.
  { split; [done|]. destruct Hm; constructor; cbn; (done || lia). }
  destruct (STUN_IS_RESPONSE _); [by apply fine_break|]. apply read_algorithms_ok; (done || lia).
Qed.

Lemma set_username_ok s str : rok buf s -> char_array 514 str -> fine buf (Some (Break (set_credentials (fun c => c <| username := str |>) s))).
Proof. intros [Hb Hm] Hc. apply fine_break. split; [done|]. destruct Hm; constructor; done. Qed.

Lemma set_realm_ok s str : rok buf s -> char_array 764 str -> fine buf (Some (Break (set_credentials (fun c => c <| realm := str |>) s))).
Proof. intros [Hb Hm] Hc. apply fine_break. split; [done|]. destruct Hm; constructor; done. Qed.

Lemma set_nonce_ok s str : rok buf s -> char_array 764 str -> fine buf (read_security_bits (set_credentials (fun c => c <| nonce := str |>) s)).
Proof. intros [Hb Hm] Hc. apply read_security_bits_ok. split; [done|]. destruct Hm; constructor; done. Qed.

Ltac read_byte Hb := rewrite ?Hb; match goal with |- context [rd buf ?p] =>
  let b := fresh "b" in let Hr := fresh in destruct (rd_ok p) as [b Hr]; [lia|]; rewrite Hr; cbn [mbind option_bind] end.

Lemma read_value_ok type off length s : 20 <= off -> 0 <= length -> off + 4 + length <= zlen buf -> rok buf s ->
  fine buf (read_value type off length 20 s).
Proof.
  intros Ho Hl0 Hl Hs. pose proof Hs as [Hb Hm]. pose proof Hm as [Hu Hre Hno Huh Hva Hvs Hid Hpe Hps Hda].
  unfold read_value, read_credentials_value, read_turn_value, STUN_ATTR_SIZE. destruct (generate_mask_ok s Hs) as (mask & Hmask & Hmlen).
  assert (0 <= off + 4) as H4 by lia.
  repeat match goal with |- fine _ (if ?b then ?x else ?y) => lazymatch b with _ =? _ => destruct b end end.
  all: try (apply read_peer_ok; done).
  all: try (rewrite Hmask; cbn [mbind option_bind]).
  all: try (apply read_mapped_ok; [done..|intros; wf_same]).
  all: try (apply flag_ok; [done|wf_same]).
  all: try (apply read_int_ok; [done..|intros; wf_same]).
  all: try (by apply fine_break).
  - destruct (Z.ltb_spec length 4); [by apply fine_fail|]. do 2 read_byte Hb. apply flag_ok; [done|wf_same].
  - apply (read_string_ok 514); try done. intros. by apply set_username_ok.
  - destruct (negb _); [by apply fine_fail|]. apply flag_ok; [done|wf_same].
  - destruct (negb _); [by apply fine_fail|]. apply flag_ok; [done|wf_same].
  - destruct (Z.eqb_spec length 4); cbn [negb]; [|by apply fine_fail]. apply read_fingerprint_ok; (done || lia).
  - apply (read_string_ok 764); try done. intros. by apply set_realm_ok.
  - apply (read_string_ok 764); try done. intros. by apply set_nonce_ok.
  - destruct (Z.ltb_spec length 4); [by apply fine_fail|]. destruct (STUN_IS_RESPONSE _); [by apply fine_break|]. rewrite Hb.
    destruct (rd_bytes_ok (off + 4) 2) as (a & -> & _); [lia..|]. cbn [mbind option_bind].
    apply fine_break. destruct (_ || _); [by apply set_algorithm_ok|done].
  - destruct (Z.ltb_spec length 4); [by apply fine_fail|]. unfold STUN_MAX_PASSWORD_ALGORITHMS_VALUE_SIZE.
    destruct (Z.ltb_spec 256 length); [by apply fine_fail|]. by apply read_pwa_ok.
  - unfold USERHASH_SIZE, HASH_SHA256_SIZE. destruct (Z.eqb_spec length 32); cbn [negb]; [|by apply fine_fail]. rewrite Hb.
    destruct (rd_bytes_ok (off + 4) 32) as (h & -> & Hh & _); [lia..|]. cbn [mbind option_bind].
    rewrite wr_bytes_ok by (unfold zlen in *; lia). cbn [mbind option_bind]. apply fine_break. split; [done|].
    assert (List.length (h ++ drop (List.length h) (userhash (credentials (r_msg s)))) = 32%nat) by
      (rewrite length_app, length_drop; unfold zlen in *; lia). wf_same.
  - destruct (_ <? _); [by apply fine_fail|by apply fine_break].
  - destruct (Z.ltb_spec length 4); [by apply fine_fail|]. rewrite Hb.
    destruct (rd_bytes_ok (off + 4) 2) as (a & -> & _); [lia..|]. cbn [mbind option_bind]. apply flag_ok; [done|wf_same].
  - apply flag_ok; [done|]. rewrite Hb. destruct Hm; constructor; try done. cbn. rewrite zlen_drop. lia.
  - destruct (Z.ltb_spec length 1); [by apply fine_fail|]. read_byte Hb. apply flag_ok; [done|wf_same].
  - destruct (Z.ltb_spec length 4); [by apply fine_fail|]. read_byte Hb.
    destruct (negb _); [by apply fine_fail|]. apply flag_ok; [done|wf_same].
Qed.

(** Attributes from [pos] that all lie before [end_]. *)
Inductive walk (end_ : Z) : Z -> Prop :=
| walk_end pos : end_ <= pos -> walk end_ pos
| walk_attr pos l : pos < end_ -> rd_bytes buf (pos + 2) 2 = Some l -> pos + 4 + get_be l <= end_ ->
    walk end_ (pos + (4 + align32 (get_be l))) -> walk end_ pos.

Lemma align32_range n : 0 <= n < 65536 -> n <= align32 n < 65540.
Proof. intros. rewrite align32_padding by lia. pose proof (padding_range n). lia. Qed.

Lemma length_field_range l : Forall byte l -> zlen l = 2 -> 0 <= get_be l < 65536.
Proof. intros H Hl. apply get_be_range in H. rewrite Hl in H. done. Qed.

Lemma stun_read_attr_ok off size s : 20 <= off -> off + size <= zlen buf -> rok buf s ->
  exists ret s', stun_read_attr off size 20 s = Some (ret, s') /\ rok buf s' /\
    (0 < ret -> exists l, rd_bytes buf (off + 2) 2 = Some l /\ 4 + get_be l <= size /\ ret = 4 + align32 (get_be l)).
Proof.
  intros Ho Hl Hs. pose proof Hs as [Hb Hm]. unfold stun_read_attr, STUN_ATTR_SIZE.
  destruct (has_fingerprint (r_msg s)); [by eexists _, _|]. destruct (Z.ltb_spec size 4); [by eexists _, _|]. rewrite Hb.
  destruct (rd_bytes_ok (off + 2) 2) as (l & Hrl & Hll & Hlb); [lia..|]. destruct (rd_bytes_ok off 2) as (t & -> & _); [lia..|].
  rewrite Hrl. cbn [mbind option_bind]. pose proof (length_field_range l Hlb Hll) as Hr. pose proof (align32_range _ Hr).
  destruct (Z.ltb_spec size (4 + get_be l)); [by eexists _, _|]. rewrite !i32_small by lia.
  destruct (_ && _); [eexists _, _; split; [done|split; [done|eauto]]|].
  destruct (read_value_ok (get_be t) off (get_be l) s) as (s' & [-> | ->] & Hs'); [lia..|done| |]; cbn [mbind option_bind].
  - eexists _, _; split; [done|split; [done|eauto]].
  - eexists _, _; split; [done|split; [done|lia]].
Qed.

Lemma read_attrs_ok fuel : forall pos end_ s, 0 < Z.of_nat fuel -> end_ - pos < Z.of_nat fuel -> 20 <= pos -> end_ <= zlen buf -> rok buf s ->
  exists ok s', read_attrs fuel pos end_ 20 s = Some (ok, s') /\ rok buf s' /\ (ok = true -> walk end_ pos).
Proof.
  induction fuel as [|fuel IH]; intros pos end_ s H0 Hf Hp He Hs; [lia|]. cbn [read_attrs].
  destruct (Z.leb_spec end_ pos); [eexists _, _; split; [done|split; [done|]]; intros; by apply walk_end|].
  destruct (stun_read_attr_ok pos (end_ - pos) s) as (ret & s' & -> & Hs' & Hret); [lia..|done|]. cbn [mbind option_bind].
  destruct (Z.leb_spec ret 0); [by eexists _, _|]. destruct Hret as (l & Hl & Hle & ->); [done|].
  destruct (rd_bytes_ok (pos + 2) 2) as (l' & Hl' & Hll & Hlb); [apply rd_bytes_inv in Hl; lia..|]. rewrite Hl in Hl'. injection Hl' as <-.
  pose proof (align32_range _ (length_field_range l Hlb Hll)).
  destruct (IH (pos + (4 + align32 (get_be l))) end_ s') as (ok & s2 & -> & Hs2 & Hw); [lia..|done|].
  eexists _, _. split; [done|]. split; [done|]. intros Hok. apply (walk_attr end_ pos l); [done..|lia|auto].
Qed.

Lemma check_algorithms_wf bits m : message_wf m -> message_wf (check_algorithms bits m).
Proof. intros Hm. unfold check_algorithms. repeat case_match; destruct Hm; constructor; done. Qed.

(** The reader on any bytes. *)
Lemma stun_read_ok size : 0 <= size <= zlen buf -> size < 2147483648 ->
  exists ret m, stun_read buf size = Some (ret, buf, m) /\ message_wf m /\
    (ret = -1 \/ exists l, rd_bytes buf 2 2 = Some l /\ ret = 20 + get_be l /\ 20 <= ret <= size /\ walk ret 20).
Proof.
  intros Hs Hs31. unfold stun_read, sizeof_stun_header. pose proof zero_wf as Hz.
  destruct (Z.ltb_spec size 20); [eexists _, _; split; [done|]; auto|].
  destruct (rd_bytes_ok 2 2) as (l & Hrl & Hll & Hlb); [lia..|]. rewrite Hrl. cbn [mbind option_bind].
  pose proof (length_field_range l Hlb Hll). destruct (Z.ltb_spec size (20 + get_be l)); [eexists _, _; split; [done|]; auto|].
  destruct (rd_bytes_ok 0 2) as (t & -> & _); [lia..|]. destruct (rd_bytes_ok 8 12) as (id & Hid & Hidl & _); [lia..|].
  unfold STUN_TRANSACTION_ID_SIZE. rewrite Hid. cbn [mbind option_bind]. set (m := zero_message <| msg_class := _ |> <| msg_method := _ |> <| transaction_id := _ |>).
  assert (message_wf m) as Hm.
  { destruct Hz; constructor; try done. cbn. unfold zlen in Hidl. lia. }
  destruct (read_attrs_ok (S (Z.to_nat (get_be l))) 20 (20 + get_be l) (Rstate buf m 0)) as (ok & s & -> & [Hb Hms] & Hw); [lia..|done|].
  cbn [mbind option_bind]. rewrite Hb. destruct ok; cbn [negb]; [|eexists _, _; split; [done|]; auto].
  eexists _, _. split; [done|]. split; [by apply check_algorithms_wf|]. right. exists l. rewrite i32_small by lia.
  split_and!; try (done || lia). by apply Hw.
Qed.

Context {H : Hash} {HO : HashOk H}.

Lemma check_hmac_ok pos attr_length hsize (hmac : list Z -> list Z -> list Z) key : 20 <= pos -> 0 <= hsize ->
  (forall m, zlen (hmac m key) = hsize /\ Forall byte (hmac m key)) -> pos + 4 + attr_length <= zlen buf ->
  exists r, check_hmac buf pos 20 attr_length hsize hmac key = Some r /\ (r = None \/ r = Some buf).
Proof.
  intros Hp Hh Hhm Hl. unfold check_hmac. destruct (Z.eqb_spec attr_length hsize); cbn [negb]; [|by eexists; auto].
  destruct (update_header_ok (u64 (pos - 20 + STUN_ATTR_SIZE + hsize))) as (prev & buf' & -> & Hby & Hlen & x & Hx); [lia|].
  cbn [mbind option_bind]. rewrite rd_bytes_0 by lia. cbn [mbind option_bind]. rewrite Hx. cbn [mbind option_bind].
  destruct (rd_bytes_ok (pos + 4) hsize) as (ex & -> & Hel & Heb); [lia..|]. cbn [mbind option_bind].
  destruct (Hhm (take (Z.to_nat pos) buf')) as [Hml Hmb].
  destruct (memcmp_spec (hmac (take (Z.to_nat pos) buf') key) ex (Z.to_nat hsize) Hmb Heb) as (r & Hr & _); [unfold zlen in *; lia..|].
  rewrite Z2Nat.id in Hr by done. rewrite Hr. cbn [mbind option_bind]. destruct (negb _); eexists; eauto.
Qed.

Lemma check_attrs_ok fuel : forall size pos end_ key success, 0 < Z.of_nat fuel -> end_ - pos < Z.of_nat fuel -> 20 <= pos ->
  end_ <= size -> end_ <= zlen buf -> walk end_ pos -> is_Some (check_attrs fuel buf size pos end_ 20 key success).
Proof.
  induction fuel as [|fuel IH]; intros size pos end_ key success H0 Hf Hp Hes He Hw; [lia|]. cbn [check_attrs].
  destruct Hw as [pos Hpe|pos l Hpe Hl Hle Hw]; [rewrite (proj2 (Z.leb_le _ _)) by lia; by eexists|].
  rewrite (proj2 (Z.leb_gt _ _)) by lia. rewrite Hl. cbn [mbind option_bind]. unfold STUN_ATTR_SIZE.
  destruct (Z.ltb_spec size (4 + get_be l)); [by eexists|].
  destruct (rd_bytes_ok (pos + 2) 2) as (l' & Hl' & Hll & Hlb); [apply rd_bytes_inv in Hl; lia..|]. rewrite Hl in Hl'. injection Hl' as <-.
  pose proof (length_field_range l Hlb Hll) as Hr. pose proof (align32_range _ Hr).
  destruct (rd_bytes_ok pos 2) as (t & -> & _); [lia..|]. cbn [mbind option_bind].
  assert (forall b, is_Some (check_attrs fuel buf size (pos + (4 + align32 (get_be l))) end_ 20 key b)) as Hn
    by (intros; apply IH; (done || lia)).
  destruct (_ =? _).
  - destruct (check_hmac_ok pos (get_be l) HMAC_SHA1_SIZE hmac_sha1 key) as (r & -> & [-> | ->]); [lia|done|intros; eapply hmac_sha1_size|lia|by eexists|].
    apply Hn.
  - destruct (_ =? _); [|apply Hn].
    destruct (check_hmac_ok pos (get_be l) HMAC_SHA256_SIZE hmac_sha256 key) as (r & -> & [-> | ->]); [lia|done|intros; eapply hmac_sha256_size|lia|by eexists|].
    apply Hn.
Qed.
End safe.
