(* ===== verification/StunRoundtrip.v ===== *)
(** * Reading back what was written

    [reads l R]: over the encoding of the attributes [l] the loop of [stun_read] goes from
    one message to another related by [R].  The attributes of [encode] are read one by one;
    together they restore the message. *)

From stdpp Require Import relations.
From S2P Require Import Prelude Bytes Addr Crc32 Base64 Stun StunWrite StunWriteProps StunEncode StunRead StunSafe.
Open Scope Z_scope.

(** ** Steps of the loop *)

Definition read_step (end_ : Z) (a b : Z * rstate) : Prop :=
  fst a < end_ /\ exists ret, stun_read_attr (fst a) (end_ - fst a) 20 (snd a) = Some (ret, snd b) /\ 0 < ret /\ fst b = fst a + ret.

Lemma read_steps_loop end_ a b : rtc (read_step end_) a b -> end_ <= fst b -> forall fuel, 0 < Z.of_nat fuel -> end_ - fst a < Z.of_nat fuel ->
  read_attrs fuel (fst a) end_ 20 (snd a) = Some (true, snd b).
Proof.
  induction 1 as [a|a b c (Hlt & ret & Hr & Hpos & Hb) _ IH]; intros He fuel H0 Hf; (destruct fuel as [|fuel]; [lia|]); cbn [read_attrs].
  - by rewrite (proj2 (Z.leb_le _ _)) by lia.
  - rewrite (proj2 (Z.leb_gt _ _)) by lia. rewrite Hr. cbn [mbind option_bind]. rewrite (proj2 (Z.leb_gt _ _)) by lia.
    rewrite <- Hb. apply IH; lia.
Qed.

(** One attribute. *)
Lemma read_one pre type v post s end_ : r_buf s = pre ++ encode_attr (type, v) ++ post -> 0 <= type < 65536 -> zlen v < 65536 ->
  zlen pre + zlen (encode_attr (type, v)) <= end_ -> has_fingerprint (r_msg s) = false ->
  has_integrity (r_msg s) = false \/ type ∈ [STUN_ATTR_MESSAGE_INTEGRITY; STUN_ATTR_MESSAGE_INTEGRITY_SHA256; STUN_ATTR_FINGERPRINT] ->
  forall s', read_value type (zlen pre) (zlen v) 20 s = Some (Break s') ->
  read_step end_ (zlen pre, s) (zlen (pre ++ encode_attr (type, v)), s').
Proof.
  intros Hb Ht Hv He Hf Hi s' Hr. pose proof (zlen_nonneg v). pose proof (padding_range (zlen v)).
  rewrite encode_attr_length in He. cbn [snd] in He. split; cbn [fst snd]; [lia|].
  exists (zlen (encode_attr (type, v))). rewrite encode_attr_length. cbn [snd]. split; [|rewrite zlen_app, encode_attr_length; cbn [snd]; lia].
  unfold stun_read_attr, STUN_ATTR_SIZE. rewrite Hf, (proj2 (Z.ltb_ge _ 4)) by lia. rewrite Hb.
  unfold encode_attr. cbn [fst snd]. rewrite <- !app_assoc.
  replace (zlen pre + 2) with (zlen (pre ++ be16 type)) by (rewrite zlen_app, be16_length; lia).
  rewrite app_assoc, rd_bytes_app by done. rewrite <- app_assoc, rd_bytes_app by done. cbn [mbind option_bind].
  rewrite !get_be_be16 by lia. rewrite (proj2 (Z.ltb_ge _ _)) by lia.
  replace (has_integrity (r_msg s) && negb (type =? STUN_ATTR_MESSAGE_INTEGRITY) &&
    negb (type =? STUN_ATTR_MESSAGE_INTEGRITY_SHA256) && negb (type =? STUN_ATTR_FINGERPRINT)) with false.
  - rewrite Hr. cbn [mbind option_bind]. rewrite align32_padding, i32_small by lia. do 2 f_equal. lia.
  - destruct Hi as [-> | Hi]; [done|]. rewrite !elem_of_cons, elem_of_nil in Hi.
    destruct Hi as [-> | [-> | [-> | []]]]; by rewrite ?andb_false_r.
Qed.

(** ** Addresses *)

Lemma lxor_mask_mask a mask : (length a <= length mask)%nat -> zip_with Z.lxor (zip_with Z.lxor a mask) mask = a.
Proof.
  revert mask. induction a as [|x a IH]; intros [|y mask] Hl; simpl in *; try (done || lia).
  rewrite Z.lxor_assoc, Z.lxor_nilpotent, Z.lxor_0_r, IH by lia. done.
Qed.

Lemma read_address_spec p xs q mask : (length xs <= length mask)%nat -> 4 <= zlen p ->
  read_address (zlen xs) (p ++ xs ++ q) (zlen p - 4) mask = Some (zip_with Z.lxor xs mask).
Proof.
  intros Hl Hp. unfold read_address. set (out := zip_with Z.lxor xs mask).
  assert (length out = length xs) as Ho by (unfold out; rewrite length_zip_with; lia).
  destruct (for_up_rule (fun i x => x = take (Z.to_nat i) out ++ replicate (length xs - Z.to_nat i) 0) 0 (zlen xs)
    (fun i bytes => b ← rd (p ++ xs ++ q) (zlen p - 4 + 4 + i); m ← rd mask i; wr bytes i (Z.lxor b m))
    (replicate (Z.to_nat (zlen xs)) 0)) as (s & Hs & ->).
  - apply zlen_nonneg.
  - simpl. f_equal. unfold zlen. lia.
  - intros i x Hi ->. unfold zlen in Hi.
    replace (zlen p - 4 + 4 + i) with (zlen p + i) by lia.
    destruct (lookup_lt_is_Some_2 xs (Z.to_nat i)) as [b Hb]; [lia|].
    destruct (lookup_lt_is_Some_2 mask (Z.to_nat i)) as [m Hm]; [lia|].
    rewrite (rd_nonneg _ (zlen p + i)) by (pose proof (zlen_nonneg p); lia).
    rewrite lookup_app_r by (unfold zlen; lia). rewrite lookup_app_l by (unfold zlen; lia).
    replace (Z.to_nat (zlen p + i) - length p)%nat with (Z.to_nat i) by (unfold zlen; lia). rewrite Hb. cbn [mbind option_bind].
    rewrite rd_nonneg by lia. rewrite Hm. cbn [mbind option_bind].
    assert (out !! Z.to_nat i = Some (Z.lxor b m)) as Hout by (unfold out; by rewrite lookup_zip_with, Hb, Hm).
    eexists. split; [|done].
    replace (length xs - Z.to_nat i)%nat with (S (length xs - Z.to_nat (i + 1)))%nat by lia. cbn [replicate].
    pose proof (wr_at (take (Z.to_nat i) out) (0 :: replicate (length xs - Z.to_nat (i + 1)) 0) (Z.lxor b m)) as Hw.
    assert (zlen (take (Z.to_nat i) out) = i) as Hi' by (unfold zlen; rewrite length_take; lia). rewrite Hi' in Hw.
    rewrite Hw by (rewrite zlen_cons; pose proof (zlen_nonneg (replicate (length xs - Z.to_nat (i + 1)) 0)); lia).
    cbn [drop]. replace (Z.to_nat (i + 1)) with (S (Z.to_nat i)) by lia. by erewrite take_S_r.
  - rewrite Hs. unfold zlen. rewrite Nat2Z.id, Nat.sub_diag, app_nil_r, take_ge by lia. done.
Qed.

Lemma get_le_le16 x : 0 <= x < 65536 -> get_le (le16 x) = x.
Proof.
  intros Hx. unfold le16, get_le. cbn [foldr]. rewrite Z.shiftr_div_pow2 by lia. change (2 ^ 8) with 256.
  rewrite (lor_shiftl_add 8 (Z.lor _ _)) by (lia || apply u8_range). rewrite (lor_shiftl_add 8 0) by (lia || apply u8_range).
  unfold u8, wrap. change (2 ^ 8) with 256. Z.to_euclidean_division_equations; lia.
Qed.

(** The record the reader builds for a written one: flow label and scope are not transmitted. *)
Definition wire_record (r : addr_record_t) : addr_record_t :=
  match addr r with
  | Sin p a => Addr_record (Sin p a) sizeof_sockaddr_in SOCK_DGRAM
  | Sin6 p _ a _ => Addr_record (Sin6 p 0 a 0) sizeof_sockaddr_in6 SOCK_DGRAM
  | SaOther _ => zero_record
  end.

(** The length stored with an address. *)
Definition record_ok (r : addr_record_t) : Prop := sockaddr_ok (addr r) /\ len r = addr_get_len (addr r).

Lemma read_written_address p q id r v old : length id = 12%nat -> record_ok r -> record_value id r = Some v ->
  4 <= zlen p ->
  exists ret x, stun_read_value_mapped_address (p ++ v ++ q) (zlen p) (zlen v) old (xor_mask id) = Some (ret, x) /\ 0 < ret /\
    (addr old = SaOther 0 -> x = wire_record r).
Proof.
  intros Hid [Hok Hlen] Hv Hp. assert (length (xor_mask id) = 16%nat) as Hm by (unfold xor_mask; rewrite length_app, Hid; done).
  unfold record_value, wire_record in *. destruct r as [sa l st]. cbn [addr len] in *.
  assert (forall fam port a, in_range 16 port -> (length a <= 16)%nat ->
    let v := address_value fam port a (xor_mask id) in
    zlen v = 4 + zlen a /\ rd (p ++ v ++ q) (zlen p + 1) = Some fam /\ read_port (p ++ v ++ q) (zlen p) (xor_mask id) = Some port /\
    read_address (zlen a) (p ++ v ++ q) (zlen p) (xor_mask id) = Some a) as Hread.
  { intros fam port a Hport Ha. unfold address_value. set (w := Z.lxor port (get_le (take 2 (xor_mask id)))).
    cbv zeta. rewrite <- !app_assoc. cbn [app].
    assert (length (zip_with Z.lxor a (xor_mask id)) = length a) as Hz by (rewrite length_zip_with; lia).
    split; [rewrite !zlen_cons, zlen_app; unfold zlen; rewrite Hz; change (length (le16 w)) with 2%nat; lia|].
    split; [|split].
    - replace (zlen p + 1) with (zlen (p ++ [0])) by (rewrite zlen_app; done).
      match goal with |- context [p ++ 0 :: ?l] => change (p ++ 0 :: l) with (p ++ [0] ++ l) end. rewrite (app_assoc p [0]). by eapply rd_at.
    - unfold read_port. change (p ++ 0 :: fam :: le16 w ++ zip_with Z.lxor a (xor_mask id) ++ q)
        with (p ++ [0; fam] ++ le16 w ++ zip_with Z.lxor a (xor_mask id) ++ q).
      replace (zlen p + 2) with (zlen (p ++ [0; fam])) by (rewrite zlen_app; done).
      rewrite app_assoc, rd_bytes_app by done. cbn [mbind option_bind].
      rewrite rd_bytes_0 by (unfold zlen; rewrite Hm; lia). cbn [mbind option_bind].
      rewrite get_le_le16.
      + unfold w. change (Z.to_nat 2) with 2%nat. by rewrite Z.lxor_assoc, Z.lxor_nilpotent, Z.lxor_0_r.
      + unfold w. apply (in_range_lxor 16); [lia|done|]. by vm_compute.
    - change (p ++ 0 :: fam :: le16 w ++ zip_with Z.lxor a (xor_mask id) ++ q)
        with (p ++ ([0; fam] ++ le16 w) ++ zip_with Z.lxor a (xor_mask id) ++ q).
      rewrite app_assoc. pose proof (read_address_spec (p ++ [0; fam] ++ le16 w) (zip_with Z.lxor a (xor_mask id)) q (xor_mask id)) as H.
      rewrite zlen_app in H. change (zlen ([0; fam] ++ le16 w)) with 4 in H. replace (zlen (zip_with Z.lxor a (xor_mask id))) with (zlen a) in H by (unfold zlen; by rewrite Hz).
      replace (zlen p + 4 - 4) with (zlen p) in H by lia. rewrite H by lia. by rewrite lxor_mask_mask by lia. }
  destruct sa as [port a|port f a sc|fam]; [| |done].
  - cbn [addr_get_len] in Hlen. rewrite Hlen, Z.ltb_irrefl in Hv. injection Hv as <-. destruct Hok as (Hport & Ha & _).
    destruct (Hread STUN_ADDRESS_FAMILY_IPV4 port a Hport ltac:(lia)) as (Hl & Hf & Hpo & Had).
    assert (zlen a = 4) as Ha4 by (unfold zlen; rewrite Ha; done). rewrite Ha4 in *. unfold stun_read_value_mapped_address.
    rewrite Hl. cbn [Z.add]. rewrite Hf. cbn [mbind option_bind]. rewrite Hpo, Had. by eexists _, _.
  - cbn [addr_get_len] in Hlen. rewrite Hlen, Z.ltb_irrefl in Hv. injection Hv as <-. destruct Hok as (Hport & Ha & _).
    destruct (Hread STUN_ADDRESS_FAMILY_IPV6 port a Hport ltac:(lia)) as (Hl & Hf & Hpo & Had).
    assert (zlen a = 16) as Ha4 by (unfold zlen; rewrite Ha; done). rewrite Ha4 in *. unfold stun_read_value_mapped_address.
    rewrite Hl. cbn [Z.add]. rewrite Hf. cbn [mbind option_bind]. rewrite Hpo, Had. eexists _, _. split; [done|]. split; [done|]. by intros ->.
Qed.

(** ** Reading attribute after attribute *)

(** The case of a concrete attribute type. *)
Ltac select_case := unfold read_value, read_credentials_value, read_turn_value; cbn [Z.eqb Pos.eqb
  STUN_ATTR_MAPPED_ADDRESS STUN_ATTR_USERNAME STUN_ATTR_MESSAGE_INTEGRITY
  STUN_ATTR_ERROR_CODE STUN_ATTR_UNKNOWN_ATTRIBUTES STUN_ATTR_CHANNEL_NUMBER STUN_ATTR_LIFETIME
  STUN_ATTR_XOR_PEER_ADDRESS STUN_ATTR_DATA STUN_ATTR_REALM STUN_ATTR_NONCE
  STUN_ATTR_XOR_RELAYED_ADDRESS STUN_ATTR_EVEN_PORT STUN_ATTR_REQUESTED_TRANSPORT STUN_ATTR_DONT_FRAGMENT
  STUN_ATTR_MESSAGE_INTEGRITY_SHA256 STUN_ATTR_PASSWORD_ALGORITHM STUN_ATTR_USERHASH STUN_ATTR_XOR_MAPPED_ADDRESS
  STUN_ATTR_RESERVATION_TOKEN STUN_ATTR_PRIORITY STUN_ATTR_USE_CANDIDATE STUN_ATTR_PASSWORD_ALGORITHMS
  STUN_ATTR_SOFTWARE STUN_ATTR_ALTERNATE_SERVER STUN_ATTR_FINGERPRINT STUN_ATTR_ICE_CONTROLLED
  STUN_ATTR_ICE_CONTROLLING]; cbv delta [STUN_ATTR_SIZE].

(** The security features that the text of a nonce announces: three bytes in base64 after
    the cookie. *)
Definition announced_bits (v : list Z) : option Z :=
  if (13 <? zlen v) && bool_decide (take 9 v = STUN_NONCE_COOKIE) then
    match juice_base64_decode (take 4 (drop 9 v) ++ [0]) 3 3 with
    | Some (3, bytes) => Some (get_be (0 :: bytes))
    | _ => None
    end
  else None.

Section reads.
Context (id : list Z) (class : Z).

(** What every attribute before MESSAGE-INTEGRITY leaves alone. *)
Record base (m : stun_message_t) : Prop := {
  base_integrity : has_integrity m = false;
  base_fingerprint : has_fingerprint m = false;
  base_id : transaction_id m = id;
  base_class : msg_class m = class;
  base_wf : message_wf m }.

(** The security bits after reading [l]: only the nonce of a response sets them. *)
Definition bits_after (l : list (Z * list Z)) (bits : Z) : Z :=
  foldl (fun b a => if (fst a =? STUN_ATTR_NONCE) && STUN_IS_RESPONSE class then default b (announced_bits (snd a)) else b) bits l.

(** The buffer stays. *)
Definition kept (l : list (Z * list Z)) (s s' : rstate) : Prop :=
  r_buf s' = r_buf s /\ r_bits s' = bits_after l (r_bits s).

Lemma kept_one type v s s' : (type =? STUN_ATTR_NONCE) = false -> r_buf s' = r_buf s -> r_bits s' = r_bits s -> kept [(type, v)] s s'.
Proof. intros Ht Hb Hbits. split; [done|]. unfold bits_after. cbn [foldl fst]. by rewrite Ht. Qed.

(** The loop reads the attributes [l] and relates the messages before and after by [R]. *)
Definition reads (l : list (Z * list Z)) (R : stun_message_t -> stun_message_t -> Prop) : Prop :=
  forall pre post s end_, r_buf s = pre ++ encode_attrs l ++ post -> 4 <= zlen pre -> zlen (pre ++ encode_attrs l) <= end_ ->
    base (r_msg s) ->
    exists s', rtc (read_step end_) (zlen pre, s) (zlen (pre ++ encode_attrs l), s') /\
      kept l s s' /\ base (r_msg s') /\ R (r_msg s) (r_msg s').

(** The effect of one case of the [switch]. *)
Definition reads_value (type : Z) (v : list Z) (R : stun_message_t -> stun_message_t -> Prop) : Prop :=
  forall p q s, r_buf s = p ++ v ++ q -> 4 <= zlen p -> base (r_msg s) ->
    exists s', read_value type (zlen p - 4) (zlen v) 20 s = Some (Break s') /\
      kept [(type, v)] s s' /\ base (r_msg s') /\ R (r_msg s) (r_msg s').

Lemma reads_nil (R : stun_message_t -> stun_message_t -> Prop) : (forall m, base m -> R m m) -> reads [] R.
Proof.
  intros HR pre post s end_ Hb Hp He Hs. exists s. split; [|split; [done|auto]]. change (encode_attrs []) with (@nil Z). rewrite app_nil_r. apply rtc_refl.
Qed.

Lemma reads_one type v R : 0 <= type < 65536 -> zlen v < 65536 -> reads_value type v R -> reads [(type, v)] R.
Proof.
  intros Ht Hv HR pre post s end_ Hb Hp He Hs. rewrite encode_one in *.
  assert (r_buf s = (pre ++ be16 type ++ be16 (zlen v)) ++ v ++ replicate (Z.to_nat (padding (zlen v))) 0 ++ post) as Hb2.
  { rewrite Hb. unfold encode_attr. cbn [fst snd]. by rewrite <- !app_assoc. }
  destruct (HR _ _ s Hb2) as (s' & Hr & Hk & Hs' & HR'); [rewrite !zlen_app, !be16_length; lia|done|].
  replace (zlen (pre ++ be16 type ++ be16 (zlen v)) - 4) with (zlen pre) in Hr by (rewrite !zlen_app, !be16_length; lia).
  exists s'. split; [|done]. apply rtc_once. eapply read_one; try done.
  - rewrite zlen_app in He. done.
  - apply Hs.
  - left. apply Hs.
Qed.

Lemma reads_app l1 l2 R1 R2 (R : stun_message_t -> stun_message_t -> Prop) : reads l1 R1 -> reads l2 R2 ->
  (forall a b c, base a -> base b -> base c -> R1 a b -> R2 b c -> R a c) -> reads (l1 ++ l2) R.
Proof.
  intros H1 H2 HR pre post s end_ Hb Hp He Hs. rewrite encode_attrs_app in *. rewrite <- app_assoc in Hb.
  pose proof (zlen_nonneg (encode_attrs l2)). pose proof (zlen_nonneg (encode_attrs l1)).
  destruct (H1 pre _ s end_ Hb Hp) as (s1 & Hrtc1 & [Hb1 Hk1] & Hs1 & HR1); [rewrite !zlen_app in *; lia|done|].
  rewrite Hb, app_assoc in Hb1.
  destruct (H2 _ _ s1 end_ Hb1) as (s2 & Hrtc2 & [Hb2 Hk2] & Hs2 & HR2); [rewrite zlen_app; lia|by rewrite <- app_assoc|done|].
  exists s2. rewrite <- app_assoc in Hrtc2. split; [by etrans|]. split; [|split; [done|exact (HR _ _ _ Hs Hs1 Hs2 HR1 HR2)]].
  split; [rewrite Hb2, Hb1, Hb; by rewrite <- app_assoc|]. rewrite Hk2, Hk1. unfold bits_after. by rewrite foldl_app.
Qed.

Lemma reads_mono l (R R' : stun_message_t -> stun_message_t -> Prop) : reads l R -> (forall a b, base a -> R a b -> R' a b) -> reads l R'.
Proof.
  intros H HR pre post s end_ Hb Hp He Hs. destruct (H pre post s end_ Hb Hp He Hs) as (s' & ? & ? & ? & ?). exists s'. eauto.
Qed.

(** An optional attribute: its field is zero before, and zero values are not written. *)
Lemma reads_opt b type v (R : stun_message_t -> stun_message_t -> Prop) : 0 <= type < 65536 -> zlen v < 65536 ->
  (b = true -> reads_value type v R) -> (b = false -> forall m, base m -> R m m) -> reads (opt b (type, v)) R.
Proof. intros Ht Hv H1 H2. destruct b; [by apply reads_one, H1|by apply reads_nil, H2]. Qed.

(** Cases of the [switch] that set fields. *)

Lemma set_base f s : base (r_msg s) -> base (f (r_msg s)) -> base (r_msg (set_msg f s)).
Proof. done. Qed.

Ltac keep_base := intros; match goal with H : base _ |- base _ =>
  let Hwf := fresh in destruct H as [? ? ? ? Hwf]; constructor; [done..|]; destruct Hwf; constructor; try done end.

(** Reading [n] bytes at the value. *)
Lemma rd_value p v q n : 0 <= n <= zlen v -> rd_bytes (p ++ v ++ q) (zlen p - 4 + 4) n = Some (take (Z.to_nat n) v).
Proof.
  intros Hn. replace (zlen p - 4 + 4) with (zlen p) by lia. rewrite rd_bytes_at by (rewrite zlen_app; pose proof (zlen_nonneg q); lia).
  rewrite take_app_le; [done|]. unfold zlen in *. lia.
Qed.

Lemma rd_value_at (p v q : list Z) (k : nat) x : v !! k = Some x -> rd (p ++ v ++ q) (zlen p - 4 + 4 + Z.of_nat k) = Some x.
Proof.
  intros Hk. pose proof (lookup_lt_Some _ _ _ Hk). replace (zlen p - 4 + 4 + Z.of_nat k) with (zlen p + Z.of_nat k) by lia.
  rewrite rd_nonneg by (pose proof (zlen_nonneg p); lia). replace (Z.to_nat (zlen p + Z.of_nat k)) with (length p + k)%nat by (unfold zlen; lia).
  rewrite lookup_app_r by lia. rewrite lookup_app_l by lia. by replace (length p + k - length p)%nat with k by lia.
Qed.

(** An integer attribute read with [read_int]. *)
Lemma reads_int_value n v x f : zlen v = n -> get_be v = x -> (forall m, base m -> base (f x m)) ->
  forall p q s, r_buf s = p ++ v ++ q -> base (r_msg s) ->
  exists s', read_int n (zlen p - 4 + 4) (zlen v) s f = Some (Break s') /\ (r_buf s' = r_buf s /\ r_bits s' = r_bits s) /\ base (r_msg s') /\ r_msg s' = f x (r_msg s).
Proof.
  intros Hn Hx Hf p q s Hb Hs. unfold read_int. rewrite Hn, Z.eqb_refl. cbn [negb]. rewrite Hb, rd_value by (pose proof (zlen_nonneg v); lia).
  cbn [mbind option_bind]. rewrite take_ge by (unfold zlen in Hn; lia). rewrite Hx. eexists. split; [done|].
  split; [done|]. split; [by apply Hf|done].
Qed.

Lemma reads_flag_value (f : stun_message_t -> stun_message_t) : (forall m, base m -> base (f m)) -> forall s, base (r_msg s) ->
  exists s', flag f s = Some (Break s') /\ (r_buf s' = r_buf s /\ r_bits s' = r_bits s) /\ base (r_msg s') /\ r_msg s' = f (r_msg s).
Proof. intros Hf s Hs. eexists. split; [done|]. split; [done|]. split; [by apply Hf|done]. Qed.

Lemma reads_int type n v x f b (R : stun_message_t -> stun_message_t -> Prop) : 0 <= type < 65536 -> (type =? STUN_ATTR_NONCE) = false ->
  (forall off len s, read_value type off len 20 s = read_int n (off + 4) len s f) ->
  n < 65536 -> zlen v = n -> get_be v = x -> (forall m, base m -> base (f x m)) ->
  (forall m, R m (f x m)) -> (b = false -> forall m, R m m) -> reads (opt b (type, v)) R.
Proof.
  intros Ht Hnn Hc Hn Hv Hx Hf HR H0. apply reads_opt; [done|lia|intros _|intros Hb m _; by apply H0].
  intros p q s Hb Hp Hs. rewrite Hc. destruct (reads_int_value n v x f Hv Hx Hf p q s Hb Hs) as (s' & H1 & [H2b H2] & H3 & H4).
  exists s'. split; [done|]. split; [by apply kept_one|]. split; [done|]. by rewrite H4.
Qed.

Lemma reads_flag type v f b (R : stun_message_t -> stun_message_t -> Prop) : 0 <= type < 65536 -> (type =? STUN_ATTR_NONCE) = false ->
  (forall p q s, r_buf s = p ++ v ++ q -> read_value type (zlen p - 4) (zlen v) 20 s = flag f s) ->
  zlen v < 65536 -> (forall m, base m -> base (f m)) ->
  (forall m, R m (f m)) -> (b = false -> forall m, R m m) -> reads (opt b (type, v)) R.
Proof.
  intros Ht Hnn Hc Hv Hf HR H0. apply reads_opt; [done|done|intros _|intros Hb m _; by apply H0].
  intros p q s Hb Hp Hs. rewrite (Hc p q s Hb). destruct (reads_flag_value f Hf s Hs) as (s' & H1 & [H2b H2] & H3 & H4).
  exists s'. split; [done|]. split; [by apply kept_one|]. split; [done|]. by rewrite H4.
Qed.

(** A record whose field already has the value. *)
Ltac same_record := intros; match goal with |- ?m = _ => destruct m; cbn in *; by subst end.
Ltac zero_case := let Hz := fresh in intros Hz; apply negb_false_iff, Z.eqb_eq in Hz; subst; same_record.
Ltac false_case := intros ->; same_record.

Lemma reads_priority x : 0 <= x < 4294967296 ->
  reads (opt (negb (x =? 0)) (STUN_ATTR_PRIORITY, be32 x)) (fun a b => priority a = 0 -> b = a <| priority := x |>).
Proof.
  intros Hx. eapply (reads_int _ 4 _ x (fun v m => m <| priority := v |>)); try done; [by apply get_be_be32|keep_base|zero_case].
Qed.

Lemma reads_controlling x : 0 <= x < 18446744073709551616 ->
  reads (opt (negb (x =? 0)) (STUN_ATTR_ICE_CONTROLLING, be64 x)) (fun a b => ice_controlling a = 0 -> b = a <| ice_controlling := x |>).
Proof.
  intros Hx. eapply (reads_int _ 8 _ x (fun v m => m <| ice_controlling := v |>)); try done; [by apply get_be_be64|keep_base|zero_case].
Qed.

Lemma reads_controlled x : 0 <= x < 18446744073709551616 ->
  reads (opt (negb (x =? 0)) (STUN_ATTR_ICE_CONTROLLED, be64 x)) (fun a b => ice_controlled a = 0 -> b = a <| ice_controlled := x |>).
Proof.
  intros Hx. eapply (reads_int _ 8 _ x (fun v m => m <| ice_controlled := v |>)); try done; [by apply get_be_be64|keep_base|zero_case].
Qed.

Lemma reads_token x : 0 <= x < 18446744073709551616 ->
  reads (opt (negb (x =? 0)) (STUN_ATTR_RESERVATION_TOKEN, be64 x)) (fun a b => reservation_token a = 0 -> b = a <| reservation_token := x |>).
Proof.
  intros Hx. eapply (reads_int _ 8 _ x (fun v m => m <| reservation_token := v |>)); try done; [by apply get_be_be64|keep_base|zero_case].
Qed.

Lemma reads_lifetime ls x : 0 <= x < 4294967296 ->
  reads (opt (ls || negb (x =? 0)) (STUN_ATTR_LIFETIME, be32 x))
    (fun a b => lifetime a = 0 -> lifetime_set a = false -> b = a <| lifetime := x |> <| lifetime_set := ls || negb (x =? 0) |>).
Proof.
  intros Hx. destruct (ls || negb (x =? 0)) eqn:Hb.
  - eapply (reads_int _ 4 _ x (fun v m => m <| lifetime := v |> <| lifetime_set := true |>)); try done; [by apply get_be_be32|keep_base].
  - apply reads_nil. apply orb_false_iff in Hb as [-> Hx0]. apply negb_false_iff, Z.eqb_eq in Hx0. subst. intros m _. same_record.
Qed.

Lemma reads_use_candidate b : reads (opt b (STUN_ATTR_USE_CANDIDATE, [])) (fun x y => use_candidate x = false -> y = x <| use_candidate := b |>).
Proof.
  destruct b; [|apply reads_nil; intros m _; same_record].
  by eapply (reads_flag _ [] (fun m => m <| use_candidate := true |>)); try done; [keep_base].
Qed.

Lemma reads_dont_fragment b : reads (opt b (STUN_ATTR_DONT_FRAGMENT, [])) (fun x y => dont_fragment x = false -> y = x <| dont_fragment := b |>).
Proof.
  destruct b; [|apply reads_nil; intros m _; same_record].
  by eapply (reads_flag _ [] (fun m => m <| dont_fragment := true |>)); try done; [keep_base].
Qed.

Lemma reads_requested_transport b : reads (opt b (STUN_ATTR_REQUESTED_TRANSPORT, requested_transport_value))
  (fun x y => requested_transport x = false -> y = x <| requested_transport := b |>).
Proof.
  destruct b; [|apply reads_nil; intros m _; same_record].
  eapply (reads_flag _ _ (fun m => m <| requested_transport := true |>)); try done; [|keep_base].
  intros p q s Hb. select_case. rewrite Hb.
  change (zlen requested_transport_value <? 4) with false. cbv iota.
  pose proof (rd_value_at p requested_transport_value q 0 17 eq_refl) as Hr. rewrite Z.add_0_r in Hr.
  unfold STUN_ATTR_SIZE. rewrite Hr. done.
Qed.

Lemma reads_channel x : 0 <= x < 65536 ->
  reads (opt (negb (x =? 0)) (STUN_ATTR_CHANNEL_NUMBER, channel_number_value x)) (fun a b => channel_number a = 0 -> b = a <| channel_number := x |>).
Proof.
  intros Hx. eapply (reads_flag _ _ (fun m => m <| channel_number := x |>)); try done; [|keep_base|zero_case].
  intros p q s Hb. select_case. rewrite Hb.
  change (zlen (channel_number_value x) <? 4) with false. cbv iota. unfold STUN_ATTR_SIZE. rewrite rd_value by (by split).
  cbn [mbind option_bind]. change (take (Z.to_nat 2) (channel_number_value x)) with (be16 x). by rewrite get_be_be16.
Qed.

Lemma reads_error_code x : 0 <= x < 800 ->
  reads (opt (negb (x =? 0)) (STUN_ATTR_ERROR_CODE, error_code_value x)) (fun a b => error_code a = 0 -> b = a <| error_code := x |>).
Proof.
  intros Hx. pose proof (reason_length x). pose proof (zlen_nonneg (stun_get_error_reason x)).
  assert (zlen (error_code_value x) = 4 + zlen (stun_get_error_reason x)) as Hl
    by (unfold error_code_value; rewrite zlen_app, !zlen_cons; change (zlen (@nil Z)) with 0; lia).
  eapply (reads_flag _ _ (fun m => m <| error_code := x |>)); try done; [|lia|keep_base|zero_case].
  intros p q s Hb. select_case. rewrite Hb.
  rewrite (proj2 (Z.ltb_ge _ _)) by lia. unfold STUN_ATTR_SIZE.
  pose proof (rd_value_at p (error_code_value x) q 2 _ eq_refl) as Hclass. change (Z.of_nat 2) with 2 in Hclass.
  pose proof (rd_value_at p (error_code_value x) q 3 _ eq_refl) as Hnumber. change (Z.of_nat 3) with 3 in Hnumber.
  rewrite Hclass. cbn [mbind option_bind]. rewrite Hnumber. cbn [mbind option_bind]. unfold flag. do 2 f_equal.
  assert (Z.land (u8 (Z.land (x / 100) 7)) 7 * 100 + u8 (x mod 100) = x) as ->; [|done].
  change 7 with (Z.ones 3). rewrite !Z.land_ones by lia. unfold u8, wrap. change (2 ^ 3) with 8. change (2 ^ 8) with 256.
  Z.to_euclidean_division_equations; lia.
Qed.

(** Addresses *)

Lemma record_value_length r v : length id = 12%nat -> sockaddr_ok (addr r) -> record_value id r = Some v -> zlen v < 65536.
Proof.
  intros Hid Hok. assert (length (xor_mask id) = 16%nat) as Hm by (unfold xor_mask; rewrite length_app, Hid; done).
  unfold record_value. assert (forall f p a, (length a <= 16)%nat -> zlen (address_value f p a (xor_mask id)) < 65536) as H.
  { intros f p a Ha. unfold address_value, zlen. rewrite !length_app, length_zip_with. change (length (le16 _)) with 2%nat.
    simpl length. lia. }
  destruct (addr r) as [p a|p f a sc|f]; [| |done]; destruct (_ <? _); try done; intros [= <-]; apply H;
    destruct Hok as (_ & -> & _); lia.
Qed.

Lemma record_value_none r : record_ok r -> record_value id r = None -> wire_record r = zero_record.
Proof.
  intros [_ Hl]. unfold record_value, wire_record. destruct (addr r) as [p a|p f a sc|f] eqn:Ha; [| |done];
    cbn [addr_get_len] in Hl; rewrite Hl, Z.ltb_irrefl; done.
Qed.

Lemma zero_length_record r : record_ok r -> len r = 0 -> wire_record r = zero_record.
Proof. intros [_ Hl] H0. unfold wire_record. rewrite H0 in Hl. destruct (addr r); done. Qed.

Lemma reads_address type r (get : stun_message_t -> addr_record_t) put : 0 <= type < 65536 -> (type =? STUN_ATTR_NONCE) = false -> length id = 12%nat -> record_ok r ->
  (forall off len s, read_value type off len 20 s =
    (mask ← generate_mask (transaction_id (r_msg s)); read_mapped (off + STUN_ATTR_SIZE) len mask get put s)) ->
  (forall m x, base m -> base (put x m)) -> (forall m, get m = zero_record -> put zero_record m = m) ->
  reads (if negb (len r =? 0) then address_attrs type id r else [])
    (fun a b => get a = zero_record -> b = put (wire_record r) a).
Proof.
  intros Ht Hnn Hid Hr Hc Hbase Hput. destruct (Z.eqb_spec (len r) 0) as [H0|_]; cbn [negb].
  { apply reads_nil. intros m _ Hz. by rewrite (zero_length_record r Hr H0), Hput. }
  unfold address_attrs. destruct (record_value id r) as [v|] eqn:Hv.
  2: { apply reads_nil. intros m _ Hz. by rewrite (record_value_none r Hr Hv), Hput. }
  pose proof (record_value_length r v Hid (proj1 Hr) Hv) as Hvl.
  apply reads_one; [done|done|]. intros p q s Hb Hp Hs. rewrite Hc, (base_id _ Hs), generate_mask_spec by done.
  cbn [mbind option_bind]. unfold read_mapped, STUN_ATTR_SIZE. rewrite Hb. replace (zlen p - 4 + 4) with (zlen p) by lia.
  destruct (read_written_address p q id r v (get (r_msg s)) Hid Hr Hv Hp) as (ret & x & -> & Hret & Hx).
  cbn [mbind option_bind]. rewrite (proj2 (Z.ltb_ge _ _)) by lia. eexists. split; [done|]. split; [by apply kept_one|].
  split; [by apply Hbase|]. intros Hz. rewrite Hx by (by rewrite Hz). done.
Qed.

Lemma reads_mapped r : length id = 12%nat -> record_ok r ->
  reads (if negb (len r =? 0) then address_attrs STUN_ATTR_XOR_MAPPED_ADDRESS id r else [])
    (fun a b => mapped a = zero_record -> b = a <| mapped := wire_record r |>).
Proof.
  intros Hid Hr. apply (reads_address _ r mapped (fun x m => m <| mapped := x |>)); [done|done|done|done|done|keep_base|intros [] Hz; cbn in *; by subst].
Qed.

Lemma reads_relayed r : length id = 12%nat -> record_ok r ->
  reads (if negb (len r =? 0) then address_attrs STUN_ATTR_XOR_RELAYED_ADDRESS id r else [])
    (fun a b => relayed a = zero_record -> b = a <| relayed := wire_record r |>).
Proof.
  intros Hid Hr. apply (reads_address _ r relayed (fun x m => m <| relayed := x |>)); [done|done|done|done|done|keep_base|intros [] Hz; cbn in *; by subst].
Qed.

(** Peers: each is appended to the ones read before. *)
Definition peers_with (ps : list addr_record_t) (m : stun_message_t) : Prop :=
  peers m = ps ++ replicate (8 - length ps) zero_record /\ peers_size m = zlen ps.

Lemma wire_record_length r v : record_ok r -> record_value id r = Some v -> len (wire_record r) ≠ 0.
Proof. intros [_ Hl]. unfold record_value, wire_record. by destruct (addr r). Qed.

Lemma reads_peer r ps : length id = 12%nat -> record_ok r -> is_Some (record_value id r) -> (length ps < 8)%nat ->
  reads (address_attrs STUN_ATTR_XOR_PEER_ADDRESS id r)
    (fun a b => peers_with ps a -> b = a <| peers := (ps ++ [wire_record r]) ++ replicate (8 - S (length ps)) zero_record |>
                                         <| peers_size := zlen (ps ++ [wire_record r]) |>).
Proof.
  intros Hid Hr [v Hv] Hps. unfold address_attrs. rewrite Hv. pose proof (record_value_length r v Hid (proj1 Hr) Hv) as Hvl.
  apply reads_one; [done|done|]. intros p q s Hb Hp Hs. select_case.
  unfold STUN_MAX_PEER_ADDRESSES, STUN_ATTR_SIZE. pose proof (base_wf _ Hs) as Hwf.
  destruct (Z.ltb_spec (peers_size (r_msg s)) 8) as [Hn|Hn].
  2: { exists s. split; [done|]. split; [done|]. split; [done|]. intros [_ Hsize]. unfold zlen in Hsize. lia. }
  rewrite (base_id _ Hs), generate_mask_spec by done. cbn [mbind option_bind].
  pose proof (wf_peers _ Hwf). pose proof (wf_peers_size _ Hwf).
  destruct (rd_is_Some (peers (r_msg s)) (peers_size (r_msg s))) as [old Hold]; [unfold zlen; lia|]. rewrite Hold. cbn [mbind option_bind].
  rewrite Hb. replace (zlen p - 4 + 4) with (zlen p) by lia.
  destruct (read_written_address p q id r v old Hid Hr Hv Hp) as (ret & x & -> & Hret & Hx). cbn [mbind option_bind].
  rewrite wr_Some by (unfold zlen; lia). cbn [mbind option_bind]. rewrite (proj2 (Z.ltb_ge ret 0)) by lia.
  set (ps' := <[_ := x]> _). assert (length ps' = 8%nat) as Hps' by (unfold ps'; by rewrite length_insert).
  destruct (len x =? 0) eqn:Hlx; cbn [negb].
  - eexists. split; [done|]. split; [done|]. split; [keep_base|]. intros [Hpe Hsz]. exfalso.
    rewrite Hpe, Hsz, rd_nonneg in Hold by apply zlen_nonneg. unfold zlen in Hold. rewrite Nat2Z.id, lookup_app_r, Nat.sub_diag in Hold by done.
    rewrite lookup_replicate_2 in Hold by lia. injection Hold as <-. apply Z.eqb_eq in Hlx. rewrite Hx in Hlx by done.
    by apply (wire_record_length r v Hr Hv).
  - eexists. split; [done|]. split; [done|]. split; [keep_base; cbn; lia|]. intros [Hpe Hsz].
    rewrite Hpe, Hsz, rd_nonneg in Hold by apply zlen_nonneg. unfold zlen in Hold. rewrite Nat2Z.id, lookup_app_r, Nat.sub_diag in Hold by done.
    rewrite lookup_replicate_2 in Hold by lia. injection Hold as <-. specialize (Hx eq_refl). subst x.
    assert (ps' = (ps ++ [wire_record r]) ++ replicate (8 - S (length ps)) zero_record) as ->.
    { unfold ps'. rewrite Hsz, Hpe. unfold zlen. rewrite Nat2Z.id, insert_app_r_alt, Nat.sub_diag by done.
      replace (8 - length ps)%nat with (S (8 - S (length ps))) by lia. simpl. by rewrite <- app_assoc. }
    rewrite Hsz, zlen_app. done.
Qed.

Lemma reads_peers rs : forall ps, length id = 12%nat -> Forall record_ok rs -> Forall (fun r => is_Some (record_value id r)) rs ->
  (length ps + length rs <= 8)%nat ->
  reads (concat (map (fun r => if negb (len r =? 0) then address_attrs STUN_ATTR_XOR_PEER_ADDRESS id r else []) rs))
    (fun a b => peers_with ps a ->
       b = a <| peers := (ps ++ map wire_record rs) ++ replicate (8 - (length ps + length rs)) zero_record |>
             <| peers_size := zlen (ps ++ map wire_record rs) |>).
Proof.
  induction rs as [|r rs IH]; intros ps Hid Hok Hv Hl.
  - apply reads_nil. intros m _ [Hp Hs]. simpl. rewrite app_nil_r, Nat.add_0_r, <- Hp, <- Hs. by destruct m.
  - apply Forall_cons in Hok as [Hr Hok]. apply Forall_cons in Hv as [Hrv Hv]. simpl in Hl. cbn [map concat].
    assert (len r ≠ 0) as Hlen.
    { destruct Hr as [_ Hl0]. destruct Hrv as [v Hv0]. unfold record_value in Hv0. rewrite Hl0. by destruct (addr r). }
    destruct (Z.eqb_spec (len r) 0) as [|_]; [done|]. cbn [negb].
    eapply reads_app; [apply (reads_peer r ps); [done..|lia]|apply (IH (ps ++ [wire_record r])); [done..|rewrite length_app; simpl; lia]|].
    intros a b c _ _ _ Hab Hbc Ha. specialize (Hab Ha). rewrite Hbc.
    + subst b. rewrite <- !app_assoc, !length_app. simpl. replace (length ps + 1 + length rs)%nat with (length ps + S (length rs))%nat by lia. done.
    + subst b. split; [|done]. cbn. rewrite length_app. simpl. by replace (8 - (length ps + 1))%nat with (8 - S (length ps))%nat by lia.
Qed.

(** DATA: the message points into the buffer. *)
Lemma reads_data (d : option (list Z)) n : match d with Some d => 0 <= n <= zlen d /\ n < 65536 | None => True end ->
  reads (match d with Some d => [(STUN_ATTR_DATA, take (Z.to_nat n) d)] | None => [] end)
    (fun a b => data a = None -> data_size a = 0 ->
       match d with
       | Some d => exists d', b = a <| data := Some d' |> <| data_size := n |> /\ take (Z.to_nat n) d' = take (Z.to_nat n) d
       | None => b = a
       end).
Proof.
  destruct d as [d|]; intros Hn; [|by apply reads_nil]. destruct Hn as [Hn Hn2].
  apply reads_one; [done|rewrite zlen_take by done; done|]. intros p q s Hb Hp Hs.
  select_case. unfold flag.
  replace (zlen p - 4 + 4) with (zlen p) by lia. rewrite Hb.
  replace (Z.to_nat (zlen p)) with (length p) by (unfold zlen; lia). rewrite drop_app_length, zlen_take by done.
  eexists. split; [done|]. split; [done|]. split.
  - keep_base. cbn. rewrite zlen_app, zlen_take by done. pose proof (zlen_nonneg q). lia.
  - intros _ _. eexists. split; [done|]. rewrite take_app_le; [by rewrite take_take, Nat.min_id|].
    unfold zlen in Hn. rewrite length_take. lia.
Qed.

(** Sequences *)

Definition comp (R S : stun_message_t -> stun_message_t -> Prop) (a c : stun_message_t) : Prop := exists b, R a b /\ S b c.

Lemma reads_concat ls Rs : Forall2 reads ls Rs -> reads (concat ls) (foldr comp eq Rs).
Proof.
  induction 1 as [|l R ls Rs Hl _ IH]; [by apply reads_nil|]. cbn [concat foldr].
  eapply reads_app; [exact Hl|exact IH|]. intros a b c _ _ _ ? ?. by exists b.
Qed.

(** Strings: the array holds the bytes, a NUL, and what it held before. *)
Definition stored (v s : list Z) : list Z := v ++ 0 :: drop (S (length v)) s.

Lemma read_string_spec max p v q dst s put : r_buf s = p ++ v ++ q -> zlen v + 1 <= max -> zlen v + 1 <= zlen dst ->
  read_string max (zlen p - 4 + 4) (zlen v) dst s put = put (stored v dst) s.
Proof.
  intros Hb Hm Hd. pose proof (zlen_nonneg v). unfold read_string. rewrite (proj2 (Z.ltb_ge max (zlen v + 1))) by lia.
  rewrite Hb, rd_value by lia. rewrite take_ge by (unfold zlen; lia). cbn [mbind option_bind].
  rewrite wr_bytes_ok by lia. cbn [mbind option_bind]. rewrite wr_at by (rewrite zlen_drop; unfold zlen in *; lia).
  cbn [mbind option_bind]. unfold stored. rewrite <- app_assoc, drop_drop. do 4 f_equal. lia.
Qed.

Lemma stored_char_array n v dst : char_array n dst -> Forall byte v -> zlen v < Z.of_nat n -> char_array n (stored v dst).
Proof.
  intros Hd Hv Hl. destruct (char_array_put n dst v Hd Hv) as (s' & Hs & Hc & _); [unfold zlen in Hl; lia|].
  destruct Hd as (Hdl & _). rewrite wr_bytes_ok in Hs by (unfold zlen in *; lia). cbn [mbind option_bind] in Hs.
  rewrite wr_at in Hs by (rewrite zlen_drop; unfold zlen in *; lia). injection Hs as <-.
  unfold stored. rewrite <- app_assoc, drop_drop in Hc. simpl in Hc. by replace (length v + 1)%nat with (S (length v)) in Hc by lia.
Qed.

Lemma stored_empty n : (0 < n)%nat -> stored [] (replicate n 0) = replicate n 0.
Proof. destruct n; [lia|]. intros _. unfold stored. simpl. by rewrite drop_0. Qed.

Definition with_credentials (f : stun_credentials_t -> stun_credentials_t) (m : stun_message_t) : stun_message_t :=
  m <| credentials := f (credentials m) |>.

Lemma reads_username s : Forall byte (cstr s) -> zlen (cstr s) < 514 ->
  reads (string_attr STUN_ATTR_USERNAME s)
    (fun a b => username (credentials a) = replicate 514 0 ->
       b = with_credentials (fun c => c <| username := stored (cstr s) (replicate 514 0) |>) a).
Proof.
  intros Hby Hl. apply reads_opt; [done|lia|intros _|].
  - intros p q st Hb Hp Hs. select_case.
    pose proof (wf_username _ (base_wf _ Hs)) as Hu. pose proof Hu as (Hul & _).
    rewrite (read_string_spec _ _ _ _ _ _ _ Hb) by (unfold STUN_MAX_USERNAME_LEN, zlen in *; lia).
    eexists. split; [done|]. split; [done|]. split.
    + pose proof (stored_char_array 514 _ _ Hu Hby Hl). keep_base.
    + by intros ->.
  - intros He m _ Hu. apply negb_false_iff in He. destruct (cstr s); [|done]. rewrite stored_empty by lia. rewrite <- Hu.
    unfold with_credentials. destruct m as [? ? ? ? ? ? ? ? ? c]. by destruct c.
Qed.

Lemma reads_realm s : Forall byte (cstr s) -> zlen (cstr s) < 764 ->
  reads (string_attr STUN_ATTR_REALM s)
    (fun a b => realm (credentials a) = replicate 764 0 ->
       b = with_credentials (fun c => c <| realm := stored (cstr s) (replicate 764 0) |>) a).
Proof.
  intros Hby Hl. apply reads_opt; [done|lia|intros _|].
  - intros p q st Hb Hp Hs. select_case.
    pose proof (wf_realm _ (base_wf _ Hs)) as Hu. pose proof Hu as (Hul & _).
    rewrite (read_string_spec _ _ _ _ _ _ _ Hb) by (unfold STUN_MAX_REALM_LEN, zlen in *; lia).
    eexists. split; [done|]. split; [done|]. split.
    + pose proof (stored_char_array 764 _ _ Hu Hby Hl). keep_base.
    + by intros ->.
  - intros He m _ Hu. apply negb_false_iff in He. destruct (cstr s); [|done]. rewrite stored_empty by lia. rewrite <- Hu.
    unfold with_credentials. destruct m as [? ? ? ? ? ? ? ? ? c]. by destruct c.
Qed.

Lemma stored_bytes v dst k n : 0 <= k -> k + n <= zlen v -> 0 <= n -> rd_bytes (stored v dst) k n = Some (take (Z.to_nat n) (drop (Z.to_nat k) v)).
Proof.
  intros Hk Hn H0. set (p := take (Z.to_nat k) v). set (q := drop (Z.to_nat k) v).
  assert (zlen p = k) as Hp by (unfold p; rewrite zlen_take; lia).
  assert (n <= zlen q) as Hq by (unfold q, zlen in *; rewrite length_drop; lia).
  assert (stored v dst = p ++ q ++ 0 :: drop (S (length v)) dst) as -> by (unfold stored, p, q; by rewrite app_assoc, take_drop).
  pose proof (zlen_nonneg (0 :: drop (S (length v)) dst)).
  rewrite <- Hp. rewrite rd_bytes_at by (rewrite zlen_app; lia). rewrite take_app_le; [done|unfold zlen in Hq; lia].
Qed.

Lemma stored_strlen v dst : Forall (fun c => c ≠ 0) v -> strlen (stored v dst) = Some (zlen v).
Proof. intros Hv. by apply cstr_c_str. Qed.

(** What the reader makes of a stored nonce. *)
Lemma security_bits_stored s v dst : nonce (credentials (r_msg s)) = stored v dst -> Forall byte v -> Forall (fun c => c ≠ 0) v ->
  message_wf (r_msg s) -> exists s', read_security_bits s = Some (Break s') /\ r_buf s' = r_buf s /\ r_msg s' = r_msg s /\
  r_bits s' = if STUN_IS_RESPONSE (msg_class (r_msg s)) then default (r_bits s) (announced_bits v) else r_bits s.
Proof.
  intros Hn Hv Hnz Hm. destruct (read_security_bits_ok (r_buf s) s) as (s' & Hr & _); [done|].
  revert Hr. unfold read_security_bits, announced_bits. rewrite Hn, stored_strlen by done. cbn [mbind option_bind].
  destruct (STUN_IS_RESPONSE _); cbn [andb]; [|intros _; by eexists]. unfold STUN_NONCE_COOKIE_LEN. change (9 + 4) with 13.
  destruct (Z.ltb_spec 13 (zlen v)) as [Hl|]; cbn [andb]; [|intros _; by eexists].
  assert (take 9 (stored v dst) = take 9 v) as -> by (unfold stored; apply take_app_le; unfold zlen in Hl; lia).
  destruct (bool_decide _); [|intros _; by eexists]. rewrite stored_bytes by lia. cbn [mbind option_bind].
  change (Z.to_nat 4) with 4%nat. change (Z.to_nat 9) with 9%nat.
  destruct (juice_base64_decode _ _ _) as [[len bytes]|]; [|by intros [[=]|[=]]]. cbn [mbind option_bind]. intros _.
  eexists. split; [done|]. destruct (Z.eqb_spec len 3) as [->|Hne]; [done|]. split_and!; [done..|].
  destruct len as [|[[]|[]|]|]; done.
Qed.

Lemma reads_nonce v : Forall byte v -> Forall (fun c => c ≠ 0) v -> zlen v < 764 ->
  reads [(STUN_ATTR_NONCE, v)]
    (fun a b => nonce (credentials a) = replicate 764 0 ->
       b = with_credentials (fun c => c <| nonce := stored v (replicate 764 0) |>) a).
Proof.
  intros Hby Hnz Hl. apply reads_one; [done|lia|].
  intros p q st Hb Hp Hs. select_case.
  pose proof (wf_nonce _ (base_wf _ Hs)) as Hu. pose proof Hu as (Hul & _).
  rewrite (read_string_spec _ _ _ _ _ _ _ Hb) by (unfold STUN_MAX_NONCE_LEN, zlen in *; lia).
  pose proof (stored_char_array 764 _ _ Hu Hby Hl) as Hst.
  set (st' := set_credentials _ st). assert (base (r_msg st')) as Hbase by keep_base.
  destruct (security_bits_stored st' v _ eq_refl Hby Hnz (base_wf _ Hbase)) as (s' & Hr & Hbuf & Hmsg & Hbits). rewrite (base_class _ Hbase) in Hbits.
  exists s'. split; [done|]. split; [split; [done|]|].
  - rewrite Hbits. unfold bits_after. cbn [foldl fst snd]. by destruct (STUN_IS_RESPONSE class).
  - rewrite Hmsg. split; [done|]. intros Hn. unfold st', set_credentials, with_credentials. cbn. by rewrite Hn.
Qed.

Lemma reads_userhash h : length h = 32%nat ->
  reads [(STUN_ATTR_USERHASH, h)] (fun a b => b = with_credentials (fun c => c <| userhash := h |> <| enable_userhash := true |>) a).
Proof.
  intros Hh. assert (zlen h = 32) as Hz by (unfold zlen; lia). apply reads_one; [done|lia|].
  intros p q st Hb Hp Hs. select_case. unfold USERHASH_SIZE, HASH_SHA256_SIZE.
  rewrite Hz. cbn [Z.eqb Pos.eqb negb]. rewrite Hb, rd_value by lia. cbn [mbind option_bind]. rewrite take_ge by lia.
  pose proof (wf_userhash _ (base_wf _ Hs)) as Hu. rewrite wr_bytes_ok by (unfold zlen; lia). cbn [mbind option_bind].
  rewrite drop_ge, app_nil_r by lia. eexists. split; [done|]. split; [done|]. split; [keep_base|done].
Qed.

Lemma reads_software : reads [(STUN_ATTR_SOFTWARE, software)] eq.
Proof. apply reads_one; [done|done|]. intros p q st Hb Hp Hs. by exists st. Qed.

(** Password algorithms *)

Lemma reads_algorithms v : v = generate_password_algorithms_attr ->
  reads [(STUN_ATTR_PASSWORD_ALGORITHMS, v)]
    (fun a b => password_algorithms_value (credentials a) = replicate 256 0 ->
       b = with_credentials (fun c => c <| password_algorithms_value := v ++ replicate 248 0 |> <| password_algorithms_value_size := 8 |>
         <| password_algorithm := if STUN_IS_RESPONSE class then password_algorithm c else STUN_PASSWORD_ALGORITHM_SHA256 |>) a).
Proof.
  intros ->. set (v := generate_password_algorithms_attr). apply reads_one; [done|done|].
  intros p q st Hb Hp Hs. select_case. change (zlen v) with 8. cbn [Z.ltb Z.compare Pos.compare Pos.compare_cont].
  change (STUN_MAX_PASSWORD_ALGORITHMS_VALUE_SIZE <? 8) with false. cbv iota.
  rewrite Hb, rd_value by done. cbn [mbind option_bind]. change (take (Z.to_nat 8) v) with v.
  pose proof (wf_value _ (base_wf _ Hs)) as Hv. rewrite wr_bytes_ok by (unfold zlen; rewrite Hv; done). cbn [mbind option_bind].
  change (length v) with 8%nat. set (s1 := set_credentials _ st).
  assert (msg_class (r_msg s1) = class) as -> by apply Hs.
  assert (length (v ++ drop 8 (password_algorithms_value (credentials (r_msg st)))) = 256%nat) as Hl
    by (rewrite length_app, length_drop, Hv; done).
  assert (base (r_msg s1)) as Hb1 by (keep_base; cbn; lia).
  destruct (STUN_IS_RESPONSE class).
  - eexists. split; [done|]. split; [done|]. split; [done|]. intros Hz. unfold s1, set_credentials, with_credentials. cbn. by rewrite Hz.
  - cbn [read_algorithms Z.to_nat Pos.to_nat Pos.iter_op Init.Nat.add]. replace (zlen p - 4 + 4) with (zlen p) by lia.
    rewrite (proj2 (Z.leb_gt (zlen p + 8) (zlen p))) by lia. rewrite (proj2 (Z.ltb_ge (zlen p + 8 - zlen p) 4)) by lia.
    change (r_buf s1) with (r_buf st). rewrite Hb.
    pose proof (rd_bytes_at p (v ++ q) 2) as H1. rewrite H1 by (rewrite zlen_app; change (zlen v) with 8; pose proof (zlen_nonneg q); lia).
    cbn [mbind option_bind]. change (take (Z.to_nat 2) (v ++ q)) with [0; 2].
    pose proof (rd_bytes_app (p ++ [0; 2]) [0; 0] ([0; 1; 0; 0] ++ q) 2 eq_refl) as H2. rewrite zlen_app in H2. change (zlen [0; 2]) with 2 in H2.
    rewrite <- app_assoc in H2. change ([0; 2] ++ [0; 0] ++ [0; 1; 0; 0] ++ q) with (v ++ q) in H2. rewrite H2.
    cbn [mbind option_bind]. change (get_be [0; 2]) with 2. change (align32 (get_be [0; 0])) with 0.
    rewrite (proj2 (Z.ltb_ge (zlen p + 8 - (zlen p + 4)) 0)) by lia.
    cbn [Z.eqb Pos.eqb STUN_PASSWORD_ALGORITHM_MD5 STUN_PASSWORD_ALGORITHM_SHA256 orb].
    eexists. split; [done|]. split; [done|]. split; [keep_base; cbn; lia|]. intros Hz.
    unfold s1, set_credentials, with_credentials. cbn. by rewrite Hz.
Qed.

Lemma reads_algorithm a u : a = 1 \/ a = 2 -> STUN_IS_RESPONSE class = false ->
  reads [(STUN_ATTR_PASSWORD_ALGORITHM, be16 a ++ le16 u)]
    (fun x y => y = with_credentials (fun c => c <| password_algorithm := a |>) x).
Proof.
  intros Ha Hc. apply reads_one; [done|done|]. intros p q st Hb Hp Hs. select_case. change (zlen (be16 a ++ le16 u)) with 4.
  cbn [Z.ltb Z.compare Pos.compare Pos.compare_cont]. rewrite (base_class _ Hs), Hc, Hb, rd_value by done. cbn [mbind option_bind].
  change (take (Z.to_nat 2) (be16 a ++ le16 u)) with (be16 a). rewrite get_be_be16 by lia.
  assert ((a =? STUN_PASSWORD_ALGORITHM_MD5) || (a =? STUN_PASSWORD_ALGORITHM_SHA256) = true) as -> by (by destruct Ha as [-> | ->]).
  eexists. split; [done|]. split; [done|]. split; [keep_base|done].
Qed.
End reads.
