(* ===== verification/StunMessages.v ===== *)
(** * Messages survive writing and reading

    [read_message m] is what [stun_read] delivers for the message [m] that [stun_write] wrote:
    the transmitted fields, the security bits its nonce announces ([sent_bits]), and the marks
    of a read message. *)

From stdpp Require Import relations.
From S2P Require Import Prelude Bytes Addr Crc32 Stun StunWrite StunWriteProps StunEncode StunRead StunSafe StunRoundtrip.
Open Scope Z_scope.

(** Messages that the two ends agree on: addresses stored with their length, no EVEN-PORT,
    and only the list of password algorithms this implementation offers. *)
Record sendable (m : stun_message_t) : Prop := {
  sd_ok : message_ok m;
  sd_method : Z.land (msg_method m) STUN_CLASS_MASK = 0;
  sd_mapped : record_ok (mapped m);
  sd_relayed : record_ok (relayed m);
  sd_peers : Forall (fun r => record_ok r /\ is_Some (record_value (transaction_id m) r)) (take (Z.to_nat (peers_size m)) (peers m));
  sd_even_port : even_port m = false;
  sd_algorithms : 0 < password_algorithm (credentials m) ->
    take (Z.to_nat (password_algorithms_value_size (credentials m))) (password_algorithms_value (credentials m))
      = generate_password_algorithms_attr }.

Definition start_message (m : stun_message_t) : stun_message_t :=
  zero_message <| msg_class := msg_class m |> <| msg_method := msg_method m |> <| transaction_id := transaction_id m |>.

(** The pointer to the data, given what is behind it. *)
Definition data_matches (m : stun_message_t) (d : option (list Z)) : Prop :=
  match data m with
  | Some x => exists d', d = Some d' /\ take (Z.to_nat (data_size m)) d' = take (Z.to_nat (data_size m)) x
  | None => d = None
  end.

Definition sent_peers (m : stun_message_t) : list addr_record_t := map wire_record (take (Z.to_nat (peers_size m)) (peers m)).

Definition body_message (m : stun_message_t) (d : option (list Z)) : stun_message_t :=
  (start_message m) <| error_code := error_code m |> <| mapped := wire_record (mapped m) |> <| priority := priority m |>
    <| use_candidate := use_candidate m |> <| ice_controlling := ice_controlling m |> <| ice_controlled := ice_controlled m |>
    <| channel_number := channel_number m |>
    <| lifetime := lifetime m |> <| lifetime_set := lifetime_set m || negb (lifetime m =? 0) |>
    <| peers := sent_peers m ++ replicate (8 - length (sent_peers m)) zero_record |> <| peers_size := zlen (sent_peers m) |>
    <| relayed := wire_record (relayed m) |>
    <| data := d |> <| data_size := match data m with Some _ => data_size m | None => 0 end |>
    <| requested_transport := requested_transport m |> <| dont_fragment := dont_fragment m |>
    <| reservation_token := reservation_token m |>.

Section message.
Context (m : stun_message_t) (Hm : sendable m).

Lemma id_length : length (transaction_id m) = 12%nat.
Proof. apply (mok_id m (sd_ok m Hm)). Qed.

Lemma reads_body :
  reads (transaction_id m) (msg_class m) (concat (body_attrs m))
    (fun a b => a = start_message m -> exists d, data_matches m d /\ b = body_message m d).
Proof.
  pose proof (sd_ok m Hm) as Hok. pose proof id_length as Hid.
  eapply reads_mono; [apply reads_concat; unfold body_attrs; repeat apply Forall2_cons_2|].
  - apply reads_error_code, (mok_error m Hok).
  - apply reads_mapped; [done|apply Hm].
  - apply reads_priority, (mok_priority m Hok).
  - apply reads_use_candidate.
  - apply reads_controlling, (mok_controlling m Hok).
  - apply reads_controlled, (mok_controlled m Hok).
  - apply reads_channel, (mok_channel m Hok).
  - apply reads_lifetime, (mok_lifetime m Hok).
  - apply (reads_peers _ _ _ [] Hid).
    + eapply Forall_impl; [apply Hm|]. by intros ? [].
    + eapply Forall_impl; [apply Hm|]. by intros ? [].
    + rewrite length_take. simpl. pose proof (mok_peers_size m Hok). unfold STUN_MAX_PEER_ADDRESSES in *. lia.
  - apply reads_relayed; [done|apply Hm].
  - apply reads_data. pose proof (mok_data m Hok). destruct (data m); [|done]. intuition lia.
  - rewrite (sd_even_port m Hm). apply (reads_nil _ _ eq). done.
  - apply reads_requested_transport.
  - apply reads_dont_fragment.
  - apply reads_token, (mok_token m Hok).
  - apply Forall2_nil_2.
  - intros a b _ Hchain Ha. cbn [foldr] in Hchain. unfold comp in Hchain.
    destruct Hchain as (a1 & H1 & a2 & H2 & a3 & H3 & a4 & H4 & a5 & H5 & a6 & H6 & a7 & H7 & a8 & H8 & a9 & H9 & a10 & H10 &
      a11 & H11 & a12 & H12 & a13 & H13 & a14 & H14 & a15 & H15 & H16).
    subst a. specialize (H1 eq_refl). subst a1. specialize (H2 eq_refl). subst a2. specialize (H3 eq_refl). subst a3.
    specialize (H4 eq_refl). subst a4. specialize (H5 eq_refl). subst a5. specialize (H6 eq_refl). subst a6.
    specialize (H7 eq_refl). subst a7. specialize (H8 eq_refl eq_refl). subst a8.
    specialize (H9 (conj eq_refl eq_refl)). subst a9. specialize (H10 eq_refl). subst a10. specialize (H11 eq_refl eq_refl).
    assert (exists d, data_matches m d /\ b = body_message m d) as Hd; [|done].
    unfold data_matches, body_message, sent_peers. rewrite length_map.
    destruct (data m) as [x|].
    + destruct H11 as (d' & -> & Hd'). subst a12. specialize (H13 eq_refl). subst a13. specialize (H14 eq_refl). subst a14.
      specialize (H15 eq_refl). subst a15 b. exists (Some d'). split; [by eexists|done].
    + subst a11 a12. specialize (H13 eq_refl). subst a13. specialize (H14 eq_refl). subst a14.
      specialize (H15 eq_refl). subst a15 b. by exists None.
Qed.

(** ** Credentials *)

Definition is_request : bool := msg_class m =? STUN_CLASS_REQUEST.
(** An error response that asks for authentication. *)
Definition is_challenge : bool := (msg_class m =? STUN_CLASS_RESP_ERROR) && ((error_code m =? 401) || (error_code m =? 438)).
Definition sends_nonce : bool := (is_request || is_challenge) && negb (is_empty (cstr (nonce (credentials m)))).
Definition sends_algorithms : bool := sends_nonce && ((0 <? password_algorithm (credentials m)) || negb is_request).

Definition sent_credentials : stun_credentials_t :=
  let c := credentials m in
  Credentials
    (if is_request && negb (enable_userhash c) then stored (cstr (username c)) (replicate 514 0) else replicate 514 0)
    (if is_request || is_challenge then stored (cstr (realm c)) (replicate 764 0) else replicate 764 0)
    (if sends_nonce then stored (cstr (nonce c)) (replicate 764 0) else replicate 764 0)
    (if is_request && enable_userhash c then userhash c else replicate 32 0)
    (is_request && enable_userhash c)
    (if sends_nonce && is_request then password_algorithm c else 0)
    (if sends_algorithms then generate_password_algorithms_attr ++ replicate 248 0 else replicate 256 0)
    (if sends_algorithms then 8 else 0).

Lemma request_class : is_request = true -> STUN_IS_RESPONSE (msg_class m) = false.
Proof. unfold is_request. intros ->%Z.eqb_eq. done. Qed.

Lemma response_class : is_request = false -> is_challenge = true -> STUN_IS_RESPONSE (msg_class m) = true.
Proof. unfold is_challenge. intros _ [->%Z.eqb_eq _]%andb_true_iff. done. Qed.

Lemma cstr_ok s n : char_array n s -> Forall byte (cstr s) /\ zlen (cstr s) < Z.of_nat n.
Proof.
  intros (Hl & Hb & k & Hk). split; [by apply cstr_bytes|]. apply cstr_strlen in Hk as Hc. destruct Hc as [_ <-].
  apply strlen_bound in Hk. unfold zlen in *. lia.
Qed.

Lemma nonce_array : char_array 764 (nonce (credentials m)).
Proof. destruct (cok_nonce _ (mok_credentials _ (sd_ok m Hm))) as (? & ? & ?). done. Qed.
Lemma realm_array : char_array 764 (realm (credentials m)).
Proof. destruct (cok_realm _ (mok_credentials _ (sd_ok m Hm))) as (? & ? & ?). done. Qed.
Lemma username_array : char_array 514 (username (credentials m)).
Proof. destruct (cok_username _ (mok_credentials _ (sd_ok m Hm))) as (? & ? & ?). done. Qed.

Abbreviation Reads := (reads (transaction_id m) (msg_class m)).

Lemma reads_nonce_attrs uninit : is_request || is_challenge = true -> is_empty (cstr (nonce (credentials m))) = false ->
  Reads (concat (nonce_attrs uninit m)) (fun a b =>
    nonce (credentials a) = replicate 764 0 -> password_algorithms_value (credentials a) = replicate 256 0 ->
    password_algorithms_value_size (credentials a) = 0 -> password_algorithm (credentials a) = 0 ->
    b = with_credentials (fun c => c <| nonce := nonce sent_credentials |>
      <| password_algorithms_value := password_algorithms_value sent_credentials |>
      <| password_algorithms_value_size := password_algorithms_value_size sent_credentials |>
      <| password_algorithm := password_algorithm sent_credentials |>) a).
Proof.
  intros Hrc Hne. pose proof (cstr_ok _ _ nonce_array) as [Hnb Hnl].
  pose proof (cok_algorithm _ (mok_credentials _ (sd_ok m Hm))) as Halg.
  assert (sends_nonce = true) as Hsn by (unfold sends_nonce; by rewrite Hrc, Hne).
  unfold sent_credentials, sends_algorithms, nonce_attrs. fold is_request. rewrite Hsn. cbn [andb nonce password_algorithms_value
    password_algorithms_value_size password_algorithm].
  destruct is_request eqn:Hreq; cbn [negb andb orb opt].
  - pose proof (request_class Hreq) as Hresp. rewrite orb_false_r.
    destruct (Z.ltb_spec 0 (password_algorithm (credentials m))) as [Hpos|Hzero].
    + assert ((password_algorithm (credentials m) =? STUN_PASSWORD_ALGORITHM_UNSET) = false) as -> by (apply Z.eqb_neq; unfold STUN_PASSWORD_ALGORITHM_UNSET; lia).
      eapply reads_mono; [apply reads_concat; repeat apply Forall2_cons_2|].
      * by apply reads_nonce; [..|apply cstr_nonzero|].
      * apply reads_algorithms, (sd_algorithms m Hm Hpos).
      * apply reads_algorithm; [lia|done].
      * apply Forall2_nil_2.
      * intros a b _ (a1 & H1 & a2 & H2 & a3 & H3 & H4) Hn Hv Hs Ha. cbn [foldr] in H4. subst b. rewrite H1 in H2 by done.
        rewrite H2 in H3 by done. rewrite H3, (sd_algorithms m Hm Hpos), Hresp. reflexivity.
    + assert (password_algorithm (credentials m) = 0) as Ha0 by lia. rewrite Ha0.
      eapply reads_mono; [apply reads_concat; repeat apply Forall2_cons_2|].
      * by apply reads_nonce; [..|apply cstr_nonzero|].
      * apply (reads_nil _ _ eq). done.
      * apply (reads_nil _ _ eq). done.
      * apply Forall2_nil_2.
      * intros a b _ (a1 & H1 & a2 & <- & a3 & <- & H4) Hn Hv Hs Ha. cbn [foldr] in H4. subst b. rewrite H1 by done.
        clear -Hv Hs Ha. unfold with_credentials. destruct a as [? ? ? ? ? ? ? ? ? c]. destruct c. cbn in *. by subst.
  - pose proof (response_class Hreq Hrc) as Hresp. rewrite orb_true_r.
    assert (forall v, v = generate_password_algorithms_attr ->
      Reads (concat [[(STUN_ATTR_NONCE, cstr (nonce (credentials m)))]; [(STUN_ATTR_PASSWORD_ALGORITHMS, v)]; []])
        (fun a b => nonce (credentials a) = replicate 764 0 -> password_algorithms_value (credentials a) = replicate 256 0 ->
           password_algorithms_value_size (credentials a) = 0 -> password_algorithm (credentials a) = 0 ->
           b = with_credentials (fun c => c <| nonce := stored (cstr (nonce (credentials m))) (replicate 764 0) |>
             <| password_algorithms_value := generate_password_algorithms_attr ++ replicate 248 0 |>
             <| password_algorithms_value_size := 8 |> <| password_algorithm := 0 |>) a)) as Hv.
    { intros v ->. eapply reads_mono; [apply reads_concat; repeat apply Forall2_cons_2|].
      - by apply reads_nonce; [..|apply cstr_nonzero|].
      - by apply reads_algorithms.
      - apply (reads_nil _ _ eq). done.
      - apply Forall2_nil_2.
      - intros a b _ (a1 & H1 & a2 & H2 & a3 & <- & H4) Hn Hv Hs Ha. cbn [foldr] in H4. subst b. rewrite H1 in H2 by done.
        rewrite H2, Hresp by done. clear -Ha. unfold with_credentials. destruct a as [? ? ? ? ? ? ? ? ? c]. destruct c. cbn in *. by subst. }
    destruct (Z.ltb_spec 0 (password_algorithm (credentials m))) as [Hpos|_]; apply Hv; [by apply (sd_algorithms m Hm)|done].
Qed.

Lemma reads_credentials uninit : Reads (concat (credential_attrs uninit m)) (fun a b =>
  credentials a = zero_credentials -> b = a <| credentials := sent_credentials |>).
Proof.
  pose proof (cstr_ok _ _ realm_array) as [Hrb Hrl]. pose proof (cstr_ok _ _ username_array) as [Hub Hul].
  pose proof (cok_userhash _ (mok_credentials _ (sd_ok m Hm))) as [Huh _].
  unfold credential_attrs. fold is_request is_challenge.
  set (user_attrs := if is_request then _ else _). set (realm_attrs := if is_request || is_challenge then _ else _).
  assert (Reads user_attrs (fun a b => credentials a = zero_credentials ->
    b = with_credentials (fun c => c <| username := username sent_credentials |> <| userhash := userhash sent_credentials |>
      <| enable_userhash := enable_userhash sent_credentials |>) a)) as Huser.
  { unfold user_attrs, sent_credentials. cbn [username userhash enable_userhash]. destruct is_request; cbn [andb].
    - destruct (enable_userhash (credentials m)); cbn [negb].
      + eapply reads_mono; [by apply reads_userhash|]. intros a b _ -> Hz. unfold with_credentials. rewrite Hz. done.
      + eapply reads_mono; [by apply reads_username|]. intros a b _ H Hz. rewrite H by (by rewrite Hz). unfold with_credentials. by rewrite Hz.
    - apply reads_nil. intros a _ Hz. unfold with_credentials. rewrite Hz. destruct a. cbn in *. by subst. }
  assert (Reads realm_attrs (fun a b => realm (credentials a) = replicate 764 0 ->
    nonce (credentials a) = replicate 764 0 -> password_algorithms_value (credentials a) = replicate 256 0 ->
    password_algorithms_value_size (credentials a) = 0 -> password_algorithm (credentials a) = 0 ->
    b = with_credentials (fun c => c <| realm := realm sent_credentials |> <| nonce := nonce sent_credentials |>
      <| password_algorithms_value := password_algorithms_value sent_credentials |>
      <| password_algorithms_value_size := password_algorithms_value_size sent_credentials |>
      <| password_algorithm := password_algorithm sent_credentials |>) a)) as Hrealm.
  { unfold realm_attrs. destruct (is_request || is_challenge) eqn:Hrc.
    - eapply reads_mono; [apply reads_concat; repeat apply Forall2_cons_2|].
      + by apply reads_realm.
      + instantiate (1 := fun a b => nonce (credentials a) = replicate 764 0 -> password_algorithms_value (credentials a) = replicate 256 0 ->
          password_algorithms_value_size (credentials a) = 0 -> password_algorithm (credentials a) = 0 ->
          b = with_credentials (fun c => c <| nonce := nonce sent_credentials |>
            <| password_algorithms_value := password_algorithms_value sent_credentials |>
            <| password_algorithms_value_size := password_algorithms_value_size sent_credentials |>
            <| password_algorithm := password_algorithm sent_credentials |>) a).
        destruct (is_empty (cstr (nonce (credentials m)))) eqn:Hne; [|by apply reads_nonce_attrs].
        apply reads_nil. intros a _ Hn Hv Hs Ha. unfold sent_credentials, sends_algorithms, sends_nonce.
        rewrite Hne, andb_false_r. cbn [andb nonce password_algorithms_value password_algorithms_value_size password_algorithm].
        clear -Hn Hv Hs Ha. unfold with_credentials. destruct a as [? ? ? ? ? ? ? ? ? c]. destruct c. cbn in *. by subst.
      + apply Forall2_nil_2.
      + intros a b _ (a1 & H1 & a2 & H2 & H3) Hr Hn Hv Hs Ha. cbn [foldr] in H3. subst b. rewrite H1 in H2 by done.
        rewrite H2 by done. unfold sent_credentials. rewrite Hrc. done.
    - apply reads_nil. intros a _ Hr Hn Hv Hs Ha. unfold sent_credentials, sends_algorithms, sends_nonce. rewrite Hrc.
      cbn [andb realm nonce password_algorithms_value password_algorithms_value_size password_algorithm].
      clear -Hr Hn Hv Hs Ha. unfold with_credentials. destruct a as [? ? ? ? ? ? ? ? ? c]. destruct c. cbn in *. by subst. }
  eapply reads_mono; [apply reads_concat; repeat apply Forall2_cons_2; [apply reads_software|exact Huser|exact Hrealm|apply Forall2_nil_2]|].
  intros a b _ (a1 & <- & a2 & H2 & a3 & H3 & H4) Hz. cbn [foldr] in H4. subst b. specialize (H2 Hz). subst a2.
  unfold with_credentials in H3. cbn in H3. rewrite !Hz in H3. specialize (H3 eq_refl eq_refl eq_refl eq_refl eq_refl). by rewrite H3.
Qed.

Lemma reads_plain uninit : Reads (plain_attrs uninit m) (fun a b => a = start_message m ->
  exists d, data_matches m d /\ b = (body_message m d) <| credentials := sent_credentials |>).
Proof.
  unfold plain_attrs. eapply reads_app; [apply reads_body|apply (reads_credentials uninit)|].
  intros a b c _ _ _ H1 H2 Ha. destruct (H1 Ha) as (d & Hd & ->). exists d. split; [done|]. by rewrite H2.
Qed.

(** The security bits that a reader of the message ends up with. *)
Definition sent_bits : Z := if is_challenge then default 0 (announced_bits (cstr (nonce (credentials m)))) else 0.

Lemma bits_after_app c l1 l2 b : bits_after c (l1 ++ l2) b = bits_after c l2 (bits_after c l1 b).
Proof. apply foldl_app. Qed.

Lemma bits_after_other c l b : STUN_ATTR_NONCE ∉ map fst l -> bits_after c l b = b.
Proof.
  revert b. induction l as [|[t v] l IH]; [done|]. intros b. cbn [map fst]. rewrite not_elem_of_cons. intros [Ht Hl].
  unfold bits_after. cbn [foldl fst]. destruct (Z.eqb_spec t STUN_ATTR_NONCE); [congruence|]. by apply IH.
Qed.

Lemma opt_types b (a : Z * list Z) t : t ∈ map fst (opt b a) -> t = fst a.
Proof. destruct b; simpl; [|by intros ?%elem_of_nil]. by intros ->%list_elem_of_singleton. Qed.

Lemma address_types t' t r : t' ∈ map fst (address_attrs t (transaction_id m) r) -> t' = t.
Proof. unfold address_attrs. destruct (record_value _ _); simpl; [|by intros ?%elem_of_nil]. by intros ->%list_elem_of_singleton. Qed.

Lemma nonce_not_in_body : STUN_ATTR_NONCE ∉ map fst (concat (body_attrs m)).
Proof.
  intros Hin. unfold body_attrs in Hin. cbn [concat] in Hin. rewrite !map_app, !elem_of_app in Hin.
  destruct Hin as [H|[H|[H|[H|[H|[H|[H|[H|[H|[H|[H|[H|[H|[H|[H|H]]]]]]]]]]]]]]]; try (by apply opt_types in H).
  - destruct (negb _); [by apply address_types in H|by apply elem_of_nil in H].
  - induction (take _ (peers m)) as [|r l IH]; [by apply elem_of_nil in H|]. cbn [map concat] in H.
    rewrite map_app, elem_of_app in H. destruct H as [H|H]; [|by apply IH].
    destruct (negb _); [by apply address_types in H|by apply elem_of_nil in H].
  - destruct (negb _); [by apply address_types in H|by apply elem_of_nil in H].
  - destruct (data m); [by apply list_elem_of_singleton in H|by apply elem_of_nil in H].
  - by apply elem_of_nil in H.
Qed.

Lemma bits_after_nonce uninit b : bits_after (msg_class m) (concat (nonce_attrs uninit m)) b =
  if STUN_IS_RESPONSE (msg_class m) then default b (announced_bits (cstr (nonce (credentials m)))) else b.
Proof.
  unfold nonce_attrs. cbn [concat]. rewrite app_nil_r, bits_after_app. rewrite bits_after_other; [cbn; by destruct (STUN_IS_RESPONSE _)|].
  rewrite map_app, not_elem_of_app. split; [|by intros ?%opt_types].
  destruct (0 <? _); [|by intros ?%opt_types]. by intros ?%list_elem_of_singleton.
Qed.

Lemma bits_after_plain uninit : bits_after (msg_class m) (plain_attrs uninit m) 0 = sent_bits.
Proof.
  unfold plain_attrs. rewrite bits_after_app, (bits_after_other _ _ _ nonce_not_in_body). unfold credential_attrs, sent_bits.
  fold is_request is_challenge. cbn [concat]. rewrite app_nil_r, !bits_after_app.
  rewrite (bits_after_other _ [(_, software)]) by (by intros ?%list_elem_of_singleton).
  rewrite (bits_after_other _ (if is_request then _ else _)).
  2: { destruct is_request; [|by apply not_elem_of_nil]. destruct (enable_userhash _); [by intros ?%list_elem_of_singleton|by intros ?%opt_types]. }
  assert (is_request = true -> is_challenge = false) as Hexcl.
  { unfold is_request, is_challenge. by intros ->%Z.eqb_eq. }
  destruct is_request eqn:Hq; [rewrite Hexcl by done|]; cbn [orb].
  - rewrite app_nil_r, bits_after_app, (bits_after_other _ (string_attr _ _)) by (by intros ?%opt_types).
    destruct (is_empty _); [done|]. rewrite bits_after_nonce. by rewrite (request_class Hq).
  - destruct is_challenge eqn:Hch; [|done].
    rewrite app_nil_r, bits_after_app, (bits_after_other _ (string_attr _ _)) by (by intros ?%opt_types).
    destruct (cstr (nonce (credentials m))) eqn:Hn; [done|]. cbn [is_empty]. rewrite bits_after_nonce, Hn. by rewrite (response_class Hq Hch).
Qed.

Lemma sent_bits_none : sends_nonce = false \/ STUN_IS_RESPONSE (msg_class m) = false -> sent_bits = 0.
Proof.
  unfold sent_bits, sends_nonce. destruct is_challenge eqn:Hch; [|done]. rewrite orb_true_r. cbn [andb].
  assert (STUN_IS_RESPONSE (msg_class m) = true) as -> by (unfold is_challenge in Hch; by apply andb_true_iff in Hch as [->%Z.eqb_eq _]).
  intros [He|]; [|done]. by destruct (cstr (nonce (credentials m))).
Qed.

(** ** Integrity and fingerprint *)

Context {H : Hash} {HO : HashOk H}.

Lemma read_hmac_step buf pre type hsize v post s end_ : type = STUN_ATTR_MESSAGE_INTEGRITY /\ hsize = 20 \/ type = STUN_ATTR_MESSAGE_INTEGRITY_SHA256 /\ hsize = 32 ->
  buf = pre ++ encode_attr (type, v) ++ post -> zlen v = hsize -> r_buf s = buf -> has_fingerprint (r_msg s) = false ->
  zlen (pre ++ encode_attr (type, v)) <= end_ ->
  read_step end_ (zlen pre, s) (zlen (pre ++ encode_attr (type, v)), set_msg (fun m => m <| has_integrity := true |>) s).
Proof.
  intros Ht Hb Hv Hs Hf He. rewrite zlen_app in He. eapply read_one; [by rewrite Hs|by destruct Ht as [[-> _] | [-> _]]|destruct Ht as [[_ ->] | [_ ->]]; lia|done|done| |].
  - right. rewrite !elem_of_cons. destruct Ht as [[-> _] | [-> _]]; auto.
  - destruct Ht as [[-> ->] | [-> ->]]; select_case; by rewrite Hv.
Qed.

Lemma hmac1_length msg key : zlen (hmac_sha1 msg key) = 20.
Proof. eapply hmac_sha1_size. Qed.
Lemma hmac256_length msg key : zlen (hmac_sha256 msg key) = 32.
Proof. eapply hmac_sha256_size. Qed.

Lemma integrity_steps password b post s buf end_ hdr : buf = (hdr ++ add_integrity m password b) ++ post -> r_buf s = buf ->
  match password with Some p => is_Some (strlen p) | None => True end ->
  has_fingerprint (r_msg s) = false -> has_integrity (r_msg s) = false -> zlen (hdr ++ add_integrity m password b) <= end_ ->
  exists s', rtc (read_step end_) (zlen (hdr ++ b), s) (zlen (hdr ++ add_integrity m password b), s') /\
    r_buf s' = r_buf s /\ r_bits s' = r_bits s /\ r_msg s' = (r_msg s) <| has_integrity := signed m password |>.
Proof.
  intros Hb Hs Hp Hf Hi He. unfold add_integrity in *. fold (signed m password) in *. destruct (signed m password).
  2: { exists s. split; [apply rtc_refl|]. split_and!; [done..|]. destruct (r_msg s). cbn in *. by subst. }
  destruct (credentials_key (credentials m) password (mok_credentials m (sd_ok m Hm)) Hp) as [key Hkey]. rewrite Hkey in *.
  set (mi := encode_attr (STUN_ATTR_MESSAGE_INTEGRITY, hmac_sha1 (header m (zlen b + (4 + HMAC_SHA1_SIZE)) ++ b) key)).
  assert (add_hmac m STUN_ATTR_MESSAGE_INTEGRITY HMAC_SHA1_SIZE hmac_sha1 key b = b ++ mi) as E1 by done. rewrite E1 in *.
  set (s1 := set_msg (fun m => m <| has_integrity := true |>) s).
  destruct (password_algorithm (credentials m) =? STUN_PASSWORD_ALGORITHM_UNSET).
  - exists s1. split; [|done]. apply rtc_once. rewrite (app_assoc hdr b mi).
    eapply (read_hmac_step buf (hdr ++ b) _ 20); [by left|rewrite Hb; by rewrite <- !app_assoc|apply hmac1_length|done|done|by rewrite <- app_assoc].
  - set (mi2 := encode_attr (STUN_ATTR_MESSAGE_INTEGRITY_SHA256, hmac_sha256 (header m (zlen (b ++ mi) + (4 + HMAC_SHA256_SIZE)) ++ b ++ mi) key)).
    assert (add_hmac m STUN_ATTR_MESSAGE_INTEGRITY_SHA256 HMAC_SHA256_SIZE hmac_sha256 key (b ++ mi) = (b ++ mi) ++ mi2) as E2 by done. rewrite E2 in *.
    pose proof (zlen_nonneg mi2). rewrite !zlen_app in He.
    exists (set_msg (fun m => m <| has_integrity := true |>) s1). split; [|done].
    eapply rtc_l; [|apply rtc_once].
    + eapply (read_hmac_step buf (hdr ++ b) _ 20 _ (mi2 ++ post)); [by left|rewrite Hb; by rewrite <- !app_assoc|apply hmac1_length|done|done|fold mi; rewrite !zlen_app; lia].
    + fold mi s1. replace (hdr ++ (b ++ mi) ++ mi2) with ((hdr ++ b) ++ mi ++ mi2) by (by rewrite <- !app_assoc). rewrite (app_assoc (hdr ++ b)).
      eapply (read_hmac_step buf ((hdr ++ b) ++ mi) _ 32 _ post); [by right|rewrite Hb; by rewrite <- !app_assoc|apply hmac256_length|done|done|fold mi2; rewrite !zlen_app; lia].
Qed.

Lemma fingerprint_step b s : Forall byte b -> zlen b < 65000 ->
  let buf := header m (zlen (add_fingerprint m b)) ++ add_fingerprint m b in
  r_buf s = buf -> has_fingerprint (r_msg s) = false ->
  exists s', read_step (zlen buf) (zlen (header m (zlen (add_fingerprint m b)) ++ b), s) (zlen buf, s') /\
    r_buf s' = buf /\ r_bits s' = r_bits s /\ r_msg s' = (r_msg s) <| has_fingerprint := true |>.
Proof.
  intros Hbytes Hlen buf Hs Hf. pose proof id_length as Hid. pose proof (proj2 (mok_id m (sd_ok m Hm))) as Hidb.
  pose proof (add_fingerprint_length m b) as Hfl. pose proof (zlen_nonneg b).
  unfold buf, add_fingerprint in *. set (crc := crc32_spec _) in *.
  assert (in_range 32 crc) as Hcrc by (apply crc32_spec_range, Forall_app; split; [by apply header_bytes|done]).
  set (v := be32 (Z.lxor crc STUN_FINGERPRINT_XOR)) in *. set (e := encode_attr (STUN_ATTR_FINGERPRINT, v)) in *.
  rewrite Hfl in *. set (hdr := header m (zlen b + 8)) in *. assert (zlen hdr = 20) as Hhl by (by apply header_length).
  assert (rd_bytes (hdr ++ b ++ e) (20 + zlen b + 4) 4 = Some v) as Hrd.
  { unfold e, encode_attr. cbn [fst snd].
    replace (20 + zlen b + 4) with (zlen ((hdr ++ b) ++ be16 STUN_ATTR_FINGERPRINT ++ be16 (zlen v))) by (rewrite !zlen_app, !be16_length; lia).
    replace (hdr ++ b ++ be16 STUN_ATTR_FINGERPRINT ++ be16 (zlen v) ++ v ++ replicate (Z.to_nat (padding (zlen v))) 0)
      with (((hdr ++ b) ++ be16 STUN_ATTR_FINGERPRINT ++ be16 (zlen v)) ++ v ++ []) by (by rewrite <- !app_assoc).
    by rewrite rd_bytes_app. }
  exists (set_msg (fun m => m <| has_fingerprint := true |>) s). split; [|done]. rewrite (app_assoc hdr b e).
  apply (read_one (hdr ++ b) STUN_ATTR_FINGERPRINT v [] s); [rewrite Hs; unfold e; by rewrite app_nil_r, <- app_assoc|done|done| |done|right; by rewrite !elem_of_cons; auto|].
  - fold e. rewrite !zlen_app. lia.
  - select_case. change (zlen v) with 4. cbn [Z.eqb Pos.eqb negb]. unfold read_fingerprint. cbv delta [STUN_ATTR_SIZE]. rewrite zlen_app, Hhl, Hs.
    replace (u64 (20 + zlen b - 20 + 4 + 4)) with (zlen b + 8) by (norm_words; lia).
    unfold hdr. rewrite update_header_length by lia. cbn [mbind option_bind]. fold hdr.
    rewrite rd_bytes_0 by (rewrite !zlen_app; pose proof (zlen_nonneg e); lia).
    replace (Z.to_nat (20 + zlen b)) with (length (hdr ++ b)) by (rewrite length_app; unfold zlen in *; lia).
    rewrite (app_assoc hdr b e), take_app_length. cbn [mbind option_bind]. unfold CRC32.
    destruct (crc32_any_table (hdr ++ b) table0) as [-> _]; [apply Forall_app; split; [by apply header_bytes|done]|by left|].
    cbn [mbind option_bind]. fold crc. rewrite <- (app_assoc hdr b e). unfold hdr. rewrite update_header_length by lia. cbn [mbind option_bind]. fold hdr.
    cbn [setter r_buf]. rewrite Hrd. cbn [mbind option_bind]. unfold v.
    rewrite get_be_be32 by (apply (in_range_lxor 32); [lia|done|by vm_compute]).
    rewrite Z.eqb_refl. cbn [negb]. do 2 f_equal. rewrite <- Hs. by destruct s.
Qed.

Lemma type_field : let t := Z.lor (msg_class m) (msg_method m) in
  0 <= t < 65536 /\ Z.land t STUN_CLASS_MASK = msg_class m /\ Z.land t (Z.lnot STUN_CLASS_MASK) = msg_method m.
Proof.
  pose proof (sd_method m Hm) as Hmeth. pose proof (mok_method m (sd_ok m Hm)) as Hr. pose proof (class_cases m (sd_ok m Hm)) as Hc.
  cbv zeta. split; [apply (in_range_lor 16); [lia|unfold in_range; lia|done]|]. rewrite !Z.land_lor_distr_l, Hmeth. split.
  - destruct Hc as [-> | [-> | [-> | ->]]]; done.
  - rewrite <- (Z.lor_ldiff_and (msg_method m) STUN_CLASS_MASK) at 2. rewrite Hmeth, Z.lor_0_r, <- Z.ldiff_land.
    destruct Hc as [-> | [-> | [-> | ->]]]; done.
Qed.

(** ** The message that is read back *)

(** A request or indication that names no algorithm is taken for MD5; a nonce cookie may
    announce user hashes. *)
Definition read_credentials (anonymity : bool) : stun_credentials_t :=
  let c := sent_credentials in
  c <| password_algorithm := if negb (STUN_IS_RESPONSE (msg_class m)) && (password_algorithm c =? 0)
                             then STUN_PASSWORD_ALGORITHM_MD5 else password_algorithm c |>
    <| enable_userhash := enable_userhash c || anonymity |>.

Definition read_message (d : option (list Z)) (anonymity : bool) (password : option (list Z)) : stun_message_t :=
  (body_message m d) <| credentials := read_credentials anonymity |>
    <| has_integrity := signed m password |> <| has_fingerprint := true |>.

Lemma check_algorithms_sent d bits password : (sends_nonce = false \/ STUN_IS_RESPONSE (msg_class m) = false -> bits = 0) ->
  check_algorithms bits ((body_message m d) <| credentials := sent_credentials |>
    <| has_integrity := signed m password |> <| has_fingerprint := true |>) =
  read_message d (negb (Z.land bits STUN_SECURITY_USERNAME_ANONYMITY_BIT =? 0)) password.
Proof.
  intros Hbits. set (x := (body_message m d) <| credentials := sent_credentials |>
    <| has_integrity := signed m password |> <| has_fingerprint := true |>).
  pose proof (cok_algorithm _ (mok_credentials _ (sd_ok m Hm))) as Halg.
  unfold check_algorithms. change (msg_class x) with (msg_class m). change (error_code x) with (error_code m).
  change (credentials x) with sent_credentials. fold is_challenge.
  assert (is_challenge && negb (Z.land bits STUN_SECURITY_PASSWORD_ALGORITHMS_BIT =? 0) &&
    (password_algorithms_value_size sent_credentials =? 0) = false) as ->.
  { destruct is_challenge eqn:Hch; [|done]. cbn [andb]. unfold sent_credentials, sends_algorithms. cbn [password_algorithms_value_size].
    destruct sends_nonce eqn:Hsn; [|rewrite Hbits by auto; done].
    assert (is_request = false) as -> by (unfold is_challenge, is_request in *; apply andb_true_iff in Hch as [->%Z.eqb_eq _]; done).
    rewrite orb_true_r. cbn. by rewrite andb_false_r. }
  change (msg_class x) with (msg_class m). change (credentials x) with sent_credentials.
  assert ((if STUN_IS_RESPONSE (msg_class m) then x
     else if (password_algorithms_value_size sent_credentials =? 0) && (password_algorithm sent_credentials =? STUN_PASSWORD_ALGORITHM_UNSET)
       then x <| credentials := sent_credentials <| password_algorithm := STUN_PASSWORD_ALGORITHM_MD5 |> |>
     else if password_algorithm sent_credentials =? STUN_PASSWORD_ALGORITHM_UNSET then x <| error_code := STUN_ERROR_INTERNAL_VALIDATION_FAILED |>
     else if password_algorithms_value_size sent_credentials =? 0 then x <| error_code := STUN_ERROR_INTERNAL_VALIDATION_FAILED |>
     else if bool_decide (take (Z.to_nat (password_algorithms_value_size sent_credentials)) (password_algorithms_value sent_credentials)
          = generate_password_algorithms_attr) then x else x <| error_code := STUN_ERROR_INTERNAL_VALIDATION_FAILED |>)
    = x <| credentials := sent_credentials <| password_algorithm := if negb (STUN_IS_RESPONSE (msg_class m)) && (password_algorithm sent_credentials =? 0)
                             then STUN_PASSWORD_ALGORITHM_MD5 else password_algorithm sent_credentials |> |>) as ->.
  { assert (x = x <| credentials := sent_credentials <| password_algorithm := password_algorithm sent_credentials |> |>) as Hx by done.
    destruct (STUN_IS_RESPONSE (msg_class m)) eqn:Hresp; cbn [negb andb]; [exact Hx|].
    assert (is_challenge = false) as Hch.
    { unfold is_challenge. destruct (Z.eqb_spec (msg_class m) STUN_CLASS_RESP_ERROR) as [Hc|]; [|done]. by rewrite Hc in Hresp. }
    unfold STUN_PASSWORD_ALGORITHM_UNSET. destruct (Z.eqb_spec (password_algorithm sent_credentials) 0) as [Ha|Ha].
    - assert (password_algorithms_value_size sent_credentials = 0) as ->; [|done].
      unfold sent_credentials, sends_algorithms, sends_nonce in Ha |- *. cbn [password_algorithm password_algorithms_value_size] in *.
      rewrite Hch, orb_false_r in *. destruct is_request; [|done]. cbn [andb negb] in *. rewrite orb_false_r, andb_true_r in *.
      destruct (negb _); [|done]. rewrite Ha. done.
    - assert (sends_algorithms = true) as Hsa.
      { unfold sent_credentials, sends_algorithms in *. cbn [password_algorithm] in Ha. destruct sends_nonce; [|done]. cbn [andb] in *.
        destruct is_request; [|done]. apply orb_true_iff. left. apply Z.ltb_lt. lia. }
      rewrite andb_false_r. assert (password_algorithms_value_size sent_credentials = 8) as Hs8 by (unfold sent_credentials; cbn; by rewrite Hsa).
      rewrite bool_decide_true by (rewrite Hs8; unfold sent_credentials; cbn [password_algorithms_value]; by rewrite Hsa).
      rewrite Hs8. exact Hx. }
  unfold read_message, read_credentials, x. cbv zeta. clear.
  generalize sent_credentials as c. generalize (body_message m d) as y. generalize (negb (Z.land bits STUN_SECURITY_USERNAME_ANONYMITY_BIT =? 0)) as b. intros [] y c.
  - by rewrite orb_true_r.
  - rewrite orb_false_r. by destruct c.
Qed.

Lemma header_fields n rest : 0 <= n < 65536 -> let buf := header m n ++ rest in
  rd_bytes buf 2 2 = Some (be16 n) /\ rd_bytes buf 0 2 = Some (be16 (Z.lor (msg_class m) (msg_method m))) /\
  rd_bytes buf 8 12 = Some (transaction_id m) /\ rd_bytes buf 4 4 = Some (be32 STUN_MAGIC).
Proof.
  intros Hn. unfold header. cbv zeta. set (t := be16 (Z.lor _ _)). pose proof id_length as Hid.
  assert (zlen (transaction_id m) = 12) as Hz by (unfold zlen; lia). rewrite <- !app_assoc.
  pose proof (rd_bytes_app t (be16 n) (be32 STUN_MAGIC ++ transaction_id m ++ rest) 2 eq_refl) as H1.
  pose proof (rd_bytes_app [] t (be16 n ++ be32 STUN_MAGIC ++ transaction_id m ++ rest) 2 eq_refl) as H2.
  pose proof (rd_bytes_app (t ++ be16 n ++ be32 STUN_MAGIC) (transaction_id m) rest 12 (eq_sym Hz)) as H3.
  pose proof (rd_bytes_app (t ++ be16 n) (be32 STUN_MAGIC) (transaction_id m ++ rest) 4 eq_refl) as H4.
  rewrite <- !app_assoc in H3, H4. auto.
Qed.

Lemma encode_length uninit password : zlen (encode uninit m password) = 20 + zlen (encode_body uninit m password).
Proof. unfold encode. rewrite zlen_app, header_length by apply id_length. done. Qed.

(** The whole reader over the whole message. *)
Lemma read_encode uninit password : match password with Some p => is_Some (strlen p) | None => True end ->
  zlen (encode uninit m password) < 65000 ->
  exists d,
    stun_read (encode uninit m password) (zlen (encode uninit m password)) =
      Some (zlen (encode uninit m password), encode uninit m password, read_message d (negb (Z.land sent_bits STUN_SECURITY_USERNAME_ANONYMITY_BIT =? 0)) password) /\
    data_matches m d.
Proof.
  intros Hp Hlen. rewrite encode_length in *. pose proof (sd_ok m Hm) as Hok. pose proof id_length as Hid.
  set (buf := encode uninit m password). set (b0 := encode_attrs (plain_attrs uninit m)).
  set (b1 := add_integrity m password b0).
  assert (encode_body uninit m password = add_fingerprint m b1) as Hbody by done.
  pose proof (add_fingerprint_length m b1) as Hfl. rewrite Hbody in *. rewrite Hfl in *. pose proof (zlen_nonneg b1).
  assert (buf = header m (zlen b1 + 8) ++ add_fingerprint m b1) as Hbuf by (unfold buf, encode; by rewrite Hbody, Hfl).
  assert (zlen (header m (zlen b1 + 8)) = 20) as Hhl by (by apply header_length).
  assert (Forall byte b1) as Hb1.
  { apply add_integrity_bytes, encode_attrs_bytes, Forall_app. split; [by apply body_attrs_bytes|]. by apply credential_attrs_bytes, mok_credentials. }
  (* the attributes before MESSAGE-INTEGRITY *)
  set (s0 := Rstate buf (start_message m) 0).
  assert (exists tail, add_fingerprint m b1 = b0 ++ tail) as [tail Htail].
  { unfold add_fingerprint, b1, add_integrity. destruct (signed m password); [|by eexists]. destruct (generate_hmac_key _ _); [|by eexists].
    destruct (_ =? _); unfold add_hmac; rewrite <- !app_assoc; by eexists. }
  assert (zlen b0 <= zlen b1) as H01 by apply add_integrity_length.
  destruct (reads_plain uninit (header m (zlen b1 + 8)) tail s0 (20 + (zlen b1 + 8))) as (s1 & Hrtc1 & [Hbuf1 Hbits1] & Hbase1 & HR1).
  { cbn [s0 r_buf]. by rewrite Hbuf, Htail. }
  { lia. }
  { rewrite zlen_app. fold b0. lia. }
  { constructor; try done. destruct (zero_wf); constructor; done. }
  destruct (HR1 eq_refl) as (d & Hd & Hmsg1). fold b0 in Hrtc1.
  (* integrity *)
  destruct (integrity_steps password b0 (encode_attr (STUN_ATTR_FINGERPRINT,
      be32 (Z.lxor (crc32_spec (header m (zlen b1 + 8) ++ b1)) STUN_FINGERPRINT_XOR))) s1 buf (20 + (zlen b1 + 8)) (header m (zlen b1 + 8)))
    as (s2 & Hrtc2 & Hbuf2 & Hbits2 & Hmsg2); [|done|done|apply Hbase1|apply Hbase1|fold b1; rewrite zlen_app; lia|].
  { fold b1. rewrite <- app_assoc. exact Hbuf. }
  fold b1 in Hrtc2.
  (* fingerprint *)
  assert (has_fingerprint (r_msg s2) = false) as Hf2 by (rewrite Hmsg2; apply Hbase1).
  pose proof (fingerprint_step b1 s2 Hb1) as Hfp. cbv zeta in Hfp. rewrite Hfl in Hfp. rewrite <- Hbuf in Hfp.
  destruct Hfp as (s3 & Hstep3 & Hbuf3 & Hbits3 & Hmsg3); [lia|by rewrite Hbuf2, Hbuf1|done|].
  assert (zlen buf = 20 + (zlen b1 + 8)) as Hbl by (rewrite Hbuf, zlen_app, Hfl; lia). rewrite Hbl in Hstep3.
  assert (rtc (read_step (20 + (zlen b1 + 8))) (20, s0) (20 + (zlen b1 + 8), s3)) as Hrtc.
  { rewrite <- Hhl at 2. etrans; [exact Hrtc1|]. etrans; [exact Hrtc2|]. by apply rtc_once. }
  pose proof (read_steps_loop _ _ _ Hrtc) as Hloop. cbn [fst snd] in Hloop.
  (* the function *)
  destruct (header_fields (zlen b1 + 8) (add_fingerprint m b1)) as (Hl & Ht & Hi & _); [lia|]. rewrite <- Hbuf in Hl, Ht, Hi.
  destruct type_field as (Htr & Hclass & Hmethod).
  exists d. assert (r_bits s3 = sent_bits) as Hbits by (rewrite Hbits3, Hbits2, Hbits1; apply bits_after_plain).
  split; [|done].
  unfold stun_read, sizeof_stun_header, STUN_TRANSACTION_ID_SIZE. rewrite (proj2 (Z.ltb_ge _ 20)) by lia.
  rewrite Hl, Ht, Hi. cbn [mbind option_bind]. rewrite !get_be_be16 by lia.
  rewrite (proj2 (Z.ltb_ge _ (20 + (zlen b1 + 8)))) by lia. rewrite Hclass, Hmethod.
  change (Rstate buf _ 0) with s0. rewrite Hloop by lia. cbn [mbind option_bind negb]. rewrite i32_small by lia.
  rewrite Hbuf3, <- (check_algorithms_sent d sent_bits password) by apply sent_bits_none. by rewrite Hbits, Hmsg3, Hmsg2, Hmsg1.
Qed.
End message.
