(* ===== verification/StunIntegrity.v ===== *)
(** * Message integrity

    What [stun_check_integrity] accepts: a message it accepts carries the HMAC of its own
    prefix under the key of the credentials, and a message that [stun_write] signed is
    accepted by a receiver with the same key. *)

From S2P Require Import Prelude Bytes Addr Crc32 ConstTime Stun StunWrite StunWriteProps StunEncode StunRead StunSafe StunRoundtrip StunMessages.
Open Scope Z_scope.

Section integrity.
Context {H : Hash} {HO : HashOk H}.

(** ** Soundness *)

(** The attribute at [pos] holds the HMAC of the bytes before it, taken with a header whose
    length field ends the message behind the attribute. *)
Definition hmac_at (buf : list Z) (pos hsize : Z) (hmac : list Z -> list Z -> list Z) (key : list Z) : Prop :=
  exists prev buf', stun_update_header_length buf (pos - 20 + 4 + hsize) = Some (prev, buf') /\
    rd_bytes buf (pos + 4) hsize = Some (hmac (take (Z.to_nat pos) buf') key).

Lemma check_hmac_sound buf pos attr_length hsize (hmac : list Z -> list Z -> list Z) key buf' : Forall byte buf -> 20 <= pos < 2147483648 ->
  0 <= hsize < 65536 -> (forall m, zlen (hmac m key) = hsize /\ Forall byte (hmac m key)) -> 20 <= zlen buf ->
  check_hmac buf pos 20 attr_length hsize hmac key = Some (Some buf') -> buf' = buf /\ hmac_at buf pos hsize hmac key.
Proof.
  intros Hb Hp Hh Hm Hl Hc. unfold check_hmac in Hc. destruct (attr_length =? hsize); cbn [negb] in Hc; [|done].
  unfold STUN_ATTR_SIZE in Hc. replace (u64 (pos - 20 + 4 + hsize)) with (pos - 20 + 4 + hsize) in Hc by (norm_words; lia).
  destruct (update_header_ok buf Hb (pos - 20 + 4 + hsize) Hl) as (prev & b1 & Hu & Hb1 & Hl1 & x & Hu2). rewrite Hu in Hc. cbn [mbind option_bind] in Hc.
  destruct (rd_bytes b1 0 pos) as [msg|] eqn:Hmsg; [|done]. cbn [mbind option_bind] in Hc. rewrite Hu2 in Hc. cbn [mbind option_bind] in Hc.
  destruct (rd_bytes buf (pos + 4) hsize) as [ex|] eqn:Hex; [|done]. cbn [mbind option_bind] in Hc.
  apply rd_bytes_inv in Hmsg as (_ & _ & _ & ->). apply rd_bytes_inv in Hex as Hexi. destruct Hexi as (_ & _ & Hexl & Hexe).
  cbn [drop] in *. destruct (Hm (take (Z.to_nat pos) b1)) as [Hml Hmb].
  assert (Forall byte ex) as Hexb by (rewrite Hexe; by apply Forall_take, Forall_drop).
  change (drop (Z.to_nat 0) b1) with b1 in Hc.
  destruct (memcmp_spec (hmac (take (Z.to_nat pos) b1) key) ex (Z.to_nat hsize) Hmb Hexb) as (r & Hr & Hiff); [unfold zlen in *; lia..|].
  rewrite Z2Nat.id in Hr by lia. rewrite Hr in Hc. cbn [mbind option_bind] in Hc. destruct (Z.eqb_spec r 0) as [Hr0|]; cbn [negb] in Hc; [|done].
  injection Hc as <-. split; [done|]. exists prev, b1. split; [done|]. rewrite Hex. f_equal.
  apply Hiff in Hr0. rewrite take_ge, (take_ge ex) in Hr0 by (unfold zlen in *; lia). by symmetry.
Qed.

Lemma check_attrs_sound fuel : forall buf size pos end_ key success, Forall byte buf -> 20 <= pos -> end_ <= zlen buf -> zlen buf < 2147483648 ->
  check_attrs fuel buf size pos end_ 20 key success = Some true ->
  success = true \/ exists p, pos <= p < end_ /\
    (hmac_at buf p HMAC_SHA1_SIZE hmac_sha1 key \/ hmac_at buf p HMAC_SHA256_SIZE hmac_sha256 key).
Proof.
  induction fuel as [|fuel IH]; intros buf size pos end_ key success Hb Hp He Hz Hc; [done|]. cbn [check_attrs] in Hc.
  destruct (Z.leb_spec end_ pos); [left; by injection Hc|].
  destruct (rd_bytes buf (pos + 2) 2) as [l|] eqn:Hl; [|done]. cbn [mbind option_bind] in Hc. destruct (size <? _); [done|].
  destruct (rd_bytes buf pos 2) as [t|]; [|done]. cbn [mbind option_bind] in Hc.
  assert (0 <= align32 (get_be l)) as Hal.
  { destruct (rd_bytes_ok buf Hb (pos + 2) 2) as (l' & Hl' & _ & Hlb); [apply rd_bytes_inv in Hl; lia..|]. rewrite Hl in Hl'. injection Hl' as <-.
    pose proof (get_be_nonneg l Hlb). pose proof (align32_le (get_be l)). lia. }
  unfold STUN_ATTR_SIZE in Hc.
  assert (forall s, check_attrs fuel buf size (pos + (4 + align32 (get_be l))) end_ 20 key s = Some true -> s = true \/ exists p, pos <= p < end_ /\
    (hmac_at buf p HMAC_SHA1_SIZE hmac_sha1 key \/ hmac_at buf p HMAC_SHA256_SIZE hmac_sha256 key)) as Hrec.
  { intros s Hs. apply IH in Hs; [|done|lia|done|done]. destruct Hs as [Hs|(p & Hp' & Hs)]; [by left|right]. exists p. split; [lia|done]. }
  destruct (_ =? STUN_ATTR_MESSAGE_INTEGRITY).
  - destruct (check_hmac _ _ _ _ _ _ _) as [[b'|]|] eqn:Hh; [|done..]. right. exists pos. split; [lia|]. left.
    eapply check_hmac_sound; [done| |by vm_compute|intros; eapply hmac_sha1_size| |exact Hh]; lia.
  - destruct (_ =? _); [|by apply Hrec].
    destruct (check_hmac _ _ _ _ _ _ _) as [[b'|]|] eqn:Hh; [|done..]. right. exists pos. split; [lia|]. right.
    eapply check_hmac_sound; [done| |by vm_compute|intros; eapply hmac_sha256_size| |exact Hh]; lia.
Qed.

(** ** Completeness on written messages *)

Lemma check_one fuel pre type v post size end_ key success buf : buf = pre ++ encode_attr (type, v) ++ post -> 0 <= type < 65536 ->
  zlen v < 65536 -> zlen pre + zlen (encode_attr (type, v)) <= end_ -> end_ <= size ->
  check_attrs (S fuel) buf size (zlen pre) end_ 20 key success =
    (let next := zlen (pre ++ encode_attr (type, v)) in
     if type =? STUN_ATTR_MESSAGE_INTEGRITY then
       r ← check_hmac buf (zlen pre) 20 (zlen v) HMAC_SHA1_SIZE hmac_sha1 key;
       match r with None => Some false | Some buf => check_attrs fuel buf size next end_ 20 key true end
     else if type =? STUN_ATTR_MESSAGE_INTEGRITY_SHA256 then
       r ← check_hmac buf (zlen pre) 20 (zlen v) HMAC_SHA256_SIZE hmac_sha256 key;
       match r with None => Some false | Some buf => check_attrs fuel buf size next end_ 20 key true end
     else check_attrs fuel buf size next end_ 20 key success).
Proof.
  intros Hb Ht Hv He Hs. pose proof (zlen_nonneg v). pose proof (zlen_nonneg pre). pose proof (padding_range (zlen v)).
  rewrite zlen_app. rewrite encode_attr_length in *. cbn [snd] in *. cbn [check_attrs].
  rewrite (proj2 (Z.leb_gt _ _)) by lia.
  assert (rd_bytes buf (zlen pre + 2) 2 = Some (be16 (zlen v))) as ->.
  { rewrite Hb. unfold encode_attr. cbn [fst snd]. rewrite <- !app_assoc.
    replace (zlen pre + 2) with (zlen (pre ++ be16 type)) by (rewrite zlen_app, be16_length; lia).
    rewrite app_assoc, rd_bytes_app by done. done. }
  assert (rd_bytes buf (zlen pre) 2 = Some (be16 type)) as ->.
  { rewrite Hb. unfold encode_attr. cbn [fst snd]. rewrite <- !app_assoc. rewrite rd_bytes_app by done. done. }
  cbn [mbind option_bind]. rewrite !get_be_be16 by lia. unfold STUN_ATTR_SIZE.
  rewrite (proj2 (Z.ltb_ge _ _)) by lia. rewrite align32_padding by lia. by rewrite (Z.add_assoc 4).
Qed.

(** Attributes that are not about integrity are skipped. *)
Definition plain (a : Z * list Z) : Prop :=
  0 <= fst a < 65536 /\ fst a ≠ STUN_ATTR_MESSAGE_INTEGRITY /\ fst a ≠ STUN_ATTR_MESSAGE_INTEGRITY_SHA256 /\ zlen (snd a) < 65536.

Lemma check_plain l : Forall plain l -> forall fuel pre post size end_ key success buf,
  buf = pre ++ encode_attrs l ++ post -> zlen pre + zlen (encode_attrs l) <= end_ -> end_ <= size ->
  check_attrs (length l + fuel) buf size (zlen pre) end_ 20 key success =
    check_attrs fuel buf size (zlen (pre ++ encode_attrs l)) end_ 20 key success.
Proof.
  induction 1 as [|[type v] l (Ht & H1 & H2 & Hv) _ IH]; intros fuel pre post size end_ key success buf Hb He Hs.
  - change (encode_attrs []) with (@nil Z). by rewrite app_nil_r.
  - change (encode_attrs ((type, v) :: l)) with (encode_attr (type, v) ++ encode_attrs l) in *. cbn [fst snd] in *.
    rewrite zlen_app in He. pose proof (zlen_nonneg (encode_attrs l)). rewrite <- app_assoc in Hb. cbn [length Nat.add].
    rewrite (check_one _ _ type v _ _ _ _ _ _ Hb) by (done || lia). cbv zeta.
    destruct (Z.eqb_spec type STUN_ATTR_MESSAGE_INTEGRITY); [done|]. destruct (Z.eqb_spec type STUN_ATTR_MESSAGE_INTEGRITY_SHA256); [done|].
    rewrite (IH _ (pre ++ encode_attr (type, v)) post); [by rewrite <- app_assoc|by rewrite Hb, <- app_assoc|rewrite zlen_app; lia|done].
Qed.

(** The types of the attributes before MESSAGE-INTEGRITY. *)
Definition plain_types : list Z :=
  [STUN_ATTR_ERROR_CODE; STUN_ATTR_XOR_MAPPED_ADDRESS; STUN_ATTR_PRIORITY; STUN_ATTR_USE_CANDIDATE; STUN_ATTR_ICE_CONTROLLING;
   STUN_ATTR_ICE_CONTROLLED; STUN_ATTR_CHANNEL_NUMBER; STUN_ATTR_LIFETIME; STUN_ATTR_XOR_PEER_ADDRESS; STUN_ATTR_XOR_RELAYED_ADDRESS;
   STUN_ATTR_DATA; STUN_ATTR_REQUESTED_TRANSPORT; STUN_ATTR_DONT_FRAGMENT; STUN_ATTR_RESERVATION_TOKEN; STUN_ATTR_SOFTWARE;
   STUN_ATTR_USERHASH; STUN_ATTR_USERNAME; STUN_ATTR_REALM; STUN_ATTR_NONCE; STUN_ATTR_PASSWORD_ALGORITHMS; STUN_ATTR_PASSWORD_ALGORITHM].

Definition typed (a : Z * list Z) : Prop := fst a ∈ plain_types.

Lemma typed_one t v : bool_decide (t ∈ plain_types) = true -> typed (t, v).
Proof. by intros ?%bool_decide_eq_true. Qed.

Lemma typed_opt b t v : bool_decide (t ∈ plain_types) = true -> Forall typed (opt b (t, v)).
Proof. intros. destruct b; [|done]. apply Forall_singleton. by apply typed_one. Qed.

Lemma typed_address t id r : bool_decide (t ∈ plain_types) = true ->
  Forall typed (if negb (len r =? 0) then address_attrs t id r else []).
Proof.
  intros. destruct (negb _); [|constructor]. unfold address_attrs. destruct (record_value _ _); [|constructor].
  constructor; [by apply typed_one|constructor].
Qed.

Lemma typed_concat l : Forall (Forall typed) l -> Forall typed (concat l).
Proof. induction 1; [done|]. by apply Forall_app. Qed.

(** One goal per list of attributes. *)
Ltac each_list := repeat match goal with
  | |- Forall (Forall _) (_ :: _) => apply Forall_cons_2
  | |- Forall (Forall _) [] => apply Forall_nil_2
  end.

Lemma plain_attrs_typed uninit m : Forall typed (plain_attrs uninit m).
Proof.
  assert (forall t v, bool_decide (t ∈ plain_types) = true -> Forall typed [(t, v)]) as H1 by (intros; apply Forall_singleton; by apply typed_one).
  unfold plain_attrs. apply Forall_app. split; apply typed_concat.
  - unfold body_attrs. cbv zeta. each_list; try (by apply typed_opt || by apply typed_address).
    + apply typed_concat, Forall_forall. intros l (r & -> & _)%list_elem_of_fmap. by apply typed_address.
    + destruct (data m); [by apply H1|constructor].
  - unfold credential_attrs, nonce_attrs, string_attr. cbv zeta. each_list.
    + by apply H1.
    + destruct (_ =? _); [|done]. destruct (enable_userhash _); [by apply H1|by apply typed_opt].
    + destruct (_ || _); [|done]. apply typed_concat. each_list; [by apply typed_opt|].
      destruct (is_empty _); [done|]. apply typed_concat. each_list.
      * by apply H1.
      * destruct (0 <? _); [by apply H1|by apply typed_opt].
      * by apply typed_opt.
Qed.

Lemma encode_attrs_values l a : a ∈ l -> zlen (snd a) <= zlen (encode_attrs l).
Proof.
  induction 1 as [a l|a b l _ IH]; change (encode_attrs (?x :: l)) with (encode_attr x ++ encode_attrs l); rewrite zlen_app.
  - rewrite encode_attr_length. pose proof (zlen_nonneg (encode_attrs l)). pose proof (padding_range (zlen (snd a))). lia.
  - pose proof (zlen_nonneg (encode_attr b)). lia.
Qed.

Lemma plain_attrs_plain uninit m : zlen (encode_attrs (plain_attrs uninit m)) < 65536 -> Forall plain (plain_attrs uninit m).
Proof.
  intros Hl. apply Forall_forall. intros a Ha. pose proof (encode_attrs_values _ _ Ha).
  pose proof (proj1 (Forall_forall _ _) (plain_attrs_typed uninit m) _ Ha) as Ht. unfold typed in Ht.
  assert (Forall (fun t => (0 <=? t) && (t <? 65536) && negb (t =? STUN_ATTR_MESSAGE_INTEGRITY) && negb (t =? STUN_ATTR_MESSAGE_INTEGRITY_SHA256) = true) plain_types)
    as Hall by (repeat constructor).
  apply (proj1 (Forall_forall _ _) Hall) in Ht. rewrite !andb_true_iff, !negb_true_iff, !Z.eqb_neq in Ht. unfold plain. lia.
Qed.

Lemma encode_attrs_count l : 4 * Z.of_nat (length l) <= zlen (encode_attrs l).
Proof.
  induction l as [|a l IH]; [done|]. change (encode_attrs (a :: l)) with (encode_attr a ++ encode_attrs l).
  rewrite zlen_app, encode_attr_length. pose proof (zlen_nonneg (snd a)). pose proof (padding_range (zlen (snd a))). cbn [length]. lia.
Qed.

(** An HMAC attribute that [add_hmac] appended verifies and leaves the header as it was. *)
Lemma check_hmac_written m n b type hsize (hmac : list Z -> list Z -> list Z) key rest :
  length (transaction_id m) = 12%nat -> 0 <= n < 65536 -> zlen b + (4 + hsize) < 65536 -> 0 <= hsize ->
  (forall msg, zlen (hmac msg key) = hsize /\ Forall byte (hmac msg key)) ->
  let buf := header m n ++ add_hmac m type hsize hmac key b ++ rest in
  check_hmac buf (zlen (header m n ++ b)) 20 hsize hsize hmac key = Some (Some buf).
Proof.
  intros Hid Hn Hl Hh Hm. cbv zeta. pose proof (zlen_nonneg b). unfold check_hmac, STUN_ATTR_SIZE. rewrite Z.eqb_refl. cbn [negb].
  rewrite zlen_app, header_length by done. replace (u64 (20 + zlen b - 20 + 4 + hsize)) with (zlen b + (4 + hsize)) by (norm_words; lia).
  rewrite update_header_length by (done || lia). cbn [mbind option_bind].
  unfold add_hmac. set (hdr := header m (zlen b + (4 + hsize))). set (v := hmac (hdr ++ b) key).
  assert (zlen hdr = 20) as Hhdr by (by apply header_length). destruct (Hm (hdr ++ b)) as [Hvl Hvb]. fold v in Hvl, Hvb.
  assert (rd_bytes (hdr ++ (b ++ encode_attr (type, v)) ++ rest) 0 (20 + zlen b) = Some (hdr ++ b)) as ->.
  { rewrite <- !app_assoc, (app_assoc hdr). apply (rd_bytes_app [] (hdr ++ b)). rewrite zlen_app. lia. }
  cbn [mbind option_bind]. rewrite (update_header_length m (zlen b + (4 + hsize))) by (done || lia). cbn [mbind option_bind].
  assert (rd_bytes (header m n ++ (b ++ encode_attr (type, v)) ++ rest) (20 + zlen b + 4) hsize = Some v) as ->.
  { unfold encode_attr. cbn [fst snd]. rewrite <- !app_assoc.
    pose proof (rd_bytes_app (header m n ++ b ++ be16 type ++ be16 (zlen v)) v (replicate (Z.to_nat (padding (zlen v))) 0 ++ rest) hsize (eq_sym Hvl)) as Hr.
    rewrite !zlen_app, !be16_length, header_length in Hr by done. rewrite <- !app_assoc in Hr.
    replace (20 + zlen b + 4) with (20 + (zlen b + (2 + 2))) by lia. exact Hr. }
  cbn [mbind option_bind]. fold v.
  destruct (memcmp_spec v v (Z.to_nat hsize) Hvb Hvb) as (r & Hr & Hiff); [unfold zlen in *; lia..|].
  rewrite Z2Nat.id in Hr by lia. rewrite Hr. cbn [mbind option_bind]. rewrite (proj2 (Z.eqb_eq r 0)) by (by apply Hiff). done.
Qed.

Lemma check_hmac_step m n b type hsize (hmac : list Z -> list Z -> list Z) key rest fuel size end_ success :
  length (transaction_id m) = 12%nat -> 0 <= n < 65536 -> 0 <= hsize -> hsize mod 4 = 0 ->
  (forall msg, zlen (hmac msg key) = hsize /\ Forall byte (hmac msg key)) ->
  type = STUN_ATTR_MESSAGE_INTEGRITY /\ hsize = HMAC_SHA1_SIZE /\ hmac = hmac_sha1 \/
  type = STUN_ATTR_MESSAGE_INTEGRITY_SHA256 /\ hsize = HMAC_SHA256_SIZE /\ hmac = hmac_sha256 ->
  let b' := add_hmac m type hsize hmac key b in
  let buf := header m n ++ b' ++ rest in
  zlen (header m n ++ b') <= end_ -> end_ <= size -> zlen b' < 65536 ->
  check_attrs (S fuel) buf size (zlen (header m n ++ b)) end_ 20 key success =
    check_attrs fuel buf size (zlen (header m n ++ b')) end_ 20 key true.
Proof.
  intros Hid Hn Hh Hh4 Hm Ht. cbv zeta. set (b' := add_hmac m type hsize hmac key b).
  assert (zlen b' = zlen b + (4 + hsize)) as Hb' by (apply add_hmac_length; [intros; apply Hm|done]).
  pose proof (check_hmac_written m n b type hsize hmac key rest Hid Hn) as Hc. cbv zeta in Hc. fold b' in Hc.
  assert (exists v, b' = b ++ encode_attr (type, v) /\ zlen v = hsize) as (v & Hbe & Hv) by (eexists; split; [done|apply Hm]).
  clearbody b'. intros He Hs Hl. pose proof (zlen_nonneg b). rewrite (check_one _ (header m n ++ b) type v rest).
  - rewrite <- app_assoc, <- Hbe. cbv zeta. rewrite Hv.
    destruct Ht as [(-> & -> & ->)|(-> & -> & ->)]; cbn [Z.eqb Pos.eqb STUN_ATTR_MESSAGE_INTEGRITY STUN_ATTR_MESSAGE_INTEGRITY_SHA256];
      rewrite Hc by (done || lia); done.
  - by rewrite Hbe, <- !app_assoc.
  - destruct Ht as [(-> & _)|(-> & _)]; by vm_compute.
  - rewrite Hv. lia.
  - by rewrite <- zlen_app, <- app_assoc, <- Hbe.
  - done.
Qed.

(** A message is accepted by a receiver that derives the key the sender used. *)
Lemma check_integrity_encode uninit m password m' password' key : message_ok m ->
  signed m password = true -> generate_hmac_key (credentials m) password = Some key ->
  has_integrity m' = true -> generate_hmac_key (credentials m') password' = Some key ->
  let buf := encode uninit m password in zlen buf < 65536 ->
  stun_check_integrity buf (zlen buf) m' password' = Some true.
Proof.
  intros Hok Hsig Hk Hi Hk'. cbv zeta. destruct (mok_id m Hok) as [Hid _]. unfold encode.
  rewrite zlen_app, header_length by done.
  unfold encode_body, add_integrity. rewrite Hsig, Hk. set (b0 := encode_attrs (plain_attrs uninit m)).
  set (b1 := add_hmac m STUN_ATTR_MESSAGE_INTEGRITY HMAC_SHA1_SIZE hmac_sha1 key b0).
  assert (zlen b1 = zlen b0 + 24) as Hb1 by (apply add_hmac_length; [intros; apply hmac_sha1_size|done]).
  set (b2 := if password_algorithm (credentials m) =? STUN_PASSWORD_ALGORITHM_UNSET then b1 else
    add_hmac m STUN_ATTR_MESSAGE_INTEGRITY_SHA256 HMAC_SHA256_SIZE hmac_sha256 key b1).
  assert (zlen b1 <= zlen b2) as H12.
  { unfold b2. destruct (_ =? _); [lia|]. rewrite add_hmac_length; [|intros; apply hmac_sha256_size|done]. unfold HMAC_SHA256_SIZE. lia. }
  rewrite add_fingerprint_length. unfold add_fingerprint. set (fp := encode_attr _).
  assert (exists v, fp = encode_attr (STUN_ATTR_FINGERPRINT, v) /\ zlen v = 4) as (v & Hfp & Hv) by (by eexists). clearbody fp.
  set (n := zlen b2 + 8). intros Hl. pose proof (zlen_nonneg b0). assert (0 <= n < 65536) as Hn by lia.
  assert (Forall plain (plain_attrs uninit m)) as Hplain by (apply plain_attrs_plain; fold b0; lia).
  pose proof (encode_attrs_count (plain_attrs uninit m)) as Hcount. fold b0 in Hcount.
  assert (exists t2, b2 = b1 ++ t2) as [t2 Ht2].
  { unfold b2. destruct (_ =? _); [exists []; by rewrite app_nil_r|by eexists]. }
  pose proof (check_plain _ Hplain) as Hp. fold b0 in Hp.
  unfold stun_check_integrity. rewrite Hi. cbn [negb].
  assert (rd_bytes (header m n ++ b2 ++ fp) 2 2 = Some (be16 n)) as ->.
  { unfold header. rewrite <- !app_assoc. by apply (rd_bytes_app (be16 (Z.lor (msg_class m) (msg_method m)))). }
  cbn [mbind option_bind]. rewrite get_be_be16 by lia. unfold sizeof_stun_header. rewrite (proj2 (Z.ltb_ge _ _)) by lia.
  rewrite Hk'. cbn [mbind option_bind].
  set (k := (S (Z.to_nat n) - length (plain_attrs uninit m) - 4)%nat).
  replace (S (Z.to_nat n)) with (length (plain_attrs uninit m) + S (S (S (S k))))%nat by lia.
  rewrite <- (header_length m n Hid) at 2.
  assert (b1 = b0 ++ drop (length b0) b1) as Hb01 by (unfold b1, add_hmac; by rewrite drop_app_length).
  rewrite (Hp _ (header m n) (drop (length b0) b1 ++ t2 ++ fp));
    [|rewrite Ht2, Hb01, <- !app_assoc; by rewrite <- Hb01|rewrite header_length by done; lia|lia].
  pose proof (check_hmac_step m n b0 STUN_ATTR_MESSAGE_INTEGRITY HMAC_SHA1_SIZE hmac_sha1 key (t2 ++ fp) (S (S (S k))) (20 + n) (20 + n) false
    Hid Hn ltac:(done) eq_refl) as Hs1. cbv zeta in Hs1. fold b1 in Hs1. rewrite Ht2, <- app_assoc.
  rewrite Hs1; [|intros; apply hmac_sha1_size|by left|rewrite zlen_app, header_length by done; lia|lia|lia].
  assert (forall k, check_attrs (S (S k)) (header m n ++ b2 ++ fp) (20 + n) (zlen (header m n ++ b2)) (20 + n) 20 key true = Some true) as Hlast.
  { intros k'. pose proof (encode_attr_length (STUN_ATTR_FINGERPRINT, v)) as Hel. cbn [snd] in Hel. rewrite Hv in Hel. change (padding 4) with 0 in Hel.
    rewrite (check_one (S k') (header m n ++ b2) STUN_ATTR_FINGERPRINT v []);
      [|by rewrite Hfp, app_nil_r, <- app_assoc|done|lia|rewrite zlen_app, header_length by done; lia|lia].
    cbv zeta. change (STUN_ATTR_FINGERPRINT =? STUN_ATTR_MESSAGE_INTEGRITY) with false.
    change (STUN_ATTR_FINGERPRINT =? STUN_ATTR_MESSAGE_INTEGRITY_SHA256) with false. cbv iota. cbn [check_attrs].
    rewrite (proj2 (Z.leb_le _ _)); [done|]. rewrite !zlen_app, header_length by done. lia. }
  rewrite (app_assoc b1), <- Ht2.
  assert (b2 = b1 \/ b2 = add_hmac m STUN_ATTR_MESSAGE_INTEGRITY_SHA256 HMAC_SHA256_SIZE hmac_sha256 key b1) as [Hc|Hc]
    by (unfold b2; destruct (_ =? _); auto).
  - rewrite Hc in Hlast |- *. apply Hlast.
  - pose proof (check_hmac_step m n b1 STUN_ATTR_MESSAGE_INTEGRITY_SHA256 HMAC_SHA256_SIZE hmac_sha256 key fp (S (S k)) (20 + n) (20 + n) true
      Hid Hn ltac:(done) eq_refl) as Hs2. cbv zeta in Hs2. rewrite <- Hc in Hs2.
    rewrite Hs2; [apply Hlast|intros; apply hmac_sha256_size|by right|rewrite zlen_app, header_length by done; lia|lia|lia].
Qed.
End integrity.
