(* ===== verification/Hashes.v ===== *)
(** * The hash interface of STUN and its implementation

    [Stun.Hash] is what [stun.c] needs of [hash.h] and [hmac.h].  [standard_hash] provides it
    with the functions of the standards; the theorems say that [hash.c] and [hmac.c] over
    [picohash.h] compute those. *)

From S2P Require Import Prelude Bytes Words MerkleDamgard Sha256 Sha1 Md5 Md5Props Picohash PicohashProps Stun.
Open Scope Z_scope.

#[export] Instance standard_hash : Hash := {|
  Stun.juice_hash_md5 := Rfc1321.md5;
  Stun.juice_hash_sha256 := Fips256.sha256;
  Stun.hmac_sha1 m key := PicohashProps.hmac (D := Sha1_digest) key m;
  Stun.hmac_sha256 m key := PicohashProps.hmac (D := Sha256_digest) key m |}.

#[export] Instance standard_hash_ok : HashOk standard_hash.
Proof.
  split.
  - apply PicohashProps.md5_size.
  - intros m. rewrite sha256_digest. by apply sha2_size.
  - intros m k. apply (hmac_size (D := Sha1_digest)).
  - intros m k. apply (hmac_size (D := Sha256_digest)).
Qed.

(** A message that a [size_t] can measure. *)
Definition sized (m : list Z) : Prop := Forall byte m /\ zlen m < 18446744073709551616.

(** Feeding [pieces] one after the other. *)
Fixpoint update_all {C : Type} {B : BlockHash C} (c : picohash_ctx C) (pieces : list (list Z)) : option (picohash_ctx C) :=
  match pieces with [] => Some c | x :: pieces => c ← picohash_update c x; update_all c pieces end.

Lemma update_all_ok {C : Type} {B : BlockHash C} {D : Digest C B} pieces : Forall sized pieces -> forall (c : picohash_ctx C) m, holds (hash c) m ->
  exists h, update_all c pieces = Some (c <| (@hash C) := h |>) /\ holds h (m ++ concat pieces).
Proof.
  induction 1 as [|x pieces [Hb Hl] _ IH]; intros c m Hc; cbn [update_all concat].
  - exists (hash c). rewrite app_nil_r. split; [by destruct c|done].
  - destruct (picohash_update_ok c m x Hc Hb Hl) as (h & -> & Hh). cbn [mbind option_bind].
    assert (holds (hash (c <| (@hash C) := h |>)) (m ++ x)) as Hh1 by (unfold setter; exact Hh).
    destruct (IH (c <| (@hash C) := h |>) (m ++ x) Hh1) as (h' & -> & Hh'). rewrite <- app_assoc in Hh'. by exists h'.
Qed.

(** C19. The one-shot hash functions of [hash.c] compute MD5, SHA-1 and SHA-256 as their
    standards define them, whatever the memory of the context held before, and for both
    widths that [uint_fast32_t] has (32 bits or more). *)
Theorem juice_hash_correct (w : Z) (c5 : picohash_ctx Md5.ctx) (c1 : picohash_ctx Sha1.ctx) (c2 : picohash_ctx Sha256.ctx) (m : list Z) :
  32 <= w -> md5_valid (hash c5) -> length (hmac_key c5) = 64%nat ->
  length (Sha1.buffer (hash c1)) = 64%nat -> length (hmac_key c1) = 64%nat ->
  length (Sha256.buf (hash c2)) = 64%nat -> length (hmac_key c2) = 64%nat -> sized m ->
  Picohash.juice_hash_md5 w c5 m = Some (Rfc1321.md5 m) /\
  Picohash.juice_hash_sha1 c1 m = Some (Fips1.sha1 m) /\
  Picohash.juice_hash_sha256 c2 m = Some (Fips256.sha256 m).
Proof.
  intros Hw H5 K5 H1 K1 H2 K2 [Hb Hl]. split_and!.
  - by apply (juice_hash_ok (D := Md5_digest w Hw)).
  - by apply (juice_hash_ok (D := Sha1_digest)).
  - by apply (juice_hash_ok (D := Sha256_digest)).
Qed.

Definition local5 : picohash_ctx Md5.ctx := Picohash_ctx (Md5.Ctx 1 2 3 4 5 6 (replicate 64 9) (replicate 16 8)) 0 0 Hmac Hmac (replicate 64 7) Own Own.
Definition local1 : picohash_ctx Sha1.ctx := Picohash_ctx (Sha1.Ctx (replicate 64 9) [] 1 2) 0 0 Own Own (replicate 64 7) Own Own.
Definition local2 : picohash_ctx Sha256.ctx := Picohash_ctx (Sha256.Ctx 1 [] 2 (replicate 64 9)) 0 0 Own Own (replicate 64 7) Own Own.

(** The digests of "abc" of the standards. *)
Lemma juice_hash_correct_witness : let m := [97; 98; 99] in
  (Picohash.juice_hash_md5 64 local5 m = Some (Rfc1321.md5 m) /\ Picohash.juice_hash_sha1 local1 m = Some (Fips1.sha1 m) /\
   Picohash.juice_hash_sha256 local2 m = Some (Fips256.sha256 m)) /\
  take 4 (Rfc1321.md5 m) = [0x90; 0x01; 0x50; 0x98] /\ take 4 (Fips1.sha1 m) = [0xa9; 0x99; 0x3e; 0x36] /\
  take 4 (Fips256.sha256 m) = [0xba; 0x78; 0x16; 0xbf].
Proof.
  cbv zeta. split; [|vm_compute; repeat split].
  apply (juice_hash_correct 64); try reflexivity; [lia|split; reflexivity|].
  split; [repeat constructor; unfold byte; lia|reflexivity].
Defined.

(** C15. [hmac_sha1] and [hmac_sha256] compute HMAC as RFC 2104 defines it over SHA-1 and
    SHA-256, with keys of any length: what [stun.c] signs and verifies with. *)
Theorem hmac_correct (c1 : picohash_ctx Sha1.ctx) (c2 : picohash_ctx Sha256.ctx) (m key : list Z) :
  length (Sha1.buffer (hash c1)) = 64%nat -> length (hmac_key c1) = 64%nat ->
  length (Sha256.buf (hash c2)) = 64%nat -> length (hmac_key c2) = 64%nat -> sized m -> sized key ->
  Picohash.hmac_sha1 c1 m key = Some (Stun.hmac_sha1 m key) /\ Picohash.hmac_sha256 c2 m key = Some (Stun.hmac_sha256 m key).
Proof.
  intros H1 K1 H2 K2 [Hb Hl] [Hkb Hkl]. split.
  - by apply (juice_hmac_ok (D := Sha1_digest)).
  - by apply (juice_hmac_ok (D := Sha256_digest)).
Qed.

(** The first test of RFC 2202 and of RFC 4231. *)
Lemma hmac_correct_witness : let m := bytes_of_string "Hi There" in let key := replicate 20 0x0b in
  (Picohash.hmac_sha1 local1 m key = Some (Stun.hmac_sha1 m key) /\ Picohash.hmac_sha256 local2 m key = Some (Stun.hmac_sha256 m key)) /\
  take 4 (Stun.hmac_sha1 m key) = [0xb6; 0x17; 0x31; 0x86] /\ take 4 (Stun.hmac_sha256 m key) = [0xb0; 0x34; 0x4c; 0x61].
Proof.
  cbv zeta. split; [|vm_compute; split; reflexivity].
  apply hmac_correct; try reflexivity; (split; [vm_compute; repeat constructor; discriminate|reflexivity]).
Defined.

(** Feeding a message in pieces, of any number and size, gives the digest of the whole
    message: the state of a context depends on the bytes only, not on how they arrive. *)
Theorem picohash_piecewise {C : Type} {B : BlockHash C} {D : Digest C B} (local : picohash_ctx C) (pieces : list (list Z)) :
  local_ok local -> Forall sized pieces ->
  exists c c', update_all (picohash_init local) pieces = Some c /\ picohash_final c = Some (digest (concat pieces), c').
Proof.
  intros Hl Hp. destruct (init_ok local Hl) as (Hh & _ & _ & _ & _ & Hf).
  destruct (update_all_ok pieces Hp (picohash_init local) [] Hh) as (h & Hu & Hh'). rewrite Hu. cbn [app] in Hh'.
  destruct (final_ok h _ Hh') as (h' & Hfin & _). eexists _, _. split; [done|]. unfold picohash_final, setter. cbn [_final].
  rewrite Hf. cbn [call_final hash]. by rewrite Hfin.
Qed.

Definition pieces : list (list Z) := [replicate 63 5; []; replicate 70 6; [1]].

Lemma picohash_piecewise_witness : local_ok local2 /\ exists c c',
  update_all (picohash_init local2) pieces = Some c /\ picohash_final c = Some (digest (Digest := Sha256_digest) (concat pieces), c').
Proof.
  assert (local_ok local2) as Hl by (split; reflexivity). split; [exact Hl|].
  apply (picohash_piecewise (D := Sha256_digest) local2 pieces Hl).
  repeat constructor; unfold byte; lia.
Defined.
