(* ===== verification/StunProps.v ===== *)
(** * What STUN messages promise

    The properties of [stun_write], [stun_read] and [stun_check_integrity] as the agent and
    the server use them, for any hash that keeps the interface. *)

From S2P Require Import Prelude Bytes Addr Crc32 Base64 Stun StunWrite StunWriteProps StunEncode StunRead StunSafe StunRoundtrip StunMessages StunIntegrity Hashes.
Open Scope Z_scope.

(** ** Helpers *)

Definition password_ok (password : option (list Z)) : Prop := match password with Some p => is_Some (strlen p) | None => True end.

(** The datagram that is sent. *)
Lemma take_written (a b : list Z) : take (Z.to_nat (zlen a)) (a ++ b) = a.
Proof. unfold zlen. by rewrite Nat2Z.id, take_app_length. Qed.

Lemma cstr_stored v s : Forall (fun c => c ≠ 0) v -> cstr (stored v s) = v.
Proof. intros Hv. by apply cstr_c_str. Qed.

Lemma strlen_stored v s : Forall (fun c => c ≠ 0) v -> strlen (stored v s) = Some (zlen v).
Proof. intros Hv. by apply cstr_c_str. Qed.

(** Writing a string with its NUL at the start of an array. *)
Lemma write_string dst v : zlen v < zlen dst -> wr_bytes dst 0 (v ++ [0]) = Some (stored v dst).
Proof.
  intros Hv. pose proof (wr_bytes_at [] dst (v ++ [0])) as Hw. cbn [app] in Hw. change (zlen (@nil Z)) with 0 in Hw.
  rewrite Hw by (rewrite zlen_app; change (zlen [0]) with 1; lia). unfold stored. rewrite length_app. cbn [length].
  rewrite <- app_assoc. do 2 f_equal. cbn [app]. do 2 f_equal. lia.
Qed.

(** The messages that carry credentials: every request, and the error responses that ask
    for authentication (401 Unauthenticated, 438 Stale Nonce). *)
Definition request (m : stun_message_t) : Prop := msg_class m = STUN_CLASS_REQUEST.
Definition challenge (m : stun_message_t) : Prop := msg_class m = STUN_CLASS_RESP_ERROR /\ (error_code m = 401 \/ error_code m = 438).
(** They carry the list of password algorithms together with a nonce: a challenge always, a
    request when an algorithm was chosen from the list of the challenge. *)
Definition offers_algorithms (m : stun_message_t) : Prop :=
  cstr (nonce (credentials m)) <> [] /\ (challenge m \/ request m /\ password_algorithm (credentials m) <> 0).
(** The nonce of a challenge may announce that user names are to be sent hashed. *)
Definition asks_for_userhash (m : stun_message_t) : Prop :=
  challenge m /\ exists bits, announced_bits (cstr (nonce (credentials m))) = Some bits /\ Z.testbit bits 1 = true.

#[export] Instance request_decision m : Decision (request m).
Proof. unfold request. apply _. Defined.
#[export] Instance challenge_decision m : Decision (challenge m).
Proof. unfold challenge. apply _. Defined.
#[export] Instance offers_algorithms_decision m : Decision (offers_algorithms m).
Proof. unfold offers_algorithms. apply _. Defined.

(** The credentials [c'] that a reader finds in the message [m], field by field. *)
Record same_credentials (m : stun_message_t) (c c' : stun_credentials_t) : Prop := {
  sm_username : cstr (username c') = if decide (request m /\ enable_userhash c = false) then cstr (username c) else [];
  sm_userhash : userhash c' = if decide (request m /\ enable_userhash c = true) then userhash c else replicate 32 0;
  sm_enable : enable_userhash c' = true <-> (request m /\ enable_userhash c = true) \/ asks_for_userhash m;
  sm_realm : cstr (realm c') = if decide (request m \/ challenge m) then cstr (realm c) else [];
  sm_nonce : cstr (nonce c') = if decide (request m \/ challenge m) then cstr (nonce c) else [];
  sm_algorithm : password_algorithm c' =
    if decide (request m /\ offers_algorithms m) then password_algorithm c
    else if decide (request m \/ msg_class m = STUN_CLASS_INDICATION) then STUN_PASSWORD_ALGORITHM_MD5
    else STUN_PASSWORD_ALGORITHM_UNSET;
  sm_algorithms : take (Z.to_nat (password_algorithms_value_size c')) (password_algorithms_value c') =
    if decide (offers_algorithms m) then [0; 2; 0; 0; 0; 1; 0; 0] else [];
  sm_algorithms_size : password_algorithms_value_size c' = if decide (offers_algorithms m) then 8 else 0 }.

(** The message [m'] that a reader finds when [m] was sent, field by field. *)
Record same_message (m m' : stun_message_t) : Prop := {
  sm_class : msg_class m' = msg_class m;
  sm_method : msg_method m' = msg_method m;
  sm_id : transaction_id m' = transaction_id m;
  sm_error : error_code m' = error_code m;
  sm_mapped : mapped m' = wire_record (mapped m);
  sm_priority : priority m' = priority m;
  sm_candidate : use_candidate m' = use_candidate m;
  sm_controlling : ice_controlling m' = ice_controlling m;
  sm_controlled : ice_controlled m' = ice_controlled m;
  sm_channel : channel_number m' = channel_number m;
  sm_lifetime : lifetime m' = lifetime m;
  sm_lifetime_set : lifetime_set m' = true <-> lifetime_set m = true \/ lifetime m <> 0;
  sm_peers_size : peers_size m' = peers_size m;
  sm_peers : take (Z.to_nat (peers_size m')) (peers m') = map wire_record (take (Z.to_nat (peers_size m)) (peers m));
  sm_relayed : relayed m' = wire_record (relayed m);
  sm_alternate : alternate_server m' = zero_record;
  sm_data : data_matches m (data m');
  sm_data_size : data_size m' = match data m with Some _ => data_size m | None => 0 end;
  sm_token : reservation_token m' = reservation_token m;
  sm_transport : requested_transport m' = requested_transport m;
  sm_fragment : dont_fragment m' = dont_fragment m;
  sm_even_port : even_port m' = false /\ next_port m' = false;
  sm_credentials : same_credentials m (credentials m) (credentials m') }.

Lemma is_request_true m : is_request m = true <-> request m.
Proof. apply Z.eqb_eq. Qed.

Lemma is_challenge_true m : is_challenge m = true <-> challenge m.
Proof. unfold is_challenge, challenge. rewrite andb_true_iff, orb_true_iff, !Z.eqb_eq. done. Qed.

Lemma sends_nonce_true m : sends_nonce m = true <-> (request m \/ challenge m) /\ cstr (nonce (credentials m)) <> [].
Proof.
  unfold sends_nonce. rewrite andb_true_iff, orb_true_iff, is_request_true, is_challenge_true.
  destruct (cstr (nonce _)); cbn; naive_solver.
Qed.

Lemma request_not_challenge m : request m -> ~ challenge m.
Proof. unfold request, challenge. intros ->. by intros []. Qed.

Lemma sends_algorithms_true m : message_ok m -> sends_algorithms m = true <-> offers_algorithms m.
Proof.
  intros Hok. pose proof (cok_algorithm _ (mok_credentials _ Hok)). pose proof (request_not_challenge m).
  unfold sends_algorithms, offers_algorithms. rewrite andb_true_iff, orb_true_iff, negb_true_iff, <- not_true_iff_false, is_request_true, sends_nonce_true, Z.ltb_lt.
  intuition lia.
Qed.

Lemma if_bool {A} (b : bool) (P : Prop) `{Decision P} (x y : A) : b = true <-> P -> (if b then x else y) = if decide P then x else y.
Proof. intros Hb. destruct b, (decide P); naive_solver. Qed.

Lemma sent_bits_userhash m : negb (Z.land (sent_bits m) STUN_SECURITY_USERNAME_ANONYMITY_BIT =? 0) = true <-> asks_for_userhash m.
Proof.
  assert (forall b, negb (Z.land b STUN_SECURITY_USERNAME_ANONYMITY_BIT =? 0) = true <-> Z.testbit b 1 = true) as Hbit.
  { intros b. change STUN_SECURITY_USERNAME_ANONYMITY_BIT with (2 ^ 1). rewrite negb_true_iff, Z.eqb_neq.
    rewrite <- not_false_iff_true. apply not_iff_compat. split.
    - intros Hz. pose proof (Z.land_spec b (2 ^ 1) 1) as Hl. by rewrite Hz, Z.bits_0, Z.pow2_bits_true, andb_true_r in Hl by lia.
    - intros Hz. apply Z.bits_inj'. intros k Hk. rewrite Z.land_spec, Z.bits_0, Z.pow2_bits_eqb by lia.
      destruct (Z.eqb_spec 1 k) as [<-|]; [by rewrite Hz|apply andb_false_r]. }
  rewrite Hbit. unfold sent_bits, asks_for_userhash. rewrite <- is_challenge_true. destruct (is_challenge m).
  - destruct (announced_bits _) as [bits|]; cbn [default]; [|rewrite Z.bits_0]; naive_solver.
  - rewrite Z.bits_0. naive_solver.
Qed.

Lemma sent_algorithm_read m (unset : bool) : unset = true <-> request m \/ msg_class m = STUN_CLASS_INDICATION ->
  let sent := if sends_nonce m && is_request m then password_algorithm (credentials m) else 0 in
  (if unset && (sent =? 0) then STUN_PASSWORD_ALGORITHM_MD5 else sent) =
    if decide (request m /\ offers_algorithms m) then password_algorithm (credentials m)
    else if decide (request m \/ msg_class m = STUN_CLASS_INDICATION) then STUN_PASSWORD_ALGORITHM_MD5
    else STUN_PASSWORD_ALGORITHM_UNSET.
Proof.
  intros Hu. pose proof (request_not_challenge m) as Hex. cbv zeta. case_decide as Ho.
  - destruct Ho as (Hr & Hn & [Hc|[_ Ha]]); [by apply Hex in Hc|].
    assert (sends_nonce m = true) as -> by (apply sends_nonce_true; auto).
    rewrite (proj2 (is_request_true m) Hr). cbn [andb]. by rewrite (proj2 (Z.eqb_neq _ 0)), andb_false_r by done.
  - assert ((if sends_nonce m && is_request m then password_algorithm (credentials m) else 0) = 0) as ->.
    { destruct (sends_nonce m && is_request m) eqn:Hs; [|done]. apply andb_true_iff in Hs as [[_ Hs]%sends_nonce_true Hr%is_request_true].
      destruct (decide (password_algorithm (credentials m) = 0)); [done|]. destruct Ho. unfold offers_algorithms. auto. }
    rewrite andb_true_r. by apply if_bool.
Qed.

Lemma read_credentials_same m : message_ok m ->
  same_credentials m (credentials m) (read_credentials m (negb (Z.land (sent_bits m) STUN_SECURITY_USERNAME_ANONYMITY_BIT =? 0))).
Proof.
  intros Hok. pose proof (sends_algorithms_true m Hok) as Ha. pose proof (request_not_challenge m) as Hex.
  assert (STUN_IS_RESPONSE (msg_class m) = false <-> request m \/ msg_class m = STUN_CLASS_INDICATION) as Hresp.
  { unfold request. destruct (class_cases m Hok) as [-> | [-> | [-> | ->]]]; split; first [by auto|by intros []]. }
  unfold read_credentials, sent_credentials. constructor; cbn.
  - rewrite (if_bool _ (request m /\ enable_userhash (credentials m) = false)) by (rewrite andb_true_iff, negb_true_iff, is_request_true; done).
    case_decide; [apply cstr_stored, cstr_nonzero|done].
  - apply if_bool. by rewrite andb_true_iff, is_request_true.
  - rewrite orb_true_iff, andb_true_iff, is_request_true, sent_bits_userhash. done.
  - rewrite (if_bool _ (request m \/ challenge m)) by (by rewrite orb_true_iff, is_request_true, is_challenge_true).
    case_decide; [apply cstr_stored, cstr_nonzero|done].
  - destruct (sends_nonce m) eqn:Hn.
    + apply sends_nonce_true in Hn as [Hn _]. rewrite decide_True by done. apply cstr_stored, cstr_nonzero.
    + case_decide as Hd; [|done]. destruct (cstr (nonce (credentials m))) eqn:Hc; [done|].
      assert (sends_nonce m = true) by (apply sends_nonce_true; by rewrite Hc). congruence.
  - apply sent_algorithm_read. by rewrite negb_true_iff, Hresp.
  - rewrite (if_bool _ (offers_algorithms m) _ (replicate 256 0)), (if_bool _ (offers_algorithms m) 8 0) by done. by case_decide.
  - by apply if_bool.
Qed.

Lemma read_message_same m d password : message_ok m -> data_matches m d ->
  same_message m (read_message m d (negb (Z.land (sent_bits m) STUN_SECURITY_USERNAME_ANONYMITY_BIT =? 0)) password).
Proof.
  intros Hok Hd. pose proof (mok_peers_size m Hok). pose proof (mok_peers m Hok) as Hp.
  assert (zlen (sent_peers m) = peers_size m) as Hs.
  { unfold sent_peers, zlen. rewrite length_map, length_take. destruct Hp as [-> _]. unfold STUN_MAX_PEER_ADDRESSES in *. lia. }
  unfold read_message. constructor; try done; cbn.
  - rewrite orb_true_iff, negb_true_iff, Z.eqb_neq. done.
  - unfold zlen. rewrite Nat2Z.id. by rewrite take_app_length.
  - by apply read_credentials_same.
Qed.

(** The first two bits of a nibble are zero. *)
Lemma low_nibble x : in_range 4 x -> Z.land x 192 = 0.
Proof.
  intros Hx. unfold in_range in Hx. rewrite <- (Z.mod_small x (2 ^ 4)), <- Z.land_ones, <- Z.land_assoc by lia. apply Z.land_0_r.
Qed.

Lemma zero_wf_flag : message_wf (zero_message <| has_integrity := true |>).
Proof. destruct zero_wf. by constructor. Qed.

Section props.
Context {H : Hash} {HO : HashOk H}.

(** C17. [stun_write] refines the message format: into a buffer the message fits in it writes
    exactly [encode m] (the header, then the attributes of RFC 8489 in their order, each
    padded to four bytes, the HMACs over what precedes them and the fingerprint last),
    changes nothing behind it and returns its length. *)
Theorem stun_write_refines (buf : list Z) (size uninit : Z) (m : stun_message_t) (password : option (list Z)) :
  message_ok m -> password_ok password ->
  zlen (encode uninit m password) <= size -> size <= zlen buf -> size < 65536 ->
  stun_write buf size uninit m password =
    Some (zlen (encode uninit m password), encode uninit m password ++ drop (length (encode uninit m password)) buf).
Proof. intros. by apply stun_write_encode. Qed.

(** C11. What one end writes the other end reads: of a message written by [stun_write] and
    sent, [stun_read] delivers a message of which [same_message] determines every field.
    Header, error code, addresses, peers, ICE attributes, TURN attributes and the data with
    its size are those of the sender; the credentials are those that the class and error
    code call for (user name or its hash in requests, realm and nonce in requests and in
    the challenges 401 and 438, the list of password algorithms in challenges and in
    requests that chose one), and are empty otherwise.  Requests and indications without an
    algorithm read as MD5, and a challenge whose nonce announces user name anonymity reads
    as asking for user hashes.  The fingerprint is seen, and an integrity attribute exactly
    when the message was signed. *)
Theorem stun_roundtrip (buf : list Z) (size uninit : Z) (m : stun_message_t) (password : option (list Z)) :
  sendable m -> password_ok password ->
  zlen (encode uninit m password) <= size -> size <= zlen buf -> size < 65000 ->
  exists n written m', stun_write buf size uninit m password = Some (n, written) /\
    stun_read (take (Z.to_nat n) written) n = Some (n, take (Z.to_nat n) written, m') /\
    same_message m m' /\ has_fingerprint m' = true /\ has_integrity m' = signed m password.
Proof.
  intros Hm Hp He Hs H65. pose proof (zlen_nonneg (encode uninit m password)) as H0.
  destruct (read_encode m Hm uninit password Hp) as (d & Hr & Hd); [lia|]. set (a := negb _) in Hr.
  eexists _, _, (read_message m d a password). split; [apply stun_write_encode; [apply Hm|done|done|done|lia]|].
  rewrite take_written. split; [exact Hr|].
  split; [apply read_message_same; [apply Hm|done]|]. done.
Qed.

(** C12. Whatever bytes arrive, [stun_read] touches only the datagram and its own arrays, gives
    back the buffer as it was (it patches the length field for the fingerprint), returns
    either -1 or the size of a message inside the datagram, and leaves a well-formed message
    structure: NUL-terminated strings, counters within their arrays. *)
Theorem stun_read_safe (buf : list Z) (size : Z) : Forall byte buf -> 0 <= size <= zlen buf -> size < 2147483648 ->
  exists ret m, stun_read buf size = Some (ret, buf, m) /\ message_wf m /\ (ret = -1 \/ 20 <= ret <= size).
Proof.
  intros Hb Hs H31. destruct (stun_read_ok buf Hb size Hs H31) as (ret & m & Hr & Hm & Hret). exists ret, m.
  split; [done|]. split; [done|]. destruct Hret as [->|(l & _ & _ & Hr' & _)]; [by left|by right].
Qed.

(** C35. After [stun_read] accepted a datagram, [stun_check_integrity] on it terminates without
    leaving the buffer, whatever password and whatever well-formed credentials are used. *)
Theorem stun_check_integrity_safe (buf : list Z) (size : Z) (ret : Z) (buf' : list Z) (m m' : stun_message_t) (password : option (list Z)) :
  Forall byte buf -> 0 <= size <= zlen buf -> size < 2147483648 -> stun_read buf size = Some (ret, buf', m) -> 0 < ret ->
  message_wf m' -> password_ok password -> is_Some (stun_check_integrity buf size m' password).
Proof.
  intros Hb Hs H31 Hr Hpos Hm' Hp. destruct (stun_read_ok buf Hb size Hs H31) as (ret' & m2 & Hr' & _ & Hret).
  rewrite Hr in Hr'. injection Hr' as <- -> <-. destruct Hret as [->|(l & Hl & Hret & Hle & Hwalk)]; [lia|].
  unfold stun_check_integrity. destruct (has_integrity m'); cbn [negb]; [|by eexists]. rewrite Hl. cbn [mbind option_bind].
  unfold sizeof_stun_header. destruct (Z.ltb_spec size (20 + get_be l)); [by eexists|].
  destruct (generate_hmac_key_some (credentials m') password) as [key ->];
    [apply (wf_username m' Hm')|apply (wf_realm m' Hm')|destruct (wf_realm m' Hm') as (Hl' & _); unfold zlen; rewrite Hl'; done|done|].
  cbn [mbind option_bind]. rewrite <- Hret. apply check_attrs_ok; (done || lia).
Qed.

(** C10. A message that [stun_check_integrity] accepts carries, at some attribute of it, the
    HMAC-SHA1 or HMAC-SHA256 of everything before that attribute (with the length field
    counting up to the end of the attribute) under the key of the credentials: without the
    key no message is accepted unless an HMAC is forged. *)
Theorem stun_integrity_sound (buf : list Z) (size : Z) (m : stun_message_t) (password : option (list Z)) :
  Forall byte buf -> size <= zlen buf -> zlen buf < 2147483648 -> stun_check_integrity buf size m password = Some true ->
  exists key pos, generate_hmac_key (credentials m) password = Some key /\ 20 <= pos < size /\
    (hmac_at buf pos HMAC_SHA1_SIZE hmac_sha1 key \/ hmac_at buf pos HMAC_SHA256_SIZE hmac_sha256 key).
Proof.
  intros Hb Hs H31 Hc. unfold stun_check_integrity in Hc. destruct (has_integrity m); cbn [negb] in Hc; [|done].
  destruct (rd_bytes buf 2 2) as [l|] eqn:Hl; [|done]. cbn [mbind option_bind] in Hc. unfold sizeof_stun_header in Hc.
  destruct (Z.ltb_spec size (20 + get_be l)); [done|]. destruct (generate_hmac_key _ _) as [key|]; [|done]. cbn [mbind option_bind] in Hc.
  apply check_attrs_sound in Hc; [|done|lia|lia|done]. destruct Hc as [|(pos & Hpos & Hh)]; [done|].
  exists key, pos. split; [done|]. split; [lia|done].
Qed.

(** C25. Short-term credentials, the ICE connectivity check: a message without realm that was
    signed with a password and sent is accepted by a peer that has read it and checks it
    with the same password. *)
Theorem stun_short_term_accepted (buf : list Z) (size uninit : Z) (m : stun_message_t) (password : list Z) :
  sendable m -> is_Some (strlen password) -> signed m (Some password) = true -> cstr (realm (credentials m)) = [] ->
  zlen (encode uninit m (Some password)) <= size -> size <= zlen buf -> size < 65000 ->
  exists n written m', stun_write buf size uninit m (Some password) = Some (n, written) /\
    stun_read (take (Z.to_nat n) written) n = Some (n, take (Z.to_nat n) written, m') /\
    stun_check_integrity (take (Z.to_nat n) written) n m' (Some password) = Some true.
Proof.
  intros Hm Hp Hsig Hrealm He Hs H65. pose proof (sd_ok m Hm) as Hok. pose proof (zlen_nonneg (encode uninit m (Some password))) as H0.
  destruct (read_encode m Hm uninit (Some password) Hp) as (d & Hr & Hd); [lia|]. set (a := negb _) in Hr.
  assert (forall c, cstr (realm c) = [] -> length (realm c) = 764%nat -> generate_hmac_key c (Some password) = Some (snprintf MAX_HMAC_KEY_LEN (cstr password))) as Hkey.
  { intros c Hc Hl. unfold generate_hmac_key, string_at. destruct Hp as [n Hn]. rewrite Hn. cbn [mbind option_bind].
    destruct (realm c) as [|r0 rs]; [done|]. cbn [cstr] in Hc. destruct (Z.eqb_spec r0 0) as [->|]; done. }
  destruct (cok_realm _ (mok_credentials _ Hok)) as (Hrl & _).
  assert (generate_hmac_key (read_credentials m a) (Some password) = Some (snprintf MAX_HMAC_KEY_LEN (cstr password))) as Hk'.
  { apply Hkey; unfold read_credentials, sent_credentials, setter; cbn [realm]; destruct (_ || _); rewrite ?Hrealm; by vm_compute. }
  pose proof (check_integrity_encode uninit m (Some password) (read_message m d a (Some password)) (Some password) _
    Hok Hsig (Hkey _ Hrealm Hrl) Hsig Hk') as Hc. cbv zeta in Hc.
  eexists _, _, (read_message m d a (Some password)). split; [apply stun_write_encode; [done|done|done|done|lia]|].
  rewrite take_written. split; [exact Hr|apply Hc; lia].
Qed.
(** When the message fits but its fingerprint does not, [stun_write] does not report the
    failure: the position is unsigned, so the -1 of the last attribute moves it back by one
    byte, and the call returns the length of a message cut by one byte whose header
    announces eight bytes more than what was written. *)
Theorem stun_write_truncated (buf : list Z) (size uninit : Z) (m : stun_message_t) (password : option (list Z)) :
  message_ok m -> password_ok password ->
  zlen (encode uninit m password) - 8 <= size < zlen (encode uninit m password) -> size <= zlen buf -> size < 65528 ->
  exists written, stun_write buf size uninit m password = Some (zlen (encode uninit m password) - 9, written) /\
    take (length (encode uninit m password) - 8) written = take (length (encode uninit m password) - 8) (encode uninit m password).
Proof.
  intros Hm Hp Hs Hbuf H64. destruct (mok_id m Hm) as [Hid _]. unfold encode in *. cbv zeta in *.
  set (b := add_integrity m password (encode_attrs (plain_attrs uninit m))).
  pose proof (add_fingerprint_length m b) as Hf. change (add_fingerprint m b) with (encode_body uninit m password) in Hf.
  pose proof (header_length m (zlen b + 8) Hid) as Hh. rewrite Hf, zlen_app, Hh, Hf in Hs |- *. pose proof (zlen_nonneg b) as H0.
  destruct (stun_write_no_room buf size uninit m password Hm Hp) as (w & Hw & Ht); [fold b; lia|done|done|]. fold b in Hw, Ht.
  exists w. split; [rewrite Hw; do 2 f_equal; lia|].
  replace (length (header m (zlen b + 8) ++ encode_body uninit m password) - 8)%nat with (length b + 20)%nat
    by (rewrite length_app; unfold zlen in *; lia).
  rewrite Ht. unfold encode_body. fold b. unfold add_fingerprint. rewrite app_assoc, take_app_le by (rewrite length_app; unfold zlen in *; lia).
  rewrite take_ge; [done|]. rewrite length_app. unfold zlen in *. lia.
Qed.

(** Whatever else arrives on the socket, a message written by [stun_write] is taken for
    STUN: its first two bits are zero, the magic cookie is in place and the length field is a
    multiple of four that matches the datagram. *)
Theorem is_stun_datagram_encode (m : stun_message_t) (uninit : Z) (password : option (list Z)) :
  message_ok m -> msg_method m < 4096 -> password_ok password -> zlen (encode uninit m password) < 65536 ->
  is_stun_datagram (encode uninit m password) (zlen (encode uninit m password)) = Some true.
Proof.
  intros Hm H4096 Hp H64. destruct (mok_id m Hm) as [Hid _]. unfold encode in *. cbv zeta in *.
  set (b := add_integrity m password (encode_attrs (plain_attrs uninit m))).
  pose proof (add_fingerprint_length m b) as Hf. change (add_fingerprint m b) with (encode_body uninit m password) in Hf.
  assert (zlen b mod 4 = 0) as Hal by apply add_integrity_aligned, encode_attrs_aligned.
  pose proof (header_length m (zlen (encode_body uninit m password)) Hid) as Hh. pose proof (zlen_nonneg b) as H0.
  rewrite zlen_app, Hh in H64 |- *. set (n := zlen (encode_body uninit m password)) in *.
  unfold is_stun_datagram, sizeof_stun_header. destruct (Z.eqb_spec (20 + n) 0); [lia|].
  set (ty := Z.lor (msg_class m) (msg_method m)).
  set (body := transaction_id m ++ encode_body uninit m password).
  assert (header m n ++ encode_body uninit m password = be16 ty ++ be16 n ++ be32 STUN_MAGIC ++ body) as ->
    by (unfold header, body; by rewrite <- !app_assoc).
  change (rd (be16 ty ++ be16 n ++ be32 STUN_MAGIC ++ body) 0) with (Some (u8 (Z.shiftr ty 8))). cbn [mbind option_bind].
  assert (in_range 4 (Z.shiftr ty 8)) as Hr.
  { apply in_range_bits; [lia|apply Z.shiftr_nonneg, Z.lor_nonneg; pose proof (mok_method m Hm); split; [destruct (class_cases m Hm) as [-> | [-> | [-> | ->]]]; lia|lia]|].
    intros k Hk. rewrite Z.shiftr_spec by lia. apply (testbit_out 12); [|lia]. apply in_range_lor; [lia| |].
    - destruct (class_cases m Hm) as [-> | [-> | [-> | ->]]]; unfold in_range; lia.
    - pose proof (mok_method m Hm). unfold in_range. lia. }
  rewrite u8_small by (unfold in_range in Hr; lia). rewrite low_nibble by done. change (negb (0 =? 0)) with false. cbv iota.
  destruct (Z.ltb_spec (20 + n) 20); [lia|].
  change 4 with (zlen (be16 ty ++ be16 n)) at 1. rewrite (app_assoc (be16 ty)), rd_bytes_app by done. cbn [mbind option_bind].
  change (negb (get_be (be32 STUN_MAGIC) =? STUN_MAGIC)) with false. cbv iota. rewrite <- app_assoc.
  change 2 with (zlen (be16 ty)) at 1. rewrite rd_bytes_app by done. cbn [mbind option_bind]. rewrite get_be_be16 by lia.
  rewrite land3. replace (n mod 4) with 0 by (Z.to_euclidean_division_equations; lia). change (negb (0 =? 0)) with false. cbv iota.
  by rewrite Z.eqb_refl.
Qed.

(** A nonce with the cookie that [stun_prepend_nonce_cookie] puts before it is still a
    C string in its array, keeps the text it had (cut to 750 characters), and tells every
    reader of a response both security features: password algorithms and username
    anonymity. *)
Theorem stun_nonce_cookie (local nonce0 : list Z) : length local = 764%nat -> char_array 764 nonce0 -> cstr nonce0 <> [] ->
  exists nonce', stun_prepend_nonce_cookie local nonce0 = Some nonce' /\ char_array 764 nonce' /\
    cstr nonce' = STUN_NONCE_COOKIE ++ bytes_of_string "AAAD" ++ take 750 (cstr nonce0) /\
    forall s, nonce (credentials (r_msg s)) = nonce' -> STUN_IS_RESPONSE (msg_class (r_msg s)) = true ->
      read_security_bits s = Some (Break (s <| r_bits := Z.lor STUN_SECURITY_PASSWORD_ALGORITHMS_BIT STUN_SECURITY_USERNAME_ANONYMITY_BIT |>)).
Proof.
  intros Hl Hn Hne. pose proof (cstr_nonzero nonce0) as Hnz. destruct (cstr_ok _ _ Hn) as [Hcb Hcl].
  pose proof Hn as (Hnl & _ & Hs). destruct (string_split nonce0 Hs) as [Hs1 _].
  unfold stun_prepend_nonce_cookie, strcpy, string_at. rewrite Hs1. cbn [mbind option_bind].
  rewrite write_string by (unfold zlen in *; lia). cbn [mbind option_bind].
  rewrite cstr_stored, strlen_stored by done.
  change (rd_bytes (be32 _) 1 3) with (Some [0; 0; 3]). cbn [mbind option_bind].
  change (juice_base64_encode [0; 0; 3] 5) with (Some (4, bytes_of_string "AAAD" ++ [0])). cbn [mbind option_bind].
  change (strlen (bytes_of_string "AAAD" ++ [0])) with (Some 4). change (cstr (bytes_of_string "AAAD" ++ [0])) with (bytes_of_string "AAAD").
  cbn [mbind option_bind]. change (Z.to_nat (STUN_MAX_NONCE_LEN - (STUN_NONCE_COOKIE_LEN + 5))) with 750%nat.
  set (t := take 750 (cstr nonce0)). set (v := STUN_NONCE_COOKIE ++ bytes_of_string "AAAD" ++ t).
  assert (zlen v = 13 + zlen t) as Hv by (unfold v; rewrite !zlen_app; change (zlen STUN_NONCE_COOKIE) with 9; change (zlen (bytes_of_string "AAAD")) with 4; lia).
  assert (0 < zlen t <= 750) as Ht.
  { unfold t, zlen. rewrite length_take. destruct (cstr nonce0); [done|]. cbn [length]. lia. }
  unfold snprintf. rewrite take_ge by (change (Z.to_nat (STUN_MAX_NONCE_LEN - 1)) with 763%nat; unfold zlen in *; lia).
  rewrite write_string by (unfold zlen in *; lia).
  assert (Forall byte v) as Hvb by (unfold v; rewrite !Forall_app; split_and!; [apply string_bytes..|by apply Forall_take]).
  assert (Forall (fun c => c <> 0) v) as Hvn.
  { unfold v. rewrite !Forall_app. split_and!; [vm_compute; repeat constructor; discriminate..|by apply Forall_take]. }
  exists (stored v nonce0). split; [done|]. split; [apply stored_char_array; [done|done|lia]|].
  split; [by apply cstr_stored|]. intros s Hn' Hresp. unfold read_security_bits. rewrite Hn', Hresp.
  rewrite strlen_stored by done. cbn [mbind option_bind andb].
  unfold STUN_NONCE_COOKIE_LEN. destruct (Z.ltb_spec (9 + 4) (zlen v)); [|lia]. cbn [andb].
  rewrite bool_decide_true by done.
  assert (rd_bytes (stored v nonce0) 9 4 = Some (bytes_of_string "AAAD")) as ->.
  { unfold stored, v. rewrite <- (app_assoc STUN_NONCE_COOKIE), <- app_assoc. by apply (rd_bytes_app STUN_NONCE_COOKIE). }
  reflexivity.
Qed.
End props.

(** ** The theorems at work

    A connectivity check, signed with the hash functions of the library. *)

Definition sample_credentials : stun_credentials_t :=
  zero_credentials <| username := stored (bytes_of_string "them:us") (replicate 514 0) |> <| nonce := stored (bytes_of_string "abc") (replicate 764 0) |>.
Definition sample : stun_message_t :=
  zero_message <| msg_method := STUN_METHOD_BINDING |> <| transaction_id := [1; 2; 3; 4; 5; 6; 7; 8; 9; 10; 11; 12] |>
    <| priority := 0x6e001eff |> <| ice_controlling := 0x123456789abcdef |> <| use_candidate := true |>
    <| mapped := Addr_record (Sin 0x3412 [192; 0; 2; 1]) sizeof_sockaddr_in SOCK_DGRAM |> <| credentials := sample_credentials |>.
Definition sample_password : list Z := c_str (bytes_of_string "VOkJxbRl1RmTxUk/WvJxBt").
Definition sample_buffer : list Z := replicate 300 255.

Ltac evaluate := first [apply (bool_decide_eq_true_1 _); vm_compute; reflexivity | vm_compute; split_and!; first [reflexivity | discriminate] | vm_compute; by eexists].

Lemma sample_ok : message_ok sample.
Proof.
  split; try evaluate.
  - split; split_and?; evaluate.
  - split; [done|]. repeat constructor; discriminate.
Qed.

Lemma sample_sendable : sendable sample.
Proof.
  split; try evaluate.
  - exact sample_ok.
  - constructor.
Qed.

Abbreviation datagram := (encode 0 sample (Some sample_password)).

Lemma sample_password_ok : password_ok (Some sample_password).
Proof. vm_compute. by eexists. Qed.

Lemma stun_write_refines_witness : zlen datagram = 120 /\
  stun_write sample_buffer 300 0 sample (Some sample_password) = Some (zlen datagram, datagram ++ drop (length datagram) sample_buffer).
Proof.
  split; [vm_compute; reflexivity|].
  apply stun_write_refines; [exact sample_ok|exact sample_password_ok|vm_compute; discriminate|vm_compute; discriminate|reflexivity].
Defined.

(** A challenge: realm, a nonce with the cookie that announces password algorithms and user
    hashes, the list of algorithms. *)
Definition sample_challenge : stun_message_t :=
  zero_message <| msg_class := STUN_CLASS_RESP_ERROR |> <| msg_method := STUN_METHOD_ALLOCATE |> <| error_code := 401 |>
    <| transaction_id := [1; 2; 3; 4; 5; 6; 7; 8; 9; 10; 11; 12] |> <| lifetime_set := true |>
    <| credentials := zero_credentials <| realm := stored (bytes_of_string "example.org") (replicate 764 0) |>
                                       <| nonce := stored (STUN_NONCE_COOKIE ++ bytes_of_string "AAADxyz") (replicate 764 0) |> |>.

Lemma sample_challenge_sendable : sendable sample_challenge.
Proof.
  split; try evaluate; [|constructor].
  split; try evaluate.
  - split; split_and?; evaluate.
  - split; [done|]. repeat constructor; discriminate.
Qed.

(** A signed request, and a challenge with data that the client finds. *)
Lemma stun_roundtrip_witness : (exists n written m',
  stun_write sample_buffer 300 0 sample (Some sample_password) = Some (n, written) /\
  stun_read (take (Z.to_nat n) written) n = Some (n, take (Z.to_nat n) written, m') /\
  same_message sample m' /\ has_fingerprint m' = true /\ has_integrity m' = signed sample (Some sample_password)) /\
  exists n written m', stun_write sample_buffer 300 0 sample_challenge None = Some (n, written) /\
    stun_read (take (Z.to_nat n) written) n = Some (n, take (Z.to_nat n) written, m') /\
    cstr (realm (credentials m')) = bytes_of_string "example.org" /\ cstr (nonce (credentials m')) = STUN_NONCE_COOKIE ++ bytes_of_string "AAADxyz" /\
    enable_userhash (credentials m') = true /\ password_algorithms_value_size (credentials m') = 8 /\ has_integrity m' = false.
Proof.
  split.
  - apply (stun_roundtrip sample_buffer 300 0 sample (Some sample_password));
      [exact sample_sendable|exact sample_password_ok|vm_compute; discriminate|vm_compute; discriminate|reflexivity].
  - destruct (stun_roundtrip sample_buffer 300 0 sample_challenge None) as (n & written & m' & Hw & Hr & Hm & _ & Hi);
      [exact sample_challenge_sendable|exact I|vm_compute; discriminate|vm_compute; discriminate|reflexivity|].
    exists n, written, m'. split; [exact Hw|]. split; [exact Hr|]. destruct (sm_credentials _ _ Hm). split_and!.
    + rewrite sm_realm0. vm_compute. reflexivity.
    + rewrite sm_nonce0. vm_compute. reflexivity.
    + apply sm_enable0. right. split; [vm_compute; split; [reflexivity|left; reflexivity]|]. exists 3. split; vm_compute; reflexivity.
    + rewrite sm_algorithms_size0. vm_compute. reflexivity.
    + rewrite Hi. vm_compute. reflexivity.
Defined.

(** A datagram whose last attribute claims more bytes than there are. *)
Lemma stun_read_safe_witness : let buf := take 25 datagram in Forall byte buf /\
  exists ret m, stun_read buf 25 = Some (ret, buf, m) /\ message_wf m /\ (ret = -1 \/ 20 <= ret <= 25).
Proof.
  assert (Forall byte (take 25 datagram)) as Hb by (vm_compute; repeat constructor; discriminate). split; [exact Hb|].
  apply (stun_read_safe _ 25 Hb); [vm_compute; split; discriminate|reflexivity].
Defined.

Lemma stun_check_integrity_safe_witness : is_Some (stun_check_integrity datagram 120 (zero_message <| has_integrity := true |>) None).
Proof.
  assert (exists m, stun_read datagram 120 = Some (120, datagram, m)) as [m Hr] by (vm_compute; by eexists).
  apply (stun_check_integrity_safe datagram 120 120 datagram m); [vm_compute; repeat constructor; discriminate|vm_compute; split; discriminate|reflexivity|exact Hr|reflexivity| |exact I].
  apply zero_wf_flag.
Defined.

Lemma stun_integrity_sound_witness : exists key pos, generate_hmac_key (credentials (sample <| has_integrity := true |>)) (Some sample_password) = Some key /\ 20 <= pos < 120 /\
  (hmac_at datagram pos HMAC_SHA1_SIZE hmac_sha1 key \/ hmac_at datagram pos HMAC_SHA256_SIZE hmac_sha256 key).
Proof.
  apply (stun_integrity_sound datagram 120 (sample <| has_integrity := true |>) (Some sample_password));
    [vm_compute; repeat constructor; discriminate|vm_compute; discriminate|reflexivity|vm_compute; reflexivity].
Defined.

Lemma stun_short_term_accepted_witness : exists n written m',
  stun_write sample_buffer 300 0 sample (Some sample_password) = Some (n, written) /\
  stun_read (take (Z.to_nat n) written) n = Some (n, take (Z.to_nat n) written, m') /\
  stun_check_integrity (take (Z.to_nat n) written) n m' (Some sample_password) = Some true.
Proof.
  apply (stun_short_term_accepted sample_buffer 300 0 sample sample_password);
    [exact sample_sendable|exact sample_password_ok|reflexivity|reflexivity|vm_compute; discriminate|vm_compute; discriminate|reflexivity].
Defined.

Lemma stun_write_truncated_witness : exists written,
  stun_write sample_buffer 115 0 sample (Some sample_password) = Some (zlen datagram - 9, written) /\
  take (length datagram - 8) written = take (length datagram - 8) datagram.
Proof.
  apply (stun_write_truncated sample_buffer 115 0 sample (Some sample_password));
    [exact sample_ok|exact sample_password_ok|vm_compute; split; [discriminate|reflexivity]|vm_compute; discriminate|reflexivity].
Defined.

Lemma is_stun_datagram_encode_witness : is_stun_datagram datagram (zlen datagram) = Some true.
Proof. apply is_stun_datagram_encode; [exact sample_ok|reflexivity|exact sample_password_ok|vm_compute; reflexivity]. Defined.

Lemma stun_nonce_cookie_witness : char_array 764 (nonce sample_credentials) /\ exists nonce',
  stun_prepend_nonce_cookie (replicate 764 170) (nonce sample_credentials) = Some nonce' /\ char_array 764 nonce' /\
  cstr nonce' = STUN_NONCE_COOKIE ++ bytes_of_string "AAAD" ++ take 750 (cstr (nonce sample_credentials)) /\
  forall s, nonce (credentials (r_msg s)) = nonce' -> STUN_IS_RESPONSE (msg_class (r_msg s)) = true ->
    read_security_bits s = Some (Break (s <| r_bits := Z.lor STUN_SECURITY_PASSWORD_ALGORITHMS_BIT STUN_SECURITY_USERNAME_ANONYMITY_BIT |>)).
Proof.
  assert (char_array 764 (nonce sample_credentials)) as Hn by (split; split_and?; evaluate). split; [exact Hn|].
  apply (stun_nonce_cookie (replicate 764 170) _ eq_refl Hn). vm_compute. discriminate.
Defined.
