(* ===== verification/Tcp.v ===== *)
(** * ICE over TCP: RFC 4571 framing (libjuice [src/tcp.c], [src/conn_poll.c])

    [tcp_ice_write] and [tcp_ice_read] with their contexts.  The kernel is an oracle: a list
    of results of [send], and a list of what [recv] finds.  Datagrams come out as they went
    in, as long as no header is cut in two. *)

From S2P Require Import Prelude Bytes.
Open Scope Z_scope.

Definition TCP_ICE_BUFFER_SIZE : Z := 2048.
Definition BUFFER_SIZE : Z := 1024.
Definition SEAGAIN : Z := 11.
Definition SEMSGSIZE : Z := 90.

(** ** Writing *)

Record tcp_ice_write_context_t := Write_context {
  w_buffer : list Z; (* char [TCP_ICE_BUFFER_SIZE] *)
  w_length : Z; (* uint16_t *)
  bytes_written : Z; (* uint16_t *)
  w_pending : bool }.

#[export] Instance write_context_eta : RecordEta tcp_ice_write_context_t := fun c =>
  Write_context (w_buffer c) (w_length c) (bytes_written c) (w_pending c).

(** The socket of a writer: how many bytes each coming [send] takes (a negative number when it
    fails; it fails when none is left), and the bytes taken so far. *)
Record wsock := Wsock { results : list Z; wire : list Z }.

Definition send (s : wsock) (bytes : list Z) : Z * wsock :=
  match results s with
  | [] => (-1, s)
  | r :: rs => if r <? 0 then (-1, Wsock rs (wire s))
               else let n := Z.min r (zlen bytes) in (n, Wsock rs (wire s ++ take (Z.to_nat n) bytes))
  end.

(** [while (pending && bytes_written < 2 + length)], and the end of the function. *)
Fixpoint write_loop (fuel : nat) (c : tcp_ice_write_context_t) (s : wsock) : option (Z * tcp_ice_write_context_t * wsock) :=
  match fuel with
  | O => None
  | S n =>
      if w_pending c && (bytes_written c <? 2 + w_length c) then
        bytes ← (if bytes_written c <? 2 then rd_bytes (be16 (w_length c)) (bytes_written c) (2 - bytes_written c)
                 else rd_bytes (w_buffer c) (bytes_written c - 2) (w_length c - (bytes_written c - 2)));
        let '(len, s) := send s bytes in
        if len <? 0 then Some (len, c, s)
        else write_loop n (c <| bytes_written := u16 (bytes_written c + len) |>) s
      else Some (w_length c, c <| w_pending := false |>, s)
  end.

Definition tcp_ice_write (s : wsock) (data : option (list Z)) (size : Z) (c : tcp_ice_write_context_t)
    : option (Z * tcp_ice_write_context_t * wsock) :=
  match data with
  | Some d =>
      if w_pending c then Some (- SEAGAIN, c, s) else
      if TCP_ICE_BUFFER_SIZE <? size then Some (- SEMSGSIZE, c, s) else
      bytes ← rd_bytes d 0 size; buffer ← wr_bytes (w_buffer c) 0 bytes;
      write_loop (2 + length (results s)) (Write_context buffer (u16 size) 0 true) s
  | None => write_loop (2 + length (results s)) c s
  end.

(** ** Reading *)

Record tcp_ice_read_context_t := Read_context {
  r_buffer : list Z; (* char [TCP_ICE_BUFFER_SIZE] *)
  r_length : Z; (* uint16_t *)
  bytes_read : Z; (* uint16_t *)
  header : list Z; (* the two bytes of a uint16_t *)
  r_pending : bool }.

#[export] Instance read_context_eta : RecordEta tcp_ice_read_context_t := fun c =>
  Read_context (r_buffer c) (r_length c) (bytes_read c) (header c) (r_pending c).

(** What arrives: at least one byte at a time, the end of the stream, or an error. *)
Inductive event := Data (b : Z) (bs : list Z) | Closed | Err (e : Z).
Inductive received := Got (bs : list Z) | Eof | Failed (e : Z).

Definition recv (evs : list event) (n : Z) : received * list event :=
  match evs with
  | [] => (Failed SEAGAIN, [])
  | Data b bs :: evs =>
      (Got (take (Z.to_nat n) (b :: bs)),
       match drop (Z.to_nat n) (b :: bs) with [] => evs | b :: bs => Data b bs :: evs end)
  | Closed :: evs => (Eof, Closed :: evs)
  | Err e :: evs => (Failed e, evs)
  end.

(** The number of bytes asked for. *)
Definition wanted (c : tcp_ice_read_context_t) : Z :=
  if bytes_read c <? 2 then 2 - bytes_read c
  else if bytes_read c <? 2 + TCP_ICE_BUFFER_SIZE then Z.min (r_length c) TCP_ICE_BUFFER_SIZE - (bytes_read c - 2)
  else Z.min (r_length c - (bytes_read c - 2)) BUFFER_SIZE.

(** Where they go: the header, the buffer, or nowhere. *)
Definition store (bs : list Z) (c : tcp_ice_read_context_t) : option tcp_ice_read_context_t :=
  if bytes_read c <? 2 then h ← wr_bytes (header c) (bytes_read c) bs; Some (c <| header := h |>)
  else if bytes_read c <? 2 + TCP_ICE_BUFFER_SIZE then
    b ← wr_bytes (r_buffer c) (bytes_read c - 2) bs; Some (c <| r_buffer := b |>)
  else Some c.

(** The rest of a turn, after [len] bytes were stored. *)
Definition count_bytes (len : Z) (c : tcp_ice_read_context_t) : tcp_ice_read_context_t :=
  let c := c <| bytes_read := u16 (bytes_read c + len) |> in
  let c := if bytes_read c =? 2 then c <| r_length := get_be (header c) |> else c in
  if r_length c =? 0 then c <| bytes_read := 0 |> (* discard empty datagram *) else c.

Fixpoint read_loop (fuel : nat) (c : tcp_ice_read_context_t) (evs : list event) : option (Z * tcp_ice_read_context_t * list event) :=
  match fuel with
  | O => None
  | S n =>
      if bytes_read c <? 2 + r_length c then
        match recv evs (wanted c) with
        | (Failed e, evs) => Some (- e, c, evs)
        | (Eof, evs) => Some (0, c, evs)
        | (Got bs, evs) => c ← store bs c; read_loop n (count_bytes (zlen bs) c) evs
        end
      else if r_length c =? 0 then None (* assert(context->length > 0) *)
      else Some (r_length c, c <| r_pending := false |>, evs)
  end.

(** The bytes that are to come; every turn of the loop takes one of them at least. *)
Fixpoint payload (evs : list event) : list Z :=
  match evs with [] => [] | Data b bs :: evs => b :: bs ++ payload evs | _ :: evs => payload evs end.

Definition tcp_ice_read (evs : list event) (c : tcp_ice_read_context_t) : option (Z * tcp_ice_read_context_t * list event) :=
  let c := if r_pending c then c else c <| r_length := 0 |> <| bytes_read := 0 |> <| r_pending := true |> in
  read_loop (2 + length (payload evs)) c evs.

(** The receiving side of [conn_poll_process_tcp]: [agent_conn_recv] is given the bytes of the
    buffer.  The function is called again when there is more to read. *)
Fixpoint poll_tcp (fuel : nat) (c : tcp_ice_read_context_t) (evs : list event) : option (list (list Z) * tcp_ice_read_context_t * list event) :=
  match fuel with
  | O => None
  | S n =>
      '(ret, c, evs) ← tcp_ice_read evs c;
      if ret <=? 0 then
        (if (ret =? - SEAGAIN) && negb (bool_decide (evs = [])) then poll_tcp n c evs else Some ([], c, evs))
      else
        d ← rd_bytes (r_buffer c) 0 ret;
        '(ds, c, evs) ← poll_tcp n c evs;
        Some (d :: ds, c, evs)
  end.
