(* ===== verification/TcpProps.v ===== *)
(** * Datagrams over a TCP stream

    What [tcp_ice_write] puts on the wire, however the kernel splits it, is the sequence of
    frames of the datagrams; the reader recovers them, however they are split, unless a header
    arrives in two pieces. *)

From S2P Require Import Prelude Bytes Tcp.
Open Scope Z_scope.

Definition frame (d : list Z) : list Z := be16 (zlen d) ++ d.
Arguments frame : simpl never.
Definition datagram (d : list Z) : Prop := 0 < zlen d <= TCP_ICE_BUFFER_SIZE /\ Forall byte d.

Lemma frame_length d : zlen (frame d) = 2 + zlen d.
Proof. unfold frame. by rewrite zlen_app. Qed.

Lemma take_rd_bytes (l : list Z) k n : 0 <= k -> 0 <= n -> k + n <= zlen l -> rd_bytes l k n = Some (take (Z.to_nat n) (drop (Z.to_nat k) l)).
Proof. intros. by apply rd_bytes_Some. Qed.

(** ** Writing *)

(** The context holds [d], of whose frame [bytes_written] bytes are on the wire behind [pre]. *)
Record writing (pre d : list Z) (c : tcp_ice_write_context_t) (s : wsock) : Prop := {
  wr_buffer : length (w_buffer c) = 2048%nat /\ take (length d) (w_buffer c) = d;
  wr_length_ok : w_length c = zlen d;
  wr_range : 0 <= bytes_written c <= 2 + zlen d;
  wr_wire : wire s = pre ++ take (Z.to_nat (bytes_written c)) (frame d) }.

Lemma next_bytes d c : zlen d <= TCP_ICE_BUFFER_SIZE -> length (w_buffer c) = 2048%nat -> take (length d) (w_buffer c) = d ->
  w_length c = zlen d -> 0 <= bytes_written c < 2 + zlen d ->
  exists bytes, (if bytes_written c <? 2 then rd_bytes (be16 (w_length c)) (bytes_written c) (2 - bytes_written c)
    else rd_bytes (w_buffer c) (bytes_written c - 2) (w_length c - (bytes_written c - 2))) = Some bytes /\
    exists rest, drop (Z.to_nat (bytes_written c)) (frame d) = bytes ++ rest.
Proof.
  unfold TCP_ICE_BUFFER_SIZE. intros Hd Hb Ht Hl Hr. rewrite Hl. set (k := bytes_written c) in *. unfold frame.
  destruct (Z.ltb_spec k 2) as [Hk|Hk].
  - eexists. split; [apply rd_bytes_Some; [lia|lia|change (zlen (be16 (zlen d))) with 2; lia]|].
    assert (k = 0 \/ k = 1) as [-> | ->] by lia; by exists d.
  - eexists. split; [apply rd_bytes_Some; [lia|lia|unfold zlen in *; lia]|]. exists [].
    rewrite app_nil_r, drop_app_ge by (change (length (be16 (zlen d))) with 2%nat; lia). change (length (be16 (zlen d))) with 2%nat.
    rewrite <- Ht at 1. rewrite skipn_firstn_comm. f_equal; [unfold zlen; lia|]. f_equal. lia.
Qed.

Lemma write_loop_spec pre d fuel : forall c s, (length (results s) < fuel)%nat -> zlen d <= TCP_ICE_BUFFER_SIZE -> writing pre d c s -> w_pending c = true ->
  exists ret c' s', write_loop fuel c s = Some (ret, c', s') /\ writing pre d c' s' /\
    (ret = zlen d /\ w_pending c' = false /\ bytes_written c' = 2 + zlen d \/ ret = -1 /\ w_pending c' = true).
Proof.
  induction fuel as [|fuel IH]; intros c s Hf Hd Hw Hp; [lia|]. cbn [write_loop]. destruct Hw as [[Hb Ht] Hl Hr Hwire]. rewrite Hp. cbn [andb].
  destruct (Z.ltb_spec (bytes_written c) (2 + w_length c)) as [Hlt|Hge].
  - destruct (next_bytes d c Hd Hb Ht Hl) as (bytes & -> & rest & Hrest); [lia|]. cbn [mbind option_bind].
    assert (zlen bytes <= 2 + zlen d - bytes_written c) as Hbl.
    { assert (length (frame d) = 2 + length d)%nat as Hfl by (unfold frame; rewrite length_app; done).
      apply (f_equal length) in Hrest. rewrite length_drop, length_app, Hfl in Hrest. unfold zlen in *. lia. }
    unfold send. destruct (results s) as [|r rs] eqn:Hrs.
    { cbn. eexists _, _, _. split; [done|]. split; [by split|]. right. done. }
    destruct (Z.ltb_spec r 0) as [Hneg|Hpos].
    { cbn. eexists _, _, _. split; [done|]. split; [by split|]. right. done. }
    pose proof (zlen_nonneg bytes). cbv beta iota zeta. destruct (Z.ltb_spec (Z.min r (zlen bytes)) 0); [lia|].
    set (n := Z.min r (zlen bytes)) in *. unfold TCP_ICE_BUFFER_SIZE in Hd.
    apply IH; [cbn [results] in *; simpl in Hf; lia|done| |done].
    rewrite u16_small by lia. split; cbn; [done|done|lia|].
    rewrite Hwire, <- app_assoc. f_equal. rewrite Z2Nat.inj_add by lia. rewrite <- take_take_drop. f_equal.
    rewrite Hrest. rewrite take_app_le; [done|]. unfold zlen in *. lia.
  - eexists _, _, _. split; [done|]. split; [by split|]. left. cbn. split; [done|]. split; [done|]. lia.
Qed.

(** One call of [tcp_ice_write]. *)
Lemma tcp_ice_write_first rs w d c : length (w_buffer c) = 2048%nat -> zlen d <= TCP_ICE_BUFFER_SIZE -> w_pending c = false ->
  exists ret c' s', tcp_ice_write (Wsock rs w) (Some d) (zlen d) c = Some (ret, c', s') /\ writing w d c' s' /\
    (w_pending c' = false -> bytes_written c' = 2 + zlen d).
Proof.
  intros Hb Hd Hp. unfold tcp_ice_write. rewrite Hp. rewrite (proj2 (Z.ltb_ge _ _) Hd).
  pose proof (zlen_nonneg d). unfold TCP_ICE_BUFFER_SIZE in Hd.
  rewrite rd_bytes_0 by lia. cbn [mbind option_bind]. rewrite take_ge by (unfold zlen; lia).
  pose proof (wr_bytes_at [] (w_buffer c) d) as Hw. cbn [app] in Hw. change (zlen (@nil Z)) with 0 in Hw.
  rewrite Hw by (unfold zlen in *; lia). cbn [mbind option_bind]. rewrite u16_small by lia. cbn [results].
  destruct (write_loop_spec w d (2 + length rs) (Write_context (d ++ drop (length d) (w_buffer c)) (zlen d) 0 true) (Wsock rs w))
    as (ret & c' & s' & -> & Hw' & Hret); [cbn; lia|done| |done|].
  - split; cbn; [|done|lia|by rewrite app_nil_r]. rewrite take_app_length, length_app, length_drop. split; [unfold zlen in *; lia|done].
  - exists ret, c', s'. split; [done|]. split; [done|]. intros Hpf. destruct Hret as [(_ & _ & ?)|(_ & ?)]; congruence.
Qed.

Lemma tcp_ice_write_more rs pre d c : zlen d <= TCP_ICE_BUFFER_SIZE -> w_pending c = true -> forall w, writing pre d c (Wsock [] w) ->
  exists ret c' s', tcp_ice_write (Wsock rs w) None 0 c = Some (ret, c', s') /\ writing pre d c' s' /\
    (w_pending c' = false -> bytes_written c' = 2 + zlen d).
Proof.
  intros Hd Hp w [Hb Hl Hr Hw]. destruct (write_loop_spec pre d (2 + length rs) c (Wsock rs w)) as (ret & c' & s' & Hwl & Hw' & Hret);
    [cbn; lia|done|by split|done|]. exists ret, c', s'. split; [done|]. split; [done|].
  intros Hpf. destruct Hret as [(_ & _ & ?)|(_ & ?)]; congruence.
Qed.

(** Sending one datagram: the first call, then calls without data while it is pending, each
    with its own results of [send]. *)
Fixpoint flush_wire (more : list (list Z)) (c : tcp_ice_write_context_t) (w : list Z) : option (tcp_ice_write_context_t * list Z) :=
  if w_pending c then
    match more with
    | [] => None (* still pending *)
    | rs :: more => '(_, c, s) ← tcp_ice_write (Wsock rs w) None 0 c; flush_wire more c (wire s)
    end
  else Some (c, w).

Definition send_one (d : list Z) (first : list Z) (more : list (list Z)) (c : tcp_ice_write_context_t) (w : list Z)
    : option (tcp_ice_write_context_t * list Z) :=
  '(_, c, s) ← tcp_ice_write (Wsock first w) (Some d) (zlen d) c; flush_wire more c (wire s).

Fixpoint send_all (l : list (list Z * (list Z * list (list Z)))) (c : tcp_ice_write_context_t) (w : list Z)
    : option (tcp_ice_write_context_t * list Z) :=
  match l with
  | [] => Some (c, w)
  | (d, (first, more)) :: l => '(c, w) ← send_one d first more c w; send_all l c w
  end.

Lemma flush_wire_spec pre d : zlen d <= TCP_ICE_BUFFER_SIZE -> forall more c w c' w', writing pre d c (Wsock [] w) ->
  (w_pending c = false -> bytes_written c = 2 + zlen d) -> flush_wire more c w = Some (c', w') ->
  w' = pre ++ frame d /\ length (w_buffer c') = 2048%nat /\ w_pending c' = false.
Proof.
  intros Hd. assert (forall c w, writing pre d c (Wsock [] w) -> bytes_written c = 2 + zlen d -> w = pre ++ frame d) as Hdone.
  { intros c w [_ _ _ Hw] Hk. cbn in Hw. rewrite Hw, Hk, take_ge; [done|]. pose proof (frame_length d). unfold zlen in *. lia. }
  induction more as [|rs more IH]; intros c w c' w' Hw Hk Hf; cbn [flush_wire] in Hf; destruct (w_pending c) eqn:Hp.
  - done.
  - injection Hf as <- <-. split; [by apply (Hdone c w Hw), Hk|]. split; [apply (wr_buffer _ _ _ _ Hw)|done].
  - destruct (tcp_ice_write_more rs pre d c Hd Hp w Hw) as (ret & c1 & s1 & Hc & Hw1 & Hk1). rewrite Hc in Hf. cbn [mbind option_bind] in Hf.
    apply (IH c1 (wire s1) c' w'); [by destruct Hw1|done|done].
  - injection Hf as <- <-. split; [by apply (Hdone c w Hw), Hk|]. split; [apply (wr_buffer _ _ _ _ Hw)|done].
Qed.

Lemma send_all_spec l : forall c w c' w', length (w_buffer c) = 2048%nat -> w_pending c = false -> Forall (fun x => zlen (fst x) <= TCP_ICE_BUFFER_SIZE) l ->
  send_all l c w = Some (c', w') -> w' = w ++ concat (map frame (map fst l)).
Proof.
  induction l as [|[d [first more]] l IH]; intros c w c' w' Hb Hp Hl Hs; cbn [send_all] in Hs.
  - injection Hs as _ <-. cbn. by rewrite app_nil_r.
  - apply Forall_cons in Hl as [Hd Hl]. cbn in Hd. unfold send_one in Hs.
    destruct (tcp_ice_write_first first w d c Hb Hd Hp) as (ret & c1 & s1 & Hc & Hw & Hk). rewrite Hc in Hs. cbn [mbind option_bind] in Hs.
    destruct (flush_wire more c1 (wire s1)) as [[c2 w2]|] eqn:Hf; [|done]. cbn [mbind option_bind] in Hs.
    apply (flush_wire_spec w d Hd more c1 (wire s1)) in Hf as (-> & Hb2 & Hp2); [|by destruct Hw|done].
    rewrite (IH c2 _ c' w' Hb2 Hp2 Hl Hs). cbn. by rewrite app_assoc.
Qed.

(** ** Reading *)

(** The positions in the stream where the data that [recv] sees ends. *)
Fixpoint ends (pos : Z) (evs : list event) : list Z :=
  match evs with
  | [] => []
  | Data b bs :: evs => (pos + 1 + zlen bs) :: ends (pos + 1 + zlen bs) evs
  | _ :: evs => ends pos evs
  end.

(** The positions between the two bytes of a header, for frames that start at [pos]. *)
Fixpoint header_cuts (pos : Z) (ds : list (list Z)) : list Z :=
  match ds with [] => [] | d :: ds => (pos + 1) :: header_cuts (pos + 2 + zlen d) ds end.

(** The connection stays up; [recv] may have to wait. *)
Definition benign (e : event) : Prop := match e with Data _ _ => True | Closed => False | Err e => e = SEAGAIN end.

Lemma recv_data b bs evs n P : 0 < n -> exists g evs', recv (Data b bs :: evs) n = (Got g, evs') /\
  0 < zlen g <= n /\ payload (Data b bs :: evs) = g ++ payload evs' /\
  (forall p, p ∈ ends (P + zlen g) evs' -> p ∈ ends P (Data b bs :: evs)) /\
  (zlen g = n \/ (P + zlen g) ∈ ends P (Data b bs :: evs)) /\
  (Forall benign evs -> Forall benign evs') /\ (length evs' <= S (length evs))%nat.
Proof.
  intros Hn. cbn [recv]. set (l := b :: bs). pose proof (take_drop (Z.to_nat n) l) as Htd.
  assert (zlen l = 1 + zlen bs) as Hl by (unfold l; by rewrite zlen_cons). pose proof (zlen_nonneg bs).
  assert (0 < zlen (take (Z.to_nat n) l) <= n) as Hg by (unfold zlen in *; rewrite length_take; lia).
  assert (payload (Data b bs :: evs) = l ++ payload evs) as Hp by done.
  eexists _, _. split; [done|]. split; [done|].
  destruct (drop (Z.to_nat n) l) as [|b' bs'] eqn:Hd.
  - rewrite app_nil_r in Htd. rewrite Htd. rewrite Htd, Hl in Hg. cbn [ends]. rewrite Hl, Z.add_assoc.
    split; [done|]. split; [intros; by right|]. split; [right; left|]. split; [done|lia].
  - assert (zlen (take (Z.to_nat n) l) + (1 + zlen bs') = zlen l) as Hsum.
    { rewrite <- Htd at 2. by rewrite zlen_app, zlen_cons. }
    split; [rewrite Hp; rewrite <- Htd at 1; by rewrite <- app_assoc|]. split; [|split].
    + cbn [ends]. replace (P + zlen (take (Z.to_nat n) l) + 1 + zlen bs') with (P + 1 + zlen bs) by lia. done.
    + left. assert (length (drop (Z.to_nat n) l) = S (length bs')) as Hdl by (by rewrite Hd). rewrite length_drop in Hdl.
      unfold zlen. rewrite length_take. lia.
    + split; [|done]. intros. by constructor.
Qed.

(** The context has read [k] bytes of the frame of [d]. *)
Record reading (d : list Z) (k : Z) (c : tcp_ice_read_context_t) : Prop := {
  rd_buffer : length (r_buffer c) = 2048%nat;
  rd_header : length (header c) = 2%nat;
  rd_count : bytes_read c = k;
  rd_position : k = 0 /\ r_length c = 0 \/
    2 <= k < 2 + zlen d /\ r_length c = zlen d /\ take (Z.to_nat (k - 2)) (r_buffer c) = take (Z.to_nat (k - 2)) d }.

Lemma drop_frame d k : 2 <= k -> drop (Z.to_nat k) (frame d) = drop (Z.to_nat (k - 2)) d.
Proof.
  intros Hk. unfold frame. rewrite drop_app_ge by (change (length (be16 (zlen d))) with 2%nat; lia). f_equal.
  change (length (be16 (zlen d))) with 2%nat. lia.
Qed.

Lemma count_pending n c : r_pending (count_bytes n c) = r_pending c.
Proof. unfold count_bytes, setter. cbv zeta. cbn [r_length]. destruct (_ =? 2); cbn [r_length]; by destruct (_ =? 0). Qed.

(** A header that arrives whole. *)
Lemma read_header d c g tail : 0 < zlen d < 65536 -> reading d 0 c -> zlen g = 2 -> frame d ++ tail = g ++ drop 2 (frame d) ++ tail ->
  exists c', store g c = Some c' /\ r_pending c' = r_pending c /\ reading d 2 (count_bytes 2 c').
Proof.
  intros Hd [Hbuf Hh Hk _] Hg Heq. unfold frame in Heq. rewrite app_assoc in Heq.
  change (drop 2 (be16 (zlen d) ++ d)) with d in Heq. rewrite <- !app_assoc in Heq.
  assert (g = be16 (zlen d)) as -> by (apply (f_equal (take 2)) in Heq; change 2%nat with (length (be16 (zlen d))) in Heq at 1;
    rewrite take_app_length in Heq; replace 2%nat with (length g) in Heq by (unfold zlen in Hg; lia); by rewrite take_app_length in Heq).
  unfold store. rewrite Hk. change (0 <? 2) with true. cbv iota.
  pose proof (wr_bytes_at [] (header c) (be16 (zlen d))) as Hw. cbn [app] in Hw. change (zlen (@nil Z)) with 0 in Hw.
  rewrite Hw by (unfold zlen in *; lia). rewrite drop_ge, app_nil_r by (change (length (be16 (zlen d))) with 2%nat; lia). cbn [mbind option_bind].
  eexists. split; [done|]. split; [done|]. unfold count_bytes, setter. cbn [bytes_read r_length header r_buffer r_pending]. rewrite Hk.
  change (u16 (0 + 2) =? 2) with true. cbv iota. cbn [bytes_read r_length header r_buffer r_pending]. rewrite get_be_be16 by lia.
  destruct (Z.eqb_spec (zlen d) 0); [lia|]. split; cbn [bytes_read r_length header r_buffer r_pending]; [done|done|done|].
  right. split; [lia|]. done.
Qed.

(** Bytes of the datagram. *)
Lemma read_body d k c g rest : datagram d -> reading d k c -> 2 <= k -> 0 < zlen g <= zlen d - (k - 2) -> drop (Z.to_nat (k - 2)) d = g ++ rest ->
  exists c', store g c = Some c' /\ r_pending c' = r_pending c /\ let c2 := count_bytes (zlen g) c' in
    length (r_buffer c2) = 2048%nat /\ length (header c2) = 2%nat /\ bytes_read c2 = k + zlen g /\ r_length c2 = zlen d /\
    take (Z.to_nat (k + zlen g - 2)) (r_buffer c2) = take (Z.to_nat (k + zlen g - 2)) d.
Proof.
  unfold datagram, TCP_ICE_BUFFER_SIZE. intros [Hd Hb] [Hbuf Hh Hk [[]|(Hk2 & Hl & Ht)]] H2 Hg Hrest; [lia|].
  unfold store, TCP_ICE_BUFFER_SIZE. rewrite Hk. destruct (Z.ltb_spec k 2); [lia|]. destruct (Z.ltb_spec k (2 + 2048)); [|lia].
  set (j := k - 2) in *.
  assert (zlen (take (Z.to_nat j) d) = j) as Hj by (unfold zlen in *; rewrite length_take; lia).
  assert (take (Z.to_nat j) d ++ g = take (Z.to_nat (j + zlen g)) d) as Hjg.
  { rewrite Z2Nat.inj_add, <- take_take_drop, Hrest by lia. f_equal. rewrite take_app_le by (unfold zlen; lia).
    rewrite take_ge; [done|unfold zlen; lia]. }
  assert (wr_bytes (r_buffer c) j g = Some (take (Z.to_nat (j + zlen g)) d ++ drop (Z.to_nat (j + zlen g)) (r_buffer c))) as ->.
  { pose proof (wr_bytes_at (take (Z.to_nat j) d) (drop (Z.to_nat j) (r_buffer c)) g) as Hw. rewrite Hj, <- Ht, take_drop, Ht, Hjg in Hw.
    rewrite Hw by (unfold zlen in *; rewrite length_drop; lia). rewrite drop_drop. do 3 f_equal. unfold zlen in *. lia. }
  cbn [mbind option_bind]. eexists. split; [done|]. split; [done|]. cbv zeta. unfold count_bytes, setter.
  cbn [bytes_read r_length header r_buffer r_pending].
  rewrite Hk, u16_small by lia. destruct (Z.eqb_spec (k + zlen g) 2); [lia|]. cbn [bytes_read r_length header r_buffer r_pending].
  rewrite Hl. destruct (Z.eqb_spec (zlen d) 0); [lia|]. cbn [bytes_read r_length header r_buffer r_pending].
  split_and!; [|done|done|done|].
  - rewrite length_app, length_take, length_drop. unfold zlen in *. lia.
  - replace (k + zlen g - 2) with (j + zlen g) by lia. rewrite take_app_le, take_ge by (rewrite length_take; unfold zlen in *; lia). done.
Qed.

(** What a call of [tcp_ice_read] leaves: the datagram, or part of it and fewer events. *)
Inductive outcome (d tail : list Z) (F : Z) (E : list Z) (n : nat) (ret : Z) (c : tcp_ice_read_context_t) (evs' : list event) : Prop :=
| Delivered : ret = zlen d -> r_pending c = false -> length (r_buffer c) = 2048%nat -> length (header c) = 2%nat ->
    take (length d) (r_buffer c) = d -> payload evs' = tail ->
    (forall p, p ∈ ends (F + 2 + zlen d) evs' -> p ∈ E) -> (length evs' <= n)%nat -> Forall benign evs' ->
    outcome d tail F E n ret c evs'
| Waiting k : ret = - SEAGAIN -> r_pending c = true -> reading d k c -> payload evs' = drop (Z.to_nat k) (frame d) ++ tail ->
    (forall p, p ∈ ends (F + k) evs' -> p ∈ E) -> (length evs' < n)%nat -> Forall benign evs' ->
    outcome d tail F E n ret c evs'.

Lemma read_loop_frame d tail F E n : datagram d -> F + 1 ∉ E -> forall fuel c evs k, reading d k c -> r_pending c = true ->
  payload evs = drop (Z.to_nat k) (frame d) ++ tail -> (forall p, p ∈ ends (F + k) evs -> p ∈ E) ->
  (length evs <= n)%nat -> Forall benign evs -> (length (payload evs) < fuel)%nat ->
  exists ret c' evs', read_loop fuel c evs = Some (ret, c', evs') /\ outcome d tail F E n ret c' evs'.
Proof.
  intros Hd Hcut. pose proof Hd as [Hdl Hdb]. unfold TCP_ICE_BUFFER_SIZE in Hdl.
  induction fuel as [|fuel IH]; intros c evs k Hr Hp Hpay He Hle Hben Hf; [lia|]. cbn [read_loop].
  pose proof (rd_count _ _ _ Hr) as Hk. pose proof (rd_position _ _ _ Hr) as Hpos.
  rewrite Hk. destruct (Z.ltb_spec k (2 + r_length c)) as [Hlt|]; [|destruct Hpos as [[? ?]|(? & ? & _)]; lia].
  destruct evs as [|[b bs| |e] evs].
  - exfalso. apply (f_equal zlen) in Hpay. rewrite zlen_app, zlen_drop, frame_length in Hpay. pose proof (zlen_nonneg tail). change (zlen (payload [])) with 0 in Hpay.
    destruct Hpos as [[-> _]|(? & _)]; lia.
  - assert (0 < wanted c) as Hn by (unfold wanted, TCP_ICE_BUFFER_SIZE; rewrite Hk; destruct (Z.ltb_spec k 2), (Z.ltb_spec k (2 + 2048)); destruct Hpos as [[? ?]|(? & ? & _)]; lia).
    destruct (recv_data b bs evs (wanted c) (F + k) Hn) as (g & evs' & -> & Hg & Hgp & Hge & Hfull & Hgb & Hgl).
    apply Forall_cons in Hben as [_ Hben]. rewrite Hpay in Hgp. rewrite Hpay in Hf. simpl in Hle.
    assert (Z.of_nat (length (drop (Z.to_nat k) (frame d) ++ tail)) = zlen g + zlen (payload evs')) as Hlen
      by (rewrite Hgp, length_app; unfold zlen; lia).
    assert (forall p, p ∈ ends (F + k + zlen g) evs' -> p ∈ E) as He' by (intros p Hin; by apply He, Hge).
    assert (length evs' <= n)%nat as Hle' by lia. specialize (Hgb Hben).
    assert (k = 0 \/ 2 <= k) as [-> | H2] by (destruct Hpos as [[? _]|(? & _)]; lia).
    + assert (wanted c = 2) as Hw by (unfold wanted; rewrite Hk; done). rewrite Hw in Hg, Hfull. change (drop (Z.to_nat 0) (frame d)) with (frame d) in *.
      assert (zlen g = 2) as Hg2.
      { destruct Hfull as [|Hin]; [done|]. destruct (Z.eq_dec (zlen g) 2); [done|]. exfalso. apply Hcut, He.
        replace (F + 1) with (F + 0 + zlen g) by lia. done. }
      assert (frame d ++ tail = g ++ drop 2 (frame d) ++ tail) as Hheq.
      { rewrite app_assoc. f_equal. rewrite <- (take_drop 2 (frame d)) at 1. f_equal.
        apply (f_equal (take 2)) in Hgp. replace 2%nat with (length g) in Hgp at 2 by (unfold zlen in Hg2; lia).
        rewrite take_app_length, take_app_le in Hgp; [done|]. pose proof (frame_length d). unfold zlen in *. lia. }
      destruct (read_header d c g tail ltac:(lia) Hr Hg2 Hheq) as (c' & -> & Hp' & Hr'). cbn [mbind option_bind]. rewrite Hg2 in *.
      apply (IH (count_bytes 2 c') evs' 2 Hr'); [by rewrite count_pending, Hp'| |intros p Hin; apply He'; by replace (F + 0 + 2) with (F + 2) by lia|done|done|unfold zlen in *; lia].
      rewrite Hheq in Hgp. by apply app_inv_head in Hgp.
    + destruct Hpos as [[]|(_ & Hl & _)]; [lia|].
      assert (wanted c = zlen d - (k - 2)) as Hw.
      { unfold wanted, TCP_ICE_BUFFER_SIZE. rewrite Hk, Hl. destruct (Z.ltb_spec k 2), (Z.ltb_spec k (2 + 2048)); lia. }
      rewrite Hw in Hg, Hfull. rewrite drop_frame in Hgp, Hpay, Hlen, Hf by done.
      assert (drop (Z.to_nat (k - 2)) d = g ++ drop (length g) (drop (Z.to_nat (k - 2)) d)) as Hrest.
      { rewrite <- (take_drop (length g) (drop (Z.to_nat (k - 2)) d)) at 1. f_equal. apply (f_equal (take (length g))) in Hgp.
        rewrite take_app_length, take_app_le in Hgp; [done|]. rewrite length_drop. unfold zlen in *. lia. }
      destruct (read_body d k c g _ Hd Hr H2 Hg Hrest) as (c' & -> & Hp' & Hc2). cbn [mbind option_bind]. cbv zeta in Hc2.
      set (c2 := count_bytes (zlen g) c') in *. destruct Hc2 as (Hb2 & Hh2 & Hk2 & Hl2 & Ht2).
      assert (r_pending c2 = true) as Hp2 by (unfold c2, count_bytes; repeat case_match; cbn; by rewrite Hp').
      rewrite Hrest, <- app_assoc in Hgp. apply app_inv_head in Hgp. rewrite drop_drop in Hgp.
      destruct (Z.eq_dec (zlen g) (zlen d - (k - 2))) as [Hend|Hmore].
      * destruct fuel as [|fuel]; [unfold zlen in *; lia|]. cbn [read_loop]. rewrite Hk2, Hl2.
        destruct (Z.ltb_spec (k + zlen g) (2 + zlen d)); [lia|]. destruct (Z.eqb_spec (zlen d) 0); [lia|].
        eexists _, _, _. split; [done|]. apply Delivered; cbn; try done.
        -- replace (Z.to_nat (k + zlen g - 2)) with (length d) in Ht2 by (unfold zlen in *; lia). by rewrite Ht2, firstn_all.
        -- rewrite <- Hgp, drop_ge; [done|]. unfold zlen in *. lia.
        -- intros p Hin. apply He'. by replace (F + k + zlen g) with (F + 2 + zlen d) by lia.
      * apply (IH c2 evs' (k + zlen g)); [|done| | |done|done|unfold zlen in *; lia].
        -- split; [done|done|done|]. right. split; [lia|]. done.
        -- rewrite drop_frame by lia. rewrite <- Hgp. f_equal. f_equal. unfold zlen in *. lia.
        -- intros p Hin. apply He'. by replace (F + k + zlen g) with (F + (k + zlen g)) by lia.
  - by apply Forall_cons in Hben as [[] _].
  - apply Forall_cons in Hben as [He1 Hben]. cbn in He1. subst e. cbn [recv]. eexists _, _, _. split; [done|].
    by apply (Waiting _ _ _ _ _ _ _ _ k).
Qed.

(** ** Claims *)

(** The states between two calls: at position [k] of the frame of [d], or idle. *)
Definition idle (c : tcp_ice_read_context_t) : Prop := length (r_buffer c) = 2048%nat /\ length (header c) = 2%nat /\
  (r_pending c = true -> bytes_read c = 0 /\ r_length c = 0).

Lemma read_idle c evs : idle c -> exists c1, r_pending c1 = true /\ r_buffer c1 = r_buffer c /\ (forall d, reading d 0 c1) /\
  tcp_ice_read evs c = read_loop (2 + length (payload evs)) c1 evs.
Proof.
  intros (Hb & Hh & Hz). unfold tcp_ice_read. destruct (r_pending c) eqn:Hp.
  - exists c. destruct (Hz eq_refl). split; [done|]. split; [done|]. split; [|done]. intros d. split; [done|done|done|by left].
  - eexists. split; [|split; [|split; [|reflexivity]]]; [done|done|]. intros d. split; [done|done|done|by left].
Qed.

Lemma read_pending c evs d k : reading d k c -> r_pending c = true -> tcp_ice_read evs c = read_loop (2 + length (payload evs)) c evs.
Proof. intros _ Hp. unfold tcp_ice_read. by rewrite Hp. Qed.

(** No datagram is left: only waiting. *)
Lemma poll_rest fuel : forall c evs, idle c -> payload evs = [] -> Forall benign evs -> (length evs < fuel)%nat ->
  exists c', poll_tcp fuel c evs = Some ([], c', []).
Proof.
  induction fuel as [|fuel IH]; intros c evs Hc Hp Hb Hf; [lia|]. cbn [poll_tcp].
  destruct (read_idle c evs Hc) as (c1 & Hp1 & _ & Hr & ->). pose proof (Hr []) as [Hb1 Hh1 Hk1 Hl1].
  assert (r_length c1 = 0) as Hl0 by (destruct Hl1 as [[_ ?]|(? & _)]; [done|lia]). cbn [Nat.add read_loop]. rewrite Hk1, Hl0.
  change (0 <? 2 + 0) with true. cbv iota. destruct evs as [|[b bs| |e] evs]; [|done|by apply Forall_cons in Hb as [[] _]|].
  - cbn. by exists c1.
  - apply Forall_cons in Hb as [He Hb]. cbn in He. subst e. cbn [recv mbind option_bind]. change (- SEAGAIN <=? 0) with true. cbv iota.
    change (- SEAGAIN =? - SEAGAIN) with true. cbn [andb]. simpl in Hf. destruct (bool_decide (evs = [])) eqn:He; cbn [negb].
    + apply bool_decide_eq_true in He. subst. by exists c1.
    + apply IH; [|done|done|lia]. split; [done|]. split; done.
Qed.

(** The datagrams [ds] are to come, the first from position [k] of its frame. *)
Definition position (ds : list (list Z)) (k : Z) (c : tcp_ice_read_context_t) : Prop :=
  idle c /\ k = 0 \/ match ds with d :: _ => reading d k c /\ r_pending c = true | [] => False end.

Lemma position_read d ds k c evs : position (d :: ds) k c -> exists c1, r_pending c1 = true /\ reading d k c1 /\
  tcp_ice_read evs c = read_loop (2 + length (payload evs)) c1 evs.
Proof.
  intros [[Hc ->]|[Hr Hp]].
  - destruct (read_idle c evs Hc) as (c1 & Hp1 & _ & Hr & He). by exists c1.
  - exists c. split; [done|]. split; [done|]. by apply (read_pending c evs d k).
Qed.

Lemma poll_frames fuel : forall ds F (E : list Z) c evs k, Forall datagram ds -> position ds k c ->
  payload evs = drop (Z.to_nat k) (concat (map frame ds)) -> 0 <= k -> Forall benign evs -> (forall p, p ∈ ends (F + k) evs -> p ∈ E) ->
  (forall p, p ∈ header_cuts F ds -> p ∉ E) -> (length ds + length evs < fuel)%nat ->
  exists c', poll_tcp fuel c evs = Some (ds, c', []).
Proof.
  induction fuel as [|fuel IH]; intros ds F E c evs k Hds Hpos Hpay Hk0 Hb He Hcut Hf; [lia|].
  destruct ds as [|d ds]; [destruct Hpos as [[Hc ->]|[]]; by apply poll_rest|].
  apply Forall_cons in Hds as [Hd Hds]. pose proof Hd as [Hdl _]. unfold TCP_ICE_BUFFER_SIZE in Hdl. cbn [poll_tcp].
  destruct (position_read d ds k c evs Hpos) as (c1 & Hp1 & Hr & ->). clear c Hpos.
  assert (payload evs = drop (Z.to_nat k) (frame d) ++ concat (map frame ds)) as Hpay1.
  { rewrite Hpay. cbn [map concat]. pose proof (frame_length d). destruct (rd_position _ _ _ Hr) as [[-> _]|(? & _)]; [done|].
    rewrite drop_app_le; [done|]. unfold zlen in *. lia. }
  destruct (read_loop_frame d (concat (map frame ds)) F E (length evs) Hd (Hcut _ (list_elem_of_here _ _)) (2 + length (payload evs)) c1 evs k Hr Hp1 Hpay1 He)
    as (ret & c2 & evs2 & -> & Hout); [lia|done|lia|]. cbn [mbind option_bind].
  destruct Hout as [-> Hp2 Hb2 Hh2 Ht2 Hpay2 He2 Hl2 Hben2|k2 -> Hp2 Hr2 Hpay2 He2 Hl2 Hben2].
  - destruct (Z.leb_spec (zlen d) 0); [lia|]. rewrite rd_bytes_0 by (unfold zlen in *; lia). cbn [mbind option_bind].
    replace (Z.to_nat (zlen d)) with (length d) by (unfold zlen; lia). rewrite Ht2.
    destruct (IH ds (F + 2 + zlen d) E c2 evs2 0) as [c' ->]; [done| |done|lia|done| | |simpl in Hf; lia|by exists c'].
    + left. split; [|done]. split; [done|]. split; [done|]. by rewrite Hp2.
    + intros p Hin. apply He2. by rewrite Z.add_0_r in Hin.
    + intros p Hin. apply Hcut. cbn [header_cuts]. by right.
  - change (- SEAGAIN <=? 0) with true. change (- SEAGAIN =? - SEAGAIN) with true. cbv iota. cbn [andb].
    pose proof (rd_position _ _ _ Hr2) as Hk2. assert (0 <= k2) as Hk20 by (destruct Hk2 as [[-> _]|(? & _)]; lia).
    assert (payload evs2 = drop (Z.to_nat k2) (concat (map frame (d :: ds)))) as Hpay3.
    { rewrite Hpay2. cbn [map concat]. pose proof (frame_length d). destruct Hk2 as [[-> _]|(? & _)]; [done|].
      rewrite drop_app_le; [done|]. unfold zlen in *. lia. }
    destruct (decide (evs2 = [])) as [->|Hne].
    + exfalso. apply (f_equal zlen) in Hpay2. rewrite zlen_app, zlen_drop, frame_length in Hpay2. change (zlen (payload [])) with 0 in Hpay2.
      pose proof (zlen_nonneg (concat (map frame ds))). destruct Hk2 as [[-> _]|(? & _)]; lia.
    + rewrite bool_decide_false by done. cbn [negb]. apply (IH (d :: ds) F E c2 evs2 k2); try done.
      * by constructor.
      * by right.
      * simpl in *. lia.
Qed.

(** *** Datagrams that are too long *)

Definition arrives (bytes : list Z) : list event := match bytes with [] => [] | b :: bs => [Data b bs] end.

Lemma arrives_recv bytes n : bytes ≠ [] -> recv (arrives bytes) n = (Got (take (Z.to_nat n) bytes), arrives (drop (Z.to_nat n) bytes)).
Proof. destruct bytes as [|b bs]; [done|]. intros _. cbn [arrives recv]. by destruct (drop (Z.to_nat n) (b :: bs)). Qed.

Lemma arrives_payload bytes : payload (arrives bytes) = bytes.
Proof. destruct bytes; [done|]. cbn. by rewrite app_nil_r. Qed.

(** What does not fit into the buffer is read and dropped. *)
Lemma discard_loop fuel : forall c L rest, 2048 < L < 65534 -> r_length c = L -> 2050 <= bytes_read c -> zlen rest = 2 + L - bytes_read c ->
  (length rest < fuel)%nat -> exists c', read_loop fuel c (arrives rest) = Some (L, c', []) /\ r_buffer c' = r_buffer c.
Proof.
  induction fuel as [|fuel IH]; intros c L rest HL Hl Hk Hrest Hf; [lia|]. cbn [read_loop]. rewrite Hl. pose proof (zlen_nonneg rest).
  destruct (Z.ltb_spec (bytes_read c) (2 + L)) as [Hlt|Hge].
  - assert (wanted c = Z.min (zlen rest) 1024) as ->.
    { unfold wanted, TCP_ICE_BUFFER_SIZE, BUFFER_SIZE. destruct (Z.ltb_spec (bytes_read c) 2), (Z.ltb_spec (bytes_read c) (2 + 2048)); lia. }
    set (n := Z.min (zlen rest) 1024). rewrite arrives_recv by (intros ->; change (zlen (@nil Z)) with 0 in Hrest; lia).
    unfold store, TCP_ICE_BUFFER_SIZE. destruct (Z.ltb_spec (bytes_read c) 2), (Z.ltb_spec (bytes_read c) (2 + 2048)); try lia.
    cbn [mbind option_bind]. rewrite zlen_take by lia. unfold count_bytes, setter. cbn [bytes_read r_length header r_buffer r_pending].
    rewrite u16_small by lia. destruct (Z.eqb_spec (bytes_read c + n) 2); [lia|]. cbn [bytes_read r_length header r_buffer r_pending].
    rewrite Hl. destruct (Z.eqb_spec L 0); [lia|].
    edestruct (IH (Read_context (r_buffer c) L (bytes_read c + n) (header c) (r_pending c)) L (drop (Z.to_nat n) rest)) as (c' & Hc' & Hb');
      [done|done|cbn; lia|cbn; rewrite zlen_drop; lia|rewrite length_drop; unfold zlen in *; lia|]. by exists c'.
  - destruct (Z.eqb_spec L 0); [lia|]. destruct rest; [by eexists|]. rewrite zlen_cons in Hrest. pose proof (zlen_nonneg rest). lia.
Qed.

Lemma read_oversize c d : idle c -> Forall byte d -> 2048 < zlen d < 65534 ->
  exists c', tcp_ice_read (arrives (frame d)) c = Some (zlen d, c', []) /\ r_buffer c' = take 2048 d.
Proof.
  intros Hc Hb Hd. destruct (read_idle c (arrives (frame d)) Hc) as (c1 & _ & _ & Hr & ->). rewrite arrives_payload.
  pose proof (frame_length d) as Hfl. specialize (Hr d). pose proof Hr as [Hbuf _ Hk Hl].
  destruct Hl as [[_ Hl]|(? & _)]; [|lia]. cbn [Nat.add read_loop]. rewrite Hk, Hl. change (0 <? 2 + 0) with true. cbv iota.
  assert (wanted c1 = 2) as -> by (unfold wanted; by rewrite Hk). rewrite arrives_recv by (intros H0; rewrite H0 in Hfl; change (zlen (@nil Z)) with 0 in Hfl; lia).
  change (take (Z.to_nat 2) (frame d)) with (be16 (zlen d)). change (drop (Z.to_nat 2) (frame d)) with d.
  destruct (read_header d c1 (be16 (zlen d)) [] ltac:(lia) Hr eq_refl) as (c2 & -> & _ & Hr2); [unfold frame; by rewrite !app_nil_r|].
  cbn [mbind option_bind]. change (zlen (be16 (zlen d))) with 2. set (c3 := count_bytes 2 c2) in *. clearbody c3. clear c2.
  pose proof Hr2 as [Hbuf3 _ Hk3 Hl3]. destruct Hl3 as [[? _]|(_ & Hl3 & _)]; [done|]. rewrite Hk3, Hl3.
  destruct (Z.ltb_spec 2 (2 + zlen d)); [|lia].
  assert (wanted c3 = 2048) as -> by (unfold wanted, TCP_ICE_BUFFER_SIZE; rewrite Hk3, Hl3; change (2 <? 2) with false; change (2 <? 2 + 2048) with true; cbv iota; lia).
  rewrite arrives_recv by (intros ->; change (zlen (@nil Z)) with 0 in Hd; lia).
  unfold store, TCP_ICE_BUFFER_SIZE. rewrite Hk3. change (2 <? 2) with false. change (2 <? 2 + 2048) with true. cbv iota.
  assert (zlen (take (Z.to_nat 2048) d) = 2048) as Ht by (rewrite zlen_take; lia).
  pose proof (wr_bytes_at [] (r_buffer c3) (take (Z.to_nat 2048) d)) as Hw. cbn [app] in Hw. change (zlen (@nil Z)) with (2 - 2) in Hw.
  rewrite Hw by (unfold zlen in *; lia). rewrite (drop_ge (r_buffer c3)), app_nil_r by (unfold zlen in *; lia). cbn [mbind option_bind]. rewrite Ht.
  unfold count_bytes, setter. cbn [bytes_read r_length header r_buffer r_pending]. rewrite Hk3. change (u16 (2 + 2048)) with 2050.
  change (2050 =? 2) with false. cbv iota. cbn [bytes_read r_length header r_buffer r_pending]. rewrite Hl3. destruct (Z.eqb_spec (zlen d) 0); [lia|].
  edestruct (discard_loop (length (frame d)) (Read_context (take (Z.to_nat 2048) d) (zlen d) 2050 (header c3) (r_pending c3)) (zlen d) (drop (Z.to_nat 2048) d)) as (c' & Hc' & Hb');
    [done|done|cbn; lia|cbn; rewrite zlen_drop; lia|rewrite length_drop; unfold zlen in *; lia|]. by exists c'.
Qed.

(** C36. Datagrams survive the TCP connection: when [tcp_ice_write] has sent them, in however
    many pieces [send] took them, and the bytes arrive in pieces of any sizes, with waits
    between them, then the reader delivers exactly the datagrams sent, in order and with
    their boundaries, provided that no piece ends between the two bytes of a header. *)
Theorem tcp_framing_roundtrip (l : list (list Z * (list Z * list (list Z)))) (cw cw' : tcp_ice_write_context_t) (w : list Z)
    (cr : tcp_ice_read_context_t) (evs : list event) :
  Forall datagram (map fst l) -> length (w_buffer cw) = 2048%nat -> w_pending cw = false -> send_all l cw [] = Some (cw', w) ->
  idle cr -> payload evs = w -> Forall benign evs -> (forall p, p ∈ header_cuts 0 (map fst l) -> p ∉ ends 0 evs) ->
  exists cr', poll_tcp (S (length l + length evs)) cr evs = Some (map fst l, cr', []).
Proof.
  intros Hl Hb Hp Hs Hr Hw Hev Hcut. apply send_all_spec in Hs; [|done|done|].
  - apply (poll_frames _ _ 0 (ends 0 evs) cr evs 0); [done|by left|by rewrite Hw, Hs|lia|done|done|done|rewrite length_map; lia].
  - rewrite Forall_map in Hl. eapply Forall_impl; [exact Hl|]. by intros ? [[_ ?] _].
Qed.

(** A header byte that arrives alone is lost: between datagrams, [tcp_ice_read] goes on
    behind it as if the stream had started there, because it takes the length it has not read
    yet for the length of an empty datagram. *)
Theorem tcp_header_byte_lost (c : tcp_ice_read_context_t) (h : Z) (evs : list event) : idle c ->
  exists c1, idle c1 /\ r_buffer c1 = r_buffer c /\ tcp_ice_read (Data h [] :: evs) c = tcp_ice_read evs c1.
Proof.
  intros Hc. destruct (read_idle c (Data h [] :: evs) Hc) as (c1 & Hp & Hbuf & Hr & ->). pose proof (Hr []) as [Hb Hh Hk Hl].
  assert (r_length c1 = 0) as Hl0 by (destruct Hl as [[_ ?]|(? & _)]; [done|lia]).
  destruct (header c1) as [|h0 [|h1 [|]]] eqn:He; try done.
  exists (Read_context (r_buffer c1) 0 0 [h; h1] true). split; [by repeat split|]. split; [done|].
  cbn [payload app length Nat.add]. cbn [read_loop]. rewrite Hk, Hl0. change (0 <? 2 + 0) with true. cbv iota.
  assert (wanted c1 = 2) as -> by (unfold wanted; by rewrite Hk).
  change (recv (Data h [] :: evs) 2) with (Got [h], evs). unfold store. rewrite Hk, He. change (0 <? 2) with true. cbv iota.
  change (wr_bytes [h0; h1] 0 [h]) with (Some [h; h1]). cbn [mbind option_bind].
  unfold count_bytes, setter. change (zlen [h]) with 1. cbn [bytes_read r_length header r_buffer r_pending]. rewrite Hk.
  change (u16 (0 + 1) =? 2) with false. cbv iota. cbn [bytes_read r_length header r_buffer r_pending]. rewrite Hl0, Hp. reflexivity.
Qed.

(** A datagram longer than the buffer, which the other side chooses, is reported with its
    full length although the buffer holds its first 2048 bytes only: handing that many bytes
    on reads behind the buffer. *)
Theorem tcp_oversize_overread (c : tcp_ice_read_context_t) (d : list Z) (fuel : nat) : idle c -> Forall byte d -> 2048 < zlen d < 65534 ->
  (exists c', tcp_ice_read (arrives (frame d)) c = Some (zlen d, c', []) /\ r_buffer c' = take 2048 d) /\
  poll_tcp fuel c (arrives (frame d)) = None.
Proof.
  intros Hc Hb Hd. pose proof (read_oversize c d Hc Hb Hd) as Hr. split; [done|]. destruct Hr as (c' & Hr & Hbuf).
  destruct fuel as [|fuel]; [done|]. cbn [poll_tcp]. rewrite Hr. cbn [mbind option_bind]. destruct (Z.leb_spec (zlen d) 0); [lia|].
  rewrite Hbuf. destruct (rd_bytes (take 2048 d) 0 (zlen d)) as [x|] eqn:Hx; [|done].
  apply rd_bytes_inv in Hx as (_ & Hx & _). unfold zlen in Hx, Hd. rewrite length_take in Hx. lia.
Qed.

(** ** The theorems at work *)

Definition writer : tcp_ice_write_context_t := Write_context (replicate 2048 0) 0 0 false.
Definition reader : tcp_ice_read_context_t := Read_context (replicate 2048 0) 0 0 [0; 0] false.

(** Two datagrams; the first needs three calls, the second one.  They arrive in four pieces. *)
Definition script : list (list Z * (list Z * list (list Z))) := [([1; 2; 3], ([1], [[0; 2]; [9; 9]])); ([255], ([2; 0; 1], []))].
Definition stream : list event := [Data 0 [3; 1]; Err SEAGAIN; Data 2 []; Data 3 [0; 1]; Err SEAGAIN; Data 255 []].

Lemma tcp_framing_roundtrip_witness : exists cr', poll_tcp 9 reader stream = Some ([[1; 2; 3]; [255]], cr', []).
Proof.
  apply (tcp_framing_roundtrip script writer (Write_context ([255; 2; 3] ++ replicate 2045 0) 1 3 false) [0; 3; 1; 2; 3; 0; 1; 255] reader stream);
    [|reflexivity|reflexivity|vm_compute; reflexivity| |reflexivity| |].
  - repeat constructor; vm_compute; discriminate.
  - repeat split.
  - repeat constructor.
  - intros p Hp. assert (p = 1 \/ p = 6) as [-> | ->] by (vm_compute in Hp; set_solver); vm_compute; set_solver.
Defined.

(** The stream of a datagram of one byte, whose header is split, gives no datagram. *)
Lemma tcp_header_byte_lost_witness :
  (exists c1, idle c1 /\ r_buffer c1 = r_buffer reader /\ tcp_ice_read [Data 0 []; Data 1 [7]] reader = tcp_ice_read [Data 1 [7]] c1) /\
  exists c', tcp_ice_read [Data 0 []; Data 1 [7]] reader = Some (- SEAGAIN, c', []).
Proof.
  split; [apply (tcp_header_byte_lost reader 0 [Data 1 [7]]); repeat split|vm_compute; by eexists].
Defined.

Lemma tcp_oversize_overread_witness : (exists c', tcp_ice_read (arrives (frame (replicate 2049 7))) reader = Some (2049, c', []) /\
  r_buffer c' = take 2048 (replicate 2049 7)) /\ poll_tcp 5 reader (arrives (frame (replicate 2049 7))) = None.
Proof.
  apply (tcp_oversize_overread reader (replicate 2049 7) 5); [repeat split| |vm_compute; split; reflexivity].
  apply Forall_replicate. unfold byte. lia.
Defined.
