(* ===== verification/Turn.v ===== *)
(** * The TURN map and channel data (libjuice [src/turn.c])

    The map holds permissions and channel bindings in a hash table with linear probing, and
    two arrays of pointers into it, ordered by channel number and by transaction identifier,
    that are searched by bisection.  A pointer is an index into the table, -1 for null.  The
    clock and the random bytes are arguments. *)

From S2P Require Import Prelude Bytes Addr Stun.
Open Scope Z_scope.

(** ** Channel data *)

Definition is_channel_data (data : list Z) (size : Z) : option bool :=
  if size =? 0 then Some false else b ← rd data 0; Some ((64 <=? b) && (b <=? 79)).

Definition is_valid_channel (channel : Z) : bool := 16384 <=? channel.

(** The buffer is written even when it holds the data already ([memmove]). *)
Definition turn_wrap_channel_data (buffer : list Z) (size : Z) (data : list Z) (data_size channel : Z) : option (Z * list Z) :=
  if negb (is_valid_channel channel) then Some (-1, buffer) else
  if 65536 <=? data_size then Some (-1, buffer) else
  if size <? 4 + data_size then Some (-1, buffer) else
  d ← rd_bytes data 0 data_size;
  buffer ← wr_bytes buffer 4 d;
  buffer ← wr_bytes buffer 0 (be16 channel ++ be16 (u16 data_size));
  Some (4 + data_size, buffer).

(** [r] is what [juice_random] delivers. *)
Definition random_channel_number (r : Z) : Z := Z.lor 16384 (Z.land r 4095).

(** ** The map *)

Inductive turn_entry_type_t := TURN_ENTRY_TYPE_EMPTY | TURN_ENTRY_TYPE_DELETED | TURN_ENTRY_TYPE_PERMISSION | TURN_ENTRY_TYPE_CHANNEL.

#[export] Instance turn_entry_type_eq_dec : EqDecision turn_entry_type_t.
Proof. solve_decision. Defined.

Definition type_value (t : turn_entry_type_t) : Z :=
  match t with TURN_ENTRY_TYPE_EMPTY => 0 | TURN_ENTRY_TYPE_DELETED => 1 | TURN_ENTRY_TYPE_PERMISSION => 2 | TURN_ENTRY_TYPE_CHANNEL => 3 end.

Record turn_entry_t := Entry {
  e_type : turn_entry_type_t; timestamp : Z; e_record : addr_record_t; e_transaction_id : list Z; channel : Z;
  fresh_transaction_id : bool }.

#[export] Instance turn_entry_eta : RecordEta turn_entry_t := fun e =>
  Entry (e_type e) (timestamp e) (e_record e) (e_transaction_id e) (channel e) (fresh_transaction_id e).

Record turn_map_t := Turn_map {
  entries : list turn_entry_t; (* the field [map] *)
  ordered_channels : list Z; ordered_transaction_ids : list Z;
  map_size : Z; channels_count : Z; transaction_ids_count : Z }.

#[export] Instance turn_map_eta : RecordEta turn_map_t := fun m =>
  Turn_map (entries m) (ordered_channels m) (ordered_transaction_ids m) (map_size m) (channels_count m) (transaction_ids_count m).

Definition memory_is_zero (d : list Z) : bool := forallb (fun b => b =? 0) d.

(** [memcmp] of two arrays of the same size. *)
Fixpoint memcmp (a b : list Z) : Z :=
  match a, b with x :: a, y :: b => if x <? y then -1 else if y <? x then 1 else memcmp a b | _, _ => 0 end.

(** [memmove] within an array of pointers. *)
Definition memmove (l : list Z) (dst src n : Z) : option (list Z) := x ← rd_bytes l src n; wr_bytes l dst x.

(** The bisection, with the comparison of the searched key with that of an entry. *)
Fixpoint find_ordered_rec (fuel : nat) (cmp : turn_entry_t -> Z) (es : list turn_entry_t) (ordered : list Z) (begin end_ : Z) : option Z :=
  match fuel with
  | O => None
  | S n =>
      let d := end_ - begin in
      if d <=? 0 then Some begin else
      let pivot := begin + d / 2 in
      p ← rd ordered pivot; e ← rd es p;
      let ret := cmp e in
      if ret <? 0 then find_ordered_rec n cmp es ordered begin pivot
      else if 0 <? ret then find_ordered_rec n cmp es ordered (pivot + 1) end_
      else Some pivot
  end.

Definition find_ordered_channel (m : turn_map_t) (c : Z) : option Z :=
  find_ordered_rec (S (Z.to_nat (channels_count m))) (fun e => c - channel e) (entries m) (ordered_channels m) 0 (channels_count m).

Definition find_ordered_transaction_id (m : turn_map_t) (tid : list Z) : option Z :=
  find_ordered_rec (S (Z.to_nat (transaction_ids_count m))) (fun e => memcmp tid (e_transaction_id e)) (entries m)
    (ordered_transaction_ids m) 0 (transaction_ids_count m).

Definition remove_ordered_transaction_id (m : turn_map_t) (tid : list Z) : option turn_map_t :=
  pos ← find_ordered_transaction_id m tid;
  if pos <? transaction_ids_count m then
    l ← memmove (ordered_transaction_ids m) pos (pos + 1) (transaction_ids_count m - (pos + 1));
    Some (m <| ordered_transaction_ids := l |> <| transaction_ids_count := transaction_ids_count m - 1 |>)
  else Some m.

(** Whether the entry is the one for a type and an address; ports do not count. *)
Definition is_entry (type : turn_entry_type_t) (record : addr_record_t) (e : turn_entry_t) : bool :=
  bool_decide (e_type e = type) && addr_record_is_equal (e_record e) record false.

(** [while (true)], from [pos]; [Some None] is a null pointer. *)
Fixpoint find_loop (fuel : nat) (m : turn_map_t) (stop : turn_entry_t -> bool) (key pos : Z) : option (option Z) :=
  match fuel with
  | O => None
  | S n =>
      e ← rd (entries m) pos;
      if stop e then Some (Some pos) else
      let pos := (pos + 1) mod map_size m in
      if pos =? key then Some None else find_loop n m stop key pos
  end.

Definition find_entry (m : turn_map_t) (record : addr_record_t) (type : turn_entry_type_t) (allow_deleted : bool) : option (option Z) :=
  if map_size m =? 0 then None (* division by zero *) else
  let key := u64 (addr_record_hash record false + type_value type) mod map_size m in
  find_loop (Z.to_nat (map_size m)) m (fun e =>
    bool_decide (e_type e = TURN_ENTRY_TYPE_EMPTY) || is_entry type record e
    || allow_deleted && bool_decide (e_type e = TURN_ENTRY_TYPE_DELETED)) key key.

(** [*entry = e] *)
Definition set_entry (m : turn_map_t) (i : Z) (e : turn_entry_t) : option turn_map_t := es ← wr (entries m) i e; Some (m <| entries := es |>).

Section clock.
Context (now : Z). (* current_timestamp() *)

(** Sums of timestamps do not overflow. *)
Definition expiry (duration : Z) : Z := sint 64 (now + duration).

Definition update_timestamp (m : turn_map_t) (type : turn_entry_type_t) (tid : list Z) (record : option addr_record_t) (duration : Z)
    : option (bool * turn_map_t) :=
  match record with
  | Some record =>
      p ← find_entry m record type true;
      match p with
      | None => Some (false, m)
      | Some i =>
          e ← rd (entries m) i;
          if bool_decide (e_type e = type) && (memcmp (e_transaction_id e) tid =? 0) then Some (true, m) else
          let e := if bool_decide (e_type e = type) then e else e <| e_type := type |> <| e_record := record |> in
          m ← set_entry m i e;
          m ← (if memory_is_zero (e_transaction_id e) then Some m else remove_ordered_transaction_id m (e_transaction_id e));
          m ← set_entry m i (e <| e_transaction_id := tid |> <| timestamp := expiry duration |> <| fresh_transaction_id := false |>);
          Some (true, m)
      end
  | None =>
      pos ← find_ordered_transaction_id m tid;
      if pos =? transaction_ids_count m then Some (false, m) else
      i ← rd (ordered_transaction_ids m) pos; e ← rd (entries m) i;
      if negb (bool_decide (e_type e = type)) || negb (memcmp (e_transaction_id e) tid =? 0) then Some (false, m) else
      m ← set_entry m i (e <| timestamp := expiry duration |> <| fresh_transaction_id := false |>);
      Some (true, m)
  end.

Definition turn_set_permission (m : turn_map_t) (tid : list Z) (record : option addr_record_t) (duration : Z) :=
  update_timestamp m TURN_ENTRY_TYPE_PERMISSION tid record duration.

(** The entry [find_entry] finds, if it has the type. *)
Definition entry_of (m : turn_map_t) (record : addr_record_t) (type : turn_entry_type_t) : option (option turn_entry_t) :=
  p ← find_entry m record type false;
  match p with
  | None => Some None
  | Some i => e ← rd (entries m) i; Some (if bool_decide (e_type e = type) then Some e else None)
  end.

Definition turn_has_permission (m : turn_map_t) (record : addr_record_t) : option bool :=
  e ← entry_of m record TURN_ENTRY_TYPE_PERMISSION;
  Some (match e with None => false | Some e => now <? timestamp e end).

Definition turn_bind_channel (m : turn_map_t) (record : option addr_record_t) (tid : option (list Z)) (c duration : Z)
    : option (bool * turn_map_t) :=
  match record with
  | None => Some (false, m)
  | Some record =>
      if negb (is_valid_channel c) then Some (false, m) else
      p ← find_entry m record TURN_ENTRY_TYPE_CHANNEL true;
      match p with
      | None => Some (false, m)
      | Some i =>
          e ← rd (entries m) i;
          if bool_decide (e_type e = TURN_ENTRY_TYPE_CHANNEL) && negb (channel e =? 0) then
            if negb (channel e =? c) then Some (false, m) (* the record is bound to another channel *)
            else m ← set_entry m i (e <| timestamp := expiry duration |>); Some (true, m)
          else
            pos ← find_ordered_channel m c;
            bound ← (if pos <? channels_count m then
                        j ← rd (ordered_channels m) pos; other ← rd (entries m) j; Some (channel other =? c)
                      else Some false);
            if (bound : bool) then Some (false, m) (* the channel is bound to another record *) else
            let e := if bool_decide (e_type e = TURN_ENTRY_TYPE_CHANNEL) then e
                     else e <| e_type := TURN_ENTRY_TYPE_CHANNEL |> <| e_record := record |> in
            l ← memmove (ordered_channels m) (pos + 1) pos (channels_count m - pos);
            l ← wr l pos (i : Z);
            let e := e <| channel := c |> <| timestamp := expiry duration |> in
            let e := match tid with
                     | Some tid => e <| e_transaction_id := tid |> <| fresh_transaction_id := true |>
                     | None => e end in
            m ← set_entry (m <| ordered_channels := l |> <| channels_count := channels_count m + 1 |>) i e;
            Some (true, m)
      end
  end.

Definition turn_bind_current_channel (m : turn_map_t) (tid : list Z) (record : option addr_record_t) (duration : Z) :=
  update_timestamp m TURN_ENTRY_TYPE_CHANNEL tid record duration.

(** The channel, when there is an entry. *)
Definition turn_get_channel (m : turn_map_t) (record : addr_record_t) : option (option Z) :=
  e ← entry_of m record TURN_ENTRY_TYPE_CHANNEL; Some (option_map channel e).

Definition turn_get_bound_channel (m : turn_map_t) (record : addr_record_t) : option (option Z) :=
  e ← entry_of m record TURN_ENTRY_TYPE_CHANNEL;
  Some (match e with
        | None => None
        | Some e => if (channel e =? 0) || (timestamp e <=? now) then None else Some (channel e) end).

(** The entry with the channel. *)
Definition channel_entry (m : turn_map_t) (c : Z) : option (option turn_entry_t) :=
  if negb (is_valid_channel c) then Some None else
  pos ← find_ordered_channel m c;
  if pos =? channels_count m then Some None else
  i ← rd (ordered_channels m) pos; e ← rd (entries m) i;
  Some (if channel e =? c then Some e else None).

Definition turn_find_channel (m : turn_map_t) (c : Z) : option (option addr_record_t) := e ← channel_entry m c; Some (option_map e_record e).

Definition turn_find_bound_channel (m : turn_map_t) (c : Z) : option (option addr_record_t) :=
  e ← channel_entry m c;
  Some (match e with None => None | Some e => if timestamp e <=? now then None else Some (e_record e) end).

(** [draws] is what [juice_random] delivers, one after the other; [None] also when the draws
    are used up.  The chosen channel is returned too. *)
Fixpoint draw_channel (m : turn_map_t) (draws : list Z) : option Z :=
  match draws with
  | [] => None
  | r :: draws => let c := random_channel_number r in
                  found ← turn_find_channel m c; match found with Some _ => draw_channel m draws | None => Some c end
  end.

Definition turn_bind_random_channel (m : turn_map_t) (record : addr_record_t) (draws : list Z) (duration : Z) : option (option Z * turn_map_t) :=
  c ← draw_channel m draws;
  '(ok, m) ← turn_bind_channel m (Some record) None c duration;
  Some (if (ok : bool) then Some c else None, m).
End clock.

Definition set_transaction_id (m : turn_map_t) (type : turn_entry_type_t) (record : addr_record_t) (tid : list Z) : option (bool * turn_map_t) :=
  if negb (bool_decide (type = TURN_ENTRY_TYPE_PERMISSION)) && negb (bool_decide (type = TURN_ENTRY_TYPE_CHANNEL)) then Some (false, m) else
  p ← find_entry m record type true;
  match p with
  | None => Some (false, m)
  | Some i =>
      e ← rd (entries m) i;
      m ← (if bool_decide (e_type e = type) && negb (memory_is_zero (e_transaction_id e))
           then remove_ordered_transaction_id m (e_transaction_id e) else Some m);
      pos ← find_ordered_transaction_id m tid;
      l ← memmove (ordered_transaction_ids m) (pos + 1) pos (transaction_ids_count m - pos);
      l ← wr l pos i;
      let e := if bool_decide (e_type e = type) then e else e <| e_type := type |> <| e_record := record |> in
      m ← set_entry (m <| ordered_transaction_ids := l |> <| transaction_ids_count := transaction_ids_count m + 1 |>) i
            (e <| e_transaction_id := tid |> <| fresh_transaction_id := true |>);
      Some (true, m)
  end.

(** The entry with the transaction identifier and its index. *)
Definition find_transaction_entry (m : turn_map_t) (tid : list Z) : option (option (Z * turn_entry_t)) :=
  pos ← find_ordered_transaction_id m tid;
  if pos =? transaction_ids_count m then Some None else
  i ← rd (ordered_transaction_ids m) pos; e ← rd (entries m) i;
  Some (if memcmp (e_transaction_id e) tid =? 0 then Some (i, e) else None).

Definition find_transaction_id (m : turn_map_t) (tid : list Z) : option (option addr_record_t) :=
  e ← find_transaction_entry m tid; Some (option_map (fun x => e_record (snd x)) e).

Fixpoint draw_transaction_id (m : turn_map_t) (draws : list (list Z)) : option (list Z) :=
  match draws with
  | [] => None
  | tid :: draws => found ← find_transaction_id m tid; match found with Some _ => draw_transaction_id m draws | None => Some tid end
  end.

(** The identifier written to [transaction_id], when it succeeds. *)
Definition set_random_transaction_id (m : turn_map_t) (type : turn_entry_type_t) (record : addr_record_t) (draws : list (list Z))
    : option (option (list Z) * turn_map_t) :=
  p ← find_entry m record type false;
  fresh ← (match p with
           | None => Some None
           | Some i => e ← rd (entries m) i; Some (if fresh_transaction_id e then Some (e_transaction_id e) else None) end);
  match fresh with
  | Some tid => Some (Some tid, m)
  | None => tid ← draw_transaction_id m draws;
            '(ok, m) ← set_transaction_id m type record tid;
            Some (if (ok : bool) then Some tid else None, m)
  end.

Definition turn_set_permission_transaction_id m record tid := set_transaction_id m TURN_ENTRY_TYPE_PERMISSION record tid.
Definition turn_set_channel_transaction_id m record tid := set_transaction_id m TURN_ENTRY_TYPE_CHANNEL record tid.
Definition turn_set_random_permission_transaction_id m record draws := set_random_transaction_id m TURN_ENTRY_TYPE_PERMISSION record draws.
Definition turn_set_random_channel_transaction_id m record draws := set_random_transaction_id m TURN_ENTRY_TYPE_CHANNEL record draws.

Definition turn_retrieve_transaction_id (m : turn_map_t) (tid : list Z) : option (option addr_record_t * turn_map_t) :=
  x ← find_transaction_entry m tid;
  match x with
  | None => Some (None, m)
  | Some (i, e) => m ← set_entry m i (e <| fresh_transaction_id := false |>); Some (Some (e_record e), m)
  end.

(** ** Initialisation

    [allocated] says whether all three allocations succeed; [None] is the result -1. *)
Definition zero_entry : turn_entry_t := Entry TURN_ENTRY_TYPE_EMPTY 0 zero_record (replicate 12 0) 0 false.

Definition turn_init_map (allocated : bool) (size : Z) : option turn_map_t :=
  let n := Z.to_nat (size * 2) in
  if negb allocated then None else Some (Turn_map (replicate n zero_entry) (replicate n (-1)) (replicate n (-1)) (size * 2) 0 0).
