(* ===== verification/TurnOrder.v ===== *)
(** * The ordered arrays of the TURN map as indices of its table

    [ordered]: an array lists the positions of some entries in the order of a key.  Bisection
    finds the place of a key; inserting there and removing keep the order.  Transaction
    identifiers are ordered as big-endian numbers.  [indexed key L]: an array lists the
    positions [L] of the table, in the order of [key]. *)

From S2P Require Import Prelude Bytes Addr Turn.
From Stdlib Require Import Sorting.Sorted.
Open Scope Z_scope.

(** ** Identifiers as numbers *)

Lemma get_be_cons x a : Forall byte a -> get_be (x :: a) = x * 2 ^ (8 * zlen a) + get_be a.
Proof. intros Ha. pose proof (get_be_app [x] a Ha) as H. cbn [app] in H. rewrite H. unfold get_be at 1. cbn. done. Qed.

Lemma memcmp_get_be a : forall b, length a = length b -> Forall byte a -> Forall byte b ->
  (memcmp a b < 0 <-> get_be a < get_be b) /\ (0 < memcmp a b <-> get_be b < get_be a) /\ (memcmp a b = 0 <-> a = b).
Proof.
  induction a as [|x a IH]; intros [|y b] Hl Ha Hb; try done. simpl in Hl.
  apply Forall_cons in Ha as [Hx Ha]. apply Forall_cons in Hb as [Hy Hb]. destruct (IH b) as (IH1 & IH2 & IH3); [lia|done|done|].
  rewrite !get_be_cons by done. cbn [memcmp]. pose proof (get_be_range a Ha) as Hra. pose proof (get_be_range b Hb) as Hrb.
  assert (zlen a = zlen b) as Hz by (unfold zlen; lia). rewrite Hz in *. set (B := 2 ^ (8 * zlen b)) in *.
  destruct (Z.ltb_spec x y); [|destruct (Z.ltb_spec y x)].
  - split; [|split]; [split; [nia|lia]|split; [lia|nia]|split; [lia|intros [= -> _]; lia]].
  - split; [|split]; [split; [lia|nia]|split; [nia|lia]|split; [lia|intros [= -> _]; lia]].
  - assert (x = y) as -> by lia. split; [|split]; [rewrite IH1; lia|rewrite IH2; lia|rewrite IH3; split; [by intros ->|by intros [= ->]]].
Qed.

Lemma get_be_zero a : Forall byte a -> (get_be a = 0 <-> memory_is_zero a = true).
Proof.
  induction 1 as [|x a Hx Ha IH]; [done|]. rewrite get_be_cons by done. cbn [memory_is_zero forallb]. fold (memory_is_zero a).
  pose proof (get_be_range a Ha). rewrite andb_true_iff, Z.eqb_eq, <- IH. unfold byte in Hx. nia.
Qed.

(** ** Ordered arrays *)

Definition key_at (key : turn_entry_t -> Z) (es : list turn_entry_t) (p : Z) : Z := match rd es p with Some e => key e | None => 0 end.

Record ordered (key : turn_entry_t -> Z) (es : list turn_entry_t) (arr : list Z) (count : Z) (cs : list Z) : Prop := {
  or_prefix : exists rest, arr = cs ++ rest;
  or_count : count = zlen cs;
  or_valid : forall p, p ∈ cs -> is_Some (rd es p);
  or_sorted : StronglySorted Z.lt (key_at key es <$> cs) }.

Lemma sorted_app (l1 l2 : list Z) : StronglySorted Z.lt (l1 ++ l2) <->
  StronglySorted Z.lt l1 /\ StronglySorted Z.lt l2 /\ (forall x y, x ∈ l1 -> y ∈ l2 -> x < y).
Proof.
  induction l1 as [|x l1 IH]; cbn [app].
  - split; [intros H; split; [constructor|]; split; [done|intros x y Hx; set_solver]|by intros (_ & ? & _)].
  - split.
    + intros [H1 H2]%StronglySorted_inv. apply IH in H1 as (Ha & Hb & Hc). rewrite Forall_forall in H2. split; [|split].
      * constructor; [done|]. rewrite Forall_forall. intros y Hy. apply H2, elem_of_app. by left.
      * done.
      * intros y z Hy Hz. apply elem_of_cons in Hy as [->|Hy]; [|by apply Hc]. apply H2, elem_of_app. by right.
    + intros ([Ha Hx]%StronglySorted_inv & Hb & Hc). constructor.
      * apply IH. split; [done|]. split; [done|]. intros y z Hy Hz. apply Hc; [by right|done].
      * rewrite Forall_forall in *. intros y Hy. apply elem_of_app in Hy as [Hy|Hy]; [by apply Hx|]. apply Hc; [by left|done].
Qed.

Section order.
Context (key : turn_entry_t -> Z) (es : list turn_entry_t).

Lemma ordered_rd arr count cs i : ordered key es arr count cs -> 0 <= i < zlen cs ->
  exists p e, rd arr i = Some p /\ rd cs i = Some p /\ p ∈ cs /\ rd es p = Some e /\ rd (key_at key es <$> cs) i = Some (key e).
Proof.
  intros [[rest ->] _ Hv _] Hi. destruct (rd_is_Some cs i Hi) as [p Hp]. pose proof Hp as Hp'. rewrite rd_nonneg in Hp by lia.
  pose proof (list_elem_of_lookup_2 _ _ _ Hp) as Hin. destruct (Hv p Hin) as [e He]. exists p, e.
  rewrite (rd_nonneg (cs ++ rest)), (rd_nonneg cs), (rd_nonneg (key_at key es <$> cs)) by lia.
  rewrite lookup_app_l by (unfold zlen in Hi; lia). rewrite list_lookup_fmap, Hp. cbn. unfold key_at. by rewrite He.
Qed.

Lemma sorted_rd (l : list Z) i j x y : StronglySorted Z.lt l -> rd l i = Some x -> rd l j = Some y -> i < j -> x < y.
Proof.
  intros Hs Hx Hy Hij. pose proof (rd_Some_lt _ _ _ Hx). pose proof (rd_Some_lt _ _ _ Hy). rewrite rd_nonneg in Hx, Hy by lia.
  apply list_elem_of_split_length in Hx as (l1 & l2 & -> & Hl). rewrite sorted_app in Hs. destruct Hs as (_ & Hs & _).
  apply StronglySorted_inv in Hs as [_ Hs]. rewrite Forall_forall in Hs. apply Hs.
  rewrite lookup_app_r in Hy by lia. destruct (Z.to_nat j - length l1)%nat eqn:Hd; [lia|]. cbn in Hy.
  by eapply list_elem_of_lookup_2.
Qed.

(** Bisection: [pos] splits the keys at [k]. *)
Lemma find_rec_spec cmp k arr count cs : ordered key es arr count cs ->
  (forall p e, p ∈ cs -> rd es p = Some e -> (cmp e < 0 <-> k < key e) /\ (0 < cmp e <-> key e < k)) ->
  forall fuel b en, 0 <= b <= en -> en <= zlen cs -> (Z.to_nat (en - b) < fuel)%nat ->
  (forall i x, rd (key_at key es <$> cs) i = Some x -> i < b -> x < k) ->
  (forall i x, rd (key_at key es <$> cs) i = Some x -> en <= i -> k < x) ->
  exists pos, find_ordered_rec fuel cmp es arr b en = Some pos /\ 0 <= pos <= zlen cs /\
    (forall i x, rd (key_at key es <$> cs) i = Some x -> i < pos -> x < k) /\
    (forall i x, rd (key_at key es <$> cs) i = Some x -> pos <= i -> k <= x).
Proof.
  intros Ho Hcmp. induction fuel as [|fuel IH]; intros b en Hb Hen Hf Hlo Hhi; [lia|]. cbn [find_ordered_rec].
  destruct (Z.leb_spec (en - b) 0).
  { exists b. split; [done|]. split; [lia|]. split; [done|]. intros i x Hx Hi. assert (k < x) by (apply (Hhi i); [done|lia]). lia. }
  assert (b <= b + (en - b) / 2 < en) as Hpiv by (Z.to_euclidean_division_equations; lia). set (pivot := b + (en - b) / 2) in *.
  destruct (ordered_rd arr count cs pivot Ho) as (p & e & Hp & _ & Hin & He & Hk); [lia|]. rewrite Hp. cbn [mbind option_bind]. rewrite He. cbn [mbind option_bind].
  destruct (Hcmp p e Hin He) as [Hc1 Hc2]. pose proof (or_sorted _ _ _ _ _ Ho) as Hs.
  destruct (Z.ltb_spec (cmp e) 0) as [Hneg|Hnn]; [|destruct (Z.ltb_spec 0 (cmp e)) as [Hpos|Hz]].
  - apply IH; [lia|lia|lia|done|]. intros i x Hx Hi. apply Hc1 in Hneg. destruct (Z.eq_dec i pivot) as [->|]; [congruence|].
    assert (key e < x) by (apply (sorted_rd _ pivot i _ _ Hs Hk Hx); lia). lia.
  - apply IH; [lia|lia|lia| |done]. intros i x Hx Hi. apply Hc2 in Hpos. destruct (Z.eq_dec i pivot) as [->|]; [congruence|].
    assert (x < key e) by (apply (sorted_rd _ i pivot _ _ Hs Hx Hk); lia). lia.
  - assert (key e = k) as <- by lia. exists pivot. split; [done|]. split; [lia|]. split.
    + intros i x Hx Hi. by apply (sorted_rd _ i pivot _ _ Hs Hx Hk).
    + intros i x Hx Hi. destruct (Z.eq_dec i pivot) as [->|]; [rewrite Hk in Hx; injection Hx as <-; lia|].
      assert (key e < x) by (apply (sorted_rd _ pivot i _ _ Hs Hk Hx); lia). lia.
Qed.
End order.

(** The place of [k] in the sequence. *)
Lemma find_split key es cmp k arr count cs : ordered key es arr count cs ->
  (forall p e, p ∈ cs -> rd es p = Some e -> (cmp e < 0 <-> k < key e) /\ (0 < cmp e <-> key e < k)) ->
  exists l1 l2, cs = l1 ++ l2 /\ find_ordered_rec (S (Z.to_nat count)) cmp es arr 0 count = Some (zlen l1) /\
    (forall p, p ∈ l1 -> key_at key es p < k) /\ (forall p, p ∈ l2 -> k <= key_at key es p).
Proof.
  intros Ho Hcmp. pose proof (zlen_nonneg cs). rewrite (or_count _ _ _ _ _ Ho).
  destruct (find_rec_spec key es cmp k arr count cs Ho Hcmp (S (Z.to_nat (zlen cs))) 0 (zlen cs)) as (pos & Hf & Hpos & Hlo & Hhi); [lia|lia|lia| | |].
  - intros i x Hx Hi. apply rd_Some_lt in Hx. lia.
  - intros i x Hx Hi. apply rd_Some_lt in Hx. unfold zlen in *. rewrite length_fmap in Hx. lia.
  - exists (take (Z.to_nat pos) cs), (drop (Z.to_nat pos) cs). split; [by rewrite take_drop|]. split; [rewrite zlen_take by lia; exact Hf|].
    assert (forall i p, cs !! i = Some p -> rd (key_at key es <$> cs) (Z.of_nat i) = Some (key_at key es p)) as Hrd.
    { intros i p Hp. rewrite rd_nonneg, Nat2Z.id, list_lookup_fmap, Hp by lia. done. }
    split; intros p [i Hi]%list_elem_of_lookup.
    + apply lookup_take_Some in Hi as [Hi Hlt].
      apply (Hlo (Z.of_nat i)); [by apply Hrd|lia].
    + rewrite lookup_drop in Hi. apply (Hhi (Z.of_nat (Z.to_nat pos + i))); [by apply Hrd|lia].
Qed.

Lemma map_key_ext key es es' (cs : list Z) : (forall p, p ∈ cs -> key_at key es' p = key_at key es p) -> key_at key es' <$> cs = key_at key es <$> cs.
Proof. intros H. apply list_fmap_ext. intros i p Hp. apply H. by eapply list_elem_of_lookup_2. Qed.

(** Changes of entries that do not concern the keys. *)
Lemma ordered_entries key es es' arr count cs : ordered key es arr count cs ->
  (forall p, p ∈ cs -> is_Some (rd es' p) /\ key_at key es' p = key_at key es p) -> ordered key es' arr count cs.
Proof.
  intros [Hp Hc Hv Hs] H. split; [done|done|intros p Hin; by apply H|]. change (map (key_at key es') cs) with (key_at key es' <$> cs).
  rewrite (map_key_ext key es es'); [done|]. intros p Hin. by apply H.
Qed.

Lemma ordered_insert key es es' arr count l1 l2 i k : ordered key es arr count (l1 ++ l2) -> count < zlen arr ->
  (forall p, p ∈ l1 -> key_at key es p < k) -> (forall p, p ∈ l2 -> k < key_at key es p) ->
  (forall p, p ∈ l1 ++ l2 -> is_Some (rd es' p) /\ key_at key es' p = key_at key es p) -> is_Some (rd es' i) -> key_at key es' i = k ->
  exists a arr', memmove arr (zlen l1 + 1) (zlen l1) (count - zlen l1) = Some a /\ wr a (zlen l1) i = Some arr' /\
    zlen arr' = zlen arr /\ ordered key es' arr' (count + 1) (l1 ++ i :: l2).
Proof.
  intros Ho Hroom Hlo Hhi Hsame Hi Hk. pose proof (ordered_entries _ _ es' _ _ _ Ho Hsame) as [[rest Hrest] Hc Hv Hs]. subst arr count.
  rewrite !zlen_app in Hroom. destruct rest as [|r rest]; [change (zlen (@nil Z)) with 0 in Hroom; lia|]. pose proof (zlen_nonneg l1). pose proof (zlen_nonneg l2).
  rewrite zlen_app. replace (zlen l1 + zlen l2 - zlen l1) with (zlen l2) by lia. unfold memmove.
  rewrite <- app_assoc, rd_bytes_app by done. cbn [mbind option_bind].
  assert (exists h tail, l2 ++ r :: rest = h :: tail) as (h & tail & Ht) by (destruct l2; by eexists _, _).
  assert (zlen tail = zlen l2 + zlen rest) as Htl.
  { apply (f_equal zlen) in Ht. rewrite zlen_app, !zlen_cons in Ht. lia. }
  rewrite Ht. pose proof (zlen_nonneg rest).
  pose proof (wr_bytes_at (l1 ++ [h]) tail l2) as Hw. rewrite zlen_app in Hw. change (zlen [h]) with 1 in Hw. rewrite <- app_assoc in Hw. cbn [app] in Hw.
  rewrite Hw by lia. rewrite <- !app_assoc. cbn [app]. pose proof (wr_at l1 (h :: l2 ++ drop (length l2) tail) i) as Hw2.
  eexists _, _. split; [done|]. split; [apply Hw2; rewrite zlen_cons; pose proof (zlen_nonneg (l2 ++ drop (length l2) tail)); lia|].
  change (drop 1 (h :: l2 ++ drop (length l2) tail)) with (l2 ++ drop (length l2) tail). split.
  - rewrite !zlen_app, zlen_drop, !zlen_cons. change (zlen (@nil Z)) with 0. rewrite Htl. unfold zlen in *. lia.
  - split.
    + exists (drop (length l2) tail). by rewrite <- !app_assoc.
    + rewrite !zlen_app, zlen_cons. lia.
    + intros p Hp. apply elem_of_app in Hp as [Hp|Hp]; [apply Hv; set_solver|]. apply elem_of_cons in Hp as [->|Hp]; [done|apply Hv; set_solver].
    + rewrite map_app in Hs |- *. cbn [map]. rewrite sorted_app in Hs |- *. destruct Hs as (Hs1 & Hs2 & Hs3). rewrite Hk.
      assert (forall x, x ∈ map (key_at key es') l1 -> x < k) as Hbelow.
      { intros x (p & -> & Hp)%list_elem_of_fmap. destruct (Hsame p) as [_ ->]; [set_solver|]. by apply Hlo. }
      assert (forall x, x ∈ map (key_at key es') l2 -> k < x) as Habove.
      { intros x (p & -> & Hp)%list_elem_of_fmap. destruct (Hsame p) as [_ ->]; [set_solver|]. by apply Hhi. }
      split; [done|]. split; [constructor; [done|by rewrite Forall_forall]|]. intros x y Hx Hy.
      apply elem_of_cons in Hy as [->|Hy]; [by apply Hbelow|by apply Hs3].
Qed.

Lemma ordered_remove key es arr count l1 p l2 : ordered key es arr count (l1 ++ p :: l2) ->
  exists arr', memmove arr (zlen l1) (zlen l1 + 1) (count - (zlen l1 + 1)) = Some arr' /\ zlen arr' = zlen arr /\
    ordered key es arr' (count - 1) (l1 ++ l2).
Proof.
  intros [[rest ->] -> Hv Hs]. rewrite zlen_app, zlen_cons. unfold memmove. replace (zlen l1 + (1 + zlen l2) - (zlen l1 + 1)) with (zlen l2) by lia.
  pose proof (rd_bytes_app (l1 ++ [p]) l2 rest (zlen l2) eq_refl) as Hr. rewrite zlen_app, <- app_assoc in Hr. change (zlen [p]) with 1 in Hr. cbn [app] in Hr.
  rewrite <- app_assoc. cbn [app]. rewrite Hr. cbn [mbind option_bind].
  pose proof (wr_bytes_at l1 (p :: l2 ++ rest) l2) as Hw. rewrite Hw by (rewrite zlen_cons, zlen_app; pose proof (zlen_nonneg rest); lia).
  eexists. split; [done|]. split.
  - rewrite !zlen_app, zlen_drop, zlen_cons, zlen_app. pose proof (zlen_nonneg rest). unfold zlen in *. lia.
  - split; [by eexists|rewrite zlen_app; lia|intros q Hq; apply Hv; set_solver|].
    rewrite map_app in Hs |- *. cbn [map] in Hs. rewrite sorted_app in Hs |- *. destruct Hs as (Hs1 & Hs2 & Hs3).
    apply StronglySorted_inv in Hs2 as [Hs2 _]. split; [done|]. split; [done|]. intros x y Hx Hy. apply Hs3; [done|by right].
Qed.

Lemma sorted_nodup (l : list Z) : StronglySorted Z.lt l -> NoDup l.
Proof.
  induction 1 as [|x l _ IH Hx]; constructor; [|done]. intros Hin. rewrite Forall_forall in Hx. specialize (Hx x Hin). lia.
Qed.

Lemma ordered_nodup key es arr count cs : ordered key es arr count cs -> NoDup cs.
Proof. intros Ho. apply (NoDup_fmap_1 (key_at key es)), sorted_nodup, Ho. Qed.

(** An entry that is not listed leaves room for itself. *)
Lemma ordered_room key es arr count cs i : ordered key es arr count cs -> is_Some (rd es i) -> i ∉ cs -> count < zlen es.
Proof.
  intros Ho Hi Hn. rewrite (or_count _ _ _ _ _ Ho).
  assert (NoDup (i :: cs)) as Hnd by (constructor; [done|by eapply ordered_nodup]).
  assert (i :: cs ⊆ map Z.of_nat (seq 0 (length es))) as Hsub.
  { intros p Hp. assert (is_Some (rd es p)) as [e He] by (apply elem_of_cons in Hp as [->|Hp]; [done|by eapply or_valid]).
    apply rd_Some_lt in He. apply list_elem_of_fmap. exists (Z.to_nat p). split; [lia|]. apply elem_of_seq. unfold zlen in He. lia. }
  pose proof (submseteq_length _ _ (NoDup_submseteq _ _ Hnd Hsub)) as Hl. rewrite length_map, length_seq in Hl. simpl in Hl. unfold zlen. lia.
Qed.

(** ** An array as an index of the table *)

Definition indexed (key : turn_entry_t -> Z) (L : Z -> Prop) (es : list turn_entry_t) (arr : list Z) (count : Z) : Prop :=
  exists cs, ordered key es arr count cs /\ forall i, i ∈ cs <-> L i.

(** [cmp] compares [k] with the key of a listed entry. *)
Definition compares (key : turn_entry_t -> Z) (L : Z -> Prop) (es : list turn_entry_t) (k : Z) (cmp : turn_entry_t -> Z) : Prop :=
  forall p e, L p -> rd es p = Some e -> (cmp e < 0 <-> k < key e) /\ (0 < cmp e <-> key e < k).

Definition absent (key : turn_entry_t -> Z) (L : Z -> Prop) (es : list turn_entry_t) (k : Z) : Prop := forall p, L p -> key_at key es p <> k.

Abbreviation bisect cmp es arr count := (find_ordered_rec (S (Z.to_nat count)) cmp es arr 0 count).

Section index.
Context (key : turn_entry_t -> Z).

Lemma indexed_ext L L' es arr n : indexed key L es arr n -> (forall i, L i <-> L' i) -> indexed key L' es arr n.
Proof. intros (cs & Ho & Hc) HL. exists cs. split; [done|]. intros i. by rewrite Hc. Qed.

Lemma indexed_keep L es es' arr n : indexed key L es arr n ->
  (forall p, L p -> is_Some (rd es' p) /\ key_at key es' p = key_at key es p) -> indexed key L es' arr n.
Proof. intros (cs & Ho & Hc) H. exists cs. split; [|done]. apply (ordered_entries _ _ _ _ _ _ Ho). intros p Hp%Hc. by apply H. Qed.

Lemma indexed_valid L es arr n p : indexed key L es arr n -> L p -> is_Some (rd es p).
Proof. intros (cs & Ho & Hc) Hp%Hc. by eapply or_valid. Qed.

Lemma indexed_empty es arr : indexed key (fun _ => False) es arr 0.
Proof. exists []. split; [|intros i; split; [by intros ?%elem_of_nil|done]]. split; [by exists arr|done|by intros p ?%elem_of_nil|constructor]. Qed.

Lemma indexed_bounds L es arr n : indexed key L es arr n -> 0 <= n <= zlen arr.
Proof. intros (cs & [[rest ->] -> _ _] & _). rewrite zlen_app. pose proof (zlen_nonneg cs). pose proof (zlen_nonneg rest). lia. Qed.

(** Different listed entries have different keys. *)
Lemma indexed_inj L es arr n p q : indexed key L es arr n -> L p -> L q -> key_at key es p = key_at key es q -> p = q.
Proof.
  intros (cs & Ho & Hc) [i Hp]%Hc%list_elem_of_lookup [j Hq]%Hc%list_elem_of_lookup Hk.
  pose proof (sorted_nodup _ (or_sorted _ _ _ _ _ Ho)) as Hnd. rewrite NoDup_alt in Hnd.
  assert (i = j) as <-; [|congruence]. apply (Hnd i j (key_at key es p)).
  - change (map (key_at key es) cs) with (key_at key es <$> cs). by rewrite list_lookup_fmap, Hp.
  - change (map (key_at key es) cs) with (key_at key es <$> cs). rewrite list_lookup_fmap, Hq. cbn. by rewrite Hk.
Qed.

Lemma indexed_find L es arr n k cmp : indexed key L es arr n -> compares key L es k cmp ->
  exists pos, bisect cmp es arr n = Some pos /\ 0 <= pos <= n /\
    ((exists p e, pos < n /\ rd arr pos = Some p /\ rd es p = Some e /\ L p /\ key e = k) \/
     absent key L es k /\ (pos = n \/ exists p e, pos < n /\ rd arr pos = Some p /\ rd es p = Some e /\ L p /\ key e <> k)).
Proof.
  intros (cs & Ho & Hc) Hcmp. destruct (find_split key es cmp k arr n cs Ho) as (l1 & l2 & -> & Hf & Hlo & Hhi).
  { intros p e Hp%Hc. by apply Hcmp. }
  exists (zlen l1). split; [exact Hf|]. pose proof (or_count _ _ _ _ _ Ho) as Hn. rewrite zlen_app in Hn. pose proof (zlen_nonneg l1). pose proof (zlen_nonneg l2).
  split; [lia|]. destruct l2 as [|p l2].
  { right. change (zlen (@nil Z)) with 0 in Hn. split; [|left; lia]. intros q Hq%Hc Hk. rewrite app_nil_r in Hq. specialize (Hlo q Hq). lia. }
  assert (p ∈ l1 ++ p :: l2) as Hin by set_solver. destruct (or_valid _ _ _ _ _ Ho p Hin) as [e He].
  assert (rd arr (zlen l1) = Some p) as Hp.
  { destruct (or_prefix _ _ _ _ _ Ho) as [rest ->]. rewrite <- app_assoc. by eapply rd_at. }
  assert (zlen l1 < n) as Hlt by (rewrite zlen_cons in Hn; pose proof (zlen_nonneg l2); lia).
  assert (key_at key es p = key e) as Hke by (unfold key_at; by rewrite He).
  assert (k <= key e) as Hle by (rewrite <- Hke; apply Hhi; by left).
  destruct (Z.eq_dec (key e) k) as [Heq|Hne]; [left; exists p, e; repeat split; try done; by apply Hc|].
  right. split; [|right; exists p, e; repeat split; try done; by apply Hc]. intros q Hq%Hc Hk. apply elem_of_app in Hq as [Hq|Hq].
  - specialize (Hlo q Hq). lia.
  - apply elem_of_cons in Hq as [->|Hq]; [congruence|]. pose proof (or_sorted _ _ _ _ _ Ho) as Hs.
    rewrite fmap_app in Hs. cbn in Hs. apply sorted_app in Hs as (_ & [_ Hs]%StronglySorted_inv & _). rewrite Forall_forall in Hs.
    assert (key_at key es p < key_at key es q); [|lia]. apply Hs. apply list_elem_of_fmap. by exists q.
Qed.

Lemma indexed_insert L es es' arr n k cmp i : indexed key L es arr n -> compares key L es k cmp -> absent key L es k -> ~ L i ->
  zlen arr = zlen es -> is_Some (rd es i) ->
  (forall p, L p -> is_Some (rd es' p) /\ key_at key es' p = key_at key es p) -> is_Some (rd es' i) -> key_at key es' i = k ->
  exists pos a arr', bisect cmp es arr n = Some pos /\ memmove arr (pos + 1) pos (n - pos) = Some a /\ wr a pos i = Some arr' /\
    zlen arr' = zlen arr /\ indexed key (fun j => j = i \/ L j) es' arr' (n + 1).
Proof.
  intros (cs & Ho & Hc) Hcmp Hab Hi Hlen Hei Hsame Hi' Hk'.
  assert (n < zlen arr) as Hroom by (rewrite Hlen; eapply ordered_room; [done|done|by rewrite Hc]).
  destruct (find_split key es cmp k arr n cs Ho) as (l1 & l2 & -> & Hf & Hlo & Hhi).
  { intros p e Hp%Hc. by apply Hcmp. }
  destruct (ordered_insert key es es' arr n l1 l2 i k Ho Hroom Hlo) as (a & arr' & Ha & Harr & Hl & Ho'); [| | |done|].
  - intros p Hp. assert (L p) as HL by (apply Hc; set_solver). specialize (Hhi p Hp). specialize (Hab p HL). lia.
  - intros p Hp%Hc. by apply Hsame.
  - done.
  - exists (zlen l1), a, arr'. repeat (split; [done|]). exists (l1 ++ i :: l2). split; [done|]. intros j. rewrite <- Hc. set_solver.
Qed.

Lemma indexed_remove L es arr n k cmp i : indexed key L es arr n -> compares key L es k cmp -> L i -> key_at key es i = k ->
  exists pos arr', bisect cmp es arr n = Some pos /\ pos < n /\ memmove arr pos (pos + 1) (n - (pos + 1)) = Some arr' /\
    zlen arr' = zlen arr /\ indexed key (fun j => j <> i /\ L j) es arr' (n - 1).
Proof.
  intros Hix Hcmp Hi Hk. pose proof Hix as (cs & Ho & Hc). destruct (find_split key es cmp k arr n cs Ho) as (l1 & l2 & -> & Hf & Hlo & Hhi).
  { intros p e Hp%Hc. by apply Hcmp. }
  assert (i ∈ l1 ++ l2) as Hin by (by apply Hc). destruct l2 as [|p l2].
  { rewrite app_nil_r in Hin. specialize (Hlo i Hin). lia. }
  assert (p = i) as ->.
  { apply elem_of_app in Hin as [Hin|Hin]; [specialize (Hlo i Hin); lia|]. apply elem_of_cons in Hin as [Hin|Hin]; [done|].
    assert (k <= key_at key es p) as Hle by (apply Hhi; by left). pose proof (or_sorted _ _ _ _ _ Ho) as Hs.
    rewrite fmap_app in Hs. cbn in Hs. apply sorted_app in Hs as (_ & [_ Hs]%StronglySorted_inv & _). rewrite Forall_forall in Hs.
    assert (key_at key es p < key_at key es i); [|lia]. apply Hs. apply list_elem_of_fmap. by exists i. }
  destruct (ordered_remove key es arr n l1 i l2 Ho) as (arr' & Hm & Hl & Ho').
  pose proof (or_count _ _ _ _ _ Ho) as Hn. rewrite zlen_app, zlen_cons in Hn. pose proof (zlen_nonneg l2).
  exists (zlen l1), arr'. split; [done|]. split; [lia|]. split; [done|]. split; [done|]. exists (l1 ++ l2). split; [done|].
  intros j. rewrite <- Hc. pose proof (ordered_nodup _ _ _ _ _ Ho) as Hnd. apply NoDup_app in Hnd as (_ & Hnd1 & [Hnd2 _]%NoDup_cons).
  split; [|set_solver]. intros Hj. split; [|set_solver]. intros ->. apply elem_of_app in Hj as [Hj|Hj]; [|done]. apply (Hnd1 i Hj). by left.
Qed.
End index.
