(* ===== verification/TurnTable.v ===== *)
(** * The hash table of the TURN map

    Linear probing: every entry is found from the slot of its key over used entries only, so
    [find_entry] finds the entry of a key, or the free place for it, or reports a full table. *)

From S2P Require Import Prelude Bytes Addr Stun Turn TurnOrder.
Open Scope Z_scope.

Lemma set_entry_Some m i e0 e : rd (entries m) i = Some e0 -> set_entry m i e = Some (m <| entries := <[Z.to_nat i := e]> (entries m) |>).
Proof. intros H. apply rd_Some_lt in H. unfold set_entry. by rewrite wr_Some. Qed.

(** ** Keys *)

Definition known (type : turn_entry_type_t) : Prop := type = TURN_ENTRY_TYPE_PERMISSION \/ type = TURN_ENTRY_TYPE_CHANNEL.

(** Addresses of a family the code compares. *)
Definition family_known (r : addr_record_t) : Prop := match addr r with SaOther _ => False | _ => True end.
Definition same_host (a b : addr_record_t) : Prop := addr_record_is_equal a b false = true.

Lemma same_host_refl a : family_known a -> same_host a a.
Proof. intros Ha. apply addr_record_is_equal_iff. unfold family_known in Ha. destruct (addr a); done. Qed.

Lemma same_host_sym a b : same_host a b -> same_host b a.
Proof. unfold same_host. rewrite !addr_record_is_equal_iff. intros []. split; [by apply same_address_sym|done]. Qed.

Lemma same_host_trans a b c : same_host a b -> same_host b c -> same_host a c.
Proof. unfold same_host. rewrite !addr_record_is_equal_iff. intros [] []. split; [by eapply same_address_trans|congruence]. Qed.

Lemma same_host_hash a b : same_host a b -> addr_record_hash a false = addr_record_hash b false.
Proof. unfold same_host. rewrite addr_record_is_equal_iff. intros [H1 H2]. unfold addr_record_hash. by rewrite (same_address_hash _ _ _ H1), H2. Qed.

Lemma is_entry_iff type r e : is_entry type r e = true <-> e_type e = type /\ same_host (e_record e) r.
Proof. unfold is_entry. by rewrite andb_true_iff, bool_decide_eq_true. Qed.

Lemma is_entry_same type r r' e : same_host r r' -> is_entry type r e = is_entry type r' e.
Proof.
  intros H. apply eq_true_iff_eq. rewrite !is_entry_iff. split; intros [? ?]; (split; [done|]).
  - by eapply same_host_trans. - eapply same_host_trans; [done|by apply same_host_sym].
Qed.

Definition slot (n : Z) (type : turn_entry_type_t) (r : addr_record_t) : Z := u64 (addr_record_hash r false + type_value type) mod n.

Lemma slot_same n type r r' : same_host r r' -> slot n type r = slot n type r'.
Proof. intros H. unfold slot. by rewrite (same_host_hash r r' H). Qed.

Lemma slot_range n type r : 0 < n -> 0 <= slot n type r < n.
Proof. intros Hn. by apply Z.mod_pos_bound. Qed.

(** The [j]-th place probed from [k]. *)
Definition place (n k j : Z) : Z := (k + j) mod n.

Lemma place_0 n k : 0 <= k < n -> place n k 0 = k.
Proof. intros. unfold place. rewrite Z.add_0_r. by apply Z.mod_small. Qed.

Lemma place_next n k j : 0 < n -> (place n k j + 1) mod n = place n k (j + 1).
Proof. intros Hn. unfold place. rewrite Zplus_mod_idemp_l. f_equal. lia. Qed.

Lemma place_back n k j : 0 <= k < n -> 0 < j <= n -> place n k j = k <-> j = n.
Proof.
  intros Hk Hj. unfold place. split; [|intros ->; rewrite <- (Z.mul_1_l n) at 1; rewrite Z.mod_add by lia; by apply Z.mod_small].
  intros H. destruct (Z.lt_ge_cases (k + j) n) as [Hlt|Hge].
  - rewrite Z.mod_small in H by lia. lia.
  - rewrite <- (Z.mod_unique (k + j) n 1 (k + j - n)) in H by lia. lia.
Qed.

Lemma place_range n k j : 0 < n -> 0 <= place n k j < n.
Proof. intros. by apply Z.mod_pos_bound. Qed.

(** Every index is probed. *)
Lemma place_cover n k i : 0 <= k < n -> 0 <= i < n -> exists j, 0 <= j < n /\ i = place n k j.
Proof.
  intros Hk Hi. exists ((i - k) mod n). split; [apply Z.mod_pos_bound; lia|]. unfold place.
  rewrite Zplus_mod_idemp_r. replace (k + (i - k)) with i by lia. symmetry. by apply Z.mod_small.
Qed.

(** ** The invariant *)

(** The places before the [j]-th from [k] are used by entries with other keys. *)
Definition probed (es : list turn_entry_t) (type : turn_entry_type_t) (r : addr_record_t) (k j : Z) : Prop :=
  forall j', 0 <= j' < j -> exists e', rd es (place (zlen es) k j') = Some e' /\ e_type e' <> TURN_ENTRY_TYPE_EMPTY /\ is_entry type r e' = false.

Definition in_place (es : list turn_entry_t) (i : Z) (e : turn_entry_t) : Prop :=
  known (e_type e) /\ family_known (e_record e) /\
  exists j, 0 <= j < zlen es /\ i = place (zlen es) (slot (zlen es) (e_type e) (e_record e)) j /\
    probed es (e_type e) (e_record e) (slot (zlen es) (e_type e) (e_record e)) j.

Definition good_table (es : list turn_entry_t) : Prop :=
  0 < zlen es /\ forall i e, rd es i = Some e -> e_type e = TURN_ENTRY_TYPE_EMPTY \/ in_place es i e.

(** The places where the entry of a key may be put or found. *)
Inductive found (es : list turn_entry_t) (type : turn_entry_type_t) (r : addr_record_t) : option Z -> Prop :=
| Present i e : rd es i = Some e -> is_entry type r e = true -> found es type r (Some i)
| Free i e j : rd es i = Some e -> e_type e = TURN_ENTRY_TYPE_EMPTY -> (forall i' e', rd es i' = Some e' -> is_entry type r e' = false) ->
    0 <= j < zlen es -> i = place (zlen es) (slot (zlen es) type r) j -> probed es type r (slot (zlen es) type r) j -> found es type r (Some i)
| Full : (forall i' e', rd es i' = Some e' -> is_entry type r e' = false /\ e_type e' <> TURN_ENTRY_TYPE_EMPTY) -> found es type r None.

Lemma entry_probed es type r i e : good_table es -> known type -> rd es i = Some e -> is_entry type r e = true ->
  exists j, 0 <= j < zlen es /\ i = place (zlen es) (slot (zlen es) type r) j /\ probed es type r (slot (zlen es) type r) j.
Proof.
  intros [_ Hg] Hk He Hi. apply is_entry_iff in Hi as [Ht Hh]. destruct (Hg i e He) as [Hem|(_ & _ & j & Hj & Hij & Hp)].
  - rewrite Ht in Hem. destruct Hk; congruence.
  - rewrite Ht, (slot_same _ _ _ _ Hh) in Hij, Hp. exists j. split; [done|]. split; [done|].
    intros j' Hj'. destruct (Hp j' Hj') as (e' & ? & ? & Hn). exists e'. split; [done|]. split; [done|]. by rewrite <- (is_entry_same _ _ _ _ Hh).
Qed.

(** The table has one entry for a key. *)
Lemma entry_unique es type r i e i' e' : good_table es -> known type -> rd es i = Some e -> is_entry type r e = true ->
  rd es i' = Some e' -> is_entry type r e' = true -> i = i'.
Proof.
  intros Hg Hk He Hi He' Hi'. destruct (entry_probed es type r i e Hg Hk He Hi) as (j & Hj & -> & Hp).
  destruct (entry_probed es type r i' e' Hg Hk He' Hi') as (j' & Hj' & -> & Hp').
  destruct (Z.lt_trichotomy j j') as [Hlt|[->|Hgt]]; [|done|].
  - destruct (Hp' j) as (x & Hx & _ & Hn); [lia|]. congruence.
  - destruct (Hp j') as (x & Hx & _ & Hn); [lia|]. congruence.
Qed.

Lemma find_loop_spec m type r allow fuel : forall j, good_table (entries m) -> map_size m = zlen (entries m) -> known type -> 0 <= j < zlen (entries m) ->
  probed (entries m) type r (slot (zlen (entries m)) type r) j -> zlen (entries m) - j <= Z.of_nat fuel ->
  exists p, find_loop fuel m (fun e => bool_decide (e_type e = TURN_ENTRY_TYPE_EMPTY) || is_entry type r e
      || allow && bool_decide (e_type e = TURN_ENTRY_TYPE_DELETED)) (slot (zlen (entries m)) type r) (place (zlen (entries m)) (slot (zlen (entries m)) type r) j) = Some p /\
    found (entries m) type r p.
Proof.
  set (es := entries m). set (n := zlen es). set (k := slot n type r).
  induction fuel as [|fuel IH]; intros j Hg Hn Hk Hj Hp Hf; [lia|]. cbn [find_loop]. fold es.
  pose proof Hg as [Hpos Hin]. fold n in Hpos. pose proof (slot_range n type r Hpos) as Hkr. fold k in Hkr.
  destruct (rd_is_Some es (place n k j)) as [e He]; [apply place_range; lia|]. rewrite He. cbn [mbind option_bind].
  assert (bool_decide (e_type e = TURN_ENTRY_TYPE_DELETED) = false) as ->.
  { apply bool_decide_eq_false. destruct (Hin _ _ He) as [->|([->| ->] & _)]; done. }
  rewrite andb_false_r, orb_false_r. destruct (is_entry type r e) eqn:Hie.
  { rewrite orb_true_r. eexists. split; [done|]. by eapply Present. }
  rewrite orb_false_r. destruct (bool_decide_reflect (e_type e = TURN_ENTRY_TYPE_EMPTY)) as [Hem|Hne].
  { eexists. split; [done|]. eapply Free; [done|done| |exact Hj|done|exact Hp]. intros i' e' He'. apply not_true_iff_false. intros Hie'.
    destruct (entry_probed es type r i' e' Hg Hk He' Hie') as (j' & Hj' & Hij & Hp'). fold n in Hij, Hp', Hj'. fold k in Hij, Hp'. subst i'.
    destruct (Z.lt_trichotomy j' j) as [Hlt|[->|Hgt]].
    - destruct (Hp j') as (x & Hx & _ & Hxn); [lia|]. fold n k in Hx. congruence.
    - congruence.
    - destruct (Hp' j) as (x & Hx & Hxn & _); [lia|]. fold n in Hx. congruence. }
  rewrite Hn. fold es n. rewrite place_next by lia.
  assert (probed es type r k (j + 1)) as Hp1.
  { intros j' Hj'. destruct (Z.eq_dec j' j) as [->|]; [by exists e|]. apply Hp. lia. }
  destruct (Z.eqb_spec (place n k (j + 1)) k) as [Hback|Hnb].
  - apply place_back in Hback; [|lia|lia]. exists None. split; [done|]. apply Full. intros i' e' He'.
    pose proof (rd_Some_lt _ _ _ He') as Hi'. fold n in Hi'. destruct (place_cover n k i') as (j' & Hj' & ->); [lia|lia|].
    destruct (Hp1 j') as (x & Hx & Hxn & Hxi); [lia|]. fold n in Hx. rewrite He' in Hx. by injection Hx as ->.
  - apply IH; [done|done|done| |exact Hp1|fold n; lia]. fold n. destruct (Z.eq_dec (j + 1) n) as [Heq|]; [|lia].
    exfalso. apply Hnb. apply place_back; lia.
Qed.

Lemma find_entry_spec m type r allow : good_table (entries m) -> map_size m = zlen (entries m) -> known type ->
  exists p, find_entry m r type allow = Some p /\ found (entries m) type r p.
Proof.
  intros Hg Hn Hk. unfold find_entry. rewrite Hn. destruct (Z.eqb_spec (zlen (entries m)) 0); [destruct Hg; lia|].
  change (u64 (addr_record_hash r false + type_value type) mod zlen (entries m)) with (slot (zlen (entries m)) type r).
  pose proof Hg as [Hpos _]. pose proof (slot_range _ type r Hpos).
  destruct (find_loop_spec m type r allow (Z.to_nat (zlen (entries m))) 0 Hg Hn Hk) as (p & Hp & Hf); [lia|intros j' Hj'; lia|lia|].
  rewrite place_0 in Hp by done. by exists p.
Qed.

(** ** Updates *)

(** Changing an entry but not its key. *)
Lemma table_change es i e e' : good_table es -> rd es i = Some e -> e_type e' = e_type e -> e_record e' = e_record e ->
  good_table (<[Z.to_nat i := e']> es).
Proof.
  intros [Hpos Hg] He Ht Hr. pose proof (rd_Some_lt _ _ _ He) as Hi.
  assert (zlen (<[Z.to_nat i := e']> es) = zlen es) as Hl by (unfold zlen; by rewrite length_insert). split; [by rewrite Hl|].
  assert (forall type r k j, probed es type r k j -> probed (<[Z.to_nat i := e']> es) type r k j) as Hprobe.
  { intros type r k j Hp j' Hj'. destruct (Hp j' Hj') as (x & Hx & Hxn & Hxi). rewrite Hl, rd_insert by done.
    destruct (decide (_ = i)) as [Heq|]; [|by exists x]. rewrite Heq, He in Hx. injection Hx as <-. exists e'. rewrite Ht.
    split; [done|]. split; [done|]. rewrite <- Hxi. unfold is_entry. by rewrite Ht, Hr. }
  intros i2 e2. rewrite rd_insert by done. destruct (decide (i2 = i)) as [->|].
  - intros [= <-]. unfold in_place. rewrite Ht, Hr, Hl. destruct (Hg i e He) as [|(Hk & Hf & j & Hj & Hij & Hp)]; [by left|].
    right. split; [done|]. split; [done|]. exists j. split; [done|]. split; [done|]. by apply Hprobe.
  - intros He2. unfold in_place. rewrite Hl. destruct (Hg i2 e2 He2) as [|(Hk & Hf & j & Hj & Hij & Hp)]; [by left|].
    right. split; [done|]. split; [done|]. exists j. split; [done|]. split; [done|]. by apply Hprobe.
Qed.

(** A new entry in the free place for its key. *)
Lemma table_insert es i e e' j : good_table es -> rd es i = Some e -> e_type e = TURN_ENTRY_TYPE_EMPTY -> known (e_type e') -> family_known (e_record e') ->
  0 <= j < zlen es -> i = place (zlen es) (slot (zlen es) (e_type e') (e_record e')) j ->
  probed es (e_type e') (e_record e') (slot (zlen es) (e_type e') (e_record e')) j -> good_table (<[Z.to_nat i := e']> es).
Proof.
  intros [Hpos Hg] He Hem Hk Hf Hj Hij Hp. pose proof (rd_Some_lt _ _ _ He) as Hi.
  assert (zlen (<[Z.to_nat i := e']> es) = zlen es) as Hl by (unfold zlen; by rewrite length_insert). split; [by rewrite Hl|].
  assert (forall type r k j, probed es type r k j -> probed (<[Z.to_nat i := e']> es) type r k j) as Hprobe.
  { intros type r k j1 Hp1 j' Hj'. destruct (Hp1 j' Hj') as (x & Hx & Hxn & Hxi). rewrite Hl, rd_insert by done.
    destruct (decide (_ = i)) as [Heq|]; [|by exists x]. congruence. }
  intros i2 e2. rewrite rd_insert by done. destruct (decide (i2 = i)) as [->|].
  - intros [= <-]. right. unfold in_place. rewrite Hl. split; [done|]. split; [done|]. exists j. split; [done|]. split; [done|]. by apply Hprobe.
  - intros He2. unfold in_place. rewrite Hl. destruct (Hg i2 e2 He2) as [|(Hk2 & Hf2 & j2 & Hj2 & Hij2 & Hp2)]; [by left|].
    right. split; [done|]. split; [done|]. exists j2. split; [done|]. split; [done|]. by apply Hprobe.
Qed.

(** ** The invariant of the map

    [wf server]: the table is well probed, both arrays are indexes of it, and every channel
    number is valid and belongs to a channel entry.  The two uses of a map are told apart: a
    client ([server = false]) chooses transaction identifiers and lists them in the second
    array, a server stores those of its requests and never lists them. *)

Definition good_tid (t : list Z) : Prop := length t = 12%nat /\ Forall byte t.
Definition tid_key (e : turn_entry_t) : Z := get_be (e_transaction_id e).

Definition has (P : turn_entry_t -> Prop) (es : list turn_entry_t) (i : Z) : Prop := exists e, rd es i = Some e /\ P e.
Definition has_channel (e : turn_entry_t) : Prop := channel e <> 0.
Definition lists_id (server : bool) (e : turn_entry_t) : Prop := server = false /\ memory_is_zero (e_transaction_id e) = false.

Record entry_ok (e : turn_entry_t) : Prop := {
  ok_channel : channel e = 0 \/ e_type e = TURN_ENTRY_TYPE_CHANNEL /\ 16384 <= channel e < 65536;
  ok_tid : good_tid (e_transaction_id e);
  ok_empty : e_type e = TURN_ENTRY_TYPE_EMPTY -> memory_is_zero (e_transaction_id e) = true }.

Record wf (server : bool) (m : turn_map_t) : Prop := {
  wf_table : good_table (entries m);
  wf_size : map_size m = zlen (entries m);
  wf_room_channels : zlen (ordered_channels m) = zlen (entries m);
  wf_room_ids : zlen (ordered_transaction_ids m) = zlen (entries m);
  wf_entries : forall i e, rd (entries m) i = Some e -> entry_ok e;
  wf_channels : indexed channel (has has_channel (entries m)) (entries m) (ordered_channels m) (channels_count m);
  wf_ids : indexed tid_key (has (lists_id server) (entries m)) (entries m) (ordered_transaction_ids m) (transaction_ids_count m) }.

(** ** Indexes under a change of one entry *)

Section change.
Context (key : turn_entry_t -> Z) (P : turn_entry_t -> Prop) (es : list turn_entry_t) (i : Z) (e e' : turn_entry_t) (He : rd es i = Some e).
Abbreviation es' := (<[Z.to_nat i := e']> es).

Lemma rd_changed j : rd es' j = if decide (j = i) then Some e' else rd es j.
Proof using He. apply rd_insert. by eapply rd_Some_lt. Qed.

Lemma has_changed j : has P es' j <-> if decide (j = i) then P e' else has P es j.
Proof using He.
  unfold has. rewrite rd_changed. destruct (decide (j = i)); [|done]. split; [by intros (? & [= <-] & ?)|intros; by exists e'].
Qed.

Lemma has_at : has P es i <-> P e.
Proof using He. unfold has. split; [intros (x & Hx & ?); congruence|intros; by exists e]. Qed.

Lemma key_at_changed j : key_at key es' j = if decide (j = i) then key e' else key_at key es j.
Proof using He. unfold key_at. rewrite rd_changed. by destruct (decide (j = i)). Qed.

Lemma valid_changed j : is_Some (rd es j) -> is_Some (rd es' j).
Proof using He. rewrite rd_changed. by destruct (decide (j = i)). Qed.

Lemma index_same arr n : indexed key (has P es) es arr n -> key e' = key e -> (P e' <-> P e) -> indexed key (has P es') es' arr n.
Proof using He.
  intros Hi Hk HP. apply (indexed_ext _ (has P es)).
  - apply (indexed_keep _ _ _ _ _ _ Hi). intros p Hp. split; [apply valid_changed; by eapply indexed_valid|].
    rewrite key_at_changed. destruct (decide (p = i)) as [->|]; [|done]. unfold key_at. by rewrite He.
  - intros j. rewrite has_changed. destruct (decide (j = i)) as [->|]; [|done]. by rewrite has_at.
Qed.
End change.

(** ** Keys *)

Lemma good_tid_key a b : good_tid a -> good_tid b -> get_be a = get_be b <-> a = b.
Proof. intros [Hla Ha] [Hlb Hb]. destruct (memcmp_get_be a b) as (H1 & H2 & H3); [congruence|done|done|]. rewrite <- H3. lia. Qed.

Lemma memcmp_eq a b : good_tid a -> good_tid b -> (memcmp a b =? 0) = bool_decide (a = b).
Proof.
  intros [Hla Ha] [Hlb Hb]. destruct (memcmp_get_be a b) as (_ & _ & H3); [congruence|done|done|].
  apply eq_true_iff_eq. by rewrite Z.eqb_eq, bool_decide_eq_true.
Qed.

Section wf.
Context (server : bool) (m : turn_map_t) (Hwf : wf server m).
Abbreviation es := (entries m).

Lemma channel_compares c : compares channel (has has_channel es) es c (fun e => c - channel e).
Proof using. intros p e _ _. lia. Qed.

Lemma id_compares L t : good_tid t -> compares tid_key L es (get_be t) (fun e => memcmp t (e_transaction_id e)).
Proof using Hwf.
  intros [Hl Ht] p e _ He. destruct (ok_tid _ (wf_entries _ _ Hwf _ _ He)) as [Hl' Ht'].
  destruct (memcmp_get_be t (e_transaction_id e)) as (H1 & H2 & _); [congruence|done|done|]. done.
Qed.

Lemma no_channel i e : rd es i = Some e -> e_type e <> TURN_ENTRY_TYPE_CHANNEL -> channel e = 0.
Proof using Hwf. intros He Ht. by destruct (ok_channel _ (wf_entries _ _ Hwf _ _ He)) as [|[]]. Qed.

(** ** Searches *)

Lemma found_entry r type i : known type -> found es type r (Some i) -> exists e, rd es i = Some e /\ entry_ok e /\
  (e_type e = type /\ is_entry type r e = true \/ e_type e = TURN_ENTRY_TYPE_EMPTY).
Proof using Hwf.
  intros Hk Hf. inversion Hf; subst; eexists; (split; [done|]); (split; [by eapply wf_entries|]); [left|by right].
  split; [|done]. by eapply is_entry_iff.
Qed.

Lemma entry_of_spec r type : known type -> exists o, entry_of m r type = Some o /\
  match o with
  | Some e => exists i, rd es i = Some e /\ is_entry type r e = true
  | None => forall i e, rd es i = Some e -> is_entry type r e = false
  end.
Proof using Hwf.
  intros Hk. unfold entry_of. destruct (find_entry_spec m type r false (wf_table _ _ Hwf) (wf_size _ _ Hwf) Hk) as (p & -> & Hf). cbn [mbind option_bind].
  destruct Hf as [i e He Hi|i e j He Hem Hno|Hfull].
  - rewrite He. cbn. eexists. split; [done|]. pose proof Hi as [Ht _]%is_entry_iff. rewrite bool_decide_true by done. by exists i.
  - rewrite He. cbn. eexists. split; [done|]. rewrite bool_decide_false; [exact Hno|]. rewrite Hem. destruct Hk; congruence.
  - eexists. split; [done|]. intros i e He. by apply (Hfull i e).
Qed.

(** The entry of a key determines the answer. *)
Lemma entry_of_present r type i e : known type -> rd es i = Some e -> is_entry type r e = true -> entry_of m r type = Some (Some e).
Proof using Hwf.
  intros Hk He Hi. destruct (entry_of_spec r type Hk) as ([e'|] & -> & Ho).
  - destruct Ho as (i' & He' & Hi'). assert (i = i') as <- by (eapply entry_unique; [apply Hwf|done..]). congruence.
  - rewrite (Ho i e He) in Hi. done.
Qed.

Lemma entry_of_absent r type : known type -> (forall i e, rd es i = Some e -> is_entry type r e = false) -> entry_of m r type = Some None.
Proof using Hwf.
  intros Hk Hno. destruct (entry_of_spec r type Hk) as ([e'|] & -> & Ho); [|done]. destruct Ho as (i' & He' & Hi'). by rewrite (Hno i' e' He') in Hi'.
Qed.

Lemma channel_entry_spec c : exists o, channel_entry m c = Some o /\
  match o with
  | Some e => is_valid_channel c = true /\ channel e = c /\ exists i, rd es i = Some e
  | None => is_valid_channel c = true -> forall i e, rd es i = Some e -> channel e <> c
  end.
Proof using Hwf.
  unfold channel_entry. destruct (is_valid_channel c) eqn:Hv; cbn [negb]; [|by exists None]. unfold find_ordered_channel.
  destruct (indexed_find _ _ _ _ _ c _ (wf_channels _ _ Hwf) (channel_compares c)) as (pos & -> & Hpos & Hcase). cbn [mbind option_bind].
  destruct Hcase as [(p & e & Hlt & Hp & He & HL & Hc)|[Hab Hcase]].
  - destruct (Z.eqb_spec pos (channels_count m)); [lia|]. rewrite Hp. cbn [mbind option_bind]. rewrite He. cbn. eexists. split; [done|].
    rewrite (proj2 (Z.eqb_eq _ _) Hc). split; [done|]. split; [done|]. by exists p.
  - assert (forall i e, rd es i = Some e -> channel e <> c) as Hno.
    { intros i e He Hc. unfold is_valid_channel in Hv. apply Z.leb_le in Hv. apply (Hab i); [exists e; split; [done|]; unfold has_channel; lia|].
      unfold key_at. by rewrite He. }
    destruct Hcase as [->|(p & e & Hlt & Hp & He & _ & Hc)].
    + rewrite Z.eqb_refl. by exists None.
    + destruct (Z.eqb_spec pos (channels_count m)); [lia|]. rewrite Hp. cbn [mbind option_bind]. rewrite He. cbn. eexists. split; [done|].
      by rewrite (proj2 (Z.eqb_neq _ _) Hc).
Qed.

Lemma transaction_entry_spec t : good_tid t -> exists o, find_transaction_entry m t = Some o /\
  match o with
  | Some (i, e) => rd es i = Some e /\ e_transaction_id e = t /\ lists_id server e
  | None => forall i e, rd es i = Some e -> lists_id server e -> e_transaction_id e <> t
  end.
Proof using Hwf.
  intros Ht. unfold find_transaction_entry, find_ordered_transaction_id.
  destruct (indexed_find _ _ _ _ _ (get_be t) _ (wf_ids _ _ Hwf) (id_compares _ t Ht)) as (pos & -> & Hpos & Hcase). cbn [mbind option_bind].
  assert (forall i e, rd es i = Some e -> tid_key e = get_be t <-> e_transaction_id e = t) as Hkey.
  { intros i e He. apply good_tid_key; [|done]. apply (wf_entries _ _ Hwf _ _ He). }
  destruct Hcase as [(p & e & Hlt & Hp & He & (e1 & He1 & HL) & Hc)|[Hab Hcase]].
  - destruct (Z.eqb_spec pos (transaction_ids_count m)); [lia|]. rewrite Hp. cbn [mbind option_bind]. rewrite He. cbn.
    apply (Hkey _ _ He) in Hc. rewrite memcmp_eq by (try done; rewrite Hc; done). rewrite bool_decide_true by done.
    eexists. split; [done|]. cbn. assert (e1 = e) as -> by congruence. done.
  - assert (forall i e, rd es i = Some e -> lists_id server e -> e_transaction_id e <> t) as Hno.
    { intros i e He HL Hc. apply (Hab i); [by exists e|]. unfold key_at. rewrite He. by apply (Hkey _ _ He). }
    destruct Hcase as [->|(p & e & Hlt & Hp & He & _ & Hc)].
    + rewrite Z.eqb_refl. by exists None.
    + destruct (Z.eqb_spec pos (transaction_ids_count m)); [lia|]. rewrite Hp. cbn [mbind option_bind]. rewrite He. cbn.
      rewrite memcmp_eq by (try done; apply (wf_entries _ _ Hwf _ _ He)). rewrite bool_decide_false by (rewrite <- (Hkey _ _ He); done). by exists None.
Qed.

(** ** Updates *)

Lemma wf_change i e e' : rd es i = Some e -> e_type e' = e_type e -> e_record e' = e_record e -> channel e' = channel e ->
  e_transaction_id e' = e_transaction_id e -> wf server (m <| entries := <[Z.to_nat i := e']> es |>).
Proof using Hwf.
  intros He Ht Hr Hc Hi. pose proof (wf_entries _ _ Hwf _ _ He) as [Ho1 Ho2 Ho3].
  assert (zlen (<[Z.to_nat i := e']> es) = zlen es) as Hl by (unfold zlen; by rewrite length_insert).
  split; cbn; try rewrite Hl; try apply Hwf.
  - by eapply table_change; [apply Hwf|..].
  - intros j x. rewrite (rd_changed _ _ e) by done. destruct (decide (j = i)); [|by apply Hwf]. intros [= <-]. split; by rewrite ?Ht, ?Hc, ?Hi.
  - apply (index_same _ _ _ _ _ _ He); [apply Hwf|done|unfold has_channel; by rewrite Hc].
  - apply (index_same _ _ _ _ _ _ He); [apply Hwf|unfold tid_key; by rewrite Hi|unfold lists_id; by rewrite Hi].
Qed.

(** An entry is put where [find_entry] says. *)
Lemma table_put type r i e e' : known type -> family_known r -> found es type r (Some i) -> rd es i = Some e -> e_type e' = type ->
  e_record e' = (if bool_decide (e_type e = type) then e_record e else r) -> good_table (<[Z.to_nat i := e']> es).
Proof using Hwf.
  intros Hk Hf Hfound He Ht Hr. inversion Hfound as [i1 e1 He1 Hi1 Hx|i1 e1 j He1 Hem Hno Hj Hij Hp Hx|]; subst i1.
  - assert (e1 = e) as -> by congruence. apply is_entry_iff in Hi1 as [Ht1 _]. rewrite bool_decide_true in Hr by done.
    eapply table_change; [apply Hwf|done|congruence|done].
  - assert (e1 = e) as -> by congruence. rewrite bool_decide_false in Hr by (rewrite Hem; destruct Hk; congruence).
    eapply (table_insert es i e e' j); [apply Hwf|done|done|by rewrite Ht|by rewrite Hr|done|by rewrite Ht, Hr|by rewrite Ht, Hr].
Qed.

Lemma wf_put type r i e e' m' : known type -> family_known r -> found es type r (Some i) -> rd es i = Some e -> e_type e' = type ->
  e_record e' = (if bool_decide (e_type e = type) then e_record e else r) -> entry_ok e' ->
  entries m' = <[Z.to_nat i := e']> es -> map_size m' = map_size m ->
  zlen (ordered_channels m') = zlen (ordered_channels m) -> zlen (ordered_transaction_ids m') = zlen (ordered_transaction_ids m) ->
  indexed channel (has has_channel (entries m')) (entries m') (ordered_channels m') (channels_count m') ->
  indexed tid_key (has (lists_id server) (entries m')) (entries m') (ordered_transaction_ids m') (transaction_ids_count m') ->
  wf server m'.
Proof using Hwf.
  intros Hk Hf Hfound He Ht Hr Hok Hes Hsize Hc Hi Hxc Hxi. split; try done.
  - rewrite Hes. by eapply table_put.
  - rewrite Hsize, (wf_size _ _ Hwf), Hes. unfold zlen. by rewrite length_insert.
  - rewrite Hc, (wf_room_channels _ _ Hwf), Hes. unfold zlen. by rewrite length_insert.
  - rewrite Hi, (wf_room_ids _ _ Hwf), Hes. unfold zlen. by rewrite length_insert.
  - intros j x. rewrite Hes, (rd_changed _ _ e) by done. destruct (decide (j = i)); [by intros [= <-]|by apply Hwf].
Qed.
End wf.

(** ** Initialisation *)

Lemma turn_init_map_wf server size m : 0 < size -> turn_init_map true size = Some m -> wf server m.
Proof.
  intros Hs [= <-]. set (n := Z.to_nat (size * 2)).
  assert (zlen (replicate n zero_entry) = size * 2) as Hz by (unfold zlen; rewrite length_replicate; lia).
  assert (forall i e, rd (replicate n zero_entry) i = Some e -> e = zero_entry) as Hrd.
  { intros i e He. pose proof (rd_Some_lt _ _ _ He). rewrite rd_nonneg in He by lia. by apply lookup_replicate_1 in He as [-> _]. }
  split; cbn.
  - split; [lia|]. intros i e ->%Hrd. by left.
  - by rewrite Hz.
  - by rewrite Hz, zlen_replicate; lia.
  - by rewrite Hz, zlen_replicate; lia.
  - intros i e ->%Hrd. split; [by left| |done]. split; [done|]. by apply Forall_replicate.
  - apply (indexed_ext _ (fun _ => False)); [apply indexed_empty|]. intros i. split; [done|]. intros (e & ->%Hrd & H). by apply H.
  - apply (indexed_ext _ (fun _ => False)); [apply indexed_empty|]. intros i. split; [done|]. intros (e & ->%Hrd & [_ H]). done.
Qed.
