(* ===== verification/TurnSteps.v ===== *)
(** * The operations keep the invariant of the TURN map

    One lemma per operation: it does not leave its arrays, it gives a map with the invariant,
    and what the new map holds.  [run] performs an operation, [allowed] says how a client or
    a server uses it, [reach] are the maps they get. *)

From S2P Require Import Prelude Bytes Addr Stun Turn TurnOrder TurnTable.
Open Scope Z_scope.

(** The new table is the old one except at [i], where it holds [e]. *)
Definition updated (m m' : turn_map_t) (i : Z) (e : turn_entry_t) : Prop := entries m' = <[Z.to_nat i := e]> (entries m).

Lemma insert_insert_at (es : list turn_entry_t) i x y : <[i := y]> (<[i := x]> es) = <[i := y]> es.
Proof. apply list_insert_insert_eq. Qed.

(** A free place takes the type and the address. *)
Definition rekey (type : turn_entry_type_t) (r : addr_record_t) (e : turn_entry_t) : turn_entry_t :=
  if bool_decide (e_type e = type) then e else e <| e_type := type |> <| e_record := r |>.

Lemma rekey_spec type r e : e_type (rekey type r e) = type /\ channel (rekey type r e) = channel e /\ timestamp (rekey type r e) = timestamp e /\
  e_transaction_id (rekey type r e) = e_transaction_id e /\ e_record (rekey type r e) = (if bool_decide (e_type e = type) then e_record e else r).
Proof. unfold rekey. by destruct (bool_decide_reflect (e_type e = type)). Qed.

Section ops.
Context (server : bool) (now : Z) (m : turn_map_t) (Hwf : wf server m).
Abbreviation es := (entries m).

(** A new expiry by transaction identifier. *)
Lemma update_by_id type tid duration : good_tid tid ->
  exists ok m', update_timestamp now m type tid None duration = Some (ok, m') /\ wf server m' /\
    (ok = false -> m' = m) /\
    (ok = true -> exists i e, rd es i = Some e /\ e_type e = type /\ e_transaction_id e = tid /\
      updated m m' i (e <| timestamp := expiry now duration |> <| fresh_transaction_id := false |>)).
Proof using Hwf.
  intros Ht. destruct (transaction_entry_spec server m Hwf tid Ht) as (o & Hfind & Ho). revert Hfind.
  unfold update_timestamp, find_transaction_entry. destruct (find_ordered_transaction_id m tid) as [pos|]; [|done]. cbn [mbind option_bind].
  destruct (pos =? transaction_ids_count m); [intros _; eexists false, m; done|].
  destruct (rd (ordered_transaction_ids m) pos) as [i|]; [|done]. cbn [mbind option_bind].
  destruct (rd es i) as [e|] eqn:He; [|done]. cbn [mbind option_bind]. destruct (memcmp (e_transaction_id e) tid =? 0); cbn [negb].
  - intros [= <-]. destruct Ho as (_ & Hid & _). rewrite orb_false_r. destruct (bool_decide_reflect (e_type e = type)) as [Htype|]; cbn [negb]; [|by eexists false, m].
    rewrite (set_entry_Some _ _ _ _ He). cbn. eexists true, _. split; [done|]. split; [by eapply wf_change|]. split; [done|].
    intros _. by exists i, e.
  - intros _. rewrite orb_true_r. by eexists false, m.
Qed.

Lemma server_lists_nothing : server = true -> transaction_ids_count m = 0.
Proof using Hwf.
  intros Hs. destruct (wf_ids _ _ Hwf) as (cs & Ho & Hc). rewrite (or_count _ _ _ _ _ Ho). destruct cs as [|p cs]; [done|].
  assert (has (lists_id server) es p) as (e & _ & [? _]) by (apply Hc; by left). congruence.
Qed.

Lemma index_channels_same i e e' : rd es i = Some e -> channel e' = channel e ->
  indexed channel (has has_channel (<[Z.to_nat i := e']> es)) (<[Z.to_nat i := e']> es) (ordered_channels m) (channels_count m).
Proof using Hwf. intros He Hc. apply (index_same _ _ _ _ _ _ He); [apply Hwf|done|unfold has_channel; by rewrite Hc]. Qed.

Lemma index_ids_server i e e' : server = true -> rd es i = Some e ->
  indexed tid_key (has (lists_id server) (<[Z.to_nat i := e']> es)) (<[Z.to_nat i := e']> es) (ordered_transaction_ids m) (transaction_ids_count m).
Proof using Hwf.
  intros Hs He. rewrite server_lists_nothing by done. apply (indexed_ext _ (fun _ => False)); [apply indexed_empty|].
  intros j. split; [done|]. intros (x & _ & [? _]). congruence.
Qed.

Lemma rekeyed_entry type r i e e' : known type -> family_known r -> found es type r (Some i) -> rd es i = Some e -> e_type e' = type ->
  e_record e' = (if bool_decide (e_type e = type) then e_record e else r) -> is_entry type r e' = true.
Proof using Hwf.
  intros Hk Hr Hf He Ht' Hr'. destruct (found_entry server m Hwf r type i Hk Hf) as (e1 & He1 & _ & Hcase). assert (e1 = e) as -> by congruence.
  apply is_entry_iff. split; [done|]. rewrite Hr'. destruct Hcase as [[Ht Hie]|Hem].
  - rewrite bool_decide_true by done. by apply is_entry_iff in Hie as [_ ?].
  - rewrite bool_decide_false by (rewrite Hem; destruct Hk; congruence). by apply same_host_refl.
Qed.

Lemma rekeyed_ok type r i e e' : known type -> found es type r (Some i) -> rd es i = Some e -> e_type e' = type -> channel e' = channel e ->
  good_tid (e_transaction_id e') -> entry_ok e'.
Proof using Hwf.
  intros Hk Hf He Ht' Hc' Hi'. destruct (found_entry server m Hwf r type i Hk Hf) as (e1 & He1 & [Hok _ _] & Hcase). assert (e1 = e) as -> by congruence.
  split; [|done|rewrite Ht'; destruct Hk; congruence]. rewrite Hc', Ht'.
  destruct Hok as [?|[? ?]]; [by left|]. destruct Hcase as [[? _]|?]; [right; split; [congruence|done]|congruence].
Qed.

(** A new expiry by address, on a server. *)
Lemma update_by_record type tid r duration : server = true -> known type -> good_tid tid -> family_known r ->
  exists ok m', update_timestamp now m type tid (Some r) duration = Some (ok, m') /\ wf server m' /\
    (ok = false -> m' = m /\ found es type r None) /\
    (ok = true -> exists i e, found es type r (Some i) /\ rd es i = Some e /\
      (e_type e = type /\ e_transaction_id e = tid /\ m' = m \/ ~ (e_type e = type /\ e_transaction_id e = tid) /\ exists e', updated m m' i e' /\ e_type e' = type /\ timestamp e' = expiry now duration /\
        e_record e' = if bool_decide (e_type e = type) then e_record e else r)).
Proof using Hwf.
  intros Hs Hk Ht Hr. unfold update_timestamp.
  destruct (find_entry_spec m type r true (wf_table _ _ Hwf) (wf_size _ _ Hwf) Hk) as (p & -> & Hf). cbn [mbind option_bind].
  destruct p as [i|]; [|by eexists false, m]. destruct (found_entry server m Hwf r type i Hk Hf) as (e & He & Hok & Hcase). rewrite He. cbn [mbind option_bind].
  rewrite memcmp_eq by (try done; apply Hok). rewrite <- bool_decide_and. destruct (bool_decide_reflect (e_type e = type /\ e_transaction_id e = tid)) as [[Ht1 Ht2]|Hne].
  { eexists true, m. split; [done|]. split; [done|]. split; [done|]. intros _. exists i, e. split; [done|]. split; [done|]. by left. }
  change (if bool_decide (e_type e = type) then e else _) with (rekey type r e). destruct (rekey_spec type r e) as (Ht0 & Hc0 & _ & _ & Hr0).
  set (e0 := rekey type r e) in *.
  clearbody e0.
  rewrite (set_entry_Some _ _ _ _ He). cbn [mbind option_bind]. set (m0 := m <| entries := _ |>).
  assert ((if memory_is_zero (e_transaction_id e0) then Some m0 else remove_ordered_transaction_id m0 (e_transaction_id e0)) = Some m0) as ->.
  { destruct (memory_is_zero _); [done|]. unfold remove_ordered_transaction_id, find_ordered_transaction_id. cbn. rewrite server_lists_nothing by done. done. }
  cbn [mbind option_bind]. set (e1 := e0 <| e_transaction_id := tid |> <| timestamp := expiry now duration |> <| fresh_transaction_id := false |>).
  assert (rd (entries m0) i = Some e0) as He0 by (cbn; rewrite (rd_changed _ _ e), decide_True by done; done).
  rewrite (set_entry_Some _ _ _ _ He0). cbn [mbind option_bind]. eexists true, _. split; [done|]. cbn. rewrite insert_insert_at. split; [|split; [done|]].
  - eapply (wf_put server m Hwf type r i e e1); cbn; try done.
    + by apply (rekeyed_ok type r i e).
    + by apply index_channels_same with e.
    + by eapply index_ids_server.
  - intros _. exists i, e. split; [done|]. split; [done|]. right. split; [done|]. by exists e1.
Qed.

(** ** Channels *)

Lemma find_channel_insert i e e' c : rd es i = Some e -> channel e = 0 -> channel e' = c -> c <> 0 -> absent channel (has has_channel es) es c ->
  exists pos a arr', find_ordered_channel m c = Some pos /\ memmove (ordered_channels m) (pos + 1) pos (channels_count m - pos) = Some a /\ wr a pos i = Some arr' /\
    zlen arr' = zlen (ordered_channels m) /\
    indexed channel (has has_channel (<[Z.to_nat i := e']> es)) (<[Z.to_nat i := e']> es) arr' (channels_count m + 1).
Proof using Hwf.
  intros He Hc0 Hc Hne Hab.
  destruct (indexed_insert channel _ es (<[Z.to_nat i := e']> es) _ _ c (fun e => c - channel e) i (wf_channels _ _ Hwf) (channel_compares _ c) Hab) as (pos & a & arr' & Hf & Ha & Hw & Hl & Hi).
  - rewrite (has_at _ _ _ _ He). unfold has_channel. lia.
  - apply Hwf.
  - by exists e.
  - intros p Hp. split; [apply (valid_changed _ _ _ _ He); by eapply indexed_valid, Hp; apply Hwf|]. rewrite (key_at_changed _ _ _ _ _ He).
    destruct (decide (p = i)) as [->|]; [|done]. rewrite (has_at has_channel _ _ _ He) in Hp. unfold has_channel in Hp. lia.
  - rewrite (rd_changed _ _ e), decide_True by done. done.
  - by rewrite (key_at_changed _ _ _ _ _ He), decide_True.
  - exists pos, a, arr'. repeat (split; [done|]). apply (indexed_ext _ _ _ _ _ _ Hi). intros j. rewrite (has_changed _ _ _ _ _ He).
    destruct (decide (j = i)) as [->|]; [|by intuition]. split; [intros _; unfold has_channel; lia|by left].
Qed.

Definition unbound (c : Z) : Prop := forall i e, rd es i = Some e -> channel e <> c.

Lemma turn_bind_channel_spec r tid c duration : family_known r -> 0 <= c < 65536 ->
  match tid with Some t => good_tid t /\ server = true | None => True end ->
  exists ok m', turn_bind_channel now m (Some r) tid c duration = Some (ok, m') /\ wf server m' /\
    (ok = false -> m' = m) /\
    (ok = true -> is_valid_channel c = true /\ exists i e e', found es TURN_ENTRY_TYPE_CHANNEL r (Some i) /\ rd es i = Some e /\ updated m m' i e' /\ is_entry TURN_ENTRY_TYPE_CHANNEL r e' = true /\
      channel e' = c /\ timestamp e' = expiry now duration /\ (channel e = c \/ channel e = 0 /\ unbound c)).
Proof using Hwf.
  intros Hr Hc Htid. unfold turn_bind_channel. destruct (is_valid_channel c) eqn:Hv; cbn [negb]; [|by eexists false, m].
  assert (known TURN_ENTRY_TYPE_CHANNEL) as Hk by (by right).
  destruct (find_entry_spec m TURN_ENTRY_TYPE_CHANNEL r true (wf_table _ _ Hwf) (wf_size _ _ Hwf) Hk) as (p & -> & Hf). cbn [mbind option_bind].
  destruct p as [i|]; [|by eexists false, m]. destruct (found_entry server m Hwf r _ i Hk Hf) as (e & He & Hok & Hcase). rewrite He. cbn [mbind option_bind].
  unfold is_valid_channel in Hv. apply Z.leb_le in Hv.
  destruct (bool_decide (e_type e = TURN_ENTRY_TYPE_CHANNEL) && negb (channel e =? 0)) eqn:Hbound.
  { apply andb_true_iff in Hbound as [Ht%bool_decide_eq_true Hz]. destruct Hcase as [[_ Hie]|?]; [|congruence].
    destruct (Z.eqb_spec (channel e) c) as [Heq|]; cbn [negb]; [|by eexists false, m].
    rewrite (set_entry_Some _ _ _ _ He). cbn. eexists true, _. split; [done|]. split; [by eapply wf_change|]. split; [done|].
    intros _. split; [unfold is_valid_channel; lia|]. eexists i, e, _. split; [done|]. split; [done|]. split; [done|]. split; [done|]. split; [done|]. split; [done|]. by left. }
  assert (channel e = 0) as Hc0.
  { apply andb_false_iff in Hbound as [Ht%bool_decide_eq_false|Hz]; [by eapply no_channel|]. by apply negb_false_iff, Z.eqb_eq in Hz. }
  destruct (indexed_find _ _ _ _ _ c _ (wf_channels _ _ Hwf) (channel_compares m c)) as (pos & Hpos & Hrange & Hcs).
  fold (find_ordered_channel m c) in Hpos.
  destruct Hcs as [(q & x & Hlt & Hq & Hx & _ & Hxc)|[Hab Hcs]].
  { rewrite Hpos. cbn [mbind option_bind]. rewrite (proj2 (Z.ltb_lt _ _) Hlt), Hq. cbn [mbind option_bind]. rewrite Hx. cbn [mbind option_bind].
    rewrite (proj2 (Z.eqb_eq _ _) Hxc). by eexists false, m. }
  rewrite Hpos. cbn [mbind option_bind].
  assert ((if pos <? channels_count m then j ← rd (ordered_channels m) pos; other ← rd es j; Some (channel other =? c) else Some false) = Some false) as ->.
  { destruct (Z.ltb_spec pos (channels_count m)); [|done]. destruct Hcs as [?|(q & x & _ & Hq & Hx & _ & Hxc)]; [lia|].
    rewrite Hq. cbn [mbind option_bind]. rewrite Hx. cbn. by rewrite (proj2 (Z.eqb_neq _ _) Hxc). }
  cbn [mbind option_bind]. cbv zeta.
  change (if bool_decide (e_type e = TURN_ENTRY_TYPE_CHANNEL) then e else _) with (rekey TURN_ENTRY_TYPE_CHANNEL r e).
  destruct (rekey_spec TURN_ENTRY_TYPE_CHANNEL r e) as (Ht0 & _ & _ & Hi0 & Hr0). set (e0 := rekey TURN_ENTRY_TYPE_CHANNEL r e) in *.
  clearbody e0.
  set (e1 := e0 <| channel := c |> <| timestamp := expiry now duration |>).
  set (e2 := match tid with Some t => e1 <| e_transaction_id := t |> <| fresh_transaction_id := true |> | None => e1 end).
  assert (e_type e2 = TURN_ENTRY_TYPE_CHANNEL) as Ht2 by (subst e2; by destruct tid).
  assert (e_record e2 = e_record e0) as Hr2 by (subst e2; by destruct tid).
  assert (channel e2 = c) as Hc2 by (subst e2; by destruct tid).
  assert (timestamp e2 = expiry now duration) as Htm2 by (subst e2; by destruct tid).
  assert (e_transaction_id e2 = match tid with Some t => t | None => e_transaction_id e end) as Hi2 by (subst e2; by destruct tid).
  clearbody e2.
  destruct (find_channel_insert i e e2 c He Hc0 Hc2) as (pos' & a & arr' & Hpos' & Ha & Hw & Hl & Hix); [lia|done|].
  assert (pos' = pos) as -> by congruence. rewrite Ha. cbn [mbind option_bind]. rewrite Hw. cbn [mbind option_bind].
  erewrite set_entry_Some by (cbn; exact He). cbn [mbind option_bind]. eexists true, _. split; [done|]. split; [|split; [done|]].
  - eapply (wf_put server m Hwf TURN_ENTRY_TYPE_CHANNEL r i e e2); cbn; try done.
    + by rewrite Hr2.
    + split; [right; rewrite Ht2, Hc2; split; [done|lia]| |by rewrite Ht2]. rewrite Hi2. destruct tid; [by destruct Htid|apply Hok].
    + destruct tid as [t|]; [eapply index_ids_server; [by destruct Htid|exact He]|].
      apply (index_same _ _ _ _ _ _ He); [apply Hwf|unfold tid_key; by rewrite Hi2|unfold lists_id; by rewrite Hi2].
  - intros _. split; [unfold is_valid_channel; lia|]. exists i, e, e2. split; [done|]. split; [done|]. split; [done|]. split; [|split; [done|split; [done|]]].
    + apply (rekeyed_entry _ _ i e); try done. by rewrite Hr2.
    + right. split; [done|]. intros j x Hx Hxc. apply (Hab j); [exists x; split; [done|]; unfold has_channel; lia|]. unfold key_at. by rewrite Hx.
Qed.

Lemma random_channel_range r : 0 <= r < 65536 -> 16384 <= random_channel_number r < 20480.
Proof.
  intros Hr. unfold random_channel_number. change 4095 with (Z.ones 12). rewrite Z.land_ones by lia.
  assert (0 <= r mod 2 ^ 12 < 4096) by (apply Z.mod_pos_bound; lia). set (x := r mod 2 ^ 12) in *.
  assert (Z.land 16384 x = 0) as Hand.
  { change 16384 with (Z.shiftl 1 14). apply Z.bits_inj_0. intros k. rewrite Z.land_spec. destruct (Z.lt_ge_cases k 0); [by rewrite Z.testbit_neg_r|].
    destruct (Z.eq_dec k 14) as [->|].
    - rewrite (Z.bits_above_log2 x 14); [by rewrite andb_false_r|lia|]. destruct (Z.eq_dec x 0) as [->|]; [cbn; lia|]. apply Z.log2_lt_pow2; lia.
    - rewrite Z.shiftl_spec by lia. destruct (Z.lt_ge_cases (k - 14) 0); [by rewrite Z.testbit_neg_r|]. by rewrite (Z.bits_above_log2 1) by (cbn; lia). }
  rewrite <- Z.lxor_lor by done. rewrite <- Z.add_nocarry_lxor by done. lia.
Qed.

Lemma draw_channel_spec draws : Forall (fun r => 0 <= r < 65536) draws -> (exists r, r ∈ draws /\ unbound (random_channel_number r)) ->
  exists r, draw_channel m draws = Some (random_channel_number r) /\ r ∈ draws /\ unbound (random_channel_number r).
Proof using Hwf.
  induction 1 as [|r draws Hr Hd IH]; intros (r0 & Hin & Hun); [by apply elem_of_nil in Hin|]. cbn [draw_channel]. unfold turn_find_channel.
  destruct (channel_entry_spec server m Hwf (random_channel_number r)) as (o & -> & Ho). cbn [mbind option_bind option_map]. destruct o as [e|]; cbn [option_map].
  - destruct Ho as (_ & Hc & i & He). destruct IH as (r1 & ? & ? & ?); [|exists r1; split; [done|]; split; [by right|done]].
    apply elem_of_cons in Hin as [->|Hin]; [|by exists r0]. by specialize (Hun i e He).
  - exists r. split; [done|]. split; [by left|]. intros i e He. pose proof (random_channel_range r Hr). eapply Ho; [unfold is_valid_channel; lia|done].
Qed.

(** ** Transaction identifiers of a client *)

Definition unused (t : list Z) : Prop := forall i e, rd es i = Some e -> e_transaction_id e <> t.

(** Before an entry gets a new identifier the old one leaves the array. *)
Lemma drop_id type r i e : server = false -> known type -> found es type r (Some i) -> rd es i = Some e ->
  exists l n, (if bool_decide (e_type e = type) && negb (memory_is_zero (e_transaction_id e))
      then remove_ordered_transaction_id m (e_transaction_id e) else Some m) = Some (m <| ordered_transaction_ids := l |> <| transaction_ids_count := n |>) /\
    zlen l = zlen (ordered_transaction_ids m) /\ indexed tid_key (fun j => j <> i /\ has (lists_id server) es j) es l n.
Proof using Hwf.
  intros Hs Hk Hf He. destruct (found_entry server m Hwf r type i Hk Hf) as (e1 & He1 & Hok & Hcase). assert (e1 = e) as -> by congruence.
  destruct (bool_decide (e_type e = type) && negb (memory_is_zero (e_transaction_id e))) eqn:Hrm.
  - apply andb_true_iff in Hrm as [_ Hz%negb_true_iff].
    destruct (indexed_remove _ _ _ _ _ (get_be (e_transaction_id e)) _ i (wf_ids _ _ Hwf) (id_compares server m Hwf _ _ (ok_tid _ Hok)))
      as (pos & l & Hpos & Hlt & Hm & Hl & Hix).
    + exists e. split; [done|]. by split.
    + unfold key_at. by rewrite He.
    + exists l, (transaction_ids_count m - 1). unfold remove_ordered_transaction_id, find_ordered_transaction_id. rewrite Hpos. cbn [mbind option_bind].
      rewrite (proj2 (Z.ltb_lt _ _) Hlt), Hm. done.
  - exists (ordered_transaction_ids m), (transaction_ids_count m). split; [by destruct m|]. split; [done|].
    apply (indexed_ext _ (has (lists_id server) es)); [apply Hwf|]. intros j. split; [|by intros [_ ?]]. intros Hj. split; [|done]. intros ->.
    rewrite (has_at (lists_id server) _ _ _ He) in Hj. destruct Hj as [_ Hz]. apply andb_false_iff in Hrm as [Ht%bool_decide_eq_false|Hn]; [|by rewrite Hz in Hn].
    destruct Hcase as [[? _]|Hem]; [done|]. rewrite (ok_empty _ Hok Hem) in Hz. done.
Qed.

Lemma set_transaction_id_spec type r tid : server = false -> known type -> family_known r -> good_tid tid -> memory_is_zero tid = false -> unused tid ->
  exists ok m', set_transaction_id m type r tid = Some (ok, m') /\ wf server m' /\ (ok = false -> m' = m) /\
    (ok = true -> exists i e e', found es type r (Some i) /\ rd es i = Some e /\ updated m m' i e' /\ is_entry type r e' = true /\ e_transaction_id e' = tid /\
      timestamp e' = timestamp e /\ channel e' = channel e).
Proof using Hwf.
  intros Hs Hk Hr Ht Hz Hun. unfold set_transaction_id.
  assert (negb (bool_decide (type = TURN_ENTRY_TYPE_PERMISSION)) && negb (bool_decide (type = TURN_ENTRY_TYPE_CHANNEL)) = false) as -> by (by destruct Hk as [->| ->]).
  destruct (find_entry_spec m type r true (wf_table _ _ Hwf) (wf_size _ _ Hwf) Hk) as (p & -> & Hf). cbn [mbind option_bind].
  destruct p as [i|]; [|by eexists false, m]. destruct (found_entry server m Hwf r type i Hk Hf) as (e & He & Hok & Hcase). rewrite He. cbn [mbind option_bind].
  destruct (drop_id type r i e Hs Hk Hf He) as (l & n & -> & Hl & Hix). cbn [mbind option_bind].
  cbv zeta. change (if bool_decide (e_type e = type) then e else _) with (rekey type r e). destruct (rekey_spec type r e) as (Ht0 & Hc0 & Hm0 & _ & Hr0).
  set (e0 := rekey type r e) in *.
  clearbody e0. set (e1 := e0 <| e_transaction_id := tid |> <| fresh_transaction_id := true |>).
  destruct (indexed_insert tid_key _ es (<[Z.to_nat i := e1]> es) l n (get_be tid) (fun e => memcmp tid (e_transaction_id e)) i Hix) as (pos & a & l' & Hpos & Ha & Hw & Hl' & Hix').
  - by eapply id_compares.
  - intros q [_ (x & Hx & _)] Hq. unfold key_at in Hq. rewrite Hx in Hq. apply (Hun q x Hx), good_tid_key; [apply (wf_entries _ _ Hwf _ _ Hx)|done|done].
  - intros [? _]. done.
  - rewrite Hl. apply Hwf.
  - by exists e.
  - intros q [Hq HL]. split; [apply (valid_changed _ _ _ _ He); by eapply indexed_valid, HL; apply Hwf|]. by rewrite (key_at_changed _ _ _ _ _ He), decide_False.
  - rewrite (rd_changed _ _ e), decide_True by done. done.
  - by rewrite (key_at_changed _ _ _ _ _ He), decide_True.
  - assert (find_ordered_transaction_id (m <| ordered_transaction_ids := l |> <| transaction_ids_count := n |>) tid = Some pos) as -> by exact Hpos.
    cbn. rewrite Ha. cbn [mbind option_bind]. rewrite Hw. cbn [mbind option_bind].
    erewrite set_entry_Some by (cbn; exact He). cbn [mbind option_bind]. eexists true, _. split; [done|]. split; [|split; [done|]].
    + eapply (wf_put server m Hwf type r i e e1); cbn; try done.
      * by apply (rekeyed_ok type r i e).
      * congruence.
      * by apply index_channels_same with e.
      * apply (indexed_ext _ _ _ _ _ _ Hix'). intros j. rewrite (has_changed _ _ _ _ _ He). destruct (decide (j = i)) as [->|]; [|by intuition].
        split; [by split|by left].
    + intros _. exists i, e, e1. split; [done|]. split; [done|]. split; [done|]. split; [|split; [done|split; [done|done]]].
      by apply (rekeyed_entry _ _ i e).
Qed.

Lemma draw_transaction_id_spec draws : Forall good_tid draws -> Forall (fun t => memory_is_zero t = false) draws -> server = false ->
  (exists t, t ∈ draws /\ unused t) -> exists t, draw_transaction_id m draws = Some t /\ t ∈ draws /\ unused t.
Proof using Hwf.
  intros Hd Hz Hs. induction Hd as [|t draws Ht Hd IH]; intros (t0 & Hin & Hun); [by apply elem_of_nil in Hin|]. cbn [draw_transaction_id]. unfold find_transaction_id.
  apply Forall_cons in Hz as [Hz Hzs]. destruct (transaction_entry_spec server m Hwf t Ht) as (o & -> & Ho). cbn [mbind option_bind]. destruct o as [[i e]|]; cbn [option_map].
  - destruct Ho as (He & Hc & _). destruct IH as (t1 & ? & ? & ?); [done| |exists t1; split; [done|]; split; [by right|done]].
    apply elem_of_cons in Hin as [->|Hin]; [|by exists t0]. by specialize (Hun i e He).
  - exists t. split; [done|]. split; [by left|]. intros i e He Hc. apply (Ho i e He); [|done]. split; [done|]. by rewrite Hc.
Qed.

Lemma set_random_spec type r draws : server = false -> known type -> family_known r -> Forall good_tid draws -> Forall (fun t => memory_is_zero t = false) draws ->
  (exists t, t ∈ draws /\ unused t) -> exists o m', set_random_transaction_id m type r draws = Some (o, m') /\ wf server m'.
Proof using Hwf.
  intros Hs Hk Hr Hd Hz Hun. unfold set_random_transaction_id.
  destruct (find_entry_spec m type r false (wf_table _ _ Hwf) (wf_size _ _ Hwf) Hk) as (p & -> & Hf). cbn [mbind option_bind].
  assert (exists o, match p with None => Some None | Some i => e ← rd es i; Some (if fresh_transaction_id e then Some (e_transaction_id e) else None) end = Some o) as [o ->].
  { destruct p as [i|]; [|by eexists]. destruct (found_entry server m Hwf r type i Hk Hf) as (e & He & _). rewrite He. by eexists. }
  cbn [mbind option_bind]. destruct o as [t|]; [by eexists _, _|].
  destruct (draw_transaction_id_spec draws Hd Hz Hs Hun) as (t & -> & Hin & Hu). cbn [mbind option_bind]. rewrite Forall_forall in Hd, Hz.
  destruct (set_transaction_id_spec type r t Hs Hk Hr (Hd t Hin) (Hz t Hin) Hu) as (ok & m' & -> & Hw & _). cbn. by eexists _, _.
Qed.

Lemma retrieve_spec tid : good_tid tid -> exists o m', turn_retrieve_transaction_id m tid = Some (o, m') /\ wf server m'.
Proof using Hwf.
  intros Ht. unfold turn_retrieve_transaction_id. destruct (transaction_entry_spec server m Hwf tid Ht) as (o & -> & Ho). cbn [mbind option_bind].
  destruct o as [[i e]|]; [|by eexists _, _]. destruct Ho as (He & _). rewrite (set_entry_Some _ _ _ _ He). cbn. eexists _, _. split; [done|]. by eapply wf_change.
Qed.
End ops.

(** ** Runs *)

Inductive turn_op :=
| Set_permission (tid : list Z) (record : option addr_record_t) (duration : Z)
| Bind_current_channel (tid : list Z) (record : option addr_record_t) (duration : Z)
| Bind_channel (record : option addr_record_t) (tid : option (list Z)) (c duration : Z)
| Bind_random_channel (record : addr_record_t) (draws : list Z) (duration : Z)
| Set_permission_transaction_id (record : addr_record_t) (tid : list Z)
| Set_channel_transaction_id (record : addr_record_t) (tid : list Z)
| Set_random_permission_transaction_id (record : addr_record_t) (draws : list (list Z))
| Set_random_channel_transaction_id (record : addr_record_t) (draws : list (list Z))
| Retrieve_transaction_id (tid : list Z).

Definition run (now : Z) (m : turn_map_t) (op : turn_op) : option turn_map_t :=
  match op with
  | Set_permission tid record d => snd <$> turn_set_permission now m tid record d
  | Bind_current_channel tid record d => snd <$> turn_bind_current_channel now m tid record d
  | Bind_channel record tid c d => snd <$> turn_bind_channel now m record tid c d
  | Bind_random_channel record draws d => snd <$> turn_bind_random_channel now m record draws d
  | Set_permission_transaction_id record tid => snd <$> turn_set_permission_transaction_id m record tid
  | Set_channel_transaction_id record tid => snd <$> turn_set_channel_transaction_id m record tid
  | Set_random_permission_transaction_id record draws => snd <$> turn_set_random_permission_transaction_id m record draws
  | Set_random_channel_transaction_id record draws => snd <$> turn_set_random_channel_transaction_id m record draws
  | Retrieve_transaction_id tid => snd <$> turn_retrieve_transaction_id m tid
  end.

(** An identifier a client may choose. *)
Definition new_tid (m : turn_map_t) (t : list Z) : Prop := good_tid t /\ memory_is_zero t = false /\ unused m t.
Definition tid_draws (m : turn_map_t) (draws : list (list Z)) : Prop :=
  Forall good_tid draws /\ Forall (fun t => memory_is_zero t = false) draws /\ exists t, t ∈ draws /\ unused m t.

Definition allowed (server : bool) (m : turn_map_t) (op : turn_op) : Prop :=
  match op with
  | Set_permission tid record _ | Bind_current_channel tid record _ =>
      good_tid tid /\ match record with Some r => family_known r /\ server = true | None => True end
  | Bind_channel record tid c _ => 0 <= c < 65536 /\ match record with Some r => family_known r | None => True end /\
      match tid with Some t => good_tid t /\ server = true | None => True end
  | Bind_random_channel record draws _ => family_known record /\ Forall (fun r => 0 <= r < 65536) draws /\
      exists r, r ∈ draws /\ unbound m (random_channel_number r)
  | Set_permission_transaction_id record tid | Set_channel_transaction_id record tid => family_known record /\ new_tid m tid /\ server = false
  | Set_random_permission_transaction_id record draws | Set_random_channel_transaction_id record draws =>
      family_known record /\ tid_draws m draws /\ server = false
  | Retrieve_transaction_id tid => good_tid tid
  end.

Inductive reach (server : bool) (size : Z) : turn_map_t -> Prop :=
| Reach_init m : turn_init_map true size = Some m -> reach server size m
| Reach_run m now op m' : reach server size m -> allowed server m op -> run now m op = Some m' -> reach server size m'.

Lemma run_wf server now m op : wf server m -> allowed server m op -> exists m', run now m op = Some m' /\ wf server m'.
Proof.
  assert (forall A (x : option (A * turn_map_t)), (exists a m', x = Some (a, m') /\ wf server m') -> exists m', snd <$> x = Some m' /\ wf server m') as Hsnd.
  { intros A x (a & m' & -> & Hw). by exists m'. }
  assert (known TURN_ENTRY_TYPE_PERMISSION) as Hp by (by left). assert (known TURN_ENTRY_TYPE_CHANNEL) as Hc by (by right).
  intros Hwf. destruct op as [tid [r|] d|tid [r|] d|[r|] tid c d|r draws d|r tid|r tid|r draws|r draws|tid]; cbn [allowed run]; intros Hal; apply Hsnd.
  - destruct Hal as (? & ? & ?). destruct (update_by_record server now m Hwf TURN_ENTRY_TYPE_PERMISSION tid r d) as (ok & m' & ? & ? & _); eauto.
  - destruct Hal as (? & _). destruct (update_by_id server now m Hwf TURN_ENTRY_TYPE_PERMISSION tid d) as (ok & m' & ? & ? & _); eauto.
  - destruct Hal as (? & ? & ?). destruct (update_by_record server now m Hwf TURN_ENTRY_TYPE_CHANNEL tid r d) as (ok & m' & ? & ? & _); eauto.
  - destruct Hal as (? & _). destruct (update_by_id server now m Hwf TURN_ENTRY_TYPE_CHANNEL tid d) as (ok & m' & ? & ? & _); eauto.
  - destruct Hal as (? & ? & ?). destruct (turn_bind_channel_spec server now m Hwf r tid c d) as (ok & m' & ? & ? & _); eauto.
  - by exists false, m.
  - destruct Hal as (Hr & Hd & Hu). unfold turn_bind_random_channel. destruct (draw_channel_spec server m Hwf draws Hd Hu) as (x & -> & Hx & _). cbn [mbind option_bind].
    rewrite Forall_forall in Hd. pose proof (random_channel_range x (Hd x Hx)).
    destruct (turn_bind_channel_spec server now m Hwf r None (random_channel_number x) d) as (ok & m' & -> & ? & _); [done|lia|done|]. cbn. eauto.
  - destruct Hal as (? & (? & ? & ?) & ?). destruct (set_transaction_id_spec server m Hwf TURN_ENTRY_TYPE_PERMISSION r tid) as (ok & m' & ? & ? & _); eauto.
  - destruct Hal as (? & (? & ? & ?) & ?). destruct (set_transaction_id_spec server m Hwf TURN_ENTRY_TYPE_CHANNEL r tid) as (ok & m' & ? & ? & _); eauto.
  - destruct Hal as (? & (? & ? & ?) & ?). by apply set_random_spec.
  - destruct Hal as (? & (? & ? & ?) & ?). by apply set_random_spec.
  - by apply retrieve_spec.
Qed.

Lemma reach_wf server size m : 0 < size -> reach server size m -> wf server m.
Proof.
  intros Hs. induction 1 as [m Hm|m now op m' _ IH Hal Hr]; [by eapply turn_init_map_wf|].
  destruct (run_wf server now m op IH Hal) as (m2 & Hr2 & Hw). congruence.
Qed.
