(* ===== verification/TurnProps.v ===== *)
(** * Properties of the TURN map

    Every map a client or a server gets is safe to use and keeps its invariant; channel
    bindings and permissions are what the operations say. *)

From S2P Require Import Prelude Bytes Addr Stun Turn TurnOrder TurnTable TurnSteps.
Open Scope Z_scope.

(** ** What is read of an updated map *)

Section updated.
Context (server : bool) (m m' : turn_map_t) (i : Z) (e e' : turn_entry_t)
  (Hwf : wf server m) (Hwf' : wf server m') (He : rd (entries m) i = Some e) (Hup : updated m m' i e').

Lemma rd_updated j : rd (entries m') j = if decide (j = i) then Some e' else rd (entries m) j.
Proof using He Hup. rewrite Hup. by eapply rd_changed. Qed.

Lemma entry_of_other type r : known type -> is_entry type r e = false -> is_entry type r e' = false -> entry_of m' r type = entry_of m r type.
Proof using Hwf Hwf' He Hup.
  intros Hk H H'. destruct (entry_of_spec server m Hwf r type Hk) as ([x|] & -> & Hx).
  - destruct Hx as (j & Hj & Hjx). eapply (entry_of_present server m' Hwf' r type j); [done| |done].
    rewrite rd_updated. destruct (decide (j = i)) as [->|]; [congruence|done].
  - eapply entry_of_absent; [done|done|]. intros j x. rewrite rd_updated. destruct (decide (j = i)); [by intros [= <-]|]. apply Hx.
Qed.

Lemma entry_of_updated type r : known type -> is_entry type r e' = true -> entry_of m' r type = Some (Some e').
Proof using Hwf' He Hup. intros Hk H. eapply (entry_of_present server m' Hwf' r type i); [done| |done]. by rewrite rd_updated, decide_True. Qed.
End updated.

Section channels.
Context (server : bool) (m : turn_map_t) (Hwf : wf server m).

Lemma channel_entry_present c i e : is_valid_channel c = true -> rd (entries m) i = Some e -> channel e = c -> channel_entry m c = Some (Some e).
Proof using Hwf.
  intros Hv He Hc. destruct (channel_entry_spec server m Hwf c) as ([x|] & -> & Hx).
  - destruct Hx as (_ & Hxc & j & Hj). assert (j = i) as ->; [|congruence].
    unfold is_valid_channel in Hv. apply (indexed_inj _ _ _ _ _ j i (wf_channels _ _ Hwf)).
    + exists x. split; [done|]. unfold has_channel. lia.
    + exists e. split; [done|]. unfold has_channel. lia.
    + unfold key_at. rewrite Hj, He. congruence.
  - exfalso. by eapply Hx.
Qed.

Lemma channel_entry_absent c : (forall i e, rd (entries m) i = Some e -> channel e <> c) -> channel_entry m c = Some None.
Proof using Hwf.
  intros Hno. destruct (channel_entry_spec server m Hwf c) as ([x|] & -> & Hx); [|done]. destruct Hx as (_ & Hc & j & Hj). by destruct (Hno j x).
Qed.
End channels.

Lemma channel_entry_other server m m' i e e' c : wf server m -> wf server m' -> rd (entries m) i = Some e -> updated m m' i e' ->
  is_valid_channel c = true -> channel e <> c -> channel e' <> c -> channel_entry m' c = channel_entry m c.
Proof.
  intros Hwf Hwf' He Hup Hv H H'. destruct (channel_entry_spec server m Hwf c) as ([x|] & -> & Hx).
  - destruct Hx as (_ & Hc & j & Hj). apply (channel_entry_present server m' Hwf' c j); [done| |done].
    rewrite (rd_updated m m' i e e' He Hup). destruct (decide (j = i)) as [->|]; [congruence|done].
  - eapply channel_entry_absent; [done|]. intros j x. rewrite (rd_updated m m' i e e' He Hup). destruct (decide (j = i)); [by intros [= <-]|]. by apply (Hx Hv).
Qed.

Lemma is_entry_host type r r' e : is_entry type r e = true -> is_entry type r' e = addr_record_is_equal r r' false.
Proof.
  intros [Ht Hh]%is_entry_iff. apply eq_true_iff_eq. rewrite is_entry_iff. fold (same_host r r'). split.
  - intros [_ Hh']. eapply same_host_trans; [by apply same_host_sym|done].
  - intros H. split; [done|]. by eapply same_host_trans.
Qed.

(** ** Properties *)

(** C37. however a client or a server uses a map, from its initialisation on, the invariant
    holds, and every further operation they may perform and every query ends without leaving
    the arrays: the probing and the bisections terminate, and the insertions have room. *)
Theorem turn_map_invariant server size m : 0 < size -> reach server size m ->
  wf server m /\
  (forall now op, allowed server m op -> exists m', run now m op = Some m' /\ reach server size m') /\
  (forall now r, is_Some (turn_has_permission now m r) /\ is_Some (turn_get_channel m r) /\ is_Some (turn_get_bound_channel now m r)) /\
  (forall now c, is_Some (turn_find_channel m c) /\ is_Some (turn_find_bound_channel now m c)).
Proof.
  intros Hs Hr. pose proof (reach_wf server size m Hs Hr) as Hwf. split; [done|]. split; [|split].
  - intros now op Hal. destruct (run_wf server now m op Hwf Hal) as (m' & Hm' & _). exists m'. split; [done|]. by eapply Reach_run.
  - intros now r. unfold turn_has_permission, turn_get_channel, turn_get_bound_channel.
    destruct (entry_of_spec server m Hwf r TURN_ENTRY_TYPE_PERMISSION) as (? & -> & _); [by left|].
    destruct (entry_of_spec server m Hwf r TURN_ENTRY_TYPE_CHANNEL) as (? & -> & _); [by right|]. cbn. by split.
  - intros now c. unfold turn_find_channel, turn_find_bound_channel.
    destruct (channel_entry_spec server m Hwf c) as (? & -> & _). cbn. by split.
Qed.

(** C38. channels and hosts are bound one to one.  The record found by a channel is bound to
    that channel; the channel of a record finds a record of the same host, so two hosts never
    share a channel. *)
Theorem turn_channels_one_to_one server size m : 0 < size -> reach server size m ->
  (forall c r, turn_find_channel m c = Some (Some r) -> turn_get_channel m r = Some (Some c)) /\
  (forall r c, turn_get_channel m r = Some (Some c) -> c <> 0 ->
     exists r', turn_find_channel m c = Some (Some r') /\ addr_record_is_equal r' r false = true) /\
  (forall r1 r2 c, turn_get_channel m r1 = Some (Some c) -> turn_get_channel m r2 = Some (Some c) -> c <> 0 -> addr_record_is_equal r1 r2 false = true).
Proof.
  intros Hs Hr. pose proof (reach_wf server size m Hs Hr) as Hwf. assert (known TURN_ENTRY_TYPE_CHANNEL) as Hk by (by right).
  assert (forall r c, turn_get_channel m r = Some (Some c) -> c <> 0 ->
     exists r', turn_find_channel m c = Some (Some r') /\ addr_record_is_equal r' r false = true) as Hfind.
  { intros r c Hg Hc. unfold turn_get_channel in Hg. destruct (entry_of_spec server m Hwf r _ Hk) as ([e|] & Heq & Ho); rewrite Heq in Hg; [|done].
    destruct Ho as (i & He & Hi). injection Hg as Hce. exists (e_record e). apply is_entry_iff in Hi as [_ Hh]. split; [|done].
    unfold turn_find_channel. erewrite (channel_entry_present server m Hwf c i e); [done| |done|done].
    destruct (ok_channel _ (wf_entries _ _ Hwf _ _ He)) as [|[_ ?]]; [congruence|]. unfold is_valid_channel. lia. }
  split; [|split; [done|]].
  - intros c r Hf. unfold turn_find_channel in Hf. destruct (channel_entry_spec server m Hwf c) as ([e|] & Heq & Ho); rewrite Heq in Hf; [|done].
    destruct Ho as (Hv & Hc & i & He). injection Hf as <-. unfold turn_get_channel. unfold is_valid_channel in Hv.
    destruct (ok_channel _ (wf_entries _ _ Hwf _ _ He)) as [?|[Ht _]]; [lia|].
    rewrite (entry_of_present server m Hwf (e_record e) _ i e Hk He); [by cbn; rewrite Hc|].
    apply is_entry_iff. split; [done|]. apply same_host_refl.
    destruct (proj2 (wf_table _ _ Hwf) i e He) as [Hem|(_ & ? & _)]; [congruence|done].
  - intros r1 r2 c H1 H2 Hc. destruct (Hfind r1 c H1 Hc) as (x1 & Hx1 & Hh1). destruct (Hfind r2 c H2 Hc) as (x2 & Hx2 & Hh2).
    assert (x1 = x2) as <- by congruence. eapply same_host_trans; [by apply same_host_sym|done].
Qed.

(** C39. [turn_bind_channel] either changes nothing, or binds the channel to the host of the
    record (the port does not matter) until the new expiry, and no other binding changes. *)
Theorem turn_bind_channel_correct server size m now r tid c duration ok m' : 0 < size -> reach server size m ->
  allowed server m (Bind_channel (Some r) tid c duration) -> turn_bind_channel now m (Some r) tid c duration = Some (ok, m') ->
  if ok then
    (forall r', turn_get_channel m' r' = if addr_record_is_equal r r' false then Some (Some c) else turn_get_channel m r') /\
    (forall now' r', turn_get_bound_channel now' m' r' = if addr_record_is_equal r r' false then Some (if expiry now duration <=? now' then None else Some c)
                                                         else turn_get_bound_channel now' m r') /\
    (exists r', turn_find_channel m' c = Some (Some r') /\ addr_record_is_equal r' r false = true) /\
    (forall c', c' <> c -> turn_find_channel m' c' = turn_find_channel m c')
  else m' = m.
Proof.
  intros Hs Hr Hal Hb. pose proof (reach_wf server size m Hs Hr) as Hwf. destruct Hal as (Hc & Hf & Htid). assert (known TURN_ENTRY_TYPE_CHANNEL) as Hk by (by right).
  destruct (turn_bind_channel_spec server now m Hwf r tid c duration Hf Hc Htid) as (ok' & m1 & Heq & Hwf' & Hno & Hyes).
  rewrite Heq in Hb. injection Hb as -> ->. destruct ok; [|by apply Hno].
  destruct Hyes as (Hv & i & e & e' & Hfound & He & Hup & Hie & Hce & Hte & Hold); [done|].
  assert (forall r', addr_record_is_equal r r' false = false -> entry_of m' r' TURN_ENTRY_TYPE_CHANNEL = entry_of m r' TURN_ENTRY_TYPE_CHANNEL) as Hother.
  { intros r' Hne. apply (entry_of_other server m m' i e e' Hwf Hwf' He Hup); [done| |by rewrite (is_entry_host _ r)].
    destruct (found_entry server m Hwf r _ i Hk Hfound) as (e1 & He1 & _ & Hcase). assert (e1 = e) as -> by congruence.
    destruct Hcase as [[_ Hi]|Hem]; [by rewrite (is_entry_host _ r)|]. unfold is_entry. by rewrite Hem. }
  assert (forall r', addr_record_is_equal r r' false = true -> entry_of m' r' TURN_ENTRY_TYPE_CHANNEL = Some (Some e')) as Hsame.
  { intros r' Heq'. apply (entry_of_updated server m m' i e e' Hwf' He Hup); [done|]. by rewrite (is_entry_host _ r). }
  unfold is_valid_channel in Hv. apply Z.leb_le in Hv. split; [|split; [|split]].
  - intros r'. unfold turn_get_channel. destruct (addr_record_is_equal r r' false) eqn:Hh; [rewrite (Hsame r' Hh); cbn; by rewrite Hce|by rewrite Hother].
  - intros now' r'. unfold turn_get_bound_channel. destruct (addr_record_is_equal r r' false) eqn:Hh; [|by rewrite Hother].
    rewrite (Hsame r' Hh). cbn. rewrite Hce, Hte. destruct (Z.eqb_spec c 0); [lia|]. done.
  - exists (e_record e'). unfold turn_find_channel. erewrite (channel_entry_present server m' Hwf' c i e').
    + split; [done|]. by apply is_entry_iff in Hie as [_ ?].
    + unfold is_valid_channel. lia.
    + by rewrite (rd_updated m m' i e e' He Hup), decide_True.
    + done.
  - intros c' Hne. unfold turn_find_channel. destruct (is_valid_channel c') eqn:Hv'; [|unfold channel_entry; by rewrite Hv'].
    rewrite (channel_entry_other server m m' i e e' c'); try done; [|congruence]. unfold is_valid_channel in Hv'. destruct Hold as [?|[? _]]; lia.
Qed.

(** on a server, [turn_set_permission] grants the host of the record the permission
    until the new expiry, whatever its port, and nobody else's permission changes.  A request
    with the transaction identifier of the last one does not extend it.  It fails only when
    the table is full of other entries. *)
Theorem turn_permission_correct size m now tid r duration : 0 < size -> reach true size m -> good_tid tid -> family_known r ->
  exists ok m', turn_set_permission now m tid (Some r) duration = Some (ok, m') /\
  if ok then
    (exists e, entry_of m r TURN_ENTRY_TYPE_PERMISSION = Some (Some e) /\ e_transaction_id e = tid /\ m' = m) \/
    forall now' r', turn_has_permission now' m' r' =
      if addr_record_is_equal r r' false then Some (now' <? expiry now duration) else turn_has_permission now' m r'
  else m' = m /\ forall i e, rd (entries m) i = Some e -> is_entry TURN_ENTRY_TYPE_PERMISSION r e = false /\ e_type e <> TURN_ENTRY_TYPE_EMPTY.
Proof.
  intros Hs Hr Ht Hf. pose proof (reach_wf true size m Hs Hr) as Hwf. assert (known TURN_ENTRY_TYPE_PERMISSION) as Hk by (by left).
  destruct (update_by_record true now m Hwf TURN_ENTRY_TYPE_PERMISSION tid r duration eq_refl Hk Ht Hf) as (ok & m' & Heq & Hwf' & Hno & Hyes).
  exists ok, m'. split; [done|]. destruct ok.
  - destruct Hyes as (i & e & Hfound & He & Hcase); [done|].
    destruct (found_entry true m Hwf r _ i Hk Hfound) as (e1 & He1 & _ & Hold). assert (e1 = e) as -> by congruence.
    destruct Hcase as [(Hte & Htid & ->)|(_ & e' & Hup & Hte' & Htm & Hre')].
    { left. exists e. split; [|done]. destruct Hold as [[_ Hi]|?]; [by eapply entry_of_present|congruence]. }
    right. assert (is_entry TURN_ENTRY_TYPE_PERMISSION r e' = true) as Hie by (by apply (rekeyed_entry true m Hwf _ _ i e)).
    intros now' r'. unfold turn_has_permission. destruct (addr_record_is_equal r r' false) eqn:Hh.
    + rewrite (entry_of_updated true m m' i e e' Hwf' He Hup); [cbn; by rewrite Htm|done|by rewrite (is_entry_host _ r)].
    + rewrite (entry_of_other true m m' i e e' Hwf Hwf' He Hup); [done|done| |by rewrite (is_entry_host _ r)].
      destruct Hold as [[_ Hi]|Hem]; [by rewrite (is_entry_host _ r)|]. unfold is_entry. by rewrite Hem.
  - destruct Hno as [-> Hfull]; [done|]. split; [done|]. by inversion Hfull.
Qed.

(** ** Witnesses *)

Definition host (n port : Z) : addr_record_t := Addr_record (Sin port [10; 0; 0; n]) 16 0.
Definition id (n : Z) : list Z := replicate 11 0 ++ [n].

Definition fresh_map : turn_map_t := Turn_map (replicate 4 zero_entry) (replicate 4 (-1)) (replicate 4 (-1)) 4 0 0.
Definition after (o : option turn_map_t) : turn_map_t := default fresh_map o.
(** A server grants a permission, then binds two channels. *)
Definition permitted : turn_map_t := after (run 100 fresh_map (Set_permission (id 1) (Some (host 1 5000)) 300)).
Definition bound : turn_map_t := after (run 100 permitted (Bind_channel (Some (host 1 5000)) (Some (id 2)) 16385 600)).

Lemma id_good n : byte n -> good_tid (id n).
Proof. intros Hn. split; [done|]. unfold id. apply Forall_app. split; [by apply Forall_replicate|by constructor]. Defined.

Lemma start_reach : reach true 2 fresh_map.
Proof. by apply Reach_init. Defined.

Lemma permitted_reach : reach true 2 permitted.
Proof.
  apply (Reach_run true 2 fresh_map 100 (Set_permission (id 1) (Some (host 1 5000)) 300)); [apply start_reach| |by vm_compute].
  split; [by apply id_good|done].
Defined.

Lemma bound_reach : reach true 2 bound.
Proof.
  apply (Reach_run true 2 permitted 100 (Bind_channel (Some (host 1 5000)) (Some (id 2)) 16385 600)); [apply permitted_reach| |by vm_compute].
  split; [lia|]. split; [done|]. split; [by apply id_good|done].
Defined.

Lemma turn_map_invariant_witness : wf true bound /\ turn_has_permission 200 bound (host 1 6000) = Some true.
Proof. split; [|by vm_compute]. apply (turn_map_invariant true 2 bound); [lia|apply bound_reach]. Defined.

Lemma turn_channels_one_to_one_witness : turn_get_channel bound (host 1 9) = Some (Some 16385) /\
  exists r', turn_find_channel bound 16385 = Some (Some r') /\ addr_record_is_equal r' (host 1 9) false = true.
Proof. split; [by vm_compute|]. destruct (turn_channels_one_to_one true 2 bound) as (_ & H & _); [lia|apply bound_reach|]. apply H; [by vm_compute|lia]. Defined.

Lemma turn_bind_channel_correct_witness :
  turn_find_channel (after (run 100 bound (Bind_channel (Some (host 2 7)) (Some (id 3)) 16386 600))) 16385 = turn_find_channel bound 16385.
Proof.
  eapply (turn_bind_channel_correct true 2 bound 100 (host 2 7) (Some (id 3)) 16386 600 true); [lia|apply bound_reach| |vm_compute; reflexivity|lia].
  split; [lia|]. split; [done|]. split; [by apply id_good|done].
Defined.

Lemma turn_permission_correct_witness : exists ok m', turn_set_permission 200 permitted (id 9) (Some (host 1 5000)) 300 = Some (ok, m') /\ ok = true.
Proof.
  destruct (turn_permission_correct 2 permitted 200 (id 9) (host 1 5000) 300) as (ok & m' & Heq & _); [lia|apply permitted_reach|by apply id_good|done|].
  exists ok, m'. split; [exact Heq|]. revert Heq. vm_compute. congruence.
Defined.
