(* ===== verification/Agent.v ===== *)
(** * The ICE agent: candidate pairs and connectivity checks (libjuice [src/agent.c])

    The state of an agent, the candidate pairs and their order, the STUN entries that check
    them and when they transmit, the processing of STUN Binding messages, and the bookkeeping that selects and
    nominates pairs.  Pointers into the arrays of the agent are indices, [None] for a null pointer;
    of the arrays [candidate_pairs] and [entries] the used part is kept.  The clock, random numbers,
    what sending returns and whether a TCP connection is started come from the environment; a
    call of a callback of the application is an event.  Code that only logs is left out, and so are
    the locks.  The build is the default one: consent freshness, no address translation. *)

From S2P Require Import Prelude Bytes Stdio Addr ConstTime Stun StunWrite StunRead Turn Ice.
Open Scope Z_scope.

(** ** Constants *)

Definition BUFFER_SIZE : Z := 4096.
Definition MIN_STUN_RETRANSMISSION_TIMEOUT : Z := 500.
Definition LAST_STUN_RETRANSMISSION_TIMEOUT : Z := MIN_STUN_RETRANSMISSION_TIMEOUT * 16.
Definition MAX_STUN_CHECK_RETRANSMISSION_COUNT : Z := 6.
Definition MAX_STUN_SERVER_RETRANSMISSION_COUNT : Z := 5.
Definition STUN_TCP_TIMEOUT : Z := LAST_STUN_RETRANSMISSION_TIMEOUT.
Definition STUN_PACING_TIME : Z := 50.
Definition STUN_KEEPALIVE_PERIOD : Z := 15000.
Definition ICE_PAC_TIMEOUT : Z := 39500.
Definition CONSENT_TIMEOUT : Z := 30000.
Definition MIN_CONSENT_CHECK_PERIOD : Z := 4000.
Definition MAX_CONSENT_CHECK_PERIOD : Z := 6000.
Definition NOMINATION_TIMEOUT : Z := 2000.
Definition TURN_LIFETIME : Z := 600000.
Definition TURN_REFRESH_PERIOD : Z := TURN_LIFETIME - 60000.
Definition MAX_SERVER_ENTRIES_COUNT : Z := 2.
Definition MAX_RELAY_ENTRIES_COUNT : Z := 2.
Definition MAX_STUN_SERVER_RECORDS_COUNT : Z := MAX_SERVER_ENTRIES_COUNT.
Definition MAX_HOST_CANDIDATES_COUNT : Z := (ICE_MAX_CANDIDATES_COUNT - MAX_STUN_SERVER_RECORDS_COUNT) / 2.
Definition MAX_PEER_REFLEXIVE_CANDIDATES_COUNT : Z := MAX_HOST_CANDIDATES_COUNT.
Definition MAX_CANDIDATE_PAIRS_COUNT : Z := ICE_MAX_CANDIDATES_COUNT * (1 + MAX_RELAY_ENTRIES_COUNT).
Definition MAX_STUN_ENTRIES_COUNT : Z := MAX_CANDIDATE_PAIRS_COUNT + MAX_STUN_SERVER_RECORDS_COUNT.

(** ** Data *)

Inductive juice_state_t :=
| JUICE_STATE_DISCONNECTED | JUICE_STATE_GATHERING | JUICE_STATE_CONNECTING | JUICE_STATE_CONNECTED | JUICE_STATE_COMPLETED | JUICE_STATE_FAILED.
Inductive agent_mode_t := AGENT_MODE_UNKNOWN | AGENT_MODE_CONTROLLED | AGENT_MODE_CONTROLLING.
Inductive agent_stun_entry_type_t :=
| AGENT_STUN_ENTRY_TYPE_EMPTY | AGENT_STUN_ENTRY_TYPE_SERVER | AGENT_STUN_ENTRY_TYPE_RELAY | AGENT_STUN_ENTRY_TYPE_CHECK.
Inductive agent_stun_entry_state_t :=
| AGENT_STUN_ENTRY_STATE_PENDING | AGENT_STUN_ENTRY_STATE_CANCELLED | AGENT_STUN_ENTRY_STATE_FAILED | AGENT_STUN_ENTRY_STATE_SUCCEEDED
| AGENT_STUN_ENTRY_STATE_SUCCEEDED_KEEPALIVE | AGENT_STUN_ENTRY_STATE_IDLE.
Inductive tcp_state_t := TCP_STATE_DISCONNECTED | TCP_STATE_CONNECTING | TCP_STATE_CONNECTED | TCP_STATE_FAILED.
Inductive juice_ice_tcp_mode_t := JUICE_ICE_TCP_MODE_NONE | JUICE_ICE_TCP_MODE_ACTIVE.

#[export] Instance juice_state_eq_dec : EqDecision juice_state_t. Proof. solve_decision. Defined.
#[export] Instance agent_mode_eq_dec : EqDecision agent_mode_t. Proof. solve_decision. Defined.
#[export] Instance entry_type_eq_dec : EqDecision agent_stun_entry_type_t. Proof. solve_decision. Defined.
#[export] Instance entry_state_eq_dec : EqDecision agent_stun_entry_state_t. Proof. solve_decision. Defined.
#[export] Instance tcp_state_eq_dec : EqDecision tcp_state_t. Proof. solve_decision. Defined.
#[export] Instance tcp_mode_eq_dec : EqDecision juice_ice_tcp_mode_t. Proof. solve_decision. Defined.

(** Pointers into [local.candidates] and [remote.candidates] of the agent. *)
Inductive candidate_ptr := Local_candidate (i : Z) | Remote_candidate (i : Z).
#[export] Instance candidate_ptr_eq_dec : EqDecision candidate_ptr. Proof. solve_decision. Defined.

Abbreviation pair_t := (ice_candidate_pair_t candidate_ptr).

Record agent_stun_entry_t := Stun_entry {
  entry_type : agent_stun_entry_type_t; entry_state : agent_stun_entry_state_t; entry_mode : agent_mode_t; entry_pair : option Z;
  record : addr_record_t; entry_relayed : addr_record_t; entry_transaction_id : list Z;
  next_transmission : Z; retransmission_timeout : Z; retransmissions : Z; transaction_id_expired : bool; tcp_state : tcp_state_t;
  turn : option turn_map_t; relay_entry : option Z }.

#[export] Instance stun_entry_eta : RecordEta agent_stun_entry_t := fun e =>
  Stun_entry (entry_type e) (entry_state e) (entry_mode e) (entry_pair e) (record e) (entry_relayed e) (entry_transaction_id e)
    (next_transmission e) (retransmission_timeout e) (retransmissions e) (transaction_id_expired e) (tcp_state e) (turn e) (relay_entry e).

(** Of an array that [calloc] cleared. *)
Definition empty_entry : agent_stun_entry_t :=
  Stun_entry AGENT_STUN_ENTRY_TYPE_EMPTY AGENT_STUN_ENTRY_STATE_PENDING AGENT_MODE_UNKNOWN None zero_record zero_record (replicate 12 0)
    0 0 0 false TCP_STATE_DISCONNECTED None None.

(** [ordered_pairs]: all its [MAX_CANDIDATE_PAIRS_COUNT] elements. *)
Record juice_agent := Juice_agent {
  juice_state : juice_state_t; mode : agent_mode_t; ice_tcp_mode : juice_ice_tcp_mode_t;
  local_description : ice_description_t; remote_description : ice_description_t;
  candidate_pairs : list pair_t; ordered_pairs : list Z; selected_pair : option Z;
  entries : list agent_stun_entry_t; selected_entry : option Z;
  ice_tiebreaker : Z; pac_timestamp : Z; nomination_timestamp : Z; gathering_done : bool; conn_impl : bool }.

#[export] Instance juice_agent_eta : RecordEta juice_agent := fun a =>
  Juice_agent (juice_state a) (mode a) (ice_tcp_mode a) (local_description a) (remote_description a) (candidate_pairs a) (ordered_pairs a)
    (selected_pair a) (entries a) (selected_entry a) (ice_tiebreaker a) (pac_timestamp a) (nomination_timestamp a) (gathering_done a) (conn_impl a).

Definition candidate_pairs_count (a : juice_agent) : Z := zlen (candidate_pairs a).
Definition entries_count (a : juice_agent) : Z := zlen (entries a).

(** What the agent does to the outside. *)
Inductive event :=
| State_changed (s : juice_state_t)
| Gathering_done
| Candidate (sdp : list Z)
| Send_datagram (entry : Z) (data : list Z)
| Send_allocate (entry : Z) (method : Z)
| Tcp_connect (r : addr_record_t).

(** The agent, how often the clock, the random source and the network were asked so far, and the events. *)
Record world := World { agent : juice_agent; ticks : nat; draws : nat; sends : nat; trace : list event }.
#[export] Instance agent_world_eta : RecordEta world := fun w => World (agent w) (ticks w) (draws w) (sends w) (trace w).

(** ** Programs over the world *)

Definition M (X : Type) : Type := world -> option (X * world).
#[export] Instance M_ret : MRet M := fun X x w => Some (x, w).
#[export] Instance M_bind : MBind M := fun X Y f m w => match m w with Some (x, w') => f x w' | None => None end.

Definition gets {X} (f : juice_agent -> X) : M X := fun w => Some (f (agent w), w).
Definition modify (f : juice_agent -> juice_agent) : M unit := fun w => Some (tt, w <| agent := f (agent w) |>).
Definition lift {X} (o : option X) : M X := fun w => x ← o; Some (x, w).
Definition emit (e : event) : M unit := fun w => Some (tt, w <| trace := trace w ++ [e] |>).

(** [for (int i = 0; i < n; ++i)], with [continue] at the end of [body]. *)
Fixpoint for_m (n : nat) (i : Z) (body : Z -> M unit) : M unit :=
  match n with O => mret tt | S n => _ ← body i; for_m n (i + 1) body end.

(** The same where the body may leave the loop, or the function, with a value. *)
Fixpoint for_until {X} (n : nat) (i : Z) (body : Z -> M (option X)) : M (option X) :=
  match n with
  | O => mret None
  | S n => r ← body i; match r with Some x => mret (Some x) | None => for_until n (i + 1) body end
  end.

Definition for_entries (body : Z -> M unit) : M unit := n ← gets entries_count; for_m (Z.to_nat n) 0 body.
Definition for_pairs (body : Z -> M unit) : M unit := n ← gets candidate_pairs_count; for_m (Z.to_nat n) 0 body.

Definition get_entry (i : Z) : M agent_stun_entry_t := l ← gets entries; lift (rd l i).
Definition set_entry (i : Z) (e : agent_stun_entry_t) : M unit := l ← gets entries; l ← lift (wr l i e); modify (fun a => a <| entries := l |>).
Definition update_entry (i : Z) (f : agent_stun_entry_t -> agent_stun_entry_t) : M unit := e ← get_entry i; set_entry i (f e).
Definition get_pair (p : Z) : M pair_t := l ← gets candidate_pairs; lift (rd l p).
Definition set_pair (p : Z) (x : pair_t) : M unit := l ← gets candidate_pairs; l ← lift (wr l p x); modify (fun a => a <| candidate_pairs := l |>).
Definition update_pair (p : Z) (f : pair_t -> pair_t) : M unit := x ← get_pair p; set_pair p (f x).

(** An element of the array of candidates; those behind the used part are zero. *)
Definition candidate_at (d : ice_description_t) (i : Z) : option ice_candidate_t :=
  if (0 <=? i) && (i <? ICE_MAX_CANDIDATES_COUNT) then Some (default zero_candidate (candidates d !! Z.to_nat i)) else None.
Definition deref_candidate (a : juice_agent) (c : candidate_ptr) : option ice_candidate_t :=
  match c with
  | Local_candidate i => candidate_at (local_description a) i
  | Remote_candidate i => candidate_at (remote_description a) i
  end.
Definition get_candidate (c : option candidate_ptr) : M ice_candidate_t := c ← lift c; a ← gets id; lift (deref_candidate a c).

(** A loop with local variables [s]. *)
Fixpoint fold_m {S} (n : nat) (i : Z) (body : Z -> S -> M S) (s : S) : M S :=
  match n with O => mret s | Datatypes.S n => s ← body i s; fold_m n (i + 1) body s end.

(** The first entry with a property, as the loops over the entries look for it. *)
Definition first_entry (p : agent_stun_entry_t -> M bool) : M (option Z) :=
  n ← gets entries_count;
  for_until (Z.to_nat n) 0 (fun i => e ← get_entry i; b ← p e; mret (if (b : bool) then Some i else None)).

Definition remote_has_ufrag : M bool := a ← gets remote_description; u ← lift (string_at (ice_ufrag a)); mret (negb (bool_decide (u = []))).

(** The environment: the times the clock shows, the random 32-bit numbers, transaction identifiers and 64-bit numbers,
    what sending the k-th datagram returns, whether the k-th attempt to connect finds no socket yet, what uninitialised bytes and
    buffers hold, and the resolver of the operating system. *)
Class Environment := {
  clock : nat -> Z; random32 : nat -> Z; random_id : nat -> list Z; random64 : nat -> Z; send_result : nat -> Z; no_socket : nat -> bool;
  uninit : Z; junk : list Z; line_junk : list Z;
  getaddrinfo : list Z -> list Z -> hints_t -> option (list addrinfo_t);
  getnameinfo : addr_record_t -> option (list Z * list Z) }.

Section agent.
Context `{E : Environment} `{Hash}.

Definition current_timestamp : M Z := fun w => Some (clock (ticks w), w <| ticks := S (ticks w) |>).
Definition draw {X} (source : nat -> X) : M X := fun w => Some (source (draws w), w <| draws := S (draws w) |>).
(** Sending on the direct path or through a relay, which is not modelled. *)
Definition transmit (e : event) : M Z := fun w => Some (send_result (sends w), w <| sends := S (sends w) |> <| trace := trace w ++ [e] |>).

Definition agent_change_state (s : juice_state_t) : M unit :=
  old ← gets juice_state;
  if bool_decide (s = old) then mret tt else _ ← modify (fun a => a <| juice_state := s |>); emit (State_changed s).

Definition agent_conn_fail : M Z :=
  _ ← agent_change_state JUICE_STATE_FAILED; _ ← modify (fun a => a <| selected_entry := None |>); mret 0.

(** [agent_create], behind the copy of the configuration: [calloc] has cleared the rest. *)
Definition agent_create (random : Z -> Z) (tiebreaker : Z) : option juice_agent :=
  '(_, d) ← ice_create_local_description random;
  Some (Juice_agent JUICE_STATE_DISCONNECTED AGENT_MODE_UNKNOWN JUICE_ICE_TCP_MODE_NONE d zero_description [] (replicate (Z.to_nat MAX_CANDIDATE_PAIRS_COUNT) 0) None
    [] None tiebreaker 0 0 false false).

(** ** Transmission timers *)

Definition entry_is_tcp (e : agent_stun_entry_t) : M bool :=
  match entry_pair e with
  | None => mret false
  | Some p => x ← get_pair p; c ← get_candidate (remote x); mret (negb (bool_decide (transport c = ICE_CANDIDATE_TRANSPORT_UDP)))
  end.

(** [abs((int)timediff)] *)
Definition int_abs (x : Z) : option Z := let i := i32 x in if i =? -2147483648 then None else Some (Z.abs i).

(** The loop that finds a time slot, from the entry [other] on. *)
Fixpoint find_slot (fuel : nat) (es : list agent_stun_entry_t) (i : Z) (other : Z) (next : Z) : option Z :=
  match fuel with
  | O => None
  | S fuel =>
      if other =? zlen es then Some next else
      if negb (other =? i) then
        e ← rd es other;
        let other_transmission := next_transmission e in
        close ← (if other_transmission =? 0 then Some false
                 else d ← int_abs (next - other_transmission); Some (d <? STUN_PACING_TIME));
        if (close : bool) then find_slot fuel es i 0 (other_transmission + STUN_PACING_TIME)
        else find_slot fuel es i (other + 1) next
      else find_slot fuel es i (other + 1) next
  end.

(** Every entry can send the search back to the start once. *)
Definition slot_fuel (es : list agent_stun_entry_t) : nat := (S (length es) * S (length es))%nat.

Definition agent_arm_transmission (i : Z) (delay : Z) : M unit :=
  _ ← update_entry i (fun e => if negb (bool_decide (entry_state e = AGENT_STUN_ENTRY_STATE_SUCCEEDED_KEEPALIVE))
                               then e <| entry_state := AGENT_STUN_ENTRY_STATE_PENDING |> else e);
  now ← current_timestamp;
  _ ← update_entry i (fun e => e <| next_transmission := now + delay |>);
  e ← get_entry i;
  _ ← (if bool_decide (entry_state e = AGENT_STUN_ENTRY_STATE_PENDING) then
         tcp ← entry_is_tcp e;
         if (tcp : bool) then update_entry i (fun e => e <| retransmission_timeout := STUN_TCP_TIMEOUT |> <| retransmissions := 0 |>)
         else update_entry i (fun e => e <| retransmission_timeout := MIN_STUN_RETRANSMISSION_TIMEOUT |>
                <| retransmissions := if bool_decide (entry_type e = AGENT_STUN_ENTRY_TYPE_CHECK) then MAX_STUN_CHECK_RETRANSMISSION_COUNT else MAX_STUN_SERVER_RETRANSMISSION_COUNT |>)
       else mret tt);
  (* Find a time slot *)
  es ← gets entries;
  next ← lift (find_slot (slot_fuel es) es i 0 (now + delay));
  update_entry i (fun e => e <| next_transmission := next |>).

Definition agent_arm_keepalive (i : Z) : M unit :=
  _ ← update_entry i (fun e => if bool_decide (entry_state e = AGENT_STUN_ENTRY_STATE_SUCCEEDED)
                               then e <| entry_state := AGENT_STUN_ENTRY_STATE_SUCCEEDED_KEEPALIVE |> else e);
  e ← get_entry i;
  if negb (bool_decide (entry_state e = AGENT_STUN_ENTRY_STATE_SUCCEEDED_KEEPALIVE)) then mret tt else
  period ← (match entry_type e with
            | AGENT_STUN_ENTRY_TYPE_RELAY =>
                n ← gets (fun a => candidates_count (remote_description a)); mret (if 0 <? n then TURN_REFRESH_PERIOD else STUN_KEEPALIVE_PERIOD)
            | AGENT_STUN_ENTRY_TYPE_SERVER => mret STUN_KEEPALIVE_PERIOD
            | _ => r ← draw random32; mret (MIN_CONSENT_CHECK_PERIOD + r mod (MAX_CONSENT_CHECK_PERIOD - MIN_CONSENT_CHECK_PERIOD + 1))
            end);
  _ ← update_entry i (fun e => e <| transaction_id_expired := true |>);
  agent_arm_transmission i period.

Definition agent_update_pac_timer : M unit :=
  a ← gets id;
  if negb (pac_timestamp a =? 0) then mret tt else
  known ← remote_has_ufrag;
  if known && gathering_done a then now ← current_timestamp; modify (fun a => a <| pac_timestamp := now + ICE_PAC_TIMEOUT |>) else mret tt.

Definition agent_update_gathering_done : M unit :=
  pending ← first_entry (fun e => mret (negb (bool_decide (entry_type e = AGENT_STUN_ENTRY_TYPE_CHECK)) && bool_decide (entry_state e = AGENT_STUN_ENTRY_STATE_PENDING)));
  if bool_decide (pending <> None) then mret tt else
  done ← gets gathering_done;
  if (done : bool) then mret tt else
  _ ← modify (fun a => a <| local_description := (local_description a) <| finished := true |> |> <| gathering_done := true |>);
  _ ← agent_update_pac_timer;
  emit Gathering_done.

(** ** Candidate pairs *)

(** [while (--prev >= begin && ( *prev)->priority < priority) *(prev + 1) = *prev;] *)
Fixpoint order_shift (fuel : nat) (pairs : list pair_t) (ordered : list Z) (prev pr : Z) : option (list Z * Z) :=
  match fuel with
  | O => None
  | S fuel =>
      let prev := prev - 1 in
      if prev <? 0 then Some (ordered, prev) else
      p ← rd ordered prev; x ← rd pairs p;
      if pair_priority x <? pr then ordered ← wr ordered (prev + 1) p; order_shift fuel pairs ordered prev pr else Some (ordered, prev)
  end.

Definition order_step (pairs : list pair_t) (i : Z) (ordered : list Z) : option (list Z) :=
  x ← rd pairs i;
  '(ordered, prev) ← order_shift (S (Z.to_nat i)) pairs ordered i (pair_priority x);
  wr ordered (prev + 1) i.

Definition agent_update_ordered_pairs : M unit :=
  a ← gets id;
  l ← lift (for_up 0 (candidate_pairs_count a) (order_step (candidate_pairs a)) (ordered_pairs a));
  modify (fun a => a <| ordered_pairs := l |>).

Definition agent_update_candidate_pairs : M unit :=
  m ← gets mode;
  _ ← for_pairs (fun p => a ← gets id; x ← get_pair p; '(_, x) ← lift (ice_update_candidate_pair (deref_candidate a) x (bool_decide (m = AGENT_MODE_CONTROLLING))); set_pair p x);
  _ ← agent_update_ordered_pairs;
  (* Expire all transaction IDs for checks *)
  for_entries (fun i => update_entry i (fun e => if bool_decide (entry_type e = AGENT_STUN_ENTRY_TYPE_CHECK) then e <| transaction_id_expired := true |> else e)).

Definition agent_unfreeze_candidate_pair (p : Z) : M Z :=
  x ← get_pair p;
  if negb (bool_decide (state x = ICE_CANDIDATE_PAIR_STATE_FROZEN)) then mret 0 else
  i ← first_entry (fun e => mret (bool_decide (entry_pair e = Some p)));
  match i with
  | Some i =>
      _ ← update_pair p (fun x => x <| state := ICE_CANDIDATE_PAIR_STATE_PENDING |>);
      _ ← update_entry i (fun e => e <| entry_state := AGENT_STUN_ENTRY_STATE_PENDING |>);
      _ ← agent_arm_transmission i 0; mret 0
  | None => mret (-1)
  end.

Definition agent_register_entry_for_candidate_pair (p : Z) (relay : option Z) : M unit :=
  x ← get_pair p; c ← get_candidate (remote x); id ← draw random_id;
  l ← gets entries;
  if MAX_STUN_ENTRIES_COUNT <=? zlen l then lift None else
  modify (fun a => a <| entries := l ++ [empty_entry <| entry_type := AGENT_STUN_ENTRY_TYPE_CHECK |> <| entry_state := AGENT_STUN_ENTRY_STATE_IDLE |> <| entry_pair := Some p |>
                       <| record := resolved c |> <| relay_entry := relay |> <| entry_transaction_id := id |>] |>).

(** The pairs with a remote TCP candidate of the family. *)
Definition has_tcp_pair (family : Z) : M bool :=
  n ← gets candidate_pairs_count;
  r ← for_until (Z.to_nat n) 0 (fun p => x ← get_pair p; c ← get_candidate (remote x);
        mret (if negb (bool_decide (transport c = ICE_CANDIDATE_TRANSPORT_UDP)) && (sa_family (addr (resolved c)) =? family) then Some tt else None));
  mret (bool_decide (r <> None)).

(** The entry of the relay a local relayed candidate belongs to: [None] when there is none, which is an error. *)
Definition find_relay (l : option candidate_ptr) : M (option (option Z)) :=
  match l with
  | None => mret (Some None)
  | Some _ =>
      c ← get_candidate l;
      if negb (bool_decide (type c = ICE_CANDIDATE_TYPE_RELAYED)) then mret (Some None) else
      i ← first_entry (fun e => mret (bool_decide (entry_type e = AGENT_STUN_ENTRY_TYPE_RELAY) && addr_record_is_equal (entry_relayed e) (resolved c) true));
      mret (match i with Some i => Some (Some i) | None => None end)
  end.

(** Whether a pair with more priority than [pos] has succeeded. *)
Definition outranked (pos : Z) : M bool :=
  n ← gets candidate_pairs_count;
  r ← for_until (Z.to_nat n) 0 (fun i => o ← gets ordered_pairs; p ← lift (rd o i);
        if p =? pos then mret (Some false) else x ← get_pair p; mret (if bool_decide (state x = ICE_CANDIDATE_PAIR_STATE_SUCCEEDED) then Some true else None));
  mret (default false r).

(** The pair behind the last one in use, as the local variable [pair] before it is set. *)
Definition blank_pair : pair_t := Pair None None 0 ICE_CANDIDATE_PAIR_STATE_FROZEN false false 0.

(** Behind the checks on TCP candidates. *)
Definition add_pair (l : option candidate_ptr) (new : pair_t) : M Z :=
  pos ← gets candidate_pairs_count;
  _ ← modify (fun a => a <| candidate_pairs := candidate_pairs a ++ [new] |>);
  _ ← agent_update_ordered_pairs;
  n ← gets entries_count;
  if n =? MAX_STUN_ENTRIES_COUNT then mret (-1) else
  relay ← find_relay l;
  match relay with
  | None => mret (-1)
  | Some relay =>
      _ ← agent_register_entry_for_candidate_pair pos relay;
      m ← gets mode;
      low ← (if bool_decide (m = AGENT_MODE_CONTROLLING) then outranked pos else mret false);
      if (low : bool) then mret 0 else
      known ← remote_has_ufrag;
      sel ← gets selected_pair;
      nominated ← (match sel with None => mret false | Some s => x ← get_pair s; mret (nominated x) end);
      _ ← (if known && negb nominated then _ ← agent_unfreeze_candidate_pair pos; mret tt else mret tt);
      mret 0
  end.

Definition agent_add_candidate_pair (l : option candidate_ptr) (r : candidate_ptr) : M Z :=
  a ← gets id;
  '(ret, new) ← lift (ice_create_candidate_pair (deref_candidate a) l (Some r) (bool_decide (mode a = AGENT_MODE_CONTROLLING)) blank_pair);
  if negb (ret =? 0) then mret (-1) else
  if MAX_CANDIDATE_PAIRS_COUNT <=? candidate_pairs_count a then mret (-1) else
  c ← get_candidate (Some r);
  if negb (bool_decide (transport c = ICE_CANDIDATE_TRANSPORT_UDP)) then
    if negb (bool_decide (ice_tcp_mode a = JUICE_ICE_TCP_MODE_ACTIVE)) then mret 0 else
    if negb (bool_decide (transport c = ICE_CANDIDATE_TRANSPORT_TCP_TYPE_PASSIVE)) && negb (bool_decide (transport c = ICE_CANDIDATE_TRANSPORT_TCP_TYPE_SO)) then mret 0 else
    has ← has_tcp_pair (sa_family (addr (resolved c)));
    if (has : bool) then mret 0 else add_pair l new
  else add_pair l new.

Definition agent_add_candidate_pairs_for_remote (r : candidate_ptr) : M Z :=
  ret ← agent_add_candidate_pair None r;
  if negb (ret =? 0) then mret (-1) else
  (* However, we need still to differenciate local relayed candidates *)
  n ← gets (fun a => candidates_count (local_description a));
  res ← for_until (Z.to_nat n) 0 (fun i =>
    c ← get_candidate (Some (Local_candidate i));
    if bool_decide (type c = ICE_CANDIDATE_TYPE_RELAYED) then
      c' ← get_candidate (Some r);
      if sa_family (addr (resolved c)) =? sa_family (addr (resolved c')) then
        ret ← agent_add_candidate_pair (Some (Local_candidate i)) r; mret (if negb (ret =? 0) then Some (-1) else None)
      else mret None
    else mret None);
  mret (default 0 res).

(** ** Reflexive candidates *)

Definition agent_add_local_reflexive_candidate (ty : ice_candidate_type_t) (r : addr_record_t) : M Z :=
  if negb (bool_decide (ty = ICE_CANDIDATE_TYPE_SERVER_REFLEXIVE)) && negb (bool_decide (ty = ICE_CANDIDATE_TYPE_PEER_REFLEXIVE)) then mret (-1) else
  d ← gets local_description;
  if bool_decide (ice_find_candidate_from_addr d r (if sa_family (addr r) =? AF_INET6 then ICE_CANDIDATE_TYPE_UNKNOWN else ty) <> None) then mret 0 else
  '(ret, candidate) ← lift (ice_create_local_candidate getnameinfo ty 1 (candidates_count d) r ICE_CANDIDATE_TRANSPORT_UDP);
  if negb (ret =? 0) then mret (-1) else
  if bool_decide (type candidate = ICE_CANDIDATE_TYPE_PEER_REFLEXIVE) && (MAX_PEER_REFLEXIVE_CANDIDATES_COUNT <=? ice_candidates_count d ICE_CANDIDATE_TYPE_PEER_REFLEXIVE) then mret 0 else
  '(ret, candidate, d) ← lift (ice_add_candidate candidate d);
  _ ← modify (fun a => a <| local_description := d |>);
  if negb (ret =? 0) then mret (-1) else
  '(ret, buffer) ← lift (ice_generate_candidate_sdp candidate junk BUFFER_SIZE);
  if ret <? 0 then mret (-1) else
  _ ← (if negb (bool_decide (ty = ICE_CANDIDATE_TYPE_PEER_REFLEXIVE)) then sdp ← lift (string_at buffer); emit (Candidate sdp) else mret tt);
  mret 0.

Definition agent_add_remote_reflexive_candidate (ty : ice_candidate_type_t) (pr : Z) (r : addr_record_t) : M Z :=
  if negb (bool_decide (ty = ICE_CANDIDATE_TYPE_PEER_REFLEXIVE)) then mret (-1) else
  d ← gets remote_description;
  if bool_decide (ice_find_candidate_from_addr d r ICE_CANDIDATE_TYPE_UNKNOWN <> None) then mret 0 else
  n ← gets (fun a => candidates_count (local_description a));
  '(ret, candidate) ← lift (ice_create_local_candidate getnameinfo ty 1 n r ICE_CANDIDATE_TRANSPORT_UDP);
  if negb (ret =? 0) then mret (-1) else
  if MAX_PEER_REFLEXIVE_CANDIDATES_COUNT <=? ice_candidates_count d ICE_CANDIDATE_TYPE_PEER_REFLEXIVE then mret 0 else
  '(ret, _, d) ← lift (ice_add_candidate candidate d);
  _ ← modify (fun a => a <| remote_description := d |>);
  if negb (ret =? 0) then mret (-1) else
  let i := candidates_count d - 1 in
  c ← lift (rd (candidates d) i);
  cs ← lift (wr (candidates d) i (c <| Ice.priority := pr |>));
  _ ← modify (fun a => a <| remote_description := d <| candidates := cs |> |>);
  agent_add_candidate_pairs_for_remote (Remote_candidate i).

(** ** STUN Binding messages *)

(** [strchr(username, ':')]: what is before and behind it. *)
Fixpoint split_colon (s : list Z) : option (list Z * list Z) :=
  match s with
  | [] => None
  | c :: s => if c =? 58 then Some ([], s) else '(a, b) ← split_colon s; Some (c :: a, b)
  end.

(** The fragments of a request. *)
Definition check_username (a : juice_agent) (m : stun_message_t) : option bool :=
  u ← string_at (username (credentials m));
  if STUN_MAX_USERNAME_LEN <=? zlen u then None else
  match split_colon u with
  | None => Some false
  | Some (lu, ru) =>
      own ← string_at (ice_ufrag (local_description a)); peer ← string_at (ice_ufrag (remote_description a));
      if negb (streq lu own) then Some false else Some (bool_decide (peer = []) || streq ru peer)
  end.

Definition agent_verify_stun_binding (buf : list Z) (size : Z) (m : stun_message_t) : M Z :=
  if negb (msg_method m =? STUN_METHOD_BINDING) then mret (-1) else
  if (msg_class m =? STUN_CLASS_INDICATION) || (msg_class m =? STUN_CLASS_RESP_ERROR) then mret 0 else
  if negb (has_integrity m) then mret (-1) else
  a ← gets id;
  ok ← (if msg_class m =? STUN_CLASS_REQUEST then lift (check_username a m) else mret true);
  if negb ok then mret (-1) else
  let password := if msg_class m =? STUN_CLASS_REQUEST then ice_pwd (local_description a) else ice_pwd (remote_description a) in
  p ← lift (string_at password);
  if bool_decide (p = []) then mret (-1) else
  valid ← lift (stun_check_integrity buf size m (Some password));
  mret (if (valid : bool) then 0 else -1).

(** The index of the local candidate of a pair, 0 without one. *)
Definition local_index (x : option pair_t) : Z :=
  match x with Some x => match local x with Some (Local_candidate i) => i | _ => 0 end | None => 0 end.

Definition get_entry_pair (e : agent_stun_entry_t) : M (option pair_t) :=
  match entry_pair e with None => mret None | Some p => x ← get_pair p; mret (Some x) end.

(** The message of a check, its password, and whether there is one to send. *)
Definition binding_message (a : juice_agent) (e : agent_stun_entry_t) (x : option pair_t) (cls code : Z) (mapped_ : option addr_record_t) (m : stun_message_t)
    : option (option (stun_message_t * option (list Z))) :=
  if negb (bool_decide (entry_type e = AGENT_STUN_ENTRY_TYPE_CHECK)) then Some (Some (m, None)) else
  if cls =? STUN_CLASS_REQUEST then
    ru ← string_at (ice_ufrag (remote_description a)); rp ← string_at (ice_pwd (remote_description a)); lu ← string_at (ice_ufrag (local_description a));
    if bool_decide (ru = []) || bool_decide (rp = []) then Some None else
    '(_, user) ← snprintf_to (username (credentials m)) 0 STUN_MAX_USERNAME_LEN (ru ++ [58] ++ lu);
    Some (Some (m <| credentials := (credentials m) <| username := user |> |>
                  <| ice_controlling := if bool_decide (mode a = AGENT_MODE_CONTROLLING) then ice_tiebreaker a else 0 |>
                  <| ice_controlled := if bool_decide (mode a = AGENT_MODE_CONTROLLED) then ice_tiebreaker a else 0 |>
                  <| Stun.priority := ice_compute_priority ICE_CANDIDATE_TYPE_PEER_REFLEXIVE (sa_family (addr (record e))) 1 (local_index x) ICE_CANDIDATE_TRANSPORT_UDP |>
                  <| use_candidate := bool_decide (mode a = AGENT_MODE_CONTROLLING) && match x with Some x => nomination_requested x && negb (nominated x) | None => false end |>,
                Some (ice_pwd (remote_description a))))
  else if (cls =? STUN_CLASS_RESP_SUCCESS) || (cls =? STUN_CLASS_RESP_ERROR) then
    Some (Some (match mapped_ with Some r => m <| error_code := code |> <| mapped := r |> | None => m <| error_code := code |> end, Some (ice_pwd (local_description a))))
  else Some (Some (m, None)).

Definition agent_send_stun_binding (i : Z) (cls code : Z) (tid : option (list Z)) (mapped_ : option addr_record_t) : M Z :=
  let m := zero_message <| msg_class := cls |> <| msg_method := STUN_METHOD_BINDING |> in
  e ← get_entry i;
  match tid with
  | None => if (cls =? STUN_CLASS_RESP_SUCCESS) || (cls =? STUN_CLASS_RESP_ERROR) then mret None
            else if cls =? STUN_CLASS_INDICATION then id ← draw random_id; mret (Some id)
            else mret (Some (entry_transaction_id e))
  | Some id => mret (Some id)
  end ≫= fun id =>
  match id with
  | None => mret (-1)
  | Some id =>
      a ← gets Datatypes.id; x ← get_entry_pair e;
      r ← lift (binding_message a e x cls code mapped_ (m <| Stun.transaction_id := id |>));
      match r with
      | None => mret 0
      | Some (m, password) =>
          _ ← (if bool_decide (entry_type e = AGENT_STUN_ENTRY_TYPE_CHECK) && (cls =? STUN_CLASS_REQUEST) then update_entry i (fun e => e <| entry_mode := mode a |>) else mret tt);
          '(size, buffer) ← lift (stun_write junk BUFFER_SIZE uninit m password);
          if size <=? 0 then mret (-1) else
          ret ← transmit (Send_datagram i (take (Z.to_nat size) buffer));
          mret (if ret <? 0 then -1 else 0)
      end
  end.

Definition reply (i : Z) (m : stun_message_t) (code : Z) : M Z := agent_send_stun_binding i STUN_CLASS_RESP_ERROR code (Some (Stun.transaction_id m)) None.

(** Detecting and repairing role conflicts: whether there was one. *)
Definition repair_role_conflict (i : Z) (m : stun_message_t) : M bool :=
  a ← gets id;
  if bool_decide (mode a = AGENT_MODE_CONTROLLING) && negb (ice_controlling m =? 0) then
    (if ice_controlling m <=? ice_tiebreaker a then _ ← reply i m 487; mret true
     else _ ← modify (fun a => a <| mode := AGENT_MODE_CONTROLLED |>); _ ← agent_update_candidate_pairs; mret true)
  else if bool_decide (mode a = AGENT_MODE_CONTROLLED) && negb (ice_controlled m =? 0) then
    (if ice_controlling m <=? ice_tiebreaker a then _ ← modify (fun a => a <| mode := AGENT_MODE_CONTROLLING |>); _ ← agent_update_candidate_pairs; mret true
     else _ ← reply i m 487; mret true)
  else mret false.

Definition process_request (i : Z) (m : stun_message_t) (src : addr_record_t) : M Z :=
  e ← get_entry i;
  if negb (bool_decide (entry_type e = AGENT_STUN_ENTRY_TYPE_CHECK)) then mret (-1) else
  if ice_controlling m =? ice_controlled m then _ ← reply i m 400; mret (-1) else
  conflict ← repair_role_conflict i m;
  if (conflict : bool) then mret 0 else
  if use_candidate m && (ice_controlling m =? 0) then _ ← reply i m 400; mret (-1) else
  p ← lift (entry_pair e);
  _ ← (if use_candidate m then
         update_pair p (fun x => if bool_decide (state x = ICE_CANDIDATE_PAIR_STATE_SUCCEEDED) then x <| nominated := true |>
                                 else if negb (nomination_requested x) then x <| nomination_requested := true |> else x)
       else mret tt);
  ret ← agent_send_stun_binding i STUN_CLASS_RESP_SUCCESS 0 (Some (Stun.transaction_id m)) (Some src);
  if negb (ret =? 0) then mret (-1) else
  x ← get_pair p; known ← remote_has_ufrag;
  _ ← (if negb (bool_decide (state x = ICE_CANDIDATE_PAIR_STATE_SUCCEEDED)) && known then
         _ ← update_pair p (fun x => x <| state := ICE_CANDIDATE_PAIR_STATE_PENDING |>);
         _ ← update_entry i (fun e => e <| entry_state := AGENT_STUN_ENTRY_STATE_PENDING |>);
         agent_arm_transmission i STUN_PACING_TIME
       else mret tt);
  mret 0.

Definition entry_fails (i : Z) : M unit :=
  update_entry i (fun e => e <| entry_state := AGENT_STUN_ENTRY_STATE_FAILED |> <| next_transmission := 0 |>).

(** A check that was answered. *)
Definition check_succeeded (i : Z) (m : stun_message_t) (src : addr_record_t) : M Z :=
  e ← get_entry i;
  match entry_pair e with
  | None => mret (-1)
  | Some p =>
      x ← get_pair p;
      if negb (bool_decide (state x = ICE_CANDIDATE_PAIR_STATE_SUCCEEDED)) && negb (addr_record_is_equal src (record e) true) then
        _ ← entry_fails i; _ ← update_pair p (fun x => x <| state := ICE_CANDIDATE_PAIR_STATE_FAILED |>); mret 0
      else
        _ ← update_pair p (fun x => if negb (bool_decide (state x = ICE_CANDIDATE_PAIR_STATE_SUCCEEDED)) then x <| state := ICE_CANDIDATE_PAIR_STATE_SUCCEEDED |> else x);
        d ← gets local_description;
        _ ← update_pair p (fun x => match local x with
              | None => if negb (len (mapped m) =? 0) then x <| local := Local_candidate <$> ice_find_candidate_from_addr d (mapped m) ICE_CANDIDATE_TYPE_UNKNOWN |> else x
              | Some _ => x end);
        now ← current_timestamp;
        _ ← update_pair p (fun x => x <| consent_expiry := now + CONSENT_TIMEOUT |>);
        _ ← update_pair p (fun x => if nomination_requested x then x <| nominated := true |> else x);
        mret 0
  end.

Definition process_success (i : Z) (m : stun_message_t) (src : addr_record_t) (relayed_ : option addr_record_t) : M Z :=
  _ ← update_entry i (fun e => if negb (bool_decide (entry_state e = AGENT_STUN_ENTRY_STATE_SUCCEEDED_KEEPALIVE))
                               then e <| entry_state := AGENT_STUN_ENTRY_STATE_SUCCEEDED |> <| next_transmission := 0 |> else e);
  sel ← gets selected_pair;
  final ← (match sel with None => mret false | Some s => x ← get_pair s; mret (nominated x) end);
  _ ← (if negb final then
         _ ← update_entry i (fun e => e <| entry_state := AGENT_STUN_ENTRY_STATE_SUCCEEDED_KEEPALIVE |>); agent_arm_keepalive i
       else mret tt);
  e ← get_entry i;
  _ ← (if negb (len (mapped m) =? 0) && bool_decide (relayed_ = None) then
         _ ← agent_add_local_reflexive_candidate (if bool_decide (entry_type e = AGENT_STUN_ENTRY_TYPE_CHECK) then ICE_CANDIDATE_TYPE_PEER_REFLEXIVE else ICE_CANDIDATE_TYPE_SERVER_REFLEXIVE) (mapped m);
         mret tt
       else mret tt);
  match entry_type e with
  | AGENT_STUN_ENTRY_TYPE_CHECK => check_succeeded i m src
  | AGENT_STUN_ENTRY_TYPE_SERVER => _ ← agent_update_gathering_done; mret 0
  | _ => mret 0
  end.

Definition process_error (i : Z) (m : stun_message_t) : M Z :=
  e ← get_entry i;
  match entry_type e with
  | AGENT_STUN_ENTRY_TYPE_CHECK =>
      if error_code m =? 487 then
        md ← gets mode;
        if bool_decide (entry_mode e = md) then
          tb ← draw random64;
          _ ← modify (fun a => a <| mode := if bool_decide (entry_mode e = AGENT_MODE_CONTROLLING) then AGENT_MODE_CONTROLLED else AGENT_MODE_CONTROLLING |> <| ice_tiebreaker := tb |>);
          _ ← agent_update_candidate_pairs;
          _ ← (if negb (bool_decide (entry_state e = AGENT_STUN_ENTRY_STATE_IDLE)) then
                 _ ← update_entry i (fun e => e <| entry_state := AGENT_STUN_ENTRY_STATE_PENDING |>); agent_arm_transmission i 0
               else mret tt);
          mret 0
        else mret 0
      else
        _ ← entry_fails i;
        _ ← (match entry_pair e with Some p => update_pair p (fun x => x <| state := ICE_CANDIDATE_PAIR_STATE_FAILED |>) | None => mret tt end);
        mret 0
  | AGENT_STUN_ENTRY_TYPE_SERVER =>
      _ ← update_entry i (fun e => e <| entry_state := AGENT_STUN_ENTRY_STATE_FAILED |>); _ ← agent_update_gathering_done; mret 0
  | _ => mret 0
  end.

Definition agent_process_stun_binding (m : stun_message_t) (i : Z) (src : addr_record_t) (relayed_ : option addr_record_t) : M Z :=
  if msg_class m =? STUN_CLASS_REQUEST then process_request i m src
  else if msg_class m =? STUN_CLASS_RESP_SUCCESS then process_success i m src relayed_
  else if msg_class m =? STUN_CLASS_RESP_ERROR then process_error i m
  else if msg_class m =? STUN_CLASS_INDICATION then mret 0 else mret (-1).

(** ** TCP connections *)

Definition pair_fails (p : Z) : M unit := update_pair p (fun x => x <| state := ICE_CANDIDATE_PAIR_STATE_FAILED |>).
Definition entry_pair_fails (i : Z) : M unit := e ← get_entry i; match entry_pair e with Some p => pair_fails p | None => mret tt end.

Definition agent_conn_tcp_state (dst : addr_record_t) (st : tcp_state_t) : M Z :=
  i ← first_entry (fun e => tcp ← entry_is_tcp e; mret (tcp && addr_record_is_equal (record e) dst true));
  match i with
  | None => mret (-1)
  | Some i =>
      _ ← update_entry i (fun e => e <| tcp_state := st |>);
      _ ← match st with
          | TCP_STATE_CONNECTED => agent_arm_transmission i 0
          | TCP_STATE_DISCONNECTED | TCP_STATE_FAILED => _ ← entry_fails i; entry_pair_fails i
          | TCP_STATE_CONNECTING => mret tt
          end;
      mret 0
  end.

(** [conn_poll_tcp_connect]: with a socket there already nothing happens. *)
Definition conn_tcp_connect (dst : addr_record_t) : M unit :=
  none ← draw no_socket;
  if (none : bool) then _ ← emit (Tcp_connect dst); _ ← agent_conn_tcp_state dst TCP_STATE_CONNECTING; mret tt else mret tt.

(** ** Bookkeeping *)

(** The request of an entry that is due: a TURN request of a relay, a Binding request otherwise. *)
Definition send_request (i : Z) (method : Z) : M Z :=
  e ← get_entry i;
  match entry_type e with
  | AGENT_STUN_ENTRY_TYPE_RELAY => transmit (Send_allocate i method)
  | _ => agent_send_stun_binding i STUN_CLASS_REQUEST 0 None None
  end.

Definition new_transaction_id (i : Z) : M unit :=
  id ← draw random_id; update_entry i (fun e => e <| entry_transaction_id := id |> <| transaction_id_expired := false |>).

Definition count_transmission (now : Z) (e : agent_stun_entry_t) : agent_stun_entry_t :=
  let r := retransmissions e - 1 in
  if r <? 0 then e <| retransmissions := r |> <| next_transmission := now + LAST_STUN_RETRANSMISSION_TIMEOUT |>
  else e <| retransmissions := r |> <| next_transmission := now + retransmission_timeout e |> <| retransmission_timeout := retransmission_timeout e * 2 |>.

(** Whether the path of an entry is ready; a TCP connection is attempted first. *)
Definition path_ready (i : Z) : M bool :=
  e ← get_entry i;
  tcp ← entry_is_tcp e;
  if (tcp : bool) then
    _ ← (if bool_decide (tcp_state e = TCP_STATE_DISCONNECTED) then conn_tcp_connect (record e) else mret tt);
    e ← get_entry i; mret (bool_decide (tcp_state e = TCP_STATE_CONNECTED))
  else mret true.

Definition try_transmission (now i : Z) : M bool :=
  e ← get_entry i;
  if retransmissions e <? 0 then mret false else
  _ ← (if transaction_id_expired e then new_transaction_id i else mret tt);
  ret ← send_request i STUN_METHOD_ALLOCATE;
  if ret <? 0 then mret false else _ ← update_entry i (count_transmission now); mret true.

(** Failure sending or end of retransmissions *)
Definition entry_gives_up (i : Z) : M unit :=
  _ ← entry_fails i;
  e ← get_entry i;
  match entry_type e with
  | AGENT_STUN_ENTRY_TYPE_RELAY | AGENT_STUN_ENTRY_TYPE_SERVER => agent_update_gathering_done
  | _ => entry_pair_fails i
  end.

Definition pending_transmission (now i : Z) : M unit :=
  e ← get_entry i;
  if now <? next_transmission e then mret tt else
  ready ← path_ready i;
  if negb ready then mret tt else
  sent ← try_transmission now i;
  if (sent : bool) then mret tt else entry_gives_up i.

Definition keepalive_transmission (now i : Z) : M unit :=
  e ← get_entry i;
  x ← get_entry_pair e;
  match x with
  | Some x => mret (consent_expiry x <=? now)
  | None => mret false
  end ≫= fun expired =>
  if (expired : bool) then _ ← entry_pair_fails i; entry_fails i else
  if now <? next_transmission e then mret tt else
  _ ← new_transaction_id i;
  ret ← send_request i STUN_METHOD_REFRESH;
  if ret <? 0 then agent_arm_transmission i STUN_KEEPALIVE_PERIOD else agent_arm_keepalive i.

Definition entry_transmission (now i : Z) : M unit :=
  e ← get_entry i;
  match entry_state e with
  | AGENT_STUN_ENTRY_STATE_PENDING => pending_transmission now i
  | AGENT_STUN_ENTRY_STATE_SUCCEEDED_KEEPALIVE => keepalive_transmission now i
  | _ => update_entry i (fun e => e <| next_transmission := 0 |>)
  end.

(** The local variables [pending_count], [nominated_pair] and [selected_pair]. *)
Record scan_t := Scan { pending_count : Z; nominated_pair : option Z; best_pair : option Z }.

Definition or_first {X} (o : option X) (x : X) : option X := match o with Some _ => o | None => Some x end.

Definition scan_pair (k : Z) (s : scan_t) : M scan_t :=
  a ← gets id;
  p ← lift (rd (ordered_pairs a) k);
  x ← get_pair p;
  if nominated x then
    mret (if bool_decide (nominated_pair s = None) then Scan (pending_count s) (Some p) (Some p) else s)
  else match state x with
  | ICE_CANDIDATE_PAIR_STATE_SUCCEEDED => mret (Scan (pending_count s) (nominated_pair s) (or_first (best_pair s) p))
  | ICE_CANDIDATE_PAIR_STATE_PENDING =>
      if bool_decide (mode a = AGENT_MODE_CONTROLLING) && bool_decide (best_pair s <> None)
      then _ ← update_pair p (fun x => x <| state := ICE_CANDIDATE_PAIR_STATE_FROZEN |>); mret s
      else mret (Scan (pending_count s + 1) (nominated_pair s) (best_pair s))
  | _ => mret s
  end.

(** Cancelling the checks of other pairs once the controlling agent has nominated one. *)
Definition freeze_pair (n : Z) (k : Z) : M unit :=
  o ← gets ordered_pairs; p ← lift (rd o k); x ← get_pair p;
  if negb (p =? n) && bool_decide (state x = ICE_CANDIDATE_PAIR_STATE_PENDING)
  then update_pair p (fun x => x <| state := ICE_CANDIDATE_PAIR_STATE_FROZEN |>) else mret tt.

Definition scan_pairs : M scan_t :=
  n ← gets candidate_pairs_count;
  s ← fold_m (Z.to_nat n) 0 scan_pair (Scan 0 None None);
  m ← gets mode;
  match nominated_pair s with
  | Some p => if bool_decide (m = AGENT_MODE_CONTROLLING) then _ ← for_pairs (freeze_pair p); mret (Scan 0 (Some p) (best_pair s)) else mret s
  | None => mret s
  end.

(** Cancel entries of frozen pairs *)
Definition cancel_entry (i : Z) : M unit :=
  e ← get_entry i;
  x ← get_entry_pair e;
  match x with
  | Some x =>
      if bool_decide (state x = ICE_CANDIDATE_PAIR_STATE_FROZEN) && negb (bool_decide (entry_state e = AGENT_STUN_ENTRY_STATE_IDLE))
         && negb (bool_decide (entry_state e = AGENT_STUN_ENTRY_STATE_CANCELLED))
      then set_entry i (e <| entry_state := AGENT_STUN_ENTRY_STATE_CANCELLED |> <| next_transmission := 0 |>) else mret tt
  | None => mret tt
  end.

Definition entry_of_pair (p : Z) : M (option Z) := first_entry (fun e => mret (bool_decide (entry_pair e = Some p))).

Definition select_pair (now p : Z) : M unit :=
  sel ← gets selected_pair;
  if bool_decide (sel = Some p) then mret tt else
  _ ← modify (fun a => a <| selected_pair := Some p |> <| nomination_timestamp := if bool_decide (mode a = AGENT_MODE_CONTROLLING) then now + NOMINATION_TIMEOUT else nomination_timestamp a |>);
  i ← entry_of_pair p;
  match i with Some i => modify (fun a => a <| selected_entry := Some i |>) | None => mret tt end.

(** Keepalives for an entry that has none; whether it had none. *)
Definition enable_keepalive (i : Z) : M bool :=
  e ← get_entry i;
  if bool_decide (entry_state e = AGENT_STUN_ENTRY_STATE_SUCCEEDED_KEEPALIVE) then mret false
  else _ ← update_entry i (fun e => e <| entry_state := AGENT_STUN_ENTRY_STATE_SUCCEEDED_KEEPALIVE |>); _ ← agent_arm_keepalive i; mret true.

Definition complete (p : Z) : M unit :=
  s ← gets juice_state;
  _ ← (if bool_decide (s = JUICE_STATE_CONNECTING) then agent_change_state JUICE_STATE_CONNECTED else mret tt);
  _ ← agent_change_state JUICE_STATE_COMPLETED;
  nominated_entry ← entry_of_pair p;
  relay ← match nominated_entry with Some i => e ← get_entry i; mret (relay_entry e) | None => mret None end;
  _ ← match nominated_entry with
      | Some i => changed ← enable_keepalive i; if (changed : bool) then modify (fun a => a <| selected_entry := Some i |>) else mret tt
      | None => mret tt
      end;
  _ ← match relay with Some r => _ ← enable_keepalive r; mret tt | None => mret tt end;
  for_entries (fun i => update_entry i (fun e =>
    if negb (bool_decide (Some i = nominated_entry)) && negb (bool_decide (Some i = relay)) && bool_decide (entry_state e = AGENT_STUN_ENTRY_STATE_SUCCEEDED_KEEPALIVE)
    then e <| entry_state := AGENT_STUN_ENTRY_STATE_SUCCEEDED |> else e)).

(** Requests the nomination of the selected pair, or lets the timer run; the next timestamp. *)
Definition connected (now p pending next : Z) : M Z :=
  _ ← agent_change_state JUICE_STATE_CONNECTED;
  a ← gets id;
  x ← get_pair p;
  if bool_decide (mode a = AGENT_MODE_CONTROLLING) && negb (nomination_requested x) then
    if (pending =? 0) || (negb (nomination_timestamp a =? 0) && (nomination_timestamp a <=? now)) then
      _ ← update_pair p (fun x => x <| nomination_requested := true |>);
      i ← entry_of_pair p;
      _ ← match i with
          | Some i => _ ← update_entry i (fun e => e <| entry_state := AGENT_STUN_ENTRY_STATE_PENDING |> <| transaction_id_expired := true |>); agent_arm_transmission i 0
          | None => mret tt
          end;
      mret next
    else mret (if negb (nomination_timestamp a =? 0) && (nomination_timestamp a <? next) then nomination_timestamp a else next)
  else mret next.

(** The end of the last loop: the entry's transmission, then the consent of the selected pair, which is a null pointer without one. *)
Definition next_deadline (sel : option Z) (i : Z) (next : Z) : M Z :=
  e ← get_entry i;
  let next := if negb (next_transmission e =? 0) && (next_transmission e <? next) then next_transmission e else next in
  x ← get_entry_pair e;
  match x with
  | Some x =>
      if bool_decide (entry_state e = AGENT_STUN_ENTRY_STATE_SUCCEEDED_KEEPALIVE) && (consent_expiry x <? next)
      then s ← lift sel; y ← get_pair s; mret (consent_expiry y) else mret next
  | None => mret next
  end.

Definition nominated_failed (s : scan_t) : M bool :=
  match nominated_pair s with None => mret false | Some p => x ← get_pair p; mret (bool_decide (state x = ICE_CANDIDATE_PAIR_STATE_FAILED)) end.

(** What follows from the scan: the next timestamp, or [None] when the agent has failed. *)
Definition conclude (now next : Z) (s : scan_t) : M (option Z) :=
  match best_pair s with
  | Some p =>
      _ ← select_pair now p;
      match nominated_pair s with
      | Some n => _ ← complete n; mret (Some next)
      | None => next ← connected now p (pending_count s) next; mret (Some next)
      end
  | None =>
      pac ← gets pac_timestamp;
      if (pending_count s =? 0) && negb (pac =? 0) then
        (if pac <=? now then _ ← agent_conn_fail; mret None
         else mret (Some (if pac <? next then pac else next)))
      else mret (Some next)
  end.

(** The result is always 0; this is [*next_timestamp]. *)
Definition agent_bookkeeping : M Z :=
  now ← current_timestamp;
  let next := now + 6000000 in
  s ← gets juice_state;
  if bool_decide (s = JUICE_STATE_DISCONNECTED) || bool_decide (s = JUICE_STATE_GATHERING) then mret next else
  _ ← for_entries (entry_transmission now);
  s ← scan_pairs;
  _ ← for_entries cancel_entry;
  failed ← nominated_failed s;
  if (failed : bool) then _ ← agent_conn_fail; mret next else
  r ← conclude now next s;
  match r with
  | None => mret next
  | Some next => n ← gets entries_count; fold_m (Z.to_nat n) 0 (next_deadline (best_pair s)) next
  end.

Definition agent_conn_update : M Z := agent_bookkeeping.

(** ** The application's calls *)

Definition JUICE_ERR_SUCCESS : Z := 0.
Definition JUICE_ERR_INVALID : Z := -1.
Definition JUICE_ERR_FAILED : Z := -2.
Definition JUICE_ERR_IGNORED : Z := -4.

Definition agent_set_remote_description (sdp : list Z) : M Z :=
  '(ret, remote) ← lift (ice_parse_sdp getaddrinfo sdp line_junk);
  if ret <? 0 then mret JUICE_ERR_INVALID else
  old ← gets remote_description;
  known ← remote_has_ufrag;
  if (known : bool) then
    ou ← lift (string_at (ice_ufrag old)); op ← lift (string_at (ice_pwd old));
    u ← lift (string_at (ice_ufrag remote)); p ← lift (string_at (ice_pwd remote));
    mret (if streq ou u && streq op p then JUICE_ERR_SUCCESS else JUICE_ERR_FAILED)
  else
    _ ← modify (fun a => a <| remote_description := remote |>);
    _ ← agent_update_pac_timer;
    _ ← modify (fun a => a <| mode :=
          if ice_lite remote && negb (bool_decide (mode a = AGENT_MODE_CONTROLLING)) then AGENT_MODE_CONTROLLING
          else if bool_decide (mode a = AGENT_MODE_UNKNOWN) then AGENT_MODE_CONTROLLED else mode a |>);
    _ ← for_pairs (fun p => _ ← agent_unfreeze_candidate_pair p; mret tt);
    n ← gets (fun a => candidates_count (remote_description a));
    _ ← for_m (Z.to_nat n) 0 (fun i => _ ← agent_add_candidate_pairs_for_remote (Remote_candidate i); mret tt);
    mret JUICE_ERR_SUCCESS.

Definition agent_add_remote_candidate (sdp : list Z) : M Z :=
  d ← gets remote_description;
  if finished d then mret JUICE_ERR_FAILED else
  '(ret, candidate) ← lift (ice_parse_candidate_sdp getaddrinfo sdp zero_candidate);
  if ret <? 0 then mret (if ret =? ICE_PARSE_IGNORED then JUICE_ERR_IGNORED else JUICE_ERR_INVALID) else
  '(ret, _, d) ← lift (ice_add_candidate candidate d);
  if negb (ret =? 0) then mret JUICE_ERR_FAILED else
  _ ← modify (fun a => a <| remote_description := d |>);
  ret ← agent_add_candidate_pairs_for_remote (Remote_candidate (candidates_count d - 1));
  mret (if negb (ret =? 0) then JUICE_ERR_FAILED else JUICE_ERR_SUCCESS).

Definition agent_set_local_ice_attributes (ufrag pwd : list Z) : M Z :=
  started ← gets conn_impl;
  if (started : bool) then mret JUICE_ERR_FAILED else
  bad ← (if (zlen ufrag <? 4) || (zlen pwd <? 22) then mret true
         else u ← lift (ice_is_valid_string (Some ufrag)); if negb u then mret true
         else p ← lift (ice_is_valid_string (Some pwd)); mret (negb p));
  if (bad : bool) then mret JUICE_ERR_INVALID else
  d ← gets local_description;
  '(_, u) ← lift (snprintf_to (ice_ufrag d) 0 257 ufrag);
  '(_, p) ← lift (snprintf_to (ice_pwd d) 0 257 pwd);
  _ ← modify (fun a => a <| local_description := d <| ice_ufrag := u |> <| ice_pwd := p |> |>);
  mret JUICE_ERR_SUCCESS.

Definition agent_set_remote_gathering_done : M Z :=
  _ ← modify (fun a => a <| remote_description := (remote_description a) <| finished := true |> |>); mret 0.

Definition agent_set_ice_tcp_mode (m : juice_ice_tcp_mode_t) : M Z :=
  started ← gets conn_impl;
  if (started : bool) then mret JUICE_ERR_FAILED else _ ← modify (fun a => a <| ice_tcp_mode := m |>); mret JUICE_ERR_SUCCESS.

Definition agent_get_state : M juice_state_t := gets juice_state.

(** The result, and what it stores. *)
Definition agent_get_selected_candidate_pair : M (Z * option (ice_candidate_t * ice_candidate_t)) :=
  sel ← gets selected_pair;
  match sel with
  | None => mret (-1, None)
  | Some p =>
      x ← get_pair p;
      l ← get_candidate (Some (default (Local_candidate 0) (local x)));
      r ← get_candidate (remote x);
      mret (0, Some (l, r))
  end.

(** ** Finding entries *)

Definition pair_is_relayed (x : pair_t) : M bool :=
  match local x with
  | None => mret false
  | Some c => c ← get_candidate (Some c); mret (bool_decide (type c = ICE_CANDIDATE_TYPE_RELAYED))
  end.

Definition entry_is_relayed (e : agent_stun_entry_t) : M bool :=
  x ← get_entry_pair e; match x with None => mret false | Some x => pair_is_relayed x end.

(** [transaction_id]: that of a response.  The maps of the relays mark it as answered. *)
Definition matches_transaction (tid : list Z) (i : Z) : M bool :=
  e ← get_entry i;
  if bool_decide (tid = entry_transaction_id e) then mret true else
  match turn e with
  | None => mret false
  | Some t => '(found, t) ← lift (turn_retrieve_transaction_id t tid); _ ← set_entry i (e <| turn := Some t |>); mret (bool_decide (found <> None))
  end.

Definition agent_find_entry_from_transaction_id (tid : list Z) : M (option Z) :=
  n ← gets entries_count;
  for_until (Z.to_nat n) 0 (fun i => b ← matches_transaction tid i; mret (if (b : bool) then Some i else None)).

(** Whether an entry is the one of the address [record], on the relayed address [relayed] if there is one. *)
Definition entry_matches (r : addr_record_t) (relayed_ : option addr_record_t) (e : agent_stun_entry_t) : M bool :=
  is_relayed ← entry_is_relayed e;
  match relayed_ with
  | Some rel =>
      if negb is_relayed then mret false else
      x ← get_entry_pair e; x ← lift x; c ← get_candidate (local x);
      mret (addr_record_is_equal (resolved c) rel true && addr_record_is_equal (record e) r true)
  | None => mret (negb is_relayed && addr_record_is_equal (record e) r true)
  end.

(** The first pair by priority that is not relayed and whose remote address this is. *)
Definition matching_pair (r : addr_record_t) : M (option Z) :=
  n ← gets candidate_pairs_count;
  for_until (Z.to_nat n) 0 (fun k =>
    o ← gets ordered_pairs; p ← lift (rd o k); x ← get_pair p;
    is_relayed ← pair_is_relayed x;
    if (is_relayed : bool) then mret None else
    c ← get_candidate (remote x); mret (if addr_record_is_equal (resolved c) r true then Some p else None)).

(** As an optimization, the nominated entry is tried first. *)
Definition selected_matches (r : addr_record_t) (relayed_ : option addr_record_t) : M (option Z) :=
  sel ← gets selected_entry;
  match sel with
  | None => mret None
  | Some i =>
      e ← get_entry i; x ← get_entry_pair e;
      match x with
      | Some x => if nominated x then b ← entry_matches r relayed_ e; mret (if (b : bool) then Some i else None) else mret None
      | None => mret None
      end
  end.

Definition agent_find_entry_from_record (r : addr_record_t) (relayed_ : option addr_record_t) : M (option Z) :=
  s ← selected_matches r relayed_;
  match s with
  | Some i => mret (Some i)
  | None =>
      match relayed_ with
      | Some _ => first_entry (entry_matches r relayed_)
      | None =>
          p ← matching_pair r;
          i ← match p with Some p => entry_of_pair p | None => mret None end;
          match i with Some i => mret (Some i) | None => first_entry (entry_matches r None) end
      end
  end.
End agent.
