(* ===== verification/AgentTimers.v ===== *)
(** * The ICE agent: time slots and the order of pairs

    [agent_arm_transmission] finds a time slot for a transmission at least [STUN_PACING_TIME] away from
    all others, and its search ends; [agent_update_ordered_pairs] is an insertion sort of the pairs by
    descending priority. *)

From Stdlib Require Import Sorting.Sorted.
From S2P Require Import Prelude Bytes Addr Stun Turn Ice IceProps Agent.
Open Scope Z_scope.

Lemma rd_Some_inv {A} (l : list A) i x : rd l i = Some x -> 0 <= i < zlen l /\ l !! Z.to_nat i = Some x.
Proof. intros H. pose proof (rd_Some_lt _ _ _ H). split; [done|]. by rewrite rd_nonneg in H by lia. Qed.

(** ** Pacing *)

(** Within [STUN_PACING_TIME] of the entry's transmission there is no other. *)
Definition paced (es : list agent_stun_entry_t) (i next : Z) : Prop :=
  forall j e, rd es j = Some e -> j <> i -> next_transmission e <> 0 -> STUN_PACING_TIME <= Z.abs (next - next_transmission e).

(** The transmissions that are armed lie between [lo] and [hi]. *)
Definition armed_within (lo hi : Z) (e : agent_stun_entry_t) : Prop := next_transmission e = 0 \/ lo <= next_transmission e <= hi.

(** The transmissions that can still move a slot at [next]. *)
Definition ahead (es : list agent_stun_entry_t) (next : Z) : nat := length (List.filter (fun e => next <? next_transmission e + STUN_PACING_TIME) es).

Lemma ahead_mono es next next' : next <= next' -> (ahead es next' <= ahead es next)%nat.
Proof.
  intros Hn. unfold ahead. induction es as [|e es IH]; cbn; [done|].
  destruct (Z.ltb_spec next' (next_transmission e + STUN_PACING_TIME)), (Z.ltb_spec next (next_transmission e + STUN_PACING_TIME)); cbn; lia.
Qed.

Lemma ahead_jump es j e next : rd es j = Some e -> next < next_transmission e + STUN_PACING_TIME ->
  (ahead es (next_transmission e + STUN_PACING_TIME) < ahead es next)%nat.
Proof.
  intros Hj Hn. apply rd_Some_inv in Hj as [_ Hj]. apply list_elem_of_split_length in Hj as (a & b & -> & _).
  unfold ahead. rewrite !List.filter_app, !length_app. cbn. rewrite Z.ltb_irrefl. destruct (Z.ltb_spec next (next_transmission e + STUN_PACING_TIME)); [|lia]. cbn.
  pose proof (ahead_mono a next (next_transmission e + STUN_PACING_TIME)). pose proof (ahead_mono b next (next_transmission e + STUN_PACING_TIME)). unfold ahead in *. lia.
Qed.

Lemma ahead_bound es next : (ahead es next <= length es)%nat.
Proof. apply List.filter_length_le. Qed.

Lemma int_abs_small x : -2147483648 < x < 2147483648 -> int_abs x = Some (Z.abs x).
Proof. intros. unfold int_abs. rewrite i32_small by lia. by destruct (Z.eqb_spec x (-2147483648)); [lia|]. Qed.

(** The search: the measure is the number of transmissions ahead, then what is left of the pass. *)
Lemma find_slot_spec lo hi es i : Forall (armed_within lo hi) es -> hi + STUN_PACING_TIME - lo < 2147483648 ->
  forall fuel other next, (ahead es next * S (length es) + (S (length es) - Z.to_nat other) <= fuel)%nat ->
  0 <= other <= zlen es -> lo <= next <= hi + STUN_PACING_TIME ->
  (forall j e, rd es j = Some e -> j < other -> j <> i -> next_transmission e <> 0 -> STUN_PACING_TIME <= Z.abs (next - next_transmission e)) ->
  exists next', find_slot fuel es i other next = Some next' /\ paced es i next' /\
    next <= next' <= hi + STUN_PACING_TIME /\ next' <= next + 100 * Z.of_nat (ahead es next).
Proof.
  intros Hes Hhi. induction fuel as [|fuel IH]; intros other next Hf Ho Hn Hclear; [unfold zlen in Ho; lia|]. cbn [find_slot].
  destruct (Z.eqb_spec other (zlen es)) as [->|Hne].
  { exists next. split_and!; try done; try lia. intros j e Hj. apply (Hclear j e Hj). apply rd_Some_inv in Hj as [? _]; lia. }
  destruct (rd es other) as [e|] eqn:Ee; [|apply rd_None in Ee; lia].
  assert (Hskip : (other <> i -> next_transmission e <> 0 -> STUN_PACING_TIME <= Z.abs (next - next_transmission e)) ->
    exists next', find_slot fuel es i (other + 1) next = Some next' /\ paced es i next' /\
      next <= next' <= hi + STUN_PACING_TIME /\ next' <= next + 100 * Z.of_nat (ahead es next)).
  { intros H. apply IH; [unfold zlen in *; lia|lia|done|]. intros j e' Hj Hlt. destruct (decide (j = other)) as [->|]; [|apply (Hclear j e' Hj); lia].
    rewrite Ee in Hj. by injection Hj as <-. }
  destruct (Z.eqb_spec other i) as [->|Hi]; cbn [negb]; [by apply Hskip|]. cbn [mbind option_bind].
  destruct (Z.eqb_spec (next_transmission e) 0) as [E0|E0]; cbn [mbind option_bind]; [by apply Hskip|].
  assert (He : lo <= next_transmission e <= hi).
  { apply rd_Some_inv in Ee as [_ Ee]. apply list_elem_of_lookup_2 in Ee. eapply Forall_forall in Hes as [?|?]; done. }
  rewrite int_abs_small by (unfold STUN_PACING_TIME in *; lia). cbn [mbind option_bind].
  destruct (Z.ltb_spec (Z.abs (next - next_transmission e)) STUN_PACING_TIME) as [Hclose|Hfar]; [|by apply Hskip].
  assert (next < next_transmission e + STUN_PACING_TIME) as Hlt by lia. pose proof (ahead_jump es other e next Ee Hlt) as Hj.
  destruct (IH 0 (next_transmission e + STUN_PACING_TIME)) as (next' & E & Hp & Hb & Hd).
  - assert (S (ahead es (next_transmission e + STUN_PACING_TIME)) <= ahead es next)%nat by lia. unfold zlen in *. nia.
  - pose proof (zlen_nonneg es). lia.
  - unfold STUN_PACING_TIME in *. lia.
  - intros j e' Hj' Hlt'. apply rd_Some_inv in Hj' as [? _]. lia.
  - exists next'. split_and!; try done; unfold STUN_PACING_TIME in *; lia.
Qed.

(** ** Order of pairs *)

Section order.
Context (pairs : list pair_t).

(** [i] comes before [j]: by descending priority. *)
Definition before (i j : Z) : Prop := forall x y, rd pairs i = Some x -> rd pairs j = Some y -> pair_priority y <= pair_priority x.
Definition valid_index (i : Z) : Prop := 0 <= i < zlen pairs.

Lemma order_shift_spec pr : forall fuel a z post, (length a < fuel)%nat -> Forall valid_index a ->
  exists a1 b z', order_shift fuel pairs (a ++ z :: post) (zlen a) pr = Some (a1 ++ z' :: b ++ post, zlen a1 - 1) /\
    a = a1 ++ b /\ Forall (fun j => exists x, rd pairs j = Some x /\ pair_priority x < pr) b /\
    (a1 = [] \/ exists a2 c x, a1 = a2 ++ [c] /\ rd pairs c = Some x /\ pr <= pair_priority x).
Proof.
  induction fuel as [|fuel IH]; intros a z post Hf Hv; [lia|]. cbn [order_shift].
  destruct a as [|c a] using rev_ind; [exists [], [], z; rewrite zlen_nil; cbn; split_and!; auto|]. clear IHa.
  rewrite zlen_app, zlen_cons, zlen_nil. replace (zlen a + (1 + 0) - 1) with (zlen a) by lia. pose proof (zlen_nonneg a).
  destruct (Z.ltb_spec (zlen a) 0); [lia|]. rewrite <- app_assoc. cbn [app]. rewrite rd_app. cbn [mbind option_bind].
  apply Forall_app in Hv as [Hva Hvc]. rewrite Forall_singleton in Hvc. destruct (rd_is_Some pairs c Hvc) as [x Ex]. rewrite Ex. cbn [mbind option_bind].
  destruct (Z.ltb_spec (pair_priority x) pr) as [Hlt|Hge].
  - replace (zlen a + 1) with (zlen (a ++ [c])) by (rewrite zlen_app, zlen_cons, zlen_nil; lia).
    change (a ++ c :: z :: post) with (a ++ [c] ++ z :: post). rewrite app_assoc, wr_app, <- app_assoc. cbn.
    rewrite length_app in Hf. cbn in Hf. destruct (IH a c (c :: post)) as (a1 & b & z' & Es & -> & Hb & Ha1); [lia|done|]. rewrite Es. clear Es.
    exists a1, (b ++ [c]), z'. rewrite <- !app_assoc. split_and!; try done. apply Forall_app. repeat constructor; eauto.
  - exists (a ++ [c]), [], z. rewrite app_nil_r, <- app_assoc, zlen_app, zlen_cons, zlen_nil. cbn.
    split_and!; [by replace (zlen a + (1 + 0) - 1) with (zlen a) by lia|done|done|]. right. eexists _, _, _. split_and!; try done.
Qed.

Lemma before_trans i j k : valid_index j -> before i j -> before j k -> before i k.
Proof. intros [y Ey]%rd_is_Some H1 H2 x z Ex Ez. specialize (H1 x y Ex Ey). specialize (H2 y z Ey Ez). lia. Qed.

(** One insertion: the sorted pairs before [zlen pre] with that one among them. *)
Lemma order_step_spec pre z post : StronglySorted before pre -> Forall valid_index pre -> valid_index (zlen pre) ->
  exists a b, pre = a ++ b /\ order_step pairs (zlen pre) (pre ++ z :: post) = Some ((a ++ zlen pre :: b) ++ post) /\
    StronglySorted before (a ++ zlen pre :: b).
Proof.
  intros Hs Hv Hn. unfold order_step. destruct (rd_is_Some pairs (zlen pre) Hn) as [x Ex]. rewrite Ex. cbn [mbind option_bind].
  destruct (order_shift_spec (pair_priority x) (S (Z.to_nat (zlen pre))) pre z post) as (a & b & z' & Es & -> & Hb & Ha); [unfold zlen; lia|done|].
  rewrite Es. clear Es. exists a, b. split; [done|]. cbn [mbind option_bind]. replace (zlen a - 1 + 1) with (zlen a) by lia. split; [by rewrite wr_app, <- app_assoc|].
  apply Forall_app in Hv as [Hva Hvb]. apply StronglySorted_app_inv in Hs as (H1 & H2 & H3). apply StronglySorted_app_inv. split; [done|]. split.
  - constructor; [done|]. eapply Forall_impl; [exact Hb|]. intros j (y & Ey & Hy) x' y' Ex' Ey'. congruence || (rewrite Ex in Ex'; rewrite Ey in Ey'; injection Ex' as <-; injection Ey' as <-; lia).
  - apply Forall_forall. intros i Hi. constructor; [|by eapply Forall_forall in H3].
    destruct Ha as [->|(a2 & c & y & -> & Ey & Hy)]; [by apply elem_of_nil in Hi|].
    assert (before c (zlen ((a2 ++ [c]) ++ b))) as Hc by (intros y' x' Ey' Ex'; rewrite Ex in Ex'; rewrite Ey in Ey'; injection Ex' as <-; injection Ey' as <-; lia).
    apply elem_of_app in Hi as [Hi|Hi%list_elem_of_singleton]; [|by subst]. apply before_trans with c; [|eapply Forall_forall in H3|done].
    + apply Forall_app in Hva as [_ Hvc]. by rewrite Forall_singleton in Hvc.
    + apply StronglySorted_app_inv in H1 as (_ & _ & H1). eapply Forall_forall in H1; [|done]. by rewrite Forall_singleton in H1.
    + by apply elem_of_app; left.
Qed.

(** The indices of all pairs, in order. *)
Definition in_order (l : list Z) : Prop :=
  exists pre post, l = pre ++ post /\ pre ≡ₚ seqZ 0 (zlen pairs) /\ StronglySorted before pre.

Lemma seqZ_valid k l : l ≡ₚ seqZ 0 k -> k <= zlen pairs -> Forall valid_index l.
Proof. intros Hl Hk. rewrite Hl. apply Forall_seqZ. unfold valid_index. lia. Qed.

(** [agent_update_ordered_pairs] sorts, whatever the array held before. *)
Lemma update_order_spec l : zlen pairs <= zlen l ->
  exists l', for_up 0 (zlen pairs) (order_step pairs) l = Some l' /\ in_order l' /\ length l' = length l.
Proof.
  intros Hl. destruct (for_up_rule (fun i x => length x = length l /\ exists pre post, x = pre ++ post /\ i = zlen pre /\
      pre ≡ₚ seqZ 0 i /\ StronglySorted before pre) 0 (zlen pairs) (order_step pairs) l) as (l' & E & Hlen & pre & post & -> & Hi & Hp & Hs).
  - pose proof (zlen_nonneg pairs). lia.
  - split; [done|]. exists [], l. split_and!; done || constructor.
  - intros i x [Hi1 Hi2] (Hx & pre & post & -> & -> & Hp & Hs).
    destruct post as [|y post]; [rewrite app_nil_r in Hx; unfold zlen in *; lia|].
    destruct (order_step_spec pre y post Hs) as (a & b & -> & E & Hs'); [apply (seqZ_valid (zlen pre)); [done|lia]|done|].
    eexists. split; [exact E|]. split; [rewrite <- Hx; repeat (rewrite length_app; cbn); lia|]. eexists _, post. split; [done|].
    split; [rewrite !zlen_app, zlen_cons; lia|]. split; [|done]. rewrite <- Permutation_middle.
    rewrite (seqZ_app 0 (zlen (a ++ b)) 1) by (pose proof (zlen_nonneg (a ++ b)); lia). replace (seqZ (0 + zlen (a ++ b)) 1) with [0 + zlen (a ++ b) + 0] by (rewrite seqZ_cons by lia; done || (rewrite seqZ_nil by lia; f_equal; lia)). rewrite <- Permutation_cons_append, Z.add_0_r, Z.add_0_l. by constructor.
  - exists (pre ++ post). split; [done|]. split; [|done]. exists pre, post. done.
Qed.
End order.
