(* ===== verification/AgentSafe.v ===== *)
(** * The ICE agent is safe

    A rule for each construct of programs over the world, the invariant of the agent, and that every
    operation keeps it: pointers are valid, no null pointer is followed, tables do not overflow, strings end, time
    differences fit, and the order of the pairs is up to date. *)

From Stdlib Require Import Sorting.Sorted.
From S2P Require Import Prelude Bytes Stdio Addr Stun StunWrite StunWriteProps StunEncode Turn Ice IceProps IceSdp Agent AgentTimers.
Open Scope Z_scope.

(** ** Weakest preconditions *)

Definition runs {X} (m : M X) (w : world) (Q : X -> world -> Prop) : Prop := exists x w', m w = Some (x, w') /\ Q x w'.

Lemma runs_mono {X} (m : M X) w (Q Q' : X -> world -> Prop) : runs m w Q -> (forall x w', Q x w' -> Q' x w') -> runs m w Q'.
Proof. intros (x & w' & E & H) HQ. exists x, w'. auto. Qed.

Lemma runs_bind {X Y} (m : M X) (f : X -> M Y) w Q : runs m w (fun x w' => runs (f x) w' Q) -> runs (m ≫= f) w Q.
Proof. intros (x & w' & E & y & w'' & E' & H). exists y, w''. split; [|done]. unfold mbind, M_bind. by rewrite E. Qed.

Lemma runs_ret {X} (x : X) w (Q : X -> world -> Prop) : Q x w -> runs (mret x) w Q.
Proof. by exists x, w. Qed.

Lemma runs_gets {X} (f : juice_agent -> X) w (Q : X -> world -> Prop) : Q (f (agent w)) w -> runs (gets f) w Q.
Proof. by exists (f (agent w)), w. Qed.

Lemma runs_modify f w (Q : unit -> world -> Prop) : Q tt (w <| agent := f (agent w) |>) -> runs (modify f) w Q.
Proof. by exists tt, (w <| agent := f (agent w) |>). Qed.

Lemma runs_lift {X} (o : option X) x w (Q : X -> world -> Prop) : o = Some x -> Q x w -> runs (lift o) w Q.
Proof. intros -> ?. by exists x, w. Qed.

Lemma runs_emit e w (Q : unit -> world -> Prop) : Q tt (w <| trace := trace w ++ [e] |>) -> runs (emit e) w Q.
Proof. by eexists _, _. Qed.

(** A condition the program decides. *)
Ltac decide_case name := cbv beta; lazymatch goal with |- context [runs (if ?b then _ else _) _ _] => destruct b eqn:name | |- _ (if ?b then _ else _) _ => destruct b eqn:name end.

(** Fields that the invariant does not mention. *)
Ltac other_fields := intros [] ; (split; [split; done|split; cbn; [done|eauto]]).

Lemma runs_for (I : Z -> world -> Prop) body n : forall i w, I i w ->
  (forall j w, i <= j < i + Z.of_nat n -> I j w -> runs (body j) w (fun _ w' => I (j + 1) w')) ->
  runs (for_m n i body) w (fun _ w' => I (i + Z.of_nat n) w').
Proof.
  induction n as [|n IH]; intros i w HI Hb; cbn [for_m]; [apply runs_ret; by rewrite Z.add_0_r|].
  apply runs_bind. eapply runs_mono; [apply Hb; [lia|done]|]. intros [] w' H'. eapply runs_mono; [apply IH; [done|]|].
  - intros j w0 Hj. apply Hb. lia.
  - intros ? w0. by replace (i + 1 + Z.of_nat n) with (i + Z.of_nat (S n)) by lia.
Qed.

Lemma runs_fold {S} (I : Z -> S -> world -> Prop) body n : forall i s w, I i s w ->
  (forall j s w, i <= j < i + Z.of_nat n -> I j s w -> runs (body j s) w (fun s' w' => I (j + 1) s' w')) ->
  runs (fold_m n i body s) w (fun s' w' => I (i + Z.of_nat n) s' w').
Proof.
  induction n as [|n IH]; intros i s w HI Hb; cbn [fold_m]; [apply runs_ret; by rewrite Z.add_0_r|].
  apply runs_bind. eapply runs_mono; [apply Hb; [lia|done]|]. intros s' w' H'. eapply runs_mono; [apply IH; [done|]|].
  - intros j s0 w0 Hj. apply Hb. lia.
  - intros s0 w0. by replace (i + 1 + Z.of_nat n) with (i + Z.of_nat (Datatypes.S n)) by lia.
Qed.

(** A search that only looks: the world stays, and what is found satisfies the body's promise. *)
Lemma runs_search {X} (P : Z -> option X -> Prop) body n w : forall i,
  (forall j, i <= j < i + Z.of_nat n -> runs (body j) w (fun r w' => w' = w /\ P j r)) ->
  runs (for_until n i body) w (fun r w' => w' = w /\
    match r with Some x => exists j, i <= j < i + Z.of_nat n /\ P j (Some x) | None => forall j, i <= j < i + Z.of_nat n -> P j None end).
Proof.
  induction n as [|n IH]; intros i Hb; cbn [for_until]; [apply runs_ret; split; [done|]; lia|].
  apply runs_bind. eapply runs_mono; [apply Hb; lia|]. intros [x|] w' [-> Hp].
  - apply runs_ret. split; [done|]. exists i. split; [lia|done].
  - eapply runs_mono; [apply IH; intros; apply Hb; lia|]. intros [x|] w' [-> Hr]; (split; [done|]).
    + destruct Hr as (j & ? & ?). exists j. split; [lia|done].
    + intros j Hj. destruct (decide (j = i)) as [->|]; [done|]. apply Hr. lia.
Qed.

(** ** The invariant *)

(** The window of times: the clock stays between [T0] and [T0 + 2^30] milliseconds, which is twelve days. *)
Definition time_span : Z := 1073741824.
Definition longest_delay : Z := TURN_REFRESH_PERIOD + 100 * MAX_STUN_ENTRIES_COUNT.

Lemma longest_delay_value : longest_delay = 549200.
Proof. done. Qed.
Lemma refresh_period_value : TURN_REFRESH_PERIOD = 540000.
Proof. done. Qed.

Record string_ok (n : nat) (arr : list Z) : Prop := {
  sok_length : length arr = n;
  sok_bytes : Forall byte (cstr arr);
  sok_end : is_Some (strlen arr) }.

Definition valid_candidate (c : candidate_ptr) : Prop :=
  match c with Local_candidate i | Remote_candidate i => 0 <= i < ICE_MAX_CANDIDATES_COUNT end.

Record pair_ok (x : pair_t) : Prop := {
  pok_remote : exists c, remote x = Some c /\ valid_candidate c;
  pok_local : forall c, local x = Some c -> valid_candidate c }.

Record description_ok (d : ice_description_t) : Prop := {
  dok_ufrag : string_ok 257 (ice_ufrag d);
  dok_pwd : string_ok 257 (ice_pwd d);
  dok_count : candidates_count d <= ICE_MAX_CANDIDATES_COUNT }.

(** A pair that is used or could be. *)
Definition good (x : pair_t) : Prop := nominated x = true \/ state x = ICE_CANDIDATE_PAIR_STATE_SUCCEEDED.

Section invariant.
Context (T0 : Z).

Record entry_ok (pairs entries : Z) (e : agent_stun_entry_t) : Prop := {
  eok_check : entry_type e = AGENT_STUN_ENTRY_TYPE_CHECK <-> entry_pair e <> None;
  eok_pair : forall p, entry_pair e = Some p -> 0 <= p < pairs;
  eok_id : length (entry_transaction_id e) = 12%nat /\ Forall byte (entry_transaction_id e);
  eok_time : armed_within T0 (T0 + time_span + longest_delay) e;
  eok_timeout : 0 <= retransmission_timeout e;
  eok_backoff : 0 <= retransmissions e -> retransmission_timeout e * 2 ^ retransmissions e <= 32000 }.

(** [o]: an entry whose pair may not be good although it sends keepalives. *)
Record wf (o : option Z) (a : juice_agent) : Prop := {
  wf_local : description_ok (local_description a);
  wf_remote : description_ok (remote_description a);
  wf_tiebreaker : 0 <= ice_tiebreaker a < 18446744073709551616;
  wf_pairs : Forall pair_ok (candidate_pairs a);
  wf_pairs_count : candidate_pairs_count a <= MAX_CANDIDATE_PAIRS_COUNT;
  wf_entries : Forall (entry_ok (candidate_pairs_count a) (entries_count a)) (entries a);
  wf_entries_count : entries_count a <= MAX_STUN_ENTRIES_COUNT;
  wf_ordered : zlen (ordered_pairs a) = MAX_CANDIDATE_PAIRS_COUNT;
  wf_order : in_order (candidate_pairs a) (ordered_pairs a);
  wf_unique : forall i j e e' p, rd (entries a) i = Some e -> rd (entries a) j = Some e' -> entry_pair e = Some p -> entry_pair e' = Some p -> i = j;
  wf_relay : forall i e r, rd (entries a) i = Some e -> relay_entry e = Some r -> exists e', rd (entries a) r = Some e' /\ entry_type e' = AGENT_STUN_ENTRY_TYPE_RELAY;
  wf_keepalive : forall i e p x, rd (entries a) i = Some e -> entry_state e = AGENT_STUN_ENTRY_STATE_SUCCEEDED_KEEPALIVE -> entry_pair e = Some p ->
    rd (candidate_pairs a) p = Some x -> o <> Some i -> good x;
  wf_selected : forall p, selected_pair a = Some p -> 0 <= p < candidate_pairs_count a;
  wf_selected_entry : forall i, selected_entry a = Some i -> 0 <= i < entries_count a }.

(** What stays of the tables. *)
Record grows (a a' : juice_agent) : Prop := {
  grows_pairs : candidate_pairs_count a <= candidate_pairs_count a';
  grows_entries : forall i e, rd (entries a) i = Some e -> exists e', rd (entries a') i = Some e' /\ entry_pair e' = entry_pair e /\ entry_type e' = entry_type e }.

#[export] Instance grows_refl : Reflexive grows.
Proof. intros a. split; eauto. done. Qed.
#[export] Instance grows_trans : Transitive grows.
Proof.
  intros a b c [H1 H2] [H3 H4]. split; [lia|]. intros i e Hi. destruct (H2 i e Hi) as (e' & Hi' & <- & <-). eauto.
Qed.

Lemma grows_count a a' : grows a a' -> entries_count a <= entries_count a'.
Proof.
  intros [_ H]. unfold entries_count. destruct (Z.leb_spec (zlen (entries a)) (zlen (entries a'))); [done|].
  pose proof (zlen_nonneg (entries a')). destruct (rd_is_Some (entries a) (zlen (entries a'))) as [e He]; [lia|].
  apply H in He as (e' & He & _). apply rd_Some_lt in He. lia.
Qed.

(** ** Reading and writing the tables *)

Lemma zlen_insert {A} (l : list A) i x : zlen (<[i := x]> l) = zlen l.
Proof. unfold zlen. by rewrite length_insert. Qed.

Lemma runs_get_entry i w Q : 0 <= i < entries_count (agent w) -> (forall e, rd (entries (agent w)) i = Some e -> Q e w) -> runs (get_entry i) w Q.
Proof. intros [e E]%rd_is_Some HQ. apply runs_bind, runs_gets. eapply runs_lift; eauto. Qed.

Lemma runs_set_entry i e w (Q : unit -> world -> Prop) : 0 <= i < entries_count (agent w) ->
  Q tt (w <| agent := (agent w) <| entries := <[Z.to_nat i := e]> (entries (agent w)) |> |>) -> runs (set_entry i e) w Q.
Proof. intros Hi HQ. apply runs_bind, runs_gets, runs_bind. eapply runs_lift; [by apply wr_Some|]. by apply runs_modify. Qed.

Lemma runs_update_entry i f w (Q : unit -> world -> Prop) : 0 <= i < entries_count (agent w) ->
  (forall e, rd (entries (agent w)) i = Some e -> Q tt (w <| agent := (agent w) <| entries := <[Z.to_nat i := f e]> (entries (agent w)) |> |>)) ->
  runs (update_entry i f) w Q.
Proof. intros Hi HQ. apply runs_bind, runs_get_entry; [done|]. intros e He. apply runs_set_entry; auto. Qed.

Lemma runs_get_pair p w Q : 0 <= p < candidate_pairs_count (agent w) -> (forall x, rd (candidate_pairs (agent w)) p = Some x -> Q x w) -> runs (get_pair p) w Q.
Proof. intros [x E]%rd_is_Some HQ. apply runs_bind, runs_gets. eapply runs_lift; eauto. Qed.

Lemma runs_set_pair p x w (Q : unit -> world -> Prop) : 0 <= p < candidate_pairs_count (agent w) ->
  Q tt (w <| agent := (agent w) <| candidate_pairs := <[Z.to_nat p := x]> (candidate_pairs (agent w)) |> |>) -> runs (set_pair p x) w Q.
Proof. intros Hi HQ. apply runs_bind, runs_gets, runs_bind. eapply runs_lift; [by apply wr_Some|]. by apply runs_modify. Qed.

Lemma runs_update_pair p f w (Q : unit -> world -> Prop) : 0 <= p < candidate_pairs_count (agent w) ->
  (forall x, rd (candidate_pairs (agent w)) p = Some x -> Q tt (w <| agent := (agent w) <| candidate_pairs := <[Z.to_nat p := f x]> (candidate_pairs (agent w)) |> |>)) ->
  runs (update_pair p f) w Q.
Proof. intros Hi HQ. apply runs_bind, runs_get_pair; [done|]. intros e He. apply runs_set_pair; auto. Qed.

Lemma deref_valid a c : valid_candidate c -> is_Some (deref_candidate a c).
Proof. destruct c as [i|i]; cbn; unfold candidate_at; intros [H1 H2]; apply Z.leb_le in H1; apply Z.ltb_lt in H2; by rewrite H1, H2. Qed.

Lemma runs_get_candidate c w Q : valid_candidate c -> (forall x, Q x w) -> runs (get_candidate (Some c)) w Q.
Proof.
  intros Hc HQ. destruct (deref_valid (agent w) c Hc) as [x E]. apply runs_bind. eapply runs_lift; [done|]. apply runs_bind, runs_gets. by eapply runs_lift.
Qed.

Lemma Forall_rd {A} (P : A -> Prop) l i x : Forall P l -> rd l i = Some x -> P x.
Proof. intros H [_ Hi]%rd_Some_inv. by eapply Forall_lookup_1. Qed.

(** An entry that may replace the entry [e]. *)
Record entry_step (o : option Z) (a : juice_agent) (i : Z) (e e' : agent_stun_entry_t) : Prop := {
  step_ok : entry_ok (candidate_pairs_count a) (entries_count a) e';
  step_same : entry_pair e' = entry_pair e /\ entry_type e' = entry_type e /\ relay_entry e' = relay_entry e;
  step_keepalive : entry_state e' = AGENT_STUN_ENTRY_STATE_SUCCEEDED_KEEPALIVE -> entry_state e = AGENT_STUN_ENTRY_STATE_SUCCEEDED_KEEPALIVE \/ o = Some i \/
    forall p x, entry_pair e = Some p -> rd (candidate_pairs a) p = Some x -> good x }.

Lemma wf_set_entry o a i e e' : wf o a -> rd (entries a) i = Some e -> entry_step o a i e e' ->
  wf o (a <| entries := <[Z.to_nat i := e']> (entries a) |>) /\ grows a (a <| entries := <[Z.to_nat i := e']> (entries a) |>).
Proof.
  intros [] Hi [Hok (Hp & Ht & Hr) Hk]. pose proof (rd_Some_lt _ _ _ Hi) as Hlt.
  assert (Hcases : forall j d, rd (<[Z.to_nat i:=e']> (entries a)) j = Some d -> exists d0, rd (entries a) j = Some d0 /\
    entry_pair d = entry_pair d0 /\ entry_type d = entry_type d0 /\ relay_entry d = relay_entry d0 /\ (j = i /\ d = e' /\ d0 = e \/ j <> i /\ d = d0)).
  { intros j d. rewrite rd_insert by done. destruct (decide (j = i)) as [->|]; intros Hj; [injection Hj as <-; exists e|exists d]; naive_solver. }
  assert (Hback : forall j d0, rd (entries a) j = Some d0 -> exists d, rd (<[Z.to_nat i:=e']> (entries a)) j = Some d /\ entry_pair d = entry_pair d0 /\ entry_type d = entry_type d0).
  { intros j d0 Hj. rewrite rd_insert by done. destruct (decide (j = i)) as [->|]; [exists e'|exists d0]; naive_solver. }
  split; [|split; [done|exact Hback]]. split; try done; unfold entries_count in *; cbn in *; rewrite ?zlen_insert; try done.
  - apply Forall_insert; done.
  - intros j k d d' p Hj Hk' Hd Hd'. apply Hcases in Hj as (? & Hj & ? & _), Hk' as (? & Hk' & ? & _). apply (wf_unique0 j k _ _ p Hj Hk'); congruence.
  - intros j d r (d0 & Hj & _ & _ & Hr' & _)%Hcases Hd. destruct (wf_relay0 j d0 r) as (e0 & He0 & Ht0); [done|congruence|].
    apply Hback in He0 as (e1 & ? & _ & ?). exists e1. split; [done|congruence].
  - intros j d p x (d0 & Hj & Hp' & _ & _ & [(-> & -> & ->)|(Hne & ->)])%Hcases Hs Hd Hx Ho; [|by eapply wf_keepalive0].
    destruct (Hk Hs) as [?|[?|H]]; [eapply wf_keepalive0; eauto; congruence|done|eapply H; [|done]; congruence].
Qed.

(** A pair that may replace the pair [x]: [good] pairs stay so, or it is the pair of the entry [o]. *)
Record pair_step (o : option Z) (a : juice_agent) (p : Z) (x x' : pair_t) : Prop := {
  pstep_ok : pair_ok x';
  pstep_priority : pair_priority x' = pair_priority x;
  pstep_good : good x -> good x' \/ exists i e, o = Some i /\ rd (entries a) i = Some e /\ entry_pair e = Some p }.

Lemma in_order_ext pairs pairs' l : zlen pairs' = zlen pairs ->
  (forall j x', rd pairs' j = Some x' -> exists x, rd pairs j = Some x /\ pair_priority x' = pair_priority x) -> in_order pairs l -> in_order pairs' l.
Proof.
  intros Hlen H (pre & post & -> & Hp & Hs). exists pre, post. rewrite Hlen. split_and!; [done..|]. clear Hp. induction Hs as [|j l Hs IH Hj]; constructor; [done|].
  eapply Forall_impl; [exact Hj|]. intros k Hk x y (x0 & Ex & ->)%H (y0 & Ey & ->)%H. eauto.
Qed.

Lemma wf_set_pair o a p x x' : wf o a -> rd (candidate_pairs a) p = Some x -> pair_step o a p x x' ->
  wf o (a <| candidate_pairs := <[Z.to_nat p := x']> (candidate_pairs a) |>) /\ grows a (a <| candidate_pairs := <[Z.to_nat p := x']> (candidate_pairs a) |>).
Proof.
  intros [] Hp [Hok Hprio Hg]. pose proof (rd_Some_lt _ _ _ Hp) as Hlt.
  split; [|split; unfold candidate_pairs_count in *; cbn; [rewrite zlen_insert; lia|eauto]].
  split; try done; unfold candidate_pairs_count in *; cbn in *; rewrite ?zlen_insert; try done.
  - by apply Forall_insert.
  - eapply in_order_ext; [|..|done]; [apply zlen_insert|]. intros j y. rewrite rd_insert by done.
    destruct (decide (j = p)) as [->|]; [intros [= <-]; eauto|eauto].
  - intros i e q y Hi Hs He. rewrite rd_insert by done. destruct (decide (q = p)) as [->|]; [|eauto]. intros [= <-] Ho.
    destruct Hg as [?|(j & e' & -> & Hj & He')]; [eauto|done|]. exfalso. apply Ho. f_equal. by eapply wf_unique0.
Qed.
End invariant.

(** ** The environment *)

(** Strings of the operating system: characters, none of them white space or NUL, that fit in an array. *)
Definition name_ok (n : Z) (s : list Z) : Prop := zlen s < n /\ Forall byte s /\ Forall (fun c => c <> 0) s /\ no_space s.

(** The time the program starts at. *)
Class Epoch := T0 : Z.
Arguments T0 : simpl never.

Class EnvironmentOk (E : Environment) (Start : Epoch) := {
  clock_window k : T0 <= clock k <= T0 + time_span;
  random32_range k : 0 <= random32 k < 4294967296;
  random_id_ok k : length (random_id k) = 12%nat /\ Forall byte (random_id k);
  random64_range k : 0 <= random64 k < 18446744073709551616;
  junk_ok : length junk = 4096%nat;
  line_junk_ok : length line_junk = 1024%nat;
  getnameinfo_ok r host serv : getnameinfo r = Some (host, serv) -> name_ok 257 host /\ name_ok 33 serv }.

Section safety.
Context {E : Environment} {Start : Epoch} {EOk : EnvironmentOk E Start} {H : Hash} {HOk : HashOk H}.

Record kept (o : option Z) (a a' : juice_agent) : Prop := { kept_wf : wf T0 o a'; kept_grows : grows a a' }.

Lemma kept_refl o a : wf T0 o a -> kept o a a.
Proof. by split. Qed.
Lemma kept_trans o o' a a' a'' : kept o a a' -> kept o' a' a'' -> kept o' a a''.
Proof. intros [_ G] [W G']. split; [done|by etransitivity]. Qed.

Lemma runs_time w (Q : Z -> world -> Prop) :
  (T0 <= clock (ticks w) <= T0 + time_span -> Q (clock (ticks w)) (w <| ticks := S (ticks w) |>)) -> runs current_timestamp w Q.
Proof. intros HQ. eexists _, _. split; [done|]. apply HQ, clock_window. Qed.

Lemma runs_draw {X} (s : nat -> X) w (Q : X -> world -> Prop) : (forall k, Q (s k) (w <| draws := S (draws w) |>)) -> runs (draw s) w Q.
Proof. intros HQ. eexists _, _. split; [done|]. apply HQ. Qed.

Lemma runs_transmit e w (Q : Z -> world -> Prop) : (forall r, Q r (w <| sends := S (sends w) |> <| trace := trace w ++ [e] |>)) -> runs (transmit e) w Q.
Proof. intros HQ. eexists _, _. split; [done|]. apply HQ. Qed.

Lemma update_entry_kept o i f w (Q : unit -> world -> Prop) : wf T0 o (agent w) -> 0 <= i < entries_count (agent w) ->
  (forall e, rd (entries (agent w)) i = Some e -> entry_ok T0 (candidate_pairs_count (agent w)) (entries_count (agent w)) e -> entry_step T0 o (agent w) i e (f e)) ->
  (forall e w', rd (entries (agent w)) i = Some e -> w' = w <| agent := (agent w) <| entries := <[Z.to_nat i := f e]> (entries (agent w)) |> |> -> kept o (agent w) (agent w') -> entries_count (agent w') = entries_count (agent w) -> Q tt w') ->
  runs (update_entry i f) w Q.
Proof.
  intros Hw Hi Hf HQ. apply runs_update_entry; [done|]. intros e He. assert (Hs := Hf e He ltac:(eapply Forall_rd; [apply Hw|done])).
  destruct (wf_set_entry T0 o (agent w) i e (f e) Hw He Hs). eapply HQ; [done..| |]; [by split|]. apply zlen_insert.
Qed.

Lemma update_pair_kept o p f w (Q : unit -> world -> Prop) : wf T0 o (agent w) -> 0 <= p < candidate_pairs_count (agent w) ->
  (forall x, rd (candidate_pairs (agent w)) p = Some x -> pair_ok x -> pair_step o (agent w) p x (f x)) ->
  (forall x w', rd (candidate_pairs (agent w)) p = Some x -> w' = w <| agent := (agent w) <| candidate_pairs := <[Z.to_nat p := f x]> (candidate_pairs (agent w)) |> |> -> kept o (agent w) (agent w') -> candidate_pairs_count (agent w') = candidate_pairs_count (agent w) -> Q tt w') ->
  runs (update_pair p f) w Q.
Proof.
  intros Hw Hi Hf HQ. apply runs_update_pair; [done|]. intros e He. assert (Hs := Hf e He ltac:(eapply Forall_rd; [apply Hw|done])).
  destruct (wf_set_pair T0 o (agent w) p e (f e) Hw He Hs). eapply HQ; [done..| |]; [by split|]. apply zlen_insert.
Qed.

Lemma entry_pair_valid o i e p w : wf T0 o (agent w) -> rd (entries (agent w)) i = Some e -> entry_pair e = Some p -> 0 <= p < candidate_pairs_count (agent w).
Proof. intros Hw He Hp. pose proof (Forall_rd _ _ _ _ (wf_entries _ _ _ Hw) He) as []. auto. Qed.

Lemma runs_get_entry_pair o i e w (Q : option pair_t -> world -> Prop) : wf T0 o (agent w) -> rd (entries (agent w)) i = Some e ->
  (forall x, x = (p ← entry_pair e; rd (candidate_pairs (agent w)) p) -> (entry_pair e <> None -> x <> None) -> Q x w) -> runs (get_entry_pair e) w Q.
Proof.
  intros Hw He HQ. unfold get_entry_pair. destruct (entry_pair e) as [p|] eqn:Ep; [|by apply runs_ret, HQ].
  apply runs_bind, runs_get_pair; [by eapply entry_pair_valid|]. intros x Ex. apply runs_ret, HQ; [by rewrite <- Ex|done].
Qed.

Lemma entry_is_tcp_safe o i e w : wf T0 o (agent w) -> rd (entries (agent w)) i = Some e -> runs (entry_is_tcp e) w (fun _ w' => w' = w).
Proof.
  intros Hw He. unfold entry_is_tcp. destruct (entry_pair e) as [p|] eqn:Ep; [|by apply runs_ret].
  apply runs_bind, runs_get_pair; [by eapply entry_pair_valid|]. intros x Ex.
  destruct (Forall_rd _ _ _ _ (wf_pairs _ _ _ Hw) Ex) as [(c & -> & Hc) _]. apply runs_bind, runs_get_candidate; [done|]. intros. by apply runs_ret.
Qed.

(** [agent_arm_transmission]: it ends, and no other transmission is within the pacing time. *)
Lemma agent_arm_transmission_runs o i delay w : wf T0 o (agent w) -> 0 <= i < entries_count (agent w) -> 0 <= delay <= TURN_REFRESH_PERIOD ->
  runs (agent_arm_transmission i delay) w (fun _ w' => kept o (agent w) (agent w') /\ candidate_pairs (agent w') = candidate_pairs (agent w) /\
    exists e, rd (entries (agent w')) i = Some e /\ paced (entries (agent w')) i (next_transmission e) /\
      0 <= next_transmission e - (clock (ticks w) + delay) <= 100 * entries_count (agent w)).
Proof.
  intros Hw Hi Hd. unfold agent_arm_transmission. apply runs_bind. eapply update_entry_kept; [done|done| |].
  { intros e He []. destruct (bool_decide _) eqn:Es; (split; [done|done|]); cbn; [by left|done]. }
  intros e1 w1 He1 E1 K1 C1. apply runs_bind, runs_time. intros Ht. remember (clock (ticks w1)) as t eqn:Et. apply runs_bind.
  eapply (update_entry_kept o); [apply K1|cbn in *; lia| |].
  { intros e He []. split; [split; try done|done|by left]. right. cbn. rewrite longest_delay_value. rewrite refresh_period_value in Hd. lia. }
  intros e2 w2 He2 E2 K2 C2. cbn in C2. apply runs_bind, runs_get_entry; [lia|]. intros e2' He2'.
  assert (e2' = e2 <| next_transmission := t + delay |>) as ->.
  { rewrite E2 in He2'. cbn in He2'. rewrite rd_insert in He2' by (change (0 <= i < entries_count (agent w1)); lia). rewrite decide_True in He2' by done. by injection He2'. }
  apply runs_bind. eapply (runs_mono _ _ (fun _ w3 => kept o (agent w2) (agent w3) /\ entries_count (agent w3) = entries_count (agent w2) /\ candidate_pairs (agent w3) = candidate_pairs (agent w2))).
  { decide_case Es; [|apply runs_ret; split_and!; try done; apply kept_refl, K2].
    apply runs_bind. eapply runs_mono; [eapply entry_is_tcp_safe; [apply K2|done]|]. intros b w' ->. decide_case Hb.
    - eapply (update_entry_kept o); [apply K2|lia| |].
      + intros e He []. split; [split; try done; by vm_compute|done|by left].
      + intros e w' He -> K C. split_and!; done.
    - eapply (update_entry_kept o); [apply K2|lia| |].
      + intros e He []. split; [split; try done; cbn; intros _; by destruct (bool_decide (entry_type e = AGENT_STUN_ENTRY_TYPE_CHECK)); vm_compute|done|by left].
      + intros e w' He -> K C. split_and!; done. }
  intros [] w3 (K3 & C3 & P3). apply runs_bind, runs_gets, runs_bind.
  assert (Ha : Forall (armed_within T0 (T0 + time_span + longest_delay)) (entries (agent w3))).
  { eapply Forall_impl; [apply (wf_entries _ _ _ (kept_wf _ _ _ K3))|]. by intros e []. }
  destruct (find_slot_spec T0 (T0 + time_span + longest_delay) (entries (agent w3)) i Ha) with (fuel := slot_fuel (entries (agent w3))) (other := 0) (next := t + delay)
    as (next & En & Hp & Hn & Hn'); [rewrite longest_delay_value; unfold time_span, STUN_PACING_TIME; lia| | |rewrite longest_delay_value; rewrite refresh_period_value in Hd; unfold STUN_PACING_TIME; lia| |].
  { unfold slot_fuel. pose proof (ahead_bound (entries (agent w3)) (t + delay)). nia. }
  { pose proof (zlen_nonneg (entries (agent w3))). lia. }
  { intros j e Hj Hj0. apply rd_Some_lt in Hj. lia. }
  eapply runs_lift; [exact En|]. assert (H3 : Z.of_nat (ahead (entries (agent w3)) (t + delay)) <= entries_count (agent w3)).
  { pose proof (ahead_bound (entries (agent w3)) (t + delay)). unfold entries_count, zlen. lia. }
  pose proof (wf_entries_count _ _ _ (kept_wf _ _ _ K3)) as Hcount. change MAX_STUN_ENTRIES_COUNT with 92 in Hcount.
  eapply (update_entry_kept o); [apply K3|lia| |].
  { intros e He []. split; [split; try done|done|by left]. right. cbn. rewrite longest_delay_value. rewrite refresh_period_value in Hd. lia. }
  intros e4 w4 He4 E4 K4 C4. split; [do 3 (eapply kept_trans; [eassumption|]); exact K4|]. split; [rewrite E4; cbn; rewrite P3, E2; cbn; by rewrite E1|].
  exists (e4 <| next_transmission := next |>). rewrite E4. cbn. rewrite rd_insert by (fold (entries_count (agent w3)); lia). rewrite decide_True by done. split; [done|]. split.
  - intros j e Hj Hji. rewrite rd_insert in Hj by (fold (entries_count (agent w3)); lia). rewrite decide_False in Hj by done. eauto.
  - rewrite E1 in Et. cbn in Et. rewrite <- Et. lia.
Qed.

(** ** Safe programs *)

(** The program ends and keeps the invariant. *)
Definition safe {X} (o : option Z) (m : M X) (w : world) : Prop := runs m w (fun _ w' => kept o (agent w) (agent w')).

Lemma safe_bind {X Y} o o' (m : M X) (f : X -> M Y) w Q :
  runs m w (fun x w' => kept o' (agent w) (agent w') /\ Q x w') -> (forall x w', kept o' (agent w) (agent w') -> Q x w' -> safe o (f x) w') -> safe o (m ≫= f) w.
Proof.
  intros Hm Hf. apply runs_bind. eapply runs_mono; [exact Hm|]. intros x w' [K HQ]. eapply runs_mono; [by apply Hf|]. intros y w'' K'. by eapply kept_trans.
Qed.

Lemma safe_then {X Y} o o' (m : M X) (f : X -> M Y) w : safe o' m w -> (forall x w', kept o' (agent w) (agent w') -> safe o (f x) w') -> safe o (m ≫= f) w.
Proof. intros Hm Hf. eapply safe_bind with (Q := fun _ _ => True); [|eauto]. eapply runs_mono; [exact Hm|]. auto. Qed.

Lemma safe_look {X Y} o (m : M X) (f : X -> M Y) w (Q : X -> Prop) : runs m w (fun x w' => w' = w /\ Q x) -> (forall x, Q x -> safe o (f x) w) -> safe o (m ≫= f) w.
Proof. intros Hm Hf. apply runs_bind. eapply runs_mono; [exact Hm|]. intros x w' [-> HQ]. by apply Hf. Qed.

Lemma safe_time {Y} o (f : Z -> M Y) w :
  (T0 <= clock (ticks w) <= T0 + time_span -> safe o (f (clock (ticks w))) (w <| ticks := S (ticks w) |>)) -> safe o (current_timestamp ≫= f) w.
Proof. intros Hf. apply runs_bind, runs_time. exact Hf. Qed.

Lemma safe_draw {X Y} o (s : nat -> X) (f : X -> M Y) w : (forall k, safe o (f (s k)) (w <| draws := S (draws w) |>)) -> safe o (draw s ≫= f) w.
Proof. intros Hf. apply runs_bind, runs_draw. exact Hf. Qed.

Lemma safe_ret {X} o (x : X) w : wf T0 o (agent w) -> safe o (mret x) w.
Proof. intros. by apply runs_ret, kept_refl. Qed.

Lemma safe_update_entry o i f w : wf T0 o (agent w) -> 0 <= i < entries_count (agent w) ->
  (forall e, rd (entries (agent w)) i = Some e -> entry_ok T0 (candidate_pairs_count (agent w)) (entries_count (agent w)) e -> entry_step T0 o (agent w) i e (f e)) ->
  safe o (update_entry i f) w.
Proof. intros. eapply update_entry_kept; eauto. Qed.

Lemma safe_update_pair o p f w : wf T0 o (agent w) -> 0 <= p < candidate_pairs_count (agent w) ->
  (forall x, rd (candidate_pairs (agent w)) p = Some x -> pair_ok x -> pair_step o (agent w) p x (f x)) -> safe o (update_pair p f) w.
Proof. intros. eapply update_pair_kept; eauto. Qed.

Lemma safe_for o n i body w : wf T0 o (agent w) ->
  (forall j w', i <= j < i + Z.of_nat n -> kept o (agent w) (agent w') -> safe o (body j) w') -> safe o (for_m n i body) w.
Proof.
  intros Hw Hb. eapply runs_mono; [eapply (runs_for (fun _ w' => kept o (agent w) (agent w')))|]; [by apply kept_refl| |done].
  intros j w' Hj K. eapply runs_mono; [by apply Hb|]. intros ? w'' K'. by eapply kept_trans.
Qed.

Lemma safe_until {X} o n body : forall i w, wf T0 o (agent w) ->
  (forall j w', i <= j < i + Z.of_nat n -> kept o (agent w) (agent w') -> safe o (body j : M (option X)) w') -> safe o (for_until n i body) w.
Proof.
  induction n as [|n IH]; intros i w Hw Hb; cbn [for_until]; [by apply safe_ret|].
  eapply safe_then; [apply Hb; [lia|by apply kept_refl]|]. intros [x|] w' K; [apply safe_ret, K|]. apply IH; [apply K|]. intros j w'' Hj K'. apply Hb; [lia|by eapply kept_trans].
Qed.

Lemma safe_for_entries o body w : wf T0 o (agent w) ->
  (forall j w', 0 <= j < entries_count (agent w') -> kept o (agent w) (agent w') -> safe o (body j) w') -> safe o (for_entries body) w.
Proof.
  intros Hw Hb. apply runs_bind, runs_gets, safe_for; [done|]. intros j w' Hj K. apply Hb; [|done]. pose proof (grows_count _ _ (kept_grows _ _ _ K)).
  unfold entries_count in *. pose proof (zlen_nonneg (entries (agent w))). lia.
Qed.

Lemma safe_for_pairs o body w : wf T0 o (agent w) ->
  (forall j w', 0 <= j < candidate_pairs_count (agent w') -> kept o (agent w) (agent w') -> safe o (body j) w') -> safe o (for_pairs body) w.
Proof.
  intros Hw Hb. apply runs_bind, runs_gets, safe_for; [done|]. intros j w' Hj K. apply Hb; [|done]. pose proof (grows_pairs _ _ (kept_grows _ _ _ K)).
  unfold candidate_pairs_count in *. pose proof (zlen_nonneg (candidate_pairs (agent w))). lia.
Qed.

Lemma runs_first_entry o (p : agent_stun_entry_t -> M bool) (P : agent_stun_entry_t -> bool -> Prop) w : wf T0 o (agent w) ->
  (forall i e, rd (entries (agent w)) i = Some e -> runs (p e) w (fun b w' => w' = w /\ P e b)) ->
  runs (first_entry p) w (fun r w' => w' = w /\ match r with
    | Some i => exists e, rd (entries (agent w)) i = Some e /\ P e true
    | None => forall i e, rd (entries (agent w)) i = Some e -> P e false end).
Proof.
  intros Hw Hp. apply runs_bind, runs_gets.
  eapply runs_mono; [eapply (runs_search (fun i r => forall e, rd (entries (agent w)) i = Some e -> match r with Some j => j = i /\ P e true | None => P e false end))|].
  - intros i Hi. apply runs_bind, runs_get_entry; [unfold entries_count in *; lia|]. intros e He. apply runs_bind.
    eapply runs_mono; [by eapply Hp|]. intros b w' [-> HP]. apply runs_ret. split; [done|]. intros e' He'. rewrite He in He'. injection He' as <-. by destruct b.
  - intros [x|] w' [-> Hr]; (split; [done|]).
    + destruct Hr as (j & Hj & Hr). destruct (rd_is_Some (entries (agent w)) j) as [e He]; [unfold entries_count in *; lia|]. destruct (Hr e He) as [-> ?]. eauto.
    + intros i e He. eapply Hr; [|done]. apply rd_Some_lt in He. unfold entries_count. lia.
Qed.

Lemma runs_string n arr w (Q : list Z -> world -> Prop) : string_ok n arr -> Q (cstr arr) w -> runs (lift (string_at arr)) w Q.
Proof. intros [_ _ [k Ek]] HQ. eapply runs_lift; [|done]. unfold string_at. by rewrite Ek. Qed.

Lemma runs_remote_has_ufrag o w : wf T0 o (agent w) ->
  runs remote_has_ufrag w (fun b w' => w' = w /\ b = negb (bool_decide (cstr (ice_ufrag (remote_description (agent w))) = []))).
Proof. intros Hw. apply runs_bind, runs_gets, runs_bind. eapply runs_string; [apply (dok_ufrag _ (wf_remote _ _ _ Hw))|]. by apply runs_ret. Qed.

Lemma agent_update_pac_timer_safe o w : wf T0 o (agent w) -> safe o agent_update_pac_timer w.
Proof.
  intros Hw. apply runs_bind, runs_gets. decide_case Hp; [by apply safe_ret|]. eapply safe_look; [by eapply runs_remote_has_ufrag|]. intros b ->. decide_case Hb; [|by apply safe_ret].
  apply runs_bind, runs_time. intros _. apply runs_modify. revert Hw. other_fields.
Qed.

Lemma agent_update_gathering_done_safe o w : wf T0 o (agent w) -> safe o agent_update_gathering_done w.
Proof.
  intros Hw. eapply safe_look. { eapply runs_mono; [eapply (runs_first_entry o _ (fun _ _ => True)); [done|]|]; [intros; by apply runs_ret|]. intros r w' [-> _]. split; [done|]. exact I. }
  intros r _. decide_case Hr; [by apply safe_ret|]. apply runs_bind, runs_gets. decide_case Hg; [by apply safe_ret|].
  eapply safe_then with (o' := o). { apply runs_modify. revert Hw. intros []. split; [split; try done|split; cbn; [done|eauto]]. by destruct wf_local0. }
  intros _ w' K. eapply safe_then; [apply agent_update_pac_timer_safe, K|]. intros _ w'' K'. apply runs_emit, kept_refl, K'.
Qed.

Lemma agent_change_state_safe o s w : wf T0 o (agent w) -> safe o (agent_change_state s) w.
Proof.
  intros Hw. apply runs_bind, runs_gets. decide_case Hs; [by apply safe_ret|]. apply runs_bind, runs_modify, runs_emit. revert Hw. other_fields.
Qed.

Lemma agent_conn_fail_safe o w : wf T0 o (agent w) -> safe o agent_conn_fail w.
Proof.
  intros Hw. eapply safe_then; [by apply agent_change_state_safe|]. intros _ w' [K _]. apply runs_bind, runs_modify, runs_ret. revert K. other_fields.
Qed.

Lemma agent_arm_transmission_safe o i delay w : wf T0 o (agent w) -> 0 <= i < entries_count (agent w) -> 0 <= delay <= TURN_REFRESH_PERIOD ->
  safe o (agent_arm_transmission i delay) w.
Proof. intros. eapply runs_mono; [by eapply agent_arm_transmission_runs|]. by intros _ w' (? & _). Qed.

Lemma agent_arm_keepalive_safe o i w : wf T0 o (agent w) -> 0 <= i < entries_count (agent w) ->
  (forall e, rd (entries (agent w)) i = Some e -> entry_state e <> AGENT_STUN_ENTRY_STATE_SUCCEEDED) -> safe o (agent_arm_keepalive i) w.
Proof.
  intros Hw Hi Hs. eapply safe_then with (o' := o).
  { eapply safe_update_entry; [done..|]. intros e He Hok. rewrite bool_decide_false by eauto. split; [done..|by left]. }
  intros _ w1 K1. pose proof (grows_count _ _ (kept_grows _ _ _ K1)). apply runs_bind, runs_get_entry; [lia|]. intros e He.
  decide_case Hk; [apply safe_ret, K1|].
  eapply safe_bind with (o' := o) (Q := fun period _ => 0 <= period <= TURN_REFRESH_PERIOD).
  { assert (forall k, 0 <= MIN_CONSENT_CHECK_PERIOD + random32 k mod (MAX_CONSENT_CHECK_PERIOD - MIN_CONSENT_CHECK_PERIOD + 1) <= TURN_REFRESH_PERIOD) as Hr.
    { intros k. pose proof (Z.mod_pos_bound (random32 k) (MAX_CONSENT_CHECK_PERIOD - MIN_CONSENT_CHECK_PERIOD + 1)) as Hm.
      change MAX_CONSENT_CHECK_PERIOD with 6000 in *. change MIN_CONSENT_CHECK_PERIOD with 4000 in *. rewrite refresh_period_value. lia. }
    pose proof (kept_wf _ _ _ K1). destruct (entry_type e).
    - apply runs_bind, runs_draw. intros k. apply runs_ret. split; [by apply kept_refl|apply Hr].
    - apply runs_ret. split; [by apply kept_refl|by vm_compute].
    - apply runs_bind, runs_gets, runs_ret. split; [by apply kept_refl|]. by destruct (0 <? _).
    - apply runs_bind, runs_draw. intros k. apply runs_ret. split; [by apply kept_refl|apply Hr]. }
  intros period w2 K2 Hp. pose proof (grows_count _ _ (kept_grows _ _ _ K2)). eapply safe_then with (o' := o).
  { eapply safe_update_entry; [apply K2|lia|]. intros e' He' []. split; [by split|done|by left]. }
  intros _ w3 K3. pose proof (grows_count _ _ (kept_grows _ _ _ K3)). apply agent_arm_transmission_safe; [apply K3|lia|done].
Qed.

(** ** Pairs *)

Lemma wf_with_order o a l : wf T0 o a -> zlen l = MAX_CANDIDATE_PAIRS_COUNT -> in_order (candidate_pairs a) l -> wf T0 o (a <| ordered_pairs := l |>).
Proof. by intros [] ? ?; split. Qed.

(** All but the order of the pairs. *)
Record unordered (o : option Z) (a : juice_agent) : Prop := { unordered_wf : forall l, zlen l = MAX_CANDIDATE_PAIRS_COUNT -> in_order (candidate_pairs a) l ->
  wf T0 o (a <| ordered_pairs := l |>); unordered_count : candidate_pairs_count a <= MAX_CANDIDATE_PAIRS_COUNT; unordered_size : zlen (ordered_pairs a) = MAX_CANDIDATE_PAIRS_COUNT }.

Lemma agent_update_ordered_pairs_runs o w : unordered o (agent w) ->
  runs agent_update_ordered_pairs w (fun _ w' => wf T0 o (agent w') /\ exists l, agent w' = (agent w) <| ordered_pairs := l |>).
Proof.
  intros [Hw Hc Hl]. apply runs_bind, runs_gets, runs_bind. destruct (update_order_spec (candidate_pairs (agent w)) (ordered_pairs (agent w))) as (l' & Ef & Ho & Hl');
    [unfold candidate_pairs_count in Hc; lia|]. eapply runs_lift; [exact Ef|]. apply runs_modify. cbn. split; [|by eexists]. apply Hw; [|done]. unfold zlen in *. by rewrite Hl'.
Qed.

Lemma update_pair_priority a x k : pair_ok x -> exists v, ice_update_candidate_pair (deref_candidate a) x k = Some (0, x <| pair_priority := v |>).
Proof.
  intros [(c & Hc & Hv) Hl]. destruct (deref_valid a c Hv) as [d Ed]. unfold ice_update_candidate_pair. rewrite Hc. destruct (local x) as [c'|] eqn:Ec.
  - destruct (deref_valid a c' (Hl _ eq_refl)) as [d' Ed']. cbn. rewrite Ed, Ed'. cbn. eauto.
  - cbn. rewrite Ed. cbn. eauto.
Qed.

(** The same pair with another priority. *)
Definition reprioritised (x x' : pair_t) : Prop := exists v, x' = x <| pair_priority := v |>.

Lemma reprioritised_unordered o a l : wf T0 o a -> Forall2 reprioritised (candidate_pairs a) l -> unordered o (a <| candidate_pairs := l |>).
Proof.
  intros [] Hl. assert (Hlen : zlen l = zlen (candidate_pairs a)) by (unfold zlen; by rewrite (Forall2_length _ _ _ Hl)).
  assert (Hback : forall p x', rd l p = Some x' -> exists x, rd (candidate_pairs a) p = Some x /\ reprioritised x x').
  { intros p x' [Hp Hx]%rd_Some_inv. destruct (Forall2_lookup_r _ _ _ _ _ Hl Hx) as (x & ? & ?). exists x. split; [|done]. by rewrite rd_nonneg by lia. }
  split; [intros lo Hlo Ho|unfold candidate_pairs_count in *; cbn; lia|done]. split; try done; unfold candidate_pairs_count in *; cbn; rewrite ?Hlen; try done.
  - clear -Hl wf_pairs0. induction Hl as [|x x' l1 l2 [v ->] _ IH]; constructor; apply Forall_cons in wf_pairs0 as [[] ?]; [|auto]. by split.
  - intros i e p x' Hi Hs He (x & Hx & v & ->)%Hback Ho'. by apply (wf_keepalive0 i e p x Hi Hs He Hx).
Qed.

Lemma reprioritise_pairs_runs o m w : wf T0 o (agent w) ->
  runs (for_pairs (fun p => a ← gets id; x ← get_pair p; '(_, x) ← lift (ice_update_candidate_pair (deref_candidate a) x m); set_pair p x)) w
    (fun _ w' => exists l, agent w' = (agent w) <| candidate_pairs := l |> /\ Forall2 reprioritised (candidate_pairs (agent w)) l).
Proof.
  intros Hw. apply runs_bind, runs_gets. eapply runs_mono.
  { eapply (runs_for (fun _ w' => exists l, agent w' = (agent w) <| candidate_pairs := l |> /\ Forall2 reprioritised (candidate_pairs (agent w)) l)).
    - exists (candidate_pairs (agent w)). split; [by destruct w as [[]]|]. apply Forall2_same_length_lookup_2; [done|]. intros i x y Hx Hy. rewrite Hx in Hy. injection Hy as <-.
      exists (pair_priority x). by destruct x.
    - intros j w' Hj (l & Ew & Hl). pose proof (Forall2_length _ _ _ Hl) as Hlen. apply runs_bind, runs_gets, runs_bind.
      assert (Hj' : 0 <= j < candidate_pairs_count (agent w')) by (rewrite Ew; unfold candidate_pairs_count, zlen in *; cbn; lia).
      apply runs_get_pair; [done|]. intros x' Hx'. rewrite Ew in Hx'. cbn in Hx'.
      pose proof (rd_Some_inv _ _ _ Hx') as [Hjl Hx0]. destruct (Forall2_lookup_r _ _ _ _ _ Hl Hx0) as (x & Hx & v & ->).
      assert (Hok : pair_ok x) by (eapply Forall_lookup_1; [apply Hw|done]).
      destruct (update_pair_priority (agent w') (x <| pair_priority := v |>) m) as [v' Ev]; [by destruct Hok; split|].
      apply runs_bind. eapply runs_lift; [exact Ev|]. cbv beta iota. apply runs_set_pair; [done|]. rewrite Ew. cbn.
      exists (<[Z.to_nat j := x <| pair_priority := v' |>]> l). split; [by destruct w as [[]]|].
      rewrite <- (list_insert_id (candidate_pairs (agent w)) _ _ Hx). apply Forall2_insert; [done|]. by exists v'. }
  done.
Qed.

Lemma agent_update_candidate_pairs_safe o w : wf T0 o (agent w) -> safe o agent_update_candidate_pairs w.
Proof.
  intros Hw. apply runs_bind, runs_gets, runs_bind. eapply runs_mono; [by eapply reprioritise_pairs_runs|]. intros _ w1 (l & E1 & Hl).
  apply runs_bind. eapply runs_mono; [eapply (agent_update_ordered_pairs_runs o); rewrite E1; by apply reprioritised_unordered|]. intros _ w2 (W2 & lo & E2). 
  assert (K2 : kept o (agent w) (agent w2)).
  { split; [done|]. rewrite E2, E1. split; unfold candidate_pairs_count; cbn; [|eauto]. unfold zlen. rewrite (Forall2_length _ _ _ Hl). lia. }
  eapply runs_mono; [apply (safe_for_entries o); [done|]|intros ? w' K3; by eapply kept_trans].
  intros j w3 Hj K3. eapply safe_update_entry; [apply K3|done|]. intros e He []. split; [by case_bool_decide|by case_bool_decide|case_bool_decide; by left].
Qed.

Lemma agent_unfreeze_candidate_pair_safe o p w : wf T0 o (agent w) -> 0 <= p < candidate_pairs_count (agent w) -> safe o (agent_unfreeze_candidate_pair p) w.
Proof.
  intros Hw Hp. apply runs_bind, runs_get_pair; [done|]. intros x Hx. decide_case Hs; [by apply safe_ret|]. apply negb_false_iff, bool_decide_eq_true in Hs.
  eapply safe_look. { eapply runs_mono; [eapply (runs_first_entry o _ (fun _ _ => True)); [done|]|]; [intros; by apply runs_ret|]. intros r w' [-> Hr]. split; [done|exact Hr]. }
  intros [i|] Hi; [|by apply safe_ret]. destruct Hi as (e & He & _). eapply safe_then with (o' := o).
  { eapply safe_update_pair; [done..|]. intros y Hy []. rewrite Hx in Hy. injection Hy as <-. split; [by split|done|]. intros [?|?]; [left; by left|congruence]. }
  intros _ w1 K1. pose proof (grows_entries _ _ (kept_grows _ _ _ K1) i e He) as (e1 & He1 & _). apply rd_Some_lt in He1. eapply safe_then with (o' := o).
  { eapply safe_update_entry; [apply K1|done|]. intros e' He' []. by split. }
  intros _ w2 K2. pose proof (grows_count _ _ (kept_grows _ _ _ K2)). unfold entries_count in *.
  eapply safe_then; [apply agent_arm_transmission_safe; [apply K2|unfold entries_count; lia|by vm_compute]|]. intros _ w3 K3. apply safe_ret, K3.
Qed.

Lemma entry_ok_mono pairs pairs' entries entries' e : pairs <= pairs' -> entry_ok T0 pairs entries e -> entry_ok T0 pairs' entries' e.
Proof. intros Hp []. split; try done. intros p He. apply eok_pair0 in He. lia. Qed.

Lemma rd_snoc {A} (l : list A) x j y : rd (l ++ [x]) j = Some y -> rd l j = Some y \/ j = zlen l /\ y = x.
Proof.
  intros Hj. pose proof (rd_Some_lt _ _ _ Hj) as Hlt. assert (zlen (l ++ [x]) = zlen l + 1) as Hz by (by rewrite zlen_app). rewrite Hz in Hlt.
  destruct (decide (j = zlen l)) as [->|]; [right; rewrite rd_app in Hj; naive_solver|left].
  rewrite rd_nonneg in Hj |- * by lia. unfold zlen in *. by rewrite lookup_app_l in Hj by lia.
Qed.

Lemma rd_snoc_old {A} (l : list A) x j y : rd l j = Some y -> rd (l ++ [x]) j = Some y.
Proof. intros Hj. pose proof (rd_Some_lt _ _ _ Hj). rewrite rd_nonneg in * by lia. by apply lookup_app_l_Some. Qed.

(** Another entry. *)
Lemma wf_new_entry o a e : wf T0 o a -> entries_count a < MAX_STUN_ENTRIES_COUNT -> entry_ok T0 (candidate_pairs_count a) (entries_count a + 1) e ->
  entry_state e <> AGENT_STUN_ENTRY_STATE_SUCCEEDED_KEEPALIVE ->
  (forall p i e', entry_pair e = Some p -> rd (entries a) i = Some e' -> entry_pair e' <> Some p) ->
  (forall r, relay_entry e = Some r -> exists e', rd (entries a) r = Some e' /\ entry_type e' = AGENT_STUN_ENTRY_TYPE_RELAY) ->
  kept o a (a <| entries := entries a ++ [e] |>).
Proof.
  intros [] Hn Hok Hs Hp Hr. assert (Hz : zlen (entries a ++ [e]) = entries_count a + 1) by (rewrite zlen_app, zlen_cons, zlen_nil; unfold entries_count; lia).
  split; [|split; cbn; [done|intros i e' Hi; exists e'; split; [by apply rd_snoc_old|done]]].
  split; try done; unfold entries_count in *; cbn; rewrite ?Hz; try lia.
  - apply Forall_app. split; [|by constructor]. eapply Forall_impl; [done|]. intros e'. by apply entry_ok_mono.
  - intros i j d d' p [Hi|[-> ->]]%rd_snoc [Hj|[-> ->]]%rd_snoc Hd Hd'; [by eapply wf_unique0|exfalso; by eapply Hp|exfalso; by eapply Hp|done].
  - intros i d r [Hi|[-> ->]]%rd_snoc Hd; [destruct (wf_relay0 _ _ _ Hi Hd) as (d' & Hd' & ?)|destruct (Hr _ Hd) as (d' & Hd' & ?)]; exists d'; (split; [by apply rd_snoc_old|done]).
  - intros i d p x [Hi|[-> ->]]%rd_snoc Hd; [by eapply wf_keepalive0|done].
  - intros i Hi. apply wf_selected_entry0 in Hi. lia.
Qed.

Lemma agent_register_entry_safe o p relay w : wf T0 o (agent w) -> 0 <= p < candidate_pairs_count (agent w) -> entries_count (agent w) < MAX_STUN_ENTRIES_COUNT ->
  (forall i e, rd (entries (agent w)) i = Some e -> entry_pair e <> Some p) ->
  (forall r, relay = Some r -> exists e', rd (entries (agent w)) r = Some e' /\ entry_type e' = AGENT_STUN_ENTRY_TYPE_RELAY) ->
  safe o (agent_register_entry_for_candidate_pair p relay) w.
Proof.
  intros Hw Hp Hn Hu Hr. apply runs_bind, runs_get_pair; [done|]. intros x Hx. destruct (Forall_rd _ _ _ _ (wf_pairs _ _ _ Hw) Hx) as [(c & -> & Hc) _].
  apply runs_bind, runs_get_candidate; [done|]. intros d. apply runs_bind, runs_draw. intros k. apply runs_bind, runs_gets. cbv beta. cbn [agent].
  destruct (Z.leb_spec MAX_STUN_ENTRIES_COUNT (zlen (entries (agent (w <| draws := S (draws w) |>))))) as [Hge|_]; [cbn in Hge; unfold entries_count in Hn; lia|].
  apply runs_modify. cbn. apply wf_new_entry; try done.
  - split; cbn; try done; [|apply random_id_ok|by left]. by intros q [= <-].
  - intros q i e [= <-]. by apply Hu.
Qed.

Lemma ordered_valid o a k : wf T0 o a -> 0 <= k < candidate_pairs_count a -> exists p, rd (ordered_pairs a) k = Some p /\ 0 <= p < candidate_pairs_count a.
Proof.
  intros [] Hk. destruct wf_order0 as (pre & post & El & Hp & _). pose proof (seqZ_valid (candidate_pairs a) _ _ Hp ltac:(lia)) as Hv.
  assert (Hlen : zlen pre = candidate_pairs_count a). { unfold zlen. rewrite Hp, length_seqZ. unfold candidate_pairs_count in *. lia. }
  destruct (rd_is_Some pre k) as [p Ep]; [lia|]. exists p. split; [|by apply (Forall_rd _ _ _ _ Hv Ep)].
  rewrite El. pose proof (rd_Some_lt _ _ _ Ep). rewrite rd_nonneg in * by lia. by apply lookup_app_l_Some.
Qed.

Lemma append_pair_unordered o a x : wf T0 o a -> candidate_pairs_count a < MAX_CANDIDATE_PAIRS_COUNT -> pair_ok x ->
  unordered o (a <| candidate_pairs := candidate_pairs a ++ [x] |>).
Proof.
  intros [] Hn Hx. assert (Hz : zlen (candidate_pairs a ++ [x]) = candidate_pairs_count a + 1) by (rewrite zlen_app, zlen_cons, zlen_nil; unfold candidate_pairs_count; lia).
  split; [intros lo Hlo Ho|unfold candidate_pairs_count in *; cbn; lia|done]. split; try done; unfold candidate_pairs_count in *; cbn; rewrite ?Hz; try lia.
  - apply Forall_app. split; [done|by constructor].
  - eapply Forall_impl; [done|]. intros e. apply entry_ok_mono. lia.
  - intros i e p y Hi Hs He [Hy|[-> ->]]%rd_snoc Ho'; [by eapply wf_keepalive0|].
    pose proof (eok_pair _ _ _ _ (Forall_rd _ _ _ _ wf_entries0 Hi) _ He). lia.
  - intros p Hp. apply wf_selected0 in Hp. lia.
Qed.

Lemma find_relay_runs o l w : wf T0 o (agent w) -> (forall c, l = Some c -> valid_candidate c) -> runs (find_relay l) w (fun r w' => w' = w /\
  forall i, r = Some (Some i) -> exists e, rd (entries (agent w)) i = Some e /\ entry_type e = AGENT_STUN_ENTRY_TYPE_RELAY).
Proof.
  intros Hw Hl. unfold find_relay. destruct l as [c|]; [|by apply runs_ret]. apply runs_bind, runs_get_candidate; [auto|]. intros x. decide_case Ht; [by apply runs_ret|].
  apply runs_bind. eapply runs_mono; [eapply (runs_first_entry o _ (fun e b => b = true -> entry_type e = AGENT_STUN_ENTRY_TYPE_RELAY)); [done|]|].
  - intros i e He. apply runs_ret. split; [done|]. intros [Hr _]%andb_true_iff. by apply bool_decide_eq_true in Hr.
  - intros [i|] w' [-> Hr]; apply runs_ret; (split; [done|]); [|done]. intros j [= <-]. destruct Hr as (e & ? & ?). eauto.
Qed.

Lemma outranked_runs o p w : wf T0 o (agent w) -> runs (outranked p) w (fun _ w' => w' = w /\ True).
Proof.
  intros Hw. apply runs_bind, runs_gets, runs_bind. eapply runs_mono; [eapply (runs_search (fun _ _ => True))|].
  - intros k Hk. apply runs_bind, runs_gets, runs_bind. destruct (ordered_valid o (agent w) k Hw) as (q & Eq & Hq); [unfold candidate_pairs_count in *; lia|].
    eapply runs_lift; [exact Eq|]. decide_case Hp; [by apply runs_ret|]. apply runs_bind, runs_get_pair; [done|]. intros. by apply runs_ret.
  - intros r w' [-> _]. by apply runs_ret.
Qed.

Lemma selected_nominated_runs {X} o (g : pair_t -> X) d w : wf T0 o (agent w) ->
  runs (match selected_pair (agent w) with None => mret d | Some s => x ← get_pair s; mret (g x) end) w (fun _ w' => w' = w /\ True).
Proof.
  intros Hw. destruct (selected_pair (agent w)) as [s|] eqn:Es; [|by apply runs_ret]. apply runs_bind, runs_get_pair; [by apply (wf_selected _ _ _ Hw)|]. intros. by apply runs_ret.
Qed.

Lemma add_pair_safe o l x w : wf T0 o (agent w) -> candidate_pairs_count (agent w) < MAX_CANDIDATE_PAIRS_COUNT -> pair_ok x ->
  (forall c, l = Some c -> valid_candidate c) -> safe o (add_pair l x) w.
Proof.
  intros Hw Hn Hx Hl. apply runs_bind, runs_gets. cbv beta. apply runs_bind, runs_modify, runs_bind.
  eapply runs_mono; [eapply (agent_update_ordered_pairs_runs o); by apply append_pair_unordered|]. intros _ w1 (W1 & lo & E1). cbn in E1.
  assert (Hz : candidate_pairs_count (agent w1) = candidate_pairs_count (agent w) + 1) by (rewrite E1; unfold candidate_pairs_count; cbn; rewrite zlen_app, zlen_cons, zlen_nil; lia).
  assert (K1 : kept o (agent w) (agent w1)). { split; [done|]. split; [lia|]. rewrite E1. cbn. eauto. }
  assert (Hpos : 0 <= candidate_pairs_count (agent w) < candidate_pairs_count (agent w1)) by (pose proof (zlen_nonneg (candidate_pairs (agent w))); unfold candidate_pairs_count in *; lia).
  eapply runs_mono with (Q := fun _ w' => kept o (agent w1) (agent w')); [|intros ? w' ?; by eapply kept_trans].
  apply runs_bind, runs_gets. cbv beta. destruct (Z.eqb_spec (entries_count (agent w1)) MAX_STUN_ENTRIES_COUNT) as [Heq|Hne]; [by apply safe_ret|].
  eapply safe_look; [by apply (find_relay_runs o)|]. intros [relay|] Hr; [|by apply safe_ret]. eapply safe_then with (o' := o).
  { apply agent_register_entry_safe; [done|done|pose proof (wf_entries_count _ _ _ W1); lia| |naive_solver].
    intros i e He Hp. assert (He' : rd (entries (agent w)) i = Some e) by (by rewrite E1 in He). pose proof (entry_pair_valid _ _ _ _ _ Hw He' Hp). lia. }
  intros _ w2 K2. pose proof (kept_wf _ _ _ K2) as W2. pose proof (grows_pairs _ _ (kept_grows _ _ _ K2)). apply runs_bind, runs_gets. cbv beta.
  eapply safe_look. { decide_case Hm; [by apply (outranked_runs o)|by apply runs_ret]. } intros low _. decide_case Hlow; [by apply safe_ret|].
  eapply safe_look; [by apply (runs_remote_has_ufrag o)|]. intros known _. apply runs_bind, runs_gets. cbv beta.
  eapply safe_look; [by apply (selected_nominated_runs o)|]. intros nom _. eapply safe_then with (o' := o).
  { decide_case Hk; [|by apply safe_ret]. eapply safe_then; [apply agent_unfreeze_candidate_pair_safe; [done|lia]|]. intros _ w3 K3. apply safe_ret, K3. }
  intros _ w3 K3. apply safe_ret, K3.
Qed.

Lemma has_tcp_pair_runs o f w : wf T0 o (agent w) -> runs (has_tcp_pair f) w (fun _ w' => w' = w /\ True).
Proof.
  intros Hw. apply runs_bind, runs_gets, runs_bind. eapply runs_mono; [eapply (runs_search (fun _ _ => True))|].
  - intros k Hk. apply runs_bind, runs_get_pair; [unfold candidate_pairs_count in *; lia|]. intros x Hx.
    destruct (Forall_rd _ _ _ _ (wf_pairs _ _ _ Hw) Hx) as [(c & -> & Hc) _]. apply runs_bind, runs_get_candidate; [done|]. intros d. by apply runs_ret.
  - intros r w' [-> _]. by apply runs_ret.
Qed.

Lemma agent_add_candidate_pair_safe o l r w : wf T0 o (agent w) -> valid_candidate r -> (forall c, l = Some c -> valid_candidate c) -> safe o (agent_add_candidate_pair l r) w.
Proof.
  intros Hw Hr Hl. apply runs_bind, runs_gets. cbv beta.
  assert (Hc : exists ret x, ice_create_candidate_pair (deref_candidate (agent w)) l (Some r) (bool_decide (mode (agent w) = AGENT_MODE_CONTROLLING)) blank_pair = Some (ret, x) /\ (ret = 0 -> pair_ok x)).
  { set (k := bool_decide _). destruct (deref_valid (agent w) r Hr) as [d Ed].
    set (x0 := Pair l (Some r) 0 ICE_CANDIDATE_PAIR_STATE_FROZEN false false 0). assert (H0 : pair_ok x0) by (split; cbn; eauto).
    destruct (update_pair_priority (agent w) x0 k H0) as [v Ev].
    assert (Hnew : exists ret x, ice_update_candidate_pair (deref_candidate (agent w)) x0 k = Some (ret, x) /\ (ret = 0 -> pair_ok x)).
    { eexists _, _. split; [exact Ev|]. intros _. by destruct H0; split. }
    unfold ice_create_candidate_pair. fold x0. destruct l as [c|]; [|exact Hnew]. destruct (deref_valid (agent w) c (Hl _ eq_refl)) as [d' Ed'].
    unfold id. rewrite Ed, Ed'. cbn [mbind option_bind]. destruct (negb _); [by eexists (-1), _|exact Hnew]. }
  destruct Hc as (ret & x & Ec & Hx). apply runs_bind. eapply runs_lift; [exact Ec|]. cbv beta iota. destruct (Z.eqb_spec ret 0) as [->|]; cbn [negb]; [|by apply safe_ret].
  destruct (Z.leb_spec MAX_CANDIDATE_PAIRS_COUNT (candidate_pairs_count (id (agent w)))) as [|Hlt]; [by apply safe_ret|].
  assert (Hadd : safe o (add_pair l x) w) by (apply add_pair_safe; auto).
  apply runs_bind, runs_get_candidate; [done|]. intros c. decide_case Hu; [|exact Hadd]. decide_case H1; [by apply safe_ret|]. decide_case H2; [by apply safe_ret|].
  eapply safe_look; [by apply (has_tcp_pair_runs o)|]. intros has _. decide_case H3; [by apply safe_ret|exact Hadd].
Qed.

Lemma agent_add_candidate_pairs_for_remote_safe o r w : wf T0 o (agent w) -> valid_candidate r -> safe o (agent_add_candidate_pairs_for_remote r) w.
Proof.
  intros Hw Hr. eapply safe_then; [by apply (agent_add_candidate_pair_safe o)|]. intros ret w1 K1. decide_case Hret; [apply safe_ret, K1|].
  apply runs_bind, runs_gets. cbv beta.
  eapply safe_then with (o' := o); [|intros r' w2 K2; apply safe_ret, K2]. apply safe_until; [apply K1|]. intros i w2 Hi K2. assert (Hv : valid_candidate (Local_candidate i)).
  { pose proof (dok_count _ (wf_local _ _ _ (kept_wf _ _ _ K1))). cbn. unfold candidates_count in *. lia. }
  apply runs_bind, runs_get_candidate; [done|]. intros c. decide_case Ht; [|apply safe_ret, K2]. apply runs_bind, runs_get_candidate; [done|]. intros c'. decide_case Hf; [|apply safe_ret, K2].
  eapply safe_then; [apply (agent_add_candidate_pair_safe o); [apply K2|done|naive_solver]|]. intros ret' w3 K3. apply safe_ret, K3.
Qed.
End safety.
