(* ===== verification/AgentOps.v ===== *)
(** * The ICE agent: messages and bookkeeping are safe

    The operations of [Agent] keep the invariant of [AgentSafe]: reflexive candidates, STUN Binding messages, TCP
    connections, bookkeeping and the application's calls. *)

From Stdlib Require Import Sorting.Sorted.
From S2P Require Import Prelude Bytes Stdio Addr Stun StunWrite StunWriteProps StunEncode Turn Ice IceProps IceSdp Agent AgentTimers AgentSafe.
Open Scope Z_scope.

(** ** Strings *)

Lemma string_ok_prefix n (s junk : list Z) : length (s ++ 0 :: junk) = n -> Forall byte s -> string_ok n (s ++ 0 :: junk).
Proof.
  intros Hl Hb. split; [done| |].
  - clear Hl. induction Hb as [|c s Hc Hb IH]; cbn; [constructor|]. destruct (c =? 0); [constructor|by constructor].
  - clear. induction s as [|c s [k IH]]; cbn; [eauto|]. destruct (c =? 0); [eauto|]. rewrite IH. cbn. eauto.
Qed.

Lemma snprintf_ok n buffer size s : length buffer = n -> 0 < size <= Z.of_nat n -> Forall byte s ->
  exists b, snprintf_to buffer 0 size s = Some (zlen s, b) /\ string_ok n b /\ (Forall byte buffer -> Forall byte b).
Proof.
  intros Hl Hsize Hb. unfold snprintf_to. destruct (Z.eqb_spec size 0); [lia|]. set (p := take (Z.to_nat (size - 1)) s).
  assert (Hp : zlen p < size) by (unfold p, zlen; rewrite length_take; lia). fold (store buffer p). rewrite store_Some by (unfold zlen in *; lia).
  eexists. split; [done|]. assert (Forall byte p) by (by apply Forall_take). split.
  - apply string_ok_prefix; [|done]. rewrite length_app. cbn. rewrite length_drop. unfold zlen in *. lia.
  - intros Hbuf. apply Forall_app. split; [done|]. constructor; [done|by apply Forall_drop].
Qed.

Lemma string_ok_token n arr s : token_in n arr s -> string_ok n arr.
Proof.
  intros (Hl & Hs & _ & Hb). split; [done| |].
  - by apply string_at_spec in Hs as (-> & _).
  - unfold string_at in Hs. destruct (strlen arr); [eauto|done].
Qed.

Lemma string_at_ok n arr : string_ok n arr -> string_at arr = Some (cstr arr).
Proof. intros [_ _ [k Ek]]. unfold string_at. by rewrite Ek. Qed.

Lemma description_wf_ok d : description_wf d -> description_ok d.
Proof. intros [[u Hu] [p Hp] Hc _]. split; [by eapply string_ok_token|by eapply string_ok_token|done]. Qed.

(** ** Reflexive candidates *)

Record candidate_ok (c : ice_candidate_t) : Prop := {
  cok_foundation : string_ok 33 (foundation c); cok_hostname : string_ok 257 (hostname c); cok_service : string_ok 33 (service c) }.

Lemma candidate_wf_ok c : candidate_wf c -> candidate_ok c.
Proof. intros [_ _ _ (f & Hf & _) (h & Hh & _) (s & Hs & _)]. split; by eapply string_ok_token. Qed.

Lemma add_candidate_ok c d : candidate_ok c -> description_ok d -> exists ret c' d', ice_add_candidate c d = Some (ret, c', d') /\ candidate_ok c' /\ description_ok d' /\
  (ret = 0 -> candidates d' = candidates d ++ [c']).
Proof.
  intros [Hf Hh Hs] Hd. unfold ice_add_candidate. case_bool_decide; [by eexists _, _, _|].
  destruct (Z.leb_spec ICE_MAX_CANDIDATES_COUNT (candidates_count d)); [by eexists _, _, _|]. rewrite (string_at_ok _ _ Hf). cbn [mbind option_bind].
  assert (Hd' : forall c', description_ok (d <| candidates := candidates d ++ [c'] |>)).
  { intros c'. destruct Hd. split; cbn; try done. unfold candidates_count in *. cbn. rewrite zlen_app, zlen_cons, zlen_nil. lia. }
  destruct (streq _ _); cbn [mbind option_bind]; [|eexists _, _, _; split; [done|by split_and!]].
  destruct (snprintf_ok 33 (foundation c) 32 (print_u (candidates_count d + 1)) (sok_length _ _ Hf)) as (b & -> & Hb & _); [lia|apply print_u_text|].
  cbn [mbind option_bind]. eexists _, _, _. split; [done|]. by split_and!.
Qed.

Lemma generate_candidate_ok c : candidate_ok c -> forall buffer, length buffer = 4096%nat ->
  exists ret b, ice_generate_candidate_sdp c buffer BUFFER_SIZE = Some (ret, b) /\ (0 <= ret -> is_Some (string_at b)).
Proof.
  intros [Hf Hh Hs] buffer Hl. unfold ice_generate_candidate_sdp. destruct (generate_type _) as [[ty suffix]|]; [|by exists (-1), buffer].
  destruct (generate_transport _ _) as [[tr suffix']|]; [|by exists (-1), buffer]. rewrite (string_at_ok _ _ Hf), (string_at_ok _ _ Hh), (string_at_ok _ _ Hs). cbn [mbind option_bind].
  unfold snprintf_to. cbn [Z.eqb]. set (p := take _ _). change (BUFFER_SIZE =? 0) with false. cbv iota. fold (store buffer p).
  rewrite store_Some by (unfold p, zlen, BUFFER_SIZE; rewrite length_take, Hl; lia). cbn [mbind option_bind]. eexists _, _. split; [done|]. intros _.
  unfold string_at. assert (is_Some (strlen (p ++ 0 :: drop (S (length p)) buffer))) as [k ->]; [|eauto].
  clearbody p. generalize (drop (S (length p)) buffer) as t. clear. intros t. induction p as [|x p [k IH]]; cbn; [eauto|]. destruct (x =? 0); [eauto|]. rewrite IH. cbn. eauto.
Qed.

Section safety.
Context {E : Environment} {Start : Epoch} {EOk : EnvironmentOk E Start} {H : Hash} {HOk : HashOk H}.

Lemma create_local_ok ty index r : exists ret c, ice_create_local_candidate getnameinfo ty 1 index r ICE_CANDIDATE_TRANSPORT_UDP = Some (ret, c) /\ type c = ty /\ (ret = 0 -> candidate_ok c).
Proof.
  unfold ice_create_local_candidate. change (store (foundation zero_candidate) (text "-")) with (Some (padded 33 (text "-"))). cbn [mbind option_bind].
  destruct (getnameinfo r) as [[h s]|] eqn:En; [|do 2 eexists; split; [done|]; by split]. destruct (getnameinfo_ok r h s En) as [(H1 & H2 & H3 & H4) (S1 & S2 & S3 & S4)].
  cbn -[padded ice_compute_priority store replicate bytes_of_string].
  destruct (store_token 257 (replicate 257 0) h) as (ah & -> & Hah); try done. destruct (store_token 33 (replicate 33 0) s) as (asv & -> & Has); try done.
  cbn [mbind option_bind]. do 2 eexists. split; [done|]. split; [done|]. intros _. split; cbn -[padded bytes_of_string]; [|by eapply string_ok_token..].
  split; [done|by repeat constructor|by eexists].
Qed.

Lemma set_local_description_kept o a d : wf T0 o a -> description_ok d -> kept o a (a <| local_description := d |>).
Proof. intros [] Hd. split; [by split|]. split; cbn; [done|eauto]. Qed.
Lemma set_remote_description_kept o a d : wf T0 o a -> description_ok d -> kept o a (a <| remote_description := d |>).
Proof. intros [] Hd. split; [by split|]. split; cbn; [done|eauto]. Qed.

Lemma agent_add_local_reflexive_candidate_safe o ty r w : wf T0 o (agent w) -> safe o (agent_add_local_reflexive_candidate ty r) w.
Proof.
  intros Hw. unfold agent_add_local_reflexive_candidate. decide_case Ht; [by apply safe_ret|]. apply runs_bind, runs_gets. cbv beta. decide_case Hf; [by apply safe_ret|].
  set (d := local_description (agent w)). destruct (create_local_ok ty (candidates_count d) r) as (ret & c & Ec & _ & Hc). apply runs_bind. eapply runs_lift; [exact Ec|]. cbv beta iota.
  destruct (Z.eqb_spec ret 0) as [->|]; cbn [negb]; [|by apply safe_ret]. decide_case Hp; [by apply safe_ret|].
  destruct (add_candidate_ok c d) as (ret & c' & d' & Ea & Hc' & Hd' & _); [auto|apply Hw|]. apply runs_bind. eapply runs_lift; [exact Ea|]. cbv beta iota.
  eapply safe_then with (o' := o); [apply runs_modify; by apply set_local_description_kept|]. intros _ w1 K1. decide_case Hr; [apply safe_ret, K1|].
  destruct (generate_candidate_ok c' Hc' junk junk_ok) as (ret' & b & Eg & Hb). apply runs_bind. eapply runs_lift; [exact Eg|]. cbv beta iota.
  destruct (Z.ltb_spec ret' 0) as [|Hge]; [apply safe_ret, K1|]. destruct (Hb Hge) as [s Es].
  eapply safe_then with (o' := o); [|intros _ w2 K2; apply safe_ret, K2]. decide_case Hty; [|apply safe_ret, K1].
  apply runs_bind. eapply runs_lift; [exact Es|]. apply runs_emit. apply kept_refl, K1.
Qed.

Lemma agent_add_remote_reflexive_candidate_safe o ty pr r w : wf T0 o (agent w) -> safe o (agent_add_remote_reflexive_candidate ty pr r) w.
Proof.
  intros Hw. unfold agent_add_remote_reflexive_candidate. decide_case Ht; [by apply safe_ret|]. apply runs_bind, runs_gets. cbv beta. decide_case Hf; [by apply safe_ret|].
  apply runs_bind, runs_gets. cbv beta. set (d := remote_description (agent w)).
  destruct (create_local_ok ty (candidates_count (local_description (agent w))) r) as (ret & c & Ec & _ & Hc). apply runs_bind. eapply runs_lift; [exact Ec|]. cbv beta iota.
  destruct (Z.eqb_spec ret 0) as [->|]; cbn [negb]; [|by apply safe_ret]. decide_case Hp; [by apply safe_ret|].
  destruct (add_candidate_ok c d) as (ret & c' & d' & Ea & Hc' & Hd' & Hn); [auto|apply Hw|]. apply runs_bind. eapply runs_lift; [exact Ea|]. cbv beta iota.
  eapply safe_then with (o' := o); [apply runs_modify; by apply set_remote_description_kept|]. intros _ w1 K1.
  destruct (Z.eqb_spec ret 0) as [->|]; cbn [negb]; [|apply safe_ret, K1]. specialize (Hn eq_refl). rewrite Hn.
  assert (Hlast : candidates_count d' - 1 = zlen (candidates d)) by (unfold candidates_count; rewrite Hn, zlen_app, zlen_cons, zlen_nil; lia). rewrite Hlast.
  apply runs_bind. eapply runs_lift; [apply rd_app|]. apply runs_bind. eapply runs_lift; [apply wr_app|].
  assert (Hd2 : forall x, description_ok (d' <| candidates := candidates d ++ [x] |>)).
  { intros x. destruct Hd' as [? ? Hcount]. split; try done. unfold candidates_count in *. rewrite Hn in Hcount. cbn. rewrite zlen_app, zlen_cons, zlen_nil in *. lia. }
  eapply safe_then with (o' := o); [apply runs_modify; apply set_remote_description_kept; [apply K1|done]|]. intros _ w2 K2.
  apply agent_add_candidate_pairs_for_remote_safe; [apply K2|]. cbn. pose proof (dok_count _ Hd'). pose proof (zlen_nonneg (candidates d)). lia.
Qed.

(** ** Sending *)

(** A message that carries nothing but what Binding messages do. *)
Record plain_binding (m : stun_message_t) : Prop := {
  plain_ok : message_ok m;
  plain_numbers : channel_number m = 0 /\ lifetime m = 0 /\ lifetime_set m = false /\ reservation_token m = 0;
  plain_addresses : peers_size m = 0 /\ len (Stun.relayed m) = 0;
  plain_data : data m = None;
  plain_flags : even_port m = false /\ requested_transport m = false /\ dont_fragment m = false;
  plain_credentials : cstr (realm (credentials m)) = [] /\ cstr (nonce (credentials m)) = [] /\ enable_userhash (credentials m) = false /\ password_algorithm (credentials m) = 0 }.

Lemma encode_opt_bound b a : zlen (encode_attrs (opt b a)) <= 7 + zlen (snd a).
Proof. rewrite encode_opt. destruct b; [|pose proof (zlen_nonneg (snd a)); rewrite zlen_nil; lia]. rewrite encode_attr_length. pose proof (padding_range (zlen (snd a))). lia. Qed.

Lemma encode_address_bound type id r : sockaddr_ok (addr r) -> zlen (encode_attrs (address_attrs type id r)) <= 27.
Proof.
  intros Hok. unfold address_attrs. assert (Hz : forall a b : list Z, zlen (zip_with Z.lxor a b) <= zlen a) by (intros; unfold zlen; rewrite length_zip_with; lia).
  assert (Ha : forall f p a, (length a <= 16)%nat -> zlen (encode_attrs [(type, address_value f p a (xor_mask id))]) <= 27).
  { intros f p a Hl. unfold encode_attrs. cbn [map concat]. rewrite app_nil_r, encode_attr_length. cbn [snd]. unfold address_value.
    pose proof (padding_range (zlen ([0; f] ++ le16 (Z.lxor p (get_le (take 2 (xor_mask id)))) ++ zip_with Z.lxor a (xor_mask id)))) as Hp.
    rewrite !zlen_app in *. specialize (Hz a (xor_mask id)). change (zlen [0; f]) with 2 in *. change (zlen (le16 _)) with 2 in *. unfold zlen in *. lia. }
  unfold record_value. destruct (addr r) as [p a|p f a sc|f]; [| |done]; (destruct (_ <? _); [done|]); apply Ha; destruct Hok as (_ & -> & _); lia.
Qed.

Lemma plain_encode_bound uninit m password : plain_binding m -> zlen (encode uninit m password) <= 2000.
Proof.
  intros [Hok (C1 & C2 & C3 & C4) [A1 A2] D (F1 & F2 & F3) (R1 & R2 & R3 & R4)]. unfold encode. rewrite zlen_app, header_length by apply Hok. unfold encode_body. rewrite add_fingerprint_length.
  assert (Hb : zlen (encode_attrs (concat (body_attrs m))) <= 400).
  { unfold body_attrs. rewrite C1, C2, C3, C4, A1, A2, D, F1, F2, F3. change (take (Z.to_nat 0) (peers m)) with (@nil addr_record_t). cbn [Z.eqb negb orb concat map opt]. rewrite !encode_attrs_app, !zlen_app.
    pose proof (reason_length (error_code m)).
    pose proof (encode_opt_bound (negb (error_code m =? 0)) (STUN_ATTR_ERROR_CODE, error_code_value (error_code m))) as B1. 
    assert (Hm : zlen (encode_attrs (if negb (len (mapped m) =? 0) then address_attrs STUN_ATTR_XOR_MAPPED_ADDRESS (Stun.transaction_id m) (mapped m) else [])) <= 27).
    { destruct (negb (len (mapped m) =? 0)); [apply encode_address_bound, Hok|by vm_compute]. }
    pose proof (encode_opt_bound (negb (Stun.priority m =? 0)) (STUN_ATTR_PRIORITY, be32 (Stun.priority m))) as B2.
    pose proof (encode_opt_bound (use_candidate m) (STUN_ATTR_USE_CANDIDATE, [])) as B3.
    pose proof (encode_opt_bound (negb (ice_controlling m =? 0)) (STUN_ATTR_ICE_CONTROLLING, be64 (ice_controlling m))) as B4.
    pose proof (encode_opt_bound (negb (ice_controlled m =? 0)) (STUN_ATTR_ICE_CONTROLLED, be64 (ice_controlled m))) as B5.
    assert (He : zlen (error_code_value (error_code m)) <= 34) by (unfold error_code_value; rewrite zlen_app, !zlen_cons, zlen_nil; lia).
    cbn [snd] in *. change (zlen (be32 _)) with 4 in *. change (zlen (be64 _)) with 8 in *. change (zlen (@nil Z)) with 0 in *. change (zlen (encode_attrs [])) with 0 in *. lia. }
  assert (Hc : zlen (encode_attrs (concat (credential_attrs uninit m))) <= 600).
  { unfold credential_attrs. cbn [concat]. rewrite app_nil_r, !encode_attrs_app, !zlen_app. change (zlen (encode_attrs [(STUN_ATTR_SOFTWARE, software)])) with 12. rewrite R3.
    match goal with |- context [if ?b then string_attr STUN_ATTR_REALM _ ++ _ else []] => assert (zlen (encode_attrs (if b then string_attr STUN_ATTR_REALM (realm (credentials m)) ++
      (if is_empty (cstr (nonce (credentials m))) then [] else concat (nonce_attrs uninit m)) ++ [] else [])) = 0) as -> end.
    { unfold string_attr. rewrite R1, R2. cbn [is_empty negb opt app]. by destruct (_ || _). }
    pose proof (encode_opt_bound (negb (is_empty (cstr (username (credentials m))))) (STUN_ATTR_USERNAME, cstr (username (credentials m)))) as B1. cbn [snd] in B1.
    destruct (cok_username _ (mok_credentials _ Hok)) as (L & _ & _). pose proof (cstr_length (username (credentials m))) as B2. unfold zlen in B2 at 2. rewrite L in B2.
    destruct (msg_class m =? STUN_CLASS_REQUEST); [unfold string_attr|change (zlen (encode_attrs [])) with 0]; lia. }
  assert (Hi : zlen (add_integrity m password (encode_attrs (plain_attrs uninit m))) <= zlen (encode_attrs (plain_attrs uninit m)) + 24).
  { unfold add_integrity. rewrite R4. destruct (signed m password); [|lia]. destruct (generate_hmac_key _ _) as [key|]; [|lia]. change (0 =? STUN_PASSWORD_ALGORITHM_UNSET) with true. cbv iota zeta.
    rewrite add_hmac_length; [unfold HMAC_SHA1_SIZE; lia|intros; apply hmac_sha1_size|done]. }
  assert (zlen (encode_attrs (plain_attrs uninit m)) <= 1000) by (unfold plain_attrs; rewrite encode_attrs_app, zlen_app; lia). lia.
Qed.

Lemma plain_write_runs uninit m password : plain_binding m -> match password with Some p => is_Some (strlen p) | None => True end ->
  exists size b, stun_write junk BUFFER_SIZE uninit m password = Some (size, b).
Proof.
  intros Hm Hp. pose proof (plain_encode_bound uninit m password Hm). rewrite stun_write_encode; [eauto|apply Hm|done|unfold BUFFER_SIZE; lia|unfold zlen; by rewrite junk_ok|done].
Qed.

Definition known_class (cls : Z) : Prop := cls ∈ [STUN_CLASS_REQUEST; STUN_CLASS_INDICATION; STUN_CLASS_RESP_SUCCESS; STUN_CLASS_RESP_ERROR].
Definition id_ok (id : list Z) : Prop := length id = 12%nat /\ Forall byte id.

Definition base_message (cls : Z) (id : list Z) : stun_message_t := zero_message <| msg_class := cls |> <| msg_method := STUN_METHOD_BINDING |> <| Stun.transaction_id := id |>.

Lemma zeros_ok n : (0 < n)%nat -> length (replicate n 0) = n /\ is_Some (strlen (replicate n 0)) /\ Forall byte (replicate n 0).
Proof. intros Hn. split_and!; [apply length_replicate|by destruct n; [lia|eexists]|by apply Forall_replicate]. Qed.

Lemma zero_credentials_ok : credentials_ok zero_credentials.
Proof. split; try (by apply zeros_ok; lia); try (split; [apply length_replicate|by apply Forall_replicate]); by vm_compute. Qed.

Lemma base_message_plain cls id : known_class cls -> id_ok id -> plain_binding (base_message cls id).
Proof.
  intros Hc Hid. split; try done. split; try done; try (by vm_compute); [apply zero_credentials_ok|split; [done|by apply Forall_replicate]].
Qed.

Lemma binding_message_ok o a e x cls code mapped_ id : wf T0 o a -> known_class cls -> id_ok id -> 0 <= code < 800 -> (forall r, mapped_ = Some r -> sockaddr_ok (addr r)) ->
  exists r, binding_message a e x cls code mapped_ (base_message cls id) = Some r /\
    forall m p, r = Some (m, p) -> plain_binding m /\ match p with Some p => is_Some (strlen p) | None => True end.
Proof.
  intros Hw Hc Hid Hcode Hmap. pose proof (base_message_plain cls id Hc Hid) as Hbase. unfold binding_message.
  destruct (negb _); [eexists; split; [done|]; by intros m p [= <- <-]|].
  pose proof (wf_remote _ _ _ Hw) as [Hru Hrp _]. pose proof (wf_local _ _ _ Hw) as [Hlu Hlp _].
  destruct (cls =? STUN_CLASS_REQUEST).
  - rewrite (string_at_ok _ _ Hru), (string_at_ok _ _ Hrp), (string_at_ok _ _ Hlu). cbn [mbind option_bind]. destruct (_ || _); [by eexists|].
    destruct (snprintf_ok 514 (username (credentials (base_message cls id))) STUN_MAX_USERNAME_LEN (cstr (ice_ufrag (remote_description a)) ++ [58] ++ cstr (ice_ufrag (local_description a)))) as (b & -> & Hb & Hbb); [done|done| |].
    { apply Forall_app. split; [apply Hru|]. apply Forall_app. split; [by repeat constructor|apply Hlu]. }
    cbn [mbind option_bind]. eexists. split; [done|]. intros m p [= <- <-]. split; [|apply Hrp]. pose proof (wf_tiebreaker _ _ _ Hw).
    specialize (Hbb ltac:(by apply Forall_replicate)). destruct Hbase as [[] ? ? ? ? Hcred]. split; [split; try done; cbn -[zero_credentials]| | | | |]; try done.
    + apply u32_range.
    + by destruct (bool_decide _).
    + by destruct (bool_decide _).
    + destruct zero_credentials_ok. split; try done. split_and!; [apply Hb|apply Hb|done].
  - destruct (_ || _); [|eexists; split; [done|]; by intros m p [= <- <-]]. eexists. split; [done|]. intros m p [= <- <-]. split; [|apply Hlp].
    destruct Hbase as [[] ? ? ? ? ?]. destruct mapped_ as [r|]; (split; [split; try done|..]); try done. cbn. by apply Hmap.
Qed.

Lemma agent_send_stun_binding_safe o i cls code tid mapped_ w : wf T0 o (agent w) -> 0 <= i < entries_count (agent w) -> known_class cls -> 0 <= code < 800 ->
  (forall id, tid = Some id -> id_ok id) -> (forall r, mapped_ = Some r -> sockaddr_ok (addr r)) -> safe o (agent_send_stun_binding i cls code tid mapped_) w.
Proof.
  intros Hw Hi Hc Hcode Hid Hmap. apply runs_bind, runs_get_entry; [done|]. intros e He.
  eapply safe_bind with (o' := o) (Q := fun id w1 => agent w1 = agent w /\ forall id', id = Some id' -> id_ok id').
  { destruct tid as [id|]; [apply runs_ret; split; [by apply kept_refl|naive_solver]|]. decide_case H1; [by apply runs_ret; split; [apply kept_refl|]|].
    decide_case H2; [apply runs_bind, runs_draw; intros k|]; apply runs_ret; (split; [by apply kept_refl|split; [done|]]); intros id' [= <-]; [apply random_id_ok|].
    by apply (Forall_rd _ _ _ _ (wf_entries _ _ _ Hw)) in He as []. }
  intros [id|] w1 K1 [Ew Hid']; [|apply safe_ret, K1]. specialize (Hid' id eq_refl). apply runs_bind, runs_gets. cbv beta.
  eapply safe_bind with (o' := o) (Q := fun _ w2 => w2 = w1). { eapply (runs_get_entry_pair o i); [apply K1|by rewrite Ew|]. intros x _ _. split; [apply kept_refl, K1|done]. }
  intros x _ _ ->. destruct (binding_message_ok o (agent w1) e x cls code mapped_ id) as (r & Er & Hr); [apply K1|done..|].
  apply runs_bind. eapply runs_lift; [exact Er|]. destruct r as [[m password]|]; [|apply safe_ret, K1]. destruct (Hr m password eq_refl) as [Hm Hp].
  eapply safe_then with (o' := o).
  { decide_case H1; [|apply safe_ret, K1]. eapply safe_update_entry; [apply K1|by rewrite Ew|]. intros e' He' []. split; [by split|done|by left]. }
  intros _ w2 K2. destruct (plain_write_runs uninit m password Hm Hp) as (size & b & Eb). apply runs_bind. eapply runs_lift; [exact Eb|]. cbv beta iota.
  decide_case Hs; [apply safe_ret, K2|]. apply runs_bind, runs_transmit. intros ret. apply runs_ret, kept_refl, K2.
Qed.

Lemma reply_safe o i m code w : wf T0 o (agent w) -> 0 <= i < entries_count (agent w) -> id_ok (Stun.transaction_id m) -> 0 <= code < 800 -> safe o (reply i m code) w.
Proof. intros. apply agent_send_stun_binding_safe; try done; [by repeat constructor|naive_solver]. Qed.

Lemma set_mode_kept o a m : wf T0 o a -> kept o a (a <| mode := m |>).
Proof. intros []. split; [by split|]. split; cbn; [done|eauto]. Qed.

Lemma repair_role_conflict_safe o i m w : wf T0 o (agent w) -> 0 <= i < entries_count (agent w) -> id_ok (Stun.transaction_id m) -> safe o (repair_role_conflict i m) w.
Proof.
  intros Hw Hi Hm. assert (Hreply : safe o (_ ← reply i m 487; mret true) w).
  { eapply safe_then; [by apply (reply_safe o)|]. intros _ w1 K1. apply safe_ret, K1. }
  assert (Hswitch : forall md, safe o (_ ← modify (fun a => a <| mode := md |>); _ ← agent_update_candidate_pairs; mret true) w).
  { intros md. eapply safe_then with (o' := o); [apply runs_modify; by apply set_mode_kept|]. intros _ w1 K1. eapply safe_then; [apply (agent_update_candidate_pairs_safe o), K1|]. intros _ w2 K2. apply safe_ret, K2. }
  apply runs_bind, runs_gets. decide_case H1; [decide_case H2; [exact Hreply|apply Hswitch]|]. decide_case H2; [decide_case H3; [apply Hswitch|exact Hreply]|]. by apply safe_ret.
Qed.

(** ** Exceptions to the invariant *)

Lemma wf_weaken i a : wf T0 None a -> wf T0 (Some i) a.
Proof. intros Hw. pose proof (wf_keepalive _ _ _ Hw) as Hk. destruct Hw. split; try done. intros j e p x Hj Hs He Hx _. by eapply Hk. Qed.

Lemma wf_restore i a : wf T0 (Some i) a ->
  (forall e p x, rd (entries a) i = Some e -> entry_state e = AGENT_STUN_ENTRY_STATE_SUCCEEDED_KEEPALIVE -> entry_pair e = Some p -> rd (candidate_pairs a) p = Some x -> good x) ->
  wf T0 None a.
Proof.
  intros Hw Hi. pose proof (wf_keepalive _ _ _ Hw) as Hk. destruct Hw. split; try done. intros j e p x Hj Hs He Hx _. destruct (decide (j = i)) as [->|Hne]; [by eapply Hi|]. eapply Hk; [done..|]. congruence.
Qed.

Lemma entry_fails_step o a i e : entry_ok T0 (candidate_pairs_count a) (entries_count a) e -> entry_step T0 o a i e (e <| entry_state := AGENT_STUN_ENTRY_STATE_FAILED |> <| next_transmission := 0 |>).
Proof. intros []. split; [split; try done; by left|done|done]. Qed.

(** An entry that fails needs no good pair. *)
Lemma entry_fails_runs o i w : wf T0 o (agent w) -> 0 <= i < entries_count (agent w) ->
  runs (entry_fails i) w (fun _ w' => kept o (agent w) (agent w') /\ candidate_pairs (agent w') = candidate_pairs (agent w) /\
    exists e, rd (entries (agent w')) i = Some e /\ entry_state e = AGENT_STUN_ENTRY_STATE_FAILED).
Proof.
  intros Hw Hi. eapply update_entry_kept; [done..| |]; [intros e He; by apply entry_fails_step|]. intros e w' He -> K _. split; [done|]. split; [done|].
  cbn. rewrite rd_insert, decide_True by done. eauto.
Qed.

Lemma entry_fails_restores o i w : o = None \/ o = Some i -> wf T0 o (agent w) -> 0 <= i < entries_count (agent w) ->
  runs (entry_fails i) w (fun _ w' => kept None (agent w) (agent w') /\ exists e, rd (entries (agent w')) i = Some e /\ entry_state e = AGENT_STUN_ENTRY_STATE_FAILED).
Proof.
  intros Ho Hw Hi. eapply runs_mono; [by eapply entry_fails_runs|]. intros _ w' ([W G] & _ & e & He & Hs). split; [|eauto]. split; [|done].
  destruct Ho as [->| ->]; [done|]. eapply wf_restore; [done|]. intros e' p x He' Hs'. rewrite He in He'. injection He' as <-. congruence.
Qed.

(** The pair of an entry fails: only that entry may rely on it. *)
Lemma pair_fails_weak i e p w : wf T0 None (agent w) -> rd (entries (agent w)) i = Some e -> entry_pair e = Some p ->
  runs (update_pair p (fun x => x <| state := ICE_CANDIDATE_PAIR_STATE_FAILED |>)) w (fun _ w' => kept (Some i) (agent w) (agent w') /\ entries (agent w') = entries (agent w)).
Proof.
  intros Hw He Hp. eapply (update_pair_kept (Some i)); [by apply wf_weaken|by eapply entry_pair_valid| |].
  - intros x Hx []. split; [by split|done|]. intros _. right. eauto.
  - by intros x w' Hx -> K _.
Qed.

Lemma pair_fails_restored i e p w : wf T0 None (agent w) -> rd (entries (agent w)) i = Some e -> entry_pair e = Some p -> entry_state e = AGENT_STUN_ENTRY_STATE_FAILED ->
  safe None (update_pair p (fun x => x <| state := ICE_CANDIDATE_PAIR_STATE_FAILED |>)) w.
Proof.
  intros Hw He Hp Hs. eapply runs_mono; [by eapply pair_fails_weak|]. intros _ w' ([W G] & Ee). split; [|done]. eapply wf_restore; [done|].
  intros e' q x He' Hs'. rewrite Ee, He in He'. injection He' as <-. congruence.
Qed.

Lemma entry_pair_fails_restored i e w : wf T0 None (agent w) -> rd (entries (agent w)) i = Some e -> entry_state e = AGENT_STUN_ENTRY_STATE_FAILED -> safe None (entry_pair_fails i) w.
Proof.
  intros Hw He Hs. apply runs_bind, runs_get_entry; [by eapply rd_Some_lt|]. intros e' He'. rewrite He in He'. injection He' as <-.
  destruct (entry_pair e) as [p|] eqn:Ep; [by eapply pair_fails_restored|by apply safe_ret].
Qed.

(** ** Processing Binding messages *)

Lemma check_has_pair o i e w : wf T0 o (agent w) -> rd (entries (agent w)) i = Some e -> entry_type e = AGENT_STUN_ENTRY_TYPE_CHECK ->
  exists p, entry_pair e = Some p /\ 0 <= p < candidate_pairs_count (agent w).
Proof.
  intros Hw He Ht. destruct (Forall_rd _ _ _ _ (wf_entries _ _ _ Hw) He) as [Hc Hp _ _ _ _]. apply Hc in Ht. destruct (entry_pair e) as [p|]; [|done]. eauto.
Qed.

Lemma process_request_safe o i m src w : wf T0 o (agent w) -> 0 <= i < entries_count (agent w) -> id_ok (Stun.transaction_id m) -> sockaddr_ok (addr src) ->
  safe o (process_request i m src) w.
Proof.
  intros Hw Hi Hm Hsrc. apply runs_bind, runs_get_entry; [done|]. intros e He. decide_case Ht; [by apply safe_ret|]. apply negb_false_iff, bool_decide_eq_true in Ht.
  destruct (check_has_pair o i e w Hw He Ht) as (p & Ep & Hp).
  assert (Hbad : forall w', kept o (agent w) (agent w') -> safe o (_ ← reply i m 400; mret (-1)) w').
  { intros w' K. pose proof (grows_count _ _ (kept_grows _ _ _ K)). eapply safe_then; [apply (reply_safe o); [apply K|lia|done|lia]|]. intros _ w2 K2. apply safe_ret, K2. }
  decide_case B1; [by apply Hbad, kept_refl|]. eapply safe_then; [by apply (repair_role_conflict_safe o)|]. intros conflict w1 K1. decide_case B2; [apply safe_ret, K1|].
  decide_case B3; [by apply Hbad|]. apply runs_bind. eapply runs_lift; [exact Ep|]. pose proof (grows_pairs _ _ (kept_grows _ _ _ K1)).
  eapply safe_then with (o' := o).
  { decide_case B4; [|apply safe_ret, K1]. eapply safe_update_pair; [apply K1|lia|]. intros x Hx []. case_bool_decide; [|destruct (negb _)]; (split; [by split|done|]); intros Hg; left; [by left|exact Hg..]. }
  intros _ w2 K2. pose proof (grows_count _ _ (kept_grows _ _ _ K1)). pose proof (grows_count _ _ (kept_grows _ _ _ K2)). pose proof (grows_pairs _ _ (kept_grows _ _ _ K2)).
  eapply safe_then with (o' := o). { apply agent_send_stun_binding_safe; [apply K2|lia|by repeat constructor|lia|naive_solver|naive_solver]. }
  intros ret w3 K3. pose proof (grows_count _ _ (kept_grows _ _ _ K3)). pose proof (grows_pairs _ _ (kept_grows _ _ _ K3)). decide_case B5; [apply safe_ret, K3|].
  apply runs_bind, runs_get_pair; [lia|]. intros x Hx. eapply safe_look; [apply (runs_remote_has_ufrag o), K3|]. intros known _.
  eapply safe_then with (o' := o); [|intros _ w4 K4; apply safe_ret, K4]. decide_case B6; [|apply safe_ret, K3]. apply andb_true_iff in B6 as [B6 _]. apply negb_true_iff, bool_decide_eq_false in B6.
  eapply safe_then with (o' := o).
  { eapply safe_update_pair; [apply K3|lia|]. intros y Hy []. rewrite Hx in Hy. injection Hy as <-. split; [by split|done|]. intros [Hn|?]; [left; by left|done]. }
  intros _ w4 K4. pose proof (grows_count _ _ (kept_grows _ _ _ K4)). eapply safe_then with (o' := o).
  { eapply safe_update_entry; [apply K4|lia|]. intros e' He' []. by split. }
  intros _ w5 K5. pose proof (grows_count _ _ (kept_grows _ _ _ K5)). apply agent_arm_transmission_safe; [apply K5|lia|by vm_compute].
Qed.

Lemma find_candidate_valid d r ty k : description_ok d -> ice_find_candidate_from_addr d r ty = Some k -> 0 <= k < ICE_MAX_CANDIDATES_COUNT.
Proof.
  intros [_ _ Hc]. unfold ice_find_candidate_from_addr. intros ([j c] & Hj & ->)%fmap_Some. apply list_find_Some in Hj as (Hj & _ & _). apply lookup_lt_Some in Hj.
  unfold candidates_count, zlen in Hc. lia.
Qed.

Lemma check_succeeded_safe i m src w : wf T0 (Some i) (agent w) -> 0 <= i < entries_count (agent w) -> safe None (check_succeeded i m src) w.
Proof.
  intros Hw Hi. apply runs_bind, runs_get_entry; [done|]. intros e He.
  destruct (entry_pair e) as [p|] eqn:Ep; [|apply runs_ret; split; [|done]; eapply wf_restore; [done|]; intros e' p x He'; rewrite He in He'; injection He' as <-; congruence].
  pose proof (entry_pair_valid _ _ _ _ _ Hw He Ep) as Hp. apply runs_bind, runs_get_pair; [done|]. intros x Hx. decide_case B1.
  - eapply safe_bind with (o' := None); [apply (entry_fails_restores (Some i)); auto|]. intros _ w1 K1 (e1 & He1 & Hs1).
    pose proof (grows_entries _ _ (kept_grows _ _ _ K1) i e He) as (e1' & He1' & Hp1 & _). rewrite He1 in He1'. injection He1' as <-. rewrite Ep in Hp1.
    eapply safe_then; [eapply pair_fails_restored; [apply K1|done..]|]. intros _ w2 K2. apply safe_ret, K2.
  - eapply safe_bind with (o' := None) (Q := fun _ _ => True).
    { eapply (update_pair_kept (Some i)); [done..| |].
      - intros y Hy []. split; [by case_match|by case_match|]. intros _. right. eauto.
      - intros y w1 Hy -> [W G] _. split; [|done]. split; [|done]. eapply wf_restore; [exact W|]. cbn. intros e' q z He' _ Hq. rewrite He in He'. injection He' as <-.
        rewrite Ep in Hq. injection Hq as <-. rewrite rd_insert, decide_True by done. intros [= <-]. right. destruct (bool_decide (state y = ICE_CANDIDATE_PAIR_STATE_SUCCEEDED)) eqn:Es; [by apply bool_decide_eq_true in Es|done]. }
    intros _ w1 K1 _. apply runs_bind, runs_gets. cbv beta. pose proof (grows_pairs _ _ (kept_grows _ _ _ K1)). eapply safe_then with (o' := None).
    { eapply safe_update_pair; [apply K1|lia|]. intros y Hy Hok. destruct (local y) eqn:El; [by split; auto|]. destruct (negb (len (mapped m) =? 0)); [|by split; auto].
      split; [split; [apply Hok|]|done|auto]. cbn. intros c (k & Hk & ->)%fmap_Some. eapply (find_candidate_valid _ _ _ k); [apply (wf_local _ _ _ (kept_wf _ _ _ K1))|exact Hk]. }
    intros _ w2 K2. pose proof (grows_pairs _ _ (kept_grows _ _ _ K2)). apply safe_time. intros _. eapply safe_then with (o' := None).
    { eapply safe_update_pair; [apply (kept_wf _ _ _ K2)|cbn; lia|]. intros y Hy []. split; auto. by split. }
    intros _ w3 K3. pose proof (grows_pairs _ _ (kept_grows _ _ _ K3)). cbn in *. eapply safe_then with (o' := None); [|intros _ w4 K4; apply safe_ret, K4].
    eapply safe_update_pair; [apply K3|lia|]. intros y Hy Hok. destruct (nomination_requested y); [|by split; auto]. destruct Hok. split; [by split|done|]. intros _. by left; left.
Qed.

(** What became of an entry. *)
Lemma kept_entry o i e a a' : kept o a a' -> rd (entries a) i = Some e -> exists e', rd (entries a') i = Some e' /\ entry_pair e' = entry_pair e /\ entry_type e' = entry_type e.
Proof. intros [_ [_ G]] He. by apply G. Qed.

Lemma kept_index o i a a' : kept o a a' -> 0 <= i < entries_count a -> 0 <= i < entries_count a'.
Proof. intros K Hi. pose proof (grows_count _ _ (kept_grows _ _ _ K)). lia. Qed.
Lemma kept_pair_index o p a a' : kept o a a' -> 0 <= p < candidate_pairs_count a -> 0 <= p < candidate_pairs_count a'.
Proof. intros K Hp. pose proof (grows_pairs _ _ (kept_grows _ _ _ K)). lia. Qed.

Lemma enable_entry_runs i w : wf T0 None (agent w) -> 0 <= i < entries_count (agent w) ->
  runs (update_entry i (fun e => e <| entry_state := AGENT_STUN_ENTRY_STATE_SUCCEEDED_KEEPALIVE |>)) w (fun _ w' => kept (Some i) (agent w) (agent w') /\
    candidate_pairs (agent w') = candidate_pairs (agent w) /\ forall e, rd (entries (agent w')) i = Some e -> entry_state e <> AGENT_STUN_ENTRY_STATE_SUCCEEDED).
Proof.
  intros Hw Hi. eapply (update_entry_kept (Some i)); [by apply wf_weaken|done| |].
  - intros e He []. split; [by split|done|auto].
  - intros e w' He -> K _. split; [done|]. split; [done|]. cbn. intros e'. rewrite rd_insert, decide_True by done. by intros [= <-].
Qed.

Lemma process_success_safe i m src relayed_ w : wf T0 None (agent w) -> 0 <= i < entries_count (agent w) -> safe None (process_success i m src relayed_) w.
Proof.
  intros Hw Hi. eapply safe_then with (o' := None).
  { eapply safe_update_entry; [done..|]. intros e He []. case_bool_decide; (split; [split; try done; by left|done|]); cbn; [by left|done]. }
  intros _ w1 K1. pose proof (kept_index _ _ _ _ K1 Hi) as Hi1. pose proof (kept_wf _ _ _ K1) as W1. apply runs_bind, runs_gets. cbv beta.
  eapply safe_look; [by apply (selected_nominated_runs None)|]. intros final _. eapply safe_then with (o' := Some i).
  { decide_case B1; [|apply safe_ret; by apply wf_weaken]. eapply safe_bind; [by apply enable_entry_runs|]. intros _ w2 K2 [_ Hs]. pose proof (kept_index _ _ _ _ K2 Hi1).
    apply agent_arm_keepalive_safe; [apply K2|done|exact Hs]. }
  intros _ w2 K2. pose proof (kept_index _ _ _ _ K2 Hi1) as Hi2. apply runs_bind, runs_get_entry; [done|]. intros e He. eapply safe_then with (o' := Some i).
  { decide_case B1; [|apply safe_ret, K2]. eapply safe_then; [apply (agent_add_local_reflexive_candidate_safe (Some i)), K2|]. intros _ w3 K3. apply safe_ret, K3. }
  intros _ w3 K3. pose proof (kept_index _ _ _ _ K3 Hi2) as Hi3. pose proof (kept_wf _ _ _ K3) as W3.
  assert (Hnone : entry_type e <> AGENT_STUN_ENTRY_TYPE_CHECK -> wf T0 None (agent w3)).
  { intros Ht. eapply wf_restore; [done|]. intros e' p x He' _ Hp. exfalso. destruct (kept_entry _ _ _ _ _ K3 He) as (e'' & He'' & _ & Ht'). rewrite He' in He''. injection He'' as <-.
    apply Ht. rewrite <- Ht'. apply (Forall_rd _ _ _ _ (wf_entries _ _ _ W3)) in He' as [Hc _ _ _ _ _]. apply Hc. congruence. }
  assert (Hret : forall x : Z, entry_type e <> AGENT_STUN_ENTRY_TYPE_CHECK -> safe None (mret x) w3) by (intros; apply safe_ret; auto).
  destruct (entry_type e) eqn:Et; [by apply Hret| |by apply Hret|by apply check_succeeded_safe].
  eapply safe_then; [apply (agent_update_gathering_done_safe None); by apply Hnone|]. intros _ w4 K4. apply safe_ret, K4.
Qed.

Lemma set_roles_kept o a m t : wf T0 o a -> 0 <= t < 18446744073709551616 -> kept o a (a <| mode := m |> <| ice_tiebreaker := t |>).
Proof. intros [] Ht. split; [by split|]. split; cbn; [done|eauto]. Qed.

Lemma process_error_safe i m w : wf T0 None (agent w) -> 0 <= i < entries_count (agent w) -> safe None (process_error i m) w.
Proof.
  intros Hw Hi. apply runs_bind, runs_get_entry; [done|]. intros e He. destruct (entry_type e) eqn:Et; [by apply safe_ret| |by apply safe_ret|].
  - eapply safe_then with (o' := None). { eapply safe_update_entry; [done..|]. intros e' He' []. by split. }
    intros _ w1 K1. eapply safe_then; [apply (agent_update_gathering_done_safe None), K1|]. intros _ w2 K2. apply safe_ret, K2.
  - decide_case B1.
    + apply runs_bind, runs_gets. cbv beta. decide_case B2; [|by apply safe_ret]. apply safe_draw. intros k.
      eapply safe_then with (o' := None); [apply runs_modify; by apply set_roles_kept, random64_range|]. intros _ w1 K1. pose proof (kept_index _ i _ _ K1 Hi) as Hi1.
      eapply safe_then; [apply (agent_update_candidate_pairs_safe None), K1|]. intros _ w2 K2. pose proof (kept_index _ _ _ _ K2 Hi1) as Hi2.
      eapply safe_then with (o' := None); [|intros _ w3 K3; apply safe_ret, K3]. decide_case B3; [|apply safe_ret, K2].
      eapply safe_then with (o' := None). { eapply safe_update_entry; [apply K2|done|]. intros e' He' []. by split. }
      intros _ w3 K3. pose proof (kept_index _ _ _ _ K3 Hi2). apply agent_arm_transmission_safe; [apply K3|done|by vm_compute].
    + eapply safe_bind with (o' := None); [apply (entry_fails_restores None); auto|]. intros _ w1 K1 (e1 & He1 & Hs1).
      destruct (kept_entry _ _ _ _ _ K1 He) as (e1' & He1' & Hp1 & _). rewrite He1 in He1'. injection He1' as <-.
      eapply safe_then with (o' := None); [|intros _ w2 K2; apply safe_ret, K2].
      destruct (entry_pair e) as [p|] eqn:Ep; [|apply safe_ret, K1]. eapply pair_fails_restored; [apply K1|done..].
Qed.

Lemma agent_process_stun_binding_safe m i src relayed_ w : wf T0 None (agent w) -> 0 <= i < entries_count (agent w) -> id_ok (Stun.transaction_id m) -> sockaddr_ok (addr src) ->
  safe None (agent_process_stun_binding m i src relayed_) w.
Proof.
  intros Hw Hi Hm Hsrc. unfold agent_process_stun_binding. decide_case B1; [by apply process_request_safe|]. decide_case B2; [by apply process_success_safe|].
  decide_case B3; [by apply process_error_safe|]. decide_case B4; by apply safe_ret.
Qed.

(** ** TCP connections *)

Lemma agent_conn_tcp_state_safe dst st w : wf T0 None (agent w) -> safe None (agent_conn_tcp_state dst st) w.
Proof.
  intros Hw. eapply safe_look.
  { eapply (runs_first_entry None _ (fun _ _ => True)); [done|]. intros i e He. apply runs_bind. eapply runs_mono; [by eapply entry_is_tcp_safe|]. intros b w' ->. by apply runs_ret. }
  intros [i|] Hr; [|by apply safe_ret]. destruct Hr as (e & He & _). pose proof (rd_Some_lt _ _ _ He) as Hi. eapply safe_then with (o' := None).
  { eapply safe_update_entry; [done..|]. intros e' He' []. split; [by split|done|by left]. }
  intros _ w1 K1. pose proof (kept_index _ i _ _ K1 Hi) as Hi1. eapply safe_then with (o' := None); [|intros _ w2 K2; apply safe_ret, K2].
  assert (Hfail : safe None (_ ← entry_fails i; entry_pair_fails i) w1).
  { eapply safe_bind with (o' := None); [apply (entry_fails_restores None); [auto|apply K1|done]|]. intros _ w2 K2 (e2 & He2 & Hs2). eapply entry_pair_fails_restored; [apply K2|done..]. }
  destruct st; [exact Hfail|apply safe_ret, K1| |exact Hfail]. apply agent_arm_transmission_safe; [apply K1|done|by vm_compute].
Qed.

Lemma conn_tcp_connect_safe dst w : wf T0 None (agent w) -> safe None (conn_tcp_connect dst) w.
Proof.
  intros Hw. apply safe_draw. intros k. decide_case B1; [|by apply safe_ret]. eapply safe_then with (o' := None); [apply runs_emit; by apply kept_refl|]. intros _ w1 K1.
  eapply safe_then; [apply agent_conn_tcp_state_safe, K1|]. intros _ w2 K2. apply safe_ret, K2.
Qed.
End safety.
