(* ===== verification/AgentBook.v ===== *)
(** * The ICE agent: bookkeeping

    [agent_bookkeeping] never goes wrong, and selects the pair of highest priority among the nominated ones, or else
    among those that succeeded; the agent's operations keep the invariant. *)

From Stdlib Require Import Sorting.Sorted.
From S2P Require Import Prelude Bytes Stdio Addr Stun StunWrite StunWriteProps StunEncode Turn Ice IceProps IceSdp Agent AgentTimers AgentSafe AgentOps.
Open Scope Z_scope.

(** ** What programs leave alone *)

Definition preserves {X} (R : juice_agent -> juice_agent -> Prop) (m : M X) : Prop := forall w x w', m w = Some (x, w') -> R (agent w) (agent w').

Section preserves.
Context {E : Environment} (R : juice_agent -> juice_agent -> Prop) `{!Reflexive R, !Transitive R}.

Lemma preserves_ret {X} (x : X) : preserves R (mret x).
Proof. by intros w y w' [= <- <-]. Qed.
Lemma preserves_bind {X Y} (m : M X) (f : X -> M Y) : preserves R m -> (forall x, preserves R (f x)) -> preserves R (m ≫= f).
Proof.
  intros Hm Hf w y w' HE. unfold mbind, M_bind in HE. destruct (m w) as [[x w1]|] eqn:Em; [|done]. transitivity (agent w1); [by eapply Hm|by eapply Hf].
Qed.
Lemma preserves_gets {X} (f : juice_agent -> X) : preserves R (gets f).
Proof. by intros w y w' [= <- <-]. Qed.
Lemma preserves_lift {X} (o : option X) : preserves R (lift o).
Proof. intros w y w'. unfold lift. destruct o; [|done]. by intros [= <- <-]. Qed.
Lemma preserves_emit e : preserves R (emit e).
Proof. by intros w y w' [= <- <-]. Qed.
Lemma preserves_time : preserves R current_timestamp.
Proof. by intros w y w' [= <- <-]. Qed.
Lemma preserves_draw {X} (s : nat -> X) : preserves R (draw s).
Proof. by intros w y w' [= <- <-]. Qed.
Lemma preserves_transmit e : preserves R (transmit e).
Proof. by intros w y w' [= <- <-]. Qed.
Lemma preserves_modify f : (forall a, R a (f a)) -> preserves R (modify f).
Proof. by intros Hf w y w' [= <- <-]. Qed.
Lemma preserves_for n body : forall i, (forall j, preserves R (body j)) -> preserves R (for_m n i body).
Proof. induction n as [|n IH]; intros i Hb; cbn [for_m]; [apply preserves_ret|]. apply preserves_bind; auto. Qed.
Lemma preserves_until {X} n (body : Z -> M (option X)) : forall i, (forall j, preserves R (body j)) -> preserves R (for_until n i body).
Proof. induction n as [|n IH]; intros i Hb; cbn [for_until]; [apply preserves_ret|]. apply preserves_bind; [done|]. intros [x|]; [apply preserves_ret|auto]. Qed.

Lemma runs_preserves {X} (m : M X) w Q : preserves R m -> runs m w Q -> runs m w (fun x w' => Q x w' /\ R (agent w) (agent w')).
Proof. intros Hm (x & w' & E' & HQ). exists x, w'. split; [done|]. split; [done|by eapply Hm]. Qed.
End preserves.

Ltac preserve_step := lazymatch goal with
  | |- Reflexive _ => typeclasses eauto
  | |- Transitive _ => typeclasses eauto
  | |- preserves _ (mret _) => apply preserves_ret
  | |- preserves _ (_ ≫= _) => apply preserves_bind; [| |intros ?]
  | |- preserves _ (gets _) => apply preserves_gets
  | |- preserves _ (lift _) => apply preserves_lift
  | |- preserves _ (emit _) => apply preserves_emit
  | |- preserves _ current_timestamp => apply preserves_time
  | |- preserves _ (draw _) => apply preserves_draw
  | |- preserves _ (transmit _) => apply preserves_transmit
  | |- preserves _ (for_m _ _ _) => apply preserves_for; [| |intros ?]
  | |- preserves _ (for_until _ _ _) => apply preserves_until; [| |intros ?]
  | |- preserves _ (if ?b then _ else _) => destruct b
  | |- preserves _ (match ?x with _ => _ end) => destruct x
  | |- preserves _ (for_entries _) => unfold for_entries
  | |- preserves _ (for_pairs _) => unfold for_pairs
  | |- preserves _ (first_entry _) => unfold first_entry
  | |- preserves _ (get_entry _) => unfold get_entry
  | |- preserves _ (get_pair _) => unfold get_pair
  | |- preserves _ (get_candidate _) => unfold get_candidate
  | |- preserves _ (get_entry_pair _) => unfold get_entry_pair
  | |- preserves _ (entry_is_tcp _) => unfold entry_is_tcp
  | |- preserves _ remote_has_ufrag => unfold remote_has_ufrag
  end.

(** The states of the entries. *)
Definition same_states (a a' : juice_agent) : Prop := forall i e', rd (entries a') i = Some e' -> exists e, rd (entries a) i = Some e /\ entry_state e' = entry_state e.
#[export] Instance same_states_refl : Reflexive same_states.
Proof. intros a i e' He'. eauto. Qed.
#[export] Instance same_states_trans : Transitive same_states.
Proof. intros a b c H1 H2 i e He. destruct (H2 i e He) as (e1 & He1 & ->). destruct (H1 i e1 He1) as (e2 & He2 & ->). eauto. Qed.

(** The pairs, their order, and which is selected. *)
Definition same_pairs (a a' : juice_agent) : Prop := candidate_pairs a' = candidate_pairs a /\ ordered_pairs a' = ordered_pairs a /\ selected_pair a' = selected_pair a /\ juice_state a' = juice_state a.
#[export] Instance same_pairs_refl : Reflexive same_pairs.
Proof. by intros a. Qed.
#[export] Instance same_pairs_trans : Transitive same_pairs.
Proof. intros a b c (H1 & H2 & H3 & H4) (H5 & H6 & H7 & H8). split_and!; congruence. Qed.

Lemma update_entry_same_states i f : (forall e, entry_state (f e) = entry_state e) -> preserves same_states (update_entry i f).
Proof.
  intros Hf w x w'. unfold update_entry, get_entry, set_entry, mbind, M_bind, gets, lift. cbn. unfold mbind, option_bind. destruct (rd (entries (agent w)) i) as [e|] eqn:He; [|done]. cbn.
  pose proof (rd_Some_lt _ _ _ He). rewrite wr_Some by done. intros [= <- <-]. cbn. intros j e'. match goal with |- rd (entries (_ <| entries := ?l |>)) _ = _ -> _ => change (rd l j = Some e' -> exists e0, rd (entries (agent w)) j = Some e0 /\ entry_state e' = entry_state e0) end. rewrite rd_insert by done. destruct (decide (j = i)) as [->|]; [intros [= <-]; eauto|eauto].
Qed.

Lemma update_entry_same_pairs i f : preserves same_pairs (update_entry i f).
Proof.
  intros w x w'. unfold update_entry, get_entry, set_entry, mbind, M_bind, gets, lift. cbn. unfold mbind, option_bind. destruct (rd (entries (agent w)) i) as [e|] eqn:He; [|done]. cbn.
  destruct (wr _ _ _); [|done]. intros [= <- <-]. done.
Qed.

Section bookkeeping.
Context {E : Environment} {Start : Epoch} {EOk : EnvironmentOk E Start} {H : Hash} {HOk : HashOk H}.

Lemma agent_send_stun_binding_states i cls code tid mapped_ : preserves same_states (agent_send_stun_binding i cls code tid mapped_).
Proof. unfold agent_send_stun_binding. repeat preserve_step. by apply update_entry_same_states. Qed.

Lemma agent_arm_transmission_pairs i d : preserves same_pairs (agent_arm_transmission i d).
Proof. unfold agent_arm_transmission. repeat preserve_step; apply update_entry_same_pairs. Qed.

Lemma agent_arm_keepalive_pairs i : preserves same_pairs (agent_arm_keepalive i).
Proof. unfold agent_arm_keepalive. repeat preserve_step; try apply update_entry_same_pairs; apply agent_arm_transmission_pairs. Qed.

(** ** Transmissions *)

Lemma new_transaction_id_safe o i w : wf T0 o (agent w) -> 0 <= i < entries_count (agent w) -> safe o (new_transaction_id i) w.
Proof.
  intros Hw Hi. apply safe_draw. intros k. apply safe_update_entry; [done..|]. intros e He []. split; [split; try done; apply random_id_ok|done|by left].
Qed.

Lemma send_request_safe o i method w : wf T0 o (agent w) -> 0 <= i < entries_count (agent w) -> safe o (send_request i method) w.
Proof.
  intros Hw Hi. apply runs_bind, runs_get_entry; [done|]. intros e He.
  assert (Hb : safe o (agent_send_stun_binding i STUN_CLASS_REQUEST 0 None None) w) by (apply agent_send_stun_binding_safe; [done|done|by repeat constructor|lia|done|done]).
  destruct (entry_type e); [exact Hb|exact Hb| |exact Hb]. apply runs_transmit. intros r. by apply kept_refl.
Qed.

Lemma path_ready_safe i w : wf T0 None (agent w) -> 0 <= i < entries_count (agent w) -> safe None (path_ready i) w.
Proof.
  intros Hw Hi. apply runs_bind, runs_get_entry; [done|]. intros e He. eapply safe_look with (Q := fun _ => True). { eapply runs_mono; [by eapply entry_is_tcp_safe|]. by intros b w' ->. }
  intros tcp _. decide_case B1; [|by apply safe_ret]. eapply safe_then with (o' := None). { decide_case B2; [by apply conn_tcp_connect_safe|by apply safe_ret]. }
  intros _ w1 K1. apply runs_bind, runs_get_entry; [by eapply kept_index|]. intros e1 He1. apply safe_ret, K1.
Qed.

Definition in_window (t : Z) : Prop := T0 <= t <= T0 + time_span.

Lemma count_transmission_ok o a i e now : in_window now -> entry_ok T0 (candidate_pairs_count a) (entries_count a) e -> entry_step T0 o a i e (count_transmission now e).
Proof.
  intros [Hn1 Hn2] []. unfold count_transmission. pose proof longest_delay_value as Hl. change LAST_STUN_RETRANSMISSION_TIMEOUT with 8000.
  destruct (Z.ltb_spec (retransmissions e - 1) 0); (split; [split; try done|done|by left]); cbn.
  - right. cbn. rewrite Hl. lia.
  - lia.
  - right. cbn. specialize (eok_backoff ltac:(lia)). rewrite Hl.
    assert (1 <= 2 ^ retransmissions e) by (apply (Z.pow_le_mono_r 2 0); lia). nia.
  - lia.
  - intros _. specialize (eok_backoff ltac:(lia)). replace (retransmissions e) with (1 + (retransmissions e - 1)) in eok_backoff by lia. rewrite Z.pow_add_r in eok_backoff by lia. lia.
Qed.

Lemma try_transmission_safe now i w : in_window now -> wf T0 None (agent w) -> 0 <= i < entries_count (agent w) -> safe None (try_transmission now i) w.
Proof.
  intros Hn Hw Hi. apply runs_bind, runs_get_entry; [done|]. intros e He. decide_case B1; [by apply safe_ret|].
  eapply safe_then with (o' := None). { decide_case B2; [by apply new_transaction_id_safe|by apply safe_ret]. }
  intros _ w1 K1. pose proof (kept_index _ _ _ _ K1 Hi) as Hi1. eapply safe_then; [apply (send_request_safe None); [apply K1|done]|]. intros ret w2 K2.
  pose proof (kept_index _ _ _ _ K2 Hi1) as Hi2. decide_case B3; [apply safe_ret, K2|]. eapply safe_then with (o' := None); [|intros _ w3 K3; apply safe_ret, K3].
  apply safe_update_entry; [apply K2|done|]. intros e' He' Hok. by apply count_transmission_ok.
Qed.

Lemma entry_gives_up_safe i w : wf T0 None (agent w) -> 0 <= i < entries_count (agent w) -> safe None (entry_gives_up i) w.
Proof.
  intros Hw Hi. eapply safe_bind with (o' := None); [apply (entry_fails_restores None); auto|]. intros _ w1 K1 (e1 & He1 & Hs1).
  apply runs_bind, runs_get_entry; [by eapply rd_Some_lt|]. intros e' He'. rewrite He1 in He'. injection He' as <-.
  assert (Hp : safe None (entry_pair_fails i) w1) by (eapply entry_pair_fails_restored; [apply K1|done..]).
  destruct (entry_type e1); [exact Hp|apply agent_update_gathering_done_safe, K1..|exact Hp].
Qed.

Lemma pending_transmission_safe now i w : in_window now -> wf T0 None (agent w) -> 0 <= i < entries_count (agent w) -> safe None (pending_transmission now i) w.
Proof.
  intros Hn Hw Hi. apply runs_bind, runs_get_entry; [done|]. intros e He. decide_case B1; [by apply safe_ret|].
  eapply safe_then; [by apply path_ready_safe|]. intros ready w1 K1. pose proof (kept_index _ _ _ _ K1 Hi) as Hi1. decide_case B2; [apply safe_ret, K1|].
  eapply safe_then; [apply try_transmission_safe; [done|apply K1|done]|]. intros sent w2 K2. decide_case B3; [apply safe_ret, K2|]. apply entry_gives_up_safe; [apply K2|by eapply kept_index].
Qed.

Lemma keepalive_transmission_safe now i e w : wf T0 None (agent w) -> rd (entries (agent w)) i = Some e -> entry_state e = AGENT_STUN_ENTRY_STATE_SUCCEEDED_KEEPALIVE ->
  safe None (keepalive_transmission now i) w.
Proof.
  intros Hw He Hs. pose proof (rd_Some_lt _ _ _ He) as Hi. apply runs_bind, runs_get_entry; [done|]. intros e' He'. rewrite He in He'. injection He' as <-.
  apply runs_bind. eapply (runs_get_entry_pair None i); [done..|]. intros x Hx _.
  eapply safe_look with (Q := fun b : bool => b = true -> entry_pair e <> None).
  { destruct (entry_pair e) as [p|]; cbn in Hx; [destruct x; by apply runs_ret|subst x; by apply runs_ret]. }
  intros expired Hb. decide_case B1.
  - destruct (entry_pair e) as [p|] eqn:Ep; [|by specialize (Hb eq_refl)]. eapply safe_then with (o' := Some i).
    { apply runs_bind, runs_get_entry; [done|]. intros e' He'. rewrite He in He'. injection He' as <-. rewrite Ep. eapply runs_mono; [by eapply pair_fails_weak|]. by intros _ w' [K _]. }
    intros _ w1 K1. eapply runs_mono; [apply (entry_fails_restores (Some i)); [auto|apply K1|by eapply kept_index]|]. by intros _ w' [K _].
  - decide_case B2; [by apply safe_ret|].
    eapply safe_bind with (o' := None).
    { eapply runs_preserves with (R := same_states); [|by apply new_transaction_id_safe]. unfold new_transaction_id. repeat preserve_step. by apply update_entry_same_states. }
    intros ? w1 K1 S1. pose proof (kept_index _ _ _ _ K1 Hi) as Hi1. eapply safe_bind with (o' := None).
    { eapply runs_preserves with (R := same_states); [|apply send_request_safe; [apply K1|done]]. unfold send_request. repeat preserve_step; apply agent_send_stun_binding_states. }
    intros ret w2 K2 S2. pose proof (kept_index _ _ _ _ K2 Hi1) as Hi2. decide_case B3; [apply agent_arm_transmission_safe; [apply K2|done|by vm_compute]|].
    apply agent_arm_keepalive_safe; [apply K2|done|]. intros e2 He2. assert (Ss : same_states (agent w) (agent w2)) by exact (same_states_trans _ _ _ S1 S2). destruct (Ss i e2 He2) as (e0 & He0 & ->). congruence.
Qed.

Lemma entry_transmission_safe now i w : in_window now -> wf T0 None (agent w) -> 0 <= i < entries_count (agent w) -> safe None (entry_transmission now i) w.
Proof.
  intros Hn Hw Hi. apply runs_bind, runs_get_entry; [done|]. intros e He.
  assert (Hunset : safe None (update_entry i (fun e => e <| next_transmission := 0 |>)) w).
  { apply safe_update_entry; [done..|]. intros e' He' []. split; [split; try done; by left|done|by left]. }
  destruct (entry_state e) eqn:Es; try exact Hunset; [by apply pending_transmission_safe|by eapply keepalive_transmission_safe].
Qed.

(** ** The scan of the pairs *)

(** A pair, and what the scan makes of it. *)
Definition frozen (x x' : pair_t) : Prop := x' = x \/ state x = ICE_CANDIDATE_PAIR_STATE_PENDING /\ x' = x <| state := ICE_CANDIDATE_PAIR_STATE_FROZEN |>.
Definition succeeded (x : pair_t) : Prop := state x = ICE_CANDIDATE_PAIR_STATE_SUCCEEDED.
Definition is_nominated (x : pair_t) : Prop := nominated x = true.

Lemma frozen_facts x x' : frozen x x' -> (is_nominated x' <-> is_nominated x) /\ (succeeded x' <-> succeeded x) /\ pair_priority x' = pair_priority x /\ (pair_ok x -> pair_ok x') /\ (good x -> good x').
Proof.
  unfold is_nominated, succeeded, good. intros [->|[Hs ->]]; [split_and!; try done|]. cbn. rewrite Hs. split_and!; try done; [by intros []; split|]. intros [?|?]; [by left|done].
Qed.

Definition scanning (a a' : juice_agent) : Prop := exists l, a' = a <| candidate_pairs := l |> /\ Forall2 frozen (candidate_pairs a) l.

Lemma scanned_refl a : scanning a a.
Proof. exists (candidate_pairs a). split; [by destruct a|]. apply Forall2_same_length_lookup_2; [done|]. intros i x y Hx Hy. rewrite Hx in Hy. injection Hy as <-. by left. Qed.

Lemma scanned_count a a' : scanning a a' -> candidate_pairs_count a' = candidate_pairs_count a.
Proof. intros (l & -> & Hl). unfold candidate_pairs_count, zlen. cbn. by rewrite (Forall2_length _ _ _ Hl). Qed.

Lemma scanned_pair a a' p x' : scanning a a' -> rd (candidate_pairs a') p = Some x' -> exists x, rd (candidate_pairs a) p = Some x /\ frozen x x'.
Proof.
  intros (l & -> & Hl) [Hp Hx]%rd_Some_inv. cbn in Hx. destruct (Forall2_lookup_r _ _ _ _ _ Hl Hx) as (x & Hx' & Hf). exists x. split; [|done]. by rewrite rd_nonneg by lia.
Qed.

Lemma scanned_freeze a a' p x : scanning a a' -> rd (candidate_pairs a') p = Some x -> state x = ICE_CANDIDATE_PAIR_STATE_PENDING ->
  scanning a (a' <| candidate_pairs := <[Z.to_nat p := x <| state := ICE_CANDIDATE_PAIR_STATE_FROZEN |>]> (candidate_pairs a') |>).
Proof.
  intros Hsc Hx Hs. destruct (scanned_pair _ _ _ _ Hsc Hx) as (x0 & Hx0 & Hf). destruct Hsc as (l & -> & Hl). cbn in *. exists (<[Z.to_nat p := x <| state := ICE_CANDIDATE_PAIR_STATE_FROZEN |>]> l).
  split; [by destruct a|]. apply rd_Some_inv in Hx0 as [_ Hx0]. rewrite <- (list_insert_id (candidate_pairs a) _ _ Hx0). apply Forall2_insert; [done|].
  destruct Hf as [->|[? ->]]; [by right|done].
Qed.

Lemma scanned_kept o a a' : wf T0 o a -> scanning a a' -> kept o a a'.
Proof.
  intros [] Hsc. pose proof (scanned_count _ _ Hsc) as Hn. assert (Hp : forall p x', rd (candidate_pairs a') p = Some x' -> exists x, rd (candidate_pairs a) p = Some x /\ frozen x x') by (intros; by eapply scanned_pair). destruct Hsc as (l & -> & Hl). cbn in Hp.
  split; [|split; [lia|cbn; eauto]]. split; try done; rewrite ?Hn; try done; cbn.
  - clear -Hl wf_pairs. induction Hl as [|x x' l1 l2 Hf _ IH]; constructor; apply Forall_cons in wf_pairs as [? ?]; [|auto]. by apply (frozen_facts _ _ Hf).
  - eapply in_order_ext; [..|exact wf_order]; [exact Hn|]. intros j x' (x & Hx & Hf)%Hp. exists x. split; [done|]. apply (frozen_facts _ _ Hf).
  - intros i e p x' Hi Hs He (x & Hx & Hf)%Hp Ho. apply (frozen_facts _ _ Hf). by eapply wf_keepalive.
Qed.

(** No pair of the first [k], by priority; the first one. *)
Definition none_before (Q : pair_t -> Prop) (a : juice_agent) (k : Z) : Prop :=
  forall j p x, 0 <= j < k -> rd (ordered_pairs a) j = Some p -> rd (candidate_pairs a) p = Some x -> ~ Q x.
Definition first_such (Q : pair_t -> Prop) (a : juice_agent) (k p : Z) : Prop :=
  exists j x, 0 <= j < k /\ rd (ordered_pairs a) j = Some p /\ rd (candidate_pairs a) p = Some x /\ Q x /\ none_before Q a j.

Definition scan_spec (a : juice_agent) (k : Z) (s : scan_t) : Prop :=
  match nominated_pair s with
  | Some p => best_pair s = Some p /\ first_such is_nominated a k p
  | None => none_before is_nominated a k /\ match best_pair s with Some p => first_such succeeded a k p | None => none_before succeeded a k end
  end.

Lemma first_such_mono Q a k k' p : k <= k' -> first_such Q a k p -> first_such Q a k' p.
Proof. intros Hk (j & x & Hj & ?). exists j, x. split; [lia|done]. Qed.

Lemma none_before_next Q a k p x : rd (ordered_pairs a) k = Some p -> rd (candidate_pairs a) p = Some x -> ~ Q x -> none_before Q a k -> none_before Q a (k + 1).
Proof. intros Hp Hx HQ Hn j q y Hj Hq Hy. destruct (decide (j = k)) as [->|]; [congruence|]. apply (Hn j q y); [lia|done|done]. Qed.

Lemma first_such_here Q a k p x : 0 <= k -> rd (ordered_pairs a) k = Some p -> rd (candidate_pairs a) p = Some x -> Q x -> none_before Q a k -> first_such Q a (k + 1) p.
Proof. intros. exists k, x. split; [lia|]. done. Qed.

Lemma scan_pair_runs a k s w : wf T0 None a -> scanning a (agent w) -> scan_spec a k s -> 0 <= k < candidate_pairs_count a ->
  runs (scan_pair k s) w (fun s' w' => scanning a (agent w') /\ scan_spec a (k + 1) s').
Proof.
  intros Hw Hsc Hs Hk. apply runs_bind, runs_gets. cbv beta. assert (Ho : ordered_pairs (agent w) = ordered_pairs a) by (by destruct Hsc as (l & -> & _)). unfold id. rewrite Ho.
  destruct (ordered_valid None a k Hw Hk) as (p & Ep & Hp). apply runs_bind. eapply runs_lift; [exact Ep|]. apply runs_bind, runs_get_pair; [by rewrite (scanned_count _ _ Hsc)|].
  intros x' Hx'. destruct (scanned_pair _ _ _ _ Hsc Hx') as (x & Hx & Hf). destruct (frozen_facts _ _ Hf) as (Fn & Fs & _). decide_case Bn.
  - apply runs_ret. split; [done|]. apply Fn in Bn. unfold scan_spec in Hs. destruct (nominated_pair s) as [n|] eqn:En.
    + rewrite bool_decide_false by done. unfold scan_spec. rewrite En. destruct Hs as [? ?]. split; [done|]. eapply first_such_mono; [|done]. lia.
    + rewrite bool_decide_true by done. split; [done|]. eapply first_such_here; try done; [lia|apply Hs].
  - assert (Hnn : ~ is_nominated x) by (rewrite <- Fn; unfold is_nominated; congruence).
    assert (Hnext : forall s', nominated_pair s' = nominated_pair s -> (nominated_pair s = None -> match best_pair s' with Some q => first_such succeeded a (k + 1) q | None => none_before succeeded a (k + 1) end) ->
      (nominated_pair s <> None -> best_pair s' = best_pair s) -> scan_spec a (k + 1) s').
    { intros s' En Hb1 Hb2. unfold scan_spec in *. rewrite En. destruct (nominated_pair s) as [n|]; [|split; [eapply none_before_next; try done; apply Hs|by apply Hb1]].
      rewrite Hb2 by done. destruct Hs as [? ?]. split; [done|]. eapply first_such_mono; [|done]. lia. }
    assert (Hother : ~ succeeded x' -> forall n, scan_spec a (k + 1) (Scan n (nominated_pair s) (best_pair s))).
    { intros Hns n. apply Hnext; [done| |done]. cbn. intros En. unfold scan_spec in Hs. rewrite En in Hs. destruct Hs as [_ Hb].
      destruct (best_pair s) as [b|]; [eapply first_such_mono; [|done]; lia|]. eapply none_before_next; try done. by rewrite <- Fs. }
    assert (Hsame : ~ succeeded x' -> scan_spec a (k + 1) s) by (intros Hns; specialize (Hother Hns (pending_count s)); by destruct s).
    destruct (state x') eqn:Es; [|apply runs_ret; split; [done|]|apply runs_ret; split; [done|]; apply Hsame; unfold succeeded; congruence..].
    + assert (Hns : ~ succeeded x') by (unfold succeeded; congruence). decide_case Bc; [|apply runs_ret; split; [done|auto]].
      apply runs_bind, runs_update_pair; [by rewrite (scanned_count _ _ Hsc)|]. intros y Hy. rewrite Hx' in Hy. injection Hy as <-. apply runs_ret. split; [by apply scanned_freeze|auto].
    + apply Hnext; [done| |cbn; intros Hsn; unfold or_first, scan_spec in *; destruct (nominated_pair s); [|done]; destruct Hs as [-> _]; done].
      cbn. intros En. unfold scan_spec in Hs. rewrite En in Hs. destruct Hs as [_ Hb]. unfold or_first. destruct (best_pair s) as [b|]; [eapply first_such_mono; [|done]; lia|].
      eapply first_such_here; try done; [lia|]. by apply Fs.
Qed.

Lemma scan_pairs_runs w : wf T0 None (agent w) ->
  runs scan_pairs w (fun s w' => scanning (agent w) (agent w') /\ scan_spec (agent w) (candidate_pairs_count (agent w)) s).
Proof.
  intros Hw. set (a := agent w) in *. pose proof (zlen_nonneg (candidate_pairs a)) as Hn. fold (candidate_pairs_count a) in Hn.
  apply runs_bind, runs_gets. cbv beta. fold a. apply runs_bind.
  eapply runs_mono; [eapply (runs_fold (fun k s w' => scanning a (agent w') /\ scan_spec a k s)); [split; [apply scanned_refl|split; intros ?; lia]|]|].
  - intros k s w' Hk [Hsc Hs]. eapply scan_pair_runs; [done..|]. lia.
  - rewrite Z.add_0_l, Z2Nat.id by done. intros s w1 [Hsc Hs]. apply runs_bind, runs_gets. cbv beta. destruct (nominated_pair s) as [p|] eqn:Ep; [|by apply runs_ret].
    decide_case Bm; [|by apply runs_ret]. apply runs_bind. eapply runs_mono; [apply runs_bind, runs_gets; eapply (runs_for (fun _ w' => scanning a (agent w')) (freeze_pair p)); [done|]|].
    + cbv beta. intros k w2 Hk Hsc2. assert (Hk' : 0 <= k < candidate_pairs_count a) by (rewrite (scanned_count _ _ Hsc), Z2Nat.id in Hk by done; lia).
      apply runs_bind, runs_gets. cbv beta. assert (ordered_pairs (agent w2) = ordered_pairs a) as -> by (by destruct Hsc2 as (l & -> & _)).
      destruct (ordered_valid None a k Hw Hk') as (q & Eq & Hq). apply runs_bind. eapply runs_lift; [exact Eq|]. apply runs_bind, runs_get_pair; [by rewrite (scanned_count _ _ Hsc2)|]. intros x Hx.
      decide_case Bf; [|by apply runs_ret]. apply andb_true_iff in Bf as [_ Bf]. apply bool_decide_eq_true in Bf. apply runs_update_pair; [by rewrite (scanned_count _ _ Hsc2)|].
      intros y Hy. rewrite Hx in Hy. injection Hy as <-. by apply scanned_freeze.
    + intros [] w2 Hsc2. apply runs_ret. split; [done|]. unfold scan_spec in *. rewrite Ep in Hs. done.
Qed.

Lemma cancel_entry_safe i w : wf T0 None (agent w) -> 0 <= i < entries_count (agent w) -> safe None (cancel_entry i) w.
Proof.
  intros Hw Hi. apply runs_bind, runs_get_entry; [done|]. intros e He. apply runs_bind. eapply (runs_get_entry_pair None i); [done..|]. intros x _ _.
  destruct x as [x|]; [|by apply safe_ret]. decide_case Bc; [|by apply safe_ret]. apply runs_set_entry; [done|]. cbn.
  assert (Hstep : entry_step T0 None (agent w) i e (e <| entry_state := AGENT_STUN_ENTRY_STATE_CANCELLED |> <| next_transmission := 0 |>)).
  { destruct (Forall_rd _ _ _ _ (wf_entries _ _ _ Hw) He). split; [split; try done; by left|done|done]. }
  by destruct (wf_set_entry _ _ _ _ _ _ Hw He Hstep).
Qed.

Lemma entry_of_pair_runs p w : wf T0 None (agent w) -> runs (entry_of_pair p) w (fun r w' => w' = w /\ forall i, r = Some i -> exists e, rd (entries (agent w)) i = Some e /\ entry_pair e = Some p).
Proof.
  intros Hw. eapply runs_mono; [eapply (runs_first_entry None _ (fun e b => b = true -> entry_pair e = Some p)); [done|]|].
  - intros i e He. apply runs_ret. split; [done|]. by intros ?%bool_decide_eq_true.
  - intros [i|] w' [-> Hr]; (split; [done|]); [|done]. intros j [= <-]. destruct Hr as (e & ? & ?). eauto.
Qed.

(** A pointer the agent keeps to a pair or an entry. *)
Lemma set_selected_kept a p t : wf T0 None a -> 0 <= p < candidate_pairs_count a -> kept None a (a <| selected_pair := Some p |> <| nomination_timestamp := t |>).
Proof. intros [] Hp. split; [split; try done; by intros q [= <-]|]. split; cbn; [done|eauto]. Qed.
Lemma set_selected_entry_kept a i : wf T0 None a -> 0 <= i < entries_count a -> kept None a (a <| selected_entry := Some i |>).
Proof. intros [] Hi. split; [split; try done; by intros q [= <-]|]. split; cbn; [done|eauto]. Qed.

Lemma select_pair_runs now p w : wf T0 None (agent w) -> 0 <= p < candidate_pairs_count (agent w) ->
  runs (select_pair now p) w (fun _ w' => kept None (agent w) (agent w') /\ candidate_pairs (agent w') = candidate_pairs (agent w) /\ ordered_pairs (agent w') = ordered_pairs (agent w) /\
    selected_pair (agent w') = Some p /\ juice_state (agent w') = juice_state (agent w)).
Proof.
  intros Hw Hp. apply runs_bind, runs_gets. cbv beta. decide_case Bs; [apply runs_ret; split_and!; first [done|by apply kept_refl|by apply bool_decide_eq_true in Bs]|].
  apply runs_bind, runs_modify. set (w1 := w <| agent := _ |>). assert (K1 : kept None (agent w) (agent w1)) by (by apply set_selected_kept).
  apply runs_bind. eapply runs_mono; [by apply (entry_of_pair_runs p w1), K1|]. intros [i|] w' [-> Hi]; [|by apply runs_ret]. destruct (Hi i eq_refl) as (e & He & _).
  apply runs_modify. split; [|done]. eapply kept_trans; [exact K1|]. apply set_selected_entry_kept; [apply K1|by eapply rd_Some_lt].
Qed.

Lemma enable_keepalive_safe i w : wf T0 None (agent w) -> 0 <= i < entries_count (agent w) ->
  (forall e p x, rd (entries (agent w)) i = Some e -> entry_pair e = Some p -> rd (candidate_pairs (agent w)) p = Some x -> good x) -> safe None (enable_keepalive i) w.
Proof.
  intros Hw Hi Hg. apply runs_bind, runs_get_entry; [done|]. intros e He. decide_case Bk; [by apply safe_ret|].
  eapply safe_bind with (o' := None) (Q := fun _ w' => forall e, rd (entries (agent w')) i = Some e -> entry_state e <> AGENT_STUN_ENTRY_STATE_SUCCEEDED).
  { eapply (update_entry_kept None); [done..| |].
    - intros e' He' []. split; [by split|done|]. intros _. right. right. intros p x. by apply Hg.
    - intros e' w' He' -> K _. split; [done|]. cbn. intros e''. rewrite rd_insert, decide_True by done. by intros [= <-]. }
  intros _ w1 K1 Hs. eapply safe_then; [apply (agent_arm_keepalive_safe None); [apply K1|by eapply kept_index|done]|]. intros _ w2 K2. apply safe_ret, K2.
Qed.

(** ** Selection *)

Lemma agent_change_state_runs o s w : wf T0 o (agent w) -> runs (agent_change_state s) w (fun _ w' => kept o (agent w) (agent w') /\ agent w' = (agent w) <| juice_state := s |>).
Proof.
  intros Hw. apply runs_bind, runs_gets. cbv beta. decide_case Bs.
  - apply bool_decide_eq_true in Bs. apply runs_ret. split; [by apply kept_refl|]. rewrite Bs. by destruct (agent w).
  - apply runs_bind, runs_modify, runs_emit. split; [|done]. cbn. revert Hw. other_fields.
Qed.

Lemma enable_keepalive_pairs i : preserves same_pairs (enable_keepalive i).
Proof. unfold enable_keepalive. repeat preserve_step; [apply update_entry_same_pairs|apply agent_arm_keepalive_pairs]. Qed.

Lemma entry_of_pair_pairs p : preserves same_pairs (entry_of_pair p).
Proof. unfold entry_of_pair. repeat preserve_step. Qed.

(** The end of [complete]: keepalives for the nominated pair, and for no other. *)
Definition keep_only (p : Z) : M unit :=
  nominated_entry ← entry_of_pair p;
  relay ← match nominated_entry with Some i => e ← get_entry i; mret (relay_entry e) | None => mret None end;
  _ ← match nominated_entry with
      | Some i => changed ← enable_keepalive i; if (changed : bool) then modify (fun a => a <| selected_entry := Some i |>) else mret tt
      | None => mret tt
      end;
  _ ← match relay with Some r => _ ← enable_keepalive r; mret tt | None => mret tt end;
  for_entries (fun i => update_entry i (fun e =>
    if negb (bool_decide (Some i = nominated_entry)) && negb (bool_decide (Some i = relay)) && bool_decide (entry_state e = AGENT_STUN_ENTRY_STATE_SUCCEEDED_KEEPALIVE)
    then e <| entry_state := AGENT_STUN_ENTRY_STATE_SUCCEEDED |> else e)).

Lemma keep_only_pairs p : preserves same_pairs (keep_only p).
Proof.
  unfold keep_only. repeat preserve_step; try apply entry_of_pair_pairs; try apply enable_keepalive_pairs; try apply update_entry_same_pairs. by apply preserves_modify.
Qed.

Lemma relay_has_no_pair i e r w : wf T0 None (agent w) -> rd (entries (agent w)) i = Some e -> relay_entry e = Some r ->
  exists e', rd (entries (agent w)) r = Some e' /\ entry_pair e' = None.
Proof.
  intros Hw He Hr. destruct (wf_relay _ _ _ Hw i e r He Hr) as (e' & He' & Ht). exists e'. split; [done|].
  destruct (Forall_rd _ _ _ _ (wf_entries _ _ _ Hw) He') as [Hc _ _ _ _ _]. destruct (entry_pair e') eqn:Ep; [|done]. assert (entry_type e' = AGENT_STUN_ENTRY_TYPE_CHECK) by (by apply Hc). congruence.
Qed.

Lemma keep_only_safe p x w : wf T0 None (agent w) -> rd (candidate_pairs (agent w)) p = Some x -> good x -> safe None (keep_only p) w.
Proof.
  intros Hw Hx Hg. eapply safe_look; [by apply entry_of_pair_runs|]. intros ne Hne.
  eapply safe_look with (Q := fun relay => forall r, relay = Some r -> exists e', rd (entries (agent w)) r = Some e' /\ entry_pair e' = None).
  { destruct ne as [i|]; [|by apply runs_ret]. destruct (Hne i eq_refl) as (e & He & Hp). apply runs_bind, runs_get_entry; [by eapply rd_Some_lt|]. intros e' He'. rewrite He in He'. injection He' as <-.
    apply runs_ret. split; [done|]. intros r Hr. by eapply relay_has_no_pair. }
  intros relay Hrelay. eapply safe_then with (o' := None).
  { destruct ne as [i|]; [|by apply safe_ret]. destruct (Hne i eq_refl) as (e & He & Hp). eapply safe_then.
    - apply enable_keepalive_safe; [done|by eapply rd_Some_lt|]. intros e' q y He' Hq Hy. rewrite He in He'. injection He' as <-. congruence.
    - intros changed w1 K1. decide_case Bc; [|apply safe_ret, K1]. apply runs_modify. apply set_selected_entry_kept; [apply K1|]. eapply kept_index; [exact K1|by eapply rd_Some_lt]. }
  intros _ w1 K1. eapply safe_then with (o' := None).
  { destruct relay as [r|]; [|apply safe_ret, K1]. destruct (Hrelay r eq_refl) as (e & He & Hp). destruct (kept_entry _ _ _ _ _ K1 He) as (e1 & He1 & Hp1 & _).
    eapply safe_then; [apply enable_keepalive_safe; [apply K1|by eapply rd_Some_lt|]|intros ? w2 K2; apply safe_ret, K2].
    intros e' q y He' Hq. rewrite He1 in He'. injection He' as <-. congruence. }
  intros _ w2 K2. apply safe_for_entries; [apply K2|]. intros j w3 Hj K3. apply safe_update_entry; [apply K3|done|]. intros e He [].
  destruct (_ && _ && _); (split; [by split|done|]); [done|by left].
Qed.

Lemma complete_runs p x w : wf T0 None (agent w) -> rd (candidate_pairs (agent w)) p = Some x -> good x ->
  runs (complete p) w (fun _ w' => kept None (agent w) (agent w') /\ same_pairs ((agent w) <| juice_state := JUICE_STATE_COMPLETED |>) (agent w')).
Proof.
  intros Hw Hx Hg. apply runs_bind, runs_gets. cbv beta. apply runs_bind.
  eapply runs_mono with (Q := fun _ w1 => kept None (agent w) (agent w1) /\ exists s, agent w1 = (agent w) <| juice_state := s |>).
  { decide_case Bs; [eapply runs_mono; [by apply (agent_change_state_runs None)|]; intros _ w1 [K E1]; split; [done|by eexists]|].
    apply runs_ret. split; [by apply kept_refl|]. exists (juice_state (agent w)). by destruct (agent w). }
  intros _ w1 [K1 [s E1]]. apply runs_bind. eapply runs_mono; [apply (agent_change_state_runs None), K1|]. intros _ w2 [K2 E2]. fold (keep_only p).
  eapply runs_mono; [eapply (runs_preserves same_pairs); [apply keep_only_pairs|eapply (keep_only_safe p x); [apply K2| |done]]|].
  - by rewrite E2, E1.
  - cbv beta. intros ? w3 [K3 S3]. split; [eapply kept_trans; [exact K1|]; by eapply kept_trans|]. rewrite E2, E1 in S3. exact S3.
Qed.

(** The pairs but for nominations that are requested. *)
Definition requested (x x' : pair_t) : Prop := x' = x \/ x' = x <| nomination_requested := true |>.

Lemma connected_runs now p pending next w : wf T0 None (agent w) -> 0 <= p < candidate_pairs_count (agent w) ->
  runs (connected now p pending next) w (fun _ w' => kept None (agent w) (agent w') /\ exists l, Forall2 requested (candidate_pairs (agent w)) l /\
    same_pairs ((agent w) <| juice_state := JUICE_STATE_CONNECTED |> <| candidate_pairs := l |>) (agent w')).
Proof.
  intros Hw Hp. apply runs_bind. eapply runs_mono; [by apply (agent_change_state_runs None)|]. intros _ w1 [K1 E1]. apply runs_bind, runs_gets. cbv beta. unfold id.
  assert (Hself : Forall2 requested (candidate_pairs (agent w)) (candidate_pairs (agent w))).
  { apply Forall2_same_length_lookup_2; [done|]. intros i x y Hx Hy. rewrite Hx in Hy. injection Hy as <-. by left. }
  assert (Hstay : forall z, runs (mret z) w1 (fun (_ : Z) w' => kept None (agent w) (agent w') /\ exists l, Forall2 requested (candidate_pairs (agent w)) l /\
    same_pairs ((agent w) <| juice_state := JUICE_STATE_CONNECTED |> <| candidate_pairs := l |>) (agent w'))).
  { intros z. apply runs_ret. split; [done|]. exists (candidate_pairs (agent w)). split; [done|]. by rewrite E1. }
  apply runs_bind, runs_get_pair; [by eapply kept_pair_index|]. intros x Hx. decide_case B1; [|apply Hstay]. decide_case B2; [|apply Hstay].
  apply runs_bind. eapply (update_pair_kept None); [apply K1|by eapply kept_pair_index| |].
  { intros y Hy []. split; [by split|done|auto]. }
  intros y w2 Hy E2 K2 _. rewrite Hx in Hy. injection Hy as <-. set (l := <[Z.to_nat p := x <| nomination_requested := true |>]> (candidate_pairs (agent w))).
  assert (Hl : Forall2 requested (candidate_pairs (agent w)) l).
  { assert (Hx' : candidate_pairs (agent w) !! Z.to_nat p = Some x) by (rewrite E1 in Hx; by apply rd_Some_inv in Hx as [_ Hx]).
    unfold l. rewrite <- (list_insert_id (candidate_pairs (agent w)) _ _ Hx') at 1. apply Forall2_insert; [done|by right]. }
  assert (S2 : same_pairs ((agent w) <| juice_state := JUICE_STATE_CONNECTED |> <| candidate_pairs := l |>) (agent w2)) by (rewrite E2, E1; done).
  eapply runs_mono with (Q := fun _ w' => kept None (agent w2) (agent w') /\ same_pairs (agent w2) (agent w')).
  2: { intros ? w3 [K3 S3]. split; [eapply kept_trans; [exact K1|]; by eapply kept_trans|]. exists l. split; [done|]. by etransitivity. }
  eapply (runs_preserves same_pairs).
  { repeat preserve_step; try apply entry_of_pair_pairs; try apply update_entry_same_pairs; apply agent_arm_transmission_pairs. }
  change (safe None (i ← entry_of_pair p; _ ← match i with
    | Some i => _ ← update_entry i (fun e => e <| entry_state := AGENT_STUN_ENTRY_STATE_PENDING |> <| transaction_id_expired := true |>); agent_arm_transmission i 0
    | None => mret tt end; mret next) w2).
  eapply safe_look; [apply entry_of_pair_runs, K2|]. intros i Hi. eapply safe_then with (o' := None); [|intros _ w3 K3; apply safe_ret, K3].
  destruct i as [i|]; [|apply safe_ret, K2]. destruct (Hi i eq_refl) as (e & He & _). apply rd_Some_lt in He. eapply safe_then with (o' := None).
  { eapply safe_update_entry; [apply K2|done|]. intros e' He' []. by split. }
  intros _ w3 K3. apply agent_arm_transmission_safe; [apply K3|by eapply kept_index|by vm_compute].
Qed.

(** The pair of highest priority with a property. *)
Definition best_of (Q : pair_t -> Prop) (a : juice_agent) (p : Z) : Prop :=
  exists x, rd (candidate_pairs a) p = Some x /\ Q x /\ forall q y, rd (candidate_pairs a) q = Some y -> Q y -> pair_priority y <= pair_priority x.

(** A nominated pair completes the session and the best one is selected; without one, the best that succeeded is. *)
Record selects (a : juice_agent) : Prop := {
  selects_nominated : forall q y, rd (candidate_pairs a) q = Some y -> is_nominated y ->
    juice_state a = JUICE_STATE_COMPLETED /\ exists p, selected_pair a = Some p /\ best_of is_nominated a p;
  selects_succeeded : (forall q y, rd (candidate_pairs a) q = Some y -> ~ is_nominated y) -> forall q y, rd (candidate_pairs a) q = Some y -> succeeded y ->
    juice_state a = JUICE_STATE_CONNECTED /\ exists p, selected_pair a = Some p /\ best_of succeeded a p }.

Lemma sorted_lookup {A} (R : A -> A -> Prop) l : StronglySorted R l -> forall i j x y, (i < j)%nat -> l !! i = Some x -> l !! j = Some y -> R x y.
Proof.
  induction 1 as [|z l Hs IH Hz]; intros i j x y Hij Hi Hj; [done|]. destruct i as [|i], j as [|j]; try lia; cbn in *.
  - injection Hi as <-. by eapply Forall_lookup_1.
  - apply (IH i j); [lia|done|done].
Qed.

Lemma ordered_sorted o a i j p q x y : wf T0 o a -> 0 <= i <= j -> j < candidate_pairs_count a -> rd (ordered_pairs a) i = Some p -> rd (ordered_pairs a) j = Some q ->
  rd (candidate_pairs a) p = Some x -> rd (candidate_pairs a) q = Some y -> pair_priority y <= pair_priority x.
Proof.
  intros Hw Hij Hj Hi Hq Hx Hy. destruct (decide (i = j)) as [->|Hne]; [assert (p = q) as -> by congruence; assert (x = y) as -> by congruence; lia|].
  destruct (wf_order _ _ _ Hw) as (pre & post & El & Hp & Hs).
  assert (Hlen : zlen pre = candidate_pairs_count a) by (unfold zlen; rewrite Hp, length_seqZ; unfold candidate_pairs_count, zlen; lia).
  rewrite El in Hi, Hq. rewrite rd_nonneg in Hi, Hq by lia. unfold zlen in Hlen. rewrite lookup_app_l in Hi, Hq by lia.
  apply (sorted_lookup _ _ Hs (Z.to_nat i) (Z.to_nat j) p q); [lia|done..].
Qed.

Lemma ordered_onto o a q : wf T0 o a -> 0 <= q < candidate_pairs_count a -> exists j, 0 <= j < candidate_pairs_count a /\ rd (ordered_pairs a) j = Some q.
Proof.
  intros Hw Hq. destruct (wf_order _ _ _ Hw) as (pre & post & El & Hp & _).
  assert (Hlen : zlen pre = candidate_pairs_count a) by (unfold zlen; rewrite Hp, length_seqZ; unfold candidate_pairs_count, zlen; lia).
  assert (Hin : q ∈ pre) by (rewrite Hp; apply elem_of_seqZ; unfold candidate_pairs_count in Hq; lia). apply list_elem_of_lookup in Hin as [j Hj]. pose proof (lookup_lt_Some _ _ _ Hj).
  exists (Z.of_nat j). split; [unfold zlen in Hlen; lia|]. rewrite El, rd_nonneg, Nat2Z.id by lia. by apply lookup_app_l_Some.
Qed.

Lemma none_before_all o a Q : wf T0 o a -> none_before Q a (candidate_pairs_count a) -> forall q y, rd (candidate_pairs a) q = Some y -> ~ Q y.
Proof. intros Hw Hn q y Hy. pose proof (rd_Some_lt _ _ _ Hy) as Hq. destruct (ordered_onto o a q Hw Hq) as (j & Hj & Ho). by eapply Hn. Qed.

Lemma first_such_best o a Q p : wf T0 o a -> first_such Q a (candidate_pairs_count a) p -> best_of Q a p.
Proof.
  intros Hw (j & x & Hj & Hp & Hx & HQ & Hn). exists x. split; [done|]. split; [done|]. intros q y Hy HQy. pose proof (rd_Some_lt _ _ _ Hy) as Hq. destruct (ordered_onto o a q Hw Hq) as (k & Hk & Ho).
  destruct (decide (k < j)) as [Hlt|Hge]; [exfalso; apply (Hn k q y); [lia|done..]|]. eapply (ordered_sorted o a j k); [done|lia|lia|done..].
Qed.

(** Pairs that differ in nothing the selection depends on. *)
Definition alike (x x' : pair_t) : Prop := (is_nominated x' <-> is_nominated x) /\ (succeeded x' <-> succeeded x) /\ pair_priority x' = pair_priority x.
Definition alike_pairs (a a' : juice_agent) : Prop := Forall2 alike (candidate_pairs a) (candidate_pairs a').

Lemma alike_back a a' q y : alike_pairs a a' -> rd (candidate_pairs a') q = Some y -> exists x, rd (candidate_pairs a) q = Some x /\ alike x y.
Proof. intros Hl [Hq Hy]%rd_Some_inv. destruct (Forall2_lookup_r _ _ _ _ _ Hl Hy) as (x & Hx & ?). exists x. split; [|done]. by rewrite rd_nonneg by lia. Qed.
Lemma alike_forth a a' q x : alike_pairs a a' -> rd (candidate_pairs a) q = Some x -> exists y, rd (candidate_pairs a') q = Some y /\ alike x y.
Proof. intros Hl [Hq Hx]%rd_Some_inv. destruct (Forall2_lookup_l _ _ _ _ _ Hl Hx) as (y & Hy & ?). exists y. split; [|done]. by rewrite rd_nonneg by lia. Qed.

Lemma best_of_alike a a' (Q : pair_t -> Prop) p : (forall x x', alike x x' -> (Q x' <-> Q x)) -> alike_pairs a a' -> best_of Q a p -> best_of Q a' p.
Proof.
  intros HQ Hl (x & Hx & HQx & Hb). destruct (alike_forth _ _ _ _ Hl Hx) as (x' & Hx' & Ha). exists x'. split; [done|]. split; [by apply (HQ _ _ Ha)|].
  intros q y' Hy' HQy. destruct (alike_back _ _ _ _ Hl Hy') as (y & Hy & Hay). destruct Ha as (_ & _ & ->), (Hay) as (_ & _ & ->). apply (Hb q y Hy). by apply (HQ _ _ Hay).
Qed.

Lemma alike_trans x y z : alike x y -> alike y z -> alike x z.
Proof. intros (A1 & A2 & A3) (B1 & B2 & B3). split_and!; [by rewrite B1|by rewrite B2|by rewrite B3]. Qed.

Lemma scanned_alike a a' : scanning a a' -> alike_pairs a a'.
Proof. intros (l & -> & Hl). unfold alike_pairs. cbn. eapply Forall2_impl; [exact Hl|]. intros x y Hf. destruct (frozen_facts _ _ Hf) as (? & ? & ? & _). done. Qed.

(** What follows from the scan of [a]. *)
Record concluded (a : juice_agent) (s : scan_t) (a' : juice_agent) : Prop := {
  concluded_pairs : alike_pairs a a';
  concluded_best : forall p, best_pair s = Some p -> selected_pair a' = Some p /\
    juice_state a' = match nominated_pair s with Some _ => JUICE_STATE_COMPLETED | None => JUICE_STATE_CONNECTED end }.

Lemma concluded_selects o a s a' : wf T0 o a -> scan_spec a (candidate_pairs_count a) s -> concluded a s a' -> selects a'.
Proof.
  intros Hw Hs [Hl Hb]. unfold scan_spec in Hs.
  assert (HN : forall x x', alike x x' -> (is_nominated x' <-> is_nominated x)) by (by intros x x' []). assert (HS : forall x x', alike x x' -> (succeeded x' <-> succeeded x)) by (by intros x x' (_ & ? & _)).
  split.
  - intros q y' Hy' Hn. destruct (alike_back _ _ _ _ Hl Hy') as (y & Hy & Ha). apply (HN _ _ Ha) in Hn. destruct (nominated_pair s) as [p|]; [|exfalso; destruct Hs as [Hs _]; by eapply none_before_all].
    destruct Hs as [Es Hf]. destruct (Hb p Es) as [Hsel ->]. split; [done|]. exists p. split; [done|]. eapply best_of_alike; [done..|]. by eapply first_such_best.
  - intros Hnone q y' Hy' Hn. destruct (alike_back _ _ _ _ Hl Hy') as (y & Hy & Ha). apply (HS _ _ Ha) in Hn. destruct (nominated_pair s) as [p|].
    + exfalso. destruct Hs as [_ Hf]. apply (first_such_best o) in Hf as (x & Hx & Hnx & _); [|done]. destruct (alike_forth _ _ _ _ Hl Hx) as (x' & Hx' & Hax). apply (Hnone p x' Hx'). by apply (HN _ _ Hax).
    + destruct Hs as [_ Hs]. destruct (best_pair s) as [p|]; [|exfalso; by eapply none_before_all]. destruct (Hb p eq_refl) as [Hsel ->]. split; [done|]. exists p. split; [done|].
      eapply best_of_alike; [done..|]. by eapply first_such_best.
Qed.

Lemma agent_conn_fail_runs w : wf T0 None (agent w) -> runs agent_conn_fail w (fun _ w' => kept None (agent w) (agent w') /\ juice_state (agent w') = JUICE_STATE_FAILED).
Proof.
  intros Hw. apply runs_bind. eapply runs_mono; [by apply (agent_change_state_runs None)|]. intros _ w1 [K1 E1]. apply runs_bind, runs_modify, runs_ret. split; [|by rewrite E1].
  eapply kept_trans; [exact K1|]. destruct (kept_wf _ _ _ K1). split; [by split|]. split; cbn; [done|eauto].
Qed.

(** The pairs the scan has found are there. *)
Lemma scan_spec_valid a s p : scan_spec a (candidate_pairs_count a) s -> best_pair s = Some p ->
  exists x, rd (candidate_pairs a) p = Some x /\ good x /\ (nominated_pair s <> None -> nominated_pair s = Some p /\ is_nominated x).
Proof.
  intros Hs Hp. unfold scan_spec in Hs. rewrite Hp in Hs. destruct (nominated_pair s) as [n|].
  - destruct Hs as [[= <-] (j & x & _ & _ & Hx & Hn & _)]. exists x. split; [done|]. split; [by left|done].
  - destruct Hs as [_ (j & x & _ & _ & Hx & Hn & _)]. exists x. split; [done|]. by split; [right|].
Qed.

Lemma scan_spec_nominated a s p : scan_spec a (candidate_pairs_count a) s -> nominated_pair s = Some p -> best_pair s = Some p.
Proof. intros Hs Hp. unfold scan_spec in Hs. rewrite Hp in Hs. by destruct Hs. Qed.

Lemma alike_good x x' : alike x x' -> good x -> good x'.
Proof. intros (Hn & Hs & _) [?|?]; [left; by apply Hn|right; by apply Hs]. Qed.

Lemma alike_pairs_trans a b c : alike_pairs a b -> alike_pairs b c -> alike_pairs a c.
Proof.
  unfold alike_pairs. generalize (candidate_pairs a), (candidate_pairs b), (candidate_pairs c). intros l1 l2 l3 H1. revert l3. induction H1 as [|x y l1 l2 Hxy _ IH]; intros l3 H2; inversion H2; subst; constructor; [by eapply alike_trans|auto].
Qed.

Lemma alike_pairs_same a b c : alike_pairs a b -> candidate_pairs c = candidate_pairs b -> alike_pairs a c.
Proof. unfold alike_pairs. by intros H1 ->. Qed.

Lemma requested_alike a l b : Forall2 requested (candidate_pairs a) l -> candidate_pairs b = l -> alike_pairs a b.
Proof. intros Hl Eb. unfold alike_pairs. rewrite Eb. eapply Forall2_impl; [exact Hl|]. by intros x y [->| ->]. Qed.

Lemma conclude_runs a now next s w : scan_spec a (candidate_pairs_count a) s -> wf T0 None (agent w) -> alike_pairs a (agent w) ->
  runs (conclude now next s) w (fun r w' => kept None (agent w) (agent w') /\ match r with Some _ => concluded a s (agent w') | None => juice_state (agent w') = JUICE_STATE_FAILED end).
Proof.
  intros Hs Hw Hl. unfold conclude. destruct (best_pair s) as [p|] eqn:Ep.
  - destruct (scan_spec_valid a s p Hs Ep) as (x & Hx & Hg & Hn). destruct (alike_forth _ _ _ _ Hl Hx) as (x' & Hx' & Ha). pose proof (rd_Some_lt _ _ _ Hx') as Hp.
    apply runs_bind. eapply runs_mono; [by apply select_pair_runs|]. intros _ w1 (K1 & P1 & _ & S1 & _). destruct (nominated_pair s) as [n|] eqn:En.
    + destruct (Hn ltac:(done)) as [[= ->] Hnx]. apply runs_bind. eapply runs_mono; [apply (complete_runs p x'); [apply K1|by rewrite P1|by eapply alike_good]|]. intros _ w2 [K2 (P2 & _ & S2 & J2)].
      apply runs_ret. split; [by eapply kept_trans|]. split; [eapply alike_pairs_same; [exact Hl|]; rewrite P2; exact P1|]. intros q Hq. rewrite Ep in Hq. injection Hq as <-. rewrite En. split; [by rewrite S2|by rewrite J2].
    + apply runs_bind. eapply runs_mono; [apply connected_runs; [apply K1|by eapply kept_pair_index]|]. intros z w2 [K2 (l & Hr & P2 & _ & S2 & J2)]. apply runs_ret. split; [by eapply kept_trans|]. split.
      * eapply alike_pairs_trans; [eapply alike_pairs_same; [exact Hl|exact P1]|]. by eapply requested_alike.
      * intros q Hq. rewrite Ep in Hq. injection Hq as <-. rewrite En. split; [by rewrite S2|by rewrite J2].
  - assert (Hstay : forall z : Z, runs (mret (Some z)) w (fun r w' => kept None (agent w) (agent w') /\ match r with Some _ => concluded a s (agent w') | None => juice_state (agent w') = JUICE_STATE_FAILED end)).
    { intros z. apply runs_ret. split; [by apply kept_refl|]. split; [done|]. intros p Hp. congruence. }
    apply runs_bind, runs_gets. cbv beta. decide_case B1; [|apply Hstay]. decide_case B2; [|apply Hstay]. apply runs_bind.
    eapply runs_mono; [by apply agent_conn_fail_runs|]. intros _ w1 [K1 J1]. by apply runs_ret.
Qed.

Lemma next_deadline_runs a s i next w : wf T0 None a -> scan_spec a (candidate_pairs_count a) s -> wf T0 None (agent w) -> concluded a s (agent w) -> 0 <= i < entries_count (agent w) ->
  runs (next_deadline (best_pair s) i next) w (fun _ w' => w' = w).
Proof.
  intros Hwa Hs Hw Hc Hi. apply runs_bind, runs_get_entry; [done|]. intros e He. cbv zeta. apply runs_bind. eapply (runs_get_entry_pair None i); [done..|]. intros x Hx _.
  destruct x as [x|]; [|by apply runs_ret]. decide_case Bk; [|by apply runs_ret]. apply andb_true_iff in Bk as [Bk _]. apply bool_decide_eq_true in Bk.
  symmetry in Hx. apply bind_Some in Hx as (p & Ep & Hx). pose proof (wf_keepalive _ _ _ Hw i e p x He Bk Ep Hx ltac:(done)) as Hg.
  destruct Hc as [Hl Hb]. destruct (alike_back _ _ _ _ Hl Hx) as (x0 & Hx0 & Ha).
  assert (exists q, best_pair s = Some q /\ 0 <= q < candidate_pairs_count (agent w)) as (q & Eq & Hq).
  { destruct (best_pair s) as [q|] eqn:Eq.
    - exists q. split; [done|]. destruct (scan_spec_valid a s q Hs Eq) as (y & Hy & _). destruct (alike_forth _ _ _ _ Hl Hy) as (y' & Hy' & _). by apply rd_Some_lt in Hy'.
    - exfalso. unfold scan_spec in Hs. rewrite Eq in Hs. destruct (nominated_pair s); [by destruct Hs|]. destruct Hs as [Hn1 Hn2]. destruct Ha as (An & As & _).
      destruct Hg as [Hg|Hg]; [apply (none_before_all _ _ _ Hwa Hn1 p x0 Hx0), An; exact Hg|apply (none_before_all _ _ _ Hwa Hn2 p x0 Hx0), As; exact Hg]. }
  apply runs_bind. eapply runs_lift; [exact Eq|]. apply runs_bind, runs_get_pair; [done|]. intros y Hy. by apply runs_ret.
Qed.

Lemma cancel_entry_pairs i : preserves same_pairs (cancel_entry i).
Proof.
  unfold cancel_entry. repeat preserve_step. unfold set_entry. repeat preserve_step. by apply preserves_modify.
Qed.

(** [agent_bookkeeping] goes well and selects the right pair, unless the session fails. *)
Lemma agent_bookkeeping_runs w : wf T0 None (agent w) -> runs agent_bookkeeping w (fun _ w' => kept None (agent w) (agent w') /\
  (juice_state (agent w) <> JUICE_STATE_DISCONNECTED -> juice_state (agent w) <> JUICE_STATE_GATHERING -> juice_state (agent w') <> JUICE_STATE_FAILED -> selects (agent w'))).
Proof.
  intros Hw. apply runs_bind, runs_time. intros Ht. set (now := clock (ticks w)) in *. cbv zeta. apply runs_bind, runs_gets. cbn [agent]. decide_case B1.
  { apply runs_ret. split; [by apply kept_refl|]. intros Hd Hg. exfalso. apply orb_true_iff in B1 as [B1|B1]; by apply bool_decide_eq_true in B1. }
  clear B1. set (w0 := w <| ticks := S (ticks w) |>). apply runs_bind. eapply runs_mono; [apply (safe_for_entries None _ w0); [done|]|].
  { intros j w' Hj K. by apply entry_transmission_safe, Hj; [|apply K]. }
  intros ? w1 K1. apply runs_bind. eapply runs_mono; [apply scan_pairs_runs, K1|]. intros s w2 [Hsc Hs].
  pose proof (scanned_kept None _ _ (kept_wf _ _ _ K1) Hsc) as K2. apply runs_bind.
  eapply runs_mono; [eapply (runs_preserves same_pairs); [repeat preserve_step; apply cancel_entry_pairs|apply (safe_for_entries None); [apply K2|]; intros j w' Hj K; by apply cancel_entry_safe; [apply K|]]|].
  cbv beta. intros ? w3 [K3 (P3 & _)]. assert (Hl3 : alike_pairs (agent w1) (agent w3)) by (eapply alike_pairs_same; [by apply scanned_alike|done]).
  assert (K13 : kept None (agent w) (agent w3)) by (eapply kept_trans; [exact K1|]; eapply kept_trans; [exact K2|exact K3]).
  apply runs_bind. eapply runs_mono with (Q := fun _ w' => w' = w3).
  { unfold nominated_failed. destruct (nominated_pair s) as [p|] eqn:En; [|by apply runs_ret]. destruct (scan_spec_valid _ _ _ Hs (scan_spec_nominated _ _ _ Hs En)) as (z & Hz & _).
    destruct (alike_forth _ _ _ _ Hl3 Hz) as (y & Hy & _). apply runs_bind, runs_get_pair; [by eapply rd_Some_lt|]. intros. by apply runs_ret. }
  intros failed ? ->. decide_case B2.
  { apply runs_bind. eapply runs_mono; [apply agent_conn_fail_runs, K3|]. intros _ w4 [K4 J4]. apply runs_ret. split; [by eapply kept_trans|]. intros _ _ Hf. congruence. }
  apply runs_bind. eapply runs_mono; [by apply (conclude_runs (agent w1)); [|apply K3|]|]. intros r w4 [K4 Hr]. pose proof (kept_trans _ _ _ _ _ K13 K4) as K14. destruct r as [next|].
  2: { apply runs_ret. split; [done|]. intros _ _ Hf. congruence. }
  apply runs_bind, runs_gets. cbv beta. eapply runs_mono; [eapply (runs_fold (fun _ _ w' => w' = w4)); [done|]|].
  - intros j z w' Hj ->. eapply next_deadline_runs; [apply K1|done|apply K4|done|]. unfold entries_count in *. pose proof (zlen_nonneg (entries (agent w4))). lia.
  - intros z w' ->. split; [done|]. intros _ _ _. eapply concluded_selects; [apply (kept_wf _ _ _ K1)|done|done].
Qed.
End bookkeeping.
