(* ===== verification/AgentProps.v ===== *)
(** * The ICE agent: properties

    The operations of the agent as one step relation, and what they guarantee: nothing goes wrong, the
    transmissions are paced, the pairs stay sorted, the best pair is selected, role conflicts are resolved. *)

From Stdlib Require Import Sorting.Sorted.
From S2P Require Import Prelude Bytes Stdio Addr Stun StunWrite StunWriteProps StunEncode Turn Ice IceProps IceSdp IceRoundtrip Agent AgentTimers AgentSafe AgentOps AgentBook Hashes.
Open Scope Z_scope.

(** The text of an argument: a string whose candidate lines have numbers that fit. *)
Record text_ok (sdp : list Z) : Prop := {
  text_bytes : Forall byte sdp; text_nonzero : Forall (fun c => c <> 0) sdp; text_numbers : Forall numbers_ok (sdp_lines [] sdp) }.

Lemma ice_parse_sdp_total getaddrinfo sdp buffer : text_ok sdp -> length buffer = 1024%nat ->
  exists ret d, ice_parse_sdp getaddrinfo sdp buffer = Some (ret, d) /\ description_wf d.
Proof.
  intros [Hb Hz Hn] Hl. unfold ice_parse_sdp. change 0 with (zlen (A:=Z) []) at 1. change buffer with ([] ++ buffer) at 1.
  rewrite parse_loop_lines by done. pose proof (sdp_lines_readable sdp [] Hb Hz) as Hr.
  destruct (read_lines_wf getaddrinfo (sdp_lines [] sdp) zero_description) as (d0 & Ed & Hd0); [|apply zero_description_wf|].
  { apply Forall_forall. intros line Hline. eapply Forall_forall in Hr as [? ?]; [|done]. split_and!; [done|done|]. by eapply Forall_forall in Hn. }
  rewrite Ed. cbn [fmap option_fmap option_map mbind option_bind]. destruct (ice_sort_candidates_spec d0) as (cs & -> & _ & Hp & _). cbn [mbind option_bind].
  assert (Hd : description_wf (d0 <| candidates := cs |>)) by (by apply sort_wf).
  pose proof (wf_ufrag _ Hd) as (u & _ & Eu & _). pose proof (wf_pwd _ Hd) as (p & _ & Ep & _). rewrite Eu, Ep. cbn [mbind option_bind]. eexists _, _. split; done.
Qed.

Section agent.
Context {E : Environment} {Start : Epoch} {EOk : EnvironmentOk E Start} {H : Hash} {HOk : HashOk H}.

(** ** The application's calls *)

Lemma agent_set_remote_description_safe sdp w : text_ok sdp -> wf T0 None (agent w) -> safe None (agent_set_remote_description sdp) w.
Proof.
  intros Ht Hw. destruct (ice_parse_sdp_total getaddrinfo sdp line_junk Ht line_junk_ok) as (ret & d & Ed & Hd). pose proof (description_wf_ok _ Hd) as Hok.
  apply runs_bind. eapply runs_lift; [exact Ed|]. cbv beta iota. decide_case B1; [by apply safe_ret|]. apply runs_bind, runs_gets. cbv beta.
  eapply safe_look; [by apply (runs_remote_has_ufrag None)|]. intros known _. decide_case B2.
  { apply runs_bind. eapply runs_string; [apply (wf_remote _ _ _ Hw)|]. apply runs_bind. eapply runs_string; [apply (wf_remote _ _ _ Hw)|].
    apply runs_bind. eapply runs_string; [apply Hok|]. apply runs_bind. eapply runs_string; [apply Hok|]. by apply safe_ret. }
  eapply safe_then with (o' := None); [apply runs_modify; by apply set_remote_description_kept|]. intros _ w1 K1.
  eapply safe_then; [apply (agent_update_pac_timer_safe None), K1|]. intros _ w2 K2. eapply safe_then with (o' := None); [apply runs_modify; apply set_mode_kept, K2|]. intros _ w3 K3.
  eapply safe_then with (o' := None).
  { apply safe_for_pairs; [apply K3|]. intros j w' Hj K. eapply safe_then; [apply (agent_unfreeze_candidate_pair_safe None); [apply K|done]|]. intros _ w'' K'. apply safe_ret, K'. }
  intros _ w4 K4. apply runs_bind, runs_gets. cbv beta. eapply safe_then with (o' := None); [|intros _ w5 K5; apply safe_ret, K5].
  apply safe_for; [apply K4|]. intros i w' Hi K. eapply safe_then; [apply (agent_add_candidate_pairs_for_remote_safe None); [apply K|]|intros ret' w'' K'; apply safe_ret, K'].
  pose proof (dok_count _ (wf_remote _ _ _ (kept_wf _ _ _ K4))). unfold candidates_count, zlen in *. cbn. lia.
Qed.

Lemma ice_parse_candidate_sdp_total line c : Forall byte line -> Forall (fun c => c <> 0) line -> numbers_ok line ->
  exists ret c', ice_parse_candidate_sdp getaddrinfo line c = Some (ret, c') /\ (ret = 0 \/ ret < 0) /\ (ret = 0 -> candidate_wf c').
Proof.
  intros Hb Hz Hn. unfold ice_parse_candidate_sdp. pose proof (match_prefix_spec line (text "a=candidate:")) as M. destruct (match_prefix line (text "a=candidate:")) as [[] rest].
  2: { eexists _, _. split; [done|]. split; [by right|done]. }
  specialize (M ltac:(done)). pose proof (Hn _ M) as Hs. apply after_prefix_spec in M as ->. apply Forall_app in Hb as [_ Hb], Hz as [_ Hz].
  destruct (parse_sdp_candidate_wf rest Hb Hz Hs) as (ret & c0 & -> & Hret & Hc). cbn [mbind option_bind]. destruct Hret as [->|Hret].
  - cbn [Z.ltb Z.compare]. destruct (ice_resolve_wf getaddrinfo c0 ICE_RESOLVE_MODE_SIMPLE (Hc eq_refl)) as (r & c' & -> & Hc'). cbn [mbind option_bind]. eexists _, _. split; [done|]. split; [by left|done].
  - destruct Hret as [-> | ->]; cbn; eexists _, _; (split; [done|]); (split; [by right|done]).
Qed.

Lemma agent_add_remote_candidate_safe line w : Forall byte line -> Forall (fun c => c <> 0) line -> numbers_ok line -> wf T0 None (agent w) -> safe None (agent_add_remote_candidate line) w.
Proof.
  intros Hb Hz Hn Hw. apply runs_bind, runs_gets. cbv beta. decide_case B1; [by apply safe_ret|].
  destruct (ice_parse_candidate_sdp_total line zero_candidate Hb Hz Hn) as (ret & c & Ec & Hret & Hc). apply runs_bind. eapply runs_lift; [exact Ec|]. cbv beta iota.
  destruct (Z.ltb_spec ret 0); [by apply safe_ret|]. assert (ret = 0) as -> by lia. specialize (Hc eq_refl).
  destruct (add_candidate_ok c (remote_description (agent w))) as (ret & c' & d & Ea & _ & Hd & Hadd); [by apply candidate_wf_ok|apply Hw|].
  apply runs_bind. eapply runs_lift; [exact Ea|]. cbv beta iota. destruct (Z.eqb_spec ret 0) as [->|]; cbn [negb]; [|by apply safe_ret].
  eapply safe_then with (o' := None); [apply runs_modify; by apply set_remote_description_kept|]. intros _ w1 K1.
  eapply safe_then; [apply (agent_add_candidate_pairs_for_remote_safe None); [apply K1|]|intros ret w2 K2; apply safe_ret, K2].
  pose proof (dok_count _ Hd). specialize (Hadd eq_refl). pose proof (zlen_nonneg (candidates (remote_description (agent w)))).
  unfold candidates_count in *. rewrite Hadd, zlen_app, zlen_cons, zlen_nil in *. cbn. lia.
Qed.

Lemma agent_set_local_ice_attributes_safe ufrag pwd w : Forall byte ufrag -> Forall byte pwd -> is_Some (ice_is_valid_string (Some ufrag)) -> is_Some (ice_is_valid_string (Some pwd)) ->
  wf T0 None (agent w) -> safe None (agent_set_local_ice_attributes ufrag pwd) w.
Proof.
  intros Hu Hp [u Eu] [p Ep] Hw. apply runs_bind, runs_gets. cbv beta. decide_case B1; [by apply safe_ret|]. eapply safe_look with (Q := fun _ => True).
  { decide_case B2; [by apply runs_ret|]. apply runs_bind. eapply runs_lift; [exact Eu|]. decide_case B3; [by apply runs_ret|]. apply runs_bind. eapply runs_lift; [exact Ep|]. by apply runs_ret. }
  intros bad _. decide_case B2; [by apply safe_ret|]. apply runs_bind, runs_gets. cbv beta. destruct (wf_local _ _ _ Hw) as [Lu Lp Lc].
  destruct (snprintf_ok 257 (ice_ufrag (local_description (agent w))) 257 ufrag) as (bu & Ebu & Hbu & _); [apply Lu|lia|done|].
  destruct (snprintf_ok 257 (ice_pwd (local_description (agent w))) 257 pwd) as (bp & Ebp & Hbp & _); [apply Lp|lia|done|].
  apply runs_bind. eapply runs_lift; [exact Ebu|]. cbv beta iota. apply runs_bind. eapply runs_lift; [exact Ebp|]. cbv beta iota.
  eapply safe_then with (o' := None); [apply runs_modify; by apply set_local_description_kept|]. intros _ w1 K1. apply safe_ret, K1.
Qed.

(** ** Sessions *)

Inductive operation :=
| Update
| Binding (m : stun_message_t) (i : Z) (src : addr_record_t) (relayed_ : option addr_record_t)
| Remote_reflexive (priority : Z) (r : addr_record_t)
| Tcp_state (dst : addr_record_t) (st : tcp_state_t)
| Connection_failed
| Remote_description (sdp : list Z)
| Remote_candidate_line (line : list Z)
| Remote_gathering_done
| Local_attributes (ufrag pwd : list Z)
| Tcp_mode (m : juice_ice_tcp_mode_t).

Definition perform (op : operation) : M unit :=
  match op with
  | Update => _ ← agent_conn_update; mret tt
  | Binding m i src relayed_ => _ ← agent_process_stun_binding m i src relayed_; mret tt
  | Remote_reflexive pr r => _ ← agent_add_remote_reflexive_candidate ICE_CANDIDATE_TYPE_PEER_REFLEXIVE pr r; mret tt
  | Tcp_state dst st => _ ← agent_conn_tcp_state dst st; mret tt
  | Connection_failed => _ ← agent_conn_fail; mret tt
  | Remote_description sdp => _ ← agent_set_remote_description sdp; mret tt
  | Remote_candidate_line line => _ ← agent_add_remote_candidate line; mret tt
  | Remote_gathering_done => _ ← agent_set_remote_gathering_done; mret tt
  | Local_attributes ufrag pwd => _ ← agent_set_local_ice_attributes ufrag pwd; mret tt
  | Tcp_mode m => _ ← agent_set_ice_tcp_mode m; mret tt
  end.

(** What callers guarantee: an entry of the agent, a message and an address that were read, C strings. *)
Definition allowed (op : operation) (a : juice_agent) : Prop :=
  match op with
  | Binding m i src _ => 0 <= i < entries_count a /\ id_ok (Stun.transaction_id m) /\ sockaddr_ok (addr src)
  | Remote_description sdp => text_ok sdp
  | Remote_candidate_line line => Forall byte line /\ Forall (fun c => c <> 0) line /\ numbers_ok line
  | Local_attributes ufrag pwd => Forall byte ufrag /\ Forall byte pwd /\ is_Some (ice_is_valid_string (Some ufrag)) /\ is_Some (ice_is_valid_string (Some pwd))
  | _ => True
  end.

Inductive session (w0 : world) : world -> Prop :=
| session_start : session w0 w0
| session_step w op w' : session w0 w -> allowed op (agent w) -> perform op w = Some (tt, w') -> session w0 w'.

Lemma perform_safe op w : wf T0 None (agent w) -> allowed op (agent w) -> safe None (perform op) w.
Proof.
  intros Hw Ha. assert (Hthen : forall {X} (m : M X), safe None m w -> safe None (_ ← m; mret tt) w).
  { intros X m Hm. eapply safe_then; [exact Hm|]. intros _ w' K. apply safe_ret, K. }
  destruct op; cbn [allowed perform] in *; apply Hthen.
  - eapply runs_mono; [by apply agent_bookkeeping_runs|]. by intros x w' [K _].
  - destruct Ha as (? & ? & ?). by apply agent_process_stun_binding_safe.
  - by apply (agent_add_remote_reflexive_candidate_safe None).
  - by apply agent_conn_tcp_state_safe.
  - by apply (agent_conn_fail_safe None).
  - by apply agent_set_remote_description_safe.
  - destruct Ha as (? & ? & ?). by apply agent_add_remote_candidate_safe.
  - apply runs_bind, runs_modify, runs_ret. apply set_remote_description_kept; [done|]. by destruct (wf_remote _ _ _ Hw).
  - destruct Ha as (? & ? & ? & ?). by apply agent_set_local_ice_attributes_safe.
  - apply runs_bind, runs_gets. cbv beta. decide_case B; [by apply safe_ret|]. apply runs_bind, runs_modify, runs_ret. revert Hw. other_fields.
Qed.

Lemma session_wf w0 w : wf T0 None (agent w0) -> session w0 w -> wf T0 None (agent w).
Proof.
  intros Hw Hs. induction Hs as [|w op w' _ IH Ha E']; [done|]. destruct (perform_safe op w IH Ha) as (x & w'' & E'' & K). rewrite E' in E''. injection E'' as <- <-. apply K.
Qed.

(** C32. Whatever sequence of operations an agent goes through, updates of its timers, Binding messages, reflexive
    candidates, TCP connections that come and go, descriptions and candidates of the peer, the next operation goes
    well: no null pointer is followed, no index leaves its array, no entry or pair too many is added, every string
    has its end, no time difference overflows, and every loop ends.  The agent stays well formed: an entry that sends
    keepalives has a pair that succeeded or is nominated, at most one entry checks a pair, the pairs are sorted by
    priority, the transmissions that are armed lie in a window. *)
Theorem agent_session_safe (w0 w : world) (op : operation) :
  wf T0 None (agent w0) -> session w0 w -> allowed op (agent w) ->
  wf T0 None (agent w) /\ exists w', perform op w = Some (tt, w') /\ wf T0 None (agent w') /\
    entries_count (agent w) <= entries_count (agent w') <= MAX_STUN_ENTRIES_COUNT /\ candidate_pairs_count (agent w) <= candidate_pairs_count (agent w') <= MAX_CANDIDATE_PAIRS_COUNT.
Proof.
  intros Hw Hs Ha. pose proof (session_wf w0 w Hw Hs) as Hwf.
  split; [done|]. destruct (perform_safe op w Hwf Ha) as ([] & w' & E' & K). exists w'. split; [done|]. pose proof (kept_wf _ _ _ K) as W'. split; [done|].
  pose proof (grows_count _ _ (kept_grows _ _ _ K)). pose proof (grows_pairs _ _ (kept_grows _ _ _ K)). pose proof (wf_entries_count _ _ _ W'). by pose proof (wf_pairs_count _ _ _ W').
Qed.

(** C33. While an agent is connecting or connected, agent_bookkeeping ends and leaves the right pair selected, unless the
    session fails: when a pair is nominated, the session is completed and the selected pair is a nominated one with the
    highest priority (RFC 8445 8.1.1); otherwise, when pairs have succeeded, it is connected and the selected pair is one of
    these with the highest priority. *)
Theorem agent_bookkeeping_selects (w : world) :
  wf T0 None (agent w) -> juice_state (agent w) <> JUICE_STATE_DISCONNECTED -> juice_state (agent w) <> JUICE_STATE_GATHERING ->
  exists next w', agent_bookkeeping w = Some (next, w') /\ (juice_state (agent w') <> JUICE_STATE_FAILED -> selects (agent w')).
Proof. intros Hw Hd Hg. destruct (agent_bookkeeping_runs w Hw) as (next & w' & Eb & _ & Hs). exists next, w'. auto. Qed.

(** C34. Arming a transmission of an entry always finds a time slot: none of the other transmissions is within 50
    milliseconds of it, and it is delayed by at most 100 milliseconds for every entry there is. *)
Theorem agent_arm_transmission_paced (i delay : Z) (w : world) :
  wf T0 None (agent w) -> 0 <= i < entries_count (agent w) -> 0 <= delay <= TURN_REFRESH_PERIOD ->
  exists w' e, agent_arm_transmission i delay w = Some (tt, w') /\ wf T0 None (agent w') /\ rd (entries (agent w')) i = Some e /\
    (forall j e', rd (entries (agent w')) j = Some e' -> j <> i -> next_transmission e' <> 0 -> STUN_PACING_TIME <= Z.abs (next_transmission e - next_transmission e')) /\
    clock (ticks w) + delay <= next_transmission e <= clock (ticks w) + delay + 100 * entries_count (agent w).
Proof.
  intros Hw Hi Hd. destruct (agent_arm_transmission_runs None i delay w Hw Hi Hd) as ([] & w' & Ea & [K _] & _ & e & He & Hp & Hb). exists w', e. split_and!; try done; lia.
Qed.
End agent.


(** ** An agent for examples *)

(** A peer with the clock at 1000 and no resolver. *)
#[local] Instance example_environment : Environment := {|
  clock := fun k => 1000 + Z.min 100000 (Z.of_nat k); random32 := fun _ => 7; random_id := fun _ => replicate 12 5; random64 := fun _ => 77; send_result := fun _ => 0;
  no_socket := fun _ => true; uninit := 0; junk := replicate 4096 0; line_junk := replicate 1024 0;
  getaddrinfo := fun host _ h => if bool_decide (host = text "10.0.0.1") then Some [Addrinfo AF_INET (Sin 34835 [10; 0; 0; 1]) 16 (ai_socktype h)] else Some [Addrinfo AF_INET (Sin 35091 [10; 0; 0; 2]) 16 (ai_socktype h)]; getnameinfo := fun _ => None |}.
#[local] Instance example_epoch : Epoch := 1000.

#[local] Instance example_environment_ok : EnvironmentOk example_environment example_epoch.
Proof.
  split; try done; intros k; cbn -[Z.min]; [unfold T0, example_epoch, time_span; lia|by split; [|apply (bool_decide_unpack _)]].
Qed.

Definition example_sdp : list Z :=
  text "a=ice-ufrag:abcd" ++ [10] ++ text "a=ice-pwd:0123456789012345678901" ++ [10] ++
  text "a=candidate:1 1 UDP 2113937151 10.0.0.1 5000 typ host" ++ [10] ++ text "a=candidate:2 1 UDP 1694498815 10.0.0.2 5001 typ srflx raddr 0.0.0.0 rport 0" ++ [10].
Definition peer_address : addr_record_t := Addr_record (Sin 34835 [10; 0; 0; 1]) 16 SOCK_DGRAM.
Definition response : stun_message_t := zero_message <| msg_class := STUN_CLASS_RESP_SUCCESS |> <| msg_method := STUN_METHOD_BINDING |>.

(** Behind [agent_gather_candidates] without addresses and servers. *)
Definition start_agent : juice_agent :=
  default (Juice_agent JUICE_STATE_FAILED AGENT_MODE_UNKNOWN JUICE_ICE_TCP_MODE_NONE zero_description zero_description [] [] None [] None 0 0 0 false false)
    ((fun a => a <| juice_state := JUICE_STATE_CONNECTING |> <| mode := AGENT_MODE_CONTROLLING |>) <$> agent_create (fun _ => 3) 88).
Definition start_world : world := World start_agent 0 0 0 [].

Lemma string_ok_computed n arr : bool_decide (length arr = n /\ Forall byte (cstr arr) /\ is_Some (strlen arr)) = true -> string_ok n arr.
Proof. intros (? & ? & ?)%bool_decide_eq_true. by split. Qed.

Lemma start_entries i : rd (entries (agent start_world)) i = None.
Proof. change (entries _) with (@nil agent_stun_entry_t). by destruct (rd _ i) eqn:E; [apply rd_Some_inv in E as [_ E]; rewrite lookup_nil in E|]. Qed.

Lemma start_wf : wf T0 None (agent start_world).
Proof.
  split; try (vm_compute; by intros); try (intros *; rewrite start_entries; done).
  - split; [apply string_ok_computed; by vm_compute..|by vm_compute].
  - exists [], (replicate 90 0). split_and!; [by vm_compute|by vm_compute|constructor].
Qed.

Definition after (op : operation) (w : world) : world := match perform op w with Some (_, w') => w' | None => w end.

Lemma session_after w0 w op : session w0 w -> allowed op (agent w) -> bool_decide (perform op w <> None) = true -> session w0 (after op w).
Proof.
  intros Hs Ha Hp%bool_decide_eq_true. unfold after. destruct (perform op w) as [[[] w']|] eqn:E; [|done]. by apply session_step with w op.
Qed.

Definition described_world : world := after (Remote_description example_sdp) start_world.
Definition answered_world : world := after (Binding response 0 peer_address None) (after Update described_world).

Lemma described_session : session start_world described_world.
Proof.
  apply session_after; [constructor| |by vm_compute]. split; [apply (bool_decide_unpack _); by vm_compute..|apply numbers_okb; by vm_compute].
Qed.

Lemma answered_session : session start_world answered_world.
Proof.
  apply session_after; [apply session_after; [apply described_session|done|by vm_compute]| |by vm_compute].
  split_and!; [by vm_compute|by vm_compute|by split; [|apply (bool_decide_unpack _); vm_compute]|vm_compute]. repeat constructor; done.
Qed.

Lemma agent_session_safe_witness :
  wf T0 None (agent answered_world) /\ exists w', perform Update answered_world = Some (tt, w') /\ wf T0 None (agent w') /\
    entries_count (agent answered_world) <= entries_count (agent w') <= MAX_STUN_ENTRIES_COUNT /\
    candidate_pairs_count (agent answered_world) <= candidate_pairs_count (agent w') <= MAX_CANDIDATE_PAIRS_COUNT.
Proof. by apply (agent_session_safe start_world answered_world Update start_wf answered_session). Defined.

(** The first check was answered: its pair is selected, the controlling agent asks for its nomination, and the other check is cancelled. *)
Example answered_selects : match agent_bookkeeping answered_world with
  | Some (next, w') => (next, juice_state (agent w'), selected_pair (agent w'), selected_entry (agent w'), map (@state _) (candidate_pairs (agent w')), map entry_state (entries (agent w'))) =
      (1006, JUICE_STATE_CONNECTED, Some 0, Some 0, [ICE_CANDIDATE_PAIR_STATE_SUCCEEDED; ICE_CANDIDATE_PAIR_STATE_FROZEN], [AGENT_STUN_ENTRY_STATE_PENDING; AGENT_STUN_ENTRY_STATE_CANCELLED])
  | None => False end.
Proof. by vm_compute. Qed.

Lemma agent_bookkeeping_selects_witness :
  exists next w', agent_bookkeeping answered_world = Some (next, w') /\ (juice_state (agent w') <> JUICE_STATE_FAILED -> selects (agent w')).
Proof.
  apply (agent_bookkeeping_selects answered_world); [by apply (session_wf start_world), answered_session; apply start_wf|by vm_compute|by vm_compute].
Defined.

Lemma agent_arm_transmission_paced_witness : let w := described_world in
  exists w' e, agent_arm_transmission 1 0 w = Some (tt, w') /\ wf T0 None (agent w') /\ rd (entries (agent w')) 1 = Some e /\
    (forall j e', rd (entries (agent w')) j = Some e' -> j <> 1 -> next_transmission e' <> 0 -> STUN_PACING_TIME <= Z.abs (next_transmission e - next_transmission e')) /\
    clock (ticks w) + 0 <= next_transmission e <= clock (ticks w) + 0 + 100 * entries_count (agent w).
Proof.
  apply (agent_arm_transmission_paced 1 0 described_world); [by apply (session_wf start_world), described_session; apply start_wf|by vm_compute|by vm_compute].
Defined.
