(* ===== verification/SrtpSha1.v ===== *)
(** * SHA-1 (libsrtp [crypto/hash/sha1.c])

    The memory of [uint32_t M\[16\]] and of the output is modelled by its bytes:
    [be32_to_cpu] of a word of it is the big-endian number of its four bytes, whatever the
    byte order of the machine.  [junk] is what the local array [W] holds before it is
    written. *)

From S2P Require Import Prelude Bytes Words MerkleDamgard Sha1.
Open Scope Z_scope.

Module SrtpSha1.

Definition S1 (X : Z) : Z := Z.lor (u32 (Z.shiftl X 1)) (Z.shiftr X 31).
Definition S5 (X : Z) : Z := Z.lor (u32 (Z.shiftl X 5)) (Z.shiftr X 27).
Definition S30 (X : Z) : Z := Z.lor (u32 (Z.shiftl X 30)) (Z.shiftr X 2).

Definition f0 (B C D : Z) : Z := Z.lor (Z.land B C) (Z.land (Z.lnot B) D).
Definition f1 (B C D : Z) : Z := Z.lxor (Z.lxor B C) D.
Definition f2 (B C D : Z) : Z := Z.lor (Z.lor (Z.land B C) (Z.land B D)) (Z.land C D).
Definition f3 (B C D : Z) : Z := Z.lxor (Z.lxor B C) D.

Definition SHA_K0 : Z := 0x5A827999.
Definition SHA_K1 : Z := 0x6ED9EBA1.
Definition SHA_K2 : Z := 0x8F1BBCDC.
Definition SHA_K3 : Z := 0xCA62C1D6.

Record srtp_sha1_ctx_t := Sha1_ctx {
  H : list Z; (* uint32_t [5] *)
  M : list Z; (* uint32_t [16], as bytes *)
  octets_in_buffer : Z; num_bits_in_msg : Z }.

#[global] Instance sha1_ctx_eta : RecordEta srtp_sha1_ctx_t := fun c => Sha1_ctx (H c) (M c) (octets_in_buffer c) (num_bits_in_msg c).

(** [be32_to_cpu(M[i])] *)
Definition load (M : list Z) (i : Z) : option Z := b ← rd_bytes M (4 * i) 4; Some (get_be b).

(** [W[t]] from [t = 16] on. *)
Definition extend (W : list Z) : option (list Z) :=
  for_up 16 80 (fun t W =>
    a ← rd W (t - 3); b ← rd W (t - 8); c ← rd W (t - 14); d ← rd W (t - 16);
    let TEMP := Z.lxor (Z.lxor (Z.lxor a b) c) d in wr W t (S1 TEMP)) W.

Definition turn (f : Z -> Z -> Z -> Z) (K : Z) (W : list Z) (t : Z) (r : list Z) : option (list Z) :=
  match r with
  | [A; B; C; D; E] =>
      w ← rd W t;
      let TEMP := u32 (S5 A + f B C D + E + w + K) in
      Some [TEMP; A; S30 B; C; D]
  | _ => None
  end.

Definition rounds (W r : list Z) : option (list Z) :=
  r ← for_up 0 20 (turn f0 SHA_K0 W) r;
  r ← for_up 20 40 (turn f1 SHA_K1 W) r;
  r ← for_up 40 60 (turn f2 SHA_K2 W) r;
  for_up 60 80 (turn f3 SHA_K3 W) r.

(** The work on a block that is in [W[0..15]]. *)
Definition run_block (W H : list Z) : option (list Z * list Z) :=
  W ← extend W; r ← rounds W H; Some (W, zip_with (fun x y => u32 (x + y)) H r).

Section sha1.
Context (junk : list Z).

Definition srtp_sha1_core (M H : list Z) : option (list Z) :=
  W ← for_up 0 16 (fun i W => w ← load M i; wr W i w) junk;
  '(_, h) ← run_block W H; Some h.

Definition srtp_sha1_init (ctx : srtp_sha1_ctx_t) : srtp_sha1_ctx_t :=
  ctx <| H := [0x67452301; 0xefcdab89; 0x98badcfe; 0x10325476; 0xc3d2e1f0] |> <| octets_in_buffer := 0 |> <| num_bits_in_msg := 0 |>.

(** [while (octets_in_msg > 0)]; [msg] is what is left of the message. *)
Fixpoint update_loop (fuel : nat) (ctx : srtp_sha1_ctx_t) (msg : list Z) (octets_in_msg : Z) : option srtp_sha1_ctx_t :=
  match fuel with
  | O => None
  | S n =>
      if 0 <? octets_in_msg then
        if 64 <=? octets_in_msg + octets_in_buffer ctx then
          let k := 64 - octets_in_buffer ctx in
          x ← rd_bytes msg 0 k; b ← wr_bytes (M ctx) (octets_in_buffer ctx) x;
          h ← srtp_sha1_core b (H ctx);
          update_loop n (ctx <| M := b |> <| octets_in_buffer := 0 |> <| H := h |>) (drop (Z.to_nat k) msg) (octets_in_msg - k)
        else
          x ← rd_bytes msg 0 octets_in_msg; b ← wr_bytes (M ctx) (octets_in_buffer ctx) x;
          Some (ctx <| M := b |> <| octets_in_buffer := octets_in_buffer ctx + octets_in_msg |>)
      else Some ctx
  end.

Definition srtp_sha1_update (ctx : srtp_sha1_ctx_t) (msg : list Z) (octets_in_msg : Z) : option srtp_sha1_ctx_t :=
  update_loop (2 + length msg) (ctx <| num_bits_in_msg := u32 (num_bits_in_msg ctx + octets_in_msg * 8) |>) msg octets_in_msg.

(** The words of the last block, the one with the terminating bit. *)
Definition tail_words (ctx : srtp_sha1_ctx_t) : option (list Z) :=
  let n := octets_in_buffer ctx in
  let tail := n mod 4 in
  let i := (n + 3) / 4 in
  W ← for_up 0 i (fun i W => w ← load (M ctx) i; wr W i w) junk;
  W ← (if tail =? 3 then w ← load (M ctx) (i - 1); W ← wr W (i - 1) (Z.lor (Z.land w 0xffffff00) 0x80); wr W i 0
       else if tail =? 2 then w ← load (M ctx) (i - 1); W ← wr W (i - 1) (Z.lor (Z.land w 0xffff0000) 0x8000); wr W i 0
       else if tail =? 1 then w ← load (M ctx) (i - 1); W ← wr W (i - 1) (Z.lor (Z.land w 0xff000000) 0x800000); wr W i 0
       else wr W i 0x80000000);
  W ← for_up (i + 1) 15 (fun i W => wr W i 0) W;
  if n <? 56 then wr W 15 (num_bits_in_msg ctx) else if n <? 60 then wr W 15 0 else Some W.

(** The output, as bytes. *)
Definition srtp_sha1_final (ctx : srtp_sha1_ctx_t) : option (list Z * srtp_sha1_ctx_t) :=
  W ← tail_words ctx;
  '(W, h) ← run_block W (H ctx);
  h ← (if 56 <=? octets_in_buffer ctx then
         W ← for_up 0 15 (fun i W => wr W i 0) W;
         W ← wr W 15 (num_bits_in_msg ctx);
         '(_, h) ← run_block W h; Some h
       else Some h);
  Some (concat (map be32 h), ctx <| H := h |> <| octets_in_buffer := 0 |>).
End sha1.

End SrtpSha1.

(** ** SHA-1 of libsrtp is SHA-1 of FIPS 180-4 *)

Import SrtpSha1.
(** ** A block in the array [W] *)

(** The [k]-th word of a block. *)
Definition word (b : list Z) (k : nat) : Z := get_be (take 4 (drop (4 * k) b)).

(** [W] has 80 words, the first 16 of them those of the block. *)
Definition has_block (W b : list Z) : Prop := length W = 80%nat /\ forall k, (k < 16)%nat -> rd W (Z.of_nat k) = Some (word b k).

Lemma be_words_word b k : (k < 16)%nat -> be_words b !! k = Some (word b k).
Proof. intros Hk. unfold be_words. rewrite list_lookup_fmap, lookup_seq_lt by done. done. Qed.

Lemma S1_rotl x : S1 x = Fips1.ROTL 1 x.
Proof. done. Qed.

Lemma extend_spec W b : has_block W b -> extend W = Some (Fips1.schedule (be_words b) 64).
Proof.
  intros [Hl Hw]. unfold extend. set (S := Fips1.schedule (be_words b) 64).
  assert (length S = 80%nat) as HS by (unfold S; rewrite schedule1_length, be_words_length; done).
  destruct (for_up_rule (fun t W => length W = 80%nat /\ forall k, 0 <= k < t -> rd W k = Some (nth (Z.to_nat k) S 0)) 16 80
    (fun t W => a ← rd W (t - 3); b ← rd W (t - 8); c ← rd W (t - 14); d ← rd W (t - 16); wr W t (S1 (Z.lxor (Z.lxor (Z.lxor a b) c) d))) W)
    as (W' & Hf & Hl' & Hw'); [lia| | |].
  - split; [done|]. intros k Hk. rewrite <- (Z2Nat.id k) at 1 by lia. rewrite Hw by lia. unfold S. rewrite schedule1_nth_word by (rewrite be_words_length; lia).
    f_equal. symmetry. apply nth_lookup_Some with (1 := be_words_word b (Z.to_nat k) ltac:(lia)).
  - intros t X Ht [HX HXk]. rewrite !HXk by lia. cbn [mbind option_bind]. rewrite wr_Some by (unfold zlen; lia).
    eexists. split; [done|]. split; [by rewrite length_insert|]. intros k Hk. destruct (decide (k = t)) as [->|Hne].
    + rewrite rd_nonneg, list_lookup_insert_eq by lia. f_equal. unfold S. rewrite (schedule1_nth (be_words b) 64 (Z.to_nat t)) by (rewrite ?be_words_length; lia).
      replace (Z.to_nat t - 3)%nat with (Z.to_nat (t - 3)) by lia. replace (Z.to_nat t - 8)%nat with (Z.to_nat (t - 8)) by lia.
      replace (Z.to_nat t - 14)%nat with (Z.to_nat (t - 14)) by lia. replace (Z.to_nat t - 16)%nat with (Z.to_nat (t - 16)) by lia.
      by rewrite S1_rotl.
    + rewrite rd_nonneg, list_lookup_insert_ne by lia. rewrite <- rd_nonneg by lia. apply HXk. lia.
  - rewrite Hf. f_equal. apply list_eq_same_length with 80%nat; [done|done|]. intros i x y Hi Hx Hy.
    specialize (Hw' (Z.of_nat i)). rewrite rd_nonneg, Nat2Z.id, Hx in Hw' by lia. rewrite (nth_lookup_Some _ _ _ _ Hy) in Hw'. by injection (Hw' ltac:(lia)).
Qed.

(** A stretch of turns with one function. *)
Lemma turns_spec f K S st a b tw : length S = 80%nat -> length st = 5%nat -> 0 <= a <= b -> b <= 80 -> tw = zip (seq 0 80) S ->
  (forall t, a <= t < b -> Fips1.f (Z.to_nat t) = f /\ Fips1.K (Z.to_nat t) = K) -> forall g, (forall x y z, g x y z = f x y z) ->
  for_up a b (turn g K S) (fold_left Fips1.step (take (Z.to_nat a) tw) st) = Some (fold_left Fips1.step (take (Z.to_nat b) tw) st).
Proof.
  intros HS Hst Hab Hb Htw Hf g Hg. assert (forall i, (i < 80)%nat -> tw !! i = Some (i, nth i S 0)) as Hlook.
  { intros i Hi. rewrite Htw, lookup_zip_with, lookup_seq_lt by lia. cbn [mbind option_bind].
    destruct (nth_lookup_or_length S i 0) as [->|]; [done|lia]. }
  destruct (for_up_rule (fun i r => r = fold_left Fips1.step (take (Z.to_nat i) tw) st) a b (turn g K S) (fold_left Fips1.step (take (Z.to_nat a) tw) st))
    as (r & -> & ->); [lia|done| |done].
  intros t r Ht ->. replace (Z.to_nat (t + 1)) with (Datatypes.S (Z.to_nat t)) by lia.
  rewrite (take_S_r _ _ _ (Hlook (Z.to_nat t) ltac:(lia))), fold_left_app. cbn [fold_left].
  pose proof (steps1_length (take (Z.to_nat t) tw) st) as Hl. rewrite Hst in Hl. set (r := fold_left _ _ st) in *. clearbody r.
  destruct r as [|A [|B [|C [|D [|E [|]]]]]]; try done. unfold turn. rewrite nth_rd by (unfold zlen; lia). cbn [mbind option_bind]. eexists. split; [done|].
  unfold Fips1.step. cbn [fst snd]. destruct (Hf t Ht) as [-> ->]. rewrite Hg. change (S5 A) with (Fips1.ROTL 5 A). do 2 f_equal. lia.
Qed.

Ltac stage := intros; unfold Fips1.f, Fips1.K; repeat match goal with |- context [(?x <? ?y)%nat] => destruct (Nat.ltb_spec x y); try lia end; split; reflexivity.

Lemma rounds_srtp_spec S st : length S = 80%nat -> length st = 5%nat -> rounds S st = Some (fold_left Fips1.step (zip (seq 0 80) S) st).
Proof.
  intros HS Hst. unfold rounds. set (tw := zip (seq 0 80) S).
  assert (length tw = 80%nat) as Htl by (unfold tw; rewrite length_zip_with, length_seq, HS; done).
  change st with (fold_left Fips1.step (take (Z.to_nat 0) tw) st) at 1.
  rewrite (turns_spec Fips1.Ch SHA_K0 S st 0 20 tw); [|done|done|lia|lia|done|stage|intros; unfold f0, Fips1.Ch; bitwise]. cbn [mbind option_bind].
  rewrite (turns_spec Fips1.Parity SHA_K1 S st 20 40 tw); [|done|done|lia|lia|done|stage|done]. cbn [mbind option_bind].
  rewrite (turns_spec Fips1.Maj SHA_K2 S st 40 60 tw); [|done|done|lia|lia|done|stage|intros; unfold f2, Fips1.Maj; bitwise]. cbn [mbind option_bind].
  rewrite (turns_spec Fips1.Parity SHA_K3 S st 60 80 tw); [|done|done|lia|lia|done|stage|done].
  by rewrite take_ge by (rewrite Htl; done).
Qed.

Lemma run_block_spec W b h : has_block W b -> length h = 5%nat -> exists W', run_block W h = Some (W', Fips1.compress h b) /\ length W' = 80%nat.
Proof.
  intros Hb Hh. unfold run_block. rewrite (extend_spec W b Hb). cbn [mbind option_bind].
  assert (length (Fips1.schedule (be_words b) 64) = 80%nat) as HS by (rewrite schedule1_length, be_words_length; done).
  rewrite rounds_srtp_spec by done. cbn [mbind option_bind]. by eexists.
Qed.

(** ** Loading *)

Lemma load_word M k : length M = 64%nat -> 0 <= k < 16 -> load M k = Some (word M (Z.to_nat k)).
Proof.
  intros HM Hk. unfold load. rewrite rd_bytes_Some by (unfold zlen; lia). cbn [mbind option_bind]. unfold word. do 4 f_equal. lia.
Qed.

Lemma load_words (W M : list Z) n : length W = 80%nat -> length M = 64%nat -> 0 <= n <= 16 ->
  exists W', for_up 0 n (fun i W => w ← load M i; wr W i w) W = Some W' /\ length W' = 80%nat /\ forall k, 0 <= k < n -> rd W' k = Some (word M (Z.to_nat k)).
Proof.
  intros HW HM Hn. destruct (for_up_fill (fun i => word M (Z.to_nat i)) (fun i W => w ← load M i; wr W i w) W 0 n) as (W' & -> & Hl & Hr); [lia|unfold zlen; lia| |].
  - intros i x Hi Hx Hsame. by rewrite load_word by (done || lia).
  - exists W'. split; [done|]. split; [lia|]. intros k Hk. rewrite Hr, (proj2 (Z.leb_le 0 _)), (proj2 (Z.ltb_lt _ _)) by lia. done.
Qed.

Lemma srtp_sha1_core_spec junk M h : length junk = 80%nat -> length M = 64%nat -> length h = 5%nat ->
  srtp_sha1_core junk M h = Some (Fips1.compress h M).
Proof.
  intros HW HM Hh. unfold srtp_sha1_core. destruct (load_words junk M 16 HW HM) as (W & -> & Hl & Hr); [lia|]. cbn [mbind option_bind].
  destruct (run_block_spec W M h) as (W' & -> & _); [|done|done]. split; [done|]. intros k Hk. rewrite Hr by lia. by rewrite Nat2Z.id.
Qed.

(** ** Contexts *)

Record sha1_ctx_holds (c : srtp_sha1_ctx_t) (m : list Z) : Prop := {
  sh_M : length (M c) = 64%nat /\ Forall byte (M c);
  sh_pending : take (length (pending m)) (M c) = pending m;
  sh_H : H c = Absorb1 m;
  sh_octets : octets_in_buffer c = zlen (pending m);
  sh_bits : num_bits_in_msg c = u32 (8 * zlen m) }.

Lemma sha1_init_holds c : length (M c) = 64%nat -> Forall byte (M c) -> sha1_ctx_holds (srtp_sha1_init c) [].
Proof. intros Hl Hb. by split. Qed.

Lemma buffer_put (b p x : list Z) : length b = 64%nat -> take (length p) b = p -> (length p + length x <= 64)%nat ->
  Forall byte b -> Forall byte x ->
  exists b', wr_bytes b (zlen p) x = Some b' /\ (length b' = 64%nat /\ Forall byte b') /\ take (length p + length x) b' = p ++ x.
Proof.
  intros Hb Hp Hx Hbb Hbx. rewrite <- (take_drop (length p) b), Hp in Hbb |- *. rewrite wr_bytes_at by (unfold zlen; rewrite length_drop; lia). eexists. split; [done|].
  apply Forall_app in Hbb as [? ?]. split; [split; [rewrite !length_app, !length_drop; lia|repeat apply Forall_app_2; try done; by apply Forall_drop]|]. rewrite take_app_le by (rewrite length_app; lia). by rewrite take_ge by (rewrite length_app; lia).
Qed.

Section update.
Context (junk : list Z) (Hjunk : length junk = 80%nat).

(** The loop absorbs the message; the bits are counted before it. *)
Lemma sha1_update_loop_spec fuel : forall c m msg, (length msg + length (pending m) < 64 * fuel)%nat -> Forall byte msg -> length (M c) = 64%nat /\ Forall byte (M c) -> take (length (pending m)) (M c) = pending m ->
  H c = Absorb1 m -> octets_in_buffer c = zlen (pending m) ->
  exists c', update_loop junk (S fuel) c msg (zlen msg) = Some c' /\ num_bits_in_msg c' = num_bits_in_msg c /\ (length (M c') = 64%nat /\ Forall byte (M c')) /\
    take (length (pending (m ++ msg))) (M c') = pending (m ++ msg) /\ H c' = Absorb1 (m ++ msg) /\ octets_in_buffer c' = zlen (pending (m ++ msg)).
Proof using Hjunk.
  induction fuel as [|fuel IH]; intros c m msg Hf Hbm [HM HMb] Hp HH Ho; [lia|].
  remember (S fuel) as turns eqn:Hturns. cbn [update_loop]. pose proof (pending_bound m) as Hpb. pose proof (zlen_nonneg msg).
  destruct (Z.ltb_spec 0 (zlen msg)) as [Hpos|Hz].
  2:{ assert (msg = []) as -> by (destruct msg; [done|unfold zlen in *; simpl in *; lia]). rewrite app_nil_r. by exists c. }
  rewrite Ho. destruct (Z.leb_spec 64 (zlen msg + zlen (pending m))) as [Hfill|Hpart].
  - remember (64 - length (pending m))%nat as k eqn:Hkv. assert (64 - zlen (pending m) = Z.of_nat k) as -> by (unfold zlen; lia).
    rewrite rd_bytes_0 by (unfold zlen in *; lia). cbn [mbind option_bind]. rewrite Nat2Z.id.
    assert (length (take k msg) = k) as Hk by (rewrite length_take; unfold zlen in *; lia).
    destruct (buffer_put (M c) (pending m) (take k msg) HM Hp) as (b' & -> & [Hb' Hbb] & Ht); [lia|done|by apply Forall_take|]. cbn [mbind option_bind].
    rewrite take_ge in Ht by lia. subst b'. rewrite HH. rewrite srtp_sha1_core_spec by (try done; apply absorb1_length). cbn [mbind option_bind].
    destruct (absorb_fill Fips1.compress iv1 m (take k msg)) as [Ha Hn]; [unfold zlen in *; lia|].
    replace (zlen msg - Z.of_nat k) with (zlen (drop k msg)) by (rewrite zlen_drop; unfold zlen in *; lia).
    destruct (IH (c <| M := pending m ++ take k msg |> <| octets_in_buffer := 0 |> <| H := Fips1.compress (Absorb1 m) (pending m ++ take k msg) |>) (m ++ take k msg) (drop k msg))
      as (c' & -> & Hc'); [rewrite Hn, length_drop; cbn [length]; unfold zlen in *; lia|by apply Forall_drop|done|by rewrite Hn|by rewrite Ha|by rewrite Hn|].
    rewrite <- app_assoc, take_drop in Hc'. by exists c'.
  - rewrite rd_bytes_0 by lia. cbn [mbind option_bind]. rewrite (take_ge msg) by (unfold zlen; lia).
    destruct (buffer_put (M c) (pending m) msg HM Hp) as (b' & -> & Hb' & Ht); [unfold zlen in *; lia|done|done|]. cbn [mbind option_bind].
    destruct (absorb_part Fips1.compress iv1 m msg) as [Ha Hn]; [unfold zlen in *; lia|]. rewrite Hn, Ha. eexists. split; [done|]. cbn.
    split; [done|]. split; [done|]. rewrite length_app. split; [done|]. split; [done|]. by rewrite zlen_app.
Qed.

Lemma srtp_sha1_update_spec c m msg : sha1_ctx_holds c m -> Forall byte msg -> exists c', srtp_sha1_update junk c msg (zlen msg) = Some c' /\ sha1_ctx_holds c' (m ++ msg).
Proof using Hjunk.
  intros [HM Hp HH Ho Hn] Hb. unfold srtp_sha1_update. change (2 + length msg)%nat with (S (1 + length msg)). set (c1 := c <| num_bits_in_msg := _ |>).
  destruct (sha1_update_loop_spec (1 + length msg) c1 m msg) as (c' & -> & Hn' & HM' & Hp' & HH' & Ho'); [pose proof (pending_bound m); lia|done|done|done|done|done|].
  exists c'. split; [done|]. split; [done|done|done|done|]. rewrite Hn'. cbn. rewrite Hn, u32_add_l. f_equal. rewrite zlen_app. lia.
Qed.
End update.

(** ** The last blocks *)

Lemma word_app_l p x k : (4 * k + 4 <= length p)%nat -> word (p ++ x) k = word p k.
Proof. intros Hk. unfold word. rewrite drop_app_le by lia. by rewrite take_app_le by (rewrite length_drop; lia). Qed.

Lemma word_app_r p x k : (length p <= 4 * k)%nat -> word (p ++ x) k = get_be (take 4 (drop (4 * k - length p) x)).
Proof. intros Hk. unfold word. by rewrite drop_app_ge by lia. Qed.

Lemma word_take (M : list Z) n k : (4 * k + 4 <= n)%nat -> word (take n M) k = word M k.
Proof. intros Hk. unfold word. rewrite skipn_firstn_comm. f_equal. rewrite take_take. f_equal. lia. Qed.

Lemma zero_bytes n k x : (k + 4 <= n)%nat -> get_be (take 4 (drop k (replicate n 0 ++ x))) = 0.
Proof.
  intros Hk. rewrite drop_app_le by (rewrite length_replicate; lia). rewrite drop_replicate.
  destruct (n - k)%nat as [|[|[|[|j]]]] eqn:Hj; try lia. done.
Qed.

(** The low [k] bits replaced. *)
Lemma mask_low x k y : 0 <= x < 4294967296 -> 0 <= k <= 32 -> 0 <= y < 2 ^ k ->
  Z.lor (Z.land x (Z.shiftl (Z.ones (32 - k)) k)) y = (x / 2 ^ k) * 2 ^ k + y.
Proof.
  intros Hx Hk Hy. rewrite <- lor_shiftl_add by lia. f_equal. rewrite <- Z.shiftr_div_pow2 by lia.
  apply Z.bits_inj'. intros j Hj. rewrite Z.land_spec, !Z.shiftl_spec by lia. destruct (Z.lt_ge_cases j k).
  - rewrite !(Z.testbit_neg_r _ (j - k)) by lia. by rewrite andb_false_r.
  - rewrite Z.shiftr_spec by lia. replace (j - k + k) with j by lia. rewrite Z.testbit_ones_nonneg by lia.
    destruct (Z.ltb_spec (j - k) (32 - k)); [by rewrite andb_true_r|]. by rewrite (testbit_out 32 x j) by (unfold in_range; lia).
Qed.

Definition end_word (r w : Z) : Z :=
  if r =? 3 then Z.lor (Z.land w 0xffffff00) 0x80
  else if r =? 2 then Z.lor (Z.land w 0xffff0000) 0x8000
  else if r =? 1 then Z.lor (Z.land w 0xff000000) 0x800000
  else 0x80000000.

(** The word with the terminating bit, whatever stands behind the message in the buffer. *)
Lemma mask_word (r s : list Z) : Forall byte (r ++ s) -> (length r + length s = 4)%nat -> (length r < 4)%nat ->
  get_be (r ++ 128 :: replicate (3 - length r) 0) = end_word (zlen r) (get_be (r ++ s)).
Proof.
  intros Hb Hl Hr. pose proof (get_be_range _ Hb) as Hrange. unfold zlen in Hrange. rewrite length_app, Hl in Hrange.
  change (2 ^ (8 * Z.of_nat 4)) with 4294967296 in Hrange. apply Forall_app in Hb as [_ Hbs].
  assert (forall y, Forall byte (128 :: replicate y 0)) as Hbz by (intros y; constructor; [unfold byte; lia|by apply Forall_replicate]).
  assert (forall y, 0 <= y < 2 ^ (8 * zlen s) -> (get_be (r ++ s) / 2 ^ (8 * zlen s)) * 2 ^ (8 * zlen s) + y = get_be r * 2 ^ (8 * zlen s) + y) as Hdiv.
  { intros y Hy. rewrite get_be_app by done. pose proof (get_be_range s Hbs). rewrite Z.div_add_l by lia. rewrite Z.div_small by lia. lia. }
  rewrite get_be_app by done. unfold end_word.
  assert (zlen (128 :: replicate (3 - length r) 0) = zlen s) as -> by (unfold zlen; cbn [length]; rewrite length_replicate; lia).
  assert (zlen r = 0 /\ zlen s = 4 \/ zlen r = 1 /\ zlen s = 3 \/ zlen r = 2 /\ zlen s = 2 \/ zlen r = 3 /\ zlen s = 1) as Hcase by (unfold zlen; lia).
  assert (length r = Z.to_nat (zlen r)) as -> by (unfold zlen; lia).
  destruct Hcase as [[Hzr Hzs]|[[Hzr Hzs]|[[Hzr Hzs]|[Hzr Hzs]]]]; rewrite Hzr, ?Hzs in *; cbn [Z.eqb].
  - destruct r; [done|unfold zlen in Hzr; simpl in Hzr; lia].
  - rewrite (mask_low _ 24 0x800000) by lia. by rewrite Hdiv by lia.
  - rewrite (mask_low _ 16 0x8000) by lia. by rewrite Hdiv by lia.
  - rewrite (mask_low _ 8 0x80) by lia. by rewrite Hdiv by lia.
Qed.

(** What follows the [n] pending bytes in their block: the bit, zeros and, if there is room,
    the length. *)
Definition block_end (n : nat) (bits : Z) : list Z :=
  if (n <? 56)%nat then 128 :: replicate (55 - n) 0 ++ be64 bits else 128 :: replicate (63 - n) 0.

Lemma be64_small x : 0 <= x < 4294967296 -> be64 x = replicate 4 0 ++ be32 x.
Proof. intros Hx. unfold be64. assert (Z.shiftr x 32 = 0) as -> by (rewrite Z.shiftr_div_pow2 by lia; by apply Z.div_small). done. Qed.

(** The words of that block. *)
Lemma block_words p bits k : (length p < 64)%nat -> 0 <= bits < 4294967296 -> (k < 16)%nat ->
  let n := length p in
  word (p ++ block_end n bits) k =
    if (k <? n / 4)%nat then word p k
    else if (k =? n / 4)%nat then get_be (drop (4 * (n / 4)) p ++ 128 :: replicate (3 - length (drop (4 * (n / 4)) p)) 0)
    else if (n <? 56)%nat && (k =? 15)%nat then bits else 0.
Proof.
  intros Hp Hbits Hk n. fold n in Hp. pose proof (Nat.div_mod_eq n 4) as Hdm. pose proof (Nat.mod_upper_bound n 4 ltac:(lia)) as Hm.
  assert (forall z x, (3 - n mod 4 <= z)%nat -> word (p ++ 128 :: replicate z 0 ++ x) (n / 4) =
    get_be (drop (4 * (n / 4)) p ++ 128 :: replicate (3 - length (drop (4 * (n / 4)) p)) 0)) as Hend.
  { intros z x Hz. unfold word. rewrite drop_app_le by (fold n; lia). set (r := drop _ p). assert (length r = (n mod 4)%nat) as Hr by (unfold r; rewrite length_drop; fold n; lia).
    f_equal. rewrite take_app_ge by lia. f_equal. rewrite Hr. replace (4 - n mod 4)%nat with (S (3 - n mod 4)) by lia. cbn [take]. f_equal.
    rewrite take_app_le by (rewrite length_replicate; lia). rewrite take_replicate. f_equal. lia. }
  assert (forall z x, (n < 4 * k)%nat -> (4 * k + 4 <= n + 1 + z)%nat -> word (p ++ 128 :: replicate z 0 ++ x) k = 0) as Hzero.
  { intros z x Hlt Hle. rewrite word_app_r by (fold n; lia). fold n. replace (4 * k - n)%nat with (S (4 * k - n - 1)) by lia. cbn [drop]. apply zero_bytes. lia. }
  unfold block_end. destruct (Nat.ltb_spec k (n / 4)) as [Hlow|Hlow]; [apply word_app_l; fold n; lia|].
  destruct (Nat.eqb_spec k (n / 4)) as [->|Hne].
  - destruct (Nat.ltb_spec n 56); [apply Hend; lia|]. rewrite <- (app_nil_r (replicate _ 0)). apply Hend. lia.
  - destruct (Nat.ltb_spec n 56) as [H56|H56]; cbn [andb].
    + rewrite be64_small by done. destruct (Nat.eqb_spec k 15) as [->|H15].
      * replace (replicate (55 - n) 0 ++ replicate 4 0 ++ be32 bits) with (replicate (59 - n) 0 ++ be32 bits) by (rewrite app_assoc, <- replicate_add; do 2 f_equal; lia).
        rewrite word_app_r by (fold n; lia). fold n. replace (4 * 15 - n)%nat with (S (59 - n)) by lia. cbn [drop].
        replace (59 - n)%nat with (length (replicate (59 - n) (0 : Z))) at 1 by (by rewrite length_replicate). rewrite drop_app_length.
        change (take 4 (be32 bits)) with (be32 bits). by rewrite get_be_be32.
      * replace (replicate (55 - n) 0 ++ replicate 4 0 ++ be32 bits) with (replicate (59 - n) 0 ++ be32 bits) by (rewrite app_assoc, <- replicate_add; do 2 f_equal; lia).
        apply Hzero; lia.
    + rewrite <- (app_nil_r (replicate _ 0)). apply Hzero; lia.
Qed.

(** Writes in the array [W]. *)
Lemma wr_W (W : list Z) i x : length W = 80%nat -> 0 <= i < 80 ->
  exists W', wr W i x = Some W' /\ length W' = 80%nat /\ forall k, rd W' k = if decide (k = i) then Some x else rd W k.
Proof.
  intros Hl Hi. rewrite wr_Some by (unfold zlen; lia). eexists. split; [done|]. split; [by rewrite length_insert|]. intros k. apply rd_insert. unfold zlen. lia.
Qed.

(** The word with the terminating bit is written. *)
Lemma mark_end (Mb W1 : list Z) (q r : nat) (i : Z) : length Mb = 64%nat -> length W1 = 80%nat -> (r < 4)%nat -> (q < 16)%nat ->
  i = Z.of_nat q + (if decide (r = 0%nat) then 0 else 1) -> (forall k, 0 <= k < i -> rd W1 k = Some (word Mb (Z.to_nat k))) ->
  exists W2, (if Z.of_nat r =? 3 then w ← load Mb (i - 1); W ← wr W1 (i - 1) (Z.lor (Z.land w 0xffffff00) 0x80); wr W i 0
       else if Z.of_nat r =? 2 then w ← load Mb (i - 1); W ← wr W1 (i - 1) (Z.lor (Z.land w 0xffff0000) 0x8000); wr W i 0
       else if Z.of_nat r =? 1 then w ← load Mb (i - 1); W ← wr W1 (i - 1) (Z.lor (Z.land w 0xff000000) 0x800000); wr W i 0
       else wr W1 i 0x80000000) = Some W2 /\ length W2 = 80%nat /\
       (forall k, 0 <= k < Z.of_nat q -> rd W2 k = Some (word Mb (Z.to_nat k))) /\ rd W2 (Z.of_nat q) = Some (end_word (Z.of_nat r) (word Mb q)) /\
       (i = Z.of_nat q \/ i = Z.of_nat q + 1 /\ rd W2 i = Some 0).
Proof.
  intros HM Hl1 Hm Hq Hi Hr1. unfold end_word. destruct (decide (r = 0%nat)) as [Hr0|Hr0].
    - rewrite Hr0. cbn [Z.of_nat Z.eqb]. destruct (wr_W W1 i 0x80000000 Hl1) as (W2 & -> & Hl2 & Hr2); [lia|]. exists W2. split; [done|]. split; [done|].
      split; [intros k Hk; rewrite Hr2, decide_False by lia; apply Hr1; lia|]. split; [rewrite Hr2, decide_True by lia; done|left; lia].
    - assert (forall x, exists W2, (W ← wr W1 (i - 1) x; wr W i 0) = Some W2 /\ length W2 = 80%nat /\
        (forall k, 0 <= k < Z.of_nat q -> rd W2 k = Some (word Mb (Z.to_nat k))) /\ rd W2 (Z.of_nat q) = Some x /\ (i = Z.of_nat q \/ i = Z.of_nat q + 1 /\ rd W2 i = Some 0)) as Hw.
      { intros x. destruct (wr_W W1 (i - 1) x Hl1) as (W2 & -> & Hl2 & Hr2); [lia|]. cbn [mbind option_bind].
        destruct (wr_W W2 i 0 Hl2) as (W3 & -> & Hl3 & Hr3); [lia|]. exists W3. split; [done|]. split; [done|].
        split; [intros k Hk; rewrite Hr3, decide_False, Hr2, decide_False by lia; apply Hr1; lia|].
        split; [rewrite Hr3, decide_False, Hr2, decide_True by lia; done|]. right. split; [lia|]. by rewrite Hr3, decide_True. }
      rewrite load_word by (done || lia). replace (Z.to_nat (i - 1)) with q by lia. cbn [mbind option_bind].
      assert (r = 1%nat \/ r = 2%nat \/ r = 3%nat) as [-> | [-> | ->]] by lia; cbn [Z.of_nat Pos.of_succ_nat Pos.succ Z.eqb Pos.eqb]; apply Hw.
Qed.

Section final.
Context (junk : list Z) (Hjunk : length junk = 80%nat).

Lemma tail_words_spec c p : length (M c) = 64%nat -> Forall byte (M c) -> take (length p) (M c) = p -> octets_in_buffer c = zlen p ->
  (length p < 64)%nat -> 0 <= num_bits_in_msg c < 4294967296 ->
  exists W, tail_words junk c = Some W /\ has_block W (p ++ block_end (length p) (num_bits_in_msg c)).
Proof using Hjunk.
  intros HM HMb Hp Ho Hlt Hbits. unfold tail_words. rewrite Ho. set (n := length p) in *.
  assert (zlen p = Z.of_nat n) as -> by done. pose proof (Nat.div_mod_eq n 4) as Hdm. pose proof (Nat.mod_upper_bound n 4 ltac:(lia)) as Hm.
  assert (Z.of_nat n mod 4 = Z.of_nat (n mod 4)) as -> by (rewrite Nat2Z.inj_mod; done).
  set (q := (n / 4)%nat) in *. set (i := (Z.of_nat n + 3) / 4). set (r := (n mod 4)%nat) in *.
  assert (i = Z.of_nat q + (if decide (r = 0%nat) then 0 else 1)) as Hi by (unfold i; destruct (decide _); Z.to_euclidean_division_equations; lia).
  destruct (load_words junk (M c) i Hjunk HM) as (W1 & -> & Hl1 & Hr1); [destruct (decide _); lia|]. cbn [mbind option_bind].
  destruct (mark_end (M c) W1 q r i HM Hl1) as (W2 & -> & Hl2 & Hlow2 & Hq2 & Hi2); [lia|lia|done|done|].
  cbn [mbind option_bind].
  (* zeros *)
  assert (exists W3, for_up (i + 1) 15 (fun i W => wr W i 0) W2 = Some W3 /\ length W3 = 80%nat /\
    forall k, rd W3 k = if (i + 1 <=? k) && (k <? 15) then Some 0 else rd W2 k) as (W3 & -> & Hl3 & Hr3).
  { destruct (Z.leb_spec 15 (i + 1)).
    - rewrite for_up_empty by lia. exists W2. split; [done|]. split; [done|]. intros k. destruct (Z.leb_spec (i + 1) k), (Z.ltb_spec k 15); try lia; done.
    - destruct (for_up_fill (fun _ => 0) (fun i W => wr W i 0) W2 (i + 1) 15) as (W3 & -> & Hl3 & Hr3); [lia|unfold zlen; lia|done|].
      exists W3. split; [done|]. split; [lia|]. intros k. apply Hr3. }
  cbn [mbind option_bind].
  (* the last word *)
  assert (exists W4, (if Z.of_nat n <? 56 then wr W3 15 (num_bits_in_msg c) else if Z.of_nat n <? 60 then wr W3 15 0 else Some W3) = Some W4 /\ length W4 = 80%nat /\
    forall k, rd W4 k = if decide (k = 15) then (if Z.of_nat n <? 56 then Some (num_bits_in_msg c) else if Z.of_nat n <? 60 then Some 0 else rd W3 15) else rd W3 k)
    as (W4 & -> & Hl4 & Hr4).
  { destruct (Z.ltb_spec (Z.of_nat n) 56); [|destruct (Z.ltb_spec (Z.of_nat n) 60)].
    - apply (wr_W W3 15); [done|lia]. - apply (wr_W W3 15); [done|lia].
    - exists W3. split; [done|]. split; [done|]. intros k. by destruct (decide (k = 15)) as [->|]. }
  exists W4. split; [done|]. split; [done|]. intros k Hk. rewrite Hr4. pose proof (block_words p (num_bits_in_msg c) k Hlt Hbits Hk) as Hbw. cbv zeta in Hbw. fold n q in Hbw. rewrite Hbw. clear Hbw.
  assert (word (M c) q = get_be (drop (4 * q) p ++ take (4 - r) (drop n (M c)))) as HMq.
  { unfold word. rewrite <- (take_drop n (M c)) at 1. rewrite Hp. rewrite drop_app_le by (fold n; lia). rewrite take_app_ge by (rewrite length_drop; fold n; lia).
    do 3 f_equal. rewrite length_drop. fold n. lia. }
  assert (get_be (drop (4 * q) p ++ 128 :: replicate (3 - length (drop (4 * q) p)) 0) = end_word (Z.of_nat r) (word (M c) q)) as Hend.
  { assert (length (drop (4 * q) p) = r) as Hlr by (rewrite length_drop; fold n; lia). rewrite HMq. replace (Z.of_nat r) with (zlen (drop (4 * q) p)) by (unfold zlen; by rewrite Hlr).
    apply mask_word; [|rewrite Hlr, length_take, length_drop; lia|lia]. apply Forall_app_2; [apply Forall_drop; rewrite <- Hp; by apply Forall_take|by apply Forall_take, Forall_drop]. }
  rewrite Hend. clear Hend HMq. destruct (Nat.ltb_spec k q) as [Hkq|Hkq].
  - rewrite decide_False by lia. rewrite Hr3. destruct (Z.leb_spec (i + 1) (Z.of_nat k)); [lia|]. cbn [andb]. rewrite Hlow2 by lia. f_equal.
    rewrite Nat2Z.id. rewrite <- Hp. symmetry. apply word_take. fold n. lia.
  - destruct (Nat.eqb_spec k q) as [->|Hne].
    + destruct (decide (Z.of_nat q = 15)) as [H15|_]; [|rewrite Hr3; destruct (Z.leb_spec (i + 1) (Z.of_nat q)); [lia|]; exact Hq2].
      destruct (Z.ltb_spec (Z.of_nat n) 56); [lia|]. destruct (Z.ltb_spec (Z.of_nat n) 60); [lia|].
      rewrite Hr3. cbn [Z.ltb Z.compare andb]. rewrite andb_false_r. by rewrite <- H15.
    + assert (i <= Z.of_nat k) as Hik by lia. destruct (decide (Z.of_nat k = 15)) as [H15|H15].
      * replace k with 15%nat by lia. cbn [Nat.eqb]. destruct (Z.ltb_spec (Z.of_nat n) 56), (Nat.ltb_spec n 56); try lia; cbn [andb]; [done|].
        destruct (Z.ltb_spec (Z.of_nat n) 60); [done|]. rewrite Hr3. rewrite andb_false_r. destruct Hi2 as [?|[? Hz]]; [lia|]. by replace 15 with i by lia.
      * rewrite Hr3. replace ((n <? 56)%nat && (k =? 15)%nat) with false by (destruct (Nat.eqb_spec k 15); [lia|by rewrite andb_false_r]).
        destruct (Z.leb_spec (i + 1) (Z.of_nat k)), (Z.ltb_spec (Z.of_nat k) 15); try lia; [done|]. cbn [andb]. destruct Hi2 as [?|[? Hz]]; [lia|]. by replace (Z.of_nat k) with i by lia.
Qed.

Lemma zero_words_spec (W : list Z) bits : length W = 80%nat -> 0 <= bits < 4294967296 ->
  exists W1 W2, for_up 0 15 (fun i W => wr W i 0) W = Some W1 /\ wr W1 15 bits = Some W2 /\ has_block W2 (replicate 56 0 ++ be64 bits).
Proof.
  intros Hl Hb. destruct (for_up_fill (fun _ => 0) (fun i W => wr W i 0) W 0 15) as (W1 & -> & Hl1 & Hr1); [lia|unfold zlen; lia|done|].
  destruct (wr_W W1 15 bits) as (W2 & Hw & Hl2 & Hr2); [congruence|lia|]. exists W1, W2. split; [done|]. split; [done|]. split; [done|].
  intros k Hk. rewrite Hr2, be64_small, app_assoc, <- replicate_add by done. destruct (decide (Z.of_nat k = 15)) as [H15|H15].
  - replace k with 15%nat by lia. rewrite word_app_r by done. by rewrite <- (get_be_be32 bits) at 1.
  - rewrite Hr1, (proj2 (Z.leb_le 0 _)), (proj2 (Z.ltb_lt _ 15)) by lia. cbn [andb]. f_equal. symmetry. unfold word. apply zero_bytes. lia.
Qed.

Lemma srtp_sha1_final_spec c m : sha1_ctx_holds c m -> 8 * zlen m < 4294967296 ->
  exists c', srtp_sha1_final junk c = Some (Fips1.sha1 m, c') /\ M c' = M c.
Proof using Hjunk.
  intros [[HM HMb] Hp HH Ho Hn] Hm. pose proof (zlen_nonneg m). rewrite u32_small in Hn by lia. pose proof (pending_bound m) as Hpb. unfold srtp_sha1_final.
  destruct (tail_words_spec c (pending m) HM HMb Hp Ho Hpb) as (W & -> & HW); [lia|]. cbn [mbind option_bind].
  destruct (run_block_spec W _ (H c) HW) as (W' & -> & HW'); [rewrite HH; apply absorb1_length|]. cbn [mbind option_bind].
  rewrite Ho, HH, Hn. unfold Fips1.sha1, md_digest. unfold block_end, zlen. destruct (Nat.ltb_spec (length (pending m)) 56) as [H56|H56].
  - rewrite (proj2 (Z.leb_gt 56 _)) by lia. cbn [mbind option_bind]. eexists. rewrite absorb_pad_one by done. split; [reflexivity|done].
  - rewrite (proj2 (Z.leb_le 56 _)) by lia. destruct (zero_words_spec W' (8 * zlen m) HW') as (W1 & W2 & -> & Hw2 & HW2); [lia|]. cbn [mbind option_bind].
    fold (zlen m). rewrite Hw2. cbn [mbind option_bind].
    destruct (run_block_spec W2 _ (Fips1.compress (Absorb1 m) (pending m ++ 128 :: replicate (63 - length (pending m)) 0)) HW2) as (W3 & Hrb & _);
      [apply fips1_compress_length, absorb1_length|]. rewrite Hrb. cbn [mbind option_bind].
    eexists. rewrite absorb_pad_two by done. split; [reflexivity|done].
Qed.
End final.
