(* ===== verification/SrtpAuth.v ===== *)
(** * Authentication functions (libsrtp [crypto/include/auth.h], [crypto/hash/hmac.c],
    [crypto/hash/null_auth.c])

    [AuthType] is the table of functions [srtp_auth_type_t]; [AuthOk] says what a user of it
    may rely on.  A result buffer is passed as its memory and returned: writing behind its end
    is [None]. *)

From S2P Require Import Prelude Bytes Window Words MerkleDamgard Sha1 Picohash PicohashProps SrtpSha1.
Open Scope Z_scope.

(** ** The interface *)

Definition SRTP_NULL_AUTH : Z := 0.
Definition SRTP_HMAC_SHA1 : Z := 3.

Class AuthType (S : Type) := {
  at_id : S -> Z; (* the id of the type *)
  at_init : S -> list Z -> Z -> option (srtp_err_status_t * S);
  at_start : S -> option (srtp_err_status_t * S);
  at_update : S -> list Z -> Z -> option (srtp_err_status_t * S);
  (** message, its length, the length of the tag, the result buffer *)
  at_compute : S -> list Z -> Z -> Z -> list Z -> option (srtp_err_status_t * list Z * S) }.

Record srtp_auth_t (S : Type) := Auth { a_state : S; out_len : Z; a_key_len : Z; prefix_len : Z }.
Arguments Auth {S}. Arguments a_state {S}. Arguments out_len {S}. Arguments a_key_len {S}. Arguments prefix_len {S}.

#[export] Instance auth_eta S : RecordEta (srtp_auth_t S) := fun a => Auth (a_state a) (out_len a) (a_key_len a) (prefix_len a).

Section auth.
Context {S : Type} {T : AuthType S}.

Definition srtp_auth_get_key_length (a : srtp_auth_t S) : Z := a_key_len a.
Definition srtp_auth_get_tag_length (a : srtp_auth_t S) : Z := out_len a.
Definition srtp_auth_get_prefix_length (a : srtp_auth_t S) : Z := prefix_len a.

Definition srtp_auth_init (a : srtp_auth_t S) (key : list Z) : option (srtp_err_status_t * srtp_auth_t S) :=
  '(st, s) ← at_init (a_state a) key (a_key_len a); Some (st, a <| (@a_state S) := s |>).
Definition srtp_auth_start (a : srtp_auth_t S) : option (srtp_err_status_t * srtp_auth_t S) :=
  '(st, s) ← at_start (a_state a); Some (st, a <| (@a_state S) := s |>).
Definition srtp_auth_update (a : srtp_auth_t S) (buf : list Z) (len : Z) : option (srtp_err_status_t * srtp_auth_t S) :=
  '(st, s) ← at_update (a_state a) buf len; Some (st, a <| (@a_state S) := s |>).
Definition srtp_auth_compute (a : srtp_auth_t S) (buf : list Z) (len : Z) (res : list Z) : option (srtp_err_status_t * list Z * srtp_auth_t S) :=
  '(st, res, s) ← at_compute (a_state a) buf len (out_len a) res; Some (st, res, a <| (@a_state S) := s |>).
End auth.

(** What a client relies on: [at_keyed s k] is a state initialised with the key [k],
    [at_fed s k m] one that has been fed [m] since; [at_tag k m n old] is what computing the
    tag of [m] makes of a buffer [old]. *)
Class AuthOk (S : Type) (T : AuthType S) := {
  at_secret : Type;
  at_tag : at_secret -> list Z -> Z -> list Z -> list Z;
  at_keyed : S -> at_secret -> Prop;
  at_fed : S -> at_secret -> list Z -> Prop;
  at_max : at_secret -> Z; (* of a tag *)
  at_tag_length k m n old : 0 <= n <= zlen old -> n <= at_max k -> zlen (at_tag k m n old) = zlen old;
  (** the tag does not depend on the buffer, and nothing behind it is written *)
  at_tag_take k m n old old' : 0 <= n <= zlen old -> n <= zlen old' -> n <= at_max k -> take (Z.to_nat n) (at_tag k m n old) = take (Z.to_nat n) (at_tag k m n old');
  at_tag_drop k m n old : 0 <= n <= zlen old -> n <= at_max k -> drop (Z.to_nat n) (at_tag k m n old) = drop (Z.to_nat n) old;
  at_tag_bytes k m n old : Forall byte old -> Forall byte (at_tag k m n old);
  at_fed_keyed s k m : at_fed s k m -> at_keyed s k;
  at_start_ok s k : at_keyed s k -> exists s', at_start s = Some (srtp_err_status_ok, s') /\ at_fed s' k [];
  at_update_ok s k m x : at_fed s k m -> Forall byte x -> zlen m + zlen x < 268435456 ->
    exists s', at_update s x (zlen x) = Some (srtp_err_status_ok, s') /\ at_fed s' k (m ++ x);
  at_compute_ok s k m x n old : at_fed s k m -> Forall byte x -> zlen m + zlen x < 268435456 -> 0 <= n <= zlen old -> n <= at_max k ->
    exists s', at_compute s x (zlen x) n old = Some (srtp_err_status_ok, at_tag k (m ++ x) n old, s') /\ at_keyed s' k }.

(** Two kinds of objects behind the same function pointers. *)
Section sum.
Context {A B : Type} {TA : AuthType A} {TB : AuthType B}.

#[export] Instance sum_auth : AuthType (A + B) := {|
  at_id s := match s with inl a => at_id a | inr b => at_id b end;
  at_init s key n := match s with
    | inl a => '(st, a) ← at_init a key n; Some (st, inl a) | inr b => '(st, b) ← at_init b key n; Some (st, inr b) end;
  at_start s := match s with
    | inl a => '(st, a) ← at_start a; Some (st, inl a) | inr b => '(st, b) ← at_start b; Some (st, inr b) end;
  at_update s x n := match s with
    | inl a => '(st, a) ← at_update a x n; Some (st, inl a) | inr b => '(st, b) ← at_update b x n; Some (st, inr b) end;
  at_compute s x n t r := match s with
    | inl a => '(st, r, a) ← at_compute a x n t r; Some (st, r, inl a)
    | inr b => '(st, r, b) ← at_compute b x n t r; Some (st, r, inr b) end |}.
End sum.

(** ** HMAC-SHA1 ([hmac.c]) *)

Record srtp_hmac_ctx_t := Hmac_ctx { opad : list Z; h_ctx : SrtpSha1.srtp_sha1_ctx_t; init_ctx : SrtpSha1.srtp_sha1_ctx_t }.

#[export] Instance hmac_ctx_eta : RecordEta srtp_hmac_ctx_t := fun c => Hmac_ctx (opad c) (h_ctx c) (init_ctx c).

(** [mem] is the allocated memory, [None] when there is none. *)
Definition srtp_hmac_alloc (mem : option srtp_hmac_ctx_t) (key_len out_len : Z) : srtp_err_status_t * option (srtp_auth_t srtp_hmac_ctx_t) :=
  if 20 <? key_len then (srtp_err_status_bad_param, None) else
  if 20 <? out_len then (srtp_err_status_bad_param, None) else
  match mem with
  | None => (srtp_err_status_alloc_fail, None)
  | Some s => (srtp_err_status_ok, Some (Auth s out_len key_len 0))
  end.

(** [junk] and [pad] are the uninitialised arrays [W] and [ipad]. *)
Section hmac.
Context (junk pad : list Z).
Import SrtpSha1.

Definition srtp_hmac_init (state : srtp_hmac_ctx_t) (key : list Z) (key_len : Z) : option (srtp_err_status_t * srtp_hmac_ctx_t) :=
  if 20 <? key_len then Some (srtp_err_status_bad_param, state) else
  '(ipad, op) ← for_up 0 key_len (fun i '(ipad, op) =>
     k ← rd key i; ipad ← wr ipad i (Z.lxor k 0x36); op ← wr op i (Z.lxor k 0x5c); Some (ipad, op)) (pad, opad state);
  '(ipad, op) ← for_up (Z.max 0 key_len) 64 (fun i '(ipad, op) => ipad ← wr ipad i 0x36; op ← wr op i 0x5c; Some (ipad, op)) (ipad, op);
  let c := srtp_sha1_init (init_ctx state) in
  c ← srtp_sha1_update junk c ipad 64;
  Some (srtp_err_status_ok, Hmac_ctx op c c).

Definition srtp_hmac_start (state : srtp_hmac_ctx_t) : option (srtp_err_status_t * srtp_hmac_ctx_t) :=
  Some (srtp_err_status_ok, state <| h_ctx := init_ctx state |>).

Definition srtp_hmac_update (state : srtp_hmac_ctx_t) (message : list Z) (msg_octets : Z) : option (srtp_err_status_t * srtp_hmac_ctx_t) :=
  c ← srtp_sha1_update junk (h_ctx state) message msg_octets;
  Some (srtp_err_status_ok, state <| h_ctx := c |>).

Definition srtp_hmac_compute (state : srtp_hmac_ctx_t) (message : list Z) (msg_octets tag_len : Z) (result : list Z) :
    option (srtp_err_status_t * list Z * srtp_hmac_ctx_t) :=
  if 20 <? tag_len then Some (srtp_err_status_bad_param, result, state) else
  '(_, state) ← srtp_hmac_update state message msg_octets;
  '(H, c) ← srtp_sha1_final junk (h_ctx state);
  let c := srtp_sha1_init c in
  c ← srtp_sha1_update junk c (opad state) 64;
  c ← srtp_sha1_update junk c H 20;
  '(hash_value, c) ← srtp_sha1_final junk c;
  result ← for_up 0 tag_len (fun i r => b ← rd hash_value i; wr r i b) result;
  Some (srtp_err_status_ok, result, state <| h_ctx := c |>).

#[export] Instance srtp_hmac : AuthType srtp_hmac_ctx_t := {|
  at_id _ := SRTP_HMAC_SHA1; at_init := srtp_hmac_init; at_start := srtp_hmac_start; at_update := srtp_hmac_update; at_compute := srtp_hmac_compute |}.
End hmac.

(** ** No authentication ([null_auth.c]) *)

Inductive srtp_null_auth_ctx_t := Null_auth_ctx.

Definition srtp_null_auth_alloc (ok : bool) (key_len out_len : Z) : srtp_err_status_t * option (srtp_auth_t srtp_null_auth_ctx_t) :=
  if ok then (srtp_err_status_ok, Some (Auth Null_auth_ctx out_len key_len out_len)) else (srtp_err_status_alloc_fail, None).

Definition srtp_null_auth_init (s : srtp_null_auth_ctx_t) (key : list Z) (key_len : Z) : option (srtp_err_status_t * srtp_null_auth_ctx_t) :=
  Some (srtp_err_status_ok, s).
Definition srtp_null_auth_start (s : srtp_null_auth_ctx_t) : option (srtp_err_status_t * srtp_null_auth_ctx_t) := Some (srtp_err_status_ok, s).
Definition srtp_null_auth_update (s : srtp_null_auth_ctx_t) (message : list Z) (msg_octets : Z) : option (srtp_err_status_t * srtp_null_auth_ctx_t) :=
  Some (srtp_err_status_ok, s).
Definition srtp_null_auth_compute (s : srtp_null_auth_ctx_t) (message : list Z) (msg_octets tag_len : Z) (result : list Z) :
    option (srtp_err_status_t * list Z * srtp_null_auth_ctx_t) := Some (srtp_err_status_ok, result, s).

#[export] Instance srtp_null_auth : AuthType srtp_null_auth_ctx_t := {|
  at_id _ := SRTP_NULL_AUTH; at_init := srtp_null_auth_init; at_start := srtp_null_auth_start; at_update := srtp_null_auth_update; at_compute := srtp_null_auth_compute |}.

(** ** The authentication functions do what their interface promises

    [hmac.c] computes HMAC-SHA1 (RFC 2104); both authentication functions and their sum
    satisfy [AuthOk]. *)

(** HMAC-SHA1 of the standards. *)
Definition hmac_sha1_std (key m : list Z) : list Z := PicohashProps.hmac (D := Sha1_digest) key m.

Definition key_pad (c : Z) (key : list Z) : list Z := map (fun k => Z.lxor k c) (key ++ replicate (64 - length key) 0).

Lemma key_pad_length c key : (length key <= 64)%nat -> length (key_pad c key) = 64%nat.
Proof. intros Hk. unfold key_pad. rewrite length_map, length_app, length_replicate. lia. Qed.

Lemma key_pad_bytes c key : byte c -> Forall byte key -> Forall byte (key_pad c key).
Proof.
  intros Hc Hk. unfold key_pad. apply Forall_map. apply Forall_app_2; [|apply Forall_replicate].
  - eapply Forall_impl; [exact Hk|]. intros x Hx. by apply (in_range_lxor 8).
  - cbn. by rewrite Z.lxor_0_l.
Qed.

Lemma sha1_digest_bytes m : Forall byte (Fips1.sha1 m) /\ zlen (Fips1.sha1 m) = 20.
Proof. pose proof (digest_size (Digest := Sha1_digest) m) as [H1 H2]. split; [exact H2|exact H1]. Qed.

Lemma hmac_sha1_pads key m : (length key <= 20)%nat -> hmac_sha1_std key m = Fips1.sha1 (key_pad 0x5c key ++ Fips1.sha1 (key_pad 0x36 key ++ m)).
Proof.
  intros Hk. unfold hmac_sha1_std, PicohashProps.hmac, hmac_block. destruct (Z.ltb_spec 64 (zlen key)); [unfold zlen in *; lia|]. done.
Qed.

Lemma hmac_sha1_size key m : Forall byte (hmac_sha1_std key m) /\ zlen (hmac_sha1_std key m) = 20.
Proof. unfold hmac_sha1_std, PicohashProps.hmac. apply sha1_digest_bytes. Qed.

Lemma nth_zeros i n : nth i (replicate n 0) 0 = 0.
Proof. revert i. induction n as [|n IH]; intros [|i]; try done. apply IH. Qed.

(** ** The key pads *)

Section hmac.
Context (junk pad : list Z) (Hjunk : length junk = 80%nat) (Hpad : length pad = 64%nat).
Import SrtpSha1.

Lemma pads_spec (key op : list Z) n : length op = 64%nat -> n = zlen key -> n <= 20 ->
  ('(ipad, op) ← for_up 0 n (fun i '(ipad, op) =>
     k ← rd key i; ipad ← wr ipad i (Z.lxor k 0x36); op ← wr op i (Z.lxor k 0x5c); Some (ipad, op)) (pad, op);
   for_up (Z.max 0 n) 64 (fun i '(ipad, op) => ipad ← wr ipad i 0x36; op ← wr op i 0x5c; Some (ipad, op)) (ipad, op))
  = Some (key_pad 0x36 key, key_pad 0x5c key).
Proof using Hjunk Hpad.
  intros Hop -> Hn. pose proof (zlen_nonneg key). set (full c := key_pad c key).
  assert (forall c, length (full c) = 64%nat) as Hfull by (intros c; apply key_pad_length; unfold zlen in *; lia).
  set (I i (s : list Z * list Z) := s = (take (Z.to_nat i) (full 0x36) ++ drop (Z.to_nat i) pad, take (Z.to_nat i) (full 0x5c) ++ drop (Z.to_nat i) op)).
  assert (forall i x c l, 0 <= i < 64 -> full c !! Z.to_nat i = Some x -> length l = 64%nat ->
    wr (take (Z.to_nat i) (full c) ++ drop (Z.to_nat i) l) i x = Some (take (Z.to_nat (i + 1)) (full c) ++ drop (Z.to_nat (i + 1)) l)) as Hstep.
  { intros i x c l Hi Hx Hl. replace i with (zlen (take (Z.to_nat i) (full c))) at 3 by (apply zlen_take; unfold zlen; rewrite Hfull; lia).
    rewrite wr_at by (unfold zlen; rewrite length_drop; lia). rewrite drop_drop. replace (Z.to_nat (i + 1)) with (S (Z.to_nat i)) by lia.
    rewrite (take_S_r _ _ _ Hx). by rewrite Nat.add_1_r. }
  assert (forall i c, 0 <= i < 64 -> full c !! Z.to_nat i = Some (Z.lxor (nth (Z.to_nat i) (key ++ replicate (64 - length key) 0) 0) c)) as Hlook.
  { intros i c Hi. unfold full, key_pad. rewrite list_lookup_fmap.
    destruct (nth_lookup_or_length (key ++ replicate (64 - length key) 0) (Z.to_nat i) 0) as [->|Hlen]; [done|].
    rewrite length_app, length_replicate in Hlen. unfold zlen in *. lia. }
  match goal with |- context [for_up 0 (zlen key) ?f (pad, op)] => destruct (for_up_rule I 0 (zlen key) f (pad, op)) as (s & -> & Hs) end; [lia|done| |].
  - intros i s Hi ->. rewrite nth_rd by done. cbn [mbind option_bind].
    assert (nth (Z.to_nat i) key 0 = nth (Z.to_nat i) (key ++ replicate (64 - length key) 0) 0) as -> by (rewrite app_nth1; [done|unfold zlen in *; lia]).
    rewrite (Hstep i _ 0x36 pad) by (try done; try lia; apply Hlook; lia). cbn [mbind option_bind].
    rewrite (Hstep i _ 0x5c op) by (try done; try lia; apply Hlook; lia). cbn [mbind option_bind]. by eexists.
  - cbn [mbind option_bind]. unfold I in Hs. subst s. rewrite Z.max_r by lia.
    match goal with |- for_up _ 64 ?f ?s = _ => destruct (for_up_rule I (zlen key) 64 f s) as (s' & -> & ->) end; [lia|done| |].
    + intros i s Hi ->.
      assert (nth (Z.to_nat i) (key ++ replicate (64 - length key) 0) 0 = 0) as Hz by (rewrite app_nth2 by (unfold zlen in *; lia); apply nth_zeros).
      rewrite (Hstep i 0x36 0x36 pad) by (try done; try lia; rewrite Hlook, Hz by lia; done). cbn [mbind option_bind].
      rewrite (Hstep i 0x5c 0x5c op) by (try done; try lia; rewrite Hlook, Hz by lia; done). cbn [mbind option_bind]. by eexists.
    + rewrite !take_ge, !drop_ge by (rewrite ?Hfull; change (Z.to_nat 64) with 64%nat; lia). by rewrite !app_nil_r.
Qed.

Definition hmac_memory (s : srtp_hmac_ctx_t) : Prop := length (opad s) = 64%nat /\ length (M (init_ctx s)) = 64%nat /\ Forall byte (M (init_ctx s)).

Record hmac_keyed (s : srtp_hmac_ctx_t) (key : list Z) : Prop := {
  hk_key : (length key <= 20)%nat /\ Forall byte key;
  hk_opad : opad s = key_pad 0x5c key;
  hk_init : sha1_ctx_holds (init_ctx s) (key_pad 0x36 key) }.

Definition hmac_fed (s : srtp_hmac_ctx_t) (key m : list Z) : Prop := hmac_keyed s key /\ sha1_ctx_holds (h_ctx s) (key_pad 0x36 key ++ m).

Lemma srtp_hmac_init_spec s key : hmac_memory s -> zlen key <= 20 -> Forall byte key ->
  exists s', srtp_hmac_init junk pad s key (zlen key) = Some (srtp_err_status_ok, s') /\ hmac_fed s' key [].
Proof using Hjunk Hpad.
  intros (Ho & HM & HMb) Hk Hkb. unfold srtp_hmac_init. rewrite (proj2 (Z.ltb_ge 20 _)) by done.
  pose proof (pads_spec key (opad s) (zlen key) Ho eq_refl Hk) as Hp. destruct (for_up 0 (zlen key) _ (pad, opad s)) as [[ip op]|]; [|done].
  cbn [mbind option_bind] in *. rewrite Hp. cbn [mbind option_bind].
  assert (length key <= 20)%nat as Hkl by (unfold zlen in Hk; lia). pose proof (key_pad_length 0x36 key ltac:(lia)) as Hpl.
  replace 64 with (zlen (key_pad 0x36 key)) by (unfold zlen; rewrite Hpl; done).
  destruct (srtp_sha1_update_spec junk Hjunk (srtp_sha1_init (init_ctx s)) [] (key_pad 0x36 key)) as (c & -> & Hc); [by apply sha1_init_holds|by apply key_pad_bytes|].
  cbn [mbind option_bind]. eexists. split; [done|]. split; [by split|]. cbn. by rewrite app_nil_r.
Qed.

Lemma copy_bytes (src dst : list Z) n : 0 <= n <= zlen src -> n <= zlen dst ->
  for_up 0 n (fun i r => b ← rd src i; wr r i b) dst = Some (take (Z.to_nat n) src ++ drop (Z.to_nat n) dst).
Proof.
  intros Hn Hd. destruct (for_up_rule (fun i r => r = take (Z.to_nat i) src ++ drop (Z.to_nat i) dst) 0 n (fun i r => b ← rd src i; wr r i b) dst) as (r & -> & ->);
    [lia|done| |done]. intros i r Hi ->. destruct (rd_is_Some src i) as [b Hb]; [lia|]. rewrite Hb. cbn [mbind option_bind]. eexists.
  replace i with (zlen (take (Z.to_nat i) src)) at 3 by (apply zlen_take; lia). rewrite wr_at by (rewrite zlen_drop; lia). split; [done|].
  rewrite drop_drop, Nat.add_1_r. replace (Z.to_nat (i + 1)) with (S (Z.to_nat i)) by lia. rewrite rd_nonneg in Hb by lia. by rewrite (take_S_r _ _ _ Hb).
Qed.

Lemma srtp_hmac_compute_spec s key m x n old : hmac_fed s key m -> Forall byte x -> zlen m + zlen x < 268435456 -> 0 <= n <= zlen old -> n <= 20 ->
  exists s', srtp_hmac_compute junk s x (zlen x) n old =
    Some (srtp_err_status_ok, take (Z.to_nat n) (hmac_sha1_std key (m ++ x)) ++ drop (Z.to_nat n) old, s') /\ hmac_keyed s' key.
Proof using Hjunk Hpad.
  intros [[[Hk Hkb] Ho Hi] Hc] Hx Hlen Hn H20. unfold srtp_hmac_compute, srtp_hmac_update. rewrite (proj2 (Z.ltb_ge 20 n)) by lia.
  destruct (srtp_sha1_update_spec junk Hjunk (h_ctx s) _ x Hc Hx) as (c1 & -> & Hc1). cbn [mbind option_bind]. rewrite <- app_assoc in Hc1.
  pose proof (key_pad_length 0x36 key ltac:(lia)) as Hil. pose proof (key_pad_length 0x5c key ltac:(lia)) as Hol.
  set (inner := key_pad 0x36 key ++ m ++ x) in *.
  assert (zlen inner = 64 + zlen m + zlen x) as Hzi by (unfold inner; rewrite !zlen_app; unfold zlen at 1; rewrite Hil; lia).
  change (h_ctx (s <| h_ctx := c1 |>)) with c1.
  destruct (srtp_sha1_final_spec junk Hjunk c1 inner Hc1) as (c2 & -> & HM2); [lia|]. cbn [mbind option_bind].
  destruct (sha1_digest_bytes inner) as [Hib Hiz]. destruct Hc1 as [[HM1 HMb1] _ _ _ _].
  change (opad (s <| h_ctx := c1 |>)) with (opad s). rewrite Ho. replace 64 with (zlen (key_pad 0x5c key)) by (unfold zlen; rewrite Hol; done).
  destruct (srtp_sha1_update_spec junk Hjunk (srtp_sha1_init c2) [] (key_pad 0x5c key)) as (c3 & -> & Hc3);
    [apply sha1_init_holds; by rewrite HM2|by apply key_pad_bytes|]. cbn [mbind option_bind app] in *.
  rewrite <- Hiz. destruct (srtp_sha1_update_spec junk Hjunk c3 _ (Fips1.sha1 inner) Hc3 Hib) as (c4 & -> & Hc4). cbn [mbind option_bind].
  destruct (srtp_sha1_final_spec junk Hjunk c4 _ Hc4) as (c5 & -> & _); [rewrite zlen_app, Hiz; unfold zlen; rewrite Hol; lia|]. cbn [mbind option_bind].
  replace (Fips1.sha1 (key_pad 0x5c key ++ Fips1.sha1 inner)) with (hmac_sha1_std key (m ++ x)) by (by apply hmac_sha1_pads). destruct (hmac_sha1_size key (m ++ x)) as [_ Hz]. rewrite copy_bytes by lia. cbn [mbind option_bind].
  eexists. split; [done|]. by split.
Qed.

#[export, refine] Instance srtp_hmac_ok : AuthOk srtp_hmac_ctx_t (srtp_hmac junk pad) := {|
  at_secret := list Z;
  at_tag key m n old := take (Z.to_nat n) (hmac_sha1_std key m) ++ drop (Z.to_nat n) old;
  at_keyed := hmac_keyed; at_fed := hmac_fed; at_max _ := 20 |}.
Proof using Hjunk Hpad.
  - intros k m n old Hn H20. rewrite zlen_app, zlen_drop. destruct (hmac_sha1_size k m) as [_ Hz]. rewrite zlen_take by lia. lia.
  - intros k m n old old' Hn Hn' H20. destruct (hmac_sha1_size k m) as [_ Hz]. rewrite !take_app_le by (unfold zlen in Hz; rewrite length_take; lia). done.
  - intros k m n old Hn H20. destruct (hmac_sha1_size k m) as [_ Hz]. rewrite drop_app_ge by (rewrite length_take; lia).
    rewrite drop_drop. f_equal. rewrite length_take. unfold zlen in Hz. lia.
  - intros k m n old Hb. apply Forall_app_2; [apply Forall_take, hmac_sha1_size|by apply Forall_drop].
  - by intros s k m [? _].
  - intros s k Hs. eexists. split; [done|]. split; [by destruct Hs; split|]. cbn. rewrite app_nil_r. apply Hs.
  - intros s k m x [Hs Hc] Hx _. destruct (srtp_sha1_update_spec junk Hjunk (h_ctx s) _ x Hc Hx) as (c & Hu & Hc').
    eexists. split; [unfold at_update, srtp_hmac, srtp_hmac_update; rewrite Hu; reflexivity|]. split; [by destruct Hs; split|]. cbn. by rewrite app_assoc.
  - intros s k m x n old. apply srtp_hmac_compute_spec.
Defined.

(** One object used for many messages, the way SRTP uses it: [start], [update] with the packet,
    [compute] with the rollover counter, into a buffer of [n] octets. *)
Fixpoint hmac_tags (s : srtp_hmac_ctx_t) (n : Z) (msgs : list (list Z * list Z)) : option (list (list Z)) :=
  match msgs with
  | [] => Some []
  | (a, b) :: msgs =>
      '(_, s) ← srtp_hmac_start s; '(_, s) ← srtp_hmac_update junk s a (zlen a);
      '(st, tag, s) ← srtp_hmac_compute junk s b (zlen b) n (replicate (Z.to_nat n) 0);
      if negb (bool_decide (st = srtp_err_status_ok)) then None else tags ← hmac_tags s n msgs; Some (tag :: tags)
  end.

(** C40. The authentication function of SRTP: initialised with a key of at most 20 octets, an
    object of [hmac.c] computes for each of any number of messages, each given in two parts,
    the first [n] octets of the HMAC-SHA1 of RFC 2104 over both parts. *)
Theorem srtp_hmac_rfc2104 (s : srtp_hmac_ctx_t) (key : list Z) (n : Z) (msgs : list (list Z * list Z)) :
  hmac_memory s -> zlen key <= 20 -> Forall byte key -> 0 <= n <= 20 ->
  Forall (fun '(a, b) => Forall byte a /\ Forall byte b /\ zlen a + zlen b < 268435456) msgs ->
  exists s', srtp_hmac_init junk pad s key (zlen key) = Some (srtp_err_status_ok, s') /\
    hmac_tags s' n msgs = Some (map (fun '(a, b) => take (Z.to_nat n) (hmac_sha1_std key (a ++ b))) msgs).
Proof using Hjunk Hpad.
  intros Hs Hk Hkb Hn Hm. destruct (srtp_hmac_init_spec s key Hs Hk Hkb) as (s' & Hi & [Hk' _]). exists s'. split; [done|]. clear Hi Hs. revert s' Hk'.
  induction Hm as [|[a b] msgs (Ha & Hb & Hl) _ IH]; intros s' Hk'; [done|]. cbn [hmac_tags map].
  destruct (at_start_ok (AuthOk := srtp_hmac_ok) s' key Hk') as (s1 & Hst & H1).
  cbn [at_start srtp_hmac] in Hst. rewrite Hst. cbn [mbind option_bind].
  destruct (at_update_ok (AuthOk := srtp_hmac_ok) s1 key [] a H1 Ha) as (s2 & Hu & H2); [pose proof (zlen_nonneg b); rewrite zlen_nil; lia|].
  cbn [at_update srtp_hmac] in Hu. rewrite Hu. cbn [mbind option_bind app] in *.
  destruct (srtp_hmac_compute_spec s2 key a b n (replicate (Z.to_nat n) 0) H2 Hb Hl) as (s3 & -> & H3); [unfold zlen; rewrite length_replicate; lia|lia|].
  cbn [mbind option_bind]. rewrite bool_decide_true by done. cbn [negb]. rewrite (IH s3 H3). cbn [mbind option_bind].
  rewrite drop_ge by (rewrite length_replicate; lia). by rewrite app_nil_r.
Qed.
End hmac.

Definition hmac_object : srtp_hmac_ctx_t :=
  let c := SrtpSha1.Sha1_ctx (replicate 5 0) (replicate 64 0) 0 0 in Hmac_ctx (replicate 64 0) c c.

Definition hmac_key_ex : list Z := replicate 20 11.
Definition hmac_msgs_ex : list (list Z * list Z) := [([72; 105], [32]); (replicate 100 1, [0; 0; 0; 1])].

Lemma srtp_hmac_rfc2104_witness : exists s', srtp_hmac_init (replicate 80 7) (replicate 64 9) hmac_object hmac_key_ex (zlen hmac_key_ex) = Some (srtp_err_status_ok, s') /\
  hmac_tags (replicate 80 7) s' 10 hmac_msgs_ex = Some (map (fun '(a, b) => take (Z.to_nat 10) (hmac_sha1_std hmac_key_ex (a ++ b))) hmac_msgs_ex).
Proof.
  refine (srtp_hmac_rfc2104 (replicate 80 7) (replicate 64 9) eq_refl eq_refl hmac_object hmac_key_ex 10 hmac_msgs_ex _ _ _ _ _).
  - split; [reflexivity|]. split; [reflexivity|]. apply (bool_decide_eq_true_1 (Forall _ _)). reflexivity.
  - vm_compute. discriminate.
  - apply (bool_decide_eq_true_1 (Forall _ _)). reflexivity.
  - split; vm_compute; discriminate.
  - apply Forall_cons. split; [|apply Forall_cons; split; [|apply Forall_nil]]; [..|exact I].
    all: split; [|split]; [apply (bool_decide_eq_true_1 (Forall _ _)); reflexivity..|reflexivity].
Defined.

#[export, refine] Instance srtp_null_auth_ok : AuthOk srtp_null_auth_ctx_t srtp_null_auth := {|
  at_secret := unit; at_tag _ _ _ old := old; at_keyed _ _ := True; at_fed _ _ _ := True; at_max _ := 0 |}.
Proof.
  all: try done; try (by intros; eexists). intros k m n old old' Hn _ H0. by replace n with 0 by lia.
Defined.

#[export, refine] Instance sum_auth_ok {A B} {TA : AuthType A} {TB : AuthType B} {OA : AuthOk A TA} {OB : AuthOk B TB} : AuthOk (A + B) sum_auth := {|
  at_secret := at_secret (AuthOk := OA) + at_secret (AuthOk := OB);
  at_tag k m n old := match k with inl k => at_tag k m n old | inr k => at_tag k m n old end;
  at_keyed s k := match s, k with inl a, inl k => at_keyed a k | inr b, inr k => at_keyed b k | _, _ => False end;
  at_fed s k m := match s, k with inl a, inl k => at_fed a k m | inr b, inr k => at_fed b k m | _, _ => False end;
  at_max k := match k with inl k => at_max k | inr k => at_max k end |}.
Proof.
  - intros [k|k] m n old Hn Hm; by apply at_tag_length.
  - intros [k|k] m n old old' Hn Hn' Hm; by apply at_tag_take.
  - intros [k|k] m n old Hn Hm; by apply at_tag_drop.
  - intros [k|k] m n old; apply at_tag_bytes.
  - intros [a|b] [k|k] m; try done; apply at_fed_keyed.
  - intros [a|b] [k|k] H; try done; destruct (at_start_ok _ _ H) as (s' & Hs & Hf); cbn; rewrite Hs; [by exists (inl s')|by exists (inr s')].
  - intros [a|b] [k|k] m x H Hx Hl; try done; destruct (at_update_ok _ _ _ _ H Hx Hl) as (s' & Hs & Hf); cbn; rewrite Hs; [by exists (inl s')|by exists (inr s')].
  - intros [a|b] [k|k] m x n old H Hx Hl Hn Hm; try done.
    + destruct (at_compute_ok _ _ _ _ _ _ H Hx Hl Hn Hm) as (s' & Hs & Hf); cbn; rewrite Hs. by exists (inl s').
    + destruct (at_compute_ok _ _ _ _ _ _ H Hx Hl Hn Hm) as (s' & Hs & Hf); cbn; rewrite Hs. by exists (inr s').
Defined.
