(* ===== verification/AesSpec.v ===== *)
(** * The Advanced Encryption Standard (FIPS 197)

    The cipher as the standard defines it, over the field GF(2^8), and the facts on it that
    the proofs need: what multiplication does is decided by trying all bytes. *)

From S2P Require Import Prelude Bytes Words.
Open Scope Z_scope.

Module Fips197.

(** ** The field *)

Definition xtime (x : Z) : Z := Z.lxor (u8 (Z.shiftl x 1)) (if Z.testbit x 7 then 0x1b else 0).

Fixpoint gmul_bits (n : nat) (a b : Z) : Z :=
  match n with O => 0 | S n => Z.lxor (if Z.odd a then b else 0) (gmul_bits n (Z.div2 a) (xtime b)) end.
Definition gmul : Z -> Z -> Z := gmul_bits 8.

Fixpoint gpow (x : Z) (n : nat) : Z := match n with O => 1 | S n => gmul x (gpow x n) end.
(** The inverse, 0 for 0. *)
Definition ginv (x : Z) : Z := gpow x 254.

Definition rotl8 (x k : Z) : Z := Z.lor (u8 (Z.shiftl x k)) (Z.shiftr x (8 - k)).
Definition affine (y : Z) : Z := Z.lxor (Z.lxor (Z.lxor (Z.lxor (Z.lxor y (rotl8 y 1)) (rotl8 y 2)) (rotl8 y 3)) (rotl8 y 4)) 0x63.
Definition SBox (x : Z) : Z := affine (ginv x).

(** ** States: 16 bytes, column by column *)

Definition xor_list (a b : list Z) : list Z := zip_with Z.lxor a b.
Definition columns (f : list Z -> list Z) (s : list Z) : list Z :=
  f (take 4 s) ++ f (take 4 (drop 4 s)) ++ f (take 4 (drop 8 s)) ++ f (take 4 (drop 12 s)).

Section cipher.
Context (S : Z -> Z).

Definition SubBytes (s : list Z) : list Z := map S s.
Definition ShiftRows (s : list Z) : list Z := map (fun i => nth ((i + 4 * (i mod 4)) mod 16)%nat s 0) (seq 0 16).
Definition MixColumn (c : list Z) : list Z :=
  match c with
  | [a; b; c; d] => [Z.lxor (Z.lxor (Z.lxor (gmul 2 a) (gmul 3 b)) c) d; Z.lxor (Z.lxor (Z.lxor a (gmul 2 b)) (gmul 3 c)) d;
                     Z.lxor (Z.lxor (Z.lxor a b) (gmul 2 c)) (gmul 3 d); Z.lxor (Z.lxor (Z.lxor (gmul 3 a) b) c) (gmul 2 d)]
  | _ => c
  end.
Definition MixColumns : list Z -> list Z := columns MixColumn.
Definition AddRoundKey (k s : list Z) : list Z := xor_list s k.

Definition Round (s k : list Z) : list Z := AddRoundKey k (MixColumns (ShiftRows (SubBytes s))).
Definition FinalRound (s k : list Z) : list Z := AddRoundKey k (ShiftRows (SubBytes s)).

(** [ks]: the round keys. *)
Definition Cipher (ks : list (list Z)) (s : list Z) : list Z :=
  match ks with
  | [] => s
  | k0 :: ks => match last ks with
                | None => AddRoundKey k0 s
                | Some k => FinalRound (fold_left Round (removelast ks) (AddRoundKey k0 s)) k
                end
  end.

(** ** Key expansion, on words of four bytes *)

Definition RotWord (w : list Z) : list Z := match w with a :: w => w ++ [a] | [] => [] end.
Definition Rcon (j : nat) : list Z := [Nat.iter (j - 1) xtime 1; 0; 0; 0].

Definition expand_word (Nk : nat) (ws : list (list Z)) (i : nat) : list (list Z) :=
  let w (k : nat) := nth (length ws - k) ws [] in
  let temp := w 1%nat in
  let temp := if (i mod Nk =? 0)%nat then xor_list (SubBytes (RotWord temp)) (Rcon (i / Nk))
              else if (6 <? Nk)%nat && (i mod Nk =? 4)%nat then SubBytes temp else temp in
  ws ++ [xor_list (w Nk) temp].

Definition key_words (Nk : nat) (key : list Z) : list (list Z) := map (fun i => take 4 (drop (4 * i) key)) (seq 0 Nk).
Definition KeyExpansion (Nk Nr : nat) (key : list Z) : list (list Z) := fold_left (expand_word Nk) (seq Nk (4 * (Nr + 1) - Nk)) (key_words Nk key).
Definition round_keys (Nk Nr : nat) (key : list Z) : list (list Z) :=
  map (fun i => concat (take 4 (drop (4 * i) (KeyExpansion Nk Nr key)))) (seq 0 (Nr + 1)).

(** ** The inverse *)

Definition InvShiftRows (s : list Z) : list Z := map (fun i => nth ((i + 12 * (i mod 4)) mod 16)%nat s 0) (seq 0 16).
Definition InvMixColumn (c : list Z) : list Z :=
  let row w x y z a b c d := Z.lxor (Z.lxor (Z.lxor (gmul w a) (gmul x b)) (gmul y c)) (gmul z d) in
  match c with
  | [a; b; c; d] => [row 14 11 13 9 a b c d; row 9 14 11 13 a b c d; row 13 9 14 11 a b c d; row 11 13 9 14 a b c d]
  | _ => c
  end.
Definition InvMixColumns : list Z -> list Z := columns InvMixColumn.
End cipher.

End Fips197.

Import Fips197.

(** ** Deciding facts on bytes *)

Definition all_bytes (P : Z -> bool) : bool := forallb P (map Z.of_nat (seq 0 256)).

Lemma all_bytes_spec P : all_bytes P = true -> forall x, byte x -> P x = true.
Proof.
  unfold all_bytes. rewrite forallb_forall. intros H x Hx. apply H. apply in_map_iff. exists (Z.to_nat x). unfold byte in Hx.
  split; [lia|]. apply in_seq. lia.
Qed.

(** Decide [P x] for the byte [x] by trying all of them. *)
Ltac try_bytes P :=
  let H := fresh in assert (all_bytes P = true) as H by (vm_compute; reflexivity);
  match goal with Hx : byte ?x |- context [?x] => exact (all_bytes_spec P H x Hx) end.

Lemma gmul_byte k x : In k [2; 3; 9; 11; 13; 14] -> byte x -> byte (gmul k x).
Proof.
  intros Hk Hx. apply (bool_decide_eq_true_1 (byte (gmul k x))).
  repeat destruct Hk as [<-|Hk]; [try_bytes (fun x => bool_decide (byte (gmul 2 x)))|try_bytes (fun x => bool_decide (byte (gmul 3 x)))
    |try_bytes (fun x => bool_decide (byte (gmul 9 x)))|try_bytes (fun x => bool_decide (byte (gmul 11 x)))
    |try_bytes (fun x => bool_decide (byte (gmul 13 x)))|try_bytes (fun x => bool_decide (byte (gmul 14 x)))|destruct Hk].
Qed.

Lemma xor_byte x y : byte x -> byte y -> byte (Z.lxor x y).
Proof. apply (in_range_lxor 8). lia. Qed.

(** Multiplication by a constant is linear: a fact on bits, so one on the powers of two. *)
Lemma xtime_xor x y : xtime (Z.lxor x y) = Z.lxor (xtime x) (xtime y).
Proof.
  unfold xtime. rewrite Z.lxor_spec. assert (u8 (Z.shiftl (Z.lxor x y) 1) = Z.lxor (u8 (Z.shiftl x 1)) (u8 (Z.shiftl y 1))) as ->.
  { rewrite Z.shiftl_lxor. apply Z.bits_inj'. intros n Hn. unfold u8. rewrite Z.lxor_spec, !wrap_testbit, Z.lxor_spec by lia.
    destruct (Z.ltb_spec n 8); done. }
  destruct (Z.testbit x 7), (Z.testbit y 7); cbn [xorb]; rewrite ?Z.lxor_0_r; bitwise.
Qed.

Lemma gmul_xor k x y : gmul k (Z.lxor x y) = Z.lxor (gmul k x) (gmul k y).
Proof.
  unfold gmul. generalize 8%nat as n. intros n. revert k x y. induction n as [|n IH]; intros k x y; [done|]. cbn [gmul_bits].
  rewrite xtime_xor, IH. destruct (Z.odd k); rewrite ?Z.lxor_0_l; [bitwise|done].
Qed.

(** The product of the matrices of MixColumns and its inverse is the unit: the four entries of
    the column for [x]. *)
Definition unmix (x : Z) : list Z :=
  let row w a b c d := Z.lxor (Z.lxor (Z.lxor (gmul (w 0%nat) a) (gmul (w 1%nat) b)) (gmul (w 2%nat) c)) (gmul (w 3%nat) d) in
  let w (l : list Z) (i : nat) := nth i l 0 in
  [row (w [14; 11; 13; 9]) (gmul 2 x) x x (gmul 3 x); row (w [14; 11; 13; 9]) (gmul 3 x) (gmul 2 x) x x;
   row (w [14; 11; 13; 9]) x (gmul 3 x) (gmul 2 x) x; row (w [14; 11; 13; 9]) x x (gmul 3 x) (gmul 2 x)].

Lemma unmix_byte x : byte x -> unmix x = [x; 0; 0; 0].
Proof.
  intros Hx. apply (bool_decide_eq_true_1 (unmix x = [x; 0; 0; 0])). try_bytes (fun x => bool_decide (unmix x = [x; 0; 0; 0])).
Qed.
