(* ===== verification/AesRounds.v ===== *)
(** * The rounds of the AES code are those of FIPS 197

    The tables hold the products of MixColumns with the S-box; a round through them is a round
    of the standard, and an inverse round through the inverse tables undoes one. *)

From S2P Require Import Prelude Bytes Words Sha1 AesSpec Aes.
From Stdlib Require Import Btauto.
Open Scope Z_scope.
Import Fips197.

(** Equality of sums in GF(2)^n. *)
Ltac xor_ring := apply Z.bits_inj'; intros ? ?; repeat rewrite Z.lxor_spec; rewrite ?Z.testbit_0_l; btauto.

Definition block (s : list Z) : Prop := length s = 16%nat /\ Forall byte s.

(** ** Tables *)

(** An entry of a table, stored. *)
Definition entry (T : list Z) (x : Z) (l : list Z) : Prop := exists t, rd T x = Some t /\ Sha1.le32 t = l.
Definition entryb (T : list Z) (x : Z) (l : list Z) : bool := match rd T x with Some t => bool_decide (Sha1.le32 t = l) | None => false end.

Lemma entryb_true T x l : entryb T x l = true -> entry T x l.
Proof. unfold entryb. destruct (rd T x) as [t|] eqn:Ht; [|done]. intros ?%bool_decide_eq_true. by exists t. Qed.

Definition boxb (x : Z) : bool :=
  bool_decide (rd Aes.aes_sbox x = Some (SBox x)) && bool_decide (byte (SBox x)) && bool_decide (rd Aes.aes_inv_sbox (SBox x) = Some x).

Lemma sbox_bytes x : byte x -> rd Aes.aes_sbox x = Some (SBox x) /\ byte (SBox x) /\ rd Aes.aes_inv_sbox (SBox x) = Some x.
Proof.
  intros Hx. assert (boxb x = true) as Hb by try_bytes boxb. unfold boxb in Hb.
  apply andb_true_iff in Hb as [[H1%bool_decide_eq_true H2%bool_decide_eq_true]%andb_true_iff H3%bool_decide_eq_true]. done.
Qed.

Definition tablesb (x : Z) : bool :=
  let y := SBox x in
  entryb Aes.T0 x [gmul 2 y; y; y; gmul 3 y] && entryb Aes.T1 x [gmul 3 y; gmul 2 y; y; y]
  && entryb Aes.T2 x [y; gmul 3 y; gmul 2 y; y] && entryb Aes.T3 x [y; y; gmul 3 y; gmul 2 y]
  && entryb Aes.U0 y [gmul 14 x; gmul 9 x; gmul 13 x; gmul 11 x] && entryb Aes.U1 y [gmul 11 x; gmul 14 x; gmul 9 x; gmul 13 x]
  && entryb Aes.U2 y [gmul 13 x; gmul 11 x; gmul 14 x; gmul 9 x] && entryb Aes.U3 y [gmul 9 x; gmul 13 x; gmul 11 x; gmul 14 x].

Lemma tables_ok x : byte x -> let y := SBox x in
  entry Aes.T0 x [gmul 2 y; y; y; gmul 3 y] /\ entry Aes.T1 x [gmul 3 y; gmul 2 y; y; y] /\
  entry Aes.T2 x [y; gmul 3 y; gmul 2 y; y] /\ entry Aes.T3 x [y; y; gmul 3 y; gmul 2 y] /\
  entry Aes.U0 y [gmul 14 x; gmul 9 x; gmul 13 x; gmul 11 x] /\ entry Aes.U1 y [gmul 11 x; gmul 14 x; gmul 9 x; gmul 13 x] /\
  entry Aes.U2 y [gmul 13 x; gmul 11 x; gmul 14 x; gmul 9 x] /\ entry Aes.U3 y [gmul 9 x; gmul 13 x; gmul 11 x; gmul 14 x].
Proof.
  intros Hx. assert (tablesb x = true) as Hb by try_bytes tablesb. unfold tablesb in Hb. cbv zeta in *.
  repeat match goal with H : _ && _ = true |- _ => apply andb_true_iff in H as [H ?] end. by repeat split; apply entryb_true.
Qed.

(** ** Columns *)

Lemma le32_lxor x y : Sha1.le32 (Z.lxor x y) = xor_list (Sha1.le32 x) (Sha1.le32 y).
Proof.
  assert (forall a b k, 0 <= k -> u8 (Z.shiftr (Z.lxor a b) k) = Z.lxor (u8 (Z.shiftr a k)) (u8 (Z.shiftr b k))) as Hk.
  { intros a b k Hk. rewrite Z.shiftr_lxor. apply Z.bits_inj'. intros n Hn. unfold u8. rewrite Z.lxor_spec, !wrap_testbit, Z.lxor_spec by lia.
    destruct (n <? 8); done. }
  unfold Sha1.le32, xor_list. cbn [zip_with]. rewrite !Hk by lia. f_equal. pose proof (Hk x y 0 ltac:(lia)) as H0. by rewrite !Z.shiftr_0_r in H0.
Qed.

Lemma column_spec A B C D s i j k l x y z w la lb lc ld :
  rd s i = Some x -> rd s j = Some y -> rd s k = Some z -> rd s l = Some w -> entry A x la -> entry B y lb -> entry C z lc -> entry D w ld ->
  Aes.column A B C D s i j k l = Some (xor_list (xor_list (xor_list la lb) lc) ld).
Proof.
  intros Hi Hj Hk Hl (a & Ha & <-) (b & Hb & <-) (c & Hc & <-) (d & Hd & <-). unfold Aes.column.
  rewrite Hi. cbn [mbind option_bind]. rewrite Ha. cbn [mbind option_bind]. rewrite Hj. cbn [mbind option_bind]. rewrite Hb. cbn [mbind option_bind].
  rewrite Hk. cbn [mbind option_bind]. rewrite Hc. cbn [mbind option_bind]. rewrite Hl. cbn [mbind option_bind]. rewrite Hd. cbn [mbind option_bind].
  by rewrite !le32_lxor.
Qed.

Lemma mix_column s i j k l x y z w : rd s i = Some x -> rd s j = Some y -> rd s k = Some z -> rd s l = Some w -> byte x -> byte y -> byte z -> byte w ->
  Aes.column Aes.T0 Aes.T1 Aes.T2 Aes.T3 s i j k l = Some (MixColumn [SBox x; SBox y; SBox z; SBox w]).
Proof.
  intros Hi Hj Hk Hl Hx Hy Hz Hw. erewrite column_spec; [|done|done|done|done|by apply tables_ok..]. done.
Qed.

Lemma unmix_column s i j k l x y z w : rd s i = Some (SBox x) -> rd s j = Some (SBox y) -> rd s k = Some (SBox z) -> rd s l = Some (SBox w) ->
  byte x -> byte y -> byte z -> byte w -> Aes.column Aes.U0 Aes.U1 Aes.U2 Aes.U3 s i j k l = Some (InvMixColumn [x; y; z; w]).
Proof.
  intros Hi Hj Hk Hl Hx Hy Hz Hw. erewrite column_spec; [|done|done|done|done|by apply tables_ok..]. done.
Qed.

(** A block as 16 variables. *)
Ltac open_block H :=
  let Hl := fresh in let Hb := fresh in destruct H as [Hl Hb];
  match type of Hl with length ?s = _ => do 16 (destruct s as [|? s]; [done|]); destruct s; [|done] end; clear Hl;
  repeat match goal with H : Forall byte (_ :: _) |- _ => apply Forall_cons in H as [? H] end; clear Hb.

(** ** Encryption rounds *)

Lemma shift_sub f a b c d e g h i j k l m n o p q :
  ShiftRows (SubBytes f [a; b; c; d; e; g; h; i; j; k; l; m; n; o; p; q]) =
  [f a; f g; f l; f q; f e; f k; f p; f d; f j; f o; f c; f i; f n; f b; f h; f m].
Proof. reflexivity. Qed.

Lemma aes_round_spec s k : block s -> Aes.aes_round s k = Some (Round SBox s k).
Proof.
  intros Hs. open_block Hs. unfold Aes.aes_round. repeat (erewrite mix_column by (reflexivity || assumption); cbn [mbind option_bind]).
  unfold Round, MixColumns, columns, AddRoundKey, xor_list. rewrite shift_sub. reflexivity.
Qed.

(** Reading and writing memory of known length. *)
Ltac mem :=
  repeat match goal with
  | |- context [rd (?a :: ?l) ?i] => let v := eval cbv in (rd (a :: l) i) in change (rd (a :: l) i) with v; cbn [mbind option_bind]
  | |- context [wr (?a :: ?l) ?i ?x] => let v := eval cbv in (wr (a :: l) i x) in change (wr (a :: l) i x) with v; cbn [mbind option_bind]
  | H : rd ?b ?x = Some _ |- context [rd ?b ?x] => rewrite H; cbn [mbind option_bind]
  end.

Lemma aes_final_round_spec s k : block s -> Aes.aes_final_round s k = Some (FinalRound SBox s k).
Proof.
  intros Hs. assert (forall x, byte x -> rd Aes.aes_sbox x = Some (SBox x)) as Hbox by (intros; by apply sbox_bytes).
  unfold Aes.aes_final_round, FinalRound. revert Hbox. generalize Aes.aes_sbox SBox. intros box S Hbox.
  open_block Hs. repeat match goal with H : byte ?x |- _ => pose proof (Hbox x H); clear H end. clear Hbox. unfold SubBytes. cbn [map].
  repeat match goal with H : rd box ?x = Some (S ?x) |- _ => revert H; generalize (S x); intros ? H end.
  unfold Aes.sub_to, Aes.sub_tmp. mem. done.
Qed.

(** ** Decryption rounds *)

Definition InvSBox (y : Z) : Z := default 0 (rd Aes.aes_inv_sbox y).

Lemma inv_sbox_sbox x : byte x -> InvSBox (SBox x) = x.
Proof. intros Hx. unfold InvSBox. by destruct (sbox_bytes x Hx) as (_ & _ & ->). Qed.

Lemma aes_inv_round_spec s k : block s -> Aes.aes_inv_round (ShiftRows (SubBytes SBox s)) k = Some (AddRoundKey k (InvMixColumns s)).
Proof.
  intros Hs. open_block Hs. rewrite shift_sub. unfold Aes.aes_inv_round.
  repeat (erewrite unmix_column by (reflexivity || assumption); cbn [mbind option_bind]). reflexivity.
Qed.

Lemma aes_inv_final_round_spec s k : block s -> Aes.aes_inv_final_round (ShiftRows (SubBytes SBox s)) k = Some (AddRoundKey k s).
Proof.
  intros Hs. assert (forall x, byte x -> rd Aes.aes_inv_sbox (SBox x) = Some x) as Hbox by (intros; by apply sbox_bytes).
  unfold Aes.aes_inv_final_round. revert Hbox. generalize Aes.aes_inv_sbox SBox. intros box S Hbox.
  open_block Hs. rewrite shift_sub. repeat match goal with H : byte ?x |- _ => pose proof (Hbox x H); clear H end. clear Hbox.
  repeat match goal with H : rd box (S ?x) = Some ?x |- _ => revert H; generalize (S x); intros ? H end.
  unfold Aes.sub_to, Aes.sub_tmp. mem. done.
Qed.

Lemma sub_mapM s : Forall byte s -> mapM (rd Aes.aes_sbox) s = Some (SubBytes SBox s).
Proof. induction 1 as [|x s Hx _ IH]; [done|]. cbn [mapM]. by rewrite (proj1 (sbox_bytes x Hx)); cbn [mbind option_bind]; rewrite IH. Qed.

Lemma unmix_key_spec k : block k -> Aes.unmix_key k = Some (InvMixColumns k).
Proof.
  intros Hk. unfold Aes.unmix_key. rewrite sub_mapM by apply Hk. cbn [mbind option_bind]. open_block Hk. unfold SubBytes. cbn [map].
  repeat (erewrite unmix_column by (reflexivity || assumption); cbn [mbind option_bind]). done.
Qed.
