(* ===== verification/AesInverse.v ===== *)
(** * Decryption undoes encryption

    InvMixColumns is linear and the inverse of MixColumns, so the decryption key schedule of the
    code, which has InvMixColumns of the middle round keys in reverse, undoes the rounds.
    An expanded key holds the round keys of the standard; encryption with it is the cipher of
    the standard, and decryption with the decryption schedule is its inverse. *)

From S2P Require Import Prelude Bytes Window Words AesSpec Aes AesRounds.
Open Scope Z_scope.
Import Fips197.

(** ** MixColumns and its inverse *)

Ltac cons_xor := repeat (apply (f_equal2 cons); [xor_ring|]); reflexivity.

Lemma InvMixColumn_xor a b : length a = 4%nat -> length b = 4%nat -> InvMixColumn (xor_list a b) = xor_list (InvMixColumn a) (InvMixColumn b).
Proof.
  intros Ha Hb. do 4 (destruct a as [|? a]; [done|]). do 4 (destruct b as [|? b]; [done|]). destruct a; [|done]. destruct b; [|done].
  unfold xor_list. cbn [zip_with InvMixColumn]. rewrite !gmul_xor. cons_xor.
Qed.

Lemma InvMixColumn_length c : length c = 4%nat -> length (InvMixColumn c) = 4%nat.
Proof. intros. do 4 (destruct c as [|? c]; [done|]). by destruct c. Qed.

Lemma columns_app f a b c d : length a = 4%nat -> length b = 4%nat -> length c = 4%nat -> length d = 4%nat ->
  columns f (a ++ b ++ c ++ d) = f a ++ f b ++ f c ++ f d.
Proof.
  intros Ha Hb Hc Hd. do 4 (destruct a as [|? a]; [done|]). do 4 (destruct b as [|? b]; [done|]).
  do 4 (destruct c as [|? c]; [done|]). do 4 (destruct d as [|? d]; [done|]). destruct a, b, c, d; done.
Qed.

Lemma columns_of s : length s = 16%nat -> exists a b c d : list Z,
  length a = 4%nat /\ length b = 4%nat /\ length c = 4%nat /\ length d = 4%nat /\ s = a ++ b ++ c ++ d.
Proof.
  intros Hs. do 16 (destruct s as [|? s]; [done|]). destruct s; [|done].
  match goal with |- context [[?a; ?b; ?c; ?d; ?e; ?f; ?g; ?h; ?i; ?j; ?k; ?l; ?m; ?n; ?o; ?p]] => exists [a; b; c; d], [e; f; g; h], [i; j; k; l], [m; n; o; p] end.
  done.
Qed.

Lemma xor_list_app a b c d : length a = length c -> xor_list (a ++ b) (c ++ d) = xor_list a c ++ xor_list b d.
Proof. intros. by apply zip_with_app. Qed.

Lemma xor_list_length a b : length a = length b -> length (xor_list a b) = length a.
Proof. intros. unfold xor_list. rewrite length_zip_with. lia. Qed.

Lemma InvMixColumns_xor s t : length s = 16%nat -> length t = 16%nat -> InvMixColumns (xor_list s t) = xor_list (InvMixColumns s) (InvMixColumns t).
Proof.
  intros (a & b & c & d & ? & ? & ? & ? & ->)%columns_of (a' & b' & c' & d' & ? & ? & ? & ? & ->)%columns_of. unfold InvMixColumns.
  rewrite !columns_app, !xor_list_app, columns_app, !InvMixColumn_xor by (rewrite ?xor_list_length by congruence; congruence).
  by rewrite !xor_list_app by (rewrite !InvMixColumn_length by done; done).
Qed.

Definition unmix_at (i : nat) (x : Z) : Z := nth i (unmix x) 0.

Lemma InvMixColumn_MixColumn_unmix a b c d :
  let u w x y z := Z.lxor (Z.lxor (Z.lxor (unmix_at w a) (unmix_at x b)) (unmix_at y c)) (unmix_at z d) in
  InvMixColumn (MixColumn [a; b; c; d]) = [u 0%nat 1%nat 2%nat 3%nat; u 3%nat 0%nat 1%nat 2%nat; u 2%nat 3%nat 0%nat 1%nat; u 1%nat 2%nat 3%nat 0%nat].
Proof.
  cbv zeta. unfold unmix_at, unmix. cbv zeta. cbn [nth MixColumn InvMixColumn]. rewrite !gmul_xor. cons_xor.
Qed.

Lemma InvMixColumn_MixColumn c : length c = 4%nat -> Forall byte c -> InvMixColumn (MixColumn c) = c.
Proof.
  intros Hl Hb. do 4 (destruct c as [|? c]; [done|]). destruct c; [|done].
  repeat match goal with H : Forall byte (_ :: _) |- _ => apply Forall_cons in H as [? H] end.
  rewrite InvMixColumn_MixColumn_unmix. unfold unmix_at. rewrite !unmix_byte by done. cbn [nth]. by rewrite !Z.lxor_0_r, ?Z.lxor_0_l.
Qed.

Lemma MixColumn_bytes c : length c = 4%nat -> Forall byte c -> length (MixColumn c) = 4%nat /\ Forall byte (MixColumn c).
Proof.
  intros Hl Hb. do 4 (destruct c as [|? c]; [done|]). destruct c; [|done]. split; [done|]. cbn [MixColumn].
  repeat match goal with H : Forall byte (_ :: _) |- _ => apply Forall_cons in H as [? H] end.
  clear Hb. repeat (apply Forall_cons; split); [..|by apply Forall_nil]; 
    repeat match goal with |- byte (Z.lxor _ _) => apply xor_byte end; try done; apply gmul_byte; done || (left; done) || (right; left; done).
Qed.

Lemma InvMixColumns_MixColumns s : block s -> InvMixColumns (MixColumns s) = s.
Proof.
  intros [(a & b & c & d & ? & ? & ? & ? & ->)%columns_of Hb]. rewrite !Forall_app in Hb. destruct Hb as (? & ? & ? & ?).
  unfold InvMixColumns, MixColumns. rewrite !columns_app by (try apply MixColumn_bytes; done). by rewrite !InvMixColumn_MixColumn.
Qed.

(** ** One round and its inverse *)

Lemma xor_list_xor a b : length a = length b -> xor_list (xor_list a b) b = a.
Proof.
  revert b. induction a as [|x a IH]; intros [|y b] H; try done. injection H as H. unfold xor_list in *. cbn [zip_with]. rewrite IH by done.
  by rewrite Z.lxor_assoc, Z.lxor_nilpotent, Z.lxor_0_r.
Qed.

Lemma xor_list_block a b : block a -> block b -> block (xor_list a b).
Proof.
  intros [Ha Fa] [Hb Fb]. split; [by rewrite xor_list_length by congruence|]. clear Ha Hb. revert b Fb.
  induction Fa as [|x a Hx Fa IH]; intros ? [|y b Hy Fb]; try constructor; [by apply xor_byte|by apply IH].
Qed.

Lemma sub_shift_block s : block s -> block (ShiftRows (SubBytes SBox s)).
Proof.
  intros Hs. open_block Hs. rewrite shift_sub. split; [done|].
  repeat (apply Forall_cons; split); [..|by apply Forall_nil]; by apply sbox_bytes.
Qed.

Lemma MixColumns_block s : block s -> block (MixColumns s).
Proof.
  intros [(a & b & c & d & ? & ? & ? & ? & ->)%columns_of Hb]. rewrite !Forall_app in Hb. destruct Hb as (? & ? & ? & ?). unfold MixColumns.
  rewrite columns_app by done. split; [rewrite !length_app; by rewrite !(λ c H1 H2, proj1 (MixColumn_bytes c H1 H2))|].
  rewrite !Forall_app. by repeat split; apply MixColumn_bytes.
Qed.

Lemma Round_block s k : block s -> block k -> block (Round SBox s k).
Proof. intros. by apply xor_list_block; [apply MixColumns_block, sub_shift_block|]. Qed.

Lemma InvMixColumns_length s : length s = 16%nat -> length (InvMixColumns s) = 16%nat.
Proof.
  intros (a & b & c & d & ? & ? & ? & ? & ->)%columns_of. unfold InvMixColumns. rewrite columns_app, !length_app by done. by rewrite !InvMixColumn_length.
Qed.

Lemma inverse_round s k : block s -> block k ->
  Aes.aes_inv_round (ShiftRows (SubBytes SBox (Round SBox s k))) (InvMixColumns k) = Some (ShiftRows (SubBytes SBox s)).
Proof.
  intros Hs Hk. rewrite aes_inv_round_spec by by apply Round_block. f_equal. unfold Round, AddRoundKey.
  pose proof (sub_shift_block s Hs) as Ht. pose proof (MixColumns_block _ Ht) as [Hl _].
  rewrite InvMixColumns_xor by (done || apply Hk). rewrite xor_list_xor, InvMixColumns_MixColumns; [done|done|].
  rewrite !InvMixColumns_length; [done|apply Hk|done].
Qed.

(** ** The rounds together *)

Lemma some_rounds_fold (f : list Z -> list Z -> option (list Z)) g e ks a s :
  (forall s k, block s -> block k -> f s k = Some (g s k) /\ block (g s k)) -> 0 <= a -> block s -> Forall block ks ->
  (forall i k, ks !! i = Some k -> rd (Aes.round e) (a + Z.of_nat i) = Some k) ->
  Aes.some_rounds f e a (a + zlen ks) s = Some (fold_left g ks s) /\ block (fold_left g ks s).
Proof.
  intros Hf. revert a s. induction ks as [|k ks IH]; intros a s Ha Hs Hks Hrd.
  - unfold Aes.some_rounds. rewrite zlen_nil, for_up_empty by lia. done.
  - apply Forall_cons in Hks as [Hk Hks]. destruct (Hf s k Hs Hk) as [Hfk Hg].
    unfold Aes.some_rounds. rewrite zlen_cons, for_up_step by (pose proof (zlen_nonneg ks); lia).
    pose proof (Hrd 0%nat k eq_refl) as H0. rewrite Z.add_0_r in H0. rewrite H0. cbn [mbind option_bind]. rewrite Hfk. cbn [mbind option_bind fold_left].
    replace (a + (1 + zlen ks)) with (a + 1 + zlen ks) by lia. apply IH; [lia|done..|].
    intros i k' Hi. rewrite <- (Hrd (S i) k' Hi). f_equal. lia.
Qed.

Lemma rounds_block ks s : block s -> Forall block ks -> block (fold_left (Round SBox) ks s).
Proof. intros Hs Hks. revert s Hs. induction Hks as [|k ks Hk _ IH]; intros s Hs; [done|]. by apply IH, Round_block. Qed.

Lemma inverse_rounds e ks a s : 0 <= a -> block s -> Forall block ks ->
  (forall i k, rev ks !! i = Some k -> rd (Aes.round e) (a + Z.of_nat i) = Some (InvMixColumns k)) ->
  Aes.some_rounds Aes.aes_inv_round e a (a + zlen ks) (ShiftRows (SubBytes SBox (fold_left (Round SBox) ks s))) = Some (ShiftRows (SubBytes SBox s)).
Proof.
  intros Ha Hs. revert a Ha. induction ks as [|k ks IH] using rev_ind; intros a Ha Hks Hrd.
  - unfold Aes.some_rounds. by rewrite zlen_nil, for_up_empty by lia.
  - rewrite Forall_app, Forall_singleton in Hks. destruct Hks as [Hks Hk]. rewrite rev_app_distr in Hrd. cbn [rev app] in Hrd.
    rewrite fold_left_app. cbn [fold_left]. unfold Aes.some_rounds. rewrite zlen_app, zlen_cons, zlen_nil, for_up_step by (pose proof (zlen_nonneg ks); lia).
    pose proof (Hrd 0%nat k eq_refl) as H0. rewrite Z.add_0_r in H0. rewrite H0. cbn [mbind option_bind].
    assert (block (fold_left (Round SBox) ks s))  as Hb by by apply rounds_block.
    rewrite inverse_round by done. cbn [mbind option_bind].
    replace (a + (zlen ks + (1 + 0))) with (a + 1 + zlen ks) by lia. apply IH; [lia|done|].
    intros i k' Hi. rewrite <- (Hrd (S i) k' Hi). f_equal. lia.
Qed.

(** ** Whole blocks *)

(** The first entries of the array are the round keys [ks]. *)
Definition holds (e : Aes.srtp_aes_expanded_key_t) (ks : list (list Z)) : Prop :=
  Aes.num_rounds e = zlen ks - 1 /\ (zlen ks = 11 \/ zlen ks = 15) /\ length (Aes.round e) = 15%nat /\
  forall i k, ks !! i = Some k -> rd (Aes.round e) (Z.of_nat i) = Some k.

Lemma some_rounds_join f e a b c s : a <= b -> b <= c ->
  (s' ← Aes.some_rounds f e a b s; Aes.some_rounds f e b c s') = Aes.some_rounds f e a c s.
Proof.
  intros Hab. remember (Z.to_nat (b - a)) as n eqn:Hn. revert a s Hab Hn. induction n as [|n IH]; intros a s Hab Hn Hbc.
  - assert (a = b) as -> by lia. unfold Aes.some_rounds. by rewrite (for_up_empty b b) by lia.
  - unfold Aes.some_rounds. rewrite (for_up_step a b), (for_up_step a c) by lia.
    destruct (rd (Aes.round e) a) as [k|]; [|done]. cbn [mbind option_bind]. destruct (f s k) as [s'|]; [|done]. cbn [mbind option_bind]. apply IH; lia.
Qed.

(** The shape of both directions: all rounds but the last, then the last. *)
Definition rounds_of (f g : list Z -> list Z -> option (list Z)) (e : Aes.srtp_aes_expanded_key_t) (p : list Z) : option (list Z) :=
  k0 ← rd (Aes.round e) 0;
  s ← Aes.some_rounds f e 1 (Aes.num_rounds e) (xor_list p k0); Aes.some_rounds g e (Aes.num_rounds e) (Aes.num_rounds e + 1) s.

Lemma encrypt_rounds e p : Aes.num_rounds e = 10 \/ Aes.num_rounds e = 14 -> Aes.srtp_aes_encrypt p e = rounds_of Aes.aes_round Aes.aes_final_round e p.
Proof.
  unfold Aes.srtp_aes_encrypt, rounds_of. destruct (rd (Aes.round e) 0) as [k0|]; [|done]. cbn [mbind option_bind].
  intros [->| ->]; [done|]. rewrite <- (some_rounds_join _ e 1 10 14) by lia.
  unfold Aes.v128_xor, xor_list. destruct (Aes.some_rounds _ e 1 10 _); [|done]. done.
Qed.

Lemma decrypt_rounds e p : Aes.num_rounds e = 10 \/ Aes.num_rounds e = 14 -> Aes.srtp_aes_decrypt p e = rounds_of Aes.aes_inv_round Aes.aes_inv_final_round e p.
Proof.
  unfold Aes.srtp_aes_decrypt, rounds_of. destruct (rd (Aes.round e) 0) as [k0|]; [|done]. cbn [mbind option_bind].
  intros [->| ->]; [done|]. rewrite <- (some_rounds_join _ e 1 10 14) by lia.
  unfold Aes.v128_xor, xor_list. destruct (Aes.some_rounds _ e 1 10 _); [|done]. done.
Qed.

Lemma last_round (f : list Z -> list Z -> option (list Z)) e n k s : rd (Aes.round e) n = Some k -> Aes.some_rounds f e n (n + 1) s = f s k.
Proof.
  intros Hk. unfold Aes.some_rounds. rewrite for_up_step, Hk by lia. cbn [mbind option_bind]. destruct (f s k); [|done]. cbn [mbind option_bind].
  by rewrite for_up_empty by lia.
Qed.

Section key.
Context (k0 kl : list Z) (mid : list (list Z)).
Abbreviation ks := (k0 :: mid ++ [kl]).
Context (Hks : Forall block ks).

Lemma Cipher_rounds p : Cipher SBox ks p = FinalRound SBox (fold_left (Round SBox) mid (xor_list p k0)) kl.
Proof using. unfold Cipher. by rewrite last_snoc, removelast_last. Qed.

Lemma ks_blocks : block k0 /\ Forall block mid /\ block kl.
Proof using Hks. apply Forall_cons in Hks as [? H]. rewrite Forall_app, Forall_singleton in H. tauto. Qed.

Lemma holds_rounds e : holds e ks -> Aes.num_rounds e = 1 + zlen mid /\ (Aes.num_rounds e = 10 \/ Aes.num_rounds e = 14) /\
  rd (Aes.round e) 0 = Some k0 /\ rd (Aes.round e) (1 + zlen mid) = Some kl /\ forall i k, mid !! i = Some k -> rd (Aes.round e) (1 + Z.of_nat i) = Some k.
Proof using.
  intros (Hn & Hl & _ & Hrd). autorewrite with words in *. split; [lia|]. split; [lia|]. split; [by apply (Hrd 0%nat)|]. split.
  - replace (1 + zlen mid) with (Z.of_nat (S (length mid))) by (unfold zlen; lia). apply Hrd. cbn. by apply list_lookup_middle.
  - intros i k Hi. replace (1 + Z.of_nat i) with (Z.of_nat (S i)) by lia. apply Hrd. cbn. by apply lookup_app_l_Some.
Qed.

Lemma encrypt_spec e p : holds e ks -> block p -> Aes.srtp_aes_encrypt p e = Some (Cipher SBox ks p).
Proof using Hks.
  intros He Hp. destruct ks_blocks as (B0 & Bm & Bl). destruct (holds_rounds e He) as (Hn & Hor & H0 & Hl & Hm). rewrite encrypt_rounds, Cipher_rounds by done.
  unfold rounds_of. rewrite H0. cbn [mbind option_bind]. rewrite Hn.
  destruct (some_rounds_fold Aes.aes_round (Round SBox) e mid 1 (xor_list p k0)) as [-> Hb]; [|lia|by apply xor_list_block|done|done|].
  { intros s k Hs Hk. split; [by apply aes_round_spec|by apply Round_block]. }
  cbn [mbind option_bind]. rewrite (last_round _ _ _ kl) by done. by rewrite aes_final_round_spec.
Qed.

Lemma decrypt_spec e p : holds e (kl :: map InvMixColumns (rev mid) ++ [k0]) -> block p -> Aes.srtp_aes_decrypt (Cipher SBox ks p) e = Some p.
Proof using Hks.
  intros He Hp. destruct ks_blocks as (B0 & Bm & Bl).
  assert (block (xor_list p k0)) as Hx by by apply xor_list_block.
  assert (zlen (map InvMixColumns (rev mid)) = zlen mid) as Hlm by (unfold zlen; by rewrite length_map, length_rev).
  destruct He as (Hn & Hl & _ & Hrd). autorewrite with words in *. rewrite Hlm in *.
  rewrite decrypt_rounds, Cipher_rounds by lia. unfold rounds_of. pose proof (Hrd 0%nat kl eq_refl) as H0. change (Z.of_nat 0) with 0 in H0. rewrite H0. cbn [mbind option_bind].
  replace (Aes.num_rounds e) with (1 + zlen mid) by lia. unfold FinalRound, AddRoundKey.
  pose proof (sub_shift_block _ (rounds_block mid _ Hx Bm)) as [Hsl _].
  rewrite xor_list_xor by (destruct Bl; congruence). rewrite inverse_rounds; [|lia|done|done|].
  - cbn [mbind option_bind]. rewrite (last_round _ _ _ k0).
    + rewrite aes_inv_final_round_spec by done. unfold AddRoundKey. by rewrite xor_list_xor by (destruct B0, Hp; congruence).
    + replace (1 + zlen mid) with (Z.of_nat (S (length (map InvMixColumns (rev mid))))) by (unfold zlen in *; lia).
      apply Hrd. cbn. by apply list_lookup_middle.
  - intros i k Hi. replace (1 + Z.of_nat i) with (Z.of_nat (S i)) by lia. apply Hrd. cbn. apply lookup_app_l_Some.
    change (map InvMixColumns (rev mid)) with (InvMixColumns <$> rev mid). by rewrite list_lookup_fmap, Hi.
Qed.
End key.
