(* ===== verification/AesKeys.v ===== *)
(** * AES: the key schedules

    The code expands a key one round key at a time, the standard one word at a time: four steps
    of the standard are one of the code. *)

From S2P Require Import Prelude Bytes Window Words AesSpec Aes AesRounds AesInverse.
Open Scope Z_scope.
Import Fips197.

Lemma nth_back {A} (front l : list A) k d : (1 <= k <= length l)%nat -> nth (length (front ++ l) - k) (front ++ l) d = nth (length l - k) l d.
Proof. intros. rewrite length_app, app_nth2 by lia. f_equal. lia. Qed.

Definition word (w : list Z) : Prop := length w = 4%nat /\ Forall byte w.

Lemma xor_list_comm a b : xor_list a b = xor_list b a.
Proof. revert b. induction a as [|x a IH]; intros [|y b]; try done. unfold xor_list in *. cbn [zip_with]. by rewrite Z.lxor_comm, IH. Qed.

Lemma xor_list_word a b : word a -> word b -> word (xor_list a b).
Proof.
  intros [Ha Fa] [Hb Fb]. split; [by rewrite xor_list_length by congruence|]. clear Ha Hb. revert b Fb.
  induction Fa as [|x a Hx Fa IH]; intros ? [|y b Hy Fb]; try constructor; [by apply xor_byte|by apply IH].
Qed.

Lemma xtime_byte x : byte x -> byte (xtime x).
Proof. intros Hx. apply (bool_decide_eq_true_1 (byte (xtime x))). try_bytes (fun x => bool_decide (byte (xtime x))). Qed.

(** The words the code chains. *)
Definition chained (t b0 b1 b2 b3 : list Z) : list (list Z) :=
  let w0 := xor_list t b0 in let w1 := xor_list w0 b1 in let w2 := xor_list w1 b2 in [w0; w1; w2; xor_list w2 b3].

Lemma chain_words_spec t b0 b1 b2 b3 : length b0 = 4%nat -> length b1 = 4%nat -> length b2 = 4%nat -> length b3 = 4%nat ->
  Aes.chain_words t (b0 ++ b1 ++ b2 ++ b3) = concat (chained t b0 b1 b2 b3).
Proof.
  intros H0 H1 H2 H3. do 4 (destruct b0 as [|? b0]; [done|]). do 4 (destruct b1 as [|? b1]; [done|]).
  do 4 (destruct b2 as [|? b2]; [done|]). do 4 (destruct b3 as [|? b3]; [done|]). destruct b0, b1, b2, b3; try done.
  unfold Aes.chain_words, chained. cbn [concat]. by rewrite app_nil_r.
Qed.

(** The word a step starts from. *)
Definition start_word (Nk : nat) (last : list Z) (i : nat) : list Z :=
  if (i mod Nk =? 0)%nat then xor_list (SubBytes SBox (RotWord last)) (Rcon (i / Nk)) else SubBytes SBox last.

Definition starts (Nk i : nat) : Prop := (i mod Nk = 0 \/ (6 < Nk /\ i mod Nk = 4))%nat.

Lemma expand_start Nk front l i : (1 <= Nk <= length l)%nat -> starts Nk i ->
  expand_word SBox Nk (front ++ l) i = front ++ l ++ [xor_list (nth (length l - Nk) l []) (start_word Nk (nth (length l - 1) l []) i)].
Proof.
  intros Hl Hs. unfold expand_word, start_word. cbv zeta. rewrite !nth_back, <- app_assoc by lia.
  destruct (Nat.eqb_spec (i mod Nk) 0) as [|Hne]; [done|]. destruct Hs as [|[H6 H4]]; [done|]. rewrite H4. by rewrite (proj2 (Nat.ltb_lt 6 Nk)).
Qed.

Lemma expand_plain Nk front l i : (1 <= Nk <= length l)%nat -> ~ starts Nk i ->
  expand_word SBox Nk (front ++ l) i = front ++ l ++ [xor_list (nth (length l - Nk) l []) (nth (length l - 1) l [])].
Proof.
  intros Hl Hs. unfold expand_word. cbv zeta. rewrite !nth_back, <- app_assoc by lia.
  destruct (Nat.eqb_spec (i mod Nk) 0) as [|Hne]; [destruct Hs; by left|]. destruct (6 <? Nk)%nat eqn:H6; [|done].
  destruct (Nat.eqb_spec (i mod Nk) 4) as [|]; [|done]. destruct Hs. right. by apply Nat.ltb_lt in H6.
Qed.

(** Four words at once, for a key of [4 + length tl] words. *)
Lemma expand4 front b0 b1 b2 b3 tl i : let Nk := (4 + length tl)%nat in (length tl = 0 \/ length tl = 4)%nat ->
  fold_left (expand_word SBox Nk) (seq (4 * i) 4) (front ++ [b0; b1; b2; b3] ++ tl) =
  front ++ [b0; b1; b2; b3] ++ tl ++ chained (start_word Nk (List.last tl b3) (4 * i)) b0 b1 b2 b3.
Proof.
  cbv zeta. intros Htl. cbn [seq fold_left].
  assert (forall k, (k < 4)%nat -> starts (4 + length tl) (4 * i + k) <-> k = 0%nat) as Hm.
  { intros k Hk. unfold starts. destruct Htl as [-> | ->]; cbn [Nat.add].
    - pose proof (Nat.div_mod_eq (4 * i + k) 4). pose proof (Nat.mod_upper_bound (4 * i + k) 4). lia.
    - pose proof (Nat.div_mod_eq (4 * i + k) 8). pose proof (Nat.mod_upper_bound (4 * i + k) 8). lia. }
  replace (S (S (S (4 * i)))) with (4 * i + 3)%nat by lia. replace (S (S (4 * i))) with (4 * i + 2)%nat by lia. replace (S (4 * i)) with (4 * i + 1)%nat by lia.
  assert (starts (4 + length tl) (4 * i)) as M0 by (rewrite <- (Nat.add_0_r (4 * i)); by apply Hm; [lia|]).
  destruct Htl as [H|H].
  - destruct tl; [|done]. cbn [app List.last length Nat.add] in *. rewrite expand_start by (done || (cbn; lia)). cbn [app length Nat.sub nth].
    do 3 (rewrite expand_plain by ((cbn; lia) || (rewrite Hm; lia)); cbn [app length Nat.sub nth]).
    unfold chained. cbn zeta. by rewrite (xor_list_comm b0), (xor_list_comm b1), (xor_list_comm b2), (xor_list_comm b3).
  - do 4 (destruct tl as [|? tl]; [done|]). destruct tl; [|done]. cbn [app List.last length Nat.add] in *.
    rewrite expand_start by (done || (cbn; lia)). cbn [app length Nat.sub nth].
    do 3 (rewrite expand_plain by ((cbn; lia) || (rewrite Hm; lia)); cbn [app length Nat.sub nth]).
    unfold chained. cbn zeta. by rewrite (xor_list_comm b0), (xor_list_comm b1), (xor_list_comm b2), (xor_list_comm b3).
Qed.

(** ** The words of the schedule *)

Section schedule.
Context (Nk : nat) (key : list Z) (HNk : Nk = 4%nat \/ Nk = 8%nat).

(** The words of the first [i] round keys. *)
Definition expanded (i : nat) : list (list Z) := fold_left (expand_word SBox Nk) (seq Nk (4 * i - Nk)) (key_words Nk key).
Definition round_key (i : nat) (ws : list (list Z)) : list Z := concat (take 4 (drop (4 * i) ws)).

Lemma expanded_first : expanded (Nk / 4) = key_words Nk key.
Proof using HNk. unfold expanded. by destruct HNk as [-> | ->]. Qed.

Lemma expanded_S i : (Nk / 4 <= i)%nat -> expanded (S i) = fold_left (expand_word SBox Nk) (seq (4 * i) 4) (expanded i).
Proof using HNk.
  intros Hi. unfold expanded. assert (Nk <= 4 * i)%nat by (destruct HNk as [-> | ->]; cbn in Hi; lia).
  replace (4 * S i - Nk)%nat with (4 * i - Nk + 4)%nat by lia. rewrite seq_app, fold_left_app. by replace (Nk + (4 * i - Nk))%nat with (4 * i)%nat by lia.
Qed.

Context (Hkey : zlen key = 4 * Z.of_nat Nk) (Hb : Forall byte key).

Lemma key_words_ok : length (key_words Nk key) = Nk /\ Forall word (key_words Nk key).
Proof using Hb Hkey HNk.
  unfold key_words. rewrite length_map, length_seq. split; [done|]. apply List.Forall_forall. intros w (i & <- & Hi%in_seq)%in_map_iff.
  split; [rewrite length_take, length_drop; unfold zlen in Hkey; lia|]. by apply Forall_take, Forall_drop.
Qed.

Lemma start_word_ok w i : word w -> word (start_word Nk w i).
Proof using.
  intros [Hl Hw]. unfold start_word. do 4 (destruct w as [|? w]; [done|]). destruct w; [|done].
  repeat match goal with H : Forall byte (_ :: _) |- _ => apply Forall_cons in H as [? H] end.
  assert (forall n, byte (Nat.iter n xtime 1)) as Hit by (induction n; [done|by apply xtime_byte]).
  case_match; [apply xor_list_word|]; (split; [done|]); repeat (apply Forall_cons; split); try apply Forall_nil; try done; by apply sbox_bytes.
Qed.

Lemma chained_ok t b0 b1 b2 b3 : word t -> word b0 -> word b1 -> word b2 -> word b3 -> Forall word (chained t b0 b1 b2 b3).
Proof using. intros. unfold chained. cbv zeta. repeat (apply Forall_cons; split); [..|apply Forall_nil]; repeat (try done; apply xor_list_word). Qed.

(** ** The array of round keys *)

Definition keyed (i : nat) (r : list (list Z)) : Prop :=
  length r = 15%nat /\ length (expanded i) = (4 * i)%nat /\ Forall word (expanded i) /\
  forall j, (j < i)%nat -> rd r (Z.of_nat j) = Some (round_key j (expanded i)).

Lemma keyed_open i r : (Nk / 4 <= i)%nat -> keyed i r -> exists front b0 b1 b2 b3 tl q,
  expanded i = front ++ [b0; b1; b2; b3] ++ tl /\ length front = (4 * i - Nk)%nat /\ Nk = (4 + length tl)%nat /\
  word b0 /\ word b1 /\ word b2 /\ word b3 /\ word (List.last tl b3) /\ length q = 12%nat /\
  rd r (Z.of_nat i - Z.of_nat (Nk / 4)) = Some (b0 ++ b1 ++ b2 ++ b3) /\ rd r (Z.of_nat i - 1) = Some (q ++ List.last tl b3).
Proof using HNk.
  clear Hkey Hb. intros Hi (_ & Hl & Hw & Hrd). assert (Nk <= 4 * i)%nat as Hi4 by (destruct HNk as [-> | ->]; cbn in Hi; lia).
  rewrite <- (take_drop (4 * i - Nk) (expanded i)) in Hw |- *. set (front := take (4 * i - Nk) (expanded i)) in *.
  assert (length front = 4 * i - Nk)%nat as Hf by (unfold front; rewrite length_take; lia).
  remember (drop (4 * i - Nk) (expanded i)) as back eqn:Hbk. assert (length back = Nk) as Hlb by (rewrite Hbk, length_drop; lia).
  assert (forall j, (j < i)%nat -> (4 * i - Nk <= 4 * j)%nat -> rd r (Z.of_nat j) = Some (concat (take 4 (drop (4 * j - (4 * i - Nk)) back)))) as Hrd'.
  { intros j Hj Hge. rewrite Hrd by done. unfold round_key. do 3 f_equal. rewrite Hbk, drop_drop. f_equal. lia. }
  rewrite Forall_app in Hw. destruct Hw as [_ Hw]. clear Hrd Hbk. clearbody front.
  destruct HNk as [-> | ->].
  - change (4 / 4)%nat with 1%nat in *. pose proof (Hrd' (i - 1)%nat ltac:(lia) ltac:(lia)) as H1. replace (4 * (i - 1) - (4 * i - 4))%nat with 0%nat in H1 by lia.
    replace (Z.of_nat (i - 1)) with (Z.of_nat i - 1) in H1 by lia.
    destruct back as [|b0 [|b1 [|b2 [|b3 [|]]]]]; try done. repeat match goal with H : Forall word (_ :: _) |- _ => apply Forall_cons in H as [? H] end.
    cbn [drop take concat] in H1. rewrite app_nil_r in H1. exists front, b0, b1, b2, b3, [], (b0 ++ b1 ++ b2).
    split; [done|]. cbn [List.last length]. rewrite <- !app_assoc. repeat split_and!; try done.
    all: unfold word in *; cbn [List.last] in *; rewrite ?length_app, ?app_nil_r in *; try lia; tauto.
  - change (8 / 4)%nat with 2%nat in *. pose proof (Hrd' (i - 1)%nat ltac:(lia) ltac:(lia)) as H1. replace (4 * (i - 1) - (4 * i - 8))%nat with 4%nat in H1 by lia.
    pose proof (Hrd' (i - 2)%nat ltac:(lia) ltac:(lia)) as H2. replace (4 * (i - 2) - (4 * i - 8))%nat with 0%nat in H2 by lia.
    replace (Z.of_nat (i - 1)) with (Z.of_nat i - 1) in H1 by lia. replace (Z.of_nat (i - 2)) with (Z.of_nat i - 2) in H2 by lia.
    destruct back as [|b0 [|b1 [|b2 [|b3 [|p0 [|p1 [|p2 [|p3 [|]]]]]]]]]; try done. repeat match goal with H : Forall word (_ :: _) |- _ => apply Forall_cons in H as [? H] end.
    cbn [drop take concat] in H1, H2. rewrite app_nil_r in H1, H2. exists front, b0, b1, b2, b3, [p0; p1; p2; p3], (p0 ++ p1 ++ p2).
    split; [done|]. cbn [List.last length]. rewrite <- !app_assoc. repeat split_and!; try done.
    all: unfold word in *; cbn [List.last] in *; rewrite ?length_app, ?app_nil_r in *; try lia; tauto.
Qed.

Lemma keyed_grow i r front b0 b1 b2 b3 tl t : (Nk / 4 <= i < 15)%nat -> keyed i r ->
  expanded i = front ++ [b0; b1; b2; b3] ++ tl -> Nk = (4 + length tl)%nat -> word b0 -> word b1 -> word b2 -> word b3 -> word (List.last tl b3) ->
  t = start_word Nk (List.last tl b3) (4 * i) ->
  exists r', wr r (Z.of_nat i) (Aes.chain_words t (b0 ++ b1 ++ b2 ++ b3)) = Some r' /\ keyed (S i) r'.
Proof using HNk.
  clear Hkey Hb. intros Hi (Hlr & Hl & Hw & Hrd) Hex HN B0 B1 B2 B3 Bl Ht.
  rewrite wr_Some by (unfold zlen; lia). eexists. split; [done|].
  rewrite chain_words_spec by (unfold word in *; tauto).
  assert (expanded (S i) = expanded i ++ chained t b0 b1 b2 b3) as Hex'.
  { rewrite expanded_S, Hex by lia. clear Hrd. subst t. rewrite HN, expand4 by (destruct HNk; lia). by rewrite <- !app_assoc. }
  assert (Forall word (chained t b0 b1 b2 b3)) as Hc by (subst t; apply chained_ok; try done; by apply start_word_ok).
  unfold keyed. rewrite length_insert, Hex'. split; [done|]. split; [rewrite length_app, Hl; cbn; lia|]. split; [by apply Forall_app|].
  intros j Hj. rewrite rd_insert by (unfold zlen; lia). unfold round_key. case_decide as Hji.
  - replace (4 * j)%nat with (length (expanded i)) by lia. by rewrite drop_app_length, take_ge by done.
  - rewrite Hrd by lia. unfold round_key. rewrite drop_app_le, take_app_le; [done|rewrite length_drop; lia|lia].
Qed.

(** ** The octets of a step *)

Lemma sub_at_spec q w j x : length q = 12%nat -> w !! j = Some x -> byte x -> Aes.sub_at (q ++ w) (Z.of_nat (12 + j)) = Some (SBox x).
Proof using.
  clear. intros Hq Hx Hb. unfold Aes.sub_at. rewrite rd_nonneg, Nat2Z.id, lookup_app_r by lia. rewrite Hq. replace (12 + j - 12)%nat with j by lia. rewrite Hx.
  by apply sbox_bytes.
Qed.

Lemma sub_last q w : length q = 12%nat -> word w -> exists a b c d, Aes.sub_at (q ++ w) 12 = Some a /\ Aes.sub_at (q ++ w) 13 = Some b /\
  Aes.sub_at (q ++ w) 14 = Some c /\ Aes.sub_at (q ++ w) 15 = Some d /\ SubBytes SBox w = [a; b; c; d] /\ SubBytes SBox (RotWord w) = [b; c; d; a].
Proof using.
  clear. intros Hq [Hl Hw]. do 4 (destruct w as [|? w]; [done|]). destruct w; [|done].
  repeat match goal with H : Forall byte (_ :: _) |- _ => apply Forall_cons in H as [? H] end. do 4 eexists.
  split; [by apply (sub_at_spec _ _ 0)|]. split; [by apply (sub_at_spec _ _ 1)|]. split; [by apply (sub_at_spec _ _ 2)|].
  split; [by apply (sub_at_spec _ _ 3)|]. done.
Qed.

Lemma next_rc rc : byte rc -> u8 (Aes.gf2_8_shift rc) = xtime rc.
Proof using.
  clear. intros Hx. apply (bool_decide_eq_true_1 (u8 (Aes.gf2_8_shift rc) = xtime rc)). try_bytes (fun rc => bool_decide (u8 (Aes.gf2_8_shift rc) = xtime rc)).
Qed.

Lemma rcon_xor a b c d n : xor_list [a; b; c; d] (Rcon (S n)) = [Z.lxor a (Nat.iter n xtime 1); b; c; d].
Proof using. clear. unfold Rcon, xor_list. cbn [zip_with]. rewrite !Z.lxor_0_r. by replace (S n - 1)%nat with n by lia. Qed.
End schedule.

Lemma iter_xtime_byte n : byte (Nat.iter n xtime 1).
Proof. induction n; [done|]. by apply xtime_byte. Qed.

(** ** The expansions *)

Lemma round_keys_of Nk Nr key r : keyed Nk key (Nr + 1) r -> (Nr + 1 <= 15)%nat -> take (Nr + 1) r = round_keys SBox Nk Nr key.
Proof.
  intros (Hl & _ & _ & Hrd) HN. change (round_keys SBox Nk Nr key) with ((fun i => round_key i (expanded Nk key (Nr + 1))) <$> seq 0 (Nr + 1)).
  apply list_eq. intros j. rewrite list_lookup_fmap. destruct (decide (j < Nr + 1)%nat) as [Hj|Hj].
  - rewrite lookup_seq_lt by done. cbn [fmap option_fmap option_map Nat.add]. rewrite lookup_take_lt by done.
    specialize (Hrd j Hj). by rewrite rd_nonneg, Nat2Z.id in Hrd by lia.
  - rewrite (lookup_ge_None_2 (seq _ _)) by (rewrite length_seq; lia). rewrite lookup_ge_None_2; [done|]. rewrite length_take. lia.
Qed.

Lemma keyed_first Nk key (r : list (list Z)) : Nk = 4%nat \/ Nk = 8%nat -> zlen key = 4 * Z.of_nat Nk -> Forall byte key -> length r = 15%nat ->
  (forall j, (j < Nk / 4)%nat -> rd r (Z.of_nat j) = Some (take 16 (drop (16 * j) key))) -> keyed Nk key (Nk / 4) r.
Proof.
  intros HNk Hk Hb Hl Hr. unfold keyed. rewrite expanded_first by done. destruct (key_words_ok Nk key HNk Hk Hb) as [Hw1 Hw2]. split; [done|].
  split; [rewrite Hw1; by destruct HNk as [-> | ->]|]. split; [done|]. intros j Hj. rewrite Hr by done. f_equal. clear Hr Hw1 Hw2 Hb Hl.
  destruct HNk as [-> | ->]; change (4 / 4)%nat with 1%nat in *; change (8 / 4)%nat with 2%nat in *; unfold zlen in Hk.
  - do 16 (destruct key as [|? key]; [done|]). destruct key; [|cbn in Hk; lia]. by destruct j as [|j]; [|lia].
  - do 32 (destruct key as [|? key]; [done|]). destruct key; [|cbn in Hk; lia]. by destruct j as [|[|j]]; [| |lia].
Qed.

Lemma aes_128_spec key e : zlen key = 16 -> Forall byte key -> length (Aes.round e) = 15%nat ->
  exists r, Aes.aes_128_expand_encryption_key key e = Some (Aes.Expanded_key r 10) /\ keyed 4 key 11 r.
Proof.
  intros Hk Hb He. unfold Aes.aes_128_expand_encryption_key. rewrite rd_bytes_0 by lia. cbn [mbind option_bind].
  rewrite wr_Some by (unfold zlen; lia). cbn [mbind option_bind].
  match goal with |- context [for_up 1 11 ?body (?r0, 1)] =>
    destruct (for_up_rule (fun i '(r, rc) => keyed 4 key (Z.to_nat i) r /\ rc = Nat.iter (Z.to_nat i - 1) xtime 1) 1 11 body (r0, 1)) as ([r rc] & -> & Hr & _) end.
  - lia.
  - split; [|done]. apply (keyed_first 4); [by left|done|done|by rewrite length_insert|]. intros [|j] Hj; [|cbn in Hj; lia].
    by rewrite rd_insert by (unfold zlen; lia).
  - intros i [r rc] Hi [Hr ->]. destruct (keyed_open 4 key (or_introl eq_refl) (Z.to_nat i) r) as (front & b0 & b1 & b2 & b3 & tl & q & Hex & _ & HN & B0 & B1 & B2 & B3 & Bl & Hq & Hbase & Hprev); [cbn; lia|done|].
    destruct tl; [|done]. cbn [List.last] in *. rewrite Z2Nat.id in Hbase, Hprev by lia. change (Z.of_nat (4 / 4)) with 1 in Hbase.
    rewrite Hprev in Hbase. injection Hbase as Hbase. rewrite Hprev. cbn [mbind option_bind].
    destruct (sub_last q b3 Hq Bl) as (a & b & c & d & -> & -> & -> & -> & _ & Hrot). cbn [mbind option_bind]. rewrite Hbase.
    destruct (keyed_grow 4 key (or_introl eq_refl) (Z.to_nat i) r front b0 b1 b2 b3 [] [Z.lxor b (Nat.iter (Z.to_nat i - 1) xtime 1); c; d; a]) as (r' & Hw & Hr'); try done.
    + cbn. lia.
    + unfold start_word. rewrite Nat.mul_comm, Nat.Div0.mod_mul, Nat.div_mul by done. cbn [Nat.eqb List.last]. rewrite Hrot, <- rcon_xor.
      do 2 f_equal. lia.
    + rewrite Z2Nat.id in Hw by lia. rewrite Hw. cbn [mbind option_bind]. eexists. split; [done|].
      rewrite next_rc by apply iter_xtime_byte. replace (Z.to_nat (i + 1)) with (S (Z.to_nat i)) by lia. split; [done|].
      replace (S (Z.to_nat i) - 1)%nat with (S (Z.to_nat i - 1)) by lia. done.
  - cbn [mbind option_bind]. exists r. done.
Qed.

Lemma parity_cases n : exists m, (n = 2 * m \/ n = 2 * m + 1)%nat.
Proof. exists (n / 2)%nat. pose proof (Nat.div_mod_eq n 2). pose proof (Nat.mod_upper_bound n 2). lia. Qed.

Lemma land_1 i : Z.land i 1 = i mod 2.
Proof. exact (Z.land_ones i 1 ltac:(lia)). Qed.

Lemma half_even m : ((2 * m) / 2 = m)%nat.
Proof. by rewrite Nat.mul_comm, Nat.div_mul. Qed.

Lemma half_odd m : ((2 * m + 1) / 2 = m)%nat.
Proof. rewrite Nat.mul_comm, Nat.add_comm, Nat.div_add by done. done. Qed.

(** The round constant before step [i] of the expansion of a 256-bit key. *)
Definition rc_256 (i : nat) : Z := Nat.iter ((i + 1) / 2 - 1) xtime 1.

Lemma aes_256_spec key e : zlen key = 32 -> Forall byte key -> length (Aes.round e) = 15%nat ->
  exists r, Aes.aes_256_expand_encryption_key key e = Some (Aes.Expanded_key r 14) /\ keyed 8 key 15 r.
Proof.
  intros Hk Hb He. unfold Aes.aes_256_expand_encryption_key. rewrite rd_bytes_0 by lia. cbn [mbind option_bind].
  rewrite wr_Some by (unfold zlen; lia). cbn [mbind option_bind]. rewrite rd_bytes_Some by lia. cbn [mbind option_bind].
  rewrite wr_Some by (unfold zlen; rewrite length_insert; lia). cbn [mbind option_bind].
  match goal with |- context [for_up 2 15 ?body (?r0, 1)] =>
    destruct (for_up_rule (fun i '(r, rc) => keyed 8 key (Z.to_nat i) r /\ rc = rc_256 (Z.to_nat i)) 2 15 body (r0, 1)) as ([r rc] & -> & Hr & _) end.
  - lia.
  - split; [|done]. apply (keyed_first 8); [by right|done|done|by rewrite !length_insert|]. intros [|[|j]] Hj; [..|cbn in Hj; lia].
    + rewrite !rd_insert by (unfold zlen; rewrite ?length_insert; lia). done.
    + by rewrite rd_insert by (unfold zlen; rewrite ?length_insert; lia).
  - intros i [r rc] Hi [Hr ->]. destruct (keyed_open 8 key (or_intror eq_refl) (Z.to_nat i) r) as (front & b0 & b1 & b2 & b3 & tl & q & Hex & _ & HN & B0 & B1 & B2 & B3 & Bl & Hq & Hbase & Hprev); [cbn; lia|done|].
    rewrite Z2Nat.id in Hbase, Hprev by lia. change (Z.of_nat (8 / 4)) with 2 in Hbase. rewrite Hprev, Hbase. cbn [mbind option_bind].
    destruct (sub_last q _ Hq Bl) as (a & b & c & d & -> & -> & -> & -> & Hsub & Hrot). cbn [mbind option_bind].
    assert (forall t, t = start_word 8 (List.last tl b3) (4 * Z.to_nat i) -> exists r', wr r i (Aes.chain_words t (b0 ++ b1 ++ b2 ++ b3)) = Some r' /\ keyed 8 key (S (Z.to_nat i)) r') as Hgrow.
    { intros t Ht. pose proof (keyed_grow 8 key (or_intror eq_refl) (Z.to_nat i) r front b0 b1 b2 b3 tl t) as H. rewrite Z2Nat.id in H by lia. apply H; try done. cbn. lia. }
    replace (Z.to_nat (i + 1)) with (S (Z.to_nat i)) by lia.
    destruct (parity_cases (Z.to_nat i)) as (m & [Hm|Hm]).
    + replace (Z.land i 1 =? 0) with true by (symmetry; apply Z.eqb_eq; rewrite land_1; Z.div_mod_to_equations; lia).
      destruct (Hgrow [Z.lxor b (rc_256 (Z.to_nat i)); c; d; a]) as (r' & Hw & Hr').
      { unfold start_word, rc_256. rewrite Hm. replace (4 * (2 * m))%nat with (m * 8)%nat by lia. rewrite Nat.Div0.mod_mul, Nat.div_mul by done. cbn [Nat.eqb].
        rewrite Hrot. destruct m as [|m]; [lia|]. rewrite rcon_xor, half_odd. by replace (S m - 1)%nat with m by lia. }
      rewrite Hw. cbn [mbind option_bind]. eexists. split; [done|]. split; [done|]. rewrite next_rc by apply iter_xtime_byte. unfold rc_256. rewrite Hm, half_odd.
      replace (S (2 * m) + 1)%nat with (2 * (m + 1))%nat by lia. rewrite half_even. destruct m as [|m]; [lia|]. by replace (S m + 1 - 1)%nat with (S (S m - 1)) by lia.
    + replace (Z.land i 1 =? 0) with false by (symmetry; apply Z.eqb_neq; rewrite land_1; Z.div_mod_to_equations; lia).
      destruct (Hgrow [a; b; c; d]) as (r' & Hw & Hr').
      { unfold start_word. rewrite Hm. replace (4 * (2 * m + 1))%nat with (4 + m * 8)%nat by lia. rewrite Nat.Div0.mod_add by done. cbn [Nat.eqb Nat.modulo Nat.divmod Nat.sub snd]. done. }
      rewrite Hw. cbn [mbind option_bind]. eexists. split; [done|]. split; [done|]. unfold rc_256. rewrite Hm.
      replace (2 * m + 1 + 1)%nat with (2 * (m + 1))%nat by lia. replace (S (2 * m + 1) + 1)%nat with (2 * (m + 1) + 1)%nat by lia. by rewrite half_even, half_odd.
  - cbn [mbind option_bind]. exists r. done.
Qed.

(** ** Correctness

    The two claims on the block cipher: encryption is FIPS 197, and decryption inverts it. *)

Definition key_ok (key : list Z) : Prop := (zlen key = 16 \/ zlen key = 32) /\ Forall byte key.
(** The sizes FIPS 197 gives for a key. *)
Definition Nk_of (key : list Z) : nat := (length key / 4)%nat.
Definition keys_of (key : list Z) : list (list Z) := round_keys SBox (Nk_of key) (Nk_of key + 6) key.

Lemma keyed_blocks Nk Nr key r : keyed Nk key (Nr + 1) r -> Forall block (round_keys SBox Nk Nr key).
Proof.
  change (round_keys SBox Nk Nr key) with (map (fun i => round_key i (expanded Nk key (Nr + 1))) (seq 0 (Nr + 1))). generalize (Nr + 1)%nat. intros n.
  intros (_ & Hl & Hw & _). apply List.Forall_forall. intros k (i & <- & Hi%in_seq)%in_map_iff. unfold round_key.
  pose proof (Forall_take word 4 _ (Forall_drop word (4 * i) _ Hw)) as H. assert (length (take 4 (drop (4 * i) (expanded Nk key n))) = 4%nat) as Hd by (rewrite length_take, length_drop; lia).
  revert H Hd. generalize (take 4 (drop (4 * i) (expanded Nk key n))). intros l H Hd.
  destruct l as [|a [|b [|c [|d [|]]]]]; try done. repeat match goal with H : Forall word (_ :: _) |- _ => apply Forall_cons in H as [? H] end.
  unfold word in *. cbn [concat]. split; [rewrite !length_app; cbn; lia|]. rewrite !Forall_app. pose proof (Forall_nil_2 byte). tauto.
Qed.

(** The expansion of a key holds the round keys of FIPS 197. *)
Lemma expand_spec key e : key_ok key -> length (Aes.round e) = 15%nat -> exists e',
  Aes.srtp_aes_expand_encryption_key key (zlen key) e = Some (srtp_err_status_ok, e') /\ holds e' (keys_of key) /\ Forall block (keys_of key).
Proof.
  intros [Hl Hb] He. unfold Aes.srtp_aes_expand_encryption_key, keys_of, Nk_of, holds.
  destruct Hl as [Hl|Hl]; rewrite Hl; cbn [Z.eqb Pos.eqb]; unfold zlen in Hl.
  - destruct (aes_128_spec key e) as (r & -> & Hr); [done..|]. cbn [mbind option_bind]. eexists. split; [done|]. cbn [Aes.num_rounds Aes.round].
    replace (length key) with 16%nat by lia. change (16 / 4)%nat with 4%nat. pose proof (round_keys_of 4 10 key r Hr ltac:(lia)) as H.
    split; [|exact (keyed_blocks 4 10 key r Hr)]. unfold zlen. change (4 + 6)%nat with 10%nat. rewrite <- H, length_take. destruct Hr as (Hr & _). rewrite Hr.
    split; [done|]. split; [by left|]. split; [done|]. intros i k Hi. rewrite lookup_take in Hi. case_decide; [|done]. by rewrite rd_nonneg, Nat2Z.id by lia.
  - destruct (aes_256_spec key e) as (r & -> & Hr); [done..|]. cbn [mbind option_bind]. eexists. split; [done|]. cbn [Aes.num_rounds Aes.round].
    replace (length key) with 32%nat by lia. change (32 / 4)%nat with 8%nat. pose proof (round_keys_of 8 14 key r Hr ltac:(lia)) as H.
    split; [|exact (keyed_blocks 8 14 key r Hr)]. unfold zlen. change (8 + 6)%nat with 14%nat. rewrite <- H, length_take. destruct Hr as (Hr & _). rewrite Hr.
    split; [done|]. split; [by right|]. split; [done|]. intros i k Hi. rewrite lookup_take in Hi. case_decide; [|done]. by rewrite rd_nonneg, Nat2Z.id by lia.
Qed.

Lemma ends (ks : list (list Z)) : (2 <= length ks)%nat -> exists k0 mid kl, ks = k0 :: mid ++ [kl].
Proof.
  intros H. destruct ks as [|k0 ks]; [cbn in H; lia|]. destruct (exists_last (l:=ks)) as (mid & kl & ->); [by destruct ks; [cbn in H; lia|]|]. by exists k0, mid, kl.
Qed.

Lemma encrypt_keys e ks p : holds e ks -> Forall block ks -> block p -> Aes.srtp_aes_encrypt p e = Some (Cipher SBox ks p).
Proof.
  intros He Hb Hp. pose proof He as (_ & Hl & _). destruct (ends ks) as (k0 & mid & kl & ->); [unfold zlen in Hl; lia|]. by apply encrypt_spec.
Qed.

Lemma keys_of_length key : zlen (keys_of key) = Z.of_nat (Nk_of key + 6 + 1).
Proof. unfold keys_of, round_keys, zlen. by rewrite length_map, length_seq. Qed.

(** ** The decryption schedule *)

Definition reversed (e e' : list (list Z)) (N i : Z) : Prop :=
  length e' = length e /\ forall j, 0 <= j <= N -> rd e' j = if (j <? i) || (N - i <? j) then rd e (N - j) else rd e j.

Lemma reverse_spec (r : list (list Z)) N : 0 <= N < zlen r -> N mod 2 = 0 -> exists r', for_up 0 (Z.quot N 2) (fun i r =>
    tmp ← rd r (N - i); x ← rd r i; r ← wr r (N - i) x; wr r i tmp) r = Some r' /\ length r' = length r /\ forall j, 0 <= j <= N -> rd r' j = rd r (N - j).
Proof.
  intros HN Heven. rewrite Z.quot_div_nonneg by lia.
  match goal with |- context [for_up 0 _ ?body r] => destruct (for_up_rule (fun i x => reversed r x N i) 0 (N / 2) body r) as (r' & -> & Hl & Hr) end.
  - apply Z.div_pos; lia.
  - split; [done|]. intros j Hj. destruct (Z.ltb_spec j 0), (Z.ltb_spec (N - 0) j); try lia. done.
  - intros i x Hi [Hl Hx]. assert (2 * i < N) as Hi2 by (Z.div_mod_to_equations; lia). unfold zlen in HN.
    assert (forall j, 0 <= j <= N -> exists v, rd r j = Some v) as Hv by (intros; apply rd_is_Some; unfold zlen; lia).
    pose proof (Hx (N - i) ltac:(lia)) as Ha. pose proof (Hx i ltac:(lia)) as Hb.
    rewrite (proj2 (Z.ltb_ge (N - i) i)), (proj2 (Z.ltb_ge (N - i) (N - i))) in Ha by lia. rewrite (proj2 (Z.ltb_ge i i)), (proj2 (Z.ltb_ge (N - i) i)) in Hb by lia. cbn [orb] in *.
    destruct (Hv (N - i) ltac:(lia)) as (t & Ht). destruct (Hv i ltac:(lia)) as (h & Hh). rewrite Ha, Ht. cbn [mbind option_bind]. rewrite Hb, Hh. cbn [mbind option_bind].
    rewrite wr_Some by (unfold zlen; lia). cbn [mbind option_bind]. rewrite wr_Some by (unfold zlen; rewrite length_insert; lia).
    eexists. split; [done|]. split; [by rewrite !length_insert|]. intros j Hj.
    rewrite !rd_insert by (unfold zlen; rewrite ?length_insert; lia). repeat case_decide; subst.
    + rewrite (proj2 (Z.ltb_lt i (i + 1))) by lia. cbn [orb]. congruence.
    + rewrite (proj2 (Z.ltb_lt (N - (i + 1)) (N - i))), orb_true_r by lia. replace (N - (N - i)) with i by lia. congruence.
    + rewrite Hx by done. destruct (Z.ltb_spec j i), (Z.ltb_spec j (i + 1)), (Z.ltb_spec (N - i) j), (Z.ltb_spec (N - (i + 1)) j); try lia; done.
  - exists r'. split; [done|]. split; [done|]. intros j Hj. rewrite Hr by done.
    destruct (Z.ltb_spec j (N / 2)), (Z.ltb_spec (N - N / 2) j); try done. cbn [orb]. f_equal. Z.div_mod_to_equations. lia.
Qed.

Lemma unmix_spec (r : list (list Z)) N : 1 <= N < zlen r -> (forall j k, 1 <= j < N -> rd r j = Some k -> block k) ->
  exists r', for_up 1 N (fun i r => k ← rd r i; k ← Aes.unmix_key k; wr r i k) r = Some r' /\ length r' = length r /\
    forall j, rd r' j = if (1 <=? j) && (j <? N) then InvMixColumns <$> rd r j else rd r j.
Proof.
  intros HN Hb. unfold zlen in HN.
  match goal with |- context [for_up 1 N ?body r] => destruct (for_up_rule (fun i x => length x = length r /\
    forall j, rd x j = if (1 <=? j) && (j <? i) then InvMixColumns <$> rd r j else rd r j) 1 N body r) as (r' & -> & Hl & Hr) end.
  - lia.
  - split; [done|]. intros j. destruct (Z.leb_spec 1 j), (Z.ltb_spec j 1); try lia; done.
  - intros i x Hi [Hl Hx]. pose proof (Hx i) as H. rewrite (proj2 (Z.ltb_ge i i)), andb_false_r in H by lia.
    destruct (rd_is_Some r i) as [k Hk]; [unfold zlen; lia|]. rewrite H, Hk. cbn [mbind option_bind]. rewrite unmix_key_spec by (by apply (Hb i)).
    cbn [mbind option_bind]. rewrite wr_Some by (unfold zlen; lia). eexists. split; [done|]. split; [by rewrite length_insert|].
    intros j. rewrite rd_insert by (unfold zlen; lia). case_decide; [subst j|].
    + rewrite (proj2 (Z.leb_le 1 i)), (proj2 (Z.ltb_lt i (i + 1))), Hk by lia. done.
    + rewrite Hx. destruct (Z.leb_spec 1 j), (Z.ltb_spec j i), (Z.ltb_spec j (i + 1)); try lia; done.
  - by exists r'.
Qed.

(** The schedule for decryption, from the one for encryption of the same key. *)
Lemma expand_decryption_spec key e : key_ok key -> length (Aes.round e) = 15%nat -> Aes.num_rounds e = zlen (keys_of key) - 1 ->
  exists k0 mid kl d, keys_of key = k0 :: mid ++ [kl] /\ Aes.srtp_aes_expand_decryption_key key (zlen key) e = Some (srtp_err_status_ok, d) /\
    holds d (kl :: map InvMixColumns (rev mid) ++ [k0]).
Proof.
  intros Hk He Hn. destruct (expand_spec key e Hk He) as (e1 & Hex & (Hn1 & Hl1 & Hr1 & Hrd1) & Hb).
  destruct (ends (keys_of key)) as (k0 & mid & kl & Heq); [unfold zlen in Hl1; lia|]. rewrite Heq in *.
  assert (Aes.num_rounds e = 1 + zlen mid) as HN by (rewrite Hn; autorewrite with words; lia). autorewrite with words in Hl1.
  unfold Aes.srtp_aes_expand_decryption_key. rewrite Hex. cbn [mbind option_bind]. rewrite bool_decide_true by done. cbn [negb]. rewrite HN.
  destruct (reverse_spec (Aes.round e1) (1 + zlen mid)) as (r1 & -> & Hlr1 & Hrev); [unfold zlen in *; lia|destruct Hl1; Z.div_mod_to_equations; lia|].
  cbn [mbind option_bind]. pose proof (ks_blocks _ _ _ Hb) as (B0 & Bm & Bl).
  assert (forall i k, (kl :: rev mid ++ [k0]) !! i = Some k -> rd r1 (Z.of_nat i) = Some k) as Hr1k.
  { intros i k Hi. pose proof (lookup_lt_Some _ _ _ Hi) as Hlt. cbn in Hlt. rewrite length_app, length_rev in Hlt. cbn in Hlt.
    replace (kl :: rev mid ++ [k0]) with (reverse (k0 :: mid ++ [kl])) in Hi by (unfold reverse; rewrite <- rev_alt; cbn [rev]; by rewrite rev_app_distr).
    rewrite reverse_lookup in Hi by (cbn; rewrite length_app; cbn; lia). apply Hrd1 in Hi. rewrite Hrev by (unfold zlen; lia). rewrite <- Hi. f_equal.
    cbn. rewrite length_app. cbn. unfold zlen. lia. }
  destruct (unmix_spec r1 (1 + zlen mid)) as (r2 & -> & Hlr2 & Hr2); [pose proof (zlen_nonneg mid); unfold zlen in *; lia|..].
  { intros j k Hj Hjk. rewrite <- (Z2Nat.id j) in Hjk by lia. destruct (rev mid !! Z.to_nat (j - 1)) as [k'|] eqn:Hk'.
    - rewrite (Hr1k _ k') in Hjk. { injection Hjk as <-. rewrite Forall_forall in Bm. apply Bm. apply list_elem_of_In, in_rev, list_elem_of_In. by eapply list_elem_of_lookup_2. }
      replace (Z.to_nat j) with (S (Z.to_nat (j - 1))) by lia. by apply lookup_app_l_Some.
    - apply lookup_ge_None in Hk'. rewrite length_rev in Hk'. unfold zlen in Hj. lia. }
  exists k0, mid, kl, (Aes.Expanded_key r2 (Aes.num_rounds e1)). split; [done|]. split; [done|]. unfold holds. cbn [Aes.round Aes.num_rounds]. autorewrite with words in *.
  assert (zlen (map InvMixColumns (rev mid)) = zlen mid) as -> by (unfold zlen; by rewrite length_map, length_rev).
  split; [lia|]. split; [lia|]. split; [congruence|]. intros i k Hi. rewrite Hr2. destruct i as [|i].
  - injection Hi as <-. rewrite (Hr1k 0%nat kl eq_refl). done.
  - cbn in Hi. rewrite (proj2 (Z.leb_le 1 _)) by lia. cbn [andb]. apply lookup_app_Some in Hi as [Hi|[Hge Hi]].
    + change (map InvMixColumns (rev mid)) with (InvMixColumns <$> rev mid) in Hi. apply list_lookup_fmap_Some in Hi as (k' & -> & Hk').
      pose proof (lookup_lt_Some _ _ _ Hk') as Hlt. rewrite length_rev in Hlt. rewrite (proj2 (Z.ltb_lt _ _)) by (unfold zlen; lia).
      by rewrite (Hr1k _ k') by (by apply lookup_app_l_Some).
    + rewrite length_map, length_rev in *. apply list_lookup_singleton_Some in Hi as [Hi <-]. rewrite (proj2 (Z.ltb_ge _ _)) by (unfold zlen; lia).
      apply Hr1k. cbn. apply lookup_app_Some. right. rewrite length_rev. split; [done|]. by replace (i - length mid)%nat with 0%nat by lia.
Qed.

(** ** The claims *)

(** C18. AES: the expansion of a 128-bit or 256-bit key succeeds whatever the structure held, and
    encryption of a block with the expanded key is the cipher of FIPS 197 under that key: the
    tables, and the rounds unrolled over words, compute SubBytes, ShiftRows, MixColumns and
    AddRoundKey. *)
Theorem aes_encrypt_is_fips197 (key p : list Z) (e : Aes.srtp_aes_expanded_key_t) :
  key_ok key -> length (Aes.round e) = 15%nat -> block p ->
  exists e', Aes.srtp_aes_expand_encryption_key key (zlen key) e = Some (srtp_err_status_ok, e') /\
    Aes.srtp_aes_encrypt p e' = Some (Cipher SBox (keys_of key) p).
Proof.
  intros Hk He Hp. destruct (expand_spec key e Hk He) as (e' & Hex & Hh & Hb). exists e'. split; [done|]. by apply encrypt_keys.
Qed.

(** AES: decryption with the decryption schedule of a key undoes encryption with its
    encryption schedule, on every block, provided that the structure held the right number of
    rounds before its expansion. *)
Theorem aes_decrypt_encrypt (key p : list Z) (e f : Aes.srtp_aes_expanded_key_t) :
  key_ok key -> length (Aes.round e) = 15%nat -> length (Aes.round f) = 15%nat -> block p ->
  Aes.num_rounds f = zlen key / 4 + 6 ->
  exists e' f' c, Aes.srtp_aes_expand_encryption_key key (zlen key) e = Some (srtp_err_status_ok, e') /\
    Aes.srtp_aes_expand_decryption_key key (zlen key) f = Some (srtp_err_status_ok, f') /\
    Aes.srtp_aes_encrypt p e' = Some c /\ Aes.srtp_aes_decrypt c f' = Some p.
Proof.
  intros Hk He Hf Hp Hn. destruct (expand_spec key e Hk He) as (e' & Hex & Hh & Hb).
  destruct (expand_decryption_spec key f Hk Hf) as (k0 & mid & kl & f' & Heq & Hdx & Hd).
  { rewrite Hn, keys_of_length. unfold Nk_of, zlen. rewrite !Nat2Z.inj_add, Nat2Z.inj_div. lia. }
  exists e', f', (Cipher SBox (keys_of key) p). split; [done|]. split; [done|]. split; [by apply encrypt_keys|].
  rewrite Heq in *. by apply decrypt_spec.
Qed.

(** The example of FIPS 197, appendix C. *)
Definition example_key : list Z := map Z.of_nat (seq 0 16).
Definition example_block : list Z := map (fun i => 17 * Z.of_nat i) (seq 0 16).
Definition no_key (rounds : Z) : Aes.srtp_aes_expanded_key_t := Aes.Expanded_key (replicate 15 (replicate 16 0)) rounds.

Lemma example_ok : key_ok example_key /\ block example_block.
Proof.
  unfold key_ok, block. repeat split; [by left| |]; apply (bool_decide_eq_true_1 (Forall _ _)); vm_compute; reflexivity.
Qed.

Lemma aes_encrypt_is_fips197_witness : exists e',
  Aes.srtp_aes_expand_encryption_key example_key (zlen example_key) (no_key 0) = Some (srtp_err_status_ok, e') /\
  Aes.srtp_aes_encrypt example_block e' = Some (Cipher SBox (keys_of example_key) example_block).
Proof. destruct example_ok as [Hk Hp]. exact (aes_encrypt_is_fips197 example_key example_block (no_key 0) Hk eq_refl Hp). Defined.

Lemma aes_decrypt_encrypt_witness : exists e' f' c,
  Aes.srtp_aes_expand_encryption_key example_key (zlen example_key) (no_key 0) = Some (srtp_err_status_ok, e') /\
  Aes.srtp_aes_expand_decryption_key example_key (zlen example_key) (no_key 10) = Some (srtp_err_status_ok, f') /\
  Aes.srtp_aes_encrypt example_block e' = Some c /\ Aes.srtp_aes_decrypt c f' = Some example_block.
Proof. destruct example_ok as [Hk Hp]. exact (aes_decrypt_encrypt example_key example_block (no_key 0) (no_key 10) Hk eq_refl eq_refl Hp eq_refl). Defined.

Definition crypt (key p : list Z) (rounds : Z) : option (list Z * list Z) :=
  '(_, e) ← Aes.srtp_aes_expand_encryption_key key (zlen key) (no_key rounds);
  '(_, d) ← Aes.srtp_aes_expand_decryption_key key (zlen key) (no_key rounds);
  c ← Aes.srtp_aes_encrypt p e; q ← Aes.srtp_aes_decrypt c d; Some (c, q).

(** The cipher text of the standard's example, and that a structure cleared to zero gives a
    decryption schedule that does not decrypt: the number of rounds is read too early. *)
Example fips197_example : crypt example_key example_block 10 =
  Some ([0x69; 0xc4; 0xe0; 0xd8; 0x6a; 0x7b; 0x04; 0x30; 0xd8; 0xcd; 0xb7; 0x80; 0x70; 0xb4; 0xc5; 0x5a], example_block).
Proof. vm_compute. reflexivity. Qed.

Example decryption_key_needs_rounds : snd <$> crypt example_key example_block 0 <> Some example_block.
Proof. vm_compute. discriminate. Qed.
