(* ===== verification/SrtpCipher.v ===== *)
(** * Ciphers (libsrtp [crypto/cipher/cipher.c], [crypto/include/cipher.h],
    [crypto/cipher/null_cipher.c])

    [CipherType] is the table of functions [srtp_cipher_type_t]; [CipherOk] says what a user of
    a stream cipher may rely on.  Data are encrypted in place: a buffer is the memory it lies in
    and its offset there. *)

From S2P Require Import Prelude Bytes Words Window.
Open Scope Z_scope.

(** ** The interface *)

Inductive srtp_cipher_direction_t := srtp_direction_encrypt | srtp_direction_decrypt | srtp_direction_any.
#[export] Instance cipher_direction_eq : EqDecision srtp_cipher_direction_t. Proof. solve_decision. Defined.

(** [None] for a function that the table does not have. *)
Class CipherType (S : Type) := {
  ct_init : S -> list Z -> option (srtp_err_status_t * S);
  ct_set_aad : option (S -> list Z -> Z -> option (srtp_err_status_t * S));
  (** memory, offset, length *)
  ct_encrypt : S -> list Z -> Z -> Z -> option (srtp_err_status_t * list Z * S);
  ct_decrypt : S -> list Z -> Z -> Z -> option (srtp_err_status_t * list Z * S);
  ct_set_iv : S -> list Z -> srtp_cipher_direction_t -> option (srtp_err_status_t * S);
  ct_get_tag : option (S -> list Z -> Z -> option (srtp_err_status_t * list Z * Z * S)) }.

Record srtp_cipher_t (S : Type) := Cipher { c_state : S; c_key_len : Z; algorithm : Z }.
Arguments Cipher {S}. Arguments c_state {S}. Arguments c_key_len {S}. Arguments algorithm {S}.

#[export] Instance cipher_eta S : RecordEta (srtp_cipher_t S) := fun c => Cipher (c_state c) (c_key_len c) (algorithm c).

Definition SRTP_NULL_CIPHER : Z := 0.
Definition SRTP_AES_ICM_128 : Z := 1.
Definition SRTP_AES_ICM_256 : Z := 5.

(** [c]: [None] for a NULL pointer; an allocated cipher has its type and its state. *)
Section cipher.
Context {S : Type} {T : CipherType S}.
Implicit Types c : option (srtp_cipher_t S).

Definition srtp_cipher_init c (key : list Z) : option (srtp_err_status_t * option (srtp_cipher_t S)) :=
  match c with
  | None => Some (srtp_err_status_bad_param, c)
  | Some x => '(st, s) ← ct_init (c_state x) key; Some (st, Some (x <| (@c_state S) := s |>))
  end.

Definition srtp_cipher_set_iv c (iv : list Z) (direction : srtp_cipher_direction_t) : option (srtp_err_status_t * option (srtp_cipher_t S)) :=
  match c with
  | None => Some (srtp_err_status_bad_param, c)
  | Some x => '(st, s) ← ct_set_iv (c_state x) iv direction; Some (st, Some (x <| (@c_state S) := s |>))
  end.

(** No check of the pointers here. *)
Definition srtp_cipher_output c (mem : list Z) (pos num_octets_to_output : Z) : option (srtp_err_status_t * list Z * option (srtp_cipher_t S)) :=
  mem ← wr_bytes mem pos (replicate (Z.to_nat num_octets_to_output) 0);
  x ← c; '(st, mem, s) ← ct_encrypt (c_state x) mem pos num_octets_to_output; Some (st, mem, Some (x <| (@c_state S) := s |>)).

Definition srtp_cipher_encrypt c (mem : list Z) (pos num_octets_to_output : Z) : option (srtp_err_status_t * list Z * option (srtp_cipher_t S)) :=
  match c with
  | None => Some (srtp_err_status_bad_param, mem, c)
  | Some x => '(st, mem, s) ← ct_encrypt (c_state x) mem pos num_octets_to_output; Some (st, mem, Some (x <| (@c_state S) := s |>))
  end.

Definition srtp_cipher_decrypt c (mem : list Z) (pos num_octets_to_output : Z) : option (srtp_err_status_t * list Z * option (srtp_cipher_t S)) :=
  match c with
  | None => Some (srtp_err_status_bad_param, mem, c)
  | Some x => '(st, mem, s) ← ct_decrypt (c_state x) mem pos num_octets_to_output; Some (st, mem, Some (x <| (@c_state S) := s |>))
  end.

Definition srtp_cipher_get_tag c (buffer : list Z) (tag_len : Z) : option (srtp_err_status_t * list Z * Z * option (srtp_cipher_t S)) :=
  match c with
  | None => Some (srtp_err_status_bad_param, buffer, tag_len, c)
  | Some x => match ct_get_tag with
              | None => Some (srtp_err_status_no_such_op, buffer, tag_len, c)
              | Some f => '(st, buffer, n, s) ← f (c_state x) buffer tag_len; Some (st, buffer, n, Some (x <| (@c_state S) := s |>))
              end
  end.

Definition srtp_cipher_set_aad c (aad : list Z) (aad_len : Z) : option (srtp_err_status_t * option (srtp_cipher_t S)) :=
  match c with
  | None => Some (srtp_err_status_bad_param, c)
  | Some x => match ct_set_aad with
              | None => Some (srtp_err_status_no_such_op, c)
              | Some f => '(st, s) ← f (c_state x) aad aad_len; Some (st, Some (x <| (@c_state S) := s |>))
              end
  end.

Definition srtp_cipher_get_key_length (c : srtp_cipher_t S) : Z := c_key_len c.
End cipher.

(** XOR of the [n] octets at [pos] with the key stream [f] from its octet [p] on. *)
Definition stream_xor (f : Z -> Z) (p : Z) (mem : list Z) (pos n : Z) : list Z :=
  imap (fun i x => let i := Z.of_nat i in if (pos <=? i) && (i <? pos + n) then Z.lxor x (f (p + (i - pos))) else x) mem.

(** What a client relies on.  A keyed state given an IV is at octet 0 of a key stream, of which
    [ct_fits] says how far it goes; encryption and decryption add the next octets of the stream
    to the data, or fail and leave the data alone. *)
Class CipherOk (S : Type) (T : CipherType S) := {
  ct_secret : Type;
  ct_stream : ct_secret -> list Z -> Z -> Z;
  ct_fits : ct_secret -> list Z -> Z -> bool;
  ct_keyed : S -> ct_secret -> Prop;
  ct_at : S -> ct_secret -> list Z -> Z -> Prop;
  ct_stream_byte s k iv p q : ct_at s k iv p -> byte (ct_stream k iv q);
  ct_at_keyed s k iv p : ct_at s k iv p -> ct_keyed s k;
  ct_set_iv_ok s k iv d : ct_keyed s k -> length iv = 16%nat -> Forall byte iv -> ct_fits k iv 0 = true ->
    exists s', ct_set_iv s iv d = Some (srtp_err_status_ok, s') /\ ct_at s' k iv 0;
  ct_encrypt_ok s k iv p mem pos n : ct_at s k iv p -> 0 <= pos -> 0 <= n < 2147483648 -> pos + n <= zlen mem -> ct_fits k iv (p + n) = true ->
    exists s', ct_encrypt s mem pos n = Some (srtp_err_status_ok, stream_xor (ct_stream k iv) p mem pos n, s') /\ ct_at s' k iv (p + n);
  ct_encrypt_terminus s k iv p mem pos n : ct_at s k iv p -> 0 <= n < 2147483648 -> ct_fits k iv (p + n) = false ->
    ct_encrypt s mem pos n = Some (srtp_err_status_terminus, mem, s);
  ct_decrypt_encrypt s mem pos n : ct_decrypt s mem pos n = ct_encrypt s mem pos n }.

(** Two kinds of objects behind the same function pointers. *)
Section sum.
Context {A B : Type} {TA : CipherType A} {TB : CipherType B}.

Definition on_left {X} (r : option (srtp_err_status_t * X * A)) : option (srtp_err_status_t * X * (A + B)) := '(st, x, a) ← r; Some (st, x, inl a).
Definition on_right {X} (r : option (srtp_err_status_t * X * B)) : option (srtp_err_status_t * X * (A + B)) := '(st, x, b) ← r; Some (st, x, inr b).

#[export] Instance sum_cipher : CipherType (A + B) := {|
  ct_init s key := match s with
    | inl a => '(st, a) ← ct_init a key; Some (st, inl a) | inr b => '(st, b) ← ct_init b key; Some (st, inr b) end;
  ct_set_aad := None;
  ct_encrypt s mem pos n := match s with inl a => on_left (ct_encrypt a mem pos n) | inr b => on_right (ct_encrypt b mem pos n) end;
  ct_decrypt s mem pos n := match s with inl a => on_left (ct_decrypt a mem pos n) | inr b => on_right (ct_decrypt b mem pos n) end;
  ct_set_iv s iv d := match s with
    | inl a => '(st, a) ← ct_set_iv a iv d; Some (st, inl a) | inr b => '(st, b) ← ct_set_iv b iv d; Some (st, inr b) end;
  ct_get_tag := None |}.
End sum.

(** ** The null cipher ([null_cipher.c]) *)

Inductive srtp_null_cipher_ctx_t := Null_cipher_ctx.

Definition srtp_null_cipher_alloc (ok : bool) (key_len : Z) : srtp_err_status_t * option (srtp_cipher_t srtp_null_cipher_ctx_t) :=
  if ok then (srtp_err_status_ok, Some (Cipher Null_cipher_ctx key_len SRTP_NULL_CIPHER)) else (srtp_err_status_alloc_fail, None).

Definition srtp_null_cipher_init (s : srtp_null_cipher_ctx_t) (key : list Z) : option (srtp_err_status_t * srtp_null_cipher_ctx_t) :=
  Some (srtp_err_status_ok, s).
Definition srtp_null_cipher_set_iv (s : srtp_null_cipher_ctx_t) (iv : list Z) (dir : srtp_cipher_direction_t) : option (srtp_err_status_t * srtp_null_cipher_ctx_t) :=
  Some (srtp_err_status_ok, s).
Definition srtp_null_cipher_encrypt (s : srtp_null_cipher_ctx_t) (mem : list Z) (pos bytes_to_encr : Z) : option (srtp_err_status_t * list Z * srtp_null_cipher_ctx_t) :=
  Some (srtp_err_status_ok, mem, s).

#[export] Instance srtp_null_cipher : CipherType srtp_null_cipher_ctx_t := {|
  ct_init := srtp_null_cipher_init; ct_set_aad := None; ct_encrypt := srtp_null_cipher_encrypt; ct_decrypt := srtp_null_cipher_encrypt;
  ct_set_iv := srtp_null_cipher_set_iv; ct_get_tag := None |}.
