(* ===== verification/AesIcm.v ===== *)
(** * AES in integer counter mode (libsrtp [crypto/cipher/aes_icm.c], [crypto/include/aes_icm.h]) *)

From S2P Require Import Prelude Bytes Window Words AesSpec Aes AesRounds AesInverse AesKeys SrtpCipher.
Open Scope Z_scope.

Definition SRTP_SALT_LEN : Z := 14.
Definition SRTP_AES_ICM_128_KEY_LEN_WSALT : Z := SRTP_SALT_LEN + 16.
Definition SRTP_AES_ICM_256_KEY_LEN_WSALT : Z := SRTP_SALT_LEN + 32.

Record srtp_aes_icm_ctx_t := Icm_ctx {
  counter : list Z; (* v128_t *)
  offset : list Z;
  keystream_buffer : list Z;
  expanded_key : Aes.srtp_aes_expanded_key_t;
  bytes_in_buffer : Z;
  key_size : Z }.

#[export] Instance icm_ctx_eta : RecordEta srtp_aes_icm_ctx_t := fun c =>
  Icm_ctx (counter c) (offset c) (keystream_buffer c) (expanded_key c) (bytes_in_buffer c) (key_size c).

(** [c_ok]: the first allocation succeeds; [mem]: the memory of the second one, [None] when
    there is none. *)
Definition srtp_aes_icm_alloc (c_ok : bool) (mem : option srtp_aes_icm_ctx_t) (key_len : Z) : srtp_err_status_t * option (srtp_cipher_t srtp_aes_icm_ctx_t) :=
  if negb (key_len =? SRTP_AES_ICM_128_KEY_LEN_WSALT) && negb (key_len =? SRTP_AES_ICM_256_KEY_LEN_WSALT) then (srtp_err_status_bad_param, None) else
  if negb c_ok then (srtp_err_status_alloc_fail, None) else
  match mem with
  | None => (srtp_err_status_alloc_fail, None)
  | Some icm => (srtp_err_status_ok, Some (Cipher (icm <| key_size := key_len |>) key_len
      (if key_len =? SRTP_AES_ICM_256_KEY_LEN_WSALT then SRTP_AES_ICM_256 else SRTP_AES_ICM_128)))
  end.

Definition zero_block : list Z := replicate 16 0.

Definition srtp_aes_icm_context_init (c : srtp_aes_icm_ctx_t) (key : list Z) : option (srtp_err_status_t * srtp_aes_icm_ctx_t) :=
  if negb ((key_size c =? SRTP_AES_ICM_128_KEY_LEN_WSALT) || (key_size c =? SRTP_AES_ICM_256_KEY_LEN_WSALT))
  then Some (srtp_err_status_bad_param, c) else
  let base_key_len := key_size c - SRTP_SALT_LEN in
  let copy_len := key_size c - base_key_len in
  let copy_len := if SRTP_SALT_LEN <? copy_len then SRTP_SALT_LEN else copy_len in
  salt ← rd_bytes key base_key_len copy_len;
  counter' ← wr_bytes zero_block 0 salt;
  offset' ← wr_bytes zero_block 0 salt;
  '(status, e) ← Aes.srtp_aes_expand_encryption_key key base_key_len (expanded_key c);
  let c := c <| counter := counter' |> <| offset := offset' |> <| expanded_key := e |> in
  if negb (bool_decide (status = srtp_err_status_ok))
  then Some (status, c <| counter := zero_block |> <| offset := zero_block |>)
  else Some (srtp_err_status_ok, c <| bytes_in_buffer := 0 |>).

Definition srtp_aes_icm_set_iv (c : srtp_aes_icm_ctx_t) (iv : list Z) (direction : srtp_cipher_direction_t) : option (srtp_err_status_t * srtp_aes_icm_ctx_t) :=
  nonce ← rd_bytes iv 0 16;
  Some (srtp_err_status_ok, c <| counter := Aes.v128_xor (offset c) nonce |> <| bytes_in_buffer := 0 |>).

Definition srtp_aes_icm_advance (c : srtp_aes_icm_ctx_t) : option srtp_aes_icm_ctx_t :=
  ks ← Aes.srtp_aes_encrypt (counter c) (expanded_key c);
  let c := c <| keystream_buffer := ks |> <| bytes_in_buffer := 16 |> in
  x ← rd (counter c) 15;
  ctr ← wr (counter c) 15 (u8 (x + 1));
  ctr ← (if u8 (x + 1) =? 0 then y ← rd ctr 14; wr ctr 14 (u8 (y + 1)) else Some ctr);
  Some (c <| counter := ctr |>).

(** [for (i = from; i < to; i++) *buf++ ^= ks\[i\]], with [buf] at [pos]. *)
Definition xor_keystream (ks : list Z) (from to : Z) (mem : list Z) (pos : Z) : option (list Z * Z) :=
  for_up from to (fun i '(mem, pos) =>
    k ← rd ks i; x ← rd mem pos; mem ← wr mem pos (Z.lxor x k); Some (mem, pos + 1)) (mem, pos).

(** [htons(c->counter.v16\[7\])] *)
Definition block_index (ctr : list Z) : option Z := hi ← rd ctr 14; lo ← rd ctr 15; Some (256 * hi + lo).

(** The main loop: whole blocks. *)
Definition srtp_aes_icm_blocks (c : srtp_aes_icm_ctx_t) (mem : list Z) (pos n : Z) : option (srtp_aes_icm_ctx_t * list Z * Z) :=
  for_up 0 n (fun _ '(c, mem, pos) =>
    c ← srtp_aes_icm_advance c;
    '(mem, pos) ← xor_keystream (keystream_buffer c) 0 16 mem pos; Some (c, mem, pos)) (c, mem, pos).

Definition srtp_aes_icm_encrypt (c : srtp_aes_icm_ctx_t) (mem : list Z) (buf enc_len : Z) : option (srtp_err_status_t * list Z * srtp_aes_icm_ctx_t) :=
  let bytes_to_encr := enc_len in
  let bytes_of_new_keystream := u32 (bytes_to_encr - bytes_in_buffer c) in
  let blocks_of_new_keystream := Z.shiftr (u32 (bytes_of_new_keystream + 15)) 4 in
  index ← block_index (counter c);
  if 0xffff <? blocks_of_new_keystream + index then Some (srtp_err_status_terminus, mem, c) else
  if bytes_to_encr <=? bytes_in_buffer c then
    '(mem, _) ← xor_keystream (keystream_buffer c) (16 - bytes_in_buffer c) (16 - bytes_in_buffer c + bytes_to_encr) mem buf;
    Some (srtp_err_status_ok, mem, c <| bytes_in_buffer := bytes_in_buffer c - bytes_to_encr |>)
  else
    '(mem, buf) ← xor_keystream (keystream_buffer c) (16 - bytes_in_buffer c) 16 mem buf;
    let bytes_to_encr := bytes_to_encr - bytes_in_buffer c in
    let c := c <| bytes_in_buffer := 0 |> in
    '(c, mem, buf) ← srtp_aes_icm_blocks c mem buf (bytes_to_encr / 16);
    let tail := Z.land bytes_to_encr 0xf in
    if negb (tail =? 0) then
      c ← srtp_aes_icm_advance c;
      '(mem, _) ← xor_keystream (keystream_buffer c) 0 tail mem buf;
      Some (srtp_err_status_ok, mem, c <| bytes_in_buffer := 16 - tail |>)
    else Some (srtp_err_status_ok, mem, c <| bytes_in_buffer := 0 |>).

#[export] Instance srtp_aes_icm : CipherType srtp_aes_icm_ctx_t := {|
  ct_init := srtp_aes_icm_context_init; ct_set_aad := None; ct_encrypt := srtp_aes_icm_encrypt; ct_decrypt := srtp_aes_icm_encrypt;
  ct_set_iv := srtp_aes_icm_set_iv; ct_get_tag := None |}.

(** ** The counter mode is a stream cipher

    The state of the cipher is at a position of the key stream; encryption adds the octets of
    the stream from there on, however the data are split into calls. *)

Import Fips197.
(** ** Adding a stream to memory *)

Section stream.
Context (f : Z -> Z).
Implicit Types mem : list Z.

Lemma stream_xor_length p mem pos n : length (stream_xor f p mem pos n) = length mem.
Proof. apply length_imap. Qed.

Lemma stream_xor_rd p mem pos n j : 0 <= j ->
  rd (stream_xor f p mem pos n) j = if (pos <=? j) && (j <? pos + n) then (fun x => Z.lxor x (f (p + (j - pos)))) <$> rd mem j else rd mem j.
Proof.
  intros Hj. rewrite !rd_nonneg by done. unfold stream_xor. rewrite list_lookup_imap, Z2Nat.id by done.
  destruct (mem !! Z.to_nat j), (_ && _); done.
Qed.

Lemma rd_ext (l l' : list Z) : length l = length l' -> (forall j, 0 <= j < zlen l -> rd l j = rd l' j) -> l = l'.
Proof.
  intros Hl H. apply list_eq. intros i. destruct (decide (i < length l)%nat) as [Hi|Hi].
  - specialize (H (Z.of_nat i)). rewrite !rd_nonneg, Nat2Z.id in H by lia. apply H. unfold zlen. lia.
  - rewrite !lookup_ge_None_2 by lia. done.
Qed.

Lemma stream_xor_0 p mem pos : stream_xor f p mem pos 0 = mem.
Proof.
  apply rd_ext; [apply stream_xor_length|]. intros j Hj. rewrite stream_xor_rd by lia. destruct (Z.leb_spec pos j), (Z.ltb_spec j (pos + 0)); try lia; done.
Qed.

Lemma stream_xor_add p mem pos a b : 0 <= a -> 0 <= b ->
  stream_xor f (p + a) (stream_xor f p mem pos a) (pos + a) b = stream_xor f p mem pos (a + b).
Proof.
  intros Ha Hb. apply rd_ext; [by rewrite !stream_xor_length|]. intros j Hj. rewrite !stream_xor_rd by lia.
  destruct (Z.leb_spec (pos + a) j), (Z.ltb_spec j (pos + a + b)), (Z.leb_spec pos j), (Z.ltb_spec j (pos + a)), (Z.ltb_spec j (pos + (a + b))); try lia; try done.
  cbn [andb]. by replace (p + a + (j - (pos + a))) with (p + (j - pos)) by lia.
Qed.

Lemma stream_xor_twice p mem pos n : stream_xor f p (stream_xor f p mem pos n) pos n = mem.
Proof.
  apply rd_ext; [by rewrite !stream_xor_length|]. intros j Hj. rewrite !stream_xor_rd by lia.
  destruct (_ && _); [|done]. destruct (rd mem j); [|done]. cbn. by rewrite Z.lxor_assoc, Z.lxor_nilpotent, Z.lxor_0_r.
Qed.

Lemma xor_keystream_spec p ks from to mem pos : from <= to -> 0 <= pos -> pos + (to - from) <= zlen mem ->
  (forall i, from <= i < to -> rd ks i = Some (f (p + (i - from)))) ->
  xor_keystream ks from to mem pos = Some (stream_xor f p mem pos (to - from), pos + (to - from)).
Proof.
  intros Hft Hp Hm Hks. unfold xor_keystream.
  match goal with |- context [for_up from to ?body _] =>
    destruct (for_up_rule (fun i s => s = (stream_xor f p mem pos (i - from), pos + (i - from))) from to body (mem, pos)) as (s & -> & ->) end; [done|..|done].
  - by rewrite Z.sub_diag, stream_xor_0, Z.add_0_r.
  - intros i x Hi ->. rewrite Hks by done. cbn [mbind option_bind].
    destruct (rd_is_Some mem (pos + (i - from))) as [x Hx]; [lia|]. rewrite stream_xor_rd by lia.
    rewrite (proj2 (Z.ltb_ge (pos + (i - from)) _)), andb_false_r, Hx by lia. cbn [mbind option_bind].
    rewrite wr_Some by (unfold zlen in *; rewrite stream_xor_length; lia). cbn [mbind option_bind]. eexists. split; [done|].
    replace (i + 1 - from) with (i - from + 1) by lia. f_equal; [|lia]. rewrite <- stream_xor_add by lia.
    apply rd_ext; [by rewrite length_insert, !stream_xor_length|]. intros j Hj. rewrite rd_insert by (unfold zlen in *; rewrite stream_xor_length; lia).
    rewrite (stream_xor_rd (p + (i - from))) by lia. rewrite stream_xor_rd by lia.
    case_decide as Hji.
    + subst j. rewrite Hx, (proj2 (Z.leb_le (pos + (i - from)) _)), (proj2 (Z.ltb_lt (pos + (i - from)) _)), (proj2 (Z.ltb_ge (pos + (i - from)) _)), andb_false_r by lia.
      cbn. do 3 f_equal. lia.
    + destruct (Z.leb_spec (pos + (i - from)) j), (Z.ltb_spec j (pos + (i - from) + 1)); try lia; done.
Qed.
End stream.

(** ** The key stream *)

Definition base_key (k : list Z) : list Z := take (length k - 14) k.
Definition salt (k : list Z) : list Z := drop (length k - 14) k.
Definition icm_key_ok (k : list Z) : Prop := (zlen k = 30 \/ zlen k = 46) /\ Forall byte k.

(** The first counter block, and the one [i] further: a 16-bit number counts. *)
Definition first_counter (k iv : list Z) : list Z := xor_list (salt k ++ [0; 0]) iv.
Definition first_index (k iv : list Z) : Z := 256 * nth 14 (first_counter k iv) 0 + nth 15 (first_counter k iv) 0.
Definition ctr_block (k iv : list Z) (i : Z) : list Z :=
  take 14 (first_counter k iv) ++ [u8 (Z.shiftr (first_index k iv + i) 8); u8 (first_index k iv + i)].

(** The octet [p] of the key stream of [k] for [iv]. *)
Definition key_stream (k iv : list Z) (p : Z) : Z := nth (Z.to_nat (p mod 16)) (Cipher SBox (keys_of (base_key k)) (ctr_block k iv (p / 16))) 0.

(** The 16-bit counter of the stream does not reach 65536 within its first [n] octets. *)
Definition icm_fits (k iv : list Z) (n : Z) : bool := first_index k iv + (n + 15) / 16 <=? 65535.

Definition icm_keyed (c : srtp_aes_icm_ctx_t) (k : list Z) : Prop :=
  icm_key_ok k /\ key_size c = zlen k /\ offset c = salt k ++ [0; 0] /\ length (Aes.round (expanded_key c)) = 15%nat /\
  holds (expanded_key c) (keys_of (base_key k)) /\ Forall block (keys_of (base_key k)).

(** At octet [p], with [b] octets of key stream left in the buffer. *)
Definition icm_raw (c : srtp_aes_icm_ctx_t) (k iv : list Z) (p b : Z) : Prop :=
  icm_keyed c k /\ block iv /\ 0 <= p /\ 0 <= b <= 16 /\ (p + b) mod 16 = 0 /\ first_index k iv + (p + b) / 16 <= 65535 /\
  counter c = ctr_block k iv ((p + b) / 16) /\
  forall i, 16 - b <= i < 16 -> rd (keystream_buffer c) i = Some (key_stream k iv (p + b - 16 + i)).

Definition icm_at (c : srtp_aes_icm_ctx_t) (k iv : list Z) (p : Z) : Prop := exists b, icm_raw c k iv p b /\ bytes_in_buffer c = b /\ b < 16.

Lemma salt_length k : icm_key_ok k -> length (salt k) = 14%nat.
Proof. intros [Hk _]. unfold salt. rewrite length_drop. unfold zlen in Hk. lia. Qed.

Lemma first_counter_block k iv : icm_key_ok k -> block iv -> block (first_counter k iv).
Proof.
  intros Hk Hi. apply xor_list_block; [|done]. split; [by rewrite length_app, salt_length|].
  apply Forall_app. split; [by apply Forall_drop, Hk|]. repeat constructor; unfold byte; lia.
Qed.

Lemma ctr_block_block k iv i : icm_key_ok k -> block iv -> block (ctr_block k iv i).
Proof.
  intros Hk Hi. destruct (first_counter_block k iv Hk Hi) as [Hl Hb]. split; [unfold ctr_block; by rewrite length_app, length_take, Hl|].
  apply Forall_app. split; [by apply Forall_take|]. repeat constructor; apply u8_range.
Qed.

Lemma counter_open k iv : icm_key_ok k -> block iv -> exists l hi lo, length l = 14%nat /\ byte hi /\ byte lo /\
  first_counter k iv = l ++ [hi; lo] /\ first_index k iv = 256 * hi + lo /\
  forall i, ctr_block k iv i = l ++ [u8 (Z.shiftr (256 * hi + lo + i) 8); u8 (256 * hi + lo + i)].
Proof.
  intros Hk Hi. pose proof (first_counter_block k iv Hk Hi) as Hb. unfold ctr_block, first_index. revert Hb. generalize (first_counter k iv). intros c Hb.
  open_block Hb.
  match goal with |- context [[?a; ?b; ?c; ?d; ?e; ?f; ?g; ?h; ?i; ?j; ?k; ?l; ?m; ?n; ?hi; ?lo]] => exists [a; b; c; d; e; f; g; h; i; j; k; l; m; n], hi, lo end.
  split; [done|]. split; [done|]. split; [done|]. split; [done|]. split; [done|]. intros. reflexivity.
Qed.

Lemma first_index_range k iv : icm_key_ok k -> block iv -> 0 <= first_index k iv < 65536.
Proof. intros Hk Hi. destruct (counter_open k iv Hk Hi) as (l & hi & lo & _ & Hh & Hl & _ & -> & _). unfold byte in *. lia. Qed.

Lemma ctr_block_0 k iv : icm_key_ok k -> block iv -> ctr_block k iv 0 = first_counter k iv.
Proof.
  intros Hk Hi. destruct (counter_open k iv Hk Hi) as (l & hi & lo & _ & Hh & Hl & -> & _ & ->). unfold byte in *. rewrite Z.add_0_r.
  rewrite Z.shiftr_div_pow2 by lia. change (2 ^ 8) with 256. unfold u8, wrap. change (2 ^ 8) with 256.
  do 2 f_equal; [|f_equal]; Z.div_mod_to_equations; lia.
Qed.

Lemma rd_end (l : list Z) a b : length l = 14%nat -> rd (l ++ [a; b]) 14 = Some a /\ rd (l ++ [a; b]) 15 = Some b.
Proof. intros Hl. do 14 (destruct l as [|? l]; [done|]). by destruct l. Qed.

Lemma wr_end (l : list Z) a b x : length l = 14%nat -> wr (l ++ [a; b]) 14 x = Some (l ++ [x; b]) /\ wr (l ++ [a; b]) 15 x = Some (l ++ [a; x]).
Proof. intros Hl. do 14 (destruct l as [|? l]; [done|]). by destruct l. Qed.

Lemma block_index_spec k iv i : icm_key_ok k -> block iv -> 0 <= i -> first_index k iv + i <= 65535 ->
  block_index (ctr_block k iv i) = Some (first_index k iv + i).
Proof.
  intros Hk Hi H0 Hle. destruct (counter_open k iv Hk Hi) as (l & hi & lo & Hl & Hh & Hlo & _ & Hf & ->). rewrite Hf in *. unfold byte in *.
  unfold block_index. destruct (rd_end l (u8 (Z.shiftr (256 * hi + lo + i) 8)) (u8 (256 * hi + lo + i)) Hl) as [-> ->]. cbn [mbind option_bind]. f_equal.
  rewrite Z.shiftr_div_pow2 by lia. unfold u8, wrap. change (2 ^ 8) with 256. Z.div_mod_to_equations. lia.
Qed.

(** [++] of the last octet with its carry. *)
Lemma advance_counter k iv i : icm_key_ok k -> block iv -> 0 <= i -> first_index k iv + i <= 65535 -> exists x ctr,
  rd (ctr_block k iv i) 15 = Some x /\ wr (ctr_block k iv i) 15 (u8 (x + 1)) = Some ctr /\
  (if u8 (x + 1) =? 0 then y ← rd ctr 14; wr ctr 14 (u8 (y + 1)) else Some ctr) = Some (ctr_block k iv (i + 1)).
Proof.
  intros Hk Hi H0 Hle. destruct (counter_open k iv Hk Hi) as (l & hi & lo & Hl & Hh & Hlo & _ & Hf & Hc). rewrite Hf in Hle. rewrite !Hc. clear Hc Hf.
  set (v := 256 * hi + lo + i) in *. assert (0 <= v <= 65535) as Hv by (unfold byte in *; lia). replace (256 * hi + lo + (i + 1)) with (v + 1) by lia. clearbody v.
  exists (u8 v), (l ++ [u8 (Z.shiftr v 8); u8 (u8 v + 1)]). split; [by apply rd_end|]. split; [by apply wr_end|].
  rewrite !Z.shiftr_div_pow2 by lia. destruct (Z.eqb_spec (u8 (u8 v + 1)) 0) as [He|He]; unfold u8, wrap in *; change (2 ^ 8) with 256 in *.
  - destruct (rd_end l ((v / 256) mod 256) (((v mod 256) + 1) mod 256) Hl) as [-> _]. cbn [mbind option_bind]. rewrite (proj1 (wr_end _ _ _ _ Hl)).
    do 3 f_equal; [|f_equal]; Z.div_mod_to_equations; lia.
  - do 3 f_equal; [|f_equal]; Z.div_mod_to_equations; lia.
Qed.

Lemma Cipher_block ks p : Forall block ks -> zlen ks = 11 \/ zlen ks = 15 -> block p -> block (Cipher SBox ks p).
Proof.
  intros Hks Hl Hp. destruct (ends ks) as (k0 & mid & kl & ->); [unfold zlen in Hl; lia|]. destruct (ks_blocks _ _ _ Hks) as (B0 & Bm & Bl).
  rewrite Cipher_rounds. apply xor_list_block; [|done]. apply sub_shift_block, rounds_block; [by apply xor_list_block|done].
Qed.

Lemma keyed_cipher c k iv i : icm_keyed c k -> block iv -> block (Cipher SBox (keys_of (base_key k)) (ctr_block k iv i)) /\
  Aes.srtp_aes_encrypt (ctr_block k iv i) (expanded_key c) = Some (Cipher SBox (keys_of (base_key k)) (ctr_block k iv i)).
Proof.
  intros (Hk & _ & _ & _ & Hh & Hb) Hi. pose proof (ctr_block_block k iv i Hk Hi) as Hc.
  split; [|by apply encrypt_keys]. apply Cipher_block; [done| |done]. by destruct Hh as (_ & Hl & _).
Qed.

Lemma key_stream_byte c k iv p : icm_keyed c k -> block iv -> byte (key_stream k iv p).
Proof.
  intros Hc Hi. destruct (keyed_cipher c k iv (p / 16) Hc Hi) as [[Hl Hb] _]. unfold key_stream. rewrite Forall_forall in Hb.
  apply Hb, list_elem_of_In, nth_In. pose proof (Z.mod_pos_bound p 16). lia.
Qed.

(** ** The steps *)

Lemma advance_spec c k iv p : icm_raw c k iv p 0 -> first_index k iv + p / 16 + 1 <= 65535 ->
  exists c', srtp_aes_icm_advance c = Some c' /\ icm_raw c' k iv p 16.
Proof.
  intros (Hc & Hi & Hp & _ & Hmod & _ & Hctr & _) Hroom. rewrite Z.add_0_r in *. unfold srtp_aes_icm_advance. rewrite Hctr.
  destruct (keyed_cipher c k iv (p / 16) Hc Hi) as [Hb ->].
  remember (Cipher SBox (keys_of (base_key k)) (ctr_block k iv (p / 16))) as out eqn:Hout. cbn [mbind option_bind]. cbv zeta. cbn [counter].
  destruct (advance_counter k iv (p / 16)) as (x & ctr & H1 & H2 & H3); [apply Hc|done|by apply Z.div_pos|lia|].
  match goal with |- context [rd ?a 15] => change a with (counter c) end. rewrite Hctr, H1. cbn [mbind option_bind]. rewrite H2. cbn [mbind option_bind]. rewrite H3.
  cbn [mbind option_bind]. eexists. split; [done|]. assert ((p + 16) / 16 = p / 16 + 1) as Hd by (Z.div_mod_to_equations; lia).
  split; [exact Hc|]. split; [done|]. split; [done|]. split; [lia|]. split; [Z.div_mod_to_equations; lia|]. rewrite Hd. split; [lia|]. split; [done|].
  intros i Hi16. cbn [keystream_buffer]. rewrite rd_nonneg by lia. replace (p + 16 - 16 + i) with (p + i) by lia. unfold key_stream.
  replace ((p + i) mod 16) with i by (Z.div_mod_to_equations; lia). replace ((p + i) / 16) with (p / 16) by (Z.div_mod_to_equations; lia).
  rewrite <- Hout. destruct (nth_lookup_or_length out (Z.to_nat i) 0) as [H|H]; [done|]. destruct Hb as [Hb _]. lia.
Qed.

Lemma use_spec c k iv p b n mem pos : icm_raw c k iv p b -> 0 <= n <= b -> 0 <= pos -> pos + n <= zlen mem ->
  xor_keystream (keystream_buffer c) (16 - b) (16 - b + n) mem pos = Some (stream_xor (key_stream k iv) p mem pos n, pos + n) /\
  icm_raw c k iv (p + n) (b - n).
Proof.
  intros (Hc & Hi & Hp & Hb & Hmod & Hroom & Hctr & Hks) Hn Hpos Hm. split.
  - rewrite (xor_keystream_spec (key_stream k iv) p) by (lia || (intros; rewrite Hks by lia; do 2 f_equal; lia)).
    by replace (16 - b + n - (16 - b)) with n by lia.
  - split; [done|]. split; [done|]. replace (p + n + (b - n)) with (p + b) by lia. split; [lia|]. split; [lia|]. split; [done|]. split; [done|]. split; [done|].
    intros i Hi16. apply Hks. lia.
Qed.

Lemma blocks_spec c k iv p m mem pos : icm_raw c k iv p 0 -> 0 <= m -> first_index k iv + p / 16 + m <= 65535 -> 0 <= pos -> pos + 16 * m <= zlen mem ->
  exists c', srtp_aes_icm_blocks c mem pos m = Some (c', stream_xor (key_stream k iv) p mem pos (16 * m), pos + 16 * m) /\ icm_raw c' k iv (p + 16 * m) 0.
Proof.
  intros Hraw Hm Hroom Hpos Hmem. pose proof Hraw as (_ & _ & Hp & _ & Hmod & _). rewrite Z.add_0_r in Hmod. unfold srtp_aes_icm_blocks.
  match goal with |- context [for_up 0 m ?body _] => destruct (for_up_rule (fun i '(c, x, q) => icm_raw c k iv (p + 16 * i) 0 /\
    x = stream_xor (key_stream k iv) p mem pos (16 * i) /\ q = pos + 16 * i) 0 m body (c, mem, pos)) as ([[c' x] q] & -> & Hc' & -> & ->) end; [done|..|by exists c'].
  - rewrite Z.mul_0_r, !Z.add_0_r, stream_xor_0. done.
  - intros i [[c1 x] q] Hi (Hc1 & -> & ->). destruct (advance_spec c1 k iv (p + 16 * i)) as (c2 & -> & Hc2); [done|Z.div_mod_to_equations; lia|].
    cbn [mbind option_bind]. destruct (use_spec c2 k iv (p + 16 * i) 16 16 (stream_xor (key_stream k iv) p mem pos (16 * i)) (pos + 16 * i)) as [Hx Hc3];
      [done|lia|lia|unfold zlen in *; rewrite stream_xor_length; lia|].
    change (16 - 16) with 0 in *. change (0 + 16) with 16 in Hx. rewrite Hx. cbn [mbind option_bind]. eexists. split; [done|]. cbv beta iota.
    rewrite stream_xor_add by lia. replace (16 * (i + 1)) with (16 * i + 16) by lia. rewrite !Z.add_assoc. done.
Qed.

Lemma raw_buffer c k iv p b x : icm_raw c k iv p b -> icm_raw (c <| bytes_in_buffer := x |>) k iv p b.
Proof. intros H. exact H. Qed.

(** The check in front of encryption, without the wrap-around of its unsigned numbers. *)
Lemma room_check c k iv p b n : icm_raw c k iv p b -> b < 16 -> 0 <= n < 2147483648 ->
  block_index (counter c) = Some (first_index k iv + (p + b) / 16) /\
  (0xffff <? Z.shiftr (u32 (u32 (n - b) + 15)) 4 + (first_index k iv + (p + b) / 16)) = negb (icm_fits k iv (p + n)).
Proof.
  intros (Hc & Hi & Hp & Hb & Hmod & Hroom & Hctr & _) Hb16 Hn. split; [rewrite Hctr; apply block_index_spec; [apply Hc|done|apply Z.div_pos; lia|done]|].
  unfold icm_fits. assert (u32 (u32 (n - b) + 15) = n - b + 15) as ->.
  { unfold u32, wrap. rewrite Zplus_mod_idemp_l. rewrite Z.mod_small; lia. }
  rewrite Z.shiftr_div_pow2 by lia. change (2 ^ 4) with 16. change 0xffff with 65535.
  assert ((n - b + 15) / 16 + (first_index k iv + (p + b) / 16) = first_index k iv + (p + n + 15) / 16) as -> by (Z.div_mod_to_equations; lia).
  destruct (Z.ltb_spec 65535 (first_index k iv + (p + n + 15) / 16)), (Z.leb_spec (first_index k iv + (p + n + 15) / 16) 65535); done || lia.
Qed.

Lemma icm_encrypt_terminus c k iv p mem pos n : icm_at c k iv p -> 0 <= n < 2147483648 -> icm_fits k iv (p + n) = false ->
  srtp_aes_icm_encrypt c mem pos n = Some (srtp_err_status_terminus, mem, c).
Proof.
  intros (b & Hraw & <- & Hb) Hn Hf. destruct (room_check _ _ _ _ _ n Hraw Hb Hn) as [H1 H2]. unfold srtp_aes_icm_encrypt.
  rewrite H1. cbn [mbind option_bind]. by rewrite H2, Hf.
Qed.

(** The case that needs new key stream. *)
Lemma icm_encrypt_blocks c k iv p b mem pos n : icm_raw c k iv p b -> 0 <= b < n -> 0 <= pos -> pos + n <= zlen mem -> icm_fits k iv (p + n) = true ->
  exists c' mem' pos', ('(mem, buf) ← xor_keystream (keystream_buffer c) (16 - b) 16 mem pos;
    srtp_aes_icm_blocks (c <| bytes_in_buffer := 0 |>) mem buf ((n - b) / 16)) = Some (c', mem', pos') /\
    mem' = stream_xor (key_stream k iv) p mem pos (n - (n - b) mod 16) /\ pos' = pos + (n - (n - b) mod 16) /\
    icm_raw c' k iv (p + (n - (n - b) mod 16)) 0.
Proof.
  intros Hraw Hb Hpos Hm Hf. unfold icm_fits in Hf. apply Z.leb_le in Hf. pose proof Hraw as (_ & _ & Hp & Hb16 & Hmod & _).
  destruct (use_spec c k iv p b b mem pos Hraw) as [Hx Hraw1]; [lia..|]. replace (16 - b + b) with 16 in Hx by lia. rewrite Hx. cbn [mbind option_bind].
  rewrite Z.sub_diag in Hraw1. apply (raw_buffer _ _ _ _ _ 0) in Hraw1.
  destruct (blocks_spec _ k iv (p + b) ((n - b) / 16) (stream_xor (key_stream k iv) p mem pos b) (pos + b) Hraw1) as (c' & -> & Hraw2);
    [apply Z.div_pos; lia|Z.div_mod_to_equations; lia|lia|unfold zlen in *; rewrite stream_xor_length; Z.div_mod_to_equations; lia|].
  rewrite stream_xor_add by (lia || (Z.div_mod_to_equations; lia)).
  assert (b + 16 * ((n - b) / 16) = n - (n - b) mod 16) as He by (Z.div_mod_to_equations; lia).
  rewrite <- Z.add_assoc, He in Hraw2. rewrite <- Z.add_assoc, He. eauto 10.
Qed.

Lemma land_15 x : Z.land x 0xf = x mod 16.
Proof. exact (Z.land_ones x 4 ltac:(lia)). Qed.

Lemma icm_encrypt_spec c k iv p mem pos n : icm_at c k iv p -> 0 <= pos -> 0 <= n < 2147483648 -> pos + n <= zlen mem -> icm_fits k iv (p + n) = true ->
  exists c', srtp_aes_icm_encrypt c mem pos n = Some (srtp_err_status_ok, stream_xor (key_stream k iv) p mem pos n, c') /\ icm_at c' k iv (p + n).
Proof.
  intros (b & Hraw & Hbc & Hb) Hpos Hn Hm Hf. destruct (room_check _ _ _ _ _ n Hraw Hb Hn) as [H1 H2]. unfold srtp_aes_icm_encrypt.
  rewrite H1. cbn [mbind option_bind]. rewrite Hbc, H2, Hf. cbn [negb]. pose proof Hraw as (_ & _ & Hp & Hb16 & Hmod & _).
  destruct (Z.leb_spec n b) as [Hle|Hgt].
  - destruct (use_spec c k iv p b n mem pos Hraw) as [-> Hraw1]; [lia..|]. cbn [mbind option_bind]. eexists. split; [done|]. exists (b - n).
    split; [by apply raw_buffer|]. split; [done|lia].
  - destruct (icm_encrypt_blocks c k iv p b mem pos n) as (c' & mem' & pos' & Hbl & -> & -> & Hraw1); [done|lia..|done|].
    destruct (xor_keystream (keystream_buffer c) (16 - b) 16 mem pos) as [[mem1 pos1]|]; [|done]. cbn [mbind option_bind] in *. rewrite Hbl. cbn [mbind option_bind].
    rewrite land_15. unfold icm_fits in Hf. apply Z.leb_le in Hf. destruct (Z.eqb_spec ((n - b) mod 16) 0) as [Ht|Ht]; cbn [negb].
    + rewrite Ht, Z.sub_0_r in *. eexists. split; [done|]. exists 0. split; [by apply raw_buffer|]. done.
    + pose proof (Z.mod_pos_bound (n - b) 16). pose proof (Z.mod_le (n - b) 16 ltac:(lia) ltac:(lia)). destruct (advance_spec _ _ _ _ Hraw1) as (c2 & -> & Hraw2); [Z.div_mod_to_equations; lia|]. cbn [mbind option_bind].
      destruct (use_spec c2 k iv _ 16 ((n - b) mod 16) (stream_xor (key_stream k iv) p mem pos (n - (n - b) mod 16)) (pos + (n - (n - b) mod 16)) Hraw2) as [Hx Hraw3];
        [lia|lia|unfold zlen in *; rewrite stream_xor_length; lia|]. change (16 - 16) with 0 in Hx. rewrite Z.add_0_l in Hx. rewrite Hx. cbn [mbind option_bind].
      rewrite stream_xor_add by lia. rewrite <- Z.add_assoc in Hraw3. rewrite Z.sub_add in *. eexists. split; [done|].
      exists (16 - (n - b) mod 16). split; [by apply raw_buffer|]. split; [done|lia].
Qed.

(** ** Keys and IVs *)

(** A context with memory for the key. *)
Definition icm_memory (c : srtp_aes_icm_ctx_t) (k : list Z) : Prop := length (Aes.round (expanded_key c)) = 15%nat /\ key_size c = zlen k.

Lemma rd_bytes_take l k pos n : 0 <= pos -> 0 <= n -> pos + n <= Z.of_nat k -> (k <= length l)%nat -> rd_bytes (take k l) pos n = rd_bytes l pos n.
Proof.
  intros. rewrite !rd_bytes_Some by (unfold zlen; rewrite ?length_take; lia). rewrite skipn_firstn_comm, take_take. do 2 f_equal. lia.
Qed.

(** The expansion reads only the key. *)
Lemma expand_prefix k n e : n = 16 \/ n = 32 -> n <= zlen k ->
  Aes.srtp_aes_expand_encryption_key k n e = Aes.srtp_aes_expand_encryption_key (take (Z.to_nat n) k) n e.
Proof.
  intros Hn Hk. unfold Aes.srtp_aes_expand_encryption_key, Aes.aes_128_expand_encryption_key, Aes.aes_256_expand_encryption_key, zlen in *.
  destruct Hn as [-> | ->]; cbn [Z.eqb Pos.eqb]; rewrite ?rd_bytes_take by lia; done.
Qed.

Lemma icm_init_spec c k : icm_key_ok k -> icm_memory c k -> exists c', srtp_aes_icm_context_init c k = Some (srtp_err_status_ok, c') /\ icm_keyed c' k.
Proof.
  intros Hk [Hr Hs]. unfold srtp_aes_icm_context_init. rewrite Hs. pose proof Hk as [Hl Hb].
  assert (negb ((zlen k =? SRTP_AES_ICM_128_KEY_LEN_WSALT) || (zlen k =? SRTP_AES_ICM_256_KEY_LEN_WSALT)) = false) as -> by (destruct Hl as [-> | ->]; done).
  unfold SRTP_SALT_LEN. replace (zlen k - (zlen k - 14)) with 14 by lia. change (14 <? 14) with false. cbv iota.
  assert (rd_bytes k (zlen k - 14) 14 = Some (salt k)) as ->.
  { rewrite rd_bytes_Some by lia. unfold salt. replace (Z.to_nat (zlen k - 14)) with (length k - 14)%nat by (unfold zlen; lia).
    f_equal. apply take_ge. rewrite length_drop. unfold zlen in Hl. lia. }
  cbn [mbind option_bind]. assert (wr_bytes zero_block 0 (salt k) = Some (salt k ++ [0; 0])) as ->.
  { pose proof (salt_length k Hk) as Hsl. rewrite wr_bytes_Some by (unfold zlen; rewrite ?Hsl; cbn; lia). unfold zlen. rewrite Hsl. done. }
  cbn [mbind option_bind].
  destruct (expand_spec (base_key k) (expanded_key c)) as (e & Hex & Hh & Hbl); [|done|].
  { split; [|by apply Forall_take]. unfold base_key, zlen in *. rewrite length_take. lia. }
  assert (Aes.srtp_aes_expand_encryption_key k (zlen k - 14) (expanded_key c) = Some (srtp_err_status_ok, e)) as ->.
  { rewrite <- Hex. unfold base_key. replace (zlen (take (length k - 14) k)) with (zlen k - 14) by (unfold zlen; rewrite length_take; unfold zlen in Hl; lia).
    rewrite expand_prefix by lia. do 2 f_equal. unfold zlen. lia. }
  cbn [mbind option_bind]. rewrite bool_decide_true by done. cbn [negb]. eexists. split; [done|].
  split; [done|]. cbn. split; [done|]. split; [done|]. destruct Hh as (H1 & H2 & H3 & H4). done.
Qed.

Lemma icm_set_iv_spec c k iv d : icm_keyed c k -> length iv = 16%nat -> Forall byte iv -> icm_fits k iv 0 = true ->
  exists c', srtp_aes_icm_set_iv c iv d = Some (srtp_err_status_ok, c') /\ icm_at c' k iv 0.
Proof.
  intros Hc Hl Hb Hf. unfold srtp_aes_icm_set_iv. rewrite rd_bytes_0 by (unfold zlen; lia). cbn [mbind option_bind]. eexists. split; [done|].
  exists 0. split; [|done]. split; [exact Hc|]. split; [done|]. split; [done|]. split; [done|]. split; [done|]. unfold icm_fits in Hf. apply Z.leb_le in Hf.
  change (0 / 16) with 0. change ((0 + 15) / 16) with 0 in Hf. split; [done|]. split; [|lia].
  change ((0 + 0) / 16) with 0. rewrite ctr_block_0 by (done || apply Hc). destruct Hc as (_ & _ & Ho & _). cbn. rewrite Ho, take_ge by (cbn; lia). done.
Qed.

(** ** The interface *)

#[export, refine] Instance srtp_aes_icm_ok : CipherOk srtp_aes_icm_ctx_t srtp_aes_icm := {|
  ct_secret := list Z; ct_stream := key_stream; ct_fits := icm_fits; ct_keyed := icm_keyed; ct_at := icm_at |}.
Proof.
  - intros c k iv p q (b & (Hc & Hi & _) & _). by eapply key_stream_byte.
  - by intros c k iv p (b & (Hc & _) & _).
  - exact icm_set_iv_spec.
  - exact icm_encrypt_spec.
  - exact icm_encrypt_terminus.
  - done.
Defined.

#[export, refine] Instance srtp_null_cipher_ok : CipherOk srtp_null_cipher_ctx_t srtp_null_cipher := {|
  ct_secret := unit; ct_stream _ _ _ := 0; ct_fits _ _ _ := true; ct_keyed _ _ := True; ct_at _ _ _ _ := True |}.
Proof.
  - done.
  - done.
  - intros s k iv d _ _ _ _. by exists s.
  - intros s k iv p mem pos n _ Hpos Hn Hm _. exists s. split; [|done]. cbn. unfold srtp_null_cipher_encrypt. do 3 f_equal. symmetry.
    apply rd_ext; [apply stream_xor_length|]. intros j Hj. rewrite stream_xor_rd by lia. destruct (_ && _); [|done].
    destruct (rd mem j); [|done]. cbn. by rewrite Z.lxor_0_r.
  - done.
  - done.
Defined.

#[export, refine] Instance sum_cipher_ok {A B} {TA : CipherType A} {TB : CipherType B} {OA : CipherOk A TA} {OB : CipherOk B TB} : CipherOk (A + B) sum_cipher := {|
  ct_secret := @ct_secret A TA OA + @ct_secret B TB OB;
  ct_stream k := match k with inl k => ct_stream k | inr k => ct_stream k end;
  ct_fits k := match k with inl k => ct_fits k | inr k => ct_fits k end;
  ct_keyed s k := match s, k with inl s, inl k => ct_keyed s k | inr s, inr k => ct_keyed s k | _, _ => False end;
  ct_at s k iv p := match s, k with inl s, inl k => ct_at s k iv p | inr s, inr k => ct_at s k iv p | _, _ => False end |}.
Proof.
  - intros [s|s] [k|k] iv p q H; try done; by eapply ct_stream_byte.
  - intros [s|s] [k|k] iv p H; try done; by eapply ct_at_keyed.
  - intros [s|s] [k|k] iv d H; try done; intros H1 H2 H3; destruct (ct_set_iv_ok s k iv d H H1 H2 H3) as (s' & Hs & Hat); cbn; rewrite Hs; by eexists.
  - intros [s|s] [k|k] iv p mem pos n H; try done; intros H1 H2 H3 H4; destruct (ct_encrypt_ok s k iv p mem pos n H H1 H2 H3 H4) as (s' & Hs & Hat); cbn; rewrite Hs; by eexists.
  - intros [s|s] [k|k] iv p mem pos n H; try done; intros H1 H2; cbn; by rewrite (ct_encrypt_terminus s k iv p mem pos n H H1 H2).
  - intros [s|s] mem pos n; cbn; by rewrite ct_decrypt_encrypt.
Defined.

(** ** Any number of calls

    The data come in pieces, one call of the cipher for each; [None] when a call does not
    return [srtp_err_status_ok]. *)

Fixpoint srtp_aes_icm_pieces (c : srtp_aes_icm_ctx_t) (mem : list Z) (pos : Z) (ns : list Z) : option (list Z * srtp_aes_icm_ctx_t) :=
  match ns with
  | [] => Some (mem, c)
  | n :: ns =>
      '(status, mem, c) ← srtp_aes_icm_encrypt c mem pos n;
      if bool_decide (status = srtp_err_status_ok) then srtp_aes_icm_pieces c mem (pos + n) ns else None
  end.

Definition total (ns : list Z) : Z := foldr Z.add 0 ns.

(** The context after [p] octets: the counter block that comes next, and the octets of the
    current block of key stream that are left, at the end of the buffer. *)
Record icm_position (c : srtp_aes_icm_ctx_t) (k iv : list Z) (p : Z) : Prop := {
  ip_left : bytes_in_buffer c = (- p) mod 16;
  ip_counter : counter c = ctr_block k iv ((p + 15) / 16);
  ip_buffer i : 0 <= i < bytes_in_buffer c -> rd (keystream_buffer c) (16 - bytes_in_buffer c + i) = Some (key_stream k iv (p + i)) }.

Lemma icm_at_position c k iv p : icm_at c k iv p -> icm_position c k iv p.
Proof.
  intros (b & (_ & _ & Hp & Hb & Hmod & _ & Hctr & Hks) & Hbc & Hlt). constructor.
  - rewrite Hbc. Z.div_mod_to_equations; lia.
  - rewrite Hctr. f_equal. Z.div_mod_to_equations; lia.
  - intros i Hi. rewrite Hbc in *. rewrite Hks by lia. do 2 f_equal. lia.
Qed.

Lemma icm_fits_le k iv m n : m <= n -> icm_fits k iv n = true -> icm_fits k iv m = true.
Proof. intros Hm. unfold icm_fits. rewrite !Z.leb_le. intros Hf. Z.div_mod_to_equations. lia. Qed.

Lemma total_nonneg ns : Forall (fun n => 0 <= n) ns -> 0 <= total ns.
Proof. induction 1; cbn; [done|]. fold (total l). lia. Qed.

Lemma icm_pieces_spec k iv ns : forall c p mem pos, Forall (fun n => 0 <= n) ns -> icm_at c k iv p -> 0 <= pos -> pos + total ns <= zlen mem ->
  zlen mem < 2147483648 -> icm_fits k iv (p + total ns) = true ->
  exists c', srtp_aes_icm_pieces c mem pos ns = Some (stream_xor (key_stream k iv) p mem pos (total ns), c') /\ icm_at c' k iv (p + total ns).
Proof.
  induction ns as [|n ns IH]; intros c p mem pos Hns Hc Hpos Hm H31 Hf.
  - exists c. change (total []) with 0. rewrite stream_xor_0, Z.add_0_r. done.
  - apply Forall_cons in Hns as [Hn Hns]. pose proof (total_nonneg ns Hns). change (total (n :: ns)) with (n + total ns) in *. cbn [srtp_aes_icm_pieces].
    destruct (icm_encrypt_spec c k iv p mem pos n Hc) as (c1 & -> & Hc1); [lia|lia|lia|by apply (icm_fits_le _ _ _ (p + (n + total ns))); [lia|]|].
    cbn [mbind option_bind]. rewrite bool_decide_true by done.
    destruct (IH c1 (p + n) (stream_xor (key_stream k iv) p mem pos n) (pos + n) Hns Hc1) as (c2 & -> & Hc2);
      [lia|unfold zlen in *; rewrite stream_xor_length; lia..|by rewrite <- Z.add_assoc|].
    exists c2. rewrite stream_xor_add by lia. split; [done|]. by rewrite Z.add_assoc.
Qed.

(** Key, IV and all pieces. *)
Lemma icm_run_spec c k iv mem ns d : icm_key_ok k -> icm_memory c k -> block iv -> Forall (fun n => 0 <= n) ns -> total ns <= zlen mem ->
  zlen mem < 2147483648 -> icm_fits k iv (total ns) = true ->
  exists c1 c2 c3, srtp_aes_icm_context_init c k = Some (srtp_err_status_ok, c1) /\ srtp_aes_icm_set_iv c1 iv d = Some (srtp_err_status_ok, c2) /\
    srtp_aes_icm_pieces c2 mem 0 ns = Some (stream_xor (key_stream k iv) 0 mem 0 (total ns), c3) /\ icm_position c3 k iv (total ns).
Proof.
  intros Hk Hc [Hil Hib] Hns Hm H31 Hf. pose proof (total_nonneg ns Hns). destruct (icm_init_spec c k Hk Hc) as (c1 & Hc1 & Kc).
  destruct (icm_set_iv_spec c1 k iv d Kc Hil Hib) as (c2 & Hc2 & Ac); [by apply (icm_fits_le _ _ _ (total ns))|].
  destruct (icm_pieces_spec k iv ns c2 0 mem 0 Hns Ac) as (c3 & Hc3 & Ac3); [lia..|done|].
  exists c1, c2, c3. split; [done|]. split; [done|]. split; [done|]. by apply icm_at_position.
Qed.

(** ** The claim *)

(** C23. Counter mode is a stream cipher. Data of any length that the 16-bit block counter
    allows, encrypted with any number of calls of any lengths, are the data XOR the key stream,
    the counter blocks encrypted with FIPS 197, and what follows the data stays; a second
    context with the same key and IV gives the data back, with calls split in any other way.
    Either context then stands where the data end: its counter is that of the next block, and
    its buffer ends with the unused octets of the current one, as many as it says. *)
Theorem icm_roundtrip (c d : srtp_aes_icm_ctx_t) (k iv buf : list Z) (ns ms : list Z) :
  icm_key_ok k -> icm_memory c k -> icm_memory d k -> block iv -> Forall (fun n => 0 <= n) ns -> Forall (fun m => 0 <= m) ms ->
  total ms = total ns -> total ns <= zlen buf -> zlen buf < 2147483648 -> icm_fits k iv (total ns) = true ->
  exists c1 c2 c3 d1 d2 d3 buf',
    srtp_aes_icm_context_init c k = Some (srtp_err_status_ok, c1) /\ srtp_aes_icm_set_iv c1 iv srtp_direction_encrypt = Some (srtp_err_status_ok, c2) /\
    srtp_aes_icm_pieces c2 buf 0 ns = Some (buf', c3) /\
    buf' = stream_xor (key_stream k iv) 0 buf 0 (total ns) /\ icm_position c3 k iv (total ns) /\
    srtp_aes_icm_context_init d k = Some (srtp_err_status_ok, d1) /\ srtp_aes_icm_set_iv d1 iv srtp_direction_decrypt = Some (srtp_err_status_ok, d2) /\
    srtp_aes_icm_pieces d2 buf' 0 ms = Some (buf, d3) /\ icm_position d3 k iv (total ns).
Proof.
  intros Hk Hc Hd Hi Hns Hms Hsum Hle H31 Hf.
  destruct (icm_run_spec c k iv buf ns srtp_direction_encrypt) as (c1 & c2 & c3 & Hc1 & Hc2 & Hc3 & Ac); [done..|].
  destruct (icm_run_spec d k iv (stream_xor (key_stream k iv) 0 buf 0 (total ns)) ms srtp_direction_decrypt) as (d1 & d2 & d3 & Hd1 & Hd2 & Hd3 & Ad);
    [done..|by unfold zlen in *; rewrite ?stream_xor_length, ?Hsum|by unfold zlen; rewrite stream_xor_length|by rewrite Hsum|].
  rewrite Hsum, stream_xor_twice in Hd3. rewrite Hsum in Ad. exists c1, c2, c3, d1, d2, d3. eexists. repeat (split; [eassumption|]). split; [reflexivity|].
  repeat (split; [eassumption|]). exact Ad.
Qed.

Definition icm_key : list Z := map Z.of_nat (seq 0 30).
Definition icm_iv : list Z := map (fun i => if (i <? 14)%nat then Z.of_nat (3 * i) else 0) (seq 0 16).
Definition icm_empty (x : Z) : srtp_aes_icm_ctx_t := Icm_ctx [] [] [] (no_key x) x 30.
Definition icm_data : list Z := map Z.of_nat (seq 0 40).

(** Encrypted with five calls, two of them served from the buffer alone and one empty;
    decrypted with two. *)
Lemma icm_roundtrip_witness : exists c1 c2 c3 d1 d2 d3 buf',
    srtp_aes_icm_context_init (icm_empty 0) icm_key = Some (srtp_err_status_ok, c1) /\ srtp_aes_icm_set_iv c1 icm_iv srtp_direction_encrypt = Some (srtp_err_status_ok, c2) /\
    srtp_aes_icm_pieces c2 icm_data 0 [17; 3; 0; 5; 12] = Some (buf', c3) /\
    buf' = stream_xor (key_stream icm_key icm_iv) 0 icm_data 0 37 /\ icm_position c3 icm_key icm_iv 37 /\
    srtp_aes_icm_context_init (icm_empty 7) icm_key = Some (srtp_err_status_ok, d1) /\ srtp_aes_icm_set_iv d1 icm_iv srtp_direction_decrypt = Some (srtp_err_status_ok, d2) /\
    srtp_aes_icm_pieces d2 buf' 0 [30; 7] = Some (icm_data, d3) /\ icm_position d3 icm_key icm_iv 37.
Proof.
  apply (icm_roundtrip (icm_empty 0) (icm_empty 7) icm_key icm_iv icm_data [17; 3; 0; 5; 12] [30; 7]).
  - split; [by left|]. apply (bool_decide_eq_true_1 (Forall _ _)). vm_compute. reflexivity.
  - done.
  - done.
  - split; [done|]. apply (bool_decide_eq_true_1 (Forall _ _)). vm_compute. reflexivity.
  - apply (bool_decide_eq_true_1 (Forall _ _)). vm_compute. reflexivity.
  - apply (bool_decide_eq_true_1 (Forall _ _)). vm_compute. reflexivity.
  - reflexivity.
  - vm_compute. discriminate.
  - reflexivity.
  - vm_compute. reflexivity.
Defined.
