(* ===== verification/SrtpHeader.v ===== *)
(** * RTP headers (libsrtp [srtp/srtp.c], [include/srtp_priv.h])

    A packet is the memory it lies in, from its first octet on; reading or writing behind the
    memory is [None].  The bit fields of [srtp_hdr_t] are those of a little-endian machine. *)

From S2P Require Import Prelude Bytes Window Words Sha1.
Open Scope Z_scope.

Module SrtpHeader.

Definition octets_in_rtp_header : Z := 12.
Definition octets_in_rtp_xtn_hdr : Z := 4.
Definition xtn_hdr_one_byte_profile : Z := 0xbede.
Definition xtn_hdr_two_byte_profile : Z := 0x1000.
Definition cryptex_one_byte_profile : Z := 0xc0de.
Definition cryptex_two_byte_profile : Z := 0xc2de.

(** ** Fields *)

(** [ntohs] of a field. *)
Definition get16 (mem : list Z) (pos : Z) : option Z := l ← rd_bytes mem pos 2; Some (get_be l).

Definition hdr_cc (mem : list Z) : option Z := b ← rd mem 0; Some (Z.land b 0xf).
Definition hdr_x (mem : list Z) : option Z := b ← rd mem 0; Some (Z.land (Z.shiftr b 4) 1).
Definition hdr_seq (mem : list Z) : option Z := get16 mem 2.
(** In network order, as the number the machine reads. *)
Definition hdr_ssrc (mem : list Z) : option Z := l ← rd_bytes mem 8 4; Some (get_le l).

Definition srtp_get_rtp_hdr_len (mem : list Z) : option Z := cc ← hdr_cc mem; Some (octets_in_rtp_header + 4 * cc).

(** The offset of the extension header. *)
Definition srtp_get_rtp_xtn_hdr (mem : list Z) : option Z := srtp_get_rtp_hdr_len mem.

Definition srtp_get_rtp_hdr_xtnd_len (mem : list Z) (xtn_hdr : Z) : option Z := n ← get16 mem (xtn_hdr + 2); Some ((n + 1) * 4).

Definition srtp_validate_rtp_header (mem : list Z) (pkt_octet_len : Z) : option srtp_err_status_t :=
  if pkt_octet_len <? octets_in_rtp_header then Some srtp_err_status_bad_param else
  rtp_header_len ← srtp_get_rtp_hdr_len mem;
  if pkt_octet_len <? rtp_header_len then Some srtp_err_status_bad_param else
  x ← hdr_x mem;
  if x =? 1 then
    if pkt_octet_len <? rtp_header_len + octets_in_rtp_xtn_hdr then Some srtp_err_status_bad_param else
    n ← srtp_get_rtp_hdr_xtnd_len mem rtp_header_len;
    if pkt_octet_len <? rtp_header_len + n then Some srtp_err_status_bad_param else Some srtp_err_status_ok
  else Some srtp_err_status_ok.

Definition srtp_get_rtp_hdr_xtnd_profile (mem : list Z) : option Z := n ← srtp_get_rtp_hdr_len mem; get16 mem n.

(** The first octet behind the header and its extension, and the offset of the extension. *)
Definition payload_start (mem : list Z) : option (Z * option Z) :=
  n ← srtp_get_rtp_hdr_len mem; x ← hdr_x mem;
  if x =? 1 then
    xtn_hdr ← srtp_get_rtp_xtn_hdr mem; l ← srtp_get_rtp_hdr_xtnd_len mem xtn_hdr; Some (n + l, Some xtn_hdr)
  else Some (n, None).

(** ** Cryptex *)

Definition srtp_cryptex_move_hdr_xtnd_hdr_before_csrc (mem : list Z) : option (list Z) :=
  cc ← hdr_cc mem;
  if cc =? 0 then Some mem else
  xtn_hdr ← srtp_get_rtp_hdr_len mem;
  tmp ← rd_bytes mem xtn_hdr 4;
  csrc_list ← rd_bytes mem octets_in_rtp_header (cc * 4);
  mem ← wr_bytes mem (octets_in_rtp_header + 4) csrc_list;
  wr_bytes mem octets_in_rtp_header tmp.

Definition srtp_cryptex_move_csrc_before_hdr_xtnd_hdr (mem : list Z) : option (list Z) :=
  cc ← hdr_cc mem;
  if cc =? 0 then Some mem else
  xtn_hdr ← srtp_get_rtp_hdr_len mem;
  tmp ← rd_bytes mem octets_in_rtp_header 4;
  csrc_list ← rd_bytes mem (octets_in_rtp_header + 4) (cc * 4);
  mem ← wr_bytes mem octets_in_rtp_header csrc_list;
  wr_bytes mem xtn_hdr tmp.

Definition srtp_cryptex_protect (mem : list Z) : option (srtp_err_status_t * list Z) :=
  xtn_hdr ← srtp_get_rtp_xtn_hdr mem;
  profile ← get16 mem xtn_hdr;
  if profile =? xtn_hdr_one_byte_profile then
    mem ← wr_bytes mem xtn_hdr (be16 cryptex_one_byte_profile);
    mem ← srtp_cryptex_move_hdr_xtnd_hdr_before_csrc mem; Some (srtp_err_status_ok, mem)
  else if profile =? xtn_hdr_two_byte_profile then
    mem ← wr_bytes mem xtn_hdr (be16 cryptex_two_byte_profile);
    mem ← srtp_cryptex_move_hdr_xtnd_hdr_before_csrc mem; Some (srtp_err_status_ok, mem)
  else Some (srtp_err_status_parse_err, mem).

Definition srtp_cryptex_protect_cleanup (mem : list Z) : option (list Z) := srtp_cryptex_move_csrc_before_hdr_xtnd_hdr mem.

Definition srtp_cryptex_unprotect (mem : list Z) : option (srtp_err_status_t * list Z) :=
  mem ← srtp_cryptex_move_hdr_xtnd_hdr_before_csrc mem; Some (srtp_err_status_ok, mem).

Definition srtp_cryptex_unprotect_cleanup (mem : list Z) : option (list Z) :=
  mem ← srtp_cryptex_move_csrc_before_hdr_xtnd_hdr mem;
  xtn_hdr ← srtp_get_rtp_xtn_hdr mem;
  profile ← get16 mem xtn_hdr;
  if profile =? cryptex_one_byte_profile then wr_bytes mem xtn_hdr (be16 xtn_hdr_one_byte_profile)
  else if profile =? cryptex_two_byte_profile then wr_bytes mem xtn_hdr (be16 xtn_hdr_two_byte_profile)
  else Some mem.

(** What both [srtp_cryptex_*_init] do to the start of the encrypted portion. *)
Definition cryptex_enc_start (mem : list Z) (enc_start : Z) : option Z :=
  xtn_hdr ← srtp_get_rtp_xtn_hdr mem; n ← srtp_get_rtp_hdr_xtnd_len mem xtn_hdr; cc ← hdr_cc mem;
  Some (enc_start - (n - octets_in_rtp_xtn_hdr) - cc * 4).

(** ** Comparison of authentication tags ([crypto/math/datatypes.c])

    The portable branch: pairs of words, a word, then octets; 0 when they are equal. *)

(** [accumulator |= a_val ^ b_val] for the words at offset [i]. *)
Definition diff_word (a b : list Z) (pos i acc : Z) : option Z :=
  x ← rd_bytes a i 4; y ← rd_bytes b (pos + i) 4; Some (Z.lor acc (Z.lxor (get_le x) (get_le y))).

Definition srtp_octet_string_is_eq (a b : list Z) (pos len : Z) : option Z :=
  '(accumulator, accumulator2) ← for_up 0 (Z.shiftr len 3) (fun i '(x, y) =>
    x ← diff_word a b pos (8 * i) x; y ← diff_word a b pos (8 * i + 4) y; Some (x, y)) (0, 0);
  let accumulator := Z.lor accumulator accumulator2 in
  let done_ := 8 * Z.shiftr len 3 in
  '(accumulator, done_) ← (if 4 <=? len - done_ then x ← diff_word a b pos done_ accumulator; Some (x, done_ + 4) else Some (accumulator, done_));
  accumulator ← for_up done_ len (fun i acc => x ← rd a i; y ← rd b (pos + i); Some (Z.lor acc (Z.lxor x y))) accumulator;
  Some (if accumulator =? 0 then 0 else 1).

End SrtpHeader.

(** ** What the parser reads and what it does not

    The header functions read only the header; the constant-time comparison compares. *)

Import SrtpHeader.
Lemma get_le_cons b l : byte b -> get_le (b :: l) = 256 * get_le l + b.
Proof.
  intros Hb. change (get_le (b :: l)) with (Z.lor (Z.shiftl (get_le l) 8) b).
  rewrite lor_shiftl_add by (done || (unfold byte in Hb; change (2 ^ 8) with 256; lia)). lia.
Qed.

Lemma get_le_inj a b : length a = length b -> Forall byte a -> Forall byte b -> get_le a = get_le b -> a = b.
Proof.
  intros Hl Ha Hb. revert b Hl Hb. induction Ha as [|x a Hx Ha IH]; intros [|y b] Hl Hb H; try done. apply Forall_cons in Hb as [Hy Hb].
  rewrite !get_le_cons in H by done. unfold byte in *. assert (x = y /\ get_le a = get_le b) as [-> Hg] by lia. f_equal. by apply IH; [injection Hl|..].
Qed.

(** ** Reading a prefix *)

Section prefix.
Context (m m' : list Z) (h : Z) (Htake : take (Z.to_nat h) m = take (Z.to_nat h) m') (Hh : h <= zlen m) (Hh' : h <= zlen m').

Lemma prefix_bytes pos n : 0 <= pos -> 0 <= n -> pos + n <= h -> rd_bytes m' pos n = rd_bytes m pos n.
Proof using Htake Hh Hh'.
  intros. rewrite !rd_bytes_Some by lia. f_equal.
  assert (forall l : list Z, take (Z.to_nat n) (drop (Z.to_nat pos) l) = take (Z.to_nat n) (drop (Z.to_nat pos) (take (Z.to_nat h) l))) as H2.
  { intros l. rewrite skipn_firstn_comm, take_take. f_equal. lia. }
  by rewrite (H2 m), (H2 m'), Htake.
Qed.

Lemma prefix_rd i : 0 <= i < h -> rd m' i = rd m i.
Proof using Htake.
  intros. rewrite !rd_nonneg by lia. rewrite <- (lookup_take_lt m (Z.to_nat h)), <- (lookup_take_lt m' (Z.to_nat h)) by lia. by rewrite Htake.
Qed.

Lemma prefix_16 pos : 0 <= pos -> pos + 2 <= h -> get16 m' pos = get16 m pos.
Proof using Htake Hh Hh'. intros. unfold get16. by rewrite prefix_bytes by lia. Qed.
End prefix.

Lemma get16_range m pos x : Forall byte m -> get16 m pos = Some x -> 0 <= x < 65536.
Proof.
  unfold get16. intros Hm H. destruct (rd_bytes m pos 2) as [l|] eqn:Hl; [|done]. injection H as <-.
  apply rd_bytes_inv in Hl as (H0 & H1 & Hz & ->). pose proof (get_be_range (take (Z.to_nat 2) (drop (Z.to_nat pos) m))) as Hr.
  rewrite Hz in Hr. apply Hr. by apply Forall_take, Forall_drop.
Qed.

Lemma hdr_cc_range m cc : hdr_cc m = Some cc -> 0 <= cc < 16.
Proof.
  unfold hdr_cc. destruct (rd m 0) as [b|]; [|done]. intros [= <-]. pose proof (Z.land_ones b 4 ltac:(lia)) as H. change (Z.ones 4) with 0xf in H.
  rewrite H. change (2 ^ 4) with 16. apply Z.mod_pos_bound. lia.
Qed.

(** ** A validated header *)

(** A header of [h] octets in front of a packet of [len]. *)
Definition valid_header (m : list Z) (len h : Z) (x : option Z) : Prop :=
  srtp_validate_rtp_header m len = Some srtp_err_status_ok /\ payload_start m = Some (h, x).

Lemma valid_header_exists m len : Forall byte m -> len <= zlen m -> srtp_validate_rtp_header m len = Some srtp_err_status_ok ->
  exists h x, valid_header m len h x /\ 12 <= h <= len.
Proof.
  intros Hm Hlen Hv. unfold valid_header. rewrite Hv. unfold srtp_validate_rtp_header, octets_in_rtp_header, octets_in_rtp_xtn_hdr, payload_start, srtp_get_rtp_xtn_hdr in *.
  destruct (Z.ltb_spec len 12) as [|H12]; [done|]. unfold srtp_get_rtp_hdr_len in *. destruct (hdr_cc m) as [cc|] eqn:Hcc; [|done].
  apply hdr_cc_range in Hcc. cbn [mbind option_bind] in *. unfold octets_in_rtp_header in *. destruct (Z.ltb_spec len (12 + 4 * cc)); [done|].
  destruct (hdr_x m) as [x|]; [|done]. cbn [mbind option_bind] in *. destruct (x =? 1).
  - destruct (Z.ltb_spec len (12 + 4 * cc + 4)); [done|]. unfold srtp_get_rtp_hdr_xtnd_len in *.
    destruct (get16 m (12 + 4 * cc + 2)) as [n|] eqn:Hn; [|done]. apply get16_range in Hn; [|done]. cbn [mbind option_bind] in *.
    destruct (Z.ltb_spec len (12 + 4 * cc + (n + 1) * 4)); [done|]. do 2 eexists. split; [done|]. lia.
  - do 2 eexists. split; [done|]. lia.
Qed.

(** Parsing stays inside the packet, and reads 12 octets at least when they are there. *)
Lemma validate_total m len : Forall byte m -> 0 <= len <= zlen m -> exists st, srtp_validate_rtp_header m len = Some st /\ (st = srtp_err_status_ok -> 12 <= len).
Proof.
  intros Hm Hlen. unfold srtp_validate_rtp_header, octets_in_rtp_header, octets_in_rtp_xtn_hdr, srtp_get_rtp_hdr_len, srtp_get_rtp_hdr_xtnd_len, hdr_cc, hdr_x.
  destruct (Z.ltb_spec len 12); [by eexists|]. destruct (rd_is_Some m 0) as [b Hb]; [lia|]. rewrite Hb. cbn [mbind option_bind].
  destruct (_ <? _); [by eexists|]. destruct (_ =? 1); [|by eexists]. destruct (Z.ltb_spec len (octets_in_rtp_header + 4 * Z.land b 15 + 4)) as [|Hx]; [by eexists|].
  unfold octets_in_rtp_header in *. assert (0 <= Z.land b 15) by (apply Z.land_nonneg; lia).
  unfold get16. rewrite rd_bytes_Some by lia. cbn [mbind option_bind]. destruct (_ <? _); by eexists.
Qed.

Lemma fixed_fields m : Forall byte m -> 12 <= zlen m -> exists seq ssrc, hdr_seq m = Some seq /\ hdr_ssrc m = Some ssrc /\ 0 <= seq < 65536.
Proof.
  intros Hm Hl. assert (exists seq, hdr_seq m = Some seq) as [seq Hs] by (unfold hdr_seq, get16; rewrite rd_bytes_Some by lia; by eexists).
  exists seq. unfold hdr_ssrc. rewrite rd_bytes_Some by lia. eexists. split; [done|]. split; [done|]. by apply (get16_range m 2).
Qed.

(** Memory with the same header has the same header; the packet may be longer or shorter. *)
Lemma valid_header_same m m' len len' h x : valid_header m len h x -> Forall byte m -> len <= zlen m -> h <= len' <= zlen m' ->
  take (Z.to_nat h) m = take (Z.to_nat h) m' ->
  valid_header m' len' h x /\ hdr_seq m' = hdr_seq m /\ hdr_ssrc m' = hdr_ssrc m.
Proof.
  intros [Hv Hs] Hm Hlen Hlen' Ht. destruct (valid_header_exists m len Hm Hlen Hv) as (h0 & x0 & [_ Hs0] & Hh). rewrite Hs in Hs0. injection Hs0 as <- <-.
  assert (h <= zlen m) as H1 by lia. assert (h <= zlen m') as H2 by lia. pose proof (prefix_bytes m m' h Ht H1 H2) as Hb. pose proof (prefix_rd m m' h Ht) as Hr.
  pose proof (prefix_16 m m' h Ht H1 H2) as H16. split; [|unfold hdr_seq, hdr_ssrc; rewrite H16, Hb by lia; done].
  unfold valid_header, srtp_validate_rtp_header, payload_start, srtp_get_rtp_xtn_hdr, srtp_get_rtp_hdr_len, srtp_get_rtp_hdr_xtnd_len, octets_in_rtp_header, octets_in_rtp_xtn_hdr in *.
  assert (hdr_cc m' = hdr_cc m) as Hcc by (unfold hdr_cc; by rewrite Hr by lia). assert (hdr_x m' = hdr_x m) as Hx by (unfold hdr_x; by rewrite Hr by lia).
  rewrite Hcc, Hx. destruct (Z.ltb_spec len 12) as [|H12]; [done|]. rewrite (proj2 (Z.ltb_ge len' 12)) by lia.
  destruct (hdr_cc m) as [cc|] eqn:Hc; [|done]. apply hdr_cc_range in Hc. cbn [mbind option_bind] in *.
  destruct (Z.ltb_spec len (12 + 4 * cc)); [done|]. destruct (hdr_x m) as [e|]; [|done]. cbn [mbind option_bind] in *. destruct (e =? 1).
  - destruct (Z.ltb_spec len (12 + 4 * cc + 4)); [done|]. destruct (get16 m (12 + 4 * cc + 2)) as [n|] eqn:Hn; [|done]. cbn [mbind option_bind] in *.
    injection Hs as Hh' Hx'. pose proof (get16_range _ _ _ Hm Hn). rewrite H16, Hn by lia. cbn [mbind option_bind].
    rewrite !(proj2 (Z.ltb_ge len' _)) by lia. split; [done|]. by rewrite Hh', Hx'.
  - injection Hs as Hh' Hx'. rewrite !(proj2 (Z.ltb_ge len' _)) by lia. split; [done|]. by rewrite Hh', Hx'.
Qed.

(** ** Comparison *)

Section compare.
Context (a b : list Z) (pos len : Z) (Ha : Forall byte a) (Hb : Forall byte b) (Hp : 0 <= pos) (Hla : 0 <= len <= zlen a) (Hlb : pos + len <= zlen b).

(** The octets from [i] to [j] are equal. *)
Definition same (i j : Z) : Prop := forall n, i <= n < j -> rd a n = rd b (pos + n).

Lemma same_join i j k : i <= j -> j <= k -> same i k <-> same i j /\ same j k.
Proof using.
  intros. unfold same. split; [intros H1; split; intros; apply H1; lia|]. intros [H1 H2] n Hn. destruct (decide (n < j)); [apply H1|apply H2]; lia.
Qed.

Lemma rd_byte (l : list Z) i x : Forall byte l -> rd l i = Some x -> byte x.
Proof using. intros Hl Hx. pose proof (rd_Some_lt _ _ _ Hx). rewrite rd_nonneg in Hx by lia. by eapply Forall_lookup_1. Qed.

Lemma same_bytes i n x y : 0 <= i -> 0 <= n -> rd_bytes a i n = Some x -> rd_bytes b (pos + i) n = Some y -> same i (i + n) <-> x = y.
Proof using Hp.
  intros Hi Hn Hx Hy. apply rd_bytes_inv in Hx as (_ & H1 & Hzx & ->). apply rd_bytes_inv in Hy as (_ & H2 & Hzy & ->). unfold same. split.
  - intros H. apply list_eq. intros k. destruct (decide (k < Z.to_nat n)%nat).
    + rewrite !lookup_take_lt, !lookup_drop by done. specialize (H (i + Z.of_nat k) ltac:(lia)). rewrite !rd_nonneg in H by lia.
      replace (Z.to_nat i + k)%nat with (Z.to_nat (i + Z.of_nat k)) by lia. replace (Z.to_nat (pos + i) + k)%nat with (Z.to_nat (pos + (i + Z.of_nat k))) by lia. done.
    + by rewrite !lookup_take_ge by lia.
  - intros H k Hk. assert (take (Z.to_nat n) (drop (Z.to_nat i) a) !! Z.to_nat (k - i) = take (Z.to_nat n) (drop (Z.to_nat (pos + i)) b) !! Z.to_nat (k - i)) as Hl by by rewrite H.
    rewrite !lookup_take_lt, !lookup_drop in Hl by lia. rewrite !rd_nonneg by lia.
    replace (Z.to_nat k) with (Z.to_nat i + Z.to_nat (k - i))%nat by lia. replace (Z.to_nat (pos + k)) with (Z.to_nat (pos + i) + Z.to_nat (k - i))%nat by lia. done.
Qed.

Lemma or_xor_zero acc x y : Z.lor acc (Z.lxor x y) = 0 <-> acc = 0 /\ x = y.
Proof using. rewrite Z.lor_eq_0_iff, Z.lxor_eq_0_iff. done. Qed.

Lemma diff_word_spec i acc : 0 <= i -> i + 4 <= len -> exists acc', diff_word a b pos i acc = Some acc' /\ (acc' = 0 <-> acc = 0 /\ same i (i + 4)).
Proof using Ha Hb Hp Hla Hlb.
  intros Hi Hi4. unfold diff_word. destruct (rd_bytes a i 4) as [x|] eqn:Hx; [|by rewrite rd_bytes_Some in Hx by lia].
  destruct (rd_bytes b (pos + i) 4) as [y|] eqn:Hy; [|by rewrite rd_bytes_Some in Hy by lia]. cbn [mbind option_bind]. eexists. split; [done|].
  rewrite or_xor_zero, (same_bytes i 4 x y) by (done || lia). apply rd_bytes_inv in Hx as (_ & _ & Hzx & ->). apply rd_bytes_inv in Hy as (_ & _ & Hzy & ->).
  split; intros [-> H]; (split; [done|]); [|by rewrite H]. apply get_le_inj; [unfold zlen in *; lia|by apply Forall_take, Forall_drop..|done].
Qed.

Lemma srtp_octet_string_is_eq_spec : exists r, srtp_octet_string_is_eq a b pos len = Some r /\ (r = 0 <-> take (Z.to_nat len) a = take (Z.to_nat len) (drop (Z.to_nat pos) b)).
Proof using Ha Hb Hp Hla Hlb.
  unfold srtp_octet_string_is_eq. rewrite !Z.shiftr_div_pow2 by lia. change (2 ^ 3) with 8.
  match goal with |- context [for_up 0 (len / 8) ?body _] =>
    destruct (for_up_rule (fun i '(x, y) => x = 0 /\ y = 0 <-> same 0 (8 * i)) 0 (len / 8) body (0, 0)) as ([x y] & -> & Hxy) end.
  { apply Z.div_pos; lia. } { split; [|done]. intros _ n Hn. lia. }
  { intros i [x y] Hi Hxy. destruct (diff_word_spec (8 * i) x) as (x' & -> & Hx); [lia|Z.div_mod_to_equations; lia|]. cbn [mbind option_bind].
    destruct (diff_word_spec (8 * i + 4) y) as (y' & -> & Hy); [lia|Z.div_mod_to_equations; lia|]. cbn [mbind option_bind]. eexists. split; [done|]. cbv beta iota.
    rewrite (same_join 0 (8 * i)), (same_join (8 * i) (8 * i + 4)), <- Hxy, Hx, Hy by lia. replace (8 * i + 4 + 4) with (8 * (i + 1)) by lia. tauto. }
  cbn [mbind option_bind]. set (z := Z.lor x y) in *. assert (z = 0 <-> same 0 (8 * (len / 8))) as Hz by (unfold z; by rewrite Z.lor_eq_0_iff).
  clearbody z. clear x y Hxy. set (d := 8 * (len / 8)) in *. assert (0 <= d <= len) as Hd by (unfold d; Z.div_mod_to_equations; lia). clearbody d.
  assert (exists z' d', (if 4 <=? len - d then x ← diff_word a b pos d z; Some (x, d + 4) else Some (z, d)) = Some (z', d') /\ 0 <= d' <= len /\ (z' = 0 <-> same 0 d')) as (z' & d' & -> & Hd' & Hz').
  { destruct (Z.leb_spec 4 (len - d)); [|by exists z, d]. destruct (diff_word_spec d z) as (z' & -> & Hz'); [lia|lia|]. exists z', (d + 4). split; [done|]. split; [lia|].
    rewrite (same_join 0 d), <- Hz by lia. done. }
  cbn [mbind option_bind]. match goal with |- context [for_up d' len ?body z'] =>
    destruct (for_up_rule (fun i acc => acc = 0 <-> same 0 i) d' len body z') as (r & -> & Hr) end; [lia|done| |].
  { intros i acc Hi Hacc. destruct (rd_is_Some a i) as [u Hu]; [lia|]. destruct (rd_is_Some b (pos + i)) as [v Hv]; [lia|]. rewrite Hu, Hv. cbn [mbind option_bind].
    eexists. split; [done|]. rewrite or_xor_zero, Hacc, (same_join 0 i (i + 1)) by lia. enough (same i (i + 1) <-> u = v) by tauto.
    unfold same. split; [intros H; specialize (H i ltac:(lia)); congruence|]. intros -> n Hn. replace n with i by lia. congruence. }
  cbn [mbind option_bind]. eexists. split; [done|].
  assert ((if r =? 0 then 0 else 1) = 0 <-> r = 0) as -> by (destruct (Z.eqb_spec r 0); lia). rewrite Hr.
  replace len with (0 + len) at 1 by lia. apply same_bytes; [lia|lia|by rewrite rd_bytes_0 by lia|rewrite rd_bytes_Some by lia; by rewrite Z.add_0_r].
Qed.
End compare.
