(* ===== verification/SrtpSession.v ===== *)
(** * SRTP sessions (libsrtp [srtp/srtp.c], [include/srtp_priv.h])

    A session holds streams and a template; the ciphers, authentication objects and key limits
    of a stream made from the template are those of the template, so they live in a store and
    the streams hold their addresses.  An operation works on a packet, the session and the
    store: [M], with early returns as errors. *)

From S2P Require Import Prelude Bytes Words BitVector Window Rdb Rdbx KeyLimit Sha1 SrtpAuth SrtpCipher SrtpHeader.
Import SrtpHeader.
Open Scope Z_scope.

(** ** Data *)

Inductive direction_t := dir_unknown | dir_srtp_sender | dir_srtp_receiver.
#[export] Instance direction_eq : EqDecision direction_t. Proof. solve_decision. Defined.

Inductive srtp_event_t := event_ssrc_collision | event_key_soft_limit | event_key_hard_limit | event_packet_index_limit.

Definition sec_serv_conf : Z := 1.
Definition sec_serv_auth : Z := 2.
Definition sec_serv_conf_and_auth : Z := 3.

(** Addresses in the store. *)
Abbreviation addr := nat (only parsing).

Record srtp_session_keys_t := Session_keys {
  rtp_cipher : addr; rtp_xtn_hdr_cipher : option addr; rtp_auth : addr; rtcp_cipher : addr; rtcp_auth : addr;
  salt : list Z; c_salt : list Z;
  mki_id : list Z; mki_size : Z; (* unsigned int *)
  limit : addr }.

#[export] Instance session_keys_eta : RecordEta srtp_session_keys_t := fun k =>
  Session_keys (rtp_cipher k) (rtp_xtn_hdr_cipher k) (rtp_auth k) (rtcp_cipher k) (rtcp_auth k) (salt k) (c_salt k) (mki_id k) (mki_size k) (limit k).

Record srtp_stream_ctx_t := Stream {
  ssrc : Z; (* in network order *)
  session_keys : list srtp_session_keys_t; num_master_keys : Z;
  rtp_rdbx : srtp_rdbx_t; rtp_services : Z; rtcp_rdb : srtp_rdb_t; rtcp_services : Z;
  direction : direction_t; allow_repeat_tx : bool;
  enc_xtn_hdr : list Z; enc_xtn_hdr_count : Z; use_cryptex : bool;
  pending_roc : Z }.

#[export] Instance stream_eta : RecordEta srtp_stream_ctx_t := fun s =>
  Stream (ssrc s) (session_keys s) (num_master_keys s) (rtp_rdbx s) (rtp_services s) (rtcp_rdb s) (rtcp_services s) (direction s) (allow_repeat_tx s)
    (enc_xtn_hdr s) (enc_xtn_hdr_count s) (use_cryptex s) (pending_roc s).

Record srtp_ctx_t := Ctx { stream_list : list srtp_stream_ctx_t; stream_template : option srtp_stream_ctx_t }.

#[export] Instance ctx_eta : RecordEta srtp_ctx_t := fun c => Ctx (stream_list c) (stream_template c).

(** A [srtp_stream_ctx_t *]: the n-th stream of the list, or the template. *)
Inductive stream_ptr := Listed (n : nat) | Template.

Section session.
Context {C A : Type}.

(** The packet and its length, the session, the store, the number of allocations so far and the
    events the handler has seen. *)
Record world := World {
  mem : list Z; pkt_octet_len : Z; ctx : srtp_ctx_t;
  ciphers : gmap nat (srtp_cipher_t C); auths : gmap nat (srtp_auth_t A); limits : gmap nat srtp_key_limit_ctx_t;
  allocs : nat; events : list (Z * srtp_event_t) }.

#[export] Instance world_eta : RecordEta world := fun w =>
  World (mem w) (pkt_octet_len w) (ctx w) (ciphers w) (auths w) (limits w) (allocs w) (events w).

(** ** The monad: [None] is undefined behaviour, [inl] an early return. *)

Definition M (X : Type) : Type := world -> option ((srtp_err_status_t + X) * world).

#[export] Instance M_ret : MRet M := fun X x w => Some (inr x, w).
#[export] Instance M_bind : MBind M := fun X Y f m w =>
  match m w with
  | None => None
  | Some (inl st, w) => Some (inl st, w)
  | Some (inr x, w) => f x w
  end.

Definition raise {X} (st : srtp_err_status_t) : M X := fun w => Some (inl st, w).
Definition lift {X} (o : option X) : M X := fun w => x ← o; Some (inr x, w).
Definition gets {X} (f : world -> X) : M X := fun w => Some (inr (f w), w).
Definition modify (f : world -> world) : M unit := fun w => Some (inr tt, f w).
(** A read of the packet. *)
Definition pkt {X} (f : list Z -> option X) : M X := fun w => x ← f (mem w); Some (inr x, w).
Definition set_mem (m : list Z) : M unit := modify (fun w => w <| mem := m |>).

(** [if (status) return status;] and [if (status) return e;] *)
Definition check (st : srtp_err_status_t) : M unit := if decide (st = srtp_err_status_ok) then mret tt else raise st.
Definition check_as (e st : srtp_err_status_t) : M unit := if decide (st = srtp_err_status_ok) then mret tt else raise e.

(** ** Streams *)

Fixpoint find_stream (l : list srtp_stream_ctx_t) (s : Z) (n : nat) : option nat :=
  match l with [] => None | x :: l => if ssrc x =? s then Some n else find_stream l s (S n) end.
Definition srtp_stream_list_get (l : list srtp_stream_ctx_t) (s : Z) : option nat := find_stream l s 0.
Definition srtp_get_stream (c : srtp_ctx_t) (s : Z) : option stream_ptr := Listed <$> srtp_stream_list_get (stream_list c) s.

Definition srtp_stream_list_insert (l : list srtp_stream_ctx_t) (x : srtp_stream_ctx_t) : list srtp_stream_ctx_t := x :: l.

Definition stream_at (c : srtp_ctx_t) (p : stream_ptr) : option srtp_stream_ctx_t :=
  match p with Listed n => stream_list c !! n | Template => stream_template c end.
Definition set_stream (c : srtp_ctx_t) (p : stream_ptr) (x : srtp_stream_ctx_t) : srtp_ctx_t :=
  match p with Listed n => c <| stream_list := <[n := x]> (stream_list c) |> | Template => c <| stream_template := Some x |> end.

Definition get_stream (p : stream_ptr) : M srtp_stream_ctx_t := c ← gets ctx; lift (stream_at c p).
Definition put_stream (p : stream_ptr) (x : srtp_stream_ctx_t) : M unit := modify (fun w => w <| ctx := set_stream (ctx w) p x |>).

(** ** The store: the objects that are allocated, by address *)

Section store.
Context {T : Type} (cell : world -> gmap nat T) (set_cell : gmap nat T -> world -> world).

Definition load (a : addr) : M T := l ← gets cell; lift (l !! a).
Definition store (a : addr) (x : T) : M unit := modify (fun w => set_cell (<[a := x]> (cell w)) w).
End store.

Definition get_cipher : addr -> M (srtp_cipher_t C) := load ciphers.
Definition put_cipher : addr -> srtp_cipher_t C -> M unit := store ciphers (fun l w => w <| ciphers := l |>).
Definition get_auth : addr -> M (srtp_auth_t A) := load auths.
Definition put_auth : addr -> srtp_auth_t A -> M unit := store auths (fun l w => w <| auths := l |>).
Definition get_limit : addr -> M srtp_key_limit_ctx_t := load limits.
Definition put_limit : addr -> srtp_key_limit_ctx_t -> M unit := store limits (fun l w => w <| limits := l |>).

(** ** Events *)

Definition ntohl (x : Z) : Z := get_be (Sha1.le32 x).
(** With a handler installed. *)
Definition srtp_handle_event (s : srtp_stream_ctx_t) (e : srtp_event_t) : M unit := modify (fun w => w <| events := events w ++ [(ntohl (ssrc s), e)] |>).

(** ** New streams *)

(** Whether the [n]-th allocation of the program succeeds. *)
Context (alloc_ok : nat -> bool).

Definition alloc : M bool := fun w => Some (inr (alloc_ok (allocs w)), w <| allocs := S (allocs w) |>).

(** The keys of the new stream: the addresses of the template's objects, a copy of the MKI. *)
Fixpoint clone_keys (l : list srtp_session_keys_t) : M (list srtp_session_keys_t) :=
  match l with
  | [] => mret []
  | k :: l =>
      ok ← (if mki_size k =? 0 then mret true else alloc);
      if negb ok then raise srtp_err_status_init_fail else
      id ← (if mki_size k =? 0 then mret [] else lift (rd_bytes (mki_id k) 0 (mki_size k)));
      let '(status, lim) := srtp_key_limit_clone (Some (limit k)) None in
      _ ← check status; lim ← lift lim;
      l ← clone_keys l;
      mret (Session_keys (rtp_cipher k) (rtp_xtn_hdr_cipher k) (rtp_auth k) (rtcp_cipher k) (rtcp_auth k) (salt k) (c_salt k) id (mki_size k) lim :: l)
  end.

(** On failure the new stream is freed, and nothing of the template is. *)
Definition srtp_stream_clone (t : srtp_stream_ctx_t) (s : Z) : M srtp_stream_ctx_t :=
  ok ← alloc;
  if negb ok then raise srtp_err_status_alloc_fail else
  ok ← alloc;
  if negb ok then raise srtp_err_status_alloc_fail else
  keys ← clone_keys (session_keys t);
  ok ← alloc;
  '(status, x) ← lift (srtp_rdbx_init (fun _ => ok) (srtp_rdbx_get_window_size (rtp_rdbx t)));
  _ ← check status; x ← lift x;
  mret (Stream s keys (num_master_keys t) x (rtp_services t) (snd srtp_rdb_init) (rtcp_services t) (direction t) (allow_repeat_tx t)
    (enc_xtn_hdr t) (enc_xtn_hdr_count t) (use_cryptex t) 0).

(** Insertion into the list does not fail; the new stream is its head. *)
Definition srtp_insert_or_dealloc_stream (x : srtp_stream_ctx_t) : M stream_ptr :=
  _ ← modify (fun w => w <| ctx := (ctx w) <| stream_list := srtp_stream_list_insert (stream_list (ctx w)) x |> |>);
  mret (Listed 0).

(** ** Keys *)

(** [i]: the index of the master key. *)
Definition keys_at (s : srtp_stream_ctx_t) (i : Z) : option srtp_session_keys_t := rd (session_keys s) i.

Definition srtp_get_session_keys_with_mki_index (s : srtp_stream_ctx_t) (use_mki : bool) (mki_index : Z) : option (option srtp_session_keys_t) :=
  if use_mki then
    if num_master_keys s <=? mki_index then Some None else k ← keys_at s mki_index; Some (Some k)
  else k ← keys_at s 0; Some (Some k).

(** The MKI is written in front of the tag; its size. *)
Definition srtp_inject_mki (mki_tag_location : Z) (k : srtp_session_keys_t) (use_mki : bool) : M Z :=
  if use_mki then
    if negb (mki_size k =? 0) then
      id ← lift (rd_bytes (mki_id k) 0 (mki_size k));
      m ← pkt (fun m => wr_bytes m mki_tag_location id); _ ← set_mem m; mret (mki_size k)
    else mret 0
  else mret 0.

Section lookup.
Context (s : srtp_stream_ctx_t) (hdr : list Z) (base_mki_start_location : Z).

(** The keys whose MKI stands at the end of the packet, and its size. *)
Fixpoint find_keys (n : nat) (i : Z) : option (option srtp_session_keys_t * Z) :=
  match n with
  | O => Some (None, 0)
  | S n =>
      k ← keys_at s i;
      if negb (mki_size k =? 0) && (mki_size k <=? base_mki_start_location) then
        x ← rd_bytes hdr (base_mki_start_location - mki_size k) (mki_size k);
        y ← rd_bytes (mki_id k) 0 (mki_size k);
        if bool_decide (x = y) then Some (Some k, mki_size k) else find_keys n (i + 1)
      else find_keys n (i + 1)
  end.
End lookup.

Definition srtp_get_session_keys (s : srtp_stream_ctx_t) (hdr : list Z) (pkt_len tag_len : Z) : option (option srtp_session_keys_t * Z) :=
  if pkt_len <? tag_len then Some (None, 0) else find_keys s hdr (pkt_len - tag_len) (Z.to_nat (num_master_keys s)) 0.

Definition SRTP_AES_GCM_128 : Z := 6.
Definition SRTP_AES_GCM_256 : Z := 7.
Definition is_gcm (c : srtp_cipher_t C) : bool := (algorithm c =? SRTP_AES_GCM_128) || (algorithm c =? SRTP_AES_GCM_256).

Definition srtp_get_session_keys_rtp (s : srtp_stream_ctx_t) (pkt_len : Z) : M (option srtp_session_keys_t * Z) :=
  k0 ← lift (keys_at s 0);
  c ← get_cipher (rtp_cipher k0);
  tag_len ← (if is_gcm c then mret 0 else a ← get_auth (rtp_auth k0); mret (u32 (srtp_auth_get_tag_length a)));
  pkt (fun m => srtp_get_session_keys s m pkt_len tag_len).

Definition srtp_get_session_keys_rtcp (s : srtp_stream_ctx_t) (pkt_len : Z) : M (option srtp_session_keys_t * Z) :=
  k0 ← lift (keys_at s 0);
  c ← get_cipher (rtcp_cipher k0);
  tag_len ← (if is_gcm c then mret 0 else a ← get_auth (rtcp_auth k0); mret (u32 (srtp_auth_get_tag_length a)));
  pkt (fun m => srtp_get_session_keys s m pkt_len tag_len).

(** ** Packet indices *)

(** Status, estimate, difference. *)
Definition srtp_estimate_index (x : srtp_rdbx_t) (roc seq : Z) : srtp_err_status_t * Z * Z :=
  let est := Z.lor (u64 (Z.shiftl roc 16)) seq in
  let delta := i32 (u32 (est - index x)) in
  if index x <? est then
    if seq_num_median <? u64 (est - index x) then (srtp_err_status_pkt_idx_adv, est, 0) else (srtp_err_status_ok, est, delta)
  else if est <? index x then
    if seq_num_median <? u64 (index x - est) then (srtp_err_status_pkt_idx_old, est, 0) else (srtp_err_status_ok, est, delta)
  else (srtp_err_status_ok, est, delta).

Definition srtp_get_est_pkt_index (m : list Z) (s : srtp_stream_ctx_t) : option (srtp_err_status_t * Z * Z) :=
  seq ← hdr_seq m;
  if negb (pending_roc s =? 0) then Some (srtp_estimate_index (rtp_rdbx s) (pending_roc s) seq)
  else let '(est, delta) := srtp_rdbx_estimate_index (rtp_rdbx s) seq in Some (srtp_err_status_ok, est, delta).

End session.
Arguments world : clear implicits.
Arguments M : clear implicits.
