(* ===== verification/SrtpParts.v ===== *)
(** * Parts that the protection functions share (libsrtp [srtp/srtp.c])

    Calls on the objects of a key, the checks of a stream, header encryption, replay databases
    and the streams of a packet, as the functions for RTP and for AEAD ciphers use them; and
    protection and unprotection with AEAD ciphers. *)

From S2P Require Import Prelude Bytes BitVector Window Rdb Rdbx KeyLimit Words Sha1 SrtpAuth Aes SrtpCipher SrtpHeader SrtpSession.
Import SrtpHeader.
Open Scope Z_scope.

Definition SRTP_MAX_TAG_LEN : Z := 16.
Definition SRTP_AES_ICM_192 : Z := 4.

Section srtp.
Context {C A : Type} {TC : CipherType C} {TA : AuthType A} (alloc_ok : nat -> bool).
Abbreviation M := (SrtpSession.M C A).

(** ** Calls on the objects of a key *)

(** A cipher function on the object at [a], in the memory of the packet. *)
Definition cipher_set_iv (a : nat) (iv : list Z) (d : srtp_cipher_direction_t) : M srtp_err_status_t :=
  c ← get_cipher a; '(st, c) ← lift (srtp_cipher_set_iv (Some c) iv d); c ← lift c; _ ← put_cipher a c; mret st.
Definition cipher_encrypt (a : nat) (pos n : Z) : M srtp_err_status_t :=
  c ← get_cipher a; m ← gets mem; '(st, m, c) ← lift (srtp_cipher_encrypt (Some c) m pos n); c ← lift c;
  _ ← put_cipher a c; _ ← set_mem m; mret st.
Definition cipher_decrypt (a : nat) (pos n : Z) : M srtp_err_status_t :=
  c ← get_cipher a; m ← gets mem; '(st, m, c) ← lift (srtp_cipher_decrypt (Some c) m pos n); c ← lift c;
  _ ← put_cipher a c; _ ← set_mem m; mret st.
(** Key stream into a buffer of its own. *)
Definition cipher_output (a : nat) (buf : list Z) (pos n : Z) : M (srtp_err_status_t * list Z) :=
  c ← get_cipher a; '(st, buf, c) ← lift (srtp_cipher_output (Some c) buf pos n); c ← lift c; _ ← put_cipher a c; mret (st, buf).

Definition cipher_set_aad (a : nat) (aad : list Z) (n : Z) : M srtp_err_status_t :=
  c ← get_cipher a; '(st, c) ← lift (srtp_cipher_set_aad (Some c) aad n); c ← lift c; _ ← put_cipher a c; mret st.
(** The tag goes to [pos]; its length may change. *)
Definition cipher_get_tag (a : nat) (pos tag_len : Z) : M (srtp_err_status_t * Z) :=
  c ← get_cipher a; m ← gets mem;
  '(st, res, tag_len, c) ← lift (srtp_cipher_get_tag (Some c) (drop (Z.to_nat pos) m) tag_len); c ← lift c;
  _ ← put_cipher a c; _ ← set_mem (take (Z.to_nat pos) m ++ res); mret (st, tag_len).

Definition auth_start (a : nat) : M srtp_err_status_t :=
  x ← get_auth a; '(st, x) ← lift (srtp_auth_start x); _ ← put_auth a x; mret st.
Definition auth_update (a : nat) (buf : list Z) (n : Z) : M srtp_err_status_t :=
  x ← get_auth a; '(st, x) ← lift (srtp_auth_update x buf n); _ ← put_auth a x; mret st.
Definition auth_compute (a : nat) (buf : list Z) (n : Z) (res : list Z) : M (srtp_err_status_t * list Z) :=
  x ← get_auth a; '(st, res, x) ← lift (srtp_auth_compute x buf n res); _ ← put_auth a x; mret (st, res).

(** ** Parts that both functions share *)

(** The direction of the stream, and a collision otherwise. *)
Definition check_direction (p : stream_ptr) (d : direction_t) : M unit :=
  s ← get_stream p;
  if bool_decide (direction s = d) then mret tt
  else if bool_decide (direction s = dir_unknown) then put_stream p (s <| direction := d |>)
  else srtp_handle_event s event_ssrc_collision.

(** The switch over [srtp_key_limit_update]. *)
Definition use_limit (p : stream_ptr) (k : srtp_session_keys_t) : M unit :=
  x ← get_limit (limit k);
  let '(event, x) := srtp_key_limit_update x in
  _ ← put_limit (limit k) x; s ← get_stream p;
  match event with
  | srtp_key_event_normal => mret tt
  | srtp_key_event_soft_limit => srtp_handle_event s event_key_soft_limit
  | srtp_key_event_hard_limit => _ ← srtp_handle_event s event_key_hard_limit; raise srtp_err_status_key_expired
  end.

(** [est << 16] as it lies in memory. *)
Definition est_octets (est : Z) : list Z := be64 (u64 (Z.shiftl est 16)).

(** The type of a cipher has the identifier that its allocation stored. *)
Definition is_icm (c : srtp_cipher_t C) : bool :=
  (algorithm c =? SRTP_AES_ICM_128) || (algorithm c =? SRTP_AES_ICM_192) || (algorithm c =? SRTP_AES_ICM_256).

Definition packet_iv (icm : bool) (ssrc est : Z) : list Z :=
  if icm then [0; 0; 0; 0] ++ Sha1.le32 ssrc ++ est_octets est else replicate 8 0 ++ be64 est.

Definition set_iv (k : srtp_session_keys_t) (est : Z) (d : srtp_cipher_direction_t) : M unit :=
  c ← get_cipher (rtp_cipher k);
  ssrc ← pkt hdr_ssrc;
  let iv := packet_iv (is_icm c) ssrc est in
  status ← cipher_set_iv (rtp_cipher k) iv d;
  status ← match rtp_xtn_hdr_cipher k with
           | Some x => if decide (status = srtp_err_status_ok) then cipher_set_iv x iv d else mret status
           | None => mret status
           end;
  check_as srtp_err_status_cipher_fail status.

Definition srtp_cryptex_protect_init (s : srtp_stream_ctx_t) (enc_start : Z) : M (bool * Z) :=
  cc ← pkt hdr_cc; x ← pkt hdr_x;
  if use_cryptex s && negb (Z.land (rtp_services s) sec_serv_conf =? 0) then
    if negb (cc =? 0) && (x =? 0) then raise srtp_err_status_cryptex_err
    else if x =? 1 then e ← pkt (fun m => cryptex_enc_start m enc_start); mret (true, e) else mret (false, enc_start)
  else mret (false, enc_start).

Definition srtp_cryptex_unprotect_init (s : srtp_stream_ctx_t) (enc_start : Z) : M (bool * Z) :=
  x ← pkt hdr_x;
  if use_cryptex s && (x =? 1) then
    profile ← pkt srtp_get_rtp_hdr_xtnd_profile;
    if (profile =? cryptex_one_byte_profile) || (profile =? cryptex_two_byte_profile)
    then e ← pkt (fun m => cryptex_enc_start m enc_start); mret (true, e) else mret (false, enc_start)
  else mret (false, enc_start).

(** ** Encryption of header extensions (RFC 6904) *)

Definition srtp_protect_extension_header (s : srtp_stream_ctx_t) (id : Z) : bool :=
  bool_decide (id ∈ take (Z.to_nat (enc_xtn_hdr_count s)) (enc_xtn_hdr s)).

(** [*xtn_hdr_data++ ^= keystream\[pos++\]], [n] times; the memory and the new offset. *)
Definition xor_element (keystream : list Z) (pos : Z) (m : list Z) (data n : Z) : option (list Z) :=
  for_up 0 n (fun i m => x ← rd m (data + i); k ← rd keystream (pos + i); wr m (data + i) (Z.lxor x k)) m.

(** [fuel]: the padding ends at [end_]. *)
Fixpoint skip_padding (fuel : nat) (m : list Z) (data end_ : Z) : option Z :=
  match fuel with
  | O => Some data
  | S fuel => if data <? end_ then x ← rd m data; if x =? 0 then skip_padding fuel m (data + 1) end_ else Some data else Some data
  end.

(** One element, with its header of [h] octets: where the next one starts. *)
Definition process_element (s : srtp_stream_ctx_t) (cipher : nat) (keystream : list Z) (h xid xlen data end_ : Z) : M Z :=
  '(status, keystream) ← cipher_output cipher keystream 0 (h + xlen);
  _ ← check_as srtp_err_status_cipher_fail status;
  _ ← (if (0 <? xlen) && srtp_protect_extension_header s xid
       then m ← pkt (fun m => xor_element keystream h m data xlen); set_mem m else mret tt);
  pkt (fun m => skip_padding (Z.to_nat (end_ - (data + xlen))) m (data + xlen) end_).

Fixpoint one_byte_elements (fuel : nat) (s : srtp_stream_ctx_t) (cipher : nat) (keystream : list Z) (data end_ : Z) : M unit :=
  match fuel with
  | O => mret tt
  | S fuel =>
      if end_ <=? data then mret tt else
      b ← pkt (fun m => rd m data);
      let xid := Z.shiftr (Z.land b 0xf0) 4 in
      let xlen := Z.land b 0xf + 1 in
      let data := data + 1 in
      if end_ <? data + xlen then raise srtp_err_status_parse_err else
      if xid =? 15 then mret tt else
      data ← process_element s cipher keystream 1 xid xlen data end_; one_byte_elements fuel s cipher keystream data end_
  end.

Fixpoint two_byte_elements (fuel : nat) (s : srtp_stream_ctx_t) (cipher : nat) (keystream : list Z) (data end_ : Z) : M unit :=
  match fuel with
  | O => mret tt
  | S fuel =>
      if end_ <=? data + 1 then mret tt else
      xid ← pkt (fun m => rd m data); xlen ← pkt (fun m => rd m (data + 1));
      let data := data + 2 in
      if end_ <? data + xlen then raise srtp_err_status_parse_err else
      data ← process_element s cipher keystream 2 xid xlen data end_; two_byte_elements fuel s cipher keystream data end_
  end.

(** [keystream]: the uninitialised array of 257 octets.  Every element takes an octet at least,
    so the length of the extension is enough fuel. *)
Definition srtp_process_header_encryption (keystream : list Z) (s : srtp_stream_ctx_t) (xtn_hdr : Z) (cipher : nat) : M unit :=
  n ← pkt (fun m => get16 m (xtn_hdr + 2));
  profile ← pkt (fun m => get16 m xtn_hdr);
  let data := xtn_hdr + octets_in_rtp_xtn_hdr in
  let end_ := data + n * 4 in
  if profile =? 0xbede then one_byte_elements (Z.to_nat (n * 4)) s cipher keystream data end_
  else if Z.land profile 0xfff0 =? 0x1000 then two_byte_elements (Z.to_nat (n * 4)) s cipher keystream data end_
  else raise srtp_err_status_parse_err.

(** [if (xtn_hdr && session_keys->rtp_xtn_hdr_cipher)] *)
Definition header_encryption (keystream : list Z) (s : srtp_stream_ctx_t) (xtn_hdr : option Z) (k : srtp_session_keys_t) : M unit :=
  match xtn_hdr, rtp_xtn_hdr_cipher k with
  | Some x, Some c => srtp_process_header_encryption keystream s x c
  | _, _ => mret tt
  end.

(** ** Streams and indices of a sender *)

(** The stream of the packet, or a new one from the template. *)
Definition sender_stream (ssrc : Z) : M stream_ptr :=
  c ← gets ctx;
  match srtp_get_stream c ssrc with
  | Some p => mret p
  | None =>
      match stream_template c with
      | Some t =>
          x ← srtp_stream_clone alloc_ok t ssrc; p ← srtp_insert_or_dealloc_stream x;
          s ← get_stream p; _ ← put_stream p (s <| direction := dir_srtp_sender |>); mret p
      | None => raise srtp_err_status_no_ctx
      end
  end.

(** The index of the packet goes into the replay database. *)
Definition protect_index (p : stream_ptr) : M Z :=
  s ← get_stream p;
  '(status, est, delta) ← pkt (fun m => srtp_get_est_pkt_index m s);
  if negb (bool_decide (status = srtp_err_status_ok)) && negb (bool_decide (status = srtp_err_status_pkt_idx_adv)) then raise status else
  if bool_decide (status = srtp_err_status_pkt_idx_adv) then
    '(_, x) ← lift (srtp_rdbx_set_roc_seq (rtp_rdbx s) (u32 (Z.shiftr est 16)) (Z.land est 0xffff));
    '(_, x) ← lift (srtp_rdbx_add_index x 0);
    _ ← put_stream p (s <| rtp_rdbx := x |> <| pending_roc := 0 |>); mret est
  else
    status ← lift (srtp_rdbx_check (rtp_rdbx s) delta);
    _ ← (if decide (status = srtp_err_status_ok) then mret tt
         else if negb (bool_decide (status = srtp_err_status_replay_fail)) || negb (allow_repeat_tx s) then raise status else mret tt);
    '(_, x) ← lift (srtp_rdbx_add_index (rtp_rdbx s) delta);
    _ ← put_stream p (s <| rtp_rdbx := x |>); mret est.

(** ** Streams and indices of a receiver *)

(** The stream, or the template as a provisional one; the estimated index, its difference and
    whether a rollover counter set by the application is used. *)
Definition receiver_stream (ssrc : Z) : M (stream_ptr * Z * Z * bool) :=
  c ← gets ctx;
  match srtp_get_stream c ssrc with
  | None =>
      match stream_template c with
      | Some _ => seq ← pkt hdr_seq; mret (Template, seq, seq, false)
      | None => raise srtp_err_status_no_ctx
      end
  | Some p =>
      s ← get_stream p;
      '(status, est, delta) ← pkt (fun m => srtp_get_est_pkt_index m s);
      if negb (bool_decide (status = srtp_err_status_ok)) && negb (bool_decide (status = srtp_err_status_pkt_idx_adv)) then raise status else
      if bool_decide (status = srtp_err_status_pkt_idx_adv) then mret (p, est, delta, true)
      else status ← lift (srtp_rdbx_check (rtp_rdbx s) delta); _ ← check status; mret (p, est, delta, false)
  end.

Definition receiver_keys (s : srtp_stream_ctx_t) (use_mki : bool) : M (srtp_session_keys_t * Z) :=
  if use_mki then
    len ← gets pkt_octet_len; '(k, n) ← srtp_get_session_keys_rtp s (u32 len);
    match k with Some k => mret (k, n) | None => raise srtp_err_status_bad_mki end
  else k ← lift (keys_at s 0); mret (k, 0).

(** A provisional stream becomes a stream of its own. *)
Definition receiver_commit (p : stream_ptr) (ssrc : Z) : M stream_ptr :=
  match p with
  | Listed _ => mret p
  | Template => t ← get_stream Template; x ← srtp_stream_clone alloc_ok t ssrc; srtp_insert_or_dealloc_stream x
  end.

Definition receiver_index (p : stream_ptr) (est delta : Z) (advance_packet_index : bool) : M unit :=
  s ← get_stream p;
  if advance_packet_index then
    '(_, x) ← lift (srtp_rdbx_set_roc_seq (rtp_rdbx s) (u32 (Z.shiftr est 16)) (Z.land est 0xffff));
    '(_, x) ← lift (srtp_rdbx_add_index x 0);
    put_stream p (s <| rtp_rdbx := x |> <| pending_roc := 0 |>)
  else
    '(_, x) ← lift (srtp_rdbx_add_index (rtp_rdbx s) delta);
    put_stream p (s <| rtp_rdbx := x |>).
End srtp.

(** ** AEAD packets (RFC 7714) *)

Definition SRTP_AEAD_SALT_LEN : Z := 12.

(** The IV: zeros, SSRC, rollover counter and sequence number, XOR the salt of the key. *)
Definition srtp_calc_aead_iv (k : srtp_session_keys_t) (est ssrc : Z) : option (list Z) :=
  let local_roc := u32 (Z.shiftr est 16) in
  let local_seq := u16 est in
  s ← rd_bytes (salt k) 0 SRTP_AEAD_SALT_LEN;
  Some (Aes.v128_xor ([0; 0] ++ Sha1.le32 ssrc ++ be32 local_roc ++ be16 local_seq ++ replicate 4 0) (s ++ replicate 4 0)).

Section aead.
Context {C A : Type} {TC : CipherType C} {TA : AuthType A} (alloc_ok : nat -> bool) (junk : list Z).
Abbreviation M := (SrtpSession.M C A).

(** The IVs of the cipher and of the cipher for the extension, whose direction is always that of
    encryption. *)
Definition aead_set_iv (k : srtp_session_keys_t) (est : Z) (d : srtp_cipher_direction_t) : M unit :=
  ssrc ← pkt hdr_ssrc;
  iv ← lift (srtp_calc_aead_iv k est ssrc);
  status ← cipher_set_iv (rtp_cipher k) iv d;
  status ← match rtp_xtn_hdr_cipher k with
           | Some x => if decide (status = srtp_err_status_ok) then cipher_set_iv x (packet_iv true ssrc est) srtp_direction_encrypt else mret status
           | None => mret status
           end;
  check_as srtp_err_status_cipher_fail status.

(** Where the payload starts, how long it is, the extension and whether Cryptex is used. *)
Definition aead_protect_range (s : srtp_stream_ctx_t) : M (Z * Z * option Z * bool) :=
  '(enc_start, xtn_hdr) ← pkt payload_start;
  '(cryptex_inuse, enc_start) ← srtp_cryptex_protect_init s enc_start;
  len ← gets pkt_octet_len;
  if negb (enc_start <=? u32 len) then raise srtp_err_status_parse_err else
  let enc_octet_len := i32 (u32 (u32 len - enc_start)) in
  if enc_octet_len <? 0 then raise srtp_err_status_parse_err else
  mret (enc_start, enc_octet_len, xtn_hdr, cryptex_inuse).

Definition srtp_protect_aead (p : stream_ptr) (k : srtp_session_keys_t) (use_mki : bool) : M unit :=
  _ ← use_limit p k;
  a ← get_auth (rtp_auth k);
  let tag_len := u32 (srtp_auth_get_tag_length a) in
  s ← get_stream p;
  '(enc_start, enc_octet_len, xtn_hdr, cryptex_inuse) ← aead_protect_range s;
  est ← protect_index p;
  _ ← aead_set_iv k est srtp_direction_encrypt;
  _ ← header_encryption junk s xtn_hdr k;
  _ ← (if (cryptex_inuse : bool) then '(status, m) ← pkt SrtpHeader.srtp_cryptex_protect; _ ← set_mem m; check status else mret tt);
  m ← gets mem; status ← cipher_set_aad (rtp_cipher k) m enc_start; _ ← check_as srtp_err_status_cipher_fail status;
  status ← cipher_encrypt (rtp_cipher k) enc_start enc_octet_len; _ ← check_as srtp_err_status_cipher_fail status;
  '(status, tag_len) ← cipher_get_tag (rtp_cipher k) (enc_start + enc_octet_len) tag_len; _ ← check_as srtp_err_status_cipher_fail status;
  len ← gets pkt_octet_len;
  mki_size ← srtp_inject_mki (u32 len + tag_len) k use_mki;
  _ ← (if (cryptex_inuse : bool) then m ← pkt srtp_cryptex_protect_cleanup; set_mem m else mret tt);
  modify (fun w => w <| pkt_octet_len := i32 (u32 (u32 (u32 len + tag_len) + mki_size)) |>).

Definition aead_unprotect_range (s : srtp_stream_ctx_t) (tag_len mki_size : Z) : M (Z * Z * option Z * bool) :=
  '(enc_start, xtn_hdr) ← pkt payload_start;
  '(cryptex_inuse, enc_start) ← srtp_cryptex_unprotect_init s enc_start;
  len ← gets pkt_octet_len;
  if negb (enc_start <=? u32 (len - tag_len - mki_size)) then raise srtp_err_status_parse_err else
  let enc_octet_len := u32 (u32 (len - mki_size) - enc_start) in
  if enc_octet_len <? u32 tag_len then raise srtp_err_status_cipher_fail else
  mret (enc_start, enc_octet_len, xtn_hdr, cryptex_inuse).

(** The cipher checks the tag behind the payload when it decrypts. *)
Definition srtp_unprotect_aead (p : stream_ptr) (delta est : Z) (k : srtp_session_keys_t) (mki_size : Z) (advance_packet_index : bool) : M unit :=
  a ← get_auth (rtp_auth k);
  let tag_len := srtp_auth_get_tag_length a in
  _ ← aead_set_iv k est srtp_direction_decrypt;
  s ← get_stream p;
  '(enc_start, enc_octet_len, xtn_hdr, cryptex_inuse) ← aead_unprotect_range s tag_len mki_size;
  _ ← use_limit p k;
  _ ← (if (cryptex_inuse : bool) then '(status, m) ← pkt SrtpHeader.srtp_cryptex_unprotect; _ ← set_mem m; check status else mret tt);
  m ← gets mem; status ← cipher_set_aad (rtp_cipher k) m enc_start; _ ← check_as srtp_err_status_cipher_fail status;
  status ← cipher_decrypt (rtp_cipher k) enc_start enc_octet_len; _ ← check status;
  _ ← header_encryption junk s xtn_hdr k;
  _ ← (if (cryptex_inuse : bool) then m ← pkt srtp_cryptex_unprotect_cleanup; set_mem m else mret tt);
  _ ← check_direction p dir_srtp_receiver;
  ssrc ← pkt hdr_ssrc;
  p ← receiver_commit alloc_ok p ssrc;
  _ ← receiver_index p est delta advance_packet_index;
  len ← gets pkt_octet_len;
  modify (fun w => w <| pkt_octet_len := i32 (u32 (u32 (len - tag_len) - mki_size)) |>).
End aead.
