(* ===== verification/SrtpProtect.v ===== *)
(** * Protecting and unprotecting RTP packets (libsrtp [srtp/srtp.c])

    [srtp_protect_mki] and [srtp_unprotect_mki], cut into the parts of their bodies; streams with
    an AEAD cipher are handed to the functions at the end of [SrtpParts]. *)

From S2P Require Import Prelude Bytes Words BitVector Window Rdb Rdbx KeyLimit Sha1 SrtpAuth SrtpCipher SrtpHeader SrtpSession SrtpParts.
Import SrtpHeader.
Open Scope Z_scope.

Section srtp.
Context {C A : Type} {TC : CipherType C} {TA : AuthType A} (alloc_ok : nat -> bool).
Abbreviation M := (SrtpSession.M C A).

(** [junk] is the uninitialised key stream of the extension, [tmp_tag] that of the computed tag. *)
Context (junk tmp_tag : list Z).

(** ** Protection *)

(** What is encrypted: from where, how much, the extension and whether Cryptex is used. *)
Definition protect_range (s : srtp_stream_ctx_t) : M (option (Z * Z) * option Z * bool) :=
  if Z.land (rtp_services s) sec_serv_conf =? 0 then mret (None, None, false) else
  '(enc_start, xtn_hdr) ← pkt payload_start;
  '(cryptex_inuse, enc_start) ← srtp_cryptex_protect_init s enc_start;
  len ← gets pkt_octet_len;
  if negb (enc_start <=? len) then raise srtp_err_status_parse_err else
  let enc_octet_len := i32 (u32 (len - enc_start)) in
  if enc_octet_len <? 0 then raise srtp_err_status_parse_err else
  mret (Some (enc_start, enc_octet_len), xtn_hdr, cryptex_inuse).

(** The key stream prefix of a universal hash. *)
Definition protect_prefix (k : srtp_session_keys_t) (auth_tag : Z) : M unit :=
  a ← get_auth (rtp_auth k);
  let prefix_len := u32 (srtp_auth_get_prefix_length a) in
  if prefix_len =? 0 then mret tt else
  m ← gets mem; '(status, m) ← cipher_output (rtp_cipher k) m auth_tag prefix_len; _ ← set_mem m;
  check_as srtp_err_status_cipher_fail status.

Definition protect_payload (s : srtp_stream_ctx_t) (k : srtp_session_keys_t) (enc : option (Z * Z)) (xtn_hdr : option Z) (cryptex_inuse : bool) : M unit :=
  _ ← header_encryption junk s xtn_hdr k;
  _ ← (if cryptex_inuse then '(status, m) ← pkt srtp_cryptex_protect; _ ← set_mem m; check status else mret tt);
  _ ← match enc with
      | Some (enc_start, n) => status ← cipher_encrypt (rtp_cipher k) enc_start n; check_as srtp_err_status_cipher_fail status
      | None => mret tt
      end;
  if cryptex_inuse then m ← pkt srtp_cryptex_protect_cleanup; set_mem m else mret tt.

(** The tag over the packet and the rollover counter. *)
Definition protect_tag (k : srtp_session_keys_t) (est auth_tag : Z) : M unit :=
  status ← auth_start (rtp_auth k); _ ← check status;
  len ← gets pkt_octet_len; m ← gets mem; b ← lift (rd_bytes m 0 len);
  status ← auth_update (rtp_auth k) b len; _ ← check status;
  '(status, res) ← auth_compute (rtp_auth k) (take 4 (est_octets est)) 4 (drop (Z.to_nat auth_tag) m);
  _ ← set_mem (take (Z.to_nat auth_tag) m ++ res);
  check_as srtp_err_status_auth_fail status.

Definition srtp_protect_mki (use_mki : bool) (mki_index : Z) : M unit :=
  len ← gets pkt_octet_len;
  status ← pkt (fun m => srtp_validate_rtp_header m (u32 len)); _ ← check status;
  if len <? octets_in_rtp_header then raise srtp_err_status_bad_param else
  ssrc ← pkt hdr_ssrc;
  p ← sender_stream alloc_ok ssrc;
  _ ← check_direction p dir_srtp_sender;
  s ← get_stream p;
  k ← lift (srtp_get_session_keys_with_mki_index s use_mki mki_index);
  match k with
  | None => raise srtp_err_status_bad_mki
  | Some k =>
      c ← get_cipher (rtp_cipher k);
      if is_gcm c then srtp_protect_aead junk p k use_mki else
      _ ← use_limit p k;
      a ← get_auth (rtp_auth k);
      let tag_len := srtp_auth_get_tag_length a in
      '(enc, xtn_hdr, cryptex_inuse) ← protect_range s;
      mki_size ← srtp_inject_mki len k use_mki;
      let auth_tag := if Z.land (rtp_services s) sec_serv_auth =? 0 then None else Some (len + mki_size) in
      est ← protect_index p;
      _ ← set_iv k est srtp_direction_encrypt;
      _ ← match auth_tag with Some t => protect_prefix k t | None => mret tt end;
      _ ← protect_payload s k enc xtn_hdr cryptex_inuse;
      _ ← match auth_tag with Some t => protect_tag k est t | None => mret tt end;
      let len := match auth_tag with Some _ => i32 (u32 (len + tag_len)) | None => len end in
      let len := if use_mki then i32 (u32 (len + mki_size)) else len in
      modify (fun w => w <| pkt_octet_len := len |>)
  end.

Definition srtp_protect : M unit := srtp_protect_mki false 0.

(** ** Unprotection *)

Definition unprotect_range (s : srtp_stream_ctx_t) (tag_len mki_size : Z) : M (option (Z * Z) * option Z * bool) :=
  if Z.land (rtp_services s) sec_serv_conf =? 0 then mret (None, None, false) else
  '(enc_start, xtn_hdr) ← pkt payload_start;
  '(cryptex_inuse, enc_start) ← srtp_cryptex_unprotect_init s enc_start;
  len ← gets pkt_octet_len;
  if negb (enc_start <=? u32 (len - tag_len - mki_size)) then raise srtp_err_status_parse_err else
  mret (Some (enc_start, u32 (u32 (len - tag_len - mki_size) - enc_start)), xtn_hdr, cryptex_inuse).

(** The tag of the packet is compared with the computed one. *)
Definition check_tag (k : srtp_session_keys_t) (est tag_len mki_size : Z) : M unit :=
  a ← get_auth (rtp_auth k);
  let prefix_len := u32 (srtp_auth_get_prefix_length a) in
  '(status, tmp) ← (if prefix_len =? 0 then mret (srtp_err_status_ok, tmp_tag) else cipher_output (rtp_cipher k) tmp_tag 0 prefix_len);
  _ ← check_as srtp_err_status_cipher_fail status;
  status ← auth_start (rtp_auth k); _ ← check status;
  len ← gets pkt_octet_len; m ← gets mem;
  let n := i32 (u32 (len - tag_len - mki_size)) in
  b ← lift (rd_bytes m 0 n);
  status ← auth_update (rtp_auth k) b n; _ ← check status;
  '(status, tmp) ← auth_compute (rtp_auth k) (take 4 (est_octets est)) 4 tmp;
  _ ← check_as srtp_err_status_auth_fail status;
  ne ← lift (srtp_octet_string_is_eq tmp m (len - tag_len) tag_len);
  if negb (ne =? 0) then raise srtp_err_status_auth_fail else mret tt.

Definition unprotect_payload (s : srtp_stream_ctx_t) (k : srtp_session_keys_t) (enc : option (Z * Z)) (xtn_hdr : option Z) (cryptex_inuse : bool) : M unit :=
  _ ← header_encryption junk s xtn_hdr k;
  _ ← (if cryptex_inuse then '(status, m) ← pkt srtp_cryptex_unprotect; _ ← set_mem m; check status else mret tt);
  _ ← match enc with
      | Some (enc_start, n) => status ← cipher_decrypt (rtp_cipher k) enc_start n; check_as srtp_err_status_cipher_fail status
      | None => mret tt
      end;
  if cryptex_inuse then m ← pkt srtp_cryptex_unprotect_cleanup; set_mem m else mret tt.

Definition srtp_unprotect_mki (use_mki : bool) : M unit :=
  len ← gets pkt_octet_len;
  status ← pkt (fun m => srtp_validate_rtp_header m (u32 len)); _ ← check status;
  if len <? octets_in_rtp_header then raise srtp_err_status_bad_param else
  ssrc ← pkt hdr_ssrc;
  '(p, est, delta, advance_packet_index) ← receiver_stream ssrc;
  s ← get_stream p;
  '(k, mki_size) ← receiver_keys s use_mki;
  c ← get_cipher (rtp_cipher k);
  if is_gcm c then srtp_unprotect_aead alloc_ok junk p delta est k mki_size advance_packet_index else
  a ← get_auth (rtp_auth k);
  let tag_len := u32 (srtp_auth_get_tag_length a) in
  _ ← set_iv k est srtp_direction_decrypt;
  '(enc, xtn_hdr, cryptex_inuse) ← unprotect_range s tag_len mki_size;
  _ ← (if Z.land (rtp_services s) sec_serv_auth =? 0 then mret tt else check_tag k est tag_len mki_size);
  _ ← use_limit p k;
  _ ← unprotect_payload s k enc xtn_hdr cryptex_inuse;
  _ ← check_direction p dir_srtp_receiver;
  p ← receiver_commit alloc_ok p ssrc;
  _ ← receiver_index p est delta advance_packet_index;
  modify (fun w => w <| pkt_octet_len := i32 (u32 (i32 (u32 (len - tag_len)) - mki_size)) |>).

Definition srtp_unprotect : M unit := srtp_unprotect_mki false.
End srtp.
