(* ===== verification/SrtpRtcp.v ===== *)
(** * Protecting and unprotecting RTCP packets (libsrtp [srtp/srtp.c])

    [srtp_protect_rtcp_mki] and [srtp_unprotect_rtcp_mki] with the functions for AEAD streams,
    cut into the parts of their bodies.  A trailer with the E bit and the 31-bit index follows
    the packet; SRTCP always authenticates. *)

From S2P Require Import Prelude Bytes Words BitVector Window Rdb Rdbx KeyLimit Sha1 SrtpAuth Aes SrtpCipher SrtpHeader SrtpSession SrtpParts.
Import SrtpHeader.
Open Scope Z_scope.

Definition octets_in_rtcp_header : Z := 8.
Definition srtcp_trailer_size : Z := 4. (* sizeof(srtcp_trailer_t) *)
Definition SRTCP_E_BIT : Z := 0x80000000.
Definition SRTCP_E_BYTE_BIT : Z := 0x80.
Definition SRTCP_INDEX_MASK : Z := 0x7fffffff.

(** In network order, as the number the machine reads. *)
Definition rtcp_ssrc (mem : list Z) : option Z := l ← rd_bytes mem 4 4; Some (get_le l).

(** Status and IV: zeros, SSRC, zeros and index, XOR the salt of the key. *)
Definition srtp_calc_aead_iv_srtcp (k : srtp_session_keys_t) (seq_num ssrc : Z) : option (srtp_err_status_t * list Z) :=
  if negb (Z.land seq_num 0x80000000 =? 0) then Some (srtp_err_status_bad_param, []) else
  s ← rd_bytes (c_salt k) 0 12;
  Some (srtp_err_status_ok, Aes.v128_xor ([0; 0] ++ Sha1.le32 ssrc ++ [0; 0] ++ be32 seq_num ++ replicate 4 0) (s ++ replicate 4 0)).

Definition rtcp_iv (icm : bool) (ssrc seq_num : Z) : list Z :=
  if icm then [0; 0; 0; 0] ++ Sha1.le32 ssrc ++ be32 (Z.shiftr seq_num 16) ++ be32 (u32 (Z.shiftl seq_num 16)) else replicate 12 0 ++ be32 seq_num.

(** [if (stream->rtcp_services & sec_serv_conf)] *)
Definition rtcp_conf (s : srtp_stream_ctx_t) : bool := negb (Z.land (rtcp_services s) sec_serv_conf =? 0).

(** The trailer as it lies in memory. *)
Definition rtcp_trailer (conf : bool) (seq_num : Z) : list Z := be32 (Z.lor (if conf then SRTCP_E_BIT else 0) seq_num).

Section rtcp.
Context {C A : Type} {TC : CipherType C} {TA : AuthType A} (alloc_ok : nat -> bool).
Abbreviation M := (SrtpSession.M C A).

(** ** Parts that the functions share *)

Definition rtcp_set_iv (k : srtp_session_keys_t) (seq_num : Z) (d : srtp_cipher_direction_t) : M unit :=
  c ← get_cipher (rtcp_cipher k);
  ssrc ← pkt rtcp_ssrc;
  status ← cipher_set_iv (rtcp_cipher k) (rtcp_iv (is_icm c) ssrc seq_num) d;
  check_as srtp_err_status_cipher_fail status.

Definition rtcp_aead_set_iv (k : srtp_session_keys_t) (seq_num : Z) (d : srtp_cipher_direction_t) : M unit :=
  ssrc ← pkt rtcp_ssrc;
  '(status, iv) ← lift (srtp_calc_aead_iv_srtcp k seq_num ssrc); _ ← check_as srtp_err_status_cipher_fail status;
  status ← cipher_set_iv (rtcp_cipher k) iv d;
  check_as srtp_err_status_cipher_fail status.

(** The header, or without encryption [n] octets of the packet, and the trailer. *)
Definition rtcp_set_aad (k : srtp_session_keys_t) (conf : bool) (n : Z) (trailer : list Z) : M unit :=
  m ← gets mem;
  status ← cipher_set_aad (rtcp_cipher k) m (if conf then octets_in_rtcp_header else n); _ ← check_as srtp_err_status_cipher_fail status;
  status ← cipher_set_aad (rtcp_cipher k) trailer srtcp_trailer_size;
  check_as srtp_err_status_cipher_fail status.

(** The next index. *)
Definition protect_rtcp_index (p : stream_ptr) : M Z :=
  s ← get_stream p;
  let '(status, x) := srtp_rdb_increment (rtcp_rdb s) in
  _ ← put_stream p (s <| rtcp_rdb := x |>);
  _ ← check status;
  mret (srtp_rdb_get_value x).

(** The stream of the packet, or a new one from the template. *)
Definition rtcp_sender_stream (ssrc : Z) : M stream_ptr :=
  c ← gets ctx;
  match srtp_get_stream c ssrc with
  | Some p => mret p
  | None =>
      match stream_template c with
      | Some t => x ← srtp_stream_clone alloc_ok t ssrc; srtp_insert_or_dealloc_stream x
      | None => raise srtp_err_status_no_ctx
      end
  end.

Definition rtcp_receiver_stream (ssrc : Z) : M stream_ptr :=
  c ← gets ctx;
  match srtp_get_stream c ssrc with
  | Some p => mret p
  | None => match stream_template c with Some _ => mret Template | None => raise srtp_err_status_no_ctx end
  end.

Definition rtcp_receiver_keys (s : srtp_stream_ctx_t) (use_mki : bool) : M (srtp_session_keys_t * Z) :=
  if use_mki then
    len ← gets pkt_octet_len; '(k, n) ← srtp_get_session_keys_rtcp s (u32 len);
    match k with Some k => mret (k, n) | None => raise srtp_err_status_bad_mki end
  else k ← lift (keys_at s 0); mret (k, 0).

(** After the tag was found good: direction, provisional streams and the replay database. *)
Definition rtcp_accept (p : stream_ptr) (seq_num : Z) : M unit :=
  _ ← check_direction p dir_srtp_receiver;
  ssrc ← pkt rtcp_ssrc;
  p ← receiver_commit alloc_ok p ssrc;
  s ← get_stream p;
  '(_, x) ← lift (srtp_rdb_add_index (rtcp_rdb s) seq_num);
  put_stream p (s <| rtcp_rdb := x |>).

(** ** AEAD streams *)

Definition srtp_protect_rtcp_aead (p : stream_ptr) (k : srtp_session_keys_t) (use_mki : bool) : M unit :=
  a ← get_auth (rtcp_auth k);
  let tag_len := u32 (srtp_auth_get_tag_length a) in
  len ← gets pkt_octet_len; s ← get_stream p;
  let conf := rtcp_conf s in
  mki_size ← srtp_inject_mki (len + tag_len + srtcp_trailer_size) k use_mki;
  seq_num ← protect_rtcp_index p;
  let trailer := rtcp_trailer conf seq_num in
  m ← pkt (fun m => wr_bytes m (len + tag_len) trailer); _ ← set_mem m;
  _ ← rtcp_aead_set_iv k seq_num srtp_direction_encrypt;
  _ ← rtcp_set_aad k conf len trailer;
  status ← (if conf then cipher_encrypt (rtcp_cipher k) octets_in_rtcp_header (u32 (len - octets_in_rtcp_header))
            else cipher_encrypt (rtcp_cipher k) 0 0);
  _ ← check_as srtp_err_status_cipher_fail status;
  '(status, tag_len) ← cipher_get_tag (rtcp_cipher k) len tag_len; _ ← check_as srtp_err_status_cipher_fail status;
  modify (fun w => w <| pkt_octet_len := i32 (u32 (u32 (len + (tag_len + srtcp_trailer_size)) + mki_size)) |>).

(** Without encryption the cipher is run over the tag alone. *)
Definition srtp_unprotect_rtcp_aead (p : stream_ptr) (k : srtp_session_keys_t) (use_mki : bool) : M unit :=
  a ← get_auth (rtcp_auth k);
  let tag_len := srtp_auth_get_tag_length a in
  let mki_size := if use_mki then mki_size k else 0 in
  len ← gets pkt_octet_len; s ← get_stream p;
  let trailer_p := len - srtcp_trailer_size - mki_size in
  trailer ← pkt (fun m => rd_bytes m trailer_p srtcp_trailer_size);
  let enc_octet_len := u32 (len - (octets_in_rtcp_header + srtcp_trailer_size + mki_size)) in
  let auth_tag := len - tag_len - mki_size - srtcp_trailer_size in
  b ← pkt (fun m => rd m trailer_p);
  let conf := negb (Z.land b SRTCP_E_BYTE_BIT =? 0) in
  let seq_num := Z.land (get_be trailer) SRTCP_INDEX_MASK in
  status ← lift (srtp_rdb_check (rtcp_rdb s) seq_num); _ ← check status;
  _ ← rtcp_aead_set_iv k seq_num srtp_direction_decrypt;
  _ ← rtcp_set_aad k conf (u32 (len - tag_len - srtcp_trailer_size - mki_size)) trailer;
  status ← (if conf then cipher_decrypt (rtcp_cipher k) octets_in_rtcp_header enc_octet_len
            else cipher_decrypt (rtcp_cipher k) auth_tag (u32 tag_len));
  _ ← check status;
  _ ← modify (fun w => w <| pkt_octet_len := i32 (u32 (len - (tag_len + srtcp_trailer_size + mki_size))) |>);
  rtcp_accept p seq_num.

(** ** Protection *)

(** The key stream prefix of a universal hash. *)
Definition protect_rtcp_prefix (k : srtp_session_keys_t) (auth_tag : Z) : M unit :=
  a ← get_auth (rtcp_auth k);
  m ← gets mem; '(status, m) ← cipher_output (rtcp_cipher k) m auth_tag (u32 (srtp_auth_get_prefix_length a)); _ ← set_mem m;
  check_as srtp_err_status_cipher_fail status.

(** The tag over the packet and the trailer. *)
Definition protect_rtcp_tag (k : srtp_session_keys_t) (len auth_tag : Z) : M unit :=
  status ← auth_start (rtcp_auth k); _ ← check status;
  m ← gets mem; b ← lift (rd_bytes m 0 (len + srtcp_trailer_size));
  '(status, res) ← auth_compute (rtcp_auth k) b (len + srtcp_trailer_size) (drop (Z.to_nat auth_tag) m);
  _ ← set_mem (take (Z.to_nat auth_tag) m ++ res);
  check_as srtp_err_status_auth_fail status.

Definition srtp_protect_rtcp_mki (use_mki : bool) (mki_index : Z) : M unit :=
  len ← gets pkt_octet_len;
  if len <? octets_in_rtcp_header then raise srtp_err_status_bad_param else
  ssrc ← pkt rtcp_ssrc;
  p ← rtcp_sender_stream ssrc;
  _ ← check_direction p dir_srtp_sender;
  s ← get_stream p;
  k ← lift (srtp_get_session_keys_with_mki_index s use_mki mki_index);
  match k with
  | None => raise srtp_err_status_bad_mki
  | Some k =>
      c ← get_cipher (rtp_cipher k);
      if is_gcm c then srtp_protect_rtcp_aead p k use_mki else
      a ← get_auth (rtcp_auth k);
      let tag_len := srtp_auth_get_tag_length a in
      let conf := rtcp_conf s in
      mki_size ← srtp_inject_mki (len + srtcp_trailer_size) k use_mki;
      let auth_tag := len + srtcp_trailer_size + mki_size in
      seq_num ← protect_rtcp_index p;
      m ← pkt (fun m => wr_bytes m len (rtcp_trailer conf seq_num)); _ ← set_mem m;
      _ ← rtcp_set_iv k seq_num srtp_direction_encrypt;
      _ ← protect_rtcp_prefix k auth_tag;
      _ ← (if conf then status ← cipher_encrypt (rtcp_cipher k) octets_in_rtcp_header (u32 (len - octets_in_rtcp_header));
                        check_as srtp_err_status_cipher_fail status
           else mret tt);
      _ ← protect_rtcp_tag k len auth_tag;
      modify (fun w => w <| pkt_octet_len := i32 (u32 (i32 (u32 (len + (tag_len + srtcp_trailer_size))) + mki_size)) |>)
  end.

Definition srtp_protect_rtcp : M unit := srtp_protect_rtcp_mki false 0.

(** ** Unprotection *)

(** [tmp_tag] is the uninitialised array of the computed tag. *)
Context (tmp_tag : list Z).

(** The tag of the packet is compared with the computed one. *)
Definition check_rtcp_tag (k : srtp_session_keys_t) (auth_len auth_tag tag_len : Z) : M unit :=
  status ← auth_start (rtcp_auth k); _ ← check status;
  m ← gets mem; b ← lift (rd_bytes m 0 auth_len);
  '(status, tmp) ← auth_compute (rtcp_auth k) b auth_len tmp_tag; _ ← check_as srtp_err_status_auth_fail status;
  ne ← lift (srtp_octet_string_is_eq tmp m auth_tag tag_len);
  if negb (ne =? 0) then raise srtp_err_status_auth_fail else mret tt.

(** The key stream prefix is written over the tag in the packet. *)
Definition unprotect_rtcp_prefix (k : srtp_session_keys_t) (auth_tag : Z) : M unit :=
  a ← get_auth (rtcp_auth k);
  let prefix_len := u32 (srtp_auth_get_prefix_length a) in
  if prefix_len =? 0 then mret tt else
  m ← gets mem; '(status, m) ← cipher_output (rtcp_cipher k) m auth_tag prefix_len; _ ← set_mem m;
  check_as srtp_err_status_cipher_fail status.

Definition srtp_unprotect_rtcp_mki (use_mki : bool) : M unit :=
  len ← gets pkt_octet_len;
  if len <? 0 then raise srtp_err_status_bad_param else
  if u32 len <? octets_in_rtcp_header + srtcp_trailer_size then raise srtp_err_status_bad_param else
  ssrc ← pkt rtcp_ssrc;
  p ← rtcp_receiver_stream ssrc;
  s ← get_stream p;
  '(k, mki_size) ← rtcp_receiver_keys s use_mki;
  a ← get_auth (rtcp_auth k);
  let tag_len := srtp_auth_get_tag_length a in
  if len <? i32 (u32 (octets_in_rtcp_header + tag_len + mki_size) + srtcp_trailer_size) then raise srtp_err_status_bad_param else
  c ← get_cipher (rtp_cipher k);
  if is_gcm c then srtp_unprotect_rtcp_aead p k (negb (mki_size =? 0)) else
  let conf := (rtcp_services s =? sec_serv_conf) || (rtcp_services s =? sec_serv_conf_and_auth) in
  let enc_octet_len := u32 (len - (octets_in_rtcp_header + tag_len + mki_size + srtcp_trailer_size)) in
  let trailer_p := len - (u32 (tag_len + mki_size) + srtcp_trailer_size) in
  trailer ← pkt (fun m => rd_bytes m trailer_p srtcp_trailer_size);
  b ← pkt (fun m => rd m trailer_p);
  let e_bit_in_packet := Z.land b SRTCP_E_BYTE_BIT =? SRTCP_E_BYTE_BIT in
  if negb (Bool.eqb e_bit_in_packet conf) then raise srtp_err_status_cant_check else
  let auth_len := u32 (len - tag_len - mki_size) in
  let auth_tag := auth_len + mki_size in
  let seq_num := Z.land (get_be trailer) SRTCP_INDEX_MASK in
  status ← lift (srtp_rdb_check (rtcp_rdb s) seq_num); _ ← check status;
  _ ← rtcp_set_iv k seq_num srtp_direction_decrypt;
  _ ← check_rtcp_tag k auth_len auth_tag tag_len;
  _ ← unprotect_rtcp_prefix k auth_tag;
  _ ← (if conf then status ← cipher_decrypt (rtcp_cipher k) octets_in_rtcp_header enc_octet_len;
                    check_as srtp_err_status_cipher_fail status
       else mret tt);
  _ ← modify (fun w => w <| pkt_octet_len := i32 (u32 (i32 (u32 (len - (tag_len + srtcp_trailer_size))) - mki_size)) |>);
  rtcp_accept p seq_num.

Definition srtp_unprotect_rtcp : M unit := srtp_unprotect_rtcp_mki false.
End rtcp.
