(* ===== verification/SrtpPolicy.v ===== *)
(** * SRTP policies (libsrtp [include/srtp.h], [srtp/srtp.c])

    What an application asks for: ciphers, authentication functions and their lengths for RTP and
    RTCP, the master keys, the SSRC or kind of streams; the policies that the library names, and
    those of the DTLS-SRTP profiles. *)

From S2P Require Import Prelude Bytes Window SrtpAuth SrtpCipher AesIcm SrtpHeader SrtpSession SrtpParts.
Open Scope Z_scope.

(** ** Constants *)

Definition SRTP_AES_128_KEY_LEN : Z := 16.
Definition SRTP_AES_192_KEY_LEN : Z := 24.
Definition SRTP_AES_256_KEY_LEN : Z := 32.
Definition SRTP_AES_ICM_192_KEY_LEN_WSALT : Z := SRTP_SALT_LEN + SRTP_AES_192_KEY_LEN.
Definition SRTP_AES_GCM_128_KEY_LEN_WSALT : Z := SRTP_AEAD_SALT_LEN + SRTP_AES_128_KEY_LEN.
Definition SRTP_AES_GCM_256_KEY_LEN_WSALT : Z := SRTP_AEAD_SALT_LEN + SRTP_AES_256_KEY_LEN.
Definition SRTP_MAX_MKI_LEN : Z := 128.
Definition SRTP_MAX_NUM_MASTER_KEYS : Z := 16.
Definition sec_serv_none : Z := 0.

(** ** Policies *)

Record srtp_crypto_policy_t := Crypto_policy {
  cipher_type : Z; cipher_key_len : Z; auth_type : Z; auth_key_len : Z; auth_tag_len : Z; sec_serv : Z }.

Inductive srtp_ssrc_type_t := ssrc_undefined | ssrc_specific | ssrc_any_inbound | ssrc_any_outbound.
#[export] Instance ssrc_type_eq : EqDecision srtp_ssrc_type_t. Proof. solve_decision. Defined.
Record srtp_ssrc_t := Ssrc { ssrc_type : srtp_ssrc_type_t; ssrc_value : Z }.

(** [None] for a NULL pointer. *)
Record srtp_master_key_t := Master_key { master_key : option (list Z); master_mki_id : list Z; master_mki_size : Z }.

Record srtp_policy_t := Policy {
  policy_ssrc : srtp_ssrc_t; policy_rtp : srtp_crypto_policy_t; policy_rtcp : srtp_crypto_policy_t;
  policy_key : option (list Z); policy_keys : list srtp_master_key_t; policy_num_master_keys : Z;
  deprecated_ekt : bool; (* whether it is not NULL *)
  policy_window_size : Z; policy_allow_repeat_tx : Z; policy_enc_xtn_hdr : option (list Z); policy_enc_xtn_hdr_count : Z }.

(** ** Named policies *)

Definition srtp_crypto_policy_set_rtp_default : srtp_crypto_policy_t :=
  Crypto_policy SRTP_AES_ICM_128 SRTP_AES_ICM_128_KEY_LEN_WSALT SRTP_HMAC_SHA1 20 10 sec_serv_conf_and_auth.
Definition srtp_crypto_policy_set_rtcp_default : srtp_crypto_policy_t :=
  Crypto_policy SRTP_AES_ICM_128 SRTP_AES_ICM_128_KEY_LEN_WSALT SRTP_HMAC_SHA1 20 10 sec_serv_conf_and_auth.
(** A macro for the default. *)
Definition srtp_crypto_policy_set_aes_cm_128_hmac_sha1_80 : srtp_crypto_policy_t := srtp_crypto_policy_set_rtp_default.
Definition srtp_crypto_policy_set_aes_cm_128_hmac_sha1_32 : srtp_crypto_policy_t :=
  Crypto_policy SRTP_AES_ICM_128 SRTP_AES_ICM_128_KEY_LEN_WSALT SRTP_HMAC_SHA1 20 4 sec_serv_conf_and_auth.
Definition srtp_crypto_policy_set_aes_cm_128_null_auth : srtp_crypto_policy_t :=
  Crypto_policy SRTP_AES_ICM_128 SRTP_AES_ICM_128_KEY_LEN_WSALT SRTP_NULL_AUTH 0 0 sec_serv_conf.
Definition srtp_crypto_policy_set_null_cipher_hmac_sha1_80 : srtp_crypto_policy_t :=
  Crypto_policy SRTP_NULL_CIPHER SRTP_AES_ICM_128_KEY_LEN_WSALT SRTP_HMAC_SHA1 20 10 sec_serv_auth.
Definition srtp_crypto_policy_set_null_cipher_hmac_null : srtp_crypto_policy_t :=
  Crypto_policy SRTP_NULL_CIPHER 0 SRTP_NULL_AUTH 0 0 sec_serv_none.
Definition srtp_crypto_policy_set_aes_cm_256_hmac_sha1_80 : srtp_crypto_policy_t :=
  Crypto_policy SRTP_AES_ICM_256 SRTP_AES_ICM_256_KEY_LEN_WSALT SRTP_HMAC_SHA1 20 10 sec_serv_conf_and_auth.
Definition srtp_crypto_policy_set_aes_cm_256_hmac_sha1_32 : srtp_crypto_policy_t :=
  Crypto_policy SRTP_AES_ICM_256 SRTP_AES_ICM_256_KEY_LEN_WSALT SRTP_HMAC_SHA1 20 4 sec_serv_conf_and_auth.
Definition srtp_crypto_policy_set_aes_cm_256_null_auth : srtp_crypto_policy_t :=
  Crypto_policy SRTP_AES_ICM_256 SRTP_AES_ICM_256_KEY_LEN_WSALT SRTP_NULL_AUTH 0 0 sec_serv_conf.
Definition srtp_crypto_policy_set_aes_cm_192_hmac_sha1_80 : srtp_crypto_policy_t :=
  Crypto_policy SRTP_AES_ICM_192 SRTP_AES_ICM_192_KEY_LEN_WSALT SRTP_HMAC_SHA1 20 10 sec_serv_conf_and_auth.
Definition srtp_crypto_policy_set_aes_cm_192_hmac_sha1_32 : srtp_crypto_policy_t :=
  Crypto_policy SRTP_AES_ICM_192 SRTP_AES_ICM_192_KEY_LEN_WSALT SRTP_HMAC_SHA1 20 4 sec_serv_conf_and_auth.
Definition srtp_crypto_policy_set_aes_cm_192_null_auth : srtp_crypto_policy_t :=
  Crypto_policy SRTP_AES_ICM_192 SRTP_AES_ICM_192_KEY_LEN_WSALT SRTP_NULL_AUTH 0 0 sec_serv_conf.
Definition srtp_crypto_policy_set_aes_gcm_128_8_auth : srtp_crypto_policy_t :=
  Crypto_policy SRTP_AES_GCM_128 SRTP_AES_GCM_128_KEY_LEN_WSALT SRTP_NULL_AUTH 0 8 sec_serv_conf_and_auth.
Definition srtp_crypto_policy_set_aes_gcm_256_8_auth : srtp_crypto_policy_t :=
  Crypto_policy SRTP_AES_GCM_256 SRTP_AES_GCM_256_KEY_LEN_WSALT SRTP_NULL_AUTH 0 8 sec_serv_conf_and_auth.
Definition srtp_crypto_policy_set_aes_gcm_128_8_only_auth : srtp_crypto_policy_t :=
  Crypto_policy SRTP_AES_GCM_128 SRTP_AES_GCM_128_KEY_LEN_WSALT SRTP_NULL_AUTH 0 8 sec_serv_auth.
Definition srtp_crypto_policy_set_aes_gcm_256_8_only_auth : srtp_crypto_policy_t :=
  Crypto_policy SRTP_AES_GCM_256 SRTP_AES_GCM_256_KEY_LEN_WSALT SRTP_NULL_AUTH 0 8 sec_serv_auth.
Definition srtp_crypto_policy_set_aes_gcm_128_16_auth : srtp_crypto_policy_t :=
  Crypto_policy SRTP_AES_GCM_128 SRTP_AES_GCM_128_KEY_LEN_WSALT SRTP_NULL_AUTH 0 16 sec_serv_conf_and_auth.
Definition srtp_crypto_policy_set_aes_gcm_256_16_auth : srtp_crypto_policy_t :=
  Crypto_policy SRTP_AES_GCM_256 SRTP_AES_GCM_256_KEY_LEN_WSALT SRTP_NULL_AUTH 0 16 sec_serv_conf_and_auth.

(** ** DTLS-SRTP profiles *)

Inductive srtp_profile_t := srtp_profile_reserved | srtp_profile_aes128_cm_sha1_80 | srtp_profile_aes128_cm_sha1_32 | srtp_profile_null_sha1_80
  | srtp_profile_null_sha1_32 | srtp_profile_aead_aes_128_gcm | srtp_profile_aead_aes_256_gcm.

(** [None] is [srtp_err_status_bad_param], and the policy as it was.  [gcm]: whether the library
    is built with GCM. *)
Definition srtp_crypto_policy_set_from_profile_for_rtp (gcm : bool) (profile : srtp_profile_t) : option srtp_crypto_policy_t :=
  match profile with
  | srtp_profile_aes128_cm_sha1_80 => Some srtp_crypto_policy_set_aes_cm_128_hmac_sha1_80
  | srtp_profile_aes128_cm_sha1_32 => Some srtp_crypto_policy_set_aes_cm_128_hmac_sha1_32
  | srtp_profile_null_sha1_80 => Some srtp_crypto_policy_set_null_cipher_hmac_sha1_80
  | srtp_profile_aead_aes_128_gcm => if gcm then Some srtp_crypto_policy_set_aes_gcm_128_16_auth else None
  | srtp_profile_aead_aes_256_gcm => if gcm then Some srtp_crypto_policy_set_aes_gcm_256_16_auth else None
  | _ => None
  end.

Definition srtp_crypto_policy_set_from_profile_for_rtcp (gcm : bool) (profile : srtp_profile_t) : option srtp_crypto_policy_t :=
  match profile with
  | srtp_profile_aes128_cm_sha1_80 => Some srtp_crypto_policy_set_aes_cm_128_hmac_sha1_80
  | srtp_profile_aes128_cm_sha1_32 => Some srtp_crypto_policy_set_aes_cm_128_hmac_sha1_80
  | srtp_profile_null_sha1_80 => Some srtp_crypto_policy_set_null_cipher_hmac_sha1_80
  | srtp_profile_aead_aes_128_gcm => if gcm then Some srtp_crypto_policy_set_aes_gcm_128_16_auth else None
  | srtp_profile_aead_aes_256_gcm => if gcm then Some srtp_crypto_policy_set_aes_gcm_256_16_auth else None
  | _ => None
  end.

Definition srtp_profile_get_master_key_length (profile : srtp_profile_t) : Z :=
  match profile with
  | srtp_profile_aes128_cm_sha1_80 | srtp_profile_aes128_cm_sha1_32 | srtp_profile_null_sha1_80 | srtp_profile_aead_aes_128_gcm => SRTP_AES_128_KEY_LEN
  | srtp_profile_aead_aes_256_gcm => SRTP_AES_256_KEY_LEN
  | _ => 0
  end.

Definition srtp_profile_get_master_salt_length (profile : srtp_profile_t) : Z :=
  match profile with
  | srtp_profile_aes128_cm_sha1_80 | srtp_profile_aes128_cm_sha1_32 | srtp_profile_null_sha1_80 => SRTP_SALT_LEN
  | srtp_profile_aead_aes_128_gcm | srtp_profile_aead_aes_256_gcm => SRTP_AEAD_SALT_LEN
  | _ => 0
  end.

(** The salt goes behind the key in its buffer. *)
Definition srtp_append_salt_to_key (key : list Z) (bytes_in_key : Z) (salt : list Z) (bytes_in_salt : Z) : option (list Z) :=
  s ← rd_bytes salt 0 bytes_in_salt; wr_bytes key bytes_in_key s.

(** ** Checks *)

Definition srtp_valid_policy (p : srtp_policy_t) : srtp_err_status_t := if deprecated_ekt p then srtp_err_status_bad_param else srtp_err_status_ok.

(** The loop over the master keys. *)
Fixpoint valid_master_keys (n : nat) (l : list srtp_master_key_t) : option bool :=
  match n with
  | O => Some true
  | S n =>
      match l with
      | [] => None
      | k :: l => match master_key k with
                  | None => Some false
                  | Some _ => if SRTP_MAX_MKI_LEN <? master_mki_size k then Some false else valid_master_keys n l
                  end
      end
  end.

Definition srtp_validate_policy_master_keys (p : srtp_policy_t) : option bool :=
  match policy_key p with
  | Some _ => Some true
  | None =>
      if policy_num_master_keys p <=? 0 then Some false else
      if SRTP_MAX_NUM_MASTER_KEYS <? policy_num_master_keys p then Some false else valid_master_keys (Z.to_nat (policy_num_master_keys p)) (policy_keys p)
  end.

(** ** Key lengths; [id] is that of the type *)

Definition base_key_length (id key_length : Z) : Z :=
  if id =? SRTP_NULL_CIPHER then 0
  else if (id =? SRTP_AES_ICM_128) || (id =? SRTP_AES_ICM_192) || (id =? SRTP_AES_ICM_256) then key_length - SRTP_SALT_LEN
  else if (id =? SRTP_AES_GCM_128) || (id =? SRTP_AES_GCM_256) then key_length - SRTP_AEAD_SALT_LEN
  else key_length.

Definition full_key_length (id : Z) : Z :=
  if id =? SRTP_NULL_CIPHER then 0
  else if id =? SRTP_AES_ICM_128 then SRTP_AES_ICM_128_KEY_LEN_WSALT
  else if id =? SRTP_AES_ICM_192 then SRTP_AES_ICM_192_KEY_LEN_WSALT
  else if id =? SRTP_AES_ICM_256 then SRTP_AES_ICM_256_KEY_LEN_WSALT
  else if id =? SRTP_AES_GCM_128 then SRTP_AES_GCM_128_KEY_LEN_WSALT
  else if id =? SRTP_AES_GCM_256 then SRTP_AES_GCM_256_KEY_LEN_WSALT
  else 0.

Definition full_auth_key_length (id : Z) : Z :=
  if id =? SRTP_NULL_AUTH then 0 else if id =? SRTP_HMAC_SHA1 then SRTP_AES_ICM_128_KEY_LEN_WSALT else 0.
