(* ===== verification/SrtpKeys.v ===== *)
(** * Allocation and key derivation (libsrtp [crypto/kernel/crypto_kernel.c], [srtp/srtp.c])

    The kernel allocates ciphers and authentication functions by the id of their type; the keys
    of a stream are derived from a master key with AES in counter mode (RFC 3711, 4.3). *)

From S2P Require Import Prelude Bytes BitVector Window Rdb Rdbx KeyLimit Words SrtpSha1 SrtpAuth Aes SrtpCipher AesIcm SrtpHeader SrtpSession SrtpParts SrtpPolicy.
Open Scope Z_scope.

(** Labels of derived keys. *)
Definition label_rtp_encryption : Z := 0.
Definition label_rtp_msg_auth : Z := 1.
Definition label_rtp_salt : Z := 2.
Definition label_rtcp_encryption : Z := 3.
Definition label_rtcp_msg_auth : Z := 4.
Definition label_rtcp_salt : Z := 5.
Definition label_rtp_header_encryption : Z := 6.
Definition label_rtp_header_salt : Z := 7.
Definition MAX_SRTP_KEY_LEN : Z := 256.

(** The nonce of the key with a label. *)
Definition kdf_nonce (label : Z) : list Z := replicate 7 0 ++ [label] ++ replicate 8 0.

(** ** The kernel *)

Section kernel.
Context {C A : Type}.
Abbreviation M := (SrtpSession.M C A).

(** The types that are loaded: the alloc function of each, with the lengths of key and tag. *)
Record srtp_crypto_kernel_t := Crypto_kernel {
  state_secure : bool;
  cipher_type_list : list (Z * (Z -> Z -> M (srtp_err_status_t * option (srtp_cipher_t C))));
  auth_type_list : list (Z * (Z -> Z -> M (srtp_err_status_t * option (srtp_auth_t A)))) }.

(** The first type with the id. *)
Fixpoint get_type {T} (l : list (Z * T)) (id : Z) : option T :=
  match l with [] => None | (i, t) :: l => if id =? i then Some t else get_type l id end.

Definition srtp_crypto_kernel_get_cipher_type (k : srtp_crypto_kernel_t) (id : Z) := get_type (cipher_type_list k) id.
Definition srtp_crypto_kernel_get_auth_type (k : srtp_crypto_kernel_t) (id : Z) := get_type (auth_type_list k) id.

(** [NULL]; objects have other addresses.  A new object has the number of its last allocation. *)
Definition NULL : nat := 0.

Definition srtp_crypto_kernel_alloc_cipher (k : srtp_crypto_kernel_t) (id key_len tag_len : Z) : M (srtp_err_status_t * nat) :=
  if negb (state_secure k) then mret (srtp_err_status_init_fail, NULL) else
  match srtp_crypto_kernel_get_cipher_type k id with
  | None => mret (srtp_err_status_fail, NULL)
  | Some ct_alloc =>
      '(status, c) ← ct_alloc key_len tag_len;
      match c with
      | Some c => a ← gets allocs; _ ← put_cipher a c; mret (status, a)
      | None => mret (status, NULL)
      end
  end.

Definition srtp_crypto_kernel_alloc_auth (k : srtp_crypto_kernel_t) (id key_len tag_len : Z) : M (srtp_err_status_t * nat) :=
  if negb (state_secure k) then mret (srtp_err_status_init_fail, NULL) else
  match srtp_crypto_kernel_get_auth_type k id with
  | None => mret (srtp_err_status_fail, NULL)
  | Some at_alloc =>
      '(status, x) ← at_alloc key_len tag_len;
      match x with
      | Some x => a ← gets allocs; _ ← put_auth a x; mret (status, a)
      | None => mret (status, NULL)
      end
  end.

(** Freeing an object that is not allocated is undefined behaviour. *)
Definition srtp_cipher_dealloc (a : nat) : M unit :=
  if (a =? NULL)%nat then raise srtp_err_status_bad_param else
  _ ← get_cipher a; modify (fun w => w <| ciphers := delete a (ciphers w) |>).
Definition srtp_auth_dealloc (a : nat) : M unit := _ ← get_auth a; modify (fun w => w <| auths := delete a (auths w) |>).
Definition srtp_key_limit_free (a : nat) : M unit := _ ← get_limit a; modify (fun w => w <| limits := delete a (limits w) |>).

(** The status that a call returns, for [if (status) { ...; return ...; }]. *)
Definition catch {X} (m : M X) : M (srtp_err_status_t + X) := fun w => match m w with None => None | Some (r, w) => Some (inr r, w) end.
(** [if (stat) return srtp_err_status_init_fail;] *)
Definition or_init_fail {X} (m : M X) : M X := r ← catch m; match r with inl _ => raise srtp_err_status_init_fail | inr x => mret x end.
End kernel.
Arguments srtp_crypto_kernel_t : clear implicits.

Section keys.
Context {C A : Type} {TC : CipherType C} {TA : AuthType A} (alloc_ok : nat -> bool) (kernel : srtp_crypto_kernel_t C A).
Abbreviation M := (SrtpSession.M C A).

(** Initialisation of an object. *)
Definition cipher_init (a : nat) (key : list Z) : M srtp_err_status_t :=
  c ← get_cipher a; '(st, c) ← lift (srtp_cipher_init (Some c) key); c ← lift c; _ ← put_cipher a c; mret st.
Definition auth_init (a : nat) (key : list Z) : M srtp_err_status_t :=
  x ← get_auth a; '(st, x) ← lift (srtp_auth_init x key); _ ← put_auth a x; mret st.
(** Encryption of a buffer of its own. *)
Definition cipher_encrypt_buffer (a : nat) (buf : list Z) (pos n : Z) : M (srtp_err_status_t * list Z) :=
  c ← get_cipher a; '(st, buf, c) ← lift (srtp_cipher_encrypt (Some c) buf pos n); c ← lift c; _ ← put_cipher a c; mret (st, buf).

(** ** Key derivation *)

(** The [cipher] of an [srtp_kdf_t]. *)
Definition srtp_kdf_init (key : list Z) (key_len : Z) : M nat :=
  let alloc (cipher_id : Z) : M nat :=
    '(stat, cipher) ← srtp_crypto_kernel_alloc_cipher kernel cipher_id key_len 0; _ ← check stat;
    stat ← cipher_init cipher key;
    if bool_decide (stat = srtp_err_status_ok) then mret cipher else _ ← srtp_cipher_dealloc cipher; raise stat in
  if key_len =? SRTP_AES_ICM_256_KEY_LEN_WSALT then alloc SRTP_AES_ICM_256
  else if key_len =? SRTP_AES_ICM_192_KEY_LEN_WSALT then alloc SRTP_AES_ICM_192
  else if key_len =? SRTP_AES_ICM_128_KEY_LEN_WSALT then alloc SRTP_AES_ICM_128
  else raise srtp_err_status_bad_param.

(** [length] octets of key stream to [pos] of a buffer. *)
Definition srtp_kdf_generate (kdf : nat) (label : Z) (buf : list Z) (pos length : Z) : M (list Z) :=
  status ← cipher_set_iv kdf (kdf_nonce label) srtp_direction_encrypt; _ ← check status;
  buf ← lift (wr_bytes buf pos (replicate (Z.to_nat length) 0));
  '(status, buf) ← cipher_encrypt_buffer kdf buf pos length; _ ← check status;
  mret buf.

Definition srtp_kdf_clear (kdf : nat) : M unit := srtp_cipher_dealloc kdf.

(** A key of [base] octets, and behind it a salt. *)
Definition derive_key (kdf : nat) (key_label salt_label base salt_len : Z) (tmp_key : list Z) : M (list Z) :=
  tmp_key ← or_init_fail (srtp_kdf_generate kdf key_label tmp_key 0 (u32 base));
  if 0 <? salt_len then or_init_fail (srtp_kdf_generate kdf salt_label tmp_key base (u32 salt_len)) else mret tmp_key.

(** An authentication function gets its key. *)
Definition init_auth (kdf : nat) (label : Z) (a : nat) (tmp_key : list Z) : M (list Z) :=
  x ← get_auth a;
  tmp_key ← or_init_fail (srtp_kdf_generate kdf label tmp_key 0 (u32 (srtp_auth_get_key_length x)));
  stat ← auth_init a tmp_key; _ ← check_as srtp_err_status_init_fail stat;
  mret tmp_key.

(** A cipher for packets gets its key and its salt, of which the stream keeps 12 octets for AEAD. *)
Definition init_cipher (kdf : nat) (key_label salt_label : Z) (a : nat) (base salt_len : Z) (salt tmp_key : list Z) : M (list Z * list Z) :=
  tmp_key ← derive_key kdf key_label salt_label base salt_len tmp_key;
  salt ← (if 0 <? salt_len then lift (rd_bytes tmp_key base SRTP_AEAD_SALT_LEN) else mret salt);
  stat ← cipher_init a tmp_key; _ ← check_as srtp_err_status_init_fail stat;
  mret (salt, tmp_key).

(** An array of zeros with the first [n] octets of [key]. *)
Definition padded_key (key : list Z) (n : Z) : option (list Z) := k ← rd_bytes key 0 n; wr_bytes (replicate (Z.to_nat MAX_SRTP_KEY_LEN) 0) 0 k.

(** The cipher of the header extension: with a type of its own, a key derivation of its own. *)
Definition init_xtn_hdr_cipher (kdf_keylen : Z) (kdf a : nat) (rtp : srtp_cipher_t C) (rtp_base_key_len rtp_salt_len : Z) (key tmp_key : list Z) : M (list Z) :=
  x ← get_cipher a;
  '(xtn_hdr_kdf, base, salt_len) ←
    (if negb (algorithm x =? algorithm rtp) then
       let rtp_xtn_hdr_keylen := srtp_cipher_get_key_length x in
       let base := base_key_length (algorithm x) rtp_xtn_hdr_keylen in
       salt_len ← (if rtp_salt_len <? rtp_xtn_hdr_keylen - base then
                     if is_gcm rtp then mret rtp_salt_len else raise srtp_err_status_bad_param
                   else mret (rtp_xtn_hdr_keylen - base));
       tmp_xtn_hdr_key ← lift (padded_key key (base + salt_len));
       xtn_hdr_kdf ← or_init_fail (srtp_kdf_init tmp_xtn_hdr_key kdf_keylen);
       mret (xtn_hdr_kdf, base, salt_len)
     else mret (kdf, rtp_base_key_len, rtp_salt_len));
  tmp_key ← derive_key xtn_hdr_kdf label_rtp_header_encryption label_rtp_header_salt base salt_len tmp_key;
  stat ← cipher_init a tmp_key; _ ← check_as srtp_err_status_init_fail stat;
  _ ← (if (xtn_hdr_kdf =? kdf)%nat then mret tt else or_init_fail (srtp_kdf_clear xtn_hdr_kdf));
  mret tmp_key.

(** The MKI of the keys. *)
Definition init_mki (k : srtp_session_keys_t) (m : srtp_master_key_t) : M srtp_session_keys_t :=
  ok ← (if master_mki_size m =? 0 then mret true else alloc alloc_ok);
  if negb ok then raise srtp_err_status_init_fail else
  id ← (if master_mki_size m =? 0 then mret [] else lift (rd_bytes (master_mki_id m) 0 (master_mki_size m)));
  mret (Session_keys (rtp_cipher k) (rtp_xtn_hdr_cipher k) (rtp_auth k) (rtcp_cipher k) (rtcp_auth k) (salt k) (c_salt k) id (master_mki_size m) (limit k)).

Definition srtp_stream_init_keys (k : srtp_session_keys_t) (m : srtp_master_key_t) : M srtp_session_keys_t :=
  l ← get_limit (limit k);
  _ ← put_limit (limit k) (snd (srtp_key_limit_set l 0xffffffffffff));
  k ← init_mki k m;
  rtp ← get_cipher (rtp_cipher k); rtp_a ← get_auth (rtp_auth k); rtcp ← get_cipher (rtcp_cipher k); rtcp_a ← get_auth (rtcp_auth k);
  let input_keylen := Z.max (Z.max (Z.max (full_key_length (algorithm rtp)) (full_auth_key_length (at_id (a_state rtp_a))))
                        (full_key_length (algorithm rtcp))) (full_auth_key_length (at_id (a_state rtcp_a))) in
  let rtp_keylen := srtp_cipher_get_key_length rtp in
  let rtcp_keylen := srtp_cipher_get_key_length rtcp in
  let rtp_base_key_len := base_key_length (algorithm rtp) rtp_keylen in
  let rtp_salt_len := rtp_keylen - rtp_base_key_len in
  if (rtp_keylen <? input_keylen) && (rtcp_keylen <? input_keylen) then raise srtp_err_status_bad_param else
  let kdf_keylen := Z.max (Z.max (Z.max 30 rtp_keylen) rtcp_keylen) input_keylen in
  let kdf_keylen := if (kdf_keylen =? SRTP_AES_GCM_128_KEY_LEN_WSALT) || (kdf_keylen =? SRTP_AES_GCM_256_KEY_LEN_WSALT) then kdf_keylen + 2 else kdf_keylen in
  key ← lift (master_key m);
  tmp_key ← lift (padded_key key input_keylen);
  kdf ← or_init_fail (srtp_kdf_init tmp_key kdf_keylen);
  '(s, tmp_key) ← init_cipher kdf label_rtp_encryption label_rtp_salt (rtp_cipher k) rtp_base_key_len rtp_salt_len (salt k) tmp_key;
  tmp_key ← match rtp_xtn_hdr_cipher k with
            | Some x => init_xtn_hdr_cipher kdf_keylen kdf x rtp rtp_base_key_len rtp_salt_len key tmp_key
            | None => mret tmp_key
            end;
  tmp_key ← init_auth kdf label_rtp_msg_auth (rtp_auth k) tmp_key;
  let rtcp_base_key_len := base_key_length (algorithm rtcp) rtcp_keylen in
  let rtcp_salt_len := rtcp_keylen - rtcp_base_key_len in
  '(c_s, tmp_key) ← init_cipher kdf label_rtcp_encryption label_rtcp_salt (rtcp_cipher k) rtcp_base_key_len rtcp_salt_len (c_salt k) tmp_key;
  _ ← init_auth kdf label_rtcp_msg_auth (rtcp_auth k) tmp_key;
  _ ← or_init_fail (srtp_kdf_clear kdf);
  mret (Session_keys (rtp_cipher k) (rtp_xtn_hdr_cipher k) (rtp_auth k) (rtcp_cipher k) (rtcp_auth k) s c_s (mki_id k) (mki_size k) (limit k)).

(** The master keys [i], [i + 1], ... of the stream, at most 16. *)
Fixpoint init_master_keys (n : nat) (i : nat) (keys : list srtp_master_key_t) (ks : list srtp_session_keys_t) : M (list srtp_session_keys_t) :=
  match n with
  | O => mret ks
  | S n =>
      k ← lift (ks !! i); m ← lift (keys !! i);
      k ← srtp_stream_init_keys k m;
      init_master_keys n (S i) keys (<[i := k]> ks)
  end.

Definition with_keys (s : srtp_stream_ctx_t) (ks : list srtp_session_keys_t) (n : Z) : srtp_stream_ctx_t :=
  Stream (ssrc s) ks n (rtp_rdbx s) (rtp_services s) (rtcp_rdb s) (rtcp_services s) (direction s) (allow_repeat_tx s)
    (enc_xtn_hdr s) (enc_xtn_hdr_count s) (use_cryptex s) (pending_roc s).

Definition srtp_stream_init_all_master_keys (s : srtp_stream_ctx_t) (key : option (list Z)) (keys : list srtp_master_key_t) (max_master_keys : Z) : M srtp_stream_ctx_t :=
  match key with
  | Some _ =>
      k ← lift (session_keys s !! 0%nat);
      k ← srtp_stream_init_keys k (Master_key key [] 0);
      mret (with_keys s (<[0%nat := k]> (session_keys s)) 1)
  | None =>
      ks ← init_master_keys (Z.to_nat (Z.min max_master_keys SRTP_MAX_NUM_MASTER_KEYS)) 0 keys (session_keys s);
      mret (with_keys s ks max_master_keys)
  end.
End keys.

(** ** The library's own ciphers and authentication functions, loaded

    What [srtp_crypto_kernel_init] loads without GCM: the null cipher, AES in counter mode for
    both lengths of key, no authentication and HMAC-SHA1
    ([crypto/kernel/crypto_kernel.c], [crypto/cipher], [crypto/hash]). *)

Abbreviation engine_cipher := (srtp_aes_icm_ctx_t + srtp_null_cipher_ctx_t)%type.
Abbreviation engine_auth := (srtp_hmac_ctx_t + srtp_null_auth_ctx_t)%type.

(** Memory of zeros. *)
Definition icm_zero : srtp_aes_icm_ctx_t := Icm_ctx zero_block zero_block zero_block (Aes.Expanded_key (replicate 15 zero_block) 0) 0 0.
Definition hmac_zero : srtp_hmac_ctx_t :=
  let c := SrtpSha1.Sha1_ctx (replicate 5 0) (replicate 64 0) 0 0 in Hmac_ctx (replicate 64 0) c c.

Definition left_cipher (c : srtp_cipher_t srtp_aes_icm_ctx_t) : srtp_cipher_t engine_cipher := Cipher (inl (c_state c)) (c_key_len c) (algorithm c).
Definition right_cipher (c : srtp_cipher_t srtp_null_cipher_ctx_t) : srtp_cipher_t engine_cipher := Cipher (inr (c_state c)) (c_key_len c) (algorithm c).
Definition left_auth (a : srtp_auth_t srtp_hmac_ctx_t) : srtp_auth_t engine_auth := Auth (inl (a_state a)) (out_len a) (a_key_len a) (prefix_len a).
Definition right_auth (a : srtp_auth_t srtp_null_auth_ctx_t) : srtp_auth_t engine_auth := Auth (inr (a_state a)) (out_len a) (a_key_len a) (prefix_len a).

Section engine.
Context (alloc_ok : nat -> bool).
Abbreviation M := (SrtpSession.M engine_cipher engine_auth).

(** The alloc functions, which take memory only when the lengths are good. *)
Definition aes_icm_type_alloc (key_len tlen : Z) : M (srtp_err_status_t * option (srtp_cipher_t engine_cipher)) :=
  let good := (key_len =? SRTP_AES_ICM_128_KEY_LEN_WSALT) || (key_len =? SRTP_AES_ICM_256_KEY_LEN_WSALT) in
  c_ok ← (if good then alloc alloc_ok else mret false);
  ok ← (if (c_ok : bool) then alloc alloc_ok else mret false);
  let '(st, c) := srtp_aes_icm_alloc c_ok (if (ok : bool) then Some icm_zero else None) key_len in
  mret (st, left_cipher <$> c).

Definition null_cipher_type_alloc (key_len tlen : Z) : M (srtp_err_status_t * option (srtp_cipher_t engine_cipher)) :=
  ok ← alloc alloc_ok; let '(st, c) := srtp_null_cipher_alloc ok key_len in mret (st, right_cipher <$> c).

Definition hmac_type_alloc (key_len out_len : Z) : M (srtp_err_status_t * option (srtp_auth_t engine_auth)) :=
  let good := negb ((20 <? key_len) || (20 <? out_len)) in
  ok ← (if good then alloc alloc_ok else mret false);
  let '(st, a) := srtp_hmac_alloc (if (ok : bool) then Some hmac_zero else None) key_len out_len in
  mret (st, left_auth <$> a).

Definition null_auth_type_alloc (key_len out_len : Z) : M (srtp_err_status_t * option (srtp_auth_t engine_auth)) :=
  ok ← alloc alloc_ok; let '(st, a) := srtp_null_auth_alloc ok key_len out_len in mret (st, right_auth <$> a).

(** Every type goes to the head of its list. *)
Definition loaded_kernel : srtp_crypto_kernel_t engine_cipher engine_auth :=
  Crypto_kernel true
    [(SRTP_AES_ICM_256, aes_icm_type_alloc); (SRTP_AES_ICM_128, aes_icm_type_alloc); (SRTP_NULL_CIPHER, null_cipher_type_alloc)]
    [(SRTP_HMAC_SHA1, hmac_type_alloc); (SRTP_NULL_AUTH, null_auth_type_alloc)].
End engine.
