(* ===== verification/SrtpManage.v ===== *)
(** * Managing sessions (libsrtp [srtp/srtp.c])

    Streams are allocated and initialised from policies, added to a session, updated and removed;
    what they share with the template is freed with the template. *)

From S2P Require Import Prelude Bytes Words BitVector Window Rdb Rdbx KeyLimit SrtpAuth SrtpCipher AesIcm SrtpHeader SrtpSession SrtpParts SrtpRtcp SrtpPolicy SrtpKeys.
Open Scope Z_scope.

(** Memory of zeros. *)
Definition zero_keys : srtp_session_keys_t := Session_keys NULL None NULL NULL NULL (replicate 12 0) (replicate 12 0) [] 0 NULL.
Definition zero_stream (num_master_keys : Z) : srtp_stream_ctx_t :=
  Stream 0 [] num_master_keys (Rdbx 0 (Bitvector 0 None)) 0 (Rdb 0 v128_set_to_zero) 0 dir_unknown false [] 0 false 0.

Definition htonl (x : Z) : Z := get_le (be32 x).

Section manage.
Context {C A : Type} {TC : CipherType C} {TA : AuthType A} (alloc_ok : nat -> bool) (kernel : srtp_crypto_kernel_t C A).
Abbreviation M := (SrtpSession.M C A).
Implicit Types (s : srtp_stream_ctx_t) (p : srtp_policy_t).

(** ** Deallocation *)

(** An object is freed unless the template has it or it is NULL. *)
Definition dealloc_unless (free : nat -> M unit) (template : option nat) (a : nat) : M unit :=
  if bool_decide (template = Some a) then mret tt else if (a =? NULL)%nat then mret tt else free a.

Definition dealloc_keys (t : option srtp_session_keys_t) (k : srtp_session_keys_t) : M unit :=
  _ ← dealloc_unless srtp_cipher_dealloc (rtp_cipher <$> t) (rtp_cipher k);
  _ ← dealloc_unless srtp_auth_dealloc (rtp_auth <$> t) (rtp_auth k);
  _ ← match rtp_xtn_hdr_cipher k with
      | Some x => dealloc_unless srtp_cipher_dealloc (t ≫= rtp_xtn_hdr_cipher) x
      | None => mret tt
      end;
  _ ← dealloc_unless srtp_cipher_dealloc (rtcp_cipher <$> t) (rtcp_cipher k);
  _ ← dealloc_unless srtp_auth_dealloc (rtcp_auth <$> t) (rtcp_auth k);
  dealloc_unless srtp_key_limit_free (limit <$> t) (limit k).

(** [ts]: the keys of the template from here on, when there are as many. *)
Fixpoint dealloc_all_keys (ts : option (list srtp_session_keys_t)) (ks : list srtp_session_keys_t) : M unit :=
  match ks with
  | [] => mret tt
  | k :: ks => _ ← dealloc_keys (ts ≫= head) k; dealloc_all_keys (tail <$> ts) ks
  end.

Definition srtp_stream_dealloc s (stream_template : option srtp_stream_ctx_t) : M unit :=
  dealloc_all_keys (t ← stream_template; if num_master_keys s =? num_master_keys t then Some (session_keys t) else None) (session_keys s).

(** The streams of a list are removed from it and freed. *)
Fixpoint dealloc_streams (l : list srtp_stream_ctx_t) (template : option srtp_stream_ctx_t) : M unit :=
  match l with [] => mret tt | s :: l => _ ← srtp_stream_dealloc s template; dealloc_streams l template end.

Definition set_ctx (c : srtp_ctx_t) : M unit := modify (fun w => w <| ctx := c |>).

Definition srtp_remove_and_dealloc_streams : M unit :=
  c ← gets ctx; _ ← dealloc_streams (stream_list c) (stream_template c); set_ctx (Ctx [] (stream_template c)).

Definition srtp_dealloc : M unit :=
  _ ← srtp_remove_and_dealloc_streams;
  c ← gets ctx;
  _ ← match stream_template c with Some t => srtp_stream_dealloc t None | None => mret tt end;
  set_ctx (Ctx [] None).

(** ** Allocation of a stream *)

(** [if (stat) { srtp_stream_dealloc(str, NULL); return stat; }] *)
Definition or_dealloc s (m : M (srtp_err_status_t * nat)) : M nat :=
  '(stat, a) ← m;
  if bool_decide (stat = srtp_err_status_ok) then mret a else _ ← srtp_stream_dealloc s None; raise stat.

Definition with_session_keys s (ks : list srtp_session_keys_t) : srtp_stream_ctx_t := s <| session_keys := ks |>.

(** The key limit, which the kernel does not know. *)
Definition alloc_limit : M (srtp_err_status_t * nat) :=
  ok ← alloc alloc_ok;
  if negb ok then mret (srtp_err_status_alloc_fail, NULL) else
  a ← gets allocs; _ ← put_limit a (Key_limit 0 srtp_key_state_normal); mret (srtp_err_status_ok, a).

(** The objects of one master key; [done] are those of the keys before it. *)
Definition alloc_keys p s (done : list srtp_session_keys_t) : M srtp_session_keys_t :=
  let str k := with_session_keys s (done ++ [k]) in
  let k := zero_keys in
  let rtp := policy_rtp p in let rtcp := policy_rtcp p in
  a ← or_dealloc (str k) (srtp_crypto_kernel_alloc_cipher kernel (cipher_type rtp) (cipher_key_len rtp) (auth_tag_len rtp)); let k := k <| rtp_cipher := a |> in
  a ← or_dealloc (str k) (srtp_crypto_kernel_alloc_auth kernel (auth_type rtp) (auth_key_len rtp) (auth_tag_len rtp)); let k := k <| rtp_auth := a |> in
  a ← or_dealloc (str k) (srtp_crypto_kernel_alloc_cipher kernel (cipher_type rtcp) (cipher_key_len rtcp) (auth_tag_len rtcp)); let k := k <| rtcp_cipher := a |> in
  a ← or_dealloc (str k) (srtp_crypto_kernel_alloc_auth kernel (auth_type rtcp) (auth_key_len rtcp) (auth_tag_len rtcp)); let k := k <| rtcp_auth := a |> in
  a ← or_dealloc (str k) alloc_limit;
  mret (k <| limit := a |>).

Fixpoint alloc_all_keys (n : nat) p s (done : list srtp_session_keys_t) : M (list srtp_session_keys_t) :=
  match n with O => mret done | S n => k ← alloc_keys p s done; alloc_all_keys n p s (done ++ [k]) end.

(** The cipher of the header extension: that of the counter mode for GCM. *)
Definition enc_xtn_hdr_cipher (c : srtp_crypto_policy_t) : Z * Z :=
  if cipher_type c =? SRTP_AES_GCM_128 then (SRTP_AES_ICM_128, SRTP_AES_ICM_128_KEY_LEN_WSALT)
  else if cipher_type c =? SRTP_AES_GCM_256 then (SRTP_AES_ICM_256, SRTP_AES_ICM_256_KEY_LEN_WSALT)
  else (cipher_type c, cipher_key_len c).

Fixpoint alloc_xtn_ciphers (type key_len : Z) s (done ks : list srtp_session_keys_t) : M (list srtp_session_keys_t) :=
  match ks with
  | [] => mret done
  | k :: ks =>
      a ← or_dealloc (with_session_keys s (done ++ k :: ks)) (srtp_crypto_kernel_alloc_cipher kernel type key_len 0);
      alloc_xtn_ciphers type key_len s (done ++ [k <| rtp_xtn_hdr_cipher := Some a |>]) ks
  end.

Definition srtp_stream_alloc p : M srtp_stream_ctx_t :=
  _ ← check (srtp_valid_policy p);
  ok ← alloc alloc_ok;
  if negb ok then raise srtp_err_status_alloc_fail else
  let num := match policy_key p with Some _ => 1 | None => policy_num_master_keys p end in
  let s := zero_stream num in
  ok ← (if num =? 0 then mret false else alloc alloc_ok);
  if negb ok then _ ← srtp_stream_dealloc s None; raise srtp_err_status_alloc_fail else
  ks ← alloc_all_keys (Z.to_nat num) p s [];
  match policy_enc_xtn_hdr p with
  | Some h =>
      if 0 <? policy_enc_xtn_hdr_count p then
        ok ← alloc alloc_ok;
        if negb ok then _ ← srtp_stream_dealloc (with_session_keys s ks) None; raise srtp_err_status_alloc_fail else
        ids ← lift (rd_bytes h 0 (policy_enc_xtn_hdr_count p));
        let s := s <| enc_xtn_hdr := ids |> <| enc_xtn_hdr_count := policy_enc_xtn_hdr_count p |> in
        let '(type, key_len) := enc_xtn_hdr_cipher (policy_rtp p) in
        ks ← alloc_xtn_ciphers type key_len s [] ks;
        mret (with_session_keys s ks)
      else mret (with_session_keys s ks)
  | None => mret (with_session_keys s ks)
  end.

(** ** Initialisation *)

Definition srtp_stream_init s p : M srtp_stream_ctx_t :=
  _ ← check (srtp_valid_policy p);
  let ws := policy_window_size p in
  if negb (ws =? 0) && ((ws <? 64) || (0x8000 <=? ws)) then raise srtp_err_status_bad_param else
  ok ← alloc alloc_ok;
  '(err, x) ← lift (srtp_rdbx_init (fun _ => ok) (if negb (ws =? 0) then ws else 128));
  _ ← check err; x ← lift x;
  let s := s <| rtp_rdbx := x |> <| ssrc := htonl (ssrc_value (policy_ssrc p)) |> <| pending_roc := 0 |>
             <| rtp_services := sec_serv (policy_rtp p) |> <| rtcp_services := sec_serv (policy_rtcp p) |>
             <| direction := dir_unknown |> <| rtcp_rdb := snd srtp_rdb_init |> in
  if negb (policy_allow_repeat_tx p =? 0) && negb (policy_allow_repeat_tx p =? 1) then raise srtp_err_status_bad_param else
  srtp_stream_init_all_master_keys alloc_ok kernel (s <| allow_repeat_tx := (policy_allow_repeat_tx p =? 1) |>)
    (policy_key p) (policy_keys p) (policy_num_master_keys p).

(** ** Sessions *)

Definition check_policy p : M unit :=
  _ ← check (srtp_valid_policy p);
  ok ← lift (srtp_validate_policy_master_keys p);
  if negb ok then raise srtp_err_status_bad_param else mret tt.

(** The stream becomes the template, unless there is one. *)
Definition add_template s (d : direction_t) : M unit :=
  c ← gets ctx;
  match stream_template c with
  | Some _ => _ ← srtp_stream_dealloc s None; raise srtp_err_status_bad_param
  | None => set_ctx (c <| stream_template := Some (s <| direction := d |>) |>)
  end.

Definition srtp_add_stream p : M unit :=
  _ ← check_policy p;
  tmp ← srtp_stream_alloc p;
  r ← catch (srtp_stream_init tmp p);
  match r with
  | inl status => _ ← srtp_stream_dealloc tmp None; raise status
  | inr s =>
      match ssrc_type (policy_ssrc p) with
      | ssrc_any_outbound => add_template s dir_srtp_sender
      | ssrc_any_inbound => add_template s dir_srtp_receiver
      | ssrc_specific => _ ← srtp_insert_or_dealloc_stream s; mret tt
      | ssrc_undefined => _ ← srtp_stream_dealloc s None; raise srtp_err_status_bad_param
      end
  end.

(** The streams of the policies; when one fails the session is freed. *)
Fixpoint add_streams (l : list srtp_policy_t) : M unit :=
  match l with
  | [] => mret tt
  | p :: l =>
      r ← catch (srtp_add_stream p);
      match r with inl stat => _ ← srtp_dealloc; raise stat | inr _ => add_streams l end
  end.

(** Without memory for the list of streams, [srtp_dealloc] reads through a NULL pointer. *)
Definition srtp_create (l : list srtp_policy_t) : M unit :=
  _ ← match l with p :: _ => check (srtp_valid_policy p) | [] => mret tt end;
  ok ← alloc alloc_ok;
  if negb ok then raise srtp_err_status_alloc_fail else
  _ ← set_ctx (Ctx [] None);
  ok ← alloc alloc_ok;
  if negb ok then lift None else add_streams l.

Definition srtp_remove_stream (x : Z) : M unit :=
  c ← gets ctx;
  match srtp_stream_list_get (stream_list c) x with
  | None => raise srtp_err_status_no_ctx
  | Some n =>
      s ← lift (stream_list c !! n);
      _ ← set_ctx (c <| stream_list := delete n (stream_list c) |>);
      srtp_stream_dealloc s (stream_template c)
  end.

(** ** Updates *)

(** What a stream keeps: the index of the last packet, and the SRTCP database. *)
Definition restore s (old_index : Z) (old_rtcp_rdb : srtp_rdb_t) : srtp_stream_ctx_t :=
  s <| rtp_rdbx := Rdbx old_index (Rdbx.bitmask (rtp_rdbx s)) |> <| rtcp_rdb := old_rtcp_rdb |>.

Definition update_stream p : M unit :=
  _ ← check (srtp_valid_policy p);
  let x := htonl (ssrc_value (policy_ssrc p)) in
  c ← gets ctx;
  match srtp_get_stream c x with
  | None => raise srtp_err_status_bad_param
  | Some ptr =>
      s ← get_stream ptr;
      _ ← srtp_remove_stream x;
      _ ← srtp_add_stream p;
      c ← gets ctx;
      match srtp_get_stream c x with
      | None => raise srtp_err_status_fail
      | Some ptr => n ← get_stream ptr; put_stream ptr (restore n (index (rtp_rdbx s)) (rtcp_rdb s))
      end
  end.

(** The first authentication object, by which streams made from the template are known. *)
Definition first_auth s : option nat := k ← keys_at s 0; Some (rtp_auth k).

(** One stream, the head of the session's list, goes to the new list: as it is, or made anew
    from the new template. *)
Definition update_template_stream_cb s (new_template : srtp_stream_ctx_t) (new_list : list srtp_stream_ctx_t) : M (list srtp_stream_ctx_t) :=
  c ← gets ctx;
  t ← lift (stream_template c); a ← lift (first_auth s); b ← lift (first_auth t);
  if negb (a =? b)%nat then
    _ ← set_ctx (c <| stream_list := tail (stream_list c) |>); mret (srtp_stream_list_insert new_list s)
  else
    _ ← srtp_remove_stream (ssrc s);
    n ← srtp_stream_clone alloc_ok new_template (ssrc s);
    mret (srtp_stream_list_insert new_list (restore n (index (rtp_rdbx s)) (rtcp_rdb s))).

(** The new list, and the status of the first callback that failed. *)
Fixpoint update_streams (l : list srtp_stream_ctx_t) (new_template : srtp_stream_ctx_t) (new_list : list srtp_stream_ctx_t) :
    M (list srtp_stream_ctx_t * srtp_err_status_t) :=
  match l with
  | [] => mret (new_list, srtp_err_status_ok)
  | s :: l =>
      r ← catch (update_template_stream_cb s new_template new_list);
      match r with inl st => mret (new_list, st) | inr new_list => update_streams l new_template new_list end
  end.

Definition update_template_streams p : M unit :=
  _ ← check (srtp_valid_policy p);
  c ← gets ctx;
  match stream_template c with
  | None => raise srtp_err_status_bad_param
  | Some _ =>
      tmp ← srtp_stream_alloc p;
      new_template ← srtp_stream_init tmp p;
      ok ← alloc alloc_ok;
      if negb ok then raise srtp_err_status_alloc_fail else
      '(new_list, status) ← update_streams (stream_list c) new_template [];
      if negb (bool_decide (status = srtp_err_status_ok)) then
        _ ← dealloc_streams new_list (Some new_template); _ ← srtp_stream_dealloc new_template None; raise status
      else
        _ ← srtp_remove_and_dealloc_streams;
        t ← gets (fun w => stream_template (ctx w)); t ← lift t;
        _ ← srtp_stream_dealloc t None;
        set_ctx (Ctx new_list (Some new_template))
  end.

Definition srtp_update_stream p : M unit :=
  _ ← check_policy p;
  match ssrc_type (policy_ssrc p) with
  | ssrc_any_outbound | ssrc_any_inbound => update_template_streams p
  | ssrc_specific => update_stream p
  | ssrc_undefined => raise srtp_err_status_bad_param
  end.

Fixpoint update_policies (l : list srtp_policy_t) : M unit :=
  match l with [] => mret tt | p :: l => _ ← srtp_update_stream p; update_policies l end.

Definition srtp_update (l : list srtp_policy_t) : M unit :=
  match l with [] => raise srtp_err_status_bad_param | p :: _ => _ ← check_policy p; update_policies l end.

(** ** Settings and queries *)

Definition srtp_set_stream_roc (x roc : Z) : M unit :=
  c ← gets ctx;
  match srtp_get_stream c (htonl x) with
  | None => raise srtp_err_status_bad_param
  | Some p => s ← get_stream p; put_stream p (s <| pending_roc := roc |>)
  end.

Definition srtp_get_stream_roc (x : Z) : M Z :=
  c ← gets ctx;
  match srtp_get_stream c (htonl x) with
  | None => raise srtp_err_status_bad_param
  | Some p => s ← get_stream p; mret (srtp_rdbx_get_roc (rtp_rdbx s))
  end.

(** Streams that share the template's authentication object follow it. *)
Fixpoint cryptex_from_template (t : srtp_stream_ctx_t) (l : list srtp_stream_ctx_t) : option (list srtp_stream_ctx_t) :=
  match l with
  | [] => Some []
  | s :: l =>
      a ← first_auth s; b ← first_auth t; l ← cryptex_from_template t l;
      Some ((if (a =? b)%nat then s <| use_cryptex := use_cryptex t |> else s) :: l)
  end.

Definition srtp_set_stream_use_cryptex (x : srtp_ssrc_t) (enable : Z) : M unit :=
  c ← gets ctx;
  match ssrc_type x with
  | ssrc_specific =>
      match srtp_get_stream c (htonl (ssrc_value x)) with
      | None => raise srtp_err_status_bad_param
      | Some p => s ← get_stream p; put_stream p (s <| use_cryptex := negb (enable =? 0) |>)
      end
  | ssrc_any_inbound | ssrc_any_outbound =>
      match stream_template c with
      | None => raise srtp_err_status_bad_param
      | Some t =>
          let t := t <| use_cryptex := negb (enable =? 0) |> in
          l ← lift (cryptex_from_template t (stream_list c)); set_ctx (Ctx l (Some t))
      end
  | ssrc_undefined => raise srtp_err_status_bad_param
  end.

Definition stream_get_protect_trailer_length s (is_rtp use_mki : bool) (mki_index : Z) : M (srtp_err_status_t * Z) :=
  if use_mki && (num_master_keys s <=? mki_index) then mret (srtp_err_status_bad_mki, 0) else
  k ← lift (keys_at s (if use_mki then mki_index else 0));
  let n := if use_mki then mki_size k else 0 in
  a ← get_auth (if is_rtp then rtp_auth k else rtcp_auth k);
  let n := u32 (n + srtp_auth_get_tag_length a) in
  mret (srtp_err_status_ok, if is_rtp then n else u32 (n + srtcp_trailer_size)).

(** Whether a stream was found, and the largest length so far. *)
Fixpoint max_trailer_length (l : list srtp_stream_ctx_t) (is_rtp use_mki : bool) (mki_index : Z) (found : bool) (len : Z) : M (bool * Z) :=
  match l with
  | [] => mret (found, len)
  | s :: l =>
      '(status, n) ← stream_get_protect_trailer_length s is_rtp use_mki mki_index;
      if bool_decide (status = srtp_err_status_ok) then max_trailer_length l is_rtp use_mki mki_index true (Z.max len n)
      else max_trailer_length l is_rtp use_mki mki_index found len
  end.

Definition get_protect_trailer_length (is_rtp use_mki : bool) (mki_index : Z) : M Z :=
  c ← gets ctx;
  '(found, len) ← match stream_template c with
                  | Some t => '(_, n) ← stream_get_protect_trailer_length t is_rtp use_mki mki_index; mret (true, n)
                  | None => mret (false, 0)
                  end;
  '(found, len) ← max_trailer_length (stream_list c) is_rtp use_mki mki_index found len;
  if negb found then raise srtp_err_status_bad_param else mret len.

Definition srtp_get_protect_trailer_length : bool -> Z -> M Z := get_protect_trailer_length true.
Definition srtp_get_protect_rtcp_trailer_length : bool -> Z -> M Z := get_protect_trailer_length false.
End manage.
