(* ===== verification/SrtpSteps.v ===== *)
(** * The parts of protection and unprotection

    What each part does to a stream in working order: its key is set up, its cipher is a stream
    cipher, packets are encrypted and authenticated, without MKI, header encryption and
    Cryptex.  Every lemma gives the state afterwards. *)

From S2P Require Import Prelude Bytes Words BitVector Window Rdb Rdbx KeyLimit Sha1 SrtpAuth SrtpCipher SrtpHeader SrtpSession SrtpParts SrtpProtect.
Open Scope Z_scope.
Import SrtpHeader.

Section steps.
Context {C A : Type} {TC : CipherType C} {TA : AuthType A} {OC : CipherOk C TC} {OA : AuthOk A TA}.
Implicit Types w : world C A.
Abbreviation M := (SrtpSession.M C A).

(** ** Running the monad *)

Lemma bind_run {X Y} (m : M X) (f : X -> M Y) w w1 x : m w = Some (inr x, w1) -> (y ← m; f y) w = f x w1.
Proof using. intros H. unfold mbind, M_bind. by rewrite H. Qed.

Lemma bind_stop {X Y} (m : M X) (f : X -> M Y) w w1 st : m w = Some (inl st, w1) -> (y ← m; f y) w = Some (inl st, w1).
Proof using. intros H. unfold mbind, M_bind. by rewrite H. Qed.

Lemma bind_assoc {X Y Z} (m : M X) (f : X -> M Y) (g : Y -> M Z) w : (y ← (x ← m; f x); g y) w = (x ← m; y ← f x; g y) w.
Proof using. unfold mbind, M_bind. by destruct (m w) as [[[st|x] w1]|]. Qed.

Lemma bind_inv {X Y} (m : M X) (f : X -> M Y) w w2 y : (z ← m; f z) w = Some (inr y, w2) -> exists x w1, m w = Some (inr x, w1) /\ f x w1 = Some (inr y, w2).
Proof using. unfold mbind, M_bind. destruct (m w) as [[[st|x] w1]|]; [done| |done]. intros H. by exists x, w1. Qed.

Lemma pkt_run {X} (f : list Z -> option X) w x : f (mem w) = Some x -> pkt f w = Some (inr x, w).
Proof using. intros H. unfold pkt. by rewrite H. Qed.
Lemma lift_run {X} (o : option X) w x : o = Some x -> lift o w = Some (inr x, w).
Proof using. by intros ->. Qed.
Lemma gets_run {X} (f : world C A -> X) w : gets f w = Some (inr (f w), w).
Proof using. done. Qed.
Lemma ret_run {X} (x : X) w : (mret x : M X) w = Some (inr x, w).
Proof using. done. Qed.
Lemma get_stream_run p w s : stream_at (ctx w) p = Some s -> get_stream p w = Some (inr s, w).
Proof using. intros H. unfold get_stream, gets, lift, mbind, M_bind. by rewrite H. Qed.
Lemma get_cipher_run a w c : ciphers w !! a = Some c -> get_cipher a w = Some (inr c, w).
Proof using. intros H. unfold get_cipher, load, gets, lift, mbind, M_bind. by rewrite H. Qed.
Lemma get_auth_run a w c : auths w !! a = Some c -> get_auth a w = Some (inr c, w).
Proof using. intros H. unfold get_auth, load, gets, lift, mbind, M_bind. by rewrite H. Qed.
Lemma get_limit_run a w c : limits w !! a = Some c -> get_limit a w = Some (inr c, w).
Proof using. intros H. unfold get_limit, load, gets, lift, mbind, M_bind. by rewrite H. Qed.

(** ** Calls on objects *)

(** An object with a new state. *)
Definition auth_with (x : srtp_auth_t A) (s : A) : srtp_auth_t A := Auth s (out_len x) (a_key_len x) (prefix_len x).
Definition cipher_with (c : srtp_cipher_t C) (s : C) : srtp_cipher_t C := Cipher s (c_key_len c) (algorithm c).

Definition with_cipher (w : world C A) (a : nat) (c : srtp_cipher_t C) : world C A := w <| ciphers := <[a := c]> (ciphers w) |>.
Definition with_auth (w : world C A) (a : nat) (c : srtp_auth_t A) : world C A := w <| auths := <[a := c]> (auths w) |>.

Lemma cipher_set_iv_run a w c iv d st s : ciphers w !! a = Some c -> ct_set_iv (c_state c) iv d = Some (st, s) ->
  cipher_set_iv a iv d w = Some (inr st, with_cipher w a (cipher_with c s)).
Proof using. intros Hc Hs. unfold cipher_set_iv. rewrite (bind_run _ _ _ _ _ (get_cipher_run _ _ _ Hc)). cbn [srtp_cipher_set_iv]. by rewrite Hs. Qed.

Lemma cipher_encrypt_run a w c pos n st m s : ciphers w !! a = Some c -> ct_encrypt (c_state c) (mem w) pos n = Some (st, m, s) ->
  cipher_encrypt a pos n w = Some (inr st, (with_cipher w a (cipher_with c s)) <| mem := m |>).
Proof using.
  intros Hc Hs. unfold cipher_encrypt. rewrite (bind_run _ _ _ _ _ (get_cipher_run _ _ _ Hc)). rewrite (bind_run _ _ _ _ _ (gets_run _ _)).
  cbn [srtp_cipher_encrypt]. by rewrite Hs.
Qed.

Lemma cipher_decrypt_run a w c pos n st m s : ciphers w !! a = Some c -> ct_decrypt (c_state c) (mem w) pos n = Some (st, m, s) ->
  cipher_decrypt a pos n w = Some (inr st, (with_cipher w a (cipher_with c s)) <| mem := m |>).
Proof using.
  intros Hc Hs. unfold cipher_decrypt. rewrite (bind_run _ _ _ _ _ (get_cipher_run _ _ _ Hc)). rewrite (bind_run _ _ _ _ _ (gets_run _ _)).
  cbn [srtp_cipher_decrypt]. by rewrite Hs.
Qed.

Lemma auth_start_run a w x st s : auths w !! a = Some x -> at_start (a_state x) = Some (st, s) -> auth_start a w = Some (inr st, with_auth w a (auth_with x s)).
Proof using. intros Hx Hs. unfold auth_start. rewrite (bind_run _ _ _ _ _ (get_auth_run _ _ _ Hx)). unfold srtp_auth_start. by rewrite Hs. Qed.

Lemma auth_update_run a w x b n st s : auths w !! a = Some x -> at_update (a_state x) b n = Some (st, s) ->
  auth_update a b n w = Some (inr st, with_auth w a (auth_with x s)).
Proof using. intros Hx Hs. unfold auth_update. rewrite (bind_run _ _ _ _ _ (get_auth_run _ _ _ Hx)). unfold srtp_auth_update. by rewrite Hs. Qed.

Lemma auth_compute_run a w x b n res st res' s : auths w !! a = Some x -> at_compute (a_state x) b n (out_len x) res = Some (st, res', s) ->
  auth_compute a b n res w = Some (inr (st, res'), with_auth w a (auth_with x s)).
Proof using. intros Hx Hs. unfold auth_compute. rewrite (bind_run _ _ _ _ _ (get_auth_run _ _ _ Hx)). unfold srtp_auth_compute. by rewrite Hs. Qed.

Lemma with_cipher_lookup w a c c' : ciphers w !! a = Some c -> ciphers (with_cipher w a c') !! a = Some c'.
Proof using. intros _. apply lookup_insert_eq. Qed.
Lemma with_auth_lookup w a c c' : auths w !! a = Some c -> auths (with_auth w a c') !! a = Some c'.
Proof using. intros _. apply lookup_insert_eq. Qed.
Lemma with_auth_twice w a c c' : with_auth (with_auth w a c) a c' = with_auth w a c'.
Proof using. unfold with_auth. cbn. by rewrite insert_insert_eq. Qed.
Lemma with_cipher_twice w a c c' : with_cipher (with_cipher w a c) a c' = with_cipher w a c'.
Proof using. unfold with_cipher. cbn. by rewrite insert_insert_eq. Qed.

(** ** The tag *)

(** The rollover counter behind the packet. *)
Definition roc_octets (est : Z) : list Z := take 4 (est_octets est).
Lemma roc_octets_ok est : Forall byte (roc_octets est) /\ zlen (roc_octets est) = 4.
Proof using. unfold roc_octets, est_octets. split; [apply Forall_take, be64_bytes|done]. Qed.

(** [start], [update] with the message and [compute] with the rollover counter. *)
Lemma tag_run a w x k b est old n : auths w !! a = Some x -> at_keyed (a_state x) k -> Forall byte b -> zlen b < 268435452 ->
  out_len x = n -> 0 <= n <= zlen old -> n <= at_max k ->
  exists x1 x2 x3, auth_start a w = Some (inr srtp_err_status_ok, with_auth w a x1) /\
    auth_update a b (zlen b) (with_auth w a x1) = Some (inr srtp_err_status_ok, with_auth w a x2) /\
    (forall w', auths w' = auths (with_auth w a x2) ->
      auth_compute a (roc_octets est) 4 old w' = Some (inr (srtp_err_status_ok, at_tag k (b ++ roc_octets est) n old), with_auth w' a x3)) /\
    at_keyed (a_state x3) k /\ out_len x3 = n /\ prefix_len x3 = prefix_len x.
Proof using OA.
  intros Hx Hk Hb Hlen Ho Hn Hmax. destruct (at_start_ok _ _ Hk) as (s1 & H1 & F1). destruct (at_update_ok s1 k [] b F1 Hb) as (s2 & H2 & F2); [rewrite zlen_nil; lia|].
  destruct (roc_octets_ok est) as [Hr Hz]. destruct (at_compute_ok s2 k b (roc_octets est) n old F2 Hr) as (s3 & H3 & K3); [lia|lia|lia|]. rewrite Hz in H3.
  exists (auth_with x s1), (auth_with x s2), (auth_with x s3).
  split; [by apply auth_start_run|]. split.
  { rewrite (auth_update_run a _ (auth_with x s1) b (zlen b) _ s2 (with_auth_lookup _ _ _ _ Hx) H2). by rewrite with_auth_twice. }
  split; [|done]. intros w' Hw'. apply (auth_compute_run a w' (auth_with x s2)); [|cbn; by rewrite Ho].
  rewrite Hw'. by apply (with_auth_lookup w a x).
Qed.

(** ** Streams in working order *)

(** Stream [s] at [p] of [w] with the keys [k], whose objects have the secrets [ck] and [ak];
    [icm] is the kind of the cipher, [n] the length of the tag. *)
Record ready (w : world C A) (p : nat) (s : srtp_stream_ctx_t) (k : srtp_session_keys_t) (icm : bool) (ck : ct_secret) (ak : at_secret) (n : Z) : Prop := {
  ready_stream : stream_list (ctx w) !! p = Some s;
  ready_keys : keys_at s 0 = Some k;
  ready_cipher : exists c, ciphers w !! rtp_cipher k = Some c /\ ct_keyed (c_state c) ck /\ is_icm c = icm /\ is_gcm c = false;
  ready_auth : exists a, auths w !! rtp_auth k = Some a /\ at_keyed (a_state a) ak /\ prefix_len a = 0 /\ out_len a = n;
  ready_tag : 0 <= n <= SRTP_MAX_TAG_LEN /\ n <= at_max ak;
  ready_plain : rtp_xtn_hdr_cipher k = None /\ use_cryptex s = false /\ pending_roc s = 0;
  ready_services : rtp_services s = 3 }.

Lemma ready_with_cipher w p s k icm ck ak n c c' : ready w p s k icm ck ak n -> ciphers w !! rtp_cipher k = Some c ->
  ct_keyed (c_state c') ck -> is_icm c' = is_icm c -> is_gcm c' = is_gcm c -> ready (with_cipher w (rtp_cipher k) c') p s k icm ck ak n.
Proof using.
  intros [H1 H2 H3 H4 H5 H7 H8] Hc Hk Hi Hg. split; try done. exists c'. split; [by eapply with_cipher_lookup|]. split; [done|].
  destruct H3 as (c0 & Hc0 & _ & Hi0 & Hg0). rewrite Hc in Hc0. injection Hc0 as <-. by rewrite Hi, Hg.
Qed.

Lemma ready_with_auth w p s k icm ck ak n a' : ready w p s k icm ck ak n ->
  at_keyed (a_state a') ak -> prefix_len a' = 0 -> out_len a' = n -> ready (with_auth w (rtp_auth k) a') p s k icm ck ak n.
Proof using.
  intros [H1 H2 H3 H4 H5 H7 H8] Hk Hp Ho. split; try done. exists a'. split; [|done]. destruct H4 as (a & Ha & _). by eapply with_auth_lookup.
Qed.

Lemma ready_mem w p s k icm ck ak n m : ready w p s k icm ck ak n -> ready (w <| mem := m |>) p s k icm ck ak n.
Proof using. intros [? ? ? ? ? ? ?]. by split. Qed.
Lemma ready_len w p s k icm ck ak n m : ready w p s k icm ck ak n -> ready (w <| pkt_octet_len := m |>) p s k icm ck ak n.
Proof using. intros [? ? ? ? ? ? ?]. by split. Qed.

(** ** The steps *)

(** A stream of the direction, or not used yet; it has the direction then. *)
Definition can_turn (s : srtp_stream_ctx_t) (d : direction_t) : Prop := direction s = d \/ direction s = dir_unknown.
Definition turned (s : srtp_stream_ctx_t) (d : direction_t) : srtp_stream_ctx_t := s <| direction := d |>.
Definition with_stream (w : world C A) (p : nat) (s : srtp_stream_ctx_t) : world C A := w <| ctx := set_stream (ctx w) (Listed p) s |>.

Lemma with_stream_same w p s : stream_list (ctx w) !! p = Some s -> with_stream w p s = w.
Proof using. intros Hs. destruct w as [? ? [l t] ? ? ? ? ?]. cbn in *. unfold with_stream. cbn. by rewrite list_insert_id. Qed.

Lemma with_stream_twice w p s s' : with_stream (with_stream w p s) p s' = with_stream w p s'.
Proof using. unfold with_stream. cbn. by rewrite list_insert_insert_eq. Qed.

Lemma check_direction_run w p s d : stream_list (ctx w) !! p = Some s -> can_turn s d ->
  check_direction (Listed p) d w = Some (inr tt, with_stream w p (turned s d)).
Proof using.
  intros Hs Hd. unfold check_direction. rewrite (bind_run _ _ _ _ _ (get_stream_run (Listed p) w s Hs)). case_bool_decide as H1.
  - rewrite with_stream_same; [done|]. rewrite Hs. f_equal. destruct s. cbn in *. by subst.
  - destruct Hd as [|Hd]; [done|]. by rewrite bool_decide_true by done.
Qed.

Lemma find_stream_insert l p s s' a i : l !! p = Some s -> SrtpSession.ssrc s' = SrtpSession.ssrc s -> find_stream (<[p := s']> l) a i = find_stream l a i.
Proof using.
  clear. revert p i. induction l as [|y l IH]; intros [|p] i Hl Hs; try done; cbn in *; [injection Hl as ->; by rewrite Hs|]. by rewrite IH.
Qed.

Definition after_limit (w : world C A) (k : srtp_session_keys_t) (l' : srtp_key_limit_ctx_t) : world C A := w <| limits := <[limit k := l']> (limits w) |>.

(** More packets are left than the soft limit; then one less is. *)
Definition limit_left (w : world C A) (k : srtp_session_keys_t) (m : Z) : Prop := exists l, limits w !! limit k = Some l /\ num_left l = m.

Lemma use_limit_run w p s k m : stream_list (ctx w) !! p = Some s -> limit_left w k m -> soft_limit < m < 18446744073709551616 ->
  exists l', use_limit (Listed p) k w = Some (inr tt, after_limit w k l') /\ limit_left (after_limit w k l') k (m - 1).
Proof using.
  intros Hs (l & Hl & <-) Hn. unfold soft_limit in Hn. exists (Key_limit (num_left l - 1) (state l)). split.
  - unfold use_limit. rewrite (bind_run _ _ _ _ _ (get_limit_run _ _ _ Hl)).
    unfold srtp_key_limit_update, soft_limit. rewrite u64_small by lia. destruct (Z.geb_spec (num_left l - 1) 65536); [|lia]. set (l' := Key_limit _ _).
    rewrite (bind_run _ _ w (after_limit w k l') tt eq_refl). by rewrite (bind_run _ _ _ _ _ (get_stream_run (Listed p) (after_limit w k l') s Hs)).
  - exists (Key_limit (num_left l - 1) (state l)). split; [|done]. apply lookup_insert_eq.
Qed.

Lemma ready_after_limit w p s k icm ck ak n l' : ready w p s k icm ck ak n -> ready (after_limit w k l') p s k icm ck ak n.
Proof using. intros [H1 H2 H3 H4 H5 H7 H8]. by split. Qed.

Lemma set_iv_run w p s k icm ck ak n est d ssrc : ready w p s k icm ck ak n -> hdr_ssrc (mem w) = Some ssrc ->
  let iv := packet_iv icm ssrc est in ct_fits ck iv 0 = true ->
  exists c, ct_at (c_state c) ck iv 0 /\ is_icm c = icm /\ is_gcm c = false /\ set_iv k est d w = Some (inr tt, with_cipher w (rtp_cipher k) c).
Proof using OC.
  intros H Hssrc iv Hf. destruct (ready_cipher _ _ _ _ _ _ _ _ H) as (c & Hc & Hk & Hi & Hg). destruct (ready_plain _ _ _ _ _ _ _ _ H) as (Hx & _).
  assert (length iv = 16%nat /\ Forall byte iv) as [Hl Hb].
  { unfold iv, packet_iv, est_octets. destruct icm; (split; [done|]).
    - apply Forall_app. split; [repeat constructor; unfold byte; lia|]. apply Forall_app. split; [|apply be64_bytes]. repeat constructor; apply u8_range.
    - apply Forall_app. split; [apply Forall_replicate; unfold byte; lia|apply be64_bytes]. }
  destruct (ct_set_iv_ok _ _ iv d Hk Hl Hb Hf) as (s' & Hset & Hat). exists (cipher_with c s'). split; [done|]. split; [done|]. split; [done|].
  unfold set_iv. rewrite (bind_run _ _ _ _ _ (get_cipher_run _ _ _ Hc)), (bind_run _ _ _ _ _ (pkt_run _ _ _ Hssrc)). rewrite Hi.
  rewrite (bind_run _ _ _ _ _ (cipher_set_iv_run _ _ _ _ _ _ _ Hc Hset)). by rewrite Hx.
Qed.

Lemma protect_range_run w p s k icm ck ak n h x : ready w p s k icm ck ak n -> Forall byte (mem w) ->
  0 <= pkt_octet_len w < 2147483648 -> pkt_octet_len w <= zlen (mem w) -> valid_header (mem w) (pkt_octet_len w) h x -> 12 <= h <= pkt_octet_len w ->
  protect_range s w = Some (inr (Some (h, pkt_octet_len w - h), x, false), w).
Proof using.
  intros H Hb Hlen Hmem [_ Hs] Hh. destruct (ready_plain _ _ _ _ _ _ _ _ H) as (_ & Hc & _). unfold protect_range. rewrite (ready_services _ _ _ _ _ _ _ _ H).
  change (Z.land 3 sec_serv_conf =? 0) with false. cbv iota. rewrite (bind_run _ _ _ _ _ (pkt_run _ _ _ Hs)).
  unfold payload_start in Hs. destruct (srtp_get_rtp_hdr_len (mem w)) as [hl|] eqn:Hhl; [|done]. unfold srtp_get_rtp_hdr_len in Hhl.
  destruct (hdr_cc (mem w)) as [cc|] eqn:Hcc; [|done]. destruct (hdr_x (mem w)) as [e|] eqn:He; [|done].
  assert (srtp_cryptex_protect_init s h w = Some (inr (false, h), w)) as Hi.
  { unfold srtp_cryptex_protect_init. rewrite (bind_run _ _ _ _ _ (pkt_run _ _ _ Hcc)), (bind_run _ _ _ _ _ (pkt_run _ _ _ He)). by rewrite Hc. }
  rewrite (bind_run _ _ _ _ _ Hi), (bind_run _ _ _ _ _ (gets_run _ _)). rewrite (proj2 (Z.leb_le h _)) by lia. cbn [negb].
  assert (i32 (u32 (pkt_octet_len w - h)) = pkt_octet_len w - h) as -> by (norm_words; lia). by rewrite (proj2 (Z.ltb_ge _ _)) by lia.
Qed.

Lemma ready_turned w p s k icm ck ak n d : ready w p s k icm ck ak n -> ready (with_stream w p (turned s d)) p (turned s d) k icm ck ak n.
Proof using.
  intros [H1 H2 H3 H4 H5 H7 H8]. split; try done. cbn. apply list_lookup_insert_eq. by eapply lookup_lt_Some.
Qed.

(** The database of the stream afterwards. *)
Definition with_rdbx (w : world C A) (p : nat) (s : srtp_stream_ctx_t) (x : srtp_rdbx_t) : world C A :=
  w <| ctx := set_stream (ctx w) (Listed p) (s <| rtp_rdbx := x |>) |>.

Lemma protect_index_run w p s k icm ck ak n seq est delta x : ready w p s k icm ck ak n -> hdr_seq (mem w) = Some seq ->
  srtp_rdbx_estimate_index (rtp_rdbx s) seq = (est, delta) -> srtp_rdbx_check (rtp_rdbx s) delta = Some srtp_err_status_ok ->
  srtp_rdbx_add_index (rtp_rdbx s) delta = Some (srtp_err_status_ok, x) ->
  protect_index (Listed p) w = Some (inr est, with_rdbx w p s x).
Proof using.
  intros H Hseq He Hc Ha. destruct (ready_plain _ _ _ _ _ _ _ _ H) as (_ & _ & Hroc). unfold protect_index.
  rewrite (bind_run _ _ _ _ _ (get_stream_run (Listed p) w s (ready_stream _ _ _ _ _ _ _ _ H))).
  assert (srtp_get_est_pkt_index (mem w) s = Some (srtp_err_status_ok, est, delta)) as Hest.
  { unfold srtp_get_est_pkt_index. rewrite Hseq, Hroc. cbn. by rewrite He. }
  rewrite (bind_run _ _ _ _ _ (pkt_run _ _ _ Hest)). rewrite bool_decide_true by done. cbn [negb andb]. rewrite bool_decide_false by done.
  rewrite (bind_run _ _ _ _ _ (lift_run _ _ _ Hc)). erewrite (bind_run _ _ w); [|by rewrite decide_True by done].
  rewrite (bind_run _ _ _ _ _ (lift_run _ _ _ Ha)). done.
Qed.

(** The payload, XOR the key stream. *)
Lemma payload_run w k c s ck iv h n x : ciphers w !! rtp_cipher k = Some c -> ct_at (c_state c) ck iv 0 -> rtp_xtn_hdr_cipher k = None ->
  0 <= h -> 0 <= n < 2147483648 -> h + n <= zlen (mem w) -> ct_fits ck iv n = true -> forall junk,
  exists c', ct_keyed (c_state c') ck /\ is_icm c' = is_icm c /\ is_gcm c' = is_gcm c /\
    let w' := (with_cipher w (rtp_cipher k) c') <| mem := stream_xor (ct_stream ck iv) 0 (mem w) h n |> in
    protect_payload junk s k (Some (h, n)) x false w = Some (inr tt, w') /\ unprotect_payload junk s k (Some (h, n)) x false w = Some (inr tt, w').
Proof using OC.
  intros Hc Hat Hx Hh Hn Hm Hf junk. destruct (ct_encrypt_ok _ _ _ 0 (mem w) h n Hat Hh Hn Hm Hf) as (s' & He & Hat').
  exists (cipher_with c s'). split; [by eapply ct_at_keyed|]. split; [done|]. split; [done|]. cbv zeta. unfold protect_payload, unprotect_payload, header_encryption. rewrite Hx.
  split; destruct x; rewrite !(bind_run _ _ _ _ _ (ret_run _ _)).
  1,2: erewrite (bind_run _ _ w); [done|]; by rewrite (bind_run _ _ _ _ _ (cipher_encrypt_run _ _ _ _ _ _ _ _ Hc He)).
  all: rewrite <- ct_decrypt_encrypt in He; erewrite (bind_run _ _ w); [done|]; by rewrite (bind_run _ _ _ _ _ (cipher_decrypt_run _ _ _ _ _ _ _ _ Hc He)).
Qed.
End steps.
