(* ===== verification/SrtpKdfProps.v ===== *)
(** * Key derivation is that of RFC 3711

    The octets that [srtp_kdf_generate] makes are those of the pseudo-random function of RFC
    3711, 4.3, for the master key; ciphers and authentication functions are initialised with
    the session keys put together from them. *)

From S2P Require Import Prelude Bytes Window KeyLimit Words SrtpSha1 SrtpAuth AesSpec Aes AesRounds AesInverse AesKeys SrtpCipher AesIcm SrtpHeader SrtpSession SrtpParts SrtpProtect SrtpPolicy SrtpKeys SrtpSteps.
Open Scope Z_scope.
Import Fips197.

(** ** The reference (RFC 3711, 4.3.1 and 4.3.3) *)

Module Rfc3711.
(** [key_id], the label followed by the 48-bit index 0, XOR the master salt, their ends aligned;
    a master key [mk] is the key and behind it 14 octets of salt. *)
Definition x (mk : list Z) (label : Z) : list Z := xor_list (AesIcm.salt mk) (replicate 7 0 ++ [label] ++ replicate 6 0).

(** AES in counter mode with the IV [x * 2^16]. *)
Definition prf_block (mk : list Z) (label i : Z) : list Z := Fips197.Cipher SBox (keys_of (base_key mk)) (x mk label ++ [i / 256; i mod 256]).
Definition PRF (mk : list Z) (label : Z) (n : nat) : list Z := map (fun p => nth (p mod 16) (prf_block mk label (Z.of_nat (p / 16))) 0) (seq 0 n).

(** Session keys: a cipher's is followed by its salt. *)
Definition cipher_key (mk : list Z) (key_label salt_label : Z) (n : nat) : list Z := PRF mk key_label (n - 14) ++ PRF mk salt_label 14.
Definition auth_key (mk : list Z) (label : Z) : list Z := PRF mk label 20.
End Rfc3711.
Import Rfc3711.

(** ** The key stream for a label *)

Lemma nonce_block label : byte label -> block (kdf_nonce label).
Proof. intros Hl. split; [done|]. unfold kdf_nonce. apply Forall_app. split; [apply Forall_replicate; unfold byte; lia|]. apply Forall_cons. split; [done|]. apply Forall_replicate. unfold byte. lia. Qed.

Lemma first_counter_nonce mk label : icm_key_ok mk -> first_counter mk (kdf_nonce label) = x mk label ++ [0; 0].
Proof.
  intros Hk. unfold first_counter, x. change (kdf_nonce label) with ((replicate 7 0 ++ [label] ++ replicate 6 0) ++ [0; 0]).
  rewrite xor_list_app by by rewrite (salt_length _ Hk). done.
Qed.

Lemma x_length mk label : icm_key_ok mk -> length (x mk label) = 14%nat.
Proof. intros Hk. unfold x, xor_list. rewrite length_zip_with, (salt_length _ Hk). done. Qed.

Lemma first_index_nonce mk label : icm_key_ok mk -> first_index mk (kdf_nonce label) = 0.
Proof.
  intros Hk. unfold first_index. rewrite (first_counter_nonce _ _ Hk). pose proof (x_length mk label Hk) as Hl.
  rewrite !app_nth2 by lia. by rewrite Hl.
Qed.

Lemma nonce_fits mk label n : icm_key_ok mk -> 0 <= n <= 1048560 -> icm_fits mk (kdf_nonce label) n = true.
Proof. intros Hk Hn. unfold icm_fits. rewrite (first_index_nonce _ _ Hk). apply Z.leb_le. Z.div_mod_to_equations. lia. Qed.

Lemma key_stream_prf mk label n : icm_key_ok mk -> Z.of_nat n <= 1048560 ->
  map (fun i => key_stream mk (kdf_nonce label) (Z.of_nat i)) (seq 0 n) = PRF mk label n.
Proof.
  intros Hk Hn. unfold PRF. apply map_ext_in. intros p Hp%in_seq. unfold key_stream, prf_block, ctr_block.
  rewrite (first_index_nonce _ _ Hk), (first_counter_nonce _ _ Hk), take_app_length' by by rewrite x_length.
  replace (Z.of_nat p mod 16) with (Z.of_nat (p mod 16)) by (rewrite Nat2Z.inj_mod; done). rewrite Nat2Z.id.
  replace (Z.of_nat p / 16) with (Z.of_nat (p / 16)) by (rewrite Nat2Z.inj_div; done).
  assert (0 <= Z.of_nat (p / 16) < 65536) as Hq by (rewrite Nat2Z.inj_div; change (Z.of_nat 16) with 16; Z.div_mod_to_equations; lia).
  set (q := Z.of_nat (p / 16)) in *. clearbody q.
  assert (u8 (Z.shiftr (0 + q) 8) = q / 256) as -> by (rewrite Z.shiftr_div_pow2 by lia; unfold u8, wrap; change (2 ^ 8) with 256; Z.div_mod_to_equations; lia).
  done.
Qed.

Lemma PRF_length mk label n : length (PRF mk label n) = n.
Proof. unfold PRF. by rewrite length_map, length_seq. Qed.

Lemma PRF_bytes mk label n : icm_key_ok mk -> byte label -> Z.of_nat n <= 1048560 -> Forall byte (PRF mk label n).
Proof.
  intros Hk Hl Hn. destruct (icm_init_spec (Icm_ctx [] [] [] (no_key 0) 0 (zlen mk)) mk Hk) as (c & _ & Hc); [done|].
  rewrite <- key_stream_prf by done. apply Forall_map, Forall_forall. intros p _. by eapply key_stream_byte, nonce_block.
Qed.

Lemma cipher_key_ok mk kl sl n : icm_key_ok mk -> byte kl -> byte sl -> n = 30%nat \/ n = 46%nat -> icm_key_ok (cipher_key mk kl sl n) /\ zlen (cipher_key mk kl sl n) = Z.of_nat n.
Proof.
  intros Hk Hkl Hsl Hn. unfold cipher_key, icm_key_ok, zlen. rewrite length_app, !PRF_length. split; [|lia]. split; [lia|].
  apply Forall_app. split; apply PRF_bytes; try done; lia.
Qed.

Lemma auth_key_ok mk label : icm_key_ok mk -> byte label -> Forall byte (auth_key mk label) /\ zlen (auth_key mk label) = 20.
Proof. intros Hk Hl. unfold auth_key, zlen. split; [apply PRF_bytes; [done|done|lia]|]. by rewrite PRF_length. Qed.

(** ** What initialisation reads *)

Lemma context_init_prefix c key n : key_size c = n -> n = 30 \/ n = 46 -> n <= zlen key ->
  srtp_aes_icm_context_init c key = srtp_aes_icm_context_init c (take (Z.to_nat n) key).
Proof.
  intros Hs Hn Hk. unfold srtp_aes_icm_context_init. rewrite Hs. case_match; [done|]. unfold SRTP_SALT_LEN. replace (n - (n - 14)) with 14 by lia. cbv zeta.
  change (14 <? 14) with false. cbv iota. rewrite rd_bytes_take by (unfold zlen in *; lia). destruct (rd_bytes key (n - 14) 14); [|done]. cbn [mbind option_bind].
  assert (Aes.srtp_aes_expand_encryption_key key (n - 14) (expanded_key c) = Aes.srtp_aes_expand_encryption_key (take (Z.to_nat n) key) (n - 14) (expanded_key c)) as ->; [|done].
  rewrite (expand_prefix key), (expand_prefix (take (Z.to_nat n) key)) by (unfold zlen in *; rewrite ?length_take; lia). by rewrite take_take, Nat.min_l by lia.
Qed.

Section hmac.
Context (junk pad : list Z).

Lemma rd_take k (l : list Z) i : i < Z.of_nat k -> rd (take k l) i = rd l i.
Proof using. intros Hi. destruct (Z.le_gt_cases 0 i); [rewrite !rd_nonneg, lookup_take_lt by lia; done|unfold rd; by rewrite (proj2 (Z.ltb_lt i 0)) by lia]. Qed.

Lemma hmac_init_prefix s key n : srtp_hmac_init junk pad s key n = srtp_hmac_init junk pad s (take (Z.to_nat n) key) n.
Proof using.
  unfold srtp_hmac_init. case_match; [done|]. erewrite (for_up_ext 0 n); [reflexivity|]. intros i [ip op] Hi. cbv beta iota. by rewrite rd_take by lia.
Qed.
End hmac.

(** ** Running the derivation *)

Section derive.
Context {C A : Type} {TC : CipherType C} {TA : AuthType A} {OC : CipherOk C TC} {OA : AuthOk A TA}.
Implicit Types w : world C A.

(** The first [n] octets of the key stream for a label. *)
Definition key_octets (ck : ct_secret) (label n : Z) : list Z := map (fun i => ct_stream ck (kdf_nonce label) (Z.of_nat i)) (seq 0 (Z.to_nat n)).

Lemma key_octets_length ck label n : 0 <= n -> zlen (key_octets ck label n) = n.
Proof using. intros Hn. unfold zlen, key_octets. rewrite length_map, length_seq. lia. Qed.

Lemma or_init_fail_run {X} (m : SrtpSession.M C A X) w w1 x : m w = Some (inr x, w1) -> or_init_fail m w = Some (inr x, w1).
Proof using. intros H. unfold or_init_fail, catch, mbind, M_bind. by rewrite H. Qed.

Lemma stream_xor_zeros f pre (rest : list Z) n :
  stream_xor f 0 (pre ++ replicate n 0 ++ rest) (zlen pre) (Z.of_nat n) = pre ++ map (fun i => f (Z.of_nat i)) (seq 0 n) ++ rest.
Proof using.
  apply rd_ext; [by rewrite stream_xor_length, !length_app, length_map, length_seq, length_replicate|]. intros j Hj. rewrite stream_xor_rd by lia. rewrite !rd_nonneg by lia.
  unfold zlen in *. rewrite !lookup_app. destruct (decide (Z.to_nat j < length pre)%nat) as [Hp|Hp].
  - destruct (lookup_lt_is_Some_2 pre (Z.to_nat j) Hp) as [y ->]. by rewrite (proj2 (Z.leb_gt _ _)) by lia.
  - rewrite (lookup_ge_None_2 pre) by lia. rewrite (proj2 (Z.leb_le _ _)) by lia. cbn [andb]. destruct (Z.ltb_spec j (Z.of_nat (length pre) + Z.of_nat n)).
    + rewrite lookup_replicate_2 by lia. cbn [fmap option_fmap option_map]. rewrite list_lookup_fmap, lookup_seq_lt by lia. cbn.
      rewrite Z.lxor_0_l. do 2 f_equal. lia.
    + rewrite (lookup_ge_None_2 (replicate n 0)), (lookup_ge_None_2 (map _ _)) by (rewrite ?length_map, ?length_seq, ?length_replicate; lia).
      by rewrite length_map, length_seq, length_replicate.
Qed.

Lemma with_cipher_over w a b c c' y : a <> b -> with_cipher (with_cipher (with_cipher w a c) b y) a c' = with_cipher (with_cipher w b y) a c'.
Proof using.
  intros Hab. unfold with_cipher. cbn. by rewrite !(insert_insert_ne _ a b), insert_insert_eq by done.
Qed.

Lemma kdf_clear_run w a c : a <> NULL -> ciphers w !! a = Some c -> srtp_kdf_clear a w = Some (inr tt, w <| ciphers := delete a (ciphers w) |>).
Proof using. intros Ha Hc. unfold srtp_kdf_clear, srtp_cipher_dealloc. rewrite (proj2 (Nat.eqb_neq a NULL)) by done. by rewrite (bind_run _ _ _ _ _ (get_cipher_run _ _ _ Hc)). Qed.

(** A keyed cipher with a key stream that is long enough for a key. *)
Definition kdf_cipher (c : srtp_cipher_t C) (ck : ct_secret) : Prop :=
  ct_keyed (c_state c) ck /\ forall label n, byte label -> 0 <= n <= 256 -> ct_fits ck (kdf_nonce label) n = true.

Lemma kdf_generate_run w a c ck label pre (mid rest : list Z) n : ciphers w !! a = Some c -> kdf_cipher c ck -> byte label -> 0 <= n <= 256 -> zlen mid = n ->
  exists s, kdf_cipher (cipher_with c s) ck /\
    srtp_kdf_generate a label (pre ++ mid ++ rest) (zlen pre) n w = Some (inr (pre ++ key_octets ck label n ++ rest), with_cipher w a (cipher_with c s)).
Proof using OC.
  intros Hc [Hk Hfit] Hl Hn Hz. destruct (nonce_block label Hl) as [Nl Nb].
  destruct (ct_set_iv_ok _ _ (kdf_nonce label) srtp_direction_encrypt Hk Nl Nb) as (s1 & H1 & A1); [apply Hfit; [done|lia]|].
  set (zeros := pre ++ replicate (Z.to_nat n) 0 ++ rest).
  destruct (ct_encrypt_ok s1 ck (kdf_nonce label) 0 zeros (zlen pre) n A1) as (s2 & H2 & A2); [apply zlen_nonneg|lia| |by apply Hfit|].
  { unfold zeros. rewrite !zlen_app. pose proof (zlen_nonneg rest). unfold zlen at 3. rewrite length_replicate. lia. }
  exists s2. split; [split; [by eapply ct_at_keyed|done]|]. unfold srtp_kdf_generate.
  rewrite (bind_run _ _ _ _ _ (cipher_set_iv_run _ _ _ _ _ _ _ Hc H1)). erewrite (bind_run (check _)) by done.
  assert (wr_bytes (pre ++ mid ++ rest) (zlen pre) (replicate (Z.to_nat n) 0) = Some zeros) as Hw.
  { apply wr_bytes_app. rewrite Hz. unfold zlen. rewrite length_replicate. lia. }
  rewrite (bind_run _ _ _ _ _ (lift_run _ _ _ Hw)). unfold cipher_encrypt_buffer.
  rewrite bind_assoc, (bind_run _ _ _ _ _ (get_cipher_run _ _ _ (with_cipher_lookup _ _ _ _ Hc))). cbn [srtp_cipher_encrypt cipher_with c_state]. rewrite H2.
  change (Z.of_nat 0) with 0. unfold zeros. rewrite <- (Z2Nat.id n) at 2 by lia. rewrite stream_xor_zeros. rewrite <- (with_cipher_twice w a (cipher_with c s1) (cipher_with c s2)). reflexivity.
Qed.

(** [base] octets of key and [n] of salt at the start of the buffer. *)
Lemma derive_key_run w a c ck key_label salt_label base n buf : ciphers w !! a = Some c -> kdf_cipher c ck -> byte key_label -> byte salt_label ->
  0 <= base <= 256 -> 0 <= n <= 256 -> base + n <= zlen buf ->
  exists s, kdf_cipher (cipher_with c s) ck /\
    derive_key a key_label salt_label base n buf w =
      Some (inr (key_octets ck key_label base ++ key_octets ck salt_label n ++ drop (Z.to_nat (base + n)) buf), with_cipher w a (cipher_with c s)).
Proof using OC.
  intros Hc Hk Hkl Hsl Hb Hn Hz. assert (exists a1 a2 a3, zlen a1 = base /\ zlen a2 = n /\ buf = a1 ++ a2 ++ a3 /\ a3 = drop (Z.to_nat (base + n)) buf) as (a1 & a2 & a3 & H1 & H2 & Hbuf & H3).
  { exists (take (Z.to_nat base) buf), (take (Z.to_nat n) (drop (Z.to_nat base) buf)), (drop (Z.to_nat (base + n)) buf). rewrite !zlen_take by (rewrite ?zlen_drop; lia).
    do 2 (split; [done|]). split; [|done]. rewrite <- (take_drop (Z.to_nat base) buf) at 1. f_equal. rewrite <- (take_drop (Z.to_nat n) (drop (Z.to_nat base) buf)) at 1. f_equal.
    rewrite drop_drop. f_equal. lia. }
  rewrite <- H3. rewrite Hbuf. clear Hbuf H3 Hz buf. unfold derive_key. assert (u32 base = base /\ u32 n = n) as [-> ->] by (split; norm_words; lia).
  destruct (kdf_generate_run w a c ck key_label [] a1 (a2 ++ a3) base Hc Hk Hkl Hb H1) as (s1 & K1 & R1). cbn [app] in R1. rewrite zlen_nil in R1.
  rewrite (bind_run _ _ _ _ _ (or_init_fail_run _ _ _ _ R1)). destruct (Z.ltb_spec 0 n).
  - destruct (kdf_generate_run (with_cipher w a (cipher_with c s1)) a (cipher_with c s1) ck salt_label (key_octets ck key_label base) a2 a3 n) as (s2 & K2 & R2); [by eapply with_cipher_lookup|done..|].
    rewrite key_octets_length in R2 by lia. exists s2. split; [done|]. rewrite (or_init_fail_run _ _ _ _ R2). by rewrite with_cipher_twice.
  - assert (n = 0) as -> by lia. destruct a2; [|by rewrite zlen_cons in H2; pose proof (zlen_nonneg a2); lia]. exists s1. split; [done|]. done.
Qed.

(** Initialised with the octets [key], and more behind them, an object is keyed. *)
Definition cipher_takes (s : C) (key : list Z) (ck : ct_secret) : Prop :=
  forall rest, exists s', ct_init s (key ++ rest) = Some (srtp_err_status_ok, s') /\ ct_keyed s' ck.
Definition auth_takes (s : A) (key : list Z) (ak : at_secret) : Prop :=
  forall rest, exists s', at_init s (key ++ rest) (zlen key) = Some (srtp_err_status_ok, s') /\ at_keyed s' ak.

Lemma cipher_init_run w a c key ck rest : ciphers w !! a = Some c -> cipher_takes (c_state c) key ck ->
  exists s, ct_keyed s ck /\ cipher_init a (key ++ rest) w = Some (inr srtp_err_status_ok, with_cipher w a (cipher_with c s)).
Proof using.
  intros Hc Ht. destruct (Ht rest) as (s & Hs & Hk). exists s. split; [done|]. unfold cipher_init. rewrite (bind_run _ _ _ _ _ (get_cipher_run _ _ _ Hc)).
  cbn [srtp_cipher_init]. by rewrite Hs.
Qed.

Lemma auth_init_run w a x key ak rest : auths w !! a = Some x -> auth_takes (a_state x) key ak -> a_key_len x = zlen key ->
  exists s, at_keyed s ak /\ auth_init a (key ++ rest) w = Some (inr srtp_err_status_ok, with_auth w a (auth_with x s)).
Proof using.
  intros Hx Ht Hl. destruct (Ht rest) as (s & Hs & Hk). exists s. split; [done|]. unfold auth_init. rewrite (bind_run _ _ _ _ _ (get_auth_run _ _ _ Hx)).
  unfold srtp_auth_init. rewrite Hl, Hs. done.
Qed.

Lemma init_auth_run w a c ck label b x ak n buf : ciphers w !! a = Some c -> kdf_cipher c ck -> byte label ->
  auths w !! b = Some x -> a_key_len x = n -> 0 <= n <= 256 -> n <= zlen buf -> auth_takes (a_state x) (key_octets ck label n) ak ->
  exists s t, kdf_cipher (cipher_with c s) ck /\ at_keyed t ak /\
    init_auth a label b buf w = Some (inr (key_octets ck label n ++ drop (Z.to_nat n) buf), with_auth (with_cipher w a (cipher_with c s)) b (auth_with x t)).
Proof using OC.
  intros Hc Hk Hl Hx Hxl Hn Hz Ht. unfold init_auth. rewrite (bind_run _ _ _ _ _ (get_auth_run _ _ _ Hx)). unfold srtp_auth_get_key_length. rewrite Hxl.
  assert (u32 n = n) as -> by (norm_words; lia).
  destruct (kdf_generate_run w a c ck label [] (take (Z.to_nat n) buf) (drop (Z.to_nat n) buf) n Hc Hk Hl Hn) as (s & K & R); [apply zlen_take; lia|].
  cbn [app] in R. rewrite take_drop, zlen_nil in R. rewrite (bind_run _ _ _ _ _ (or_init_fail_run _ _ _ _ R)).
  destruct (auth_init_run (with_cipher w a (cipher_with c s)) b x _ ak (drop (Z.to_nat n) buf) Hx Ht) as (t & Kt & Rt); [rewrite key_octets_length by lia; done|].
  rewrite (bind_run _ _ _ _ _ Rt). exists s, t. done.
Qed.

Lemma init_cipher_run w a c ck key_label salt_label b x xk base n old buf : ciphers w !! a = Some c -> kdf_cipher c ck -> byte key_label -> byte salt_label ->
  a <> b -> ciphers w !! b = Some x -> 0 <= base <= 200 -> 0 <= n <= 30 -> zlen buf = 256 ->
  cipher_takes (c_state x) (key_octets ck key_label base ++ key_octets ck salt_label n) xk ->
  exists s t salt, kdf_cipher (cipher_with c s) ck /\ ct_keyed t xk /\ (12 <= n -> salt = take 12 (key_octets ck salt_label n)) /\
    init_cipher a key_label salt_label b base n old buf w =
      Some (inr (salt, key_octets ck key_label base ++ key_octets ck salt_label n ++ drop (Z.to_nat (base + n)) buf),
        with_cipher (with_cipher w a (cipher_with c s)) b (cipher_with x t)).
Proof using OC.
  intros Hc Hk Hkl Hsl Hab Hx Hb Hn Hz Ht. unfold init_cipher.
  destruct (derive_key_run w a c ck key_label salt_label base n buf Hc Hk Hkl Hsl) as (s & K & R); [lia..|]. rewrite (bind_run _ _ _ _ _ R).
  set (key := key_octets ck key_label base) in *. set (slt := key_octets ck salt_label n) in *. set (rest := drop _ buf) in *.
  assert (zlen key = base /\ zlen slt = n /\ zlen rest = 256 - base - n) as (Zk & Zs & Zr).
  { unfold key, slt, rest. rewrite !key_octets_length, zlen_drop by lia. lia. }
  assert (exists salt, (12 <= n -> salt = take 12 slt) /\
    (if 0 <? n then lift (rd_bytes (key ++ slt ++ rest) base SRTP_AEAD_SALT_LEN) else mret old : SrtpSession.M C A _) (with_cipher w a (cipher_with c s)) =
      Some (inr salt, with_cipher w a (cipher_with c s))) as (salt & Hsalt & Rs).
  { unfold SRTP_AEAD_SALT_LEN. destruct (Z.ltb_spec 0 n); [|exists old; split; [lia|done]]. exists (take 12 (slt ++ rest)). split.
    - intros. apply take_app_le. unfold zlen in Zs. lia.
    - clearbody key slt rest. rewrite <- Zk, rd_bytes_at by (rewrite zlen_app; lia). done. }
  rewrite (bind_run _ _ _ _ _ Rs). destruct (cipher_init_run (with_cipher w a (cipher_with c s)) b x (key ++ slt) xk rest) as (t & Kt & Rt); [cbn; by rewrite lookup_insert_ne|done|].
  rewrite <- app_assoc in Rt. rewrite (bind_run _ _ _ _ _ Rt). exists s, t, salt. done.
Qed.
End derive.
