(* ===== verification/SrtpProps.v ===== *)
(** * SRTP: packets go through, and only genuine ones, once

    Protection of a packet by a stream in working order succeeds and gives the header, the
    payload XOR the key stream and the tag; unprotection gives the packet back, accepts only a
    packet with the right tag, and accepts no packet index twice. *)

From S2P Require Import Prelude Bytes BitVector Window Rdb Rdbx KeyLimit Words Sha1 SrtpAuth SrtpCipher AesIcm SrtpHeader SrtpSession SrtpParts SrtpProtect SrtpSteps.
Open Scope Z_scope.
Import SrtpHeader.

Section props.
Context {C A : Type} {TC : CipherType C} {TA : AuthType A} {OC : CipherOk C TC} {OA : AuthOk A TA}.
Implicit Types w : world C A.
Abbreviation M := (SrtpSession.M C A).

Lemma check_run w : (check srtp_err_status_ok : M unit) w = Some (inr tt, w).
Proof using. done. Qed.
Lemma check_as_run e w : (check_as e srtp_err_status_ok : M unit) w = Some (inr tt, w).
Proof using. done. Qed.

(** ** The tag *)

Lemma protect_tag_run w p s k icm ck ak n est : ready w p s k icm ck ak n -> Forall byte (mem w) ->
  let len := pkt_octet_len w in 0 <= len < 268435452 -> len + n <= zlen (mem w) ->
  exists x, at_keyed (a_state x) ak /\ prefix_len x = 0 /\ out_len x = n /\
    let b := take (Z.to_nat len) (mem w) in
    protect_tag k est len w = Some (inr tt, (with_auth w (rtp_auth k) x) <| mem := b ++ at_tag ak (b ++ roc_octets est) n (drop (Z.to_nat len) (mem w)) |>).
Proof using OA.
  intros H Hb len Hlen Hm. destruct (ready_auth _ _ _ _ _ _ _ _ H) as (x & Hx & Hk & Hp & Ho). destruct (ready_tag _ _ _ _ _ _ _ _ H) as [Hn Hmax].
  set (b := take (Z.to_nat len) (mem w)). assert (zlen b = len) as Hzb by (apply zlen_take; lia).
  destruct (tag_run (rtp_auth k) w x ak b est (drop (Z.to_nat len) (mem w)) n Hx Hk) as (x1 & x2 & x3 & H1 & H2 & H3 & K3 & O3 & P3);
    [by apply Forall_take|lia|done|rewrite zlen_drop; lia|done|]. exists x3. split; [done|]. split; [congruence|]. split; [done|]. cbv zeta.
  unfold protect_tag. rewrite (bind_run _ _ _ _ _ H1), (bind_run _ _ _ _ _ (check_run _)), !(bind_run _ _ _ _ _ (gets_run _ _)).
  assert (rd_bytes (mem (with_auth w (rtp_auth k) x1)) 0 (pkt_octet_len (with_auth w (rtp_auth k) x1)) = Some b) as Hrd by (apply rd_bytes_0; cbn; fold len; lia).
  rewrite (bind_run _ _ _ _ _ (lift_run _ _ _ Hrd)). change (pkt_octet_len (with_auth w (rtp_auth k) x1)) with len. rewrite <- Hzb at 1.
  rewrite (bind_run _ _ _ _ _ H2), (bind_run _ _ _ _ _ (check_run _)). specialize (H3 (with_auth w (rtp_auth k) x2) eq_refl).
  rewrite (bind_run _ _ _ _ _ H3). rewrite with_auth_twice. done.
Qed.

Lemma check_tag_run w p s k icm ck ak n est tmp_tag : ready w p s k icm ck ak n -> Forall byte (mem w) -> length tmp_tag = 16%nat -> Forall byte tmp_tag ->
  let len := pkt_octet_len w in n <= len < 268435452 -> len <= zlen (mem w) ->
  exists x, at_keyed (a_state x) ak /\ prefix_len x = 0 /\ out_len x = n /\
    let b := take (Z.to_nat (len - n)) (mem w) in
    check_tag tmp_tag k est n 0 w =
      Some (if bool_decide (take (Z.to_nat n) (at_tag ak (b ++ roc_octets est) n tmp_tag) = take (Z.to_nat n) (drop (Z.to_nat (len - n)) (mem w)))
            then inr tt else inl srtp_err_status_auth_fail, with_auth w (rtp_auth k) x).
Proof using OA.
  intros H Hb Htl Htb len Hlen Hm. destruct (ready_auth _ _ _ _ _ _ _ _ H) as (x & Hx & Hk & Hp & Ho). destruct (ready_tag _ _ _ _ _ _ _ _ H) as [Hn Hmax].
  unfold SRTP_MAX_TAG_LEN in Hn. set (b := take (Z.to_nat (len - n)) (mem w)). assert (zlen b = len - n) as Hzb by (apply zlen_take; lia).
  assert (zlen tmp_tag = 16) as Hzt by (unfold zlen; rewrite Htl; done).
  destruct (tag_run (rtp_auth k) w x ak b est tmp_tag n Hx Hk) as (x1 & x2 & x3 & H1 & H2 & H3 & K3 & O3 & P3);
    [by apply Forall_take|lia|done|lia|done|]. exists x3. split; [done|]. split; [congruence|]. split; [done|]. cbv zeta.
  unfold check_tag. rewrite (bind_run _ _ _ _ _ (get_auth_run _ _ _ Hx)). unfold srtp_auth_get_prefix_length. rewrite Hp. change (u32 0 =? 0) with true. cbv iota.
  rewrite (bind_run _ _ _ _ _ (ret_run _ _)), (bind_run _ _ _ _ _ (check_as_run _ _)), (bind_run _ _ _ _ _ H1), (bind_run _ _ _ _ _ (check_run _)), !(bind_run _ _ _ _ _ (gets_run _ _)).
  change (pkt_octet_len (with_auth w (rtp_auth k) x1)) with len. change (mem (with_auth w (rtp_auth k) x1)) with (mem w). rewrite Z.sub_0_r.
  assert (i32 (u32 (len - n)) = len - n) as -> by (norm_words; lia).
  assert (rd_bytes (mem w) 0 (len - n) = Some b) as Hrd by (apply rd_bytes_0; lia).
  rewrite (bind_run _ _ _ _ _ (lift_run _ _ _ Hrd)). rewrite <- Hzb at 1. rewrite (bind_run _ _ _ _ _ H2), (bind_run _ _ _ _ _ (check_run _)).
  specialize (H3 (with_auth w (rtp_auth k) x2) eq_refl). rewrite (bind_run _ _ _ _ _ H3), (bind_run _ _ _ _ _ (check_as_run _ _)).
  assert (Forall byte (at_tag ak (b ++ roc_octets est) n tmp_tag)) as Htag by by apply at_tag_bytes.
  assert (zlen (at_tag ak (b ++ roc_octets est) n tmp_tag) = 16) as Hzg by (rewrite at_tag_length; lia).
  destruct (srtp_octet_string_is_eq_spec (at_tag ak (b ++ roc_octets est) n tmp_tag) (mem w) (len - n) n Htag Hb) as (r & Hr & Hiff); [lia..|].
  rewrite (bind_run _ _ _ _ _ (lift_run _ _ _ Hr)). rewrite with_auth_twice. destruct (Z.eqb_spec r 0) as [Hr0|Hr0]; cbn [negb].
  - rewrite bool_decide_true; [done|]. by apply Hiff.
  - rewrite bool_decide_false; [done|]. by rewrite <- Hiff.
Qed.

Lemma stream_xor_bytes f q m pos n : (forall i, byte (f i)) -> Forall byte m -> Forall byte (stream_xor f q m pos n).
Proof using.
  intros Hf Hm. apply Forall_lookup. intros i x. unfold stream_xor. rewrite list_lookup_imap. destruct (m !! i) as [y|] eqn:Hy; [|done]. intros [= <-].
  assert (byte y) by by eapply Forall_lookup_1. case_match; [|done]. apply (in_range_lxor 8); [lia|done|apply Hf].
Qed.

(** ** The streams afterwards *)

(** [w'] is [w] with one packet less left for the keys [k] and the index of the packet in the
    database of stream [p]. *)
Definition used (w w' : world C A) (p : nat) (s : srtp_stream_ctx_t) (k : srtp_session_keys_t) (m : Z) (db : srtp_rdbx_t) : Prop :=
  ctx w' = set_stream (ctx w) (Listed p) (s <| rtp_rdbx := db |>) /\ limit_left w' k (m - 1).

Lemma ready_with_rdbx w p s k icm ck ak n db : ready w p s k icm ck ak n -> ready (with_rdbx w p s db) p (s <| rtp_rdbx := db |>) k icm ck ak n.
Proof using.
  intros [H1 H2 H3 H4 H5 H7 H8]. split; try done. cbn. apply list_lookup_insert_eq. by eapply lookup_lt_Some.
Qed.

(** ** Protection *)

(** The packet on the wire. *)
Definition sealed (icm : bool) (ck : ct_secret) (ak : at_secret) (ssrc est h len n : Z) (m : list Z) : list Z :=
  let m1 := stream_xor (ct_stream ck (packet_iv icm ssrc est)) 0 m h (len - h) in
  let b := take (Z.to_nat len) m1 in b ++ at_tag ak (b ++ roc_octets est) n (drop (Z.to_nat len) m1).

(** What a stream must know about a packet to process it. *)
Record acceptable (w : world C A) (p : nat) (s : srtp_stream_ctx_t) (m : list Z) (ssrc est : Z) (db : srtp_rdbx_t) : Prop := {
  acc_ssrc : hdr_ssrc m = Some ssrc;
  acc_stream : srtp_get_stream (ctx w) ssrc = Some (Listed p);
  acc_index : exists seq delta, hdr_seq m = Some seq /\ srtp_rdbx_estimate_index (rtp_rdbx s) seq = (est, delta) /\
    srtp_rdbx_check (rtp_rdbx s) delta = Some srtp_err_status_ok /\ srtp_rdbx_add_index (rtp_rdbx s) delta = Some (srtp_err_status_ok, db) }.

Context (alloc_ok : nat -> bool) (junk tmp_tag : list Z).

(** From the IV on. *)
Lemma protect_end w p s k icm ck ak n c iv h x est s0 : ready w p s k icm ck ak n -> ciphers w !! rtp_cipher k = Some c -> ct_at (c_state c) ck iv 0 ->
  Forall byte (mem w) -> let len := pkt_octet_len w in 12 <= h <= len -> len < 268435452 -> len + n <= zlen (mem w) -> ct_fits ck iv (len - h) = true ->
  rtp_xtn_hdr_cipher k = None /\ use_cryptex s = false /\ pending_roc s = 0 ->
  exists w', (_ ← protect_prefix k len; _ ← protect_payload junk s0 k (Some (h, len - h)) x false; _ ← protect_tag k est len;
      modify (fun w => w <| pkt_octet_len := i32 (u32 (len + n)) |>)) w = Some (inr tt, w') /\
    (let m1 := stream_xor (ct_stream ck iv) 0 (mem w) h (len - h) in
     let b := take (Z.to_nat len) m1 in mem w' = b ++ at_tag ak (b ++ roc_octets est) n (drop (Z.to_nat len) m1)) /\
    pkt_octet_len w' = len + n /\ ctx w' = ctx w /\ limits w' = limits w /\ ready w' p s k icm ck ak n.
Proof using OC OA.
  intros H Hc Hat Hb len Hh Hlen Hm Hf (Hx & _). destruct (ready_auth _ _ _ _ _ _ _ _ H) as (a & Ha & _ & Hpre & _).
  destruct (ready_tag _ _ _ _ _ _ _ _ H) as [Hn _]. unfold SRTP_MAX_TAG_LEN in Hn.
  erewrite (bind_run (protect_prefix k len) _ w w tt).
  2:{ unfold protect_prefix. rewrite (bind_run _ _ _ _ _ (get_auth_run _ _ _ Ha)). unfold srtp_auth_get_prefix_length. by rewrite Hpre. }
  destruct (payload_run w k c s0 ck iv h (len - h) x Hc Hat Hx ltac:(lia) ltac:(lia) ltac:(lia) Hf junk) as (c' & Hk' & Hi' & Hg' & Hpay & _).
  rewrite (bind_run _ _ _ _ _ Hpay). apply (ready_with_cipher _ _ _ _ _ _ _ _ c c') in H; [|done..].
  set (m1 := stream_xor _ 0 (mem w) h (len - h)) in *. apply (ready_mem _ _ _ _ _ _ _ _ m1) in H. set (w1 := (with_cipher w (rtp_cipher k) c') <| mem := m1 |>) in *.
  assert (zlen m1 = zlen (mem w)) as Hz by (unfold zlen, m1; by rewrite stream_xor_length).
  destruct (protect_tag_run w1 p s k icm ck ak n est H) as (a' & Ka & Pa & Oa & Htag).
  { apply stream_xor_bytes; [|done]. intros i. by eapply ct_stream_byte. } { cbn. fold len. lia. } { cbn. fold len. lia. }
  change (pkt_octet_len w1) with len in Htag. rewrite (bind_run _ _ _ _ _ Htag). eexists. split; [done|]. cbv zeta. split; [done|].
  split; [cbn; norm_words; lia|]. split; [done|]. split; [done|]. apply ready_len, ready_mem. by apply ready_with_auth.
Qed.

Lemma protect_spec w p s k icm ck ak n h x ssrc est db left : ready w p s k icm ck ak n -> can_turn s dir_srtp_sender ->
  acceptable w p s (mem w) ssrc est db -> Forall byte (mem w) -> limit_left w k left -> soft_limit < left < 18446744073709551616 ->
  let len := pkt_octet_len w in 0 <= len < 268435452 -> len + n <= zlen (mem w) -> valid_header (mem w) len h x ->
  let iv := packet_iv icm ssrc est in ct_fits ck iv 0 = true -> ct_fits ck iv (len - h) = true ->
  exists w', srtp_protect alloc_ok junk w = Some (inr tt, w') /\
    mem w' = sealed icm ck ak ssrc est h len n (mem w) /\ pkt_octet_len w' = len + n /\ used w w' p (turned s dir_srtp_sender) k left db /\
    ready w' p ((turned s dir_srtp_sender) <| rtp_rdbx := db |>) k icm ck ak n.
Proof using OC OA.
  intros H Hd [Hssrc Hst (seq & delta & Hseq & Hest & Hchk & Hadd)] Hb Hleft Hsoft len Hlen Hm Hv iv Hf0 Hf.
  destruct (ready_tag _ _ _ _ _ _ _ _ H) as [Hn _]. pose proof Hv as [Hval Hps]. unfold SRTP_MAX_TAG_LEN in Hn.
  destruct (valid_header_exists (mem w) len Hb ltac:(lia) Hval) as (h0 & x0 & [_ Hps0] & Hh). rewrite Hps in Hps0. injection Hps0 as <- <-.
  unfold srtp_protect, srtp_protect_mki. rewrite (bind_run _ _ _ _ _ (gets_run _ _)).
  assert (u32 (pkt_octet_len w) = len) as -> by (fold len; norm_words; lia).
  rewrite (bind_run _ _ _ _ _ (pkt_run _ _ _ Hval)), (bind_run _ _ _ _ _ (check_run _)). fold len. unfold octets_in_rtp_header. rewrite (proj2 (Z.ltb_ge len 12)) by lia.
  rewrite (bind_run _ _ _ _ _ (pkt_run _ _ _ Hssrc)). erewrite (bind_run _ _ w w (Listed p)).
  2:{ unfold sender_stream. rewrite (bind_run _ _ _ _ _ (gets_run _ _)). by rewrite Hst. }
  pose proof (ready_stream _ _ _ _ _ _ _ _ H) as Hs. rewrite (bind_run _ _ _ _ _ (check_direction_run w p s _ Hs Hd)).
  apply (ready_turned _ _ _ _ _ _ _ _ dir_srtp_sender) in H. set (w0 := with_stream w p _) in *. set (s0 := turned s _) in *. clear Hs. pose proof (ready_stream _ _ _ _ _ _ _ _ H) as Hs.
  rewrite (bind_run _ _ _ _ _ (get_stream_run (Listed p) w0 s0 Hs)). change (limit_left w k left) with (limit_left w0 k left) in Hleft.
  assert (srtp_get_session_keys_with_mki_index s0 false 0 = Some (Some k)) as Hk by (unfold srtp_get_session_keys_with_mki_index; by rewrite (ready_keys _ _ _ _ _ _ _ _ H)).
  rewrite (bind_run _ _ _ _ _ (lift_run _ _ _ Hk)). destruct (ready_cipher _ _ _ _ _ _ _ _ H) as (c & Hc & _ & _ & Hg). rewrite (bind_run _ _ _ _ _ (get_cipher_run _ _ _ Hc)), Hg.
  destruct (use_limit_run w0 p s0 k left Hs Hleft Hsoft) as (l' & Hlim & Hleft'). rewrite (bind_run _ _ _ _ _ Hlim).
  apply (ready_after_limit _ _ _ _ _ _ _ _ l') in H. set (w1 := after_limit w0 k l') in *. clear Hc c Hg.
  destruct (ready_auth _ _ _ _ _ _ _ _ H) as (a & Ha & _ & Hpre & Ho). rewrite (bind_run _ _ _ _ _ (get_auth_run _ _ _ Ha)).
  rewrite (bind_run _ _ _ _ _ (protect_range_run w1 p s0 k icm ck ak n h x H Hb ltac:(cbn; fold len; lia) ltac:(cbn; fold len; lia) Hv Hh)).
  change (srtp_inject_mki len k false) with (mret 0 : M Z). rewrite (bind_run _ _ _ _ _ (ret_run _ _)).
  rewrite (ready_services _ _ _ _ _ _ _ _ H). change (Z.land 3 sec_serv_auth =? 0) with false. cbv iota. rewrite Z.add_0_r.
  rewrite (bind_run _ _ _ _ _ (protect_index_run w1 p s0 k icm ck ak n seq est delta db H Hseq Hest Hchk Hadd)).
  apply (ready_with_rdbx _ _ _ _ _ _ _ _ db) in H. set (w2 := with_rdbx w1 p s0 db) in *. set (s2 := s0 <| rtp_rdbx := db |>) in *.
  destruct (set_iv_run w2 p s2 k icm ck ak n est srtp_direction_encrypt ssrc H Hssrc Hf0) as (c & Hat & Hi & Hg & Hiv). rewrite (bind_run _ _ _ _ _ Hiv).
  destruct (ready_cipher _ _ _ _ _ _ _ _ H) as (c0 & Hc0 & _ & Hi0 & Hg0).
  apply (ready_with_cipher _ _ _ _ _ _ _ _ c0 c) in H; [|done|by eapply ct_at_keyed|congruence|congruence].
  destruct (protect_end (with_cipher w2 (rtp_cipher k) c) p s2 k icm ck ak n c iv h x est s0 H) as (w' & Hrun & Hmem & Hlen' & Hctx & Hlim' & Hr);
    [by eapply with_cipher_lookup|done|done|cbn; fold len; lia|cbn; fold len; lia|cbn; fold len; lia|done|by destruct H as [_ _ _ _ _ ? _]|].
  exists w'. split; [rewrite <- Hrun; unfold srtp_auth_get_tag_length; rewrite Ho; reflexivity|].
  split; [done|]. split; [done|]. split; [|done]. split; [rewrite Hctx; cbn; by rewrite list_insert_insert_eq|]. destruct Hleft' as (l & Hl & Hnl). exists l. split; [|done]. by rewrite Hlim'.
Qed.

(** ** Unprotection *)

(** The tag of a packet of [len] octets is right. *)
Definition genuine (ak : at_secret) (est len n : Z) (m : list Z) : Prop :=
  let b := take (Z.to_nat (len - n)) m in
  take (Z.to_nat n) (at_tag ak (b ++ roc_octets est) n tmp_tag) = take (Z.to_nat n) (drop (Z.to_nat (len - n)) m).
#[global] Instance genuine_dec ak est len n m : Decision (genuine ak est len n m).
Proof using. unfold genuine. apply _. Defined.

(** Behind the check of the tag. *)
Definition unprotect_rest (p : nat) (s : srtp_stream_ctx_t) (k : srtp_session_keys_t) (ssrc est delta len n : Z) (enc : option (Z * Z)) (x : option Z) : M unit :=
  _ ← use_limit (Listed p) k;
  _ ← unprotect_payload junk s k enc x false;
  _ ← check_direction (Listed p) dir_srtp_receiver;
  p ← receiver_commit alloc_ok (Listed p) ssrc;
  _ ← receiver_index p est delta false;
  modify (fun w => w <| pkt_octet_len := i32 (u32 (i32 (u32 (len - n)) - 0)) |>).

Lemma unprotect_range_run w s h x n : rtp_services s = 3 -> use_cryptex s = false -> payload_start (mem w) = Some (h, x) ->
  let len := pkt_octet_len w in 0 <= n <= len -> len < 268435452 -> 0 <= h ->
  unprotect_range s n 0 w = if len - n <? h then Some (inl srtp_err_status_parse_err, w) else Some (inr (Some (h, len - n - h), x, false), w).
Proof using.
  intros Hsv Hc Hs len Hn Hlen Hh. unfold unprotect_range. rewrite Hsv. change (Z.land 3 sec_serv_conf =? 0) with false. cbv iota.
  rewrite (bind_run _ _ _ _ _ (pkt_run _ _ _ Hs)). unfold payload_start in Hs. destruct (srtp_get_rtp_hdr_len (mem w)) as [hl|]; [|done].
  destruct (hdr_x (mem w)) as [e|] eqn:He; [|done].
  assert (srtp_cryptex_unprotect_init s h w = Some (inr (false, h), w)) as Hi.
  { unfold srtp_cryptex_unprotect_init. rewrite (bind_run _ _ _ _ _ (pkt_run _ _ _ He)). by rewrite Hc. }
  rewrite (bind_run _ _ _ _ _ Hi), (bind_run _ _ _ _ _ (gets_run _ _)). fold len. rewrite Z.sub_0_r.
  assert (u32 (len - n) = len - n) as -> by (norm_words; lia). destruct (Z.leb_spec h (len - n)), (Z.ltb_spec (len - n) h); try lia; cbn [negb]; [|done].
  assert (u32 (len - n - h) = len - n - h) as -> by (norm_words; lia). done.
Qed.

(** Up to the check of the tag. *)
Lemma unprotect_check w p s k icm ck ak n h x ssrc seq est delta : ready w p s k icm ck ak n ->
  hdr_ssrc (mem w) = Some ssrc -> srtp_get_stream (ctx w) ssrc = Some (Listed p) -> hdr_seq (mem w) = Some seq ->
  srtp_rdbx_estimate_index (rtp_rdbx s) seq = (est, delta) -> srtp_rdbx_check (rtp_rdbx s) delta = Some srtp_err_status_ok ->
  Forall byte (mem w) -> length tmp_tag = 16%nat -> Forall byte tmp_tag ->
  let len := pkt_octet_len w in n <= len < 268435452 -> len <= zlen (mem w) -> valid_header (mem w) len h x ->
  let iv := packet_iv icm ssrc est in ct_fits ck iv 0 = true ->
  exists w1, ready w1 p s k icm ck ak n /\ mem w1 = mem w /\ ctx w1 = ctx w /\ limits w1 = limits w /\ pkt_octet_len w1 = len /\
    (exists c, ciphers w1 !! rtp_cipher k = Some c /\ ct_at (c_state c) ck iv 0) /\
    srtp_unprotect alloc_ok junk tmp_tag w =
      if len - n <? h then Some (inl srtp_err_status_parse_err, w1)
      else if decide (genuine ak est len n (mem w)) then unprotect_rest p s k ssrc est delta len n (Some (h, len - n - h)) x w1
      else Some (inl srtp_err_status_auth_fail, w1).
Proof using OC OA.
  intros H Hssrc Hst Hseq Hest Hchk Hb Htl Htb len Hlen Hm Hv iv Hf0. destruct (ready_tag _ _ _ _ _ _ _ _ H) as [Hn _]. unfold SRTP_MAX_TAG_LEN in Hn. pose proof Hv as [Hval Hps].
  destruct (valid_header_exists (mem w) len Hb ltac:(lia) Hval) as (h0 & x0 & [_ Hps0] & Hh). rewrite Hps in Hps0. injection Hps0 as <- <-.
  unfold srtp_unprotect, srtp_unprotect_mki. rewrite (bind_run _ _ _ _ _ (gets_run _ _)). assert (u32 (pkt_octet_len w) = len) as -> by (fold len; norm_words; lia).
  rewrite (bind_run _ _ _ _ _ (pkt_run _ _ _ Hval)), (bind_run _ _ _ _ _ (check_run _)). fold len. unfold octets_in_rtp_header. rewrite (proj2 (Z.ltb_ge len 12)) by lia.
  rewrite (bind_run _ _ _ _ _ (pkt_run _ _ _ Hssrc)). pose proof (ready_stream _ _ _ _ _ _ _ _ H) as Hs. destruct (ready_plain _ _ _ _ _ _ _ _ H) as (_ & Hcx & Hroc).
  assert (receiver_stream ssrc w = Some (inr (Listed p, est, delta, false), w)) as Hrs.
  { unfold receiver_stream. rewrite (bind_run _ _ _ _ _ (gets_run _ _)), Hst, (bind_run _ _ _ _ _ (get_stream_run (Listed p) w s Hs)).
    assert (srtp_get_est_pkt_index (mem w) s = Some (srtp_err_status_ok, est, delta)) as He by (unfold srtp_get_est_pkt_index; rewrite Hseq, Hroc; cbn; by rewrite Hest).
    rewrite (bind_run _ _ _ _ _ (pkt_run _ _ _ He)). rewrite bool_decide_true by done. cbn [negb andb]. rewrite bool_decide_false by done.
    by rewrite (bind_run _ _ _ _ _ (lift_run _ _ _ Hchk)), (bind_run _ _ _ _ _ (check_run _)). }
  rewrite (bind_run _ _ _ _ _ Hrs), (bind_run _ _ _ _ _ (get_stream_run (Listed p) w s Hs)).
  erewrite (bind_run _ _ w w (k, 0)). 2:{ unfold receiver_keys. by rewrite (bind_run _ _ _ _ _ (lift_run _ _ _ (ready_keys _ _ _ _ _ _ _ _ H))). }
  destruct (ready_cipher _ _ _ _ _ _ _ _ H) as (c0 & Hc0 & _ & Hi0 & Hg0). rewrite (bind_run _ _ _ _ _ (get_cipher_run _ _ _ Hc0)), Hg0.
  destruct (ready_auth _ _ _ _ _ _ _ _ H) as (a & Ha & _ & _ & Ho). rewrite (bind_run _ _ _ _ _ (get_auth_run _ _ _ Ha)). unfold srtp_auth_get_tag_length. rewrite Ho.
  assert (u32 n = n) as -> by (norm_words; lia).
  destruct (set_iv_run w p s k icm ck ak n est srtp_direction_decrypt ssrc H Hssrc Hf0) as (c & Hat & Hi & Hg & Hiv). rewrite (bind_run _ _ _ _ _ Hiv).
  apply (ready_with_cipher _ _ _ _ _ _ _ _ c0 c) in H; [|done|by eapply ct_at_keyed|congruence|congruence]. set (w1 := with_cipher w (rtp_cipher k) c) in *.
  assert (ciphers w1 !! rtp_cipher k = Some c) as Hc1 by (by eapply with_cipher_lookup).
  pose proof (unprotect_range_run w1 s h x n (ready_services _ _ _ _ _ _ _ _ H) Hcx Hps ltac:(cbn; fold len; lia) ltac:(cbn; fold len; lia) ltac:(lia)) as Hrange.
  change (pkt_octet_len w1) with len in Hrange. destruct (Z.ltb_spec (len - n) h).
  { exists w1. do 5 (split; [done|]). split; [by exists c|]. by rewrite (bind_stop _ _ _ _ _ Hrange). }
  rewrite (bind_run _ _ _ _ _ Hrange). rewrite (ready_services _ _ _ _ _ _ _ _ H). change (Z.land 3 sec_serv_auth =? 0) with false. cbv iota.
  destruct (check_tag_run w1 p s k icm ck ak n est tmp_tag H Hb Htl Htb ltac:(cbn; fold len; lia) ltac:(cbn; fold len; lia)) as (a' & Ka & Pa & Oa & Htag).
  change (pkt_octet_len w1) with len in Htag. exists (with_auth w1 (rtp_auth k) a'). split; [by apply ready_with_auth|]. do 4 (split; [done|]). split; [by exists c|].
  unfold genuine. cbv zeta in Htag. change (mem w1) with (mem w) in Htag.
  match goal with |- context [decide ?P] => destruct (decide P) end.
  - rewrite bool_decide_true in Htag by done. by rewrite (bind_run _ _ _ _ _ Htag).
  - rewrite bool_decide_false in Htag by done. by rewrite (bind_stop _ _ _ _ _ Htag).
Qed.

(** From the check of the tag to the end. *)
Lemma unprotect_end w p s k icm ck ak n c iv h x ssrc seq est delta db left : ready w p s k icm ck ak n -> can_turn s dir_srtp_receiver ->
  ciphers w !! rtp_cipher k = Some c -> ct_at (c_state c) ck iv 0 -> limit_left w k left -> soft_limit < left < 18446744073709551616 ->
  srtp_rdbx_estimate_index (rtp_rdbx s) seq = (est, delta) -> srtp_rdbx_add_index (rtp_rdbx s) delta = Some (srtp_err_status_ok, db) ->
  let len := pkt_octet_len w in 0 <= h <= len - n -> len < 268435452 -> len <= zlen (mem w) ->
  let run := unprotect_rest p s k ssrc est delta len n (Some (h, len - n - h)) x w in
  if ct_fits ck iv (len - n - h)
  then exists w', run = Some (inr tt, w') /\ mem w' = stream_xor (ct_stream ck iv) 0 (mem w) h (len - n - h) /\ pkt_octet_len w' = len - n /\
    used w w' p (turned s dir_srtp_receiver) k left db /\ ready w' p ((turned s dir_srtp_receiver) <| rtp_rdbx := db |>) k icm ck ak n
  else exists w', run = Some (inl srtp_err_status_cipher_fail, w') /\ mem w' = mem w /\ ctx w' = ctx w.
Proof using OC.
  intros H Hd Hc Hat Hleft Hsoft Hest Hadd len Hh Hlen Hm run. destruct (ready_tag _ _ _ _ _ _ _ _ H) as [Hn _]. pose proof (ready_stream _ _ _ _ _ _ _ _ H) as Hs.
  destruct (ready_plain _ _ _ _ _ _ _ _ H) as (Hx & _). unfold run, unprotect_rest. clear run.
  destruct (use_limit_run w p s k left Hs Hleft Hsoft) as (l' & Hlim & Hleft'). rewrite (bind_run _ _ _ _ _ Hlim).
  apply (ready_after_limit _ _ _ _ _ _ _ _ l') in H. set (w1 := after_limit w k l') in *.
  destruct (ct_fits ck iv (len - n - h)) eqn:Hf.
  - destruct (payload_run w1 k c s ck iv h (len - n - h) x Hc Hat Hx ltac:(lia) ltac:(lia) ltac:(cbn; lia) Hf junk) as (c' & Hk' & Hi' & Hg' & _ & Hpay).
    rewrite (bind_run _ _ _ _ _ Hpay). apply (ready_with_cipher _ _ _ _ _ _ _ _ c c') in H; [|done..].
    set (m1 := stream_xor _ 0 (mem w1) h (len - n - h)) in *. apply (ready_mem _ _ _ _ _ _ _ _ m1) in H. set (w2 := (with_cipher w1 (rtp_cipher k) c') <| mem := m1 |>) in *.
    rewrite (bind_run _ _ _ _ _ (check_direction_run w2 p s _ Hs Hd)).
    apply (ready_turned _ _ _ _ _ _ _ _ dir_srtp_receiver) in H. set (w3 := with_stream w2 p _) in *. set (s3 := turned s _) in *. pose proof (ready_stream _ _ _ _ _ _ _ _ H) as Hs3. unfold receiver_commit. rewrite (bind_run _ _ _ _ _ (ret_run _ _)).
    unfold receiver_index. rewrite bind_assoc, (bind_run _ _ _ _ _ (get_stream_run (Listed p) w3 s3 Hs3)). rewrite bind_assoc, (bind_run _ _ _ _ _ (lift_run _ _ _ Hadd)).
    erewrite (bind_run _ _ w3 (with_rdbx w3 p s3 db) tt) by done. eexists. split; [done|]. split; [done|]. split; [cbn; norm_words; lia|].
    split; [|by apply ready_len, ready_with_rdbx]. split; [cbn; by rewrite list_insert_insert_eq|]. destruct Hleft' as (l & Hl & Hnl). by exists l.
  - pose proof (ct_encrypt_terminus _ _ _ 0 (mem w1) h (len - n - h) Hat ltac:(lia) Hf) as He. rewrite <- ct_decrypt_encrypt in He.
    assert (exists w2, unprotect_payload junk s k (Some (h, len - n - h)) x false w1 = Some (inl srtp_err_status_cipher_fail, w2) /\ mem w2 = mem w /\ ctx w2 = ctx w)
      as (w2 & Hpay & Hm2 & Hc2); [|exists w2; by rewrite (bind_stop _ _ _ _ _ Hpay)].
    unfold unprotect_payload, header_encryption. rewrite Hx. assert (match x with Some _ => mret tt | None => mret tt end = (mret tt : M unit)) as Hmx by by destruct x.
    rewrite Hmx. rewrite !(bind_run _ _ _ _ _ (ret_run _ _)). rewrite bind_assoc, (bind_run _ _ _ _ _ (cipher_decrypt_run (rtp_cipher k) w1 c _ _ _ _ _ Hc He)).
    erewrite bind_stop by reflexivity. by eexists.
Qed.

(** A packet whose index is accepted: what becomes of it. *)
Lemma unprotect_spec w p s k icm ck ak n h x ssrc est db left : ready w p s k icm ck ak n -> can_turn s dir_srtp_receiver ->
  limit_left w k left -> soft_limit < left < 18446744073709551616 ->
  acceptable w p s (mem w) ssrc est db -> Forall byte (mem w) -> length tmp_tag = 16%nat -> Forall byte tmp_tag ->
  let len := pkt_octet_len w in n <= len < 268435452 -> len <= zlen (mem w) -> valid_header (mem w) len h x ->
  let iv := packet_iv icm ssrc est in ct_fits ck iv 0 = true ->
  let run := srtp_unprotect alloc_ok junk tmp_tag w in
  if decide (h <= len - n /\ genuine ak est len n (mem w) /\ ct_fits ck iv (len - n - h) = true)
  then exists w', run = Some (inr tt, w') /\ mem w' = stream_xor (ct_stream ck iv) 0 (mem w) h (len - n - h) /\ pkt_octet_len w' = len - n /\
    used w w' p (turned s dir_srtp_receiver) k left db /\ ready w' p ((turned s dir_srtp_receiver) <| rtp_rdbx := db |>) k icm ck ak n
  else exists st w', run = Some (inl st, w') /\ mem w' = mem w /\ ctx w' = ctx w.
Proof using OC OA.
  intros H Hd Hleft Hsoft [Hssrc Hst (seq & delta & Hseq & Hest & Hchk & Hadd)] Hb Htl Htb len Hlen Hm Hv iv Hf0 run.
  destruct (unprotect_check w p s k icm ck ak n h x ssrc seq est delta H Hssrc Hst Hseq Hest Hchk Hb Htl Htb Hlen Hm Hv Hf0)
    as (w1 & H1 & Hm1 & Hc1 & Hl1 & Hn1 & (c & Hc & Hat) & Hrun). unfold run. rewrite Hrun. fold len. clear Hrun run.
  destruct (ready_tag _ _ _ _ _ _ _ _ H) as [Hn _]. destruct (valid_header_exists (mem w) len Hb Hm (proj1 Hv)) as (h0 & x0 & [_ Hps0] & Hh).
  rewrite (proj2 Hv) in Hps0. injection Hps0 as <- <-.
  destruct (Z.ltb_spec (len - n) h). { rewrite decide_False by lia. eexists _, w1. by rewrite Hm1, Hc1. }
  destruct (decide (genuine ak est len n (mem w))) as [Hg|Hg]; [|rewrite decide_False by tauto; eexists _, w1; by rewrite Hm1, Hc1].
  assert (limit_left w1 k left) as Hleft1 by (unfold limit_left; by rewrite Hl1). fold len in Hn1.
  pose proof (unprotect_end w1 p s k icm ck ak n c iv h x ssrc seq est delta db left H1 Hd Hc Hat Hleft1 Hsoft Hest Hadd ltac:(rewrite Hn1; lia) ltac:(rewrite Hn1; lia) ltac:(rewrite Hn1, Hm1; lia)) as He.
  cbv zeta in He. rewrite Hn1, Hm1 in He. destruct (ct_fits ck iv (len - n - h)) eqn:Hf.
  - rewrite decide_True by done. destruct He as (w' & He & Hm' & Hlen' & [Hc' Hleft'] & Hr'). exists w'. split; [exact He|]. split; [done|]. split; [done|].
    split; [split; [by rewrite Hc', Hc1|done]|done].
  - rewrite decide_False by (intros (_ & _ & [=])). destruct He as (w' & He & Hm' & Hc'). eexists _, w'. split; [exact He|]. by rewrite Hc'.
Qed.

(** ** Round trip *)

Lemma stream_xor_take f q m pos n l : take l (stream_xor f q m pos n) = stream_xor f q (take l m) pos n.
Proof using.
  apply list_eq. intros i. unfold stream_xor. destruct (decide (i < l)%nat).
  - rewrite lookup_take_lt, !list_lookup_imap, lookup_take_lt by done. done.
  - rewrite lookup_take_ge, list_lookup_imap, lookup_take_ge by lia. done.
Qed.

Lemma stream_xor_before f q m pos n l : (Z.of_nat l <= pos) -> take l (stream_xor f q m pos n) = take l m.
Proof using.
  intros Hl. apply list_eq. intros i. destruct (decide (i < l)%nat); [|by rewrite !lookup_take_ge by lia].
  rewrite !lookup_take_lt by done. unfold stream_xor. rewrite list_lookup_imap. rewrite (proj2 (Z.leb_gt _ _)) by lia. by destruct (m !! i).
Qed.

(** The packet [m] of [len] octets arrives. *)
Definition deliver (w : world C A) (m : list Z) (len : Z) : world C A := w <| mem := m |> <| pkt_octet_len := len |>.

Lemma sealed_spec icm ck ak ssrc est h len n m : 0 <= h <= len -> 0 <= n -> len + n <= zlen m -> n <= at_max ak -> n <= zlen tmp_tag ->
  let m' := sealed icm ck ak ssrc est h len n m in
  zlen m' = zlen m /\ take (Z.to_nat h) m = take (Z.to_nat h) m' /\ genuine ak est (len + n) n m' /\
  take (Z.to_nat len) (stream_xor (ct_stream ck (packet_iv icm ssrc est)) 0 m' h (len - h)) = take (Z.to_nat len) m.
Proof using OC OA.
  intros Hh Hn Hm Hmax Ht. unfold sealed. set (f := ct_stream ck (packet_iv icm ssrc est)). set (m1 := stream_xor f 0 m h (len - h)). cbv zeta.
  assert (zlen m1 = zlen m) as Hz by (unfold zlen, m1; by rewrite stream_xor_length). set (b := take (Z.to_nat len) m1). assert (zlen b = len) as Hzb by (apply zlen_take; lia).
  assert (zlen (drop (Z.to_nat len) m1) = zlen m - len) as Hzd by (rewrite zlen_drop; lia).
  set (t := at_tag ak (b ++ roc_octets est) n (drop (Z.to_nat len) m1)). assert (zlen t = zlen m - len) as Hzt by (unfold t; rewrite at_tag_length; lia).
  split; [rewrite zlen_app; lia|]. assert (length b = Z.to_nat len) as Hlb by (unfold zlen in Hzb; lia). split.
  { rewrite take_app_le by lia. unfold b. rewrite take_take, Nat.min_l by lia. unfold m1. symmetry. apply stream_xor_before. lia. }
  split.
  - unfold genuine. replace (len + n - n) with len by lia. rewrite take_app_length', drop_app_length' by done. unfold t. apply at_tag_take; lia.
  - rewrite stream_xor_take, take_app_length' by done. unfold b, m1. rewrite <- stream_xor_take. by rewrite stream_xor_twice.
Qed.

(** A packet goes from one end to the other. *)
Lemma packet_through (ws wr : world C A) (ps pr : nat) (ss sr : srtp_stream_ctx_t) (ks kr : srtp_session_keys_t) (icm : bool)
    (ck : ct_secret) (ak : at_secret) (n h ssrc est lefts leftr : Z) (x : option Z) (dbs dbr : srtp_rdbx_t) :
  ready ws ps ss ks icm ck ak n -> can_turn ss dir_srtp_sender -> limit_left ws ks lefts -> soft_limit < lefts < 18446744073709551616 ->
  ready wr pr sr kr icm ck ak n -> can_turn sr dir_srtp_receiver -> limit_left wr kr leftr -> soft_limit < leftr < 18446744073709551616 ->
  acceptable ws ps ss (mem ws) ssrc est dbs -> acceptable wr pr sr (mem ws) ssrc est dbr ->
  Forall byte (mem ws) -> length tmp_tag = 16%nat -> Forall byte tmp_tag ->
  let len := pkt_octet_len ws in 0 <= len < 268435436 -> len + n <= zlen (mem ws) -> valid_header (mem ws) len h x ->
  let iv := packet_iv icm ssrc est in ct_fits ck iv 0 = true -> ct_fits ck iv (len - h) = true ->
  exists ws' wr', srtp_protect alloc_ok junk ws = Some (inr tt, ws') /\ pkt_octet_len ws' = len + n /\
    srtp_unprotect alloc_ok junk tmp_tag (deliver wr (mem ws') (pkt_octet_len ws')) = Some (inr tt, wr') /\
    pkt_octet_len wr' = len /\ take (Z.to_nat len) (mem wr') = take (Z.to_nat len) (mem ws) /\
    used ws ws' ps (turned ss dir_srtp_sender) ks lefts dbs /\ used wr wr' pr (turned sr dir_srtp_receiver) kr leftr dbr /\
    ready ws' ps ((turned ss dir_srtp_sender) <| rtp_rdbx := dbs |>) ks icm ck ak n /\ ready wr' pr ((turned sr dir_srtp_receiver) <| rtp_rdbx := dbr |>) kr icm ck ak n.
Proof using OC OA.
  intros Hs Hds Hls Hss Hr Hdr Hlr Hsr As Ar Hb Htl Htb len Hlen Hm Hv iv Hf0 Hf. destruct (ready_tag _ _ _ _ _ _ _ _ Hs) as [Hn Hmax]. unfold SRTP_MAX_TAG_LEN in Hn.
  destruct (valid_header_exists (mem ws) len Hb ltac:(lia) (proj1 Hv)) as (h0 & x0 & [_ Hps0] & Hh). pose proof (proj2 Hv) as Hps. rewrite Hps in Hps0. injection Hps0 as <- <-.
  destruct (protect_spec ws ps ss ks icm ck ak n h x ssrc est dbs lefts Hs Hds As Hb Hls Hss ltac:(fold len; lia) Hm Hv Hf0 Hf) as (ws' & Hp & Hmem & Hlen' & Hu & Hrs).
  destruct (sealed_spec icm ck ak ssrc est h len n (mem ws)) as (Hz & Htake & Hgen & Hopen); [lia|lia|lia|done|unfold zlen; rewrite Htl; cbn; lia|].
  fold len in Hmem, Hlen'. rewrite <- Hmem in *. destruct (valid_header_same (mem ws) (mem ws') len (len + n) h x Hv Hb ltac:(lia) ltac:(lia) Htake) as (Hv' & Hseq' & Hssrc').
  destruct Ar as [Rssrc Rst (seq & delta & Rseq & Rest & Rchk & Radd)]. rewrite <- Hssrc' in Rssrc. rewrite <- Hseq' in Rseq.
  pose proof (ready_len _ _ _ _ _ _ _ _ (len + n) (ready_mem _ _ _ _ _ _ _ _ (mem ws') Hr)) as Hr'.
  destruct (set_iv_run ws ps ss ks icm ck ak n est srtp_direction_encrypt ssrc Hs (acc_ssrc _ _ _ _ _ _ _ As) Hf0) as (c0 & Hat0 & _).
  assert (forall i, byte (ct_stream ck (packet_iv icm ssrc est) i)) as Hsb by (intros i; exact (ct_stream_byte _ _ _ _ i Hat0)).
  assert (Forall byte (mem ws')) as Hb'.
  { rewrite Hmem. apply Forall_app. split; [apply Forall_take|apply at_tag_bytes, Forall_drop]; (apply stream_xor_bytes; [|done]); apply Hsb. }
  set (w := deliver wr (mem ws') (len + n)).
  assert (acceptable w pr sr (mem w) ssrc est dbr) as Aw by (split; [done|done|by exists seq, delta]).
  pose proof (unprotect_spec w pr sr kr icm ck ak n h x ssrc est dbr leftr Hr' Hdr Hlr Hsr Aw Hb' Htl Htb ltac:(cbn; lia) ltac:(cbn; lia) Hv' Hf0) as Hspec.
  cbv zeta in Hspec. change (pkt_octet_len w) with (len + n) in Hspec. change (mem w) with (mem ws') in Hspec.
  replace (len + n - n) with len in Hspec by lia. rewrite decide_True in Hspec by (split; [lia|done]).
  destruct Hspec as (wr' & Hrun & Hmem' & Hlr' & [Hcr Hleftr] & Hrr). exists ws', wr'. rewrite Hlen'. split; [done|]. split; [done|]. split; [exact Hrun|]. split; [done|].
  split; [by rewrite Hmem'|]. split; [done|]. split; [by split|]. done.
Qed.

(** C6. SRTP, both ends together.  The sender's and the receiver's stream are in working order
    with the same session keys, and of the right direction or not used yet, for a stream cipher and an authentication function that keep
    their interfaces, and agree on the index of the packet.  Protecting a packet whose header
    is valid succeeds and appends a tag; when the result arrives, unprotecting it succeeds and
    gives back the length and every octet of the packet, and both have used up the index. *)
Theorem srtp_roundtrip (ws wr : world C A) (ps pr : nat) (ss sr : srtp_stream_ctx_t) (ks kr : srtp_session_keys_t) (icm : bool)
    (ck : ct_secret) (ak : at_secret) (n h ssrc est lefts leftr : Z) (x : option Z) (dbs dbr : srtp_rdbx_t) :
  ready ws ps ss ks icm ck ak n -> can_turn ss dir_srtp_sender -> limit_left ws ks lefts -> soft_limit < lefts < 18446744073709551616 ->
  ready wr pr sr kr icm ck ak n -> can_turn sr dir_srtp_receiver -> limit_left wr kr leftr -> soft_limit < leftr < 18446744073709551616 ->
  acceptable ws ps ss (mem ws) ssrc est dbs -> acceptable wr pr sr (mem ws) ssrc est dbr ->
  Forall byte (mem ws) -> length tmp_tag = 16%nat -> Forall byte tmp_tag ->
  let len := pkt_octet_len ws in 0 <= len < 268435436 -> len + n <= zlen (mem ws) -> valid_header (mem ws) len h x ->
  let iv := packet_iv icm ssrc est in ct_fits ck iv 0 = true -> ct_fits ck iv (len - h) = true ->
  exists ws' wr', srtp_protect alloc_ok junk ws = Some (inr tt, ws') /\ pkt_octet_len ws' = len + n /\
    srtp_unprotect alloc_ok junk tmp_tag (deliver wr (mem ws') (pkt_octet_len ws')) = Some (inr tt, wr') /\
    pkt_octet_len wr' = len /\ take (Z.to_nat len) (mem wr') = take (Z.to_nat len) (mem ws) /\
    used ws ws' ps (turned ss dir_srtp_sender) ks lefts dbs /\ used wr wr' pr (turned sr dir_srtp_receiver) kr leftr dbr.
Proof using OC OA.
  intros Hs Hds Hls Hss Hr Hdr Hlr Hsr As Ar Hb Htl Htb len Hlen Hm Hv iv Hf0 Hf.
  destruct (packet_through ws wr ps pr ss sr ks kr icm ck ak n h ssrc est lefts leftr x dbs dbr Hs Hds Hls Hss Hr Hdr Hlr Hsr As Ar Hb Htl Htb Hlen Hm Hv Hf0 Hf)
    as (ws' & wr' & H1 & H2 & H3 & H4 & H5 & H6 & H7 & _). by exists ws', wr'.
Qed.

(** ** Genuine packets, once *)

Lemma unprotect_header w st : srtp_validate_rtp_header (mem w) (u32 (pkt_octet_len w)) = Some st -> st <> srtp_err_status_ok ->
  srtp_unprotect alloc_ok junk tmp_tag w = Some (inl st, w).
Proof using.
  intros Hv Hst. unfold srtp_unprotect, srtp_unprotect_mki. rewrite (bind_run _ _ _ _ _ (gets_run _ _)), (bind_run _ _ _ _ _ (pkt_run _ _ _ Hv)).
  erewrite bind_stop; [done|]. unfold check. by rewrite decide_False.
Qed.

Lemma unprotect_refused w p s seq ssrc est delta st : srtp_validate_rtp_header (mem w) (u32 (pkt_octet_len w)) = Some srtp_err_status_ok ->
  12 <= pkt_octet_len w -> hdr_ssrc (mem w) = Some ssrc -> srtp_get_stream (ctx w) ssrc = Some (Listed p) -> stream_list (ctx w) !! p = Some s -> pending_roc s = 0 ->
  hdr_seq (mem w) = Some seq -> srtp_rdbx_estimate_index (rtp_rdbx s) seq = (est, delta) -> srtp_rdbx_check (rtp_rdbx s) delta = Some st -> st <> srtp_err_status_ok ->
  srtp_unprotect alloc_ok junk tmp_tag w = Some (inl st, w).
Proof using.
  intros Hval H12 Hssrc Hst Hs Hroc Hseq Hest Hchk Hne. unfold srtp_unprotect, srtp_unprotect_mki. rewrite (bind_run _ _ _ _ _ (gets_run _ _)).
  rewrite (bind_run _ _ _ _ _ (pkt_run _ _ _ Hval)), (bind_run _ _ _ _ _ (check_run _)). unfold octets_in_rtp_header. rewrite (proj2 (Z.ltb_ge _ 12)) by lia.
  rewrite (bind_run _ _ _ _ _ (pkt_run _ _ _ Hssrc)). erewrite bind_stop; [done|].
  unfold receiver_stream. rewrite (bind_run _ _ _ _ _ (gets_run _ _)), Hst, (bind_run _ _ _ _ _ (get_stream_run (Listed p) w s Hs)).
  assert (srtp_get_est_pkt_index (mem w) s = Some (srtp_err_status_ok, est, delta)) as He by (unfold srtp_get_est_pkt_index; rewrite Hseq, Hroc; cbn; by rewrite Hest).
  rewrite (bind_run _ _ _ _ _ (pkt_run _ _ _ He)). rewrite bool_decide_true by done. cbn [negb andb]. rewrite bool_decide_false by done.
  rewrite (bind_run _ _ _ _ _ (lift_run _ _ _ Hchk)). erewrite bind_stop; [done|]. unfold check. by rewrite decide_False.
Qed.

(** What an accepted packet must be, and what is left of the session. *)
Definition accepted_packet (w w' : world C A) (p : nat) (s : srtp_stream_ctx_t) (k : srtp_session_keys_t) (icm : bool) (ck : ct_secret) (ak : at_secret)
    (n left : Z) (S : gset Z) : Prop :=
  exists h x seq ssrc est db,
    valid_header (mem w) (pkt_octet_len w) h x /\ hdr_ssrc (mem w) = Some ssrc /\ hdr_seq (mem w) = Some seq /\
    est mod 65536 = seq /\ (est ∉ S) /\ (index (rtp_rdbx s) - window_size (rtp_rdbx s) < est < index (rtp_rdbx s) + 65536) /\ genuine ak est (pkt_octet_len w) n (mem w) /\
    mem w' = stream_xor (ct_stream ck (packet_iv icm ssrc est)) 0 (mem w) h (pkt_octet_len w - n - h) /\ pkt_octet_len w' = (pkt_octet_len w) - n /\
    used w w' p (turned s dir_srtp_receiver) k left db /\ rdbx_rel db ({[est]} ∪ S) /\ window_size db = window_size (rtp_rdbx s) /\
    ready w' p ((turned s dir_srtp_receiver) <| rtp_rdbx := db |>) k icm ck ak n.

(** Any octets arrive. *)
Lemma unprotect_arrival (w : world C A) (p : nat) (s : srtp_stream_ctx_t) (k : srtp_session_keys_t) (icm : bool) (ck : ct_secret) (ak : at_secret)
    (n left : Z) (S : gset Z) :
  ready w p s k icm ck ak n -> can_turn s dir_srtp_receiver -> limit_left w k left -> soft_limit < left < 18446744073709551616 ->
  rdbx_rel (rtp_rdbx s) S -> index (rtp_rdbx s) < 281474976645120 -> n <= 12 ->
  Forall byte (mem w) -> length tmp_tag = 16%nat -> Forall byte tmp_tag -> 0 <= pkt_octet_len w < 268435452 -> pkt_octet_len w <= zlen (mem w) ->
  (forall ssrc, hdr_ssrc (mem w) = Some ssrc -> srtp_get_stream (ctx w) ssrc = Some (Listed p)) ->
  (forall ssrc est, ct_fits ck (packet_iv icm ssrc est) 0 = true) ->
  exists r w', srtp_unprotect alloc_ok junk tmp_tag w = Some (r, w') /\
    match r with
    | inl _ => mem w' = mem w /\ ctx w' = ctx w
    | inr _ => accepted_packet w w' p s k icm ck ak n left S
    end.
Proof using OC OA.
  intros H Hd Hleft Hsoft Hrel Hidx Hn12 Hb Htl Htb Hlen Hm Hst Hf0. destruct (ready_plain _ _ _ _ _ _ _ _ H) as (_ & _ & Hroc).
  pose proof (ready_stream _ _ _ _ _ _ _ _ H) as Hs. assert (u32 (pkt_octet_len w) = pkt_octet_len w) as Hu by (norm_words; lia).
  destruct (validate_total (mem w) (pkt_octet_len w) Hb ltac:(lia)) as (st & Hval & H12).
  destruct (decide (st = srtp_err_status_ok)) as [->|Hne]; [|exists (inl st), w; split; [by apply unprotect_header; [rewrite Hu|]|done]]. specialize (H12 eq_refl).
  destruct (valid_header_exists _ _ Hb Hm Hval) as (h & x & Hv & Hh). destruct (fixed_fields (mem w) Hb ltac:(lia)) as (seq & ssrc & Hseq & Hssrc & Hseqr). specialize (Hst ssrc Hssrc).
  assert (0 <= index (rtp_rdbx s)) by (rewrite (rdbx_index _ _ Hrel); apply top_nonneg).
  destruct (estimate_spec (rtp_rdbx s) seq) as (d & Hest & Hg & Hdr & Hmod); [lia|done|]. assert (rdbx_valid (rtp_rdbx s) (index (rtp_rdbx s) + d)) as Hval' by (split; lia).
  pose proof (rdbx_check_spec _ S _ Hrel Hval') as Hchk. replace (index (rtp_rdbx s) + d - index (rtp_rdbx s)) with d in Hchk by lia.
  destruct (decide (spec_check (index (rtp_rdbx s) - window_size (rtp_rdbx s) + 1) S (index (rtp_rdbx s) + d) = srtp_err_status_ok)) as [Hok|Hno].
  2:{ eexists (inl _), w. split; [|done]. eapply unprotect_refused; try done. by rewrite Hu. }
  rewrite Hok in Hchk. apply spec_check_ok in Hok as [Hlow Hnew]. destruct (rdbx_add_spec _ S _ Hrel Hval' Hlow) as (db & Hadd & Hrel' & Hw).
  replace (index (rtp_rdbx s) + d - index (rtp_rdbx s)) with d in Hadd by lia. set (est := index (rtp_rdbx s) + d) in *.
  assert (acceptable w p s (mem w) ssrc est db) as Acc by (split; [done|done|by exists seq, d]).
  pose proof (unprotect_spec w p s k icm ck ak n h x ssrc est db left H Hd Hleft Hsoft Acc Hb Htl Htb ltac:(lia) Hm Hv (Hf0 _ _)) as Hspec. cbv zeta in Hspec.
  case_decide as Hdec.
  - destruct Hspec as (w' & Hrun & Hmem & Hlen' & Hused & Hr). exists (inr tt), w'. split; [exact Hrun|]. exists h, x, seq, ssrc, est, db. destruct Hdec as (_ & Hgen & _). do 5 (split; [done|]). split; [lia|]. done.
  - destruct Hspec as (st & w' & Hrun & Hmem & Hctx). exists (inl st), w'. done.
Qed.

(** C5. SRTP against an attacker.  Whatever octets arrive at a receiving stream in working
    order, unprotection never leaves the packet or any other array.  It accepts a packet only
    when the tag at its end is the one that the authentication key gives for all octets in
    front of it and for the rollover counter of an index that has the packet's sequence number
    and was not accepted before; that index is then in the replay database.  When it refuses
    the packet, the packet and the session are as before. *)
Theorem srtp_unprotect_authentic (w : world C A) (p : nat) (s : srtp_stream_ctx_t) (k : srtp_session_keys_t) (icm : bool) (ck : ct_secret) (ak : at_secret)
    (n left : Z) (S : gset Z) :
  ready w p s k icm ck ak n -> can_turn s dir_srtp_receiver -> limit_left w k left -> soft_limit < left < 18446744073709551616 ->
  rdbx_rel (rtp_rdbx s) S -> index (rtp_rdbx s) < 281474976645120 -> n <= 12 ->
  Forall byte (mem w) -> length tmp_tag = 16%nat -> Forall byte tmp_tag -> 0 <= pkt_octet_len w < 268435452 -> pkt_octet_len w <= zlen (mem w) ->
  (forall ssrc, hdr_ssrc (mem w) = Some ssrc -> srtp_get_stream (ctx w) ssrc = Some (Listed p)) ->
  (forall ssrc est, ct_fits ck (packet_iv icm ssrc est) 0 = true) ->
  exists r w', srtp_unprotect alloc_ok junk tmp_tag w = Some (r, w') /\
    match r with
    | inl _ => mem w' = mem w /\ ctx w' = ctx w
    | inr _ => accepted_packet w w' p s k icm ck ak n left S
    end.
Proof using OC OA. apply unprotect_arrival. Qed.

(** The estimate for the sequence number of an index in the window is that index. *)
Lemma estimate_again db est : index db < 281474976645120 -> window_size db <= 32768 -> 0 <= est -> index db - window_size db < est <= index db ->
  srtp_rdbx_estimate_index db (est mod 65536) = (est, est - index db).
Proof using.
  clear. intros Hidx Hw H0 He. pose proof (Z.mod_pos_bound est 65536 ltac:(lia)) as Hr. unfold srtp_rdbx_estimate_index, seq_num_median. destruct (Z.gtb_spec (index db) 32768).
  - destruct (srtp_index_guess_spec (index db) (est mod 65536)) as (d & -> & Hd & Hm & _); [unfold seq_num_median; lia|lia|].
    assert (d = est - index db) as -> by (Z.div_mod_to_equations; lia). f_equal. lia.
  - rewrite Z.mod_small by lia. unfold u16, wrap. change (2 ^ 16) with 65536. by rewrite Z.mod_small by lia.
Qed.

(** C20. SRTP replay.  After a packet was accepted, every further packet for the stream with its
    sequence number, be it the same one or another, is refused at once as a replay and nothing
    is changed, for replay windows of at most 32768 indices. *)
Theorem srtp_replay_refused (w w1 : world C A) (p : nat) (s : srtp_stream_ctx_t) (k : srtp_session_keys_t) (icm : bool) (ck : ct_secret) (ak : at_secret)
    (n left len2 ssrc h2 : Z) (S : gset Z) (m2 : list Z) (x2 : option Z) :
  ready w p s k icm ck ak n -> rdbx_rel (rtp_rdbx s) S -> index (rtp_rdbx s) < 281474976579584 -> window_size (rtp_rdbx s) <= 32768 ->
  accepted_packet w w1 p s k icm ck ak n left S -> hdr_ssrc (mem w) = Some ssrc -> srtp_get_stream (ctx w) ssrc = Some (Listed p) ->
  Forall byte m2 -> 0 <= len2 < 2147483648 -> len2 <= zlen m2 -> valid_header m2 len2 h2 x2 -> hdr_ssrc m2 = hdr_ssrc (mem w) -> hdr_seq m2 = hdr_seq (mem w) ->
  srtp_unprotect alloc_ok junk tmp_tag (deliver w1 m2 len2) = Some (inl srtp_err_status_replay_fail, deliver w1 m2 len2).
Proof using OC OA.
  intros H Hrel Hidx Hw (h & x & seq & ssrc0 & est & db & Hv & _ & Hseq & Hmod & Hnew & Hest & _ & _ & _ & [Hctx _] & Hrel' & Hwdb & Hr1) Hssrc Hst Hb2 Hlen2 Hm2 Hv2 Hs2 Hq2.
  pose proof (ready_stream _ _ _ _ _ _ _ _ H) as Hs. destruct (validate_total m2 len2 Hb2 ltac:(lia)) as (st & Hval & H12). rewrite (proj1 Hv2) in Hval. injection Hval as <-. specialize (H12 eq_refl).
  assert (index db = Z.max est (index (rtp_rdbx s))) as Htop by (rewrite (rdbx_index _ _ Hrel'), top_insert, (rdbx_index _ _ Hrel); done).
  assert (0 <= est) as H0 by (apply (rdbx_nonneg _ _ Hrel'); set_solver). pose proof (rdbx_len _ _ Hrel) as Hwpos.
  pose proof (estimate_again db est ltac:(lia) ltac:(lia) H0 ltac:(lia)) as Hagain. rewrite Hmod in Hagain.
  assert (rdbx_valid db est) as Hvalid by (split; lia). pose proof (rdbx_check_spec db _ est Hrel' Hvalid) as Hchk.
  unfold spec_check in Hchk. rewrite (proj2 (Z.ltb_ge est _)), decide_True in Hchk by (lia || set_solver).
  apply (unprotect_refused (deliver w1 m2 len2) p ((turned s dir_srtp_receiver) <| rtp_rdbx := db |>) seq ssrc est (est - index db)); try done.
  - cbn. assert (u32 len2 = len2) as -> by (norm_words; lia). apply Hv2.
  - cbn. congruence.
  - cbn. rewrite Hctx. unfold srtp_get_stream, srtp_stream_list_get in *. cbn. by rewrite (find_stream_insert _ _ s).
  - exact (ready_stream _ _ _ _ _ _ _ _ Hr1).
  - apply (ready_plain _ _ _ _ _ _ _ _ H).
  - cbn. congruence.
Qed.
End props.
