(* ===== verification/SrtpRtcpProps.v ===== *)
(** * SRTCP: packets go through, and only genuine ones, once

    Protection of an RTCP packet by a stream in working order succeeds and gives the header, the
    reports XOR the key stream, the trailer with the next index and the tag; unprotection gives
    the packet back, accepts only a packet with the right tag, and no index twice. *)

From S2P Require Import Prelude Bytes BitVector Window Rdb Rdbx KeyLimit Words Sha1 SrtpAuth AesSpec SrtpCipher AesIcm SrtpHeader SrtpSession SrtpParts SrtpProtect SrtpRtcp SrtpSteps SrtpProps.
Open Scope Z_scope.
Import SrtpHeader.

Section props.
Context {C A : Type} {TC : CipherType C} {TA : AuthType A} {OC : CipherOk C TC} {OA : AuthOk A TA}.
Implicit Types w : world C A.
Abbreviation M := (SrtpSession.M C A).

(** ** Streams in working order *)

(** Stream [s] at [p] of [w] with the keys [k], whose objects for RTCP have the secrets [ck] and
    [ak]; [icm] is the kind of the cipher, [n] the length of the tag.  Reports are encrypted;
    SRTP of the stream does not use an AEAD cipher. *)
Record rtcp_ready (w : world C A) (p : nat) (s : srtp_stream_ctx_t) (k : srtp_session_keys_t) (icm : bool) (ck : ct_secret) (ak : at_secret) (n : Z) : Prop := {
  rr_stream : stream_list (ctx w) !! p = Some s;
  rr_keys : keys_at s 0 = Some k;
  rr_cipher : exists c, ciphers w !! rtcp_cipher k = Some c /\ ct_keyed (c_state c) ck /\ is_icm c = icm;
  rr_gcm : exists c, ciphers w !! rtp_cipher k = Some c /\ is_gcm c = false;
  rr_auth : exists a, auths w !! rtcp_auth k = Some a /\ at_keyed (a_state a) ak /\ prefix_len a = 0 /\ out_len a = n;
  rr_tag : 0 <= n <= SRTP_MAX_TAG_LEN /\ n <= at_max ak;
  rr_services : rtcp_services s = 3 }.

(** [c'] is [c] but for its state. *)
Definition same_kind (c c' : srtp_cipher_t C) : Prop := is_icm c' = is_icm c /\ is_gcm c' = is_gcm c.

Lemma rr_with_cipher w p s k icm ck ak n c c' : rtcp_ready w p s k icm ck ak n -> ciphers w !! rtcp_cipher k = Some c ->
  ct_keyed (c_state c') ck -> same_kind c c' -> rtcp_ready (with_cipher w (rtcp_cipher k) c') p s k icm ck ak n.
Proof using.
  intros [H1 H2 (c0 & Hc0 & _ & Hi0) (g & Hg & Hgg) H4 H5 H8] Hc Hk [Hi Hg']. rewrite Hc in Hc0. injection Hc0 as <-. split; try done.
  - exists c'. split; [by eapply with_cipher_lookup|]. by rewrite Hi.
  - destruct (decide (rtp_cipher k = rtcp_cipher k)) as [E|E].
    + exists c'. rewrite E in *. split; [by eapply with_cipher_lookup|]. rewrite Hc in Hg. injection Hg as <-. congruence.
    + exists g. split; [|done]. cbn. by rewrite lookup_insert_ne.
Qed.

Lemma rr_with_auth w p s k icm ck ak n a' : rtcp_ready w p s k icm ck ak n ->
  at_keyed (a_state a') ak -> prefix_len a' = 0 -> out_len a' = n -> rtcp_ready (with_auth w (rtcp_auth k) a') p s k icm ck ak n.
Proof using.
  intros [H1 H2 H3 H3' H4 H5 H8] Hk Hp Ho. split; try done. exists a'. split; [|done]. destruct H4 as (a & Ha & _). by eapply with_auth_lookup.
Qed.

Lemma rr_mem w p s k icm ck ak n m : rtcp_ready w p s k icm ck ak n -> rtcp_ready (w <| mem := m |>) p s k icm ck ak n.
Proof using. intros [? ? ? ? ? ? ?]. by split. Qed.
Lemma rr_len w p s k icm ck ak n m : rtcp_ready w p s k icm ck ak n -> rtcp_ready (w <| pkt_octet_len := m |>) p s k icm ck ak n.
Proof using. intros [? ? ? ? ? ? ?]. by split. Qed.

(** The database of the stream afterwards. *)
Definition with_rdb (w : world C A) (p : nat) (s : srtp_stream_ctx_t) (x : srtp_rdb_t) : world C A :=
  w <| ctx := set_stream (ctx w) (Listed p) (s <| rtcp_rdb := x |>) |>.

Lemma rr_turned w p s k icm ck ak n d : rtcp_ready w p s k icm ck ak n -> rtcp_ready (with_stream w p (turned s d)) p (turned s d) k icm ck ak n.
Proof using. intros [H1 H2 H3 H4 H5 H7 H8]. split; try done. cbn. apply list_lookup_insert_eq. by eapply lookup_lt_Some. Qed.

Lemma rr_with_rdb w p s k icm ck ak n x : rtcp_ready w p s k icm ck ak n -> rtcp_ready (with_rdb w p s x) p (s <| rtcp_rdb := x |>) k icm ck ak n.
Proof using. intros [H1 H2 H3 H4 H5 H7 H8]. split; try done. cbn. apply list_lookup_insert_eq. by eapply lookup_lt_Some. Qed.

(** ** The steps *)

Lemma rtcp_iv_block icm ssrc seq : length (rtcp_iv icm ssrc seq) = 16%nat /\ Forall byte (rtcp_iv icm ssrc seq).
Proof using.
  unfold rtcp_iv. destruct icm; (split; [done|]).
  - apply Forall_app. split; [repeat constructor; unfold byte; lia|]. apply Forall_app. split; [repeat constructor; apply u8_range|]. apply Forall_app. split; apply be32_bytes.
  - apply Forall_app. split; [apply Forall_replicate; unfold byte; lia|apply be32_bytes].
Qed.

Lemma rtcp_set_iv_run w p s k icm ck ak n seq d ssrc : rtcp_ready w p s k icm ck ak n -> rtcp_ssrc (mem w) = Some ssrc ->
  let iv := rtcp_iv icm ssrc seq in ct_fits ck iv 0 = true ->
  exists c c', ciphers w !! rtcp_cipher k = Some c /\ ct_at (c_state c') ck iv 0 /\ same_kind c c' /\ rtcp_set_iv k seq d w = Some (inr tt, with_cipher w (rtcp_cipher k) c').
Proof using OC.
  intros H Hssrc iv Hf. destruct (rr_cipher _ _ _ _ _ _ _ _ H) as (c & Hc & Hk & Hi). destruct (rtcp_iv_block icm ssrc seq) as [Hl Hb].
  destruct (ct_set_iv_ok _ _ iv d Hk Hl Hb Hf) as (s' & Hset & Hat). exists c, (cipher_with c s'). split; [done|]. split; [done|]. split; [done|].
  unfold rtcp_set_iv. rewrite (bind_run _ _ _ _ _ (get_cipher_run _ _ _ Hc)), (bind_run _ _ _ _ _ (pkt_run _ _ _ Hssrc)). rewrite Hi.
  by rewrite (bind_run _ _ _ _ _ (cipher_set_iv_run _ _ _ _ _ _ _ Hc Hset)).
Qed.

(** [start] and [compute] with the whole message. *)
Lemma rtcp_tag_run a w x k b old n : auths w !! a = Some x -> at_keyed (a_state x) k -> Forall byte b -> zlen b < 268435456 ->
  out_len x = n -> 0 <= n <= zlen old -> n <= at_max k ->
  exists x1 x2, auth_start a w = Some (inr srtp_err_status_ok, with_auth w a x1) /\
    auth_compute a b (zlen b) old (with_auth w a x1) = Some (inr (srtp_err_status_ok, at_tag k b n old), with_auth w a x2) /\
    at_keyed (a_state x2) k /\ out_len x2 = n /\ prefix_len x2 = prefix_len x.
Proof using OA.
  intros Hx Hk Hb Hlen Ho Hn Hmax. destruct (at_start_ok _ _ Hk) as (s1 & H1 & F1).
  destruct (at_compute_ok s1 k [] b n old F1 Hb) as (s3 & H3 & K3); [rewrite zlen_nil; lia|lia|lia|].
  exists (auth_with x s1), (auth_with x s3). split; [by apply auth_start_run|]. split; [|done].
  erewrite (auth_compute_run a _ (auth_with x s1) b (zlen b) old _ _ s3 (with_auth_lookup _ _ _ _ Hx)); [by rewrite with_auth_twice|]. cbn. rewrite Ho. exact H3.
Qed.

Lemma protect_rtcp_tag_run w p s k icm ck ak n len : rtcp_ready w p s k icm ck ak n -> Forall byte (mem w) -> 0 <= len < 268435452 -> len + 4 + n <= zlen (mem w) ->
  exists x, at_keyed (a_state x) ak /\ prefix_len x = 0 /\ out_len x = n /\
    let b := take (Z.to_nat (len + 4)) (mem w) in
    protect_rtcp_tag k len (len + 4) w = Some (inr tt, (with_auth w (rtcp_auth k) x) <| mem := b ++ at_tag ak b n (drop (Z.to_nat (len + 4)) (mem w)) |>).
Proof using OA.
  intros H Hb Hlen Hm. destruct (rr_auth _ _ _ _ _ _ _ _ H) as (x & Hx & Hk & Hp & Ho). destruct (rr_tag _ _ _ _ _ _ _ _ H) as [Hn Hmax].
  set (b := take (Z.to_nat (len + 4)) (mem w)). assert (zlen b = len + 4) as Hzb by (apply zlen_take; lia).
  destruct (rtcp_tag_run (rtcp_auth k) w x ak b (drop (Z.to_nat (len + 4)) (mem w)) n Hx Hk) as (x1 & x2 & H1 & H2 & K2 & O2 & P2);
    [by apply Forall_take|lia|done|rewrite zlen_drop; lia|done|]. exists x2. split; [done|]. split; [congruence|]. split; [done|]. cbv zeta.
  unfold protect_rtcp_tag. rewrite (bind_run _ _ _ _ _ H1), (bind_run _ _ _ _ _ (check_run _)), (bind_run _ _ _ _ _ (gets_run _ _)).
  change (mem (with_auth w (rtcp_auth k) x1)) with (mem w). unfold srtcp_trailer_size.
  assert (rd_bytes (mem w) 0 (len + 4) = Some b) as Hrd by (apply rd_bytes_0; lia).
  rewrite (bind_run _ _ _ _ _ (lift_run _ _ _ Hrd)). rewrite <- Hzb at 1. rewrite (bind_run _ _ _ _ _ H2). done.
Qed.

(** The key stream of no octets in front of the tag. *)
Lemma protect_rtcp_prefix_run w p s k icm ck ak n c iv pos : rtcp_ready w p s k icm ck ak n -> ciphers w !! rtcp_cipher k = Some c -> ct_at (c_state c) ck iv 0 ->
  0 <= pos <= zlen (mem w) -> ct_fits ck iv 0 = true ->
  exists c', ct_at (c_state c') ck iv 0 /\ same_kind c c' /\ protect_rtcp_prefix k pos w = Some (inr tt, with_cipher w (rtcp_cipher k) c').
Proof using OC.
  intros H Hc Hat Hpos Hf. destruct (rr_auth _ _ _ _ _ _ _ _ H) as (a & Ha & _ & Hp & _).
  destruct (ct_encrypt_ok _ _ _ 0 (mem w) pos 0 Hat ltac:(lia) ltac:(lia) ltac:(lia) Hf) as (s' & He & Hat').
  exists (cipher_with c s'). split; [done|]. split; [done|]. unfold protect_rtcp_prefix. rewrite (bind_run _ _ _ _ _ (get_auth_run _ _ _ Ha)).
  rewrite (bind_run _ _ _ _ _ (gets_run _ _)). unfold srtp_auth_get_prefix_length. rewrite Hp. change (u32 0) with 0.
  assert (wr_bytes (mem w) pos [] = Some (mem w)) as Hwr.
  { rewrite wr_bytes_Some by (rewrite ?zlen_nil; lia). rewrite zlen_nil, Z.add_0_r. cbn [app]. by rewrite take_drop. }
  erewrite (bind_run (cipher_output _ _ _ _)).
  2:{ unfold cipher_output. rewrite (bind_run _ _ _ _ _ (get_cipher_run _ _ _ Hc)). unfold srtp_cipher_output. change (replicate (Z.to_nat 0) 0) with (@nil Z). rewrite Hwr. cbn [mbind option_bind].
      rewrite He. cbn [mbind option_bind]. reflexivity. }
  rewrite stream_xor_0. done.
Qed.

(** Encryption of the reports. *)
Lemma rtcp_crypt_run w k c ck iv n : ciphers w !! rtcp_cipher k = Some c -> ct_at (c_state c) ck iv 0 ->
  0 <= n < 2147483648 -> 8 + n <= zlen (mem w) -> ct_fits ck iv n = true ->
  exists c', ct_keyed (c_state c') ck /\ same_kind c c' /\
    let w' := (with_cipher w (rtcp_cipher k) c') <| mem := stream_xor (ct_stream ck iv) 0 (mem w) 8 n |> in
    cipher_encrypt (rtcp_cipher k) 8 n w = Some (inr srtp_err_status_ok, w') /\ cipher_decrypt (rtcp_cipher k) 8 n w = Some (inr srtp_err_status_ok, w').
Proof using OC.
  intros Hc Hat Hn Hm Hf. destruct (ct_encrypt_ok _ _ _ 0 (mem w) 8 n Hat ltac:(lia) Hn ltac:(lia) Hf) as (s' & He & Hat').
  exists (cipher_with c s'). split; [by eapply ct_at_keyed|]. split; [done|]. cbv zeta.
  split; [by rewrite (cipher_encrypt_run _ _ _ _ _ _ _ _ Hc He)|]. rewrite <- ct_decrypt_encrypt in He. by rewrite (cipher_decrypt_run _ _ _ _ _ _ _ _ Hc He).
Qed.

(** ** Protection *)

(** The packet with its trailer. *)
Definition with_trailer (len seq : Z) (m : list Z) : list Z := take (Z.to_nat len) m ++ rtcp_trailer true seq ++ drop (Z.to_nat (len + 4)) m.

(** The packet on the wire. *)
Definition rtcp_sealed (icm : bool) (ck : ct_secret) (ak : at_secret) (ssrc seq len n : Z) (m : list Z) : list Z :=
  let m1 := stream_xor (ct_stream ck (rtcp_iv icm ssrc seq)) 0 (with_trailer len seq m) 8 (len - 8) in
  let b := take (Z.to_nat (len + 4)) m1 in b ++ at_tag ak b n (drop (Z.to_nat (len + 4)) m1).

Lemma trailer_bytes conf seq : Forall byte (rtcp_trailer conf seq) /\ zlen (rtcp_trailer conf seq) = 4.
Proof using. split; [apply be32_bytes|apply be32_length]. Qed.

Lemma with_trailer_ok len seq m : 0 <= len -> len + 4 <= zlen m -> Forall byte m ->
  wr_bytes m len (rtcp_trailer true seq) = Some (with_trailer len seq m) /\ Forall byte (with_trailer len seq m) /\ zlen (with_trailer len seq m) = zlen m.
Proof using.
  intros Hl Hm Hb. destruct (trailer_bytes true seq) as [Ht Hz]. rewrite wr_bytes_Some by (rewrite ?Hz; lia). rewrite Hz. split; [done|]. unfold with_trailer. split.
  - apply Forall_app. split; [by apply Forall_take|]. apply Forall_app. split; [done|by apply Forall_drop].
  - rewrite !zlen_app, Hz, zlen_take, zlen_drop by lia. lia.
Qed.

Context (alloc_ok : nat -> bool) (tmp_tag : list Z).

(** From the IV on. *)
Lemma protect_rtcp_end w p s k icm ck ak n ssrc seq len : rtcp_ready w p s k icm ck ak n -> rtcp_ssrc (mem w) = Some ssrc -> Forall byte (mem w) ->
  8 <= len < 268435432 -> len + 4 + n <= zlen (mem w) -> let iv := rtcp_iv icm ssrc seq in ct_fits ck iv 0 = true -> ct_fits ck iv (len - 8) = true ->
  exists w', (_ ← rtcp_set_iv k seq srtp_direction_encrypt; _ ← protect_rtcp_prefix k (len + 4);
      _ ← (status ← cipher_encrypt (rtcp_cipher k) 8 (u32 (len - 8)); check_as srtp_err_status_cipher_fail status);
      _ ← protect_rtcp_tag k len (len + 4);
      modify (fun w => w <| pkt_octet_len := i32 (u32 (i32 (u32 (len + (n + 4))) + 0)) |>)) w = Some (inr tt, w') /\
    (let m1 := stream_xor (ct_stream ck iv) 0 (mem w) 8 (len - 8) in
     let b := take (Z.to_nat (len + 4)) m1 in mem w' = b ++ at_tag ak b n (drop (Z.to_nat (len + 4)) m1)) /\
    pkt_octet_len w' = len + 4 + n /\ ctx w' = ctx w /\ limits w' = limits w /\ rtcp_ready w' p s k icm ck ak n.
Proof using OC OA.
  intros H Hssrc Hb Hlen Hm iv Hf0 Hf. destruct (rr_tag _ _ _ _ _ _ _ _ H) as [Hn Hmax]. unfold SRTP_MAX_TAG_LEN in Hn.
  destruct (rtcp_set_iv_run w p s k icm ck ak n seq srtp_direction_encrypt ssrc H Hssrc Hf0) as (c & c1 & Hc & Hat & Hk1 & Hiv). rewrite (bind_run _ _ _ _ _ Hiv).
  apply (rr_with_cipher _ _ _ _ _ _ _ _ c c1) in H; [|done|by eapply ct_at_keyed|done]. assert (ciphers (with_cipher w (rtcp_cipher k) c1) !! rtcp_cipher k = Some c1) as Hc1 by by eapply with_cipher_lookup.
  destruct (protect_rtcp_prefix_run _ p s k icm ck ak n c1 iv (len + 4) H Hc1 Hat ltac:(cbn; lia) Hf0) as (c2 & Hat2 & Hk2 & Hpre). rewrite (bind_run _ _ _ _ _ Hpre), with_cipher_twice.
  rewrite with_cipher_twice in Hpre. apply (rr_with_cipher _ _ _ _ _ _ _ _ c1 c2) in H; [|done|by eapply ct_at_keyed|done]. rewrite with_cipher_twice in H.
  assert (ciphers (with_cipher w (rtcp_cipher k) c2) !! rtcp_cipher k = Some c2) as Hc2 by by eapply with_cipher_lookup.
  assert (u32 (len - 8) = len - 8) as -> by (norm_words; lia).
  destruct (rtcp_crypt_run _ k c2 ck iv (len - 8) Hc2 Hat2 ltac:(lia) ltac:(cbn; lia) Hf) as (c3 & Hk3 & Hs3 & Henc & _).
  rewrite bind_assoc, (bind_run _ _ _ _ _ Henc), (bind_run _ _ _ _ _ (check_as_run _ _)). rewrite with_cipher_twice in *.
  apply (rr_with_cipher _ _ _ _ _ _ _ _ c2 c3) in H; [|done..]. rewrite with_cipher_twice in H. change (mem (with_cipher w (rtcp_cipher k) c2)) with (mem w).
  set (m1 := stream_xor _ 0 (mem w) 8 (len - 8)) in *. apply (rr_mem _ _ _ _ _ _ _ _ m1) in H. set (w1 := (with_cipher w (rtcp_cipher k) c3) <| mem := m1 |>) in *.
  assert (zlen m1 = zlen (mem w)) as Hz by (unfold zlen, m1; by rewrite stream_xor_length).
  destruct (protect_rtcp_tag_run w1 p s k icm ck ak n len H) as (a' & Ka & Pa & Oa & Htag); [|lia|cbn; lia|].
  { apply stream_xor_bytes; [|done]. intros i. by eapply ct_stream_byte. }
  rewrite (bind_run _ _ _ _ _ Htag). eexists. split; [done|]. cbv zeta. split; [done|]. split; [cbn; norm_words; lia|]. split; [done|]. split; [done|].
  apply rr_len, rr_mem. by apply rr_with_auth.
Qed.

Lemma rtcp_protect_spec w p s k icm ck ak n ssrc : rtcp_ready w p s k icm ck ak n -> can_turn s dir_srtp_sender ->
  rtcp_ssrc (mem w) = Some ssrc -> srtp_get_stream (ctx w) ssrc = Some (Listed p) -> Forall byte (mem w) ->
  let seq := window_start (rtcp_rdb s) + 1 in 0 < seq < 2147483648 ->
  let len := pkt_octet_len w in 8 <= len < 268435432 -> len + 4 + n <= zlen (mem w) ->
  let iv := rtcp_iv icm ssrc seq in ct_fits ck iv 0 = true -> ct_fits ck iv (len - 8) = true ->
  exists w', srtp_protect_rtcp alloc_ok w = Some (inr tt, w') /\ mem w' = rtcp_sealed icm ck ak ssrc seq len n (mem w) /\ pkt_octet_len w' = len + 4 + n /\
    ctx w' = set_stream (ctx w) (Listed p) ((turned s dir_srtp_sender) <| rtcp_rdb := Rdb seq (Rdb.bitmask (rtcp_rdb s)) |>) /\ limits w' = limits w.
Proof using OC OA.
  intros H Hd Hssrc Hst Hb seq Hseq len Hlen Hm iv Hf0 Hf. destruct (rr_tag _ _ _ _ _ _ _ _ H) as [Hn _]. unfold SRTP_MAX_TAG_LEN in Hn.
  unfold srtp_protect_rtcp, srtp_protect_rtcp_mki. rewrite (bind_run _ _ _ _ _ (gets_run _ _)). fold len. unfold octets_in_rtcp_header. rewrite (proj2 (Z.ltb_ge len 8)) by lia.
  rewrite (bind_run _ _ _ _ _ (pkt_run _ _ _ Hssrc)). erewrite (bind_run _ _ w w (Listed p)).
  2:{ unfold rtcp_sender_stream. rewrite (bind_run _ _ _ _ _ (gets_run _ _)). by rewrite Hst. }
  pose proof (rr_stream _ _ _ _ _ _ _ _ H) as Hs. rewrite (bind_run _ _ _ _ _ (check_direction_run w p s _ Hs Hd)).
  apply (rr_turned _ _ _ _ _ _ _ _ dir_srtp_sender) in H. set (w0 := with_stream w p _) in *. set (s0 := turned s _) in *. clear Hs. pose proof (rr_stream _ _ _ _ _ _ _ _ H) as Hs.
  rewrite (bind_run _ _ _ _ _ (get_stream_run (Listed p) w0 s0 Hs)).
  assert (srtp_get_session_keys_with_mki_index s0 false 0 = Some (Some k)) as Hk by (unfold srtp_get_session_keys_with_mki_index; by rewrite (rr_keys _ _ _ _ _ _ _ _ H)).
  rewrite (bind_run _ _ _ _ _ (lift_run _ _ _ Hk)). destruct (rr_gcm _ _ _ _ _ _ _ _ H) as (c & Hc & Hg). rewrite (bind_run _ _ _ _ _ (get_cipher_run _ _ _ Hc)), Hg.
  destruct (rr_auth _ _ _ _ _ _ _ _ H) as (a & Ha & _ & _ & Ho). rewrite (bind_run _ _ _ _ _ (get_auth_run _ _ _ Ha)).
  unfold srtp_auth_get_tag_length. rewrite Ho. unfold rtcp_conf. rewrite (rr_services _ _ _ _ _ _ _ _ H). change (negb (Z.land 3 sec_serv_conf =? 0)) with true. cbv iota.
  unfold srtcp_trailer_size. rewrite (bind_run _ _ _ _ _ (ret_run 0 w0)).
  erewrite (bind_run (protect_rtcp_index _) _ w0 (with_rdb w0 p s0 (Rdb seq (Rdb.bitmask (rtcp_rdb s0)))) seq).
  2:{ unfold protect_rtcp_index. rewrite (bind_run _ _ _ _ _ (get_stream_run (Listed p) w0 s0 Hs)). unfold srtp_rdb_increment. change (window_start (rtcp_rdb s0)) with (window_start (rtcp_rdb s)).
      destruct (Z.geb_spec (window_start (rtcp_rdb s)) 2147483647); [lia|]. rewrite u32_small by lia. done. }
  apply (rr_with_rdb _ _ _ _ _ _ _ _ (Rdb seq (Rdb.bitmask (rtcp_rdb s0)))) in H. set (w1 := with_rdb w0 p s0 _) in *.
  destruct (with_trailer_ok len seq (mem w) ltac:(lia) ltac:(lia) Hb) as (Hwr & Hb2 & Hz2). rewrite (Z.add_0_r (len + 4)).
  rewrite (bind_run _ _ _ _ _ (pkt_run _ w1 _ Hwr)). apply (rr_mem _ _ _ _ _ _ _ _ (with_trailer len seq (mem w))) in H.
  erewrite (bind_run (set_mem _)) by reflexivity. set (w2 := w1 <| mem := _ |>) in *.
  assert (rtcp_ssrc (mem w2) = Some ssrc) as Hssrc2.
  { unfold rtcp_ssrc in *. cbn. unfold with_trailer. replace (rd_bytes _ 4 4) with (rd_bytes (mem w) 4 4); [done|].
    rewrite !rd_bytes_Some by (rewrite ?zlen_app, ?zlen_take, ?zlen_drop by lia; pose proof (trailer_bytes true seq); lia). f_equal.
    rewrite drop_app_le by (rewrite length_take; unfold zlen in *; lia). rewrite take_app_le by (rewrite length_drop, length_take; unfold zlen in *; lia).
    rewrite !take_drop_commute, take_take. do 2 f_equal. lia. }
  destruct (protect_rtcp_end w2 p _ k icm ck ak n ssrc seq len H Hssrc2 Hb2 Hlen ltac:(cbn; lia) Hf0 Hf) as (w' & Hrun & Hmem & Hlen' & Hctx & Hlim & _).
  exists w'. split; [exact Hrun|]. split; [exact Hmem|]. split; [done|]. rewrite Hctx, Hlim. split; [|done]. cbn. by rewrite list_insert_insert_eq.
Qed.

(** ** The trailer *)

Lemma e_bit b : byte b -> (Z.land b SRTCP_E_BYTE_BIT =? SRTCP_E_BYTE_BIT) = (128 <=? b).
Proof using.
  intros Hb. apply Bool.eqb_prop.
  exact (all_bytes_spec (fun b => Bool.eqb (Z.land b SRTCP_E_BYTE_BIT =? SRTCP_E_BYTE_BIT) (128 <=? b)) ltac:(vm_compute; reflexivity) b Hb).
Qed.

Lemma e_bit_lor seq : 0 <= seq < 2147483648 -> Z.lor SRTCP_E_BIT seq = 2147483648 + seq.
Proof using. intros Hs. exact (lor_shiftl_add 31 1 seq ltac:(lia) Hs). Qed.

Lemma get_be_four a b c d : byte a -> byte b -> byte c -> byte d -> get_be [a; b; c; d] = a * 16777216 + b * 65536 + c * 256 + d.
Proof using.
  intros Ha Hb Hc Hd. change [a; b; c; d] with ([a; b; c] ++ [d]). rewrite get_be_app_byte by done. change [a; b; c] with ([a; b] ++ [c]). rewrite get_be_app_byte by done.
  rewrite get_be_two by done. lia.
Qed.

(** The E bit and the index that the receiver reads. *)
Lemma trailer_fields t : length t = 4%nat -> Forall byte t ->
  let seq := Z.land (get_be t) SRTCP_INDEX_MASK in
  exists b, t !! 0%nat = Some b /\ 0 <= seq < 2147483648 /\ (t = rtcp_trailer true seq <-> (Z.land b SRTCP_E_BYTE_BIT =? SRTCP_E_BYTE_BIT) = true).
Proof using.
  destruct t as [|a [|b [|c [|d [|]]]]]; try done. intros _ Ht. rewrite !Forall_cons in Ht. destruct Ht as (Ha & Hb & Hc & Hd & _). exists a. split; [done|].
  unfold SRTCP_INDEX_MASK. change 2147483647 with (Z.ones 31). rewrite Z.land_ones by lia. change (2 ^ 31) with 2147483648. rewrite get_be_four, e_bit by done.
  set (v := a * 16777216 + b * 65536 + c * 256 + d). assert (0 <= v mod 2147483648 < 2147483648) as Hm by (apply Z.mod_pos_bound; lia). split; [done|].
  unfold rtcp_trailer. rewrite e_bit_lor, Z.leb_le by done. unfold byte in *. rewrite be32_shifts. unfold u8, wrap. change (2 ^ 8) with 256.
  rewrite !Z.shiftr_div_pow2 by lia. change (2 ^ 24) with 16777216. change (2 ^ 16) with 65536. change (2 ^ 8) with 256. subst v. split.
  - intros [= Ea _ _ _]. Z.to_euclidean_division_equations. lia.
  - intros H. assert (2147483648 + (a * 16777216 + b * 65536 + c * 256 + d) mod 2147483648 = a * 16777216 + b * 65536 + c * 256 + d) as -> by (Z.to_euclidean_division_equations; lia).
    f_equal; [|f_equal; [|f_equal; [|f_equal]]]; Z.to_euclidean_division_equations; lia.
Qed.

Lemma trailer_seq seq : 0 <= seq < 2147483648 -> Z.land (get_be (rtcp_trailer true seq)) SRTCP_INDEX_MASK = seq.
Proof using.
  intros Hs. unfold rtcp_trailer. rewrite e_bit_lor, get_be_be32 by lia. change SRTCP_INDEX_MASK with (Z.ones 31). rewrite Z.land_ones by lia.
  change (2 ^ 31) with 2147483648. Z.to_euclidean_division_equations; lia.
Qed.

(** ** Unprotection *)

(** The tag of a packet of [len] octets is right. *)
Definition rtcp_genuine (ak : at_secret) (len n : Z) (m : list Z) : Prop :=
  let b := take (Z.to_nat (len - n)) m in take (Z.to_nat n) (at_tag ak b n tmp_tag) = take (Z.to_nat n) (drop (Z.to_nat (len - n)) m).
#[global] Instance rtcp_genuine_dec ak len n m : Decision (rtcp_genuine ak len n m).
Proof using. unfold rtcp_genuine. apply _. Defined.

Lemma check_rtcp_tag_run w p s k icm ck ak n len : rtcp_ready w p s k icm ck ak n -> Forall byte (mem w) -> length tmp_tag = 16%nat -> Forall byte tmp_tag ->
  n <= len < 268435452 -> len <= zlen (mem w) ->
  exists x, at_keyed (a_state x) ak /\ prefix_len x = 0 /\ out_len x = n /\
    check_rtcp_tag tmp_tag k (len - n) (len - n) n w =
      Some (if decide (rtcp_genuine ak len n (mem w)) then inr tt else inl srtp_err_status_auth_fail, with_auth w (rtcp_auth k) x).
Proof using OA.
  intros H Hb Htl Htb Hlen Hm. destruct (rr_auth _ _ _ _ _ _ _ _ H) as (x & Hx & Hk & Hp & Ho). destruct (rr_tag _ _ _ _ _ _ _ _ H) as [Hn Hmax].
  unfold SRTP_MAX_TAG_LEN in Hn. unfold rtcp_genuine. set (b := take (Z.to_nat (len - n)) (mem w)). assert (zlen b = len - n) as Hzb by (apply zlen_take; lia).
  assert (zlen tmp_tag = 16) as Hzt by (unfold zlen; rewrite Htl; done).
  destruct (rtcp_tag_run (rtcp_auth k) w x ak b tmp_tag n Hx Hk) as (x1 & x2 & H1 & H2 & K2 & O2 & P2); [by apply Forall_take|lia|done|lia|done|].
  exists x2. split; [done|]. split; [congruence|]. split; [done|]. unfold check_rtcp_tag.
  rewrite (bind_run _ _ _ _ _ H1), (bind_run _ _ _ _ _ (check_run _)), (bind_run _ _ _ _ _ (gets_run _ _)). change (mem (with_auth w (rtcp_auth k) x1)) with (mem w).
  assert (rd_bytes (mem w) 0 (len - n) = Some b) as Hrd by (apply rd_bytes_0; lia).
  rewrite (bind_run _ _ _ _ _ (lift_run _ _ _ Hrd)). rewrite <- Hzb at 1. rewrite (bind_run _ _ _ _ _ H2), (bind_run _ _ _ _ _ (check_as_run _ _)).
  assert (Forall byte (at_tag ak b n tmp_tag)) as Htag by by apply at_tag_bytes.
  assert (zlen (at_tag ak b n tmp_tag) = 16) as Hzg by (rewrite at_tag_length; lia).
  destruct (srtp_octet_string_is_eq_spec (at_tag ak b n tmp_tag) (mem w) (len - n) n Htag Hb) as (r & Hr & Hiff); [lia..|].
  rewrite (bind_run _ _ _ _ _ (lift_run _ _ _ Hr)). destruct (Z.eqb_spec r 0) as [Hr0|Hr0]; cbn [negb].
  - rewrite decide_True; [done|]. by apply Hiff.
  - rewrite decide_False; [done|]. by rewrite <- Hiff.
Qed.

(** Behind the check of the tag. *)
Definition unprotect_rtcp_rest (p : nat) (k : srtp_session_keys_t) (seq len n : Z) : M unit :=
  _ ← unprotect_rtcp_prefix k (len - n);
  _ ← (status ← cipher_decrypt (rtcp_cipher k) 8 (len - (12 + n)); check_as srtp_err_status_cipher_fail status);
  _ ← modify (fun w => w <| pkt_octet_len := i32 (u32 (i32 (u32 (len - (n + 4))) - 0)) |>);
  rtcp_accept alloc_ok (Listed p) seq.

(** The packet is genuine and new. *)
Lemma unprotect_rtcp_end w p s k icm ck ak n c ssrc seq len S : rtcp_ready w p s k icm ck ak n -> can_turn s dir_srtp_receiver ->
  rtcp_ssrc (mem w) = Some ssrc -> let iv := rtcp_iv icm ssrc seq in ciphers w !! rtcp_cipher k = Some c -> ct_at (c_state c) ck iv 0 ->
  rdb_rel (rtcp_rdb s) S -> 0 <= seq < 2147483648 -> window_start (rtcp_rdb s) <= seq -> 12 + n <= len < 268435452 -> len <= zlen (mem w) ->
  if ct_fits ck iv (len - (12 + n))
  then exists w' db, unprotect_rtcp_rest p k seq len n w = Some (inr tt, w') /\ mem w' = stream_xor (ct_stream ck iv) 0 (mem w) 8 (len - (12 + n)) /\
    pkt_octet_len w' = len - (n + 4) /\ ctx w' = set_stream (ctx w) (Listed p) ((turned s dir_srtp_receiver) <| rtcp_rdb := db |>) /\ rdb_rel db ({[seq]} ∪ S) /\
    rtcp_ready w' p ((turned s dir_srtp_receiver) <| rtcp_rdb := db |>) k icm ck ak n
  else exists w', unprotect_rtcp_rest p k seq len n w = Some (inl srtp_err_status_cipher_fail, w') /\ mem w' = mem w /\ ctx w' = ctx w.
Proof using OC.
  intros H Hd Hssrc iv Hc Hat Hrel Hseq Hlow Hlen Hm. destruct (rr_tag _ _ _ _ _ _ _ _ H) as [Hn _]. unfold SRTP_MAX_TAG_LEN in Hn. unfold unprotect_rtcp_rest.
  destruct (rr_auth _ _ _ _ _ _ _ _ H) as (a & Ha & _ & Hpre & _).
  assert (unprotect_rtcp_prefix k (len - n) w = Some (inr tt, w)) as Hp.
  { unfold unprotect_rtcp_prefix. rewrite (bind_run _ _ _ _ _ (get_auth_run _ _ _ Ha)). unfold srtp_auth_get_prefix_length. by rewrite Hpre. }
  rewrite (bind_run _ _ _ _ _ Hp). destruct (ct_fits ck iv (len - (12 + n))) eqn:Hf.
  - destruct (rtcp_crypt_run w k c ck iv (len - (12 + n)) Hc Hat ltac:(lia) ltac:(lia) Hf) as (c' & Hk' & Hs' & _ & Hdec). rewrite bind_assoc, (bind_run _ _ _ _ _ Hdec), (bind_run _ _ _ _ _ (check_as_run _ _)).
    apply (rr_with_cipher _ _ _ _ _ _ _ _ c c') in H; [|done..]. set (m1 := stream_xor _ 0 (mem w) 8 _) in *.
    apply (rr_mem _ _ _ _ _ _ _ _ m1), (rr_len _ _ _ _ _ _ _ _ (len - (n + 4))) in H. set (w1 := _ <| pkt_octet_len := len - (n + 4) |>) in H.
    erewrite (bind_run (modify _) _ _ w1). 2:{ unfold modify, w1. assert (i32 (u32 (i32 (u32 (len - (n + 4))) - 0)) = len - (n + 4)) as -> by (norm_words; lia). done. }
    pose proof (rr_stream _ _ _ _ _ _ _ _ H) as Hs. unfold rtcp_accept. rewrite (bind_run _ _ _ _ _ (check_direction_run w1 p s _ Hs Hd)).
    apply (rr_turned _ _ _ _ _ _ _ _ dir_srtp_receiver) in H. set (w2 := with_stream w1 p _) in *. set (s2 := turned s _) in *. pose proof (rr_stream _ _ _ _ _ _ _ _ H) as Hs2.
    assert (rtcp_ssrc (mem w2) = Some ssrc) as Hssrc1.
    { unfold rtcp_ssrc in *. replace (rd_bytes (mem w2) 4 4) with (rd_bytes (mem w) 4 4); [done|]. assert (zlen m1 = zlen (mem w)) by (unfold zlen, m1; by rewrite stream_xor_length).
      change (mem w2) with m1. rewrite !rd_bytes_Some by lia. f_equal. rewrite !take_drop_commute. f_equal. symmetry. apply stream_xor_before. lia. }
    rewrite (bind_run _ _ _ _ _ (pkt_run _ _ _ Hssrc1)). unfold receiver_commit. rewrite (bind_run _ _ _ _ _ (ret_run _ _)), (bind_run _ _ _ _ _ (get_stream_run (Listed p) w2 s2 Hs2)).
    destruct (rdb_add_spec _ _ seq Hrel Hseq Hlow) as (db & Hadd & Hrel'). rewrite (bind_run _ _ _ _ _ (lift_run _ _ _ Hadd)).
    exists (with_rdb w2 p s2 db), db. do 3 (split; [done|]). split; [cbn; by rewrite list_insert_insert_eq|]. split; [done|]. by apply rr_with_rdb.
  - pose proof (ct_encrypt_terminus _ _ _ 0 (mem w) 8 (len - (12 + n)) Hat ltac:(lia) Hf) as He. rewrite <- ct_decrypt_encrypt in He.
    rewrite bind_assoc, (bind_run _ _ _ _ _ (cipher_decrypt_run (rtcp_cipher k) w c _ _ _ _ _ Hc He)). erewrite bind_stop by reflexivity. by eexists.
Qed.

(** The four octets of the trailer. *)
Lemma trailer_at m pos : 0 <= pos -> pos + 4 <= zlen m -> Forall byte m ->
  exists t b, rd_bytes m pos 4 = Some t /\ rd m pos = Some b /\ length t = 4%nat /\ Forall byte t /\ t !! 0%nat = Some b.
Proof using.
  intros Hp Hm Hb. rewrite rd_bytes_Some by lia. destruct (rd_is_Some m pos ltac:(lia)) as [b Hrd]. eexists _, b. split; [done|]. split; [done|].
  split; [rewrite length_take, length_drop; unfold zlen in *; lia|]. split; [by apply Forall_take, Forall_drop|].
  rewrite lookup_take_lt, lookup_drop by lia. rewrite rd_nonneg in Hrd by done. by rewrite Nat.add_0_r.
Qed.

(** The packet is long enough, its trailer has the E bit and a new index [seq], and its tag is
    right. *)
Definition rtcp_good w (s : srtp_stream_ctx_t) (ak : at_secret) (n : Z) (S : gset Z) (seq : Z) : Prop :=
  let len := pkt_octet_len w in
  12 + n <= len /\ rd_bytes (mem w) (len - (n + 4)) 4 = Some (rtcp_trailer true seq) /\ 0 <= seq < 2147483648 /\
  window_start (rtcp_rdb s) <= seq /\ (seq ∉ S) /\ rtcp_genuine ak len n (mem w).

Lemma good_seq w s ak n S seq t : rtcp_good w s ak n S seq -> rd_bytes (mem w) (pkt_octet_len w - (n + 4)) 4 = Some t -> seq = Z.land (get_be t) SRTCP_INDEX_MASK /\ t = rtcp_trailer true seq.
Proof using. intros (_ & Ht & Hs & _) Ht'. rewrite Ht in Ht'. injection Ht' as <-. by rewrite trailer_seq. Qed.

(** Up to the check of the tag. *)
(** A refusal with the session [w]. *)
Ltac refused w := eexists _, w; split; [reflexivity|]; split; [done|]; split; [done|]; intros seq' Hg'; pose proof Hg' as (?H & ?H & ?H & ?H & ?H & ?H).

Lemma unprotect_rtcp_check w p s k icm ck ak n S : rtcp_ready w p s k icm ck ak n -> rdb_rel (rtcp_rdb s) S ->
  (forall ssrc, rtcp_ssrc (mem w) = Some ssrc -> srtp_get_stream (ctx w) ssrc = Some (Listed p)) ->
  Forall byte (mem w) -> length tmp_tag = 16%nat -> Forall byte tmp_tag ->
  let len := pkt_octet_len w in 0 <= len < 268435452 -> len <= zlen (mem w) -> (forall ssrc seq, ct_fits ck (rtcp_iv icm ssrc seq) 0 = true) ->
  (exists st w', srtp_unprotect_rtcp alloc_ok tmp_tag w = Some (inl st, w') /\ mem w' = mem w /\ ctx w' = ctx w /\ forall seq, ~ rtcp_good w s ak n S seq) \/
  exists ssrc seq c w1, rtcp_ssrc (mem w) = Some ssrc /\ rtcp_good w s ak n S seq /\
    rtcp_ready w1 p s k icm ck ak n /\ mem w1 = mem w /\ ctx w1 = ctx w /\ ciphers w1 !! rtcp_cipher k = Some c /\ ct_at (c_state c) ck (rtcp_iv icm ssrc seq) 0 /\
    srtp_unprotect_rtcp alloc_ok tmp_tag w = unprotect_rtcp_rest p k seq len n w1.
Proof using OC OA.
  intros H Hrel Hst Hb Htl Htb len Hlen Hm Hf0. destruct (rr_tag _ _ _ _ _ _ _ _ H) as [Hn _]. unfold SRTP_MAX_TAG_LEN in Hn. pose proof (rr_stream _ _ _ _ _ _ _ _ H) as Hs.
  unfold srtp_unprotect_rtcp, srtp_unprotect_rtcp_mki. rewrite (bind_run _ _ _ _ _ (gets_run _ _)). fold len. rewrite (proj2 (Z.ltb_ge len 0)) by lia.
  assert (u32 len = len) as -> by (norm_words; lia). change (octets_in_rtcp_header + srtcp_trailer_size) with 12. unfold octets_in_rtcp_header, srtcp_trailer_size.
  destruct (Z.ltb_spec len 12) as [|H12]; [left; refused w; lia|].
  assert (exists ssrc, rtcp_ssrc (mem w) = Some ssrc) as [ssrc Hssrc] by (unfold rtcp_ssrc; rewrite rd_bytes_Some by lia; by eexists).
  rewrite (bind_run _ _ _ _ _ (pkt_run _ _ _ Hssrc)). erewrite (bind_run (rtcp_receiver_stream ssrc) _ w w (Listed p)).
  2:{ unfold rtcp_receiver_stream. rewrite (bind_run _ _ _ _ _ (gets_run _ _)). by rewrite (Hst ssrc Hssrc). }
  rewrite (bind_run _ _ _ _ _ (get_stream_run (Listed p) w s Hs)). erewrite (bind_run (rtcp_receiver_keys s false) _ w w (k, 0)).
  2:{ unfold rtcp_receiver_keys. by rewrite (bind_run _ _ _ _ _ (lift_run _ _ _ (rr_keys _ _ _ _ _ _ _ _ H))). }
  destruct (rr_auth _ _ _ _ _ _ _ _ H) as (a & Ha & _ & _ & Ho). rewrite (bind_run _ _ _ _ _ (get_auth_run _ _ _ Ha)). unfold srtp_auth_get_tag_length. rewrite Ho, !Z.add_0_r.
  assert (i32 (u32 (8 + n) + 4) = 12 + n) as -> by (norm_words; lia). destruct (Z.ltb_spec len (12 + n)) as [|Hlong]; [left; refused w; lia|].
  destruct (rr_gcm _ _ _ _ _ _ _ _ H) as (g & Hg & Hgg). rewrite (bind_run _ _ _ _ _ (get_cipher_run _ _ _ Hg)), Hgg. rewrite (rr_services _ _ _ _ _ _ _ _ H).
  change ((3 =? sec_serv_conf) || (3 =? sec_serv_conf_and_auth)) with true.
  assert (u32 n = n) as -> by (norm_words; lia). assert (u32 (len - (8 + n + 4)) = len - (12 + n)) as -> by (norm_words; lia).
  assert (u32 (len - n - 0) = len - n) as -> by (norm_words; lia). rewrite ?Z.add_0_r.
  destruct (trailer_at (mem w) (len - (n + 4)) ltac:(lia) ltac:(lia) Hb) as (t & b & Ht & Hrd & Htl4 & Htb4 & Hb0).
  rewrite (bind_run _ _ _ _ _ (pkt_run _ _ _ Ht)), (bind_run _ _ _ _ _ (pkt_run _ _ _ Hrd)).
  destruct (trailer_fields t Htl4 Htb4) as (b' & Hb' & Hseq & Htrail). rewrite Hb0 in Hb'. injection Hb' as <-. set (seq := Z.land (get_be t) SRTCP_INDEX_MASK) in *.
  destruct (Z.land b SRTCP_E_BYTE_BIT =? SRTCP_E_BYTE_BIT); [|left; refused w; destruct (good_seq _ _ _ _ _ _ _ Hg' Ht) as [-> Ht3]; by apply Htrail in Ht3]. cbn [Bool.eqb negb]. pose proof (proj2 Htrail eq_refl) as Ht2.
  rewrite (bind_run _ _ _ _ _ (lift_run _ _ _ (rdb_check_spec _ _ seq Hrel Hseq))). unfold spec_check.
  destruct (Z.ltb_spec seq (window_start (rtcp_rdb s))) as [|Hlow]; [left; refused w; destruct (good_seq _ _ _ _ _ _ _ Hg' Ht) as [-> _]; lia|]. destruct (decide (seq ∈ S)) as [|Hnew]; [left; refused w; by destruct (good_seq _ _ _ _ _ _ _ Hg' Ht) as [-> _]|].
  rewrite (bind_run _ _ _ _ _ (check_run _)).
  destruct (rtcp_set_iv_run w p s k icm ck ak n seq srtp_direction_decrypt ssrc H Hssrc (Hf0 _ _)) as (c & c1 & Hc & Hat & Hk1 & Hiv). rewrite (bind_run _ _ _ _ _ Hiv).
  apply (rr_with_cipher _ _ _ _ _ _ _ _ c c1) in H; [|done|by eapply ct_at_keyed|done].
  destruct (check_rtcp_tag_run _ p s k icm ck ak n len H Hb Htl Htb ltac:(lia) Hm) as (x & Kx & Px & Ox & Htag). change (mem (with_cipher w (rtcp_cipher k) c1)) with (mem w) in Htag.
  apply (rr_with_auth _ _ _ _ _ _ _ _ x) in H; [|done..]. set (w1 := with_auth _ _ x) in *.
  destruct (decide (rtcp_genuine ak len n (mem w))) as [Hgen|Hgen]; [|left; rewrite (bind_stop _ _ _ _ _ Htag); refused w1; done].
  right. exists ssrc, seq, c1, w1. rewrite (bind_run _ _ _ _ _ Htag). split; [done|]. split; [unfold rtcp_good; fold len; rewrite Ht; repeat split; (done || lia || by rewrite Ht2 at 1)|]. do 3 (split; [done|]).
  split; [exact (with_cipher_lookup w _ _ _ Hc)|]. by split.
Qed.

(** What an accepted packet must be, and what is left of the session. *)
Definition accepted_rtcp w w' (p : nat) (s : srtp_stream_ctx_t) (k : srtp_session_keys_t) (icm : bool) (ck : ct_secret) (ak : at_secret) (n : Z) (S : gset Z) : Prop :=
  exists ssrc seq db, let len := pkt_octet_len w in
    rtcp_ssrc (mem w) = Some ssrc /\ rtcp_good w s ak n S seq /\
    mem w' = stream_xor (ct_stream ck (rtcp_iv icm ssrc seq)) 0 (mem w) 8 (len - (12 + n)) /\ pkt_octet_len w' = len - (n + 4) /\
    ctx w' = set_stream (ctx w) (Listed p) ((turned s dir_srtp_receiver) <| rtcp_rdb := db |>) /\ rdb_rel db ({[seq]} ∪ S) /\ rtcp_ready w' p ((turned s dir_srtp_receiver) <| rtcp_rdb := db |>) k icm ck ak n.

(** C7. SRTCP, the receiver.  The stream of the packet is in working order and its replay
    database stands for the set [S] of indices received so far.  Whatever octets arrive,
    [srtp_unprotect_rtcp] reads and writes only memory of the packet.  It accepts the packet only
    when the E bit is set, the index of the trailer is not older than the window and not in [S],
    and the tag is the one that the authentication function computes for the octets in front of
    it; then the reports are decrypted, trailer and tag are cut off, and the database stands for
    [S] with the index.  In every other case the packet and the session are as before, and such a
    packet is only refused when the key stream is too short for it. *)
Theorem srtcp_unprotect_authentic w (p : nat) (s : srtp_stream_ctx_t) (k : srtp_session_keys_t) (icm : bool) (ck : ct_secret) (ak : at_secret) (n : Z) (S : gset Z) :
  rtcp_ready w p s k icm ck ak n -> can_turn s dir_srtp_receiver -> rdb_rel (rtcp_rdb s) S ->
  (forall ssrc, rtcp_ssrc (mem w) = Some ssrc -> srtp_get_stream (ctx w) ssrc = Some (Listed p)) ->
  Forall byte (mem w) -> length tmp_tag = 16%nat -> Forall byte tmp_tag ->
  0 <= pkt_octet_len w < 268435452 -> pkt_octet_len w <= zlen (mem w) -> (forall ssrc seq, ct_fits ck (rtcp_iv icm ssrc seq) 0 = true) ->
  exists r w', srtp_unprotect_rtcp alloc_ok tmp_tag w = Some (r, w') /\
    match r with
    | inl _ => mem w' = mem w /\ ctx w' = ctx w /\
        forall ssrc seq, rtcp_ssrc (mem w) = Some ssrc -> rtcp_good w s ak n S seq -> ct_fits ck (rtcp_iv icm ssrc seq) (pkt_octet_len w - (12 + n)) = false
    | inr _ => accepted_rtcp w w' p s k icm ck ak n S
    end.
Proof using OC OA.
  intros H Hd Hrel Hst Hb Htl Htb Hlen Hm Hf0.
  destruct (unprotect_rtcp_check w p s k icm ck ak n S H Hrel Hst Hb Htl Htb Hlen Hm Hf0) as [(st & w' & Hr & Hmem & Hctx & Hbad)|Hok].
  { exists (inl st), w'. do 3 (split; [done|]). intros ssrc seq _ Hg. by apply Hbad in Hg. }
  destruct Hok as (ssrc & seq & c & w1 & Hssrc & Hgood & H1 & Hm1 & Hc1 & Hc & Hat & ->). pose proof Hgood as (Hlong & Ht & Hseq & Hlow & Hnew & Hgen).
  pose proof (unprotect_rtcp_end w1 p s k icm ck ak n c ssrc seq (pkt_octet_len w) S H1 Hd ltac:(by rewrite Hm1) Hc Hat Hrel Hseq Hlow ltac:(lia) ltac:(by rewrite Hm1)) as He.
  rewrite Hm1, Hc1 in He. destruct (ct_fits ck (rtcp_iv icm ssrc seq) (pkt_octet_len w - (12 + n))) eqn:Hf.
  - destruct He as (w' & db & -> & Hm' & Hl' & Hc' & Hrel' & Hr'). exists (inr tt), w'. split; [done|]. exists ssrc, seq, db. by repeat (split; [done|]).
  - destruct He as (w' & -> & Hm' & Hc'). exists (inl srtp_err_status_cipher_fail), w'. do 3 (split; [done|]). intros ssrc' seq' Hssrc' Hg'.
    rewrite Hssrc in Hssrc'. injection Hssrc' as <-. destruct (good_seq _ _ _ _ _ _ _ Hg' Ht) as [-> _]. by rewrite trailer_seq.
Qed.

(** ** Round trip *)

Lemma stream_xor_after f q m pos n l : pos + n <= Z.of_nat l -> drop l (stream_xor f q m pos n) = drop l m.
Proof using.
  intros Hl. apply list_eq. intros i. rewrite !lookup_drop. unfold stream_xor. rewrite list_lookup_imap.
  rewrite (proj2 (Z.ltb_ge (Z.of_nat (l + i)) _)) by lia. rewrite andb_false_r. by destruct (m !! (l + i)%nat).
Qed.

Lemma rtcp_sealed_spec icm ck ak ssrc seq len n m : 8 <= len -> 0 <= n -> len + 4 + n <= zlen m -> Forall byte m -> n <= at_max ak -> n <= zlen tmp_tag ->
  let m' := rtcp_sealed icm ck ak ssrc seq len n m in
  zlen m' = zlen m /\ take 8 m' = take 8 m /\ rd_bytes m' len 4 = Some (rtcp_trailer true seq) /\ rtcp_genuine ak (len + 4 + n) n m' /\
  take (Z.to_nat len) (stream_xor (ct_stream ck (rtcp_iv icm ssrc seq)) 0 m' 8 (len - 8)) = take (Z.to_nat len) m.
Proof using OC OA.
  intros Hl Hn Hm Hb Hmax Ht. unfold rtcp_sealed. set (f := ct_stream ck (rtcp_iv icm ssrc seq)). destruct (with_trailer_ok len seq m ltac:(lia) ltac:(lia) Hb) as (_ & _ & Hzw).
  destruct (trailer_bytes true seq) as [_ Hzt]. assert (take (Z.to_nat len) (with_trailer len seq m) = take (Z.to_nat len) m) as Hfront.
  { unfold with_trailer. apply take_app_length'. rewrite length_take. unfold zlen in *. lia. }
  set (m1 := stream_xor f 0 (with_trailer len seq m) 8 (len - 8)). cbv zeta. assert (zlen m1 = zlen m) as Hz by (rewrite <- Hzw; unfold zlen, m1; by rewrite stream_xor_length).
  set (b := take (Z.to_nat (len + 4)) m1). assert (zlen b = len + 4) as Hzb by (apply zlen_take; lia). assert (length b = Z.to_nat (len + 4)) as Hlb by (unfold zlen in Hzb; lia).
  assert (zlen (drop (Z.to_nat (len + 4)) m1) = zlen m - (len + 4)) as Hzd by (rewrite zlen_drop; lia).
  set (t := at_tag ak b n _). assert (zlen t = zlen m - (len + 4)) as Hzt' by (unfold t; rewrite at_tag_length; lia).
  split; [rewrite zlen_app; lia|]. split.
  { rewrite take_app_le by lia. unfold b. rewrite take_take, Nat.min_l by lia. unfold m1. rewrite stream_xor_before by lia.
    replace 8%nat with (Nat.min 8 (Z.to_nat len)) by lia. by rewrite <- !take_take, Hfront. }
  split; [|split].
  - rewrite rd_bytes_Some by (rewrite ?zlen_app; lia). f_equal. rewrite drop_app_le, take_app_le by (rewrite ?length_drop; lia). unfold b. rewrite skipn_firstn_comm.
    rewrite take_take. unfold m1. rewrite stream_xor_after by lia. unfold with_trailer. rewrite drop_app_length' by (rewrite length_take; unfold zlen in *; lia).
    rewrite take_app_le by (unfold zlen in Hzt; lia). apply take_ge. unfold zlen in Hzt. lia.
  - unfold rtcp_genuine. replace (len + 4 + n - n) with (len + 4) by lia. rewrite take_app_length', drop_app_length' by done. unfold t. apply at_tag_take; lia.
  - rewrite stream_xor_take. rewrite take_app_le by lia. unfold b. rewrite take_take, Nat.min_l by lia. unfold m1. rewrite <- stream_xor_take, stream_xor_twice. done.
Qed.

(** C8. SRTCP, both ends together.  The sender's and the receiver's stream are in working order
    with the same secrets, and of the right direction or not used yet; the sender's next index is new for the receiver.  Protecting an RTCP
    packet of at least a header succeeds and appends trailer and tag; when the result arrives,
    unprotecting it succeeds and gives back the length and every octet of the packet; the sender
    has moved to the index and the receiver's database has it. *)
Theorem srtcp_roundtrip (ws wr : world C A) (ps pr : nat) (ss sr : srtp_stream_ctx_t) (ks kr : srtp_session_keys_t) (icm : bool)
    (ck : ct_secret) (ak : at_secret) (n ssrc : Z) (S : gset Z) :
  rtcp_ready ws ps ss ks icm ck ak n -> can_turn ss dir_srtp_sender -> srtp_get_stream (ctx ws) ssrc = Some (Listed ps) ->
  rtcp_ready wr pr sr kr icm ck ak n -> can_turn sr dir_srtp_receiver -> srtp_get_stream (ctx wr) ssrc = Some (Listed pr) -> rdb_rel (rtcp_rdb sr) S ->
  rtcp_ssrc (mem ws) = Some ssrc -> Forall byte (mem ws) -> length tmp_tag = 16%nat -> Forall byte tmp_tag ->
  let seq := window_start (rtcp_rdb ss) + 1 in 0 < seq < 2147483648 -> window_start (rtcp_rdb sr) <= seq -> (seq ∉ S) ->
  let len := pkt_octet_len ws in 8 <= len < 268435432 -> len + 4 + n <= zlen (mem ws) ->
  (forall ssrc seq, ct_fits ck (rtcp_iv icm ssrc seq) 0 = true) -> ct_fits ck (rtcp_iv icm ssrc seq) (len - 8) = true ->
  exists ws' wr' db, srtp_protect_rtcp alloc_ok ws = Some (inr tt, ws') /\ pkt_octet_len ws' = len + 4 + n /\
    srtp_unprotect_rtcp alloc_ok tmp_tag (deliver wr (mem ws') (pkt_octet_len ws')) = Some (inr tt, wr') /\
    pkt_octet_len wr' = len /\ take (Z.to_nat len) (mem wr') = take (Z.to_nat len) (mem ws) /\
    ctx ws' = set_stream (ctx ws) (Listed ps) ((turned ss dir_srtp_sender) <| rtcp_rdb := Rdb seq (Rdb.bitmask (rtcp_rdb ss)) |>) /\
    ctx wr' = set_stream (ctx wr) (Listed pr) ((turned sr dir_srtp_receiver) <| rtcp_rdb := db |>) /\ rdb_rel db ({[seq]} ∪ S).
Proof using OC OA.
  intros Hs Hds Hsts Hr Hdr Hstr Hrel Hssrc Hb Htl Htb seq Hseq Hlow Hnew len Hlen Hm Hf0 Hf. destruct (rr_tag _ _ _ _ _ _ _ _ Hs) as [Hn Hmax]. unfold SRTP_MAX_TAG_LEN in Hn.
  destruct (rtcp_protect_spec ws ps ss ks icm ck ak n ssrc Hs Hds Hssrc Hsts Hb Hseq Hlen Hm (Hf0 _ _) Hf) as (ws' & Hp & Hmem & Hlen' & Hctx & _). fold len seq in Hmem, Hlen'.
  destruct (rtcp_sealed_spec icm ck ak ssrc seq len n (mem ws)) as (Hz & H8 & Htr & Hgen & Hopen); [lia|lia|lia|done|done|unfold zlen; rewrite Htl; lia|].
  rewrite <- Hmem in *. destruct (rtcp_set_iv_run ws ps ss ks icm ck ak n seq srtp_direction_encrypt ssrc Hs Hssrc (Hf0 _ _)) as (_ & c0 & _ & Hat0 & _).
  assert (Forall byte (mem ws')) as Hb'.
  { rewrite Hmem. apply Forall_app. destruct (with_trailer_ok len seq (mem ws) ltac:(lia) ltac:(lia) Hb) as (_ & Hbt & _).
    split; [apply Forall_take|apply at_tag_bytes, Forall_drop]; (apply stream_xor_bytes; [|done]); intros i; exact (ct_stream_byte _ _ _ _ i Hat0). }
  assert (rtcp_ssrc (mem ws') = Some ssrc) as Hssrc'.
  { unfold rtcp_ssrc in *. rewrite rd_bytes_Some in * by lia. rewrite !take_drop_commute in *. change (Z.to_nat 4 + Z.to_nat 4)%nat with 8%nat in *. by rewrite H8. }
  set (w := deliver wr (mem ws') (len + 4 + n)). pose proof (rr_len _ _ _ _ _ _ _ _ (len + 4 + n) (rr_mem _ _ _ _ _ _ _ _ (mem ws') Hr)) as Hr'.
  replace (len + 4 + n - n) with (len + 4) in Hgen by lia.
  assert (rtcp_good w sr ak n S seq) as Hgood.
  { unfold rtcp_good. change (pkt_octet_len w) with (len + 4 + n). change (mem w) with (mem ws'). replace (len + 4 + n - (n + 4)) with len by lia. repeat split; (done || lia). }
  destruct (unprotect_rtcp_check w pr sr kr icm ck ak n S Hr' Hrel) as [(st & w' & _ & _ & _ & Hbad)|Hok]; [|done|done|done|cbn; lia|cbn; lia|done|..].
  { intros ssrc'. change (mem w) with (mem ws'). rewrite Hssrc'. by intros [= <-]. }
  { by apply Hbad in Hgood. }
  destruct Hok as (ssrc' & seq' & c & w1 & Hssrc1 & Hgood' & H1 & Hm1 & Hc1 & Hc & Hat & Hrun). change (mem w) with (mem ws') in *. rewrite Hssrc' in Hssrc1. injection Hssrc1 as <-.
  destruct (good_seq _ _ _ _ _ _ _ Hgood' (proj1 (proj2 Hgood))) as [-> _]. rewrite trailer_seq in * by lia. change (pkt_octet_len w) with (len + 4 + n) in Hrun.
  pose proof (unprotect_rtcp_end w1 pr sr kr icm ck ak n c ssrc seq (len + 4 + n) S H1 Hdr ltac:(by rewrite Hm1) Hc Hat Hrel ltac:(lia) Hlow ltac:(lia) ltac:(rewrite Hm1; lia)) as He.
  replace (len + 4 + n - (12 + n)) with (len - 8) in He by lia. rewrite Hf, Hm1, Hc1 in He. destruct He as (wr' & db & He & Hm' & Hl' & Hc' & Hrel' & _).
  exists ws', wr', db. rewrite Hlen'. split; [exact Hp|]. split; [done|]. split; [exact (eq_trans Hrun He)|]. split; [lia|]. split; [by rewrite Hm'|]. done.
Qed.
End props.
