(* ===== verification/SrtpCreateProps.v ===== *)
(** * Sessions made from policies

    With the ciphers and authentication functions of the library loaded and memory enough,
    a policy gives a stream whose objects have the session keys of RFC 3711. *)

From S2P Require Import Prelude Bytes BitVector Window Rdb Rdbx KeyLimit Words SrtpSha1 SrtpAuth Aes AesKeys SrtpCipher AesIcm SrtpHeader SrtpSession SrtpParts SrtpProtect SrtpRtcp SrtpPolicy SrtpKeys SrtpManage SrtpSteps SrtpKdfProps SrtpProps SrtpRtcpProps.
Open Scope Z_scope.
Import Rfc3711.

(** Every allocation succeeds. *)
Definition always (_ : nat) : bool := true.

Section create.
Context (junk pad : list Z) (Hjunk : length junk = 80%nat) (Hpad : length pad = 64%nat).
#[local] Instance HT : AuthType srtp_hmac_ctx_t := srtp_hmac junk pad.
#[local] Instance HO : AuthOk srtp_hmac_ctx_t HT := srtp_hmac_ok junk pad Hjunk Hpad.
Abbreviation world := (SrtpSession.world engine_cipher engine_auth).
Abbreviation kernel := (loaded_kernel always).
Implicit Types w : world.

(** The secret of a counter mode cipher is its key with the salt, that of HMAC its key. *)
Definition icm_secret (k : list Z) : ct_secret (CipherOk := @sum_cipher_ok srtp_aes_icm_ctx_t srtp_null_cipher_ctx_t _ _ _ _) := inl k.
Definition hmac_secret (k : list Z) : at_secret (AuthOk := @sum_auth_ok srtp_hmac_ctx_t srtp_null_auth_ctx_t _ _ _ _) := inl k.

(** ** New objects *)

Definition icm_fresh (n : Z) : srtp_cipher_t engine_cipher :=
  Cipher (inl (icm_zero <| key_size := n |>)) n (if n =? SRTP_AES_ICM_256_KEY_LEN_WSALT then SRTP_AES_ICM_256 else SRTP_AES_ICM_128).
Definition hmac_fresh (n : Z) : srtp_auth_t engine_auth := Auth (inl hmac_zero) n 20 0.

(** A key with its salt. *)
Definition icm_len (n : Z) : Prop := n = 30 \/ n = 46.

Lemma icm_lengths n : icm_len n -> base_key_length (algorithm (icm_fresh n)) n = n - 14 /\ full_key_length (algorithm (icm_fresh n)) = n /\ is_gcm (icm_fresh n) = false.
Proof using Hjunk Hpad. by intros [-> | ->]. Qed.

Lemma icm_takes n key : icm_len n -> icm_key_ok key -> zlen key = n -> cipher_takes (c_state (icm_fresh n)) key (icm_secret key).
Proof using Hjunk Hpad.
  intros Hn Hk Hl rest. destruct (icm_init_spec (icm_zero <| key_size := n |>) key Hk) as (c & Hc & Kc); [by split|]. exists (inl c). split; [|done].
  cbn [icm_fresh c_state ct_init sum_cipher srtp_aes_icm].
  rewrite (context_init_prefix _ _ n) by (done || (rewrite zlen_app; pose proof (zlen_nonneg rest); lia)).
  rewrite take_app_length' by (unfold zlen in Hl; lia). by rewrite Hc.
Qed.

Lemma hmac_takes key t : zlen key = 20 -> Forall byte key -> auth_takes (a_state (hmac_fresh t)) key (hmac_secret key).
Proof using Hjunk Hpad.
  intros Hl Hb rest. destruct (srtp_hmac_init_spec junk pad Hjunk Hpad hmac_zero key) as (s & Hs & [Ks _]); [|lia|done|].
  { split; [done|]. split; [done|]. apply (bool_decide_eq_true_1 (Forall _ _)). vm_compute. reflexivity. }
  exists (inl s). split; [|done]. cbn [hmac_fresh a_state at_init sum_auth HT srtp_hmac].
  rewrite hmac_init_prefix, take_app_length' by (unfold zlen; lia). by rewrite Hs.
Qed.

Definition with_new_cipher w (n : nat) (c : srtp_cipher_t engine_cipher) : world := (with_cipher w (n + allocs w) c) <| allocs := n + allocs w |>%nat.

Lemma alloc_icm_run w id n t : (id = SRTP_AES_ICM_128 \/ id = SRTP_AES_ICM_256) -> icm_len n ->
  srtp_crypto_kernel_alloc_cipher kernel id n t w = Some (inr (srtp_err_status_ok, 2 + allocs w)%nat, with_new_cipher w 2 (icm_fresh n)).
Proof using Hjunk Hpad. by intros [-> | ->] [-> | ->]. Qed.

Lemma alloc_hmac_run w t : 0 <= t <= 20 ->
  srtp_crypto_kernel_alloc_auth kernel SRTP_HMAC_SHA1 20 t w =
    Some (inr (srtp_err_status_ok, S (allocs w)), (with_auth w (S (allocs w)) (hmac_fresh t)) <| allocs := S (allocs w) |>).
Proof using Hjunk Hpad.
  intros Ht. unfold srtp_crypto_kernel_alloc_auth. cbn [state_secure loaded_kernel negb]. unfold srtp_crypto_kernel_get_auth_type. cbn [get_type auth_type_list loaded_kernel Z.eqb SRTP_HMAC_SHA1 Pos.eqb].
  unfold hmac_type_alloc, srtp_hmac_alloc. change (20 <? 20) with false. rewrite (proj2 (Z.ltb_ge 20 t)) by lia. done.
Qed.

(** ** The key derivation *)

Lemma engine_key_octets mk label n : icm_key_ok mk -> 0 <= n <= 256 -> key_octets (icm_secret mk) label n = PRF mk label (Z.to_nat n).
Proof using Hjunk Hpad. intros Hk Hn. rewrite <- key_stream_prf by (done || lia). done. Qed.

Lemma kdf_init_run w mk rest : icm_key_ok mk -> exists s,
  kdf_cipher (cipher_with (icm_fresh (zlen mk)) s) (icm_secret mk) /\
  srtp_kdf_init kernel (mk ++ rest) (zlen mk) w = Some (inr (2 + allocs w)%nat, with_new_cipher w 2 (cipher_with (icm_fresh (zlen mk)) s)).
Proof using Hjunk Hpad.
  intros Hk. pose proof (proj1 Hk) as Hl. set (w1 := with_new_cipher w 2 (icm_fresh (zlen mk))).
  destruct (cipher_init_run w1 (2 + allocs w) (icm_fresh (zlen mk)) mk (icm_secret mk) rest) as (s & Ks & Rs); [apply lookup_insert_eq|by apply icm_takes|].
  exists s. split.
  { split; [done|]. intros label n _ Hn. apply nonce_fits; [done|lia]. }
  assert (forall id, id = SRTP_AES_ICM_128 \/ id = SRTP_AES_ICM_256 -> (
    '(stat, cipher) ← srtp_crypto_kernel_alloc_cipher kernel id (zlen mk) 0; _ ← check stat; stat ← cipher_init cipher (mk ++ rest);
    if bool_decide (stat = srtp_err_status_ok) then mret cipher else _ ← srtp_cipher_dealloc cipher; raise stat) w =
    Some (inr (2 + allocs w)%nat, with_new_cipher w 2 (cipher_with (icm_fresh (zlen mk)) s))) as Halloc.
  { intros id Hid. rewrite (bind_run _ _ _ _ _ (alloc_icm_run w id (zlen mk) 0 Hid Hl)). erewrite (bind_run (check _)) by done. rewrite (bind_run _ _ _ _ _ Rs).
    rewrite bool_decide_true by done. unfold w1, with_new_cipher, with_cipher. cbn. by rewrite insert_insert_eq. }
  unfold srtp_kdf_init. destruct Hl as [Hl | Hl]; rewrite Hl in *; apply Halloc; [by left|by right].
Qed.
(** ** The keys of a master key *)

Lemma padded_key_run key n : 0 <= n <= 256 -> n <= zlen key -> padded_key key n = Some (take (Z.to_nat n) key ++ replicate (Z.to_nat (256 - n)) 0).
Proof using Hjunk Hpad.
  intros Hn Hk. unfold padded_key, MAX_SRTP_KEY_LEN. rewrite rd_bytes_0 by lia. cbn [mbind option_bind]. pose proof (zlen_take n key ltac:(lia)) as Hz.
  rewrite wr_bytes_Some by (rewrite ?Hz; unfold zlen; rewrite ?length_replicate; lia). rewrite Hz. f_equal.
  change (take (Z.to_nat 0) (replicate (Z.to_nat 256) 0)) with (@nil Z). cbn [app]. rewrite drop_replicate. do 2 f_equal. lia.
Qed.

(** The MKI is long enough. *)
Definition mki_ok (m : srtp_master_key_t) : Prop := 0 <= master_mki_size m <= zlen (master_mki_id m).

Lemma init_mki_run w k m : mki_ok m -> exists na, (allocs w <= na)%nat /\
  init_mki always k m w = Some (inr (k <| mki_id := take (Z.to_nat (master_mki_size m)) (master_mki_id m) |> <| mki_size := master_mki_size m |>), w <| allocs := na |>).
Proof using Hjunk Hpad.
  intros Hm. unfold init_mki. destruct (Z.eqb_spec (master_mki_size m) 0) as [E|E].
  - exists (allocs w). split; [done|]. rewrite E. by destruct w.
  - exists (S (allocs w)). split; [lia|]. erewrite bind_run; [|reflexivity]. cbn [negb always].
    assert (rd_bytes (master_mki_id m) 0 (master_mki_size m) = Some (take (Z.to_nat (master_mki_size m)) (master_mki_id m))) as Hr by (apply rd_bytes_0; apply Hm).
    by rewrite (bind_run _ _ _ _ _ (lift_run _ _ _ Hr)).
Qed.

(** New objects for a key: counter mode with [n1] and [n2] octets of key and salt, HMAC-SHA1
    with tags of [t1] and [t2] octets. *)
Record fresh_keys w (k : srtp_session_keys_t) (n1 n2 t1 t2 : Z) : Prop := {
  fk_rtp_cipher : ciphers w !! rtp_cipher k = Some (icm_fresh n1);
  fk_rtcp_cipher : ciphers w !! rtcp_cipher k = Some (icm_fresh n2);
  fk_rtp_auth : auths w !! rtp_auth k = Some (hmac_fresh t1);
  fk_rtcp_auth : auths w !! rtcp_auth k = Some (hmac_fresh t2);
  fk_limit : is_Some (limits w !! limit k);
  fk_distinct : rtp_cipher k <> rtcp_cipher k /\ rtp_auth k <> rtcp_auth k;
  fk_xtn : rtp_xtn_hdr_cipher k = None;
  fk_lengths : icm_len n1 /\ icm_len n2;
  fk_allocated : (rtp_cipher k <= allocs w /\ rtcp_cipher k <= allocs w)%nat }.

(** Every object has an address up to the number of allocations. *)
Definition fresh_above w : Prop := forall a, (allocs w < a)%nat -> ciphers w !! a = None /\ auths w !! a = None /\ limits w !! a = None.

(** The state after the keys [k] got session keys for the master key [mk]. *)
Record keyed_world w w' (k : srtp_session_keys_t) (n1 n2 t1 t2 : Z) (mk : list Z) : Prop := {
  kw_ciphers : exists s1 s2, ct_keyed s1 (icm_secret (cipher_key mk label_rtp_encryption label_rtp_salt (Z.to_nat n1))) /\
    ct_keyed s2 (icm_secret (cipher_key mk label_rtcp_encryption label_rtcp_salt (Z.to_nat n2))) /\
    ciphers w' = <[rtcp_cipher k := cipher_with (icm_fresh n2) s2]> (<[rtp_cipher k := cipher_with (icm_fresh n1) s1]> (ciphers w));
  kw_auths : exists x1 x2, at_keyed x1 (hmac_secret (auth_key mk label_rtp_msg_auth)) /\ at_keyed x2 (hmac_secret (auth_key mk label_rtcp_msg_auth)) /\
    auths w' = <[rtcp_auth k := auth_with (hmac_fresh t2) x2]> (<[rtp_auth k := auth_with (hmac_fresh t1) x1]> (auths w));
  kw_limits : limits w' = <[limit k := Key_limit 281474976710655 srtp_key_state_normal]> (limits w);
  kw_allocs : (allocs w <= allocs w')%nat;
  kw_same : mem w' = mem w /\ pkt_octet_len w' = pkt_octet_len w /\ ctx w' = ctx w /\ events w' = events w }.

Lemma cipher_key_octets mk kl sl n : icm_key_ok mk -> icm_len n ->
  key_octets (icm_secret mk) kl (n - 14) ++ key_octets (icm_secret mk) sl 14 = cipher_key mk kl sl (Z.to_nat n).
Proof using Hjunk Hpad.
  intros Hk Hn. rewrite !engine_key_octets by (done || destruct Hn; lia). unfold cipher_key. do 2 f_equal. destruct Hn; lia.
Qed.

(** One direction of a key: its cipher with the salt, and its authentication function. *)
Lemma half_run w a c mk kl sl al b d n t old buf : ciphers w !! a = Some c -> kdf_cipher c (icm_secret mk) -> icm_key_ok mk -> byte kl -> byte sl -> byte al ->
  a <> b -> ciphers w !! b = Some (icm_fresh n) -> auths w !! d = Some (hmac_fresh t) -> icm_len n -> zlen buf = 256 ->
  exists c' s x buf1 buf2, let w1 := with_cipher (with_cipher w a c') b (cipher_with (icm_fresh n) s) in exists c2,
    init_cipher a kl sl b (n - 14) (n - (n - 14)) old buf w = Some (inr (take 12 (PRF mk sl 14), buf1), w1) /\
    init_auth a al d buf1 w1 = Some (inr buf2, with_auth (with_cipher (with_cipher w b (cipher_with (icm_fresh n) s)) a c2) d (auth_with (hmac_fresh t) x)) /\
    kdf_cipher c2 (icm_secret mk) /\ ct_keyed s (icm_secret (cipher_key mk kl sl (Z.to_nat n))) /\ at_keyed x (hmac_secret (auth_key mk al)) /\ zlen buf2 = 256.
Proof using Hjunk Hpad.
  intros Hc Hk Hmk Bkl Bsl Bal Hab Hb Hd Hn Hz. assert (n - (n - 14) = 14) as -> by lia.
  pose proof (cipher_key_ok mk kl sl (Z.to_nat n) Hmk Bkl Bsl ltac:(destruct Hn; lia)) as [Ok1 Zk1]. rewrite <- (cipher_key_octets mk kl sl n Hmk Hn) in *.
  set (key := key_octets _ kl _) in *. set (slt := key_octets _ sl _) in *.
  destruct (init_cipher_run w a c (icm_secret mk) kl sl b (icm_fresh n) (icm_secret (key ++ slt)) (n - 14) 14 old buf Hc Hk Bkl Bsl Hab Hb) as (s1 & s2 & salt & K1 & Ks & Hs & R1);
    [destruct Hn; lia|lia|done|apply icm_takes; (done || destruct Hn; lia)|]. rewrite Hs in R1 by lia. fold slt key in R1.
  set (w1 := with_cipher (with_cipher w a _) b _) in *. set (buf1 := key ++ slt ++ drop _ buf) in *.
  assert (zlen buf1 = 256) as Hz1 by (unfold buf1; rewrite app_assoc, zlen_app, Zk1, zlen_drop by (destruct Hn; lia); destruct Hn; lia).
  pose proof (auth_key_ok mk al Hmk Bal) as [Ak Zak].
  assert (key_octets (icm_secret mk) al 20 = auth_key mk al) as Eak by by rewrite engine_key_octets.
  destruct (init_auth_run w1 a (cipher_with c s1) (icm_secret mk) al d (hmac_fresh t) (hmac_secret (auth_key mk al)) 20 buf1) as (s3 & x & K3 & Kx & R3); try done; try lia.
  { cbn. rewrite lookup_insert_ne by done. apply lookup_insert_eq. }
  { rewrite Eak. by apply hmac_takes. }
  rewrite Eak in R3. exists (cipher_with c s1), s2, x, buf1, (auth_key mk al ++ drop (Z.to_nat 20) buf1). cbv zeta. exists (cipher_with (cipher_with c s1) s3).
  split; [rewrite R1; unfold slt; by rewrite engine_key_octets|]. split.
  { fold w1. rewrite R3. unfold w1. by rewrite with_cipher_over. }
  split; [done|]. split; [done|]. split; [done|]. rewrite zlen_app, Zak, zlen_drop by lia. lia.
Qed.

Lemma init_keys_run w k m key n1 n2 t1 t2 : fresh_keys w k n1 n2 t1 t2 -> fresh_above w -> mki_ok m ->
  master_key m = Some key -> Forall byte key -> Z.max n1 n2 <= zlen key ->
  let mk := take (Z.to_nat (Z.max n1 n2)) key in
  exists w', keyed_world w w' k n1 n2 t1 t2 mk /\
    srtp_stream_init_keys always kernel k m w =
      Some (inr (k <| salt := take 12 (PRF mk label_rtp_salt 14) |> <| c_salt := take 12 (PRF mk label_rtcp_salt 14) |>
                   <| mki_id := take (Z.to_nat (master_mki_size m)) (master_mki_id m) |> <| mki_size := master_mki_size m |>), w').
Proof using Hjunk Hpad.
  intros [Fc1 Fc2 Fa1 Fa2 [l Fl] [Dc Da] Fx [L1 L2] [A1 A2]] Hfresh Hmki Hkey Hb Hlen mk.
  set (n := Z.max n1 n2) in *. assert (icm_len n) as Ln by (destruct L1 as [-> | ->], L2 as [-> | ->]; first [by left|by right]).
  assert (zlen mk = n) as Hzmk by (apply zlen_take; destruct Ln; lia).
  assert (icm_key_ok mk) as Hmk by (split; [by rewrite Hzmk|by apply Forall_take]).
  unfold srtp_stream_init_keys. rewrite (bind_run _ _ _ _ _ (get_limit_run _ _ _ Fl)).
  change (snd (srtp_key_limit_set l 0xffffffffffff)) with (Key_limit 281474976710655 srtp_key_state_normal).
  set (w1 := w <| limits := <[limit k := Key_limit 281474976710655 srtp_key_state_normal]> (limits w) |>). rewrite (bind_run _ _ _ w1 tt eq_refl).
  destruct (init_mki_run w1 k m Hmki) as (na & Hna & Rm). rewrite (bind_run _ _ _ _ _ Rm). change (allocs w1) with (allocs w) in Hna. set (w2 := w1 <| allocs := na |>). cbn [rtp_cipher rtcp_cipher rtp_auth rtcp_auth].
  set (k1 := k <| mki_id := _ |> <| mki_size := _ |>).
  rewrite (bind_run _ _ _ _ _ (get_cipher_run (rtp_cipher k) w2 _ Fc1)), (bind_run _ _ _ _ _ (get_auth_run (rtp_auth k) w2 _ Fa1)).
  rewrite (bind_run _ _ _ _ _ (get_cipher_run (rtcp_cipher k) w2 _ Fc2)), (bind_run _ _ _ _ _ (get_auth_run (rtcp_auth k) w2 _ Fa2)).
  destruct (icm_lengths n1 L1) as (B1 & F1 & _), (icm_lengths n2 L2) as (B2 & F2 & _). rewrite F1, F2.
  change (full_auth_key_length (at_id (a_state (hmac_fresh t1)))) with 30. change (full_auth_key_length (at_id (a_state (hmac_fresh t2)))) with 30.
  change (srtp_cipher_get_key_length (icm_fresh n1)) with n1. change (srtp_cipher_get_key_length (icm_fresh n2)) with n2. rewrite B1, B2.
  assert (Z.max (Z.max (Z.max n1 30) n2) 30 = n) as -> by (destruct L1, L2; lia). cbv zeta.
  assert ((n1 <? n) && (n2 <? n) = false) as -> by (destruct (Z.ltb_spec n1 n), (Z.ltb_spec n2 n); try done; lia).
  assert (Z.max (Z.max (Z.max 30 n1) n2) n = n) as -> by (destruct L1, L2; lia).
  assert ((n =? SRTP_AES_GCM_128_KEY_LEN_WSALT) || (n =? SRTP_AES_GCM_256_KEY_LEN_WSALT) = false) as -> by by destruct Ln as [-> | ->].
  rewrite (bind_run _ _ _ _ _ (lift_run _ _ _ Hkey)), (bind_run _ _ _ _ _ (lift_run _ _ _ (padded_key_run key n ltac:(destruct Ln; lia) Hlen))). fold mk.
  set (tmp := mk ++ replicate _ 0). assert (zlen tmp = 256) as Hztmp by (unfold tmp; rewrite zlen_app, Hzmk; unfold zlen; rewrite length_replicate; destruct Ln; lia).
  destruct (kdf_init_run w2 mk (replicate (Z.to_nat (256 - n)) 0) Hmk) as (sk & Kk & Rk). rewrite Hzmk in *. fold tmp in Rk.
  rewrite (bind_run _ _ _ _ _ (or_init_fail_run _ _ _ _ Rk)). clear Rk. set (a := (2 + allocs w2)%nat) in *. set (ck := cipher_with _ sk) in *. set (w3 := with_new_cipher w2 2 ck).
  assert (ciphers w3 !! a = Some ck) as Ha by apply lookup_insert_eq. assert (a <> rtp_cipher k /\ a <> rtcp_cipher k) as [Na1 Na2] by (change a with (2 + na)%nat; lia).
  destruct (half_run w3 a ck mk label_rtp_encryption label_rtp_salt label_rtp_msg_auth (rtp_cipher k) (rtp_auth k) n1 t1 (salt k1) tmp) as (c' & s1 & x1 & buf1 & buf2 & c2 & R1 & R2 & K2 & Ks1 & Kx1 & Hz2);
    [done|done|done|done|done|done|done|cbn; by rewrite lookup_insert_ne|done|done|done|].
  rewrite (bind_run _ _ _ _ _ R1). change (rtp_xtn_hdr_cipher k1) with (rtp_xtn_hdr_cipher k). rewrite Fx. rewrite (bind_run _ _ _ _ _ (ret_run _ _)).
  rewrite (bind_run _ _ _ _ _ R2). clear R1 R2. set (w4 := with_auth (with_cipher (with_cipher w3 _ _) a c2) _ _).
  destruct (half_run w4 a c2 mk label_rtcp_encryption label_rtcp_salt label_rtcp_msg_auth (rtcp_cipher k) (rtcp_auth k) n2 t2 (c_salt k1) buf2) as (c3 & s2 & x2 & buf3 & buf4 & c4 & R1 & R2 & K4 & Ks2 & Kx2 & _);
    [apply lookup_insert_eq|done..|cbn; by rewrite !lookup_insert_ne|cbn; by rewrite lookup_insert_ne|done|done|].
  rewrite (bind_run _ _ _ _ _ R1), (bind_run _ _ _ _ _ R2). clear R1 R2. set (w5 := with_auth _ _ _).
  assert (ciphers w5 !! a = Some c4) as Ha5 by apply lookup_insert_eq. rewrite (bind_run _ _ _ _ _ (or_init_fail_run _ _ _ _ (kdf_clear_run w5 a c4 ltac:(done) Ha5))).
  eexists. split; [|rewrite ret_run; unfold k1; cbn; by rewrite <- Fx]. split; [exists s1, s2|exists x1, x2|done|change (allocs w <= 2 + na)%nat; lia|done]; do 2 (split; [done|]); [|done].
  assert (ciphers w !! a = None) as Hno by (apply Hfresh; change (allocs w < 2 + na)%nat; lia).
  cbn. fold a. apply map_eq. intros i. destruct (decide (i = a)), (decide (i = rtp_cipher k)), (decide (i = rtcp_cipher k)); by simplify_map_eq.
Qed.

(** C4. Session keys are those of RFC 3711.  For every key structure of a stream with new
    counter mode ciphers, of either length, and new HMAC-SHA1 objects, and every master key,
    with or without an MKI, [srtp_stream_init_keys] succeeds; the ciphers and authentication functions are keyed
    with what the pseudo-random function of RFC 3711, 4.3, gives for their labels, the salts and the MKI are
    stored, the key limit is at its maximum, and nothing else in the store is changed or left behind. *)
Theorem srtp_session_keys_rfc3711 w (k : srtp_session_keys_t) (m : srtp_master_key_t) (key : list Z) (n1 n2 t1 t2 : Z) :
  fresh_keys w k n1 n2 t1 t2 -> fresh_above w -> mki_ok m -> master_key m = Some key -> Forall byte key -> Z.max n1 n2 <= zlen key ->
  let mk := take (Z.to_nat (Z.max n1 n2)) key in
  exists w', keyed_world w w' k n1 n2 t1 t2 mk /\
    srtp_stream_init_keys always kernel k m w =
      Some (inr (k <| salt := take 12 (PRF mk label_rtp_salt 14) |> <| c_salt := take 12 (PRF mk label_rtcp_salt 14) |>
                   <| mki_id := take (Z.to_nat (master_mki_size m)) (master_mki_id m) |> <| mki_size := master_mki_size m |>), w').
Proof using Hjunk Hpad. apply init_keys_run. Qed.

(** ** A new stream *)

(** A policy for counter mode with [n1] and [n2] octets of key and salt, HMAC-SHA1 with tags of
    [t1] and [t2] octets, both services, and one master key. *)
Record icm_policy (p : srtp_policy_t) (n1 n2 t1 t2 : Z) (key : list Z) : Prop := {
  ip_rtp : exists type, (type = SRTP_AES_ICM_128 \/ type = SRTP_AES_ICM_256) /\ policy_rtp p = Crypto_policy type n1 SRTP_HMAC_SHA1 20 t1 sec_serv_conf_and_auth;
  ip_rtcp : exists type, (type = SRTP_AES_ICM_128 \/ type = SRTP_AES_ICM_256) /\ policy_rtcp p = Crypto_policy type n2 SRTP_HMAC_SHA1 20 t2 sec_serv_conf_and_auth;
  ip_lengths : icm_len n1 /\ icm_len n2 /\ 0 <= t1 <= 16 /\ 0 <= t2 <= 16;
  ip_key : policy_key p = Some key /\ Forall byte key /\ Z.max n1 n2 <= zlen key;
  ip_window : policy_window_size p = 0 \/ 64 <= policy_window_size p < 0x8000;
  ip_repeat : policy_allow_repeat_tx p = 0 \/ policy_allow_repeat_tx p = 1;
  ip_plain : deprecated_ekt p = false /\ policy_enc_xtn_hdr p = None }.

(** The addresses of the objects that are allocated after the first [b]. *)
Definition keys_from (b : nat) : srtp_session_keys_t :=
  Session_keys (2 + b) None (3 + b) (5 + b) (6 + b) (replicate 12 0) (replicate 12 0) [] 0 (7 + b).

Definition alloc_world w (n1 n2 t1 t2 : Z) : world :=
  let b := allocs w in
  World (mem w) (pkt_octet_len w) (ctx w) (<[(5 + b)%nat := icm_fresh n2]> (<[(2 + b)%nat := icm_fresh n1]> (ciphers w)))
    (<[(6 + b)%nat := hmac_fresh t2]> (<[(3 + b)%nat := hmac_fresh t1]> (auths w)))
    (<[(7 + b)%nat := Key_limit 0 srtp_key_state_normal]> (limits w)) (7 + b) (events w).

Lemma or_dealloc_run s m w a w' : m w = Some (inr (srtp_err_status_ok, a), w') -> or_dealloc s m w = Some (inr a, w').
Proof using Hjunk Hpad. intros H. unfold or_dealloc. by rewrite (bind_run _ _ _ _ _ H). Qed.

Lemma alloc_keys_run w p s dn n1 n2 t1 t2 key : icm_policy p n1 n2 t1 t2 key ->
  alloc_keys always kernel p s dn w = Some (inr (keys_from (allocs w)), alloc_world w n1 n2 t1 t2).
Proof using Hjunk Hpad.
  intros [(ty1 & Hty1 & P1) (ty2 & Hty2 & P2) (L1 & L2 & T1 & T2) _ _ _ _]. unfold alloc_keys. rewrite P1, P2. cbn [cipher_type cipher_key_len auth_type auth_key_len auth_tag_len].
  rewrite (bind_run _ _ _ _ _ (or_dealloc_run _ _ _ _ _ (alloc_icm_run w ty1 n1 t1 Hty1 L1))). cbv zeta.
  rewrite (bind_run _ _ _ _ _ (or_dealloc_run _ _ _ _ _ (alloc_hmac_run _ t1 ltac:(lia)))).
  rewrite (bind_run _ _ _ _ _ (or_dealloc_run _ _ _ _ _ (alloc_icm_run _ ty2 n2 t2 Hty2 L2))).
  rewrite (bind_run _ _ _ _ _ (or_dealloc_run _ _ _ _ _ (alloc_hmac_run _ t2 ltac:(lia)))).
  erewrite (bind_run (or_dealloc _ _)); [|apply or_dealloc_run; reflexivity]. done.
Qed.

Lemma alloc_world_fresh w n1 n2 t1 t2 : fresh_above w -> icm_len n1 -> icm_len n2 ->
  fresh_above (alloc_world w n1 n2 t1 t2) /\ fresh_keys (alloc_world w n1 n2 t1 t2) (keys_from (allocs w)) n1 n2 t1 t2.
Proof using Hjunk Hpad.
  intros Hf L1 L2. split.
  - intros a Ha. cbn [alloc_world allocs] in Ha. destruct (Hf a) as (H1 & H2 & H3); [lia|]. cbn. by rewrite !lookup_insert_ne by lia.
  - split; try done; cbn; [..|lia].
    1-4: by rewrite ?lookup_insert_ne by lia; apply lookup_insert_eq.
    + rewrite lookup_insert_eq. by eexists.
    + lia.
Qed.

Lemma stream_alloc_run w p n1 n2 t1 t2 key : icm_policy p n1 n2 t1 t2 key ->
  let w1 := w <| allocs := (2 + allocs w)%nat |> in
  srtp_stream_alloc always kernel p w = Some (inr (with_session_keys (zero_stream 1) [keys_from (allocs w1)]), alloc_world w1 n1 n2 t1 t2).
Proof using Hjunk Hpad.
  intros H w1. pose proof H as [_ _ _ (Hk & _) _ _ (He & Hx)]. unfold srtp_stream_alloc, srtp_valid_policy. rewrite He. erewrite (bind_run (check _)) by done.
  erewrite (bind_run (alloc _)) by done. cbn [negb always]. rewrite Hk. change (1 =? 0) with false. cbv iota. erewrite (bind_run (alloc _)) by done. cbn [negb always].
  change (Z.to_nat 1) with 1%nat. cbn [alloc_all_keys app]. fold w1. change (w <| allocs := _ |> <| allocs := _ |>) with w1.
  rewrite bind_assoc, (bind_run _ _ _ _ _ (alloc_keys_run w1 p (zero_stream 1) [] n1 n2 t1 t2 key H)), (bind_run _ _ _ _ _ (ret_run _ _)). by rewrite Hx.
Qed.

(** The master key of the policy, and the keys of the stream. *)
Definition policy_mk (n1 n2 : Z) (key : list Z) : list Z := take (Z.to_nat (Z.max n1 n2)) key.
Definition keyed (k : srtp_session_keys_t) (mk : list Z) : srtp_session_keys_t :=
  k <| salt := take 12 (PRF mk label_rtp_salt 14) |> <| c_salt := take 12 (PRF mk label_rtcp_salt 14) |> <| mki_id := [] |> <| mki_size := 0 |>.
Definition policy_window (p : srtp_policy_t) : Z := round32 (if policy_window_size p =? 0 then 128 else policy_window_size p).

Definition new_stream (p : srtp_policy_t) (r : srtp_rdbx_t) (k : srtp_session_keys_t) : srtp_stream_ctx_t :=
  Stream (htonl (ssrc_value (policy_ssrc p))) [k] 1 r 3 (snd srtp_rdb_init) 3 dir_unknown (policy_allow_repeat_tx p =? 1) [] 0 false 0.

Lemma stream_init_run w p k n1 n2 t1 t2 key : icm_policy p n1 n2 t1 t2 key -> fresh_keys w k n1 n2 t1 t2 -> fresh_above w ->
  let w1 := w <| allocs := S (allocs w) |> in
  exists r w', rdbx_rel r ∅ /\ window_size r = policy_window p /\ keyed_world w1 w' k n1 n2 t1 t2 (policy_mk n1 n2 key) /\
    srtp_stream_init always kernel (with_session_keys (zero_stream 1) [k]) p w = Some (inr (new_stream p r (keyed k (policy_mk n1 n2 key))), w').
Proof using Hjunk Hpad.
  intros [(ty1 & _ & P1) (ty2 & _ & P2) _ (Hk & Hb & Hlen) Hw Hrep (He & _)] Hfk Hf w1.
  destruct (rdbx_init_rel (fun _ => true) (if policy_window_size p =? 0 then 128 else policy_window_size p)) as (r & Hr & Hrel & Hwin).
  { destruct (Z.eqb_spec (policy_window_size p) 0); lia. } { done. }
  assert (fresh_keys w1 k n1 n2 t1 t2) as Hfk1 by (destruct Hfk as [? ? ? ? ? ? ? ? [? ?]]; split; try done; cbn; lia).
  assert (fresh_above w1) as Hf1 by (intros a Ha; apply Hf; cbn in Ha; lia).
  destruct (init_keys_run w1 k (Master_key (Some key) [] 0) key n1 n2 t1 t2 Hfk1 Hf1) as (w' & Hkw & Hrun); [by split|done..|].
  exists r, w'. split; [done|]. split; [done|]. split; [done|]. unfold srtp_stream_init, srtp_valid_policy. rewrite He. erewrite (bind_run (check _)) by done.
  assert (negb (policy_window_size p =? 0) && ((policy_window_size p <? 64) || (0x8000 <=? policy_window_size p)) = false) as ->.
  { destruct (Z.eqb_spec (policy_window_size p) 0); [done|]. by rewrite (proj2 (Z.ltb_ge _ _)), (proj2 (Z.leb_gt _ _)) by lia. }
  erewrite (bind_run (alloc _)) by done. change (always (allocs w)) with true. rewrite if_negb. rewrite (bind_run _ _ _ _ _ (lift_run _ _ _ Hr)).
  erewrite (bind_run (check _)) by done. erewrite (bind_run (lift (Some r))) by done.
  assert (negb (policy_allow_repeat_tx p =? 0) && negb (policy_allow_repeat_tx p =? 1) = false) as -> by by destruct Hrep as [-> | ->].
  unfold srtp_stream_init_all_master_keys. rewrite Hk. cbn [session_keys with_session_keys]. erewrite (bind_run (lift _)) by reflexivity.
  fold w1. rewrite (bind_run _ _ _ _ _ Hrun), P1, P2. done.
Qed.

(** ** A stream in a session *)

(** The stream of the policy, in working order for RTP and RTCP and not used yet, at the head of
    the list; the objects of other streams are as they were. *)
Record stream_added w w' (p : srtp_policy_t) (s : srtp_stream_ctx_t) (k : srtp_session_keys_t) (n1 n2 t1 t2 : Z) (mk : list Z) : Prop := {
  sa_list : ctx w' = (ctx w) <| stream_list := s :: stream_list (ctx w) |>;
  sa_stream : exists r, s = new_stream p r k /\ rdbx_rel r ∅ /\ window_size r = policy_window p;
  sa_ready : ready w' 0 s k true (icm_secret (cipher_key mk label_rtp_encryption label_rtp_salt (Z.to_nat n1))) (hmac_secret (auth_key mk label_rtp_msg_auth)) t1;
  sa_rtcp_ready : rtcp_ready w' 0 s k true (icm_secret (cipher_key mk label_rtcp_encryption label_rtcp_salt (Z.to_nat n2))) (hmac_secret (auth_key mk label_rtcp_msg_auth)) t2;
  sa_left : limit_left w' k 281474976710655;
  sa_fresh : fresh_above w';
  sa_frame : forall a, (a <= allocs w)%nat -> ciphers w' !! a = ciphers w !! a /\ auths w' !! a = auths w !! a /\ limits w' !! a = limits w !! a;
  sa_same : mem w' = mem w /\ pkt_octet_len w' = pkt_octet_len w /\ events w' = events w }.

Lemma keyed_stream w w' p n1 n2 t1 t2 key r : icm_policy p n1 n2 t1 t2 key -> fresh_above w ->
  let w1 := alloc_world (w <| allocs := (2 + allocs w)%nat |>) n1 n2 t1 t2 in let b := (2 + allocs w)%nat in let mk := policy_mk n1 n2 key in
  keyed_world (w1 <| allocs := S (allocs w1) |>) w' (keys_from b) n1 n2 t1 t2 mk -> rdbx_rel r ∅ -> window_size r = policy_window p ->
  let s := new_stream p r (keyed (keys_from b) mk) in
  stream_added w (w' <| ctx := (ctx w') <| stream_list := s :: stream_list (ctx w') |> |>) p s (keyed (keys_from b) mk) n1 n2 t1 t2 mk.
Proof using Hjunk Hpad.
  intros [_ _ (L1 & L2 & T1 & T2) _ _ _ _] Hf w1 b mk [(s1 & s2 & K1 & K2 & Hc) (x1 & x2 & X1 & X2 & Ha) Hl Hn (Hm & Hlen & Hctx & Hev)] Hr Hwin s.
  assert (is_icm (icm_fresh n1) = true /\ is_icm (icm_fresh n2) = true) as [I1 I2] by (destruct L1 as [-> | ->], L2 as [-> | ->]; done).
  destruct (icm_lengths n1 L1) as (_ & _ & G1). destruct (icm_lengths n2 L2) as (_ & _ & G2). cbn in Hn. split.
  - cbn. by rewrite Hctx.
  - by exists r.
  - split; [done|done|..|done|done].
    + eexists. split; [cbn; rewrite Hc, lookup_insert_ne by (cbn; lia); apply lookup_insert_eq|]. done.
    + eexists. split; [cbn; rewrite Ha, lookup_insert_ne by (cbn; lia); apply lookup_insert_eq|]. done.
    + split; [unfold SRTP_MAX_TAG_LEN; lia|cbn; lia].
  - split; [done|done|..|done].
    + eexists. split; [cbn; rewrite Hc; apply lookup_insert_eq|]. done.
    + eexists. split; [cbn; rewrite Hc, lookup_insert_ne by (cbn; lia); apply lookup_insert_eq|]. done.
    + eexists. split; [cbn; rewrite Ha; apply lookup_insert_eq|]. done.
    + split; [unfold SRTP_MAX_TAG_LEN; lia|cbn; lia].
  - eexists. split; [cbn; rewrite Hl; apply lookup_insert_eq|done].
  - intros a Hab. cbn in Hab. destruct (Hf a) as (F1 & F2 & F3); [lia|]. cbn. rewrite Hc, Ha, Hl. cbn. by rewrite !lookup_insert_ne by lia.
  - intros a Hab. cbn. rewrite Hc, Ha, Hl. cbn. by rewrite !lookup_insert_ne by lia.
  - done.
Qed.

Lemma add_stream_run w p n1 n2 t1 t2 key : icm_policy p n1 n2 t1 t2 key -> ssrc_type (policy_ssrc p) = ssrc_specific -> fresh_above w ->
  exists s k w', srtp_add_stream always kernel p w = Some (inr tt, w') /\ stream_added w w' p s k n1 n2 t1 t2 (policy_mk n1 n2 key).
Proof using Hjunk Hpad.
  intros H Hspec Hf. pose proof H as [_ _ (L1 & L2 & _) (Hk & _) _ _ (He & _)]. set (w1 := w <| allocs := (2 + allocs w)%nat |>). set (w2 := alloc_world w1 n1 n2 t1 t2).
  destruct (alloc_world_fresh w1 n1 n2 t1 t2) as [Hf2 Hfk]; [intros a Ha; apply Hf; cbn in Ha; lia|done|done|].
  destruct (stream_init_run w2 p (keys_from (allocs w1)) n1 n2 t1 t2 key H Hfk Hf2) as (r & w' & Hr & Hwin & Hkw & Hrun).
  eexists _, _, _. split; [|by apply (keyed_stream w w' p n1 n2 t1 t2 key r)].
  unfold srtp_add_stream. erewrite (bind_run (check_policy p)).
  2:{ unfold check_policy, srtp_valid_policy, srtp_validate_policy_master_keys. rewrite He, Hk. done. }
  rewrite (bind_run _ _ _ _ _ (stream_alloc_run w p n1 n2 t1 t2 key H)). fold w1. fold w2. unfold catch. erewrite bind_run; [|by rewrite Hrun]. cbv beta iota. rewrite Hspec. done.
Qed.

(** A session of one policy. *)
Lemma create_run w p n1 n2 t1 t2 key : icm_policy p n1 n2 t1 t2 key -> ssrc_type (policy_ssrc p) = ssrc_specific -> fresh_above w ->
  exists s k w', srtp_create always kernel [p] w = Some (inr tt, w') /\
    stream_added (w <| ctx := Ctx [] None |> <| allocs := (2 + allocs w)%nat |>) w' p s k n1 n2 t1 t2 (policy_mk n1 n2 key).
Proof using Hjunk Hpad.
  intros H Hspec Hf. pose proof H as [_ _ _ _ _ _ (He & _)]. set (w1 := w <| ctx := Ctx [] None |> <| allocs := (2 + allocs w)%nat |>).
  destruct (add_stream_run w1 p n1 n2 t1 t2 key H Hspec) as (s & k & w' & Hrun & Ha); [intros a Hab; apply Hf; cbn in Hab; lia|].
  exists s, k, w'. split; [|done]. unfold srtp_create, srtp_valid_policy. rewrite He. erewrite (bind_run (check _)) by done. erewrite (bind_run (alloc _)) by done.
  cbn [negb always]. erewrite (bind_run (set_ctx _)) by done. erewrite (bind_run (alloc _)) by done. cbn [negb always add_streams].
  change (w <| allocs := _ |> <| ctx := _ |> <| allocs := _ |>) with w1. unfold catch. erewrite bind_run; [|by rewrite Hrun]. done.
Qed.
End create.
