(* ===== verification/SrtpSessionProps.v ===== *)
(** * Sessions at both ends of a connection

    A sender and a receiver whose sessions were made from the same policy, and a lossy network
    between them: every packet that gets through arrives as it was sent, also past the wrap of
    the sequence number. *)

From S2P Require Import Prelude Bytes Words BitVector Window Rdb Rdbx KeyLimit Sha1 SrtpAuth SrtpCipher AesIcm AesSpec AesInverse SrtpHeader SrtpSession SrtpParts SrtpProtect SrtpRtcp SrtpPolicy SrtpKeys SrtpManage SrtpSteps SrtpProps SrtpRtcpProps SrtpKdfProps SrtpCreateProps.
Open Scope Z_scope.
Import SrtpHeader.

(** ** Indices *)

(** A receiver at index [i] takes the sequence number of [e] for [e]. *)
Definition reaches (i e : Z) : bool := if i <=? 32768 then e <? 65536 else e - i <=? 32767.

Lemma estimate_reaches db e : 0 <= index db <= e -> index db < 281474976645120 -> reaches (index db) e = true ->
  srtp_rdbx_estimate_index db (e mod 65536) = (e, e - index db).
Proof.
  intros Hi Hidx Hr. unfold reaches in Hr. unfold srtp_rdbx_estimate_index. rewrite Z.gtb_ltb. unfold seq_num_median. destruct (Z.leb_spec (index db) 32768), (Z.ltb_spec 32768 (index db)); try lia.
  - apply Z.ltb_lt in Hr. rewrite Z.mod_small by lia. by rewrite u16_small by lia.
  - apply Z.leb_le in Hr. destruct (srtp_index_guess_spec (index db) (e mod 65536)) as (d & -> & Hd & Hm & _); [unfold seq_num_median; lia|apply Z.mod_pos_bound; lia|].
    assert (d = e - index db) as -> by (Z.div_mod_to_equations; lia). f_equal. lia.
Qed.

(** The indices that were used are below the next one, which the sender reaches. *)
Definition next_index (S : gset Z) (e : Z) : Prop := 0 <= e /\ (S = ∅ /\ e < 65536 \/ top S + 1 = e).

Lemma next_index_ok S e : next_index S e -> top S <= e /\ (e ∉ S) /\ reaches (top S) e = true.
Proof.
  intros [H0 [[-> He] | He]].
  - rewrite top_empty. split; [lia|]. split; [set_solver|]. by apply Z.ltb_lt.
  - split; [lia|]. split; [intros Hin%top_max; lia|]. unfold reaches. destruct (Z.leb_spec (top S) 32768); [apply Z.ltb_lt|apply Z.leb_le]; lia.
Qed.

Lemma next_index_step S e : next_index S e -> next_index ({[e]} ∪ S) (e + 1).
Proof. intros H. destruct (next_index_ok S e H) as [Hle _]. destruct H as [H0 _]. split; [lia|]. right. rewrite top_insert. lia. Qed.

(** ** One end *)

Section link.
Context {C A : Type} {TC : CipherType C} {TA : AuthType A} {OC : CipherOk C TC} {OA : AuthOk A TA}.
Context (alloc_ok : nat -> bool) (junk tmp_tag : list Z).
Context (ck : ct_secret) (ak : at_secret) (n ssrc : Z).
Implicit Types w : SrtpSession.world C A.

(** A stream in working order that has used the indices [S] and may be used for [left] more
    packets. *)
Record endpoint (d : direction_t) w (S : gset Z) (left : Z) : Prop := {
  ep_stream : exists p s k, ready w p s k true ck ak n /\ can_turn s d /\ limit_left w k left /\
    rdbx_rel (rtp_rdbx s) S /\ srtp_get_stream (ctx w) ssrc = Some (Listed p) }.

(** A packet with the index [e]. *)
Record rtp_packet (e : Z) (m : list Z) (len : Z) : Prop := {
  rp_bytes : Forall byte m;
  rp_len : 0 <= len < 268435436 /\ len + n <= zlen m;
  rp_header : exists h x, valid_header m len h x;
  rp_ssrc : hdr_ssrc m = Some ssrc;
  rp_seq : hdr_seq m = Some (e mod 65536);
  rp_short : len <= 1048560 }.

(** The cipher has key stream for packets of 1 MB. *)
Definition long_stream : Prop := forall e m, 0 <= m <= 1048560 -> ct_fits ck (packet_iv true ssrc e) m = true.

Lemma new_index w p s k S e m len left d : ready w p s k true ck ak n -> can_turn s d -> limit_left w k left -> rdbx_rel (rtp_rdbx s) S ->
  srtp_get_stream (ctx w) ssrc = Some (Listed p) -> rtp_packet e m len -> top S <= e < 281474976645120 -> (e ∉ S) -> reaches (top S) e = true ->
  exists db, acceptable (deliver w m len) p s m ssrc e db /\ rdbx_rel db ({[e]} ∪ S).
Proof using.
  intros H Hd Hl Hrel Hst Hp He Hnew Hr. pose proof (top_nonneg S) as H0. pose proof (rdbx_index _ _ Hrel) as Hi. pose proof (rdbx_len _ _ Hrel).
  assert (rdbx_valid (rtp_rdbx s) e) as Hv. { split; [lia|]. rewrite Hi. unfold reaches in Hr. destruct (Z.leb_spec (top S) 32768); lia. }
  destruct (rdbx_add_spec (rtp_rdbx s) S e Hrel Hv) as (db & Hadd & Hrel' & _); [lia|]. pose proof (rdbx_check_spec _ S e Hrel Hv) as Hc.
  exists db. split; [|done]. split; [apply Hp|done|]. exists (e mod 65536), (e - index (rtp_rdbx s)). split; [apply Hp|]. split; [apply estimate_reaches; rewrite ?Hi; (done || lia)|].
  split; [|done]. rewrite Hc. f_equal. unfold spec_check. rewrite (proj2 (Z.ltb_ge _ _)) by lia. by rewrite decide_False.
Qed.

Lemma ready_deliver w p s k m len : ready w p s k true ck ak n -> ready (deliver w m len) p s k true ck ak n.
Proof using. intros H. by apply ready_len, ready_mem. Qed.

(** The state after a packet is one of an endpoint again. *)
Lemma endpoint_next w w' p s k S e left d db : ready w p s k true ck ak n -> srtp_get_stream (ctx w) ssrc = Some (Listed p) ->
  used w w' p (turned s d) k left db -> ready w' p ((turned s d) <| rtp_rdbx := db |>) k true ck ak n -> rdbx_rel db ({[e]} ∪ S) -> endpoint d w' ({[e]} ∪ S) (left - 1).
Proof using.
  intros H Hst [Hctx Hleft] Hr Hrel. pose proof (ready_stream _ _ _ _ _ _ _ _ H) as Hs. split. eexists p, _, k. split; [exact Hr|]. split; [by left|]. split; [done|]. split; [done|].
  rewrite Hctx. unfold srtp_get_stream, srtp_stream_list_get in *. cbn. by rewrite (find_stream_insert _ _ s).
Qed.

(** A packet that is lost. *)
Lemma send_run w S e m len left : long_stream -> endpoint dir_srtp_sender w S left -> soft_limit < left < 18446744073709551616 ->
  rtp_packet e m len -> top S <= e < 281474976645120 -> (e ∉ S) -> reaches (top S) e = true ->
  exists w', srtp_protect alloc_ok junk (deliver w m len) = Some (inr tt, w') /\ endpoint dir_srtp_sender w' ({[e]} ∪ S) (left - 1).
Proof using OC OA.
  intros Hlong [(p & s & k & H & Hd & Hl & Hrel & Hst)] Hsoft Hp He Hnew Hr. destruct (new_index w p s k S e m len left _ H Hd Hl Hrel Hst Hp He Hnew Hr) as (db & Hacc & Hrel').
  pose proof Hp as [Hb [Hlen Hm] (h & x & Hv) _ _ Hshort]. destruct (valid_header_exists m len Hb ltac:(destruct (ready_tag _ _ _ _ _ _ _ _ H); lia) (proj1 Hv)) as (h0 & x0 & [_ Hps0] & Hh).
  rewrite (proj2 Hv) in Hps0. injection Hps0 as <- <-.
  destruct (protect_spec alloc_ok junk (deliver w m len) p s k true ck ak n h x ssrc e db left) as (w' & Hrun & _ & _ & Hu & Hr');
    [by apply ready_deliver|done|done|done|done|done|cbn; lia|done|done|by apply Hlong|apply Hlong; cbn; lia|].
  exists w'. split; [done|]. by apply (endpoint_next (deliver w m len) w' p s k S e left _ db); [apply ready_deliver|..].
Qed.

(** ** Both ends *)

Context (Htl : length tmp_tag = 16%nat) (Htb : Forall byte tmp_tag).

(** A packet that gets through. *)
Lemma through_run ws wr S R e m len lefts leftr : long_stream -> endpoint dir_srtp_sender ws S lefts -> soft_limit < lefts < 18446744073709551616 ->
  endpoint dir_srtp_receiver wr R leftr -> soft_limit < leftr < 18446744073709551616 -> rtp_packet e m len -> top S <= e < 281474976645120 -> (e ∉ S) -> reaches (top S) e = true ->
  top R <= e -> (e ∉ R) -> reaches (top R) e = true ->
  exists ws' wr', srtp_protect alloc_ok junk (deliver ws m len) = Some (inr tt, ws') /\
    srtp_unprotect alloc_ok junk tmp_tag (deliver wr (mem ws') (pkt_octet_len ws')) = Some (inr tt, wr') /\
    pkt_octet_len wr' = len /\ take (Z.to_nat len) (mem wr') = take (Z.to_nat len) m /\
    endpoint dir_srtp_sender ws' ({[e]} ∪ S) (lefts - 1) /\ endpoint dir_srtp_receiver wr' ({[e]} ∪ R) (leftr - 1).
Proof using OC OA Htl Htb.
  intros Hlong [(p & s & k & H & Hd & Hl & Hrel & Hst)] Hsoft [(q & r & l & H2 & Hd2 & Hl2 & Hrel2 & Hst2)] Hsoft2 Hp He Hnew Hr He2 Hnew2 Hr2.
  destruct (new_index ws p s k S e m len lefts _ H Hd Hl Hrel Hst Hp He Hnew Hr) as (dbs & Accs & Hrels). destruct (new_index wr q r l R e m len leftr _ H2 Hd2 Hl2 Hrel2 Hst2 Hp ltac:(lia) Hnew2 Hr2) as (dbr & Accr & Hrelr).
  pose proof Hp as [Hb [Hlen Hm] (h & x & Hv) _ _ Hshort]. destruct (valid_header_exists m len Hb ltac:(destruct (ready_tag _ _ _ _ _ _ _ _ H); lia) (proj1 Hv)) as (h0 & x0 & [_ Hps0] & Hh).
  rewrite (proj2 Hv) in Hps0. injection Hps0 as <- <-.
  destruct (packet_through alloc_ok junk tmp_tag (deliver ws m len) wr p q s r k l true ck ak n h ssrc e lefts leftr x dbs dbr) as (ws' & wr' & R1 & L1 & R2 & L2 & M2 & U1 & U2 & K1 & K2);
    [by apply ready_deliver|done..|by destruct Accr|done|done|done|cbn; lia|done|done|by apply Hlong|apply Hlong; cbn; lia|].
  exists ws', wr'. do 4 (split; [done|]). split; [by apply (endpoint_next (deliver ws m len) ws' p s k S e lefts _ dbs); [apply ready_deliver|..]|by apply (endpoint_next wr wr' q r l R e leftr _ dbr)].
Qed.

(** The packets of a list are sent one after the other, each in its memory; those with [true]
    get through.  The result is what the receiver gets. *)
Fixpoint transmit ws wr (pkts : list (list Z * Z * bool)) : option (list (list Z)) :=
  match pkts with
  | [] => Some []
  | (m, len, through) :: pkts =>
      match srtp_protect alloc_ok junk (deliver ws m len) with
      | Some (inr _, ws) =>
          if (through : bool) then
            match srtp_unprotect alloc_ok junk tmp_tag (deliver wr (mem ws) (pkt_octet_len ws)) with
            | Some (inr _, wr) => out ← transmit ws wr pkts; Some (take (Z.to_nat (pkt_octet_len wr)) (mem wr) :: out)
            | _ => None
            end
          else transmit ws wr pkts
      | _ => None
      end
  end.

(** Packets with the indices [e], [e + 1], ..., and losses that the receiver, whose last index is
    [i], can follow. *)
Fixpoint good_traffic (i e : Z) (pkts : list (list Z * Z * bool)) : Prop :=
  match pkts with
  | [] => True
  | (m, len, through) :: pkts => rtp_packet e m len /\ if (through : bool) then reaches i e = true /\ good_traffic e (e + 1) pkts else good_traffic i (e + 1) pkts
  end.

Definition arrivals (pkts : list (list Z * Z * bool)) : list (list Z) := map (fun '(m, len, _) => take (Z.to_nat len) m) (filter (fun x => snd x = true) pkts).

Lemma transmit_run pkts : forall ws wr S R e lefts leftr, long_stream ->
  endpoint dir_srtp_sender ws S lefts -> endpoint dir_srtp_receiver wr R leftr -> next_index S e -> (R = ∅ \/ top R < e) -> good_traffic (top R) e pkts ->
  let N := Z.of_nat (length pkts) in e + N < 281474976645120 -> soft_limit + N < lefts < 18446744073709551616 -> soft_limit + N < leftr < 18446744073709551616 ->
  transmit ws wr pkts = Some (arrivals pkts).
Proof using OC OA Htl Htb.
  induction pkts as [|[[m len] through] pkts IH]; intros ws wr S R e lefts leftr Hlong Hs Hr Hnext HR Hgood N HN Hls Hlr; [done|]. cbn [transmit good_traffic] in *. destruct Hgood as [Hp Hgood].
  destruct (next_index_ok S e Hnext) as (Hle & Hnew & Hre). pose proof (next_index_step S e Hnext) as Hnext'. destruct Hnext as [H0 _]. unfold N in *. clear N. cbn [length] in *.
  rewrite Nat2Z.inj_succ in *. destruct through.
  - destruct Hgood as [Hreach Hgood]. assert (top R <= e /\ (e ∉ R)) as [Hle2 Hnew2]. { destruct HR as [-> | HR]; [rewrite top_empty; split; [lia|set_solver]|split; [lia|intros Hin%top_max; lia]]. }
    destruct (through_run ws wr S R e m len lefts leftr Hlong Hs ltac:(lia) Hr ltac:(lia) Hp ltac:(lia) Hnew Hre Hle2 Hnew2 Hreach) as (ws' & wr' & -> & -> & Hl' & Hm' & Hs' & Hr').
    rewrite (IH ws' wr' ({[e]} ∪ S) ({[e]} ∪ R) (e + 1) (lefts - 1) (leftr - 1)); try done; try lia.
    + cbn [mbind option_bind]. by rewrite Hl', Hm'.
    + right. rewrite top_insert. lia.
    + rewrite top_insert. by rewrite Z.max_l by lia.
  - destruct (send_run ws S e m len lefts Hlong Hs ltac:(lia) Hp ltac:(lia) Hnew Hre) as (ws' & -> & Hs').
    rewrite (IH ws' wr ({[e]} ∪ S) R (e + 1) (lefts - 1) leftr); try done; try lia. destruct HR; [by left|right; lia].
Qed.
End link.

(** ** Counter mode has key stream for every packet *)

Lemma be16_zero x : x mod 65536 = 0 -> be16 x = [0; 0].
Proof.
  intros Hx. unfold be16. rewrite Z.shiftr_div_pow2 by lia. unfold u8, wrap. change (2 ^ 8) with 256.
  assert ((x / 256) mod 256 = 0 /\ x mod 256 = 0) as [-> ->] by (Z.div_mod_to_equations; lia). done.
Qed.

(** The block counter starts at 0 when the last two octets of the IV are 0. *)
Lemma zero_end_fits k pre m : icm_key_ok k -> length pre = 14%nat -> 0 <= m <= 1048560 -> icm_fits k (pre ++ [0; 0]) m = true.
Proof.
  intros Hk Hl Hm. unfold icm_fits, first_index, first_counter. rewrite xor_list_app by by rewrite (salt_length _ Hk).
  assert (length (Fips197.xor_list (AesIcm.salt k) pre) = 14%nat) as Hx by (unfold Fips197.xor_list; rewrite length_zip_with, (salt_length _ Hk), Hl; done).
  rewrite !app_nth2 by lia. rewrite Hx. apply Z.leb_le. cbn. rewrite Z.lxor_0_l. Z.div_mod_to_equations. lia.
Qed.

Lemma packet_iv_fits k ssrc e m : icm_key_ok k -> 0 <= m <= 1048560 -> icm_fits k (packet_iv true ssrc e) m = true.
Proof.
  intros Hk Hm. unfold packet_iv, est_octets, be64, be32. set (y := u64 (Z.shiftl e 16)).
  rewrite (be16_zero y); [|unfold y, u64, wrap; rewrite Z.shiftl_mul_pow2 by lia; change (2 ^ 64) with (65536 * 2 ^ 48); rewrite Z.mul_comm, Z.mul_mod_distr_l by lia; Z.div_mod_to_equations; lia].
  rewrite !app_assoc. by apply zero_end_fits.
Qed.

Lemma rtcp_iv_fits k ssrc e m : icm_key_ok k -> 0 <= m <= 1048560 -> icm_fits k (rtcp_iv true ssrc e) m = true.
Proof.
  intros Hk Hm. unfold rtcp_iv. unfold be32 at 2. set (y := u32 (Z.shiftl e 16)).
  rewrite (be16_zero y); [|unfold y, u32, wrap; rewrite Z.shiftl_mul_pow2 by lia; change (2 ^ 32) with (65536 * 2 ^ 16); rewrite Z.mul_comm, Z.mul_mod_distr_l by lia; Z.div_mod_to_equations; lia].
  rewrite !app_assoc. by apply zero_end_fits.
Qed.

(** ** Sessions of the same policy *)

Lemma policy_mk_ok p n1 n2 t1 t2 key : icm_policy p n1 n2 t1 t2 key -> icm_key_ok (policy_mk n1 n2 key).
Proof.
  intros [_ _ (L1 & L2 & _) (_ & Hb & Hl) _ _ _]. split; [|by apply Forall_take]. unfold policy_mk. rewrite zlen_take by (destruct L1, L2; lia). destruct L1, L2; lia.
Qed.

(** The secret of the policy's cipher. *)
Definition rtp_cipher_secret (n1 n2 : Z) (key : list Z) := icm_secret (Rfc3711.cipher_key (policy_mk n1 n2 key) label_rtp_encryption label_rtp_salt (Z.to_nat n1)).

Lemma long_stream_secret p n1 n2 t1 t2 key ssrc : icm_policy p n1 n2 t1 t2 key -> long_stream (rtp_cipher_secret n1 n2 key) ssrc.
Proof.
  intros H e m Hm. apply packet_iv_fits; [|done]. apply cipher_key_ok; [by eapply policy_mk_ok|done|done|]. destruct H as [_ _ (L1 & _) _ _ _ _]. destruct L1 as [-> | ->]; [by left|by right].
Qed.

Section sessions.
Context (junk pad : list Z) (Hjunk : length junk = 80%nat) (Hpad : length pad = 64%nat).
#[local] Instance HT' : AuthType srtp_hmac_ctx_t := srtp_hmac junk pad.
#[local] Instance HO' : AuthOk srtp_hmac_ctx_t HT' := srtp_hmac_ok junk pad Hjunk Hpad.
Abbreviation world := (SrtpSession.world engine_cipher engine_auth).
Implicit Types w : world.

(** The secret of its authentication function. *)
Definition rtp_auth_secret (n1 n2 : Z) (key : list Z) := hmac_secret junk pad Hjunk Hpad (Rfc3711.auth_key (policy_mk n1 n2 key) label_rtp_msg_auth).

Lemma added_endpoint w w' p s k n1 n2 t1 t2 key d : stream_added junk pad Hjunk Hpad w w' p s k n1 n2 t1 t2 (policy_mk n1 n2 key) ->
  endpoint (rtp_cipher_secret n1 n2 key) (rtp_auth_secret n1 n2 key) t1 (htonl (ssrc_value (policy_ssrc p))) d w' ∅ 281474976710655.
Proof using Hjunk Hpad.
  intros [Hl (r & -> & Hr & _) Hready _ Hleft _ _ _]. split. exists 0%nat. eexists _, k. split; [exact Hready|]. split; [by right|]. split; [done|]. split; [done|].
  rewrite Hl. unfold srtp_get_stream, srtp_stream_list_get. cbn. by rewrite Z.eqb_refl.
Qed.

Context (xjunk tmp_tag : list Z) (Htl : length tmp_tag = 16%nat) (Htb : Forall byte tmp_tag).

(** C3. The sessions work, from the policy to the packets.  Sender and receiver call [srtp_create]
    with the same policy: AES in counter mode of either length, HMAC-SHA1 with a tag of at most
    16 octets, one master key.  Then any number of packets with consecutive sequence numbers,
    starting anywhere and wrapping around any number of times, is protected without an error,
    and every one that the network does not lose is unprotected to the octets that were sent, as
    long as no more than 32766 packets in a row are lost and the receiver gets one before the
    first wrap. *)
Theorem srtp_session_delivers (p : srtp_policy_t) (n1 n2 t1 t2 e : Z) (key : list Z) (ws wr : world) (pkts : list (list Z * Z * bool)) :
  icm_policy p n1 n2 t1 t2 key -> ssrc_type (policy_ssrc p) = ssrc_specific -> fresh_above ws -> fresh_above wr ->
  0 <= e < 65536 -> Z.of_nat (length pkts) < 281474976579584 -> good_traffic t1 (htonl (ssrc_value (policy_ssrc p))) 0 e pkts ->
  exists ws' wr', srtp_create always (loaded_kernel always) [p] ws = Some (inr tt, ws') /\ srtp_create always (loaded_kernel always) [p] wr = Some (inr tt, wr') /\
    transmit always xjunk tmp_tag ws' wr' pkts = Some (arrivals pkts).
Proof using Hjunk Hpad Htl Htb.
  intros H Hspec Hfs Hfr He Hlen Hgood. destruct (create_run junk pad Hjunk Hpad ws p n1 n2 t1 t2 key H Hspec Hfs) as (ss & ks & ws' & Rs & Hs).
  destruct (create_run junk pad Hjunk Hpad wr p n1 n2 t1 t2 key H Hspec Hfr) as (sr & kr & wr' & Rr & Hr). exists ws', wr'. split; [done|]. split; [done|].
  apply (transmit_run always xjunk tmp_tag (rtp_cipher_secret n1 n2 key) (rtp_auth_secret n1 n2 key) t1 (htonl (ssrc_value (policy_ssrc p))) Htl Htb pkts ws' wr' ∅ ∅ e 281474976710655 281474976710655);
    [by eapply long_stream_secret|by eapply added_endpoint|by eapply added_endpoint|split; [lia|left; split; [done|lia]]|by left|done|lia|unfold soft_limit; lia|unfold soft_limit; lia].
Qed.
End sessions.

(** ** An example *)

(** The master key and salt of RFC 3711, B.3. *)
Definition b3_key : list Z := [0xE1; 0xF9; 0x7A; 0x0D; 0x3E; 0x01; 0x8B; 0xE0; 0xD6; 0x4F; 0xA3; 0x2C; 0x06; 0xDE; 0x41; 0x39;
  0x0E; 0xC6; 0x75; 0xAD; 0x49; 0x8A; 0xFE; 0xEB; 0xB6; 0x96; 0x0B; 0x3A; 0xAB; 0xE6].
Definition b3_policy : srtp_policy_t :=
  Policy (Ssrc ssrc_specific 0x01020304) srtp_crypto_policy_set_rtp_default srtp_crypto_policy_set_rtcp_default (Some b3_key) [] 0 false 128 0 None 0.
Definition empty_world : SrtpSession.world engine_cipher engine_auth := World [] 0 (Ctx [] None) ∅ ∅ ∅ 0 [].

Definition b3_packet (hi lo : Z) : list Z := [0x80; 0; hi; lo; 0; 0; 0; 0; 1; 2; 3; 4; 10; 20; 30; 40; 50; 60] ++ replicate 10 0.
Definition b3_traffic : list (list Z * Z * bool) := [(b3_packet 255 255, 18, true); (b3_packet 0 0, 18, false); (b3_packet 0 1, 18, true)].

Lemma b3_icm_policy : icm_policy b3_policy 30 30 10 10 b3_key.
Proof.
  split; try done.
  - eexists. split; [by left|done].
  - eexists. split; [by left|done].
  - split; [by left|]. split; [by left|]. lia.
  - split; [done|]. split; [apply (bool_decide_eq_true_1 (Forall _ _)); vm_compute; reflexivity|vm_compute; discriminate].
  - right. vm_compute. by split.
  - by left.
Qed.

Lemma empty_fresh : fresh_above empty_world.
Proof. intros a _. done. Qed.

Lemma b3_rtp_packet e hi lo : hdr_seq (b3_packet hi lo) = Some (e mod 65536) -> byte hi -> byte lo -> rtp_packet 10 67305985 e (b3_packet hi lo) 18.
Proof.
  intros Hs Hh Hl. split; try done.
  - unfold b3_packet. cbn. repeat (apply Forall_cons; split; [done || (unfold byte; lia)|]). apply Forall_nil. done.
  - by exists 12, None.
Qed.

Lemma b3_good_traffic : good_traffic 10 67305985 0 65535 b3_traffic.
Proof.
  cbn [good_traffic b3_traffic]. split; [by apply b3_rtp_packet; [reflexivity|unfold byte; lia|unfold byte; lia]|]. split; [reflexivity|].
  split; [by apply b3_rtp_packet; [reflexivity|unfold byte; lia|unfold byte; lia]|]. split; [by apply b3_rtp_packet; [reflexivity|unfold byte; lia|unfold byte; lia]|]. split; [reflexivity|done].
Qed.

Definition W_junk : list Z := replicate 80 7.
Definition ipad_junk : list Z := replicate 64 9.
Definition tag_junk : list Z := replicate 16 5.
Lemma tag_junk_bytes : Forall byte tag_junk.
Proof. apply (bool_decide_eq_true_1 (Forall _ _)). vm_compute. reflexivity. Qed.

Lemma srtp_session_delivers_witness : exists ws' wr',
  srtp_create (TA := sum_auth (TA := srtp_hmac W_junk ipad_junk)) always (loaded_kernel always) [b3_policy] empty_world = Some (inr tt, ws') /\
  srtp_create (TA := sum_auth (TA := srtp_hmac W_junk ipad_junk)) always (loaded_kernel always) [b3_policy] empty_world = Some (inr tt, wr') /\
  transmit (TA := sum_auth (TA := srtp_hmac W_junk ipad_junk)) always [] tag_junk ws' wr' b3_traffic = Some [take 18 (b3_packet 255 255); take 18 (b3_packet 0 1)].
Proof.
  refine (srtp_session_delivers W_junk ipad_junk eq_refl eq_refl [] tag_junk eq_refl tag_junk_bytes b3_policy 30 30 10 10 65535 b3_key empty_world empty_world b3_traffic
    b3_icm_policy eq_refl empty_fresh empty_fresh _ _ b3_good_traffic); [split; [discriminate|reflexivity]|reflexivity].
Defined.

(** The session keys of RFC 3711, B.3, that the code derives. *)
Definition derived_octets (label n : Z) : option (srtp_err_status_t + list Z) :=
  fst <$> (kdf ← srtp_kdf_init (loaded_kernel always) b3_key 30; srtp_kdf_generate kdf label (replicate (Z.to_nat n) 0) 0 n) empty_world.

Example b3_session_keys :
  derived_octets label_rtp_encryption 16 = Some (inr [0xC6; 0x1E; 0x7A; 0x93; 0x74; 0x4F; 0x39; 0xEE; 0x10; 0x73; 0x4A; 0xFE; 0x3F; 0xF7; 0xA0; 0x87]) /\
  derived_octets label_rtp_salt 14 = Some (inr [0x30; 0xCB; 0xBC; 0x08; 0x86; 0x3D; 0x8C; 0x85; 0xD4; 0x9D; 0xB3; 0x4A; 0x9A; 0xE1]) /\
  derived_octets label_rtp_msg_auth 20 =
    Some (inr [0xCE; 0xBE; 0x32; 0x1F; 0x6F; 0xF7; 0x71; 0x6B; 0x6F; 0xD4; 0xAB; 0x49; 0xAF; 0x25; 0x6A; 0x15; 0x6D; 0x38; 0xBA; 0xA4]).
Proof. vm_compute. by repeat split. Qed.

Definition b3_master : srtp_master_key_t := Master_key (Some b3_key) [1; 2] 2.
Definition fresh_world : SrtpSession.world engine_cipher engine_auth := alloc_world empty_world 30 30 10 10.

Lemma srtp_session_keys_rfc3711_witness : exists w', keyed_world W_junk ipad_junk eq_refl eq_refl fresh_world w' (keys_from 0) 30 30 10 10 b3_key /\
  srtp_stream_init_keys (TA := sum_auth (TA := srtp_hmac W_junk ipad_junk)) always (loaded_kernel always) (keys_from 0) b3_master fresh_world =
    Some (inr ((keys_from 0) <| salt := take 12 (Rfc3711.PRF b3_key label_rtp_salt 14) |> <| c_salt := take 12 (Rfc3711.PRF b3_key label_rtcp_salt 14) |>
                           <| mki_id := [1; 2] |> <| mki_size := 2 |>), w').
Proof.
  destruct (alloc_world_fresh W_junk ipad_junk eq_refl eq_refl empty_world 30 30 10 10 empty_fresh (or_introl eq_refl) (or_introl eq_refl)) as [Hf Hk].
  refine (srtp_session_keys_rfc3711 W_junk ipad_junk eq_refl eq_refl fresh_world (keys_from 0) b3_master b3_key 30 30 10 10 Hk Hf _ eq_refl _ _);
    [split; discriminate|apply (bool_decide_eq_true_1 (Forall _ _)); vm_compute; reflexivity|discriminate].
Defined.
