(* ===== verification/SrtpExample.v ===== *)
(** * SRTP with AES-128 in counter mode and HMAC-SHA1

    The interfaces of [SrtpCipher] and [SrtpAuth] at their implementations: a session that
    satisfies the hypotheses of [SrtpProps], and a run of it; the same session with an RTCP
    packet, for [SrtpRtcpProps]. *)

From S2P Require Import Prelude Bytes BitVector Window Rdb Rdbx KeyLimit Words Sha1 SrtpSha1 SrtpAuth Aes AesRounds AesKeys SrtpCipher AesIcm SrtpHeader SrtpSession SrtpParts SrtpProtect SrtpRtcp SrtpSteps SrtpProps SrtpRtcpProps.
Open Scope Z_scope.
Import SrtpHeader.

Abbreviation C := srtp_aes_icm_ctx_t.
Abbreviation A := srtp_hmac_ctx_t.
Definition W_junk : list Z := replicate 80 7.
Definition ipad_junk : list Z := replicate 64 9.
#[local] Existing Instance srtp_hmac.
Definition HA : AuthType A := srtp_hmac W_junk ipad_junk.
Definition HO : AuthOk A HA := srtp_hmac_ok W_junk ipad_junk eq_refl eq_refl.

(** ** A session *)

Definition ex_cipher : C := match srtp_aes_icm_context_init (icm_empty 0) icm_key with Some (_, c) => c | None => icm_empty 0 end.
Definition ex_auth : A := match srtp_hmac_init W_junk ipad_junk hmac_object hmac_key_ex 20 with Some (_, s) => s | None => hmac_object end.
Definition ex_db : srtp_rdbx_t := match srtp_rdbx_init (fun _ => true) 128 with Some (_, Some r) => r | _ => Rdbx 0 (bitvector_dealloc (Bitvector 0 None)) end.

Definition ex_keys : srtp_session_keys_t := Session_keys 0 None 0 0 0 [] [] [] 0 0.
Definition ex_stream (d : direction_t) : srtp_stream_ctx_t := Stream 67305985 [ex_keys] 1 ex_db 3 (snd srtp_rdb_init) 3 d false [] 0 false 0.
(** Version 2, sequence number 1, SSRC 1.2.3.4 and six octets; ten more of memory. *)
Definition ex_packet : list Z := [0x80; 0; 0; 1; 0; 0; 0; 0; 1; 2; 3; 4; 10; 20; 30; 40; 50; 60] ++ replicate 10 0.
Definition ex_world (d : direction_t) : world C A :=
  World ex_packet 18 (Ctx [ex_stream d] None) {[0%nat := Cipher ex_cipher 30 SRTP_AES_ICM_128]} {[0%nat := Auth ex_auth 10 20 0]} {[0%nat := Key_limit 281474976710656 srtp_key_state_normal]} 0 [].

Definition ex_tmp : list Z := replicate 16 5.
Definition ex_protect (w : world C A) := srtp_protect (TA := HA) (fun _ => true) [] w.
Definition ex_unprotect (w : world C A) := srtp_unprotect (TA := HA) (fun _ => true) [] ex_tmp w.

(** The packet goes through, and a second time it does not. *)
Definition ex_run : option (list Z * Z * (srtp_err_status_t + unit)) :=
  '(_, w) ← ex_protect (ex_world dir_srtp_sender);
  '(_, w1) ← ex_unprotect (deliver (ex_world dir_srtp_receiver) (mem w) (pkt_octet_len w));
  '(r, _) ← ex_unprotect (deliver w1 (mem w) (pkt_octet_len w));
  Some (take 18 (mem w1), pkt_octet_len w1, r).

Example ex_run_result : ex_run = Some (take 18 ex_packet, 18, inl srtp_err_status_replay_fail).
Proof. vm_compute. reflexivity. Qed.

(** ** The session is in working order *)

Ltac decide_bytes := apply (bool_decide_eq_true_1 (Forall _ _)); vm_compute; reflexivity.

Lemma ex_key_ok : icm_key_ok icm_key.
Proof. split; [by left|]. decide_bytes. Qed.

Lemma ex_cipher_keyed : icm_keyed ex_cipher icm_key.
Proof.
  destruct (icm_init_spec (icm_empty 0) icm_key ex_key_ok) as (c & Hc & Hk); [done|]. unfold ex_cipher. by rewrite Hc.
Qed.

Lemma ex_auth_keyed : hmac_keyed ex_auth hmac_key_ex.
Proof.
  destruct (srtp_hmac_init_spec W_junk ipad_junk eq_refl eq_refl hmac_object hmac_key_ex) as (s & Hs & [Hk _]).
  - split; [done|]. split; [done|]. decide_bytes.
  - vm_compute. discriminate.
  - decide_bytes.
  - unfold ex_auth. change 20 with (zlen hmac_key_ex). by rewrite Hs.
Qed.

Lemma ex_db_rel : rdbx_rel ex_db ∅ /\ window_size ex_db = 128 /\ index ex_db = 0.
Proof.
  destruct (rdbx_init_rel (fun _ => true) 128 ltac:(lia) ltac:(done)) as (r & Hr & Hrel & Hw). unfold ex_db. rewrite Hr. split; [done|]. split; [by rewrite Hw|].
  rewrite (rdbx_index _ _ Hrel). apply top_empty.
Qed.

Lemma ex_ready d : ready (OC := srtp_aes_icm_ok) (OA := HO) (ex_world d) 0 (ex_stream d) ex_keys true icm_key hmac_key_ex 10.
Proof.
  split.
  - reflexivity.
  - reflexivity.
  - eexists. split; [reflexivity|]. split; [exact ex_cipher_keyed|]. split; reflexivity.
  - eexists. split; [reflexivity|]. split; [exact ex_auth_keyed|]. split; reflexivity.
  - split; [split|]; vm_compute; discriminate.
  - split; [reflexivity|]. split; reflexivity.
  - reflexivity.
Qed.

Lemma ex_left d : limit_left (ex_world d) ex_keys 281474976710656 /\ soft_limit < 281474976710656 < 18446744073709551616.
Proof. split; [by eexists|]. unfold soft_limit. lia. Qed.

(** The index 1 in the database. *)
Definition ex_db1 : srtp_rdbx_t := match srtp_rdbx_add_index ex_db 1 with Some (_, r) => r | None => ex_db end.

Lemma ex_acceptable d : acceptable (ex_world d) 0 (ex_stream d) ex_packet 67305985 1 ex_db1.
Proof.
  split; [reflexivity|reflexivity|]. exists 1, 1. repeat split; vm_compute; reflexivity.
Qed.

Lemma ex_header : valid_header ex_packet 18 12 None.
Proof. split; reflexivity. Qed.

Lemma ex_packet_bytes : Forall byte ex_packet.
Proof. decide_bytes. Qed.

Lemma ex_tmp_bytes : Forall byte ex_tmp.
Proof. decide_bytes. Qed.

(** ** Witnesses *)

Lemma srtp_roundtrip_witness : exists ws' wr', ex_protect (ex_world dir_srtp_sender) = Some (inr tt, ws') /\ pkt_octet_len ws' = 18 + 10 /\
    ex_unprotect (deliver (ex_world dir_srtp_receiver) (mem ws') (pkt_octet_len ws')) = Some (inr tt, wr') /\
    pkt_octet_len wr' = 18 /\ take (Z.to_nat 18) (mem wr') = take (Z.to_nat 18) ex_packet /\
    used (ex_world dir_srtp_sender) ws' 0 (turned (ex_stream dir_srtp_sender) dir_srtp_sender) ex_keys 281474976710656 ex_db1 /\
    used (ex_world dir_srtp_receiver) wr' 0 (turned (ex_stream dir_srtp_receiver) dir_srtp_receiver) ex_keys 281474976710656 ex_db1.
Proof.
  assert (0 <= 18 < 268435436) as H18 by lia. assert (18 + 10 <= zlen ex_packet) as H28 by (vm_compute; discriminate).
  exact (srtp_roundtrip (OC := srtp_aes_icm_ok) (OA := HO) (fun _ => true) [] ex_tmp
    (ex_world dir_srtp_sender) (ex_world dir_srtp_receiver) 0 0 (ex_stream dir_srtp_sender) (ex_stream dir_srtp_receiver) ex_keys ex_keys true icm_key hmac_key_ex
    10 12 67305985 1 281474976710656 281474976710656 None ex_db1 ex_db1
    (ex_ready _) (or_introl eq_refl) (proj1 (ex_left _)) (proj2 (ex_left dir_srtp_sender)) (ex_ready _) (or_introl eq_refl) (proj1 (ex_left _)) (proj2 (ex_left dir_srtp_sender))
    (ex_acceptable _) (ex_acceptable _) ex_packet_bytes eq_refl ex_tmp_bytes H18 H28 ex_header eq_refl eq_refl).
Defined.

(** The packet as it arrives. *)
Definition ex_sealed : list Z := match ex_protect (ex_world dir_srtp_sender) with Some (_, w) => mem w | None => [] end.
Definition ex_receiver : world C A := deliver (ex_world dir_srtp_receiver) ex_sealed 28.

Lemma ex_receiver_ready : ready (OC := srtp_aes_icm_ok) (OA := HO) ex_receiver 0 (ex_stream dir_srtp_receiver) ex_keys true icm_key hmac_key_ex 10.
Proof. apply ready_len, ready_mem, ex_ready. Qed.

Lemma ex_sealed_bytes : Forall byte ex_sealed.
Proof. decide_bytes. Qed.

Lemma ex_first_fits ssrc est : icm_fits icm_key (packet_iv true ssrc est) 0 = true.
Proof.
  assert (block (packet_iv true ssrc est)) as Hb.
  { split; [done|]. apply Forall_app. split; [repeat constructor; unfold byte; lia|]. apply Forall_app. split; [repeat constructor; apply u8_range|apply be64_bytes]. }
  pose proof (first_index_range icm_key _ ex_key_ok Hb) as Hf. unfold icm_fits. change ((0 + 15) / 16) with 0. apply Z.leb_le. lia.
Qed.

Lemma ex_receiver_stream ssrc : hdr_ssrc (mem ex_receiver) = Some ssrc -> srtp_get_stream (ctx ex_receiver) ssrc = Some (Listed 0).
Proof. assert (hdr_ssrc (mem ex_receiver) = Some 67305985) as -> by (vm_compute; reflexivity). intros [= <-]. reflexivity. Qed.

Definition ex_after : world C A := match ex_unprotect ex_receiver with Some (_, w) => w | None => ex_receiver end.

Lemma srtp_unprotect_authentic_witness : (exists w', ex_unprotect ex_receiver = Some (inr tt, w')) /\
  exists r w', ex_unprotect ex_receiver = Some (r, w') /\
    match r with
    | inl _ => mem w' = mem ex_receiver /\ ctx w' = ctx ex_receiver
    | inr _ => accepted_packet (OC := srtp_aes_icm_ok) (OA := HO) ex_tmp ex_receiver w' 0 (ex_stream dir_srtp_receiver) ex_keys true icm_key hmac_key_ex 10 281474976710656 ∅
    end.
Proof.
  split; [eexists; vm_compute; reflexivity|]. destruct ex_db_rel as (Hrel & Hw & Hi).
  assert (index ex_db < 281474976645120) as Hidx by lia. assert (10 <= 12) as H10 by lia. assert (0 <= 28 < 268435452) as H28 by lia.
  assert (28 <= zlen ex_sealed) as Hz by (vm_compute; discriminate).
  exact (srtp_unprotect_authentic (OC := srtp_aes_icm_ok) (OA := HO) (fun _ => true) [] ex_tmp ex_receiver 0 (ex_stream dir_srtp_receiver) ex_keys true icm_key hmac_key_ex
    10 281474976710656 ∅ ex_receiver_ready (or_introl eq_refl) (proj1 (ex_left _)) (proj2 (ex_left dir_srtp_sender)) Hrel Hidx H10 ex_sealed_bytes eq_refl ex_tmp_bytes H28 Hz
    ex_receiver_stream ex_first_fits).
Defined.

Lemma ex_accepted : accepted_packet (OC := srtp_aes_icm_ok) (OA := HO) ex_tmp ex_receiver ex_after 0 (ex_stream dir_srtp_receiver) ex_keys true icm_key hmac_key_ex 10 281474976710656 ∅.
Proof.
  destruct ex_db_rel as (Hrel & Hw & Hi). assert (index ex_db < 281474976645120) as Hidx by lia. assert (10 <= 12) as H10 by lia. assert (0 <= 28 < 268435452) as H28 by lia.
  assert (28 <= zlen ex_sealed) as Hz by (vm_compute; discriminate).
  destruct (unprotect_arrival (OC := srtp_aes_icm_ok) (OA := HO) (fun _ => true) [] ex_tmp ex_receiver 0 (ex_stream dir_srtp_receiver) ex_keys true icm_key hmac_key_ex
    10 281474976710656 ∅ ex_receiver_ready (or_introl eq_refl) (proj1 (ex_left _)) (proj2 (ex_left dir_srtp_sender)) Hrel Hidx H10 ex_sealed_bytes eq_refl ex_tmp_bytes H28 Hz
    ex_receiver_stream ex_first_fits) as (r & w' & Hrun & Hr).
  assert (ex_unprotect ex_receiver = Some (r, w')) as Hrun' by exact Hrun.
  assert (fst <$> ex_unprotect ex_receiver = Some (inr tt)) as Hok by (vm_compute; reflexivity). rewrite Hrun' in Hok. injection Hok as ->.
  unfold ex_after. by rewrite Hrun'.
Qed.

(** Another packet with the same number. *)
Definition ex_forged : list Z := [0x80; 0; 0; 1; 9; 9; 9; 9; 1; 2; 3; 4; 66].

Lemma srtp_replay_refused_witness : ex_unprotect (deliver ex_after ex_forged 13) = Some (inl srtp_err_status_replay_fail, deliver ex_after ex_forged 13).
Proof.
  destruct ex_db_rel as (Hrel & Hw & Hi). assert (index ex_db < 281474976579584) as Hidx by lia. assert (window_size ex_db <= 32768) as Hws by lia.
  assert (Forall byte ex_forged) as Hb by decide_bytes. assert (0 <= 13 < 2147483648) as H13 by lia. assert (13 <= zlen ex_forged) as Hz by (vm_compute; discriminate).
  assert (valid_header ex_forged 13 12 None) as Hv by (split; reflexivity).
  assert (hdr_ssrc (mem ex_receiver) = Some 67305985) as Hs by (vm_compute; reflexivity).
  assert (hdr_ssrc ex_forged = hdr_ssrc (mem ex_receiver) /\ hdr_seq ex_forged = hdr_seq (mem ex_receiver)) as [Hs2 Hq2] by (split; vm_compute; reflexivity).
  exact (srtp_replay_refused (OC := srtp_aes_icm_ok) (OA := HO) (fun _ => true) [] ex_tmp ex_receiver ex_after 0 (ex_stream dir_srtp_receiver) ex_keys true icm_key hmac_key_ex
    10 281474976710656 13 67305985 12 ∅ ex_forged None ex_receiver_ready Hrel Hidx Hws ex_accepted Hs (ex_receiver_stream _ Hs) Hb H13 Hz Hv Hs2 Hq2).
Defined.

(** ** RTCP packets of the example session *)

(** ** A session *)

(** A receiver report of 1.2.3.4 with eight octets, and sixteen more of memory. *)
Definition ex_report : list Z := [0x80; 201; 0; 3; 1; 2; 3; 4; 10; 20; 30; 40; 50; 60; 70; 80] ++ replicate 16 0.
Definition ex_rtcp_world (d : direction_t) : world C A := deliver (ex_world d) ex_report 16.

Definition ex_protect_rtcp (w : world C A) := srtp_protect_rtcp (TA := HA) (fun _ => true) w.
Definition ex_unprotect_rtcp (w : world C A) := srtp_unprotect_rtcp (TA := HA) (fun _ => true) ex_tmp w.

(** The report goes through, and a second time it does not. *)
Definition ex_rtcp_run : option (list Z * Z * (srtp_err_status_t + unit)) :=
  '(_, w) ← ex_protect_rtcp (ex_rtcp_world dir_srtp_sender);
  '(_, w1) ← ex_unprotect_rtcp (deliver (ex_world dir_srtp_receiver) (mem w) (pkt_octet_len w));
  '(r, _) ← ex_unprotect_rtcp (deliver w1 (mem w) (pkt_octet_len w));
  Some (take 16 (mem w1), pkt_octet_len w1, r).

Example ex_rtcp_run_result : ex_rtcp_run = Some (take 16 ex_report, 16, inl srtp_err_status_replay_fail).
Proof. vm_compute. reflexivity. Qed.

Lemma ex_rtcp_ready d : rtcp_ready (OC := srtp_aes_icm_ok) (OA := HO) (ex_world d) 0 (ex_stream d) ex_keys true icm_key hmac_key_ex 10.
Proof.
  split.
  - reflexivity.
  - reflexivity.
  - eexists. split; [reflexivity|]. split; [exact ex_cipher_keyed|reflexivity].
  - eexists. split; reflexivity.
  - eexists. split; [reflexivity|]. split; [exact ex_auth_keyed|]. split; reflexivity.
  - split; [split|]; vm_compute; discriminate.
  - reflexivity.
Qed.

Lemma ex_rtcp_fits ssrc seq : icm_fits icm_key (rtcp_iv true ssrc seq) 0 = true.
Proof.
  destruct (rtcp_iv_block true ssrc seq) as [Hl Hb]. pose proof (first_index_range icm_key _ ex_key_ok (conj Hl Hb)) as Hf.
  unfold icm_fits. change ((0 + 15) / 16) with 0. apply Z.leb_le. lia.
Qed.

(** ** Witnesses *)

Lemma srtcp_roundtrip_witness : exists ws' wr' db, ex_protect_rtcp (ex_rtcp_world dir_srtp_sender) = Some (inr tt, ws') /\ pkt_octet_len ws' = 16 + 4 + 10 /\
    ex_unprotect_rtcp (deliver (ex_world dir_srtp_receiver) (mem ws') (pkt_octet_len ws')) = Some (inr tt, wr') /\
    pkt_octet_len wr' = 16 /\ take (Z.to_nat 16) (mem wr') = take (Z.to_nat 16) ex_report /\
    ctx ws' = set_stream (ctx (ex_rtcp_world dir_srtp_sender)) (Listed 0) ((turned (ex_stream dir_srtp_sender) dir_srtp_sender) <| rtcp_rdb := Rdb 1 v128_set_to_zero |>) /\
    ctx wr' = set_stream (ctx (ex_world dir_srtp_receiver)) (Listed 0) ((turned (ex_stream dir_srtp_receiver) dir_srtp_receiver) <| rtcp_rdb := db |>) /\ rdb_rel db ({[1]} ∪ ∅).
Proof.
  assert (Forall byte ex_report) as Hb by decide_bytes. assert (0 < 1 < 2147483648) as H1 by lia. assert (0 <= 1) as H0 by lia. assert (1 ∉ (∅ : gset Z)) as Hn by set_solver.
  assert (8 <= 16 < 268435432) as H16 by lia. assert (16 + 4 + 10 <= zlen ex_report) as Hm by (vm_compute; discriminate).
  exact (srtcp_roundtrip (OC := srtp_aes_icm_ok) (OA := HO) (fun _ => true) ex_tmp (ex_rtcp_world dir_srtp_sender) (ex_world dir_srtp_receiver) 0 0
    (ex_stream dir_srtp_sender) (ex_stream dir_srtp_receiver) ex_keys ex_keys true icm_key hmac_key_ex 10 67305985 ∅
    (rr_len _ _ _ _ _ _ _ _ _ (rr_mem _ _ _ _ _ _ _ _ _ (ex_rtcp_ready _))) (or_introl eq_refl) eq_refl (ex_rtcp_ready _) (or_introl eq_refl) eq_refl rdb_init_rel
    eq_refl Hb eq_refl ex_tmp_bytes H1 H0 Hn H16 Hm ex_rtcp_fits eq_refl).
Defined.

(** The report as it arrives. *)
Definition ex_sealed_report : list Z := match ex_protect_rtcp (ex_rtcp_world dir_srtp_sender) with Some (_, w) => mem w | None => [] end.
Definition ex_rtcp_receiver : world C A := deliver (ex_world dir_srtp_receiver) ex_sealed_report 30.

Lemma ex_rtcp_receiver_stream ssrc : rtcp_ssrc (mem ex_rtcp_receiver) = Some ssrc -> srtp_get_stream (ctx ex_rtcp_receiver) ssrc = Some (Listed 0).
Proof. assert (rtcp_ssrc (mem ex_rtcp_receiver) = Some 67305985) as -> by (vm_compute; reflexivity). intros [= <-]. reflexivity. Qed.

Lemma srtcp_unprotect_authentic_witness : (exists w', ex_unprotect_rtcp ex_rtcp_receiver = Some (inr tt, w')) /\
  exists r w', ex_unprotect_rtcp ex_rtcp_receiver = Some (r, w') /\
    match r with
    | inl _ => mem w' = mem ex_rtcp_receiver /\ ctx w' = ctx ex_rtcp_receiver /\
        forall ssrc seq, rtcp_ssrc (mem ex_rtcp_receiver) = Some ssrc -> rtcp_good (OA := HO) ex_tmp ex_rtcp_receiver (ex_stream dir_srtp_receiver) hmac_key_ex 10 ∅ seq ->
          icm_fits icm_key (rtcp_iv true ssrc seq) (30 - (12 + 10)) = false
    | inr _ => accepted_rtcp (OC := srtp_aes_icm_ok) (OA := HO) ex_tmp ex_rtcp_receiver w' 0 (ex_stream dir_srtp_receiver) ex_keys true icm_key hmac_key_ex 10 ∅
    end.
Proof.
  split; [eexists; vm_compute; reflexivity|]. assert (Forall byte ex_sealed_report) as Hb by decide_bytes. assert (0 <= 30 < 268435452) as H30 by lia.
  assert (30 <= zlen ex_sealed_report) as Hz by (vm_compute; discriminate).
  exact (srtcp_unprotect_authentic (OC := srtp_aes_icm_ok) (OA := HO) (fun _ => true) ex_tmp ex_rtcp_receiver 0 (ex_stream dir_srtp_receiver) ex_keys true icm_key hmac_key_ex 10 ∅
    (rr_len _ _ _ _ _ _ _ _ _ (rr_mem _ _ _ _ _ _ _ _ _ (ex_rtcp_ready _))) (or_introl eq_refl) rdb_init_rel ex_rtcp_receiver_stream Hb eq_refl ex_tmp_bytes H30 Hz ex_rtcp_fits).
Defined.
